(* ===== verification/_CoqProject ===== *)
-Q . S2P
Prelude.v
Bytes.v
Effects.v
JsMap.v
Json.v
Hex.v
Numbers.v
Zod.v
ComputeBond.v
BondRegistry.v
Providers.v
Attestation.v
Broker.v
BrokerSafety.v
Messages.v
Bus.v
RateLimit.v
Anchor.v
Gateway.v
GatewaySafety.v
Merkle.v
FeeProgram.v
FeeCrank.v
X402Auth.v
X402Proof.v
X402Settle.v
X402SettleSafety.v
X402Gateway.v
X402GatewaySafety.v
Vaa.v
CrossChain.v
XrplOracle.v
XrplBridge.v
XrplBridgeSafety.v
XrplListener.v
Webhooks.v
WebhooksSafety.v
WebhooksDelivery.v
EventProducer.v
ZkCatalog.v
ProofGen.v
ProofGenSafety.v
ProofGenServed.v
Submit.v
SubmitSafety.v
SendTx.v
Pda.v
PdaUnique.v
Buyback.v
Settlement.v
SettlementSafety.v
Idl.v
IdlTypes.v
IdlInstructions.v
Ix.v
IxSafety.v
IdlErrors.v
Errors.v
Decoded.v
Accounts.v
AccountsSafety.v
AgentTools.v
Handlers.v
HandlersSafety.v
Mcp.v
McpSafety.v
DisputeProgram.v
DisputeVote.v
DisputeSafety.v
PortalAuth.v
PortalSafety.v
DiscoveryApi.v
DiscoverySafety.v
Rentals.v
RentalsSafety.v
PortalProxy.v
DiscoveryHooks.v
TxHooks.v
