(* ===== verification/Prelude.v ===== *)
(** * SAEP off-chain services: a verification library

    SAEP lets software agents sell work on Solana.  This library models the
    TypeScript of its off-chain services (src/services), of the SDK
    (src/packages/sdk) and of its hooks (src/packages/sdk-ui) as executable
    functions and step relations, and proves what they guarantee and, where the
    code falls short of what it means to do, exactly what goes wrong.  Definitions
    keep the source's names; each one's source lines are in PROJECT.json.

    ** The parts and how they interact

    - The compute broker leases GPU capacity against bonds.  The SDK's bond state
      machine (research/compute-bond.ts) is ComputeBond; the broker's table and
      its JSON file (compute-broker/src/state.ts) BondRegistry; its providers
      (providers.ts) Providers; its signatures (attestation.ts) Attestation; the
      HTTP handlers and the expiry sweep (server.ts) Broker, with their theorems
      in BrokerSafety.  The handlers are proved against the [ComputeProvider]
      record, which Providers implements.
    - The message bus (iacp) relays signed envelopes between agents: Messages
      (message_types.ts, schema.ts, auth.ts), Bus (ring.ts, agents.ts,
      streams.ts), RateLimit (rate_limit.ts), Anchor (the memo workers of
      anchor.ts), Gateway and GatewaySafety (ws.ts and POST /publish).
    - The fee crank closes fee epochs and distributes them: Merkle
      (packages/sdk/src/merkle), FeeProgram (the part of the Rust program
      fee_collector that the crank drives), FeeCrank (snapshot.ts, worker.ts,
      db.ts, proof-api.ts).  FeeCrank's trees are checked by FeeProgram.
    - The x402 gateway fetches paid resources for agents: X402Auth (allowlist.ts,
      auth.ts, ratelimit.ts), X402Proof (the proof bytes and hashes of
      settlement.ts, and cctp.ts), X402Settle and X402SettleSafety (the settlement
      through the task market), X402Gateway and X402GatewaySafety
      (server.ts).  The handlers are proved against [settlement_laws], which
      X402GatewaySafety discharges for X402Settle.
    - The XRPL bridge pays on Solana for payments seen on the XRP Ledger or carried
      by Wormhole: Vaa (wormhole-vaa.ts), CrossChain (packages/sdk
      research/cross-chain.ts and the bridge's workflow.ts), XrplOracle
      (price-oracle.ts), XrplBridge and XrplBridgeSafety (settlement.ts,
      server.ts), XrplListener (xrpl-listener.ts).
    - The discovery API tells subscribers what happened on chain: Webhooks
      (webhooks.ts, webhook-store.ts), WebhooksSafety and WebhooksDelivery (their
      theorems), EventProducer (event-producer.ts); DiscoveryApi (schema.ts,
      compute-bonds.ts, the HTTP routes and the WebSocket of server.ts) and
      DiscoverySafety, which runs the routes over the hub of Webhooks.
    - The proof generator proves task results in zero knowledge: ZkCatalog (the
      circuits, packages/sdk research/zk.ts and the service's catalog.ts), ProofGen
      (its routes, queue and worker), ProofGenSafety and
      ProofGenServed (its theorems and a concrete world they apply in).  Settlement
      (packages/sdk-ui settlement.ts) prepares in the browser what ProofGen
      receives; SettlementSafety proves that the two agree.
    - The buyback bot swaps fees for SAEP and burns it: Buyback (jupiter.ts, and the
      tick and the timer of worker.ts; the fee crank's timer is the same code).
    - The SDK builds and sends transactions: Pda (pda/, cluster/) and PdaUnique,
      Idl (the program interfaces of generated/), Ix and IxSafety (the
      instruction builders of programs/), Submit and SubmitSafety (submit/ and
      jito/: Jito bundles, priority fees, staked nodes), and SendTx
      (the transaction hook of packages/sdk-ui hooks/mutation.ts).  What Ix builds
      is checked against Idl, and its addresses are Pda's.
    - The SDK reads what the programs store: IdlTypes, IdlInstructions and
      IdlErrors (the rest of generated/), Decoded (a decoded account and the
      unchecked casts on it), Accounts (accounts/), Errors (errors/).
      AccountsSafety checks the casts and the byte offsets of the queries against
      the layouts of IdlTypes, Errors the error tables against IdlErrors, IdlInstructions
      the interfaces themselves.
    - Agents act through the handlers of packages/handlers: AgentTools (schemas.ts,
      crypto.ts, guardrails.ts), Handlers (handlers/), or through the MCP bridge
      (services/mcp-bridge): Mcp (tools.ts, config.ts, server.ts).  Both sit on
      Accounts and Ix.  HandlersSafety, which starts with the part of the Rust program
      task_market that judges the bids they make, and McpSafety have the theorems and
      the world they apply in.
    - Arbitrators vote on disputes in the portal: DisputeVote (packages/sdk-ui
      hooks/disputes.ts and hooks/dispute-salt-store.ts and the disputes
      pages of apps/portal), DisputeProgram (the part of the Rust program
      dispute_arbitration they drive), DisputeSafety (their theorems).
    - Users sign in to the portal with their wallets: PortalAuth (packages/sdk
      auth/siws.ts, apps/portal lib/nonce.ts, lib/session.ts and api/auth, and the
      browser's packages/sdk-ui auth/session.ts), PortalSafety.  The sessions are
      those Messages verifies for the bus.
    - Agents' templates are rented in the portal: Rentals (packages/sdk-ui
      hooks/templates.ts and template-simulator.ts, apps/portal lib/template-*.ts,
      lib/token-accounts.ts and the templates pages, and the rental instructions of the
      Rust program template_registry over the interface [TokenLedger]), RentalsSafety.
    - The portal's server stands between the browser and the services: PortalProxy
      (apps/portal lib/public-service-routes.ts, lib/service-proxy.ts and the routes
      under api/ that pass requests on).  Its bearer is PortalAuth's, which ProofGen
      checks.
    - The portal's pages read the indexer: DiscoveryHooks (packages/sdk-ui
      hooks/tasks.ts, agents.ts, bids.ts, reputation.ts and treasury.ts, packages/sdk
      research/yield.ts, and the routes, checks and rows of the Rust indexer,
      services/indexer).  The requests go through PortalProxy.
    - The portal's hooks ask the wallet for transactions: TxHooks (packages/sdk-ui
      hooks/bids.ts, treasury.ts, tasks.ts, register.ts and the claim of
      governance.ts).  The instructions are Ix's, checked against Idl.

    Shared by all of them are this file (exceptions, JavaScript idioms, sorting,
    tactics and the hint database [saep]), Bytes (big-endian numbers, the checked
    reads of DataView), Effects (asynchronous code over an outside world, [io], and
    the step-counting database [steps]), JsMap (the insertion-ordered [Map]),
    Json (the output of [JSON.stringify] and that it determines the fields), Zod
    (parsed JSON and the schema constructors), Hex (hexadecimal text) and Numbers
    (reading numbers from text).

    ** How code is modelled

    A function that throws is a function into [result]; an [async] function over
    services is an [io]; an HTTP handler is a function from the server's state to a
    reply and the next state.  Where requests interleave, a handler is split at
    its awaits and a step relation or a list of inputs runs the pieces in any
    order (Broker [istep], Gateway [step], Anchor [pool_step], XrplListener
    [step], WebhooksSafety [hub_run], EventProducer [orderly], DiscoverySafety
    [ws_run], PortalSafety [history], RentalsSafety [rental_step]).

    ** What the theorems show

    - Refinement: a bond follows an abstract machine ([transition_refines]); bond
      actions serialised per lease show the events of an atomic table, in which the
      provider's answer decides the transition and the reply
      ([exclusive_actions_linearizable]);
      served fee claims are accepted by the program ([served_claim_verifies]);
      every instruction builder hands to Anchor what the program's interface asks
      for ([builders_conform]); every query returns the accounts whose field has the
      value asked for ([queries_exact], [casts_sound]); the webhook routes are the
      hub's operations ([webhook_routes]); a discovery hook's request reaches the
      handler of the indexer it is meant for ([hooks_reach_indexer]).
    - Equivalence: the browser checks a witness as the proof generator's schema
      does ([witness_checks_agree]).
    - Safety over all interleavings: who can read and write on the bus
      ([inbox_private], [bus_entries_signed]); who is signed in
      ([session_needs_signature]); what money moves, on whose
      authority and how often ([proxy_spends_only_with_authority],
      [settle_escrows_once], [sequential_settlements_pay_once],
      [accepted_claim_is_due], [tick_moves_once]); what is signed without asking
      ([bridge_rate], [hook_asks_once]), has been simulated ([wallet_asked_after_simulation]) or can
      be revealed later ([bid_reveals]); two things never share a derived
      address unless the hash collides ([pda_unique]); what a rental's escrow holds
      ([rentals_covered]) and that a closed one stays closed ([closed_for_good]).
    - Accounting and liveness: nothing that was accepted is lost
      ([pool_accounts_for_every_envelope], [cursor_covers]) and work that is due gets done ([pool_drains],
      [managed_payment_released], [producer_drains], [sign_in_works], [rent_form_opens],
      [rental_closes], [proofgen_knows_wallet]).
    - Restarts: what a service stores is what it starts from again
      ([registry_survives_restart]).
    - Round trips, binding and bounds: the parsers and encoders of bytes, VAAs,
      canonical texts and trees, the rate limits, prices and fee shares.
    - Errors: theorems that exhibit what the code allows and should not, each
      with a concrete run ([portal_never_decides], [chain_votes_unsent],
      [lost_record_pays_again], [negative_amount_escrowed],
      [overpriced_bid_unrevealable], [failed_lock_undoes_release],
      [advertised_types_refused], [ws_tokens_renew], [searches_fail],
      [late_rows_never_pushed], [claims_drain_the_renter], [rpc_limit_evaded],
      [unknown_status_refused], [filters_ignored], [bonds_assume_token_2022]).

    Fuel occurs where a JavaScript loop has no structural bound.  Merkle's [grow]
    runs with the number of leaves, which [grow_last] shows to be enough; Json's
    [unescape] with the length of the text; the polling loops of X402Proof and
    X402Settle are given by their number of rounds, and theorems say how many are
    enough.  The retry loops of Submit run the configured number of attempts, as
    they do in the code.

    ** What is assumed and left out

    Third-party code is a parameter with the documented laws it is used under:
    ed25519, SHA-256, Poseidon, HMAC, base58, JOSE, the URL parser and [isIP],
    Redis, BullMQ, snarkjs, Postgres, RPC nodes, Anchor, web3.js, Jito, Jupiter,
    Pyth, xrpl.js, TanStack's query cache and the text of numbers and dates.  Hashes are never assumed injective: theorems give a collision instead.
    A write of the XRPL bridge to Redis, or a vote of the disputes pages, that is
    rejected may have been carried out or not.  A string is its sequence of bytes, so lengths are those of ASCII text; prices,
    token counts and the numbers a client sends are exact rationals, not doubles;
    clocks are integral milliseconds.  Metrics, log lines, configuration, process
    start-up, user interfaces, the documentation strings of the generated
    interfaces, the indexer's SQL, and the programs other than fee_collector, the bids of
    task_market, the cases of dispute_arbitration and the rentals of
    template_registry are not modelled; PROJECT.json lists them with the reason. *)

From Stdlib Require Import ZArith QArith Qround Qminmax Lqa Ascii Sorted Permutation.
From stdpp Require Import base list strings.

(** ** Exceptions

    A TypeScript function that may [throw] is a function into [result]; the
    thrown value is always an [Error] in the modelled code and only its
    [message] is ever observed ([asMessage] of the compute broker). *)
Inductive result (A : Type) : Type :=
| Ok (a : A)
| Throw (message : string).
Arguments Ok {A} _.
Arguments Throw {A} _.

Definition result_bind {A B : Type} (r : result A) (k : A -> result B) : result B :=
  match r with
  | Ok a => k a
  | Throw e => Throw e
  end.

Definition is_ok {A : Type} (r : result A) : bool :=
  match r with
  | Ok _ => true
  | Throw _ => false
  end.

(** [if (!b) throw new Error(message)] *)
Definition check (b : bool) (message : string) : result unit := if b then Ok tt else Throw message.

Declare Scope saep_scope.
Delimit Scope saep_scope with saep.
Notation "'let!' x ':=' e 'in' k" := (result_bind e (fun x => k))
  (at level 10, x binder, e at level 100, k at level 200) : saep_scope.

(** ** Numbers

    A JavaScript [number] that the code itself tests with [Number.isInteger],
    divides, or refills continuously is a rational; one whose schema already
    forces an integer is a [Z].  Rounding of doubles is not modelled. *)
Definition is_integer (q : Q) : bool := (Qnum q mod Zpos (Qden q) =? 0)%Z.

Definition q_leb (a b : Q) : bool := Qle_bool a b.
Definition q_ltb (a b : Q) : bool := negb (Qle_bool b a).

(** ** Small JavaScript idioms *)

(** [if (b) errors.push(e)] *)
Definition push_if {A : Type} (b : bool) (e : A) : list A :=
  if b then [e] else [].

(** Truthiness of a nullable string: [null], [undefined] and [''] are falsy. *)
Definition truthy (o : option string) : bool :=
  match o with
  | Some s => negb (String.eqb s "")
  | None => false
  end.

(** [s.split(c)] for a one-character separator. *)
Fixpoint split_on (c : ascii) (s : string) : list string :=
  match s with
  | EmptyString => [EmptyString]
  | String x s' =>
    if bool_decide (x = c) then EmptyString :: split_on c s'
    else match split_on c s' with
         | [] => [String x EmptyString]
         | w :: ws => String x w :: ws
         end
  end.

(** Character classes and lengths, as regular expressions and zod state them. *)
Definition char_in (lo hi : nat) (c : ascii) : bool := ((lo <=? nat_of_ascii c) && (nat_of_ascii c <=? hi))%nat.

Fixpoint all_chars (p : ascii -> bool) (s : string) : bool :=
  match s with
  | EmptyString => true
  | String c s' => p c && all_chars p s'
  end.

Definition len_between (lo hi : nat) (s : string) : bool := ((lo <=? String.length s) && (String.length s <=? hi))%nat.

(** ASCII white space, the part of [trim]'s definition ASCII text can meet. *)
Definition is_js_space (c : ascii) : bool :=
  let n := nat_of_ascii c in ((9 <=? n) && (n <=? 13) || (n =? 32))%nat.

Fixpoint skip_space (s : string) : string :=
  match s with
  | String c s' => if is_js_space c then skip_space s' else s
  | EmptyString => s
  end.

(** [s.trim()] *)
Definition trim (s : string) : string := String.rev (skip_space (String.rev (skip_space s))).

(** [xs.slice(0, n)]: a negative [n] counts from the end. *)
Definition slice_to {A : Type} (n : Z) (l : list A) : list A :=
  take (Z.to_nat (if (n <? 0)%Z then Z.of_nat (length l) + n else n)) l.

(** [Array.prototype.sort] is stable; the comparator's sign is a [comparison]. *)
Section js_sort.
Context {A : Type} (cmp : A -> A -> comparison).

Definition cmp_le (x y : A) : bool :=
  match cmp x y with
  | Gt => false
  | _ => true
  end.

Fixpoint sort_insert (x : A) (l : list A) : list A :=
  match l with
  | [] => [x]
  | y :: ys => if cmp_le x y then x :: l else y :: sort_insert x ys
  end.

Fixpoint js_sort (l : list A) : list A :=
  match l with
  | [] => []
  | x :: xs => sort_insert x (js_sort xs)
  end.

Lemma sort_insert_perm x l : Permutation (sort_insert x l) (x :: l).
Proof.
  induction l as [|y ys IH]; simpl; [done|].
  destruct (cmp_le x y); [done|]. rewrite IH. apply Permutation_swap.
Qed.

Lemma js_sort_perm l : Permutation (js_sort l) l.
Proof.
  induction l as [|x xs IH]; simpl; [done|].
  by rewrite sort_insert_perm, IH.
Qed.

Lemma js_sort_length l : length (js_sort l) = length l.
Proof. apply Permutation_length, js_sort_perm. Qed.

Section sorted.
Variable R : A -> A -> Prop.
Hypothesis cmp_le_true : forall x y, cmp_le x y = true -> R x y.
Hypothesis cmp_le_false : forall x y, cmp_le x y = false -> R y x.
Hypothesis R_trans : forall x y z, R x y -> R y z -> R x z.

Lemma sort_insert_sorted x l : StronglySorted R l -> StronglySorted R (sort_insert x l).
Proof.
  induction 1 as [|y ys Hs IH Hy]; simpl; [repeat constructor|].
  destruct (cmp_le x y) eqn:E.
  - constructor; [by constructor|]. constructor; [auto|].
    eapply Forall_impl; [exact Hy|]. eauto.
  - constructor; [done|]. rewrite sort_insert_perm. constructor; eauto.
Qed.

Lemma js_sort_sorted l : StronglySorted R (js_sort l).
Proof. induction l; simpl; [constructor | by apply sort_insert_sorted]. Qed.
End sorted.

Lemma js_sort_id l : StronglySorted (fun x y => cmp_le x y = true) l -> js_sort l = l.
Proof.
  induction 1 as [|x l Hs IH Hx]; simpl; [done|]. rewrite IH.
  destruct Hx as [|y l Hy _]; simpl; [done|]. by rewrite Hy.
Qed.
End js_sort.

(** ** Lemmas on the shared vocabulary *)

Lemma ok_inj {A} (a b : A) : Ok a = Ok b -> a = b.
Proof. by intros [= H]. Qed.

Lemma result_bind_ok {A B} (e : result A) (k : A -> result B) b : result_bind e k = Ok b -> exists a, e = Ok a /\ k a = Ok b.
Proof. destruct e as [a|]; [|done]. intros H. by exists a. Qed.

Lemma q_leb_le a b : q_leb a b = true <-> (a <= b)%Q.
Proof. apply Qle_bool_iff. Qed.

Lemma q_ltb_lt a b : q_ltb a b = true <-> (a < b)%Q.
Proof.
  unfold q_ltb. rewrite negb_true_iff, <- not_true_iff_false, Qle_bool_iff.
  split; [apply Qnot_le_lt | apply Qlt_not_le].
Qed.

Lemma q_leb_gt a b : q_leb a b = false <-> (b < a)%Q.
Proof. rewrite <- q_ltb_lt. unfold q_ltb, q_leb. by destruct (Qle_bool a b). Qed.

Lemma q_ltb_ge a b : q_ltb a b = false <-> (b <= a)%Q.
Proof. rewrite <- q_leb_le. unfold q_ltb, q_leb. by destruct (Qle_bool b a). Qed.

Lemma q_leb_spec a b : BoolSpec (a <= b)%Q (b < a)%Q (q_leb a b).
Proof. destruct (q_leb a b) eqn:E; constructor; [by apply q_leb_le | by apply q_leb_gt]. Qed.

Lemma q_ltb_spec a b : BoolSpec (a < b)%Q (b <= a)%Q (q_ltb a b).
Proof. destruct (q_ltb a b) eqn:E; constructor; [by apply q_ltb_lt | by apply q_ltb_ge]. Qed.

Lemma is_integer_inject z : is_integer (inject_Z z) = true.
Proof. unfold is_integer; simpl. by rewrite Z.mod_1_r. Qed.

Lemma is_integer_spec q : is_integer q = true <-> exists z, (q == inject_Z z)%Q.
Proof.
  unfold is_integer. rewrite Z.eqb_eq. split.
  - intros H. exists (Qnum q / Zpos (Qden q))%Z.
    unfold Qeq; simpl. rewrite Z.mul_1_r, Z.mul_comm.
    by apply Z.div_exact.
  - intros [z Hz]. unfold Qeq in Hz; simpl in Hz.
    rewrite Z.mul_1_r in Hz. rewrite Hz. by apply Z.mod_mul.
Qed.

Lemma push_if_nil {A} b (e : A) : push_if b e = [] <-> b = false.
Proof. by destruct b. Qed.

Lemma app_nil_iff {A} (l k : list A) : l ++ k = [] <-> l = [] /\ k = [].
Proof. split; [apply app_eq_nil | by intros [-> ->]]. Qed.

Lemma slice_to_length {A} n (l : list A) : (0 <= n)%Z -> (Z.of_nat (length (slice_to n l)) <= n)%Z.
Proof.
  intros Hn. unfold slice_to. destruct (Z.ltb_spec n 0); [lia|].
  rewrite length_take. lia.
Qed.

Lemma slice_to_In {A} n (l : list A) x : x ∈ slice_to n l -> x ∈ l.
Proof. unfold slice_to. intros H%elem_of_take. destruct H as (i & Hi & _).
  by eapply list_elem_of_lookup_2.
Qed.

Lemma slice_to_sorted {A} (R : A -> A -> Prop) n l : StronglySorted R l -> StronglySorted R (slice_to n l).
Proof.
  unfold slice_to. generalize (Z.to_nat (if (n <? 0)%Z then Z.of_nat (length l) + n else n)).
  intros k Hs. revert k. induction Hs as [|x l Hs IH Hx]; intros [|k]; simpl; constructor; auto.
  by apply Forall_take.
Qed.

Lemma slice_to_all {A} n (l : list A) : (Z.of_nat (length l) <= n)%Z -> slice_to n l = l.
Proof. intros H. unfold slice_to. destruct (Z.ltb_spec n 0); [lia|]. apply take_ge. lia. Qed.

(** ** Automation *)

Create HintDb saep.
Create Rewrite HintDb saep.
#[export] Hint Rewrite @app_nil_iff @push_if_nil q_leb_le q_ltb_lt q_leb_gt q_ltb_ge
  andb_true_iff orb_true_iff orb_false_iff negb_true_iff negb_false_iff : saep.
#[export] Hint Rewrite @bool_decide_eq_true @bool_decide_eq_false : saep.
#[export] Hint Resolve is_integer_inject : saep.

(** Turn the boolean tests of the code, in every hypothesis and in the goal,
    into the propositions they decide. *)
Ltac to_prop := autorewrite with saep in *.

(** Open every existential hypothesis. *)
Ltac destruct_exists := repeat match goal with H : ex _ |- _ => destruct H | H : _ /\ _ |- _ => destruct H end.

(** Case analysis on every decided test of the hypotheses and of the goal. *)
Ltac guards :=
  repeat match goal with
  | H : context [bool_decide ?P] |- _ => destruct (bool_decide_reflect P); simpl in H
  | H : context [q_leb ?a ?b] |- _ => destruct (q_leb_spec a b); simpl in H
  | H : context [q_ltb ?a ?b] |- _ => destruct (q_ltb_spec a b); simpl in H
  | |- context [bool_decide ?P] => destruct (bool_decide_reflect P); simpl
  | |- context [q_leb ?a ?b] => destruct (q_leb_spec a b); simpl
  | |- context [q_ltb ?a ?b] => destruct (q_ltb_spec a b); simpl
  | H : ~ (_ <> _) |- _ => apply dec_stable in H
  end; try done.

Lemma count_occ_cons_split {A} (dec : EqDecision A) (y : A) l x :
  count_occ dec (y :: l) x = (count_occ dec [y] x + count_occ dec l x)%nat.
Proof. apply (count_occ_app dec [y] l). Qed.

(** Permutations of concrete appends and conses, by counting occurrences. *)
Ltac perm_count dec :=
  let x := fresh "x" in
  apply (Permutation_count_occ dec); intros x;
  repeat match goal with
  | H : Permutation _ _ |- _ =>
    let H' := fresh "Hcount" in pose proof (proj1 (Permutation_count_occ dec _ _) H x) as H'; clear H
  end;
  repeat match goal with
  | H : context [count_occ dec (_ ++ _) x] |- _ => rewrite count_occ_app in H
  | H : context [count_occ dec (?y :: ?l) x] |- _ =>
    lazymatch l with [] => fail | _ => rewrite (count_occ_cons_split dec y l) in H end
  | |- context [count_occ dec (_ ++ _) x] => rewrite count_occ_app
  | |- context [count_occ dec (?y :: ?l) x] =>
    lazymatch l with [] => fail | _ => rewrite (count_occ_cons_split dec y l) end
  end;
  lia.

(** Case analysis on the scrutinee of every [match] or [if] of the goal. *)
Ltac split_matches := repeat (case_match; simplify_eq/=; try done).
