(* ===== verification/Bytes.v ===== *)
(** * Bytes: big-endian byte strings

    The loops that write a number as bytes and read it back (fieldElementToBytes
    and bytesToDecimalString of services/x402-gateway/src/settlement.ts), which
    are also what the big-endian accessors of DataView and Buffer do, and the
    lemmas on them the components share. *)

From Stdlib Require Import ZArith Lia.
From stdpp Require Import base list strings.
From S2P Require Import Prelude.

Open Scope Z_scope.

(** [for (i = 31; i >= 0; i -= 1) { buf[i] = n & 0xff; n >>= 8 }], [left] rounds
    to go and the bytes written so far. *)
Fixpoint fill_bytes (left : nat) (n : Z) (written : list Z) : list Z :=
  match left with
  | O => written
  | S left' => fill_bytes left' (Z.shiftr n 8) (Z.land n 255 :: written)
  end.

(** [acc = (acc << 8n) | BigInt(byte)] *)
Definition accumulate (l : list Z) : Z := fold_left (fun acc byte => Z.lor (Z.shiftl acc 8) byte) l 0.

Definition is_byte (b : Z) : Prop := 0 <= b < 256.

Lemma land_255 n : Z.land n 255 = n mod 256.
Proof. change 255 with (Z.ones 8). rewrite Z.land_ones by lia. done. Qed.

Lemma shiftr_8 n : Z.shiftr n 8 = n / 256.
Proof. rewrite Z.shiftr_div_pow2 by lia. done. Qed.

Lemma lor_shift acc b : is_byte b -> Z.lor (Z.shiftl acc 8) b = 256 * acc + b.
Proof.
  unfold is_byte. intros Hb. rewrite Z.shiftl_mul_pow2 by lia.
  assert (Z.land (acc * 2 ^ 8) b = 0); [|pose proof (Z.add_lor_land (acc * 2 ^ 8) b); lia].
  apply Z.bits_inj'. intros i Hi. rewrite Z.land_spec, Z.bits_0.
  destruct (Z.lt_ge_cases i 8).
  - rewrite Z.mul_pow2_bits_low by lia. done.
  - destruct (Z.eq_dec b 0) as [->|Hnz]; [by rewrite Z.bits_0, andb_false_r|].
    rewrite (Z.bits_above_log2 b), andb_false_r; [done|lia|].
    assert (Z.log2 b < 8) by (apply Z.log2_lt_pow2; lia). lia.
Qed.

Definition be_value (acc : Z) (l : list Z) : Z := fold_left (fun a b => 256 * a + b) l acc.

Lemma accumulate_value l : Forall is_byte l -> accumulate l = be_value 0 l.
Proof.
  unfold accumulate, be_value. generalize 0. induction l as [|b l IH]; intros acc; [done|].
  intros [Hb Hl]%Forall_cons. simpl. rewrite lor_shift by done. auto.
Qed.

Lemma fill_bytes_spec left n written :
  length (fill_bytes left n written) = (left + length written)%nat /\
  (Forall is_byte written -> Forall is_byte (fill_bytes left n written)).
Proof.
  revert n written. induction left as [|left IH]; intros n written; simpl; [done|].
  destruct (IH (Z.shiftr n 8) (Z.land n 255 :: written)) as [Hl Hb]. split.
  - rewrite Hl. simpl. lia.
  - intros Hw. apply Hb. constructor; [|done]. rewrite land_255. apply Z.mod_pos_bound. lia.
Qed.

Lemma fill_bytes_value left n written acc :
  be_value acc (fill_bytes left n written) =
  be_value (acc * 256 ^ Z.of_nat left + n mod 256 ^ Z.of_nat left) written.
Proof.
  revert n written acc. induction left as [|left IH]; intros n written acc.
  - simpl. rewrite Z.mod_1_r. f_equal. lia.
  - cbn [fill_bytes]. rewrite IH. cbn [be_value fold_left]. unfold be_value. f_equal.
    rewrite land_255, shiftr_8, Nat2Z.inj_succ, Z.pow_succ_r by lia.
    rewrite Z.rem_mul_r by lia. lia.
Qed.

Lemma be_value_nonneg acc l : 0 <= acc -> Forall is_byte l -> 0 <= be_value acc l.
Proof.
  revert acc. induction l as [|b l IH]; intros acc Ha; [done|]. intros [Hb Hl]%Forall_cons.
  unfold is_byte in Hb. apply IH; [lia|done].
Qed.

Lemma be_value_bound acc l : Forall is_byte l -> be_value acc l < (acc + 1) * 256 ^ Z.of_nat (length l).
Proof.
  revert acc. induction l as [|b l IH]; intros acc; [cbn; lia|]. intros [Hb Hl]%Forall_cons.
  specialize (IH (256 * acc + b) Hl). cbn [length].
  change (be_value acc (b :: l)) with (be_value (256 * acc + b) l).
  rewrite Nat2Z.inj_succ, Z.pow_succ_r by lia. unfold is_byte in Hb.
  eapply Z.lt_le_trans; [exact IH|]. rewrite Z.mul_assoc. apply Z.mul_le_mono_nonneg_r; [|lia].
  apply Z.pow_nonneg. lia.
Qed.

(** Equal-length byte strings with one value are equal. *)
Lemma be_value_inj l k a b :
  length l = length k -> Forall is_byte l -> Forall is_byte k -> be_value a l = be_value b k -> a = b /\ l = k.
Proof.
  revert a b k. induction l as [|x l IH]; intros a b [|y k]; try done.
  intros [= Hlen] [Hx Hl]%Forall_cons [Hy Hk]%Forall_cons Hv.
  change (be_value (256 * a + x) l = be_value (256 * b + y) k) in Hv.
  destruct (IH _ _ _ Hlen Hl Hk Hv) as [E ->]. unfold is_byte in *. split; [lia|]. f_equal. lia.
Qed.

(** ** [k] big-endian bytes and numbers below 256^k are the same thing *)

Lemma fill_bytes_length k n : length (fill_bytes k n []) = k.
Proof. destruct (fill_bytes_spec k n []) as [-> _]. simpl. lia. Qed.

Lemma fill_bytes_byte k n : Forall is_byte (fill_bytes k n []).
Proof. apply fill_bytes_spec. constructor. Qed.

Lemma accumulate_fill_bytes k n : 0 <= n < 256 ^ Z.of_nat k -> accumulate (fill_bytes k n []) = n.
Proof.
  intros Hn. rewrite accumulate_value, fill_bytes_value by apply fill_bytes_byte.
  cbn. rewrite Z.mod_small; lia.
Qed.

Lemma accumulate_mod k n : accumulate (fill_bytes k n []) = n mod 256 ^ Z.of_nat k.
Proof. rewrite accumulate_value, fill_bytes_value by apply fill_bytes_byte. cbn. lia. Qed.

Lemma accumulate_bound l : Forall is_byte l -> 0 <= accumulate l < 256 ^ Z.of_nat (length l).
Proof.
  intros Hl. rewrite accumulate_value by done. split; [by apply be_value_nonneg|].
  pose proof (be_value_bound 0 l Hl). lia.
Qed.

Lemma fill_accumulate l k : Forall is_byte l -> length l = k -> fill_bytes k (accumulate l) [] = l.
Proof.
  intros Hl Hk. apply (be_value_inj _ _ 0 0); [by rewrite fill_bytes_length|apply fill_bytes_byte|done|].
  rewrite fill_bytes_value. cbn. rewrite <- accumulate_value by done.
  pose proof (accumulate_bound l Hl). rewrite Z.mod_small; [done|]. by subst k.
Qed.

Lemma fill_bytes_inj k m n : 0 <= m < 256 ^ Z.of_nat k -> 0 <= n < 256 ^ Z.of_nat k ->
  fill_bytes k m [] = fill_bytes k n [] -> m = n.
Proof. intros Hm Hn E%(f_equal accumulate). by rewrite !accumulate_fill_bytes in E. Qed.

(** The low bytes of a number written with more bytes than are read back. *)
Lemma fill_bytes_app j k n written :
  fill_bytes (j + k) n written = fill_bytes j (n / 256 ^ Z.of_nat k) (fill_bytes k n written).
Proof.
  revert j n written. induction k as [|k IH]; intros j n written.
  - rewrite Nat.add_0_r. cbn. by rewrite Z.div_1_r.
  - rewrite Nat.add_succ_r. cbn [fill_bytes]. rewrite IH, shiftr_8, Z.div_div by (try apply Z.pow_pos_nonneg; lia).
    by rewrite <- Z.pow_succ_r, <- Nat2Z.inj_succ by lia.
Qed.

Lemma fill_bytes_written k n written : fill_bytes k n written = fill_bytes k n [] ++ written.
Proof.
  revert n written. induction k as [|k IH]; intros n written; [done|]. cbn [fill_bytes].
  rewrite IH, (IH _ [_]), <- app_assoc. done.
Qed.

Lemma fill_bytes_split j k n :
  fill_bytes (j + k) n [] = fill_bytes j (n / 256 ^ Z.of_nat k) [] ++ fill_bytes k n [].
Proof. by rewrite fill_bytes_app, fill_bytes_written. Qed.

Lemma bytes_check l : forallb (fun b => (0 <=? b) && (b <? 256)) l = true -> Forall is_byte l.
Proof. rewrite forallb_forall, Forall_forall. intros H b Hb. apply list_elem_of_In, H in Hb. unfold is_byte. lia. Qed.

Lemma be_value_shift acc l : be_value acc l = acc * 256 ^ Z.of_nat (length l) + be_value 0 l.
Proof.
  revert acc. induction l as [|b l IH]; intros acc; [cbn; lia|].
  change (be_value acc (b :: l)) with (be_value (256 * acc + b) l). change (be_value 0 (b :: l)) with (be_value b l).
  rewrite IH, (IH b). cbn [length]. rewrite Nat2Z.inj_succ, Z.pow_succ_r by lia. lia.
Qed.

Lemma accumulate_app a b : Forall is_byte a -> Forall is_byte b ->
  accumulate (a ++ b) = accumulate a * 256 ^ Z.of_nat (length b) + accumulate b.
Proof.
  intros Ha Hb. rewrite !accumulate_value by (done || by apply Forall_app). unfold be_value at 1.
  rewrite fold_left_app. apply be_value_shift.
Qed.

(** Two different inputs of [f] with one output. *)
Definition collides {A B} (f : A -> B) : Prop := exists x y, x <> y /\ f x = f y.

(** ** DataView: reads that throw outside the buffer *)

(** [view.getUint8 / getUint16 / getUint32 / getBigUint64 (offset)], big-endian. *)
Definition get_uint (k : nat) (b : list Z) (offset : nat) : result Z :=
  if (offset + k <=? length b)%nat then Ok (accumulate (take k (drop offset b)))
  else Throw "Offset is outside the bounds of the DataView".

(** [bytes.slice(from, to)] cuts at the end instead of throwing. *)
Definition byte_slice (b : list Z) (from to : nat) : list Z := take (to - from) (drop from b).

Lemma get_uint_read k b offset v rest : (0 < k)%nat -> 0 <= v < 256 ^ Z.of_nat k ->
  drop offset b = fill_bytes k v [] ++ rest -> get_uint k b offset = Ok v /\ drop (offset + k) b = rest.
Proof.
  intros Hk Hv Hd. pose proof (f_equal length Hd) as Hl. rewrite length_drop, length_app, fill_bytes_length in Hl.
  unfold get_uint. rewrite <- (drop_drop b k offset), Hd. rewrite (proj2 (Nat.leb_le _ _)) by lia.
  rewrite take_app_length', drop_app_length' by (by rewrite fill_bytes_length). by rewrite accumulate_fill_bytes.
Qed.

Lemma get_uint_inv k b offset v : Forall is_byte b -> get_uint k b offset = Ok v ->
  0 <= v < 256 ^ Z.of_nat k /\ drop offset b = fill_bytes k v [] ++ drop (offset + k) b.
Proof.
  unfold get_uint. intros Hb. destruct (Nat.leb_spec (offset + k) (length b)) as [Hl|]; [|done]. intros <-%ok_inj.
  assert (length (take k (drop offset b)) = k) as E by (rewrite length_take, length_drop; lia).
  pose proof (accumulate_bound (take k (drop offset b)) ltac:(by apply Forall_take, Forall_drop)) as Hbound.
  rewrite E in Hbound. split; [done|]. rewrite fill_accumulate by (done || by apply Forall_take, Forall_drop).
  by rewrite <- (drop_drop b k offset), take_drop.
Qed.

Lemma get_uint_bound k b offset v : get_uint k b offset = Ok v -> (offset + k <= length b)%nat.
Proof. unfold get_uint. by destruct (Nat.leb_spec (offset + k) (length b)). Qed.

Lemma byte_slice_read b offset n l rest : length l = n ->
  drop offset b = l ++ rest -> byte_slice b offset (offset + n) = l /\ drop (offset + n) b = rest.
Proof.
  intros Hn Hd. unfold byte_slice. replace (offset + n - offset)%nat with n by lia.
  rewrite <- (drop_drop b n offset), Hd. by rewrite take_app_length', drop_app_length'.
Qed.

Lemma byte_slice_inv b offset n : (offset + n <= length b)%nat ->
  length (byte_slice b offset (offset + n)) = n /\
  drop offset b = byte_slice b offset (offset + n) ++ drop (offset + n) b.
Proof.
  intros Hl. unfold byte_slice. replace (offset + n - offset)%nat with n by lia. split.
  - rewrite length_take, length_drop. lia.
  - by rewrite <- (drop_drop b n offset), take_drop.
Qed.
