(* ===== verification/Effects.v ===== *)
(** * Effects: asynchronous code over an outside world

    A TypeScript [async] function that talks to services is a function from the
    outside world [W] to a value or an exception and the next world; an [await] of
    a service is a call of one of the world's operations.  [None] means that the
    fuel given to an unbounded loop has run out: the call is still running. *)

From stdpp Require Import base list strings.
From S2P Require Import Prelude.

Definition io (W A : Type) : Type := W -> option (result A * W).

Section io.
Context {W : Type}.

Definition io_ret {A} (a : A) : io W A := fun w => Some (Ok a, w).
Definition io_throw {A} (e : string) : io W A := fun w => Some (Throw e, w).

Definition io_bind {A B} (m : io W A) (k : A -> io W B) : io W B := fun w =>
  match m w with
  | None => None
  | Some (Throw e, w') => Some (Throw e, w')
  | Some (Ok a, w') => k a w'
  end.

(** [try { m } catch (e) { h(e) }] *)
Definition io_catch {A} (m : io W A) (h : string -> io W A) : io W A := fun w =>
  match m w with
  | Some (Throw e, w') => h e w'
  | r => r
  end.

(** The outcome of [m] as a value: what an event handler or a queue sees of it. *)
Definition io_try {A} (m : io W A) : io W (result A) := fun w =>
  match m w with
  | Some (r, w') => Some (Ok r, w')
  | None => None
  end.

(** [if (!b) throw new Error(e)] *)
Definition io_check (b : bool) (e : string) : io W unit := if b then io_ret tt else io_throw e.

(** A synchronous computation that may throw. *)
Definition io_lift {A} (r : result A) : io W A := fun w => Some (r, w).

(** [m] returns or throws from every world. *)
Definition io_total {A} (m : io W A) : Prop := forall w, is_Some (m w).

(** Whatever [m] does keeps [I]. *)
Definition io_keeps {A} (I : W -> Prop) (m : io W A) : Prop := forall w r w', I w -> m w = Some (r, w') -> I w'.
End io.

Notation "'do!' x '<-' e 'in' k" := (io_bind e (fun x => k))
  (at level 10, x binder, e at level 100, k at level 200) : saep_scope.

Lemma io_bind_ok {W A B} (m : io W A) (k : A -> io W B) w b w' :
  io_bind m k w = Some (Ok b, w') -> exists a w1, m w = Some (Ok a, w1) /\ k a w1 = Some (Ok b, w').
Proof. unfold io_bind. destruct (m w) as [[[a|e] w1]|]; try done. eauto. Qed.

Lemma bind_ok_run {W A B} (m : io W A) (k : A -> io W B) w a w' : m w = Some (Ok a, w') -> io_bind m k w = k a w'.
Proof. intros H. unfold io_bind. by rewrite H. Qed.

Lemma io_bind_throw {W A B} (m : io W A) (k : A -> io W B) w e w' :
  io_bind m k w = Some (Throw e, w') ->
  m w = Some (Throw e, w') \/ exists a w1, m w = Some (Ok a, w1) /\ k a w1 = Some (Throw e, w').
Proof. unfold io_bind. destruct (m w) as [[[a|e'] w1]|]; try done; [eauto|]. intros [= -> ->]. by left. Qed.

Lemma io_check_ok {W} b e (w w' : W) u : io_check b e w = Some (Ok u, w') -> b = true /\ w' = w.
Proof. destruct b; [|done]. intros H. by injection H as _ ->. Qed.

Lemma io_lift_ok {W A} (r : result A) (w w' : W) a : io_lift r w = Some (Ok a, w') -> r = Ok a /\ w' = w.
Proof. by intros [= -> ->]. Qed.

Lemma io_total_bind {W A B} (m : io W A) (k : A -> io W B) : io_total m -> (forall a, io_total (k a)) -> io_total (io_bind m k).
Proof. intros Hm Hk w. unfold io_bind. destruct (Hm w) as [[[a|e] w1] ->]; [apply Hk|by eexists]. Qed.

Lemma io_total_ret {W A} (a : A) : io_total (W := W) (io_ret a).
Proof. by eexists. Qed.

Lemma io_total_throw {W A} e : io_total (W := W) (@io_throw W A e).
Proof. by eexists. Qed.

Lemma io_total_check {W} b e : io_total (W := W) (io_check b e).
Proof. destruct b; by eexists. Qed.

Lemma io_total_lift {W A} (r : result A) : io_total (W := W) (io_lift r).
Proof. by eexists. Qed.

Lemma io_keeps_bind {W A B} (I : W -> Prop) (m : io W A) (k : A -> io W B) :
  io_keeps I m -> (forall a, io_keeps I (k a)) -> io_keeps I (io_bind m k).
Proof.
  intros Hm Hk w r w' Hw. unfold io_bind. destruct (m w) as [[[a|e] w1]|] eqn:E; [..|done].
  - apply Hk. eauto.
  - intros [= <- <-]. eauto.
Qed.

Lemma io_keeps_ret {W A} (I : W -> Prop) (a : A) : io_keeps I (io_ret a).
Proof. by intros w r w' Hw [= <- <-]. Qed.

Lemma io_keeps_throw {W A} (I : W -> Prop) e : io_keeps I (@io_throw W A e).
Proof. by intros w r w' Hw [= <- <-]. Qed.

Lemma io_keeps_check {W} (I : W -> Prop) b e : io_keeps I (@io_check W b e).
Proof. destruct b; by intros w r w' Hw [= <- <-]. Qed.

Lemma io_keeps_lift {W A} (I : W -> Prop) (r : result A) : io_keeps I (io_lift r).
Proof. by intros w r' w' Hw [= <- <-]. Qed.

Create HintDb io.
#[export] Hint Resolve io_total_bind io_total_ret io_total_throw io_total_check io_total_lift
  io_keeps_bind io_keeps_ret io_keeps_throw io_keeps_check io_keeps_lift : io.

(** Split a run of a [do!] chain that ended normally into its steps. *)
Ltac io_inv :=
  repeat match goal with
  | H : io_bind _ _ _ = Some (Ok _, _) |- _ => apply io_bind_ok in H as (? & ? & ? & H)
  | H : io_check _ _ _ = Some (Ok _, _) |- _ => apply io_check_ok in H as [? ->]
  | H : io_lift _ _ = Some (Ok _, _) |- _ => apply io_lift_ok in H as [? ->]
  | H : io_ret _ _ = Some (Ok _, _) |- _ => unfold io_ret in H; injection H as <- <-
  | H : io_throw _ _ = Some (Ok _, _) |- _ => discriminate H
  end.

Lemma io_bind_run {W A B} (m : io W A) (k : A -> io W B) w r w' : io_bind m k w = Some (r, w') ->
  (exists a w1, m w = Some (Ok a, w1) /\ k a w1 = Some (r, w')) \/ (exists e, m w = Some (Throw e, w') /\ r = Throw e).
Proof.
  unfold io_bind. destruct (m w) as [[[a|e] w1]|]; [intros H; left; eauto| |done].
  intros [= <- <-]. right. eauto.
Qed.

(** ** Steps: what every run of a computation does to the world *)

Definition steps {W A} (R : W -> W -> Prop) (m : io W A) : Prop := forall w r w', m w = Some (r, w') -> R w w'.

Lemma steps_bind {W A B} (R : W -> W -> Prop) `{!Transitive R} (m : io W A) (k : A -> io W B) :
  steps R m -> (forall a, steps R (k a)) -> steps R (io_bind m k).
Proof.
  intros Hm Hk w r w' [(a & w1 & H1 & H2)|(e & H1 & ->)]%io_bind_run; [|by apply Hm in H1].
  transitivity w1; [by apply Hm in H1|by apply Hk in H2].
Qed.

Lemma steps_ret {W A} (R : W -> W -> Prop) `{!Reflexive R} (a : A) : steps R (io_ret a).
Proof. by intros w r w' [= <- <-]. Qed.

Lemma steps_throw {W A} (R : W -> W -> Prop) `{!Reflexive R} e : steps R (@io_throw W A e).
Proof. by intros w r w' [= <- <-]. Qed.

Lemma steps_lift {W A} (R : W -> W -> Prop) `{!Reflexive R} (r : result A) : steps R (io_lift r).
Proof. by intros w r' w' [= <- <-]. Qed.

Lemma steps_check {W} (R : W -> W -> Prop) `{!Reflexive R} b e : steps R (@io_check W b e).
Proof. destruct b; by intros w r w' [= <- <-]. Qed.

Lemma steps_catch {W A} (R : W -> W -> Prop) `{!Transitive R} (m : io W A) h :
  steps R m -> (forall e, steps R (h e)) -> steps R (io_catch m h).
Proof.
  intros Hm Hh w r w'. unfold io_catch. destruct (m w) as [[[a|e] w1]|] eqn:E; [..|done].
  - intros [= <- <-]. eauto.
  - intros H. transitivity w1; [eauto|]. by apply Hh in H.
Qed.

Create HintDb steps.
#[export] Hint Resolve steps_bind steps_ret steps_throw steps_lift steps_check steps_catch : steps.

Lemma io_ret_ok {W A} (a b : A) (w w' : W) : io_ret a w = Some (Ok b, w') -> a = b /\ w = w'.
Proof. by intros [= -> ->]. Qed.

Lemma io_ret_run {W A} (a : A) (w w' : W) r : io_ret a w = Some (r, w') -> r = Ok a /\ w = w'.
Proof. by intros [= <- <-]. Qed.
