(* ===== verification/JsMap.v ===== *)
(** * JsMap: the JavaScript [Map]

    Every service keeps its state in [Map]s and relies on their iteration order
    (the insertion order; [set] on a present key keeps its place).  A map is
    therefore an association list; [wf] is the invariant that keys are distinct. *)

From Stdlib Require Import Permutation.
From stdpp Require Import base list strings.
From S2P Require Import Prelude.

Section JsMap.
Context {K V : Type} `{!EqDecision K}.

Implicit Types (m : list (K * V)) (k : K) (v w : V).

(** [m.get(k)] *)
Fixpoint map_get k m : option V :=
  match m with
  | [] => None
  | (k', v) :: m' => if decide (k = k') then Some v else map_get k m'
  end.

(** [m.has(k)] *)
Definition map_has k m : bool :=
  match map_get k m with
  | Some _ => true
  | None => false
  end.

(** [m.set(k, v)] *)
Fixpoint map_set k v m : list (K * V) :=
  match m with
  | [] => [(k, v)]
  | (k', v') :: m' => if decide (k = k') then (k', v) :: m' else (k', v') :: map_set k v m'
  end.

(** [m.delete(k)] *)
Fixpoint map_delete k m : list (K * V) :=
  match m with
  | [] => []
  | (k', v') :: m' => if decide (k = k') then m' else (k', v') :: map_delete k m'
  end.

(** [m.size], [[...m.keys()]], [[...m.values()]] *)
Definition map_size m : nat := length m.
Definition map_keys m : list K := m.*1.
Definition map_values m : list V := m.*2.

(** [m.keys().next().value] *)
Definition map_first_key m : option K :=
  match m with
  | [] => None
  | (k, _) :: _ => Some k
  end.

Definition map_wf m : Prop := NoDup (map_keys m).

#[local] Ltac map_induct m :=
  induction m as [|[? ?] m IH]; simpl;
  repeat (case_decide; subst; simpl); try done; try congruence; try by rewrite IH.

Lemma map_get_set_eq k v m : map_get k (map_set k v m) = Some v.
Proof. map_induct m. Qed.

Lemma map_get_set_ne k k' v m : k <> k' -> map_get k (map_set k' v m) = map_get k m.
Proof. intros Hne. map_induct m. Qed.

Lemma map_get_set k k' v m :
  map_get k (map_set k' v m) = if decide (k = k') then Some v else map_get k m.
Proof. case_decide; [subst; apply map_get_set_eq | by apply map_get_set_ne]. Qed.

Lemma map_set_set k v w m : map_set k v (map_set k w m) = map_set k v m.
Proof. map_induct m. Qed.

Lemma map_set_id k v m : map_get k m = Some v -> map_set k v m = m.
Proof. induction m as [|[k' v'] m IH]; simpl; repeat case_decide; intros; simplify_eq/=; auto with f_equal. Qed.

Lemma map_set_rollback k v w m :
  map_get k m = Some v -> map_set k v (map_set k w m) = m.
Proof. intros H. rewrite map_set_set. by apply map_set_id. Qed.

Lemma map_keys_set k v m :
  map_keys (map_set k v m) = if map_has k m then map_keys m else map_keys m ++ [k].
Proof.
  unfold map_has. induction m as [|[k' v'] m IH]; simpl; [done|].
  case_decide; simpl; [done|]. unfold map_keys in *. rewrite IH. by destruct (map_get k m).
Qed.

Lemma map_get_elem k v m : map_get k m = Some v -> (k, v) ∈ m.
Proof.
  induction m as [|[k' v'] m IH]; simpl; [done|].
  case_decide; intros; simplify_eq; [by left | right; auto].
Qed.

Lemma map_get_None k m : map_get k m = None <-> k ∉ map_keys m.
Proof.
  unfold map_keys. induction m as [|[k' v'] m IH]; simpl.
  - split; [intros _; apply not_elem_of_nil | done].
  - rewrite not_elem_of_cons, <- IH. case_decide; intuition congruence.
Qed.

Lemma map_has_keys k m : map_has k m = true <-> k ∈ map_keys m.
Proof.
  unfold map_has. pose proof (map_get_None k m) as H.
  destruct (map_get k m) eqn:E; split; intros Hk; try done.
  - destruct (decide (k ∈ map_keys m)) as [|Hn]; [done|]. apply H in Hn. done.
  - exfalso. by apply H.
Qed.

Lemma map_elem_get k v m : map_wf m -> (k, v) ∈ m -> map_get k m = Some v.
Proof.
  unfold map_wf. induction m as [|[k' v'] m IH]; simpl; [by rewrite elem_of_nil|].
  rewrite NoDup_cons, elem_of_cons. intros [Hk Hm] [Heq|Hin]; simplify_eq.
  - by rewrite decide_True.
  - rewrite decide_False; [auto|]. intros ->. apply Hk. unfold map_keys. apply list_elem_of_fmap. by exists (k', v).
Qed.

Lemma map_wf_nil : map_wf [].
Proof. apply NoDup_nil_2. Qed.

Lemma map_wf_set k v m : map_wf m -> map_wf (map_set k v m).
Proof.
  unfold map_wf. intros H. rewrite map_keys_set. destruct (map_has k m) eqn:E; [done|].
  apply NoDup_app. split_and!; [done| |apply NoDup_singleton].
  intros x Hx Hxk. apply list_elem_of_singleton in Hxk as ->. apply map_has_keys in Hx. congruence.
Qed.

Lemma map_delete_sublist k m : sublist (map_delete k m) m.
Proof. induction m as [|[k' v'] m IH]; simpl; [done|]. case_decide; by constructor. Qed.

Lemma map_wf_delete k m : map_wf m -> map_wf (map_delete k m).
Proof.
  unfold map_wf, map_keys. intros H. eapply sublist_NoDup; [exact H|].
  apply fmap_sublist, map_delete_sublist.
Qed.

Lemma map_get_delete_ne k k' m : k <> k' -> map_get k (map_delete k' m) = map_get k m.
Proof. intros Hne. map_induct m. Qed.

Lemma map_get_delete_eq k m : map_wf m -> map_get k (map_delete k m) = None.
Proof.
  unfold map_wf. induction m as [|[k' v'] m IH]; simpl; [done|].
  rewrite NoDup_cons. intros [Hk Hm]. case_decide; simpl.
  - subst. by apply map_get_None.
  - rewrite decide_False by done. auto.
Qed.

Lemma map_set_Forall (P : K * V -> Prop) k v m : Forall P m -> P (k, v) -> Forall P (map_set k v m).
Proof. intros H Hk. induction H as [|[k' v'] m]; simpl; [by constructor|]. case_decide; subst; by constructor. Qed.

Lemma map_delete_Forall (P : K * V -> Prop) k m : Forall P m -> Forall P (map_delete k m).
Proof. induction 1 as [|[k' v'] m]; simpl; [done|]. case_decide; by try constructor. Qed.

Lemma map_set_size k v m : map_size (map_set k v m) = if map_has k m then map_size m else S (map_size m).
Proof.
  unfold map_size. unfold map_has. induction m as [|[k' v'] m IH]; simpl; [done|].
  case_decide; simpl; [done|]. rewrite IH. by destruct (map_get k m).
Qed.

Lemma map_delete_size k m : map_size (map_delete k m) = if map_has k m then pred (map_size m) else map_size m.
Proof.
  unfold map_size, map_has. induction m as [|[k' v'] m IH]; simpl; [done|].
  case_decide; simpl; [done|]. rewrite IH. destruct (map_get k m) eqn:E; [|done]. by destruct m.
Qed.

Lemma map_set_new k v m : map_get k m = None -> map_set k v m = m ++ [(k, v)].
Proof.
  induction m as [|[k' v'] m IH]; simpl; [done|]. case_decide; [done|]. intros Hn. by rewrite IH.
Qed.

Lemma map_get_perm k m m' : map_wf m -> Permutation m m' -> map_get k m = map_get k m'.
Proof.
  intros Hwf Hp. assert (Hwf' : map_wf m').
  { unfold map_wf, map_keys in *. by rewrite <- Hp. }
  destruct (map_get k m) eqn:E.
  - symmetry. apply map_elem_get; [done|]. rewrite <- Hp. by apply map_get_elem.
  - symmetry. apply map_get_None. unfold map_keys. rewrite <- Hp. by apply map_get_None in E.
Qed.
End JsMap.

#[export] Hint Rewrite @map_get_set_eq @map_set_set : saep.
#[export] Hint Resolve map_wf_nil map_wf_set map_wf_delete : saep.
