(* ===== verification/Json.v ===== *)
(** * Json: the output of [JSON.stringify]

    Signatures in SAEP are taken over the text [JSON.stringify] gives for an
    object literal with a fixed field order.  This file models that text for flat
    objects whose values are strings, numbers or [null], and shows that the text
    determines the fields ([json_object_inj]).  Strings are sequences of bytes
    (the UTF-8 form the code hashes or signs); lone surrogates do not occur. *)

From Stdlib Require Import ZArith Ascii DecimalString DecimalZ DecimalPos.
From stdpp Require Import base list strings.
From S2P Require Import Prelude.

#[local] Arguments String.append !_ _ : simpl nomatch.

Definition quote : ascii := ascii_of_nat 34.
Definition backslash : ascii := ascii_of_nat 92.
Definition comma : ascii := ascii_of_nat 44.
Definition colon : ascii := ascii_of_nat 58.
Definition rbrace : ascii := ascii_of_nat 125.
Definition rbracket : ascii := ascii_of_nat 93.

(** One lower-case hexadecimal digit. *)
Definition hex_digit (n : nat) : ascii := ascii_of_nat (if (n <? 10)%nat then 48 + n else 87 + n).

(** The escape sequence of one character (ECMAScript QuoteJSONString). *)
Definition escape_char (c : ascii) : string :=
  let n := nat_of_ascii c in
  if (n =? 34)%nat then String backslash (String quote "")
  else if (n =? 92)%nat then String backslash (String backslash "")
  else if (n =? 8)%nat then String backslash "b"
  else if (n =? 9)%nat then String backslash "t"
  else if (n =? 10)%nat then String backslash "n"
  else if (n =? 12)%nat then String backslash "f"
  else if (n =? 13)%nat then String backslash "r"
  else if (n <? 32)%nat then
    String backslash ("u00" +:+ String (hex_digit (n / 16)) (String (hex_digit (n mod 16)) ""))
  else String c "".

Fixpoint escape (s : string) : string :=
  match s with
  | EmptyString => EmptyString
  | String c s' => escape_char c +:+ escape s'
  end.

Definition json_string (s : string) : string := String quote (escape s +:+ String quote "").

(** Number::toString on an integer below 10^21 in absolute value. *)
Definition z_text (z : Z) : string := NilZero.string_of_int (Z.to_int z).

Inductive jval : Type :=
| JNull
| JStr (s : string)
| JNum (text : string).

Definition json_value (v : jval) : string :=
  match v with
  | JNull => "null"
  | JStr s => json_string s
  | JNum t => t
  end.

Definition json_field (f : string * jval) : string :=
  json_string f.1 +:+ String colon (json_value f.2).

#[global] Arguments json_string : simpl never.
#[global] Arguments json_field : simpl never.

Fixpoint json_fields (fs : list (string * jval)) : string :=
  match fs with
  | [] => String rbrace ""
  | f :: fs' => String comma (json_field f +:+ json_fields fs')
  end.

(** [JSON.stringify({ k1: v1, ..., kn: vn })] with at least one field. *)
Definition json_object (f : string * jval) (fs : list (string * jval)) : string :=
  String (ascii_of_nat 123) (json_field f +:+ json_fields fs).

(** ** Reading a string literal back *)

Fixpoint unescape (fuel : nat) (s : string) : option (string * string) :=
  match fuel with
  | O => None
  | S fuel' =>
    match s with
    | EmptyString => None
    | String c rest =>
      if (nat_of_ascii c =? 34)%nat then Some (EmptyString, rest)
      else if (nat_of_ascii c =? 92)%nat then
        match rest with
        | EmptyString => None
        | String e rest1 =>
          let k d r := match unescape fuel' r with
                       | Some (t, r') => Some (String (ascii_of_nat d) t, r')
                       | None => None
                       end in
          let n := nat_of_ascii e in
          if (n =? 34)%nat then k 34 rest1
          else if (n =? 92)%nat then k 92 rest1
          else if (n =? 98)%nat then k 8 rest1
          else if (n =? 116)%nat then k 9 rest1
          else if (n =? 110)%nat then k 10 rest1
          else if (n =? 102)%nat then k 12 rest1
          else if (n =? 114)%nat then k 13 rest1
          else
            match rest1 with
            | String _ (String _ (String h (String l rest2))) =>
              let v a := let m := nat_of_ascii a in if (m <? 58)%nat then m - 48 else m - 87 in
              k (16 * v h + v l) rest2
            | _ => None
            end
        end
      else match unescape fuel' rest with
           | Some (t, r') => Some (String c t, r')
           | None => None
           end
    end
  end.

Lemma unescape_char fuel c s :
  unescape (S fuel) (escape_char c +:+ s) =
  match unescape fuel s with
  | Some (t, r) => Some (String c t, r)
  | None => None
  end.
Proof. destruct c as [[] [] [] [] [] [] [] []]; reflexivity. Qed.

Lemma string_cons_inj c (s t : string) : String c s = String c t -> s = t.
Proof. by intros [= H]. Qed.

Lemma string_app_assoc (a b c : string) : (a +:+ b) +:+ c = a +:+ (b +:+ c).
Proof. induction a as [|x a IH]; simpl; [done|]. by rewrite IH. Qed.

Lemma string_app_nil_r (a : string) : a +:+ "" = a.
Proof. induction a as [|x a IH]; simpl; [done|]. by rewrite IH. Qed.

Lemma unescape_escape s r fuel :
  (String.length s < fuel)%nat ->
  unescape fuel (escape s +:+ String quote r) = Some (s, r).
Proof.
  revert fuel. induction s as [|c s IH]; intros [|fuel] Hf; simpl escape; try (simpl in Hf; lia).
  - reflexivity.
  - rewrite string_app_assoc, unescape_char, IH; [done|]. simpl in Hf; lia.
Qed.

(** A string literal is self-delimiting. *)
Lemma json_string_inj s1 s2 r1 r2 :
  json_string s1 +:+ r1 = json_string s2 +:+ r2 -> s1 = s2 /\ r1 = r2.
Proof.
  unfold json_string. simpl. rewrite !string_app_assoc. simpl. intros [= H].
  set (n := S (String.length s1 + String.length s2)).
  pose proof (unescape_escape s1 r1 n ltac:(unfold n; lia)) as H1.
  pose proof (unescape_escape s2 r2 n ltac:(unfold n; lia)) as H2.
  rewrite H in H1. rewrite H1 in H2. by injection H2.
Qed.

(** ** Prefixes *)

Lemma string_app_inj_l (p a b : string) : p +:+ a = p +:+ b -> a = b.
Proof. induction p as [|x p IH]; cbn; [done|]. intros [= H]. auto. Qed.

Lemma ascii_app x y : String.list_ascii_of_string (x +:+ y) = String.list_ascii_of_string x ++ String.list_ascii_of_string y.
Proof. induction x as [|c x IH]; [done|]. exact (f_equal (cons c) IH). Qed.

Lemma string_app_inj_r (w a b : string) : a +:+ w = b +:+ w -> a = b.
Proof.
  intros E%(f_equal String.list_ascii_of_string). rewrite !ascii_app in E. apply app_inv_tail in E.
  rewrite <- (String.string_of_list_ascii_of_string a), E. apply String.string_of_list_ascii_of_string.
Qed.

Lemma prefix_split p s : String.prefix p s = true -> exists t, s = p +:+ t.
Proof.
  revert s. induction p as [|x p IH]; intros s; simpl; [intros _; by exists s|].
  destruct s as [|y s]; simpl; [done|]. destruct (ascii_dec x y) as [->|]; [|done].
  intros [t ->]%IH. by exists t.
Qed.

Lemma prefix_app p t : String.prefix p (p +:+ t) = true.
Proof. induction p as [|x p IH]; cbn; [by destruct t|]. destruct (ascii_dec x x); done. Qed.

(** ** Numbers and field separators *)

Definition is_sep (c : ascii) : bool := bool_decide (c = comma) || bool_decide (c = rbrace) || bool_decide (c = rbracket).

Definition num_char (c : ascii) : bool :=
  let n := nat_of_ascii c in ((48 <=? n) && (n <=? 57) || (n =? 45) || (n =? 46) || (n =? 43) || (n =? 101))%nat.

Fixpoint all_num (s : string) : bool :=
  match s with
  | EmptyString => true
  | String c s' => num_char c && all_num s'
  end.

(** What the text of a number looks like: non-empty, and made of the characters
    of a JSON number that does not start with a letter. *)
Definition num_text_ok (s : string) : bool :=
  match s with
  | EmptyString => false
  | String c _ => negb (nat_of_ascii c =? 101)%nat && all_num s
  end.

Lemma num_char_not_sep c : num_char c = true -> is_sep c = false.
Proof. destruct c as [[] [] [] [] [] [] [] []]; vm_compute; congruence. Qed.

Fixpoint until_sep (s : string) : string * string :=
  match s with
  | EmptyString => (EmptyString, EmptyString)
  | String c s' => if is_sep c then (EmptyString, s) else let p := until_sep s' in (String c p.1, p.2)
  end.

Lemma until_sep_num t c r :
  all_num t = true -> is_sep c = true -> until_sep (t +:+ String c r) = (t, String c r).
Proof.
  intros Ht Hc. induction t as [|x t IH]; simpl in *; [by rewrite Hc|].
  apply andb_true_iff in Ht as [Hx Ht]. rewrite num_char_not_sep by done. by rewrite IH.
Qed.

Definition jval_ok (v : jval) : bool :=
  match v with
  | JNum t => num_text_ok t
  | _ => true
  end.

Lemma num_text_all t : num_text_ok t = true -> all_num t = true.
Proof. destruct t; [done|]. unfold num_text_ok. by intros [_ ?]%andb_true_iff. Qed.

Lemma json_value_inj v1 v2 c1 c2 r1 r2 :
  jval_ok v1 = true -> jval_ok v2 = true -> is_sep c1 = true -> is_sep c2 = true ->
  json_value v1 +:+ String c1 r1 = json_value v2 +:+ String c2 r2 ->
  v1 = v2 /\ String c1 r1 = String c2 r2.
Proof.
  intros Hv1 Hv2 Hc1 Hc2.
  assert (Hhd : forall c t, num_text_ok (String c t) = true -> c <> "n"%char /\ c <> quote).
  { intros c t H. unfold num_text_ok in H. simpl in H.
    destruct c as [[] [] [] [] [] [] [] []]; vm_compute in H; try done. }
  destruct v1 as [|s1|t1], v2 as [|s2|t2]; simpl json_value; intros H.
  - split; [done|]. by injection H as -> ->.
  - discriminate H.
  - destruct t2 as [|c t]; [done|]. destruct (Hhd _ _ Hv2). simpl in H. injection H as H _. congruence.
  - discriminate H.
  - apply json_string_inj in H as [-> ->]. done.
  - destruct t2 as [|c t]; [done|]. destruct (Hhd _ _ Hv2). simpl in H. injection H as H _. congruence.
  - destruct t1 as [|c t]; [done|]. destruct (Hhd _ _ Hv1). simpl in H. injection H as H _. congruence.
  - destruct t1 as [|c t]; [done|]. destruct (Hhd _ _ Hv1). simpl in H. injection H as H _. congruence.
  - apply (f_equal until_sep) in H. rewrite !until_sep_num in H by auto using num_text_all.
    injection H as -> -> ->. done.
Qed.

Definition field_ok (f : string * jval) : bool := jval_ok f.2.

Lemma json_fields_sep fs : exists c r, json_fields fs = String c r /\ is_sep c = true.
Proof. destruct fs; simpl; eauto. Qed.

Lemma json_field_app f r :
  json_field f +:+ r = json_string f.1 +:+ String colon (json_value f.2 +:+ r).
Proof. unfold json_field. by rewrite string_app_assoc. Qed.

Lemma json_field_inj f1 f2 r1 r2 c1 c2 :
  field_ok f1 = true -> field_ok f2 = true -> is_sep c1 = true -> is_sep c2 = true ->
  json_field f1 +:+ String c1 r1 = json_field f2 +:+ String c2 r2 ->
  f1 = f2 /\ String c1 r1 = String c2 r2.
Proof.
  destruct f1 as [k1 v1], f2 as [k2 v2]. intros O1 O2 S1 S2 H.
  rewrite !json_field_app in H. apply json_string_inj in H as [E H]. simpl in E. subst k2.
  apply string_cons_inj in H. apply json_value_inj in H as [E ->]; auto. simpl in E. by subst v2.
Qed.

Lemma json_fields_inj fs1 fs2 :
  forallb field_ok fs1 = true -> forallb field_ok fs2 = true ->
  json_fields fs1 = json_fields fs2 -> fs1 = fs2.
Proof.
  revert fs2. induction fs1 as [|f1 fs1 IH]; intros [|f2 fs2]; try done.
  simpl. intros [Hf1 H1]%andb_true_iff [Hf2 H2]%andb_true_iff H.
  apply string_cons_inj in H.
  destruct (json_fields_sep fs1) as (c1 & r1 & E1 & S1), (json_fields_sep fs2) as (c2 & r2 & E2 & S2).
  rewrite E1, E2 in H. apply json_field_inj in H as [-> H]; auto.
  rewrite <- E1, <- E2 in H. f_equal. auto.
Qed.

Lemma json_object_inj f1 fs1 f2 fs2 :
  forallb field_ok (f1 :: fs1) = true -> forallb field_ok (f2 :: fs2) = true ->
  json_object f1 fs1 = json_object f2 fs2 -> f1 = f2 /\ fs1 = fs2.
Proof.
  intros H1 H2 H%string_cons_inj.
  assert (Hs : json_fields (f1 :: fs1) = json_fields (f2 :: fs2)) by (by apply (f_equal (String comma)) in H).
  apply json_fields_inj in Hs; auto. by injection Hs.
Qed.

(** ** Decimal integers *)

Lemma all_num_uint d : all_num (NilEmpty.string_of_uint d) = true.
Proof. induction d; done. Qed.

Lemma num_text_uint d : num_text_ok (NilZero.string_of_uint d) = true.
Proof.
  destruct d; try done; unfold NilZero.string_of_uint, NilEmpty.string_of_uint; fold NilEmpty.string_of_uint; simpl;
    apply all_num_uint.
Qed.

Lemma num_text_z z : num_text_ok (z_text z) = true.
Proof.
  unfold z_text. destruct (Z.to_int z) as [d|d]; simpl; [apply num_text_uint|].
  pose proof (num_text_uint d) as H. by apply num_text_all in H.
Qed.

Lemma z_text_inj z1 z2 : z_text z1 = z_text z2 -> z1 = z2.
Proof.
  unfold z_text. intros H.
  assert (Hn : forall z, Z.to_int z <> Decimal.Pos Decimal.Nil /\ Z.to_int z <> Decimal.Neg Decimal.Nil).
  { intros [|p|p]; simpl; split; try done; intros [= E]; by apply (Unsigned.to_uint_nonnil p). }
  apply (f_equal NilZero.int_of_string) in H.
  rewrite !NilZero.isi in H by apply Hn. injection H as H.
  rewrite <- (DecimalZ.of_to z1), <- (DecimalZ.of_to z2). by rewrite H.
Qed.

#[export] Hint Resolve num_text_z : saep.

(** ** Arrays *)

Fixpoint json_items (vs : list jval) : string :=
  match vs with
  | [] => String rbracket ""
  | v :: vs' => String comma (json_value v +:+ json_items vs')
  end.

(** An array of strings, numbers and nulls. *)
Definition json_array (vs : list jval) : string :=
  String (ascii_of_nat 91) (match vs with [] => String rbracket "" | v :: vs' => json_value v +:+ json_items vs' end).

Lemma json_items_sep vs : exists c r, json_items vs = String c r /\ is_sep c = true.
Proof. destruct vs; simpl; eauto. Qed.

Lemma json_items_inj vs1 vs2 :
  forallb jval_ok vs1 = true -> forallb jval_ok vs2 = true -> json_items vs1 = json_items vs2 -> vs1 = vs2.
Proof.
  revert vs2. induction vs1 as [|v1 vs1 IH]; intros [|v2 vs2]; try done.
  simpl. intros [Hv1 H1]%andb_true_iff [Hv2 H2]%andb_true_iff H. apply string_cons_inj in H.
  destruct (json_items_sep vs1) as (c1 & r1 & E1 & S1), (json_items_sep vs2) as (c2 & r2 & E2 & S2).
  rewrite E1, E2 in H. apply json_value_inj in H as [-> H]; auto. rewrite <- E1, <- E2 in H. f_equal. auto.
Qed.

(** The text of an array determines its items. *)
Lemma json_array_inj v1 vs1 v2 vs2 :
  forallb jval_ok (v1 :: vs1) = true -> forallb jval_ok (v2 :: vs2) = true ->
  json_array (v1 :: vs1) = json_array (v2 :: vs2) -> v1 :: vs1 = v2 :: vs2.
Proof.
  intros H1 H2 H. apply json_items_inj; [done|done|]. apply string_cons_inj in H. simpl. by f_equal.
Qed.

(** ** Texts with a separator *)

Fixpoint occurs (c : ascii) (s : string) : bool :=
  match s with
  | EmptyString => false
  | String x s' => bool_decide (x = c) || occurs c s'
  end.

Lemma occurs_app c a b : occurs c (a +:+ b) = occurs c a || occurs c b.
Proof. induction a as [|x a IH]; cbn; [done|]. by rewrite IH, orb_assoc. Qed.

Lemma occurs_num c t : num_char c = false -> all_num t = true -> occurs c t = false.
Proof.
  intros Hc. induction t as [|x t IH]; simpl; [done|]. intros [Hx Ht]%andb_true_iff.
  rewrite IH by done. rewrite bool_decide_false; [done|]. by intros ->; congruence.
Qed.

Lemma colon_free_z z : occurs colon (z_text z) = false.
Proof. apply occurs_num; [reflexivity|]. apply num_text_all, num_text_z. Qed.

(** The last separator determines both sides. *)
Lemma last_sep_inj c a b x y :
  occurs c x = false -> occurs c y = false ->
  a +:+ String c x = b +:+ String c y -> a = b /\ x = y.
Proof.
  intros Hx Hy. revert b. induction a as [|u a IH]; intros [|v b]; cbn; intros H.
  - by injection H as ->.
  - injection H as <- ->. rewrite occurs_app in Hx. cbn [occurs] in Hx. rewrite bool_decide_true in Hx by done.
    rewrite orb_true_r in Hx. done.
  - injection H as -> <-. rewrite occurs_app in Hy. cbn [occurs] in Hy. rewrite bool_decide_true in Hy by done.
    rewrite orb_true_r in Hy. done.
  - injection H as -> H. apply IH in H as [-> ->]. done.
Qed.
