(* ===== verification/Hex.v ===== *)
(** * Hex: hexadecimal text and bytes

    The ways the code writes bytes as hexadecimal text and reads them back:
    [byte.toString(16).padStart(2, '0')], [parseInt(pair, 16)] stored into a
    Uint8Array, and [hex.match(/.{2}/g)!]. *)

From Stdlib Require Import ZArith Ascii Lia.
From stdpp Require Import base list strings.
From S2P Require Import Prelude Bytes Json.

#[local] Open Scope Z_scope.

(** ** parseInt(pair, 16) and Uint8Array stores *)

Definition hex_value (c : ascii) : option Z :=
  let n := Z.of_nat (nat_of_ascii c) in
  if ((48 <=? n) && (n <=? 57))%Z then Some (n - 48)%Z
  else if ((97 <=? n) && (n <=? 102))%Z then Some (n - 87)%Z
  else if ((65 <=? n) && (n <=? 70))%Z then Some (n - 55)%Z
  else None.

(** The longest prefix of hexadecimal digits; [None] (NaN) if it is empty. *)
Fixpoint hex_digits (acc : option Z) (s : string) : option Z :=
  match s with
  | EmptyString => acc
  | String c s' =>
    match hex_value c with
    | Some v => hex_digits (Some (16 * default 0 acc + v)%Z) s'
    | None => acc
    end
  end.

Definition skip_0x (s : string) : string :=
  match s with
  | String "0" (String "x" s') => s'
  | String "0" (String "X" s') => s'
  | _ => s
  end.

Definition parseInt16 (s : string) : option Z :=
  match skip_space s with
  | String "-" s' => option_map Z.opp (hex_digits None (skip_0x s'))
  | String "+" s' => hex_digits None (skip_0x s')
  | s' => hex_digits None (skip_0x s')
  end.

(** [out[i] = v]: NaN is stored as 0, an integer modulo 256. *)
Definition to_uint8 (v : option Z) : Z :=
  match v with
  | Some z => (z mod 256)%Z
  | None => 0%Z
  end.

Definition strip_0x (hex : string) : string :=
  if String.prefix "0x" hex then String.substring 2 (String.length hex - 2) hex else hex.

(** [byte.toString(16).padStart(2, '0')] *)
Definition byte_hex (b : Z) : string :=
  String (hex_digit (Z.to_nat (b / 16))) (String (hex_digit (Z.to_nat (b mod 16))) "").

(** [Array.from(bytes).map(...).join('')] *)
Definition bytesToHex (bytes : list Z) : string := String.concat "" (map byte_hex bytes).

(** The matches of [/.{2}/g]: a last odd character is left out. *)
Fixpoint char_pairs (s : string) : list string :=
  match s with
  | String a (String b s') => String a (String b "") :: char_pairs s'
  | _ => []
  end.

(** [Uint8Array.from(hex.match(/.{2}/g)!.map((h) => parseInt(h, 16)))] *)
Definition hexPairs (hex : string) : result (list Z) :=
  match char_pairs hex with
  | [] => Throw "Cannot read properties of null (reading 'map')"
  | l => Ok (map (fun h => to_uint8 (parseInt16 h)) l)
  end.

(** ** Reading back what was written *)

Lemma byte_hex_read b : is_byte b -> to_uint8 (parseInt16 (byte_hex b)) = b.
Proof.
  intros Hb. assert (C : forallb (fun n => to_uint8 (parseInt16 (byte_hex (Z.of_nat n))) =? Z.of_nat n) (seq 0 256) = true)
    by (vm_compute; reflexivity).
  rewrite forallb_forall in C. specialize (C (Z.to_nat b)). rewrite Z2Nat.id in C by (unfold is_byte in Hb; lia).
  apply Z.eqb_eq, C, in_seq. unfold is_byte in Hb. lia.
Qed.

Lemma append_nil_r (s : string) : s +:+ "" = s.
Proof. induction s as [|c s IH]; [done|]. change (String c (s +:+ "") = String c s). by f_equal. Qed.

Lemma concat_cons (x : string) l : String.concat "" (x :: l) = x +:+ String.concat "" l.
Proof. destruct l as [|y l]; [by rewrite append_nil_r|done]. Qed.

Lemma bytesToHex_cons b l :
  bytesToHex (b :: l) = String (hex_digit (Z.to_nat (b / 16))) (String (hex_digit (Z.to_nat (b mod 16))) (bytesToHex l)).
Proof. apply concat_cons. Qed.

Lemma bytesToHex_length l : String.length (bytesToHex l) = (2 * length l)%nat.
Proof. induction l as [|b l IH]; [done|]. rewrite bytesToHex_cons. cbn [String.length length]. rewrite IH. lia. Qed.

Lemma char_pairs_hex l : char_pairs (bytesToHex l) = map byte_hex l.
Proof. induction l as [|b l IH]; [done|]. rewrite bytesToHex_cons. cbn [char_pairs map]. by rewrite IH. Qed.

Lemma byte_pairs_read l : Forall is_byte l -> map (fun h => to_uint8 (parseInt16 h)) (map byte_hex l) = l.
Proof. induction 1 as [|x l' Hx Hl IH]; [done|]. cbn [map]. by rewrite byte_hex_read, IH. Qed.

(** Bytes written as hexadecimal are read back. *)
Lemma hexPairs_bytes l : Forall is_byte l -> l <> [] -> hexPairs (bytesToHex l) = Ok l.
Proof.
  intros Hl Hne. unfold hexPairs. rewrite char_pairs_hex. destruct l as [|b l]; [done|].
  change (Ok (map (fun h => to_uint8 (parseInt16 h)) (map byte_hex (b :: l))) = Ok (b :: l)). by rewrite byte_pairs_read.
Qed.

(** Hexadecimal bytes are never taken to begin with [0x]. *)
Lemma strip_0x_bytes l : Forall is_byte l -> strip_0x (bytesToHex l) = bytesToHex l.
Proof.
  intros Hl. unfold strip_0x. destruct (String.prefix "0x" (bytesToHex l)) eqn:E; [|done]. exfalso.
  destruct l as [|b l]; [done|]. rewrite bytesToHex_cons in E. cbn [String.prefix] in E.
  destruct (ascii_dec "0" _); [|done]. destruct (ascii_dec "x" (hex_digit (Z.to_nat (b mod 16)))) as [Ex|]; [|done].
  assert (H : forallb (fun n => negb (Ascii.eqb "x" (hex_digit n))) (seq 0 16) = true) by reflexivity.
  rewrite forallb_forall in H. specialize (H (Z.to_nat (b mod 16))). rewrite <- Ex in H.
  assert (Hb : 0 <= b mod 16 < 16) by (apply Z.mod_pos_bound; lia).
  assert (Hin : In (Z.to_nat (b mod 16)) (seq 0 16)) by (apply in_seq; lia). discriminate (H Hin).
Qed.

(** A property of the sixteen digits holds of every hexadecimal text. *)
Lemma bytesToHex_chars p l : forallb (fun k => p (hex_digit k)) (seq 0 16) = true -> Forall is_byte l ->
  all_chars p (bytesToHex l) = true.
Proof.
  intros Hp. assert (D : forall z, 0 <= z < 16 -> p (hex_digit (Z.to_nat z)) = true).
  { intros z Hz. rewrite forallb_forall in Hp. apply Hp, in_seq. lia. }
  induction 1 as [|b l Hb Hl IH]; [done|]. rewrite bytesToHex_cons. cbn [all_chars]. unfold is_byte in Hb.
  rewrite !D, IH; [done|by apply Z.mod_pos_bound|]. split; [by apply Z.div_pos; lia|by apply Z.div_lt_upper_bound; lia].
Qed.
