(* ===== verification/Numbers.v ===== *)
(** * Numbers: reading numbers from text as JavaScript does

    [Number(text)] and [BigInt(text)] on ASCII text, and [Math.round].  A number
    is the exact rational the text denotes: neither rounded to a double nor made
    infinite when it is too large; [None] stands for what is not finite. *)

From Stdlib Require Import ZArith QArith Qround Qabs Ascii Lia DecimalPos DecimalString.
From stdpp Require Import base list strings.
From S2P Require Import Prelude Json.

#[local] Open Scope Z_scope.
#[local] Open Scope saep_scope.

(** The value of a digit, letters included. *)
Definition digit_of (c : ascii) : option Z :=
  let n := Z.of_nat (nat_of_ascii c) in
  if char_in 48 57 c then Some (n - 48)
  else if char_in 97 122 c then Some (n - 87)
  else if char_in 65 90 c then Some (n - 55)
  else None.

(** The longest prefix of digits of a base: its value after [acc], how many there
    are, and the rest. *)
Fixpoint read_digits (base acc : Z) (n : nat) (s : string) : Z * nat * string :=
  match s with
  | EmptyString => (acc, n, s)
  | String c s' =>
    match digit_of c with
    | Some d => if d <? base then read_digits base (acc * base + d) (S n) s' else (acc, n, s)
    | None => (acc, n, s)
    end
  end.

(** One or more digits and nothing else. *)
Definition read_all (base : Z) (s : string) : option Z :=
  let '(v, n, rest) := read_digits base 0 0 s in
  if String.eqb rest "" && negb (n =? 0)%nat then Some v else None.

(** A literal with a prefix: 0x, 0o or 0b. *)
Definition read_prefixed (s : string) : option Z :=
  match s with
  | String "0" (String c s') =>
    if char_in 120 120 c || char_in 88 88 c then read_all 16 s'
    else if char_in 111 111 c || char_in 79 79 c then read_all 8 s'
    else if char_in 98 98 c || char_in 66 66 c then read_all 2 s'
    else None
  | _ => None
  end.

Definition read_sign (s : string) : Z * string :=
  match s with
  | String "-" s' => (-1, s')
  | String "+" s' => (1, s')
  | _ => (1, s)
  end.

Definition q_pow10 (e : Z) : Q := if 0 <=? e then inject_Z (10 ^ e) else / inject_Z (10 ^ (- e)).

(** The exponent part: absent or [e] with a signed integer. *)
Definition read_exponent (s : string) : option Z :=
  match s with
  | EmptyString => Some 0
  | String c s' =>
    if char_in 101 101 c || char_in 69 69 c then
      let '(sign, t) := read_sign s' in option_map (Z.mul sign) (read_all 10 t)
    else None
  end.

(** An unsigned decimal literal. *)
Definition read_decimal (s : string) : option Q :=
  let '(whole, n, rest) := read_digits 10 0 0 s in
  let '(mantissa, m, rest) := match rest with
                              | String "." rest' => read_digits 10 whole 0 rest'
                              | _ => (whole, 0%nat, rest)
                              end in
  if (n + m =? 0)%nat then None
  else option_map (fun e => Qred (inject_Z mantissa * q_pow10 (e - Z.of_nat m))) (read_exponent rest).

(** [Number(text)], where the code asks [Number.isFinite] of it. *)
Definition js_Number (text : string) : option Q :=
  let t := trim text in
  if String.eqb t "" then Some 0%Q
  else match read_prefixed t with
       | Some z => Some (inject_Z z)
       | None => let '(sign, u) := read_sign t in option_map (fun q => Qred (inject_Z sign * q)) (read_decimal u)
       end.

(** [BigInt(text)] *)
Definition js_BigInt (text : string) : result Z :=
  let t := trim text in
  if String.eqb t "" then Ok 0
  else match read_prefixed t with
       | Some z => Ok z
       | None =>
         let '(sign, u) := read_sign t in
         match read_all 10 u with
         | Some z => Ok (sign * z)
         | None => Throw ("Cannot convert " +:+ text +:+ " to a BigInt")
         end
       end.

(** [Math.round]: halves go up. *)
Definition js_round (q : Q) : Z := Qfloor (q + (1 # 2)).

Example numbers_read :
  js_Number " 0.0125 " = Some (1 # 80)%Q /\ js_Number "-1.5e2" = Some (-150 # 1)%Q /\ js_Number "0x1F" = Some (31 # 1)%Q /\
  js_Number "" = Some 0%Q /\ js_Number "n/a" = None /\ js_Number "." = None /\ js_Number "Infinity" = None /\
  js_BigInt "50000000" = Ok 50000000 /\ js_BigInt "1.5" = Throw "Cannot convert 1.5 to a BigInt".
Proof. vm_compute. split_and!; reflexivity. Qed.

(** A decimal text of digits is read back. *)
Lemma read_digits_app base acc n s : 0 < base ->
  forall v k rest, read_digits base acc n s = (v, k, rest) -> (n <= k)%nat /\ (0 <= acc -> 0 <= v).
Proof.
  intros Hb. revert acc n. induction s as [|c s IH]; cbn; intros acc n v k rest H; [by injection H as <- <- <-|].
  destruct (digit_of c) as [d|] eqn:Ed; [|by injection H as <- <- <-].
  destruct (Z.ltb_spec d base); [|by injection H as <- <- <-]. apply IH in H as [H1 H2]. split; [lia|]. intros Ha. apply H2.
  enough (0 <= d) by nia. unfold digit_of in Ed. revert Ed. repeat case_match; try done; intros [= <-]; unfold char_in in *;
    repeat match goal with E : (_ && _) = true |- _ => apply andb_prop in E as [?%Nat.leb_le ?] end; lia.
Qed.

Lemma js_round_nonneg q : (0 <= q)%Q -> 0 <= js_round q.
Proof. intros H. unfold js_round. change 0 with (Qfloor 0). apply Qfloor_resp_le. rewrite <- (Qplus_0_l 0). by apply Qplus_le_compat. Qed.

(** ** The text of a natural number is read back *)

Lemma all_chars_app p a b : all_chars p (a +:+ b) = all_chars p a && all_chars p b.
Proof.
  induction a as [|c a IH]; [done|]. change (p c && all_chars p (a +:+ b) = p c && all_chars p a && all_chars p b).
  by rewrite IH, andb_assoc.
Qed.

Lemma rev_app_app a b : String.rev_app a b = String.rev a +:+ b.
Proof.
  revert b. induction a as [|c a IH]; intros b; [done|].
  change (String.rev_app a (String c b) = String.rev_app a (String c "") +:+ b).
  by rewrite IH, (IH (String c "")), string_app_assoc.
Qed.

Lemma rev_cons c a : String.rev (String c a) = String.rev a +:+ String c "".
Proof. exact (rev_app_app a (String c "")). Qed.

Lemma rev_all p a : all_chars p (String.rev a) = all_chars p a.
Proof. induction a as [|c a IH]; [done|]. rewrite rev_cons, all_chars_app, IH. cbn. by rewrite andb_true_r, andb_comm. Qed.

Lemma rev_app a b : String.rev (a +:+ b) = String.rev b +:+ String.rev a.
Proof.
  induction a as [|c a IH]; [by rewrite string_app_nil_r|]. change (String c a +:+ b) with (String c (a +:+ b)).
  by rewrite !rev_cons, IH, string_app_assoc.
Qed.

Lemma rev_involutive a : String.rev (String.rev a) = a.
Proof. induction a as [|c a IH]; [done|]. by rewrite rev_cons, rev_app, IH. Qed.

(** Text without spaces is not trimmed. *)
Lemma trim_id s : all_chars (fun c => negb (is_js_space c)) s = true -> trim s = s.
Proof.
  assert (K : forall t, all_chars (fun c => negb (is_js_space c)) t = true -> skip_space t = t).
  { intros [|c t]; [done|]. cbn. intros [->%negb_true_iff _]%andb_prop. done. }
  intros H. unfold trim. rewrite (K s H), K by by rewrite rev_all. apply rev_involutive.
Qed.

Lemma digits_read d p n :
  read_digits 10 (Zpos p) n (NilEmpty.string_of_uint d) = (Zpos (Pos.of_uint_acc d p), (n + String.length (NilEmpty.string_of_uint d))%nat, ""%string).
Proof.
  revert p n. induction d as [|d IH|d IH|d IH|d IH|d IH|d IH|d IH|d IH|d IH|d IH]; intros p n; [cbn; by rewrite Nat.add_0_r|..];
    cbn [NilEmpty.string_of_uint read_digits Pos.of_uint_acc String.length]; 
    lazymatch goal with |- context [digit_of ?c] => let v := eval vm_compute in (digit_of c) in change (digit_of c) with v end; 
    cbv iota beta; lazymatch goal with |- context [?d <? 10] => change (d <? 10) with true end; cbv iota;
    rewrite Nat.add_succ_r, <- (Nat.add_succ_l n), <- IH; f_equal; lia.
Qed.

Lemma uint_digits d : all_chars (char_in 48 57) (NilEmpty.string_of_uint d) = true.
Proof. by induction d. Qed.

Lemma all_chars_weaken (p q : ascii -> bool) s : (forall c, p c = true -> q c = true) -> all_chars p s = true -> all_chars q s = true.
Proof. intros H. induction s as [|c s IH]; [done|]. cbn. intros [Hc Hs]%andb_prop. by rewrite (H c Hc), IH. Qed.

Lemma digit_no_space c : char_in 48 57 c = true -> negb (is_js_space c) = true.
Proof.
  unfold char_in, is_js_space. intros [H1 H2]%andb_prop. apply Nat.leb_le in H1, H2. apply negb_true_iff, orb_false_iff. split.
  - apply andb_false_iff. right. apply Nat.leb_gt. lia.
  - apply Nat.eqb_neq. lia.
Qed.

(** [BigInt] of the text of a natural number. *)
Lemma js_BigInt_z n : 0 <= n -> js_BigInt (z_text n) = Ok n.
Proof.
  destruct n as [|p|p]; [done| |lia]. intros _. unfold z_text. cbn [Z.to_int NilZero.string_of_int].
  pose proof (DecimalPos.Unsigned.to_uint_nonnil p) as Hnil. pose proof (DecimalPos.Unsigned.of_to p) as Hof.
  assert (Hz : NilZero.string_of_uint (Pos.to_uint p) = NilEmpty.string_of_uint (Pos.to_uint p)) by (unfold NilZero.string_of_uint; by destruct (Pos.to_uint p)).
  rewrite Hz. clear Hz. pose proof (DecimalPos.Unsigned.to_of (Pos.to_uint p)) as Hto. rewrite Hof in Hto. cbn in Hto.
  unfold js_BigInt. rewrite trim_id.
  2:{ eapply all_chars_weaken; [exact digit_no_space|]. apply uint_digits. }
  assert (Hhd : Decimal.nzhead (Pos.to_uint p) = Pos.to_uint p).
  { unfold Decimal.unorm in Hto. by destruct (Decimal.nzhead (Pos.to_uint p)) eqn:E; [rewrite Hto in Hof|..]. }
  destruct (Pos.to_uint p) as [|d|d|d|d|d|d|d|d|d|d]; [done| |..].
  1:{ exfalso. clear -Hhd. assert (L : forall e, (Decimal.nb_digits (Decimal.nzhead e) <= Decimal.nb_digits e)%nat) by (induction e; cbn; lia).
      specialize (L d). cbn in Hhd. rewrite Hhd in L. cbn in L. lia. }
  all: cbn in Hof; injection Hof as Hof; cbn [NilEmpty.string_of_uint String.eqb read_prefixed read_sign]; unfold read_all; cbn [read_digits];
    lazymatch goal with |- context [digit_of ?c] => let v := eval vm_compute in (digit_of c) in change (digit_of c) with v end;
    cbv iota beta; lazymatch goal with |- context [?d <? 10] => change (d <? 10) with true end; cbv iota;
    lazymatch goal with |- context [read_digits 10 ?z _ _] => let v := eval vm_compute in z in change z with v end;
    rewrite digits_read, Hof; cbn; by rewrite Z.mul_1_l || done.
Qed.
