(* ===== verification/Zod.v ===== *)
(** * Zod: JSON values and the checks zod schemas make

    A parsed JSON text is a [json] value.  A zod schema is the function it
    denotes: it gives the value it produces (unknown keys dropped, defaults filled
    in) or nothing.  Only the schema constructors the services use are defined. *)

From Stdlib Require Import ZArith QArith Qround Ascii.
From stdpp Require Import base countable list strings.
From S2P Require Import Prelude.

Open Scope Z_scope.

Inductive json : Type :=
| J_null
| J_bool (b : bool)
| J_num (q : Q)
| J_str (s : string)
| J_arr (l : list json)
| J_obj (fs : list (string * json)).

Definition schema (A : Type) : Type := json -> option A.

Definition z_str : schema string := fun v => match v with J_str s => Some s | _ => None end.

(** [z.string()] with a check: a regular expression or a minimal length. *)
Definition z_string (p : string -> bool) : schema string := fun v =>
  match v with
  | J_str s => if p s then Some s else None
  | _ => None
  end.

(** [z.number().int().min(lo)] *)
Definition z_int_min (lo : Z) : schema Z := fun v =>
  match v with
  | J_num q => if is_integer q && q_leb (inject_Z lo) q then Some (Qfloor q) else None
  | _ => None
  end.

(** [z.enum(...)], with the values the texts stand for. *)
Definition z_enum {A} (l : list (string * A)) : schema A := fun v =>
  match v with
  | J_str s => option_map snd (List.find (fun kv => String.eqb kv.1 s) l)
  | _ => None
  end.

Fixpoint z_all {A} (item : schema A) (l : list json) : option (list A) :=
  match l with
  | [] => Some []
  | v :: l' =>
    match item v, z_all item l' with
    | Some a, Some t => Some (a :: t)
    | _, _ => None
    end
  end.

(** [z.array(item)] with a check on the length. *)
Definition z_array {A} (item : schema A) (size : nat -> bool) : schema (list A) := fun v =>
  match v with
  | J_arr l => if size (length l) then z_all item l else None
  | _ => None
  end.

(** A key of an object; the first one listed is the one an object has. *)
Definition member (key : string) (fs : list (string * json)) : option json :=
  option_map snd (List.find (fun kv => String.eqb kv.1 key) fs).

Definition z_key {A} (key : string) (item : schema A) (fs : list (string * json)) : option A := member key fs ≫= item.

(** [item.default(d)]: an absent key is [undefined]. *)
Definition z_default {A} (key : string) (item : schema A) (d : A) (fs : list (string * json)) : option A :=
  match member key fs with
  | Some v => item v
  | None => Some d
  end.

(** [z.object(...)]: any object; each key is read with [z_key]. *)
Definition z_object {A} (body : list (string * json) -> option A) : schema A := fun v =>
  match v with
  | J_obj fs => body fs
  | _ => None
  end.

Lemma z_all_length {A} (item : schema A) l r : z_all item l = Some r -> length r = length l.
Proof.
  revert r. induction l as [|v l IH]; cbn; intros r H; [by injection H as <-|].
  destruct (item v); [|done]. destruct (z_all item l); [|done]. injection H as <-. cbn. by rewrite (IH _ eq_refl).
Qed.

Lemma z_all_forall {A} (item : schema A) (P : A -> Prop) l r :
  (forall v a, item v = Some a -> P a) -> z_all item l = Some r -> Forall P r.
Proof.
  intros HP. revert r. induction l as [|v l IH]; cbn; intros r H; [by injection H as <-|].
  destruct (item v) eqn:E; [|done]. destruct (z_all item l); [|done]. injection H as <-. constructor; eauto.
Qed.

Lemma z_string_ok p v s : z_string p v = Some s -> p s = true.
Proof. destruct v; try done. cbn. case_match; intros [= <-]; done. Qed.

Lemma z_int_min_ok lo v z : z_int_min lo v = Some z -> lo <= z.
Proof.
  destruct v; try done. cbn. destruct (_ && _) eqn:E; [|done]. intros [= <-].
  apply andb_true_iff in E as [_ E]. apply q_leb_le in E. rewrite <- (Qfloor_Z lo). by apply Qfloor_resp_le.
Qed.

(** ** A text for every JSON value *)

Definition leaf : Type := option (bool + (Z * positive) + string).

Fixpoint to_tree (v : json) : gen_tree leaf :=
  match v with
  | J_null => GenLeaf None
  | J_bool b => GenLeaf (Some (inl (inl b)))
  | J_num q => GenLeaf (Some (inl (inr (Qnum q, Qden q))))
  | J_str s => GenLeaf (Some (inr s))
  | J_arr l => GenNode 0 (map to_tree l)
  | J_obj fs => GenNode 1 (map (fun kv => GenNode 2 [GenLeaf (Some (inr kv.1)); to_tree kv.2]) fs)
  end.

Fixpoint of_tree (t : gen_tree leaf) : json :=
  match t with
  | GenLeaf None => J_null
  | GenLeaf (Some (inl (inl b))) => J_bool b
  | GenLeaf (Some (inl (inr (n, d)))) => J_num (n # d)
  | GenLeaf (Some (inr s)) => J_str s
  | GenNode 0 l => J_arr (map of_tree l)
  | GenNode _ l => J_obj (map (fun t => match t with
                                        | GenNode _ [GenLeaf (Some (inr k)); v] => (k, of_tree v)
                                        | _ => (""%string, J_null)
                                        end) l)
  end.

Lemma of_to_tree : forall v, of_tree (to_tree v) = v.
Proof.
  fix IH 1. intros [|b|[n d]|s|l|fs]; try reflexivity.
  - cbn. f_equal. induction l as [|v l IHl]; cbn; [reflexivity|]. by rewrite IH, IHl.
  - cbn. f_equal. induction fs as [|[k v] fs IHl]; cbn; [reflexivity|]. by rewrite IH, IHl.
Qed.

Fixpoint bits (p : positive) : string :=
  match p with
  | xH => ""
  | xO p => String "0" (bits p)
  | xI p => String "1" (bits p)
  end.

Fixpoint of_bits (s : string) : positive :=
  match s with
  | EmptyString => xH
  | String c s => if bool_decide (c = "1"%char) then xI (of_bits s) else xO (of_bits s)
  end.

Lemma of_bits_bits p : of_bits (bits p) = p.
Proof. induction p as [p IH|p IH|]; cbn; by rewrite ?IH. Qed.

Definition tree_text (v : json) : string := String "j" (bits (encode (to_tree v))).
Definition text_tree (s : string) : option json :=
  match s with
  | String _ t => option_map of_tree (decode (of_bits t))
  | EmptyString => None
  end.

Lemma text_tree_text v : text_tree (tree_text v) = Some v.
Proof. cbn. rewrite of_bits_bits, decode_encode. cbn. by rewrite of_to_tree. Qed.
