(* ===== verification/ComputeBond.v ===== *)
(** * ComputeBond: the bond state machine of the SDK

    Models packages/sdk/src/research/compute-bond.ts: a compute bond is a GPU
    lease an agent reserves, binds to one task ([lock]) and loses ([slash]) or
    gets back ([release]).  The code's data and its two functions on transitions
    are translated first; [astep] is the abstract state machine they implement. *)

From Stdlib Require Import ZArith QArith Lqa.
From stdpp Require Import base sets list strings.
From S2P Require Import Prelude Json.

(** ** Data *)

Inductive ComputeBondProvider := ionet | akash.

Inductive ComputeBondStatus := reserved | locked | released | slashed | cancelled | expired.

#[export] Instance ComputeBondProvider_eq_dec : EqDecision ComputeBondProvider.
Proof. solve_decision. Defined.

#[export] Instance ComputeBondStatus_eq_dec : EqDecision ComputeBondStatus.
Proof. solve_decision. Defined.

Definition provider_text (p : ComputeBondProvider) : string :=
  match p with
  | ionet => "ionet"
  | akash => "akash"
  end.

Definition status_text (s : ComputeBondStatus) : string :=
  match s with
  | reserved => "reserved"
  | locked => "locked"
  | released => "released"
  | slashed => "slashed"
  | cancelled => "cancelled"
  | expired => "expired"
  end.

Record ComputeBondAttestationPayload := {
  agent_did : string;
  provider : ComputeBondProvider;
  lease_id : string;
  gpu_hours : Q;
  expires_at : Q;
}.

(** [interface ComputeBondRecord extends ComputeBondAttestationPayload] *)
Record ComputeBondRecord := {
  payload :> ComputeBondAttestationPayload;
  attestation_sig : string;
  broker_pubkey : string;
  reserved_price_usd_micro : Q;
  slashable_until : Q;
  task_id : option string;
  status : ComputeBondStatus;
  created_at_ms : Q;
  updated_at_ms : Q;
  status_reason : option string;
}.

Inductive ComputeBondTransition :=
| Lock (task : string) (now_ms : Q)
| Release (task : string) (now_ms : Q)
| Slash (task : string) (now_ms : Q) (reason : option string)
| Cancel (now_ms : Q)
| Expire (now_ms : Q).

Definition transition_now (t : ComputeBondTransition) : Q :=
  match t with
  | Lock _ n | Release _ n | Slash _ n _ | Cancel n | Expire n => n
  end.

Definition TERMINAL_COMPUTE_BOND_STATUSES : list ComputeBondStatus :=
  [released; slashed; cancelled; expired].

Definition is_terminal (s : ComputeBondStatus) : bool :=
  bool_decide (s ∈ TERMINAL_COMPUTE_BOND_STATUSES).

(** ** The signed text

    [frac_text] is Number::toString outside the integers below 10^21, which only
    an unvalidated payload can reach. *)
Definition number_text (frac_text : Q -> string) (q : Q) : string :=
  if is_integer q then z_text (Qnum q / Zpos (Qden q)) else frac_text q.

Definition canonicalComputeBondAttestation (frac_text : Q -> string)
    (p : ComputeBondAttestationPayload) : string :=
  json_object ("agent_did", JStr (agent_did p))
    [("provider", JStr (provider_text (provider p)));
     ("lease_id", JStr (lease_id p));
     ("gpu_hours", JNum (number_text frac_text (gpu_hours p)));
     ("expires_at", JNum (number_text frac_text (expires_at p)))].

(** ** Validation *)

Definition positive_integer (q : Q) : bool := is_integer q && negb (q_leb q 0).

Definition validateComputeBondAttestation (p : ComputeBondAttestationPayload) : list string :=
  push_if (String.length (agent_did p) <? 16)%nat "agent_did is too short" ++
  push_if (String.length (lease_id p) =? 0)%nat "lease_id is required" ++
  push_if (negb (positive_integer (gpu_hours p))) "gpu_hours must be a positive integer" ++
  push_if (negb (positive_integer (expires_at p))) "expires_at must be a positive integer".

Definition validateComputeBondRecord (r : ComputeBondRecord) : list string :=
  validateComputeBondAttestation r ++
  push_if (q_ltb (reserved_price_usd_micro r) 0) "reserved_price_usd_micro must be non-negative" ++
  push_if (negb (is_integer (slashable_until r)) || q_ltb (slashable_until r) (expires_at r))
    "slashable_until must be >= expires_at" ++
  push_if (negb (positive_integer (created_at_ms r))) "created_at_ms must be a positive integer" ++
  push_if (negb (is_integer (updated_at_ms r)) || q_ltb (updated_at_ms r) (created_at_ms r))
    "updated_at_ms must be >= created_at_ms" ++
  push_if (bool_decide (status r = locked) && negb (truthy (task_id r)))
    "locked bonds must carry task_id" ++
  push_if (is_terminal (status r) && bool_decide (task_id r = Some ""))
    "task_id cannot be empty".

(** ** Transitions *)

(** [record.status === s && record.task_id === task] *)
Definition already (r : ComputeBondRecord) (s : ComputeBondStatus) (task : string) : bool :=
  bool_decide (status r = s) && bool_decide (task_id r = Some task).

Definition validateComputeBondTransition (r : ComputeBondRecord) (t : ComputeBondTransition) : list string :=
  match t with
  | Lock task now =>
    if already r locked task then [] else
    push_if (bool_decide (status r <> reserved)) ("bond cannot lock from status " +:+ status_text (status r)) ++
    push_if (truthy (task_id r) && bool_decide (task_id r <> Some task)) "bond is already bound to another task" ++
    push_if (q_leb (expires_at r) (now / 1000)) "bond reservation has already expired"
  | Release task now =>
    if already r released task then [] else
    push_if (bool_decide (status r <> locked)) ("bond cannot release from status " +:+ status_text (status r)) ++
    push_if (bool_decide (task_id r <> Some task)) "release task_id does not match locked task"
  | Slash task now _ =>
    if already r slashed task then [] else
    push_if (bool_decide (status r <> locked)) ("bond cannot slash from status " +:+ status_text (status r)) ++
    push_if (bool_decide (task_id r <> Some task)) "slash task_id does not match locked task"
  | Cancel now =>
    if bool_decide (status r = cancelled) then [] else
    push_if (bool_decide (status r <> reserved)) ("bond cannot cancel from status " +:+ status_text (status r))
  | Expire now =>
    if bool_decide (status r = expired) then [] else
    push_if (is_terminal (status r)) ("bond cannot expire from status " +:+ status_text (status r)) ++
    push_if (q_ltb (now / 1000) (slashable_until r)) "slashable window is still active"
  end.

(** [{ ...record, status, task_id, updated_at_ms, status_reason }] *)
Definition with_status (r : ComputeBondRecord) (s : ComputeBondStatus) (task : option string)
    (now : Q) (reason : option string) : ComputeBondRecord :=
  {| payload := payload r;
     attestation_sig := attestation_sig r;
     broker_pubkey := broker_pubkey r;
     reserved_price_usd_micro := reserved_price_usd_micro r;
     slashable_until := slashable_until r;
     task_id := task;
     status := s;
     created_at_ms := created_at_ms r;
     updated_at_ms := now;
     status_reason := reason |}.

Definition apply_transition (r : ComputeBondRecord) (t : ComputeBondTransition) : ComputeBondRecord :=
  match t with
  | Lock task now => with_status r locked (Some task) now None
  | Release _ now => with_status r released (task_id r) now None
  | Slash _ now reason => with_status r slashed (task_id r) now (Some (default "task slashed" reason))
  | Cancel now => with_status r cancelled (task_id r) now (Some "agent cancelled reservation")
  | Expire now => with_status r expired (task_id r) now (Some "slashable window elapsed")
  end.

Definition transitionComputeBond (r : ComputeBondRecord) (t : ComputeBondTransition) : result ComputeBondRecord :=
  match validateComputeBondTransition r t with
  | [] => Ok (apply_transition r t)
  | errors => Throw (String.concat "; " errors)
  end.

(** ** The abstract state machine *)

Inductive abs_bond :=
| A_reserved
| A_locked (task : string)
| A_released (task : string)
| A_slashed (task : string)
| A_cancelled
| A_expired (task : option string).

Definition abs_of (r : ComputeBondRecord) : option abs_bond :=
  match status r, task_id r with
  | reserved, None => Some A_reserved
  | locked, Some t => Some (A_locked t)
  | released, Some t => Some (A_released t)
  | slashed, Some t => Some (A_slashed t)
  | cancelled, None => Some A_cancelled
  | expired, o => Some (A_expired o)
  | _, _ => None
  end.

(** What the protocol allows: [exp] and [slash_end] are the reservation's expiry
    and the end of the slashable window in Unix seconds.  Every terminal state
    accepts the repetition of the transition that led to it. *)
Inductive astep (exp slash_end : Q) : ComputeBondTransition -> abs_bond -> abs_bond -> Prop :=
| as_lock task now : (now / 1000 < exp)%Q -> astep exp slash_end (Lock task now) A_reserved (A_locked task)
| as_relock task now : astep exp slash_end (Lock task now) (A_locked task) (A_locked task)
| as_release task now : astep exp slash_end (Release task now) (A_locked task) (A_released task)
| as_rerelease task now : astep exp slash_end (Release task now) (A_released task) (A_released task)
| as_slash task now why : astep exp slash_end (Slash task now why) (A_locked task) (A_slashed task)
| as_reslash task now why : astep exp slash_end (Slash task now why) (A_slashed task) (A_slashed task)
| as_cancel now : astep exp slash_end (Cancel now) A_reserved A_cancelled
| as_recancel now : astep exp slash_end (Cancel now) A_cancelled A_cancelled
| as_expire_reserved now : (slash_end <= now / 1000)%Q -> astep exp slash_end (Expire now) A_reserved (A_expired None)
| as_expire_locked task now : (slash_end <= now / 1000)%Q -> astep exp slash_end (Expire now) (A_locked task) (A_expired (Some task))
| as_reexpire o now : astep exp slash_end (Expire now) (A_expired o) (A_expired o).

(** A bond the broker has just reserved. *)
Definition fresh (r : ComputeBondRecord) : Prop := status r = reserved /\ task_id r = None.

(** The runs of one bond: the accepted transitions, oldest first. *)
Inductive bond_run (r0 : ComputeBondRecord) : list ComputeBondTransition -> ComputeBondRecord -> Prop :=
| run_start : bond_run r0 [] r0
| run_step ts r t r' :
    bond_run r0 ts r -> transitionComputeBond r t = Ok r' -> bond_run r0 (ts ++ [t]) r'.

(** What no transition may change. *)
Definition same_reservation (r r' : ComputeBondRecord) : Prop :=
  payload r' = payload r /\ attestation_sig r' = attestation_sig r /\
  broker_pubkey r' = broker_pubkey r /\ reserved_price_usd_micro r' = reserved_price_usd_micro r /\
  slashable_until r' = slashable_until r /\ created_at_ms r' = created_at_ms r.

(** ** Lemmas *)

Lemma throw_iff_errors r t :
  (exists m, transitionComputeBond r t = Throw m) <-> validateComputeBondTransition r t <> [].
Proof.
  unfold transitionComputeBond. destruct (validateComputeBondTransition r t); split; try done; eauto.
  by intros [m Hm].
Qed.

Lemma transition_ok_inv r t r' :
  transitionComputeBond r t = Ok r' ->
  validateComputeBondTransition r t = [] /\ r' = apply_transition r t.
Proof. unfold transitionComputeBond. destruct (validateComputeBondTransition r t); naive_solver. Qed.

Lemma apply_transition_frame r t : same_reservation r (apply_transition r t).
Proof. by destruct t. Qed.

Lemma apply_transition_now r t : updated_at_ms (apply_transition r t) = transition_now t.
Proof. by destruct t. Qed.

Lemma transition_frame r t r' : transitionComputeBond r t = Ok r' -> same_reservation r r'.
Proof. intros [_ ->]%transition_ok_inv. apply apply_transition_frame. Qed.

Lemma same_reservation_trans a b c : same_reservation a b -> same_reservation b c -> same_reservation a c.
Proof. unfold same_reservation. intuition congruence. Qed.

Lemma bond_run_frame r0 ts r : bond_run r0 ts r -> same_reservation r0 r.
Proof.
  induction 1 as [|ts r t r' _ IH Ht]; [done|].
  eapply same_reservation_trans; [exact IH|]. by eapply transition_frame.
Qed.

(** The two functions of the code agree with [astep], both ways. *)
Lemma validate_abs r t a :
  abs_of r = Some a ->
  (validateComputeBondTransition r t = [] <-> exists a', astep (expires_at r) (slashable_until r) t a a').
Proof.
  intros Ha. unfold abs_of in Ha. unfold validateComputeBondTransition, already, is_terminal.
  split.
  - intros H. destruct (status r) eqn:Hs, (task_id r) as [tk|] eqn:Ht; simplify_eq/=;
      destruct t; guards; simplify_eq/=; to_prop; eauto using astep.
  - intros [a' Hstep]. destruct (status r) eqn:Hs, (task_id r) as [tk|] eqn:Ht; simplify_eq/=;
      inversion Hstep; subst; guards; simplify_eq/=; to_prop; try done; lra.
Qed.

Lemma apply_abs r t a :
  abs_of r = Some a -> validateComputeBondTransition r t = [] ->
  exists a', abs_of (apply_transition r t) = Some a' /\
    astep (expires_at r) (slashable_until r) t a a'.
Proof.
  intros Ha Hv. unfold abs_of in Ha. unfold validateComputeBondTransition, already, is_terminal in Hv.
  destruct (status r) eqn:Hs, (task_id r) as [tk|] eqn:Ht; simplify_eq/=;
    destruct t; guards; simplify_eq/=; to_prop; unfold abs_of; simpl; rewrite ?Ht; eauto using astep.
Qed.

Lemma fresh_abs r : fresh r -> abs_of r = Some A_reserved.
Proof. unfold fresh, abs_of. by intros [-> ->]. Qed.

Lemma bond_run_abs r0 ts r : bond_run r0 ts r -> fresh r0 -> is_Some (abs_of r).
Proof.
  intros Hrun Hf. induction Hrun as [|ts r t r' _ IH Ht].
  - rewrite fresh_abs by done. eauto.
  - destruct IH as [a Ha]. apply transition_ok_inv in Ht as [Hv ->].
    destruct (apply_abs r t a Ha Hv) as (a' & Ha' & _). eauto.
Qed.

(** How a run of a fresh bond relates to the state it has reached. *)
Definition provenance (r0 : ComputeBondRecord) (ts : list ComputeBondTransition) (a : abs_bond) : Prop :=
  match a with
  | A_reserved => ts = []
  | A_locked task | A_released task | A_slashed task =>
    exists now rest, ts = Lock task now :: rest /\ (now / 1000 < expires_at r0)%Q
  | A_cancelled => ts <> [] /\ Forall (fun t => exists now, t = Cancel now) ts
  | A_expired _ => exists now, Expire now ∈ ts /\ (slashable_until r0 <= now / 1000)%Q
  end.

Lemma provenance_step r0 ts t a a' :
  provenance r0 ts a -> astep (expires_at r0) (slashable_until r0) t a a' -> provenance r0 (ts ++ [t]) a'.
Proof.
  intros Hp Hs.
  inversion Hs; subst; simpl in *; destruct_and?; destruct_exists; subst; simpl;
    try (by repeat eexists); eauto 10.
  - split; [by intros []%app_nil_iff|]. apply Forall_app. split; [done|]. repeat constructor. eauto.
  - exists now. split; [set_solver | done].
  - exists now. split; [set_solver | done].
  - eexists. split; [|done]. set_solver.
Qed.

Lemma bond_run_provenance_abs r0 ts r a :
  fresh r0 -> bond_run r0 ts r -> abs_of r = Some a -> provenance r0 ts a.
Proof.
  intros Hf Hrun. revert a. induction Hrun as [|ts r t r' Hrun IH Ht]; intros a Ha.
  - rewrite fresh_abs in Ha by done. by simplify_eq.
  - destruct (bond_run_abs _ _ _ Hrun Hf) as [b Hb].
    destruct (bond_run_frame _ _ _ Hrun) as (Hp & _ & _ & _ & Hsl & _).
    apply transition_ok_inv in Ht as [Hv ->].
    destruct (apply_abs r t b Hb Hv) as (a' & Ha' & Hs). rewrite Ha in Ha'. simplify_eq.
    rewrite Hp, Hsl in Hs. eauto using provenance_step.
Qed.

Lemma terminal_step r t r' :
  is_terminal (status r) = true -> is_Some (abs_of r) -> transitionComputeBond r t = Ok r' ->
  status r' = status r /\ task_id r' = task_id r.
Proof.
  intros Hterm [a Ha] [Hv ->]%transition_ok_inv.
  unfold is_terminal in Hterm. unfold abs_of in Ha.
  unfold validateComputeBondTransition, already, is_terminal in Hv.
  destruct (status r) eqn:Hs, (task_id r) as [tk|] eqn:Ht; simplify_eq/=;
    destruct t; guards; simplify_eq/=; naive_solver.
Qed.

Lemma number_text_ok f q : is_integer q = true -> num_text_ok (number_text f q) = true.
Proof. intros H. unfold number_text. rewrite H. auto with saep. Qed.

Lemma number_text_inj f p q :
  is_integer p = true -> is_integer q = true -> number_text f p = number_text f q -> (p == q)%Q.
Proof.
  intros Hp Hq. unfold number_text. rewrite Hp, Hq. intros H%z_text_inj.
  unfold is_integer in *. apply Z.eqb_eq in Hp, Hq.
  unfold Qeq. rewrite (proj2 (Z.div_exact (Qnum p) (Zpos (Qden p)) ltac:(done)) Hp).
  rewrite (proj2 (Z.div_exact (Qnum q) (Zpos (Qden q)) ltac:(done)) Hq). rewrite H. ring.
Qed.

Lemma attestation_integers p :
  validateComputeBondAttestation p = [] ->
  is_integer (gpu_hours p) = true /\ is_integer (expires_at p) = true.
Proof.
  unfold validateComputeBondAttestation, positive_integer. rewrite !app_nil_iff, !push_if_nil.
  intros (_ & _ & Hg & He). apply negb_false_iff in Hg, He.
  apply andb_true_iff in Hg as [? _], He as [? _]. auto.
Qed.

Lemma provider_text_inj p q : provider_text p = provider_text q -> p = q.
Proof. by destruct p, q. Qed.

(** What the record keeps true beside [validateComputeBondRecord]: the status
    and the task agree, so that the record denotes an abstract state. *)
Definition record_ok (r : ComputeBondRecord) : Prop :=
  validateComputeBondRecord r = [] /\ is_Some (abs_of r).

(** A transition stamped by a clock that has not gone back, naming a real task. *)
Definition timely (r : ComputeBondRecord) (t : ComputeBondTransition) : Prop :=
  is_integer (transition_now t) = true /\ (updated_at_ms r <= transition_now t)%Q /\
  match t with Lock task _ => task <> "" | _ => True end.

(** ** Properties *)

(** C1: [transitionComputeBond] implements the abstract bond protocol exactly.
    From a record that denotes the abstract state [a], an accepted transition
    leads to a record that denotes a successor of [a], touches nothing of the
    reservation itself and stamps the new time; a transition that throws has no
    successor in the protocol at all. *)
Theorem transition_refines r t a :
  abs_of r = Some a ->
  match transitionComputeBond r t with
  | Ok r' => exists a', abs_of r' = Some a' /\
      astep (expires_at r) (slashable_until r) t a a' /\
      same_reservation r r' /\ updated_at_ms r' = transition_now t
  | Throw _ => forall a', ~ astep (expires_at r) (slashable_until r) t a a'
  end.
Proof.
  intros Ha. destruct (transitionComputeBond r t) as [r'|m] eqn:E.
  - apply transition_ok_inv in E as [Hv ->].
    destruct (apply_abs r t a Ha Hv) as (a' & ? & ?).
    eauto using apply_transition_frame, apply_transition_now.
  - intros a' Hs. apply (throw_iff_errors r t); [by eauto|].
    apply (validate_abs r t a Ha). eauto.
Qed.

(** C36: every record reached from a valid one is valid ([record_ok]).  If the record
    passes [validateComputeBondRecord] and its status and task agree, no task while
    reserved or cancelled and one while locked, released or slashed, then the same
    holds of the record after an accepted transition, provided ([timely]) the clock is
    an integer that has not gone back and a lock names a non-empty task (which the
    broker's schema enforces).  Without the agreement it may fail: cancelling a
    reserved record that names an empty task leaves an invalid one. *)
Theorem transition_preserves_validity r t r' :
  record_ok r -> timely r t -> transitionComputeBond r t = Ok r' -> record_ok r'.
Proof.
  intros [Hv [a Ha]] (Hint & Hle & Htask) [Ht ->]%transition_ok_inv.
  destruct (apply_abs r t a Ha Ht) as (a' & Ha' & Hs). split; [|by eauto].
  unfold validateComputeBondRecord in *. rewrite !app_nil_iff, !push_if_nil in *.
  destruct (apply_transition_frame r t) as (-> & _ & _ & -> & -> & ->).
  rewrite apply_transition_now, Hint. destruct Hv as (H1 & H2 & H3 & H4 & H5 & H6 & H7).
  split_and!; auto.
  - apply orb_false_iff in H5 as [_ H5]. simpl. apply q_ltb_ge. apply q_ltb_ge in H5. lra.
  - unfold abs_of in Ha. inversion Hs; subst; simpl; try done; by destruct task.
  - unfold abs_of in *. unfold is_terminal in *.
    destruct (status r), (task_id r) as [tk|] eqn:Htk; simplify_eq/=; inversion Hs; subst; simpl in *;
      rewrite ?Htk in *; guards; simplify_eq/=; naive_solver.
Qed.

(** Where a bond's state comes from.  Along any run of a freshly reserved
    bond: it is still reserved only if nothing has happened; it is cancelled only
    by cancellations; a locked, released or slashed bond carries the task of the
    first accepted transition, a lock made before the reservation expired; and
    an expired bond was expired after the end of its slashable window. *)
Theorem bond_run_history r0 ts r :
  fresh r0 -> bond_run r0 ts r ->
  match status r with
  | reserved => ts = []
  | cancelled => ts <> [] /\ Forall (fun t => exists now, t = Cancel now) ts
  | locked | released | slashed => exists task now rest,
      task_id r = Some task /\ ts = Lock task now :: rest /\ (now / 1000 < expires_at r0)%Q
  | expired => exists now, Expire now ∈ ts /\ (slashable_until r0 <= now / 1000)%Q
  end.
Proof.
  intros Hf Hrun. destruct (bond_run_abs _ _ _ Hrun Hf) as [a Ha].
  pose proof (bond_run_provenance_abs _ _ _ _ Hf Hrun Ha) as Hp.
  unfold abs_of in Ha. destruct (status r), (task_id r); simplify_eq/=; naive_solver.
Qed.

(** Released, slashed, cancelled and expired are final: no run leaves such a
    status, and the task the bond is bound to stays the same. *)
Theorem terminal_status_final r0 ts r :
  is_terminal (status r0) = true -> is_Some (abs_of r0) -> bond_run r0 ts r ->
  status r = status r0 /\ task_id r = task_id r0.
Proof.
  intros Hterm Habs Hrun.
  assert (status r = status r0 /\ task_id r = task_id r0 /\ is_Some (abs_of r)) as (? & ? & _); [|done].
  induction Hrun as [|ts r t r' _ (IHs & IHt & IHa) Ht]; [done|].
  assert (Hr : is_terminal (status r) = true) by congruence.
  destruct (terminal_step r t r' Hr IHa Ht) as [E1 E2]. split_and!; [congruence..|].
  destruct IHa as [a Ha]. apply transition_ok_inv in Ht as [Hv ->].
  destruct (apply_abs r t a Ha Hv) as (a' & -> & _). eauto.
Qed.

(** The signed text binds every field of an attestation: two validated
    payloads with the same canonical text agree on the agent, the provider, the
    lease, the GPU hours and the expiry. *)
Theorem canonical_attestation_binds frac_text p q :
  validateComputeBondAttestation p = [] -> validateComputeBondAttestation q = [] ->
  canonicalComputeBondAttestation frac_text p = canonicalComputeBondAttestation frac_text q ->
  agent_did p = agent_did q /\ provider p = provider q /\ lease_id p = lease_id q /\
  (gpu_hours p == gpu_hours q)%Q /\ (expires_at p == expires_at q)%Q.
Proof.
  intros [Hgp Hep]%attestation_integers [Hgq Heq]%attestation_integers H.
  apply json_object_inj in H as [Ha Hb].
  - simplify_eq. split_and!; eauto using provider_text_inj, number_text_inj.
  - unfold field_ok; simpl. by rewrite !number_text_ok.
  - unfold field_ok; simpl. by rewrite !number_text_ok.
Qed.

(** ** Witnesses *)

Definition bond_example : ComputeBondRecord :=
  {| payload := {| agent_did := "9xQeWvG816bUx9EPjHmaT23yvVM2ZWbrrpZb9PusVFin"; provider := ionet;
       lease_id := "ionet-mock-1"; gpu_hours := 4; expires_at := 2000 |};
     attestation_sig := "sig"; broker_pubkey := "pk"; reserved_price_usd_micro := 40000000;
     slashable_until := 88400; task_id := None; status := reserved;
     created_at_ms := 1000000; updated_at_ms := 1000000; status_reason := None |}.

Definition locked_example : ComputeBondRecord := apply_transition bond_example (Lock "task-7" 1200000).

Lemma transition_refines_witness :
  exists a', abs_of locked_example = Some a' /\
    astep 2000 88400 (Lock "task-7" 1200000) A_reserved a' /\
    same_reservation bond_example locked_example /\ updated_at_ms locked_example = 1200000%Q.
Proof. exact (transition_refines bond_example (Lock "task-7" 1200000) A_reserved eq_refl). Defined.

Lemma transition_preserves_validity_witness : record_ok locked_example.
Proof.
  apply (transition_preserves_validity bond_example (Lock "task-7" 1200000) locked_example).
  - split; [reflexivity | by eexists].
  - split_and!; [reflexivity | simpl; lra | done].
  - reflexivity.
Defined.

Lemma bond_run_history_witness : exists task now rest,
  task_id locked_example = Some task /\ [Lock "task-7" 1200000] = Lock task now :: rest /\ (now / 1000 < 2000)%Q.
Proof.
  refine (bond_run_history bond_example [Lock "task-7" 1200000] locked_example _ _).
  - done.
  - apply (run_step bond_example [] bond_example); [constructor | reflexivity].
Defined.

Definition released_example : ComputeBondRecord := apply_transition locked_example (Release "task-7" 1300000).

Lemma terminal_status_final_witness :
  status (apply_transition released_example (Release "task-7" 1400000)) = released.
Proof.
  refine (proj1 (terminal_status_final released_example [Release "task-7" 1400000] _ _ _ _)).
  - reflexivity.
  - by eexists.
  - apply (run_step released_example [] released_example); [constructor | reflexivity].
Defined.

Lemma canonical_attestation_binds_witness : lease_id bond_example = lease_id locked_example.
Proof.
  refine (proj1 (proj2 (proj2 (canonical_attestation_binds (fun _ => "0.5") bond_example locked_example _ _ _))));
    reflexivity.
Defined.
