(* ===== verification/BondRegistry.v ===== *)
(** * BondRegistry: the broker's bond table and its file

    Models services/compute-broker/src/state.ts.  The table is a JavaScript [Map]
    from lease id to record; with a store every mutation rewrites the file with
    the records in creation order.  The file is its parsed content: [None] is a
    missing file (ENOENT), [Some bonds] the [bonds] array of the last [save]. *)

From Stdlib Require Import ZArith QArith Lqa Permutation Sorted.
From stdpp Require Import base sets list strings.
From S2P Require Import Prelude JsMap ComputeBond.

(** ** The file store *)

Abbreviation file := (option (list ComputeBondRecord)).

Definition store_load (f : file) : list ComputeBondRecord :=
  match f with
  | Some bonds => bonds
  | None => []
  end.

Definition store_save (bonds : list ComputeBondRecord) : file := Some bonds.

(** ** The registry *)

(** [store] is [Some f] when the registry was built with a store, [f] being the
    current content of its file. *)
Record ComputeBondRegistry := {
  bonds : list (string * ComputeBondRecord);
  store : option file;
}.

Definition set_bonds (rs : list ComputeBondRecord) (m : list (string * ComputeBondRecord)) :=
  fold_left (fun m (b : ComputeBondRecord) => map_set (lease_id b) b m) rs m.

(** [new ComputeBondRegistry(store)] *)
Definition new_registry (st : option file) : ComputeBondRegistry :=
  {| bonds := set_bonds (match st with Some f => store_load f | None => [] end) []; store := st |}.

Definition registry_get (g : ComputeBondRegistry) (leaseId : string) : option ComputeBondRecord :=
  map_get leaseId (bonds g).

Definition by_creation (a b : ComputeBondRecord) : comparison :=
  (created_at_ms a ?= created_at_ms b)%Q.

Definition snapshot (m : list (string * ComputeBondRecord)) : list ComputeBondRecord :=
  js_sort by_creation (map_values m).

Definition persist (m : list (string * ComputeBondRecord)) (st : option file) : ComputeBondRegistry :=
  {| bonds := m;
     store := match st with Some _ => Some (store_save (snapshot m)) | None => None end |}.

Definition registry_reserve (g : ComputeBondRegistry) (r : ComputeBondRecord) : ComputeBondRecord * ComputeBondRegistry :=
  match registry_get g (lease_id r) with
  | Some existing => (existing, g)
  | None => (r, persist (map_set (lease_id r) r (bonds g)) (store g))
  end.

Definition registry_replace (g : ComputeBondRegistry) (r : ComputeBondRecord) : ComputeBondRegistry :=
  persist (map_set (lease_id r) r (bonds g)) (store g).

Definition registry_transition (g : ComputeBondRegistry) (leaseId : string) (t : ComputeBondTransition) :
    result (ComputeBondRecord * ComputeBondRegistry) :=
  match registry_get g leaseId with
  | None => Throw "bond not found"
  | Some current =>
    match transitionComputeBond current t with
    | Ok next => Ok (next, persist (map_set leaseId next (bonds g)) (store g))
    | Throw e => Throw e
    end
  end.

(** ** Listing *)

Record list_filters := {
  f_agentDid : option string;
  f_taskId : option string;
  f_taskIds : option (list string);
  f_status : option ComputeBondStatus;
  f_provider : option ComputeBondProvider;
  f_limit : option Z;
}.

Definition list_filter (f : list_filters) (b : ComputeBondRecord) : bool :=
  negb (truthy (f_agentDid f) && bool_decide (Some (agent_did b) <> f_agentDid f)) &&
  negb (truthy (f_taskId f) && bool_decide (task_id b <> f_taskId f)) &&
  match f_taskIds f with
  | Some ids => truthy (task_id b) && bool_decide (default "" (task_id b) ∈ ids)
  | None => true
  end &&
  match f_status f with Some s => bool_decide (status b = s) | None => true end &&
  match f_provider f with Some p => bool_decide (provider b = p) | None => true end.

Section list_bonds.
(** String.prototype.localeCompare depends on the host's locale. *)
Variable localeCompare : string -> string -> comparison.

Definition by_recency (a b : ComputeBondRecord) : comparison :=
  match (updated_at_ms b ?= updated_at_ms a)%Q with
  | Eq => localeCompare (lease_id a) (lease_id b)
  | c => c
  end.

Definition registry_list (g : ComputeBondRegistry) (f : list_filters) : list ComputeBondRecord :=
  slice_to (default 50%Z (f_limit f))
    (js_sort by_recency (List.filter (list_filter f) (map_values (bonds g)))).
End list_bonds.

(** ** The operations of one registry as a step relation *)

Inductive registry_step : ComputeBondRegistry -> ComputeBondRegistry -> Prop :=
| rs_reserve g r : registry_step g (registry_reserve g r).2
| rs_replace g r : registry_step g (registry_replace g r)
| rs_transition g id t r g' : registry_transition g id t = Ok (r, g') -> registry_step g g'.

(** A broker process and its successors: the operations of one process, and a
    crash followed by a start from the same file. *)
Inductive registry_reachable : ComputeBondRegistry -> Prop :=
| rr_boot : registry_reachable (new_registry (Some None))
| rr_step g g' : registry_reachable g -> registry_step g g' -> registry_reachable g'
| rr_restart g : registry_reachable g -> registry_reachable (new_registry (store g)).

Definition keyed (m : list (string * ComputeBondRecord)) : Prop :=
  Forall (fun kv : string * ComputeBondRecord => kv.1 = lease_id kv.2) m.

(** Every bond is stored under its own lease id, once. *)
Definition registry_wf (g : ComputeBondRegistry) : Prop :=
  map_wf (bonds g) /\ keyed (bonds g).

(** The file, when there is one, holds the table. *)
Definition file_current (g : ComputeBondRegistry) : Prop :=
  match store g with
  | Some f => store_load f = snapshot (bonds g)
  | None => True
  end.

(** ** Lemmas *)

Lemma by_creation_le a b : cmp_le by_creation a b = true <-> (created_at_ms a <= created_at_ms b)%Q.
Proof.
  unfold cmp_le, by_creation. destruct (Qcompare_spec (created_at_ms a) (created_at_ms b)); split; intros; try done; lra.
Qed.

Lemma snapshot_sorted m : StronglySorted (fun a b => cmp_le by_creation a b = true) (snapshot m).
Proof.
  apply js_sort_sorted; [done| |].
  - intros x y H. apply by_creation_le. apply not_true_iff_false in H. rewrite by_creation_le in H. lra.
  - intros x y z. rewrite !by_creation_le. lra.
Qed.

Lemma keyed_set m (r : ComputeBondRecord) : keyed m -> keyed (map_set (lease_id r) r m).
Proof.
  unfold keyed. induction 1 as [|[k v] m Hk Hm IH]; simpl; [by repeat constructor|].
  case_decide; simpl in *; constructor; simpl; congruence || done.
Qed.

Lemma keyed_keys m : keyed m -> map_keys m = map (fun b : ComputeBondRecord => lease_id b) (map_values m).
Proof. unfold keyed, map_keys, map_values. induction 1 as [|[k v] m Hk Hm IH]; simpl in *; [done|]. by f_equal. Qed.

Lemma keyed_pairs m : keyed m -> m = map (fun b : ComputeBondRecord => (lease_id b, b)) (map_values m).
Proof. unfold keyed, map_values. induction 1 as [|[k v] m Hk Hm IH]; simpl in *; [done|]. subst. by f_equal. Qed.

Lemma map_set_fresh (k : string) (v : ComputeBondRecord) m : map_get k m = None -> map_set k v m = m ++ [(k, v)].
Proof. induction m as [|[k' v'] m IH]; simpl; [done|]. case_decide; [done|]. intros Hg. by rewrite IH. Qed.

Lemma set_bonds_fresh rs m :
  NoDup (map_keys m ++ map (fun b : ComputeBondRecord => lease_id b) rs) ->
  set_bonds rs m = m ++ map (fun b : ComputeBondRecord => (lease_id b, b)) rs.
Proof.
  unfold set_bonds. revert m. induction rs as [|r rs IH]; intros m Hnd; simpl; [by rewrite app_nil_r|].
  assert (Hf : map_get (lease_id r) m = None).
  { apply map_get_None. intros Hin. apply NoDup_app in Hnd as (_ & Hd & _).
    apply (Hd _ Hin). by left. }
  rewrite map_set_fresh by done. rewrite IH; [by rewrite <- app_assoc|].
  unfold map_keys in *. rewrite fmap_app. simpl. by rewrite <- app_assoc.
Qed.

(** Loading what [snapshot] wrote gives the same table, in creation order. *)
Lemma load_snapshot m :
  map_wf m -> keyed m ->
  let m' := set_bonds (snapshot m) [] in
  Permutation m' m /\ map_wf m' /\ keyed m' /\ snapshot m' = snapshot m.
Proof.
  intros Hwf Hk m'.
  assert (Hp : Permutation (snapshot m) (map_values m)) by apply js_sort_perm.
  assert (Hm' : m' = map (fun b : ComputeBondRecord => (lease_id b, b)) (snapshot m)).
  { unfold m'. rewrite set_bonds_fresh; [done|]. simpl. rewrite Hp, <- keyed_keys by done. done. }
  assert (Hpm : Permutation m' m).
  { rewrite Hm', Hp, <- keyed_pairs by done. done. }
  split_and!; [done| | |].
  - unfold map_wf, map_keys in *. by rewrite Hpm.
  - unfold keyed. by rewrite Hpm.
  - unfold snapshot at 1.
    assert (map_values m' = snapshot m) as ->.
    { rewrite Hm'. unfold map_values. generalize (snapshot m). intros l. induction l as [|b l IH]; simpl; [done|]. by f_equal. }
    apply js_sort_id, snapshot_sorted.
Qed.

Lemma persist_ok m st : map_wf m -> keyed m -> registry_wf (persist m st) /\ file_current (persist m st).
Proof. intros. split; [done|]. unfold file_current, persist. by destruct st. Qed.

Lemma registry_transition_lease g id t r g' :
  registry_wf g -> registry_transition g id t = Ok (r, g') ->
  lease_id r = id /\ g' = persist (map_set id r (bonds g)) (store g).
Proof.
  intros [Hwf Hk]. unfold registry_transition, registry_get.
  destruct (map_get id (bonds g)) as [c|] eqn:Hget; [|done].
  destruct (transitionComputeBond c t) as [n|] eqn:Ht; [|done]. intros [= <- <-].
  split; [|done]. destruct (transition_frame _ _ _ Ht) as [-> _].
  apply map_get_elem in Hget. eapply Forall_forall in Hk; [|exact Hget]. by symmetry.
Qed.

Lemma registry_step_inv g g' :
  registry_wf g -> file_current g -> registry_step g g' ->
  registry_wf g' /\ file_current g' /\ (store g = None <-> store g' = None).
Proof.
  intros Hwf Hfc Hs. assert (Hpair := Hwf). destruct Hpair as [Hm Hk].
  assert (Hput : forall r : ComputeBondRecord, let g1 := persist (map_set (lease_id r) r (bonds g)) (store g) in
    registry_wf g1 /\ file_current g1 /\ (store g = None <-> store g1 = None)).
  { intros r g1. destruct (persist_ok (map_set (lease_id r) r (bonds g)) (store g)); auto using keyed_set with saep.
    split_and!; try done; unfold g1, persist; simpl; by destruct (store g). }
  destruct Hs as [g r|g r|g id t r g' Ht].
  - unfold registry_reserve. destruct (registry_get g (lease_id r)); [done | apply Hput].
  - apply Hput.
  - apply registry_transition_lease in Ht as [<- ->]; [apply Hput | done].
Qed.

Lemma registry_reachable_inv g :
  registry_reachable g -> registry_wf g /\ file_current g /\ store g <> None.
Proof.
  induction 1 as [|g g' _ (Hwf & Hfc & Hst) Hs|g _ (Hwf & Hfc & Hst)].
  - split_and!; try done; unfold new_registry; simpl; auto with saep. split; [apply map_wf_nil | constructor].
  - destruct (registry_step_inv g g' Hwf Hfc Hs) as (? & ? & Hn). split_and!; try done. tauto.
  - unfold file_current in Hfc. destruct (store g) as [f|] eqn:Est; [|done].
    destruct Hwf as [Hwf Hk]. destruct (load_snapshot (bonds g) Hwf Hk) as (_ & Hwf' & Hk' & Hsn).
    unfold new_registry, registry_wf, file_current. simpl. rewrite Hfc, Hsn. done.
Qed.

Lemma restart_same g id :
  registry_reachable g ->
  registry_get (new_registry (store g)) id = registry_get g id.
Proof.
  intros Hr. destruct (registry_reachable_inv g Hr) as ([Hwf Hk] & Hfc & Hst).
  unfold file_current in Hfc. destruct (store g) as [f|]; [|done].
  destruct (load_snapshot (bonds g) Hwf Hk) as (Hp & Hwf' & _).
  unfold registry_get, new_registry. simpl. rewrite Hfc. by apply map_get_perm.
Qed.

(** ** Properties *)

(** C26: the bond table survives a restart.  Whatever sequence of reservations,
    replacements, transitions and restarts a broker with a store has gone
    through, starting again from the file gives, for every lease, exactly the
    record the running process has. *)
Theorem registry_survives_restart g id :
  registry_reachable g ->
  registry_get (new_registry (store g)) id = registry_get g id.
Proof. apply restart_same. Qed.

(** What GET /bonds lists.  For a non-negative limit the result has at most
    that many records, all of them tracked and passing every filter, most
    recently updated first; and when no more records match than the limit allows,
    every tracked record that passes the filters is in it. *)
Theorem registry_list_spec lc g f (limit := default 50%Z (f_limit f)) :
  (0 <= limit)%Z ->
  let out : list ComputeBondRecord := registry_list lc g f in
  let matching : list ComputeBondRecord := List.filter (list_filter f) (map_values (bonds g)) in
  (Z.of_nat (length out) <= limit)%Z /\
  (forall b, b ∈ out -> b ∈ map_values (bonds g) /\ list_filter f b = true) /\
  StronglySorted (fun a b => (updated_at_ms b <= updated_at_ms a)%Q) out /\
  ((Z.of_nat (length matching) <= limit)%Z ->
   forall b, b ∈ map_values (bonds g) -> list_filter f b = true -> b ∈ out).
Proof.
  intros Hlim out matching. fold limit in out.
  assert (Hp : Permutation (js_sort (by_recency lc) matching) matching) by apply js_sort_perm.
  split_and!.
  - by apply slice_to_length.
  - intros b Hb%slice_to_In. fold matching in Hb. rewrite Hp in Hb. apply list_elem_of_In, filter_In in Hb as [Hb ?].
    by apply list_elem_of_In in Hb.
  - apply slice_to_sorted, js_sort_sorted.
    + intros x y. unfold cmp_le, by_recency. destruct (Qcompare_spec (updated_at_ms y) (updated_at_ms x)); intros; try done; lra.
    + intros x y. unfold cmp_le, by_recency. destruct (Qcompare_spec (updated_at_ms y) (updated_at_ms x)); intros; try done; lra.
    + intros x y z ? ?. lra.
  - intros Hall b Hb Hf. unfold out, registry_list. fold limit matching. rewrite slice_to_all by (by rewrite js_sort_length).
    rewrite Hp. apply list_elem_of_In, filter_In. by rewrite <- list_elem_of_In.
Qed.

(** ** Witnesses *)

Definition boot : ComputeBondRegistry := new_registry (Some None).

Definition one_bond : ComputeBondRegistry := (registry_reserve boot bond_example).2.

Lemma registry_survives_restart_witness :
  registry_get (new_registry (store one_bond)) "ionet-mock-1" = Some bond_example.
Proof.
  refine (registry_survives_restart one_bond "ionet-mock-1" _).
  apply (rr_step boot); [apply rr_boot | apply rs_reserve].
Defined.

Definition no_filters : list_filters :=
  {| f_agentDid := None; f_taskId := None; f_taskIds := None; f_status := Some reserved;
     f_provider := None; f_limit := Some 1%Z |}.

Lemma registry_list_spec_witness :
  bond_example ∈ registry_list String.compare one_bond no_filters.
Proof.
  refine (proj2 (proj2 (proj2 (registry_list_spec String.compare one_bond no_filters _))) _ bond_example _ _).
  - done.
  - done.
  - by left.
  - reflexivity.
Defined.
