(* ===== verification/Providers.v ===== *)
(** * Providers: where the broker reserves GPU capacity

    Models services/compute-broker/src/providers.ts.  [ComputeProvider] is the
    TypeScript interface: a record of operations on a world [W], each of which may
    throw.  The mock provider is modelled completely; the io.net and Akash
    clients are modelled down to the HTTP request they send and the reply fields
    they read, the HTTP exchange itself ([http]) being a parameter. *)

From Stdlib Require Import ZArith QArith.
From stdpp Require Import base sets list strings.
From S2P Require Import Prelude JsMap Json ComputeBond.

(** ** The interface *)

Record LeaseRequest := {
  gpuHours : Z;
  durationSecs : Z;
  capabilityHints : option (list string);
}.

Record LeaseReservation := {
  leaseId : string;
  r_gpuHours : Q;
  r_expiresAt : Q;
  pricedUsdMicro : Q;
}.

Record ComputeProvider (W : Type) := {
  p_reserve : LeaseRequest -> W -> result LeaseReservation * W;
  p_activate : string -> W -> result unit * W;
  p_cancel : string -> W -> result Q * W;
  p_reclaim : string -> W -> result unit * W;
  p_status : string -> W -> result string * W;
}.
Arguments p_reserve {W} _ _ _.
Arguments p_activate {W} _ _ _.
Arguments p_cancel {W} _ _ _.
Arguments p_reclaim {W} _ _ _.
Arguments p_status {W} _ _ _.

Record provider_pair (W : Type) := {
  pp_ionet : ComputeProvider W;
  pp_akash : ComputeProvider W;
}.
Arguments pp_ionet {W} _.
Arguments pp_akash {W} _.

Definition selectProvider {W} (requested : ComputeBondProvider) (providers : provider_pair W) : ComputeProvider W :=
  match requested with
  | ionet => pp_ionet providers
  | akash => pp_akash providers
  end.

(** ** The mock provider *)

Inductive MockLeaseStatus := lease_reserved | lease_active | lease_cancelled | lease_reclaimed.

Definition lease_status_text (s : MockLeaseStatus) : string :=
  match s with
  | lease_reserved => "reserved"
  | lease_active => "active"
  | lease_cancelled => "cancelled"
  | lease_reclaimed => "reclaimed"
  end.

Record MockProvider := {
  mp_name : ComputeBondProvider;
  nextLeaseId : Z;
  statuses : list (string * MockLeaseStatus);
}.

Definition new_mock (name : ComputeBondProvider) : MockProvider :=
  {| mp_name := name; nextLeaseId := 1; statuses := [] |}.

Definition mock_put (m : MockProvider) (id : string) (s : MockLeaseStatus) : MockProvider :=
  {| mp_name := mp_name m; nextLeaseId := nextLeaseId m; statuses := map_set id s (statuses m) |}.

Definition mock_assertLease (m : MockProvider) (id : string) : result unit :=
  if map_has id (statuses m) then Ok tt else Throw ("mock provider lease not found: " +:+ id).

(** [reserve]: [now_ms] is [Date.now()]. *)
Definition mock_reserve (now_ms : Z) (req : LeaseRequest) (m : MockProvider) : result LeaseReservation * MockProvider :=
  let id := provider_text (mp_name m) +:+ "-mock-" +:+ z_text (nextLeaseId m) in
  let nowUnix := (now_ms / 1000)%Z in
  (Ok {| leaseId := id;
         r_gpuHours := inject_Z (gpuHours req);
         r_expiresAt := inject_Z (nowUnix + durationSecs req);
         pricedUsdMicro := inject_Z (gpuHours req * 10000000) |},
   {| mp_name := mp_name m; nextLeaseId := nextLeaseId m + 1;
      statuses := map_set id lease_reserved (statuses m) |}).

Definition mock_set (s : MockLeaseStatus) (id : string) (m : MockProvider) : result unit * MockProvider :=
  match mock_assertLease m id with
  | Ok _ => (Ok tt, mock_put m id s)
  | Throw e => (Throw e, m)
  end.

Definition mock_activate := mock_set lease_active.
Definition mock_reclaim := mock_set lease_reclaimed.

Definition mock_cancel (id : string) (m : MockProvider) : result Q * MockProvider :=
  match mock_set lease_cancelled id m with
  | (Ok _, m') => (Ok 0%Q, m')
  | (Throw e, m') => (Throw e, m')
  end.

Definition mock_status (id : string) (m : MockProvider) : result string * MockProvider :=
  match mock_assertLease m id with
  | Ok _ => (Ok (lease_status_text (default lease_reserved (map_get id (statuses m)))), m)
  | Throw e => (Throw e, m)
  end.

(** ** HTTP providers *)

Inductive body_value :=
| BStr (s : string)
| BNum (z : Z)
| BList (l : option (list string)).

Record http_request := {
  hr_url : string;
  hr_method : string;
  hr_body : option (list (string * body_value));
}.

(** A reply: [res.ok], [res.status], [res.text()] and the fields of [res.json()]
    the clients read. *)
Record http_reply := {
  hp_ok : bool;
  hp_status : Z;
  hp_text : result string;
  hp_id : string;
  hp_gpu_hours : Q;
  hp_expires_at : Q;
  hp_priced_usd_micro : Q;
  hp_refund_usd_micro : Q;
  hp_lease_status : string;
}.

Record world (N : Type) := {
  w_ionet : MockProvider;
  w_akash : MockProvider;
  w_clock_ms : Z;
  w_net : N;
}.
Arguments w_ionet {N} _.
Arguments w_akash {N} _.
Arguments w_clock_ms {N} _.
Arguments w_net {N} _.

Record provider_config := {
  ionetApiUrl : string;
  ionetApiKey : option string;
  akashRpcUrl : string;
  akashWallet : option string;
  computeProviderMode_mock : bool;
}.

Section providers.
Context {N : Type}.
Variable http : http_request -> N -> result http_reply * N.

Definition net_call {A} (q : http_request) (fail : http_reply -> string) (read : http_reply -> A)
    (w : world N) : result A * world N :=
  let (r, n) := http q (w_net w) in
  let w' := {| w_ionet := w_ionet w; w_akash := w_akash w; w_clock_ms := w_clock_ms w; w_net := n |} in
  match r with
  | Throw e => (Throw e, w')
  | Ok rep => if hp_ok rep then (Ok (read rep), w') else (Throw (fail rep), w')
  end.

(** [`... -> ${res.status}: ${body}`], the body being [''] if it cannot be read. *)
Definition http_failure (who method path : string) (rep : http_reply) : string :=
  who +:+ " " +:+ method +:+ " " +:+ path +:+ " → " +:+ z_text (hp_status rep) +:+ ": " +:+
  match hp_text rep with Ok t => t | Throw _ => "" end.

Definition ionetFetch {A} (apiUrl apiKey path method : string) (body : option (list (string * body_value)))
    (read : http_reply -> A) (w : world N) : result A * world N :=
  net_call {| hr_url := apiUrl +:+ path +:+ "?api_key=" +:+ apiKey; hr_method := method; hr_body := body |}
    (http_failure "io.net" method path) read w.

Definition read_reservation (rep : http_reply) : LeaseReservation :=
  {| leaseId := hp_id rep; r_gpuHours := hp_gpu_hours rep; r_expiresAt := hp_expires_at rep;
     pricedUsdMicro := hp_priced_usd_micro rep |}.

Definition IonetProvider (apiUrl apiKey : string) : ComputeProvider (world N) :=
  {| p_reserve req := ionetFetch apiUrl apiKey "/leases/reserve" "POST"
       (Some [("gpu_hours", BNum (gpuHours req)); ("duration_secs", BNum (durationSecs req));
              ("capability_hints", BList (capabilityHints req))]) read_reservation;
     p_activate id := ionetFetch apiUrl apiKey ("/leases/" +:+ id +:+ "/activate") "POST" None (fun _ => tt);
     p_cancel id := ionetFetch apiUrl apiKey ("/leases/" +:+ id +:+ "/cancel") "POST" None hp_refund_usd_micro;
     p_reclaim id := ionetFetch apiUrl apiKey ("/leases/" +:+ id +:+ "/reclaim") "POST" None (fun _ => tt);
     p_status id := ionetFetch apiUrl apiKey ("/leases/" +:+ id) "GET" None hp_lease_status |}.

Definition akashFetch {A} (rpcUrl path method : string) (body : option (list (string * body_value)))
    (read : http_reply -> A) (w : world N) : result A * world N :=
  net_call {| hr_url := rpcUrl +:+ path; hr_method := method; hr_body := body |}
    (http_failure "akash" method path) read w.

Definition AkashProvider (rpcUrl wallet : string) : ComputeProvider (world N) :=
  let w := Some [("wallet", BStr wallet)] in
  {| p_reserve req := akashFetch rpcUrl "/deployments" "POST"
       (Some [("wallet", BStr wallet); ("gpu_hours", BNum (gpuHours req));
              ("duration_secs", BNum (durationSecs req));
              ("capability_hints", BList (capabilityHints req))]) read_reservation;
     p_activate id := akashFetch rpcUrl ("/deployments/" +:+ id +:+ "/activate") "POST" w (fun _ => tt);
     p_cancel id := akashFetch rpcUrl ("/deployments/" +:+ id +:+ "/close") "POST" w hp_refund_usd_micro;
     p_reclaim id := akashFetch rpcUrl ("/deployments/" +:+ id +:+ "/reclaim") "POST" w (fun _ => tt);
     p_status id := akashFetch rpcUrl ("/deployments/" +:+ id) "GET" None hp_lease_status |}.

(** [class ...Unconfigured]: every operation throws. *)
Definition unconfigured (message : string) : ComputeProvider (world N) :=
  {| p_reserve _ w := (Throw message, w);
     p_activate _ w := (Throw message, w);
     p_cancel _ w := (Throw message, w);
     p_reclaim _ w := (Throw message, w);
     p_status _ w := (Throw message, w) |}.

(** The two mock providers as part of the world. *)
Definition with_ionet (w : world N) (m : MockProvider) : world N :=
  {| w_ionet := m; w_akash := w_akash w; w_clock_ms := w_clock_ms w; w_net := w_net w |}.
Definition with_akash (w : world N) (m : MockProvider) : world N :=
  {| w_ionet := w_ionet w; w_akash := m; w_clock_ms := w_clock_ms w; w_net := w_net w |}.

Definition mock_ops (get : world N -> MockProvider) (put : world N -> MockProvider -> world N) :
    ComputeProvider (world N) :=
  let lift {A} (f : MockProvider -> result A * MockProvider) (w : world N) :=
    let (r, m) := f (get w) in (r, put w m) in
  {| p_reserve req w := lift (mock_reserve (w_clock_ms w) req) w;
     p_activate id := lift (mock_activate id);
     p_cancel id := lift (mock_cancel id);
     p_reclaim id := lift (mock_reclaim id);
     p_status id := lift (mock_status id) |}.

Definition createProviders (cfg : provider_config) : provider_pair (world N) :=
  if computeProviderMode_mock cfg then
    {| pp_ionet := mock_ops w_ionet with_ionet; pp_akash := mock_ops w_akash with_akash |}
  else
    {| pp_ionet := match ionetApiKey cfg with
                   | Some key => if truthy (Some key) then IonetProvider (ionetApiUrl cfg) key
                                 else unconfigured "io.net provider not configured: set IONET_API_KEY"
                   | None => unconfigured "io.net provider not configured: set IONET_API_KEY"
                   end;
       pp_akash := match akashWallet cfg with
                   | Some w => if truthy (Some w) then AkashProvider (akashRpcUrl cfg) w
                               else unconfigured "akash provider not configured: set AKASH_WALLET"
                   | None => unconfigured "akash provider not configured: set AKASH_WALLET"
                   end |}.
End providers.
