(* ===== verification/Attestation.v ===== *)
(** * Attestation: the broker's signatures

    Models services/compute-broker/src/attestation.ts.  Ed25519 ([@noble/ed25519])
    and base58 ([bs58]) are third-party code: an [ed25519] record gives their
    operations, [ed25519_laws] what their documentation promises. *)

From Stdlib Require Import ZArith QArith Ascii.
From stdpp Require Import base countable sets list strings.
From S2P Require Import Prelude Json Hex ComputeBond.

Abbreviation bytes := (list Z).

Record ed25519 := {
  getPublicKey : bytes -> bytes;
  signBytes : string -> bytes -> bytes;
  verifyBytes : bytes -> string -> bytes -> result bool;
  bs58_encode : bytes -> string;
  bs58_decode : string -> result bytes;
}.

Record ed25519_laws (ed : ed25519) : Prop := {
  law_pk_length : forall k, length k = 32%nat -> length (getPublicKey ed k) = 32%nat;
  law_sig_length : forall m k, length k = 32%nat -> length (signBytes ed m k) = 64%nat;
  law_sign_verify : forall m k, length k = 32%nat ->
    verifyBytes ed (signBytes ed m k) m (getPublicKey ed k) = Ok true;
  law_decode_encode : forall b, bs58_decode ed (bs58_encode ed b) = Ok b;
}.

(** ** Keys in hexadecimal *)

(** The [i]-th pair of characters, for [i] from 0 to 31. *)
Definition hex_pair (clean : string) (i : nat) : string := String.substring (i * 2) 2 clean.

Definition hexToKey (hex : string) : result bytes :=
  let clean := strip_0x hex in
  if (String.length clean =? 64)%nat
  then Ok (map (fun i => to_uint8 (parseInt16 (hex_pair clean i))) (seq 0 32))
  else Throw "broker key hex must be 64 chars".

Section attestation.
Variable ed : ed25519.
Variable frac_text : Q -> string.

Definition sign (p : ComputeBondAttestationPayload) (keyBytes : bytes) : result (string * string) :=
  if (length keyBytes =? 32)%nat then
    let pk := getPublicKey ed keyBytes in
    let sig := signBytes ed (canonicalComputeBondAttestation frac_text p) keyBytes in
    Ok (bs58_encode ed sig, bs58_encode ed pk)
  else Throw "broker key must be 32 bytes".

Definition verify (p : ComputeBondAttestationPayload) (signatureBs58 pubkeyBs58 : string) : bool :=
  match bs58_decode ed signatureBs58, bs58_decode ed pubkeyBs58 with
  | Ok sig, Ok pk =>
    if negb (length sig =? 64)%nat || negb (length pk =? 32)%nat then false
    else match verifyBytes ed sig (canonicalComputeBondAttestation frac_text p) pk with
         | Ok b => b
         | Throw _ => false
         end
  | _, _ => false
  end.
End attestation.

Lemma hexToKey_length hex k : hexToKey hex = Ok k -> length k = 32%nat.
Proof. unfold hexToKey. case_match; [|done]. intros <-%ok_inj. by rewrite length_map, length_seq. Qed.

Lemma hexToKey_bytes hex k : hexToKey hex = Ok k -> Forall (fun b => 0 <= b < 256)%Z k.
Proof.
  unfold hexToKey. case_match; [|done]. intros <-%ok_inj. apply Forall_map, Forall_true.
  intros i. unfold to_uint8. case_match; [by apply Z.mod_pos_bound | lia].
Qed.

(** An attestation signed with a loaded key carries a signature that [verify]
    accepts for exactly that payload. *)
Lemma sign_verify ed frac p hex key sp :
  ed25519_laws ed -> hexToKey hex = Ok key -> sign ed frac p key = Ok sp ->
  verify ed frac p sp.1 sp.2 = true.
Proof.
  intros Hl Hk%hexToKey_length. unfold sign, verify. rewrite Hk. simpl. intros [= <-]. simpl.
  rewrite !(law_decode_encode ed Hl), (law_sig_length ed Hl), (law_pk_length ed Hl) by done. simpl.
  by rewrite (law_sign_verify ed Hl).
Qed.

#[export] Hint Resolve hexToKey_length : saep.

(** ** A concrete scheme for the witnesses *)

(** A toy signature scheme that satisfies the laws: the key is its own public
    key, a signature is the key twice, and base58 is a binary code. *)
Fixpoint bits_of (p : positive) : string :=
  match p with
  | xH => EmptyString
  | xO q => String "0"%char (bits_of q)
  | xI q => String "1"%char (bits_of q)
  end.

Fixpoint of_bits (s : string) : positive :=
  match s with
  | EmptyString => xH
  | String c s' => if bool_decide (c = "1"%char) then xI (of_bits s') else xO (of_bits s')
  end.

Definition toy_ed : ed25519 :=
  {| getPublicKey k := k;
     signBytes _ k := k ++ k;
     verifyBytes sig _ pk := Ok (bool_decide (sig = pk ++ pk));
     bs58_encode b := bits_of (encode b);
     bs58_decode s := match decode (of_bits s) with Some b => Ok b | None => Throw "bad encoding" end |}.

Lemma of_bits_of p : of_bits (bits_of p) = p.
Proof. induction p as [p IH|p IH|]; simpl; [|unfold bool_decide; simpl|done]; by rewrite IH. Qed.

Lemma toy_ed_laws : ed25519_laws toy_ed.
Proof.
  split; simpl; try done.
  - intros _ k Hk. by rewrite length_app, Hk.
  - intros _ k _. by rewrite bool_decide_true.
  - intros b. by rewrite of_bits_of, decode_encode.
Qed.
