(* ===== verification/Broker.v ===== *)
(** * Broker: the compute broker's HTTP handlers

    Models services/compute-broker/src/server.ts.  A handler is a function from
    the server's state (the bond registry and the outside world of providers and
    indexer) to a reply and the next state.  The three handlers that bind, release
    and slash a bond change the registry first and wait for the provider after,
    putting the old record back if it fails; other requests run in between, so
    they are also given as separate steps ([begin_action], [finish_action]).
    Metrics and log lines are not modelled. *)

From Stdlib Require Import ZArith QArith Lqa.
From stdpp Require Import base sets list strings relations.
From S2P Require Import Prelude JsMap Json ComputeBond BondRegistry Providers Attestation.

(** ** Request bodies and their schemas

    A body is the shape zod hands on once every field has its type; the checks on
    values are the [_ok] predicates.  [None] is a body of another shape. *)

Definition did_ok (s : string) : bool := ((32 <=? String.length s) && (String.length s <=? 44))%nat.
Definition nonempty (s : string) : bool := (1 <=? String.length s)%nat.

Definition safe_parse {A} (ok : A -> bool) (raw : option A) : option A :=
  match raw with
  | Some b => if ok b then Some b else None
  | None => None
  end.

Record BondRequestBody := {
  rq_agent_did : string;
  rq_provider : ComputeBondProvider;
  rq_gpu_hours : Z;
  rq_duration_secs : Z;
  rq_capability_hints : option (list string);
}.

Definition BondRequestBody_ok (b : BondRequestBody) : bool :=
  did_ok (rq_agent_did b) && (0 <? rq_gpu_hours b)%Z && (0 <? rq_duration_secs b)%Z.

Record BondCancelBody := { cb_lease_id : string; cb_agent_did : string; cb_signed_request : string }.

Definition BondCancelBody_ok (b : BondCancelBody) : bool :=
  nonempty (cb_lease_id b) && did_ok (cb_agent_did b) && nonempty (cb_signed_request b).

Record LeaseActionBody := { la_lease_id : string; la_provider : ComputeBondProvider }.

Definition LeaseActionBody_ok (b : LeaseActionBody) : bool := nonempty (la_lease_id b).

Record BondVerifyBody := {
  bv_agent_did : string;
  bv_provider : ComputeBondProvider;
  bv_lease_id : string;
  bv_gpu_hours : Z;
  bv_expires_at : Z;
  bv_attestation_sig : string;
  bv_broker_pubkey : string;
}.

Definition BondVerifyBody_ok (b : BondVerifyBody) : bool :=
  did_ok (bv_agent_did b) && nonempty (bv_lease_id b) && (0 <? bv_gpu_hours b)%Z &&
  (0 <? bv_expires_at b)%Z && nonempty (bv_attestation_sig b) && nonempty (bv_broker_pubkey b).

Record BondListQuery := {
  lq_agent_did : option string;
  lq_task_id : option string;
  lq_task_ids : option string;
  lq_status : option ComputeBondStatus;
  lq_provider : option ComputeBondProvider;
  lq_limit : option Z;
}.

Definition opt_ok {A} (ok : A -> bool) (o : option A) : bool :=
  match o with
  | Some a => ok a
  | None => true
  end.

Definition BondListQuery_ok (q : BondListQuery) : bool :=
  opt_ok did_ok (lq_agent_did q) && opt_ok nonempty (lq_task_id q) &&
  opt_ok (fun n => (1 <=? n) && (n <=? 200))%Z (lq_limit q).

Record BondTaskActionBody := {
  ta_lease_id : string;
  ta_provider : ComputeBondProvider;
  ta_agent_did : string;
  ta_task_id : string;
  ta_reason : option string;  (* BondSlashBody only *)
}.

Definition BondTaskActionBody_ok (b : BondTaskActionBody) : bool :=
  nonempty (ta_lease_id b) && did_ok (ta_agent_did b) && nonempty (ta_task_id b).

Definition BondSlashBody_ok (b : BondTaskActionBody) : bool :=
  BondTaskActionBody_ok b && opt_ok nonempty (ta_reason b).

Record SweepLease := { sl_lease_id : string; sl_provider : ComputeBondProvider; sl_slashable_until : Z }.

Record ExpireSweepBody := { sw_now_unix : option Z; sw_leases : list SweepLease }.

Definition ExpireSweepBody_ok (b : ExpireSweepBody) : bool :=
  opt_ok (fun n => 0 <? n)%Z (sw_now_unix b) && negb (bool_decide (sw_leases b = [])) &&
  forallb (fun l => nonempty (sl_lease_id l) && (0 <? sl_slashable_until l)%Z) (sw_leases b).

(** ** Replies *)

Inductive sweep_status := sweep_reclaimed | sweep_skipped | sweep_error.

#[export] Instance sweep_status_eq_dec : EqDecision sweep_status.
Proof. solve_decision. Defined.

Record sweep_result := {
  sr_lease_id : string;
  sr_provider : ComputeBondProvider;
  sr_status : sweep_status;
  sr_reason : option string;
}.

Inductive reply_body :=
| B_bad_request  (* parsed.error.message *)
| B_error (message : string)
| B_bond (bond : ComputeBondRecord) (provider_status : option string)
| B_bonds (items : list (ComputeBondRecord * option string))
| B_valid (valid : bool)
| B_requested (bond : ComputeBondRecord)
| B_lease (id : string) (provider : option ComputeBondProvider) (lease_status : string)
    (tracked : option ComputeBondStatus)
| B_cancelled (id : string) (refund_usd_micro : Q)
| B_sweep (now_unix : Z) (reclaimed skipped errors : nat) (results : list sweep_result)
| B_health (key_loaded : bool) (tracked : nat) (durable : bool).

Record reply := { code : Z; body : reply_body }.

Definition send (b : reply_body) : reply := {| code := 200; body := b |}.
Definition fail (c : Z) (message : string) : reply := {| code := c; body := B_error message |}.
Definition bad_request : reply := {| code := 400; body := B_bad_request |}.

Record broker_config := {
  signingKeyHex : option string;
  maxBondDurationSecs : Z;
  bondSlashWindowSecs : Z;
}.

(** ** Bond actions, split where the code awaits the provider *)

Inductive action := act_lock | act_release | act_slash.

Definition action_transition (k : action) (b : BondTaskActionBody) (now_ms : Z) : ComputeBondTransition :=
  match k with
  | act_lock => Lock (ta_task_id b) (inject_Z now_ms)
  | act_release => Release (ta_task_id b) (inject_Z now_ms)
  | act_slash => Slash (ta_task_id b) (inject_Z now_ms) (ta_reason b)
  end.

Definition action_schema (k : action) (b : BondTaskActionBody) : bool :=
  match k with
  | act_slash => BondSlashBody_ok b
  | _ => BondTaskActionBody_ok b
  end.

(** The provider status a successful action reports. *)
Definition action_status (k : action) : string :=
  match k with
  | act_lock => "active"
  | _ => "reclaimed"
  end.

(** A handler waiting for its provider. *)
Record pending := {
  pd_action : action;
  pd_lease : string;
  pd_provider : ComputeBondProvider;
  pd_previous : ComputeBondRecord;
  pd_next : ComputeBondRecord;
}.

(** From the request to the call of the provider, with no [await] in between. *)
Definition begin_action (k : action) (raw : option BondTaskActionBody) (now_ms : Z)
    (g : ComputeBondRegistry) : reply + (pending * ComputeBondRegistry) :=
  match safe_parse (action_schema k) raw with
  | None => inl bad_request
  | Some b =>
    match registry_get g (ta_lease_id b) with
    | None => inl (fail 404 "bond not found")
    | Some record =>
      if bool_decide (provider record <> ta_provider b) || bool_decide (agent_did record <> ta_agent_did b)
      then inl (fail 409 "bond request does not match stored reservation")
      else
        let t := action_transition k b now_ms in
        match validateComputeBondTransition record t with
        | [] =>
          match registry_transition g (ta_lease_id b) t with
          | Ok (next, g') =>
            inr ({| pd_action := k; pd_lease := ta_lease_id b; pd_provider := ta_provider b;
                    pd_previous := record; pd_next := next |}, g')
          | Throw e => inl (fail 500 e)
          end
        | errors => inl (fail 409 (String.concat "; " errors))
        end
    end
  end.

(** From the provider's answer to the reply. *)
Definition finish_action (pd : pending) (answer : result unit) (g : ComputeBondRegistry) :
    reply * ComputeBondRegistry :=
  match answer with
  | Ok _ => (send (B_bond (pd_next pd) (Some (action_status (pd_action pd)))), g)
  | Throw e => (fail 502 e, registry_replace g (pd_previous pd))
  end.

(** ** The server *)

Section broker.
Context {W : Type}.
Variable ps : provider_pair W.
Variable ed : ed25519.
Variable frac_text : Q -> string.
Variable localeCompare : string -> string -> comparison.
(** [snapshotSync.syncSnapshots], when an indexer is configured. *)
Variable sync : option (list (ComputeBondRecord * option string) -> W -> result unit * W).
Variable cfg : broker_config.

Record server := { reg : ComputeBondRegistry; outside : W }.

(** Every caller catches and logs the error, so only the world changes. *)
Definition syncBondSnapshot (bond : ComputeBondRecord) (providerStatus : option string) (w : W) : W :=
  match sync with
  | None => w
  | Some f => (f [(bond, providerStatus)] w).2
  end.

Definition inferredProviderStatus (bond : ComputeBondRecord) : option string :=
  match status bond with
  | reserved => Some "reserved"
  | locked => Some "active"
  | released | slashed | expired => Some "reclaimed"
  | cancelled => Some "cancelled"
  end.

(** The onReady hook. *)
Definition on_ready (s : server) : server :=
  match sync, snapshot (bonds (reg s)) with
  | None, _ | _, [] => s
  | Some f, bs =>
    {| reg := reg s; outside := (f (map (fun b => (b, inferredProviderStatus b)) bs) (outside s)).2 |}
  end.

Definition providerStatusFor (bond : ComputeBondRecord) (w : W) : option string * W :=
  match p_status (selectProvider (provider bond) ps) (lease_id bond) w with
  | (Ok st, w') => (Some st, w')
  | (Throw _, w') => (None, w')
  end.

Definition provider_call (k : action) (p : ComputeBondProvider) (id : string) (w : W) : result unit * W :=
  match k with
  | act_lock => p_activate (selectProvider p ps) id w
  | _ => p_reclaim (selectProvider p ps) id w
  end.

(** One of the three handlers, run with nothing in between. *)
Definition post_action (k : action) (raw : option BondTaskActionBody) (now_ms : Z) (s : server) : reply * server :=
  match begin_action k raw now_ms (reg s) with
  | inl r => (r, s)
  | inr (pd, g1) =>
    let (answer, w1) := provider_call k (pd_provider pd) (pd_lease pd) (outside s) in
    let w2 := if is_ok answer then syncBondSnapshot (pd_next pd) (Some (action_status k)) w1 else w1 in
    let (r, g2) := finish_action pd answer g1 in
    (r, {| reg := g2; outside := w2 |})
  end.

Definition post_bonds_lock := post_action act_lock.
Definition post_bonds_release := post_action act_release.
Definition post_bonds_slash := post_action act_slash.

(** POST /bonds/request *)
Definition post_bonds_request (raw : option BondRequestBody) (now_ms : Z) (s : server) : reply * server :=
  match safe_parse BondRequestBody_ok raw with
  | None => (bad_request, s)
  | Some b =>
    if (maxBondDurationSecs cfg <? rq_duration_secs b)%Z
    then (fail 400 "duration exceeds maxBondDuration", s)
    else match signingKeyHex cfg with
    | None => (fail 503 "broker key not loaded", s)
    | Some hex =>
      let (res, w1) := p_reserve (selectProvider (rq_provider b) ps)
        {| gpuHours := rq_gpu_hours b; durationSecs := rq_duration_secs b;
           capabilityHints := rq_capability_hints b |} (outside s) in
      match res with
      | Throw e => (fail 502 e, {| reg := reg s; outside := w1 |})
      | Ok r =>
        let p := {| agent_did := rq_agent_did b; provider := rq_provider b; lease_id := leaseId r;
                    gpu_hours := r_gpuHours r; expires_at := r_expiresAt r |} in
        match (let! key := hexToKey hex in sign ed frac_text p key)%saep with
        | Throw e => (fail 500 e, {| reg := reg s; outside := w1 |})
        | Ok (sig, pk) =>
          let record := {| payload := p; attestation_sig := sig; broker_pubkey := pk;
            reserved_price_usd_micro := pricedUsdMicro r;
            slashable_until := r_expiresAt r + inject_Z (bondSlashWindowSecs cfg);
            task_id := None; status := reserved; created_at_ms := inject_Z now_ms;
            updated_at_ms := inject_Z now_ms; status_reason := None |} in
          match validateComputeBondRecord record with
          | [] =>
            let g' := (registry_reserve (reg s) record).2 in
            (send (B_requested record),
             {| reg := g'; outside := syncBondSnapshot record (Some "reserved") w1 |})
          | errors => (fail 500 (String.concat "; " errors), {| reg := reg s; outside := w1 |})
          end
        end
      end
    end
  end.

(** JSON.stringify({ action: 'cancel', lease_id, agent_did }) *)
Definition cancelMsg (b : BondCancelBody) : string :=
  json_object ("action", JStr "cancel") [("lease_id", JStr (cb_lease_id b)); ("agent_did", JStr (cb_agent_did b))].

Definition asBondError (message : string) : reply :=
  fail (if bool_decide (message = "bond not found") then 404 else 409) message.

(** try ionet, on an exception try akash *)
Definition either_provider {A} (f : ComputeProvider W -> W -> result A * W) (w : W) : result A * W :=
  match f (pp_ionet ps) w with
  | (Throw _, w1) => f (pp_akash ps) w1
  | r => r
  end.

(** POST /bonds/cancel *)
Definition post_bonds_cancel (raw : option BondCancelBody) (now_ms : Z) (s : server) : reply * server :=
  match safe_parse BondCancelBody_ok raw with
  | None => (bad_request, s)
  | Some b =>
    match signingKeyHex cfg with
    | None => (fail 503 "broker key not loaded", s)
    | Some _ =>
    match bs58_decode ed (cb_signed_request b) with
    | Throw _ => (fail 400 "invalid signed_request encoding", s)
    | Ok sigBytes =>
    match bs58_decode ed (cb_agent_did b) with
    | Throw _ => (fail 400 "invalid agent_did encoding", s)
    | Ok agentPk =>
    let valid := if ((length sigBytes =? 64) && (length agentPk =? 32))%nat
                 then match verifyBytes ed sigBytes (cancelMsg b) agentPk with Ok v => v | Throw _ => false end
                 else false in
    if negb valid then (fail 403 "signed_request verification failed", s) else
    let id := cb_lease_id b in
    match either_provider (fun p => p_status p id) (outside s) with
    | (Throw _, w1) => (fail 404 "lease not found on any provider", {| reg := reg s; outside := w1 |})
    | (Ok st, w1) =>
    if bool_decide (st = "cancelled") || bool_decide (st = "reclaimed")
    then (fail 409 ("lease already " +:+ st), {| reg := reg s; outside := w1 |}) else
    match either_provider (fun p => p_cancel p id) w1 with
    | (Throw e, w2) => (fail 502 e, {| reg := reg s; outside := w2 |})
    | (Ok refund, w2) =>
    match registry_get (reg s) id with
    | None => (send (B_cancelled id refund), {| reg := reg s; outside := w2 |})
    | Some _ =>
    match registry_transition (reg s) id (Cancel (inject_Z now_ms)) with
    | Throw e => (asBondError e, {| reg := reg s; outside := w2 |})
    | Ok (next, g') =>
      (send (B_cancelled id refund), {| reg := g'; outside := syncBondSnapshot next (Some "cancelled") w2 |})
    end end end end end end end end.

(** One round of the expire-sweep loop. *)
Definition sweep_one (nowUnix : Z) (l : SweepLease) (s : server) : sweep_result * server :=
  let res st why := {| sr_lease_id := sl_lease_id l; sr_provider := sl_provider l; sr_status := st; sr_reason := why |} in
  if (nowUnix <? sl_slashable_until l)%Z then (res sweep_skipped (Some "slashable window still active"), s)
  else match p_reclaim (selectProvider (sl_provider l) ps) (sl_lease_id l) (outside s) with
  | (Throw e, w1) => (res sweep_error (Some e), {| reg := reg s; outside := w1 |})
  | (Ok _, w1) =>
    match registry_get (reg s) (sl_lease_id l) with
    | None => (res sweep_reclaimed None, {| reg := reg s; outside := w1 |})
    | Some _ =>
      match registry_transition (reg s) (sl_lease_id l) (Expire (inject_Z (nowUnix * 1000))) with
      | Throw e => (res sweep_error (Some e), {| reg := reg s; outside := w1 |})
      | Ok (next, g') =>
        (res sweep_reclaimed None, {| reg := g'; outside := syncBondSnapshot next (Some "reclaimed") w1 |})
      end
    end
  end.

Fixpoint sweep_all (nowUnix : Z) (ls : list SweepLease) (s : server) : list sweep_result * server :=
  match ls with
  | [] => ([], s)
  | l :: ls' =>
    let (r, s1) := sweep_one nowUnix l s in
    let (rs, s2) := sweep_all nowUnix ls' s1 in
    (r :: rs, s2)
  end.

Definition count_status (st : sweep_status) (rs : list sweep_result) : nat :=
  length (List.filter (fun r => bool_decide (sr_status r = st)) rs).

(** POST /leases/expire-sweep *)
Definition post_expire_sweep (raw : option ExpireSweepBody) (now_ms : Z) (s : server) : reply * server :=
  match safe_parse ExpireSweepBody_ok raw with
  | None => (bad_request, s)
  | Some b =>
    let nowUnix := default (now_ms / 1000)%Z (sw_now_unix b) in
    let (rs, s') := sweep_all nowUnix (sw_leases b) s in
    (send (B_sweep nowUnix (count_status sweep_reclaimed rs) (count_status sweep_skipped rs)
             (count_status sweep_error rs) rs), s')
  end.

(** POST /leases/activate and /leases/reclaim *)
Definition post_lease_op (f : ComputeProvider W -> string -> W -> result unit * W) (done_status : string)
    (raw : option LeaseActionBody) (s : server) : reply * server :=
  match safe_parse LeaseActionBody_ok raw with
  | None => (bad_request, s)
  | Some b =>
    let (r, w) := f (selectProvider (la_provider b) ps) (la_lease_id b) (outside s) in
    (match r with
     | Ok _ => send (B_lease (la_lease_id b) (Some (la_provider b)) done_status None)
     | Throw e => fail 502 e
     end, {| reg := reg s; outside := w |})
  end.

Definition post_leases_activate := post_lease_op p_activate "active".
Definition post_leases_reclaim := post_lease_op p_reclaim "reclaimed".

(** GET /leases/:id *)
Definition get_lease (id : string) (s : server) : reply * server :=
  let tracked := registry_get (reg s) id in
  let p := match tracked with Some r => selectProvider (provider r) ps | None => pp_ionet ps end in
  let (r, w) := p_status p id (outside s) in
  (match r with
   | Ok st => send (B_lease id (option_map (fun t : ComputeBondRecord => provider t) tracked) st (option_map status tracked))
   | Throw e => fail 501 e
   end, {| reg := reg s; outside := w |}).

(** GET /bonds/:id *)
Definition get_bond (id : string) (s : server) : reply * server :=
  match registry_get (reg s) id with
  | None => (fail 404 "bond not found", s)
  | Some bond =>
    let (st, w) := providerStatusFor bond (outside s) in
    (send (B_bond bond st), {| reg := reg s; outside := w |})
  end.

(** [items.map(providerStatusFor)], in order. *)
Fixpoint serialize_all (items : list ComputeBondRecord) (w : W) : list (ComputeBondRecord * option string) * W :=
  match items with
  | [] => ([], w)
  | b :: bs =>
    let (st, w1) := providerStatusFor b w in
    let (rest, w2) := serialize_all bs w1 in
    ((b, st) :: rest, w2)
  end.

(** GET /bonds *)
Definition get_bonds (raw : option BondListQuery) (s : server) : reply * server :=
  match safe_parse BondListQuery_ok raw with
  | None => (bad_request, s)
  | Some q =>
    let taskIds := match lq_task_ids q with
                   | Some t => if truthy (Some t)
                               then Some (List.filter nonempty (map trim (split_on comma t))) else None
                   | None => None
                   end in
    let items := registry_list localeCompare (reg s)
      {| f_agentDid := lq_agent_did q; f_taskId := lq_task_id q; f_taskIds := taskIds;
         f_status := lq_status q; f_provider := lq_provider q;
         f_limit := Some (default 50%Z (lq_limit q)) |} in
    let (out, w) := serialize_all items (outside s) in
    (send (B_bonds out), {| reg := reg s; outside := w |})
  end.

(** POST /bonds/verify *)
Definition post_bonds_verify (raw : option BondVerifyBody) (s : server) : reply * server :=
  match safe_parse BondVerifyBody_ok raw with
  | None => (bad_request, s)
  | Some b =>
    (send (B_valid (verify ed frac_text
       {| agent_did := bv_agent_did b; provider := bv_provider b; lease_id := bv_lease_id b;
          gpu_hours := inject_Z (bv_gpu_hours b); expires_at := inject_Z (bv_expires_at b) |}
       (bv_attestation_sig b) (bv_broker_pubkey b))), s)
  end.

(** GET /healthz *)
Definition get_healthz (s : server) : reply * server :=
  (send (B_health (match signingKeyHex cfg with Some _ => true | None => false end)
          (length (snapshot (bonds (reg s)))) (match store (reg s) with Some _ => true | None => false end)), s).

(** ** Routing *)

Inductive request :=
| R_request (raw : option BondRequestBody)
| R_action (k : action) (raw : option BondTaskActionBody)
| R_cancel (raw : option BondCancelBody)
| R_sweep (raw : option ExpireSweepBody)
| R_activate (raw : option LeaseActionBody)
| R_reclaim (raw : option LeaseActionBody)
| R_verify (raw : option BondVerifyBody)
| R_get_lease (id : string)
| R_get_bond (id : string)
| R_get_bonds (raw : option BondListQuery)
| R_healthz.

Definition handle (rq : request) (now_ms : Z) (s : server) : reply * server :=
  match rq with
  | R_request raw => post_bonds_request raw now_ms s
  | R_action act_lock raw => post_bonds_lock raw now_ms s
  | R_action act_release raw => post_bonds_release raw now_ms s
  | R_action act_slash raw => post_bonds_slash raw now_ms s
  | R_cancel raw => post_bonds_cancel raw now_ms s
  | R_sweep raw => post_expire_sweep raw now_ms s
  | R_activate raw => post_leases_activate raw s
  | R_reclaim raw => post_leases_reclaim raw s
  | R_verify raw => post_bonds_verify raw s
  | R_get_lease id => get_lease id s
  | R_get_bond id => get_bond id s
  | R_get_bonds raw => get_bonds raw s
  | R_healthz => get_healthz s
  end.

(** A broker process: it boots from its file and serves requests one by one. *)
Fixpoint serve (rqs : list (request * Z)) (s : server) : server :=
  match rqs with
  | [] => s
  | (rq, now_ms) :: rest => serve rest (handle rq now_ms s).2
  end.
End broker.

Arguments reg {W} _.
Arguments outside {W} _.
