(* ===== verification/BrokerSafety.v ===== *)
(** * BrokerSafety: what the compute broker guarantees

    Theorems about [Broker]: a bond action is all-or-nothing, the table is
    durable, a reservation is registered validated and signed, the expiry sweep
    respects every bond's own window; how bond actions of concurrent requests
    interleave ([istep]) and which discipline makes them atomic ([xstep]). *)

From Stdlib Require Import ZArith QArith Lqa Ascii.
From stdpp Require Import base countable sets list strings relations.
From S2P Require Import Prelude JsMap Json ComputeBond BondRegistry Providers Attestation Broker.

(** ** Interleavings *)

Abbreviation istate := (ComputeBondRegistry * list pending)%type.

(** Handlers of concurrent requests: each [await] of a bond action is a point
    where any other handler may run; cancellations and sweeps change the registry
    in one piece, after their own provider calls. *)
Inductive istep : istate -> istate -> Prop :=
| i_begin k raw now_ms g ps pd g' :
    begin_action k raw now_ms g = inr (pd, g') -> istep (g, ps) (g', pd :: ps)
| i_finish pd answer g ps1 ps2 :
    istep (g, ps1 ++ pd :: ps2) ((finish_action pd answer g).2, ps1 ++ ps2)
| i_reserve r g ps : istep (g, ps) ((registry_reserve g r).2, ps)
| i_direct id t g r g' ps :
    registry_transition g id t = Ok (r, g') -> istep (g, ps) (g', ps).

(** No handler is waiting on this lease. *)
Definition idle (id : string) (ps : list pending) : Prop := Forall (fun pd => pd_lease pd <> id) ps.

(** A lock, release or slash as it was asked for: the action, the body and the time. *)
Record task_request := { tr_action : action; tr_body : BondTaskActionBody; tr_now : Z }.

(** What a step shows to the outside: a request that is passed on to the provider; the
    provider's answer to it with the reply that is sent; a reservation; a cancellation or an expiry. *)
Inductive event :=
| E_asked (q : task_request)
| E_answered (q : task_request) (answer : result unit) (sent : reply)
| E_reserved (r : ComputeBondRecord)
| E_direct (id : string) (t : ComputeBondTransition) (r : ComputeBondRecord).

Abbreviation xstate := (ComputeBondRegistry * list (task_request * pending))%type.

(** The same steps when no two handlers work on one lease at a time, with what they
    show; a waiting action is kept with the request it came from. *)
Inductive xstep : xstate -> event -> xstate -> Prop :=
| x_begin k b now_ms g ps pd g' :
    begin_action k (Some b) now_ms g = inr (pd, g') -> idle (pd_lease pd) ps.*2 ->
    xstep (g, ps) (E_asked {| tr_action := k; tr_body := b; tr_now := now_ms |})
      (g', ({| tr_action := k; tr_body := b; tr_now := now_ms |}, pd) :: ps)
| x_finish q pd answer g ps1 ps2 :
    xstep (g, ps1 ++ (q, pd) :: ps2) (E_answered q answer (finish_action pd answer g).1) ((finish_action pd answer g).2, ps1 ++ ps2)
| x_reserve r g ps : xstep (g, ps) (E_reserved r) ((registry_reserve g r).2, ps)
| x_direct id t g r g' ps :
    registry_transition g id t = Ok (r, g') -> idle id ps.*2 -> xstep (g, ps) (E_direct id t r) (g', ps).

(** The record of a lease once the undecided action on it, if any, is undone. *)
Fixpoint committed (g : ComputeBondRegistry) (ps : list pending) (id : string) : option ComputeBondRecord :=
  match ps with
  | [] => registry_get g id
  | pd :: ps' => if decide (pd_lease pd = id) then Some (pd_previous pd) else committed g ps' id
  end.

(** The table a client sees, with one record at a lease. *)
Abbreviation table := (string -> option ComputeBondRecord).

Definition only_at (id : string) (o : option ComputeBondRecord) (c c' : table) : Prop :=
  forall i, c' i = if decide (i = id) then o else c i.

(** The specification: a table without waiting actions.  A request only asks; when the
    provider has done its part the requested transition of the bond as it is then is
    made and replied, and when it has failed nothing is and the error is replied. *)
Inductive atomic_step (c : table) : event -> table -> Prop :=
| at_asked q prev next c' : c (ta_lease_id (tr_body q)) = Some prev ->
    provider prev = ta_provider (tr_body q) -> agent_did prev = ta_agent_did (tr_body q) ->
    transitionComputeBond prev (action_transition (tr_action q) (tr_body q) (tr_now q)) = Ok next ->
    (forall i, c' i = c i) -> atomic_step c (E_asked q) c'
| at_done q u prev next c' : c (ta_lease_id (tr_body q)) = Some prev ->
    transitionComputeBond prev (action_transition (tr_action q) (tr_body q) (tr_now q)) = Ok next ->
    only_at (ta_lease_id (tr_body q)) (Some next) c c' ->
    atomic_step c (E_answered q (Ok u) (send (B_bond next (Some (action_status (tr_action q)))))) c'
| at_failed q e c' : (forall i, c' i = c i) -> atomic_step c (E_answered q (Throw e) (fail 502 e)) c'
| at_new (r : ComputeBondRecord) c' : c (lease_id r) = None -> only_at (lease_id r) (Some r) c c' -> atomic_step c (E_reserved r) c'
| at_known (r : ComputeBondRecord) old c' : c (lease_id r) = Some old -> (forall i, c' i = c i) -> atomic_step c (E_reserved r) c'
| at_direct id t prev r c' : c id = Some prev -> transitionComputeBond prev t = Ok r -> only_at id (Some r) c c' ->
    atomic_step c (E_direct id t r) c'.

Definition pending_ok (g : ComputeBondRegistry) (x : task_request * pending) : Prop :=
  let (q, pd) := x in
  registry_get g (pd_lease pd) = Some (pd_next pd) /\ lease_id (pd_previous pd) = pd_lease pd /\
  pd_action pd = tr_action q /\ pd_lease pd = ta_lease_id (tr_body q) /\
  transitionComputeBond (pd_previous pd) (action_transition (tr_action q) (tr_body q) (tr_now q)) = Ok (pd_next pd).

Definition xinv (st : xstate) : Prop :=
  registry_wf st.1 /\ NoDup (map pd_lease st.2.*2) /\ Forall (pending_ok st.1) st.2.

(** ** Lemmas on the registry *)

Lemma registry_get_lease g id (r : ComputeBondRecord) :
  registry_wf g -> registry_get g id = Some r -> lease_id r = id.
Proof.
  intros [_ Hk] Hg%map_get_elem. eapply Forall_forall in Hk; [|exact Hg]. by symmetry.
Qed.

Lemma registry_get_put g id id' r st :
  registry_get (persist (map_set id' r (bonds g)) st) id =
  if decide (id = id') then Some r else registry_get g id.
Proof. apply map_get_set. Qed.

Lemma registry_get_replace g id (r : ComputeBondRecord) :
  registry_get (registry_replace g r) id = if decide (id = lease_id r) then Some r else registry_get g id.
Proof. apply registry_get_put. Qed.

Lemma reserve_get g (r : ComputeBondRecord) :
  match registry_get g (lease_id r) with
  | None => forall id, registry_get (registry_reserve g r).2 id =
      if decide (id = lease_id r) then Some r else registry_get g id
  | Some _ => (registry_reserve g r).2 = g
  end.
Proof.
  unfold registry_reserve. destruct (registry_get g (lease_id r)); [done|].
  intros id. apply registry_get_put.
Qed.

Lemma persist_same g : file_current g -> bonds g <> [] -> persist (bonds g) (store g) = g.
Proof.
  unfold file_current, persist. destruct g as [m [[f|]|]]; simpl; intros Hf Hne; try done.
  - by rewrite Hf.
  - exfalso. apply Hne. apply (f_equal length) in Hf. unfold snapshot, map_values in Hf.
    rewrite js_sort_length, length_fmap in Hf. by destruct m.
Qed.

Lemma begin_action_inv k raw now_ms g pd g' :
  begin_action k raw now_ms g = inr (pd, g') ->
  exists b, raw = Some b /\ action_schema k b = true /\ pd_action pd = k /\
    pd_lease pd = ta_lease_id b /\ registry_get g (ta_lease_id b) = Some (pd_previous pd) /\
    provider (pd_previous pd) = ta_provider b /\ agent_did (pd_previous pd) = ta_agent_did b /\
    transitionComputeBond (pd_previous pd) (action_transition k b now_ms) = Ok (pd_next pd) /\
    registry_transition g (ta_lease_id b) (action_transition k b now_ms) = Ok (pd_next pd, g').
Proof.
  unfold begin_action, safe_parse. destruct raw as [b|]; [|done].
  destruct (action_schema k b) eqn:Hs; [|done].
  destruct (registry_get g (ta_lease_id b)) as [r|] eqn:Hg; [|done].
  destruct (_ || _) eqn:Hm; [done|]. apply orb_false_iff in Hm as [Hp Ha].
  apply bool_decide_eq_false, dec_stable in Hp, Ha.
  destruct (validateComputeBondTransition r _) eqn:Hv; [|done].
  destruct (registry_transition g (ta_lease_id b) _) as [[n g1]|] eqn:Ht; [|done].
  intros [= <- <-]. exists b. simpl. split_and!; try done.
  unfold registry_transition in Ht. rewrite Hg in Ht.
  destruct (transitionComputeBond r _); [|done]. by injection Ht as -> _.
Qed.

Lemma registry_transition_get g id t r g' :
  registry_transition g id t = Ok (r, g') ->
  exists c, registry_get g id = Some c /\ transitionComputeBond c t = Ok r /\
    forall id', registry_get g' id' = if decide (id' = id) then Some r else registry_get g id'.
Proof.
  unfold registry_transition. destruct (registry_get g id) as [c|] eqn:Hg; [|done].
  destruct (transitionComputeBond c t) eqn:Ht; [|done]. intros [= <- <-].
  exists c. split_and!; auto using registry_get_put.
Qed.

(** A failed action puts the whole registry back, file included. *)
Lemma rollback_exact k raw now_ms g pd g' e :
  registry_wf g -> file_current g -> begin_action k raw now_ms g = inr (pd, g') ->
  (finish_action pd (Throw e) g').2 = g.
Proof.
  intros Hwf Hfc (b & -> & _ & _ & _ & Hg & _ & _ & _ & Ht)%begin_action_inv.
  apply registry_transition_lease in Ht as [_ ->]; [|done].
  pose proof (registry_get_lease _ _ _ Hwf Hg) as Hl.
  simpl. unfold registry_replace. rewrite Hl. simpl. rewrite map_set_rollback by done.
  transitivity (persist (bonds g) (store g)); [by destruct (store g)|].
  apply persist_same; [done|]. intros Hn. unfold registry_get in Hg. by rewrite Hn in Hg.
Qed.

Lemma begin_action_step k raw now_ms g pd g' :
  begin_action k raw now_ms g = inr (pd, g') -> registry_step g g'.
Proof. intros (b & _ & _ & _ & _ & _ & _ & _ & _ & Ht)%begin_action_inv. eauto using registry_step. Qed.

(** ** Lemmas on the committed view *)

Lemma committed_idle g ps id : idle id ps -> committed g ps id = registry_get g id.
Proof. induction 1; simpl; [done|]. by rewrite decide_False. Qed.

Lemma committed_skip g ps1 pd ps2 id :
  pd_lease pd <> id -> committed g (ps1 ++ pd :: ps2) id = committed g (ps1 ++ ps2) id.
Proof. intros Hne. induction ps1 as [|p ps1 IH]; simpl; [by rewrite decide_False | by rewrite IH]. Qed.

Lemma committed_at g ps1 pd ps2 :
  idle (pd_lease pd) ps1 -> committed g (ps1 ++ pd :: ps2) (pd_lease pd) = Some (pd_previous pd).
Proof. induction 1; simpl; [by rewrite decide_True | by rewrite decide_False]. Qed.

Lemma committed_ext g g' ps id :
  (idle id ps -> registry_get g' id = registry_get g id) -> committed g' ps id = committed g ps id.
Proof.
  induction ps as [|p ps IH]; simpl; intros H; [by apply H; constructor|].
  case_decide; [done|]. apply IH. intros Hi. apply H. by constructor.
Qed.

Lemma idle_app id ps1 ps2 : idle id (ps1 ++ ps2) <-> idle id ps1 /\ idle id ps2.
Proof. apply Forall_app. Qed.

Lemma nodup_idle ps1 pd ps2 :
  NoDup (map pd_lease (ps1 ++ pd :: ps2)) ->
  idle (pd_lease pd) (ps1 ++ ps2) /\ NoDup (map pd_lease (ps1 ++ ps2)).
Proof.
  rewrite !map_app. simpl. rewrite <- Permutation_middle, NoDup_cons. intros [Hn Hd].
  split; [|done]. unfold idle. apply Forall_forall. intros p Hp Heq. apply Hn.
  rewrite <- map_app, <- Heq. apply list_elem_of_In, in_map. by apply list_elem_of_In.
Qed.

Lemma idle_nodup pd ps : idle (pd_lease pd) ps -> pd_lease pd ∉ map pd_lease ps.
Proof.
  intros Hi Hin. apply list_elem_of_In, in_map_iff in Hin as (p & Hp & Hin).
  apply list_elem_of_In in Hin. eapply Forall_forall in Hi; [|exact Hin]. done.
Qed.

Lemma pending_ok_other g g' ps id :
  idle id ps.*2 -> (forall id', id' <> id -> registry_get g' id' = registry_get g id') ->
  Forall (pending_ok g) ps -> Forall (pending_ok g') ps.
Proof.
  intros Hi He Hps. unfold idle in Hi. rewrite Forall_fmap in Hi. eapply Forall_impl; [apply Forall_and; split; [exact Hi|exact Hps]|].
  intros [q pd] [Hne [Hg Hok]]. split; [|done]. rewrite He; [done|]. exact Hne.
Qed.

Lemma not_idle_present g ps id : Forall (pending_ok g) ps -> registry_get g id = None -> idle id ps.*2.
Proof.
  intros Hps Hn. unfold idle. rewrite Forall_fmap. eapply Forall_impl; [exact Hps|]. intros [q pd] (Hg & _) E. simpl in E. congruence.
Qed.

Lemma persist_wf m st : map_wf m -> keyed m -> registry_wf (persist m st).
Proof. done. Qed.

Lemma replace_wf g (r : ComputeBondRecord) : registry_wf g -> registry_wf (registry_replace g r).
Proof. intros [? ?]. split; simpl; auto using keyed_set with saep. Qed.

Lemma reserve_wf g (r : ComputeBondRecord) : registry_wf g -> registry_wf (registry_reserve g r).2.
Proof.
  intros Hwf. unfold registry_reserve. destruct (registry_get g (lease_id r)); [done|].
  by apply replace_wf.
Qed.

Lemma transition_wf g id t r g' :
  registry_wf g -> registry_transition g id t = Ok (r, g') -> registry_wf g' /\ lease_id r = id.
Proof.
  intros Hwf Ht. destruct (registry_transition_lease _ _ _ _ _ Hwf Ht) as [<- ->].
  split; [|done]. destruct Hwf. split; simpl; auto using keyed_set with saep.
Qed.

Lemma pending_fmap (ps1 ps2 : list (task_request * pending)) q pd : (ps1 ++ (q, pd) :: ps2).*2 = ps1.*2 ++ pd :: ps2.*2.
Proof. by rewrite fmap_app. Qed.

Lemma xstep_inv st ev st' : xinv st -> xstep st ev st' -> xinv st'.
Proof.
  intros (Hwf & Hnd & Hps) Hx. unfold xinv. destruct Hx as [k b now g ps pd g' Hb Hi|q pd a g ps1 ps2|r g ps|id t g r g' ps Ht Hi]; simpl in *.
  - apply begin_action_inv in Hb as (b' & [= <-] & _ & Hk & Hl & Hg & _ & _ & Htr & Ht).
    rewrite <- Hl in *. destruct (transition_wf _ _ _ _ _ Hwf Ht) as [Hwf' _].
    destruct (registry_transition_get _ _ _ _ _ Ht) as (c & Hc & Hct & He).
    split_and!; [done| |].
    + apply NoDup_cons; auto using idle_nodup.
    + constructor.
      * split_and!; [by rewrite He, decide_True | exact (registry_get_lease _ _ _ Hwf Hg) | done..].
      * eapply pending_ok_other; [exact Hi| |exact Hps]. intros id' Hne. by rewrite He, decide_False.
  - rewrite pending_fmap in Hnd. destruct (nodup_idle _ _ _ Hnd) as [Hi Hnd'].
    assert (Hps' : Forall (pending_ok g) (ps1 ++ ps2)).
    { rewrite Forall_app in *. destruct Hps as [? Hps]. by inversion Hps. }
    rewrite Forall_app in Hps. destruct Hps as [_ Hps]. inversion Hps as [|? ? Hok _]; subst. destruct Hok as (Hg & Hl & _).
    rewrite <- fmap_app in Hnd', Hi. destruct a; simpl; [done|]. split_and!; [by apply replace_wf | done |].
    eapply pending_ok_other; [exact Hi| |exact Hps'].
    intros id' Hne. rewrite registry_get_replace, Hl. by rewrite decide_False.
  - split_and!; [by apply reserve_wf | done |]. unfold registry_reserve.
    destruct (registry_get g (lease_id r)) eqn:Hg; [done|]. simpl.
    eapply pending_ok_other; [by eapply not_idle_present| |exact Hps].
    intros id' Hne. by rewrite registry_get_put, decide_False.
  - destruct (transition_wf _ _ _ _ _ Hwf Ht) as [Hwf' _].
    destruct (registry_transition_get _ _ _ _ _ Ht) as (c & _ & _ & He).
    split_and!; [done|done|]. eapply pending_ok_other; [exact Hi| |exact Hps].
    intros id' Hne. by rewrite He, decide_False.
Qed.

Lemma committed_put g ps id r st :
  idle id ps ->
  forall id', committed (persist (map_set id r (bonds g)) st) ps id' =
    if decide (id' = id) then Some r else committed g ps id'.
Proof.
  intros Hi id'. case_decide as E; subst.
  - rewrite committed_idle by done. by rewrite registry_get_put, decide_True.
  - apply committed_ext. intros _. by rewrite registry_get_put, decide_False.
Qed.

(** What clients see of a state. *)
Definition seen (st : xstate) : table := committed st.1 st.2.*2.

(** Every waiting lease is in the table, as the record the request found. *)
Lemma committed_known g ps id r : Forall (pending_ok g) ps -> registry_get g id = Some r -> exists old, committed g ps.*2 id = Some old.
Proof.
  induction ps as [|[q pd] ps IH]; simpl; intros Hps Hr; [by eauto|]. case_decide; [by eauto|].
  apply IH; [|done]. by inversion Hps.
Qed.

(** The provider's answer decides between the requested transition and nothing. *)
Lemma finish_atomic q pd answer g ps1 ps2 : xinv (g, ps1 ++ (q, pd) :: ps2) ->
  atomic_step (seen (g, ps1 ++ (q, pd) :: ps2)) (E_answered q answer (finish_action pd answer g).1)
    (seen ((finish_action pd answer g).2, ps1 ++ ps2)).
Proof.
  intros (Hwf & Hnd & Hps). unfold seen. simpl in *. rewrite pending_fmap in *. rewrite fmap_app.
  destruct (nodup_idle _ _ _ Hnd) as [Hi _]. apply idle_app in Hi as Hi2. destruct Hi2 as [Hi1 _].
  rewrite Forall_app in Hps. destruct Hps as [_ Hps]. inversion Hps as [|? ? Hok _]; subst. destruct Hok as (Hg & Hl & Hk & Hb & Ht).
  destruct answer as [u|e]; simpl.
  - rewrite Hk. eapply at_done; rewrite <- ?Hb; [by apply committed_at|exact Ht|].
    intros id. case_decide as E; subst; [by rewrite committed_idle|]. by rewrite committed_skip by congruence.
  - apply at_failed. intros id. destruct (decide (pd_lease pd = id)) as [<-|E].
    + rewrite committed_at by done. unfold registry_replace. rewrite Hl. by rewrite committed_put, decide_True.
    + rewrite committed_skip by done. unfold registry_replace. rewrite Hl. rewrite committed_put by done.
      by rewrite decide_False by congruence.
Qed.

Lemma xstep_atomic st ev st' : xinv st -> xstep st ev st' -> atomic_step (seen st) ev (seen st').
Proof.
  intros Hinv Hx. destruct Hx as [k b now g ps pd g' Hb Hi|q pd a g ps1 ps2|r g ps|id t g r g' ps Ht Hi];
    [|by apply finish_atomic|..]; destruct Hinv as (Hwf & Hnd & Hps); unfold seen; simpl in *.
  - apply begin_action_inv in Hb as (b' & [= <-] & _ & _ & Hl & Hg & Hp & Ha & Htr & Ht).
    destruct (registry_transition_get _ _ _ _ _ Ht) as (c & _ & _ & He). rewrite <- Hl in *.
    eapply (at_asked _ _ (pd_previous pd)); simpl; try done; rewrite <- ?Hl; [by rewrite committed_idle|].
    intros id. case_decide as E; subst; [by rewrite committed_idle, Hg|].
    apply committed_ext. intros _. rewrite He, decide_False; congruence.
  - unfold registry_reserve. destruct (registry_get g (lease_id r)) eqn:Hg; simpl.
    + destruct (committed_known _ _ _ _ Hps Hg) as [old Ho]. by apply (at_known _ _ old).
    + pose proof (not_idle_present _ _ _ Hps Hg) as Hi.
      apply at_new; [by rewrite committed_idle | by intros i; apply committed_put].
  - destruct (registry_transition_get _ _ _ _ _ Ht) as (c & Hc & Hct & He).
    apply (at_direct _ id t c r); [by rewrite committed_idle | done |].
    apply registry_transition_lease in Ht as [_ ->]; [|done]. by intros i; apply committed_put.
Qed.

(** A run and the events it shows. *)
Inductive xrun (st : xstate) : list event -> xstate -> Prop :=
| xr_nil : xrun st [] st
| xr_snoc evs st1 ev st2 : xrun st evs st1 -> xstep st1 ev st2 -> xrun st (evs ++ [ev]) st2.

(** The specification's runs. *)
Inductive arun (c : table) : list event -> table -> Prop :=
| ar_nil c' : (forall i, c' i = c i) -> arun c [] c'
| ar_snoc evs c1 ev c2 : arun c evs c1 -> atomic_step c1 ev c2 -> arun c (evs ++ [ev]) c2.

Lemma xrun_inv st evs st' : xinv st -> xrun st evs st' -> xinv st' /\ arun (seen st) evs (seen st').
Proof.
  intros Hi. induction 1 as [|evs st1 ev st2 _ [IH1 IH2] Hs]; [by split; [|constructor]|].
  split; [by eapply xstep_inv|]. econstructor; [exact IH2|by apply xstep_atomic].
Qed.

(** ** Lemmas on the handlers *)

Section handlers.
Context {W : Type}.
Variable ps : provider_pair W.
Variable ed : ed25519.
Variable frac_text : Q -> string.
Variable localeCompare : string -> string -> comparison.
Variable sync : option (list (ComputeBondRecord * option string) -> W -> result unit * W).
Variable cfg : broker_config.

Definition reg_moves (g g' : ComputeBondRegistry) : Prop := g' = g \/ registry_step g g'.

Lemma reachable_moves g g' : registry_reachable g -> reg_moves g g' -> registry_reachable g'.
Proof. intros H [->|Hs]; eauto using registry_reachable. Qed.

Lemma post_action_reachable k raw now (s : server) :
  registry_reachable (reg s) -> registry_reachable (reg (post_action ps sync k raw now s).2).
Proof.
  intros Hr. unfold post_action. destruct (begin_action k raw now (reg s)) as [r|[pd g1]] eqn:Hb; [done|].
  destruct (provider_call ps k _ _ _) as [a w1]. destruct (finish_action pd a g1) as [r g2] eqn:Hf. simpl.
  apply begin_action_step in Hb. apply (reachable_moves g1); [eauto using registry_reachable|].
  destruct a; injection Hf as <- <-; [by left | right; constructor].
Qed.

Lemma post_request_reachable raw now (s : server) :
  registry_reachable (reg s) -> registry_reachable (reg (post_bonds_request ps ed frac_text sync cfg raw now s).2).
Proof.
  intros Hr. unfold post_bonds_request.
  repeat (case_match; simpl; try done). eapply rr_step; [exact Hr | constructor].
Qed.

Lemma post_cancel_reachable raw now (s : server) :
  registry_reachable (reg s) -> registry_reachable (reg (post_bonds_cancel ps ed sync cfg raw now s).2).
Proof.
  intros Hr. unfold post_bonds_cancel.
  repeat (case_match; simpl; try done). simplify_eq/=. eapply rr_step; [exact Hr | by econstructor].
Qed.

Lemma sweep_one_reachable nowUnix l (s : server) :
  registry_reachable (reg s) -> registry_reachable (reg (sweep_one ps sync nowUnix l s).2).
Proof.
  intros Hr. unfold sweep_one. repeat (case_match; simpl; try done). simplify_eq/=.
  eapply rr_step; [exact Hr | by econstructor].
Qed.

Lemma sweep_all_reachable nowUnix ls (s : server) :
  registry_reachable (reg s) -> registry_reachable (reg (sweep_all ps sync nowUnix ls s).2).
Proof.
  revert s. induction ls as [|l ls IH]; intros s Hr; simpl; [done|].
  pose proof (sweep_one_reachable nowUnix l s Hr) as H1.
  destruct (sweep_one ps sync nowUnix l s) as [r s1]. simpl in H1. specialize (IH s1 H1).
  by destruct (sweep_all ps sync nowUnix ls s1).
Qed.

Lemma handle_reachable rq now (s : server) :
  registry_reachable (reg s) ->
  registry_reachable (reg (handle ps ed frac_text localeCompare sync cfg rq now s).2).
Proof.
  intros Hr. destruct rq as [raw|[] raw|raw|raw|raw|raw|raw|id|id|raw|]; simpl;
    auto using post_request_reachable, post_cancel_reachable; try by apply post_action_reachable.
  - unfold post_expire_sweep. destruct (safe_parse _ raw) as [b|]; [|done].
    match goal with |- context [sweep_all ps sync ?n ?l s] => pose proof (sweep_all_reachable n l s Hr) as H; destruct (sweep_all ps sync n l s) end.
    done.
  - unfold post_leases_activate, post_lease_op. repeat (case_match; simpl; try done).
  - unfold post_leases_reclaim, post_lease_op. repeat (case_match; simpl; try done).
  - unfold post_bonds_verify. by case_match.
  - unfold get_lease. by case_match.
  - unfold get_bond. repeat (case_match; simpl; try done).
  - unfold get_bonds. repeat (case_match; simpl; try done).
Qed.

Lemma serve_reachable rqs (s : server) :
  registry_reachable (reg s) ->
  registry_reachable (reg (serve ps ed frac_text localeCompare sync cfg rqs s)).
Proof.
  revert s. induction rqs as [|[rq now] rqs IH]; intros s Hr; simpl; [done|].
  auto using handle_reachable.
Qed.

Lemma sweep_all_length nowUnix ls (s : server) :
  map sr_lease_id (sweep_all ps sync nowUnix ls s).1 = map sl_lease_id ls.
Proof.
  revert s. induction ls as [|l ls IH]; intros s; simpl; [done|].
  destruct (sweep_one ps sync nowUnix l s) as [r s1] eqn:E. specialize (IH s1).
  destruct (sweep_all ps sync nowUnix ls s1) as [rs s2]. simpl in *. f_equal; [|done].
  unfold sweep_one in E. repeat case_match; by simplify_eq/=.
Qed.

(** What a sweep may do to the record of a lease. *)
Definition swept (nowUnix : Z) (o o' : option ComputeBondRecord) : Prop :=
  o' = o \/ exists r r', o = Some r /\ o' = Some r' /\
    transitionComputeBond r (Expire (inject_Z (nowUnix * 1000))) = Ok r'.

Lemma sweep_one_swept nowUnix l (s : server) id :
  swept nowUnix (registry_get (reg s) id) (registry_get (reg (sweep_one ps sync nowUnix l s).2) id).
Proof.
  unfold sweep_one. repeat (case_match; simpl; try by left).
  match goal with H : registry_transition _ _ _ = Ok _ |- _ => apply registry_transition_get in H as (cur & Hcur & Htr & He) end.
  rewrite He. case_decide; subst; [|by left]. right. eauto.
Qed.

Lemma expire_twice nowUnix r r' r'' :
  transitionComputeBond r (Expire (inject_Z (nowUnix * 1000))) = Ok r' ->
  transitionComputeBond r' (Expire (inject_Z (nowUnix * 1000))) = Ok r'' -> r'' = r'.
Proof. intros [_ ->]%transition_ok_inv [_ ->]%transition_ok_inv. done. Qed.

Lemma sweep_all_swept nowUnix ls (s : server) id :
  swept nowUnix (registry_get (reg s) id) (registry_get (reg (sweep_all ps sync nowUnix ls s).2) id).
Proof.
  revert s. induction ls as [|l ls IH]; intros s; simpl; [by left|].
  pose proof (sweep_one_swept nowUnix l s id) as H1.
  destruct (sweep_one ps sync nowUnix l s) as [r s1]. specialize (IH s1).
  destruct (sweep_all ps sync nowUnix ls s1) as [rs s2]. simpl in *.
  destruct H1 as [Heq|(a & b & Ha & Hb & Hab)]; [by rewrite Heq in IH|].
  destruct IH as [Heq|(c & d & Hc & Hd & Hcd)]; [rewrite Heq; right; eauto|].
  rewrite Hb in Hc. simplify_eq. rewrite (expire_twice _ _ _ _ Hab Hcd) in Hd. right. eauto.
Qed.

Lemma count_status_total rs :
  (count_status sweep_reclaimed rs + count_status sweep_skipped rs + count_status sweep_error rs = length rs)%nat.
Proof.
  unfold count_status. induction rs as [|r rs IH]; simpl; [done|].
  destruct (sr_status r) eqn:E; simpl; lia.
Qed.
End handlers.

Lemma expire_inv nowUnix r r' :
  transitionComputeBond r (Expire (inject_Z (nowUnix * 1000))) = Ok r' ->
  status r' = expired /\
  (status r = expired \/ is_terminal (status r) = false /\ (slashable_until r <= inject_Z nowUnix)%Q).
Proof.
  intros [Hv ->]%transition_ok_inv. split; [done|]. simpl in Hv.
  destruct (bool_decide_reflect (status r = expired)); [by left|right].
  apply app_nil_iff in Hv as [H1%push_if_nil H2%push_if_nil]. split; [done|].
  apply q_ltb_ge in H2. rewrite inject_Z_mult in H2.
  assert (inject_Z nowUnix * inject_Z 1000 / 1000 == inject_Z nowUnix)%Q as E by (change (inject_Z 1000) with 1000%Q; field).
  by rewrite E in H2.
Qed.

(** ** Properties *)

(** C10: a bond action by itself is all or nothing.  POST /bonds/lock, /release or
    /slash, run on a reachable registry of a broker with a store and with no other
    request between its start and its reply, either answers 200, and then exactly the
    named bond has made the accepted transition and belongs to the agent and provider
    of the request; or it answers something else, and then the registry and its file
    are exactly what they were, even when the provider failed after the new record had
    been saved.  Interleaved requests are outside it: [failed_lock_undoes_release]. *)
Theorem post_action_atomic {W} (ps : provider_pair W) sync k raw now (s s' : @server W) r :
  registry_reachable (reg s) -> post_action ps sync k raw now s = (r, s') ->
  (code r = 200%Z /\ exists b prev next,
     raw = Some b /\ registry_get (reg s) (ta_lease_id b) = Some prev /\
     provider prev = ta_provider b /\ agent_did prev = ta_agent_did b /\
     transitionComputeBond prev (action_transition k b now) = Ok next /\
     body r = B_bond next (Some (action_status k)) /\
     forall id, registry_get (reg s') id =
       if decide (id = ta_lease_id b) then Some next else registry_get (reg s) id) \/
  (code r <> 200%Z /\ reg s' = reg s).
Proof.
  intros (Hwf & Hfc & _)%registry_reachable_inv. unfold post_action.
  destruct (begin_action k raw now (reg s)) as [r0|[pd g1]] eqn:Hb.
  - intros [= <- <-]. right. split; [|done]. unfold begin_action in Hb.
    repeat (case_match; try done); injection Hb as <-; done.
  - destruct (provider_call ps k _ _ _) as [[u|e] w1]; simpl; intros [= <- <-].
    + left. split; [done|].
      destruct (begin_action_inv _ _ _ _ _ _ Hb) as (b & -> & _ & Hk & Hl & Hg & Hp & Ha & Ht & Hrt).
      exists b, (pd_previous pd), (pd_next pd). rewrite <- Hk in *.
      destruct (registry_transition_get _ _ _ _ _ Hrt) as (_ & _ & _ & He). done.
    + right. split; [done|]. exact (rollback_exact _ _ _ _ _ _ e Hwf Hfc Hb).
Qed.

(** The broker's bonds survive a crash.  After any sequence of requests of
    any kind, served by a process that booted from an empty file, a new process
    started from the same file finds for every lease the record the old one had. *)
Theorem broker_state_durable {W} (ps : provider_pair W) ed frac lc sync cfg rqs (w : W) id :
  let s := serve ps ed frac lc sync cfg rqs {| reg := new_registry (Some None); outside := w |} in
  registry_get (new_registry (store (reg s))) id = registry_get (reg s) id.
Proof. intros s. apply restart_same, serve_reachable, rr_boot. Qed.

(** What POST /bonds/request promises when it answers 200.  The replied
    bond is for the requesting agent and provider, within the maximum duration,
    freshly reserved and validated, slashable for exactly the configured window
    after its expiry, and signed so that anyone can verify it; the registry tracks
    it, unless the provider reused the id of a tracked lease, which is kept. *)
Theorem request_registers_signed_bond {W} (ps : provider_pair W) ed frac sync cfg raw now (s s' : @server W) r :
  ed25519_laws ed -> post_bonds_request ps ed frac sync cfg raw now s = (r, s') -> code r = 200%Z ->
  exists b bond, raw = Some b /\ body r = B_requested bond /\
    agent_did bond = rq_agent_did b /\ provider bond = rq_provider b /\
    (rq_duration_secs b <= maxBondDurationSecs cfg)%Z /\
    fresh bond /\ validateComputeBondRecord bond = [] /\
    slashable_until bond = (expires_at bond + inject_Z (bondSlashWindowSecs cfg))%Q /\
    verify ed frac bond (attestation_sig bond) (broker_pubkey bond) = true /\
    match registry_get (reg s) (lease_id bond) with
    | None => forall id, registry_get (reg s') id =
        if decide (id = lease_id bond) then Some bond else registry_get (reg s) id
    | Some _ => reg s' = reg s
    end.
Proof.
  intros Hed. unfold post_bonds_request.
  destruct raw as [b|]; [|by intros [= <- <-]]. simpl. destruct (BondRequestBody_ok b); [|by intros [= <- <-]].
  destruct (Z.ltb_spec (maxBondDurationSecs cfg) (rq_duration_secs b)); [by intros [= <- <-]|].
  destruct (signingKeyHex cfg) as [hex|]; [|by intros [= <- <-]].
  destruct (p_reserve _ _ _) as [[rv|e] w1]; [|by intros [= <- <-]].
  destruct (hexToKey hex) as [key|e] eqn:Hkey; simpl; [|by intros [= <- <-]].
  match goal with |- context [sign ed frac ?p key] => set (pl := p) end.
  destruct (sign ed frac pl key) as [[sig pk]|e] eqn:Hsign; [|by intros [= <- <-]].
  match goal with |- context [validateComputeBondRecord ?r] => set (bond := r) end.
  destruct (validateComputeBondRecord bond) eqn:Hv; [|by intros [= <- <-]].
  intros [= <- <-] _. exists b, bond. split_and!; try done.
  - exact (sign_verify _ _ _ _ _ _ Hed Hkey Hsign).
  - exact (reserve_get (reg s) bond).
Qed.

(** The expiry sweep reports one result per requested lease, in order, and
    its three counters add up; and whatever windows the caller claims, a tracked
    bond changes only by becoming expired, which happens only once its own
    slashable window has ended at the sweep's time. *)
Theorem expire_sweep_respects_windows {W} (ps : provider_pair W) sync b now (s s' : @server W) r :
  ExpireSweepBody_ok b = true -> post_expire_sweep ps sync (Some b) now s = (r, s') ->
  let nowUnix := default (now / 1000)%Z (sw_now_unix b) in
  (exists nr ns ne rs, body r = B_sweep nowUnix nr ns ne rs /\
     map sr_lease_id rs = map sl_lease_id (sw_leases b) /\
     (nr + ns + ne = length (sw_leases b))%nat) /\
  forall id, registry_get (reg s') id = registry_get (reg s) id \/
    exists old new, registry_get (reg s) id = Some old /\ registry_get (reg s') id = Some new /\
      status new = expired /\
      (status old = expired \/ is_terminal (status old) = false /\ (slashable_until old <= inject_Z nowUnix)%Q).
Proof.
  intros Hok. unfold post_expire_sweep. simpl. rewrite Hok.
  set (n := default (now / 1000)%Z (sw_now_unix b)).
  pose proof (sweep_all_length ps sync n (sw_leases b) s) as Hlen.
  pose proof (sweep_all_swept ps sync n (sw_leases b) s) as Hsw.
  destruct (sweep_all ps sync n (sw_leases b) s) as [rs s1]. intros [= <- <-]. simpl in *. split.
  - do 4 eexists. split; [done|]. split; [done|]. rewrite count_status_total.
    by rewrite <- (length_map sr_lease_id), Hlen, length_map.
  - intros id. destruct (Hsw id) as [?|(old & new & Ho & Hn & Ht)]; [by left|right].
    destruct (expire_inv _ _ _ Ht) as [He Hw]. by exists old, new.
Qed.

(** C2: without two handlers on one lease, interleaving is harmless.  From a reachable
    registry with nothing waiting, every run in which no request works on a lease another
    one is waiting for shows the events of a run of the atomic table: a request that the
    provider answers makes exactly its transition, of the bond as the table then has it,
    and the reply says so; one whose provider call fails changes nothing and is answered
    502 with the provider's error; reservations, cancellations and expiries take effect
    at once.  Whatever is registered at the end is the table, once the bonds still waiting
    are taken as they were before. *)
Theorem exclusive_actions_linearizable g0 evs st :
  registry_reachable g0 -> xrun (g0, []) evs st ->
  arun (registry_get g0) evs (seen st) /\ (st.2 = [] -> forall id, registry_get st.1 id = seen st id).
Proof.
  intros (Hwf & _)%registry_reachable_inv Hr.
  assert (Hi : xinv (g0, [])) by (split_and!; [exact Hwf | constructor | constructor]).
  destruct (xrun_inv _ _ _ Hi Hr) as [_ Ha].
  split; [exact Ha|]. intros E id. unfold seen. by rewrite E.
Qed.

(** Cancelling does not check who owns the bond.  POST /bonds/cancel
    verifies the request's signature against the [agent_did] the same request
    carries and never compares it with the tracked bond: whoever signs for any
    identity of theirs cancels any reserved bond, at the provider and in the
    registry, and gets the refund reply. *)
Theorem cancel_ignores_bond_owner {W} (ps : provider_pair W) ed sync cfg b key sig pk now (s : @server W)
    bond st refund w1 w2 :
  BondCancelBody_ok b = true -> signingKeyHex cfg = Some key ->
  bs58_decode ed (cb_signed_request b) = Ok sig -> length sig = 64%nat ->
  bs58_decode ed (cb_agent_did b) = Ok pk -> length pk = 32%nat ->
  verifyBytes ed sig (cancelMsg b) pk = Ok true ->
  registry_get (reg s) (cb_lease_id b) = Some bond -> status bond = reserved ->
  p_status (pp_ionet ps) (cb_lease_id b) (outside s) = (Ok st, w1) -> st <> "cancelled" -> st <> "reclaimed" ->
  p_cancel (pp_ionet ps) (cb_lease_id b) w1 = (Ok refund, w2) ->
  let (r, s') := post_bonds_cancel ps ed sync cfg (Some b) now s in
  r = send (B_cancelled (cb_lease_id b) refund) /\
  option_map status (registry_get (reg s') (cb_lease_id b)) = Some cancelled.
Proof.
  intros Hb Hk Hs Hsl Hp Hpl Hv Hg Hst Hps Hc Hrc Hcan. unfold post_bonds_cancel. simpl.
  rewrite Hb, Hk, Hs, Hp, Hsl, Hpl, Hv. simpl. unfold either_provider. rewrite Hps. simpl.
  rewrite !bool_decide_false by done. simpl. rewrite Hcan. simpl.
  rewrite Hg. unfold registry_transition. rewrite Hg. simpl.
  unfold transitionComputeBond. simpl. rewrite Hst. simpl.
  split; [done|]. by rewrite registry_get_put, decide_True.
Qed.

(** Cancelling gives up the capacity behind a locked bond although it
    refuses to cancel it.  The provider's lease is cancelled before the bond's
    state is looked at, so for a bond that is locked to a task the reply is 409
    and the registry is unchanged, with the lease already gone. *)
Theorem cancel_of_locked_bond_drops_lease {W} (ps : provider_pair W) ed sync cfg b key sig pk now (s : @server W)
    bond st refund w1 w2 :
  BondCancelBody_ok b = true -> signingKeyHex cfg = Some key ->
  bs58_decode ed (cb_signed_request b) = Ok sig -> length sig = 64%nat ->
  bs58_decode ed (cb_agent_did b) = Ok pk -> length pk = 32%nat ->
  verifyBytes ed sig (cancelMsg b) pk = Ok true ->
  registry_get (reg s) (cb_lease_id b) = Some bond -> status bond = locked ->
  p_status (pp_ionet ps) (cb_lease_id b) (outside s) = (Ok st, w1) -> st <> "cancelled" -> st <> "reclaimed" ->
  p_cancel (pp_ionet ps) (cb_lease_id b) w1 = (Ok refund, w2) ->
  post_bonds_cancel ps ed sync cfg (Some b) now s =
  (fail 409 "bond cannot cancel from status locked", {| reg := reg s; outside := w2 |}).
Proof.
  intros Hb Hk Hs Hsl Hp Hpl Hv Hg Hst Hps Hc Hrc Hcan. unfold post_bonds_cancel. simpl.
  rewrite Hb, Hk, Hs, Hp, Hsl, Hpl, Hv. simpl. unfold either_provider. rewrite Hps. simpl.
  rewrite !bool_decide_false by done. simpl. rewrite Hcan. simpl.
  rewrite Hg. unfold registry_transition. rewrite Hg. simpl.
  unfold transitionComputeBond. simpl. by rewrite Hst.
Qed.

(** ** Concrete requests *)

Definition task_body : BondTaskActionBody :=
  {| ta_lease_id := "ionet-mock-1"; ta_provider := ionet;
     ta_agent_did := "9xQeWvG816bUx9EPjHmaT23yvVM2ZWbrrpZb9PusVFin"; ta_task_id := "task-7"; ta_reason := None |}.

Definition begun (k : action) (now_ms : Z) (g : ComputeBondRegistry) : option (pending * ComputeBondRegistry) :=
  match begin_action k (Some task_body) now_ms g with
  | inl _ => None
  | inr p => Some p
  end.

Definition no_pending : pending :=
  {| pd_action := act_lock; pd_lease := ""; pd_provider := ionet; pd_previous := bond_example; pd_next := bond_example |}.

Definition race_lock := default (no_pending, one_bond) (begun act_lock 1200000 one_bond).
Definition race_release := default (no_pending, one_bond) (begun act_release 1300000 race_lock.2).
Definition race_end : ComputeBondRegistry := (finish_action race_lock.1 (Throw "timeout") race_release.2).2.

(** With two handlers on one lease the rollback is wrong.  While a lock is
    waiting for its provider, a release of the same bond runs to completion and
    answers 200; when the lock's provider call then fails, the handler puts back
    the record it read at the start, so the released bond is reserved again. *)
Theorem failed_lock_undoes_release :
  registry_reachable one_bond /\
  istep (one_bond, []) (race_lock.2, [race_lock.1]) /\
  istep (race_lock.2, [race_lock.1]) (race_release.2, [race_release.1; race_lock.1]) /\
  code (finish_action race_release.1 (Ok tt) race_release.2).1 = 200%Z /\
  istep (race_release.2, [race_release.1; race_lock.1]) (race_release.2, [race_lock.1]) /\
  istep (race_release.2, [race_lock.1]) (race_end, []) /\
  option_map status (registry_get race_release.2 "ionet-mock-1") = Some released /\
  option_map status (registry_get race_end "ionet-mock-1") = Some reserved.
Proof.
  split_and!; try reflexivity.
  - eapply rr_step; [apply rr_boot | apply rs_reserve].
  - apply (i_begin act_lock (Some task_body) 1200000). reflexivity.
  - apply (i_begin act_release (Some task_body) 1300000). reflexivity.
  - exact (i_finish race_release.1 (Ok tt) race_release.2 [] [race_lock.1]).
  - exact (i_finish race_lock.1 (Throw "timeout") race_release.2 [] []).
Qed.

Definition mock_cfg : provider_config :=
  {| ionetApiUrl := ""; ionetApiKey := None; akashRpcUrl := ""; akashWallet := None; computeProviderMode_mock := true |}.

Definition no_http (q : http_request) (n : unit) : result http_reply * unit := (Throw "offline", n).

Definition mock_providers : provider_pair (world unit) := createProviders no_http mock_cfg.

Definition mock_world : world unit :=
  {| w_ionet := new_mock ionet; w_akash := new_mock akash; w_clock_ms := 1000000; w_net := tt |}.

Definition toy_cfg : broker_config :=
  {| signingKeyHex := Some "0000000000000000000000000000000000000000000000000000000000000001";
     maxBondDurationSecs := 1209600; bondSlashWindowSecs := 86400 |}.

Definition frac0 (_ : Q) : string := "0.5".

Definition server0 : server := {| reg := new_registry (Some None); outside := mock_world |}.

Definition request_body : BondRequestBody :=
  {| rq_agent_did := "9xQeWvG816bUx9EPjHmaT23yvVM2ZWbrrpZb9PusVFin"; rq_provider := ionet;
     rq_gpu_hours := 4; rq_duration_secs := 1000; rq_capability_hints := None |}.

Definition after_request := post_bonds_request mock_providers toy_ed frac0 None toy_cfg (Some request_body) 1000000 server0.
Definition after_lock := post_bonds_lock mock_providers None (Some task_body) 1200000 after_request.2.

(** ** Witnesses *)

Lemma after_request_reachable : registry_reachable (reg after_request.2).
Proof. apply post_request_reachable, rr_boot. Qed.

Lemma post_action_atomic_witness : code after_lock.1 = 200%Z /\
  option_map status (registry_get (reg after_lock.2) "ionet-mock-1") = Some locked.
Proof.
  split; [reflexivity|].
  destruct (post_action_atomic mock_providers None act_lock (Some task_body) 1200000
    after_request.2 after_lock.2 after_lock.1 after_request_reachable) as [(_ & b & prev & next & Hb & _ & _ & _ & Ht & _ & Hr)|[H _]].
  - reflexivity.
  - rewrite Hr. injection Hb as <-. rewrite decide_True by done.
    apply transition_ok_inv in Ht as [_ ->]. reflexivity.
  - exfalso. apply H. reflexivity.
Defined.

Lemma request_registers_signed_bond_witness : exists bond,
  body after_request.1 = B_requested bond /\ slashable_until bond = 88400%Q.
Proof.
  destruct (request_registers_signed_bond mock_providers toy_ed frac0 None toy_cfg (Some request_body) 1000000
    server0 after_request.2 after_request.1 toy_ed_laws) as (b & bond & Hb & Hr & _).
  - apply surjective_pairing.
  - reflexivity.
  - exists bond. split; [exact Hr|]. change (body after_request.1) with (body after_request.1) in Hr.
    vm_compute in Hr. injection Hr as <-. reflexivity.
Defined.

Definition sweep_body : ExpireSweepBody :=
  {| sw_now_unix := Some 90000%Z;
     sw_leases := [{| sl_lease_id := "ionet-mock-1"; sl_provider := ionet; sl_slashable_until := 88400 |}] |}.

Lemma expire_sweep_respects_windows_witness :
  exists old new, registry_get (reg after_lock.2) "ionet-mock-1" = Some old /\
    registry_get (reg (post_expire_sweep mock_providers None (Some sweep_body) 0 after_lock.2).2) "ionet-mock-1" = Some new /\
    status new = expired /\
    (status old = expired \/ is_terminal (status old) = false /\ (slashable_until old <= inject_Z 90000)%Q).
Proof.
  destruct (proj2 (expire_sweep_respects_windows mock_providers None sweep_body 0 after_lock.2 _ _
    eq_refl (surjective_pairing _)) "ionet-mock-1") as [H|H].
  - exfalso. vm_compute in H. discriminate H.
  - exact H.
Defined.

(** A lock whose provider fails: asked, then answered with the error. *)
Definition lock_request : task_request := {| tr_action := act_lock; tr_body := task_body; tr_now := 1200000 |}.

Lemma failed_lock_runs : xrun (one_bond, []) [E_asked lock_request; E_answered lock_request (Throw "timeout") (fail 502 "timeout")]
  ((finish_action race_lock.1 (Throw "timeout") race_lock.2).2, []).
Proof.
  apply (xr_snoc _ [E_asked lock_request] (race_lock.2, [(lock_request, race_lock.1)])).
  - apply (xr_snoc _ []  (one_bond, [])); [constructor|]. apply (x_begin act_lock task_body 1200000); [reflexivity|constructor].
  - apply (x_finish lock_request race_lock.1 (Throw "timeout") race_lock.2 [] []).
Qed.

Lemma exclusive_actions_linearizable_witness :
  arun (registry_get one_bond) [E_asked lock_request; E_answered lock_request (Throw "timeout") (fail 502 "timeout")]
    (seen ((finish_action race_lock.1 (Throw "timeout") race_lock.2).2, [])).
Proof.
  apply (exclusive_actions_linearizable one_bond _ ((finish_action race_lock.1 (Throw "timeout") race_lock.2).2, [])).
  - eapply rr_step; [apply rr_boot | apply rs_reserve].
  - apply failed_lock_runs.
Defined.

(** A stranger whose 40-character identity is not the bond's agent. *)
Definition stranger_ed : ed25519 :=
  {| getPublicKey k := k; signBytes _ k := k ++ k; verifyBytes _ _ _ := Ok true;
     bs58_encode _ := "";
     bs58_decode s := Ok (replicate (if (String.length s =? 40)%nat then 32%nat else 64%nat) 7%Z) |}.

Definition stranger_body : BondCancelBody :=
  {| cb_lease_id := "ionet-mock-1"; cb_agent_did := "1111111111111111111111111111111111111111";
     cb_signed_request := "sig" |}.

Lemma cancel_ignores_bond_owner_witness :
  option_map (fun b : ComputeBondRecord => bool_decide (agent_did b = cb_agent_did stranger_body))
    (registry_get (reg after_request.2) "ionet-mock-1") = Some false /\
  option_map status (registry_get
    (reg (post_bonds_cancel mock_providers stranger_ed None toy_cfg (Some stranger_body) 1100000 after_request.2).2)
    "ionet-mock-1") = Some cancelled.
Proof.
  split; [reflexivity|].
  refine (proj2 (cancel_ignores_bond_owner mock_providers stranger_ed None toy_cfg stranger_body _ _ _ 1100000
    after_request.2 _ "reserved" 0 _ _ _ _ _ _ _ _ _ _ _ _ _ _ _)); try reflexivity; done.
Defined.

Lemma cancel_of_locked_bond_drops_lease_witness :
  let out := post_bonds_cancel mock_providers stranger_ed None toy_cfg (Some stranger_body) 1250000 after_lock.2 in
  code out.1 = 409%Z /\ option_map status (registry_get (reg out.2) "ionet-mock-1") = Some locked /\
  map_get "ionet-mock-1" (statuses (w_ionet (outside out.2))) = Some lease_cancelled.
Proof.
  intros out. unfold out.
  rewrite (cancel_of_locked_bond_drops_lease mock_providers stranger_ed None toy_cfg stranger_body
    "0000000000000000000000000000000000000000000000000000000000000001" (replicate 64 7%Z) (replicate 32 7%Z) 1250000 after_lock.2
    (default bond_example (registry_get (reg after_lock.2) "ionet-mock-1")) "active" 0
    (outside after_lock.2) (with_ionet (outside after_lock.2) (mock_put (w_ionet (outside after_lock.2)) "ionet-mock-1" lease_cancelled)));
    try reflexivity; done.
Defined.
