(* ===== verification/Messages.v ===== *)
(** * Messages: envelopes, topics and message types of the bus

    Models services/iacp/src/message_types.ts, schema.ts, the freshness and
    signature checks of auth.ts and [topicCategory] of metrics.ts.  A string is
    its sequence of bytes, so the length checks are those of ASCII text. *)

From Stdlib Require Import ZArith QArith Ascii.
From stdpp Require Import base sets list strings.
From S2P Require Import Prelude Json Attestation.

(** ** Message types *)

Inductive MessageType :=
| TaskRequest | TaskAccept | TaskReject | StatusUpdate | ResultDelivery
| PaymentRequest | BroadcastRFP | Dispute | A2AOrchestration.

#[export] Instance MessageType_eq_dec : EqDecision MessageType.
Proof. solve_decision. Defined.

Definition message_type_text (m : MessageType) : string :=
  match m with
  | TaskRequest => "task_request"
  | TaskAccept => "task_accept"
  | TaskReject => "task_reject"
  | StatusUpdate => "status_update"
  | ResultDelivery => "result_delivery"
  | PaymentRequest => "payment_request"
  | BroadcastRFP => "broadcast_rfp"
  | Dispute => "dispute"
  | A2AOrchestration => "a2a_orchestration"
  end.

Inductive RoutingMode := direct | pubsub.

#[export] Instance RoutingMode_eq_dec : EqDecision RoutingMode.
Proof. solve_decision. Defined.

(** [ttlMs = None]: permanent. *)
Record MessageTypeMeta := {
  ttlMs : option Z;
  routing : RoutingMode;
  requiresAnchoring : bool;
  partialAnchoring : bool;
}.

Definition FIVE_MIN : Z := 5 * 60 * 1000.
Definition THIRTY_SEC : Z := 30 * 1000.
Definition FIFTEEN_MIN : Z := 15 * 60 * 1000.

Definition MESSAGE_TYPE_META (m : MessageType) : MessageTypeMeta :=
  match m with
  | TaskRequest => Build_MessageTypeMeta (Some FIVE_MIN) direct false false
  | TaskAccept => Build_MessageTypeMeta None direct true false
  | TaskReject => Build_MessageTypeMeta (Some FIVE_MIN) direct false false
  | StatusUpdate => Build_MessageTypeMeta (Some THIRTY_SEC) direct false false
  | ResultDelivery => Build_MessageTypeMeta None direct true false
  | PaymentRequest => Build_MessageTypeMeta None direct true false
  | BroadcastRFP => Build_MessageTypeMeta (Some FIFTEEN_MIN) pubsub false false
  | Dispute => Build_MessageTypeMeta None direct true false
  | A2AOrchestration => Build_MessageTypeMeta None direct false true
  end.

Definition isExpired (msgType : MessageType) (sentTs now : Z) (taskTtlMs : option Z) : bool :=
  let ttl := match msgType, taskTtlMs with
             | A2AOrchestration, Some t => Some t
             | _, _ => ttlMs (MESSAGE_TYPE_META msgType)
             end in
  match ttl with
  | None => false
  | Some t => (t <? now - sentTs)%Z
  end.

Definition shouldAnchor (m : MessageType) : bool := requiresAnchoring (MESSAGE_TYPE_META m).
Definition isPartialAnchor (m : MessageType) : bool := partialAnchoring (MESSAGE_TYPE_META m).
Definition routingMode (m : MessageType) : RoutingMode := routing (MESSAGE_TYPE_META m).
Definition broadcastChannel (capabilityBit : Z) : string := "broadcast.cap-" +:+ z_text capabilityBit.

(** ** Topics and envelopes *)

(** [[1-9A-HJ-NP-Za-km-z]] *)
Definition base58_char (c : ascii) : bool :=
  char_in 49 57 c || char_in 65 72 c || char_in 74 78 c || char_in 80 90 c || char_in 97 107 c || char_in 109 122 c.
(** [[0-9a-f]] *)
Definition hex_char (c : ascii) : bool := char_in 48 57 c || char_in 97 102 c.
(** [[a-z0-9-]] *)
Definition tag_char (c : ascii) : bool := char_in 97 122 c || char_in 48 57 c || (nat_of_ascii c =? 45)%nat.

(** What follows [p] in [s]. *)
Definition after (p s : string) : option string :=
  if String.prefix p s then Some (String.substring (String.length p) (String.length s - String.length p) s) else None.

(** What precedes the suffix [q] of [s]. *)
Definition before (q s : string) : option string :=
  let n := (String.length s - String.length q)%nat in
  if String.eqb (String.substring n (String.length q) s) q && (String.length q <=? String.length s)%nat
  then Some (String.substring 0 n s) else None.

Definition TopicSchema_ok (topic : string) : bool :=
  match after "agent." topic ≫= before ".inbox" with
  | Some a => all_chars base58_char a && len_between 32 44 a
  | None => false
  end ||
  match after "task." topic ≫= before ".events" with
  | Some t => all_chars hex_char t && len_between 64 64 t
  | None => false
  end ||
  match after "broadcast." topic with
  | Some t => all_chars tag_char t && len_between 1 64 t
  | None => false
  end ||
  match after "system." topic with
  | Some t => all_chars tag_char t && len_between 1 64 t
  | None => false
  end.

Record Envelope := {
  id : string;
  topic : string;
  from_agent : string;
  to_agent : option string;
  msg_type : option MessageType;
  payload_cid : string;
  payload_digest : string;
  signature : string;
  ts : Z;
}.

#[export] Instance Envelope_eq_dec : EqDecision Envelope.
Proof. solve_decision. Defined.

Definition EnvelopeSchema_ok (e : Envelope) : bool :=
  (String.length (id e) =? 26)%nat && TopicSchema_ok (topic e) && len_between 32 44 (from_agent e) &&
  match to_agent e with Some a => len_between 32 44 a | None => true end &&
  len_between 1 256 (payload_cid e) &&
  all_chars hex_char (payload_digest e) && len_between 64 64 (payload_digest e) &&
  len_between 1 128 (signature e) && (0 <=? ts e)%Z.

Inductive ClientFrame :=
| C_sub (topic : string)
| C_unsub (topic : string)
| C_publish (envelope : Envelope)
| C_ping.

Definition ClientFrameSchema_ok (f : ClientFrame) : bool :=
  match f with
  | C_sub t | C_unsub t => TopicSchema_ok t
  | C_publish e => EnvelopeSchema_ok e
  | C_ping => true
  end.

Inductive axis := axis_msg | axis_bw.

(** The last one is sent for a message to oneself; it is not a [ServerFrame]. *)
Inductive ServerFrame :=
| S_msg (topic : string) (envelope : Envelope) (stream_id : string)
| S_ack (id : string)
| S_reject (id : option string) (reason : string)
| S_rate_limit (id : option string) (ax : axis) (retry_after_ms : Z)
| S_pong
| S_error (code msg : string).

(** [JStr], or [null] when absent. *)
Definition jopt (o : option string) : jval :=
  match o with
  | Some s => JStr s
  | None => JNull
  end.

Definition canonicalizeForSigning (env : Envelope) : string :=
  json_object ("id", JStr (id env))
    [("topic", JStr (topic env));
     ("from_agent", JStr (from_agent env));
     ("to_agent", jopt (to_agent env));
     ("msg_type", jopt (option_map message_type_text (msg_type env)));
     ("payload_cid", JStr (payload_cid env));
     ("payload_digest", JStr (payload_digest env));
     ("ts", JNum (z_text (ts env)))].

Definition topicCategory (topic : string) : string :=
  if String.prefix "agent." topic then "agent_inbox"
  else if String.prefix "task." topic then "task_events"
  else if String.prefix "broadcast." topic then "broadcast"
  else if String.prefix "system." topic then "system"
  else "other".

(** ** auth.ts *)

Definition DEFAULT_MAX_ENVELOPE_AGE_MS : Z := 5 * 60 * 1000.
Definition DEFAULT_ENVELOPE_CLOCK_SKEW_MS : Z := 30 * 1000.

Record FreshnessOptions := { maxAgeMs : option Z; maxSkewMs : option Z }.

Definition isEnvelopeTsFresh (ts now : Z) (opts : FreshnessOptions) : bool :=
  if (ts <? 0)%Z then false
  else
    let maxAge := default DEFAULT_MAX_ENVELOPE_AGE_MS (maxAgeMs opts) in
    let maxSkew := default DEFAULT_ENVELOPE_CLOCK_SKEW_MS (maxSkewMs opts) in
    let delta := (ts - now)%Z in
    if (maxSkew <? delta)%Z then false
    else if (maxAge <? - delta)%Z then false
    else true.

Record SessionPayload := { address : string; issuedAt : Z; session_expiresAt : Z }.

(** The claims of a verified token that the code reads; [None] for a claim that
    is absent or of another type. *)
Record jwt_claims := { sub : option string; iat : option Z; exp : option Z }.

Definition SESSION_ISSUER : string := "saep.portal".

(** The secret's UTF-8 bytes. *)
Definition sessionSecret (raw : option string) : result bytes :=
  if negb (truthy raw) then Throw "SESSION_SECRET is required"
  else let s := default "" raw in
  if (String.length s <? 32)%nat then Throw "SESSION_SECRET must be at least 32 characters"
  else Ok (map (fun c => Z.of_nat (nat_of_ascii c)) (String.list_ascii_of_string s)).

Record AuthResult := { agentPubkey : string; expiresAt : Z }.

Section auth.
Variable ed : ed25519.
(** [jwtVerify] of jose: the claims of a token with a valid signature, issuer and
    expiry. *)
Variable jwtVerify : string -> bytes -> string -> result jwt_claims.

Definition verifySessionJwt (token : string) (secret : bytes) : option SessionPayload :=
  match jwtVerify token secret SESSION_ISSUER with
  | Ok {| sub := Some address; iat := Some i; exp := Some e |} =>
    Some {| address := address; issuedAt := i; session_expiresAt := e |}
  | _ => None
  end.

Definition verifySessionToken (token : string) (secret : bytes) (now : Z) : option AuthResult :=
  match verifySessionJwt token secret with
  | None => None
  | Some payload =>
    if (session_expiresAt payload * 1000 <? now)%Z then None
    else match bs58_decode ed (address payload) with
         | Ok decoded =>
           if (length decoded =? 32)%nat
           then Some {| agentPubkey := address payload; expiresAt := session_expiresAt payload |}
           else None
         | Throw _ => None
         end
  end.

Definition verifyEnvelopeSignature (canonical signatureBs58 agentPubkeyBs58 : string) : bool :=
  match bs58_decode ed agentPubkeyBs58, bs58_decode ed signatureBs58 with
  | Ok pubkey, Ok sig =>
    if negb (length pubkey =? 32)%nat || negb (length sig =? 64)%nat then false
    else match verifyBytes ed sig canonical pubkey with
         | Ok b => b
         | Throw _ => false
         end
  | _, _ => false
  end.
End auth.

(** ** Lemmas *)

Lemma jopt_inj o o' : jopt o = jopt o' -> o = o'.
Proof. destruct o, o'; simpl; congruence. Qed.

Lemma message_type_text_inj m m' : message_type_text m = message_type_text m' -> m = m'.
Proof. by destruct m, m'. Qed.

(** Everything an envelope signature covers. *)
Definition unsigned (e : Envelope) : Envelope :=
  {| id := id e; topic := topic e; from_agent := from_agent e; to_agent := to_agent e; msg_type := msg_type e;
     payload_cid := payload_cid e; payload_digest := payload_digest e; signature := ""; ts := ts e |}.

Lemma canonical_fields e1 e2 : canonicalizeForSigning e1 = canonicalizeForSigning e2 -> unsigned e1 = unsigned e2.
Proof.
  intros H. apply json_object_inj in H as [H1 H2];
    [|simpl; unfold field_ok; destruct (to_agent _), (msg_type _); simpl; by rewrite num_text_z..].
  destruct e1, e2; unfold unsigned; simpl in *.
  apply (f_equal snd) in H1. simpl in H1. injection H1 as <-.
  injection H2 as <- <- Hto Hmt <- <- Hts. apply jopt_inj in Hto as <-. apply z_text_inj in Hts as <-.
  apply jopt_inj in Hmt. f_equal. destruct msg_type0, msg_type1; simpl in Hmt; simplify_eq; try done.
  f_equal. apply message_type_text_inj. congruence.
Qed.

(** ** Properties *)

(** What an agent signs determines the whole envelope except the signature:
    two envelopes have the same canonical text exactly when they agree on every
    other field, the recipient and the message type included. *)
Theorem canonical_envelope_binds (e1 e2 : Envelope) :
  canonicalizeForSigning e1 = canonicalizeForSigning e2 <-> unsigned e1 = unsigned e2.
Proof.
  split; [apply canonical_fields|]. intros H.
  change (canonicalizeForSigning (unsigned e1) = canonicalizeForSigning (unsigned e2)). by rewrite H.
Qed.

(** The freshness check admits exactly the non-negative timestamps of the
    configured window, and a message type's time to live can only shorten it: with
    the default window, a timestamp that is still fresh can have expired only for
    a status update. *)
Theorem freshness_window (t now : Z) (opts : FreshnessOptions) :
  (isEnvelopeTsFresh t now opts = true <->
     (0 <= t)%Z /\ (now - default DEFAULT_MAX_ENVELOPE_AGE_MS (maxAgeMs opts) <= t)%Z /\
     (t <= now + default DEFAULT_ENVELOPE_CLOCK_SKEW_MS (maxSkewMs opts))%Z) /\
  (forall m, maxAgeMs opts = None -> isEnvelopeTsFresh t now opts = true ->
     isExpired m t now None = true -> m = StatusUpdate).
Proof.
  assert (H : isEnvelopeTsFresh t now opts = true <->
     (0 <= t)%Z /\ (now - default DEFAULT_MAX_ENVELOPE_AGE_MS (maxAgeMs opts) <= t)%Z /\
     (t <= now + default DEFAULT_ENVELOPE_CLOCK_SKEW_MS (maxSkewMs opts))%Z).
  { unfold isEnvelopeTsFresh. destruct (Z.ltb_spec t 0); [split; [done|lia]|].
    destruct (Z.ltb_spec (default DEFAULT_ENVELOPE_CLOCK_SKEW_MS (maxSkewMs opts)) (t - now)); [split; [done|lia]|].
    destruct (Z.ltb_spec (default DEFAULT_MAX_ENVELOPE_AGE_MS (maxAgeMs opts)) (- (t - now))); [split; [done|lia]|].
    split; [lia|done]. }
  split; [exact H|]. intros m Hopt Hf%H. rewrite Hopt in Hf. cbn [default from_option] in Hf.
  unfold DEFAULT_MAX_ENVELOPE_AGE_MS in Hf.
  destruct m; unfold isExpired; simpl; try done; unfold FIVE_MIN, FIFTEEN_MIN; intros Hx%Z.ltb_lt; lia.
Qed.
