(* ===== verification/Bus.v ===== *)
(** * Bus: the recent-message ring, the agent lookup and the stream reader

    Models services/iacp/src/ring.ts, agents.ts, and the part of streams.ts and
    lag.ts that interprets Redis replies.  Redis and the Solana RPC are third-party
    services: what they answer is an argument. *)

From Stdlib Require Import ZArith QArith.
From stdpp Require Import base sets list strings.
From S2P Require Import Prelude JsMap Messages.

(** ** ring.ts *)

Record RingEntry := { re_envelope : Envelope; stream_id : string; received_at : Z }.

Record TopicRing := { buffers : list (string * list RingEntry); ring_capacity : nat }.

Definition new_TopicRing (capacity : option nat) : TopicRing :=
  {| buffers := []; ring_capacity := default 256%nat capacity |}.

Definition ring_push (r : TopicRing) (topic : string) (env : Envelope) (streamId : string) (now : Z) : TopicRing :=
  let buf := default [] (map_get topic (buffers r)) ++ [{| re_envelope := env; stream_id := streamId; received_at := now |}] in
  let buf := if (ring_capacity r <? length buf)%nat then drop (length buf - ring_capacity r) buf else buf in
  {| buffers := map_set topic buf (buffers r); ring_capacity := ring_capacity r |}.

(** [buf.slice(-n)] for [n >= 1]. *)
Definition last_n {A} (n : nat) (l : list A) : list A := drop (length l - n) l.

Definition ring_recent (r : TopicRing) (topic : string) (limit : Z) : list RingEntry :=
  match map_get topic (buffers r) with
  | None => []
  | Some buf => last_n (Z.to_nat (Z.max 1 (Z.min limit (Z.of_nat (ring_capacity r))))) buf
  end.

Definition ring_topics (r : TopicRing) : list string := map_keys (buffers r).

(** ** agents.ts *)

Record CacheEntry := { active : bool; cache_expiresAt : Z }.

Record RpcAgentLookup := {
  cache : list (string * CacheEntry);
  positiveTtl : Z;
  negativeTtl : Z;
  maxEntries : nat;
}.

Definition new_RpcAgentLookup (pos neg : option Z) (entries : option nat) : RpcAgentLookup :=
  {| cache := []; positiveTtl := default 30000%Z pos; negativeTtl := default 5000%Z neg;
     maxEntries := default 1024%nat entries |}.

Definition STATUS_ACTIVE : Z := 0.

Definition with_cache (a : RpcAgentLookup) c : RpcAgentLookup :=
  {| cache := c; positiveTtl := positiveTtl a; negativeTtl := negativeTtl a; maxEntries := maxEntries a |}.

Definition lookup_put (a : RpcAgentLookup) (key : string) (act : bool) (now : Z) : RpcAgentLookup :=
  let c := if (maxEntries a <=? map_size (cache a))%nat then
             match map_first_key (cache a) with
             | Some oldest => map_delete oldest (cache a)
             | None => cache a
             end
           else cache a in
  let ttl := if act then positiveTtl a else negativeTtl a in
  with_cache a (map_set key {| active := act; cache_expiresAt := now + ttl |} c).

(** What follows a cache miss: [new PublicKey] rejects the key, or
    [getProgramAccounts] answers with the status slices of the matching accounts,
    or it fails. *)
Inductive lookup_reply := BadKey | Accounts (slices : list (list Z)) | RpcError.

Definition cache_hit (a : RpcAgentLookup) (operator : string) (now : Z) : option bool :=
  match map_get operator (cache a) with
  | Some hit => if (now <? cache_expiresAt hit)%Z then Some (active hit) else None
  | None => None
  end.

Definition has_active (slices : list (list Z)) : bool :=
  existsb (fun d => match d with b :: _ => (b =? STATUS_ACTIVE)%Z | [] => false end) slices.

(** The rest of [isActiveOperator], with the [now] of its start. *)
Definition finish_lookup (a : RpcAgentLookup) (operator : string) (now : Z) (reply : lookup_reply) : bool * RpcAgentLookup :=
  match reply with
  | BadKey => (false, lookup_put a operator false now)
  | RpcError => (false, a)
  | Accounts slices => let act := has_active slices in (act, lookup_put a operator act now)
  end.

Definition isActiveOperator (a : RpcAgentLookup) (operator : string) (now : Z) (reply : lookup_reply) : bool * RpcAgentLookup :=
  match cache_hit a operator now with
  | Some b => (b, a)
  | None => finish_lookup a operator now reply
  end.

Definition lookup_invalidate (a : RpcAgentLookup) (operator : string) : RpcAgentLookup :=
  with_cache a (map_delete operator (cache a)).

(** Calls that overlap: a hit answers at once; a miss finishes after any number of
    other calls, with the time it started at; keys may be invalidated in between. *)
Inductive lookup_event :=
| L_hit (operator : string) (now : Z)
| L_finish (operator : string) (now : Z) (reply : lookup_reply)
| L_invalidate (operator : string).

Definition lookup_step (a : RpcAgentLookup) (e : lookup_event) : RpcAgentLookup :=
  match e with
  | L_hit _ _ => a
  | L_finish op now reply => (finish_lookup a op now reply).2
  | L_invalidate op => lookup_invalidate a op
  end.

Definition lookup_run (a : RpcAgentLookup) (es : list lookup_event) : RpcAgentLookup := fold_left lookup_step es a.

(** ** streams.ts: the reply of XREADGROUP *)

Record StreamMessage := { sm_streamId : string; sm_topic : string; sm_envelope : Envelope }.

(** [parse]: [JSON.parse] of a stored envelope; [None] when it throws. *)
Section stream_read.
Variable parse : string -> option Envelope.

Fixpoint index_of (x : string) (l : list string) : option nat :=
  match l with
  | [] => None
  | y :: l' => if decide (x = y) then Some 0%nat else option_map S (index_of x l')
  end.

Definition read_entry (topic : string) (entry : string * list string) : list StreamMessage :=
  match index_of "env" entry.2 with
  | None => []
  | Some idx =>
    match entry.2 !! S idx with
    | None => []
    | Some text =>
      match parse text with
      | Some e => [{| sm_streamId := entry.1; sm_topic := topic; sm_envelope := e |}]
      | None => []
      end
    end
  end.

(** [raw]: the reply to the command, [None] when it is null. *)
Definition bus_read (topics : list string) (raw : option (list (string * list (string * list string)))) : list StreamMessage :=
  match topics, raw with
  | [], _ => []
  | _, None => []
  | _, Some r => flat_map (fun te => flat_map (read_entry te.1) te.2) r
  end.
End stream_read.

(** ** The ring *)

Record push := { p_topic : string; p_env : Envelope; p_sid : string; p_now : Z }.

Definition push_entry (p : push) : RingEntry :=
  {| re_envelope := p_env p; stream_id := p_sid p; received_at := p_now p |}.

Definition ring_after (capacity : option nat) (ps : list push) : TopicRing :=
  fold_left (fun r p => ring_push r (p_topic p) (p_env p) (p_sid p) (p_now p)) ps (new_TopicRing capacity).

(** Everything pushed on a topic, oldest first. *)
Definition pushed_on (topic : string) (ps : list push) : list RingEntry :=
  map push_entry (filter (fun p => p_topic p = topic) ps).

Lemma last_n_app_one {A} n (l : list A) x : (1 <= n)%nat -> last_n n (l ++ [x]) = last_n (n - 1) l ++ [x].
Proof.
  intros Hn. unfold last_n. rewrite length_app. simpl.
  replace (length l + 1 - n)%nat with (length l - (n - 1))%nat by lia.
  rewrite drop_app_le; [done|lia].
Qed.

Lemma last_n_last_n {A} n k (l : list A) : (n <= k)%nat -> last_n n (last_n k l) = last_n n l.
Proof. intros H. unfold last_n. rewrite drop_drop, length_drop. f_equal. lia. Qed.

Lemma last_n_all {A} n (l : list A) : (length l <= n)%nat -> last_n n l = l.
Proof. intros H. unfold last_n. replace (length l - n)%nat with 0%nat by lia. done. Qed.

Lemma last_n_length {A} n (l : list A) : length (last_n n l) = Nat.min n (length l).
Proof. unfold last_n. rewrite length_drop. lia. Qed.

(** One push keeps the last [c] entries. *)
Lemma ring_trim {A} (c : nat) (l : list A) :
  (if (c <? length l)%nat then drop (length l - c) l else l) = last_n c l.
Proof. destruct (Nat.ltb_spec c (length l)); [done|]. by rewrite last_n_all. Qed.

Lemma ring_push_buffers r topic env sid now : buffers (ring_push r topic env sid now) =
  map_set topic (last_n (ring_capacity r) (default [] (map_get topic (buffers r)) ++
    [{| re_envelope := env; stream_id := sid; received_at := now |}])) (buffers r).
Proof. unfold ring_push. cbn [buffers]. by rewrite ring_trim. Qed.

Lemma ring_after_get capacity ps topic :
  map_get topic (buffers (ring_after capacity ps)) =
    (if decide (pushed_on topic ps = []) then None
     else Some (last_n (default 256%nat capacity) (pushed_on topic ps))) /\
  ring_capacity (ring_after capacity ps) = default 256%nat capacity.
Proof.
  induction ps as [|p ps [IH Hc]] using rev_ind; [done|].
  unfold ring_after in *. rewrite fold_left_app. cbn [fold_left]. split; [|exact Hc].
  unfold pushed_on in *. rewrite filter_app, ring_push_buffers, Hc, map_get_set.
  destruct (decide (topic = p_topic p)) as [->|Hne]; cycle 1.
  { rewrite IH, filter_cons_False, filter_nil, app_nil_r by congruence. done. }
  rewrite IH, filter_cons_True, filter_nil, map_app by done. cbn [map].
  set (old := map push_entry (filter (fun p0 => p_topic p0 = p_topic p) ps)).
  set (c := default 256%nat capacity).
  change {| re_envelope := p_env p; stream_id := p_sid p; received_at := p_now p |} with (push_entry p).
  destruct (decide (old ++ [push_entry p] = [])) as [Hx|_]; [by destruct old|]. f_equal.
  destruct (decide (old = [])) as [->|_]; cbn [default from_option]; [done|].
  destruct (Nat.eq_dec c 0) as [->|Hc0].
  - unfold last_n. by rewrite !Nat.sub_0_r, !drop_all.
  - rewrite !last_n_app_one by lia. f_equal. apply last_n_last_n. lia.
Qed.

(** ** The agent lookup *)

(** A cached answer came from a lookup of the log that has not outlived its time. *)
Definition backed (pos neg : Z) (es : list lookup_event) (op : string) (e : CacheEntry) : Prop :=
  exists now reply, L_finish op now reply ∈ es /\
    match reply with
    | BadKey => active e = false
    | Accounts s => active e = has_active s
    | RpcError => False
    end /\
    cache_expiresAt e = (now + if active e then pos else neg)%Z.

Lemma lookup_put_Forall (P : string * CacheEntry -> Prop) a key act now :
  Forall P (cache a) -> P (key, {| active := act; cache_expiresAt := now + if act then positiveTtl a else negativeTtl a |}) ->
  Forall P (cache (lookup_put a key act now)).
Proof.
  intros H Hk. unfold lookup_put. cbn [cache with_cache]. apply map_set_Forall; [|done].
  destruct (_ <=? _)%nat; [|done]. destruct (map_first_key _); [by apply map_delete_Forall|done].
Qed.

Lemma lookup_put_size a key act now : (map_size (cache a) <= Nat.max 1 (maxEntries a))%nat ->
  (map_size (cache (lookup_put a key act now)) <= Nat.max 1 (maxEntries a))%nat.
Proof.
  intros H. unfold lookup_put. cbn [cache with_cache]. rewrite map_set_size.
  destruct (Nat.leb_spec (maxEntries a) (map_size (cache a))); cycle 1; [case_match; lia|].
  destruct (cache a) as [|[k v] m] eqn:E; simpl in *.
  - unfold map_has, map_size; simpl. lia.
  - rewrite decide_True by done. unfold map_size in *; simpl in *. case_match; lia.
Qed.

Lemma lookup_run_inv pos neg entries es :
  let a := lookup_run (new_RpcAgentLookup pos neg entries) es in
  positiveTtl a = default 30000%Z pos /\ negativeTtl a = default 5000%Z neg /\ maxEntries a = default 1024%nat entries /\
  Forall (fun kv => backed (positiveTtl a) (negativeTtl a) es kv.1 kv.2) (cache a) /\ (map_size (cache a) <= Nat.max 1 (maxEntries a))%nat.
Proof.
  induction es as [|e es IH] using rev_ind; [cbn; split_and!; [done..|constructor|lia]|].
  unfold lookup_run in *. rewrite fold_left_app. cbn [fold_left].
  set (a := fold_left lookup_step es (new_RpcAgentLookup pos neg entries)) in *.
  destruct IH as (Hp & Hn & Hm & Hf & Hs).
  assert (Hmono : Forall (fun kv => backed (positiveTtl a) (negativeTtl a) (es ++ [e]) kv.1 kv.2) (cache a)).
  { eapply Forall_impl; [exact Hf|]. intros [k c] (now & reply & Hin & H).
    exists now, reply. rewrite elem_of_app. auto. }
  destruct e as [op now|op now reply|op]; cbn [lookup_step].
  - done.
  - destruct reply as [|s|]; cbn [finish_lookup snd]; [| |done]; (split_and!; [done..| |exact (lookup_put_size _ _ _ _ Hs)]);
      (apply lookup_put_Forall; [exact Hmono|]); cbn [fst snd]; eexists now, _;
      (split; [apply elem_of_app; right; by apply list_elem_of_singleton|]); done.
  - split_and!; [done..| |].
    + cbn [cache with_cache lookup_invalidate]. by apply map_delete_Forall.
    + cbn [cache with_cache lookup_invalidate maxEntries]. rewrite map_delete_size. case_match; lia.
Qed.

Lemma hit_backed pos neg entries es op now b :
  cache_hit (lookup_run (new_RpcAgentLookup pos neg entries) es) op now = Some b ->
  exists t reply, L_finish op t reply ∈ es /\
    (now < t + if b then default 30000%Z pos else default 5000%Z neg)%Z /\
    match reply with BadKey => b = false | Accounts s => b = has_active s | RpcError => False end.
Proof.
  destruct (lookup_run_inv pos neg entries es) as (Hp & Hn & _ & Hf & _).
  set (a := lookup_run _ es) in *. unfold cache_hit. destruct (map_get op (cache a)) as [c|] eqn:E; [|done].
  destruct (Z.ltb_spec now (cache_expiresAt c)) as [Hlt|]; [|done]. intros [= <-].
  apply map_get_elem in E. rewrite Forall_forall in Hf.
  destruct (Hf _ E) as (t & reply & Hin & Hr & Hexp). exists t, reply. split; [done|].
  cbn [fst snd] in *. rewrite Hexp, Hp, Hn in Hlt. done.
Qed.

(** ** Properties *)

(** The recent view of a topic is exactly the last entries pushed on that
    topic, in order: as many as asked for, at least one, at most the ring's
    capacity; pushes on other topics do not disturb it. *)
Theorem ring_recent_is_last (capacity : option nat) (ps : list push) (topic : string) (limit : Z) :
  let cap := default 256%nat capacity in
  ring_recent (ring_after capacity ps) topic limit =
    last_n (Nat.min cap (Z.to_nat (Z.max 1 (Z.min limit (Z.of_nat cap))))) (pushed_on topic ps) /\
  (length (ring_recent (ring_after capacity ps) topic limit) <= cap)%nat.
Proof.
  intros cap. destruct (ring_after_get capacity ps topic) as [Hg Hc]. fold cap in Hg, Hc.
  assert (H : ring_recent (ring_after capacity ps) topic limit =
    last_n (Nat.min cap (Z.to_nat (Z.max 1 (Z.min limit (Z.of_nat cap))))) (pushed_on topic ps)).
  { unfold ring_recent. rewrite Hg, Hc. destruct (decide (pushed_on topic ps = [])) as [->|_]; [done|].
    set (n := Z.to_nat _). destruct (Nat.le_gt_cases n cap).
    - rewrite last_n_last_n by lia. f_equal; lia.
    - rewrite last_n_all by (rewrite last_n_length; lia). f_equal; lia. }
  split; [done|]. rewrite H, last_n_length. lia.
Qed.

(** An "active" verdict is never older than the positive time to live: after
    any overlapping lookups and invalidations, [isActiveOperator] says yes only if
    this call's own registry reply shows an active account, or an earlier lookup of
    the same operator did and started less than [positiveTtl] ago; a failed RPC is
    a no that is not cached; and the cache keeps within [maxEntries]. *)
Theorem active_verdict_backed (pos neg : option Z) (entries : option nat) (es : list lookup_event)
    (op : string) (now : Z) (reply : lookup_reply) :
  let a := lookup_run (new_RpcAgentLookup pos neg entries) es in
  let r := isActiveOperator a op now reply in
  (r.1 = true ->
     (exists s, reply = Accounts s /\ has_active s = true) \/
     (exists t s, L_finish op t (Accounts s) ∈ es /\ has_active s = true /\ (now < t + default 30000%Z pos)%Z)) /\
  (cache_hit a op now = None -> reply = RpcError -> r = (false, a)) /\
  (map_size (cache r.2) <= Nat.max 1 (default 1024%nat entries))%nat.
Proof.
  intros a r. destruct (lookup_run_inv pos neg entries es) as (_ & _ & Hm & _ & Hs). fold a in Hm, Hs.
  split_and!.
  - subst r. unfold isActiveOperator. destruct (cache_hit a op now) as [b|] eqn:E.
    + cbn [fst]. intros ->. destruct (hit_backed pos neg entries es op now true E) as (t & rp & Hin & Hlt & Hr).
      right. destruct rp as [|s|]; [done| |done]. by exists t, s.
    + destruct reply as [|s|]; cbn [finish_lookup fst]; [done| |done]. intros H. left. by exists s.
  - subst r. unfold isActiveOperator. by intros -> ->.
  - subst r. unfold isActiveOperator. rewrite <- Hm. destruct (cache_hit a op now); [done|].
    destruct reply; cbn [finish_lookup snd]; [exact (lookup_put_size _ _ _ _ Hs)..|done].
Qed.
