(* ===== verification/RateLimit.v ===== *)
(** * RateLimit: the message bus's token buckets

    Models services/iacp/src/rate_limit.ts.  Times are integral milliseconds
    ([Date.now()]), token counts rationals.  A bucket's state is mutated in place
    by every method, so each method returns the new state. *)

From Stdlib Require Import ZArith QArith Qround Lqa.
From stdpp Require Import base sets list strings.
From S2P Require Import Prelude JsMap.

(** ** One bucket *)

Record TokenBucket := { capacity : Q; refillPerMs : Q }.

Record BucketState := { tokens : Q; lastRefill : Z; lastConsumed : Z }.

Definition new_TokenBucket (cap rate : Q) : result TokenBucket :=
  if q_leb cap 0%Q then Throw "capacity must be > 0"
  else if q_leb rate 0%Q then Throw "refillPerMs must be > 0"
  else Ok {| capacity := cap; refillPerMs := rate |}.

(** [Math.min] *)
Definition q_min (a b : Q) : Q := if q_leb a b then a else b.

Section bucket.
Variable tb : TokenBucket.

Definition initial (now : Z) : BucketState :=
  {| tokens := capacity tb; lastRefill := now; lastConsumed := now |}.

Definition refill (s : BucketState) (now : Z) : BucketState :=
  if (now <=? lastRefill s)%Z then s
  else {| tokens := q_min (capacity tb) (tokens s + inject_Z (now - lastRefill s) * refillPerMs tb)%Q;
          lastRefill := now; lastConsumed := lastConsumed s |}.

Definition tryConsume (s : BucketState) (now : Z) (amount : Q) : bool * BucketState :=
  let s := refill s now in
  if q_ltb (tokens s) amount then (false, s)
  else (true, {| tokens := (tokens s - amount)%Q; lastRefill := lastRefill s;
                 lastConsumed := if q_ltb 0%Q amount then now else lastConsumed s |}).

Definition retryAfterMs (s : BucketState) (now : Z) (amount : Q) : Z * BucketState :=
  let s := refill s now in
  let deficit := (amount - tokens s)%Q in
  (if q_leb deficit 0%Q then 0%Z else Qceiling (deficit / refillPerMs tb)%Q, s).

Definition isIdle (s : BucketState) (now idleMs : Z) : bool * BucketState :=
  let s := refill s now in
  (q_leb (capacity tb) (tokens s) && (idleMs <=? (now - lastConsumed s)%Z)%Z, s).

(** The tokens a later request at [t] would find. *)
Definition available (s : BucketState) (t : Z) : Q := tokens (refill s t).

Definition bucket_wf (s : BucketState) : Prop := (0 <= tokens s <= capacity tb)%Q.
End bucket.

(** ** The keyed limiter *)

Record KeyedRateLimiter := {
  bucket : TokenBucket;
  states : list (string * BucketState);
  idleMs : Z;
  maxKeys : nat;
}.

Record ConsumeResult := { allowed : bool; retry_after_ms : Z }.

Definition with_states (l : KeyedRateLimiter) (m : list (string * BucketState)) : KeyedRateLimiter :=
  {| bucket := bucket l; states := m; idleMs := idleMs l; maxKeys := maxKeys l |}.

Definition new_KeyedRateLimiter (cap rate : Q) (idle : option Z) (keys : option nat) : result KeyedRateLimiter :=
  match new_TokenBucket cap rate with
  | Ok b => Ok {| bucket := b; states := []; idleMs := default 60000%Z idle; maxKeys := default (Z.to_nat 10000) keys |}
  | Throw e => Throw e
  end.

(** The oldest key makes room for a new one when the table is full. *)
Definition evict (l : KeyedRateLimiter) : list (string * BucketState) :=
  if (maxKeys l <=? map_size (states l))%nat then
    match map_first_key (states l) with
    | Some oldest => map_delete oldest (states l)
    | None => states l
    end
  else states l.

Definition getOrCreate (l : KeyedRateLimiter) (key : string) (now : Z) : BucketState * KeyedRateLimiter :=
  match map_get key (states l) with
  | Some s => (s, l)
  | None => let s := initial (bucket l) now in (s, with_states l (map_set key s (evict l)))
  end.

Definition consume (l : KeyedRateLimiter) (key : string) (amount : Q) (now : Z) : ConsumeResult * KeyedRateLimiter :=
  let (s, l) := getOrCreate l key now in
  let (ok, s) := tryConsume (bucket l) s now amount in
  let (retry, s) := if ok then (0%Z, s) else retryAfterMs (bucket l) s now amount in
  ({| allowed := ok; retry_after_ms := retry |}, with_states l (map_set key s (states l))).

Definition limiter_delete (l : KeyedRateLimiter) (key : string) : KeyedRateLimiter :=
  with_states l (map_delete key (states l)).

Fixpoint sweep_states (b : TokenBucket) (idle now : Z) (m : list (string * BucketState)) :
    nat * list (string * BucketState) :=
  match m with
  | [] => (0%nat, [])
  | (k, s) :: m' =>
    let (is_idle, s') := isIdle b s now idle in
    let (n, rest) := sweep_states b idle now m' in
    if is_idle then (S n, rest) else (n, (k, s') :: rest)
  end.

Definition sweep (l : KeyedRateLimiter) (now : Z) : nat * KeyedRateLimiter :=
  let (n, m) := sweep_states (bucket l) (idleMs l) now (states l) in (n, with_states l m).

(** ** The gateway's two limiters *)

Record LimiterConfig := { msgBurst : Z; msgSustainedPerS : Z; bwBurstBytes : Z; bwSustainedBytesPerS : Z }.

Definition defaultLimiterConfig : LimiterConfig :=
  {| msgBurst := 20%Z; msgSustainedPerS := 5%Z; bwBurstBytes := (256 * 1024)%Z; bwSustainedBytesPerS := (64 * 1024)%Z |}.

Definition buildMsgLimiter (c : LimiterConfig) : result KeyedRateLimiter :=
  new_KeyedRateLimiter (inject_Z (msgBurst c)) (inject_Z (msgSustainedPerS c) / 1000)%Q None None.

Definition buildBandwidthLimiter (c : LimiterConfig) : result KeyedRateLimiter :=
  new_KeyedRateLimiter (inject_Z (bwBurstBytes c)) (inject_Z (bwSustainedBytesPerS c) / 1000)%Q None None.

(** ** The specification: what a key may still spend *)

(** A key with no bucket has a full one. *)
Definition avail (l : KeyedRateLimiter) (key : string) (t : Z) : Q :=
  match map_get key (states l) with
  | Some s => available (bucket l) s t
  | None => capacity (bucket l)
  end.

(** Every bucket is well formed and was last touched at [now] or earlier. *)
Definition limiter_wf (l : KeyedRateLimiter) (now : Z) : Prop :=
  (0 < capacity (bucket l))%Q /\ (0 < refillPerMs (bucket l))%Q /\ map_wf (states l) /\
  Forall (fun kv => bucket_wf (bucket l) kv.2 /\ (lastRefill kv.2 <= now)%Z) (states l).

(** A request for [key] will not push another key out. *)
Definition no_evict (l : KeyedRateLimiter) (key : string) : Prop :=
  map_has key (states l) = true \/ (map_size (states l) < maxKeys l)%nat.

Inductive limiter_op :=
| Op_consume (key : string) (amount : Q)
| Op_sweep.

(** Requests and sweeps in the order of their times, with what each request got. *)
Inductive limiter_run : KeyedRateLimiter -> Z -> list (string * Q * bool) -> KeyedRateLimiter -> Z -> Prop :=
| lr_nil l t : limiter_run l t [] l t
| lr_consume l t log l1 t1 key amount now :
    limiter_run l t log l1 t1 -> (t1 <= now)%Z -> (0 <= amount)%Q -> no_evict l1 key ->
    limiter_run l t (log ++ [(key, amount, allowed (consume l1 key amount now).1)])
      (consume l1 key amount now).2 now
| lr_sweep l t log l1 t1 now :
    limiter_run l t log l1 t1 -> (t1 <= now)%Z -> limiter_run l t log (sweep l1 now).2 now.

(** What [key] was granted. *)
Definition granted (key : string) (log : list (string * Q * bool)) : Q :=
  fold_right (fun e acc => if bool_decide (e.1.1 = key) && e.2 then e.1.2 + acc else acc)%Q 0%Q log.

(** ** Refilling *)

Lemma q_min_cases a b : (q_min a b == a /\ a <= b)%Q \/ (q_min a b == b /\ b < a)%Q.
Proof. unfold q_min. destruct (q_leb_spec a b); [left|right]; by split. Qed.

(** Decide every minimum of the goal and finish by linear arithmetic. *)
Ltac q_mins :=
  repeat match goal with
  | |- context [q_min ?a ?b] =>
    generalize (q_min_cases a b); generalize (q_min a b)
  end; intros; intuition lra.

#[export] Instance q_min_proper : Proper (Qeq ==> Qeq ==> Qeq) q_min.
Proof.
  intros a a' Ha b b' Hb. unfold q_min.
  destruct (q_leb_spec a b), (q_leb_spec a' b'); lra.
Qed.

Section refill.
Variable tb : TokenBucket.
Hypothesis cap_pos : (0 < capacity tb)%Q.
Hypothesis rate_pos : (0 < refillPerMs tb)%Q.

(** What accrues between two times. *)
Definition accrued (t0 t : Z) : Q := (inject_Z (t - t0) * refillPerMs tb)%Q.

Lemma accrued_nonneg t0 t : (t0 <= t)%Z -> (0 <= accrued t0 t)%Q.
Proof. intros H. apply Qmult_le_0_compat; [|lra]. change 0%Q with (inject_Z 0). rewrite <- Zle_Qle. lia. Qed.

Lemma accrued_plus t0 t1 t : (accrued t0 t == accrued t0 t1 + accrued t1 t)%Q.
Proof. unfold accrued. rewrite <- Qmult_plus_distr_l, <- inject_Z_plus. by replace (t1 - t0 + (t - t1))%Z with (t - t0)%Z by lia. Qed.

Lemma accrued_same t : (accrued t t == 0)%Q.
Proof. unfold accrued. rewrite Z.sub_diag. apply Qmult_0_l. Qed.

Lemma refill_tokens s t : bucket_wf tb s -> (lastRefill s <= t)%Z ->
  (available tb s t == q_min (capacity tb) (tokens s + accrued (lastRefill s) t))%Q.
Proof.
  intros [H0 H1] Ht. unfold available, refill. destruct (Z.leb_spec t (lastRefill s)); simpl.
  - replace t with (lastRefill s) by lia. pose proof (accrued_same (lastRefill s)).
    q_mins.
  - done.
Qed.

Lemma refill_last s t : (lastRefill s <= t)%Z -> lastRefill (refill tb s t) = t.
Proof. intros H. unfold refill. destruct (Z.leb_spec t (lastRefill s)); simpl; lia. Qed.

Lemma refill_wf s t : bucket_wf tb s -> (lastRefill s <= t)%Z -> bucket_wf tb (refill tb s t).
Proof.
  intros Hwf Ht. unfold bucket_wf. pose proof (refill_tokens s t Hwf Ht) as E. unfold available in E.
  rewrite E. pose proof (accrued_nonneg _ _ Ht). destruct Hwf. q_mins.
Qed.

Lemma available_refill s now t : bucket_wf tb s -> (lastRefill s <= now)%Z -> (now <= t)%Z ->
  (available tb (refill tb s now) t == available tb s t)%Q.
Proof.
  intros Hwf H1 H2. rewrite (refill_tokens s t) by (done || lia).
  rewrite (refill_tokens (refill tb s now)); [|by apply refill_wf|by rewrite refill_last].
  rewrite refill_last by done. fold (available tb s now). rewrite (refill_tokens s now) by done.
  pose proof (accrued_plus (lastRefill s) now t). pose proof (accrued_nonneg _ _ H1).
  pose proof (accrued_nonneg _ _ H2). q_mins.
Qed.

Lemma available_le_cap s t : bucket_wf tb s -> (lastRefill s <= t)%Z -> (0 <= available tb s t <= capacity tb)%Q.
Proof. intros Hwf Ht. by apply (refill_wf s t). Qed.

(** Between two times a bucket gains what accrues, up to its capacity. *)
Lemma available_grow s t1 t2 : bucket_wf tb s -> (lastRefill s <= t1)%Z -> (t1 <= t2)%Z ->
  (available tb s t2 == q_min (capacity tb) (available tb s t1 + accrued t1 t2))%Q.
Proof.
  intros Hwf H1 H2. rewrite <- (available_refill s t1 t2) by done.
  rewrite refill_tokens; [|by apply refill_wf|by rewrite refill_last]. by rewrite refill_last.
Qed.
End refill.

(** ** The limiter *)

Lemma avail_le_cap l now key t : limiter_wf l now -> (now <= t)%Z ->
  (0 <= avail l key t <= capacity (bucket l))%Q.
Proof.
  intros (Hc & Hr & _ & Hf) Ht. unfold avail. destruct (map_get key (states l)) as [s|] eqn:E; [|lra].
  apply map_get_elem in E. rewrite Forall_forall in Hf. destruct (Hf _ E) as [Hw Hl].
  apply available_le_cap; [done|done|done|simpl in Hl; lia].
Qed.

Lemma avail_grow l now key t1 t2 : limiter_wf l now -> (now <= t1)%Z -> (t1 <= t2)%Z ->
  (avail l key t2 == q_min (capacity (bucket l)) (avail l key t1 + accrued (bucket l) t1 t2))%Q.
Proof.
  intros (Hc & Hr & _ & Hf) Ht H2. unfold avail. destruct (map_get key (states l)) as [s|] eqn:E.
  - apply map_get_elem in E. rewrite Forall_forall in Hf. destruct (Hf _ E) as [Hw Hl].
    apply available_grow; [done|done|done|simpl in Hl; lia|done].
  - pose proof (accrued_nonneg (bucket l) Hr t1 t2 H2). q_mins.
Qed.

(** The bucket a request finds. *)
Definition key_state (l : KeyedRateLimiter) (key : string) (now : Z) : BucketState :=
  default (initial (bucket l) now) (map_get key (states l)).

Lemma key_state_wf l key now : limiter_wf l now ->
  bucket_wf (bucket l) (key_state l key now) /\ (lastRefill (key_state l key now) <= now)%Z.
Proof.
  intros (Hc & _ & _ & Hf). unfold key_state. destruct (map_get key (states l)) as [s|] eqn:E; simpl.
  - apply map_get_elem in E. rewrite Forall_forall in Hf. apply (Hf _ E).
  - split; [|lia]. unfold bucket_wf; simpl. lra.
Qed.

Lemma key_state_avail l key now : available (bucket l) (key_state l key now) now = avail l key now.
Proof.
  unfold key_state, avail. destruct (map_get key (states l)); simpl; [done|].
  unfold available, refill; simpl. by rewrite Z.leb_refl.
Qed.

Lemma refill_again tb s now : (lastRefill s <= now)%Z -> refill tb (refill tb s now) now = refill tb s now.
Proof. intros H. unfold refill at 1. by rewrite refill_last, Z.leb_refl. Qed.

Lemma getOrCreate_no_evict l key now : no_evict l key ->
  (getOrCreate l key now).1 = key_state l key now /\
  (forall s, map_set key s (states (getOrCreate l key now).2) = map_set key s (states l)) /\
  bucket (getOrCreate l key now).2 = bucket l.
Proof.
  unfold no_evict, getOrCreate, key_state, map_has, evict.
  destruct (map_get key (states l)) eqn:E; simpl; [done|].
  intros [?|Hn]; [done|]. destruct (Nat.leb_spec (maxKeys l) (map_size (states l))); [lia|].
  split_and!; [done| |done]. intros s. apply map_set_set.
Qed.

(** What a request does when it pushes no other key out. *)
Lemma consume_no_evict l key amount now : limiter_wf l now -> no_evict l key ->
  let s := refill (bucket l) (key_state l key now) now in
  let ok := q_leb amount (avail l key now) in
  allowed (consume l key amount now).1 = ok /\
  retry_after_ms (consume l key amount now).1 =
    (if ok then 0%Z else Qceiling ((amount - avail l key now) / refillPerMs (bucket l))) /\
  bucket (consume l key amount now).2 = bucket l /\
  states (consume l key amount now).2 =
    map_set key (if ok then {| tokens := (tokens s - amount)%Q; lastRefill := lastRefill s;
                               lastConsumed := if q_ltb 0%Q amount then now else lastConsumed s |} else s) (states l).
Proof.
  intros Hwf Hne s ok. destruct (key_state_wf l key now Hwf) as [Hb Hl].
  destruct (getOrCreate_no_evict l key now Hne) as (H1 & H2 & H3).
  unfold consume. destruct (getOrCreate l key now) as [s0 l'] eqn:E; simpl in H1, H2, H3. subst s0.
  unfold tryConsume. rewrite H3. fold s.
  assert (Hok : q_ltb (tokens s) amount = negb ok).
  { unfold ok. by rewrite <- key_state_avail. }
  rewrite Hok. destruct ok eqn:Eok; simpl; [by rewrite H2|].
  unfold retryAfterMs. rewrite H3. unfold s. rewrite refill_again by done. fold s. simpl.
  rewrite <- key_state_avail. unfold available. fold s.
  destruct (q_leb_spec (amount - tokens s) 0); [|simpl; rewrite H2; done].
  exfalso. unfold ok in Eok. rewrite <- key_state_avail in Eok. apply q_leb_gt in Eok.
  unfold available in Eok. fold s in Eok. lra.
Qed.

Lemma limiter_wf_mono l t t' : limiter_wf l t -> (t <= t')%Z -> limiter_wf l t'.
Proof.
  intros (Hc & Hr & Hm & Hf) Ht. split_and!; [done..|]. eapply Forall_impl; [exact Hf|].
  intros kv [? ?]; split; [done | lia].
Qed.

Lemma consume_wf l key amount now : limiter_wf l now -> no_evict l key -> (0 <= amount)%Q ->
  limiter_wf (consume l key amount now).2 now.
Proof.
  intros Hwf Hne Ha. destruct (consume_no_evict l key amount now Hwf Hne) as (_ & _ & Hb & Hs).
  destruct (key_state_wf l key now Hwf) as [Hw Hl]. destruct Hwf as (Hc & Hr & Hm & Hf).
  unfold limiter_wf. rewrite Hb, Hs. split_and!; [done..|by apply map_wf_set|].
  apply map_set_Forall; [done|]. simpl.
  destruct (refill_wf (bucket l) Hc Hr _ _ Hw Hl) as [H0 H1].
  destruct (q_leb_spec amount (avail l key now)) as [Hle|Hgt]; unfold bucket_wf; simpl;
    rewrite ?refill_last by done; (split; [|lia]); [|done].
  rewrite <- key_state_avail in Hle. unfold available in Hle. lra.
Qed.

Lemma consume_avail l key amount now key' t : limiter_wf l now -> no_evict l key -> (0 <= amount)%Q -> (now <= t)%Z ->
  (avail (consume l key amount now).2 key' t ==
   if bool_decide (key' = key) && allowed (consume l key amount now).1
   then q_min (capacity (bucket l)) (avail l key now - amount + accrued (bucket l) now t)
   else avail l key' t)%Q.
Proof.
  intros Hwf Hne Ha Ht. pose proof (consume_wf l key amount now Hwf Hne Ha) as Hwf'.
  destruct (consume_no_evict l key amount now Hwf Hne) as (Hok & _ & Hb & Hs).
  destruct (key_state_wf l key now Hwf) as [Hw Hl].
  destruct (bool_decide_reflect (key' = key)) as [->|Hk]; simpl; cycle 1.
  { unfold avail. by rewrite Hs, Hb, map_get_set_ne. }
  rewrite (avail_grow _ now _ now t) by (done || lia). rewrite Hb.
  assert (Havail : (avail (consume l key amount now).2 key now ==
    if allowed (consume l key amount now).1 then avail l key now - amount else avail l key now)%Q).
  { unfold avail at 1. rewrite Hs, Hb, map_get_set_eq, Hok.
    unfold available. destruct (q_leb amount (avail l key now)).
    - unfold refill at 1; simpl. rewrite refill_last, Z.leb_refl by done. simpl.
      by rewrite <- key_state_avail.
    - rewrite refill_again by done. by rewrite <- key_state_avail. }
  rewrite Havail. destruct (allowed _); [done|].
  symmetry. by apply (avail_grow l now).
Qed.

(** ** Sweeping *)

Lemma isIdle_spec b s now idle : isIdle b s now idle =
  (q_leb (capacity b) (available b s now) && (idle <=? now - lastConsumed s)%Z, refill b s now).
Proof. unfold isIdle, available, refill. by destruct (now <=? lastRefill s)%Z. Qed.

Lemma sweep_states_cons b idle now k s m : sweep_states b idle now ((k, s) :: m) =
  let (n, rest) := sweep_states b idle now m in
  if q_leb (capacity b) (available b s now) && (idle <=? now - lastConsumed s)%Z then (S n, rest)
  else (n, (k, refill b s now) :: rest).
Proof. cbn [sweep_states]. by rewrite isIdle_spec. Qed.

#[local] Arguments sweep_states : simpl never.

Lemma sweep_states_keys b idle now m : sublist (map_keys (sweep_states b idle now m).2) (map_keys m).
Proof.
  induction m as [|[k s] m IH]; [done|]. rewrite sweep_states_cons.
  destruct (sweep_states b idle now m) as [n rest]; simpl in *. case_match; simpl; by constructor.
Qed.

Lemma sweep_states_count b idle now m :
  ((sweep_states b idle now m).1 + map_size (sweep_states b idle now m).2 = map_size m)%nat.
Proof.
  unfold map_size. induction m as [|[k s] m IH]; [done|]. rewrite sweep_states_cons.
  destruct (sweep_states b idle now m) as [n rest]; simpl in *. case_match; simpl; lia.
Qed.

(** What a swept table holds: the refilled buckets that were not idle. *)
Lemma sweep_states_get b idle now m key : map_wf m ->
  map_get key (sweep_states b idle now m).2 =
  match map_get key m with
  | Some s => if q_leb (capacity b) (available b s now) && (idle <=? now - lastConsumed s)%Z then None
              else Some (refill b s now)
  | None => None
  end.
Proof.
  unfold map_wf. induction m as [|[k s] m IH]; [done|]. rewrite sweep_states_cons. simpl.
  rewrite NoDup_cons. intros [Hk Hm]. specialize (IH Hm).
  pose proof (sweep_states_keys b idle now m) as Hsub.
  destruct (sweep_states b idle now m) as [n rest]; simpl in *.
  destruct (decide (key = k)) as [->|Hne]; destruct (_ && _)%bool eqn:E; simpl;
    rewrite ?decide_True, ?decide_False by done; [|done|done|done].
  apply map_get_None. intros Hin. apply Hk. by eapply sublist_subseteq.
Qed.

Lemma sweep_wf l now : limiter_wf l now -> limiter_wf (sweep l now).2 now.
Proof.
  intros (Hc & Hr & Hm & Hf). unfold sweep.
  pose proof (sweep_states_keys (bucket l) (idleMs l) now (states l)) as Hsub.
  assert (H : Forall (fun kv => bucket_wf (bucket l) kv.2 /\ (lastRefill kv.2 <= now)%Z)
                (sweep_states (bucket l) (idleMs l) now (states l)).2).
  { clear Hm Hsub. induction Hf as [|[k s] m [Hw Hl] Hf IH]; [constructor|]. rewrite sweep_states_cons.
    destruct (sweep_states (bucket l) (idleMs l) now m) as [n rest]; simpl in *.
    case_match; [done|]. constructor; [|done]; simpl. split; [by apply refill_wf | by rewrite refill_last]. }
  destruct (sweep_states _ _ _ _) as [n m]; simpl in *.
  split_and!; [done..| |done]. by eapply sublist_NoDup.
Qed.

Lemma sweep_avail l now key t : limiter_wf l now -> (now <= t)%Z ->
  (avail (sweep l now).2 key t == avail l key t)%Q.
Proof.
  intros Hwf Ht. pose proof (avail_le_cap l now key t Hwf Ht) as Hcap. destruct Hwf as (Hc & Hr & Hm & Hf).
  unfold avail in *. assert (Hb : bucket (sweep l now).2 = bucket l) by (unfold sweep; by destruct (sweep_states _ _ _ _)).
  assert (Hs : states (sweep l now).2 = (sweep_states (bucket l) (idleMs l) now (states l)).2)
    by (unfold sweep; by destruct (sweep_states _ _ _ _)).
  rewrite Hb, Hs, sweep_states_get by done. destruct (map_get key (states l)) as [s|] eqn:E; [|done].
  apply map_get_elem in E. rewrite Forall_forall in Hf. destruct (Hf _ E) as [Hw Hl]; simpl in *.
  destruct (q_leb_spec (capacity (bucket l)) (available (bucket l) s now)) as [Hfull|]; simpl;
    [|by apply available_refill].
  destruct (idleMs l <=? now - lastConsumed s)%Z; simpl; [|by apply available_refill].
  pose proof (available_grow (bucket l) Hc Hr s now t Hw Hl Ht) as Hg.
  pose proof (accrued_nonneg (bucket l) Hr now t Ht). revert Hg. q_mins.
Qed.

(** ** Runs *)

Lemma consume_bucket l key amount now : bucket (consume l key amount now).2 = bucket l.
Proof.
  unfold consume, getOrCreate. destruct (map_get key (states l)); simpl;
    repeat (case_match; simpl); done.
Qed.

Lemma sweep_bucket l now : bucket (sweep l now).2 = bucket l.
Proof. unfold sweep. by destruct (sweep_states _ _ _ _). Qed.

Lemma limiter_run_wf l t log l' t' : limiter_run l t log l' t' -> limiter_wf l t ->
  limiter_wf l' t' /\ (t <= t')%Z /\ bucket l' = bucket l.
Proof.
  induction 1 as [|l t log l1 t1 key amount now _ IH Ht Ha Hne|l t log l1 t1 now _ IH Ht]; intros Hwf;
    [split_and!; [done|lia|done]|..]; destruct (IH Hwf) as (H1 & H2 & H3);
    pose proof (limiter_wf_mono _ _ now H1 Ht) as H1'; (split_and!; [|lia|]).
  - by apply consume_wf.
  - by rewrite consume_bucket.
  - by apply sweep_wf.
  - by rewrite sweep_bucket.
Qed.

Lemma granted_snoc key log e : (granted key (log ++ [e]) ==
  granted key log + if bool_decide (e.1.1 = key) && e.2 then e.1.2 else 0)%Q.
Proof.
  unfold granted. induction log as [|x log IH]; simpl.
  - destruct (_ && _)%bool; lra.
  - destruct (bool_decide (x.1.1 = key) && x.2), (bool_decide (e.1.1 = key) && e.2); lra.
Qed.

Lemma avail_grow_le l now key t1 t2 : limiter_wf l now -> (now <= t1)%Z -> (t1 <= t2)%Z ->
  (avail l key t2 <= avail l key t1 + accrued (bucket l) t1 t2)%Q.
Proof. intros Hwf H1 H2. rewrite (avail_grow l now key t1 t2) by done. q_mins. Qed.

(** ** Properties *)

(** A request that pushes no other key out is allowed exactly when the key's
    available tokens cover it; it is charged to that key alone, which from then on
    regains its refill rate up to its capacity; a denied request charges nothing,
    and no other key's availability moves at any later time. *)
Theorem consume_charges_its_key (l : KeyedRateLimiter) (key : string) (amount : Q) (now : Z)
    (Hwf : limiter_wf l now) (Hroom : no_evict l key) (Ha : (0 <= amount)%Q) :
  let r := consume l key amount now in
  allowed r.1 = q_leb amount (avail l key now) /\
  limiter_wf r.2 now /\
  forall key' t, (now <= t)%Z ->
    (avail r.2 key' t ==
     if bool_decide (key' = key) && allowed r.1
     then q_min (capacity (bucket l))
            (avail l key now - amount + inject_Z (t - now) * refillPerMs (bucket l))
     else avail l key' t)%Q.
Proof.
  intros r. split_and!.
  - by apply consume_no_evict.
  - by apply consume_wf.
  - intros key' t Ht. by apply consume_avail.
Qed.

(** C12: over any sequence of requests and sweeps in time order that evicts no
    key, what one key is granted, plus what it has left, is at most what it had
    plus the refill of the elapsed time: the burst and the sustained rate bound
    every agent's traffic. *)
Theorem granted_within_rate (l l' : KeyedRateLimiter) (t t' : Z) (log : list (string * Q * bool)) (key : string)
    (Hwf : limiter_wf l t) (Hrun : limiter_run l t log l' t') :
  (granted key log + avail l' key t' <= avail l key t + inject_Z (t' - t) * refillPerMs (bucket l))%Q /\
  (granted key log <= capacity (bucket l) + inject_Z (t' - t) * refillPerMs (bucket l))%Q.
Proof.
  assert (H : (granted key log + avail l' key t' <= avail l key t + accrued (bucket l) t t')%Q).
  { induction Hrun as [|l t log l1 t1 k amount now Hrun IH Ht Ha Hne|l t log l1 t1 now Hrun IH Ht].
    - rewrite accrued_same. unfold granted; simpl. lra.
    - destruct (limiter_run_wf _ _ _ _ _ Hrun Hwf) as (H1 & H2 & H3). specialize (IH Hwf).
      pose proof (avail_grow_le l1 t1 key t1 now H1 ltac:(lia) Ht) as Hg. rewrite H3 in Hg.
      pose proof (limiter_wf_mono _ _ now H1 Ht) as H1'.
      pose proof (accrued_plus (bucket l) t t1 now) as Hp.
      rewrite granted_snoc, consume_avail by (done || lia). cbn [fst snd].
      destruct (bool_decide_reflect (k = key)) as [->|Hk].
      + rewrite bool_decide_true by done. simpl. destruct (allowed _); [|lra].
        pose proof (accrued_same (bucket l1) now). q_mins.
      + rewrite (bool_decide_false (key = k)) by congruence. simpl. lra.
    - destruct (limiter_run_wf _ _ _ _ _ Hrun Hwf) as (H1 & H2 & H3). specialize (IH Hwf).
      pose proof (avail_grow_le l1 t1 key t1 now H1 ltac:(lia) Ht) as Hg. rewrite H3 in Hg.
      pose proof (accrued_plus (bucket l) t t1 now) as Hp.
      rewrite sweep_avail; [lra | by eapply limiter_wf_mono | lia]. }
  destruct (limiter_run_wf _ _ _ _ _ Hrun Hwf) as (H1 & _ & _).
  pose proof (avail_le_cap l t key t Hwf ltac:(lia)). pose proof (avail_le_cap l' t' key t' H1 ltac:(lia)).
  unfold accrued in H. split; lra.
Qed.

(** The wait reported for a deficit is the first whole millisecond that covers it. *)
Lemma ceiling_covers (d r : Q) (Hr : (0 < r)%Q) :
  (d <= inject_Z (Qceiling (d / r)) * r)%Q /\ (inject_Z (Qceiling (d / r) - 1) * r < d)%Q.
Proof.
  assert (E : (d / r * r == d)%Q) by (field; lra).
  pose proof (Qle_ceiling (d / r)) as H1. pose proof (Qceiling_lt (d / r)) as H2. split.
  - rewrite <- E at 1. apply Qmult_le_compat_r; [done|lra].
  - rewrite <- E at 2. by apply Qmult_lt_compat_r.
Qed.

(** The retry hint of a denied request is exact: when the amount fits the
    bucket at all, the key can spend it at [now + retryAfterMs] and at no earlier
    millisecond; an amount above the capacity is never granted, however long the
    client waits. *)
Theorem retry_after_exact (l : KeyedRateLimiter) (key : string) (amount : Q) (now : Z)
    (Hwf : limiter_wf l now) (Hroom : no_evict l key) (Ha : (0 <= amount)%Q)
    (Hdenied : allowed (consume l key amount now).1 = false) :
  let d := retry_after_ms (consume l key amount now).1 in
  let l' := (consume l key amount now).2 in
  (0 < d)%Z /\
  ((amount <= capacity (bucket l))%Q ->
     (amount <= avail l' key (now + d))%Q /\
     forall t, (now <= t < now + d)%Z -> (avail l' key t < amount)%Q) /\
  ((capacity (bucket l) < amount)%Q -> forall t, (now <= t)%Z -> (avail l' key t < amount)%Q).
Proof.
  intros d l'. destruct (consume_no_evict l key amount now Hwf Hroom) as (Hok & Hd & _ & _).
  pose proof (consume_avail l key amount now key) as Hav.
  rewrite Hdenied in Hok. rewrite <- Hok in Hd. symmetry in Hok. apply q_leb_gt in Hok.
  fold d in Hd. fold l' in Hav. set (a0 := avail l key now) in *.
  assert (Hr : (0 < refillPerMs (bucket l))%Q) by apply Hwf.
  destruct (ceiling_covers (amount - a0) _ Hr) as [Hc1 Hc2]. rewrite <- Hd in Hc1, Hc2.
  assert (Hpos : (0 < d)%Z).
  { destruct (Z.le_gt_cases d 0) as [Hle|]; [exfalso|lia].
    pose proof (accrued_nonneg (bucket l) Hr d 0 Hle) as Hn. unfold accrued in Hn.
    rewrite Z.sub_0_l, inject_Z_opp in Hn. lra. }
  assert (Hl' : forall t, (now <= t)%Z ->
    (avail l' key t == q_min (capacity (bucket l)) (a0 + accrued (bucket l) now t))%Q).
  { intros t Ht. rewrite Hav by done. rewrite Hdenied, andb_false_r. by apply (avail_grow l now). }
  split_and!; [done| |].
  - intros Hcap. split.
    + rewrite Hl' by lia. unfold accrued. replace (now + d - now)%Z with d by lia. q_mins.
    + intros t Ht. rewrite Hl' by lia.
      assert (Hle : (accrued (bucket l) now t <= inject_Z (d - 1) * refillPerMs (bucket l))%Q).
      { unfold accrued. apply Qmult_le_compat_r; [|lra]. rewrite <- Zle_Qle. lia. }
      q_mins.
  - intros Hcap t Ht. rewrite Hl' by lia. q_mins.
Qed.

(** The idle sweep is invisible to clients: whatever it drops, every key can
    spend at any later time exactly what it could have without the sweep; it only
    removes keys and reports how many. *)
Theorem sweep_is_transparent (l : KeyedRateLimiter) (now : Z) (Hwf : limiter_wf l now) :
  (forall key t, (now <= t)%Z -> (avail (sweep l now).2 key t == avail l key t)%Q) /\
  sublist (map_keys (states (sweep l now).2)) (map_keys (states l)) /\
  ((sweep l now).1 + map_size (states (sweep l now).2) = map_size (states l))%nat.
Proof.
  split_and!.
  - intros key t Ht. by apply sweep_avail.
  - pose proof (sweep_states_keys (bucket l) (idleMs l) now (states l)) as H.
    unfold sweep. by destruct (sweep_states _ _ _ _).
  - pose proof (sweep_states_count (bucket l) (idleMs l) now (states l)) as H.
    unfold sweep. by destruct (sweep_states _ _ _ _).
Qed.

(** When the table is full, a request with a fresh key gives the oldest key
    a full bucket again, whatever it had spent, and the table keeps its size: the
    limit on a key is only as strong as the number of keys its owner cannot create. *)
Theorem overflow_refills_oldest (l : KeyedRateLimiter) (oldest key : string) (amount : Q) (now t : Z)
    (Hwf : limiter_wf l now) (Hfull : (maxKeys l <= map_size (states l))%nat)
    (Hfirst : map_first_key (states l) = Some oldest) (Hfresh : map_has key (states l) = false) :
  avail (consume l key amount now).2 oldest t = capacity (bucket l) /\
  map_size (states (consume l key amount now).2) = map_size (states l).
Proof.
  assert (Hne : oldest <> key).
  { intros ->. destruct (states l) as [|[k s] m] eqn:E; simplify_eq/=. unfold map_has in Hfresh; simpl in Hfresh.
    rewrite decide_True in Hfresh by done. done. }
  assert (Hs : exists s s', states (consume l key amount now).2 =
      map_set key s (map_set key s' (map_delete oldest (states l)))).
  { unfold map_has in Hfresh. unfold consume, getOrCreate. destruct (map_get key (states l)) eqn:E; [done|].
    unfold evict. rewrite Hfirst. destruct (Nat.leb_spec (maxKeys l) (map_size (states l))); [|lia].
    destruct (tryConsume _ _ _ _) as [ok s']. destruct ok; simpl; eauto. }
  destruct Hs as (s & s' & Hs). destruct Hwf as (_ & _ & Hm & _).
  unfold avail. rewrite Hs, consume_bucket, map_set_set, map_get_set_ne by done.
  rewrite map_get_delete_eq by done. split; [done|].
  assert (Hk : map_has oldest (states l) = true).
  { destruct (states l) as [|[k v] m]; simplify_eq/=. unfold map_has; simpl. by rewrite decide_True. }
  rewrite map_set_size, map_delete_size, Hk. unfold map_has in *. rewrite map_get_delete_ne by done.
  destruct (map_get key (states l)); [done|]. destruct (states l); [done|]. done.
Qed.

(** ** Witnesses *)

Definition tiny_limiter : KeyedRateLimiter :=
  {| bucket := {| capacity := 20; refillPerMs := 1 # 200 |}; states := []; idleMs := 60000; maxKeys := 2 |}.

Definition spent_limiter : KeyedRateLimiter :=
  (consume (consume tiny_limiter "alice" 20%Q 1000).2 "bob" 1%Q 1000).2.

Lemma tiny_limiter_wf t : limiter_wf tiny_limiter t.
Proof. split_and!; [done|done|apply map_wf_nil|constructor]. Qed.

Lemma spent_limiter_wf : limiter_wf spent_limiter 1000.
Proof. repeat (apply consume_wf; [|by (right; vm_compute; lia)|done]). apply tiny_limiter_wf. Qed.

Lemma consume_charges_its_key_witness :
  allowed (consume tiny_limiter "alice" 20%Q 1000).1 = true /\
  (avail (consume tiny_limiter "alice" 20%Q 1000).2 "alice" 1200 == 1)%Q.
Proof.
  destruct (consume_charges_its_key tiny_limiter "alice" 20%Q 1000) as (H1 & _ & H2);
    [apply tiny_limiter_wf | right; vm_compute; lia | done |].
  split; [exact H1|]. rewrite (H2 "alice" 1200%Z) by lia. vm_compute. reflexivity.
Defined.

Lemma granted_within_rate_witness :
  (granted "alice" [("alice", 20, true)] <= 20 + inject_Z 0 * (1 # 200))%Q.
Proof.
  apply (granted_within_rate tiny_limiter (consume tiny_limiter "alice" 20%Q 1000).2 1000 1000); [apply tiny_limiter_wf|].
  change [("alice", 20%Q, true)] with ([] ++ [("alice", 20%Q, allowed (consume tiny_limiter "alice" 20%Q 1000).1)]).
  eapply lr_consume; [constructor|lia|done|right; vm_compute; lia].
Defined.

Lemma retry_after_exact_witness :
  retry_after_ms (consume spent_limiter "alice" 1%Q 1000).1 = 200%Z /\
  (1 <= avail (consume spent_limiter "alice" 1%Q 1000).2 "alice" 1200)%Q.
Proof.
  split; [by vm_compute|].
  refine (proj1 (proj1 (proj2 (retry_after_exact spent_limiter "alice" 1%Q 1000 spent_limiter_wf _ _ _)) _));
    [left; by vm_compute | done | by vm_compute | done].
Defined.

Lemma sweep_is_transparent_witness :
  (avail (sweep spent_limiter 1000).2 "alice" 1200 == avail spent_limiter "alice" 1200)%Q.
Proof. apply (sweep_is_transparent spent_limiter 1000 spent_limiter_wf). lia. Defined.

Lemma overflow_refills_oldest_witness :
  allowed (consume spent_limiter "alice" 1%Q 1000).1 = false /\
  avail (consume spent_limiter "carol" 1%Q 1000).2 "alice" 1000 = 20%Q.
Proof.
  split; [by vm_compute|].
  apply (overflow_refills_oldest spent_limiter "alice" "carol" 1%Q 1000 1000 spent_limiter_wf);
    [vm_compute; lia | done | done].
Defined.
