(* ===== verification/Anchor.v ===== *)
(** * Anchor: the memo worker pool

    Models [AnchorWorkerPool] of services/iacp/src/anchor.ts.  A submission in
    flight and a retry timer are kept as lists of the items they hold; the
    asynchronous continuations (a submission settles, a timer fires) are
    operations, and [pool_step] lets them happen in any order.  SHA-256 is a
    parameter; the RPC submitter is the outcome of a settled submission. *)

From Stdlib Require Import ZArith Permutation.
From stdpp Require Import base sets list strings relations.
From S2P Require Import Prelude Json Messages.

Definition DEFAULT_TOPIC_PREFIX : string := "task.".
Definition DEFAULT_PAYLOAD_VERSION : string := "saep/iacp/v1".
Definition DEFAULT_WORKERS : nat := 2.
Definition DEFAULT_QUEUE_CAP : nat := 1024.
Definition DEFAULT_MAX_RETRIES : nat := 3.
Definition DEFAULT_BASE_RETRY_MS : Z := 500.

Record AnchorOptions := {
  opt_workers : option nat;
  opt_queueCap : option nat;
  opt_maxRetries : option nat;
  opt_baseRetryMs : option Z;
  opt_topicPrefix : option string;
  opt_payloadVersion : option string;
}.

Record QueueItem := { envelope : Envelope; attempts : nat; enqueuedAt : Z }.

Inductive EnqueueOutcome := queued | skipped | dropped_full | not_running.

Record AnchorWorkerPool := {
  queue : list QueueItem;
  inFlight : list QueueItem;
  (** Retries waiting for their timer, with its delay. *)
  timers : list (QueueItem * Z);
  running : bool;
  workers : nat;
  queueCap : nat;
  maxRetries : nat;
  baseRetryMs : Z;
  topicPrefix : string;
  payloadVersion : string;
}.

Definition new_pool (opts : AnchorOptions) : AnchorWorkerPool :=
  {| queue := []; inFlight := []; timers := []; running := false;
     workers := Nat.max 1 (default DEFAULT_WORKERS (opt_workers opts));
     queueCap := Nat.max 1 (default DEFAULT_QUEUE_CAP (opt_queueCap opts));
     maxRetries := Nat.max 1 (default DEFAULT_MAX_RETRIES (opt_maxRetries opts));
     baseRetryMs := Z.max 1 (default DEFAULT_BASE_RETRY_MS (opt_baseRetryMs opts));
     topicPrefix := default DEFAULT_TOPIC_PREFIX (opt_topicPrefix opts);
     payloadVersion := default DEFAULT_PAYLOAD_VERSION (opt_payloadVersion opts) |}.

(** The fields the methods assign. *)
Definition with_work (p : AnchorWorkerPool) q f t r : AnchorWorkerPool :=
  {| queue := q; inFlight := f; timers := t; running := r; workers := workers p; queueCap := queueCap p;
     maxRetries := maxRetries p; baseRetryMs := baseRetryMs p; topicPrefix := topicPrefix p;
     payloadVersion := payloadVersion p |}.

Definition shouldAnchorTopic (p : AnchorWorkerPool) (topic : string) : bool := String.prefix (topicPrefix p) topic.

(** [sha256hex]: the hex digest of a byte string. *)
Definition buildMemo (sha256hex : string -> string) (p : AnchorWorkerPool) (env : Envelope) : string :=
  payloadVersion p +:+ "/" +:+
  sha256hex (id env +:+ "|" +:+ payload_digest env +:+ "|" +:+ z_text (ts env)).

(** The loop of [maybeStart]: items leave the head of the queue while a worker is free. *)
Fixpoint start_items (w : nat) (q f : list QueueItem) : list QueueItem * list QueueItem :=
  match q with
  | [] => ([], f)
  | item :: q' => if (length f <? w)%nat then start_items w q' (f ++ [item]) else (q, f)
  end.

Definition maybeStart (p : AnchorWorkerPool) : AnchorWorkerPool :=
  if running p then
    let (q, f) := start_items (workers p) (queue p) (inFlight p) in with_work p q f (timers p) (running p)
  else p.

Definition enqueue (p : AnchorWorkerPool) (env : Envelope) (now : Z) : EnqueueOutcome * AnchorWorkerPool :=
  if negb (shouldAnchorTopic p (topic env)) then (skipped, p)
  else if negb (running p) then (not_running, p)
  else if (queueCap p <=? length (queue p))%nat then (dropped_full, p)
  else (queued, maybeStart (with_work p (queue p ++ [{| envelope := env; attempts := 0; enqueuedAt := now |}])
                              (inFlight p) (timers p) (running p))).

Definition start (p : AnchorWorkerPool) : AnchorWorkerPool :=
  maybeStart (with_work p (queue p) (inFlight p) (timers p) true).

(** [stop] up to its wait, which changes nothing. *)
Definition stop (p : AnchorWorkerPool) : AnchorWorkerPool :=
  with_work p (queue p) (inFlight p) (timers p) false.

Definition remove_nth {A} (i : nat) (l : list A) : list A := take i l ++ drop (S i) l.

(** What became of an item whose submission settled. *)
Inductive settled := submitted (item : QueueItem) | retrying (item : QueueItem) | failed (item : QueueItem).

(** [process] after its await: the [i]-th submission in flight settles. *)
Definition settle (p : AnchorWorkerPool) (i : nat) (ok : bool) : option settled * AnchorWorkerPool :=
  match inFlight p !! i with
  | None => (None, p)
  | Some item =>
    let f := remove_nth i (inFlight p) in
    if ok then (Some (submitted item), maybeStart (with_work p (queue p) f (timers p) (running p)))
    else
      let item := {| envelope := envelope item; attempts := S (attempts item); enqueuedAt := enqueuedAt item |} in
      if (maxRetries p <=? attempts item)%nat
      then (Some (failed item), maybeStart (with_work p (queue p) f (timers p) (running p)))
      else
        let delay := (baseRetryMs p * 2 ^ Z.of_nat (attempts item - 1))%Z in
        (Some (retrying item), maybeStart (with_work p (queue p) f (timers p ++ [(item, delay)]) (running p)))
  end.

(** The [i]-th retry timer fires. *)
Definition fire (p : AnchorWorkerPool) (i : nat) : AnchorWorkerPool :=
  match timers p !! i with
  | None => p
  | Some (item, _) =>
    let t := remove_nth i (timers p) in
    if running p then maybeStart (with_work p (item :: queue p) (inFlight p) t (running p))
    else with_work p (queue p) (inFlight p) t (running p)
  end.

(** ** Steps *)

Inductive pool_event :=
| P_enqueue (env : Envelope) (now : Z)
| P_settle (i : nat) (ok : bool)
| P_fire (i : nat)
| P_start
| P_stop.

(** The pool with what it has accepted and what has left it. *)
Record pool_run := {
  pool :> AnchorWorkerPool;
  accepted : list Envelope;
  anchored : list Envelope;
  given_up : list Envelope;
  dropped : list Envelope;
}.

Definition pool_start (opts : AnchorOptions) : pool_run :=
  {| pool := new_pool opts; accepted := []; anchored := []; given_up := []; dropped := [] |}.

Definition pool_step (r : pool_run) (e : pool_event) : pool_run :=
  match e with
  | P_enqueue env now =>
    let (o, p) := enqueue r env now in
    {| pool := p; accepted := match o with queued => accepted r ++ [env] | _ => accepted r end;
       anchored := anchored r; given_up := given_up r; dropped := dropped r |}
  | P_settle i ok =>
    let (o, p) := settle r i ok in
    {| pool := p; accepted := accepted r;
       anchored := match o with Some (submitted it) => anchored r ++ [envelope it] | _ => anchored r end;
       given_up := match o with Some (failed it) => given_up r ++ [envelope it] | _ => given_up r end;
       dropped := dropped r |}
  | P_fire i =>
    {| pool := fire r i; accepted := accepted r; anchored := anchored r; given_up := given_up r;
       dropped := match timers r !! i with
                  | Some (it, _) => if running r then dropped r else dropped r ++ [envelope it]
                  | None => dropped r
                  end |}
  | P_start => {| pool := start r; accepted := accepted r; anchored := anchored r; given_up := given_up r; dropped := dropped r |}
  | P_stop => {| pool := stop r; accepted := accepted r; anchored := anchored r; given_up := given_up r; dropped := dropped r |}
  end.

Definition pool_trace (opts : AnchorOptions) (es : list pool_event) : pool_run :=
  fold_left pool_step es (pool_start opts).

(** The envelopes the pool holds. *)
Definition held (p : AnchorWorkerPool) : list Envelope :=
  map envelope (queue p) ++ map envelope (inFlight p) ++ map (fun t => envelope t.1) (timers p).

Definition item_ok (p : AnchorWorkerPool) (it : QueueItem) : Prop :=
  (attempts it < maxRetries p)%nat /\ shouldAnchorTopic p (topic (envelope it)) = true.

(** The pool invariant. *)
Record pool_wf (p : AnchorWorkerPool) : Prop := {
  wf_workers : (length (inFlight p) <= workers p)%nat;
  wf_busy : running p = true -> (length (inFlight p) < workers p)%nat -> queue p = [];
  wf_queue : Forall (item_ok p) (queue p);
  wf_flight : Forall (item_ok p) (inFlight p);
  wf_timers : Forall (fun t => item_ok p t.1 /\ (1 <= attempts t.1)%nat /\
    t.2 = (baseRetryMs p * 2 ^ Z.of_nat (attempts t.1 - 1))%Z) (timers p);
  wf_retries : (1 <= maxRetries p)%nat;
  wf_some_worker : (1 <= workers p)%nat;
}.

(** ** Lemmas *)

Lemma start_items_spec w q f : (length f <= w)%nat ->
  (start_items w q f).2 ++ (start_items w q f).1 = f ++ q /\
  (length (start_items w q f).2 <= w)%nat /\
  ((length (start_items w q f).2 < w)%nat -> (start_items w q f).1 = []).
Proof.
  revert f. induction q as [|it q IH]; intros f Hf; simpl; [by rewrite app_nil_r|].
  destruct (Nat.ltb_spec (length f) w); simpl.
  - destruct (IH (f ++ [it])) as (H1 & H2 & H3); [rewrite length_app; simpl; lia|].
    rewrite H1, <- app_assoc. done.
  - split_and!; [done|done|lia].
Qed.

(** What every reachable state but one inside a method satisfies. *)
Record pool_pre (p : AnchorWorkerPool) : Prop := {
  pre_workers : (length (inFlight p) <= workers p)%nat;
  pre_queue : Forall (item_ok p) (queue p);
  pre_flight : Forall (item_ok p) (inFlight p);
  pre_timers : Forall (fun t => item_ok p t.1 /\ (1 <= attempts t.1)%nat /\
    t.2 = (baseRetryMs p * 2 ^ Z.of_nat (attempts t.1 - 1))%Z) (timers p);
  pre_retries : (1 <= maxRetries p)%nat;
  pre_some_worker : (1 <= workers p)%nat;
}.

Lemma pool_wf_pre p : pool_wf p -> pool_pre p.
Proof. intros []; by constructor. Qed.

Lemma maybeStart_wf p : pool_pre p -> pool_wf (maybeStart p).
Proof.
  intros [Hw Hq Hf Ht Hr Hs]. unfold maybeStart. destruct (running p) eqn:E; [|constructor; auto; congruence].
  destruct (start_items_spec (workers p) (queue p) (inFlight p) Hw) as (H1 & H2 & H3).
  destruct (start_items _ _ _) as [q f]; simpl in *.
  assert (Hall : Forall (item_ok p) (f ++ q)) by (rewrite H1; by apply Forall_app).
  apply Forall_app in Hall as [Hf' Hq']. constructor; simpl; auto.
Qed.

Lemma maybeStart_held p : (length (inFlight p) <= workers p)%nat -> Permutation (held (maybeStart p)) (held p).
Proof.
  intros Hw. unfold maybeStart. destruct (running p); [|done].
  destruct (start_items_spec (workers p) (queue p) (inFlight p) Hw) as (H1 & _ & _).
  destruct (start_items _ _ _) as [q f]; simpl in *. unfold held; simpl.
  rewrite !app_assoc, <- !map_app. apply Permutation_app_tail, Permutation_map.
  rewrite (Permutation_app_comm q f), H1. apply Permutation_app_comm.
Qed.

Lemma maybeStart_running p : running (maybeStart p) = running p.
Proof. unfold maybeStart. destruct (running p) eqn:E; [|done]. by destruct (start_items _ _ _). Qed.

Lemma maybeStart_timers p : timers (maybeStart p) = timers p.
Proof. unfold maybeStart. destruct (running p); [|done]. by destruct (start_items _ _ _). Qed.

Lemma remove_nth_perm {A} (i : nat) (l : list A) x : l !! i = Some x -> Permutation l (x :: remove_nth i l).
Proof.
  intros H. unfold remove_nth. rewrite <- (take_drop_middle l i x H) at 1.
  symmetry. apply Permutation_middle.
Qed.

Lemma remove_nth_Forall {A} (P : A -> Prop) i l : Forall P l -> Forall P (remove_nth i l).
Proof. intros H. apply Forall_app. by split; [apply Forall_take | apply Forall_drop]. Qed.

Lemma remove_nth_length {A} i (l : list A) x : l !! i = Some x -> S (length (remove_nth i l)) = length l.
Proof. intros H%remove_nth_perm%Permutation_length. done. Qed.

#[local] Ltac pre_tac :=
  constructor; simpl; repeat match goal with |- Forall _ (_ ++ _) => apply Forall_app; split end;
  first [assumption | apply remove_nth_Forall; assumption | lia | idtac].

Lemma enqueue_wf p env now : pool_wf p -> pool_wf (enqueue p env now).2.
Proof.
  intros Hwf. unfold enqueue. destruct (shouldAnchorTopic p (topic env)) eqn:Et; simpl; [|done].
  destruct (running p) eqn:Er; simpl; [|done]. case_match; simpl; [done|].
  apply maybeStart_wf. destruct (pool_wf_pre _ Hwf). pre_tac.
  constructor; [|done]. split; simpl; [lia|done].
Qed.

Lemma settle_wf p i ok : pool_wf p -> pool_wf (settle p i ok).2.
Proof.
  intros Hwf. unfold settle. destruct (inFlight p !! i) as [it|] eqn:E; simpl; [|done].
  pose proof (remove_nth_length _ _ _ E) as Hl.
  assert (Hit : item_ok p it) by (eapply Forall_lookup_1; [apply (wf_flight _ Hwf)|done]).
  destruct (pool_wf_pre _ Hwf).
  assert (Hw' : (length (remove_nth i (inFlight p)) <= workers p)%nat) by lia.
  destruct ok; simpl; [apply maybeStart_wf; by pre_tac|].
  destruct (Nat.leb_spec (maxRetries p) (S (attempts it))); simpl; apply maybeStart_wf; pre_tac.
  constructor; [|done]. unfold item_ok; simpl. destruct Hit. split_and!; [lia|done|lia|done].
Qed.

Lemma fire_wf p i : pool_wf p -> pool_wf (fire p i).
Proof.
  intros Hwf. unfold fire. destruct (timers p !! i) as [[it d]|] eqn:E; [|done].
  pose proof (pool_wf_pre _ Hwf) as Hpre. pose proof (wf_timers _ Hwf) as Ht.
  destruct (Forall_lookup_1 _ _ _ _ Ht E) as [Hit _]. simpl in Hit. destruct Hpre.
  destruct (running p) eqn:Er.
  - apply maybeStart_wf. pre_tac. by constructor.
  - destruct Hwf. constructor; simpl; auto using remove_nth_Forall; congruence.
Qed.

Lemma step_wf (r : pool_run) e : pool_wf r -> pool_wf (pool_step r e).
Proof.
  intros Hwf. destruct e as [env now|i ok|i| |]; simpl.
  - pose proof (enqueue_wf r env now Hwf). by destruct (enqueue _ _ _).
  - pose proof (settle_wf r i ok Hwf). by destruct (settle _ _ _).
  - by apply fire_wf.
  - apply maybeStart_wf. destruct (pool_wf_pre _ Hwf). pre_tac.
  - destruct Hwf. by constructor.
Qed.

Lemma new_pool_wf opts : pool_wf (new_pool opts).
Proof. constructor; simpl; try done; lia. Qed.

Lemma trace_snoc opts es e : pool_trace opts (es ++ [e]) = pool_step (pool_trace opts es) e.
Proof. unfold pool_trace. by rewrite fold_left_app. Qed.

Lemma trace_wf opts es : pool_wf (pool_trace opts es).
Proof.
  induction es as [|e es IH] using rev_ind; [apply new_pool_wf|]. rewrite trace_snoc. by apply step_wf.
Qed.

#[local] Ltac count_held :=
  repeat match goal with
  | |- context [maybeStart ?p] =>
    pose proof (maybeStart_held p ltac:(simpl; lia)); generalize dependent (maybeStart p); intros
  end;
  unfold held in *; simpl in *; rewrite ?map_app in *; simpl in *; perm_count Envelope_eq_dec.

(** No operation loses or invents an envelope. *)
Lemma step_conserves (r : pool_run) e : pool_wf r ->
  Permutation (accepted r) (held r ++ anchored r ++ given_up r ++ dropped r) ->
  Permutation (accepted (pool_step r e))
    (held (pool_step r e) ++ anchored (pool_step r e) ++ given_up (pool_step r e) ++ dropped (pool_step r e)).
Proof.
  intros Hwf H. pose proof (wf_workers _ Hwf) as Hw.
  destruct e as [env now|i ok|i| |]; cbn [pool_step].
  - unfold enqueue. destruct (negb (shouldAnchorTopic r (topic env))); [done|].
    destruct (negb (running r)); [done|]. destruct (queueCap r <=? length (queue r))%nat; [done|].
    count_held.
  - unfold settle. destruct (inFlight r !! i) as [it|] eqn:E; [|done].
    pose proof (remove_nth_length _ _ _ E) as Hl.
    pose proof (Permutation_map envelope (remove_nth_perm _ _ _ E)) as Hp.
    destruct ok; [|cbn [attempts]; destruct (Nat.leb_spec (maxRetries r) (S (attempts it)))]; count_held.
  - unfold fire. destruct (timers r !! i) as [[it d]|] eqn:E; [|done].
    pose proof (Permutation_map (fun t => envelope t.1) (remove_nth_perm _ _ _ E)) as Hp.
    destruct (running r); count_held.
  - unfold start. count_held.
  - count_held.
Qed.

(** Work left in the pool: each unit is a submission still allowed, or a pending timer. *)
Definition remaining (max : nat) (l : list QueueItem) : nat :=
  list_sum (map (fun it => 2 * (max - attempts it)) l).

Definition work (p : AnchorWorkerPool) : nat :=
  let m := maxRetries p in
  remaining m (queue p) + remaining m (inFlight p) + remaining m (map fst (timers p)) + length (timers p).

(** An event that can happen: a submission in flight settles or a pending timer fires. *)
Definition enabled (p : AnchorWorkerPool) (e : pool_event) : Prop :=
  match e with
  | P_settle i _ => (i < length (inFlight p))%nat
  | P_fire i => (i < length (timers p))%nat
  | _ => False
  end.

Inductive pool_path : pool_run -> list pool_event -> pool_run -> Prop :=
| path_nil r : pool_path r [] r
| path_cons (r : pool_run) e es r' : enabled r e -> pool_path (pool_step r e) es r' -> pool_path r (e :: es) r'.

Lemma remaining_app m l k : remaining m (l ++ k) = (remaining m l + remaining m k)%nat.
Proof. unfold remaining. by rewrite map_app, list_sum_app. Qed.

Lemma remaining_perm m l k : Permutation l k -> remaining m l = remaining m k.
Proof.
  unfold remaining. intros H%(Permutation_map (fun it => 2 * (m - attempts it))%nat).
  induction H; simpl; lia.
Qed.

Lemma maybeStart_work p : (length (inFlight p) <= workers p)%nat -> work (maybeStart p) = work p.
Proof.
  intros Hw. unfold maybeStart. destruct (running p); [|done].
  destruct (start_items_spec (workers p) (queue p) (inFlight p) Hw) as (H1 & _ & _).
  destruct (start_items _ _ _) as [q f]; simpl in *. unfold work; simpl.
  apply (f_equal (remaining (maxRetries p))) in H1. rewrite !remaining_app in H1. lia.
Qed.

Lemma remaining_cons m it l : remaining m (it :: l) = (2 * (m - attempts it) + remaining m l)%nat.
Proof. done. Qed.

#[local] Ltac work_tac :=
  cbn [pool];
  match goal with
  | |- context [work (maybeStart ?p)] => rewrite (maybeStart_work p) by (simpl; lia)
  | _ => idtac
  end;
  unfold work; cbn [with_work queue inFlight timers maxRetries map fst] in *;
  rewrite ?map_app, ?remaining_app, ?remaining_cons, ?length_app in *; cbn [map fst length] in *;
  rewrite ?remaining_cons in *; cbn [attempts] in *; change (remaining (maxRetries _) []) with 0%nat; lia.

Lemma step_work (r : pool_run) e : pool_wf r -> enabled r e -> (work (pool_step r e) < work r)%nat.
Proof.
  intros Hwf. pose proof (wf_workers _ Hwf) as Hw.
  destruct e as [env now|i ok|i| |]; cbn [enabled]; try done; intros Hi; cbn [pool_step].
  - destruct (lookup_lt_is_Some_2 _ _ Hi) as [it E]. unfold settle. rewrite E.
    pose proof (remove_nth_length _ _ _ E) as Hl.
    destruct (Forall_lookup_1 _ _ _ _ (wf_flight _ Hwf) E) as [Hit _].
    pose proof (remaining_perm (maxRetries r) _ _ (remove_nth_perm _ _ _ E)) as Hp.
    destruct ok; [|cbn [attempts]; destruct (Nat.leb_spec (maxRetries r) (S (attempts it)))]; work_tac.
  - destruct (lookup_lt_is_Some_2 _ _ Hi) as [[it d] E]. unfold fire. rewrite E.
    pose proof (remove_nth_length _ _ _ E) as Hl.
    pose proof (remaining_perm (maxRetries r) _ _ (Permutation_map fst (remove_nth_perm _ _ _ E))) as Hp.
    destruct (running r); work_tac.
Qed.

Lemma path_bound r es r' : pool_path r es r' -> pool_wf r -> pool_wf r' /\ (length es + work r' <= work r)%nat.
Proof.
  induction 1 as [|r e es r' He _ IH]; intros Hwf; [by split|].
  destruct (IH (step_wf _ _ Hwf)) as [H1 H2]. pose proof (step_work _ _ Hwf He). simpl. split; [done|lia].
Qed.

Lemma settle_running p i ok : running (settle p i ok).2 = running p.
Proof.
  unfold settle. destruct (inFlight p !! i); [|done]. destruct ok; [by cbn [snd]; rewrite maybeStart_running|].
  cbn [attempts]. destruct (_ <=? _)%nat; cbn [snd]; by rewrite maybeStart_running.
Qed.

Lemma fire_running p i : running (fire p i) = running p.
Proof.
  unfold fire. destruct (timers p !! i) as [[it d]|]; [|done].
  destruct (running p) eqn:E; [by rewrite maybeStart_running|done].
Qed.

Lemma step_running (r : pool_run) e : enabled (pool r) e -> running (pool_step r e) = running r.
Proof.
  destruct e as [env now|i ok|i| |]; cbn [enabled]; try done; intros _; cbn [pool_step].
  - pose proof (settle_running r i ok). by destruct (settle _ _ _).
  - apply fire_running.
Qed.

(** ** Properties *)

(** C9: in every reachable state of the pool, whatever the order of enqueues,
    settlements, timers, starts and stops: each accepted envelope is in exactly one
    place (queued, in flight, waiting for a retry, anchored, given up, or dropped by
    a timer that fired after [stop]), at most [workers] submissions are in flight,
    and a running pool leaves no worker idle while something is queued. *)
Theorem pool_accounts_for_every_envelope (opts : AnchorOptions) (es : list pool_event) :
  let r := pool_trace opts es in
  Permutation (accepted r) (held r ++ anchored r ++ given_up r ++ dropped r) /\
  (length (inFlight r) <= workers r)%nat /\
  (running r = true -> (length (inFlight r) < workers r)%nat -> queue r = []).
Proof.
  intros r. pose proof (trace_wf opts es) as Hwf. split_and!; [|apply Hwf|apply Hwf].
  subst r. clear Hwf. induction es as [|e es IH] using rev_ind; [done|].
  rewrite trace_snoc. apply step_conserves; [apply trace_wf|done].
Qed.

(** Retries are bounded and backed off: in a reachable state, a failed
    submission is retried after [baseRetryMs * 2 ^ (attempts - 1)] as long as it has
    been tried fewer than [maxRetries] times and given up at exactly that number;
    nothing waits in the queue or in flight with its attempts used up. *)
Theorem pool_retries_bounded (opts : AnchorOptions) (es : list pool_event) (i : nat) (it : QueueItem)
    (Hit : inFlight (pool_trace opts es) !! i = Some it) :
  let r := pool_trace opts es in
  let it' := {| envelope := envelope it; attempts := S (attempts it); enqueuedAt := enqueuedAt it |} in
  (attempts it < maxRetries r)%nat /\
  ((settle r i false).1 = Some (failed it') /\ attempts it' = maxRetries r /\
     timers (settle r i false).2 = timers r \/
   (settle r i false).1 = Some (retrying it') /\ (attempts it' < maxRetries r)%nat /\
     timers (settle r i false).2 = timers r ++ [(it', (baseRetryMs r * 2 ^ Z.of_nat (attempts it))%Z)]).
Proof.
  intros r it'. pose proof (trace_wf opts es) as Hwf. fold r in Hit, Hwf.
  destruct (Forall_lookup_1 _ _ _ _ (wf_flight _ Hwf) Hit) as [Ha _]. split; [done|].
  unfold settle. rewrite Hit. cbn [attempts].
  destruct (Nat.leb_spec (maxRetries r) (S (attempts it))); cbn [fst snd]; rewrite maybeStart_timers.
  - left. split_and!; [done|simpl; lia|done].
  - right. split_and!; [done|done|]. simpl. by rewrite Nat.sub_0_r.
Qed.

(** C39: the pool comes to rest: after any reachable state of a running pool, only
    boundedly many settlements and timers can happen before the next enqueue, and
    when none is left the pool holds nothing. *)
Theorem pool_drains (opts : AnchorOptions) (es es' : list pool_event) (r' : pool_run)
    (Hrun : running (pool_trace opts es) = true) (Hpath : pool_path (pool_trace opts es) es' r') :
  (length es' <= work (pool_trace opts es))%nat /\
  ((forall e, ~ enabled r' e) -> held r' = []).
Proof.
  destruct (path_bound _ _ _ Hpath (trace_wf opts es)) as [Hwf' Hb]. split; [lia|]. intros Hdone.
  assert (Hr' : running r' = true).
  { clear - Hrun Hpath. induction Hpath as [|r e es' r' He _ IH]; [done|]. apply IH. by rewrite step_running. }
  assert (Hf : inFlight r' = []).
  { destruct (inFlight r') as [|x l] eqn:E; [done|]. exfalso. apply (Hdone (P_settle 0 true)). simpl. rewrite E. simpl; lia. }
  assert (Ht : timers r' = []).
  { destruct (timers r') as [|x l] eqn:E; [done|]. exfalso. apply (Hdone (P_fire 0)). simpl. rewrite E. simpl; lia. }
  unfold held. rewrite Hf, Ht, (wf_busy _ Hwf' Hr'); [done|]. rewrite Hf. apply Hwf'.
Qed.

Lemma string_length_app (a b : string) : String.length (a +:+ b) = (String.length a + String.length b)%nat.
Proof. induction a as [|x a IH]; [done|]. change (S (String.length (a +:+ b)) = S (String.length a + String.length b)). by rewrite IH. Qed.

Lemma string_app_inj_length (a b c d : string) :
  String.length a = String.length b -> a +:+ c = b +:+ d -> a = b /\ c = d.
Proof.
  revert b. induction a as [|x a IH]; intros [|y b]; simpl; try done.
  intros [= Hl] [= -> H]. destruct (IH b Hl H) as [-> ->]. done.
Qed.

(** A memo pins the envelope: two schema-valid envelopes with the same memo
    have the same id, payload digest and timestamp, or the run exhibits a SHA-256
    collision. *)
Theorem memo_pins_envelope (sha256hex : string -> string) (p : AnchorWorkerPool) (e1 e2 : Envelope)
    (H1 : EnvelopeSchema_ok e1 = true) (H2 : EnvelopeSchema_ok e2 = true)
    (Hmemo : buildMemo sha256hex p e1 = buildMemo sha256hex p e2) :
  (id e1 = id e2 /\ payload_digest e1 = payload_digest e2 /\ ts e1 = ts e2) \/
  exists s1 s2, s1 <> s2 /\ sha256hex s1 = sha256hex s2.
Proof.
  assert (Hlen : forall e, EnvelopeSchema_ok e = true ->
    String.length (id e) = 26%nat /\ String.length (payload_digest e) = 64%nat).
  { intros e H. unfold EnvelopeSchema_ok, len_between in H. rewrite !andb_true_iff in H. destruct_exists.
    rewrite Nat.eqb_eq, !Nat.leb_le in *. split; lia. }
  destruct (Hlen _ H1) as [Hi1 Hd1], (Hlen _ H2) as [Hi2 Hd2].
  unfold buildMemo in Hmemo. apply string_app_inj_length in Hmemo as [_ Hmemo]; [|done].
  apply string_app_inj_length in Hmemo as [_ Hmemo]; [|done].
  set (s1 := id e1 +:+ _) in Hmemo. set (s2 := id e2 +:+ _) in Hmemo.
  destruct (decide (s1 = s2)) as [E|Hne]; [left | right; by exists s1, s2].
  subst s1 s2. apply string_app_inj_length in E as [Hid E]; [|congruence].
  apply string_app_inj_length in E as [_ E]; [|done].
  apply string_app_inj_length in E as [Hpd E]; [|congruence].
  apply string_app_inj_length in E as [_ E]; [|done]. by apply z_text_inj in E.
Qed.

(** ** The queue cap does not bound the queue *)

Definition cap_one : AnchorOptions :=
  {| opt_workers := Some 1; opt_queueCap := Some 1; opt_maxRetries := None; opt_baseRetryMs := None;
     opt_topicPrefix := None; opt_payloadVersion := None |}%nat.

Definition task_envelope : Envelope :=
  {| id := "01HZX3V4Q8TR0000000000ABCD";
     topic := "task.00000000000000000000000000000000000000000000000000000000000000ff.events";
     from_agent := "11111111111111111111111111111111"; to_agent := None; msg_type := None;
     payload_cid := "bafy"; payload_digest := "00000000000000000000000000000000000000000000000000000000000000aa";
     signature := "s"; ts := 1000 |}.

(** [n] envelopes fail once each, then all their timers fire. *)
Fixpoint fail_round (n : nat) : list pool_event :=
  match n with
  | O => []
  | S n' => fail_round n' ++ [P_enqueue task_envelope 0; P_settle 0 false]
  end.

Definition fire_round (n : nat) : list pool_event := repeat (P_fire 0) n.

Definition failed_item : QueueItem := {| envelope := task_envelope; attempts := 1; enqueuedAt := 0 |}.

Definition shape (q f : list QueueItem) (t : nat) : AnchorWorkerPool :=
  with_work (new_pool cap_one) q f (repeat (failed_item, 500%Z) t) true.

Lemma repeat_snoc {A} (x : A) n : repeat x n ++ [x] = x :: repeat x n.
Proof. induction n; simpl; [done|]. by rewrite IHn. Qed.

Lemma fail_round_shape n :
  pool (pool_trace cap_one (P_start :: fail_round n)) = shape [] [] n.
Proof.
  induction n as [|n IH]; [done|]. cbn [fail_round].
  change [P_enqueue task_envelope 0; P_settle 0 false]
    with ([P_enqueue task_envelope 0] ++ [P_settle 0 false]).
  rewrite app_comm_cons, app_assoc, !trace_snoc.
  unfold pool_step at 2. rewrite IH. unfold shape. cbn. rewrite repeat_snoc. done.
Qed.

Lemma fire_round_shape n k :
  pool (pool_trace cap_one ((P_start :: fail_round (n + S k)) ++ fire_round (S n))) =
  shape (repeat failed_item n) [failed_item] k.
Proof.
  revert k. induction n as [|n IH]; intros k.
  - unfold fire_round. cbn [repeat]. rewrite trace_snoc. cbn [pool_step pool].
    rewrite fail_round_shape. done.
  - replace (S n + S k)%nat with (n + S (S k))%nat by lia. unfold fire_round.
    replace (repeat (P_fire 0) (S (S n))) with (repeat (P_fire 0) (S n) ++ [P_fire 0]) by apply repeat_snoc.
    rewrite app_assoc, trace_snoc. cbn [pool_step pool]. fold (fire_round (S n)). rewrite IH. done.
Qed.

(** Retries do not respect the queue cap: with a cap of one and one worker,
    enough failing submissions make the queue as long as one likes. *)
Theorem retries_exceed_queue_cap (n : nat) :
  exists es, queueCap (pool_trace cap_one es) = 1%nat /\ length (queue (pool_trace cap_one es)) = n.
Proof.
  exists ((P_start :: fail_round (n + 1)) ++ fire_round (S n)). rewrite fire_round_shape.
  split; [done|]. apply repeat_length.
Qed.

(** ** Witnesses *)

Definition default_options : AnchorOptions :=
  {| opt_workers := None; opt_queueCap := None; opt_maxRetries := None; opt_baseRetryMs := None;
     opt_topicPrefix := None; opt_payloadVersion := None |}.

Definition one_in_flight : list pool_event := [P_start; P_enqueue task_envelope 7].

Lemma pool_retries_bounded_witness :
  timers (settle (pool_trace default_options one_in_flight) 0 false).2 =
  [({| envelope := task_envelope; attempts := 1; enqueuedAt := 7 |}, 500%Z)].
Proof.
  destruct (pool_retries_bounded default_options one_in_flight 0
    {| envelope := task_envelope; attempts := 0; enqueuedAt := 7 |} ltac:(reflexivity)) as [_ [(_ & H & _)|(_ & _ & H)]].
  - discriminate H.
  - exact H.
Defined.

Lemma pool_drains_witness :
  held (pool_step (pool_trace default_options one_in_flight) (P_settle 0 true)) = [].
Proof.
  refine (proj2 (pool_drains default_options one_in_flight [P_settle 0 true] _ eq_refl _) _).
  - apply path_cons; [simpl; lia | apply path_nil].
  - intros [env now|i ok|i| |]; simpl; try (intros H; exact H); intros H; inversion H.
Defined.

Lemma memo_pins_envelope_witness :
  EnvelopeSchema_ok task_envelope = true /\
  ((id task_envelope = id task_envelope /\ payload_digest task_envelope = payload_digest task_envelope /\
    ts task_envelope = ts task_envelope) \/ exists s1 s2 : string, s1 <> s2 /\ s1 = s2).
Proof.
  split; [vm_compute; reflexivity|].
  exact (memo_pins_envelope (fun s => s) (new_pool default_options) task_envelope task_envelope eq_refl eq_refl eq_refl).
Defined.
