(* ===== verification/Gateway.v ===== *)
(** * Gateway: the WebSocket and REST front end of the bus

    Models [WsGateway] of services/iacp/src/ws.ts and the POST /publish route of
    server.ts.  A handler that awaits is split there: [onMessage] runs up to its
    first await and leaves a continuation, which [resume] runs later; anything may
    happen in between.  The JavaScript objects a continuation captured (the session,
    the subscriber set) are found again by socket and topic, since no session object
    outlives its socket's entry for any observer and no subscriber set is ever
    replaced.  Redis accepts or refuses a command; the stream it keeps is the list of
    the envelopes published. *)

From Stdlib Require Import ZArith QArith.
From stdpp Require Import base sets list strings.
From S2P Require Import Prelude JsMap Json Attestation Messages Bus RateLimit Anchor.

(** ** State *)

Record Session := { session_agent : string; socketId : string; topics : list string; sendQueue : nat }.

Definition MAX_QUEUE : nat := 256.

(** A stream entry: the key it was added under and the envelope. *)
Record StreamEntry := { se_topic : string; se_envelope : Envelope }.

Record WsGateway := {
  sessions : list (nat * Session);
  topicSubscribers : list (string * list nat);
  msgLimiter : KeyedRateLimiter;
  bwLimiter : KeyedRateLimiter;
  ring : TopicRing;
  agents : option RpcAgentLookup;
  anchor : option AnchorWorkerPool;
  stream : list StreamEntry;
  socketCounter : nat;
}.

Inductive output :=
| Sent (ws : nat) (f : ServerFrame)
| CloseRequest (ws : nat) (code : Z).

(** Assignments to one field. *)
Definition set_sessions g v := {| sessions := v; topicSubscribers := topicSubscribers g; msgLimiter := msgLimiter g;
  bwLimiter := bwLimiter g; ring := ring g; agents := agents g; anchor := anchor g; stream := stream g; socketCounter := socketCounter g |}.
Definition set_subscribers g v := {| sessions := sessions g; topicSubscribers := v; msgLimiter := msgLimiter g;
  bwLimiter := bwLimiter g; ring := ring g; agents := agents g; anchor := anchor g; stream := stream g; socketCounter := socketCounter g |}.
Definition set_msgLimiter g v := {| sessions := sessions g; topicSubscribers := topicSubscribers g; msgLimiter := v;
  bwLimiter := bwLimiter g; ring := ring g; agents := agents g; anchor := anchor g; stream := stream g; socketCounter := socketCounter g |}.
Definition set_bwLimiter g v := {| sessions := sessions g; topicSubscribers := topicSubscribers g; msgLimiter := msgLimiter g;
  bwLimiter := v; ring := ring g; agents := agents g; anchor := anchor g; stream := stream g; socketCounter := socketCounter g |}.
Definition set_ring g v := {| sessions := sessions g; topicSubscribers := topicSubscribers g; msgLimiter := msgLimiter g;
  bwLimiter := bwLimiter g; ring := v; agents := agents g; anchor := anchor g; stream := stream g; socketCounter := socketCounter g |}.
Definition set_agents g v := {| sessions := sessions g; topicSubscribers := topicSubscribers g; msgLimiter := msgLimiter g;
  bwLimiter := bwLimiter g; ring := ring g; agents := v; anchor := anchor g; stream := stream g; socketCounter := socketCounter g |}.
Definition set_anchor g v := {| sessions := sessions g; topicSubscribers := topicSubscribers g; msgLimiter := msgLimiter g;
  bwLimiter := bwLimiter g; ring := ring g; agents := agents g; anchor := v; stream := stream g; socketCounter := socketCounter g |}.
Definition set_stream g v := {| sessions := sessions g; topicSubscribers := topicSubscribers g; msgLimiter := msgLimiter g;
  bwLimiter := bwLimiter g; ring := ring g; agents := agents g; anchor := anchor g; stream := v; socketCounter := socketCounter g |}.
Definition set_counter g v := {| sessions := sessions g; topicSubscribers := topicSubscribers g; msgLimiter := msgLimiter g;
  bwLimiter := bwLimiter g; ring := ring g; agents := agents g; anchor := anchor g; stream := stream g; socketCounter := v |}.

Definition set_topics s v := {| session_agent := session_agent s; socketId := socketId s; topics := v; sendQueue := sendQueue s |}.
Definition set_queue s v := {| session_agent := session_agent s; socketId := socketId s; topics := topics s; sendQueue := v |}.

(** [Set.add], [Set.delete] *)
Definition set_add {A} `{EqDecision A} (x : A) (l : list A) : list A := if bool_decide (x ∈ l) then l else l ++ [x].
Definition set_del {A} `{EqDecision A} (x : A) (l : list A) : list A := filter (fun y => y <> x) l.

(** ** Sending *)

Definition send (g : WsGateway) (ws : nat) (f : ServerFrame) : WsGateway * list output :=
  match map_get ws (sessions g) with
  | None => (g, [])
  | Some s =>
    if (MAX_QUEUE <=? sendQueue s)%nat then (g, [CloseRequest ws 1009])
    else (set_sessions g (map_set ws (set_queue s (S (sendQueue s))) (sessions g)), [Sent ws f])
  end.

(** The callback of [ws.send]. *)
Definition on_sent (g : WsGateway) (ws : nat) : WsGateway :=
  match map_get ws (sessions g) with
  | None => g
  | Some s => set_sessions g (map_set ws (set_queue s (sendQueue s - 1)) (sessions g))
  end.

(** ** Connections *)

Definition onConnection (g : WsGateway) (agentPubkey : string) : WsGateway :=
  let n := S (socketCounter g) in
  let session := {| session_agent := agentPubkey; socketId := "s" +:+ z_text (Z.of_nat n); topics := []; sendQueue := 0 |} in
  set_counter (set_sessions g (map_set n session (sessions g))) n.

(** The subscriber sets without [ws], for each of the session's topics. *)
Fixpoint leave_all (ws : nat) (ts : list string) (m : list (string * list nat)) : list (string * list nat) :=
  match ts with
  | [] => m
  | t :: ts' =>
    leave_all ws ts' (match map_get t m with
                      | Some subs => map_set t (set_del ws subs) m
                      | None => m
                      end)
  end.

Definition on_close (g : WsGateway) (ws : nat) : WsGateway :=
  match map_get ws (sessions g) with
  | None => g
  | Some s =>
    let g := set_subscribers g (leave_all ws (topics s) (topicSubscribers g)) in
    let g := set_sessions g (map_delete ws (sessions g)) in
    set_bwLimiter g (limiter_delete (bwLimiter g) (socketId s))
  end.

Definition sweepLimiters (g : WsGateway) (now : Z) : WsGateway :=
  let g := set_msgLimiter g (sweep (msgLimiter g) now).2 in
  set_bwLimiter g (sweep (bwLimiter g) now).2.

Section gateway.
Variable ed : ed25519.
Variable jwtVerify : string -> bytes -> string -> result jwt_claims.
Variable secret : bytes.
Variable freshness : FreshnessOptions.

Definition inbox (agent : string) : string := "agent." +:+ agent +:+ ".inbox".

(** [false]: 401 and the socket is destroyed. *)
Definition handleUpgrade (g : WsGateway) (token : option string) (now : Z) : bool * WsGateway :=
  if negb (truthy token) then (false, g)
  else match verifySessionToken ed jwtVerify (default "" token) secret now with
       | None => (false, g)
       | Some result => (true, onConnection g (agentPubkey result))
       end.

(** ** Routing and checks *)

Definition canSubscribe (agent topic : string) : bool :=
  if String.prefix "agent." topic then
    if negb (String.eqb topic (inbox agent)) then false
    else match bs58_decode ed agent with
         | Ok b => (length b =? 32)%nat
         | Throw _ => false
         end
  else true.

Definition resolvePublishTopic (env : Envelope) : option string :=
  match msg_type env with
  | None => Some (topic env)
  | Some m =>
    match routingMode m, to_agent env with
    | direct, Some r =>
      if negb (truthy (Some r)) then Some (topic env)
      else if String.eqb (from_agent env) r then None else Some (inbox r)
    | _, _ => Some (topic env)
    end
  end.

Definition with_topic (env : Envelope) (t : string) : Envelope :=
  {| id := id env; topic := t; from_agent := from_agent env; to_agent := to_agent env; msg_type := msg_type env;
     payload_cid := payload_cid env; payload_digest := payload_digest env; signature := signature env; ts := ts env |}.

(** The part of [verifyEnvelope] after its freshness check. *)
Definition verifyEnvelope_rest (g : WsGateway) (env : Envelope) (now : Z) (reply : lookup_reply) : option string * WsGateway :=
  if negb (verifyEnvelopeSignature ed (canonicalizeForSigning env) (signature env) (from_agent env))
  then (Some "bad_sig", g)
  else match agents g with
       | None => (None, g)
       | Some a =>
         let (act, a) := isActiveOperator a (from_agent env) now reply in
         (if act then None else Some "not_active", set_agents g (Some a))
       end.

(** ** Messages *)

Inductive continuation :=
| Pend_sub (ws : nat) (topic : string)
| Pend_publish (ws : nat) (env : Envelope).

(** [onMessage] up to its first await.  [frame]: the parsed text, [None] if it is
    not JSON of a client frame's shape. *)
Definition onMessage (g : WsGateway) (ws : nat) (frame : option ClientFrame) (byteLen now : Z) :
    WsGateway * list output * option continuation :=
  match map_get ws (sessions g) with
  | None => (g, [], None)
  | Some session =>
    let reject r i := (send g ws (S_reject i r), None) in
    match frame with
    | None => reject "bad_frame" None
    | Some f =>
      if negb (ClientFrameSchema_ok f) then reject "bad_frame" None
      else match f with
      | C_ping => (send g ws S_pong, None)
      | C_sub t =>
        if negb (canSubscribe (session_agent session) t) then reject "forbidden_topic" None
        else
          let g := set_sessions g (map_set ws (set_topics session (set_add t (topics session))) (sessions g)) in
          match map_get t (topicSubscribers g) with
          | Some subs => (set_subscribers g (map_set t (set_add ws subs) (topicSubscribers g)), [], None)
          | None => (set_subscribers g (map_set t [] (topicSubscribers g)), [], Some (Pend_sub ws t))
          end
      | C_unsub t =>
        let g := set_sessions g (map_set ws (set_topics session (set_del t (topics session))) (sessions g)) in
        match map_get t (topicSubscribers g) with
        | Some subs => (set_subscribers g (map_set t (set_del ws subs) (topicSubscribers g)), [], None)
        | None => (g, [], None)
        end
      | C_publish env =>
        if negb (String.eqb (from_agent env) (session_agent session)) then reject "from_mismatch" (Some (id env))
        else
          let (bw, l) := consume (bwLimiter g) (socketId session) (inject_Z byteLen) now in
          let g := set_bwLimiter g l in
          if negb (allowed bw) then (send g ws (S_rate_limit (Some (id env)) axis_bw (retry_after_ms bw)), None)
          else
            let (mc, l) := consume (msgLimiter g) (session_agent session) 1%Q now in
            let g := set_msgLimiter g l in
            if negb (allowed mc) then (send g ws (S_rate_limit (Some (id env)) axis_msg (retry_after_ms mc)), None)
            else if negb (isEnvelopeTsFresh (ts env) now freshness)
            then (send g ws (S_reject (Some (id env)) "stale_ts"), None)
            else (g, [], Some (Pend_publish ws env))
      end
    end
  end.

(** Anchoring of a published envelope. *)
Definition anchor_enqueue (g : WsGateway) (env : Envelope) (now : Z) : WsGateway :=
  match anchor g with
  | None => g
  | Some p => set_anchor g (Some (enqueue p env now).2)
  end.

(** The publish branch after the signature check.  [redis_ok]: the group exists
    and XADD succeeded; otherwise the handler's promise rejects. *)
Definition resume_publish (g : WsGateway) (ws : nat) (env : Envelope) (now : Z) (reply : lookup_reply) (redis_ok : bool) :
    WsGateway * list output :=
  let (verdict, g) := verifyEnvelope_rest g env now reply in
  match verdict with
  | Some v => send g ws (S_reject (Some (id env)) v)
  | None =>
    let expired := match msg_type env with Some m => isExpired m (ts env) now None | None => false end in
    let lost := match msg_type env with
                | Some m => bool_decide (routingMode m = direct) && negb (truthy (to_agent env))
                | None => false
                end in
    if expired then send g ws (S_reject (Some (id env)) "ttl_expired")
    else if lost then send g ws (S_reject (Some (id env)) "direct_requires_recipient")
    else match resolvePublishTopic env with
         | None => (g, match map_get ws (sessions g) with
                       | Some _ => [Sent ws (S_error "self_route" "cannot route message to self")]
                       | None => []
                       end)
         | Some publishTopic =>
           if negb redis_ok then (g, [])
           else
             let envToPublish := if String.eqb publishTopic (topic env) then env else with_topic env publishTopic in
             let g := set_stream g (stream g ++ [{| se_topic := topic envToPublish; se_envelope := envToPublish |}]) in
             let g := match msg_type env with
                      | Some m => if Messages.shouldAnchor m then anchor_enqueue g envToPublish now else g
                      | None => anchor_enqueue g envToPublish now
                      end in
             send g ws (S_ack (id env))
         end
  end.

(** The sub branch after [ensureGroup]. *)
Definition resume_sub (g : WsGateway) (ws : nat) (t : string) (redis_ok : bool) : WsGateway :=
  if redis_ok then
    set_subscribers g (map_set t (set_add ws (default [] (map_get t (topicSubscribers g)))) (topicSubscribers g))
  else g.

(** ** Dispatch *)

Fixpoint fan_out (g : WsGateway) (subs : list nat) (f : ServerFrame) : WsGateway * list output :=
  match subs with
  | [] => (g, [])
  | ws :: subs' =>
    let (g1, o) := send g ws f in
    let (g2, os) := fan_out g1 subs' f in (g2, o ++ os)
  end.

Definition dispatch (g : WsGateway) (t : string) (env : Envelope) (streamId : string) (now : Z) : WsGateway * list output :=
  let g := set_ring g (ring_push (ring g) t env streamId now) in
  match map_get t (topicSubscribers g) with
  | None => (g, [])
  | Some subs => fan_out g subs (S_msg t env streamId)
  end.

(** ** POST /publish *)

Inductive rest_reply :=
| R_bad_envelope | R_unauthorized | R_stale_ts
| R_rate_limited (retry_after_s retry_after_ms : Z)
| R_not_active | R_unavailable | R_published.

(** [token]: the x-iacp-service-token header; [expected]: IACP_SERVICE_TOKEN. *)
Definition rest_publish (g : WsGateway) (body : option Envelope) (token expected : option string) (now : Z)
    (reply : lookup_reply) (redis_ok : bool) : rest_reply * WsGateway :=
  match body with
  | None => (R_bad_envelope, g)
  | Some env =>
    if negb (EnvelopeSchema_ok env) then (R_bad_envelope, g)
    else if negb (truthy expected && bool_decide (token = expected)) then (R_unauthorized, g)
    else if negb (isEnvelopeTsFresh (ts env) now freshness) then (R_stale_ts, g)
    else
      let (mc, l) := consume (msgLimiter g) (from_agent env) 1%Q now in
      let g := set_msgLimiter g l in
      if negb (allowed mc)
      then (R_rate_limited (Z.max 1 (- ((- retry_after_ms mc) / 1000))) (retry_after_ms mc), g)
      else
        let (act, g) := match agents g with
                        | None => (true, g)
                        | Some a => let (act, a) := isActiveOperator a (from_agent env) now reply in (act, set_agents g (Some a))
                        end in
        if negb act then (R_not_active, g)
        else if negb redis_ok then (R_unavailable, g)
        else
          let g := set_stream g (stream g ++ [{| se_topic := topic env; se_envelope := env |}]) in
          (R_published, anchor_enqueue g env now)
  end.

(** ** Runs *)

Inductive event :=
| E_connect (token : option string) (now : Z)
| E_message (ws : nat) (frame : option ClientFrame) (byteLen now : Z)
| E_resume (i : nat) (now : Z) (reply : lookup_reply) (redis_ok : bool)
| E_sent (ws : nat)
| E_close (ws : nat)
| E_dispatch (i : nat) (streamId : string) (now : Z)
| E_sweep (now : Z)
| E_rest (body : option Envelope) (token expected : option string) (now : Z) (reply : lookup_reply) (redis_ok : bool)
| E_anchor (e : pool_event).

(** The gateway, the continuations waiting to resume, the agents that ever passed
    the upgrade, and the envelopes the REST route published. *)
Record system := {
  gw : WsGateway;
  pending : list continuation;
  authenticated : list string;
  by_rest : list Envelope;
}.

Definition set_gw (s : system) g := {| gw := g; pending := pending s; authenticated := authenticated s; by_rest := by_rest s |}.

(** A settled submission or a timer of the anchor pool, or its start or stop. *)
Definition anchor_event (p : AnchorWorkerPool) (e : pool_event) : AnchorWorkerPool :=
  match e with
  | P_enqueue _ _ => p
  | P_settle i ok => (settle p i ok).2
  | P_fire i => fire p i
  | P_start => start p
  | P_stop => stop p
  end.

Definition step (s : system) (e : event) : system * list output :=
  let g := gw s in
  match e with
  | E_connect token now =>
    let (ok, g') := handleUpgrade g token now in
    let who := match verifySessionToken ed jwtVerify (default "" token) secret now with
               | Some r => [agentPubkey r]
               | None => []
               end in
    ({| gw := g'; pending := pending s; authenticated := if ok then authenticated s ++ who else authenticated s;
        by_rest := by_rest s |}, [])
  | E_message ws f n now =>
    let '(g', o, k) := onMessage g ws f n now in
    ({| gw := g'; pending := match k with Some c => pending s ++ [c] | None => pending s end;
        authenticated := authenticated s; by_rest := by_rest s |}, o)
  | E_resume i now reply redis_ok =>
    match pending s !! i with
    | None => (s, [])
    | Some c =>
      let s := {| gw := g; pending := remove_nth i (pending s); authenticated := authenticated s; by_rest := by_rest s |} in
      match c with
      | Pend_sub ws t => (set_gw s (resume_sub g ws t redis_ok), [])
      | Pend_publish ws env => let (g', o) := resume_publish g ws env now reply redis_ok in (set_gw s g', o)
      end
    end
  | E_sent ws => (set_gw s (on_sent g ws), [])
  | E_close ws => (set_gw s (on_close g ws), [])
  | E_dispatch i sid now =>
    match stream g !! i with
    | None => (s, [])
    | Some e => let (g', o) := dispatch g (se_topic e) (se_envelope e) sid now in (set_gw s g', o)
    end
  | E_sweep now => (set_gw s (sweepLimiters g now), [])
  | E_rest body token expected now reply redis_ok =>
    let (r, g') := rest_publish g body token expected now reply redis_ok in
    ({| gw := g'; pending := pending s; authenticated := authenticated s;
        by_rest := match r, body with R_published, Some env => by_rest s ++ [env] | _, _ => by_rest s end |}, [])
  | E_anchor e => (set_gw s (set_anchor g (option_map (fun p => anchor_event p e) (anchor g))), [])
  end.

Fixpoint run (s : system) (es : list event) : system * list output :=
  match es with
  | [] => (s, [])
  | e :: es' => let (s1, o) := step s e in let (s2, os) := run s1 es' in (s2, o ++ os)
  end.
End gateway.

(** A gateway as [main] builds it. *)
Definition new_gateway (msg bw : KeyedRateLimiter) (lookup : option RpcAgentLookup) (pool : option AnchorWorkerPool)
    (ring_cap : option nat) : WsGateway :=
  {| sessions := []; topicSubscribers := []; msgLimiter := msg; bwLimiter := bw; ring := new_TopicRing ring_cap;
     agents := lookup; anchor := pool; stream := []; socketCounter := 0 |}.

Definition new_system (g : WsGateway) : system :=
  {| gw := g; pending := []; authenticated := []; by_rest := [] |}.
