(* ===== verification/GatewaySafety.v ===== *)
(** * GatewaySafety: what the bus guarantees its agents

    Invariants of [Gateway.step] and the theorems on it: who may read an inbox, who
    can have signed what is on the bus, where direct messages go, and the places
    where the code gives less than its specification asks for. *)

From Stdlib Require Import ZArith QArith Ascii.
From stdpp Require Import base sets list strings.
From S2P Require Import Prelude JsMap Json Attestation Messages Bus RateLimit Anchor Gateway.

(** ** Quiet operations

    Most operations leave alone who is connected, who subscribes to what and what
    is on the bus. *)

Definition agent_of (g : WsGateway) (ws : nat) : option string := option_map session_agent (map_get ws (sessions g)).

Record quiet (g g' : WsGateway) : Prop := {
  q_agent : forall ws, agent_of g' ws = agent_of g ws;
  q_counter : socketCounter g' = socketCounter g;
  q_subs : topicSubscribers g' = topicSubscribers g;
  q_stream : stream g' = stream g;
  q_wf : map_wf (sessions g) -> map_wf (sessions g');
}.

Lemma quiet_refl g : quiet g g.
Proof. by constructor. Qed.

Lemma quiet_trans g1 g2 g3 : quiet g1 g2 -> quiet g2 g3 -> quiet g1 g3.
Proof. intros [] []. constructor; auto; congruence. Qed.

Lemma agent_of_update g ws s s' ws' : map_get ws (sessions g) = Some s -> session_agent s' = session_agent s ->
  agent_of (set_sessions g (map_set ws s' (sessions g))) ws' = agent_of g ws'.
Proof.
  intros Hs Ha. unfold agent_of. cbn [sessions set_sessions]. rewrite map_get_set.
  case_decide; [subst; rewrite Hs; simpl; by rewrite Ha|done].
Qed.

Lemma quiet_send g ws f : quiet g (send g ws f).1.
Proof.
  unfold send. destruct (map_get ws (sessions g)) as [s|] eqn:E; [|apply quiet_refl].
  destruct (_ <=? _)%nat; [apply quiet_refl|]. constructor; try done; [intros ws'; by apply (agent_of_update g ws s) | apply map_wf_set].
Qed.

Lemma quiet_on_sent g ws : quiet g (on_sent g ws).
Proof.
  unfold on_sent. destruct (map_get ws (sessions g)) as [s|] eqn:E; [|apply quiet_refl].
  constructor; try done; [intros ws'; by apply (agent_of_update g ws s) | apply map_wf_set].
Qed.

Lemma quiet_anchor g e now : quiet g (anchor_enqueue g e now).
Proof. unfold anchor_enqueue. destruct (anchor g); by constructor. Qed.

Lemma quiet_fan_out g subs f : quiet g (fan_out g subs f).1.
Proof.
  revert g. induction subs as [|ws subs IH]; intros g; [apply quiet_refl|]. cbn [fan_out].
  pose proof (quiet_send g ws f) as H1. destruct (send g ws f) as [g1 o]; cbn [fst] in H1.
  specialize (IH g1). destruct (fan_out g1 subs f) as [g2 os]; cbn [fst] in *. by eapply quiet_trans.
Qed.

Lemma quiet_dispatch g t env sid now : quiet g (dispatch g t env sid now).1.
Proof.
  unfold dispatch. cbn [topicSubscribers set_ring]. destruct (map_get t (topicSubscribers g)); [|by constructor].
  eapply quiet_trans; [|apply quiet_fan_out]. by constructor.
Qed.

Lemma quiet_verify ed g env now reply : quiet g (verifyEnvelope_rest ed g env now reply).2.
Proof.
  unfold verifyEnvelope_rest. destruct (negb _); [apply quiet_refl|].
  destruct (agents g) as [a|]; [|apply quiet_refl]. destruct (isActiveOperator _ _ _ _). by constructor.
Qed.

#[local] Hint Resolve quiet_refl quiet_send quiet_on_sent quiet_anchor quiet_fan_out quiet_dispatch quiet_verify : core.

(** ** The invariant *)

Section safety.
Variable ed : ed25519.
Variable jwtVerify : string -> bytes -> string -> result jwt_claims.
Variable secret : bytes.
Variable freshness : FreshnessOptions.

#[local] Abbreviation step := (step ed jwtVerify secret freshness).
#[local] Abbreviation run := (run ed jwtVerify secret freshness).
#[local] Abbreviation canSubscribe := (canSubscribe ed).

(** Socket [ws] has been handed out, and if its owner is still connected it may
    subscribe to [t]. *)
Definition may_read (g : WsGateway) (ws : nat) (t : string) : Prop :=
  (ws <= socketCounter g)%nat /\ forall a, agent_of g ws = Some a -> canSubscribe a t = true.

(** What the gateway checked of an envelope before publishing it under [t]. *)
Definition vouched (auth : list string) (env : Envelope) (t : string) : Prop :=
  EnvelopeSchema_ok env = true /\ from_agent env ∈ auth /\
  verifyEnvelopeSignature ed (canonicalizeForSigning env) (signature env) (from_agent env) = true /\
  resolvePublishTopic env = Some t.

Definition entry_ok (s : system) (e : StreamEntry) : Prop :=
  se_topic e = topic (se_envelope e) /\
  (se_envelope e ∈ by_rest s \/
   exists env, vouched (authenticated s) env (se_topic e) /\ se_envelope e = with_topic env (se_topic e)).

Definition continuation_ok (s : system) (c : continuation) : Prop :=
  match c with
  | Pend_sub ws t => may_read (gw s) ws t
  | Pend_publish _ env => EnvelopeSchema_ok env = true /\ from_agent env ∈ authenticated s
  end.

Record Inv (s : system) : Prop := {
  inv_wf : map_wf (sessions (gw s));
  inv_sockets : forall ws a, agent_of (gw s) ws = Some a -> (ws <= socketCounter (gw s))%nat;
  inv_agents : forall ws a, agent_of (gw s) ws = Some a -> a ∈ authenticated s;
  inv_subs : forall t subs ws, map_get t (topicSubscribers (gw s)) = Some subs -> ws ∈ subs -> may_read (gw s) ws t;
  inv_pending : Forall (continuation_ok s) (pending s);
  inv_stream : Forall (entry_ok s) (stream (gw s));
}.

Lemma may_read_quiet g g' ws t : quiet g g' -> may_read g ws t -> may_read g' ws t.
Proof. intros [Ha Hc _ _ _] [H1 H2]. split; [lia|]. intros a. rewrite Ha. apply H2. Qed.

(** A quiet change of the gateway keeps the invariant, with fewer continuations or
    one more that is fine. *)
Lemma Inv_quiet s g' k : Inv s -> quiet (gw s) g' -> Forall (continuation_ok s) k ->
  Inv {| gw := g'; pending := k; authenticated := authenticated s; by_rest := by_rest s |}.
Proof.
  intros [H0 H1 H2 H3 H4 H5] Hq Hk. pose proof Hq as [Ha Hc Hs Hst Hw].
  constructor; cbn [gw pending authenticated by_rest]; [auto|..].
  - intros ws a. rewrite Ha, Hc. apply H1.
  - intros ws a. rewrite Ha. apply H2.
  - intros t subs ws. rewrite Hs. intros Ht Hin. eapply may_read_quiet; eauto.
  - eapply Forall_impl; [exact Hk|]. intros [ws t|ws env]; [|done]. by apply may_read_quiet.
  - rewrite Hst. exact H5.
Qed.

Lemma Inv_subs s m : Inv s ->
  (forall t subs ws, map_get t m = Some subs -> ws ∈ subs -> may_read (gw s) ws t) ->
  Inv (set_gw s (set_subscribers (gw s) m)).
Proof. intros [] Hm. by constructor. Qed.

Lemma elem_of_set_add {A} `{EqDecision A} (x y : A) l : x ∈ set_add y l -> x = y \/ x ∈ l.
Proof. unfold set_add. case_bool_decide; [by right|]. rewrite elem_of_app, list_elem_of_singleton. tauto. Qed.

Lemma elem_of_set_del {A} `{EqDecision A} (x y : A) l : x ∈ set_del y l -> x ∈ l.
Proof. unfold set_del. rewrite list_elem_of_filter. tauto. Qed.

Lemma add_sub_ok s ws t : Inv s -> may_read (gw s) ws t ->
  Inv (set_gw s (set_subscribers (gw s)
    (map_set t (set_add ws (default [] (map_get t (topicSubscribers (gw s))))) (topicSubscribers (gw s))))).
Proof.
  intros H Hr. apply Inv_subs; [done|]. intros t' subs ws'. rewrite map_get_set. case_decide as Ht; [|by apply H].
  intros [= <-] [->|Hin]%elem_of_set_add; [by subst|]. subst t'.
  destruct (map_get t (topicSubscribers (gw s))) eqn:E; [by eapply (inv_subs _ H)|].
  cbn in Hin. by apply elem_of_nil in Hin.
Qed.

Lemma Inv_pend s c : Inv s -> continuation_ok s c ->
  Inv {| gw := gw s; pending := pending s ++ [c]; authenticated := authenticated s; by_rest := by_rest s |}.
Proof.
  intros [] Hc. constructor; try done. apply Forall_app. split; [done|]. by constructor.
Qed.

(** A handler's reply: the gateway changed quietly, and no continuation was left. *)
Lemma Inv_reply s g' : Inv s -> quiet (gw s) g' -> Inv (set_gw s g').
Proof. intros H Hq. apply Inv_quiet; [done|done|apply H]. Qed.

#[local] Hint Resolve Inv_reply : core.

(** The handler ends with a reply to its own socket. *)
#[local] Ltac reply H :=
  match goal with
  | |- context [send ?g ?ws ?f] =>
    pose proof (quiet_send g ws f); destruct (send g ws f);
    apply (Inv_reply _ _ H); first [done | by eapply quiet_trans]
  end.

Lemma message_inv s ws f n now : Inv s -> Inv (step s (E_message ws f n now)).1.
Proof.
  intros H. cbn [Gateway.step]. unfold onMessage.
  destruct (map_get ws (sessions (gw s))) as [ses|] eqn:E; [|by apply (Inv_reply s)].
  assert (Hag : agent_of (gw s) ws = Some (session_agent ses)) by (unfold agent_of; by rewrite E).
  destruct f as [f|]; [|reply H].
  destruct (ClientFrameSchema_ok f) eqn:Ef; cbn [negb]; [|reply H].
  destruct f as [t|t|env|].
  - destruct (canSubscribe (session_agent ses) t) eqn:Ec; cbn [negb]; [|reply H].
    set (g1 := set_sessions (gw s) _).
    assert (Hq : quiet (gw s) g1) by (constructor; try done; [intros ws'; by apply (agent_of_update (gw s) ws ses) | apply map_wf_set]).
    pose proof (Inv_reply s g1 H Hq) as H1.
    assert (Hr : may_read g1 ws t).
    { eapply may_read_quiet; [exact Hq|]. split; [by eapply (inv_sockets _ H)|]. intros a. rewrite Hag. by intros [= <-]. }
    destruct (map_get t (topicSubscribers g1)) as [subs|] eqn:Et.
    + pose proof (add_sub_ok (set_gw s g1) ws t H1 Hr) as H2. cbn [gw set_gw] in H2. rewrite Et in H2. exact H2.
    + apply (Inv_pend (set_gw s (set_subscribers g1 (map_set t [] (topicSubscribers g1))))); [|exact Hr].
      apply (Inv_subs (set_gw s g1)); [done|]. intros t' subs ws'. rewrite map_get_set.
      case_decide; [intros [= <-] Hin; by apply elem_of_nil in Hin | apply H1].
  - set (g1 := set_sessions (gw s) _).
    assert (Hq : quiet (gw s) g1) by (constructor; try done; [intros ws'; by apply (agent_of_update (gw s) ws ses) | apply map_wf_set]).
    pose proof (Inv_reply s g1 H Hq) as H1.
    destruct (map_get t (topicSubscribers g1)) as [subs|] eqn:Et; [|exact H1].
    apply (Inv_subs (set_gw s g1)); [done|]. intros t' subs' ws'. rewrite map_get_set.
    case_decide; [subst t'; intros [= <-] Hin%elem_of_set_del; by eapply (inv_subs _ H1) | apply H1].
  - destruct (String.eqb_spec (from_agent env) (session_agent ses)) as [Efrom|]; cbn [negb]; [|reply H].
    destruct (consume (bwLimiter (gw s)) _ _ _) as [bw l]. set (g1 := set_bwLimiter (gw s) l).
    assert (Hq1 : quiet (gw s) g1) by by constructor.
    destruct (allowed bw); cbn [negb]; [|reply H].
    cbn [msgLimiter g1 set_bwLimiter].
    destruct (consume (msgLimiter (gw s)) _ _ _) as [mc l2]. set (g2 := set_msgLimiter g1 l2).
    assert (Hq2 : quiet (gw s) g2) by by constructor.
    destruct (allowed mc); cbn [negb]; [|reply H].
    destruct (isEnvelopeTsFresh (ts env) now freshness); cbn [negb]; [|reply H].
    apply (Inv_pend (set_gw s g2)); [by apply Inv_reply|]. split; [exact Ef|].
    rewrite Efrom. by eapply (inv_agents _ H).
  - reply H.
Qed.

Lemma pending_drop s i : Inv s ->
  Inv {| gw := gw s; pending := remove_nth i (pending s); authenticated := authenticated s; by_rest := by_rest s |}.
Proof.
  intros H. apply (Inv_quiet s (gw s)); [done|done|]. apply remove_nth_Forall, H.
Qed.

(** Publishing adds one entry that is in order. *)
Lemma Inv_publish s g1 g' e : Inv s -> quiet (gw s) g1 -> entry_ok s e ->
  quiet (set_stream g1 (stream g1 ++ [e])) g' -> Inv (set_gw s g').
Proof.
  intros H Hq He Hq'. pose proof (Inv_reply _ _ H Hq) as H1.
  apply (Inv_reply (set_gw s (set_stream g1 (stream g1 ++ [e])))); [|exact Hq'].
  destruct H1 as [A0 A1 A2 A3 A4 A5]. constructor; try done. cbn [gw set_gw stream set_stream].
  apply Forall_app. split; [exact A5|]. by constructor.
Qed.

Lemma with_topic_topic env t : topic (with_topic env t) = t.
Proof. done. Qed.

(** What [resume_publish] does to the gateway: nothing visible, or one more entry
    that it has vouched for. *)
Lemma resume_publish_cases g ws env now reply ok :
  let g' := (resume_publish ed g ws env now reply ok).1 in
  quiet g g' \/
  exists g1 t, quiet g g1 /\ quiet (set_stream g1 (stream g1 ++ [{| se_topic := t; se_envelope := with_topic env t |}])) g' /\
    verifyEnvelopeSignature ed (canonicalizeForSigning env) (signature env) (from_agent env) = true /\
    resolvePublishTopic env = Some t.
Proof.
  intros g'. subst g'. unfold resume_publish. pose proof (quiet_verify ed g env now reply) as Hq.
  assert (Hsig : (verifyEnvelope_rest ed g env now reply).1 = None ->
    verifyEnvelopeSignature ed (canonicalizeForSigning env) (signature env) (from_agent env) = true).
  { unfold verifyEnvelope_rest. by destruct (verifyEnvelopeSignature _ _ _ _). }
  destruct (verifyEnvelope_rest ed g env now reply) as [v g1]. cbn [fst snd] in *.
  assert (Hs : forall f, quiet g (send g1 ws f).1) by (intros f; by eapply quiet_trans).
  destruct v as [v|]; [by left|]. specialize (Hsig eq_refl).
  destruct (match msg_type env with Some m => isExpired m (ts env) now None | None => false end); [by left|].
  destruct (match msg_type env with Some m => _ | None => false end); [by left|].
  destruct (resolvePublishTopic env) as [t|] eqn:Er; [|by left]. destruct ok; cbn [negb]; [|by left].
  right. exists g1, t. split; [done|]. split; [|done].
  assert (Henv : (if String.eqb t (topic env) then env else with_topic env t) = with_topic env t).
  { destruct (String.eqb_spec t (topic env)) as [->|]; [by destruct env|done]. }
  rewrite Henv, with_topic_topic. eapply quiet_trans; [|apply quiet_send].
  destruct (msg_type env) as [m|]; [|apply quiet_anchor]. destruct (Messages.shouldAnchor m); auto.
Qed.

Lemma resume_inv s i now reply ok : Inv s -> Inv (step s (E_resume i now reply ok)).1.
Proof.
  intros H. cbn [Gateway.step]. destruct (pending s !! i) as [c|] eqn:E; [|done].
  pose proof (Forall_lookup_1 _ _ _ _ (inv_pending _ H) E) as Hc.
  pose proof (pending_drop s i H) as H0. destruct c as [ws t|ws env].
  - unfold resume_sub. destruct ok; cbn [fst]; [|exact H0]. by apply (add_sub_ok _ ws t H0).
  - destruct Hc as [Hschema Hfrom].
    pose proof (resume_publish_cases (gw s) ws env now reply ok) as Hcases.
    destruct (resume_publish ed (gw s) ws env now reply ok) as [g' o]. cbn [fst] in *.
    destruct Hcases as [Hq|(g1 & t & Hq & Hq' & Hsig & Ht)]; [by apply (Inv_reply _ _ H0)|].
    eapply (Inv_publish _ g1 g' _ H0 Hq); [|exact Hq'].
    split; [done|]. right. by exists env.
Qed.

Lemma connect_inv s token now : Inv s -> Inv (step s (E_connect token now)).1.
Proof.
  intros H. cbn [Gateway.step]. unfold handleUpgrade.
  destruct (truthy token); cbn [negb]; [|by apply (Inv_reply s)].
  destruct (verifySessionToken _ _ _ _ _) as [r|]; [|by apply (Inv_reply s)].
  destruct H as [H0 H1 H2 H3 H4 H5]. cbn [fst].
  set (g' := onConnection (gw s) (agentPubkey r)).
  assert (Hag : forall ws a, agent_of g' ws = Some a ->
    ws = S (socketCounter (gw s)) /\ a = agentPubkey r \/ agent_of (gw s) ws = Some a).
  { intros ws a. unfold agent_of, g', onConnection. cbn [sessions set_counter set_sessions]. rewrite map_get_set.
    case_decide; [intros [= <-]; by left | by right]. }
  assert (Hm : forall ws t, may_read (gw s) ws t -> may_read g' ws t).
  { intros ws t [Hle Ha]. split; [cbn; lia|]. intros a [[-> _]|?]%Hag; [lia|auto]. }
  assert (Hin : forall a, a ∈ authenticated s -> a ∈ authenticated s ++ [agentPubkey r]).
  { intros a Ha. apply elem_of_app. by left. }
  constructor; cbn [gw pending authenticated by_rest].
  - by apply map_wf_set.
  - intros ws a [[-> _]|Ha]%Hag; [cbn; lia|]. apply H1 in Ha. cbn; lia.
  - intros ws a [[_ ->]|Ha]%Hag; [apply elem_of_app; right; by apply list_elem_of_singleton | eauto].
  - intros t subs ws Ht Hi. apply Hm. by eapply H3.
  - eapply Forall_impl; [exact H4|]. intros [ws t|ws env]; [apply Hm|]. intros [? ?]. split; auto.
  - eapply Forall_impl; [exact H5|]. intros e [? [?|(env & (? & ? & ? & ?) & ?)]]; split; try done; [by left|].
    right. exists env. split; [|done]. split_and!; auto.
Qed.

Lemma leave_all_sub ws ts m t subs x : map_get t (leave_all ws ts m) = Some subs -> x ∈ subs ->
  exists subs', map_get t m = Some subs' /\ x ∈ subs'.
Proof.
  revert m. induction ts as [|t' ts IH]; intros m; cbn [leave_all]; [eauto|].
  intros Hg Hx. destruct (IH _ Hg Hx) as (subs' & Hg' & Hx').
  destruct (map_get t' m) as [sb|] eqn:E; [|eauto]. rewrite map_get_set in Hg'. case_decide; [subst|eauto].
  injection Hg' as <-. apply elem_of_set_del in Hx'. eauto.
Qed.

Lemma close_inv s ws : Inv s -> Inv (step s (E_close ws)).1.
Proof.
  intros H. cbn [Gateway.step fst]. unfold on_close.
  destruct (map_get ws (sessions (gw s))) as [ses|] eqn:E; [|by apply (Inv_reply s)].
  destruct H as [H0 H1 H2 H3 H4 H5]. set (g' := set_bwLimiter _ _).
  assert (Hag : forall ws' a, agent_of g' ws' = Some a -> agent_of (gw s) ws' = Some a).
  { intros ws' a. unfold agent_of. cbn [sessions g' set_bwLimiter set_sessions set_subscribers].
    destruct (decide (ws' = ws)) as [->|]; [by rewrite map_get_delete_eq | by rewrite map_get_delete_ne]. }
  assert (Hm : forall ws' t, may_read (gw s) ws' t -> may_read g' ws' t).
  { intros ws' t [Hle Hr]. split; [done|]. intros a Ha%Hag. auto. }
  constructor; cbn [gw set_gw pending authenticated by_rest].
  - by apply map_wf_delete.
  - intros ws' a Ha%Hag. by eapply H1.
  - intros ws' a Ha%Hag. by eapply H2.
  - intros t subs ws' Ht Hi. destruct (leave_all_sub _ _ _ _ _ _ Ht Hi) as (subs' & Ht' & Hi'). apply Hm. by eapply H3.
  - eapply Forall_impl; [exact H4|]. intros [ws' t|ws' env]; [apply Hm|done].
  - exact H5.
Qed.

Lemma rest_inv s body token expected now reply ok : Inv s -> Inv (step s (E_rest body token expected now reply ok)).1.
Proof.
  intros H. cbn [Gateway.step]. unfold rest_publish.
  destruct body as [env|]; [|by apply (Inv_reply s)].
  destruct (EnvelopeSchema_ok env); cbn [negb]; [|by apply (Inv_reply s)].
  destruct (truthy expected && bool_decide (token = expected)); cbn [negb]; [|by apply (Inv_reply s)].
  destruct (isEnvelopeTsFresh (ts env) now freshness); cbn [negb]; [|by apply (Inv_reply s)].
  destruct (consume (msgLimiter (gw s)) _ _ _) as [mc l]. set (g1 := set_msgLimiter (gw s) l).
  assert (Hq1 : quiet (gw s) g1) by by constructor.
  destruct (allowed mc); cbn [negb]; [|by apply (Inv_reply s)].
  assert (Hq2 : exists act g2, quiet (gw s) g2 /\ match agents g1 with
      | None => (true, g1)
      | Some a => let (act, a) := isActiveOperator a (from_agent env) now reply in (act, set_agents g1 (Some a))
      end = (act, g2)).
  { destruct (agents g1) as [a|]; [|by eauto]. destruct (isActiveOperator _ _ _ _) as [act a']. eexists act, _.
    split; [|reflexivity]. by constructor. }
  destruct Hq2 as (act & g2 & Hq2 & ->).
  destruct act; cbn [negb]; [|by apply (Inv_reply s)]. destruct ok; cbn [negb fst]; [|by apply (Inv_reply s)].
  set (s' := {| gw := gw s; pending := pending s; authenticated := authenticated s; by_rest := by_rest s ++ [env] |}).
  assert (H' : Inv s').
  { destruct H as [A0 A1 A2 A3 A4 A5]. constructor; try done. eapply Forall_impl; [exact A5|].
    intros e [? [?|?]]; split; try done; [left; cbn; apply elem_of_app; by left | by right]. }
  apply (Inv_publish s' g2 _ {| se_topic := topic env; se_envelope := env |} H' Hq2); [|apply quiet_anchor].
  split; [done|]. left. cbn. apply elem_of_app. right. by apply list_elem_of_singleton.
Qed.

Lemma step_inv s e : Inv s -> Inv (step s e).1.
Proof.
  intros H. destruct e as [token now|ws f n now|i now reply ok|ws|ws|i sid now|now|body tk ex now reply ok|pe].
  - by apply connect_inv.
  - by apply message_inv.
  - by apply resume_inv.
  - by apply (Inv_reply s).
  - by apply close_inv.
  - cbn [Gateway.step]. destruct (stream (gw s) !! i) as [e|]; [|done].
    pose proof (quiet_dispatch (gw s) (se_topic e) (se_envelope e) sid now).
    destruct (dispatch _ _ _ _ _). by apply (Inv_reply s).
  - apply (Inv_reply s); [done|]. by constructor.
  - by apply rest_inv.
  - apply (Inv_reply s); [done|]. by constructor.
Qed.

Lemma run_inv s es : Inv s -> Inv (run s es).1.
Proof.
  revert s. induction es as [|e es IH]; intros s H; cbn [Gateway.run]; [done|].
  pose proof (step_inv s e H) as H1. destruct (step s e) as [s1 o]. cbn [fst] in H1.
  specialize (IH s1 H1). destruct (run s1 es) as [s2 os]. exact IH.
Qed.

Lemma new_inv msg bw lookup pool cap : Inv (new_system (new_gateway msg bw lookup pool cap)).
Proof. constructor; try done; constructor. Qed.

(** ** Where the REST envelopes and the sessions come from *)

(** The requests of [es] hold a POST /publish of [env] that carried the configured
    service token, with a schema-valid, fresh envelope. *)
Definition service_request (es : list event) (env : Envelope) : Prop :=
  exists token now reply ok, E_rest (Some env) (Some token) (Some token) now reply ok ∈ es /\ token <> ""%string /\
    EnvelopeSchema_ok env = true /\ isEnvelopeTsFresh (ts env) now freshness = true.

(** [es] holds an upgrade whose session token verified as [a]'s. *)
Definition session_opened (es : list event) (a : string) : Prop :=
  exists token now r, E_connect (Some token) now ∈ es /\ verifySessionToken ed jwtVerify token secret now = Some r /\ agentPubkey r = a.

Lemma rest_published g body token expected now reply ok g' :
  rest_publish freshness g body token expected now reply ok = (R_published, g') ->
  exists env t, body = Some env /\ token = Some t /\ expected = Some t /\ t <> ""%string /\
    EnvelopeSchema_ok env = true /\ isEnvelopeTsFresh (ts env) now freshness = true.
Proof.
  unfold rest_publish. destruct body as [env|]; [|done].
  destruct (EnvelopeSchema_ok env) eqn:Es; cbn [negb]; [|done].
  destruct (truthy expected && bool_decide (token = expected)) eqn:Et; cbn [negb]; [|done].
  destruct (isEnvelopeTsFresh (ts env) now freshness) eqn:Ef; cbn [negb]; [|done]. intros _.
  apply andb_true_iff in Et as [Et ->%bool_decide_eq_true]. destruct expected as [[|c t]|]; try done.
  exists env, (String c t). by split_and!.
Qed.

Lemma step_ghosts s e :
  (forall env, env ∈ by_rest (step s e).1 -> env ∈ by_rest s \/ service_request [e] env) /\
  (forall a, a ∈ authenticated (step s e).1 -> a ∈ authenticated s \/ session_opened [e] a).
Proof.
  destruct e as [token now|ws f n now|i now reply ok|ws|ws|i sid now|now|body tk ex now reply ok|pe]; cbn [Gateway.step];
    repeat case_match; cbn [fst by_rest authenticated set_gw]; try (split; intros; by left).
  all: split; [intros env'; try (by left)|intros who; try (by left)]; rewrite elem_of_app; (intros [?|Hin]; [by left|right]).
  all: try (apply list_elem_of_singleton in Hin as ->).
  - unfold handleUpgrade in *. destruct token as [[|c t]|]; simplify_eq/=. do 3 eexists. split; [by left|]. split; [eassumption|done].
  - by apply elem_of_nil in Hin.
  - match goal with H : rest_publish _ _ _ _ _ _ _ _ = _ |- _ => apply rest_published in H as (? & t & [= <-] & -> & -> & ? & ? & ?) end.
    exists t, now, reply, ok. split; [by left|done].
Qed.

Lemma run_ghosts es s :
  (forall env, env ∈ by_rest (run s es).1 -> env ∈ by_rest s \/ service_request es env) /\
  (forall a, a ∈ authenticated (run s es).1 -> a ∈ authenticated s \/ session_opened es a).
Proof.
  revert s. induction es as [|e es IH]; intros s; cbn [Gateway.run]; [split; intros; by left|].
  destruct (step_ghosts s e) as [H1 H2]. destruct (step s e) as [s1 o]. cbn [fst] in *.
  destruct (IH s1) as [G1 G2]. destruct (run s1 es) as [s2 os]. cbn [fst] in *. split.
  - intros env [Hin|(t & now & r & ok & Hin & ?)]%G1; [destruct (H1 _ Hin) as [?|(t & now & r & ok & Hin' & ?)]; [by left|right]|right];
      exists t, now, r, ok; (split; [|done]); apply elem_of_cons; [|by right].
    apply list_elem_of_singleton in Hin'. by left.
  - intros a [Hin|(t & now & r & Hin & ?)]%G2; [destruct (H2 _ Hin) as [?|(t & now & r & Hin' & ?)]; [by left|right]|right];
      exists t, now, r; (split; [|done]); apply elem_of_cons; [|by right].
    apply list_elem_of_singleton in Hin'. by left.
Qed.

(** ** Inboxes *)

Lemma inbox_inj a b : inbox a = inbox b -> a = b.
Proof.
  intros H. assert (Hl : String.length a = String.length b).
  { apply (f_equal String.length) in H. unfold inbox in H. rewrite !string_length_app in H. lia. }
  unfold inbox in H. apply string_app_inj_length in H as [_ H]; [|done].
  by apply string_app_inj_length in H as [H _].
Qed.

Lemma canSubscribe_inbox a x : canSubscribe a (inbox x) = true -> a = x.
Proof.
  unfold Gateway.canSubscribe. unfold inbox at 1. rewrite prefix_app.
  destruct (String.eqb_spec (inbox x) (inbox a)) as [E|]; cbn [negb]; [|done].
  intros _. symmetry. by apply inbox_inj.
Qed.

Lemma send_output g ws f o : o ∈ (send g ws f).2 -> o = CloseRequest ws 1009 \/ o = Sent ws f /\ is_Some (agent_of g ws).
Proof.
  unfold send, agent_of. destruct (map_get ws (sessions g)); [|by intros ?%elem_of_nil].
  destruct (_ <=? _)%nat; intros ->%list_elem_of_singleton; [by left|right]. by split; [|eexists].
Qed.

Lemma fan_out_output g subs f ws f' : Sent ws f' ∈ (fan_out g subs f).2 -> ws ∈ subs /\ f' = f /\ is_Some (agent_of g ws).
Proof.
  revert g. induction subs as [|w subs IH]; intros g; cbn [fan_out]; [by intros ?%elem_of_nil|].
  pose proof (send_output g w f) as Ho. pose proof (quiet_send g w f) as Hq.
  destruct (send g w f) as [g1 o]. specialize (IH g1).
  destruct (fan_out g1 subs f) as [g2 os]. cbn [fst snd] in *.
  rewrite elem_of_app, elem_of_cons. intros [Hin|Hin].
  - destruct (Ho _ Hin) as [|[[= -> ->] ?]]; [done|]. by split_and!; [left| |].
  - destruct (IH Hin) as (? & ? & Ha). rewrite (q_agent _ _ Hq) in Ha. by split_and!; [right| |].
Qed.

(** A reply is not a bus message. *)
Definition not_msg (o : output) : Prop :=
  match o with
  | Sent _ (S_msg _ _ _) => False
  | _ => True
  end.

Lemma send_not_msg g ws f : not_msg (Sent ws f) -> Forall not_msg (send g ws f).2.
Proof.
  intros Hf. unfold send. destruct (map_get ws (sessions g)); [|constructor].
  destruct (_ <=? _)%nat; constructor; done.
Qed.

Lemma message_not_msg g ws f n now : Forall not_msg (onMessage ed freshness g ws f n now).1.2.
Proof.
  assert (Hs : forall g f, not_msg (Sent ws f) -> Forall not_msg (send g ws f).2) by (intros; by apply send_not_msg).
  unfold onMessage. destruct (map_get ws (sessions g)); [|constructor].
  destruct f as [f|]; [|by apply Hs]. destruct (negb _); [by apply Hs|].
  destruct f as [t|t|env|]; [..|by apply Hs].
  - destruct (negb _); [by apply Hs|]. destruct (map_get t _); constructor.
  - destruct (map_get t _); constructor.
  - destruct (negb _); [by apply Hs|]. destruct (consume _ _ _ _) as [bw l].
    destruct (negb _); [by apply Hs|]. destruct (consume _ _ _ _) as [mc l2].
    destruct (negb _); [by apply Hs|]. destruct (negb _); [by apply Hs|constructor].
Qed.

Lemma resume_not_msg g ws env now reply ok : Forall not_msg (resume_publish ed g ws env now reply ok).2.
Proof.
  assert (Hs : forall g f, not_msg (Sent ws f) -> Forall not_msg (send g ws f).2) by (intros; by apply send_not_msg).
  unfold resume_publish. destruct (verifyEnvelope_rest _ _ _ _ _) as [[v|] g1]; [by apply Hs|].
  destruct (match msg_type env with Some m => isExpired m (ts env) now None | None => false end); [by apply Hs|].
  destruct (match msg_type env with Some m => _ | None => false end); [by apply Hs|].
  destruct (resolvePublishTopic env); [destruct ok; [by apply Hs|constructor]|].
  cbn [snd]. destruct (map_get ws _); by repeat constructor.
Qed.

(** Bus messages leave the gateway only when a stream entry is dispatched, and only
    to connected subscribers of its stream. *)
Lemma step_msg s e ws t env sid : Inv s -> Sent ws (S_msg t env sid) ∈ (step s e).2 ->
  exists i now, e = E_dispatch i sid now /\ stream (gw s) !! i = Some {| se_topic := t; se_envelope := env |} /\
    exists a, agent_of (gw s) ws = Some a /\ canSubscribe a t = true.
Proof.
  intros H.
  assert (Hno : forall o, Forall not_msg o -> Sent ws (S_msg t env sid) ∈ o -> False).
  { intros o Ho Hin. rewrite Forall_forall in Ho. exact (Ho _ Hin). }
  destruct e as [token now|ws' f n now|i now reply ok|ws'|ws'|i sid' now|now|body tk ex now reply ok|pe]; cbn [Gateway.step];
    try (intros Hin; cbn in Hin; by apply elem_of_nil in Hin).
  - destruct (handleUpgrade _ _ _ _ _ _) as [ok g']. by intros Hin%elem_of_nil.
  - pose proof (message_not_msg (gw s) ws' f n now) as Hm. destruct (onMessage _ _ _ _ _ _ _) as [[g' o] k].
    by intros ?%Hno.
  - destruct (pending s !! i) as [[ws' t'|ws' e]|]; try (by intros Hin%elem_of_nil).
    pose proof (resume_not_msg (gw s) ws' e now reply ok) as Hm. destruct (resume_publish _ _ _ _ _ _ _) as [g' o].
    by intros ?%Hno.
  - destruct (stream (gw s) !! i) as [e|] eqn:Ei; [|by intros Hin%elem_of_nil].
    unfold dispatch. cbn [topicSubscribers set_ring].
    destruct (map_get (se_topic e) (topicSubscribers (gw s))) as [subs|] eqn:Es; [|by intros Hin%elem_of_nil].
    set (g1 := set_ring _ _). pose proof (fan_out_output g1 subs (S_msg (se_topic e) (se_envelope e) sid') ws (S_msg t env sid)) as Ho.
    destruct (fan_out _ _ _) as [g' o]. intros Hin. destruct (Ho Hin) as (Hsub & [= -> -> ->] & [a Ha]).
    exists i, now. split; [done|]. split; [by destruct e|]. exists a. split; [exact Ha|].
    apply (inv_subs _ H _ _ _ Es Hsub). exact Ha.
  - destruct (rest_publish _ _ _ _ _ _ _ _) as [r g']. by intros Hin%elem_of_nil.
Qed.


(** ** Properties *)

Section reachable.
Variables (msg bw : KeyedRateLimiter) (lookup : option RpcAgentLookup) (pool : option AnchorWorkerPool) (cap : option nat).

(** A state of the bus after any events. *)
Definition reached (es : list event) : system := (run (new_system (new_gateway msg bw lookup pool cap)) es).1.

Lemma reached_inv es : Inv (reached es).
Proof. apply run_inv, new_inv. Qed.

(** C6: inboxes are private, whatever the interleaving of connections, messages,
    awaits, closes and deliveries: a bus message of the stream [agent.X.inbox] is
    only ever sent to a socket authenticated as [X], and a typed direct message
    published over a WebSocket only ever reaches its recipient. *)
Theorem inbox_private (es : list event) (e : event) (ws : nat) (t : string) (env : Envelope) (sid : string)
    (Hsent : Sent ws (S_msg t env sid) ∈ (step (reached es) e).2) :
  (forall x, t = inbox x -> agent_of (gw (reached es)) ws = Some x) /\
  (forall m r, env ∉ by_rest (reached es) -> msg_type env = Some m -> routingMode m = direct ->
     to_agent env = Some r -> t = inbox r /\ agent_of (gw (reached es)) ws = Some r).
Proof.
  pose proof (reached_inv es) as H. set (s := reached es) in *.
  destruct (step_msg s e ws t env sid H Hsent) as (i & now & _ & Hi & a & Ha & Hc).
  assert (Hbox : forall x, t = inbox x -> agent_of (gw s) ws = Some x).
  { intros x ->. by apply canSubscribe_inbox in Hc as ->. }
  split; [done|]. intros m r Hrest Hm Hd Hr.
  destruct (Forall_lookup_1 _ _ _ _ (inv_stream _ H) Hi) as [_ [?|(env0 & (Hsch & _ & _ & Hres) & He)]]; [done|].
  cbn [se_topic se_envelope] in *. rewrite He in Hm, Hr. cbn [msg_type to_agent with_topic] in Hm, Hr.
  unfold resolvePublishTopic in Hres. rewrite Hm, Hd, Hr in Hres.
  assert (Ht : truthy (Some r) = true).
  { unfold EnvelopeSchema_ok in Hsch. rewrite Hr in Hsch. destruct r; [|done].
    rewrite !andb_true_iff in Hsch. destruct_exists. done. }
  rewrite Ht in Hres. cbn [negb] in Hres. destruct (String.eqb (from_agent env0) r); [done|].
  injection Hres as Hres. split; [done|]. by apply Hbox.
Qed.

(** C13: nothing gets on the bus unsigned: every stream entry is the schema-valid,
    fresh envelope of a POST /publish whose service token was the configured,
    non-empty one, or comes from a schema-valid envelope whose sender had opened a
    socket with a session token that verified as theirs and whose signature verifies
    under that sender's key; in the second case it lies in the stream its routing
    prescribes and differs from the signed envelope in its topic at most. *)
Theorem bus_entries_signed (es : list event) (e : StreamEntry) (Hin : e ∈ stream (gw (reached es))) :
  se_topic e = topic (se_envelope e) /\
  (service_request es (se_envelope e) \/
   exists env, EnvelopeSchema_ok env = true /\ session_opened es (from_agent env) /\
     verifyEnvelopeSignature ed (canonicalizeForSigning env) (signature env) (from_agent env) = true /\
     resolvePublishTopic env = Some (se_topic e) /\ se_envelope e = with_topic env (se_topic e)).
Proof.
  pose proof (inv_stream _ (reached_inv es)) as H. rewrite Forall_forall in H.
  destruct (run_ghosts es (new_system (new_gateway msg bw lookup pool cap))) as [Hr Ha].
  destruct (H _ Hin) as [Ht [Hb|(env & (? & Hauth & ? & ?) & ?)]]; (split; [done|]).
  - left. by destruct (Hr _ Hb) as [?%elem_of_nil|?].
  - right. exists env. split_and!; try done. by destruct (Ha _ Hauth) as [?%elem_of_nil|?].
Qed.
End reachable.

Lemma inbox_not_task x : String.prefix "task." (inbox x) = false.
Proof. done. Qed.

(** The anchoring the message types ask for never happens: a pool with the
    default prefix accepts no envelope that carries a message type, since every
    type that requires anchoring is routed to an inbox. *)
Theorem typed_messages_never_anchored (g : WsGateway) (p : AnchorWorkerPool) (ws : nat) (env : Envelope)
    (m : MessageType) (now : Z) (reply : lookup_reply) (ok : bool)
    (Hp : anchor g = Some p) (Hprefix : topicPrefix p = DEFAULT_TOPIC_PREFIX) (Hm : msg_type env = Some m) :
  anchor (resume_publish ed g ws env now reply ok).1 = Some p.
Proof.
  assert (Hsend : forall g f, anchor (send g ws f).1 = anchor g).
  { intros g0 f. unfold send. destruct (map_get ws _); [|done]. by destruct (_ <=? _)%nat. }
  unfold resume_publish.
  assert (Hv : anchor (verifyEnvelope_rest ed g env now reply).2 = Some p).
  { unfold verifyEnvelope_rest. destruct (negb _); [done|]. destruct (agents g); [|done]. by destruct (isActiveOperator _ _ _ _). }
  destruct (verifyEnvelope_rest ed g env now reply) as [[v|] g1]; cbn [snd] in Hv; [by rewrite Hsend|].
  rewrite Hm. destruct (isExpired _ _ _ _); [by rewrite Hsend|].
  destruct (bool_decide _ && _) eqn:El; [by rewrite Hsend|].
  destruct (resolvePublishTopic env) as [t|] eqn:Er; [|done]. destruct ok; cbn [negb]; [|done]. rewrite Hsend.
  destruct (Messages.shouldAnchor m) eqn:Ea; [|done].
  assert (Hd : routingMode m = direct) by (by destruct m).
  assert (Htopic : exists r, t = inbox r).
  { unfold resolvePublishTopic in Er. rewrite Hm, Hd in Er. rewrite bool_decide_true in El by done.
    destruct (to_agent env) as [r|]; [|done]. cbn [andb] in El. rewrite El in Er.
    destruct (String.eqb _ _); [done|]. injection Er as <-. by exists r. }
  destruct Htopic as [r ->]. unfold anchor_enqueue. cbn [anchor set_stream]. rewrite Hv. cbn [anchor set_anchor].
  unfold enqueue, shouldAnchorTopic. rewrite Hprefix. unfold DEFAULT_TOPIC_PREFIX.
  replace (topic (if String.eqb (inbox r) (topic env) then env else with_topic env (inbox r))) with (inbox r).
  - by rewrite inbox_not_task.
  - destruct (String.eqb_spec (inbox r) (topic env)); done.
Qed.

Lemma resume_untyped g ws env now reply :
  msg_type env = None -> (verifyEnvelope_rest ed g env now reply).1 = None ->
  stream (resume_publish ed g ws env now reply true).1 = stream g ++ [{| se_topic := topic env; se_envelope := env |}].
Proof.
  intros Hm Hv. unfold resume_publish. pose proof (quiet_verify ed g env now reply) as Hq.
  destruct (verifyEnvelope_rest ed g env now reply) as [v g1]. cbn [fst snd] in *. subst v. rewrite Hm.
  unfold resolvePublishTopic. rewrite Hm. cbn [negb]. rewrite String.eqb_refl.
  rewrite (q_stream _ _ (quiet_send _ _ _)), (q_stream _ _ (quiet_anchor _ _ _)). cbn [stream set_stream].
  by rewrite (q_stream _ _ Hq).
Qed.

(** An untyped envelope is published wherever its topic says: once the
    signature verifies and the agent is active, no topic is off limits (not
    [system.*], not another agent's task), and the same envelope sent again is
    published again. *)
Theorem untyped_publish_unrestricted (g : WsGateway) (ws : nat) (env : Envelope) (now now' : Z)
    (reply reply' : lookup_reply) (Hm : msg_type env = None)
    (Hv : (verifyEnvelope_rest ed g env now reply).1 = None)
    (Hv' : (verifyEnvelope_rest ed (resume_publish ed g ws env now reply true).1 env now' reply').1 = None) :
  let entry := {| se_topic := topic env; se_envelope := env |} in
  stream (resume_publish ed (resume_publish ed g ws env now reply true).1 ws env now' reply' true).1 =
  stream g ++ [entry; entry].
Proof. intros entry. rewrite !resume_untyped by done. by rewrite <- app_assoc. Qed.

(** An unsubscription can be lost: when a client is the first to subscribe to a
    topic and unsubscribes while the consumer group is still being created, the
    resumed handler subscribes it again; the session no longer knows the topic, so
    the socket stays in the topic's set even after it closes. *)
Theorem unsubscribe_lost (s : system) (ws : nat) (t : string) (n n' now now' : Z) (reply : lookup_reply)
    (Hconn : map_has ws (sessions (gw s)) = true) (Hschema : TopicSchema_ok t = true)
    (Hopen : String.prefix "agent." t = false) (Hnew : map_get t (topicSubscribers (gw s)) = None) :
  let s' := (run s [E_message ws (Some (C_sub t)) n now; E_message ws (Some (C_unsub t)) n' now';
                    E_resume (length (pending s)) now' reply true]).1 in
  map_get t (topicSubscribers (gw s')) = Some [ws] /\
  (forall ses, map_get ws (sessions (gw s')) = Some ses -> t ∉ topics ses) /\
  map_get t (topicSubscribers (gw (step s' (E_close ws)).1)) = Some [ws].
Proof.
  unfold map_has in Hconn. destruct (map_get ws (sessions (gw s))) as [ses|] eqn:Es; [|done].
  intros s'.
  assert (Hs' : gw s' = set_subscribers
    (set_sessions (gw s) (map_set ws (set_topics ses (set_del t (set_add t (topics ses)))) (sessions (gw s))))
    (map_set t [ws] (topicSubscribers (gw s)))).
  { subst s'. cbn [Gateway.run Gateway.step]. unfold onMessage at 1. rewrite Es. cbn [ClientFrameSchema_ok]. rewrite Hschema.
    unfold Gateway.canSubscribe. rewrite Hopen. cbn [negb topicSubscribers set_sessions]. rewrite Hnew.
    cbn [gw]. unfold onMessage. cbn [sessions set_subscribers set_sessions]. rewrite map_get_set_eq.
    cbn [ClientFrameSchema_ok]. rewrite Hschema. cbn [negb topicSubscribers set_sessions set_subscribers topics set_topics].
    rewrite map_get_set_eq. cbn [pending]. rewrite lookup_app_r, Nat.sub_diag by done. cbn [lookup list_lookup].
    unfold resume_sub. cbn [fst gw set_gw topicSubscribers set_subscribers sessions set_sessions]. rewrite map_get_set_eq.
    cbn [default from_option]. rewrite !map_set_set. done. }
  assert (Hnot : t ∉ set_del t (set_add t (topics ses))).
  { unfold set_del. rewrite list_elem_of_filter. tauto. }
  rewrite Hs'. cbn [topicSubscribers set_subscribers sessions set_sessions]. split_and!.
  - apply map_get_set_eq.
  - intros ses'. rewrite map_get_set_eq. by intros [= <-].
  - cbn [Gateway.step fst gw set_gw]. rewrite Hs'. unfold on_close. cbn [sessions set_subscribers set_sessions topicSubscribers].
    rewrite map_get_set_eq. cbn [topicSubscribers set_bwLimiter set_sessions set_subscribers topics set_topics].
    assert (Hl : forall ts m, t ∉ ts -> map_get t (leave_all ws ts m) = map_get t m).
    { clear. induction ts as [|t' ts IH]; intros m Hn; [done|]. cbn [leave_all]. rewrite not_elem_of_cons in Hn. destruct Hn.
      rewrite IH by done. destruct (map_get t' m); [by rewrite map_get_set_ne|done]. }
    rewrite Hl by done. apply map_get_set_eq.
Qed.
End safety.

(** ** Witnesses *)

Definition alice : string := "11111111111111111111111111111111".
Definition bob : string := "22222222222222222222222222222222".

(** Base58 decodes an address to 32 bytes and the text "sig" to 64; that signature
    verifies. *)
Definition demo_ed : ed25519 :=
  {| getPublicKey := fun k => k;
     signBytes := fun _ _ => repeat 7%Z 64;
     verifyBytes := fun s _ _ => Ok (bool_decide (s = repeat 7%Z 64));
     bs58_encode := fun b => if (length b =? 64)%nat then "sig" else alice;
     bs58_decode := fun s => Ok (if String.eqb s "sig" then repeat 7%Z 64 else repeat 1%Z 32) |}.

(** A token is the address it names. *)
Definition demo_jwt (token : string) (secret : bytes) (issuer : string) : result jwt_claims :=
  Ok {| sub := Some token; iat := Some 0%Z; exp := Some 1000%Z |}.

Definition default_window : FreshnessOptions := {| maxAgeMs := None; maxSkewMs := None |}.

Definition default_pool : AnchorWorkerPool := start (new_pool default_options).

(** Alice asks Bob to confirm a task, in an envelope she addressed to the task's topic. *)
Definition direct_envelope : Envelope :=
  {| id := "01HZX3V4Q8TR0000000000ABCD";
     topic := "task.00000000000000000000000000000000000000000000000000000000000000ff.events";
     from_agent := alice; to_agent := Some bob; msg_type := Some TaskAccept;
     payload_cid := "bafy"; payload_digest := "00000000000000000000000000000000000000000000000000000000000000aa";
     signature := "sig"; ts := 1000 |}.

Definition system_envelope : Envelope :=
  {| id := "01HZX3V4Q8TR0000000000ABCE"; topic := "system.upgrade";
     from_agent := alice; to_agent := None; msg_type := None;
     payload_cid := "bafy"; payload_digest := "00000000000000000000000000000000000000000000000000000000000000aa";
     signature := "sig"; ts := 1000 |}.

Definition demo_step := step demo_ed demo_jwt [] default_window.
Definition demo_run := run demo_ed demo_jwt [] default_window.

(** Alice and Bob connect, Bob subscribes to his inbox, Alice publishes. *)
Definition demo_events : list event :=
  [E_connect (Some alice) 1000; E_connect (Some bob) 1000;
   E_message 2 (Some (C_sub (inbox bob))) 90 1000; E_resume 0 1000 RpcError true;
   E_message 1 (Some (C_publish direct_envelope)) 600 1001; E_resume 0 1002 RpcError true]%Z.

Definition demo_reached := reached demo_ed demo_jwt [] default_window tiny_limiter
  {| bucket := {| capacity := 262144; refillPerMs := 64 |}; states := []; idleMs := 60000; maxKeys := 10 |}
  None (Some default_pool) None demo_events.

Lemma inbox_private_witness :
  (step demo_ed demo_jwt [] default_window demo_reached (E_dispatch 0 "1-0" 1003)).2 =
    [Sent 2 (S_msg (inbox bob) (with_topic direct_envelope (inbox bob)) "1-0")] /\
  agent_of (gw demo_reached) 2 = Some bob.
Proof.
  split; [vm_compute; reflexivity|].
  refine (proj2 (proj2 (inbox_private demo_ed demo_jwt [] default_window _ _ _ _ _ demo_events
    (E_dispatch 0 "1-0" 1003) 2 (inbox bob) (with_topic direct_envelope (inbox bob)) "1-0" _) TaskAccept bob _ _ _ _)).
  - vm_compute. left.
  - vm_compute. intros H. inversion H.
  - reflexivity.
  - reflexivity.
  - reflexivity.
Defined.

Lemma bus_entries_signed_witness :
  exists env, se_envelope {| se_topic := inbox bob; se_envelope := with_topic direct_envelope (inbox bob) |} =
    with_topic env (inbox bob) /\ session_opened demo_ed demo_jwt [] demo_events (from_agent env).
Proof.
  destruct (bus_entries_signed demo_ed demo_jwt [] default_window tiny_limiter
    {| bucket := {| capacity := 262144; refillPerMs := 64 |}; states := []; idleMs := 60000; maxKeys := 10 |}
    None (Some default_pool) None demo_events
    {| se_topic := inbox bob; se_envelope := with_topic direct_envelope (inbox bob) |})
    as [_ [(t & now & r & ok & H & _)|(env & _ & H1 & _ & _ & H2)]].
  - vm_compute. left.
  - exfalso. unfold demo_events in H. repeat (apply elem_of_cons in H as [H|H]; [discriminate H|]). by apply elem_of_nil in H.
  - exists env. split; [exact H2|exact H1].
Defined.

Lemma typed_messages_never_anchored_witness :
  anchor (resume_publish demo_ed (gw demo_reached) 1 direct_envelope 1002 RpcError true).1 = Some default_pool.
Proof.
  apply (typed_messages_never_anchored demo_ed (gw demo_reached) default_pool 1 direct_envelope TaskAccept);
    [vm_compute; reflexivity | reflexivity | reflexivity].
Defined.

Lemma untyped_publish_unrestricted_witness :
  stream (resume_publish demo_ed (resume_publish demo_ed (gw demo_reached) 1 system_envelope 1002 RpcError true).1
            1 system_envelope 1003 RpcError true).1 =
  stream (gw demo_reached) ++ [{| se_topic := "system.upgrade"; se_envelope := system_envelope |};
                               {| se_topic := "system.upgrade"; se_envelope := system_envelope |}].
Proof.
  apply (untyped_publish_unrestricted demo_ed (gw demo_reached) 1 system_envelope 1002 1003 RpcError RpcError);
    [reflexivity | vm_compute; reflexivity | vm_compute; reflexivity].
Defined.

Lemma unsubscribe_lost_witness :
  map_get "system.upgrade" (topicSubscribers (gw (run demo_ed demo_jwt [] default_window demo_reached
    [E_message 1 (Some (C_sub "system.upgrade")) 50 1000; E_message 1 (Some (C_unsub "system.upgrade")) 50 1000;
     E_resume 0 1000 RpcError true]%Z).1)) = Some [1%nat].
Proof.
  apply (unsubscribe_lost demo_ed demo_jwt [] default_window demo_reached 1 "system.upgrade" 50 50 1000 1000 RpcError);
    vm_compute; reflexivity.
Defined.
