(* ===== verification/Merkle.v ===== *)
(** * Merkle: the distribution and governance trees

    Models packages/sdk/src/merkle/index.ts.  SHA-256 ([@noble/hashes]) is a
    parameter; its only assumed property is that a digest has 32 bytes.  Security is
    stated without an injectivity assumption: what would break it is a collision,
    which the theorem hands back. *)

From Stdlib Require Import ZArith Lia.
From stdpp Require Import base sets list strings.
From S2P Require Import Prelude Attestation.

(** ** Bytes *)

(** [b[i]] past the end is [undefined], and no comparison with it holds. *)
Fixpoint compare (a b : bytes) : comparison :=
  match a, b with
  | [], _ => Eq
  | _ :: _, [] => Eq
  | x :: a', y :: b' => if (x <? y)%Z then Lt else if (y <? x)%Z then Gt else compare a' b'
  end.

(** [setBigUint64] writes the value modulo 2^64. *)
Fixpoint le_bytes (n : nat) (v : Z) : bytes :=
  match n with
  | O => []
  | S n' => (v mod 256)%Z :: le_bytes n' (v / 256)
  end.

Definition u64Le (v : Z) : bytes := le_bytes 8 v.
Definition u128Le (v : Z) : bytes := le_bytes 8 (Z.land v (Z.ones 64)) ++ le_bytes 8 (Z.shiftr v 64).

Section merkle.
Variable sha256 : bytes -> bytes.

Definition hash (a b : bytes) : bytes :=
  match compare a b with
  | Gt => sha256 (b ++ a)
  | _ => sha256 (a ++ b)
  end.

(** ** The tree *)

Record MerkleTree := { layers : list (list bytes) }.

(** One round of the constructor's loop. *)
Fixpoint next_layer (layer : list bytes) : list bytes :=
  match layer with
  | a :: b :: rest => hash a b :: next_layer rest
  | _ => layer
  end.

(** The layers from [layer] up; each round at least halves the layer, so
    [length layer] rounds are enough. *)
Fixpoint grow (fuel : nat) (layer : list bytes) : list (list bytes) :=
  match fuel with
  | O => [layer]
  | S fuel' => if (1 <? length layer)%nat then layer :: grow fuel' (next_layer layer) else [layer]
  end.

Definition new_MerkleTree (leaves : list bytes) : MerkleTree :=
  match leaves with
  | [] => {| layers := [[repeat 0%Z 32]] |}
  | _ => {| layers := grow (length leaves) leaves |}
  end.

Definition merkle_root (t : MerkleTree) : option bytes := last (layers t) ≫= head.

(** The loop of [getProof], over all layers but the last. *)
Fixpoint proof_from (ls : list (list bytes)) (idx : nat) : list bytes :=
  match ls with
  | [] | [_] => []
  | layer :: rest =>
    let sibling := if Nat.even idx then S idx else pred idx in
    match layer !! sibling with
    | Some x => x :: proof_from rest (Nat.div2 idx)
    | None => proof_from rest (Nat.div2 idx)
    end
  end.

Definition getProof (t : MerkleTree) (index : nat) : list bytes := proof_from (layers t) index.

Definition merkle_verify (root leaf : bytes) (proof : list bytes) : bool :=
  match compare (fold_left hash proof leaf) root with
  | Eq => true
  | _ => false
  end.

(** A public key's 32 bytes, and the two kinds of leaf. *)
Definition governanceLeaf (voter : bytes) (weight : Z) : bytes := sha256 (voter ++ u128Le weight).
Definition feeClaimLeaf (staker : bytes) (amount epochId : Z) : bytes := sha256 (staker ++ u64Le amount ++ u64Le epochId).

(** ** Comparison and hashing of equal lengths *)

Lemma compare_refl a : compare a a = Eq.
Proof. induction a as [|x a IH]; simpl; [done|]. by rewrite Z.ltb_irrefl. Qed.

Lemma compare_eq a b : length a = length b -> compare a b = Eq -> a = b.
Proof.
  revert b. induction a as [|x a IH]; intros [|y b]; simpl; try done. intros [= Hl].
  destruct (Z.ltb_spec x y); [done|]. destruct (Z.ltb_spec y x); [done|]. intros He.
  f_equal; [lia|auto].
Qed.

Lemma compare_sym a b : length a = length b -> compare b a = CompOpp (compare a b).
Proof.
  revert b. induction a as [|x a IH]; intros [|y b]; simpl; try done. intros [= Hl].
  destruct (Z.ltb_spec x y), (Z.ltb_spec y x); try done; try lia. auto.
Qed.

Lemma hash_comm a b : length a = length b -> hash a b = hash b a.
Proof.
  intros Hl. unfold hash. rewrite (compare_sym a b) by done.
  destruct (compare a b) eqn:E; simpl; [|done|done]. by rewrite (compare_eq a b).
Qed.

(** The bytes a node hashes. *)
Definition node_bytes (a b : bytes) : bytes := match compare a b with Gt => b ++ a | _ => a ++ b end.

Lemma hash_node_bytes a b : hash a b = sha256 (node_bytes a b).
Proof. unfold hash, node_bytes. by destruct (compare a b). Qed.

Lemma node_bytes_length a b : length (node_bytes a b) = (length a + length b)%nat.
Proof. unfold node_bytes. destruct (compare a b); rewrite length_app; lia. Qed.

Lemma node_bytes_inj n a b c d : length a = n -> length b = n -> length c = n -> length d = n ->
  node_bytes a b = node_bytes c d -> (c = a \/ c = b).
Proof.
  intros Ha Hb Hc Hd. unfold node_bytes.
  destruct (compare a b), (compare c d); intros H; apply app_inj_1 in H as [-> ->]; auto; congruence.
Qed.

(** ** Little-endian integers *)

Lemma le_bytes_length n v : length (le_bytes n v) = n.
Proof. revert v. induction n; intros v; simpl; [done|]. by rewrite IHn. Qed.

Lemma le_bytes_inj n v w : (0 <= v < 256 ^ Z.of_nat n)%Z -> (0 <= w < 256 ^ Z.of_nat n)%Z ->
  le_bytes n v = le_bytes n w -> v = w.
Proof.
  revert v w. induction n as [|n IH]; intros v w Hv Hw; [simpl in *; lia|].
  rewrite Nat2Z.inj_succ, Z.pow_succ_r in Hv, Hw by lia. cbn [le_bytes]. intros [= Hm Hd].
  apply IH in Hd; [|split; [apply Z.div_pos; lia | apply Z.div_lt_upper_bound; lia]..].
  rewrite (Z.div_mod v 256), (Z.div_mod w 256) by lia. congruence.
Qed.

Lemma u64Le_inj v w : (0 <= v < 2 ^ 64)%Z -> (0 <= w < 2 ^ 64)%Z -> u64Le v = u64Le w -> v = w.
Proof. apply (le_bytes_inj 8). Qed.

Lemma u128Le_inj v w : (0 <= v < 2 ^ 128)%Z -> (0 <= w < 2 ^ 128)%Z -> u128Le v = u128Le w -> v = w.
Proof.
  intros Hv Hw H. unfold u128Le in H. apply app_inj_1 in H as [Hlo Hhi]; [|by rewrite !le_bytes_length].
  rewrite !Z.land_ones in Hlo by lia. rewrite !Z.shiftr_div_pow2 in Hhi by lia.
  apply (le_bytes_inj 8) in Hlo; [|apply (Z.mod_pos_bound _ (2 ^ 64)); lia..].
  assert (Hb : forall x, (0 <= x < 2 ^ 128)%Z -> (0 <= x / 2 ^ 64 < 2 ^ 64)%Z).
  { intros x Hx. split; [apply Z.div_pos; lia | apply Z.div_lt_upper_bound; lia]. }
  apply (le_bytes_inj 8) in Hhi; [|by apply Hb..].
  rewrite (Z.div_mod v (2 ^ 64)), (Z.div_mod w (2 ^ 64)) by lia. congruence.
Qed.

(** ** The tree's shape *)

Section sized.
Hypothesis sha256_length : forall b, length (sha256 b) = 32%nat.

Definition sized (l : list bytes) : Prop := Forall (fun b => length b = 32%nat) l.

Lemma hash_length a b : length (hash a b) = 32%nat.
Proof. rewrite hash_node_bytes. apply sha256_length. Qed.

(** Induction over a layer two nodes at a time. *)
Lemma pair_ind (P : list bytes -> Prop) :
  P [] -> (forall a, P [a]) -> (forall a b l, P l -> P (a :: b :: l)) -> forall l, P l.
Proof.
  intros H0 H1 H2. refine (fix go l := _). destruct l as [|a [|b l]]; [exact H0|apply H1|apply H2, go].
Qed.

Lemma next_layer_sized l : sized l -> sized (next_layer l).
Proof.
  unfold sized. induction l as [|a|a b l IH] using pair_ind; [done..|]. cbn [next_layer].
  rewrite !Forall_cons. intros (_ & _ & H). split; [apply hash_length|auto].
Qed.

Lemma next_layer_length l : length (next_layer l) = Nat.div2 (S (length l)).
Proof. induction l as [|a|a b l IH] using pair_ind; [done..|]. cbn [next_layer length]. by rewrite IH. Qed.

(** The parent of node [i], and what hashing [i] with its sibling gives. *)
Lemma next_layer_lookup l i x : sized l -> l !! i = Some x ->
  next_layer l !! Nat.div2 i =
    Some (match l !! (if Nat.even i then S i else pred i) with Some y => hash x y | None => x end).
Proof.
  unfold sized. revert i x. induction l as [|a|a b l IH] using pair_ind; intros i x; [done| |].
  - destruct i as [|i]; [|done]. by intros _ [= ->].
  - rewrite !Forall_cons. intros (Ha & Hb & Hs). destruct i as [|[|i]].
    + by intros [= ->].
    + intros [= ->]. cbn. by rewrite hash_comm by congruence.
    + change (next_layer (a :: b :: l)) with (hash a b :: next_layer l). cbn [lookup list_lookup Nat.div2].
      intros Hi.
      etransitivity; [exact (IH i x Hs Hi)|]. cbn [Nat.even]. destruct (Nat.even i) eqn:E; [done|].
      by destruct i as [|i].
Qed.

Lemma grow_single fuel l : (length l <= 1)%nat -> grow fuel l = [l].
Proof. intros H. destruct fuel; cbn [grow]; [done|]. destruct (Nat.ltb_spec 1 (length l)); [lia|done]. Qed.

Lemma grow_cons fuel l : exists rest, grow fuel l = l :: rest.
Proof. destruct fuel; cbn [grow]; [by eexists|]. destruct (1 <? length l)%nat; by eexists. Qed.

(** With enough fuel the last layer is a single node. *)
Lemma grow_last fuel l : (length l <= fuel)%nat -> l <> [] -> exists r, last (grow fuel l) = Some [r].
Proof.
  revert l. induction fuel as [|fuel IH]; intros l Hl Hne; [by destruct l; simpl in Hl; [|lia]|].
  cbn [grow]. destruct (Nat.ltb_spec 1 (length l)) as [H1|H1].
  - destruct (IH (next_layer l)) as [r Hr].
    + rewrite next_layer_length. pose proof (Nat.div2_div (S (length l))). rewrite Nat.div2_div.
      apply Nat.lt_succ_r. apply Nat.Div0.div_lt_upper_bound. lia.
    + intros E. apply (f_equal length) in E. rewrite next_layer_length in E. destruct l as [|a [|b l]]; done.
    + destruct (grow_cons fuel (next_layer l)) as [rest E]. rewrite E in *. exists r. exact Hr.
  - destruct l as [|a [|b l]]; [done|by exists a|simpl in H1; lia].
Qed.

(** Folding a proof of node [i] from any layer leads to the root. *)
Lemma grow_proof fuel l i x r : sized l -> (length l <= fuel)%nat -> l !! i = Some x ->
  last (grow fuel l) = Some [r] -> fold_left hash (proof_from (grow fuel l) i) x = r.
Proof.
  revert l i x. induction fuel as [|fuel IH]; intros l i x Hs Hl Hi Hr.
  { destruct l; [done|simpl in Hl; lia]. }
  cbn [grow] in *. destruct (Nat.ltb_spec 1 (length l)) as [H1|H1]; cycle 1.
  { cbn [proof_from fold_left]. cbn in Hr. injection Hr as ->. destruct i; [by injection Hi|done]. }
  destruct (grow_cons fuel (next_layer l)) as [rest E].
  pose proof (next_layer_lookup l i x Hs Hi) as Hn.
  assert (Hl' : (length (next_layer l) <= fuel)%nat).
  { rewrite next_layer_length, Nat.div2_div. apply Nat.lt_succ_r. apply Nat.Div0.div_lt_upper_bound. lia. }
  assert (Hr' : last (grow fuel (next_layer l)) = Some [r]) by (rewrite E in *; exact Hr).
  specialize (IH (next_layer l) (Nat.div2 i) _ (next_layer_sized l Hs) Hl' Hn Hr').
  rewrite E in *. cbn [proof_from].
  destruct (l !! (if Nat.even i then S i else pred i)) as [y|] eqn:Ey; exact IH.
Qed.

Lemma tree_root leaves : leaves <> [] ->
  exists r, merkle_root (new_MerkleTree leaves) = Some r /\ last (grow (length leaves) leaves) = Some [r].
Proof.
  intros Hne. destruct (grow_last (length leaves) leaves (Nat.le_refl _) Hne) as [r Hr].
  exists r. split; [|done]. unfold merkle_root, new_MerkleTree. destruct leaves; [done|]. cbn [layers]. by rewrite Hr.
Qed.

(** ** Soundness *)

(** The values a tree over [leaves] can contain. *)
Inductive in_tree (leaves : list bytes) : bytes -> Prop :=
| it_leaf x : x ∈ leaves -> in_tree leaves x
| it_node a b : in_tree leaves a -> in_tree leaves b -> length a = 32%nat -> length b = 32%nat ->
    in_tree leaves (hash a b).

Definition collision : Prop := exists s1 s2, s1 <> s2 /\ sha256 s1 = sha256 s2.

Lemma next_layer_in leaves l : sized l -> Forall (in_tree leaves) l -> Forall (in_tree leaves) (next_layer l).
Proof.
  unfold sized. induction l as [|a|a b l IH] using pair_ind; [done..|]. cbn [next_layer].
  rewrite !Forall_cons. intros (Ha & Hb & Hs) (Ia & Ib & Hi). split; [by constructor|auto].
Qed.

Lemma grow_in leaves fuel l : sized l -> Forall (in_tree leaves) l -> Forall (Forall (in_tree leaves)) (grow fuel l).
Proof.
  revert l. induction fuel as [|fuel IH]; intros l Hs Hi; cbn [grow]; [by constructor|].
  destruct (1 <? length l)%nat; [|by constructor].
  constructor; [done|]. apply IH; [by apply next_layer_sized | by apply next_layer_in].
Qed.

Lemma root_in_tree leaves r : sized leaves -> leaves <> [] ->
  merkle_root (new_MerkleTree leaves) = Some r -> in_tree leaves r.
Proof.
  intros Hs Hne Hr. destruct (tree_root leaves Hne) as (r' & Hr' & Hl). rewrite Hr in Hr'. injection Hr' as <-.
  assert (H : Forall (Forall (in_tree leaves)) (grow (length leaves) leaves)).
  { apply grow_in; [done|]. apply Forall_forall. intros x Hx. by constructor. }
  apply last_Some in Hl as [l' Hl]. rewrite Hl in H. apply Forall_app in H as [_ H].
  apply Forall_cons in H as [H _]. by apply Forall_cons in H as [H _].
Qed.

(** Leaves are digests of [n]-byte strings with [n <> 64]; going down the tree from
    a hash, either the path stays in the tree or a collision turns up. *)
Section descend.
Variables (pre : list bytes) (n : nat).
Hypothesis pre_length : Forall (fun p => length p = n) pre.
Hypothesis n_not_64 : n <> 64%nat.

Lemma in_tree_hash c y : length c = 32%nat -> length y = 32%nat ->
  in_tree (map sha256 pre) (hash c y) -> in_tree (map sha256 pre) c \/ collision.
Proof.
  intros Hc Hy H. remember (hash c y) as h eqn:E. destruct H as [x Hx|a b Ha Hb La Lb].
  - apply list_elem_of_fmap in Hx as (p & -> & Hp). right. rewrite hash_node_bytes in E.
    exists p, (node_bytes c y). split; [|done]. intros ->. rewrite Forall_forall in pre_length.
    specialize (pre_length _ Hp). rewrite node_bytes_length in pre_length. lia.
  - rewrite !hash_node_bytes in E. destruct (decide (node_bytes a b = node_bytes c y)) as [En|Hne].
    + left. by destruct (node_bytes_inj 32 a b c y La Lb Hc Hy En) as [->| ->].
    + right. by exists (node_bytes a b), (node_bytes c y).
Qed.

Lemma in_tree_digest q : length q = n -> in_tree (map sha256 pre) (sha256 q) -> q ∈ pre \/ collision.
Proof.
  intros Hq H. remember (sha256 q) as h eqn:E. destruct H as [x Hx|a b Ha Hb La Lb].
  - apply list_elem_of_fmap in Hx as (p & -> & Hp).
    destruct (decide (p = q)) as [->|Hne]; [by left|]. right. by exists p, q.
  - right. rewrite hash_node_bytes in E. exists (node_bytes a b), q. split; [|done].
    intros En. apply (f_equal length) in En. rewrite node_bytes_length in En. lia.
Qed.

Lemma descend proof c : length c = 32%nat -> sized proof ->
  in_tree (map sha256 pre) (fold_left hash proof c) -> in_tree (map sha256 pre) c \/ collision.
Proof.
  unfold sized. revert c. induction proof as [|y proof IH]; intros c Hc Hp; [by left|].
  apply Forall_cons in Hp as [Hy Hp]. cbn [fold_left]. intros H.
  destruct (IH (hash c y) (hash_length c y) Hp H) as [Hi|]; [|by right]. by apply (in_tree_hash c y).
Qed.
End descend.

(** ** Properties *)

(** Every proof the tree hands out verifies: for any non-empty list of 32-byte
    leaves and any index in range, [verify] accepts the leaf with [getProof]'s
    answer against the tree's root, whatever the shape (odd layers promote their
    last node). *)
Theorem merkle_proofs_verify (leaves : list bytes) (i : nat) (leaf : bytes)
    (Hs : sized leaves) (Hi : leaves !! i = Some leaf) :
  exists r, merkle_root (new_MerkleTree leaves) = Some r /\
    merkle_verify r leaf (getProof (new_MerkleTree leaves) i) = true.
Proof.
  assert (Hne : leaves <> []) by (by intros ->).
  destruct (tree_root leaves Hne) as (r & Hr & Hl). exists r. split; [done|].
  assert (Hp : getProof (new_MerkleTree leaves) i = proof_from (grow (length leaves) leaves) i)
    by (unfold getProof, new_MerkleTree; by destruct leaves).
  unfold merkle_verify. rewrite Hp, (grow_proof (length leaves) leaves i leaf r) by done.
  by rewrite compare_refl.
Qed.

Lemma fold_hash_length proof c : length c = 32%nat -> length (fold_left hash proof c) = 32%nat.
Proof. revert c. induction proof; intros c Hc; [done|]. apply IHproof, hash_length. Qed.

Lemma verify_in_pre (pre : list bytes) (n : nat) (q r : bytes) (proof : list bytes) :
  Forall (fun p => length p = n) pre -> n <> 64%nat -> length q = n -> pre <> [] ->
  merkle_root (new_MerkleTree (map sha256 pre)) = Some r -> sized proof ->
  merkle_verify r (sha256 q) proof = true -> q ∈ pre \/ collision.
Proof.
  intros Hpre Hn Hq Hne Hr Hp Hv.
  assert (Hs : sized (map sha256 pre)) by (apply Forall_map, Forall_true; intros; apply sha256_length).
  assert (Hne' : map sha256 pre <> []) by (by destruct pre).
  pose proof (root_in_tree _ _ Hs Hne' Hr) as Hin.
  assert (Hlr : length r = 32%nat).
  { clear -Hin Hs sha256_length. destruct Hin as [x Hx|]; [|apply hash_length]. unfold sized in Hs.
    rewrite Forall_forall in Hs. by apply Hs. }
  assert (Heq : fold_left hash proof (sha256 q) = r).
  { unfold merkle_verify in Hv. apply compare_eq; [|by destruct (compare _ r)].
    rewrite Hlr. by apply fold_hash_length. }
  rewrite <- Heq in Hin.
  destruct (descend pre n Hpre Hn proof (sha256 q) (sha256_length q) Hp Hin) as [Hi|]; [|by right].
  by apply (in_tree_digest pre n Hn q Hq).
Qed.

(** Nothing else verifies: if the leaf of [q] is accepted against the root of a
    tree built from the leaves of [pre], with any proof of 32-byte nodes, then [q]
    is in [pre], or the run exhibits two different strings with the same SHA-256
    digest.  Leaf preimages have one length other than 64, which is what keeps an
    inner node from passing as a leaf. *)
Theorem merkle_verify_sound (pre : list bytes) (n : nat) (q r : bytes) (proof : list bytes)
    (Hpre : Forall (fun p => length p = n) pre) (Hn : n <> 64%nat) (Hq : length q = n) (Hne : pre <> [])
    (Hr : merkle_root (new_MerkleTree (map sha256 pre)) = Some r) (Hproof : sized proof)
    (Hv : merkle_verify r (sha256 q) proof = true) :
  q ∈ pre \/ exists s1 s2, s1 <> s2 /\ sha256 s1 = sha256 s2.
Proof. by apply (verify_in_pre pre n q r proof). Qed.
End sized.

(** [verify] compares over the length of the computed digest only: an empty root
    accepts every leaf with every proof, and so does any root that is a proper
    prefix of the digest. *)
Theorem empty_root_accepts_everything (leaf extra root : bytes) (proof : list bytes) :
  merkle_verify [] leaf proof = true /\ (fold_left hash proof leaf = root ++ extra -> merkle_verify root leaf proof = true).
Proof.
  unfold merkle_verify. split; [by destruct (fold_left hash proof leaf)|]. intros ->.
  assert (H : compare (root ++ extra) root = Eq).
  { clear. induction root as [|x root IH]; [by destruct extra|]. simpl. by rewrite Z.ltb_irrefl. }
  by rewrite H.
Qed.

(** A governance weight below 2^64 hashes to the same leaf as a claim of epoch 0:
    the two kinds of leaf are told apart by the tree they are in, not by their bytes. *)
Lemma governance_leaf_is_epoch0_claim voter w : (0 <= w < 2 ^ 64)%Z ->
  governanceLeaf voter w = feeClaimLeaf voter w 0.
Proof.
  intros Hw. unfold governanceLeaf, feeClaimLeaf, u128Le, u64Le.
  rewrite Z.land_ones, Z.mod_small, Z.shiftr_div_pow2, Z.div_small by lia. done.
Qed.
End merkle.

(** ** Witnesses *)

(** A 32-byte checksum stands in for SHA-256 (it has collisions, as it must). *)
Definition toy_sha (b : bytes) : bytes :=
  repeat (fold_left (fun acc x => (acc * 31 + x + 7) mod 251)%Z b 1%Z) 31 ++ [Z.of_nat (length b)].

Lemma toy_sha_length b : length (toy_sha b) = 32%nat.
Proof. unfold toy_sha. by rewrite length_app, repeat_length. Qed.

Definition toy_key (k : Z) : bytes := repeat k 32.

Definition three_pre : list bytes := [toy_key 1 ++ u128Le 10; toy_key 2 ++ u128Le 20; toy_key 3 ++ u128Le 30].

Lemma merkle_proofs_verify_witness :
  exists r, merkle_root (new_MerkleTree toy_sha (map toy_sha three_pre)) = Some r /\
    merkle_verify toy_sha r (governanceLeaf toy_sha (toy_key 3) 30)
      (getProof (new_MerkleTree toy_sha (map toy_sha three_pre)) 2) = true.
Proof.
  apply (merkle_proofs_verify toy_sha toy_sha_length); [|reflexivity].
  repeat constructor.
Defined.

Lemma merkle_verify_sound_witness :
  (toy_key 2 ++ u128Le 20) ∈ three_pre \/ exists s1 s2, s1 <> s2 /\ toy_sha s1 = toy_sha s2.
Proof.
  eapply (merkle_verify_sound toy_sha toy_sha_length three_pre 48 (toy_key 2 ++ u128Le 20) _
            (getProof (new_MerkleTree toy_sha (map toy_sha three_pre)) 1)).
  - repeat constructor.
  - discriminate.
  - reflexivity.
  - discriminate.
  - vm_compute. reflexivity.
  - vm_compute. repeat constructor.
  - vm_compute. reflexivity.
Defined.
