(* ===== verification/FeeProgram.v ===== *)
(** * FeeProgram: the on-chain fee collector

    The state part of programs/fee_collector/src/instructions: the program the fee
    crank drives.  An instruction that fails leaves the chain unchanged, so each is a
    function into [option].  Token transfers, burns and harvests run inside the
    instruction; [cpi_ok] says whether they succeed.  Slots, bumps and events are left
    out.  Amounts are u64 and times i64, with the checked arithmetic of the code. *)

From Stdlib Require Import ZArith Lia.
From stdpp Require Import base gmap sets list strings.
From S2P Require Import Prelude Attestation Merkle.

Open Scope Z_scope.

Inductive EpochStatus := Open | Splitting | DistributionCommitted | Stale.

#[export] Instance EpochStatus_eq_dec : EqDecision EpochStatus.
Proof. solve_decision. Defined.

Definition U64_MAX : Z := 2 ^ 64 - 1.
Definition I64_MAX : Z := 2 ^ 63 - 1.
Definition BPS_DENOMINATOR : Z := 10000.
Definition MAX_MERKLE_PROOF_DEPTH : nat := 24.
Definition SWEEP_GRACE_SECS : Z := 7 * 86400.
Definition DISTRIBUTION_WINDOW_SECS : Z := 2 * 86400.

Record FeeCollectorConfig := {
  epoch_duration_secs : Z;
  next_epoch_id : Z;
  claim_window_secs : Z;
  min_epoch_total_for_burn : Z;
  burn_bps : Z;
  staker_share_bps : Z;
  grant_share_bps : Z;
  treasury_share_bps : Z;
  paused : bool;
  confidential_transfers_enabled : bool;
}.

Record EpochAccount := {
  ep_epoch_id : Z;
  ep_status : EpochStatus;
  started_at_ts : Z;
  closed_at_ts : option Z;
  snapshot_id : Z;
  total_collected : Z;
  burn_amount : Z;
  burn_executed : bool;
  staker_amount : Z;
  staker_distribution_root : bytes;
  staker_distribution_committed : bool;
  staker_claimed_total : Z;
  grant_amount : Z;
  treasury_amount : Z;
  stale_swept : bool;
}.

(** The accounts: the config, one epoch account per id, one claim account per epoch
    and staker. *)
Record chain := {
  config : FeeCollectorConfig;
  epochs : gmap Z EpochAccount;
  claims : gset (Z * bytes);
}.

Definition checked_add_u64 (a b : Z) : option Z := if (a + b <=? U64_MAX) then Some (a + b) else None.
Definition checked_add_i64 (a b : Z) : option Z := if (a + b <=? I64_MAX) then Some (a + b) else None.

(** [require!] *)
Definition guard_true {A} (b : bool) (k : option A) : option A := if b then k else None.

Definition set_epochs (c : chain) e := {| config := config c; epochs := e; claims := claims c |}.

Definition with_next_id (c : FeeCollectorConfig) (n : Z) : FeeCollectorConfig :=
  {| epoch_duration_secs := epoch_duration_secs c; next_epoch_id := n; claim_window_secs := claim_window_secs c;
     min_epoch_total_for_burn := min_epoch_total_for_burn c; burn_bps := burn_bps c;
     staker_share_bps := staker_share_bps c; grant_share_bps := grant_share_bps c;
     treasury_share_bps := treasury_share_bps c; paused := paused c;
     confidential_transfers_enabled := confidential_transfers_enabled c |}.

Definition fresh_epoch (eid now : Z) : EpochAccount :=
  {| ep_epoch_id := eid; ep_status := Open; started_at_ts := now; closed_at_ts := None; snapshot_id := 0;
     total_collected := 0; burn_amount := 0; burn_executed := false; staker_amount := 0;
     staker_distribution_root := repeat 0 32; staker_distribution_committed := false; staker_claimed_total := 0;
     grant_amount := 0; treasury_amount := 0; stale_swept := false |}.

(** [init_config]: epoch 0 is open. *)
Definition init_config (cfg : FeeCollectorConfig) (now : Z) : chain :=
  {| config := with_next_id cfg 1; epochs := {[ 0 := fresh_epoch 0 now ]}; claims := ∅ |}.

Definition compute_bps_split (total burn staker grant : Z) : Z * Z * Z * Z :=
  let b := total * burn / BPS_DENOMINATOR in
  let s := total * staker / BPS_DENOMINATOR in
  let g := total * grant / BPS_DENOMINATOR in
  (b, s, g, Z.max 0 (Z.max 0 (Z.max 0 (total - b) - s) - g)).

(** Epoch updates. *)
Definition close_epoch (e : EpochAccount) (now snap : Z) (split : Z * Z * Z * Z) : EpochAccount :=
  let '(b, s, g, t) := split in
  {| ep_epoch_id := ep_epoch_id e; ep_status := Splitting; started_at_ts := started_at_ts e; closed_at_ts := Some now;
     snapshot_id := snap; total_collected := total_collected e; burn_amount := b; burn_executed := burn_executed e;
     staker_amount := s; staker_distribution_root := staker_distribution_root e;
     staker_distribution_committed := staker_distribution_committed e; staker_claimed_total := staker_claimed_total e;
     grant_amount := g; treasury_amount := t; stale_swept := stale_swept e |}.

Definition with_status (e : EpochAccount) st : EpochAccount :=
  {| ep_epoch_id := ep_epoch_id e; ep_status := st; started_at_ts := started_at_ts e; closed_at_ts := closed_at_ts e;
     snapshot_id := snapshot_id e; total_collected := total_collected e; burn_amount := burn_amount e; burn_executed := burn_executed e;
     staker_amount := staker_amount e; staker_distribution_root := staker_distribution_root e;
     staker_distribution_committed := staker_distribution_committed e; staker_claimed_total := staker_claimed_total e;
     grant_amount := grant_amount e; treasury_amount := treasury_amount e; stale_swept := stale_swept e |}.

Definition with_total (e : EpochAccount) t : EpochAccount :=
  {| ep_epoch_id := ep_epoch_id e; ep_status := ep_status e; started_at_ts := started_at_ts e; closed_at_ts := closed_at_ts e;
     snapshot_id := snapshot_id e; total_collected := t; burn_amount := burn_amount e; burn_executed := burn_executed e;
     staker_amount := staker_amount e; staker_distribution_root := staker_distribution_root e;
     staker_distribution_committed := staker_distribution_committed e; staker_claimed_total := staker_claimed_total e;
     grant_amount := grant_amount e; treasury_amount := treasury_amount e; stale_swept := stale_swept e |}.

Definition with_burned (e : EpochAccount) : EpochAccount :=
  {| ep_epoch_id := ep_epoch_id e; ep_status := ep_status e; started_at_ts := started_at_ts e; closed_at_ts := closed_at_ts e;
     snapshot_id := snapshot_id e; total_collected := total_collected e; burn_amount := burn_amount e; burn_executed := true;
     staker_amount := staker_amount e; staker_distribution_root := staker_distribution_root e;
     staker_distribution_committed := staker_distribution_committed e; staker_claimed_total := staker_claimed_total e;
     grant_amount := grant_amount e; treasury_amount := treasury_amount e; stale_swept := stale_swept e |}.

Definition with_root (e : EpochAccount) root : EpochAccount :=
  {| ep_epoch_id := ep_epoch_id e; ep_status := DistributionCommitted; started_at_ts := started_at_ts e; closed_at_ts := closed_at_ts e;
     snapshot_id := snapshot_id e; total_collected := total_collected e; burn_amount := burn_amount e; burn_executed := burn_executed e;
     staker_amount := staker_amount e; staker_distribution_root := root;
     staker_distribution_committed := true; staker_claimed_total := staker_claimed_total e;
     grant_amount := grant_amount e; treasury_amount := treasury_amount e; stale_swept := stale_swept e |}.

Definition with_claimed (e : EpochAccount) t : EpochAccount :=
  {| ep_epoch_id := ep_epoch_id e; ep_status := ep_status e; started_at_ts := started_at_ts e; closed_at_ts := closed_at_ts e;
     snapshot_id := snapshot_id e; total_collected := total_collected e; burn_amount := burn_amount e; burn_executed := burn_executed e;
     staker_amount := staker_amount e; staker_distribution_root := staker_distribution_root e;
     staker_distribution_committed := staker_distribution_committed e; staker_claimed_total := t;
     grant_amount := grant_amount e; treasury_amount := treasury_amount e; stale_swept := stale_swept e |}.

Definition with_swept (e : EpochAccount) : EpochAccount :=
  {| ep_epoch_id := ep_epoch_id e; ep_status := Stale; started_at_ts := started_at_ts e; closed_at_ts := closed_at_ts e;
     snapshot_id := snapshot_id e; total_collected := total_collected e; burn_amount := burn_amount e; burn_executed := burn_executed e;
     staker_amount := staker_amount e; staker_distribution_root := staker_distribution_root e;
     staker_distribution_committed := staker_distribution_committed e; staker_claimed_total := staker_claimed_total e;
     grant_amount := grant_amount e; treasury_amount := treasury_amount e; stale_swept := true |}.

(** ** Instructions *)

(** The open epoch's address is derived from [next_epoch_id.saturating_sub(1)]. *)
Definition current_id (c : chain) : Z := Z.max 0 (next_epoch_id (config c) - 1).

Definition process_epoch (c : chain) (snap now : Z) (cpi_ok : bool) : option chain :=
  match epochs c !! current_id c with
  | None => None
  | Some e =>
    guard_true (negb (paused (config c))) (
    guard_true (bool_decide (ep_status e = Open)) (
    match checked_add_i64 (started_at_ts e) (epoch_duration_secs (config c)) with
    | None => None
    | Some epoch_end =>
      guard_true (epoch_end <=? now) (
      guard_true cpi_ok (
      let split := compute_bps_split (total_collected e) (burn_bps (config c)) (staker_share_bps (config c)) (grant_share_bps (config c)) in
      let n := next_epoch_id (config c) in
      match epochs c !! n, checked_add_u64 n 1 with
      | None, Some n' =>
        Some {| config := with_next_id (config c) n';
                epochs := <[ n := fresh_epoch n now ]> (<[ current_id c := close_epoch e now snap split ]> (epochs c));
                claims := claims c |}
      | _, _ => None
      end))
    end))
  end.

Definition execute_burn (c : chain) (eid : Z) (cpi_ok : bool) : option chain :=
  match epochs c !! eid with
  | None => None
  | Some e =>
    guard_true (bool_decide (ep_status e <> Open)) (
    guard_true (negb (burn_executed e)) (
    guard_true (min_epoch_total_for_burn (config c) <=? total_collected e) (
    guard_true cpi_ok (Some (set_epochs c (<[ eid := with_burned e ]> (epochs c)))))))
  end.

(** [authorized]: the committer is the authority or the meta authority. *)
Definition commit_distribution_root (c : chain) (authorized : bool) (eid : Z) (root : bytes) (now : Z) : option chain :=
  match epochs c !! eid with
  | None => None
  | Some e =>
    guard_true authorized (
    guard_true (bool_decide (ep_status e = Splitting)) (
    guard_true (negb (staker_distribution_committed e)) (
    match checked_add_i64 (default 0 (closed_at_ts e)) DISTRIBUTION_WINDOW_SECS with
    | None => None
    | Some deadline => guard_true (now <? deadline) (Some (set_epochs c (<[ eid := with_root e root ]> (epochs c))))
    end)))
  end.

Section claim.
Variable sha256 : bytes -> bytes.

(** Rust compares the 32-byte arrays in full. *)
Definition verify_merkle_proof (proof : list bytes) (root leaf : bytes) : bool :=
  bool_decide (fold_left (fun computed node =>
    match compare computed node with
    | Gt => sha256 (node ++ computed)
    | _ => sha256 (computed ++ node)
    end) proof leaf = root).

Definition compute_claim_leaf (staker : bytes) (amount eid : Z) : bytes :=
  sha256 (staker ++ le_bytes 8 amount ++ le_bytes 8 eid).

Definition claim_staker (c : chain) (eid : Z) (staker : bytes) (amount : Z) (proof : list bytes) (now : Z) (cpi_ok : bool) :
    option chain :=
  match epochs c !! eid with
  | None => None
  | Some e =>
    guard_true (bool_decide ((eid, staker) ∉ claims c)) (
    guard_true (length proof <=? MAX_MERKLE_PROOF_DEPTH)%nat (
    guard_true (bool_decide (ep_status e = DistributionCommitted)) (
    match checked_add_i64 (default 0 (closed_at_ts e)) (claim_window_secs (config c)) with
    | None => None
    | Some deadline =>
      guard_true (now <? deadline) (
      guard_true (verify_merkle_proof proof (staker_distribution_root e) (compute_claim_leaf staker amount eid)) (
      match checked_add_u64 (staker_claimed_total e) amount with
      | None => None
      | Some t =>
        guard_true (t <=? staker_amount e) (
        guard_true cpi_ok (
        Some {| config := config c; epochs := <[ eid := with_claimed e t ]> (epochs c);
                claims := {[ (eid, staker) ]} ∪ claims c |}))
      end))
    end)))
  end.
End claim.

Definition sweep_stale_epoch (c : chain) (eid now : Z) (cpi_ok : bool) : option chain :=
  match epochs c !! eid, epochs c !! (eid + 1) with
  | Some e, Some nxt =>
    guard_true (eid <? U64_MAX) (
    guard_true (bool_decide (ep_status e = Splitting \/ ep_status e = DistributionCommitted)) (
    guard_true (negb (stale_swept e)) (
    match checked_add_i64 (default 0 (closed_at_ts e)) (claim_window_secs (config c)) with
    | None => None
    | Some d =>
      match checked_add_i64 d SWEEP_GRACE_SECS with
      | None => None
      | Some deadline =>
        guard_true (deadline <=? now) (
        let residual_staker := Z.max 0 (staker_amount e - staker_claimed_total e) in
        let residual_burn := if burn_executed e then 0 else burn_amount e in
        match checked_add_u64 residual_staker residual_burn with
        | None => None
        | Some total =>
          match checked_add_u64 (total_collected nxt) total with
          | None => None
          | Some t => guard_true cpi_ok (Some (set_epochs c (<[ eid + 1 := with_total nxt t ]> (<[ eid := with_swept e ]> (epochs c)))))
          end
        end)
      end
    end)))
  | _, _ => None
  end.

(** [harvest_transfer_fees]: [collected] is what reached the intake vault. *)
Definition harvest_transfer_fees (c : chain) (sources : nat) (collected : Z) (cpi_ok : bool) : option chain :=
  match epochs c !! current_id c with
  | None => None
  | Some e =>
    guard_true (negb (paused (config c))) (
    guard_true (bool_decide (ep_status e = Open)) (
    guard_true ((1 <=? sources) && (sources <=? 10))%nat (
    guard_true cpi_ok (
    if 0 <? collected then
      match checked_add_u64 (total_collected e) collected with
      | None => None
      | Some t => Some (set_epochs c (<[ current_id c := with_total e t ]> (epochs c)))
      end
    else Some c))))
  end.

(** A registered program reports slashed or forfeited collateral. *)
Definition record_intake (c : chain) (authorized : bool) (eid amount : Z) : option chain :=
  match epochs c !! eid with
  | None => None
  | Some e =>
    guard_true authorized (
    guard_true (bool_decide (ep_status e = Open)) (
    match checked_add_u64 (total_collected e) amount with
    | None => None
    | Some t => Some (set_epochs c (<[ eid := with_total e t ]> (epochs c)))
    end))
  end.

(** Any change of parameters: nothing but [process_epoch] moves [next_epoch_id]. *)
Definition set_params (c : chain) (cfg : FeeCollectorConfig) : chain :=
  {| config := with_next_id cfg (next_epoch_id (config c)); epochs := epochs c; claims := claims c |}.

(** ** Reachable chains *)

(** One successful instruction, by anyone. *)
Inductive program_step (sha256 : bytes -> bytes) (c : chain) : chain -> Prop :=
| ps_process snap now ok c' : process_epoch c snap now ok = Some c' -> program_step sha256 c c'
| ps_burn eid ok c' : execute_burn c eid ok = Some c' -> program_step sha256 c c'
| ps_commit auth eid root now c' : commit_distribution_root c auth eid root now = Some c' -> program_step sha256 c c'
| ps_claim eid st amt proof now ok c' : claim_staker sha256 c eid st amt proof now ok = Some c' -> program_step sha256 c c'
| ps_sweep eid now ok c' : sweep_stale_epoch c eid now ok = Some c' -> program_step sha256 c c'
| ps_harvest n amt ok c' : harvest_transfer_fees c n amt ok = Some c' -> program_step sha256 c c'
| ps_intake auth eid amt c' : record_intake c auth eid amt = Some c' -> program_step sha256 c c'
| ps_params cfg : program_step sha256 c (set_params c cfg).

(** The current epoch, the one before [next_epoch_id], exists and is open. *)
Definition current_open (c : chain) : Prop :=
  1 <= next_epoch_id (config c) /\ exists e, epochs c !! (next_epoch_id (config c) - 1) = Some e /\ ep_status e = Open.

Lemma guard_true_some {A} b (k : option A) x : guard_true b k = Some x -> b = true /\ k = Some x.
Proof. by destruct b. Qed.

Lemma current_open_update c eid e e' : current_open c -> epochs c !! eid = Some e ->
  (ep_status e' = ep_status e \/ ep_status e <> Open) -> current_open (set_epochs c (<[ eid := e' ]> (epochs c))).
Proof.
  intros (Hn & cur & Hc & Ho) He Hs. split; [done|]. cbn [config epochs set_epochs].
  destruct (decide (eid = next_epoch_id (config c) - 1)) as [->|Hne].
  - rewrite lookup_insert_eq. exists e'. split; [done|]. rewrite Hc in He. injection He as ->.
    destruct Hs as [->|]; [done|]. congruence.
  - exists cur. rewrite lookup_insert_ne by done. done.
Qed.

(** Take apart a successful instruction: its guards hold and its lookups succeed. *)
Ltac accepted H :=
  repeat first
    [ apply guard_true_some in H as [? H]
    | match type of H with
      | (match ?x with Some _ => _ | None => _ end) = _ =>
        let E := fresh "E" in destruct x eqn:E; try discriminate H
      end ].

Lemma init_current_open cfg now : current_open (init_config cfg now).
Proof. split; [cbn; lia|]. exists (fresh_epoch 0 now). split; [|done]. apply lookup_singleton_eq. Qed.

Lemma step_current_open sha256 c c' : current_open c -> program_step sha256 c c' -> current_open c'.
Proof.
  intros Hcur Hstep.
  destruct Hstep as [snap now ok c' H|eid ok c' H|auth eid root now c' H|eid st amt proof now ok c' H|eid now ok c' H|n amt ok c' H|auth eid amt c' H|cfg].
  - pose proof Hcur as (Hn & _). unfold process_epoch in H. accepted H.
    injection H as <-. unfold checked_add_u64 in *.
    destruct (next_epoch_id (config c) + 1 <=? U64_MAX); [|done]. simplify_eq.
    split; cbn [config next_epoch_id with_next_id epochs]; [lia|].
    exists (fresh_epoch (next_epoch_id (config c)) now). split; [|done].
    replace (next_epoch_id (config c) + 1 - 1) with (next_epoch_id (config c)) by lia. apply lookup_insert_eq.
  - unfold execute_burn in H. accepted H. injection H as <-.
    eapply current_open_update; [done|done|]. right. by to_prop.
  - unfold commit_distribution_root in H. accepted H. injection H as <-.
    eapply current_open_update; [done|done|]. right. to_prop. congruence.
  - unfold claim_staker in H. accepted H. injection H as <-.
    apply (current_open_update c eid e); [done|done|by left].
  - unfold sweep_stale_epoch in H.
    destruct (epochs c !! eid) as [e|] eqn:Ee; [|done]. destruct (epochs c !! (eid + 1)) as [nxt|] eqn:En; [|done].
    accepted H. injection H as <-.
    assert (Hswept : current_open (set_epochs c (<[ eid := with_swept e ]> (epochs c)))).
    { apply (current_open_update c eid e); [done|done|]. right. intros Hx.
      match goal with Hs : bool_decide (_ \/ _) = true |- _ => apply bool_decide_eq_true in Hs as [Hs|Hs] end; congruence. }
    refine (current_open_update (set_epochs c (<[ eid := with_swept e ]> (epochs c))) (eid + 1) nxt (with_total nxt _) Hswept _ (or_introl eq_refl)).
    cbn [epochs set_epochs]. rewrite lookup_insert_ne by lia. done.
  - unfold harvest_transfer_fees in H. destruct (epochs c !! current_id c) as [e|] eqn:Ee; [|done].
    accepted H. destruct (0 <? amt); [|by injection H as <-]. accepted H. injection H as <-.
    apply (current_open_update c _ e); [done|done|by left].
  - unfold record_intake in H. accepted H. injection H as <-.
    eapply current_open_update; [done|done|by left].
  - destruct Hcur as (Hn & e & He & Ho). split; [done|]. by exists e.
Qed.
