(* ===== verification/FeeCrank.v ===== *)
(** * FeeCrank: the service that closes epochs and distributes fees

    Models services/fee-crank/src: snapshot.ts, worker.ts, db.ts and proof-api.ts.
    A transaction is an instruction of [FeeProgram] that the network may lose
    ([net]); stake accounts, the slot and the clock are read from the cluster and are
    arguments.  Base58 is that of [Attestation.ed25519]; a public key is its bytes.
    The Postgres table is the map from epoch ids to rows, in insertion order. *)

From Stdlib Require Import ZArith Lia.
From stdpp Require Import base gmap sets list strings.
From S2P Require Import Prelude JsMap Attestation Merkle FeeProgram.

Open Scope Z_scope.

(** ** snapshot.ts: shares *)

Record StakerEntry := { owner : bytes; votingPower : Z; amount : Z }.

(** A stake account as the staking program stores it. *)
Record StakeAccount := { sa_owner : bytes; sa_active : bool; sa_amount : Z; sa_votingPower : Z }.

Definition fetchActiveStakers (accounts : list StakeAccount) : list StakerEntry :=
  map (fun a => {| owner := sa_owner a; votingPower := sa_votingPower a; amount := sa_amount a |})
      (List.filter (fun a => sa_active a && (0 <? sa_amount a)) accounts).

Record FeeShare := { wallet : bytes; share : Z }.

Definition z_sum (l : list Z) : Z := fold_left Z.add l 0.

(** The index of the first largest share: the loop from [i] on, with the best so far. *)
Fixpoint max_index (i maxIdx : nat) (best : Z) (l : list FeeShare) : nat :=
  match l with
  | [] => maxIdx
  | s :: l' => if best <? share s then max_index (S i) i (share s) l' else max_index (S i) maxIdx best l'
  end.

Definition add_share (d : Z) (s : FeeShare) : FeeShare := {| wallet := wallet s; share := share s + d |}.

Definition computeFeeShares (stakers : list StakerEntry) (totalVotingPower stakerPoolAmount : Z) : list FeeShare :=
  if (totalVotingPower =? 0) || (length stakers =? 0)%nat then []
  else
    let shares := map (fun s => {| wallet := owner s; share := Z.quot (votingPower s * stakerPoolAmount) totalVotingPower |}) stakers in
    let distributed := z_sum (map share shares) in
    let dust := stakerPoolAmount - distributed in
    if (0 <? dust) && (0 <? length shares)%nat then
      let maxIdx := match shares with s :: l => max_index 1 0 (share s) l | [] => 0%nat end in
      alter (add_share dust) maxIdx shares
    else shares.

(** ** db.ts *)

Record StoredSnapshot := {
  st_epochId : Z;
  governanceRoot : bytes;
  feeRoot : bytes;
  totalVotingPower : Z;
  stakerCount : nat;
  snapshotSlot : Z;
  governanceLeaves : list (string * Z);
  feeLeaves : list (string * Z * Z);
}.

Definition database : Type := list (Z * StoredSnapshot).

(** INSERT ... ON CONFLICT (epoch_id) DO UPDATE *)
Definition saveSnapshot (db : database) (snap : StoredSnapshot) : database := map_set (st_epochId snap) snap db.

Definition loadSnapshot (db : database) (epochId : Z) : option StoredSnapshot := map_get epochId db.

(** The row with the largest key among those that pass [p]: ORDER BY ... DESC LIMIT 1. *)
Definition best_row (p : StoredSnapshot -> bool) (key : StoredSnapshot -> Z) (db : database) : option StoredSnapshot :=
  fold_left (fun acc r => if p r.2 then
                            match acc with
                            | Some b => if key b <? key r.2 then Some r.2 else acc
                            | None => Some r.2
                            end
                          else acc) db None.

Definition loadSnapshotBySlot (db : database) (slot : Z) : option StoredSnapshot :=
  best_row (fun s => snapshotSlot s <=? slot) snapshotSlot db.

Definition loadLatestSnapshot (db : database) : option StoredSnapshot := best_row (fun _ => true) st_epochId db.

Section crank.
Variable sha256 : bytes -> bytes.
Variable ed : ed25519.

(** ** snapshot.ts: the epoch snapshot *)

Inductive crank_tx :=
| Tx_harvest (sources : nat)
| Tx_harvest_confidential (sources : nat)
| Tx_process_epoch (epochId nextEpochId : Z)
| Tx_execute_burn (epochId : Z)
| Tx_snapshot_epoch (totalVotingPower : Z) (stakers : nat)
| Tx_commit_root (epochId : Z) (root : bytes) (leafCount : nat) (totalWeight : Z).

(** The outcome of [sendAndConfirm]: [None] throws.  What the staking program does
    with a snapshot is not part of this chain. *)
Record network := {
  delivers : crank_tx -> bool;
  harvested : Z;
  committer_authorized : bool;
  now_ts : Z;
}.

Definition sendAndConfirm (net : network) (c : chain) (tx : crank_tx) : option chain :=
  if delivers net tx then
    match tx with
    | Tx_harvest n => harvest_transfer_fees c n (harvested net) true
    | Tx_harvest_confidential _ => Some c
    | Tx_process_epoch e _ => if e =? current_id c then process_epoch c e (now_ts net) true else None
    | Tx_execute_burn e => execute_burn c e true
    | Tx_snapshot_epoch _ _ => Some c
    | Tx_commit_root e root _ _ => commit_distribution_root c (committer_authorized net) e root (now_ts net)
    end
  else None.

(** [try { await sendAndConfirm(tx) } catch { log }] *)
Definition try_send (net : network) (c : chain) (tx : crank_tx) : chain := default c (sendAndConfirm net c tx).

Definition tree_of (leaves : list bytes) : MerkleTree := new_MerkleTree sha256 leaves.

Definition root_of (t : MerkleTree) : bytes := default [] (merkle_root t).

Definition fee_leaf (epochId : Z) (s : FeeShare) : bytes := feeClaimLeaf sha256 (wallet s) (share s) epochId.

(** The row [processEpochSnapshot] saves. *)
Definition snapshot_row (stakers : list StakerEntry) (epochId pool slot : Z) : StoredSnapshot :=
  let total := z_sum (map votingPower stakers) in
  let shares := computeFeeShares stakers total pool in
  {| st_epochId := epochId;
     governanceRoot := root_of (tree_of (map (fun s => governanceLeaf sha256 (owner s) (votingPower s)) stakers));
     feeRoot := root_of (tree_of (map (fee_leaf epochId) shares));
     totalVotingPower := total;
     stakerCount := length stakers;
     snapshotSlot := slot;
     governanceLeaves := map (fun s => (bs58_encode ed (owner s), votingPower s)) stakers;
     feeLeaves := map (fun s => (bs58_encode ed (wallet s), share s, epochId)) shares |}.

(** The transactions sent, the chain and the table after it.  [db_ok]: the INSERT
    succeeds. *)
Definition processEpochSnapshot (net : network) (c : chain) (db : database) (accounts : list StakeAccount)
    (slot epochId pool : Z) (db_ok : bool) : list crank_tx * chain * result database :=
  let stakers := fetchActiveStakers accounts in
  if (length stakers =? 0)%nat then ([], c, Ok db)
  else
    let row := snapshot_row stakers epochId pool slot in
    let tx1 := Tx_snapshot_epoch (totalVotingPower row) (stakerCount row) in
    let c := try_send net c tx1 in
    let tx2 := Tx_commit_root epochId (feeRoot row) (length (feeLeaves row)) (totalVotingPower row) in
    let c := try_send net c tx2 in
    ([tx1; tx2], c, if db_ok then Ok (saveSnapshot db row) else Throw "insert failed").

(** ** worker.ts *)

Record EpochState := {
  es_epochId : Z;
  es_status : Z;
  es_totalCollected : Z;
  es_stakerAmount : Z;
  es_burnExecuted : bool;
  es_distributionCommitted : bool;
  es_startedAtTs : Z;
  es_closedAtTs : option Z;
}.

Definition EPOCH_STATUS_OPEN : Z := 0.
Definition EPOCH_STATUS_SPLITTING : Z := 1.

Definition statusMap (s : EpochStatus) : Z :=
  match s with
  | Open => 0
  | Splitting => 1
  | DistributionCommitted => 2
  | Stale => 3
  end.

(** [readable]: the RPC answers and the account decodes. *)
Definition fetchEpoch (c : chain) (epochId : Z) (readable : bool) : option EpochState :=
  if readable then
    match epochs c !! epochId with
    | None => None
    | Some raw =>
      Some {| es_epochId := ep_epoch_id raw; es_status := statusMap (ep_status raw); es_totalCollected := total_collected raw;
              es_stakerAmount := staker_amount raw; es_burnExecuted := burn_executed raw;
              es_distributionCommitted := staker_distribution_committed raw; es_startedAtTs := started_at_ts raw;
              es_closedAtTs := closed_at_ts raw |}
    end
  else None.

(** What one tick reads from the cluster besides the program's accounts. *)
Record tick_env := {
  net : network;
  config_readable : bool;
  epoch_readable : bool;
  holders : result (list bytes);
  stake_accounts : result (list StakeAccount);
  slot : Z;
  has_db : bool;
  insert_ok : bool;
  maxHarvestAccounts : nat;
}.

Definition findHolderAccounts (env : tick_env) : result (list bytes) :=
  match holders env with
  | Ok l => Ok (take (maxHarvestAccounts env) l)
  | Throw e => Throw e
  end.

Definition tryHarvest (env : tick_env) (c : chain) (ctEnabled : bool) : result (list crank_tx * chain) :=
  match findHolderAccounts env with
  | Throw e => Throw e
  | Ok hs =>
    if (length hs =? 0)%nat then Ok ([], c)
    else
      let tx1 := Tx_harvest (length hs) in
      let c := try_send (net env) c tx1 in
      if ctEnabled then
        let tx2 := Tx_harvest_confidential (length hs) in Ok ([tx1; tx2], try_send (net env) c tx2)
      else Ok ([tx1], c)
  end.

Definition tryProcessEpoch (env : tick_env) (c : chain) (epochId : Z) : list crank_tx * chain :=
  let tx := Tx_process_epoch epochId (epochId + 1) in ([tx], try_send (net env) c tx).

Definition tryExecuteBurn (env : tick_env) (c : chain) (epochId : Z) : list crank_tx * chain :=
  let tx := Tx_execute_burn epochId in ([tx], try_send (net env) c tx).

(** One tick: the transactions sent, the chain and the table after it.  A throw ends
    the tick; the worker logs it. *)
Definition runTick (env : tick_env) (c : chain) (db : database) : list crank_tx * chain * database :=
  if negb (config_readable env) then ([], c, db)
  else if paused (config c) then ([], c, db)
  else
    let nextId := next_epoch_id (config c) in
    let currentId := if 0 <? nextId then nextId - 1 else 0 in
    match fetchEpoch c currentId (epoch_readable env) with
    | None => ([], c, db)
    | Some epoch =>
      if es_status epoch =? EPOCH_STATUS_OPEN then
        match tryHarvest env c (confidential_transfers_enabled (config c)) with
        | Throw _ => ([], c, db)
        | Ok (txs, c') =>
          let epochEnd := es_startedAtTs epoch + epoch_duration_secs (config c) in
          if epochEnd <=? now_ts (net env) then
            let (txs', c'') := tryProcessEpoch env c' currentId in (txs ++ txs', c'', db)
          else (txs, c', db)
        end
      else if (es_status epoch =? EPOCH_STATUS_SPLITTING) && negb (es_burnExecuted epoch) then
        let (txs, c') := tryExecuteBurn env c currentId in (txs, c', db)
      else if (es_status epoch =? EPOCH_STATUS_SPLITTING) && es_burnExecuted epoch &&
              negb (es_distributionCommitted epoch) && has_db env then
        match stake_accounts env with
        | Throw _ => ([], c, db)
        | Ok accounts =>
          let '(txs, c', r) := processEpochSnapshot (net env) c db accounts (slot env) currentId (es_stakerAmount epoch) (insert_ok env) in
          (txs, c', match r with Ok db' => db' | Throw _ => db end)
        end
      else ([], c, db)
    end.

(** ** proof-api.ts *)

Record proof_reply := { pr_value : Z; pr_proof : list bytes; leafIndex : nat; pr_epoch : Z }.

Inductive api_reply :=
| Api_404 (error : string)
| Api_error
| Api_ok (r : proof_reply).

Fixpoint find_index {A} (p : A -> bool) (l : list A) : option nat :=
  match l with
  | [] => None
  | x :: l' => if p x then Some 0%nat else option_map S (find_index p l')
  end.

(** [new PublicKey(w)] on every leaf; a bad one throws (500). *)
Fixpoint decode_all {A} (f : bytes -> A -> bytes) (l : list (string * A)) : option (list bytes) :=
  match l with
  | [] => Some []
  | (w, x) :: l' =>
    match bs58_decode ed w, decode_all f l' with
    | Ok pk, Some rest => Some (f pk x :: rest)
    | _, _ => None
    end
  end.

Definition serve_proof {A} (leaves : list (string * A)) (f : bytes -> A -> bytes) (value : A -> Z) (w missing : string) (ep : Z) :
    api_reply :=
  match find_index (fun l => String.eqb l.1 w) leaves with
  | None => Api_404 missing
  | Some idx =>
    match decode_all f leaves, leaves !! idx with
    | Some ls, Some (_, x) =>
      Api_ok {| pr_value := value x; pr_proof := getProof (tree_of ls) idx; leafIndex := idx; pr_epoch := ep |}
    | _, _ => Api_error
    end
  end.

Definition get_governance_proof (db : database) (epochId : Z) (w : string) : api_reply :=
  match loadSnapshot db epochId with
  | None => Api_404 "epoch not found"
  | Some s => serve_proof (governanceLeaves s) (fun pk v => governanceLeaf sha256 pk v) (fun v => v) w "wallet not in snapshot" (st_epochId s)
  end.

Definition get_governance_proof_by_slot (db : database) (sl : Z) (w : string) : api_reply :=
  match loadSnapshotBySlot db sl with
  | None => Api_404 "snapshot not found for slot"
  | Some s => serve_proof (governanceLeaves s) (fun pk v => governanceLeaf sha256 pk v) (fun v => v) w "wallet not in snapshot" (st_epochId s)
  end.

Definition get_distribution_proof (db : database) (epochId : Z) (w : string) : api_reply :=
  match loadSnapshot db epochId with
  | None => Api_404 "epoch not found"
  | Some s =>
    serve_proof (map (fun l => (l.1.1, (l.1.2, l.2))) (feeLeaves s))
      (fun pk (x : Z * Z) => feeClaimLeaf sha256 pk x.1 x.2) (fun x : Z * Z => x.1) w "wallet not in distribution" (st_epochId s)
  end.
End crank.

(** ** Sums *)

Lemma fold_add_acc l a : fold_left Z.add l a = a + fold_left Z.add l 0.
Proof.
  revert a. induction l as [|x l IH]; intros a; cbn [fold_left]; [lia|]. rewrite IH, (IH (0 + x)). lia.
Qed.

Lemma z_sum_cons x l : z_sum (x :: l) = x + z_sum l.
Proof. unfold z_sum. cbn [fold_left]. rewrite fold_add_acc. lia. Qed.

Lemma z_sum_alter (l : list FeeShare) m d s : l !! m = Some s ->
  z_sum (map share (alter (add_share d) m l)) = z_sum (map share l) + d.
Proof.
  revert m. induction l as [|x l IH]; intros [|m]; try done.
  - intros _. change (alter (add_share d) 0%nat (x :: l)) with (add_share d x :: l).
    cbn [map]. rewrite !z_sum_cons. cbn [share add_share]. lia.
  - intros H. change (alter (add_share d) (S m) (x :: l)) with (x :: alter (add_share d) m l).
    cbn [map]. rewrite !z_sum_cons, IH by done. lia.
Qed.

(** The loop finds an index of a largest share. *)
Lemma max_index_spec (l : list FeeShare) i m best (all : list FeeShare) : (forall k s, l !! k = Some s -> all !! (i + k)%nat = Some s) ->
  (exists s, all !! m = Some s /\ share s = best) ->
  exists s, all !! max_index i m best l = Some s /\ best <= share s /\ Forall (fun x => share x <= share s) l.
Proof.
  revert i m best. induction l as [|x l IH]; intros i m best Hall Hm; cbn [max_index].
  - destruct Hm as (s & ? & ?). exists s. split_and!; [done|lia|constructor].
  - assert (Hx : all !! i = Some x) by (rewrite <- (Hall 0%nat x eq_refl); f_equal; lia).
    assert (Hall' : forall k s, l !! k = Some s -> all !! (S i + k)%nat = Some s)
      by (intros k s Hk; rewrite <- (Hall (S k) s Hk); f_equal; lia).
    destruct (Z.ltb_spec best (share x)).
    + destruct (IH (S i) i (share x) Hall') as (s & ? & ? & ?); [by exists x|].
      exists s. split_and!; [done|lia|]. by constructor.
    + destruct (IH (S i) m best Hall' Hm) as (s & ? & ? & ?).
      exists s. split_and!; [done|lia|]. constructor; [lia|done].
Qed.

(** The share of a staker before the dust is handed out. *)
Definition floor_share (total pool : Z) (s : StakerEntry) : Z := votingPower s * pool / total.

Section shares.
Variables (total pool : Z).
Hypothesis total_pos : 0 < total.
Hypothesis pool_nonneg : 0 <= pool.

Lemma floor_sum l : Forall (fun s => 0 <= votingPower s) l ->
  let f := z_sum (map (floor_share total pool) l) in
  let v := z_sum (map votingPower l) in
  f * total <= v * pool /\ (v * pool - Z.of_nat (length l) * (total - 1) <= f * total) /\ 0 <= f.
Proof.
  induction 1 as [|s l Hs _ (IH1 & IH2 & IH3)]; [cbn; lia|]. cbn [map length]. rewrite !z_sum_cons. cbv zeta in *.
  unfold floor_share at 1 3 5.
  pose proof (Z.mul_div_le (votingPower s * pool) total total_pos).
  pose proof (Z.mod_pos_bound (votingPower s * pool) total total_pos) as Hm.
  rewrite Z.mod_eq in Hm by lia.
  assert (0 <= votingPower s * pool / total) by (apply Z.div_pos; lia).
  split_and!; nia.
Qed.
End shares.

Lemma quot_floor total pool s : 0 < total -> 0 <= pool -> 0 <= votingPower s ->
  Z.quot (votingPower s * pool) total = floor_share total pool s.
Proof. intros. unfold floor_share. apply Z.quot_div_nonneg; [nia|lia]. Qed.

(** The shares before the dust is handed out. *)
Definition floor_shares (total pool : Z) (stakers : list StakerEntry) : list FeeShare :=
  map (fun s => {| wallet := owner s; share := floor_share total pool s |}) stakers.

(** What [computeFeeShares] returns: floors, plus the dust on the first largest one. *)
Lemma computeFeeShares_spec stakers pool :
  Forall (fun s => 0 <= votingPower s) stakers -> 0 <= pool -> 0 < z_sum (map votingPower stakers) ->
  let total := z_sum (map votingPower stakers) in
  let d := pool - z_sum (map (floor_share total pool) stakers) in
  exists m s, 0 <= d < Z.of_nat (length stakers) /\ floor_shares total pool stakers !! m = Some s /\
    Forall (fun x => share x <= share s) (floor_shares total pool stakers) /\
    computeFeeShares stakers total pool =
      if 0 <? d then alter (add_share d) m (floor_shares total pool stakers) else floor_shares total pool stakers.
Proof.
  intros Hv Hp Ht total d.
  destruct (floor_sum total pool Ht Hp stakers Hv) as (H1 & H2 & _). fold total in H1, H2.
  assert (Hd : 0 <= d < Z.of_nat (length stakers)).
  { assert (1 <= Z.of_nat (length stakers)) by (destruct stakers; [cbn in Ht; lia|cbn; lia]).
    subst d. generalize dependent (z_sum (map (floor_share total pool) stakers)). fold total in Ht.
    generalize dependent total. intros T HT F H1 H2.
    assert (F <= pool) by (apply (Z.mul_le_mono_pos_r _ _ T); lia).
    assert (pool - F < Z.of_nat (length stakers)) by (apply (Z.mul_lt_mono_pos_r T); nia). lia. }
  unfold computeFeeShares. replace (total =? 0) with false by (symmetry; apply Z.eqb_neq; lia).
  assert (Hlen : (1 <= length stakers)%nat) by (destruct stakers; [cbn in Ht; lia|cbn; lia]).
  replace (length stakers =? 0)%nat with false by (symmetry; apply Nat.eqb_neq; lia). cbn [orb].
  assert (Hmap : map (fun s => {| wallet := owner s; share := Z.quot (votingPower s * pool) total |}) stakers =
    floor_shares total pool stakers).
  { unfold floor_shares. apply map_ext_in. intros s Hs%list_elem_of_In. rewrite Forall_forall in Hv.
    rewrite quot_floor; [done|done|done|by apply Hv]. }
  rewrite Hmap. assert (Hsum : map share (floor_shares total pool stakers) = map (floor_share total pool) stakers)
    by (unfold floor_shares; by rewrite map_map).
  rewrite Hsum. fold d. cbv zeta.
  replace (0 <? length (floor_shares total pool stakers))%nat with true
    by (symmetry; apply Nat.ltb_lt; unfold floor_shares; rewrite length_map; lia).
  rewrite andb_true_r. destruct (floor_shares total pool stakers) as [|y k] eqn:Ef; [unfold floor_shares in Ef; by destruct stakers|].
  destruct (max_index_spec k 1 0 (share y) (y :: k)) as (s & Hm & Hle & Hall); [by intros ? ? ?|by exists y|].
  exists (max_index 1 0 (share y) k), s. split_and!; [lia|lia|done|by constructor|done].
Qed.

Lemma z_sum_share_floor total pool stakers :
  map share (floor_shares total pool stakers) = map (floor_share total pool) stakers.
Proof. unfold floor_shares. by rewrite map_map. Qed.

Lemma map_alter_wallet d m (l : list FeeShare) : map wallet (alter (add_share d) m l) = map wallet l.
Proof.
  revert m. induction l as [|x l IH]; intros [|m]; try done.
  change (alter (add_share d) (S m) (x :: l)) with (x :: alter (add_share d) m l). cbn [map]. by rewrite IH.
Qed.

Lemma shares_wallets stakers total pool : total <> 0 ->
  map wallet (computeFeeShares stakers total pool) = map owner stakers.
Proof.
  intros Ht. unfold computeFeeShares. destruct (Z.eqb_spec total 0); [done|]. cbn [orb].
  destruct stakers as [|x l]; [done|]. cbn [length Nat.eqb].
  set (fs := map (fun s => {| wallet := owner s; share := _ |}) (x :: l)).
  assert (Hf : map wallet fs = map owner (x :: l)) by (unfold fs; by rewrite map_map).
  cbv zeta. destruct (_ && _)%bool; [by rewrite map_alter_wallet|done].
Qed.

(** ** Proofs that are served *)

Section served.
Variable sha256 : bytes -> bytes.
Variable ed : ed25519.
Hypothesis sha256_length : forall b, length (sha256 b) = 32%nat.
Hypothesis ed_laws : ed25519_laws ed.

(** The program's check is the SDK's on full digests. *)
Lemma verify_merkle_proof_fold proof root leaf :
  verify_merkle_proof sha256 proof root leaf = bool_decide (fold_left (hash sha256) proof leaf = root).
Proof. reflexivity. Qed.

Lemma compute_claim_leaf_sdk st amt eid : compute_claim_leaf sha256 st amt eid = feeClaimLeaf sha256 st amt eid.
Proof. reflexivity. Qed.

Lemma decode_all_encoded {A B} (f : bytes -> A -> bytes) (enc : B -> bytes) (val : B -> A) (l : list B) :
  decode_all ed f (map (fun x => (bs58_encode ed (enc x), val x)) l) = Some (map (fun x => f (enc x) (val x)) l).
Proof.
  induction l as [|x l IH]; [done|]. cbn [map decode_all]. by rewrite (law_decode_encode ed ed_laws), IH.
Qed.

Lemma find_index_Some {A} (p : A -> bool) l : (exists x, x ∈ l /\ p x = true) ->
  exists i x, find_index p l = Some i /\ l !! i = Some x /\ p x = true.
Proof.
  induction l as [|y l IH]; intros (x & Hx & Hp); [by apply elem_of_nil in Hx|]. cbn [find_index].
  destruct (p y) eqn:Ey; [by exists 0%nat, y|].
  apply elem_of_cons in Hx as [->|Hx]; [congruence|].
  destruct IH as (i & z & Hi & Hz & Hpz); [by exists x|]. exists (S i), z. by rewrite Hi.
Qed.

Lemma bs58_encode_inj a b : bs58_encode ed a = bs58_encode ed b -> a = b.
Proof. intros H. apply (f_equal (bs58_decode ed)) in H. rewrite !(law_decode_encode ed ed_laws) in H. congruence. Qed.

(** A wallet's served proof is that of its first leaf and leads to the root. *)
Lemma serve_proof_ok {A B} (f : bytes -> A -> bytes) (value : A -> Z) (enc : B -> bytes) (val : B -> A) (l : list B) (x : B) missing ep :
  (forall pk a, length (f pk a) = 32%nat) -> x ∈ l ->
  exists r y, serve_proof sha256 ed (map (fun x => (bs58_encode ed (enc x), val x)) l) f value (bs58_encode ed (enc x)) missing ep = Api_ok r /\
    l !! leafIndex r = Some y /\ enc y = enc x /\ pr_value r = value (val y) /\
    fold_left (hash sha256) (pr_proof r) (f (enc y) (val y)) = root_of (tree_of sha256 (map (fun x => f (enc x) (val x)) l)).
Proof.
  intros Hf Hx. set (lv := map (fun x => (bs58_encode ed (enc x), val x)) l).
  destruct (find_index_Some (fun e : string * A => String.eqb e.1 (bs58_encode ed (enc x))) lv) as (i & e & Hi & Hl & He).
  { exists (bs58_encode ed (enc x), val x). split; [|apply String.eqb_refl].
    unfold lv. apply list_elem_of_fmap. by exists x. }
  unfold serve_proof. rewrite Hi. unfold lv at 1. rewrite decode_all_encoded, Hl.
  unfold lv in Hl. change (map ?g l) with (g <$> l) in Hl. rewrite list_lookup_fmap in Hl.
  destruct (l !! i) as [y|] eqn:Ey; [|done]. cbn in Hl. injection Hl as <-.
  cbn [fst] in He. apply String.eqb_eq, bs58_encode_inj in He.
  eexists _, y. split; [reflexivity|]. cbn [leafIndex pr_value pr_proof]. split_and!; [done|done|done|].
  set (leaves := map (fun x => f (enc x) (val x)) l).
  assert (Hs : sized leaves) by (unfold sized, leaves; apply Forall_map, Forall_true; intros; apply Hf).
  assert (Hli : leaves !! i = Some (f (enc y) (val y))).
  { unfold leaves. change (map ?g l) with (g <$> l). by rewrite list_lookup_fmap, Ey. }
  assert (Hne : leaves <> []) by (by intros E; rewrite E in Hli).
  destruct (tree_root sha256 leaves Hne) as (r & Hr & Hl).
  unfold root_of, tree_of. rewrite Hr. cbn [default].
  replace (getProof (new_MerkleTree sha256 leaves) i) with (proof_from (grow sha256 (length leaves) leaves) i)
    by (unfold getProof, new_MerkleTree; by destruct leaves).
  by apply (grow_proof sha256 sha256_length (length leaves) leaves i).
Qed.

Lemma feeClaimLeaf_length pk a b : length (feeClaimLeaf sha256 pk a b) = 32%nat.
Proof. apply sha256_length. Qed.

(** ** Properties *)

(** The fee shares give away the staker pool exactly: one share per staker, in
    order, that add up to the pool; each is the proportional share rounded down, but
    for one of the largest, which also gets the rounding dust, less than one unit
    per staker. *)
Theorem fee_shares_exact (stakers : list StakerEntry) (pool : Z)
    (Hv : Forall (fun s => 0 <= votingPower s) stakers) (Hp : 0 <= pool) (Ht : 0 < z_sum (map votingPower stakers)) :
  let total := z_sum (map votingPower stakers) in
  let shares := computeFeeShares stakers total pool in
  map wallet shares = map owner stakers /\ z_sum (map share shares) = pool /\
  exists m d, 0 <= d < Z.of_nat (length stakers) /\
    forall i s x, stakers !! i = Some s -> shares !! i = Some x ->
      share x = votingPower s * pool / total + (if decide (i = m) then d else 0).
Proof.
  intros total shares. destruct (computeFeeShares_spec stakers pool Hv Hp Ht) as (m & s & Hd & Hm & _ & E).
  fold total in Hd, Hm, E. fold shares in E. set (d := pool - _) in *. split_and!.
  - apply shares_wallets. unfold total. lia.
  - rewrite E. destruct (Z.ltb_spec 0 d); [rewrite (z_sum_alter _ _ _ _ Hm)|]; rewrite z_sum_share_floor; lia.
  - exists m, d. split; [done|]. intros i s' x Hs Hx.
    assert (Hf : floor_shares total pool stakers !! i = Some {| wallet := owner s'; share := floor_share total pool s' |}).
    { unfold floor_shares. change (map ?g stakers) with (g <$> stakers). by rewrite list_lookup_fmap, Hs. }
    rewrite E in Hx. destruct (Z.ltb_spec 0 d) as [Hd0|Hd0].
    + destruct (decide (i = m)) as [->|Hne].
      * rewrite list_lookup_alter_eq, Hf in Hx. by injection Hx as <-.
      * rewrite list_lookup_alter_ne, Hf in Hx by done. injection Hx as <-. cbn. unfold floor_share. lia.
    + rewrite Hf in Hx. injection Hx as <-. cbn. unfold floor_share. destruct (decide (i = m)); lia.
Qed.

(** C3: a staker can use what the service hands out: once an epoch's row is saved,
    GET /distribution/:epoch/proof/:wallet answers every staker of the epoch with an
    amount and a proof that the on-chain program accepts against the committed root,
    and the amounts of all stakers are what [computeFeeShares] gave them. *)
Theorem served_claim_verifies (db : database) (stakers : list StakerEntry) (epochId pool slot : Z) (s : StakerEntry)
    (Hs : s ∈ stakers) (Ht : z_sum (map votingPower stakers) <> 0) :
  let row := snapshot_row sha256 ed stakers epochId pool slot in
  exists r x, get_distribution_proof sha256 ed (saveSnapshot db row) epochId (bs58_encode ed (owner s)) = Api_ok r /\
    x ∈ computeFeeShares stakers (z_sum (map votingPower stakers)) pool /\ wallet x = owner s /\ pr_value r = share x /\
    verify_merkle_proof sha256 (pr_proof r) (feeRoot row) (compute_claim_leaf sha256 (owner s) (pr_value r) epochId) = true.
Proof.
  intros row. set (shares := computeFeeShares stakers (z_sum (map votingPower stakers)) pool).
  assert (Hx : exists x0, x0 ∈ shares /\ wallet x0 = owner s).
  { assert (Hin : owner s ∈ map wallet shares).
    { unfold shares. rewrite shares_wallets by done. apply list_elem_of_fmap. by exists s. }
    apply list_elem_of_fmap in Hin as (x0 & ? & ?). by exists x0. }
  destruct Hx as (x0 & Hx0 & Hw).
  destruct (serve_proof_ok (fun pk (x : Z * Z) => feeClaimLeaf sha256 pk x.1 x.2) (fun x : Z * Z => x.1) wallet
    (fun x => (share x, epochId)) shares x0 "wallet not in distribution" epochId) as (r & y & Hr & Hy & Hey & Hvy & Hfold);
    [by intros; apply feeClaimLeaf_length|done|].
  exists r, y. unfold get_distribution_proof, loadSnapshot, saveSnapshot.
  change (st_epochId row) with epochId. rewrite map_get_set_eq. change (st_epochId row) with epochId.
  assert (Hleaves : map (fun l => (l.1.1, (l.1.2, l.2))) (feeLeaves row) =
    map (fun x => (bs58_encode ed (wallet x), (share x, epochId))) shares).
  { unfold row, snapshot_row. cbn [feeLeaves]. rewrite map_map. done. }
  rewrite Hleaves, <- Hw. split; [exact Hr|]. split; [by eapply list_elem_of_lookup_2|]. split; [done|]. split; [done|].
  rewrite verify_merkle_proof_fold, compute_claim_leaf_sdk, bool_decide_eq_true, Hvy, <- Hey.
  exact Hfold.
Qed.

Lemma z_sum_nonneg l : Forall (fun x => 0 <= x) l -> 0 <= z_sum l.
Proof. induction 1; [done|]. rewrite z_sum_cons. lia. Qed.

Lemma z_sum_bound l x : Forall (fun x => 0 <= x) l -> x ∈ l -> x <= z_sum l.
Proof.
  induction 1 as [|y l Hy Hl IH]; [by intros ?%elem_of_nil|]. rewrite z_sum_cons.
  pose proof (z_sum_nonneg l Hl). intros [->|Hx]%elem_of_cons; [lia|]. specialize (IH Hx). lia.
Qed.

Lemma shares_range stakers pool x :
  Forall (fun s => 0 <= votingPower s) stakers -> 0 <= pool -> 0 < z_sum (map votingPower stakers) ->
  x ∈ computeFeeShares stakers (z_sum (map votingPower stakers)) pool -> 0 <= share x <= pool.
Proof.
  intros Hv Hp Ht Hx. destruct (computeFeeShares_spec stakers pool Hv Hp Ht) as (m & s & Hd & Hm & _ & E).
  set (total := z_sum (map votingPower stakers)) in *. set (d := pool - _) in *.
  assert (Hf : Forall (fun x => 0 <= x) (map share (floor_shares total pool stakers))).
  { rewrite z_sum_share_floor. apply Forall_map. eapply Forall_impl; [exact Hv|].
    intros y Hy. unfold floor_share. apply Z.div_pos; [by apply Z.mul_nonneg_nonneg|done]. }
  assert (Hall : Forall (fun x => 0 <= x) (map share (computeFeeShares stakers total pool)) /\
                 z_sum (map share (computeFeeShares stakers total pool)) = pool).
  { rewrite E. destruct (Z.ltb_spec 0 d); cycle 1.
    { split; [done|]. rewrite z_sum_share_floor. lia. }
    split; [|rewrite (z_sum_alter _ _ _ _ Hm), z_sum_share_floor; lia].
    rewrite Forall_map. rewrite Forall_map in Hf. apply Forall_alter; [exact Hf|]. intros y Hy Hy0. cbn in *. lia. }
  destruct Hall as [Hn Hsum]. split.
  - rewrite Forall_map, Forall_forall in Hn. by apply Hn.
  - rewrite <- Hsum. apply z_sum_bound; [done|]. apply list_elem_of_fmap. by exists x.
Qed.

(** A claim's leaf preimage: 48 bytes. *)
Definition claim_bytes (st : bytes) (amt epochId : Z) : bytes := st ++ u64Le amt ++ u64Le epochId.

Lemma claim_bytes_length st amt epochId : length st = 32%nat -> length (claim_bytes st amt epochId) = 48%nat.
Proof. intros Hst. unfold claim_bytes, u64Le. rewrite !length_app, !le_bytes_length. lia. Qed.

Lemma claim_bytes_inj st amt st' amt' epochId : length st = length st' -> 0 <= amt < 2 ^ 64 -> 0 <= amt' < 2 ^ 64 ->
  claim_bytes st amt epochId = claim_bytes st' amt' epochId -> st = st' /\ amt = amt'.
Proof.
  intros Hl Ha Ha' H. apply app_inj_1 in H as [-> H]; [|done].
  apply app_inj_1 in H as [H _]; [|unfold u64Le; by rewrite !le_bytes_length]. split; [done|]. by apply u64Le_inj.
Qed.

Lemma fee_root_tree stakers epochId pool slot :
  let shares := computeFeeShares stakers (z_sum (map votingPower stakers)) pool in
  shares <> [] ->
  merkle_root (new_MerkleTree sha256 (map sha256 (map (fun s => claim_bytes (wallet s) (share s) epochId) shares))) =
  Some (feeRoot (snapshot_row sha256 ed stakers epochId pool slot)).
Proof.
  intros shares Hne. rewrite map_map. set (leaves := map _ shares).
  assert (Hne' : leaves <> []) by (unfold leaves; by destruct shares).
  destruct (tree_root sha256 leaves Hne') as (r & Hr & _). rewrite Hr. unfold snapshot_row, root_of, tree_of. cbn [feeRoot].
  fold shares. change (map (fee_leaf sha256 epochId) shares) with leaves. by rewrite Hr.
Qed.

(** A verified claim is one of the distribution. *)
Lemma verified_claim_in_shares stakers epochId pool slot st amt proof :
  Forall (fun s => 0 <= votingPower s /\ length (owner s) = 32%nat) stakers ->
  0 < z_sum (map votingPower stakers) -> 0 <= pool <= U64_MAX -> length st = 32%nat -> 0 <= amt <= U64_MAX -> sized proof ->
  verify_merkle_proof sha256 proof (feeRoot (snapshot_row sha256 ed stakers epochId pool slot))
    (compute_claim_leaf sha256 st amt epochId) = true ->
  (exists x, x ∈ computeFeeShares stakers (z_sum (map votingPower stakers)) pool /\ wallet x = st /\ share x = amt) \/
  collision sha256.
Proof.
  intros Hv Ht Hpool Hst Hamt Hproof Hverify. unfold U64_MAX in *.
  pose proof (shares_wallets stakers (z_sum (map votingPower stakers)) pool ltac:(lia)) as Hsw.
  assert (Hne : computeFeeShares stakers (z_sum (map votingPower stakers)) pool <> []).
  { intros E. rewrite E in Hsw. destruct stakers; [cbn in Ht; lia|done]. }
  pose proof (fee_root_tree stakers epochId pool slot Hne) as Hr.
  pose proof (fun x => shares_range stakers pool x) as Hrange.
  set (shares := computeFeeShares stakers (z_sum (map votingPower stakers)) pool) in *.
  assert (Hw : forall x, x ∈ shares -> length (wallet x) = 32%nat /\ 0 <= share x <= pool).
  { intros x Hx. split; [|apply Hrange; [eapply Forall_impl; [exact Hv|]; by intros ? []|lia|lia|done]].
    assert (Hin : wallet x ∈ map owner stakers) by (rewrite <- Hsw; apply list_elem_of_fmap; by exists x).
    apply list_elem_of_fmap in Hin as (s & -> & Hin). rewrite Forall_forall in Hv. by apply Hv. }
  rewrite verify_merkle_proof_fold in Hverify. apply bool_decide_eq_true in Hverify.
  assert (Hm : merkle_verify sha256 (feeRoot (snapshot_row sha256 ed stakers epochId pool slot))
                 (sha256 (claim_bytes st amt epochId)) proof = true).
  { unfold merkle_verify. change (sha256 (claim_bytes st amt epochId)) with (compute_claim_leaf sha256 st amt epochId).
    rewrite Hverify. by rewrite compare_refl. }
  assert (Hin : claim_bytes st amt epochId ∈ map (fun s => claim_bytes (wallet s) (share s) epochId) shares \/ collision sha256).
  { refine (verify_in_pre sha256 sha256_length _ 48 (claim_bytes st amt epochId) _ proof _ _ _ _ Hr Hproof Hm).
    - apply Forall_map, Forall_forall. intros x Hx. apply claim_bytes_length. by apply Hw.
    - done.
    - by apply claim_bytes_length.
    - by destruct shares. }
  destruct Hin as [Hin|]; [|by right].
  left. apply list_elem_of_fmap in Hin as (x & Hx & Hin). destruct (Hw x Hin) as [Hlx Hsx].
  apply claim_bytes_inj in Hx as [-> ->]; [by exists x|congruence|lia|lia].
Qed.

(** C4: and nobody else can claim: a claim the program accepts for an epoch whose
    committed root is that of the saved distribution is for a wallet and the exact
    amount of that distribution, or the run exhibits a SHA-256 collision; it is
    counted against the staker amount, which is never exceeded, and cannot be made
    twice. *)
Theorem accepted_claim_is_due (c c' : chain) (e : EpochAccount) (stakers : list StakerEntry) (epochId pool slot : Z)
    (st : bytes) (amt : Z) (proof : list bytes) (now : Z) (ok : bool)
    (Hv : Forall (fun s => 0 <= votingPower s /\ length (owner s) = 32%nat) stakers)
    (Ht : 0 < z_sum (map votingPower stakers)) (Hpool : 0 <= pool <= U64_MAX)
    (He : epochs c !! epochId = Some e)
    (Hroot : staker_distribution_root e = feeRoot (snapshot_row sha256 ed stakers epochId pool slot))
    (Hst : length st = 32%nat) (Hamt : 0 <= amt <= U64_MAX) (Hproof : sized proof)
    (Hclaim : claim_staker sha256 c epochId st amt proof now ok = Some c') :
  ((exists x, x ∈ computeFeeShares stakers (z_sum (map votingPower stakers)) pool /\ wallet x = st /\ share x = amt) \/
   exists s1 s2, s1 <> s2 /\ sha256 s1 = sha256 s2) /\
  (exists e', epochs c' !! epochId = Some e' /\ staker_claimed_total e' = staker_claimed_total e + amt /\
     staker_claimed_total e' <= staker_amount e') /\
  (forall amt' proof' now' ok', claim_staker sha256 c' epochId st amt' proof' now' ok' = None).
Proof.
  unfold claim_staker in Hclaim. rewrite He in Hclaim. accepted Hclaim. injection Hclaim as <-.
  match goal with Hm : verify_merkle_proof _ _ _ _ = true |- _ => rename Hm into Hverify end.
  match goal with Hm : checked_add_u64 _ _ = Some _ |- _ => rename Hm into Hadd end.
  rewrite Hroot in Hverify. split_and!.
  - by eapply verified_claim_in_shares.
  - unfold checked_add_u64 in Hadd. destruct (staker_claimed_total e + amt <=? U64_MAX); [|done]. injection Hadd as <-.
    eexists. split; [apply lookup_insert_eq|]. cbn. split; [done|]. to_prop. lia.
  - intros amt' proof' now' ok'. unfold claim_staker. cbn [epochs claims]. rewrite lookup_insert_eq.
    rewrite bool_decide_false; [done|]. intros Hn. apply Hn, elem_of_union_l, elem_of_singleton. done.
Qed.

(** ** The crank against the program *)

(** The transactions of the open branch. *)
Definition closes_or_harvests (tx : crank_tx) : Prop :=
  match tx with
  | Tx_harvest _ | Tx_harvest_confidential _ | Tx_process_epoch _ _ => True
  | _ => False
  end.

Lemma harvest_keeps c n amt ok c' eid e : harvest_transfer_fees c n amt ok = Some c' ->
  epochs c !! eid = Some e -> ep_status e <> Open -> epochs c' !! eid = Some e.
Proof.
  intros H He Hs. unfold harvest_transfer_fees in H. destruct (epochs c !! current_id c) as [cur|] eqn:Ec; [|done].
  accepted H. destruct (0 <? amt); [|by injection H as <-]. accepted H. injection H as <-.
  cbn [epochs set_epochs]. rewrite lookup_insert_ne; [done|]. intros <-. to_prop. congruence.
Qed.

Lemma process_keeps c snap now ok c' eid e : process_epoch c snap now ok = Some c' ->
  epochs c !! eid = Some e -> ep_status e <> Open -> epochs c' !! eid = Some e.
Proof.
  intros H He Hs. unfold process_epoch in H. accepted H. injection H as <-. cbn [epochs].
  rewrite !lookup_insert_ne; [done| |]; intros <-; to_prop; congruence.
Qed.

Lemma try_send_keeps net c tx eid e : closes_or_harvests tx ->
  epochs c !! eid = Some e -> ep_status e <> Open -> epochs (try_send net c tx) !! eid = Some e.
Proof.
  intros Htx He Hs. unfold try_send, sendAndConfirm. destruct (delivers net tx); [|done].
  destruct tx as [n|n|ep nx|ep|v n|ep root n w]; try done.
  - destruct (harvest_transfer_fees c n (harvested net) true) eqn:E; [|done]. by eapply harvest_keeps.
  - destruct (ep =? current_id c); [|done].
    destruct (process_epoch c ep (now_ts net) true) eqn:E; [|done]. by eapply process_keeps.
Qed.

(** The crank never finishes an epoch: on every chain the program can reach, by
    anyone's instructions, a tick only harvests into the open epoch and closes it;
    it never burns, never snapshots, never commits a distribution, and leaves every
    closed epoch as it is.  [process_epoch] opens the next epoch in the same
    instruction, and the tick only looks at the newest one. *)
Theorem crank_never_distributes (cfg : FeeCollectorConfig) (t0 : Z) (c : chain) (env : tick_env) (db : database)
    (Hreach : rtc (program_step sha256) (init_config cfg t0) c) :
  let '(txs, c', db') := runTick sha256 ed env c db in
  Forall closes_or_harvests txs /\ db' = db /\
  forall eid e, epochs c !! eid = Some e -> ep_status e <> Open -> epochs c' !! eid = Some e.
Proof.
  assert (Hopen : current_open c).
  { remember (init_config cfg t0) as c0 eqn:E0. assert (H0 : current_open c0) by (subst; apply init_current_open).
    clear E0. induction Hreach as [|x y z Hs _ IH]; [done|]. apply IH. by eapply step_current_open. }
  destruct Hopen as (Hn & cur & Hcur & Ho). unfold runTick.
  destruct (config_readable env); cbn [negb]; [|by split_and!]. destruct (paused (config c)); [by split_and!|].
  replace (0 <? next_epoch_id (config c)) with true by (symmetry; apply Z.ltb_lt; lia).
  unfold fetchEpoch. destruct (epoch_readable env); [|by split_and!]. rewrite Hcur. cbn [es_status]. rewrite Ho. cbn [statusMap].
  change (0 =? EPOCH_STATUS_OPEN) with true. cbv iota.
  unfold tryHarvest. destruct (findHolderAccounts env) as [hs|]; [|by split_and!].
  set (keeps := fun c' => forall eid e, epochs c !! eid = Some e -> ep_status e <> Open -> epochs c' !! eid = Some e).
  assert (Hk : forall c1 tx, closes_or_harvests tx -> keeps c1 -> keeps (try_send (net env) c1 tx)).
  { intros c1 tx Htx Hkeep eid e He Hs. apply try_send_keeps; auto. }
  assert (Hk0 : keeps c) by by intros eid e.
  destruct (length hs =? 0)%nat; [|destruct (confidential_transfers_enabled (config c))];
    destruct (_ <=? _); unfold tryProcessEpoch; (split_and!; [repeat constructor|done|]);
    repeat (apply Hk; [done|]); exact Hk0.
Qed.
End served.

(** ** Witnesses *)

Definition stake1 : StakerEntry := {| owner := toy_key 1; votingPower := 1; amount := 5 |}.
Definition stake2 : StakerEntry := {| owner := toy_key 2; votingPower := 2; amount := 5 |}.
Definition two_stakers : list StakerEntry := [stake1; stake2].

Lemma fee_shares_exact_witness :
  z_sum (map share (computeFeeShares two_stakers (z_sum (map votingPower two_stakers)) 100)) = 100.
Proof.
  apply (fee_shares_exact two_stakers 100); [repeat constructor; cbn; lia|lia|cbn; lia].
Defined.

Definition demo_stake (s : StakerEntry) : StakeAccount :=
  {| sa_owner := owner s; sa_active := true; sa_amount := amount s; sa_votingPower := votingPower s |}.

Definition demo_row : StoredSnapshot := snapshot_row toy_sha toy_ed two_stakers 3 100 77.

Lemma served_claim_verifies_witness :
  exists r x, get_distribution_proof toy_sha toy_ed (saveSnapshot [] demo_row) 3 (bs58_encode toy_ed (owner stake2)) = Api_ok r /\
    x ∈ computeFeeShares two_stakers 3 100 /\ wallet x = owner stake2 /\ pr_value r = share x /\
    verify_merkle_proof toy_sha (pr_proof r) (feeRoot demo_row) (compute_claim_leaf toy_sha (owner stake2) (pr_value r) 3) = true.
Proof.
  refine (served_claim_verifies toy_sha toy_ed toy_sha_length toy_ed_laws [] two_stakers 3 100 77 stake2 _ _).
  - right. left.
  - discriminate.
Defined.

Definition demo_config : FeeCollectorConfig :=
  {| epoch_duration_secs := 100; next_epoch_id := 1; claim_window_secs := 1000; min_epoch_total_for_burn := 0;
     burn_bps := 1000; staker_share_bps := 5000; grant_share_bps := 2000; treasury_share_bps := 2000;
     paused := false; confidential_transfers_enabled := false |}.

(** Epoch 0 is closed with 200 collected, so 100 for the stakers, and its root committed. *)
Definition committed_epoch : EpochAccount :=
  with_root (close_epoch (with_total (fresh_epoch 0 0) 200) 100 0 (compute_bps_split 200 1000 5000 2000))
    (feeRoot (snapshot_row toy_sha toy_ed two_stakers 0 100 77)).

Definition committed_chain : chain :=
  {| config := with_next_id demo_config 2; epochs := {[ 0 := committed_epoch ]}; claims := ∅ |}.

Definition demo_proof : list bytes :=
  getProof (tree_of toy_sha (map (fee_leaf toy_sha 0) (computeFeeShares two_stakers 3 100))) 1.

(** The state after the second staker's claim. *)
Definition claimed_chain : chain :=
  default committed_chain (claim_staker toy_sha committed_chain 0 (toy_key 2) 67 demo_proof 150 true).

Lemma accepted_claim_is_due_witness :
  claim_staker toy_sha claimed_chain 0 (toy_key 2) 67 demo_proof 151 true = None.
Proof.
  refine (proj2 (proj2 (accepted_claim_is_due toy_sha toy_ed toy_sha_length committed_chain claimed_chain committed_epoch
    two_stakers 0 100 77 (toy_key 2) 67 demo_proof 150 true _ _ _ _ _ _ _ _ _)) 67 demo_proof 151 true).
  - repeat constructor; cbn; lia.
  - cbn; lia.
  - unfold U64_MAX; lia.
  - reflexivity.
  - reflexivity.
  - reflexivity.
  - unfold U64_MAX; lia.
  - vm_compute. repeat constructor.
  - vm_compute. reflexivity.
Defined.

Definition demo_env : tick_env :=
  {| net := {| delivers := fun _ => true; harvested := 50; committer_authorized := true; now_ts := 500 |};
     config_readable := true; epoch_readable := true; holders := Ok [toy_key 9]; stake_accounts := Ok (map demo_stake two_stakers);
     slot := 7; has_db := true; insert_ok := true; maxHarvestAccounts := 10 |}.

(** The chain after epoch 0 has been closed, with 50 collected. *)
Definition closed_chain : chain := (runTick toy_sha toy_ed demo_env (init_config demo_config 0) []).1.2.

Lemma closed_chain_reachable : rtc (program_step toy_sha) (init_config demo_config 0) closed_chain.
Proof.
  eapply rtc_l; [|eapply rtc_once].
  - apply (ps_harvest toy_sha _ 1 50 true). vm_compute. reflexivity.
  - apply (ps_process toy_sha _ 0 500 true). vm_compute. reflexivity.
Qed.

Lemma crank_never_distributes_witness :
  (exists e, epochs closed_chain !! 0 = Some e /\ ep_status e = Splitting /\ staker_amount e = 25 /\
     epochs (runTick toy_sha toy_ed demo_env closed_chain []).1.2 !! 0 = Some e) /\
  Forall closes_or_harvests (runTick toy_sha toy_ed demo_env closed_chain []).1.1.
Proof.
  pose proof (crank_never_distributes toy_sha toy_ed demo_config 0 closed_chain demo_env [] closed_chain_reachable) as H.
  destruct (runTick toy_sha toy_ed demo_env closed_chain []) as [[txs c'] db'].
  destruct H as (H1 & _ & H3). split; [|exact H1].
  destruct (epochs closed_chain !! 0) as [e|] eqn:E; [|vm_compute in E; discriminate E].
  exists e. split; [reflexivity|].
  assert (Hs : ep_status e = Splitting /\ staker_amount e = 25) by (vm_compute in E; injection E as <-; split; reflexivity).
  destruct Hs as [Hs Ha]. split; [exact Hs|]. split; [exact Ha|]. apply H3; [exact E|]. rewrite Hs. discriminate.
Defined.
