(* ===== verification/X402Auth.v ===== *)
(** * X402Auth: who may use the x402 gateway's proxy, and for what

    Models services/x402-gateway/src/allowlist.ts, auth.ts and ratelimit.ts: the
    targets the proxy may fetch, the signed request text, and the per-minute and
    per-day counters in Redis.  The WHATWG [URL] parser and [node:net]'s [isIP]
    are platform APIs and stay parameters, like ed25519 and base58 of
    Attestation.v; Redis is given by its commands and their documented laws. *)

From Stdlib Require Import ZArith Ascii Lia.
From stdpp Require Import base gmap sets list strings.
From S2P Require Import Prelude Json ComputeBond Attestation.

Open Scope Z_scope.

#[local] Arguments String.append !_ _ : simpl nomatch.

(** ** allowlist.ts *)

Definition dot : ascii := ascii_of_nat 46.

(** The [protocol] and [hostname] of a parsed URL. *)
Record URL := { protocol : string; hostname : string }.

(** [parseInt(s, 10)]; [None] is NaN. *)
Fixpoint dec_digits (acc : option Z) (s : string) : option Z :=
  match s with
  | EmptyString => acc
  | String c s' =>
    let n := Z.of_nat (nat_of_ascii c) in
    if (48 <=? n) && (n <=? 57) then dec_digits (Some (10 * default 0 acc + (n - 48))) s' else acc
  end.

Definition parseInt10 (s : string) : option Z :=
  match skip_space s with
  | String "-" s' => option_map Z.opp (dec_digits None s')
  | String "+" s' => dec_digits None s'
  | s' => dec_digits None s'
  end.

(** [s.endsWith(t)] *)
Definition ends_with (t s : string) : bool :=
  (String.length t <=? String.length s)%nat &&
  String.eqb (String.substring (String.length s - String.length t) (String.length t) s) t.

Definition PRIVATE_PREFIXES : list string := ["127."; "10."; "192.168."; "169.254."; "0."]%string.

Definition matchesPattern (host pattern : string) : bool :=
  if String.eqb pattern "" then false
  else if String.eqb pattern host then true
  else if String.prefix "*." pattern then
    let tail := String.substring 2 (String.length pattern - 2) pattern in
    String.eqb host tail || ends_with (String dot tail) host
  else false.

Section allowlist.
Variable parse_url : string -> option URL.
Variable isIP : string -> Z.

Definition isPrivateIp (host : string) : bool :=
  if isIP host =? 0 then false
  else if existsb (fun p => String.prefix p host) PRIVATE_PREFIXES then true
  else if String.prefix "172." host &&
          match parseInt10 (default ""%string (split_on dot host !! 1%nat)) with
          | Some second => (16 <=? second) && (second <=? 31)
          | None => false
          end then true
  else String.eqb host "::1" || String.eqb host "::" || String.prefix "fe80:" host ||
       String.prefix "fc" host || String.prefix "fd" host.

Definition isTargetAllowed (target pattern : string) (allowList : list string) : bool :=
  match parse_url target with
  | None => false
  | Some url =>
    if existsb (fun h => String.eqb h (hostname url)) allowList then true
    else if negb (String.eqb (protocol url) "https:") then false
    else if isPrivateIp (hostname url) then false
    else matchesPattern (hostname url) pattern
  end.
End allowlist.

(** ** auth.ts *)

Record proxy_terms := {
  t_target_url : string;
  t_method : string;
  t_budget_lamports : Z;
  t_mint : string;
  t_body_hash : option string;
  t_nonce : string;
}.

Definition canonicalizeProxy (b : proxy_terms) : string :=
  json_object ("target_url", JStr (t_target_url b))
    ([("method", JStr (t_method b));
      ("budget_lamports", JNum (z_text (t_budget_lamports b)));
      ("mint", JStr (t_mint b))] ++
     match t_body_hash b with Some h => [("body_hash", JStr h)] | None => [] end ++
     [("nonce", JStr (t_nonce b))]).

Definition verifyProxyRequest (ed : ed25519) (canonicalBody signatureBs58 agentDidBs58 : string) : bool :=
  match bs58_decode ed signatureBs58, bs58_decode ed agentDidBs58 with
  | Ok sig, Ok pk =>
    if negb (length sig =? 64)%nat || negb (length pk =? 32)%nat then false
    else match verifyBytes ed sig canonicalBody pk with Ok b => b | Throw _ => false end
  | _, _ => false
  end.

(** ** ratelimit.ts *)

(** INCR and EXPIRE at a time in milliseconds; [r_live r t k] is what key [k]
    holds at time [t] if no further command is sent: its value and the time it
    expires at, if one is set. *)
Record redis (R : Type) := {
  r_incr : string -> Z -> R -> Z * R;
  r_expire : string -> Z -> Z -> R -> R;
  r_live : R -> Z -> string -> option (Z * option Z);
}.
Arguments r_incr {R} _ _ _ _.
Arguments r_expire {R} _ _ _ _ _.
Arguments r_live {R} _ _ _ _.

Definition until (t : Z) (e : option (Z * option Z)) : option (Z * option Z) :=
  match e with
  | Some (v, Some d) => if t <? d then e else None
  | _ => e
  end.

Record redis_laws {R} (rd : redis R) : Prop := {
  law_time : forall r now t k, now <= t -> r_live rd r t k = until t (r_live rd r now k);
  law_incr : forall r now k, (r_incr rd k now r).1 = default 0 (fst <$> r_live rd r now k) + 1;
  law_incr_live : forall r now k k', r_live rd (r_incr rd k now r).2 now k' =
    if decide (k' = k)
    then Some (default 0 (fst <$> r_live rd r now k) + 1, r_live rd r now k ≫= snd)
    else r_live rd r now k';
  law_expire_live : forall r now secs k k', 0 < secs -> r_live rd (r_expire rd k secs now r) now k' =
    if decide (k' = k) then (fun e => (e.1, Some (now + 1000 * secs))) <$> r_live rd r now k
    else r_live rd r now k';
}.

Record RateResult := { rate_allowed : bool; remainingMin : Z; remainingDay : Z }.

Definition minKey (agentDid : string) (bucket : Z) : string :=
  ("x402:rl:min:" +:+ agentDid +:+ String colon (z_text bucket))%string.
Definition dayKey (agentDid : string) (bucket : Z) : string :=
  ("x402:rl:day:" +:+ agentDid +:+ String colon (z_text bucket))%string.

Section rate.
Context {R : Type} (rd : redis R).

(** The Lua script. *)
Definition luaScript (key : string) (ttl now : Z) (r : R) : Z * R :=
  let (count, r) := r_incr rd key now r in
  if count =? 1 then (count, r_expire rd key ttl now r) else (count, r).

Definition checkRate (agentDid : string) (perMin perDay now : Z) (r : R) : RateResult * R :=
  let (minCount, r) := luaScript (minKey agentDid (now / 60000)) 120 now r in
  let (dayCount, r) := luaScript (dayKey agentDid (now / 86400000)) (86400 + 3600) now r in
  ({| rate_allowed := (minCount <=? perMin) && (dayCount <=? perDay);
      remainingMin := Z.max 0 (perMin - minCount);
      remainingDay := Z.max 0 (perDay - dayCount) |}, r).

(** A sequence of checks, by any agents. *)
Fixpoint rate_run (perMin perDay : Z) (calls : list (string * Z)) (r : R) : list RateResult * R :=
  match calls with
  | [] => ([], r)
  | (a, now) :: rest =>
    let (x, r) := checkRate a perMin perDay now r in
    let (xs, r) := rate_run perMin perDay rest r in
    (x :: xs, r)
  end.
End rate.

Lemma split_on_app c a r : occurs c a = false -> split_on c (a +:+ String c r) = a :: split_on c r.
Proof.
  induction a as [|x a IH]; intros H; simpl in H; cbn [String.append split_on].
  - by rewrite bool_decide_true.
  - apply orb_false_iff in H as [Hx Ha]. rewrite Hx. by rewrite (IH Ha).
Qed.

Lemma minKey_inj a b x y : minKey a x = minKey b y -> a = b /\ x = y.
Proof.
  intros H%string_app_inj_l%last_sep_inj; [|apply colon_free_z..].
  destruct H as [-> H%z_text_inj]. done.
Qed.

Lemma dayKey_inj a b x y : dayKey a x = dayKey b y -> a = b /\ x = y.
Proof.
  intros H%string_app_inj_l%last_sep_inj; [|apply colon_free_z..].
  destruct H as [-> H%z_text_inj]. done.
Qed.

Lemma minKey_dayKey a b x y : minKey a x <> dayKey b y.
Proof. unfold minKey, dayKey. cbn. congruence. Qed.

(** ** Dotted quads *)

Definition dotted (a b c d : Z) : string :=
  (z_text a +:+ String dot (z_text b +:+ String dot (z_text c +:+ String dot (z_text d))))%string.

Definition octet (n : Z) : Prop := 0 <= n <= 255.

Definition octet_ok (n : Z) : bool :=
  negb (occurs dot (z_text n)) && bool_decide (parseInt10 (z_text n) = Some n).

Lemma octets_ok : forallb (fun n => octet_ok (Z.of_nat n)) (seq 0 256) = true.
Proof. vm_compute. reflexivity. Qed.

Lemma octet_facts n : octet n -> occurs dot (z_text n) = false /\ parseInt10 (z_text n) = Some n.
Proof.
  intros Hn. pose proof (proj1 (forallb_forall _ _) octets_ok (Z.to_nat n)) as H.
  cbv beta in H. rewrite Z2Nat.id in H by (unfold octet in Hn; lia).
  unfold octet_ok in H. rewrite andb_true_iff, negb_true_iff, bool_decide_eq_true in H.
  apply H, in_seq. unfold octet in Hn. lia.
Qed.

Lemma split_dotted a b c d :
  octet a -> octet b -> octet c -> exists rest, split_on dot (dotted a b c d) = z_text a :: z_text b :: rest.
Proof.
  intros Ha Hb Hc. unfold dotted.
  rewrite split_on_app by apply octet_facts, Ha. rewrite split_on_app by apply octet_facts, Hb. eauto.
Qed.

(** [host.startsWith('n.')] looks at the first octet. *)
Lemma prefix_octet n a r : octet n -> octet a ->
  String.prefix (z_text n +:+ String dot "") (z_text a +:+ String dot r) = bool_decide (n = a).
Proof.
  intros Hn Ha. apply eq_iff_eq_true. rewrite bool_decide_eq_true. split.
  - intros [t H]%prefix_split. rewrite string_app_assoc in H. apply (f_equal (split_on dot)) in H.
    cbn [String.append] in H. rewrite !split_on_app in H by (by apply octet_facts).
    injection H as H _. by apply z_text_inj.
  - intros ->. replace (z_text a +:+ String dot r) with ((z_text a +:+ String dot "") +:+ r); [apply prefix_app|].
    by rewrite string_app_assoc.
Qed.

Lemma prefix_skip p a s : String.prefix (p +:+ a) (p +:+ s) = String.prefix a s.
Proof. induction p as [|x p IH]; cbn; [done|]. destruct (ascii_dec x x); done. Qed.

(** ... and ['n.m.'] at the first two. *)
Lemma prefix_octets n m a b r : octet n -> octet m -> octet a -> octet b ->
  String.prefix (z_text n +:+ String dot (z_text m +:+ String dot "")) (z_text a +:+ String dot (z_text b +:+ String dot r)) =
  bool_decide (n = a) && bool_decide (m = b).
Proof.
  intros Hn Hm Ha Hb. destruct (bool_decide_reflect (n = a)) as [->|Hne]; simpl.
  - rewrite prefix_skip. cbn. destruct (ascii_dec dot dot); [|done]. by apply prefix_octet.
  - apply not_true_iff_false. intros [t H]%prefix_split. apply Hne.
    rewrite string_app_assoc in H. apply (f_equal (split_on dot)) in H.
    cbn [String.append] in H. rewrite !split_on_app in H by (by apply octet_facts).
    injection H as H _. symmetry. by apply z_text_inj.
Qed.

(** The IPv4 blocks the gateway keeps away from. *)
Definition private_block (a b : Z) : Prop :=
  a = 127 \/ a = 10 \/ a = 192 /\ b = 168 \/ a = 169 /\ b = 254 \/ a = 0 \/ a = 172 /\ 16 <= b <= 31.

Lemma private_quad isIP a b c d :
  octet a -> octet b -> octet c -> isIP (dotted a b c d) <> 0 -> private_block a b ->
  isPrivateIp isIP (dotted a b c d) = true.
Proof.
  intros Ha Hb Hc Hip Hp. unfold isPrivateIp.
  destruct (Z.eqb_spec (isIP (dotted a b c d)) 0) as [|_]; [done|].
  case_match eqn:Hpre; [done|]. unfold PRIVATE_PREFIXES in Hpre. simpl in Hpre.
  rewrite !orb_false_iff in Hpre. destruct Hpre as (P127 & P10 & P192 & P169 & P0 & _).
  assert (Ho : forall n, 0 <= n <= 255 -> octet n) by done.
  pose proof (prefix_octet 127 a) as E127. pose proof (prefix_octet 10 a) as E10.
  pose proof (prefix_octet 0 a) as E0. pose proof (prefix_octet 172 a) as E172.
  pose proof (prefix_octets 192 168 a b) as E192. pose proof (prefix_octets 169 254 a b) as E169.
  unfold dotted in *.
  change (z_text 127 +:+ String dot "") with "127."%string in E127. rewrite E127 in P127 by (auto || apply Ho; lia).
  change (z_text 10 +:+ String dot "") with "10."%string in E10. rewrite E10 in P10 by (auto || apply Ho; lia).
  change (z_text 0 +:+ String dot "") with "0."%string in E0. rewrite E0 in P0 by (auto || apply Ho; lia).
  change (z_text 192 +:+ String dot (z_text 168 +:+ String dot "")) with "192.168."%string in E192.
  rewrite E192 in P192 by (auto || apply Ho; lia).
  change (z_text 169 +:+ String dot (z_text 254 +:+ String dot "")) with "169.254."%string in E169.
  rewrite E169 in P169 by (auto || apply Ho; lia).
  rewrite ?andb_false_iff, !bool_decide_eq_false in *.
  destruct (split_dotted a b c d) as [rest Hs]; auto. unfold dotted in Hs.
  destruct Hp as [->|[->|[[-> ->]|[[-> ->]|[->|[Ha172 Hr]]]]]]; try tauto.
  change (z_text 172 +:+ String dot "") with "172."%string in E172.
  rewrite E172 by (auto || apply Ho; lia). rewrite bool_decide_true by done. rewrite andb_true_l.
  match goal with |- context [parseInt10 ?t] => replace t with (z_text b) by (rewrite Hs; done) end.
  rewrite (proj2 (octet_facts b Hb)). rewrite (proj2 (Z.leb_le 16 b)), (proj2 (Z.leb_le b 31)) by lia. done.
Qed.

(** ** The counters *)

Section counters.
Context {R : Type} (rd : redis R) (laws : redis_laws rd).

(** After [n] runs of the script on [k] in its window, which ends at [E]. *)
Definition counted (k : string) (E n now : Z) (r : R) : Prop :=
  (n = 0 /\ r_live rd r now k = None) \/
  (0 < n /\ exists d, E <= d /\ r_live rd r now k = Some (n, Some d)).

Lemma counted_later k E n now t r : now <= t -> t < E -> counted k E n now r -> counted k E n t r.
Proof.
  intros Hle Ht [[-> H]|(Hn & d & Hd & H)]; unfold counted; rewrite (law_time rd laws r now t) by done; rewrite H; simpl.
  - by left.
  - right. split; [done|]. exists d. rewrite (proj2 (Z.ltb_lt t d)) by lia. done.
Qed.

Lemma luaScript_other k key ttl now r :
  0 < ttl -> k <> key -> r_live rd (luaScript rd key ttl now r).2 now k = r_live rd r now k.
Proof.
  intros Httl Hne. unfold luaScript. destruct (r_incr rd key now r) as [c r1] eqn:E.
  pose proof (law_incr_live rd laws r now key k) as H. rewrite E, decide_False in H by done. simpl in H.
  destruct (c =? 1); simpl; [|done]. rewrite (law_expire_live rd laws) by done. by rewrite decide_False.
Qed.

Lemma luaScript_count key ttl now E n r :
  0 < ttl -> E <= now + 1000 * ttl -> counted key E n now r ->
  (luaScript rd key ttl now r).1 = n + 1 /\ counted key E (n + 1) now (luaScript rd key ttl now r).2.
Proof.
  intros Httl HE Hc. unfold luaScript. destruct (r_incr rd key now r) as [c r1] eqn:Ei.
  pose proof (law_incr rd laws r now key) as H1. pose proof (law_incr_live rd laws r now key key) as H2.
  rewrite Ei in H1, H2. rewrite decide_True in H2 by done. simpl in H1, H2.
  destruct Hc as [[-> H]|(Hn & d & Hd & H)]; rewrite H in H1, H2; simpl in H1, H2; subst c.
  - simpl. split; [done|]. right. split; [lia|]. exists (now + 1000 * ttl). split; [done|].
    rewrite (law_expire_live rd laws), decide_True by done. by rewrite H2.
  - destruct (Z.eqb_spec (n + 1) 1); [lia|]. simpl. split; [done|]. right. split; [lia|]. eauto.
Qed.

Lemma counted_other k E n key ttl now r :
  0 < ttl -> k <> key -> counted k E n now r -> counted k E n now (luaScript rd key ttl now r).2.
Proof. unfold counted. intros. by rewrite luaScript_other. Qed.
End counters.

(** The calls of agent [a] in the window [m] of [len] milliseconds that were allowed. *)
Definition granted (a : string) (len m : Z) (calls : list (string * Z)) (out : list RateResult) : Z :=
  Z.of_nat (length (List.filter
    (fun cr : (string * Z) * RateResult => bool_decide (cr.1.1 = a) && (cr.1.2 / len =? m) && rate_allowed cr.2)
    (combine calls out))).

(** Times that never decrease, from [t0] on. *)
Fixpoint ordered (t0 : Z) (calls : list (string * Z)) : Prop :=
  match calls with
  | [] => True
  | (_, t) :: rest => t0 <= t /\ ordered t rest
  end.

Section rate_bound.
Context {R : Type} (rd : redis R) (laws : redis_laws rd).
Variables (perMin perDay : Z) (a : string) (len m cap : Z) (key : string).
Hypothesis Hlen : 0 < len.
Hypothesis Hcap : 0 <= cap.

(** What one call does to the counter [key] of the window. *)
Hypothesis hit : forall now r n, now / len = m -> counted rd key ((m + 1) * len) n now r ->
  counted rd key ((m + 1) * len) (n + 1) now (checkRate rd a perMin perDay now r).2 /\
  (rate_allowed (checkRate rd a perMin perDay now r).1 = true -> n + 1 <= cap).
Hypothesis miss : forall b now r n, b <> a \/ now / len <> m ->
  counted rd key ((m + 1) * len) n now r -> counted rd key ((m + 1) * len) n now (checkRate rd b perMin perDay now r).2.

Lemma granted_cons b t rest x xs :
  granted a len m ((b, t) :: rest) (x :: xs) =
  (if bool_decide (b = a) && (t / len =? m) && rate_allowed x then 1 else 0) + granted a len m rest xs.
Proof. unfold granted. simpl. destruct (_ && _ && _); simpl length; lia. Qed.

Lemma granted_after calls t0 r :
  (m + 1) * len <= t0 -> ordered t0 calls -> granted a len m calls (rate_run rd perMin perDay calls r).1 = 0.
Proof.
  revert t0 r. induction calls as [|[b t] rest IH]; intros t0 r Hm Ho; [done|]. destruct Ho as [Ht Ho]. simpl.
  destruct (checkRate rd b perMin perDay t r) as [x r1]. specialize (IH t r1 ltac:(lia) Ho).
  destruct (rate_run rd perMin perDay rest r1) as [xs r2]. simpl in *. rewrite granted_cons, IH.
  assert (m + 1 <= t / len) by (apply Z.div_le_lower_bound; lia).
  rewrite (proj2 (Z.eqb_neq (t / len) m)) by lia. by rewrite andb_false_r.
Qed.

Lemma granted_bound calls t0 r n :
  ordered t0 calls -> 0 <= n -> counted rd key ((m + 1) * len) n t0 r ->
  granted a len m calls (rate_run rd perMin perDay calls r).1 <= Z.max 0 (cap - n).
Proof.
  revert t0 r n. induction calls as [|[b t] rest IH]; intros t0 r n Ho Hn Hc; [unfold granted; simpl; lia|].
  destruct Ho as [Ht Ho]. destruct (Z.le_gt_cases ((m + 1) * len) t) as [Hlate|Hin].
  { rewrite (granted_after ((b, t) :: rest) t); [lia|done|by split]. }
  apply (counted_later rd laws _ _ _ _ t) in Hc; [|done..]. simpl.
  destruct (checkRate rd b perMin perDay t r) as [x r1] eqn:Ex.
  destruct (decide (b = a /\ t / len = m)) as [[-> Hw]|Hno].
  - destruct (hit t r n Hw Hc) as [Hc' Ha']. rewrite Ex in Hc', Ha'. simpl in Hc', Ha'.
    specialize (IH t r1 (n + 1) Ho ltac:(lia) Hc'). destruct (rate_run rd perMin perDay rest r1) as [xs r2].
    simpl in *. rewrite granted_cons, bool_decide_true, (proj2 (Z.eqb_eq _ _) Hw) by done. simpl.
    destruct (rate_allowed x); [specialize (Ha' eq_refl)|]; lia.
  - assert (Hno' : b <> a \/ t / len <> m) by (destruct (decide (b = a)) as [E|]; [right; intros E'; by apply Hno | by left]).
    specialize (miss b t r n Hno' Hc). rewrite Ex in miss. simpl in miss.
    specialize (IH t r1 n Ho Hn miss). destruct (rate_run rd perMin perDay rest r1) as [xs r2].
    simpl in *. rewrite granted_cons. destruct (bool_decide_reflect (b = a)); simpl; [|lia].
    destruct (Z.eqb_spec (t / len) m); simpl; [tauto|lia].
Qed.
End rate_bound.

(** Both scripts of a call, on the counter of one of them. *)
Section check_counter.
Context {R : Type} (rd : redis R) (laws : redis_laws rd).
Variables (perMin perDay : Z).

Lemma check_minute a m now r n : now / 60000 = m -> counted rd (minKey a m) ((m + 1) * 60000) n now r ->
  counted rd (minKey a m) ((m + 1) * 60000) (n + 1) now (checkRate rd a perMin perDay now r).2 /\
  (rate_allowed (checkRate rd a perMin perDay now r).1 = true -> n + 1 <= perMin).
Proof.
  intros Hm Hc. unfold checkRate. rewrite Hm.
  assert (HE : (m + 1) * 60000 <= now + 1000 * 120) by (pose proof (Z.mod_pos_bound now 60000); pose proof (Z.div_mod now 60000); lia).
  destruct (luaScript_count rd laws (minKey a m) 120 now _ n r ltac:(lia) HE Hc) as [Hn Hc1].
  destruct (luaScript rd (minKey a m) 120 now r) as [c r1]. simpl in Hn, Hc1. subst c.
  pose proof (counted_other rd laws _ _ _ (dayKey a (now / 86400000)) (86400 + 3600) now r1 ltac:(lia) (minKey_dayKey _ _ _ _) Hc1) as Hc2.
  destruct (luaScript rd (dayKey a (now / 86400000)) (86400 + 3600) now r1) as [c2 r2]. simpl in *.
  split; [done|]. intros [H _]%andb_true_iff. by apply Z.leb_le in H.
Qed.

Lemma check_minute_other a m b now r n : b <> a \/ now / 60000 <> m -> counted rd (minKey a m) ((m + 1) * 60000) n now r ->
  counted rd (minKey a m) ((m + 1) * 60000) n now (checkRate rd b perMin perDay now r).2.
Proof.
  intros Hno Hc. unfold checkRate.
  assert (Hne : minKey a m <> minKey b (now / 60000)) by (intros [-> ->]%minKey_inj; tauto).
  pose proof (counted_other rd laws _ _ _ _ 120 now r ltac:(lia) Hne Hc) as Hc1.
  destruct (luaScript rd (minKey b (now / 60000)) 120 now r) as [c r1]. simpl in Hc1.
  pose proof (counted_other rd laws _ _ _ (dayKey b (now / 86400000)) (86400 + 3600) now r1 ltac:(lia) (minKey_dayKey _ _ _ _) Hc1) as Hc2.
  by destruct (luaScript rd (dayKey b (now / 86400000)) (86400 + 3600) now r1).
Qed.

Lemma check_day a m now r n : now / 86400000 = m -> counted rd (dayKey a m) ((m + 1) * 86400000) n now r ->
  counted rd (dayKey a m) ((m + 1) * 86400000) (n + 1) now (checkRate rd a perMin perDay now r).2 /\
  (rate_allowed (checkRate rd a perMin perDay now r).1 = true -> n + 1 <= perDay).
Proof.
  intros Hm Hc. unfold checkRate. rewrite Hm.
  pose proof (counted_other rd laws _ _ _ (minKey a (now / 60000)) 120 now r ltac:(lia) (not_eq_sym (minKey_dayKey _ _ _ _)) Hc) as Hc1.
  destruct (luaScript rd (minKey a (now / 60000)) 120 now r) as [c r1]. simpl in Hc1.
  assert (HE : (m + 1) * 86400000 <= now + 1000 * (86400 + 3600)) by (pose proof (Z.mod_pos_bound now 86400000); pose proof (Z.div_mod now 86400000); lia).
  destruct (luaScript_count rd laws (dayKey a m) (86400 + 3600) now _ n r1 ltac:(lia) HE Hc1) as [Hn Hc2].
  destruct (luaScript rd (dayKey a m) (86400 + 3600) now r1) as [c2 r2]. simpl in *. subst c2.
  split; [done|]. intros [_ H]%andb_true_iff. by apply Z.leb_le in H.
Qed.

Lemma check_day_other a m b now r n : b <> a \/ now / 86400000 <> m -> counted rd (dayKey a m) ((m + 1) * 86400000) n now r ->
  counted rd (dayKey a m) ((m + 1) * 86400000) n now (checkRate rd b perMin perDay now r).2.
Proof.
  intros Hno Hc. unfold checkRate.
  pose proof (counted_other rd laws _ _ _ (minKey b (now / 60000)) 120 now r ltac:(lia) (not_eq_sym (minKey_dayKey _ _ _ _)) Hc) as Hc1.
  destruct (luaScript rd (minKey b (now / 60000)) 120 now r) as [c r1]. simpl in Hc1.
  assert (Hne : dayKey a m <> dayKey b (now / 86400000)) by (intros [-> ->]%dayKey_inj; tauto).
  pose proof (counted_other rd laws _ _ _ _ (86400 + 3600) now r1 ltac:(lia) Hne Hc1) as Hc2.
  by destruct (luaScript rd (dayKey b (now / 86400000)) (86400 + 3600) now r1).
Qed.
End check_counter.

(** ** Properties *)

(** The proxy's limits hold in every window: whatever the agents and the order
    of their requests, on a clock that does not go back, one agent is allowed at
    most [perMin] requests in any calendar minute and [perDay] in any day,
    because the counters outlive the windows they count. *)
Theorem rate_limit_per_window {R} (rd : redis R) perMin perDay calls t0 r a m d :
  redis_laws rd -> 0 <= perMin -> 0 <= perDay -> ordered t0 calls ->
  r_live rd r t0 (minKey a m) = None -> r_live rd r t0 (dayKey a d) = None ->
  granted a 60000 m calls (rate_run rd perMin perDay calls r).1 <= perMin /\
  granted a 86400000 d calls (rate_run rd perMin perDay calls r).1 <= perDay.
Proof.
  intros laws Hpm Hpd Ho Hm Hd. split.
  - pose proof (granted_bound rd laws perMin perDay a 60000 m perMin (minKey a m) ltac:(lia)
      ltac:(intros; by apply check_minute) ltac:(intros; by apply check_minute_other) calls t0 r 0 Ho) as H.
    rewrite Z.sub_0_r in H. etransitivity; [apply H; [lia|by left]|lia].
  - pose proof (granted_bound rd laws perMin perDay a 86400000 d perDay (dayKey a d) ltac:(lia)
      ltac:(intros; by apply check_day) ltac:(intros; by apply check_day_other) calls t0 r 0 Ho) as H.
    rewrite Z.sub_0_r in H. etransitivity; [apply H; [lia|by left]|lia].
Qed.

(** What the proxy may be pointed at: an allowed target is a host the operator
    listed, or an https URL whose host matches the pattern and is not the dotted
    quad of a loopback, private, link-local or unspecified IPv4 address. *)
Theorem target_allowed_safe parse_url isIP target pattern allowList :
  (forall a b c d, octet a -> octet b -> octet c -> octet d -> isIP (dotted a b c d) = 4) ->
  isTargetAllowed parse_url isIP target pattern allowList = true ->
  exists url, parse_url target = Some url /\
    (hostname url ∈ allowList \/
     protocol url = "https:" /\ matchesPattern (hostname url) pattern = true /\
     forall a b c d, octet a -> octet b -> octet c -> octet d -> hostname url = dotted a b c d -> ~ private_block a b).
Proof.
  intros Hip. unfold isTargetAllowed. destruct (parse_url target) as [url|]; [|done]. intros H. exists url. split; [done|].
  destruct (existsb _ _) eqn:El.
  - left. apply existsb_exists in El as (h & Hin & He%String.eqb_eq). subst h. by apply list_elem_of_In.
  - right. destruct (String.eqb (protocol url) "https:") eqn:Ep; [|done]. apply String.eqb_eq in Ep. simpl in H.
    destruct (isPrivateIp isIP (hostname url)) eqn:Epr; [done|]. split_and!; [done..|].
    intros a b c d Ha Hb Hc Hd Hh Hpb. rewrite Hh in Epr.
    rewrite private_quad in Epr; [done|done..| |done]. by rewrite Hip.
Qed.

(** The text an agent signs determines the terms: the target, the method, the
    budget, the mint, the body hash (present or not) and the nonce. *)
Theorem canonical_proxy_binds p q : canonicalizeProxy p = canonicalizeProxy q -> p = q.
Proof.
  unfold canonicalizeProxy. intros H. apply json_object_inj in H as [Ht Hf].
  - destruct p as [? ? ? ? [] ?], q as [? ? ? ? [] ?]; simpl in *; simplify_eq/=;
      match goal with H : z_text _ = z_text _ |- _ => apply z_text_inj in H as -> end; done.
  - case_match; simpl; unfold field_ok; simpl; by rewrite num_text_z.
  - destruct (t_body_hash p), (t_body_hash q); unfold field_ok; cbn [forallb app]; cbn [fst snd jval_ok]; by rewrite num_text_z.
Qed.

(** ** Witnesses *)

(** A Redis over a finite map. *)
Definition map_redis : redis (gmap string (Z * option Z)) :=
  {| r_incr k now r :=
       let e := until now (r !! k) in
       let v := default 0 (fst <$> e) + 1 in (v, <[ k := (v, e ≫= snd) ]> r);
     r_expire k secs now r :=
       match until now (r !! k) with
       | Some (v, _) => <[ k := (v, Some (now + 1000 * secs)) ]> r
       | None => r
       end;
     r_live r t k := until t (r !! k) |}.

Lemma until_until a b e : a <= b -> until b (until a e) = until b e.
Proof.
  intros Hab. destruct e as [[v [d|]]|]; simpl; [|done..].
  destruct (Z.ltb_spec a d); simpl; [done|]. destruct (Z.ltb_spec b d); [lia|done].
Qed.

Lemma map_redis_laws : redis_laws map_redis.
Proof.
  split; simpl.
  - intros r now t k H. by rewrite until_until.
  - done.
  - intros r now k k'. case_decide; subst; [rewrite lookup_insert_eq | by rewrite lookup_insert_ne].
    destruct (r !! k) as [[v [d|]]|]; simpl; [|done..]. by destruct (now <? d) eqn:E; simpl; rewrite ?E.
  - intros r now secs k k' Hs. case_decide; subst.
    + destruct (r !! k) as [[v [d|]]|] eqn:E; simpl.
      * destruct (now <? d) eqn:Ed; simpl.
        -- rewrite lookup_insert_eq. simpl. by rewrite (proj2 (Z.ltb_lt now (now + 1000 * secs))) by lia.
        -- rewrite E. simpl. by rewrite Ed.
      * rewrite lookup_insert_eq. simpl. by rewrite (proj2 (Z.ltb_lt now (now + 1000 * secs))) by lia.
      * by rewrite E.
    + destruct (until now (r !! k)) as [[v o]|]; [by rewrite lookup_insert_ne|done].
Qed.

Definition calls_example : list (string * Z) := [("agent-a", 1000); ("agent-a", 2000); ("agent-b", 2000); ("agent-a", 61000)].

Lemma rate_limit_per_window_witness :
  map rate_allowed (rate_run map_redis 1 100 calls_example ∅).1 = [true; false; true; true] /\
  granted "agent-a" 60000 0 calls_example (rate_run map_redis 1 100 calls_example ∅).1 <= 1.
Proof.
  split; [vm_compute; reflexivity|].
  refine (proj1 (rate_limit_per_window map_redis 1 100 calls_example 0 ∅ "agent-a" 0 0 map_redis_laws _ _ _ _ _)); [lia|lia| | |].
  - simpl. lia.
  - reflexivity.
  - reflexivity.
Defined.

Definition toy_parse (s : string) : option URL := Some {| protocol := "https:"; hostname := s |}.

Lemma target_allowed_safe_witness : exists url, toy_parse "api.saep.example" = Some url /\
    (hostname url ∈ [] \/
     protocol url = "https:" /\ matchesPattern (hostname url) "*.saep.example" = true /\
     forall a b c d, octet a -> octet b -> octet c -> octet d -> hostname url = dotted a b c d -> ~ private_block a b).
Proof. apply (target_allowed_safe toy_parse (fun _ => 4) "api.saep.example" "*.saep.example" []); reflexivity. Defined.

Definition terms_example : proxy_terms :=
  {| t_target_url := "https://api.saep.example/x"; t_method := "GET"; t_budget_lamports := 5; t_mint := "m";
     t_body_hash := None; t_nonce := "n1" |}.

Lemma canonical_proxy_binds_witness : terms_example = terms_example.
Proof. exact (canonical_proxy_binds terms_example terms_example eq_refl). Defined.
