(* ===== verification/X402Proof.v ===== *)
(** * X402Proof: field elements, proof bytes and result hashes of the x402 gateway

    Models the pure part of services/x402-gateway/src/settlement.ts (lines
    141-323): numbers as 32 big-endian bytes, Groth16 points as bytes, the digest
    of an upstream response and the Poseidon sponge over it.  SHA-256 (node:crypto)
    and Poseidon (circomlibjs) are parameters.  At the end, services/x402-gateway/src/cctp.ts:
    waiting for a cross-chain attestation; its poller, clock and timer are arguments of
    the TypeScript function and parameters here. *)

From Stdlib Require Import ZArith Lia Ascii Permutation Sorted.
From stdpp Require Import base countable sets list strings.
From S2P Require Import Prelude Effects Bytes Json ComputeBond Attestation.

Open Scope Z_scope.

Definition BN254_SCALAR_FIELD_MODULUS : Z :=
  21888242871839275222246405745257275088548364400416034343698204186575808495617.

Definition RESULT_TAG : Z := 0x52534c54.

(** ** Numbers as bytes *)

Definition fieldElementToBytes (n : Z) : bytes := fill_bytes 32 n [].

Definition bytesToDecimalString (l : bytes) : string := z_text (accumulate l).

(** BigInt's [%] truncates; [accumulate] of bytes is not negative. *)
Definition canonicalFieldBytes (l : bytes) : bytes :=
  fill_bytes 32 (Z.rem (accumulate l) BN254_SCALAR_FIELD_MODULUS) [].

(** The projective points of snarkjs: [pi_a], [pi_b] and [pi_c]. *)
Definition g1ToBytes (p : Z * Z * Z) : bytes := fieldElementToBytes p.1.1 ++ fieldElementToBytes p.1.2.

Definition g2ToBytes (p : (Z * Z) * (Z * Z) * (Z * Z)) : bytes :=
  let xIm := fieldElementToBytes p.1.1.2 in
  let xRe := fieldElementToBytes p.1.1.1 in
  let yIm := fieldElementToBytes p.1.2.2 in
  let yRe := fieldElementToBytes p.1.2.1 in
  xIm ++ xRe ++ yIm ++ yRe.

(** The lowest capability of a 128-bit mask. *)
Fixpoint first_bit (left bit : nat) (mask : Z) : option nat :=
  match left with
  | O => None
  | S left' =>
    if negb (Z.land mask (Z.shiftl 1 (Z.of_nat bit)) =? 0) then Some bit else first_bit left' (S bit) mask
  end.

Definition firstCapabilityBit (mask : Z) : result nat :=
  match first_bit 128 0 mask with
  | Some bit => Ok bit
  | None => Throw "recipient agent advertises no capabilities"
  end.

(** ** The response digest and the sponge *)

Record UpstreamResponseSnapshot := {
  sn_status : Z;
  sn_headers : list (string * string);
  sn_body : string;
}.

Section digest.
Variable sha256 : string -> bytes.
Variable toLowerCase : string -> string.
Variable localeCompare : string -> string -> comparison.
(** JSON.stringify([status, headerPairs, body]) *)
Variable stringify : Z -> list (string * string) -> string -> string.

Definition header_pairs (headers : list (string * string)) : list (string * string) :=
  js_sort (fun a b => localeCompare a.1 b.1) (map (fun kv => (toLowerCase kv.1, kv.2)) headers).

Definition responseDigest (s : UpstreamResponseSnapshot) : bytes :=
  sha256 (stringify (sn_status s) (header_pairs (sn_headers s)) (sn_body s)).

Definition responseResultPreimage (s : UpstreamResponseSnapshot) : list Z := responseDigest s.
End digest.

Section sponge.
(** circomlibjs: Poseidon of a list of field elements, read back as a number. *)
Variable poseidon : list Z -> Z.

Definition pad_to (n : nat) (l : list Z) : list Z := l ++ repeat 0 (n - length l).

(** [Math.ceil(length / chunkSize)] *)
Definition ceil_div (a b : nat) : nat := (a + b - 1) / b.

Fixpoint sponge_loop (left : nat) (chunkSize : nat) (state : Z) (l : list Z) : Z :=
  match left with
  | O => state
  | S left' => sponge_loop left' chunkSize (poseidon (state :: take chunkSize l)) (drop chunkSize l)
  end.

Definition poseidonSponge (tag : Z) (inputs : list Z) (chunkSize : nat) : Z :=
  let nChunks := ceil_div (length inputs) chunkSize in
  sponge_loop nChunks chunkSize tag (pad_to (nChunks * chunkSize) inputs).
End sponge.

(** ** Lemmas *)

Lemma accumulate_fill n : accumulate (fill_bytes 32 n []) = n mod 256 ^ 32.
Proof.
  rewrite accumulate_value by (apply fill_bytes_spec; constructor).
  rewrite fill_bytes_value. simpl. done.
Qed.

Lemma first_bit_spec left bit mask :
  match first_bit left bit mask with
  | Some b => (bit <= b < bit + left)%nat /\ Z.testbit mask (Z.of_nat b) = true /\
      forall j, (bit <= j < b)%nat -> Z.testbit mask (Z.of_nat j) = false
  | None => forall j, (bit <= j < bit + left)%nat -> Z.testbit mask (Z.of_nat j) = false
  end.
Proof.
  revert bit. induction left as [|left IH]; intros bit; simpl; [intros; lia|].
  assert (Ht : (Z.land mask (Z.shiftl 1 (Z.of_nat bit)) =? 0) = negb (Z.testbit mask (Z.of_nat bit))).
  { rewrite Z.shiftl_1_l. apply eq_iff_eq_true. rewrite Z.eqb_eq, negb_true_iff. split; intros H.
    - apply (f_equal (fun z => Z.testbit z (Z.of_nat bit))) in H.
      rewrite Z.land_spec, Z.bits_0, Z.pow2_bits_true, andb_true_r in H by lia. done.
    - apply Z.bits_inj'. intros i Hi. rewrite Z.land_spec, Z.bits_0.
      destruct (Z.eq_dec i (Z.of_nat bit)) as [->|Hne]; [by rewrite H|].
      rewrite (Z.pow2_bits_false (Z.of_nat bit) i) by lia. by rewrite andb_false_r. }
  rewrite Ht, negb_involutive. destruct (Z.testbit mask (Z.of_nat bit)) eqn:Eb.
  - split_and!; [lia|lia|done|]. intros; lia.
  - specialize (IH (S bit)). destruct (first_bit left (S bit) mask) as [b|].
    + destruct IH as (Hr & Hb & Hlow). split_and!; [lia|lia|done|]. intros j Hj.
      destruct (decide (j = bit)) as [->|]; [done|]. apply Hlow. lia.
    + intros j Hj. destruct (decide (j = bit)) as [->|]; [done|]. apply IH. lia.
Qed.

Lemma pad_to_inj n l k : length l = length k -> pad_to n l = pad_to n k -> l = k.
Proof. unfold pad_to. intros Hl H. by apply app_inj_1 in H as [-> _]. Qed.

Lemma sponge_loop_binds poseidon left c s1 s2 l1 l2 :
  length l1 = (left * c)%nat -> length l2 = (left * c)%nat ->
  sponge_loop poseidon left c s1 l1 = sponge_loop poseidon left c s2 l2 ->
  (s1 = s2 /\ l1 = l2) \/ collides poseidon.
Proof.
  revert s1 s2 l1 l2. induction left as [|left IH]; intros s1 s2 l1 l2 H1 H2 H.
  - left. destruct l1, l2; done.
  - simpl in H. apply IH in H as [[H Hd]|H]; [|by right|rewrite length_drop; lia..].
    destruct (decide (s1 :: take c l1 = s2 :: take c l2)) as [E|Hne]; [|right; unfold collides; eauto].
    left. injection E as -> Ht. split; [done|]. rewrite <- (take_drop c l1), <- (take_drop c l2). by rewrite Ht, Hd.
Qed.

Lemma ceil_div_le a b : (0 < b)%nat -> (a <= ceil_div a b * b)%nat.
Proof. intros Hb. unfold ceil_div. pose proof (Nat.div_mod (a + b - 1) b ltac:(lia)). pose proof (Nat.mod_upper_bound (a + b - 1) b ltac:(lia)). nia. Qed.

Lemma pad_to_length n l : (length l <= n)%nat -> length (pad_to n l) = n.
Proof. intros. unfold pad_to. rewrite length_app, repeat_length. lia. Qed.

Lemma sponge_binds poseidon tag c l1 l2 :
  (0 < c)%nat -> length l1 = length l2 -> poseidonSponge poseidon tag l1 c = poseidonSponge poseidon tag l2 c ->
  l1 = l2 \/ collides poseidon.
Proof.
  intros Hc Hl. unfold poseidonSponge. rewrite <- Hl. intros H. pose proof (ceil_div_le (length l1) c Hc).
  apply sponge_loop_binds in H as [[_ H]|H]; [|by right|apply pad_to_length; lia..].
  left. by apply pad_to_inj in H.
Qed.

(** Sorting by a total order on distinct keys forgets the order of the input. *)
Section sort_perm.
Context {A : Type} (cmp : A -> A -> comparison).
Hypothesis cmp_total : forall x y, cmp x y = Gt -> cmp_le cmp y x = true.
Hypothesis cmp_trans : forall x y z, cmp_le cmp x y = true -> cmp_le cmp y z = true -> cmp_le cmp x z = true.

Lemma cmp_le_refl x : cmp_le cmp x x = true.
Proof.
  destruct (cmp_le cmp x x) eqn:E; [done|]. pose proof E as E'. unfold cmp_le in E'.
  destruct (cmp x x) eqn:Ec; try done. by rewrite cmp_total in E.
Qed.

Lemma js_sort_perm_eq l k :
  (forall x y, x ∈ l -> y ∈ l -> cmp_le cmp x y = true -> cmp_le cmp y x = true -> x = y) ->
  Permutation l k -> js_sort cmp l = js_sort cmp k.
Proof.
  intros Hanti Hp.
  assert (Hs : forall m, StronglySorted (fun x y => cmp_le cmp x y = true) (js_sort cmp m)).
  { intros m. apply js_sort_sorted; [done| |eauto]. intros x y. unfold cmp_le at 1. case_match eqn:E; try done.
    intros _. by apply cmp_total. }
  assert (Hpp : Permutation (js_sort cmp l) (js_sort cmp k)) by (by rewrite !js_sort_perm).
  assert (Hin : forall x, x ∈ js_sort cmp l -> x ∈ l) by (intros x; by rewrite js_sort_perm).
  pose proof (Hs l) as Sl. pose proof (Hs k) as Sk.
  revert Sl Sk Hpp Hin. generalize (js_sort cmp l) (js_sort cmp k). clear Hp Hs.
  intros u v Su. revert v. induction Su as [|x u Su IH Hx]; intros v Sv Hp Hin.
  - by apply Permutation_nil in Hp as ->.
  - destruct Sv as [|y v Sv Hy]; [by apply Permutation_length in Hp|].
    assert (x = y) as <-.
    { apply Hanti.
      - apply Hin. by left.
      - apply Hin. rewrite Hp. by left.
      - assert (Hyin : y ∈ x :: u) by (rewrite Hp; by left).
        apply elem_of_cons in Hyin as [->|Hyin]; [apply cmp_le_refl|].
        rewrite Forall_forall in Hx. by apply Hx.
      - assert (Hxin : x ∈ y :: v) by (rewrite <- Hp; by left).
        apply elem_of_cons in Hxin as [->|Hxin]; [apply cmp_le_refl|].
        rewrite Forall_forall in Hy. by apply Hy. }
    f_equal. apply IH; [done|by apply Permutation_cons_inv in Hp|]. intros z Hz. apply Hin. by right.
Qed.
End sort_perm.

(** ** Properties *)

(** Field elements survive the trip through bytes: any number is written as 32
    bytes whose decimal text is the number modulo 2^256; and the canonical bytes
    of a byte string are the 32-byte form of its value modulo the BN254 scalar
    field, the same for two strings exactly when their values are congruent. *)
Theorem field_bytes_roundtrip n l k :
  Forall is_byte l -> Forall is_byte k ->
  length (fieldElementToBytes n) = 32%nat /\ Forall is_byte (fieldElementToBytes n) /\
  bytesToDecimalString (fieldElementToBytes n) = z_text (n mod 2 ^ 256) /\
  bytesToDecimalString (canonicalFieldBytes l) = z_text (accumulate l mod BN254_SCALAR_FIELD_MODULUS) /\
  canonicalFieldBytes (canonicalFieldBytes l) = canonicalFieldBytes l /\
  (canonicalFieldBytes l = canonicalFieldBytes k <->
   accumulate l mod BN254_SCALAR_FIELD_MODULUS = accumulate k mod BN254_SCALAR_FIELD_MODULUS).
Proof.
  intros Hl Hk.
  assert (Hcan : forall m, Forall is_byte m ->
    accumulate (canonicalFieldBytes m) = accumulate m mod BN254_SCALAR_FIELD_MODULUS).
  { intros m Hm. unfold canonicalFieldBytes. rewrite accumulate_fill, Z.rem_mod_nonneg.
    - apply Z.mod_small. pose proof (Z.mod_pos_bound (accumulate m) BN254_SCALAR_FIELD_MODULUS ltac:(done)).
      assert (BN254_SCALAR_FIELD_MODULUS < 256 ^ 32) by done. lia.
    - rewrite accumulate_value by done. by apply be_value_nonneg.
    - done. }
  assert (Hcb : forall m, length (canonicalFieldBytes m) = 32%nat /\ Forall is_byte (canonicalFieldBytes m)).
  { intros m. unfold canonicalFieldBytes. split; apply fill_bytes_spec. constructor. }
  assert (Heq : forall m1 m2, Forall is_byte m1 -> Forall is_byte m2 ->
    accumulate m1 mod BN254_SCALAR_FIELD_MODULUS = accumulate m2 mod BN254_SCALAR_FIELD_MODULUS ->
    canonicalFieldBytes m1 = canonicalFieldBytes m2).
  { intros m1 m2 H1 H2 E. rewrite <- !Hcan in E by done. destruct (Hcb m1) as [L1 B1], (Hcb m2) as [L2 B2].
    rewrite !accumulate_value in E by done. apply (be_value_inj _ _ 0 0); [congruence|done..]. }
  split_and!.
  - apply fill_bytes_spec.
  - apply fill_bytes_spec. constructor.
  - unfold bytesToDecimalString, fieldElementToBytes. by rewrite accumulate_fill.
  - unfold bytesToDecimalString. by rewrite Hcan.
  - apply Heq; [apply Hcb|done|]. rewrite Hcan by done. by rewrite Z.mod_mod.
  - split; [|by apply Heq]. intros E. apply (f_equal accumulate) in E. by rewrite !Hcan in E.
Qed.

(** The capability a settlement task is created for is the lowest bit the
    recipient's 128-bit mask advertises; it throws exactly for an empty mask. *)
Theorem first_capability_lowest mask :
  match firstCapabilityBit mask with
  | Ok b => (b < 128)%nat /\ Z.testbit mask (Z.of_nat b) = true /\
      forall j, (j < b)%nat -> Z.testbit mask (Z.of_nat j) = false
  | Throw _ => forall j, (j < 128)%nat -> Z.testbit mask (Z.of_nat j) = false
  end.
Proof.
  unfold firstCapabilityBit. pose proof (first_bit_spec 128 0 mask) as H.
  destruct (first_bit 128 0 mask) as [b|].
  - destruct H as (Hr & Hb & Hlow). split_and!; [lia|done|]. intros; apply Hlow; lia.
  - intros j Hj. apply H. lia.
Qed.

(** The submitted result binds the response: two upstream responses with one
    result hash have the same serialized status, headers and body, or exhibit a
    collision of SHA-256 or of Poseidon; and the order in which the upstream sent
    its (distinct) headers does not matter. *)
Theorem result_hash_binds_response sha256 toLower lc stringify poseidon s1 s2 :
  (forall m, length (sha256 m) = 32%nat) ->
  (forall a b, lc a b = Gt -> lc b a <> Gt) ->
  (forall a b c, lc a b <> Gt -> lc b c <> Gt -> lc a c <> Gt) ->
  (forall a b, lc a b <> Gt -> lc b a <> Gt -> a = b) ->
  let text s := stringify (sn_status s) (header_pairs toLower lc (sn_headers s)) (sn_body s) in
  let result s := poseidonSponge poseidon RESULT_TAG (responseResultPreimage sha256 toLower lc stringify s) 15 in
  (result s1 = result s2 -> text s1 = text s2 \/ collides sha256 \/ collides poseidon) /\
  (sn_status s1 = sn_status s2 -> sn_body s1 = sn_body s2 -> Permutation (sn_headers s1) (sn_headers s2) ->
   NoDup (map (fun kv => toLower kv.1) (sn_headers s1)) -> result s1 = result s2).
Proof.
  intros Hsha Htot Htr Hanti text res. split.
  - intros H. apply sponge_binds in H as [H|H]; [|by right; right|lia|].
    + destruct (decide (text s1 = text s2)) as [|Hne]; [by left|]. right. left. by exists (text s1), (text s2).
    + unfold responseResultPreimage, responseDigest. by rewrite !Hsha.
  - intros Hst Hb Hp Hnd. unfold res, responseResultPreimage, responseDigest. do 2 f_equal.
    rewrite Hst, Hb. f_equal. unfold header_pairs. apply js_sort_perm_eq.
    + intros [x u] [y v]. unfold cmp_le. simpl. intros H. specialize (Htot x y H). by destruct (lc y x).
    + intros [x u] [y v] [z w']. unfold cmp_le. simpl. intros H1 H2.
      specialize (Htr x y z). destruct (lc x y), (lc y z); try done; destruct (lc x z); try done; by destruct Htr.
    + intros x y Hx Hy. unfold cmp_le. cbv beta. intros H1 H2.
      assert (Hk : x.1 = y.1) by (apply Hanti; intros E; by rewrite E in *).
      apply list_elem_of_fmap in Hx as (a & -> & Ha), Hy as (b & -> & Hb'). simpl in Hk.
      enough (a = b) by congruence. clear H1 H2 Hp Hst Hb text res.
      induction (sn_headers s1) as [|h hs IH]; [by apply elem_of_nil in Ha|]. simpl in Hnd. apply NoDup_cons in Hnd as [Hn Hnd].
      apply elem_of_cons in Ha as [->|Ha], Hb' as [->|Hb']; try done.
      * exfalso. apply Hn. rewrite Hk. by apply list_elem_of_In, (in_map (fun kv => toLower kv.1)), list_elem_of_In.
      * exfalso. apply Hn. rewrite <- Hk. by apply list_elem_of_In, (in_map (fun kv => toLower kv.1)), list_elem_of_In.
      * auto.
    + by apply fmap_Permutation.
Qed.

(** ** Witnesses *)

Lemma field_bytes_roundtrip_witness :
  length (fieldElementToBytes 258) = 32%nat /\ bytesToDecimalString (fieldElementToBytes 258) = "258".
Proof.
  destruct (field_bytes_roundtrip 258 [1; 2] [1; 2]) as (H1 & _ & H2 & _).
  - repeat constructor; unfold is_byte; lia.
  - repeat constructor; unfold is_byte; lia.
  - split; [exact H1|exact H2].
Defined.

(** Some total order on strings, a digest and a hash. *)
Definition toy_compare (a b : string) : comparison := Pos.compare (encode a) (encode b).
Definition toy_digest (m : string) : bytes := take 32 (map (fun c => Z.of_nat (nat_of_ascii c)) (String.list_ascii_of_string m) ++ repeat 0 32).
Definition toy_poseidon (l : list Z) : Z := fold_left (fun a x => 31 * a + x + 7) l 1.
Definition toy_stringify (st : Z) (hs : list (string * string)) (b : string) : string :=
  z_text st +:+ String.concat "," (map (fun kv => kv.1 +:+ "=" +:+ kv.2) hs) +:+ b.

Lemma toy_compare_le a b : toy_compare a b <> Gt <-> (encode a <= encode b)%positive.
Proof. done. Qed.

Definition snapshot_a : UpstreamResponseSnapshot :=
  {| sn_status := 200; sn_headers := [("b", "2"); ("a", "1")]; sn_body := "ok" |}.
Definition snapshot_b : UpstreamResponseSnapshot :=
  {| sn_status := 200; sn_headers := [("a", "1"); ("b", "2")]; sn_body := "ok" |}.

Lemma result_hash_binds_response_witness :
  poseidonSponge toy_poseidon RESULT_TAG
    (responseResultPreimage toy_digest (fun s => s) toy_compare toy_stringify snapshot_a) 15 =
  poseidonSponge toy_poseidon RESULT_TAG
    (responseResultPreimage toy_digest (fun s => s) toy_compare toy_stringify snapshot_b) 15.
Proof.
  refine (proj2 (result_hash_binds_response toy_digest (fun s => s) toy_compare toy_stringify toy_poseidon
    snapshot_a snapshot_b _ _ _ _) eq_refl eq_refl _ _).
  - intros m. unfold toy_digest. rewrite length_take, length_app, repeat_length. lia.
  - intros a b H. apply toy_compare_le. unfold toy_compare in H. apply Pos.compare_gt_iff in H. lia.
  - intros a b c. rewrite !toy_compare_le. lia.
  - intros a b. rewrite !toy_compare_le. intros H1 H2. apply (inj encode). lia.
  - apply Permutation_swap.
  - apply (bool_decide_unpack _). vm_compute. exact I.
Defined.

(** ** Waiting for a cross-chain attestation *)

Open Scope saep_scope.

Record CctpMessage := {
  sourceDomain : Z;
  destDomain : Z;
  cctp_amount : Z;
  cctp_recipient : string;
  cctp_nonce : string;
}.

Definition SOLANA_DOMAIN : Z := 5.

Definition validateCctpTarget (msg : CctpMessage) : result unit :=
  if negb (destDomain msg =? SOLANA_DOMAIN) then Throw ("cctp dest domain must be solana (" +:+ z_text SOLANA_DOMAIN +:+ ")")
  else if cctp_amount msg <=? 0 then Throw "cctp amount must be positive"
  else Ok tt.

Section attestation.
Context {W : Type}.
Variable poll : string -> io W (option string).
Variable now : W -> Z.
Variable sleep : Z -> W -> W.

(** [for (;;)], at most [fuel] rounds of it. *)
Fixpoint attestation_loop (fuel : nat) (messageHash : string) (timeoutMs intervalMs deadline : Z) : io W string :=
  match fuel with
  | O => fun _ => None
  | S fuel' =>
    do! res <- poll messageHash in
    match res with
    | Some attestation => io_ret attestation
    | None => fun w =>
      if deadline <=? now w then io_throw ("cctp attestation timeout after " +:+ z_text timeoutMs +:+ "ms") w
      else attestation_loop fuel' messageHash timeoutMs intervalMs deadline (sleep intervalMs w)
    end
  end.

Definition waitForAttestation (fuel : nat) (messageHash : string) (timeoutMs intervalMs : Z) : io W string := fun w =>
  attestation_loop fuel messageHash timeoutMs intervalMs (now w + timeoutMs) w.

Hypothesis poll_answers : forall h w, exists r w', poll h w = Some (r, w') /\ now w <= now w'.
Hypothesis sleep_passes : forall ms w, 0 <= ms -> now w + ms <= now (sleep ms w).

Lemma attestation_loop_returns fuel h timeoutMs intervalMs deadline w :
  0 < intervalMs -> deadline - now w < Z.of_nat fuel * intervalMs ->
  is_Some (attestation_loop (S fuel) h timeoutMs intervalMs deadline w).
Proof.
  intros Hi. revert w. induction fuel as [|fuel IH]; intros w Hd; cbn [attestation_loop]; unfold io_bind;
    destruct (poll_answers h w) as (r & w1 & -> & Hw1); destruct r as [[a|]|e]; try (by eexists).
  - rewrite (proj2 (Z.leb_le deadline (now w1))) by lia. by eexists.
  - destruct (Z.leb_spec deadline (now w1)); [by eexists|].
    pose proof (sleep_passes intervalMs w1 ltac:(lia)). apply IH. lia.
Qed.

(** The wait for an attestation ends: if polling takes no time backwards and the
    timer sleeps at least as long as asked, [timeout / interval + 2] polls are
    enough for the function to return the polled attestation or to time out. *)
Theorem attestation_wait_bounded h timeoutMs intervalMs w fuel :
  0 < intervalMs -> 0 <= timeoutMs -> timeoutMs / intervalMs + 2 <= Z.of_nat fuel ->
  is_Some (waitForAttestation fuel h timeoutMs intervalMs w).
Proof.
  intros Hi Ht Hf. unfold waitForAttestation.
  assert (0 <= timeoutMs / intervalMs) by (apply Z.div_pos; lia).
  destruct fuel as [|fuel]; [lia|]. apply attestation_loop_returns; [done|].
  pose proof (Z.div_mod timeoutMs intervalMs ltac:(lia)). pose proof (Z.mod_pos_bound timeoutMs intervalMs Hi). nia.
Qed.
End attestation.

(** A service that attests at time 5000, polled every two seconds. *)
Definition attest_at (h : string) (w : Z) : option (result (option string) * Z) :=
  Some (Ok (if 5000 <=? w then Some h else None), w).

Lemma attestation_wait_bounded_witness :
  is_Some (waitForAttestation attest_at (fun w => w) Z.add 47 "hash" 90000 2000 0).
Proof.
  apply (attestation_wait_bounded attest_at (fun w => w) Z.add).
  - intros h w. do 2 eexists. split; [reflexivity|lia].
  - intros; lia.
  - lia.
  - lia.
  - vm_compute. discriminate.
Defined.
