(* ===== verification/X402Settle.v ===== *)
(** * X402Settle: settling an x402 challenge through the task market

    Models services/x402-gateway/src/settlement.ts: the escrow task created and
    funded for a payment, the retries around it, the managed completion
    (submit, verify, release) and the check of a receipt.  The chain, the RPC node
    and the prover are operations of the outside world ([solana]); keys and hashes
    are parameters ([env]); a key pair is its public key. *)

From Stdlib Require Import ZArith QArith Lqa Ascii.
From stdpp Require Import base sets list strings.
From S2P Require Import Prelude Effects Json ComputeBond Attestation X402Proof.

Open Scope Z_scope.
Open Scope saep_scope.

(** ** Data *)

Inductive cluster_name := mainnet_beta | devnet | localnet.

#[export] Instance cluster_name_eq_dec : EqDecision cluster_name.
Proof. solve_decision. Defined.

Record SettlementConfig := {
  cluster : cluster_name;
  keypair : option bytes;
  recipientKeypair : option bytes;
  taskDeadlineSecs : Z;
}.

(** A challenge as the upstream sent it.  Nothing checks its fields: the amount
    is [None] when it is missing, and may be negative or fractional. *)
Record PaymentDetails := {
  scheme : string;
  p_amount : option Q;
  p_mint : string;
  p_recipient : string;
  resource : string;
  p_nonce : option string;
}.

Record PaymentReceipt := {
  tx_sig : string;
  r_amount : option Q;
  r_mint : string;
  r_task : option string;
  task_id_hex : option string;
  task_status : option string;
}.

Record TaskAccountState := {
  taskId : bytes;
  taskHash : bytes;
  resultHash : bytes;
  criteriaRoot : bytes;
  deadline : Z;
  submittedAt : Z;
  disputeWindowEnd : Z;
  paymentMint : bytes;
  client : bytes;
  agentDid : bytes;
  t_status : list string;  (* the keys of the Anchor enum object *)
}.

Record AgentAccount := {
  a_address : bytes;
  a_did : bytes;
  a_operator : bytes;
  a_status : string;
  capabilityMask : Z;
}.

Record MarketGlobal := {
  allowedPaymentMints : list bytes;
  maxDeadlineSecs : Z;
  feeCollector : bytes;
  solrepPool : bytes;
}.

Record SampleInput := {
  s_task_hash : string;
  s_result_hash : string;
  s_deadline : string;
  s_submitted_at : string;
  s_criteria_root : string;
  s_task_preimage : list string;
  s_result_preimage : list string;
  s_salt : string;
  s_criteria_satisfied : list string;
  s_criteria_path : list string;
  s_criteria_index : list string;
}.

Record SnarkProof := {
  pi_a : Z * Z * Z;
  pi_b : (Z * Z) * (Z * Z) * (Z * Z);
  pi_c : Z * Z * Z;
}.

(** What the gateway puts in transactions, as the programs read it: the amount is the
    u64 on the wire. *)
Inductive instruction :=
| I_createTask (nonce did mint : bytes) (amount : Z) (capabilityBit : nat) (argsHash criteria criteria_root : bytes)
    (deadline : Z) (milestones : Z) (client agent : bytes)
| I_fundTask (task mint escrow payerTokenAccount guard client tokenProgram : bytes)
| I_submitResult (operator task agent resultHash proofKey : bytes)
| I_verifyTask (cranker task verifierKey vkId proofA proofB proofC : bytes)
| I_release (cranker task mint agentTokenAccount feeTokenAccount solrepTokenAccount agent client tokenProgram : bytes).

Inductive TxStatus := confirmed | finalized | not_found | tx_failed.

#[export] Instance TxStatus_eq_dec : EqDecision TxStatus.
Proof. solve_decision. Defined.

Record VerificationResult := {
  v_status : TxStatus;
  v_slot : option Z;
  v_err : option string;
  v_task : option string;
  v_task_id_hex : option string;
  v_task_status : option string;
}.

(** The body of a getTransaction reply: an error message, or the transaction's
    slot and the text of its error, if it has one. *)
Inductive rpc_reply :=
| Rpc_status (status : Z)
| Rpc_error (message : string)
| Rpc_result (tx : option (option Z * option string)).

(** ** The outside *)

Record env := {
  e_sha256 : bytes -> bytes;
  e_utf8 : string -> bytes;
  e_hex : bytes -> string;
  e_unhex : string -> bytes;
  e_PublicKey : string -> result bytes;
  e_toBase58 : bytes -> string;
  e_number : option Q -> string;
  e_ata : bytes -> bytes -> bytes -> bytes;          (* mint, owner, token program *)
  e_taskPda : bytes -> bytes -> bytes;
  e_taskEscrowPda : bytes -> bytes;
  e_guardPda : bytes;
  e_verifierKeyPda : bytes -> bytes;
  e_TOKEN_PROGRAM_ID : bytes;
  e_TOKEN_2022_PROGRAM_ID : bytes;
  e_bn_u64 : Z -> result Z;                          (* [new BN(n)] of a number, written by Borsh as a u64 *)
  e_sample : result SampleInput;                     (* the sample circuit input on disk *)
  e_BigInt : string -> result Z;                     (* BigInt of a decimal text *)
  e_settlement_text : string -> PaymentDetails -> string -> string;  (* JSON.stringify in simulateSettlement *)
  e_stringify : Z -> list (string * string) -> string -> string;
  e_toLowerCase : string -> string;
  e_localeCompare : string -> string -> comparison;
  e_poseidon : list Z -> Z;
}.

Record solana (W : Type) := {
  so_task : bytes -> io W (option TaskAccountState);
  so_agent : string -> io W (option AgentAccount);
  so_mint_owner : bytes -> io W (option bytes);
  so_token_balance : bytes -> io W (option Z);
  so_market : io W MarketGlobal;
  so_slot : io W Z;
  so_blockTime : Z -> io W (option Z);
  so_dateNow : W -> Z;
  so_latestBlockhash : io W string;
  so_sendAndConfirm : list bytes -> string -> list instruction -> io W string;
  so_sleep : Z -> W -> W;
  so_randomBytes : nat -> io W bytes;
  so_fullProve : SampleInput -> io W SnarkProof;
  so_getTransaction : string -> io W rpc_reply;
}.
Arguments so_task {W} _ _ _.
Arguments so_agent {W} _ _ _.
Arguments so_mint_owner {W} _ _ _.
Arguments so_token_balance {W} _ _ _.
Arguments so_market {W} _ _.
Arguments so_slot {W} _ _.
Arguments so_blockTime {W} _ _ _.
Arguments so_dateNow {W} _ _.
Arguments so_latestBlockhash {W} _ _.
Arguments so_sendAndConfirm {W} _ _ _ _ _.
Arguments so_sleep {W} _ _ _.
Arguments so_randomBytes {W} _ _ _.
Arguments so_fullProve {W} _ _ _.
Arguments so_getTransaction {W} _ _ _.

Definition parseTaskStatus (status : list string) : string := default "unknown" (head status).

(** [error.message.includes(sub)] *)
Definition includes (sub s : string) : bool :=
  match String.index 0 sub s with
  | Some _ => true
  | None => false
  end.

Definition isDisputeWindowOpen (message : string) : bool := includes "DisputeWindowOpen" message.

(** [payment.amount > budgetLamports], false when the amount is not a number. *)
Definition over_budget (amount : option Q) (budget : Z) : bool :=
  match amount with
  | Some q => q_ltb (inject_Z budget) q
  | None => false
  end.

(** [BigInt(payment.amount)] *)
Definition BigInt_amount (amount : option Q) : result Z :=
  match amount with
  | None => Throw "Cannot convert undefined to a BigInt"
  | Some q =>
    if is_integer q then Ok (Qnum q / Zpos (Qden q))
    else Throw "The number cannot be converted to a BigInt because it is not an integer"
  end.

(** The configuration of the overload that takes an RPC URL and a cluster. *)
Definition legacy_config (c : cluster_name) : SettlementConfig :=
  {| cluster := c; keypair := None; recipientKeypair := None; taskDeadlineSecs := 300 |}.

Definition deadline_offset (taskDeadlineSecs deadlineCeiling : Z) : Z :=
  let requestedDeadlineSecs := Z.max 61 taskDeadlineSecs in
  Z.min requestedDeadlineSecs (Z.max 61 (deadlineCeiling - 1)).

(** The signers of a transaction, each once. *)
Fixpoint distinct (seen l : list bytes) : list bytes :=
  match l with
  | [] => []
  | x :: l' => if bool_decide (x ∈ seen) then distinct seen l' else x :: distinct (x :: seen) l'
  end.

Definition with_status (r : PaymentReceipt) (idHex : option string) (st : string) : PaymentReceipt :=
  {| tx_sig := tx_sig r; r_amount := r_amount r; r_mint := r_mint r; r_task := r_task r;
     task_id_hex := idHex; task_status := Some st |}.

Section settlement.
Context {W : Type}.
Variable E : env.
Variable so : solana W.

(** ** Time and transactions *)

(** Evaluated where [??] falls through to [Date.now()]. *)
Definition dateSecs : io W Z := fun w => Some (Ok (so_dateNow so w / 1000), w).

Definition currentClusterTime : io W Z :=
  do! slot <- so_slot so in
  do! t <- so_blockTime so slot in
  match t with
  | Some ts => io_ret ts
  | None => dateSecs
  end.

Definition sleep (ms : Z) : io W unit := fun w => Some (Ok tt, so_sleep so ms w).

(** [while (true)], at most [fuel] rounds of it. *)
Fixpoint waitForDisputeWindow (fuel : nat) (endTs : Z) : io W unit :=
  match fuel with
  | O => fun _ => None
  | S fuel' =>
    do! now <- currentClusterTime in
    if endTs <=? now then io_ret tt
    else do! _ <- sleep (Z.min (endTs - now + 1) 5 * 1000) in waitForDisputeWindow fuel' endTs
  end.

Definition resolveTokenProgram (mint : bytes) : io W bytes :=
  do! owner <- so_mint_owner so mint in
  match owner with
  | None => io_throw ("payment mint " +:+ e_toBase58 E mint +:+ " was not found")
  | Some o =>
    if bool_decide (o = e_TOKEN_2022_PROGRAM_ID E) then io_ret (e_TOKEN_2022_PROGRAM_ID E)
    else if bool_decide (o = e_TOKEN_PROGRAM_ID E) then io_ret (e_TOKEN_PROGRAM_ID E)
    else io_throw ("payment mint " +:+ e_toBase58 E mint +:+ " is not an SPL token mint")
  end.

(** The body of the retry loop's [try]. *)
Definition send_once (signers : list bytes) (ixs : list instruction) : io W string :=
  do! latestBlockhash <- so_latestBlockhash so in so_sendAndConfirm so signers latestBlockhash ixs.

(** Attempts [attempt] to 4. *)
Fixpoint send_loop (left : nat) (attempt : Z) (signers : list bytes) (ixs : list instruction) (lastError : string) :
    io W string :=
  match left with
  | O => io_throw lastError
  | S left' =>
    io_catch (send_once signers ixs) (fun error =>
      if negb (includes "Blockhash not found" error) || (attempt =? 4) then io_throw error
      else do! _ <- sleep (attempt * 400) in send_loop left' (attempt + 1) signers ixs error)
  end.

Definition sendInstructions (feePayer : bytes) (extraSigners : list bytes) (ixs : list instruction) : io W string :=
  send_loop 4 1 (distinct [] (feePayer :: extraSigners)) ixs "".

(** ** Receipts *)

(** The simulated signature of a local cluster. *)
Definition simulateSettlement (payment : PaymentDetails) (requesterDid argsHash : string) : PaymentReceipt :=
  {| tx_sig := "localnet_" +:+ String.substring 0 24
       (e_hex E (e_sha256 E (e_utf8 E (e_settlement_text E requesterDid payment argsHash))));
     r_amount := p_amount payment; r_mint := p_mint payment;
     r_task := None; task_id_hex := None; task_status := None |}.

Definition fetchTaskState (taskAddress : string) : io W (option TaskAccountState) :=
  do! pk <- io_lift (e_PublicKey E taskAddress) in so_task so pk.

Definition refreshReceiptStatus (c : cluster_name) (receipt : PaymentReceipt) : io W PaymentReceipt :=
  match r_task receipt with
  | None => io_ret receipt
  | Some addr =>
    if String.eqb addr "" || bool_decide (c = localnet) then io_ret receipt
    else
      do! task <- fetchTaskState addr in
      match task with
      | None => io_ret receipt
      | Some t =>
        io_ret (with_status receipt (Some (default (e_hex E (taskId t)) (task_id_hex receipt)))
                  (parseTaskStatus (t_status t)))
      end
  end.

(** ** Paying *)

Definition decodeBase58Key (label value : string) : io W bytes :=
  match e_PublicKey E value with
  | Ok k => io_ret k
  | Throw _ => io_throw (label +:+ " must be a valid base58-encoded public key")
  end.

Definition settleViaTaskMarket (cfg : SettlementConfig) (payment : PaymentDetails)
    (requesterDid argsHash : string) (budgetLamports : Z) : io W PaymentReceipt :=
  do! _ <- io_check (negb (over_budget (p_amount payment) budgetLamports))
    ("payment " +:+ e_number E (p_amount payment) +:+ " exceeds budget " +:+ z_text budgetLamports) in
  if bool_decide (cluster cfg = localnet) then io_ret (simulateSettlement payment requesterDid argsHash)
  else if bool_decide (cluster cfg = mainnet_beta)
  then io_throw "mainnet settlement requires Jito bundle path — not yet wired"
  else match keypair cfg with
  | None => io_throw "SAEP_OPERATOR_KEYPAIR is required for live task_market settlement"
  | Some payer =>
    do! sample <- io_lift (e_sample E) in
    do! recipientDid <- decodeBase58Key "payment recipient" (p_recipient payment) in
    do! found <- so_agent so (e_hex E recipientDid) in
    match found with
    | None => io_throw ("recipient DID " +:+ p_recipient payment +:+ " is not registered in agent_registry")
    | Some recipient =>
      do! _ <- io_check (String.eqb (a_status recipient) "active")
        ("recipient DID " +:+ p_recipient payment +:+ " is not active") in
      do! requesterDidBytes <- decodeBase58Key "requester DID" requesterDid in
      do! mint <- io_lift (e_PublicKey E (p_mint payment)) in
      do! tokenProgramId <- resolveTokenProgram mint in
      let payerTokenAccount := e_ata E mint payer tokenProgramId in
      do! balance <- io_catch (so_token_balance so payerTokenAccount) (fun _ => io_ret None) in
      match balance with
      | None => io_throw ("payer token account " +:+ e_toBase58 E payerTokenAccount +:+
                          " does not exist for mint " +:+ e_toBase58 E mint)
      | Some bal =>
        do! amount <- io_lift (BigInt_amount (p_amount payment)) in
        do! _ <- io_check (negb (bal <? amount))
          ("payer token account " +:+ e_toBase58 E payerTokenAccount +:+ " has insufficient balance for " +:+
           e_number E (p_amount payment)) in
        do! g <- so_market so in
        do! _ <- io_check (existsb (fun m => bool_decide (m = mint)) (allowedPaymentMints g))
          ("payment mint " +:+ e_toBase58 E mint +:+ " is not allowed by task_market") in
        let deadlineOffset := deadline_offset (taskDeadlineSecs cfg) (maxDeadlineSecs g) in
        do! _ <- io_check (negb (deadlineOffset <=? 60)) "task_market maxDeadlineSecs is too small for x402 settlement" in
        do! now <- currentClusterTime in
        do! taskNonce <- so_randomBytes so 8 in
        do! capabilityBit <- io_lift (firstCapabilityBit (capabilityMask recipient)) in
        do! wireAmount <- io_lift (e_bn_u64 E amount) in
        do! criteria_root <- io_lift (e_BigInt E (s_criteria_root sample)) in
        let taskAddress := e_taskPda E payer taskNonce in
        let createIx := I_createTask taskNonce (a_did recipient) mint wireAmount capabilityBit (e_unhex E argsHash)
          requesterDidBytes (fieldElementToBytes criteria_root) (now + deadlineOffset) 1 payer (a_address recipient) in
        let fundIx := I_fundTask taskAddress mint (e_taskEscrowPda E taskAddress) payerTokenAccount (e_guardPda E)
          payer tokenProgramId in
        do! txSig <- sendInstructions payer [] [createIx; fundIx] in
        do! task <- so_task so taskAddress in
        match task with
        | None => io_throw "Account does not exist or has no data"
        | Some t =>
          do! _ <- io_check (bool_decide ("funded" ∈ t_status t))
            ("task " +:+ e_toBase58 E taskAddress +:+ " was created but did not reach funded status") in
          io_ret {| tx_sig := txSig; r_amount := p_amount payment; r_mint := p_mint payment;
                    r_task := Some (e_toBase58 E taskAddress);
                    task_id_hex := Some (e_hex E (taskId t));
                    task_status := Some (parseTaskStatus (t_status t)) |}
        end
      end
    end
  end.

(** ** Completing a managed payment *)

Definition resolveManagedRecipientSigner (cfg : SettlementConfig) (expectedOperator : bytes) : option bytes :=
  if bool_decide (recipientKeypair cfg = Some expectedOperator) then recipientKeypair cfg
  else if bool_decide (keypair cfg = Some expectedOperator) then keypair cfg
  else None.

Definition sha256_text (s : string) : bytes := e_sha256 E (e_utf8 E s).

Record managed_witness := {
  mw_resultHash : bytes;
  mw_proofKey : bytes;
  mw_input : SampleInput;
}.

Definition buildManagedWitness (t : TaskAccountState) (snapshot : UpstreamResponseSnapshot) : result managed_witness :=
  let! sample := e_sample E in
  let resultPreimage := responseResultPreimage sha256_text (e_toLowerCase E) (e_localeCompare E) (e_stringify E) snapshot in
  let resultHash := poseidonSponge (e_poseidon E) RESULT_TAG resultPreimage 15 in
  let responseHash := responseDigest sha256_text (e_toLowerCase E) (e_localeCompare E) (e_stringify E) snapshot in
  Ok {| mw_resultHash := fieldElementToBytes resultHash;
        mw_proofKey := e_sha256 E (e_utf8 E "saep:x402:proof" ++ responseHash ++ taskId t);
        mw_input :=
          {| s_task_hash := bytesToDecimalString (canonicalFieldBytes (taskHash t));
             s_result_hash := z_text resultHash;
             s_deadline := z_text (deadline t);
             s_submitted_at := z_text (submittedAt t);
             s_criteria_root := bytesToDecimalString (canonicalFieldBytes (criteriaRoot t));
             s_task_preimage := s_task_preimage sample;
             s_result_preimage := map z_text resultPreimage;
             s_salt := s_salt sample;
             s_criteria_satisfied := s_criteria_satisfied sample;
             s_criteria_path := s_criteria_path sample;
             s_criteria_index := s_criteria_index sample |} |}.

(** Attempts [attempt] to 6 of the release. *)
Fixpoint release_loop (left : nat) (attempt : Z) (payer : bytes) (windowEnd : Z) (ix : instruction) : io W string :=
  match left with
  | O => io_throw "release retry loop exhausted unexpectedly"
  | S left' =>
    io_catch (sendInstructions payer [] [ix]) (fun error =>
      if negb (isDisputeWindowOpen error) || (attempt =? 6) then io_throw error
      else
        do! now <- currentClusterTime in
        let remaining := if now <? windowEnd then windowEnd - now + 2 else 2 in
        do! _ <- sleep (Z.min (Z.max remaining 2) 10 * 1000) in
        release_loop left' (attempt + 1) payer windowEnd ix)
  end.

Definition releaseAfterDisputeWindow (fuel : nat) (cfg : SettlementConfig) (t : TaskAccountState)
    (taskAddress agentAccountAddress agentOperator : bytes) : io W string :=
  match keypair cfg with
  | None => io_throw "SAEP_OPERATOR_KEYPAIR is required for release"
  | Some payer =>
    do! tokenProgramId <- resolveTokenProgram (paymentMint t) in
    do! g <- so_market so in
    let ata owner := e_ata E (paymentMint t) owner tokenProgramId in
    do! _ <- waitForDisputeWindow fuel (disputeWindowEnd t) in
    release_loop 6 1 payer (disputeWindowEnd t)
      (I_release payer taskAddress (paymentMint t) (ata agentOperator) (ata (feeCollector g)) (ata (solrepPool g))
         agentAccountAddress (client t) tokenProgramId)
  end.

(** [taskContract.fetch]: like [fetchNullable], but throws for a missing account. *)
Definition fetch_task (addr : bytes) : io W TaskAccountState :=
  do! t <- so_task so addr in
  match t with
  | Some t => io_ret t
  | None => io_throw "Account does not exist or has no data"
  end.

(** if (taskStatus === 'funded') { ... } *)
Definition submit_stage (payer managedRecipient : bytes) (agent : AgentAccount) (addr : bytes)
    (upstream : UpstreamResponseSnapshot) (t : TaskAccountState) : io W TaskAccountState :=
  if String.eqb (parseTaskStatus (t_status t)) "funded" then
    do! seed <- io_lift (buildManagedWitness t upstream) in
    do! _ <- sendInstructions payer [managedRecipient]
      [I_submitResult managedRecipient addr (a_address agent) (mw_resultHash seed) (mw_proofKey seed)] in
    fetch_task addr
  else io_ret t.

(** if (taskStatus === 'proofSubmitted') { ... } *)
Definition verify_stage (payer : bytes) (addr : bytes) (upstream : UpstreamResponseSnapshot) (t : TaskAccountState) :
    io W TaskAccountState :=
  if String.eqb (parseTaskStatus (t_status t)) "proofSubmitted" then
    do! wit <- io_lift (buildManagedWitness t upstream) in
    do! proof <- so_fullProve so (mw_input wit) in
    let vkId := sha256_text "task_completion_v1" in
    do! _ <- sendInstructions payer []
      [I_verifyTask payer addr (e_verifierKeyPda E vkId) vkId (g1ToBytes (pi_a proof)) (g2ToBytes (pi_b proof))
         (g1ToBytes (pi_c proof))] in
    fetch_task addr
  else io_ret t.

(** if (taskStatus === 'verified') { ... } *)
Definition release_stage (fuel : nat) (cfg : SettlementConfig) (agent : AgentAccount) (addr : bytes) (t : TaskAccountState) :
    io W TaskAccountState :=
  if String.eqb (parseTaskStatus (t_status t)) "verified" then
    do! _ <- releaseAfterDisputeWindow fuel cfg t addr (a_address agent) (a_operator agent) in
    fetch_task addr
  else io_ret t.

Definition finalizeManagedSettlement (fuel : nat) (cfg : SettlementConfig) (receipt : PaymentReceipt)
    (upstream : UpstreamResponseSnapshot) : io W PaymentReceipt :=
  do! refreshed <- refreshReceiptStatus (cluster cfg) receipt in
  match keypair cfg, r_task refreshed with
  | Some payer, Some task =>
    if bool_decide (cluster cfg = localnet) || String.eqb task "" then io_ret refreshed
    else
      do! addr <- io_lift (e_PublicKey E task) in
      do! fetched <- so_task so addr in
      match fetched with
      | None => io_ret refreshed
      | Some t =>
        let idHex t := Some (default (e_hex E (taskId t)) (task_id_hex refreshed)) in
        let st := parseTaskStatus (t_status t) in
        if String.eqb st "released" then io_ret (with_status refreshed (idHex t) st)
        else
          do! found <- so_agent so (e_hex E (agentDid t)) in
          match found with
          | None => io_ret (with_status refreshed (task_id_hex refreshed) st)
          | Some agent =>
            match resolveManagedRecipientSigner cfg (a_operator agent) with
            | None => io_ret (with_status refreshed (task_id_hex refreshed) st)
            | Some managed =>
              do! t1 <- submit_stage payer managed agent addr upstream t in
              do! t2 <- verify_stage payer addr upstream t1 in
              do! t3 <- release_stage fuel cfg agent addr t2 in
              io_ret (with_status refreshed (idHex t3) (parseTaskStatus (t_status t3)))
            end
          end
      end
  | _, _ => io_ret refreshed
  end.

(** ** Checking a receipt *)

Definition verdict (st : TxStatus) (slot : option Z) (err task idHex taskStatus : option string) : VerificationResult :=
  {| v_status := st; v_slot := slot; v_err := err; v_task := task; v_task_id_hex := idHex; v_task_status := taskStatus |}.

(** [c] is [None] in the overload that takes an RPC URL. *)
Definition verifySettlement (c : option cluster_name) (sig : string) (task idHex : option string) : io W VerificationResult :=
  io_catch
    (do! res <- so_getTransaction so sig in
     match res with
     | Rpc_status st => io_ret (verdict not_found None (Some ("rpc " +:+ z_text st)) task idHex None)
     | Rpc_error message => io_ret (verdict not_found None (Some message) task idHex None)
     | Rpc_result None => io_ret (verdict not_found None None task idHex None)
     | Rpc_result (Some (slot, Some err)) => io_ret (verdict tx_failed slot (Some err) task idHex None)
     | Rpc_result (Some (slot, None)) =>
       match c, task with
       | Some c, Some addr =>
         if String.eqb addr "" then io_ret (verdict confirmed slot None task idHex None)
         else
           do! refreshed <- refreshReceiptStatus c
             {| tx_sig := sig; r_amount := Some 0%Q; r_mint := ""; r_task := Some addr; task_id_hex := idHex; task_status := None |} in
           io_ret (verdict confirmed slot None task (task_id_hex refreshed) (task_status refreshed))
       | _, _ => io_ret (verdict confirmed slot None task idHex None)
       end
     end)
    (fun error => io_ret (verdict not_found None (Some error) task idHex None)).
End settlement.
