(* ===== verification/X402SettleSafety.v ===== *)
(** * X402SettleSafety: what a settlement may put on chain

    Theorems about X402Settle.v: a settlement escrows at most once and never more
    than the budget, a completion sends its three steps in order, and with a live
    market it ends in the release of the payment. *)

From Stdlib Require Import ZArith QArith Lqa Ascii.
From stdpp Require Import base sets list strings.
From S2P Require Import Prelude Effects Bytes Json Numbers ComputeBond Attestation X402Proof X402Settle.

Open Scope Z_scope.
Open Scope saep_scope.

(** ** The ledger

    [sent w] are the transactions the chain has executed for the gateway, oldest
    first.  A submission that reports success has been executed; one that reports
    a blockhash problem, or that the program rejected it, has not; after any other
    error (a confirmation that times out) it may have been. *)
Record ledger {W} (so : solana W) (sent : W -> list (list instruction)) : Prop := {
  lg_task : forall a w r w', so_task so a w = Some (r, w') -> sent w' = sent w;
  lg_agent : forall a w r w', so_agent so a w = Some (r, w') -> sent w' = sent w;
  lg_owner : forall a w r w', so_mint_owner so a w = Some (r, w') -> sent w' = sent w;
  lg_balance : forall a w r w', so_token_balance so a w = Some (r, w') -> sent w' = sent w;
  lg_market : forall w r w', so_market so w = Some (r, w') -> sent w' = sent w;
  lg_slot : forall w r w', so_slot so w = Some (r, w') -> sent w' = sent w;
  lg_blockTime : forall a w r w', so_blockTime so a w = Some (r, w') -> sent w' = sent w;
  lg_blockhash : forall w r w', so_latestBlockhash so w = Some (r, w') -> sent w' = sent w;
  lg_sleep : forall ms w, sent (so_sleep so ms w) = sent w;
  lg_random : forall a w r w', so_randomBytes so a w = Some (r, w') -> sent w' = sent w;
  lg_prove : forall a w r w', so_fullProve so a w = Some (r, w') -> sent w' = sent w;
  lg_send : forall signers bh ixs w r w', so_sendAndConfirm so signers bh ixs w = Some (r, w') ->
    match r with
    | Ok _ => sent w' = sent w ++ [ixs]
    | Throw e => sent w' = sent w \/
        (includes "Blockhash not found" e = false /\ isDisputeWindowOpen e = false /\ sent w' = sent w ++ [ixs])
    end;
}.

Section sends.
Context {W : Type} (so : solana W) (sent : W -> list (list instruction)) (lg : ledger so sent).

(** Every run of [m] adds to the ledger a list that [P] allows for its result. *)
Definition sends {A} (m : io W A) (P : result A -> list (list instruction) -> Prop) : Prop :=
  forall w r w', m w = Some (r, w') -> exists l, sent w' = sent w ++ l /\ P r l.

Definition silent {A} (m : io W A) : Prop := forall w r w', m w = Some (r, w') -> sent w' = sent w.

Lemma sends_weaken {A} (m : io W A) (P Q : result A -> list (list instruction) -> Prop) :
  sends m P -> (forall r l, P r l -> Q r l) -> sends m Q.
Proof. intros Hm HPQ w r w' H. destruct (Hm w r w' H) as (l & ? & ?). eauto. Qed.

Lemma sends_ret {A} (a : A) P : P (Ok a) [] -> sends (io_ret a) P.
Proof. intros HP w r w' [= <- <-]. exists []. by rewrite app_nil_r. Qed.

Lemma sends_throw {A} e (P : result A -> list (list instruction) -> Prop) : P (Throw e) [] -> sends (io_throw e) P.
Proof. intros HP w r w' [= <- <-]. exists []. by rewrite app_nil_r. Qed.

Lemma sends_silent {A} (m : io W A) P : silent m -> (forall r, P r []) -> sends m P.
Proof. intros Hm HP w r w' H. exists []. rewrite app_nil_r. split; [eauto|done]. Qed.

(** A step that sends nothing, then the rest. *)
Lemma sends_step {A B} (m : io W A) (k : A -> io W B) P :
  silent m -> (forall e, P (Throw e) []) ->
  (forall a w1 w2, m w1 = Some (Ok a, w2) -> sends (k a) P) -> sends (io_bind m k) P.
Proof.
  intros Hm He Hk w r w'. unfold io_bind. destruct (m w) as [[[a|e] w1]|] eqn:Em; [..|done].
  - intros H. destruct (Hk a w w1 Em w1 r w' H) as (l & Hl & HP). exists l. split; [|done].
    by rewrite Hl, (Hm _ _ _ Em).
  - intros [= <- <-]. exists []. rewrite app_nil_r. split; [by eapply Hm|done].
Qed.

Lemma sends_check {B} b e (k : unit -> io W B) P :
  P (Throw e) [] -> (b = true -> sends (k tt) P) -> sends (io_bind (io_check b e) k) P.
Proof.
  intros He Hk w r w'. unfold io_bind, io_check. destruct b; simpl; [by apply Hk|].
  intros [= <- <-]. exists []. by rewrite app_nil_r.
Qed.

Lemma sends_lift {A B} (x : result A) (k : A -> io W B) P :
  (forall e, P (Throw e) []) -> (forall a, x = Ok a -> sends (k a) P) -> sends (io_bind (io_lift x) k) P.
Proof.
  intros He Hk w r w'. unfold io_bind, io_lift. destruct x as [a|e]; [by apply Hk|].
  intros [= <- <-]. exists []. by rewrite app_nil_r.
Qed.

(** Two sending steps. *)
Lemma sends_bind {A B} (m : io W A) (k : A -> io W B) P Q R :
  sends m P -> (forall a, sends (k a) Q) ->
  (forall e l, P (Throw e) l -> R (Throw e) l) ->
  (forall a l r l', P (Ok a) l -> Q r l' -> R r (l ++ l')) -> sends (io_bind m k) R.
Proof.
  intros Hm Hk He HR w r w'. unfold io_bind. destruct (m w) as [[[a|e] w1]|] eqn:Em; [..|done].
  - intros H. destruct (Hm _ _ _ Em) as (l & Hl & HP). destruct (Hk a _ _ _ H) as (l' & Hl' & HQ).
    exists (l ++ l'). rewrite Hl', Hl, app_assoc. eauto.
  - intros [= <- <-]. destruct (Hm _ _ _ Em) as (l & Hl & HP). eauto.
Qed.

Lemma silent_bind {A B} (m : io W A) (k : A -> io W B) : silent m -> (forall a, silent (k a)) -> silent (io_bind m k).
Proof.
  intros Hm Hk w r w'. unfold io_bind. destruct (m w) as [[[a|e] w1]|] eqn:Em; [..|done].
  - intros H. rewrite (Hk _ _ _ _ H). eauto.
  - intros [= <- <-]. eauto.
Qed.

Lemma silent_catch {A} (m : io W A) h : silent m -> (forall e, silent (h e)) -> silent (io_catch m h).
Proof.
  intros Hm Hh w r w'. unfold io_catch. destruct (m w) as [[[a|e] w1]|] eqn:Em; [..|done].
  - intros [= <- <-]. eauto.
  - intros H. rewrite (Hh _ _ _ _ H). eauto.
Qed.

Lemma silent_ret {A} (a : A) : silent (io_ret a).
Proof. by intros w r w' [= <- <-]. Qed.

Lemma silent_throw {A} e : silent (@io_throw W A e).
Proof. by intros w r w' [= <- <-]. Qed.

Lemma silent_lift {A} (x : result A) : silent (io_lift x).
Proof. by intros w r w' [= <- <-]. Qed.

Lemma silent_sleep ms : silent (sleep so ms).
Proof. intros w r w' [= <- <-]. apply (lg_sleep _ _ lg). Qed.

Lemma silent_clock : silent (currentClusterTime so).
Proof.
  apply silent_bind; [exact (lg_slot _ _ lg)|]. intros slot. apply silent_bind; [exact (lg_blockTime _ _ lg slot)|].
  intros [ts|]; [apply silent_ret|]. by intros w r w' [= <- <-].
Qed.

Lemma silent_wait fuel endTs : silent (waitForDisputeWindow so fuel endTs).
Proof.
  induction fuel as [|fuel IH]; simpl; [done|]. apply silent_bind; [apply silent_clock|]. intros now.
  destruct (endTs <=? now); [apply silent_ret|]. apply silent_bind; [apply silent_sleep|done].
Qed.
End sends.

Create HintDb silent.
#[export] Hint Resolve silent_ret silent_throw silent_lift silent_bind silent_catch silent_sleep silent_clock silent_wait
  lg_task lg_agent lg_owner lg_balance lg_market lg_random lg_prove lg_blockhash : silent.

(** What [sendInstructions] leaves in the ledger: the transaction once if it
    reports success, at most once otherwise. *)
Definition sent_once {A} (ixs : list instruction) (r : result A) (l : list (list instruction)) : Prop :=
  match r with
  | Ok _ => l = [ixs]
  | Throw e => l = [] \/ (isDisputeWindowOpen e = false /\ l = [ixs])
  end.

Section operations.
Context {W : Type} (E : env) (so : solana W) (sent : W -> list (list instruction)) (lg : ledger so sent).

#[local] Abbreviation sends := (sends sent).
#[local] Abbreviation silent := (silent sent).

Lemma silent_resolve mint : silent (resolveTokenProgram E so mint).
Proof. apply silent_bind; [exact (lg_owner _ _ lg mint)|]. intros o. repeat (case_match; auto with silent). Qed.

Lemma silent_decode label v : silent (decodeBase58Key E label v).
Proof. unfold decodeBase58Key. case_match; auto with silent. Qed.

Lemma silent_refresh c receipt : silent (refreshReceiptStatus E so c receipt).
Proof.
  unfold refreshReceiptStatus, fetchTaskState. case_match; [|auto with silent]. case_match; [auto with silent|].
  repeat apply silent_bind; [apply silent_lift|exact (lg_task _ _ lg)|]. intros t. case_match; auto with silent.
Qed.

Lemma silent_fetch addr : silent (fetch_task so addr).
Proof. apply silent_bind; [exact (lg_task _ _ lg addr)|]. intros t. case_match; auto with silent. Qed.

Lemma send_once_sends signers ixs w r w' :
  send_once so signers ixs w = Some (r, w') ->
  match r with
  | Ok _ => sent w' = sent w ++ [ixs]
  | Throw e => sent w' = sent w \/
      (includes "Blockhash not found" e = false /\ isDisputeWindowOpen e = false /\ sent w' = sent w ++ [ixs])
  end.
Proof.
  unfold send_once, io_bind. destruct (so_latestBlockhash so w) as [[[h|e] w1]|] eqn:Eh; [..|done].
  - intros H. apply (lg_send _ _ lg) in H. rewrite (lg_blockhash _ _ lg _ _ _ Eh) in H. destruct r; tauto.
  - intros [= <- <-]. left. by eapply (lg_blockhash _ _ lg).
Qed.

Lemma send_loop_sends left attempt signers ixs err :
  sends (send_loop so left attempt signers ixs err) (sent_once ixs).
Proof.
  revert attempt err. induction left as [|left IH]; intros attempt err; simpl.
  - apply sends_throw. by left.
  - intros w r w'. unfold io_catch. destruct (send_once so signers ixs w) as [[[s|e] w1]|] eqn:Es; [..|done].
    + intros [= <- <-]. exists [ixs]. split; [|done]. exact (send_once_sends _ _ _ _ _ Es).
    + apply send_once_sends in Es. destruct (includes "Blockhash not found" e) eqn:Ei; simpl.
      * assert (Hs : sent w1 = sent w) by (destruct Es as [?|[? _]]; done).
        destruct (attempt =? 4).
        -- intros [= <- <-]. exists []. rewrite app_nil_r. split; [done|by left].
        -- intros H. destruct (IH _ _ _ _ _ H) as (l & Hl & HP). exists l.
           by rewrite Hl, (lg_sleep _ _ lg), Hs.
      * intros [= <- <-]. destruct Es as [Hs|(_ & ? & Hs)].
        -- exists []. rewrite app_nil_r. split; [done|by left].
        -- exists [ixs]. split; [done|]. by right.
Qed.

Lemma sendInstructions_sends payer extra ixs : sends (sendInstructions so payer extra ixs) (sent_once ixs).
Proof. apply send_loop_sends. Qed.

(** BN writes the magnitude of a number and drops its sign; what does not fit throws. *)
Record bn_laws (E : env) : Prop := { bn_magnitude : forall n m, e_bn_u64 E n = Ok m -> m = Z.abs n /\ m < 2 ^ 64 }.

(** The escrow a settlement of [payment] within [budget] may create: the magnitude
    of the challenge's amount, which is at most the budget. *)
Definition escrow_of (cfg : SettlementConfig) (payment : PaymentDetails) (requesterDid argsHash : string) (budget : Z)
    (tx : list instruction) : Prop :=
  exists payer nonce did mint amount bit requester root dl agent rest w1 w2 w3 w4 g,
    tx = [I_createTask nonce (a_did agent) mint (Z.abs amount) bit (e_unhex E argsHash) requester root dl 1 payer (a_address agent);
          rest] /\
    cluster cfg = devnet /\ keypair cfg = Some payer /\
    BigInt_amount (p_amount payment) = Ok amount /\ amount <= budget /\ Z.abs amount < 2 ^ 64 /\
    e_PublicKey E (p_mint payment) = Ok mint /\
    so_market so w3 = Some (Ok g, w4) /\ mint ∈ allowedPaymentMints g /\
    e_PublicKey E (p_recipient payment) = Ok did /\ e_PublicKey E requesterDid = Ok requester /\
    so_agent so (e_hex E did) w1 = Some (Ok (Some agent), w2) /\ a_status agent = "active" /\
    firstCapabilityBit (capabilityMask agent) = Ok bit /\
    (exists taskAddr escrow payerAcc prog, rest = I_fundTask taskAddr mint escrow payerAcc (e_guardPda E) payer prog).

Definition settled_once cfg payment requesterDid argsHash budget (r : result PaymentReceipt) (l : list (list instruction)) : Prop :=
  match r with
  | Throw _ => l = [] \/ exists tx, l = [tx] /\ escrow_of cfg payment requesterDid argsHash budget tx
  | Ok receipt =>
    r_amount receipt = p_amount payment /\ r_mint receipt = p_mint payment /\ over_budget (p_amount payment) budget = false /\
    match l with
    | [] => cluster cfg = localnet
    | [tx] => escrow_of cfg payment requesterDid argsHash budget tx /\ is_Some (r_task receipt)
    | _ => False
    end
  end.

Lemma BigInt_amount_bound amount budget z :
  over_budget amount budget = false -> BigInt_amount amount = Ok z -> z <= budget.
Proof.
  unfold over_budget, BigInt_amount. destruct amount as [q|]; [|done]. intros H%q_ltb_ge.
  destruct (is_integer q) eqn:Ei; [|done]. intros <-%ok_inj.
  unfold Qle in H. simpl in H. rewrite Z.mul_1_r in H. apply Z.div_le_upper_bound; lia.
Qed.
Lemma decode_ok label v (w w' : W) k : decodeBase58Key E label v w = Some (Ok k, w') -> e_PublicKey E v = Ok k.
Proof. unfold decodeBase58Key. destruct (e_PublicKey E v); [|done]. by intros [= -> _]. Qed.

Lemma silent_random n : silent (so_randomBytes so n).
Proof. exact (lg_random _ _ lg n). Qed.

Context (bn : bn_laws E).

Lemma settle_sends cfg payment requesterDid argsHash budget :
  sends (settleViaTaskMarket E so cfg payment requesterDid argsHash budget)
        (settled_once cfg payment requesterDid argsHash budget).
Proof.
  unfold settleViaTaskMarket. set (P := settled_once cfg payment requesterDid argsHash budget).
  assert (HT : forall e, P (Throw e) []) by (intros; by left).
  apply sends_check; [done|]. intros Hb%negb_true_iff.
  case_bool_decide; [by apply sends_ret|]. case_bool_decide; [by apply sends_throw|].
  assert (Hc : cluster cfg = devnet) by (by destruct (cluster cfg)).
  destruct (keypair cfg) as [payer|] eqn:Hk; [|by apply sends_throw].
  apply sends_lift; [done|]. intros sample _.
  apply sends_step; [apply silent_decode|done|]. intros did ? ? Hdid%decode_ok.
  apply sends_step; [exact (lg_agent _ _ lg _)|done|]. intros found wa wb Hfound.
  destruct found as [agent|]; [|by apply sends_throw].
  apply sends_check; [done|]. intros Hact%String.eqb_eq.
  apply sends_step; [apply silent_decode|done|]. intros requester ? ? Hreq%decode_ok.
  apply sends_lift; [done|]. intros mint Hmint.
  apply sends_step; [apply silent_resolve|done|]. intros prog ? ? _.
  apply sends_step; [apply silent_catch; [exact (lg_balance _ _ lg _)|intros; apply silent_ret]|done|]. intros bal ? ? _.
  destruct bal as [bal|]; [|by apply sends_throw].
  apply sends_lift; [done|]. intros amount Hamount.
  apply sends_check; [done|]. intros _.
  apply sends_step; [exact (lg_market _ _ lg)|done|]. intros g wc wd Hg.
  apply sends_check; [done|]. intros Hallowed.
  apply sends_check; [done|]. intros _.
  apply sends_step; [by apply silent_clock|done|]. intros now ? ? _.
  apply sends_step; [apply silent_random|done|]. intros nonce ? ? _.
  apply sends_lift; [done|]. intros bit Hbit.
  apply sends_lift; [done|]. intros wire Hwire. apply (bn_magnitude _ bn) in Hwire as [-> Hwire].
  apply sends_lift; [done|]. intros root _.
  match goal with |- context [sendInstructions so payer [] ?t] => set (tx := t) end.
  assert (Hesc : escrow_of cfg payment requesterDid argsHash budget tx).
  { exists payer, nonce, did, mint, amount, bit, requester, (fieldElementToBytes root),
      (now + deadline_offset (taskDeadlineSecs cfg) (maxDeadlineSecs g)), agent. do 6 eexists.
    split; [done|]. split_and!; eauto using BigInt_amount_bound.
    apply existsb_exists in Hallowed as (m & Hin & Hm%bool_decide_eq_true). subst m. by apply list_elem_of_In. }
  clearbody tx.
  apply (sends_bind sent _ _ (sent_once tx) (fun r l => l = [] /\ match r with
    | Ok rc => r_amount rc = p_amount payment /\ r_mint rc = p_mint payment /\ is_Some (r_task rc)
    | Throw _ => True
    end)).
  - apply sendInstructions_sends.
  - intros sig. apply sends_step; [exact (lg_task _ _ lg _)|done|]. intros t ? ? _.
    destruct t as [t|]; [|by apply sends_throw]. apply sends_check; [done|]. intros _.
    apply sends_ret. split_and!; [done..|by eexists].
  - intros e l [->|[_ ->]]; [by left|]. right. eauto.
  - intros sig l r l' -> [-> Hr]. destruct r as [rc|e]; [|right; by eauto].
    destruct Hr as (? & ? & ?). by split_and!.
Qed.

(** ** Completion *)

Lemma release_loop_sends left attempt payer windowEnd ix :
  sends (release_loop so left attempt payer windowEnd ix) (sent_once [ix]).
Proof.
  revert attempt. induction left as [|left IH]; intros attempt; simpl; [apply sends_throw; by left|].
  intros w r w'. unfold io_catch. destruct (sendInstructions so payer [] [ix] w) as [[[s|e] w1]|] eqn:Es; [..|done].
  - intros [= <- <-]. by apply sendInstructions_sends in Es.
  - apply sendInstructions_sends in Es as (l1 & Hl1 & HP). destruct (isDisputeWindowOpen e) eqn:Ed; simpl.
    + assert (l1 = []) as -> by (simpl in HP; destruct HP as [?|[? _]]; congruence). rewrite app_nil_r in Hl1. destruct (attempt =? 6).
      * intros [= <- <-]. exists []. rewrite app_nil_r. split; [done|by left].
      * intros H. eapply sends_step in H as (l & Hl & HP'); [exists l; by rewrite Hl, Hl1| |by left|].
        -- by apply silent_clock.
        -- intros now ? ? _. apply sends_step; [by apply silent_sleep|by left|]. intros ? ? ? _. apply IH.
    + intros [= <- <-]. exists l1. split; [done|]. destruct HP as [->|[_ ->]]; [by left|by right].
Qed.

Lemma wait_ok fuel endTs w u w' :
  waitForDisputeWindow so fuel endTs w = Some (Ok u, w') ->
  exists now w1, currentClusterTime so w1 = Some (Ok now, w') /\ endTs <= now.
Proof.
  revert w. induction fuel as [|fuel IH]; simpl; intros w H; [done|].
  apply io_bind_ok in H as (now & w1 & Hn & H). destruct (Z.leb_spec endTs now).
  - injection H as _ <-. eauto.
  - apply io_bind_ok in H as (? & ? & _ & H). eauto.
Qed.

(** What each stage of a completion of the task at [addr] may put on chain. *)
Definition submitted (addr : bytes) (upstream : UpstreamResponseSnapshot) (l : list (list instruction)) : Prop :=
  l = [] \/ exists t signer agent wit, parseTaskStatus (t_status t) = "funded" /\
    buildManagedWitness E t upstream = Ok wit /\
    l = [[I_submitResult signer addr agent (mw_resultHash wit) (mw_proofKey wit)]].

Definition proved (payer addr : bytes) (upstream : UpstreamResponseSnapshot) (l : list (list instruction)) : Prop :=
  l = [] \/ exists t wit proof key vk w1 w2, parseTaskStatus (t_status t) = "proofSubmitted" /\
    buildManagedWitness E t upstream = Ok wit /\ so_fullProve so (mw_input wit) w1 = Some (Ok proof, w2) /\
    l = [[I_verifyTask payer addr key vk (g1ToBytes (pi_a proof)) (g2ToBytes (pi_b proof)) (g1ToBytes (pi_c proof))]].

Definition paid_out (payer addr : bytes) (l : list (list instruction)) : Prop :=
  l = [] \/ exists t now w1 w2 to fee pool agent prog, parseTaskStatus (t_status t) = "verified" /\
    currentClusterTime so w1 = Some (Ok now, w2) /\ disputeWindowEnd t <= now /\
    l = [[I_release payer addr (paymentMint t) to fee pool agent (client t) prog]].

(** The transactions of a completion, in their order. *)
Definition completion (payer addr : bytes) (upstream : UpstreamResponseSnapshot) (l : list (list instruction)) : Prop :=
  exists submit verify release, l = submit ++ verify ++ release /\
    submitted addr upstream submit /\ proved payer addr upstream verify /\ paid_out payer addr release.

(** A stage: one transaction, then the task is read again. *)
Lemma stage_sends payer extra ixs addr (P : list (list instruction) -> Prop) :
  P [] -> P [ixs] -> sends (do! _ <- sendInstructions so payer extra ixs in fetch_task so addr) (fun _ l => P l).
Proof.
  intros H0 H1. apply (sends_bind sent _ _ (sent_once ixs) (fun _ l => l = [])).
  - apply sendInstructions_sends.
  - intros _. by apply sends_silent; [apply silent_fetch|].
  - intros e l [->|[_ ->]]; done.
  - intros a l r l' Hl ->. simpl in Hl. by subst l.
Qed.

Lemma submit_stage_sends payer managed agent addr upstream t :
  sends (submit_stage E so payer managed agent addr upstream t) (fun _ l => submitted addr upstream l).
Proof.
  unfold submit_stage. destruct (String.eqb_spec (parseTaskStatus (t_status t)) "funded") as [Hs|]; [|apply sends_ret; by left].
  apply sends_lift; [by left|]. intros wit Hw. apply stage_sends; [by left|]. right. by exists t, managed, (a_address agent), wit.
Qed.

Lemma verify_stage_sends payer addr upstream t :
  sends (verify_stage E so payer addr upstream t) (fun _ l => proved payer addr upstream l).
Proof.
  unfold verify_stage. destruct (String.eqb_spec (parseTaskStatus (t_status t)) "proofSubmitted") as [Hs|]; [|apply sends_ret; by left].
  apply sends_lift; [by left|]. intros wit Hw.
  apply sends_step; [exact (lg_prove _ _ lg _)|by left|]. intros proof w1 w2 Hp.
  apply stage_sends; [by left|]. right. do 7 eexists. split_and!; eauto.
Qed.

Lemma release_stage_sends fuel cfg payer agent addr t : keypair cfg = Some payer ->
  sends (release_stage E so fuel cfg agent addr t) (fun _ l => paid_out payer addr l).
Proof.
  intros Hk. unfold release_stage, releaseAfterDisputeWindow. rewrite Hk.
  destruct (String.eqb_spec (parseTaskStatus (t_status t)) "verified") as [Hs|]; [|apply sends_ret; by left].
  apply (sends_bind sent _ _ (fun _ l => paid_out payer addr l) (fun _ l => l = [])).
  - apply sends_step; [apply silent_resolve|by left|]. intros prog ? ? _.
    apply sends_step; [exact (lg_market _ _ lg)|by left|]. intros g ? ? _. cbv zeta.
    apply sends_step; [by apply silent_wait|by left|]. intros u wx wy (now & wz & Hn & Hle)%wait_ok.
    assert (Hp : forall to fee pool, paid_out payer addr
      [[I_release payer addr (paymentMint t) to fee pool (a_address agent) (client t) prog]]).
    { intros. right. do 9 eexists. split_and!; eauto. }
    eapply sends_weaken; [apply release_loop_sends|]. intros [r|e] l; simpl; [by intros ->|].
    intros [->|[_ ->]]; [by left|done].
  - intros _. by apply sends_silent; [apply silent_fetch|].
  - done.
  - intros a l r l' Hl ->. by rewrite app_nil_r.
Qed.

Lemma stages_send fuel cfg payer managed agent addr upstream t (k : TaskAccountState -> PaymentReceipt) :
  keypair cfg = Some payer ->
  sends (do! t1 <- submit_stage E so payer managed agent addr upstream t in
         do! t2 <- verify_stage E so payer addr upstream t1 in
         do! t3 <- release_stage E so fuel cfg agent addr t2 in io_ret (k t3))
    (fun _ l => completion payer addr upstream l).
Proof.
  intros Hk.
  assert (He : forall l, submitted addr upstream l -> completion payer addr upstream l).
  { intros l Hl. exists l, [], []. rewrite app_nil_r. by split_and!; [|done|left|left]. }
  apply (sends_bind sent _ _ (fun _ l => submitted addr upstream l) (fun _ l =>
    exists v r, l = v ++ r /\ proved payer addr upstream v /\ paid_out payer addr r)); [apply submit_stage_sends| |auto|].
  2: { intros a l r l' Hs (v & q & -> & Hv & Hq). exists l, v, q. by split_and!. }
  intros t1. apply (sends_bind sent _ _ (fun _ l => proved payer addr upstream l) (fun _ l => paid_out payer addr l));
    [apply verify_stage_sends| | |].
  - intros t2. apply (sends_bind sent _ _ (fun _ l => paid_out payer addr l) (fun _ l => l = []));
      [by apply release_stage_sends|intros t3; by apply sends_ret|done|].
    intros a l r l' Hl ->. by rewrite app_nil_r.
  - intros e l Hl. exists l, []. rewrite app_nil_r. by split_and!; [| |left].
  - intros a l r l' Hv Hq. by exists l, l'.
Qed.

Lemma refresh_task c receipt (w w' : W) r : refreshReceiptStatus E so c receipt w = Some (Ok r, w') -> r_task r = r_task receipt.
Proof.
  unfold refreshReceiptStatus. destruct (r_task receipt) as [a|] eqn:Er; [|by intros [= <- _]].
  case_match; [by intros [= <- _]|]. intros H'. apply io_bind_ok in H' as (t & w1 & _ & H').
  destruct t as [t|]; by injection H' as <- _.
Qed.

Lemma finalize_sends fuel cfg receipt upstream :
  sends (finalizeManagedSettlement E so fuel cfg receipt upstream) (fun _ l => l = [] \/
    exists payer task addr, cluster cfg <> localnet /\ keypair cfg = Some payer /\ r_task receipt = Some task /\
      e_PublicKey E task = Ok addr /\ completion payer addr upstream l).
Proof.
  unfold finalizeManagedSettlement.
  apply sends_step; [apply silent_refresh|by left|]. intros refreshed ? ? Hr%refresh_task.
  destruct (keypair cfg) as [payer|] eqn:Hk; [|apply sends_ret; by left].
  destruct (r_task refreshed) as [task|] eqn:Ht; [|apply sends_ret; by left].
  destruct (bool_decide_reflect (cluster cfg = localnet)) as [|Hc]; simpl; [apply sends_ret; by left|].
  destruct (String.eqb task ""); [apply sends_ret; by left|].
  apply sends_lift; [by left|]. intros addr Haddr.
  apply sends_step; [exact (lg_task _ _ lg _)|by left|]. intros [t|] ? ? _; [|apply sends_ret; by left].
  cbv zeta. destruct (String.eqb _ "released"); [apply sends_ret; by left|].
  apply sends_step; [exact (lg_agent _ _ lg _)|by left|]. intros [agent|] ? ? _; [|apply sends_ret; by left].
  destruct (resolveManagedRecipientSigner cfg (a_operator agent)) as [managed|]; [|apply sends_ret; by left].
  eapply sends_weaken; [by apply stages_send|]. intros r l Hl. right. exists payer, task, addr. by rewrite <- Hr.
Qed.
End operations.

(** ** A live market *)

(** The points of a proof as a verifier reads them: 32 big-endian bytes for each
    coordinate, the imaginary part of an Fp2 element before the real one. *)
Definition word_at (i : nat) (b : bytes) : Z := accumulate (take 32 (drop (32 * i) b)).
Definition read_g1 (b : bytes) : Z * Z := (word_at 0 b, word_at 1 b).
Definition read_g2 (b : bytes) : (Z * Z) * (Z * Z) := ((word_at 1 b, word_at 0 b), (word_at 3 b, word_at 2 b)).

(** The public inputs verify_task takes from a task. *)
Definition program_inputs (t : TaskAccountState) : list Z :=
  [accumulate (taskHash t) mod BN254_SCALAR_FIELD_MODULUS; accumulate (resultHash t) mod BN254_SCALAR_FIELD_MODULUS;
   deadline t mod 2 ^ 64; submittedAt t mod 2 ^ 64; accumulate (criteriaRoot t) mod BN254_SCALAR_FIELD_MODULUS].

(** snarkjs' public signals: the five public inputs of task_completion.circom. *)
Definition public_signals (E : env) (i : SampleInput) (publics : list Z) : Prop :=
  Forall2 (fun text n => exists z, e_BigInt E text = Ok z /\ n = z mod BN254_SCALAR_FIELD_MODULUS)
    [s_task_hash i; s_result_hash i; s_deadline i; s_submitted_at i; s_criteria_root i] publics.

(** The constraints of task_completion.circom: the result's preimage is sponged to the
    result's hash, the criteria lie under their root and the times are in order.  The
    task's preimage is not bound; the shipped sample's is always used. *)
Definition circuit_ok (E : env) (sample : SampleInput) (merkle : Z -> list string -> list string -> list string -> Prop)
    (i : SampleInput) : Prop :=
  (exists pre, s_result_preimage i = map z_text pre /\ length pre = 32%nat /\
     s_result_hash i = z_text (poseidonSponge (e_poseidon E) RESULT_TAG pre 15)) /\
  (exists root, e_BigInt E (s_criteria_root i) = Ok root /\
     merkle root (s_criteria_satisfied i) (s_criteria_path i) (s_criteria_index i)) /\
  (exists dl sub, e_BigInt E (s_deadline i) = Ok dl /\ e_BigInt E (s_submitted_at i) = Ok sub /\ 0 <= sub <= dl /\ dl < 2 ^ 64) /\
  s_task_preimage i = s_task_preimage sample /\ s_salt i = s_salt sample.

(** The task but for its state: what submitting and verifying leave alone. *)
Definition same_task (t t' : TaskAccountState) : Prop :=
  taskId t' = taskId t /\ taskHash t' = taskHash t /\ criteriaRoot t' = criteriaRoot t /\ deadline t' = deadline t /\
  paymentMint t' = paymentMint t /\ client t' = client t /\ agentDid t' = agentDid t.

(** A cluster that answers and executes what the program accepts, of a task that is not
    auctioned, in a market that is neither paused nor behind a hook allowlist: [view w a]
    is the task account at [a], [clock w] the cluster's time; the task of interest lives
    at [addr].  [agents] is the registry, [owner] the token program of a mint, [opened]
    the token accounts there are; [groth16] is what the active verifying key accepts and
    [merkle] the criteria tree of the circuit.

    - A result is accepted from the operator of the task's agent, who has to sign, while
      the agent is active and the deadline has not passed, unless its hash is zero.
    - A proof is accepted when it verifies for the task's public inputs.
    - A release is accepted after the dispute window, with the accounts of the agent's
      operator and of the two fee takers, which have to exist.
    - The prover proves what satisfies the circuit.  Sleeping a second or more advances
      the clock. *)
Record live_market {W} (E : env) (so : solana W) (view : W -> bytes -> option TaskAccountState) (clock : W -> Z)
    (agents : string -> option AgentAccount) (market : MarketGlobal) (owner : bytes -> bytes) (opened : bytes -> Prop)
    (groth16 : Z * Z -> (Z * Z) * (Z * Z) -> Z * Z -> list Z -> Prop)
    (merkle : Z -> list string -> list string -> list string -> Prop) (sample : SampleInput) (addr : bytes) : Prop := {
  lm_task : forall a w, so_task so a w = Some (Ok (view w a), w);
  lm_agent : forall h w, so_agent so h w = Some (Ok (agents h), w);
  lm_owner : forall m w, so_mint_owner so m w = Some (Ok (Some (owner m)), w);
  lm_market : forall w, so_market so w = Some (Ok market, w);
  lm_clock : forall w, currentClusterTime so w = Some (Ok (clock w), w);
  lm_sleep_view : forall ms w, view (so_sleep so ms w) = view w;
  lm_sleep_clock : forall ms w, 1000 <= ms -> clock w < clock (so_sleep so ms w);
  lm_blockhash : exists h, forall w, so_latestBlockhash so w = Some (Ok h, w);
  lm_sample : e_sample E = Ok sample;
  lm_bigint : forall n, 0 <= n -> e_BigInt E (z_text n) = Ok n;
  lm_sha256 : forall b, length (e_sha256 E b) = 32%nat;
  lm_poseidon : forall l, 0 <= e_poseidon E l < BN254_SCALAR_FIELD_MODULUS;
  lm_prove : forall i w publics, circuit_ok E sample merkle i -> public_signals E i publics ->
    exists p, so_fullProve so i w = Some (Ok p, w) /\
      Forall (fun n => 0 <= n < 2 ^ 256) [(pi_a p).1.1; (pi_a p).1.2; (pi_b p).1.1.1; (pi_b p).1.1.2; (pi_b p).1.2.1; (pi_b p).1.2.2;
        (pi_c p).1.1; (pi_c p).1.2] /\
      groth16 (pi_a p).1 (pi_b p).1 (pi_c p).1 publics;
  lm_submit : forall signers h op agent rh pk w t,
    view w addr = Some t -> parseTaskStatus (t_status t) = "funded" ->
    agents (e_hex E (agentDid t)) = Some agent -> a_operator agent = op -> op ∈ signers -> a_status agent = "active" ->
    length rh = 32%nat -> rh <> repeat 0 32 -> 0 <= deadline t -> clock w <= deadline t ->
    exists sig w' t', so_sendAndConfirm so signers h [I_submitResult op addr (a_address agent) rh pk] w = Some (Ok sig, w') /\
      view w' addr = Some t' /\ parseTaskStatus (t_status t') = "proofSubmitted" /\ same_task t t' /\ resultHash t' = rh /\
      0 <= submittedAt t' <= deadline t';
  lm_verify : forall signers h p a b c w t,
    view w addr = Some t -> parseTaskStatus (t_status t) = "proofSubmitted" -> p ∈ signers ->
    length a = 64%nat -> length b = 128%nat -> length c = 64%nat ->
    groth16 (read_g1 a) (read_g2 b) (read_g1 c) (program_inputs t) ->
    let vk := sha256_text E "task_completion_v1" in
    exists sig w' t', so_sendAndConfirm so signers h [I_verifyTask p addr (e_verifierKeyPda E vk) vk a b c] w = Some (Ok sig, w') /\
      view w' addr = Some t' /\ parseTaskStatus (t_status t') = "verified" /\ same_task t t';
  lm_release : forall signers h p agent w t,
    view w addr = Some t -> parseTaskStatus (t_status t) = "verified" -> p ∈ signers -> disputeWindowEnd t <= clock w ->
    agents (e_hex E (agentDid t)) = Some agent ->
    let m := paymentMint t in let prog := owner m in
    let x := e_ata E m (a_operator agent) prog in let y := e_ata E m (feeCollector market) prog in
    let z := e_ata E m (solrepPool market) prog in
    opened x -> opened y -> opened z ->
    exists sig w' t', so_sendAndConfirm so signers h [I_release p addr m x y z (a_address agent) (client t) prog] w = Some (Ok sig, w') /\
      view w' addr = Some t' /\ parseTaskStatus (t_status t') = "released";
}.

Arguments lm_task {W E so view clock agents market owner opened groth16 merkle sample addr} _.
Arguments lm_agent {W E so view clock agents market owner opened groth16 merkle sample addr} _.
Arguments lm_owner {W E so view clock agents market owner opened groth16 merkle sample addr} _.
Arguments lm_market {W E so view clock agents market owner opened groth16 merkle sample addr} _.
Arguments lm_clock {W E so view clock agents market owner opened groth16 merkle sample addr} _.
Arguments lm_sleep_view {W E so view clock agents market owner opened groth16 merkle sample addr} _.
Arguments lm_sleep_clock {W E so view clock agents market owner opened groth16 merkle sample addr} _.
Arguments lm_blockhash {W E so view clock agents market owner opened groth16 merkle sample addr} _.
Arguments lm_sample {W E so view clock agents market owner opened groth16 merkle sample addr} _.
Arguments lm_bigint {W E so view clock agents market owner opened groth16 merkle sample addr} _.
Arguments lm_sha256 {W E so view clock agents market owner opened groth16 merkle sample addr} _.
Arguments lm_poseidon {W E so view clock agents market owner opened groth16 merkle sample addr} _.
Arguments lm_prove {W E so view clock agents market owner opened groth16 merkle sample addr} _.
Arguments lm_submit {W E so view clock agents market owner opened groth16 merkle sample addr} _.
Arguments lm_verify {W E so view clock agents market owner opened groth16 merkle sample addr} _.
Arguments lm_release {W E so view clock agents market owner opened groth16 merkle sample addr} _.

(** What is asked of a task for its completion, in each of its states: its account is
    well formed, its criteria are those of the sample, and no deadline has passed that
    a step still has to meet; a result that is already there is this response's. *)
Record completable (E : env) (merkle : Z -> list string -> list string -> list string -> Prop) (sample : SampleInput) (now : Z)
    (agent : AgentAccount) (upstream : UpstreamResponseSnapshot) (t : TaskAccountState) : Prop := {
  cp_bytes : Forall (Forall is_byte) [taskHash t; criteriaRoot t];
  cp_deadline : 0 <= deadline t < 2 ^ 63;
  cp_criteria : merkle (accumulate (criteriaRoot t) mod BN254_SCALAR_FIELD_MODULUS) (s_criteria_satisfied sample) (s_criteria_path sample)
    (s_criteria_index sample);
  cp_funded : parseTaskStatus (t_status t) = "funded" -> a_status agent = "active" /\ now <= deadline t /\
    forall wit, buildManagedWitness E t upstream = Ok wit -> mw_resultHash wit <> repeat 0 32;
  cp_submitted : parseTaskStatus (t_status t) = "proofSubmitted" -> 0 <= submittedAt t <= deadline t /\
    forall wit, buildManagedWitness E t upstream = Ok wit -> resultHash t = mw_resultHash wit;
}.

Lemma distinct_in seen l k : k ∈ l -> k ∈ distinct seen l \/ k ∈ seen.
Proof.
  revert seen. induction l as [|x l IH]; intros seen Hk; [by inversion Hk|]. cbn [distinct].
  apply elem_of_cons in Hk as [->|Hk]; case_bool_decide as Hx; [by right|left; by left|by apply IH|].
  destruct (IH (x :: seen) Hk) as [H|H]; [left; by right|]. apply elem_of_cons in H as [->|H]; [left; by left|by right].
Qed.

Lemma word_fill n l : 0 <= n < 2 ^ 256 -> accumulate (take 32 (fieldElementToBytes n ++ l)) = n.
Proof.
  intros Hn. unfold fieldElementToBytes. rewrite take_app_length' by (by rewrite fill_bytes_length).
  apply accumulate_fill_bytes. exact Hn.
Qed.

Lemma read_g1_written x y z : 0 <= x < 2 ^ 256 -> 0 <= y < 2 ^ 256 -> read_g1 (g1ToBytes (x, y, z)) = (x, y) /\ length (g1ToBytes (x, y, z)) = 64%nat.
Proof.
  intros Hx Hy. unfold read_g1, word_at, g1ToBytes. cbn [fst snd Nat.mul Nat.add]. split; [|by rewrite length_app].
  rewrite drop_0, word_fill by done. rewrite drop_app_length' by done. by rewrite <- (app_nil_r (fieldElementToBytes y)), word_fill.
Qed.

Lemma drop_word k n l : (32 <= k)%nat -> drop k (fieldElementToBytes n ++ l) = drop (k - 32) l.
Proof. intros Hk. rewrite drop_app_ge by (unfold fieldElementToBytes; rewrite fill_bytes_length; lia). done. Qed.

Lemma read_g2_written a b c d z : Forall (fun n => 0 <= n < 2 ^ 256) [a; b; c; d] ->
  read_g2 (g2ToBytes ((a, b), (c, d), z)) = ((a, b), (c, d)) /\ length (g2ToBytes ((a, b), (c, d), z)) = 128%nat.
Proof.
  intros H. repeat (apply Forall_cons in H as [? H]). unfold read_g2, word_at, g2ToBytes. cbn [fst snd Nat.mul Nat.add].
  split; [|by rewrite !length_app]. 
  repeat first [rewrite (drop_word 96) by lia | rewrite (drop_word 64) by lia | rewrite (drop_word 32) by lia | progress cbn [Nat.sub]].
  rewrite !drop_0, !word_fill by done.
  by rewrite <- (app_nil_r (fieldElementToBytes c)), word_fill.
Qed.

Lemma canonical_text l : Forall is_byte l -> bytesToDecimalString (canonicalFieldBytes l) = z_text (accumulate l mod BN254_SCALAR_FIELD_MODULUS).
Proof.
  intros Hl. unfold bytesToDecimalString, canonicalFieldBytes. pose proof (accumulate_bound l Hl).
  rewrite Z.rem_mod_nonneg, accumulate_fill by (done || lia). f_equal. apply Z.mod_small.
  pose proof (Z.mod_pos_bound (accumulate l) BN254_SCALAR_FIELD_MODULUS ltac:(done)).
  assert (BN254_SCALAR_FIELD_MODULUS < 256 ^ 32) by done. lia.
Qed.

(** A sponge of at least one chunk ends with a Poseidon hash. *)
Lemma sponge_range poseidon tag l c : (forall x, 0 <= poseidon x < BN254_SCALAR_FIELD_MODULUS) -> (0 < c)%nat -> l <> [] ->
  0 <= poseidonSponge poseidon tag l c < BN254_SCALAR_FIELD_MODULUS.
Proof.
  intros Hp Hc Hl. unfold poseidonSponge. pose proof (ceil_div_le (length l) c Hc).
  assert (Hn : ceil_div (length l) c <> O) by (destruct l; [done|]; cbn in *; lia).
  generalize (pad_to (ceil_div (length l) c * c) l) tag. clear -Hp Hn. revert Hn. generalize (ceil_div (length l) c) as n.
  intros [|n] Hn; [done|]. clear Hn. cbn [sponge_loop]. intros m st. generalize (poseidon (st :: take c m)) (Hp (st :: take c m)).
  generalize (drop c m). induction n as [|n IH]; intros k z Hz; [exact Hz|]. cbn [sponge_loop]. apply IH, Hp.
Qed.

Section live.
Context {W : Type} {E : env} {so : solana W} {view : W -> bytes -> option TaskAccountState} {clock : W -> Z}
  {agents : string -> option AgentAccount} {market : MarketGlobal} {owner : bytes -> bytes} {opened : bytes -> Prop}
  {groth16 : Z * Z -> (Z * Z) * (Z * Z) -> Z * Z -> list Z -> Prop} {merkle : Z -> list string -> list string -> list string -> Prop}
  {sample : SampleInput} {addr : bytes} (lm : live_market E so view clock agents market owner opened groth16 merkle sample addr).

Lemma wait_returns endTs w :
  exists N w', view w' = view w /\ endTs <= clock w' /\
    forall fuel, (N <= fuel)%nat -> waitForDisputeWindow so fuel endTs w = Some (Ok tt, w').
Proof.
  remember (Z.to_nat (endTs - clock w)) as n eqn:Hn. revert w Hn.
  induction n as [n IH] using (well_founded_induction lt_wf). intros w Hn.
  destruct (Z.leb_spec endTs (clock w)) as [Hle|Hgt].
  - exists 1%nat, w. split_and!; [done..|]. intros [|fuel] Hf; [lia|]. simpl. unfold io_bind at 1.
    rewrite (lm_clock lm). by rewrite (proj2 (Z.leb_le endTs (clock w)) Hle).
  - set (ms := Z.min (endTs - clock w + 1) 5 * 1000).
    pose proof (lm_sleep_clock lm ms w ltac:(unfold ms; lia)) as Hs.
    destruct (IH (Z.to_nat (endTs - clock (so_sleep so ms w))) ltac:(lia) (so_sleep so ms w) eq_refl) as (N & w' & Hv & Hc & Hf).
    exists (S N), w'. rewrite (lm_sleep_view lm) in Hv. split_and!; [done..|].
    intros [|fuel] HN; [lia|]. simpl. unfold io_bind at 1. rewrite (lm_clock lm).
    rewrite (proj2 (Z.leb_gt endTs (clock w)) Hgt). apply Hf. lia.
Qed.

(** The payer and the extra signers all sign. *)
Lemma send_succeeds payer extra ixs w (P : W -> Prop) :
  (forall signers h, Forall (fun k => k ∈ signers) (payer :: extra) ->
     exists sig w', so_sendAndConfirm so signers h ixs w = Some (Ok sig, w') /\ P w') ->
  exists sig w', sendInstructions so payer extra ixs w = Some (Ok sig, w') /\ P w'.
Proof.
  intros H. destruct (lm_blockhash lm) as [h Hh].
  destruct (H (distinct [] (payer :: extra)) h) as (sig & w' & Hs & HP).
  { apply Forall_forall. intros k Hk. apply (distinct_in []) in Hk as [Hk|Hk]; [done|by inversion Hk]. }
  exists sig, w'. split; [|done]. unfold sendInstructions. cbn [send_loop]. unfold io_catch, send_once, io_bind at 1. by rewrite Hh, Hs.
Qed.

Lemma fetch_ok w t : view w addr = Some t -> fetch_task so addr w = Some (Ok t, w).
Proof. intros H. unfold fetch_task. rewrite (bind_ok_run _ _ _ _ _ (lm_task lm addr w)). by rewrite H. Qed.

(** The task at [addr] is [t] and is in state [st]. *)
Definition at_state (w : W) (t : TaskAccountState) (st : string) : Prop :=
  view w addr = Some t /\ parseTaskStatus (t_status t) = st.

Lemma stage_runs payer extra ixs st (P : TaskAccountState -> Prop) w :
  (forall signers h, Forall (fun k => k ∈ signers) (payer :: extra) ->
     exists sig w' t', so_sendAndConfirm so signers h ixs w = Some (Ok sig, w') /\
       view w' addr = Some t' /\ parseTaskStatus (t_status t') = st /\ P t') ->
  exists t' w', (do! _ <- sendInstructions so payer extra ixs in fetch_task so addr) w = Some (Ok t', w') /\ at_state w' t' st /\ P t'.
Proof.
  intros H. destruct (send_succeeds payer extra ixs w (fun w' => exists t', at_state w' t' st /\ P t')) as (sig & w' & Hs & t' & Ht & HP).
  { intros signers h Hk. destruct (H signers h Hk) as (sig & w' & t' & ? & ? & ? & ?). exists sig, w'. split; [done|]. by exists t'. }
  exists t', w'. rewrite (bind_ok_run _ _ _ _ _ Hs). split; [|done]. apply fetch_ok, Ht.
Qed.

Definition preimage (upstream : UpstreamResponseSnapshot) : list Z :=
  responseResultPreimage (sha256_text E) (e_toLowerCase E) (e_localeCompare E) (e_stringify E) upstream.

Definition result_of (upstream : UpstreamResponseSnapshot) : Z := poseidonSponge (e_poseidon E) RESULT_TAG (preimage upstream) 15.

Lemma preimage_length upstream : length (preimage upstream) = 32%nat.
Proof. apply (lm_sha256 lm). Qed.

Lemma result_range upstream : 0 <= result_of upstream < BN254_SCALAR_FIELD_MODULUS.
Proof. apply sponge_range; [apply (lm_poseidon lm)|lia|]. intros E0. pose proof (preimage_length upstream) as H. by rewrite E0 in H. Qed.

Lemma witness_ok t upstream : exists wit, buildManagedWitness E t upstream = Ok wit /\ mw_resultHash wit = fieldElementToBytes (result_of upstream) /\
  mw_input wit = {| s_task_hash := bytesToDecimalString (canonicalFieldBytes (taskHash t)); s_result_hash := z_text (result_of upstream);
    s_deadline := z_text (deadline t); s_submitted_at := z_text (submittedAt t);
    s_criteria_root := bytesToDecimalString (canonicalFieldBytes (criteriaRoot t)); s_task_preimage := s_task_preimage sample;
    s_result_preimage := map z_text (preimage upstream); s_salt := s_salt sample; s_criteria_satisfied := s_criteria_satisfied sample;
    s_criteria_path := s_criteria_path sample; s_criteria_index := s_criteria_index sample |}.
Proof. unfold buildManagedWitness. rewrite (lm_sample lm). cbn. eauto. Qed.

(** The witness of a task whose result it is satisfies the circuit, for the public
    inputs the program takes from the task. *)
Lemma witness_satisfies now agent upstream t wit : completable E merkle sample now agent upstream t ->
  parseTaskStatus (t_status t) = "proofSubmitted" -> buildManagedWitness E t upstream = Ok wit ->
  circuit_ok E sample merkle (mw_input wit) /\ public_signals E (mw_input wit) (program_inputs t).
Proof.
  intros [Hb Hd Hm _ Hsub] Hs Hw. destruct (Hsub Hs) as [Ht Hr]. specialize (Hr _ Hw).
  destruct (witness_ok t upstream) as (wit' & Hw' & Hrh & Hin). rewrite Hw in Hw'. injection Hw' as <-.
  repeat (apply Forall_cons in Hb as [? Hb]). pose proof (result_range upstream) as Hrange. rewrite Hrh in Hr.
  assert (Hmod : forall n, 0 <= n mod BN254_SCALAR_FIELD_MODULUS) by (intros n; apply Z.mod_pos_bound; done).
  assert (BN254_SCALAR_FIELD_MODULUS < 256 ^ 32) by done. assert (2 ^ 64 < BN254_SCALAR_FIELD_MODULUS) by done.
  split.
  - rewrite Hin. split_and!; cbn [s_task_hash s_result_hash s_deadline s_submitted_at s_criteria_root s_task_preimage s_result_preimage s_salt s_criteria_satisfied s_criteria_path s_criteria_index]; [|rewrite canonical_text by done| |done|done].
    + exists (preimage upstream). split_and!; [done|apply preimage_length|done].
    + eexists. split; [by apply (lm_bigint lm)|done].
    + exists (deadline t), (submittedAt t). split_and!; try (apply (lm_bigint lm)); lia.
  - rewrite Hin. unfold public_signals, program_inputs. cbn [s_task_hash s_result_hash s_deadline s_submitted_at s_criteria_root s_task_preimage s_result_preimage s_salt s_criteria_satisfied s_criteria_path s_criteria_index].
    rewrite !canonical_text, Hr by done.
    repeat constructor; (eexists; split; [apply (lm_bigint lm); auto; lia|]).
    + by rewrite Z.mod_mod.
    + unfold fieldElementToBytes. rewrite accumulate_fill. f_equal. apply Z.mod_small. lia.
    + rewrite !Z.mod_small by lia. done.
    + rewrite !Z.mod_small by lia. done.
    + by rewrite Z.mod_mod.
Qed.

Lemma completable_same now now' agent upstream t t' : same_task t t' -> completable E merkle sample now agent upstream t ->
  parseTaskStatus (t_status t') <> "funded" ->
  (parseTaskStatus (t_status t') = "proofSubmitted" -> 0 <= submittedAt t' <= deadline t' /\
     forall wit, buildManagedWitness E t' upstream = Ok wit -> resultHash t' = mw_resultHash wit) ->
  completable E merkle sample now' agent upstream t'.
Proof. intros (? & Eh & Er & Ed & _) [] Hnf Hps. split; rewrite ?Eh, ?Er, ?Ed in *; try done. Qed.

Lemma submit_runs payer agent upstream t w : at_state w t "funded" -> agents (e_hex E (agentDid t)) = Some agent ->
  completable E merkle sample (clock w) agent upstream t ->
  exists t' w', submit_stage E so payer (a_operator agent) agent addr upstream t w = Some (Ok t', w') /\ at_state w' t' "proofSubmitted" /\
    same_task t t' /\ completable E merkle sample (clock w') agent upstream t'.
Proof.
  intros [Hv Hs] Hag Hcp. unfold submit_stage. rewrite Hs. destruct (witness_ok t upstream) as (wit & Hw & Hrh & _). rewrite Hw.
  destruct (cp_funded _ _ _ _ _ _ _ Hcp Hs) as (Hact & Hnow & Hz). specialize (Hz _ Hw).
  destruct (stage_runs payer [a_operator agent] [I_submitResult (a_operator agent) addr (a_address agent) (mw_resultHash wit) (mw_proofKey wit)]
    "proofSubmitted" (fun t' => same_task t t' /\ resultHash t' = mw_resultHash wit /\ 0 <= submittedAt t' <= deadline t') w)
    as (t' & w' & Hrun & Hst & Hsame & Hres & Hsub).
  { intros signers h Hk. apply Forall_cons in Hk as [_ Hk]. apply Forall_cons in Hk as [Hk _].
    apply (lm_submit lm); try done; [by rewrite Hrh|]. apply (cp_deadline _ _ _ _ _ _ _ Hcp). }
  exists t', w'. split_and!; [exact Hrun|exact Hst|exact Hsame|]. destruct Hst as [_ Hst].
  eapply completable_same; [exact Hsame|exact Hcp|by rewrite Hst|]. intros _. split; [exact Hsub|].
  intros wit' Hw'. destruct (witness_ok t' upstream) as (wit2 & Hw2 & Hrh2 & _). rewrite Hw' in Hw2. injection Hw2 as <-. congruence.
Qed.

Lemma verify_runs payer agent upstream t w : at_state w t "proofSubmitted" -> completable E merkle sample (clock w) agent upstream t ->
  exists t' w', verify_stage E so payer addr upstream t w = Some (Ok t', w') /\ at_state w' t' "verified" /\ same_task t t'.
Proof.
  intros [Hv Hs] Hcp. unfold verify_stage. rewrite Hs. destruct (witness_ok t upstream) as (wit & Hw & _).
  destruct (witness_satisfies _ _ _ _ _ Hcp Hs Hw) as [Hc Hp]. rewrite Hw.
  destruct (lm_prove lm (mw_input wit) w _ Hc Hp) as (proof & Hrun & Hranges & Hg). simpl.
  rewrite (bind_ok_run _ _ w wit w eq_refl), (bind_ok_run _ _ _ _ _ Hrun).
  destruct proof as [[[ax ay] az] [[[b1 b2] [b3 b4]] b5] [[cx cy] cz]]. cbn [fst snd pi_a pi_b pi_c] in *.
  repeat (apply Forall_cons in Hranges as [? Hranges]).
  destruct (read_g1_written ax ay az) as [Ha La]; [done..|]. destruct (read_g1_written cx cy cz) as [Hcc Lc]; [done..|].
  destruct (read_g2_written b1 b2 b3 b4 b5) as [Hb Lb]; [repeat (apply Forall_cons; split; [assumption|]); constructor|].
  apply stage_runs. intros signers h Hk. apply Forall_cons in Hk as [Hk _].
  apply (lm_verify lm); try done. by rewrite Ha, Hb, Hcc.
Qed.

Definition opens (agent : AgentAccount) (m : bytes) : Prop :=
  (owner m = e_TOKEN_PROGRAM_ID E \/ owner m = e_TOKEN_2022_PROGRAM_ID E) /\ opened (e_ata E m (a_operator agent) (owner m)) /\
  opened (e_ata E m (feeCollector market) (owner m)) /\ opened (e_ata E m (solrepPool market) (owner m)).

Lemma release_runs cfg payer agent t w : keypair cfg = Some payer -> at_state w t "verified" ->
  agents (e_hex E (agentDid t)) = Some agent -> opens agent (paymentMint t) ->
  exists N t' w', at_state w' t' "released" /\
    forall fuel, (N <= fuel)%nat -> release_stage E so fuel cfg agent addr t w = Some (Ok t', w').
Proof.
  intros Hk [Hv Hs] Hag (Hprog & Ho1 & Ho2 & Ho3).
  destruct (wait_returns (disputeWindowEnd t) w) as (N & w1 & Hv1 & Hc & Hwait).
  assert (Hres : resolveTokenProgram E so (paymentMint t) w = Some (Ok (owner (paymentMint t)), w)).
  { unfold resolveTokenProgram. rewrite (bind_ok_run _ _ _ _ _ (lm_owner lm _ w)). by destruct Hprog as [->| ->]; repeat case_bool_decide; try congruence; rewrite ?H. }
  set (prog := owner (paymentMint t)) in *.
  set (ix := I_release payer addr (paymentMint t) (e_ata E (paymentMint t) (a_operator agent) prog)
    (e_ata E (paymentMint t) (feeCollector market) prog) (e_ata E (paymentMint t) (solrepPool market) prog) (a_address agent) (client t) prog).
  destruct (send_succeeds payer [] [ix] w1 (fun w' => exists t', at_state w' t' "released")) as (sig & w2 & Hsend & t' & Ht').
  { intros signers h Hsig. apply Forall_cons in Hsig as [Hsig _].
    destruct (lm_release lm signers h payer agent w1 t) as (sig & w' & t' & ? & ? & ?); try done; [by rewrite Hv1|].
    exists sig, w'. split; [done|]. by exists t'. }
  exists N, t', w2. split; [done|]. intros fuel Hf. unfold release_stage. rewrite Hs. simpl.
  assert (Hrel : releaseAfterDisputeWindow E so fuel cfg t addr (a_address agent) (a_operator agent) w = Some (Ok sig, w2)).
  { unfold releaseAfterDisputeWindow. rewrite Hk, (bind_ok_run _ _ _ _ _ Hres), (bind_ok_run _ _ _ _ _ (lm_market lm w)). cbv zeta.
    rewrite (bind_ok_run _ _ _ _ _ (Hwait fuel Hf)). cbn [release_loop]. unfold io_catch. fold ix. by rewrite Hsend. }
  rewrite (bind_ok_run _ _ _ _ _ Hrel). apply fetch_ok, Ht'.
Qed.

Definition open_state (st : string) : Prop := st = "funded" \/ st = "proofSubmitted" \/ st = "verified".

Lemma submit_idle payer managed agent upstream t st w :
  at_state w t st -> st <> "funded" -> submit_stage E so payer managed agent addr upstream t w = Some (Ok t, w).
Proof. intros [_ Hs] Hne. unfold submit_stage. destruct (String.eqb_spec (parseTaskStatus (t_status t)) "funded"); [congruence|done]. Qed.

Lemma verify_idle payer upstream t st w :
  at_state w t st -> st <> "proofSubmitted" -> verify_stage E so payer addr upstream t w = Some (Ok t, w).
Proof. intros [_ Hs] Hne. unfold verify_stage. destruct (String.eqb_spec (parseTaskStatus (t_status t)) "proofSubmitted"); [congruence|done]. Qed.

Lemma to_verified payer agent upstream t st w : at_state w t st -> open_state st -> agents (e_hex E (agentDid t)) = Some agent ->
  completable E merkle sample (clock w) agent upstream t ->
  exists t1 w1 t2 w2, submit_stage E so payer (a_operator agent) agent addr upstream t w = Some (Ok t1, w1) /\
    verify_stage E so payer addr upstream t1 w1 = Some (Ok t2, w2) /\ at_state w2 t2 "verified" /\
    paymentMint t2 = paymentMint t /\ agentDid t2 = agentDid t.
Proof.
  intros Ht [->|[->| ->]] Hag Hcp.
  - destruct (submit_runs payer agent upstream t w Ht Hag Hcp) as (t1 & w1 & R1 & Ht1 & (? & ? & ? & ? & Em & ? & Ed) & Hcp1).
    destruct (verify_runs payer agent upstream t1 w1 Ht1 Hcp1) as (t2 & w2 & R2 & Ht2 & (? & ? & ? & ? & Em2 & ? & Ed2)).
    exists t1, w1, t2, w2. split_and!; congruence || done.
  - destruct (verify_runs payer agent upstream t w Ht Hcp) as (t2 & w2 & R2 & Ht2 & (? & ? & ? & ? & Em2 & ? & Ed2)).
    exists t, w, t2, w2. split_and!; [by apply (submit_idle _ _ _ _ _ _ _ Ht)|done..].
  - exists t, w, t, w. split_and!; [by apply (submit_idle _ _ _ _ _ _ _ Ht)|by apply (verify_idle _ _ _ _ _ Ht)|done..].
Qed.

Lemma refresh_runs c receipt task w t :
  c <> localnet -> r_task receipt = Some task -> e_PublicKey E task = Ok addr -> view w addr = Some t ->
  exists r, refreshReceiptStatus E so c receipt w = Some (Ok r, w) /\ r_task r = Some task.
Proof.
  intros Hc Hr Ha Hv. unfold refreshReceiptStatus, fetchTaskState. rewrite Hr.
  case_match; [by eexists|]. rewrite Ha.
  rewrite (bind_ok_run _ _ w (Some t) w); [by eexists|].
  rewrite (bind_ok_run _ _ w addr w) by done. rewrite (lm_task lm). by rewrite Hv.
Qed.

Lemma finalize_runs cfg receipt upstream w t st payer task agent :
  cluster cfg <> localnet -> keypair cfg = Some payer -> recipientKeypair cfg = Some (a_operator agent) ->
  r_task receipt = Some task -> task <> "" -> e_PublicKey E task = Ok addr ->
  at_state w t st -> open_state st -> agents (e_hex E (agentDid t)) = Some agent ->
  completable E merkle sample (clock w) agent upstream t -> opens agent (paymentMint t) ->
  exists N r w' t', at_state w' t' "released" /\ task_status r = Some "released" /\ r_task r = Some task /\
    forall fuel, (N <= fuel)%nat -> finalizeManagedSettlement E so fuel cfg receipt upstream w = Some (Ok r, w').
Proof.
  intros Hc Hk Hrk Hr Hne Ha Ht Hst Hagent Hcp Hop. pose proof Ht as [Hv Hs].
  destruct (refresh_runs (cluster cfg) receipt task w t Hc Hr Ha Hv) as (r0 & Hr0 & Hr0t).
  destruct (to_verified payer agent upstream t st w Ht Hst Hagent Hcp) as (t1 & w1 & t2 & w2 & H1 & H2 & Ht2 & Em & Ed).
  destruct (release_runs cfg payer agent t2 w2 Hk Ht2) as (N & t3 & w3 & Ht3 & H3); [by rewrite Ed|by rewrite Em|].
  exists N, (with_status r0 (Some (default (e_hex E (taskId t3)) (task_id_hex r0))) (parseTaskStatus (t_status t3))), w3, t3.
  split_and!; [done|simpl; f_equal; apply Ht3|done|]. intros fuel Hf. unfold finalizeManagedSettlement.
  rewrite (bind_ok_run _ _ _ _ _ Hr0), Hk, Hr0t. rewrite bool_decide_false by done.
  destruct (String.eqb_spec task ""); [done|]. change (false || false) with false. cbv iota. rewrite Ha.
  rewrite (bind_ok_run _ _ w addr w) by done. rewrite (bind_ok_run _ _ _ _ _ (lm_task lm addr w)). rewrite Hv.
  cbv zeta. rewrite Hs. replace (String.eqb st "released") with false by (by destruct Hst as [->|[->| ->]]).
  rewrite (bind_ok_run _ _ _ _ _ (lm_agent lm _ w)), Hagent.
  unfold resolveManagedRecipientSigner. rewrite bool_decide_true by done. rewrite Hrk.
  rewrite (bind_ok_run _ _ _ _ _ H1), (bind_ok_run _ _ _ _ _ H2), (bind_ok_run _ _ _ _ _ (H3 fuel Hf)). done.
Qed.
End live.

(** ** A concrete market

    One task account, created by the first escrow, on a chain that checks the
    task's state before every step; names are encoded as in [toy_ed]. *)

Record toy_chain := { tc_sent : list (list instruction); tc_task : option TaskAccountState; tc_clock : Z }.

Definition key_of (n : Z) : bytes := repeat n 32.
Definition toy_operator : bytes := key_of 1.
Definition toy_recipient : bytes := key_of 2.
Definition toy_did : bytes := key_of 3.
Definition toy_mint : bytes := key_of 4.
Definition toy_nonce : bytes := repeat 9 8.
Definition toy_addr : bytes := toy_operator ++ toy_nonce.

Definition toy_agent : AgentAccount :=
  {| a_address := key_of 5; a_did := toy_did; a_operator := toy_recipient; a_status := "active"; capabilityMask := 6 |}.

Definition toy_sample : SampleInput :=
  {| s_task_hash := "1"; s_result_hash := "2"; s_deadline := "3"; s_submitted_at := "4"; s_criteria_root := "5";
     s_task_preimage := []; s_result_preimage := []; s_salt := "6"; s_criteria_satisfied := []; s_criteria_path := [];
     s_criteria_index := [] |}.

Definition toy_env : env :=
  {| e_sha256 b := take 32 (b ++ repeat 0 32);
     e_utf8 s := map (fun c => Z.of_nat (nat_of_ascii c)) (String.list_ascii_of_string s);
     e_hex b := bs58_encode toy_ed b;
     e_unhex s := match bs58_decode toy_ed s with Ok b => b | Throw _ => [] end;
     e_PublicKey s := bs58_decode toy_ed s;
     e_toBase58 b := bs58_encode toy_ed b;
     e_number _ := "amount";
     e_ata m o p := m ++ o ++ p;
     e_taskPda c n := c ++ n;
     e_taskEscrowPda t := t ++ [1];
     e_guardPda := [2];
     e_verifierKeyPda k := k;
     e_TOKEN_PROGRAM_ID := key_of 7;
     e_TOKEN_2022_PROGRAM_ID := key_of 8;
     e_bn_u64 n := if Z.abs n <? 2 ^ 53 then Ok (Z.abs n) else Throw "Assertion failed";
     e_sample := Ok toy_sample;
     e_BigInt := js_BigInt;
     e_settlement_text did p h := did +:+ p_mint p +:+ h;
     e_stringify := toy_stringify;
     e_toLowerCase s := s;
     e_localeCompare := toy_compare;
     e_poseidon l := toy_poseidon l mod BN254_SCALAR_FIELD_MODULUS |}.

Definition toy_view (w : toy_chain) (a : bytes) : option TaskAccountState :=
  if bool_decide (a = toy_addr) then tc_task w else None.

Definition with_state (t : TaskAccountState) (st : string) (result : bytes) (submitted windowEnd : Z) : TaskAccountState :=
  {| taskId := taskId t; taskHash := taskHash t; resultHash := result; criteriaRoot := criteriaRoot t; deadline := deadline t;
     submittedAt := submitted; disputeWindowEnd := windowEnd; paymentMint := paymentMint t; client := client t;
     agentDid := agentDid t; t_status := [st] |}.

(** A proof system of sums: the last point carries the sum of the public inputs. *)
Definition toy_point (publics : list Z) : Z := fold_left Z.add publics 0 mod BN254_SCALAR_FIELD_MODULUS.
Definition toy_groth16 (a : Z * Z) (b : (Z * Z) * (Z * Z)) (c : Z * Z) (publics : list Z) : Prop :=
  a = (1, 2) /\ b = ((3, 4), (5, 6)) /\ c = (7, toy_point publics).

#[export] Instance toy_groth16_dec a b c publics : Decision (toy_groth16 a b c publics).
Proof. unfold toy_groth16. tc_solve. Defined.

Definition toy_signal (text : string) : Z := match js_BigInt text with Ok z => z mod BN254_SCALAR_FIELD_MODULUS | Throw _ => 0 end.

Definition toy_prover (i : SampleInput) : SnarkProof :=
  {| pi_a := (1, 2, 1); pi_b := ((3, 4), (5, 6), (1, 0));
     pi_c := (7, toy_point (map toy_signal [s_task_hash i; s_result_hash i; s_deadline i; s_submitted_at i; s_criteria_root i]), 1) |}.

(** What the toy program does with a transaction: the task afterwards. *)
Definition toy_execute (w : toy_chain) (signers : list bytes) (ixs : list instruction) : result TaskAccountState :=
  match ixs, tc_task w with
  | [I_createTask nonce did mint _ _ _ _ root dl _ cl _; I_fundTask _ _ _ _ _ _ _], None =>
    Ok {| taskId := nonce; taskHash := key_of 1; resultHash := repeat 0 32; criteriaRoot := root; deadline := dl; submittedAt := 0;
          disputeWindowEnd := 0; paymentMint := mint; client := cl; agentDid := did; t_status := ["funded"] |}
  | [I_submitResult op _ _ rh _], Some t =>
    if negb (String.eqb (parseTaskStatus (t_status t)) "funded") then Throw "InvalidStatus"
    else if negb (bool_decide (op = toy_recipient) && bool_decide (op ∈ signers)) then Throw "CallerNotOperator"
    else if bool_decide (rh = repeat 0 32) then Throw "ZeroResultHash"
    else if deadline t <? tc_clock w then Throw "DeadlinePassed"
    else Ok (with_state t "proofSubmitted" rh (Z.max 0 (tc_clock w)) 0)
  | [I_verifyTask _ _ _ _ a b c], Some t =>
    if negb (String.eqb (parseTaskStatus (t_status t)) "proofSubmitted") then Throw "InvalidStatus"
    else if bool_decide (toy_groth16 (read_g1 a) (read_g2 b) (read_g1 c) (program_inputs t))
    then Ok (with_state t "verified" (resultHash t) (submittedAt t) (tc_clock w + 12))
    else Throw "ProofInvalid"
  | [I_release _ _ _ _ _ _ _ _ _], Some t =>
    if negb (String.eqb (parseTaskStatus (t_status t)) "verified") then Throw "InvalidStatus"
    else if disputeWindowEnd t <=? tc_clock w then Ok (with_state t "released" (resultHash t) (submittedAt t) (disputeWindowEnd t))
    else Throw "DisputeWindowOpen"
  | _, _ => Throw "InvalidInstruction"
  end.

Definition reads {A} (f : toy_chain -> A) : io toy_chain A := fun w => Some (Ok (f w), w).

Definition toy_market : MarketGlobal :=
  {| allowedPaymentMints := [toy_mint]; maxDeadlineSecs := 3600; feeCollector := key_of 10; solrepPool := key_of 11 |}.

Definition toy_solana : solana toy_chain :=
  {| so_task a := reads (fun w => toy_view w a);
     so_agent _ := reads (fun _ => Some toy_agent);
     so_mint_owner _ := reads (fun _ => Some (key_of 7));
     so_token_balance _ := reads (fun _ => Some 1000);
     so_market := reads (fun _ => toy_market);
     so_slot := reads tc_clock;
     so_blockTime slot := reads (fun _ => Some slot);
     so_dateNow _ := 0;
     so_latestBlockhash := reads (fun _ => "blockhash");
     so_sendAndConfirm signers _ ixs := fun w =>
       match toy_execute w signers ixs with
       | Ok t => Some (Ok "signature", {| tc_sent := tc_sent w ++ [ixs]; tc_task := Some t; tc_clock := tc_clock w + 1 |})
       | Throw e => Some (Throw e, w)
       end;
     so_sleep ms w := {| tc_sent := tc_sent w; tc_task := tc_task w; tc_clock := tc_clock w + ms / 1000 |};
     so_randomBytes n := reads (fun _ => repeat 9 n);
     so_fullProve i := reads (fun _ => toy_prover i);
     so_getTransaction sig := reads (fun w => Rpc_result (if String.eqb sig "signature" then Some (Some 7, None) else None)) |}.

Lemma toy_ledger : ledger toy_solana tc_sent.
Proof.
  split; try (intros; match goal with H : _ = Some (_, _) |- _ => by injection H as _ <- end); try done.
  intros signers bh ixs w r w'. simpl. destruct (toy_execute w signers ixs); intros [= <- <-]; [done|by left].
Qed.

Lemma toy_bn : bn_laws toy_env.
Proof.
  split. cbn. intros n m. destruct (Z.ltb_spec (Z.abs n) (2 ^ 53)) as [Hn|]; intros [= <-]. split; [done|].
  transitivity (2 ^ 53); [exact Hn|done].
Qed.

(** The toy's criteria are those whose root is 5. *)
Definition toy_merkle (root : Z) (_ _ _ : list string) : Prop := root = 5.

Lemma toy_signals i publics : public_signals toy_env i publics ->
  map toy_signal [s_task_hash i; s_result_hash i; s_deadline i; s_submitted_at i; s_criteria_root i] = publics.
Proof.
  unfold public_signals. generalize [s_task_hash i; s_result_hash i; s_deadline i; s_submitted_at i; s_criteria_root i]. intros l H.
  induction H as [|text n l publics (z & Hz & ->) _ IH]; [done|]. cbn [map]. rewrite IH. unfold toy_signal. cbn in Hz. by rewrite Hz.
Qed.

Lemma toy_live : live_market toy_env toy_solana toy_view tc_clock (fun _ => Some toy_agent) toy_market (fun _ => key_of 7) (fun _ => True)
  toy_groth16 toy_merkle toy_sample toy_addr.
Proof.
  assert (Hmod : forall n, 0 <= n mod BN254_SCALAR_FIELD_MODULUS < BN254_SCALAR_FIELD_MODULUS) by (intros n; by apply Z.mod_pos_bound).
  assert (Hw : BN254_SCALAR_FIELD_MODULUS < 2 ^ 256) by done.
  split; try done.
  - intros ms w H. simpl. assert (1 <= ms / 1000) by (apply Z.div_le_lower_bound; lia). lia.
  - by eexists.
  - exact js_BigInt_z.
  - intros b. change (length (take 32 (b ++ repeat 0 32)) = 32%nat). rewrite length_take, length_app, repeat_length. lia.
  - intros l. apply Hmod.
  - intros i w publics _ Hp. exists (toy_prover i). split; [done|]. unfold toy_prover. rewrite (toy_signals _ _ Hp). cbn [fst snd pi_a pi_b pi_c].
    assert (Ht : 0 <= toy_point publics < 2 ^ 256) by (unfold toy_point; pose proof (Hmod (fold_left Z.add publics 0)); lia).
    split; [|done]. repeat (apply Forall_cons; split; [first [exact Ht|done]|]). constructor.
  - intros signers h op ag rh pk w t Hv Hs [= <-] <- Hsig _ _ Hz Hd0 Hd. unfold toy_view in *. rewrite bool_decide_true in Hv by done.
    assert (Hx : toy_execute w signers [I_submitResult (a_operator toy_agent) toy_addr (a_address toy_agent) rh pk] =
      Ok (with_state t "proofSubmitted" rh (Z.max 0 (tc_clock w)) 0)).
    { unfold toy_execute. rewrite Hv, Hs, !bool_decide_true, bool_decide_false by done. by rewrite (proj2 (Z.ltb_ge _ _) Hd). }
    cbn [so_sendAndConfirm toy_solana]. rewrite Hx. rewrite (bool_decide_true (toy_addr = toy_addr)) by done.
    do 3 eexists. split; [done|]. split; [done|]. split; [done|]. split; [by repeat split|]. split; [done|]. cbn. lia.
  - intros signers h p a b c w t Hv Hs _ _ _ _ Hg vk. unfold toy_view in *. rewrite bool_decide_true in Hv by done.
    cbn. rewrite Hv, Hs. cbn. rewrite bool_decide_true by done. do 3 eexists. split; [done|]. split; [done|]. split; [done|by repeat split].
  - intros signers h p ag w t Hv Hs _ Hw' [= <-] m prog x y z _ _ _. unfold toy_view in *. rewrite bool_decide_true in Hv by done.
    cbn. rewrite Hv, Hs. cbn. rewrite (proj2 (Z.leb_le _ _) Hw'). do 3 eexists. split; [done|]. done.
Qed.

Definition toy_cfg : SettlementConfig :=
  {| cluster := devnet; keypair := Some toy_operator; recipientKeypair := Some toy_recipient; taskDeadlineSecs := 65 |}.

Definition challenge (amount : option Q) : PaymentDetails :=
  {| scheme := "exact"; p_amount := amount; p_mint := bs58_encode toy_ed toy_mint; p_recipient := bs58_encode toy_ed toy_did;
     resource := "/demo/paid"; p_nonce := None |}.

Definition toy_start : toy_chain := {| tc_sent := []; tc_task := None; tc_clock := 1000 |}.

(** The state after [m], for a run that is known to end normally. *)
Definition outcome {A} (d : A) (w : toy_chain) (m : io toy_chain A) : A * toy_chain :=
  match m w with
  | Some (Ok a, w') => (a, w')
  | Some (Throw _, w') => (d, w')
  | None => (d, w)
  end.

Definition no_receipt : PaymentReceipt :=
  {| tx_sig := ""; r_amount := None; r_mint := ""; r_task := None; task_id_hex := None; task_status := None |}.

Definition toy_requester : string := bs58_encode toy_ed (key_of 6).

Definition settle_example (amount : option Q) (budget : Z) : PaymentReceipt * toy_chain :=
  outcome no_receipt toy_start (settleViaTaskMarket toy_env toy_solana toy_cfg (challenge amount) toy_requester "" budget).

(** ** Properties *)

(** C7: a settlement escrows at most once, and only what it may.  However the chain
    answers, it adds nothing to the ledger or exactly one transaction, the
    creation and funding of one task from the operator's account to an active
    agent registered under the challenge's recipient, in an allowed mint, the
    challenge's own.  The u64 that is escrowed is the magnitude of the challenge's
    integer amount, and that amount is at most the budget, so that a challenge which is
    not negative is paid within it; a receipt on a live cluster means that the
    transaction is there. *)
Theorem settle_escrows_once {W} E (so : solana W) sent cfg payment requesterDid argsHash budget w r w' :
  ledger so sent -> bn_laws E ->
  settleViaTaskMarket E so cfg payment requesterDid argsHash budget w = Some (r, w') ->
  exists l, sent w' = sent w ++ l /\ settled_once E so cfg payment requesterDid argsHash budget r l.
Proof. intros lg bn. by apply settle_sends. Qed.

(** A completion puts its transactions on chain in order, each at most once: the
    result of the upstream's response for a task read as funded, a proof of the
    witness for a task read as proofSubmitted, and the release of a task read as
    verified, after a cluster time at or past the end of its dispute window. *)
Theorem completion_in_order {W} E (so : solana W) sent fuel cfg receipt upstream w r w' :
  ledger so sent ->
  finalizeManagedSettlement E so fuel cfg receipt upstream w = Some (r, w') ->
  exists l, sent w' = sent w ++ l /\ (l = [] \/
    exists payer task addr, cluster cfg <> localnet /\ keypair cfg = Some payer /\ r_task receipt = Some task /\
      e_PublicKey E task = Ok addr /\ completion E so payer addr upstream l).
Proof. intros lg. by apply finalize_sends. Qed.

(** C11: a managed payment is paid out.  On a live market ([live_market]), the completion
    of a receipt whose task is funded, proved or verified, whose agent is registered and
    whose recipient's operator key the gateway holds returns, with enough fuel for the
    wait, and the task and the receipt are then released.  The task must be one the
    program would still accept a completion of ([completable]): a funded one before its
    deadline and with an active agent, a proved one with this response's result; its
    criteria are the sample's, and the token accounts of its payees exist ([opens]).  The
    operator's signature, the result, the proof's bytes and every account of the release
    are what the program asks for. *)
Theorem managed_payment_released {W} {E} {so : solana W} {view clock agents market owner opened groth16 merkle sample addr}
    (lm : live_market E so view clock agents market owner opened groth16 merkle sample addr) cfg receipt upstream w t st payer task agent :
  cluster cfg <> localnet -> keypair cfg = Some payer -> recipientKeypair cfg = Some (a_operator agent) ->
  r_task receipt = Some task -> task <> "" -> e_PublicKey E task = Ok addr ->
  view w addr = Some t -> parseTaskStatus (t_status t) = st -> open_state st ->
  agents (e_hex E (agentDid t)) = Some agent ->
  completable E merkle sample (clock w) agent upstream t -> opens (E := E) (market := market) (owner := owner) (opened := opened) agent (paymentMint t) ->
  exists N r w' t', view w' addr = Some t' /\ parseTaskStatus (t_status t') = "released" /\
    task_status r = Some "released" /\
    forall fuel, (N <= fuel)%nat -> finalizeManagedSettlement E so fuel cfg receipt upstream w = Some (Ok r, w').
Proof.
  intros Hc Hk Hrk Hr Hne Ha Hv Hs Hst Hag Hcp Hop.
  destruct (finalize_runs lm cfg receipt upstream w t st payer task agent)
    as (N & r & w' & t' & [? ?] & ? & _ & ?); try done. by exists N, r, w', t'.
Qed.

(** The deadline asked for is always more than a minute away, so the guard that
    refuses a market with a too small maximum can never fire: for a maximum below
    61 seconds the task asks for a deadline the market's own rule forbids. *)
Theorem deadline_offset_range secs ceiling :
  61 <= deadline_offset secs ceiling <= Z.max 61 secs /\
  (62 <= ceiling -> deadline_offset secs ceiling < ceiling) /\
  (ceiling < 61 -> ceiling < deadline_offset secs ceiling).
Proof. unfold deadline_offset. lia. Qed.

(** The budget is only an upper bound of a number that is never checked to be an
    amount: a challenge for a negative amount passes every check of a settlement, and
    what is escrowed is its magnitude, here a million for a budget of five; on a local
    cluster a challenge without any amount is settled. *)
Theorem negative_amount_escrowed :
  r_task (settle_example (Some (- (1000000))%Q) 5).1 = Some (bs58_encode toy_ed toy_addr) /\
  (exists rest, head (tc_sent (settle_example (Some (- (1000000))%Q) 5).2) ≫= head =
     Some (I_createTask toy_nonce toy_did toy_mint 1000000 1 [] (key_of 6) (fieldElementToBytes 5) rest 1
             toy_operator (key_of 5))) /\
  forall payment, p_amount payment = None -> forall did h budget,
    settleViaTaskMarket toy_env toy_solana (legacy_config localnet) payment did h budget toy_start =
    Some (Ok (simulateSettlement toy_env payment did h), toy_start).
Proof.
  split_and!.
  - vm_compute. reflexivity.
  - eexists. vm_compute. reflexivity.
  - intros payment Hp did h budget. unfold settleViaTaskMarket. by rewrite Hp.
Qed.

(** ** Witnesses *)

Lemma settle_escrows_once_witness :
  exists l, tc_sent (settle_example (Some 40%Q) 50).2 = [] ++ l /\
    settled_once toy_env toy_solana toy_cfg (challenge (Some 40%Q)) toy_requester "" 50
      (Ok (settle_example (Some 40%Q) 50).1) l.
Proof.
  apply (settle_escrows_once toy_env toy_solana tc_sent toy_cfg (challenge (Some 40%Q)) toy_requester "" 50 toy_start
    (Ok (settle_example (Some 40%Q) 50).1) (settle_example (Some 40%Q) 50).2 toy_ledger toy_bn).
  vm_compute. reflexivity.
Defined.

Definition paid_receipt : PaymentReceipt := (settle_example (Some 40%Q) 50).1.
Definition paid_chain : toy_chain := (settle_example (Some 40%Q) 50).2.
Definition completed : PaymentReceipt * toy_chain :=
  outcome no_receipt paid_chain (finalizeManagedSettlement toy_env toy_solana 10 toy_cfg paid_receipt snapshot_a).

Lemma completion_in_order_witness :
  task_status completed.1 = Some "released" /\
  exists l, tc_sent completed.2 = tc_sent paid_chain ++ l /\ (l = [] \/
    exists payer task addr, cluster toy_cfg <> localnet /\ keypair toy_cfg = Some payer /\ r_task paid_receipt = Some task /\
      e_PublicKey toy_env task = Ok addr /\ completion toy_env toy_solana payer addr snapshot_a l).
Proof.
  split; [vm_compute; reflexivity|].
  apply (completion_in_order toy_env toy_solana tc_sent 10 toy_cfg paid_receipt snapshot_a paid_chain (Ok completed.1) completed.2 toy_ledger).
  vm_compute. reflexivity.
Defined.

Definition no_task : TaskAccountState :=
  {| taskId := []; taskHash := []; resultHash := []; criteriaRoot := []; deadline := 0; submittedAt := 0; disputeWindowEnd := 0;
     paymentMint := []; client := []; agentDid := []; t_status := [] |}.
Definition paid_task : TaskAccountState := default no_task (tc_task paid_chain).

Lemma paid_task_completable : completable toy_env toy_merkle toy_sample (tc_clock paid_chain) toy_agent snapshot_a paid_task.
Proof.
  split.
  - apply (bool_decide_unpack _). vm_compute. exact I.
  - split; [apply Z.leb_le|apply Z.ltb_lt]; vm_compute; reflexivity.
  - vm_compute. reflexivity.
  - intros _. split; [reflexivity|]. split; [apply Z.leb_le; vm_compute; reflexivity|]. intros wit Hw.
    assert (E : match buildManagedWitness toy_env paid_task snapshot_a with Ok m => bool_decide (mw_resultHash m = repeat 0 32) | Throw _ => true end = false)
      by (vm_compute; reflexivity).
    rewrite Hw in E. by apply bool_decide_eq_false in E.
  - intros H. vm_compute in H. discriminate H.
Qed.

Lemma managed_payment_released_witness :
  exists N r w' t', toy_view w' toy_addr = Some t' /\ parseTaskStatus (t_status t') = "released" /\
    task_status r = Some "released" /\
    forall fuel, (N <= fuel)%nat -> finalizeManagedSettlement toy_env toy_solana fuel toy_cfg paid_receipt snapshot_a paid_chain = Some (Ok r, w').
Proof.
  refine (managed_payment_released toy_live toy_cfg paid_receipt snapshot_a paid_chain paid_task "funded" toy_operator
    (bs58_encode toy_ed toy_addr) toy_agent _ _ _ _ _ _ _ _ _ _ _ _).
  - discriminate.
  - reflexivity.
  - reflexivity.
  - vm_compute. reflexivity.
  - vm_compute. discriminate.
  - vm_compute. reflexivity.
  - vm_compute. reflexivity.
  - vm_compute. reflexivity.
  - by left.
  - reflexivity.
  - exact paid_task_completable.
  - split_and!; [by left|done..].
Defined.

Lemma deadline_offset_range_witness : deadline_offset 300 3600 < 3600.
Proof. apply (deadline_offset_range 300 3600). lia. Defined.
