(* ===== verification/X402Gateway.v ===== *)
(** * X402Gateway: the HTTP handlers of the x402 gateway

    Models services/x402-gateway/src/server.ts: POST /proxy, which fetches a
    target on behalf of a signed request and pays the 402 challenges it meets,
    GET /demo/paid and POST /facilitate/verify.  The settlement functions are an
    interface ([gateway_ops]) with what a client may rely on ([settlement_laws]);
    X402Settle.v implements it.  Metrics, CORS and log lines are not modelled. *)

From Stdlib Require Import ZArith QArith Lqa Ascii.
From stdpp Require Import base sets list strings.
From S2P Require Import Prelude Effects JsMap Json ComputeBond Attestation X402Auth X402Proof X402Settle X402SettleSafety.

Open Scope Z_scope.
Open Scope saep_scope.

(** ** Bodies, configuration and replies *)

Record ProxyBody := {
  b_target_url : string;
  b_method : string;
  b_headers : option (list (string * string));
  b_body : option string;
  b_body_hash : option string;
  b_budget_lamports : Z;
  b_mint : string;
  b_nonce : string;
  b_agent_did : string;
  b_signature : string;
}.

Definition between (lo hi : nat) (s : string) : bool := ((lo <=? String.length s) && (String.length s <=? hi))%nat.

Definition ProxyBody_ok (parse_url : string -> option URL) (b : ProxyBody) : bool :=
  match parse_url (b_target_url b) with Some _ => true | None => false end &&
  bool_decide (b_method b ∈ ["GET"; "POST"; "PUT"; "DELETE"; "PATCH"]) &&
  (0 <? b_budget_lamports b) && between 32 44 (b_mint b) && (1 <=? String.length (b_nonce b))%nat &&
  between 32 44 (b_agent_did b) && between 64 128 (b_signature b).

Record FacilitateBody := { x_payment : string; resource_ref : string }.

Definition FacilitateBody_ok (b : FacilitateBody) : bool :=
  ((1 <=? String.length (x_payment b)) && (1 <=? String.length (resource_ref b)))%nat.

Record gateway_config := {
  maxBudgetLamports : Z;
  allowPattern : string;
  allowList : list string;
  ratePerMin : Z;
  ratePerDay : Z;
  max402Retries : nat;
  demoPaymentMint : option string;
  demoPaymentAmount : Z;
  demoRecipientDid : option string;
  demoResource : string;
}.

(** The fields of an x-payment header that carries a receipt. *)
Record receipt_header := {
  h_tx_sig : option string;
  h_task : option string;
  h_task_id_hex : option string;
  h_task_status : option string;
}.

Record demo_challenge := { c_amount : Z; c_mint : string; c_recipient : string; c_resource : string }.

Record access := {
  ac_tx_sig : string;
  ac_task : option string;
  ac_task_id_hex : option string;
  ac_task_status : option string;
  ac_slot : option Z;
}.

Inductive gw_body :=
| G_bad_request
| G_error (error : string) (detail : option string)
| G_rate (rate : RateResult)
| G_unfinished (detail : string) (receipts : list PaymentReceipt)
| G_response (status : Z) (headers : list (string * string)) (body : string) (receipts : list PaymentReceipt)
| G_payment_required (detail : string) (c : demo_challenge) (sig : option string)
| G_paid (amount : Z) (mint resource : string) (a : access)
| G_settled (a : access).

Record gw_reply := { g_code : Z; g_body : gw_body }.

Definition refuse (c : Z) (e : string) (detail : option string) : gw_reply := {| g_code := c; g_body := G_error e detail |}.

(** ** The outside *)

Record fetch_request := {
  fr_url : string;
  fr_method : string;
  fr_headers : list (string * string);
  fr_x_payment : option PaymentReceipt;  (* set last, over a header of the caller's *)
  fr_body : option string;
}.

(** A response whose body may still fail to arrive. *)
Record upstream := { u_status : Z; u_headers : list (string * string); u_text : result string }.

Record gateway_ops (W : Type) := {
  g_fetch : fetch_request -> io W upstream;
  g_settle : PaymentDetails -> string -> string -> Z -> io W PaymentReceipt;
  g_finalize : PaymentReceipt -> UpstreamResponseSnapshot -> io W PaymentReceipt;
  g_verify : string -> option string -> option string -> io W VerificationResult;
}.
Arguments g_fetch {W} _ _ _.
Arguments g_settle {W} _ _ _ _ _ _.
Arguments g_finalize {W} _ _ _ _.
Arguments g_verify {W} _ _ _ _ _.

(** The default settlement functions of [build]. *)
Definition default_ops {W} (E : env) (so : solana W) (cfg : SettlementConfig) (fuel : nat)
    (fetch : fetch_request -> io W upstream) : gateway_ops W :=
  {| g_fetch := fetch;
     g_settle payment did argsHash budget := settleViaTaskMarket E so cfg payment did argsHash budget;
     g_finalize receipt snapshot := finalizeManagedSettlement E so fuel cfg receipt snapshot;
     g_verify sig task idHex := verifySettlement E so (Some (cluster cfg)) sig task idHex |}.

(** What the handlers rely on: [spent] lists the amounts escrowed so far; only a
    settlement adds to it, at most one amount, the magnitude of the challenge's amount,
    which is within its budget. *)
Class settlement_laws {W} (ops : gateway_ops W) (spent : W -> list Z) : Prop := {
  sl_fetch : forall q w r w', g_fetch ops q w = Some (r, w') -> spent w' = spent w;
  sl_settle : forall p did h budget w r w', g_settle ops p did h budget w = Some (r, w') ->
    exists l, spent w' = spent w ++ l /\
      (l = [] \/ exists n, l = [Z.abs n] /\ BigInt_amount (p_amount p) = Ok n /\ n <= budget);
  sl_finalize : forall rc s w r w', g_finalize ops rc s w = Some (r, w') -> spent w' = spent w;
}.

Section gateway.
Context {W R : Type}.
Variable ops : gateway_ops W.
Variable rd : redis R.
Variable ed : ed25519.
Variable parse_url : string -> option URL.
Variable isIP : string -> Z.
(** JSON.parse of a challenge and of a receipt header, [None] when it throws (or
    gives a value that is not an object). *)
Variable json_payment : string -> option PaymentDetails.
Variable json_receipt : string -> option receipt_header.
Variable sha256_hex : string -> string.
Variable cfg : gateway_config.

Definition parseXPaymentHeader (header : string) : option PaymentDetails := json_payment header.

Definition newline : string := String (ascii_of_nat 10) "".

Definition requestHash (method url : string) (body : option string) : string :=
  sha256_hex (method +:+ newline +:+ url +:+ newline +:+ default "" body).

(** ** POST /proxy *)

Definition proxy_request (b : ProxyBody) (receipts : list PaymentReceipt) : fetch_request :=
  {| fr_url := b_target_url b; fr_method := b_method b; fr_headers := default [] (b_headers b);
     fr_x_payment := last receipts;
     fr_body := if String.eqb (b_method b) "GET" then None else b_body b |}.

Definition upstream_error : gw_reply := refuse 502 "upstream_error" (Some "upstream_unavailable").
Definition settlement_failed : gw_reply := refuse 402 "settlement_failed" (Some "settlement_rejected").

(** The challenge of a response the gateway should pay. *)
Definition challenge_of (u : upstream) : option PaymentDetails :=
  if negb (u_status u =? 402) then None
  else match map_get "x-payment" (u_headers u) with
       | Some h => if String.eqb h "" then None else parseXPaymentHeader h
       | None => None
       end.

(** At most [left] more rounds of the loop: an early reply, or the receipts and
    the last response. *)
Fixpoint proxy_loop (left : nat) (b : ProxyBody) (receipts : list PaymentReceipt) (lastSeen : UpstreamResponseSnapshot) :
    io W (gw_reply + (list PaymentReceipt * UpstreamResponseSnapshot)) :=
  match left with
  | O => io_ret (inr (receipts, lastSeen))
  | S left' =>
    do! fetched <- io_catch (do! u <- g_fetch ops (proxy_request b receipts) in io_ret (Some u)) (fun _ => io_ret None) in
    match fetched with
    | None => io_ret (inl upstream_error)
    | Some u =>
      do! text <- io_lift (u_text u) in
      let seen := {| sn_status := u_status u; sn_headers := u_headers u; sn_body := text |} in
      match challenge_of u with
      | None => io_ret (inr (receipts, seen))
      | Some payment =>
        let argsHash := requestHash (b_method b) (b_target_url b) (b_body b) in
        do! settled <- io_catch
          (do! rc <- g_settle ops payment (b_agent_did b) argsHash (b_budget_lamports b) in io_ret (Some rc))
          (fun _ => io_ret None) in
        match settled with
        | None => io_ret (inl settlement_failed)
        | Some rc => proxy_loop left' b (receipts ++ [rc]) seen
        end
      end
    end
  end.

(** [paymentReceipts[paymentReceipts.length - 1] = finalized] *)
Definition replace_last (receipts : list PaymentReceipt) (rc : PaymentReceipt) : list PaymentReceipt :=
  removelast receipts ++ [rc].

Definition proxy_reply (receipts : list PaymentReceipt) (s : UpstreamResponseSnapshot) : gw_reply :=
  {| g_code := if sn_status s =? 402 then 402 else if sn_status s =? 0 then 502 else sn_status s;
     g_body := G_response (sn_status s) (if sn_status s =? 402 then [] else sn_headers s) (sn_body s) receipts |}.

(** From the accepted request to the reply. *)
Definition proxy_run (b : ProxyBody) : io W gw_reply :=
  do! looped <- proxy_loop (S (max402Retries cfg)) b [] {| sn_status := 0; sn_headers := []; sn_body := "" |} in
  match looped with
  | inl r => io_ret r
  | inr (receipts, s) =>
    match last receipts with
    | Some latest =>
      if (200 <=? sn_status s) && (sn_status s <? 300) then
        do! closing <- io_catch (do! rc <- g_finalize ops latest s in io_ret (inr rc)) (fun e => io_ret (inl e)) in
        match closing with
        | inl e => io_ret {| g_code := 502; g_body := G_unfinished e receipts |}
        | inr rc => io_ret (proxy_reply (replace_last receipts rc) s)
        end
      else io_ret (proxy_reply receipts s)
    | None => io_ret (proxy_reply receipts s)
    end
  end.

Definition proxy_terms_of (b : ProxyBody) : proxy_terms :=
  {| t_target_url := b_target_url b; t_method := b_method b; t_budget_lamports := b_budget_lamports b;
     t_mint := b_mint b; t_body_hash := b_body_hash b; t_nonce := b_nonce b |}.

(** Fastify answers 500 for a handler that throws. *)
Definition or_500 (m : io W gw_reply) : io W gw_reply :=
  io_catch m (fun e => io_ret (refuse 500 "Internal Server Error" (Some e))).

Record gw_state := { limiter : R; out : W }.

Definition with_out (s : gw_state) (rl : R) (x : option (result gw_reply * W)) : option (gw_reply * gw_state) :=
  match x with
  | Some (Ok r, w) => Some (r, {| limiter := rl; out := w |})
  | _ => None
  end.

Definition post_proxy (raw : option ProxyBody) (now : Z) (s : gw_state) : option (gw_reply * gw_state) :=
  match raw with
  | None => Some ({| g_code := 400; g_body := G_bad_request |}, s)
  | Some b =>
    if negb (ProxyBody_ok parse_url b) then Some ({| g_code := 400; g_body := G_bad_request |}, s)
    else if maxBudgetLamports cfg <? b_budget_lamports b
    then Some (refuse 400 "budget exceeds maxBudgetLamports" None, s)
    else if negb (isTargetAllowed parse_url isIP (b_target_url b) (allowPattern cfg) (allowList cfg))
    then Some (refuse 403 "target_url not in allow-config" None, s)
    else if negb (verifyProxyRequest ed (canonicalizeProxy (proxy_terms_of b)) (b_signature b) (b_agent_did b))
    then Some (refuse 401 "signature invalid" None, s)
    else
      let (rate, rl) := checkRate rd (b_agent_did b) (ratePerMin cfg) (ratePerDay cfg) now (limiter s) in
      if negb (rate_allowed rate) then Some ({| g_code := 429; g_body := G_rate rate |}, {| limiter := rl; out := out s |})
      else with_out s rl (or_500 (proxy_run b) (out s))
  end.

(** ** Receipts shown by a client *)

Definition nullish {A} (a b : option A) : option A := match a with Some _ => a | None => b end.

(** What is said of a transaction the cluster knows. *)
Definition access_of (h : receipt_header) (sig : string) (v : VerificationResult) : access :=
  {| ac_tx_sig := sig; ac_task := nullish (v_task v) (h_task h);
     ac_task_id_hex := nullish (v_task_id_hex v) (h_task_id_hex h);
     ac_task_status := nullish (v_task_status v) (h_task_status h); ac_slot := v_slot v |}.

Definition settled_status (st : TxStatus) : bool := bool_decide (st = confirmed) || bool_decide (st = finalized).

(** GET /demo/paid *)
Definition get_demo_paid (header : option string) : io W gw_reply :=
  match demoPaymentMint cfg, demoRecipientDid cfg with
  | Some mint, Some recipient =>
    if String.eqb mint "" || String.eqb recipient "" then io_ret (refuse 503 "demo_not_configured" None) else
    let c := {| c_amount := demoPaymentAmount cfg; c_mint := mint; c_recipient := recipient; c_resource := demoResource cfg |} in
    let requirePayment detail sig := io_ret {| g_code := 402; g_body := G_payment_required detail c sig |} in
    match header with
    | None => requirePayment "missing_x_payment_header" None
    | Some xPayment =>
      match json_receipt xPayment with
      | None => requirePayment "x_payment_invalid_json" None
      | Some h =>
        match h_tx_sig h with
        | Some sig =>
          if String.eqb sig "" then requirePayment "x_payment_missing_tx_sig" None else
          do! v <- g_verify ops sig (h_task h) (h_task_id_hex h) in
          if settled_status (v_status v)
          then io_ret {| g_code := 200; g_body := G_paid (c_amount c) mint (demoResource cfg) (access_of h sig v) |}
          else if bool_decide (v_status v = tx_failed)
          then requirePayment ("transaction_failed:" +:+ default "unknown" (v_err v)) (Some sig)
          else requirePayment ("transaction_not_found:" +:+ default "pending" (v_err v)) (Some sig)
        | None => requirePayment "x_payment_missing_tx_sig" None
        end
      end
    end
  | _, _ => io_ret (refuse 503 "demo_not_configured" None)
  end.

(** POST /facilitate/verify *)
Definition post_facilitate_verify (raw : option FacilitateBody) : io W gw_reply :=
  match raw with
  | None => io_ret {| g_code := 400; g_body := G_bad_request |}
  | Some b =>
    if negb (FacilitateBody_ok b) then io_ret {| g_code := 400; g_body := G_bad_request |} else
    match json_receipt (x_payment b) with
    | None => io_ret (refuse 400 "x_payment is not valid JSON" None)
    | Some h =>
      match h_tx_sig h with
      | Some sig =>
        if String.eqb sig "" then io_ret (refuse 400 "x_payment missing tx_sig" None) else
        do! v <- g_verify ops sig (h_task h) (h_task_id_hex h) in
        if settled_status (v_status v) then io_ret {| g_code := 200; g_body := G_settled (access_of h sig v) |}
        else if bool_decide (v_status v = tx_failed) then io_ret (refuse 409 "transaction failed" (v_err v))
        else io_ret (refuse 404 "transaction not found" (v_err v))
      | None => io_ret (refuse 400 "x_payment missing tx_sig" None)
      end
    end
  end.
End gateway.
Arguments limiter {W R} _.
Arguments out {W R} _.
