(* ===== verification/X402GatewaySafety.v ===== *)
(** * X402GatewaySafety: what the x402 gateway spends and serves

    Theorems about X402Gateway.v.  The handlers' theorems are proved against
    [settlement_laws]; [default_settlement_laws] shows that the task-market
    settlement of X402Settle.v satisfies them on any ledger. *)

From Stdlib Require Import ZArith QArith Qround Lqa Ascii.
From stdpp Require Import base gmap sets list strings.
From S2P Require Import Prelude Effects JsMap Json ComputeBond Attestation X402Auth X402Proof X402Settle X402SettleSafety X402Gateway.

Open Scope Z_scope.
Open Scope saep_scope.

(** ** The task-market settlement implements the interface *)

(** The amount a transaction escrows. *)
Definition escrow_amount (tx : list instruction) : option Z :=
  match tx with
  | I_createTask _ _ _ amount _ _ _ _ _ _ _ _ :: _ => Some amount
  | _ => None
  end.

Definition escrowed (txs : list (list instruction)) : list Z := omap escrow_amount txs.

Lemma escrowed_app l k : escrowed (l ++ k) = escrowed l ++ escrowed k.
Proof. apply omap_app. Qed.

Lemma escrow_within {W} E (so : solana W) cfg p did h budget tx :
  escrow_of E so cfg p did h budget tx ->
  exists n, escrowed [tx] = [Z.abs n] /\ BigInt_amount (p_amount p) = Ok n /\ n <= budget.
Proof.
  intros (payer & nonce & d & mint & amount & bit & rq & root & dl & agent & rest & w1 & w2 & w3 & w4 & g & -> & _ & _ & Hn & Hle & _).
  by exists amount.
Qed.

Lemma completion_escrows_nothing {W} E (so : solana W) payer addr up l : completion E so payer addr up l -> escrowed l = [].
Proof.
  intros (s & v & r & -> & Hs & Hv & Hr). rewrite !escrowed_app.
  assert (escrowed s = []) as -> by (destruct Hs as [->|(? & ? & ? & ? & _ & _ & ->)]; done).
  assert (escrowed v = []) as -> by (destruct Hv as [->|(? & ? & ? & ? & ? & ? & ? & _ & _ & _ & ->)]; done).
  by destruct Hr as [->|(? & ? & ? & ? & ? & ? & ? & ? & ? & _ & _ & _ & ->)].
Qed.

#[export] Instance default_settlement_laws {W} E (so : solana W) sent cfg fuel fetch :
  ledger so sent -> bn_laws E -> (forall q w r w', fetch q w = Some (r, w') -> sent w' = sent w) ->
  settlement_laws (default_ops E so cfg fuel fetch) (fun w => escrowed (sent w)).
Proof.
  intros lg bn Hf. split; simpl.
  - intros q w r w' H. by rewrite (Hf _ _ _ _ H).
  - intros p did h budget w r w' H. apply (settle_sends E so sent lg bn) in H as (l & -> & Hl).
    exists (escrowed l). rewrite escrowed_app. split; [done|]. destruct r as [rc|e]; simpl in Hl.
    + destruct Hl as (_ & _ & _ & Hl). destruct l as [|tx [|]]; [by left| |done]. right. by eapply escrow_within, Hl.
    + destruct Hl as [->|(tx & -> & Hl)]; [by left|]. right. by eapply escrow_within.
  - intros rc s w r w' H. apply (finalize_sends E so sent lg) in H as (l & -> & Hl).
    rewrite escrowed_app. destruct Hl as [->|(payer & task & addr & _ & _ & _ & _ & Hl)]; [by rewrite app_nil_r|].
    by rewrite (completion_escrows_nothing _ _ _ _ _ _ Hl), app_nil_r.
Qed.

(** ** The proxy *)

Section proxy.
Context {W R : Type} (ops : gateway_ops W) (rd : redis R) (ed : ed25519).
Variables (parse_url : string -> option URL) (isIP : string -> Z).
Variables (json_payment : string -> option PaymentDetails) (sha256_hex : string -> string) (cfg : gateway_config).

#[local] Abbreviation loop := (proxy_loop ops json_payment sha256_hex).
#[local] Abbreviation run := (proxy_run ops json_payment sha256_hex cfg).

(** A call whose exception is caught: the call's own effect is all there is. *)
Lemma caught_run {A} (m : io W A) w (x : result (option A)) w' :
  io_catch (do! a <- m in io_ret (Some a)) (fun _ => io_ret None) w = Some (x, w') ->
  (exists a, m w = Some (Ok a, w') /\ x = Ok (Some a)) \/ (exists e, m w = Some (Throw e, w') /\ x = Ok None).
Proof.
  unfold io_catch, io_bind, io_ret. destruct (m w) as [[[a|e] w1]|]; [..|done]; intros [= <- <-]; [left|right]; eauto.
Qed.

Section spending.
Variable spent : W -> list Z.
Context `{laws : !settlement_laws ops spent}.

(** A payment of [a] for a challenge the upstream did send: its magnitude, of an amount
    that is within the budget. *)
Definition answers (budget a : Z) : Prop :=
  exists q w1 u w2 p n, g_fetch ops q w1 = Some (Ok u, w2) /\ challenge_of json_payment u = Some p /\
    BigInt_amount (p_amount p) = Ok n /\ n <= budget /\ a = Z.abs n.

Lemma loop_spends left b receipts seen w x w' :
  loop left b receipts seen w = Some (x, w') ->
  exists l, spent w' = spent w ++ l /\ (length l <= left)%nat /\ Forall (answers (b_budget_lamports b)) l.
Proof.
  revert receipts seen w. induction left as [|left IH]; intros receipts seen w.
  - intros [= _ <-]. exists []. by rewrite app_nil_r.
  - cbn [proxy_loop]. unfold io_bind at 1.
    destruct (io_catch _ _ w) as [[xf w1]|] eqn:Ef; [|done].
    assert (H1 : spent w1 = spent w /\ exists o, xf = Ok o /\ forall u, o = Some u -> exists q, g_fetch ops q w = Some (Ok u, w1)).
    { apply caught_run in Ef as [(u & Hu & ->)|(e & Hu & ->)]; pose proof (sl_fetch (ops := ops) _ _ _ _ Hu).
      - split; [done|]. exists (Some u). split; [done|]. intros u' [= <-]. eauto.
      - split; [done|]. by exists None. }
    destruct H1 as [H1 (o & -> & Hfetched)]. destruct o as [u|].
    2: { intros [= _ <-]. exists []. rewrite app_nil_r. split_and!; [done|simpl; lia|done]. }
    destruct (u_text u) as [text|e]; unfold io_bind at 1; cbn [io_lift].
    2: { intros [= _ <-]. exists []. rewrite app_nil_r. split_and!; [done|simpl; lia|done]. }
    destruct (challenge_of json_payment u) as [payment|] eqn:Echallenge.
    2: { intros [= _ <-]. exists []. rewrite app_nil_r. split_and!; [done|simpl; lia|done]. }
    unfold io_bind at 1. destruct (io_catch _ _ w1) as [[xs w2]|] eqn:Es; [|done].
    assert (H2 : exists l, spent w2 = spent w1 ++ l /\
      (l = [] \/ exists n, l = [Z.abs n] /\ BigInt_amount (p_amount payment) = Ok n /\ n <= b_budget_lamports b) /\ exists o, xs = Ok o).
    { apply caught_run in Es as [(rc & Hr & ->)|(e & Hr & ->)]; apply (sl_settle (ops := ops)) in Hr as (l & ? & ?); eauto. }
    destruct H2 as (l1 & H2 & Hl1 & o & ->).
    assert (Hl1' : (length l1 <= 1)%nat /\ Forall (answers (b_budget_lamports b)) l1).
    { destruct Hl1 as [->|(n & -> & Hn & Hle)]; (split; [simpl; lia|]); [done|]. apply Forall_singleton.
      destruct (Hfetched u eq_refl) as [q Hq]. by exists q, w, u, w1, payment, n. }
    destruct o as [rc|].
    + intros H. apply IH in H as (l & Hl & Hlen & Hb). exists (l1 ++ l).
      rewrite Hl, H2, H1, app_assoc. split; [done|]. rewrite length_app. split; [lia|].
      apply Forall_app. split; [apply Hl1'|done].
    + intros [= _ <-]. exists l1. rewrite H2, H1. split_and!; [done|lia|apply Hl1'].
Qed.

Lemma run_spends b w x w' :
  run b w = Some (x, w') ->
  exists l, spent w' = spent w ++ l /\ (length l <= S (max402Retries cfg))%nat /\ Forall (answers (b_budget_lamports b)) l.
Proof.
  unfold proxy_run. unfold io_bind at 1.
  destruct (loop _ b [] _ w) as [[[[r|[receipts s]]|e] w1]|] eqn:El; [..|done]; apply loop_spends in El as (l & Hl & Hlen & Hb).
  - intros [= _ <-]. eauto.
  - destruct (last receipts) as [latest|]; [|intros [= _ <-]; eauto].
    destruct (_ && _); [|intros [= _ <-]; eauto].
    unfold io_bind at 1, io_catch, io_bind at 1.
    destruct (g_finalize ops latest s w1) as [[[rc|e] w2]|] eqn:Eg; [..|done]; intros [= _ <-];
      rewrite (sl_finalize _ _ _ _ _ Eg); eauto.
  - intros [= _ <-]. eauto.
Qed.
End spending.

(** The amounts of the receipts a reply shows. *)
Definition shown (r : gw_reply) : option (list PaymentReceipt) :=
  match g_body r with
  | G_unfinished _ rs | G_response _ _ _ rs => Some rs
  | _ => None
  end.

Section receipts.
(** [settled w]: the receipts handed out so far, oldest first. *)
Variable settled : W -> list PaymentReceipt.
Hypothesis st_fetch : forall q w r w', g_fetch ops q w = Some (r, w') -> settled w' = settled w.
Hypothesis st_finalize : forall rc s w r w', g_finalize ops rc s w = Some (r, w') -> settled w' = settled w.
Hypothesis st_settle : forall p did h budget w r w', g_settle ops p did h budget w = Some (r, w') ->
  settled w' = match r with Ok rc => settled w ++ [rc] | Throw _ => settled w end.

Lemma loop_receipts left b receipts seen w x w' :
  loop left b receipts seen w = Some (Ok x, w') ->
  exists l, settled w' = settled w ++ l /\
    match x with
    | inr (rs, _) => rs = receipts ++ l
    | inl r => shown r = None
    end.
Proof.
  revert receipts seen w. induction left as [|left IH]; intros receipts seen w.
  - intros [= <- <-]. exists []. by rewrite !app_nil_r.
  - cbn [proxy_loop]. unfold io_bind at 1.
    destruct (io_catch _ _ w) as [[xf w1]|] eqn:Ef; [|done].
    assert (H1 : settled w1 = settled w /\ exists o, xf = Ok o).
    { apply caught_run in Ef as [(u & Hu & ->)|(e & Hu & ->)]; apply st_fetch in Hu; eauto. }
    destruct H1 as [H1 [o ->]]. destruct o as [u|].
    2: { intros [= <- <-]. exists []. by rewrite app_nil_r. }
    destruct (u_text u) as [text|e]; unfold io_bind at 1; cbn [io_lift]; [|done].
    destruct (challenge_of json_payment u) as [payment|].
    2: { intros [= <- <-]. exists []. by rewrite !app_nil_r. }
    unfold io_bind at 1. destruct (io_catch _ _ w1) as [[xs w2]|] eqn:Es; [|done].
    apply caught_run in Es as [(rc & Hr & ->)|(e & Hr & ->)]; apply st_settle in Hr.
    + intros H. apply IH in H as (l & Hl & Hx). exists (rc :: l). rewrite Hl, Hr, H1, <- app_assoc. split; [done|].
      destruct x as [r|[rs s]]; [done|]. by rewrite Hx, <- app_assoc.
    + intros [= <- <-]. exists []. by rewrite app_nil_r, Hr.
Qed.

Lemma run_receipts b w r w' :
  run b w = Some (Ok r, w') ->
  exists l, settled w' = settled w ++ l /\
    forall rs, shown r = Some rs -> length rs = length l /\ removelast rs = removelast l.
Proof.
  unfold proxy_run. unfold io_bind at 1.
  destruct (loop _ b [] _ w) as [[[x|e] w1]|] eqn:El; [|done..]. apply loop_receipts in El as (l & Hl & Hx).
  destruct x as [r0|[receipts s]].
  - intros [= <- <-]. exists l. split; [done|]. by rewrite Hx.
  - simpl in Hx. subst receipts. destruct (last l) as [latest|] eqn:Elast.
    2: { intros [= <- <-]. exists l. split; [done|]. by intros rs [= <-]. }
    destruct (_ && _).
    2: { intros [= <- <-]. exists l. split; [done|]. by intros rs [= <-]. }
    unfold io_bind at 1, io_catch, io_bind at 1.
    destruct (g_finalize ops latest s w1) as [[[rc|e] w2]|] eqn:Eg; [..|done]; apply st_finalize in Eg; intros [= <- <-];
      exists l; rewrite Eg; (split; [done|]); intros rs [= <-]; [|done].
    unfold replace_last. rewrite removelast_last, length_app. split; [|done].
    destruct l as [|y l _] using rev_ind; [done|]. rewrite removelast_last, length_app. done.
Qed.
End receipts.

Lemma or_500_run m w r w' : @or_500 W m w = Some (r, w') ->
  exists x, m w = Some (x, w') /\ match x with Ok a => r = Ok a | Throw e => r = Ok (refuse 500 "Internal Server Error" (Some e)) end.
Proof.
  unfold or_500, io_catch, io_ret. destruct (m w) as [[[a|e] w1]|]; [..|done]; intros H; injection H as <- <-.
  - by exists (Ok a).
  - by exists (Throw e).
Qed.

(** What a request must be for the proxy to act on it. *)
Definition authorized (b : ProxyBody) : Prop :=
  ProxyBody_ok parse_url b = true /\ b_budget_lamports b <= maxBudgetLamports cfg /\
  isTargetAllowed parse_url isIP (b_target_url b) (allowPattern cfg) (allowList cfg) = true /\
  verifyProxyRequest ed (canonicalizeProxy (proxy_terms_of b)) (b_signature b) (b_agent_did b) = true.

#[local] Abbreviation rate_check b now s :=
  (checkRate rd (b_agent_did b) (ratePerMin cfg) (ratePerDay cfg) now (limiter s)).
#[local] Abbreviation post := (post_proxy ops rd ed parse_url isIP json_payment sha256_hex cfg).

Lemma post_proxy_inv raw now s r s' :
  post raw now s = Some (r, s') ->
  (out s' = out s /\ g_code r ∈ [400; 401; 403; 429] /\ shown r = None) \/
  exists b x, raw = Some b /\ authorized b /\ rate_allowed (rate_check b now s).1 = true /\
    limiter s' = (rate_check b now s).2 /\ run b (out s) = Some (x, out s') /\
    match x with Ok a => r = a | Throw e => r = refuse 500 "Internal Server Error" (Some e) end.
Proof.
  unfold post_proxy, authorized. destruct raw as [b|]; [|intros [= <- <-]; left; split_and!; [done|set_solver|done]].
  destruct (ProxyBody_ok parse_url b) eqn:?; [|intros [= <- <-]; left; split_and!; [done|set_solver|done]].
  destruct (Z.ltb_spec (maxBudgetLamports cfg) (b_budget_lamports b)); [intros [= <- <-]; left; split_and!; [done|set_solver|done]|].
  destruct (isTargetAllowed _ _ _ _ _) eqn:?; [|intros [= <- <-]; left; split_and!; [done|set_solver|done]].
  destruct (verifyProxyRequest _ _ _ _) eqn:?; [|intros [= <- <-]; left; split_and!; [done|set_solver|done]].
  simpl. destruct (checkRate _ _ _ _ _ _) as [rate rl] eqn:Er. destruct (rate_allowed rate) eqn:Ea; simpl.
  2: { intros [= <- <-]. left; split_and!; [done|set_solver|done]. }
  intros Hrun. right. unfold with_out in Hrun. destruct (or_500 _ _) as [[[a|e] w']|] eqn:E; [|done..].
  injection Hrun as <- <-. apply or_500_run in E as (x & Hx & Hr). exists b, x. simpl. rewrite Er. split_and!; try done.
  destruct x; by apply ok_inj in Hr.
Qed.

Lemma post_proxy_run b now s x w' :
  authorized b -> rate_allowed (rate_check b now s).1 = true -> run b (out s) = Some (Ok x, w') ->
  post (Some b) now s = Some (x, {| limiter := (rate_check b now s).2; out := w' |}).
Proof.
  intros (Hok & Hle & Ht & Hv) Ha Hr. unfold post_proxy.
  rewrite Hok, Ht, Hv. rewrite (proj2 (Z.ltb_ge _ _) Hle). simpl.
  destruct (checkRate _ _ _ _ _ _) as [rate rl]. simpl in *. rewrite Ha. simpl.
  unfold with_out, or_500, io_catch. by rewrite Hr.
Qed.

(** An upstream that answers every request with the same challenge, and a
    settlement that always pays it. *)
Section every_402.
Variables (spent : W -> list Z) (u : upstream) (text : string) (p : PaymentDetails) (a : Z) (b : ProxyBody).
Hypothesis Hfetch : forall q w, g_fetch ops q w = Some (Ok u, w).
Hypothesis Hstatus : u_status u = 402.
Hypothesis Htext : u_text u = Ok text.
Hypothesis Hchallenge : challenge_of json_payment u = Some p.
Hypothesis Hsettle : forall did h w, exists rc w', g_settle ops p did h (b_budget_lamports b) w = Some (Ok rc, w') /\ spent w' = spent w ++ [a].

Lemma loop_pays left receipts seen w :
  exists l seen' w', loop left b receipts seen w = Some (Ok (inr (receipts ++ l, seen')), w') /\
    spent w' = spent w ++ replicate left a /\ length l = left /\ (left = O \/ sn_status seen' = 402).
Proof.
  revert receipts seen w. induction left as [|left IH]; intros receipts seen w.
  - exists [], seen, w. rewrite !app_nil_r. split_and!; auto.
  - destruct (Hsettle (b_agent_did b) (requestHash sha256_hex (b_method b) (b_target_url b) (b_body b)) w) as (rc & w1 & Hs & Hw1).
    set (seen1 := {| sn_status := u_status u; sn_headers := u_headers u; sn_body := text |}).
    destruct (IH (receipts ++ [rc]) seen1 w1) as (l & seen' & w' & Hl & Hw' & Hlen & Hst).
    exists (rc :: l), seen', w'. split_and!.
    + cbn [proxy_loop]. unfold io_bind at 1. unfold io_catch at 1, io_bind at 1. rewrite Hfetch. cbn [io_ret].
      unfold io_bind at 1. rewrite Htext. cbn [io_lift]. rewrite Hchallenge.
      unfold io_bind at 1, io_catch at 1, io_bind at 1. rewrite Hs. cbn [io_ret]. fold seen1.
      rewrite Hl. by rewrite <- app_assoc.
    + by rewrite Hw', Hw1, <- app_assoc.
    + simpl. by rewrite Hlen.
    + right. destruct Hst as [->|Hst]; [|done]. by injection Hl as _ <- _.
Qed.

Lemma run_pays w : exists r w', run b w = Some (Ok r, w') /\ g_code r = 402 /\ spent w' = spent w ++ replicate (S (max402Retries cfg)) a.
Proof.
  unfold proxy_run.
  destruct (loop_pays (S (max402Retries cfg)) [] {| sn_status := 0; sn_headers := []; sn_body := "" |} w)
    as (l & seen & w' & Hl & Hw & Hlen & [?|Hst]); [done|].
  exists (proxy_reply ([] ++ l) seen), w'. split_and!; [|unfold proxy_reply; by rewrite Hst|done].
  unfold io_bind at 1. rewrite Hl. destruct (last ([] ++ l)); [|done]. rewrite Hst. done.
Qed.
End every_402.
End proxy.

(** ** Verdicts *)

Lemma verify_settled {W} E (so : solana W) c sig task idHex w v w' :
  verifySettlement E so c sig task idHex w = Some (Ok v, w') -> settled_status (v_status v) = true ->
  exists slot w1, so_getTransaction so sig w = Some (Ok (Rpc_result (Some (slot, None))), w1).
Proof.
  unfold verifySettlement, io_catch, io_bind at 1.
  destruct (so_getTransaction so sig w) as [[[reply|e] w1]|]; [..|done]; [|by intros [= <- _]].
  destruct reply as [st|msg|[[slot [err|]]|]]; cbn; try (by intros [= <- _]). eauto.
Qed.

Lemma verify_known {W} E (so : solana W) c sig idHex w slot w1 :
  so_getTransaction so sig w = Some (Ok (Rpc_result (Some (slot, None))), w1) ->
  verifySettlement E so c sig None idHex w = Some (Ok (verdict confirmed slot None None idHex None), w1).
Proof. intros H. unfold verifySettlement, io_catch, io_bind at 1. rewrite H. by destruct c. Qed.

(** ** Concrete parts for the witnesses *)

(** An encoding short enough for the request schema: every text of up to 44
    characters stands for one 32-byte key, a longer one for a signature. *)
Definition short_ed : ed25519 :=
  {| getPublicKey k := k;
     signBytes _ k := k ++ k;
     verifyBytes sig _ pk := Ok (bool_decide (sig = pk ++ pk));
     bs58_encode _ := "";
     bs58_decode s := Ok (repeat 1 (if (String.length s <=? 44)%nat then 32 else 64)) |}.

Definition toy_key44 : string := "11111111111111111111111111111111".

Definition signed_body : ProxyBody :=
  {| b_target_url := "api.saep.example"; b_method := "GET"; b_headers := None; b_body := None; b_body_hash := None;
     b_budget_lamports := 50; b_mint := toy_key44; b_nonce := "n-1"; b_agent_did := toy_key44;
     b_signature := toy_key44 +:+ toy_key44 |}.

Definition gw_cfg : gateway_config :=
  {| maxBudgetLamports := 1000000000; allowPattern := "*.saep.example"; allowList := []; ratePerMin := 100; ratePerDay := 10000;
     max402Retries := 1; demoPaymentMint := Some toy_key44; demoPaymentAmount := 1000000; demoRecipientDid := Some toy_key44;
     demoResource := "/demo/paid" |}.

Definition challenge_40 : PaymentDetails :=
  {| scheme := "exact"; p_amount := Some 40%Q; p_mint := "some other mint"; p_recipient := "r"; resource := "/x"; p_nonce := None |}.

Definition demand : upstream := {| u_status := 402; u_headers := [("x-payment", "challenge")]; u_text := Ok "pay me" |}.
Definition content : upstream := {| u_status := 200; u_headers := []; u_text := Ok "content" |}.

Definition receipt_of (p : PaymentDetails) : PaymentReceipt :=
  {| tx_sig := "sig"; r_amount := p_amount p; r_mint := p_mint p; r_task := None; task_id_hex := None; task_status := None |}.

(** A world that remembers what was paid; [answer] is the upstream. *)
Definition paying_ops (answer : fetch_request -> result upstream) : gateway_ops (list PaymentReceipt) :=
  {| g_fetch q := fun w => Some (answer q, w);
     g_settle p _ _ budget := fun w =>
       if over_budget (p_amount p) budget then Some (Throw "exceeds budget", w)
       else match BigInt_amount (p_amount p) with
            | Ok _ => Some (Ok (receipt_of p), w ++ [receipt_of p])
            | Throw e => Some (Throw e, w)
            end;
     g_finalize rc _ := fun w => Some (Ok rc, w);
     g_verify _ _ _ := fun w => Some (Ok (verdict not_found None None None None None), w) |}.

Definition amount_of (rc : PaymentReceipt) : Z := match BigInt_amount (r_amount rc) with Ok n => Z.abs n | Throw _ => 0 end.
Definition paid_amounts (w : list PaymentReceipt) : list Z := map amount_of w.

Lemma paying_laws answer : settlement_laws (paying_ops answer) paid_amounts.
Proof.
  split; simpl.
  - by intros q w r w' [= _ <-].
  - intros p did h budget w r w'. destruct (over_budget (p_amount p) budget) eqn:E; [intros [= _ <-]; exists []; rewrite app_nil_r; auto|].
    destruct (BigInt_amount (p_amount p)) as [n|e] eqn:En; intros [= _ <-]; [|exists []; rewrite app_nil_r; auto].
    exists [Z.abs n]. unfold paid_amounts. rewrite map_app. cbn. unfold amount_of. cbn [r_amount receipt_of]. rewrite En.
    split; [done|]. right. exists n. split_and!; [done..|]. by eapply BigInt_amount_bound.
  - by intros rc s w r w' [= _ <-].
Qed.

Definition json_demand (h : string) : option PaymentDetails := if String.eqb h "challenge" then Some challenge_40 else None.

Definition post_toy (answer : fetch_request -> result upstream) (s : gw_state) : option (gw_reply * gw_state) :=
  post_proxy (paying_ops answer) map_redis short_ed toy_parse (fun _ => 0) json_demand (fun s => s) gw_cfg (Some signed_body) 1000 s.

Definition gw_start : @gw_state (list PaymentReceipt) (gmap string (Z * option Z)) := {| limiter := ∅; out := [] |}.

Lemma signed_body_authorized : authorized short_ed toy_parse (fun _ => 0) gw_cfg signed_body.
Proof. repeat split; vm_compute; congruence. Qed.

(** ** Properties *)

(** C5: the proxy spends only with authority.  Against any settlement that keeps its
    contract, a request either leaves the outside world alone and is answered
    400, 401, 403 or 429; or it is well formed, within the gateway's maximum, for
    an allowed target, signed by the agent it names over its terms and within the
    agent's rate, and it then makes at most [max402Retries + 1] payments, each of
    them for a challenge the upstream did send, of an amount within the budget: a
    challenge that is not negative is paid that amount, a negative one its magnitude. *)
Theorem proxy_spends_only_with_authority {W R} (ops : gateway_ops W) (rd : redis R) ed parse_url isIP json sha cfg spent raw now s r s' :
  settlement_laws ops spent ->
  post_proxy ops rd ed parse_url isIP json sha cfg raw now s = Some (r, s') ->
  (out s' = out s /\ g_code r ∈ [400; 401; 403; 429]) \/
  exists b l, raw = Some b /\ authorized ed parse_url isIP cfg b /\
    rate_allowed (checkRate rd (b_agent_did b) (ratePerMin cfg) (ratePerDay cfg) now (limiter s)).1 = true /\
    spent (out s') = spent (out s) ++ l /\ (length l <= S (max402Retries cfg))%nat /\
    Forall (answers ops json (b_budget_lamports b)) l.
Proof.
  intros laws [(? & ? & _)|(b & x & -> & Hau & Hra & _ & Hr & _)]%post_proxy_inv; [by left|right].
  apply (run_spends ops json sha cfg spent) in Hr as (l & ? & ? & ?). by exists b, l.
Qed.

(** The receipts of a reply that carries any are those of the payments made for
    it, in order, the last one possibly replaced by its finalized form. *)
Theorem proxy_receipts_account {W R} (ops : gateway_ops W) (rd : redis R) ed parse_url isIP json sha cfg (settled : W -> list PaymentReceipt) raw now s r s' rs :
  (forall q w x w', g_fetch ops q w = Some (x, w') -> settled w' = settled w) ->
  (forall rc sn w x w', g_finalize ops rc sn w = Some (x, w') -> settled w' = settled w) ->
  (forall p did h budget w x w', g_settle ops p did h budget w = Some (x, w') ->
     settled w' = match x with Ok rc => settled w ++ [rc] | Throw _ => settled w end) ->
  post_proxy ops rd ed parse_url isIP json sha cfg raw now s = Some (r, s') -> shown r = Some rs ->
  exists l : list PaymentReceipt, settled (out s') = settled (out s) ++ l /\ length rs = length l /\ removelast rs = removelast l.
Proof.
  intros Hf Hfin Hs Hp Hrs. apply post_proxy_inv in Hp as [(_ & _ & Hn)|(b & x & _ & _ & _ & _ & Hr & Hx)]; [congruence|].
  destruct x as [a|e]; subst r; [|done].
  apply (run_receipts ops json sha cfg settled Hf Hfin Hs) in Hr as (l & Hl & Hx). exists l. split; [done|]. by apply Hx.
Qed.

(** The budget of a signed request bounds one payment, not the request.  If the
    upstream answers every attempt with a challenge and the settlement pays it,
    one request pays [max402Retries + 1] times, in the mint the upstream names,
    before it is answered 402; and the same signed request, sent again, is
    accepted and pays as often again, for its nonce is never compared. *)
Theorem proxy_pays_every_402 {W R} (ops : gateway_ops W) (rd : redis R) ed parse_url isIP json sha cfg (spent : W -> list Z) u text p a b now s :
  (forall q w, g_fetch ops q w = Some (Ok u, w)) -> u_status u = 402 -> u_text u = Ok text -> challenge_of json u = Some p ->
  (forall did h w, exists rc w', g_settle ops p did h (b_budget_lamports b) w = Some (Ok rc, w') /\ spent w' = spent w ++ [a]) ->
  authorized ed parse_url isIP cfg b ->
  rate_allowed (checkRate rd (b_agent_did b) (ratePerMin cfg) (ratePerDay cfg) now (limiter s)).1 = true ->
  let pay := replicate (S (max402Retries cfg)) a in
  exists r s1, post_proxy ops rd ed parse_url isIP json sha cfg (Some b) now s = Some (r, s1) /\
    g_code r = 402 /\ spent (out s1) = spent (out s) ++ pay /\
    forall later, rate_allowed (checkRate rd (b_agent_did b) (ratePerMin cfg) (ratePerDay cfg) later (limiter s1)).1 = true ->
      exists r2 s2, post_proxy ops rd ed parse_url isIP json sha cfg (Some b) later s1 = Some (r2, s2) /\
        spent (out s2) = spent (out s) ++ pay ++ pay.
Proof.
  intros Hf Hst Htx Hch Hse Hau Hra pay.
  pose proof (run_pays ops json sha cfg spent u text p a b Hf Hst Htx Hch Hse) as Hrun.
  destruct (Hrun (out s)) as (r & w1 & H1 & Hc & Hw1).
  exists r, {| limiter := (checkRate rd (b_agent_did b) (ratePerMin cfg) (ratePerDay cfg) now (limiter s)).2; out := w1 |}.
  split_and!; [by apply post_proxy_run|done|done|]. intros later Hra2. simpl in Hra2.
  destruct (Hrun w1) as (r2 & w2 & H2 & _ & Hw2). do 2 eexists. split; [by apply post_proxy_run|].
  simpl. by rewrite Hw2, Hw1, <- app_assoc.
Qed.

(** A payment can be made and its receipt withheld: when the upstream takes the
    payment and then cannot be reached, the reply is a 502 that mentions neither
    the payment nor its transaction. *)
Theorem paid_receipt_withheld {W R} (ops : gateway_ops W) (rd : redis R) ed parse_url isIP json sha cfg (spent : W -> list Z) u text p a b now s :
  (forall q w, fr_x_payment q = None -> g_fetch ops q w = Some (Ok u, w)) ->
  (forall q w, fr_x_payment q <> None -> exists e, g_fetch ops q w = Some (Throw e, w)) ->
  u_status u = 402 -> u_text u = Ok text -> challenge_of json u = Some p -> max402Retries cfg <> O ->
  (forall did h w, exists rc w', g_settle ops p did h (b_budget_lamports b) w = Some (Ok rc, w') /\ spent w' = spent w ++ [a]) ->
  authorized ed parse_url isIP cfg b ->
  rate_allowed (checkRate rd (b_agent_did b) (ratePerMin cfg) (ratePerDay cfg) now (limiter s)).1 = true ->
  exists s', post_proxy ops rd ed parse_url isIP json sha cfg (Some b) now s = Some (upstream_error, s') /\
    spent (out s') = spent (out s) ++ [a].
Proof.
  intros Hf1 Hf2 Hst Htx Hch Hm Hse Hau Hra.
  destruct (Hse (b_agent_did b) (requestHash sha (b_method b) (b_target_url b) (b_body b)) (out s)) as (rc & w1 & Hs & Hw1).
  destruct (Hf2 (proxy_request b [rc]) w1 ltac:(done)) as [e He].
  exists {| limiter := (checkRate rd (b_agent_did b) (ratePerMin cfg) (ratePerDay cfg) now (limiter s)).2; out := w1 |}.
  split; [|exact Hw1]. apply post_proxy_run; [done|done|].
  unfold proxy_run. unfold io_bind at 1. destruct (max402Retries cfg) as [|n]; [done|].
  assert (Hl : proxy_loop ops json sha (S (S n)) b [] {| sn_status := 0; sn_headers := []; sn_body := "" |} (out s) =
    Some (Ok (inl upstream_error), w1)); [|by rewrite Hl].
  cbn [proxy_loop]. unfold io_bind at 1. unfold io_catch at 1, io_bind at 1. rewrite Hf1 by done. cbn [io_ret].
  unfold io_bind at 1. rewrite Htx. cbn [io_lift]. rewrite Hch.
  unfold io_bind at 1, io_catch at 1, io_bind at 1. rewrite Hs. cbn [io_ret app].
  unfold io_bind at 1. unfold io_catch at 1, io_bind at 1. by rewrite He.
Qed.

(** A transaction is all that paid access takes.  With the gateway's own
    verification, GET /demo/paid serves a client that shows a receipt only for a
    transaction the cluster knows and that did not fail; and it does so for every
    such transaction: the amount, the mint, the recipient and earlier uses of the
    same transaction make no difference. *)
Theorem paid_access_any_transaction {W} E (so : solana W) scfg fuel fetch json cfg mint recipient header h sig w :
  demoPaymentMint cfg = Some mint -> mint <> "" -> demoRecipientDid cfg = Some recipient -> recipient <> "" ->
  json header = Some h -> h_tx_sig h = Some sig -> sig <> "" ->
  let demo := get_demo_paid (default_ops E so scfg fuel fetch) json cfg (Some header) in
  (forall r w', demo w = Some (Ok r, w') -> g_code r = 200 ->
     exists slot w1, so_getTransaction so sig w = Some (Ok (Rpc_result (Some (slot, None))), w1)) /\
  (forall slot w1, h_task h = None -> so_getTransaction so sig w = Some (Ok (Rpc_result (Some (slot, None))), w1) ->
     exists a, demo w = Some (Ok {| g_code := 200; g_body := G_paid (demoPaymentAmount cfg) mint (demoResource cfg) a |}, w1) /\
       ac_tx_sig a = sig /\ ac_slot a = slot).
Proof.
  intros Hm Hmn Hd Hdn Hj Hs Hsn demo.
  unfold demo, get_demo_paid. rewrite Hm, Hd, Hj, Hs.
  rewrite (proj2 (String.eqb_neq mint "") Hmn), (proj2 (String.eqb_neq recipient "") Hdn), (proj2 (String.eqb_neq sig "") Hsn).
  simpl orb. cbv iota zeta. cbn [g_verify default_ops]. split.
  - intros r w' H Hc. apply io_bind_ok in H as (v & w1 & Ev & H).
    destruct (settled_status (v_status v)) eqn:Est; [by eapply verify_settled|].
    exfalso. by case_bool_decide; injection H as <- _.
  - intros slot w1 Ht Hg. exists (access_of h sig (verdict confirmed slot None None (h_task_id_hex h) None)).
    split_and!; [|done..]. rewrite Ht. exact (bind_ok_run _ _ _ _ _ (verify_known _ _ _ _ _ _ _ _ Hg)).
Qed.

(** ** Witnesses *)

Definition always (u : upstream) (q : fetch_request) : result upstream := Ok u.

Definition demanded : gw_reply * gw_state :=
  default (upstream_error, gw_start) (post_toy (always demand) gw_start).

Lemma demanded_run : post_toy (always demand) gw_start = Some (demanded.1, demanded.2).
Proof.
  assert (H : match post_toy (always demand) gw_start with Some _ => true | None => false end = true) by (vm_compute; reflexivity).
  unfold demanded. destruct (post_toy (always demand) gw_start) as [[r s]|]; done.
Qed.

Lemma proxy_spends_only_with_authority_witness :
  (out demanded.2 = [] /\ g_code demanded.1 ∈ [400; 401; 403; 429]) \/
  exists b l, Some signed_body = Some b /\ authorized short_ed toy_parse (fun _ => 0) gw_cfg b /\
    rate_allowed (checkRate map_redis (b_agent_did b) 100 10000 1000 ∅).1 = true /\
    paid_amounts (out demanded.2) = [] ++ l /\ (length l <= 2)%nat /\
    Forall (answers (paying_ops (always demand)) json_demand (b_budget_lamports b)) l.
Proof.
  apply (proxy_spends_only_with_authority (paying_ops (always demand)) map_redis short_ed toy_parse (fun _ => 0)
    json_demand (fun s => s) gw_cfg _ (Some signed_body) 1000 gw_start demanded.1 demanded.2 (paying_laws (always demand))).
  exact demanded_run.
Defined.

Lemma proxy_receipts_account_witness :
  exists l : list PaymentReceipt, out demanded.2 = [] ++ l /\ length [receipt_of challenge_40; receipt_of challenge_40] = length l /\
    removelast [receipt_of challenge_40; receipt_of challenge_40] = removelast l.
Proof.
  refine (proxy_receipts_account (paying_ops (always demand)) map_redis short_ed toy_parse (fun _ => 0)
    json_demand (fun s => s) gw_cfg (fun w => w) (Some signed_body) 1000 gw_start demanded.1 demanded.2 _ _ _ _ _ _).
  - by intros q w x w' [= _ <-].
  - by intros rc sn w x w' [= _ <-].
  - intros p did h budget w x w'. simpl. destruct (over_budget (p_amount p) budget), (BigInt_amount (p_amount p)); by intros [= <- <-].
  - exact demanded_run.
  - vm_compute. reflexivity.
Defined.

(** Budget 50, two payments of 40 in another mint, and two more for the replay. *)
Lemma proxy_pays_every_402_witness :
  exists r s1, post_toy (always demand) gw_start = Some (r, s1) /\ g_code r = 402 /\
    paid_amounts (out s1) = [] ++ [40; 40] /\
    forall later, rate_allowed (checkRate map_redis toy_key44 100 10000 later (limiter s1)).1 = true ->
      exists r2 s2, post_proxy (paying_ops (always demand)) map_redis short_ed toy_parse (fun _ => 0) json_demand (fun s => s)
          gw_cfg (Some signed_body) later s1 = Some (r2, s2) /\
        paid_amounts (out s2) = [] ++ [40; 40] ++ [40; 40].
Proof.
  refine (proxy_pays_every_402 (paying_ops (always demand)) map_redis short_ed toy_parse (fun _ => 0) json_demand (fun s => s)
    gw_cfg paid_amounts demand "pay me" challenge_40 40 signed_body 1000 gw_start _ _ _ _ _ signed_body_authorized _).
  - done.
  - done.
  - done.
  - vm_compute. reflexivity.
  - intros did h w. exists (receipt_of challenge_40), (w ++ [receipt_of challenge_40]). split; [done|].
    unfold paid_amounts. by rewrite map_app.
  - vm_compute. reflexivity.
Defined.

Definition vanishes (q : fetch_request) : result upstream :=
  match fr_x_payment q with None => Ok demand | Some _ => Throw "ECONNRESET" end.

Lemma paid_receipt_withheld_witness :
  exists s', post_toy vanishes gw_start = Some (upstream_error, s') /\ paid_amounts (out s') = [] ++ [40].
Proof.
  refine (paid_receipt_withheld (paying_ops vanishes) map_redis short_ed toy_parse (fun _ => 0) json_demand (fun s => s)
    gw_cfg paid_amounts demand "pay me" challenge_40 40 signed_body 1000 gw_start _ _ _ _ _ _ _ signed_body_authorized _).
  - intros q w H. simpl. unfold vanishes. by rewrite H.
  - intros q w H. exists "ECONNRESET". simpl. unfold vanishes. by destruct (fr_x_payment q).
  - done.
  - done.
  - vm_compute. reflexivity.
  - done.
  - intros did h w. exists (receipt_of challenge_40), (w ++ [receipt_of challenge_40]). split; [done|].
    unfold paid_amounts. by rewrite map_app.
  - vm_compute. reflexivity.
Defined.

Definition shown_receipt (h : string) : option receipt_header :=
  Some {| h_tx_sig := Some h; h_task := None; h_task_id_hex := None; h_task_status := None |}.

Definition no_fetch (q : fetch_request) : io toy_chain upstream := io_throw "offline".

(** "signature" is a transaction of [toy_solana] that paid nobody. *)
Lemma paid_access_any_transaction_witness :
  exists a, get_demo_paid (default_ops toy_env toy_solana toy_cfg 10 no_fetch) shown_receipt gw_cfg (Some "signature") toy_start =
    Some (Ok {| g_code := 200; g_body := G_paid 1000000 toy_key44 "/demo/paid" a |}, toy_start) /\
    ac_tx_sig a = "signature" /\ ac_slot a = Some 7.
Proof.
  refine (proj2 (paid_access_any_transaction toy_env toy_solana toy_cfg 10 no_fetch shown_receipt gw_cfg toy_key44 toy_key44
    "signature" _ "signature" toy_start _ _ _ _ eq_refl _ _) (Some 7) toy_start _ _); try reflexivity; discriminate.
Defined.
