(* ===== verification/Vaa.v ===== *)
(** * Vaa: Wormhole messages of the XRPL bridge

    Models services/xrpl-bridge/src/wormhole-vaa.ts: the binary parser of a VAA and
    of the token-bridge transfer it carries, the checks made on its guardian
    signatures and its age, the digest that identifies it and the table of known
    tokens.  SHA-256 (node:crypto) is a parameter. *)

From Stdlib Require Import ZArith Lia Ascii.
From stdpp Require Import base list strings.
From S2P Require Import Prelude Bytes Json.

Open Scope Z_scope.
Open Scope saep_scope.

Definition GUARDIAN_SET_EXPIRY_MS : Z := 86400 * 1000.
Definition MIN_GUARDIAN_SIGNATURES : nat := 13.

Record VaaSignature := {
  guardianIndex : Z;
  sig_r : list Z;
  sig_s : list Z;
  sig_v : Z;
}.

Record VaaPayload := {
  version : Z;
  guardianSetIndex : Z;
  signatures : list VaaSignature;
  timestamp : Z;
  nonce : Z;
  emitterChain : Z;
  emitterAddress : list Z;
  sequence : Z;
  consistencyLevel : Z;
  payload : list Z;
}.

Record BridgeTransfer := {
  sourceChain : Z;
  tokenAddress : list Z;
  amount : Z;
  recipientChain : Z;
  recipient : list Z;
  fee : Z;
}.

Definition KNOWN_TOKENS : list (string * string) :=
  [("000000000000000000000000c02aaa39b223fe8d0a0e5c4f27ead9083c756cc2", "WETH");
   ("000000000000000000000000a0b86991c6218b36c1d19d4a2e9eb0ce3606eb48", "USDC")]%string.

(** ** Parsing *)

(** The loop over [sigCount] signatures: what is left to read and where. *)
Fixpoint read_signatures (left : nat) (b : list Z) (offset : nat) : result (list VaaSignature * nat) :=
  match left with
  | O => Ok ([], offset)
  | S left' =>
    let! index := get_uint 1 b offset in
    let r := byte_slice b (offset + 1) (offset + 1 + 32) in
    let s := byte_slice b (offset + 1 + 32) (offset + 1 + 32 + 32) in
    let! v := get_uint 1 b (offset + 1 + 32 + 32) in
    let! rest := read_signatures left' b (offset + 1 + 32 + 32 + 1) in
    Ok ({| guardianIndex := index; sig_r := r; sig_s := s; sig_v := v |} :: rest.1, rest.2)
  end.

Definition parseVaa (b : list Z) : result VaaPayload :=
  if (length b <? 6)%nat then Throw "VAA too short" else
  let! version := get_uint 1 b 0 in
  if negb (version =? 1) then Throw ("unsupported VAA version: " +:+ z_text version) else
  let! guardianSetIndex := get_uint 4 b 1 in
  let! sigCount := get_uint 1 b 5 in
  let! read := read_signatures (Z.to_nat sigCount) b 6 in
  let offset := read.2 in
  let! timestamp := get_uint 4 b offset in
  let! nonce := get_uint 4 b (offset + 4) in
  let! emitterChain := get_uint 2 b (offset + 4 + 4) in
  let emitterAddress := byte_slice b (offset + 4 + 4 + 2) (offset + 4 + 4 + 2 + 32) in
  let! sequence := get_uint 8 b (offset + 4 + 4 + 2 + 32) in
  let! consistencyLevel := get_uint 1 b (offset + 4 + 4 + 2 + 32 + 8) in
  let payload := drop (offset + 4 + 4 + 2 + 32 + 8 + 1) b in
  Ok {| version := version; guardianSetIndex := guardianSetIndex; signatures := read.1; timestamp := timestamp;
        nonce := nonce; emitterChain := emitterChain; emitterAddress := emitterAddress; sequence := sequence;
        consistencyLevel := consistencyLevel; payload := payload |}.

Definition parseTransferPayload (payload : list Z) : result BridgeTransfer :=
  if (length payload <? 133)%nat then Throw "transfer payload too short" else
  let! payloadType := get_uint 1 payload 0 in
  if negb (payloadType =? 1) && negb (payloadType =? 3) then
    Throw ("unexpected payload type: " +:+ z_text payloadType +:+ " (expected 1=transfer or 3=transferWithPayload)")
  else
  let! amount := get_uint 8 payload (1 + 24) in
  let tokenAddress := byte_slice payload 33 (33 + 32) in
  let! tokenChain := get_uint 2 payload 65 in
  let recipient := byte_slice payload 67 (67 + 32) in
  let! recipientChain := get_uint 2 payload 99 in
  let! fee := get_uint 8 payload (101 + 24) in
  Ok {| sourceChain := tokenChain; tokenAddress := tokenAddress; amount := amount;
        recipientChain := recipientChain; recipient := recipient; fee := fee |}.

(** ** Checks *)

(** The first guardian index that [seen] or the list holds already. *)
Fixpoint duplicate_guardian (seen : list Z) (sigs : list VaaSignature) : option Z :=
  match sigs with
  | [] => None
  | sig :: sigs' =>
    if bool_decide (guardianIndex sig ∈ seen) then Some (guardianIndex sig)
    else duplicate_guardian (guardianIndex sig :: seen) sigs'
  end.

Record verification := { valid : bool; reason : option string }.

Definition verifyVaa (now : Z) (vaa : VaaPayload) : verification :=
  if (length (signatures vaa) <? MIN_GUARDIAN_SIGNATURES)%nat then
    {| valid := false;
       reason := Some ("need " +:+ z_text (Z.of_nat MIN_GUARDIAN_SIGNATURES) +:+ " sigs, got " +:+
                       z_text (Z.of_nat (length (signatures vaa)))) |}
  else match duplicate_guardian [] (signatures vaa) with
  | Some i => {| valid := false; reason := Some ("duplicate guardian index " +:+ z_text i) |}
  | None =>
    let ageMs := now - timestamp vaa * 1000 in
    if GUARDIAN_SET_EXPIRY_MS <? ageMs then {| valid := false; reason := Some "VAA expired" |}
    else if ageMs <? -300000 then {| valid := false; reason := Some "VAA timestamp in future" |}
    else {| valid := true; reason := None |}
  end.

(** ** The digest *)

(** [Buffer.from(l).copy(buf, offset)]: what does not fit is left out. *)
Definition buf_copy (l : list Z) (offset : nat) (buf : list Z) : list Z :=
  take offset buf ++ take (length buf - offset) l ++ drop (offset + length l) buf.

(** [buf.writeUInt8 / 16BE / 32BE / BigUInt64BE (v, offset)] *)
Definition buf_write (k : nat) (v : Z) (offset : nat) (buf : list Z) : result (list Z) :=
  if (v <? 0) || (256 ^ Z.of_nat k <=? v) then Throw "ERR_OUT_OF_RANGE"
  else Ok (buf_copy (fill_bytes k v []) offset buf).

Section digest.
Variable sha256 : list Z -> list Z.

Definition digest_preimage (vaa : VaaPayload) : result (list Z) :=
  let buf := repeat 0 (51 + length (payload vaa)) in
  let! buf := buf_write 4 (timestamp vaa) 0 buf in
  let! buf := buf_write 4 (nonce vaa) 4 buf in
  let! buf := buf_write 2 (emitterChain vaa) 8 buf in
  let buf := buf_copy (emitterAddress vaa) 10 buf in
  let! buf := buf_write 8 (sequence vaa) 42 buf in
  let! buf := buf_write 1 (consistencyLevel vaa) 50 buf in
  Ok (buf_copy (payload vaa) 51 buf).

Definition vaaDigest (vaa : VaaPayload) : result (list Z) :=
  let! buf := digest_preimage vaa in
  Ok (sha256 (sha256 buf)).
End digest.

(** [Buffer.toString('hex')] *)
Fixpoint bytes_hex (l : list Z) : string :=
  match l with
  | [] => ""
  | b :: l' => String (hex_digit (Z.to_nat (b / 16))) (String (hex_digit (Z.to_nat (b mod 16))) (bytes_hex l'))
  end.

Definition identifyToken (tokenAddress : list Z) : option string :=
  option_map snd (List.find (fun kv => String.eqb kv.1 (bytes_hex tokenAddress)) KNOWN_TOKENS).

(** ** The wire format the parser reads *)

Definition u_range (k : nat) (v : Z) : Prop := 0 <= v < 256 ^ Z.of_nat k.

Definition encode_signature (sig : VaaSignature) : list Z :=
  fill_bytes 1 (guardianIndex sig) [] ++ sig_r sig ++ sig_s sig ++ fill_bytes 1 (sig_v sig) [].

Definition encode_body (vaa : VaaPayload) : list Z :=
  fill_bytes 4 (timestamp vaa) [] ++ fill_bytes 4 (nonce vaa) [] ++ fill_bytes 2 (emitterChain vaa) [] ++
  emitterAddress vaa ++ fill_bytes 8 (sequence vaa) [] ++ fill_bytes 1 (consistencyLevel vaa) [] ++ payload vaa.

Definition encode_vaa (vaa : VaaPayload) : list Z :=
  fill_bytes 1 (version vaa) [] ++ fill_bytes 4 (guardianSetIndex vaa) [] ++
  fill_bytes 1 (Z.of_nat (length (signatures vaa))) [] ++
  concat (map encode_signature (signatures vaa)) ++ encode_body vaa.

Definition signature_wf (sig : VaaSignature) : Prop :=
  u_range 1 (guardianIndex sig) /\ length (sig_r sig) = 32%nat /\ length (sig_s sig) = 32%nat /\ u_range 1 (sig_v sig).

Definition body_wf (vaa : VaaPayload) : Prop :=
  u_range 4 (timestamp vaa) /\ u_range 4 (nonce vaa) /\ u_range 2 (emitterChain vaa) /\
  length (emitterAddress vaa) = 32%nat /\ u_range 8 (sequence vaa) /\ u_range 1 (consistencyLevel vaa).

Definition vaa_wf (vaa : VaaPayload) : Prop :=
  version vaa = 1 /\ u_range 4 (guardianSetIndex vaa) /\ u_range 1 (Z.of_nat (length (signatures vaa))) /\
  Forall signature_wf (signatures vaa) /\ body_wf vaa.

(** ** The parser inverts the encoder *)

(** Read the next field: [drop offset b] is known to start with it. *)
Ltac read_field H :=
  lazymatch type of H with
  | drop ?o ?b = fill_bytes ?k ?v [] ++ ?rest =>
    let G := fresh "G" in let N := fresh "N" in
    destruct (get_uint_read k b o v rest ltac:(lia) ltac:(assumption) H) as [G N]; rewrite G; clear G H; rename N into H;
    cbn [result_bind Nat.add] in *
  | drop ?o ?b = ?l ++ ?rest =>
    let G := fresh "G" in let N := fresh "N" in
    destruct (byte_slice_read b o 32 l rest ltac:(assumption) H) as [G N]; rewrite ?G; clear G H; rename N into H
  end.

Lemma read_signatures_encode sigs b offset rest : Forall signature_wf sigs ->
  drop offset b = concat (map encode_signature sigs) ++ rest ->
  exists offset', read_signatures (length sigs) b offset = Ok (sigs, offset') /\ drop offset' b = rest.
Proof.
  intros Hw. revert offset. induction Hw as [|sig sigs (Hi & Hr & Hs & Hv) _ IH]; intros offset H.
  - exists offset. done.
  - cbn [map concat encode_signature] in H. unfold encode_signature in H. rewrite <- !app_assoc in H.
    cbn [length read_signatures]. do 4 read_field H.
    destruct (IH _ H) as (o & -> & Ho). exists o. split; [|done]. by destruct sig.
Qed.

Lemma encode_vaa_length vaa : (51 <= length (encode_body vaa) -> 6 <= length (encode_vaa vaa))%nat.
Proof. unfold encode_vaa. rewrite !length_app, !fill_bytes_length. lia. Qed.

Lemma encode_body_length vaa : body_wf vaa -> length (encode_body vaa) = (51 + length (payload vaa))%nat.
Proof. intros (_ & _ & _ & Ha & _). unfold encode_body. rewrite !length_app, !fill_bytes_length, Ha. lia. Qed.

Lemma parse_encode vaa : vaa_wf vaa -> parseVaa (encode_vaa vaa) = Ok vaa.
Proof.
  intros (Hv & Hg & Hn & Hs & Hb). unfold parseVaa.
  rewrite (proj2 (Nat.ltb_ge _ _)) by (apply encode_vaa_length; rewrite encode_body_length by done; lia).
  remember (encode_vaa vaa) as b eqn:E.
  assert (drop 0 b = encode_vaa vaa) as H by by rewrite drop_0. clear E. unfold encode_vaa in H.
  assert (u_range 1 (version vaa)) by (rewrite Hv; unfold u_range; lia).
  read_field H. rewrite Hv. cbn [Z.eqb negb Pos.eqb].
  read_field H. read_field H. rewrite Nat2Z.id.
  destruct (read_signatures_encode _ _ _ _ Hs H) as (o & -> & Ho). cbn [result_bind fst snd].
  destruct Hb as (Ht & Hnn & Hc & Ha & Hsq & Hl). unfold encode_body in Ho.
  do 6 read_field Ho. rewrite Ho. destruct vaa. cbn in *. by subst.
Qed.

(** ** The encoder inverts the parser *)

(** Split the reads of a parse that succeeded. *)
Ltac read_inv :=
  repeat match goal with
  | H : result_bind (get_uint ?k ?b ?o) _ = Ok _ |- _ =>
    let G := fresh "G" in destruct (get_uint k b o) eqn:G; [cbn [result_bind] in H|discriminate H]
  end.

Lemma read_signatures_inv left b offset sigs offset' : Forall is_byte b ->
  read_signatures left b offset = Ok (sigs, offset') ->
  length sigs = left /\ Forall signature_wf sigs /\ drop offset b = concat (map encode_signature sigs) ++ drop offset' b.
Proof.
  intros Hb. revert offset sigs. induction left as [|left IH]; intros offset sigs H.
  - injection H as <- <-. done.
  - cbn [read_signatures] in H. read_inv.
    destruct (read_signatures left b _) as [[rest o]|] eqn:E; [|done]. cbn [result_bind fst snd] in H.
    injection H as <- <-. destruct (IH _ _ E) as (Hlen & Hw & Hd). clear IH E.
    pose proof (get_uint_bound _ _ _ _ G0) as Hin.
    apply get_uint_inv in G as [Hi Hd1]; [|done]. apply get_uint_inv in G0 as [Hv Hd4]; [|done].
    destruct (byte_slice_inv b (offset + 1) 32) as [Hr Hd2]; [lia|].
    destruct (byte_slice_inv b (offset + 1 + 32) 32) as [Hs Hd3]; [lia|].
    split; [cbn; lia|]. split; [by constructor|].
    cbn [map concat]. unfold encode_signature at 1. cbn [guardianIndex sig_r sig_s sig_v].
    rewrite Hd1, Hd2, Hd3, Hd4, Hd. by rewrite <- !app_assoc.
Qed.

Lemma encode_parse b vaa : Forall is_byte b -> parseVaa b = Ok vaa -> vaa_wf vaa /\ encode_vaa vaa = b.
Proof.
  intros Hb. unfold parseVaa. destruct (Nat.ltb_spec (length b) 6) as [|Hlen]; [done|]. intros H.
  destruct (get_uint 1 b 0) as [ver|] eqn:Gv; [cbn [result_bind] in H|done].
  destruct (Z.eqb_spec ver 1) as [->|]; [cbn [negb] in H|done].
  read_inv. destruct (read_signatures _ b 6) as [[sigs o]|] eqn:E; [cbn [result_bind fst snd] in H|done].
  read_inv. injection H as <-.
  apply read_signatures_inv in E as (Hn & Hw & Hd); [|done].
  repeat match goal with
  | G : get_uint _ _ _ = Ok _ |- _ =>
    let B := fresh "B" in pose proof (get_uint_bound _ _ _ _ G) as B; apply get_uint_inv in G as [? ?]; [|done]
  end.
  destruct (byte_slice_inv b (o + 4 + 4 + 2) 32) as [Ha Hd2]; [lia|].
  unfold vaa_wf, body_wf, encode_vaa, encode_body.
  cbn [version guardianSetIndex signatures timestamp nonce emitterChain emitterAddress sequence consistencyLevel payload].
  rewrite Hn, Z2Nat.id by lia. split; [repeat split; try done; lia|].
  cbn [Nat.add] in *. symmetry. rewrite <- (drop_0 b) at 1.
  repeat match goal with
  | |- _ ++ _ = _ ++ _ => f_equal
  | E : drop ?o b = _ |- drop ?o b = _ => etransitivity; [exact E|]; clear E
  end; done.
Qed.

(** C33: the VAA parser and the wire format are inverse to each other: every
    well-formed VAA is read back from its bytes, and whatever byte string the
    parser accepts is the encoding of the well-formed VAA it returns, so no byte
    is ignored, reordered or invented. *)
Theorem vaa_roundtrip :
  (forall vaa, vaa_wf vaa -> parseVaa (encode_vaa vaa) = Ok vaa) /\
  (forall b vaa, Forall is_byte b -> parseVaa b = Ok vaa -> vaa_wf vaa /\ encode_vaa vaa = b).
Proof. split; [apply parse_encode | apply encode_parse]. Qed.

(** ** The checks on the guardians *)

Lemma duplicate_guardian_spec seen sigs : NoDup seen ->
  duplicate_guardian seen sigs = None <-> NoDup (seen ++ map guardianIndex sigs).
Proof.
  revert seen. induction sigs as [|sig sigs IH]; intros seen Hs; cbn [map duplicate_guardian].
  - rewrite app_nil_r. done.
  - assert (Permutation (seen ++ guardianIndex sig :: map guardianIndex sigs)
                        ((guardianIndex sig :: seen) ++ map guardianIndex sigs)) as -> by (symmetry; apply Permutation_middle).
    case_bool_decide as Hin.
    + split; [done|]. cbn. rewrite NoDup_cons, elem_of_app. tauto.
    + apply IH. by constructor.
Qed.

Definition vaa_fresh (now : Z) (vaa : VaaPayload) : Prop :=
  timestamp vaa * 1000 - 300000 <= now <= timestamp vaa * 1000 + GUARDIAN_SET_EXPIRY_MS.

Lemma verify_vaa_valid now vaa : valid (verifyVaa now vaa) = true <->
  (MIN_GUARDIAN_SIGNATURES <= length (signatures vaa))%nat /\ NoDup (map guardianIndex (signatures vaa)) /\ vaa_fresh now vaa.
Proof.
  unfold verifyVaa, vaa_fresh. rewrite <- (duplicate_guardian_spec [] (signatures vaa)) by constructor.
  destruct (Nat.ltb_spec (length (signatures vaa)) MIN_GUARDIAN_SIGNATURES);
    [split; [done|intros [? _]; exfalso; lia]|].
  destruct (duplicate_guardian [] (signatures vaa)); [split; [done|]; intros (_ & ? & _); done|].
  destruct (Z.ltb_spec GUARDIAN_SET_EXPIRY_MS (now - timestamp vaa * 1000));
    [split; [done|intros (_ & _ & ?); exfalso; lia]|].
  destruct (Z.ltb_spec (now - timestamp vaa * 1000) (-300000)).
  - split; [done|intros (_ & _ & ?); exfalso; lia].
  - split; [intros _; repeat split; lia|done].
Qed.

(** Thirteen signatures no guardian made. *)
Definition blank_signatures : list VaaSignature :=
  map (fun i => {| guardianIndex := Z.of_nat i; sig_r := repeat 0 32; sig_s := repeat 0 32; sig_v := 0 |})
      (seq 0 MIN_GUARDIAN_SIGNATURES).

Definition resign (vaa : VaaPayload) (sigs : list VaaSignature) : VaaPayload :=
  {| version := version vaa; guardianSetIndex := guardianSetIndex vaa; signatures := sigs; timestamp := timestamp vaa;
     nonce := nonce vaa; emitterChain := emitterChain vaa; emitterAddress := emitterAddress vaa;
     sequence := sequence vaa; consistencyLevel := consistencyLevel vaa; payload := payload vaa |}.

Lemma blank_wf : Forall signature_wf blank_signatures.
Proof.
  apply Forall_map, Forall_forall. intros i Hi%elem_of_seq. unfold MIN_GUARDIAN_SIGNATURES in Hi.
  unfold signature_wf, u_range. change (256 ^ Z.of_nat 1) with 256. cbn [guardianIndex sig_r sig_s sig_v].
  rewrite repeat_length. repeat split; lia.
Qed.

(** The check of a VAA counts signatures and does not verify them: any message
    body an outsider chooses, with any emitter and any payload, is accepted once
    thirteen all-zero signatures with different indices are put in front of it. *)
Theorem forged_vaa_accepted (now : Z) (vaa : VaaPayload) (Hv : version vaa = 1)
  (Hg : u_range 4 (guardianSetIndex vaa)) (Hb : body_wf vaa) (Ht : vaa_fresh now vaa) :
  let forged := resign vaa blank_signatures in
  parseVaa (encode_vaa forged) = Ok forged /\ valid (verifyVaa now forged) = true /\
  encode_body forged = encode_body vaa.
Proof.
  cbv zeta. split; [|split; [|done]].
  - apply parse_encode. split; [done|]. split; [done|]. split; [unfold u_range; vm_compute; intuition congruence|].
    split; [apply blank_wf|done].
  - apply verify_vaa_valid. split; [reflexivity|]. split; [|done]. apply (bool_decide_unpack _). vm_compute. done.
Qed.

(** ** The digest *)

Lemma buf_copy_app l a x c offset : length a = offset -> length l = length x ->
  buf_copy l offset (a ++ x ++ c) = (a ++ l) ++ c.
Proof.
  intros <- Hl. unfold buf_copy. rewrite take_app_length. rewrite !length_app.
  rewrite (take_ge l) by lia. rewrite drop_app, drop_ge by lia. rewrite <- app_assoc. do 2 f_equal.
  rewrite drop_app, drop_ge by lia. cbn [app]. rewrite Hl.
  replace (length a + length x - length a - length x)%nat with 0%nat by lia. by rewrite drop_0.
Qed.

Lemma buf_copy_zeros l a n offset : length a = offset ->
  buf_copy l offset (a ++ repeat 0 (length l + n)) = (a ++ l) ++ repeat 0 n.
Proof. intros Ha. rewrite repeat_app. apply buf_copy_app; [done|]. by rewrite repeat_length. Qed.

Lemma buf_write_zeros k v a n offset : u_range k v -> length a = offset ->
  buf_write k v offset (a ++ repeat 0 (k + n)) = Ok ((a ++ fill_bytes k v []) ++ repeat 0 n).
Proof.
  intros Hv Ha. unfold buf_write. unfold u_range in Hv. rewrite (proj2 (Z.ltb_ge v 0)), (proj2 (Z.leb_gt _ v)) by lia.
  cbn [orb]. pose proof (buf_copy_zeros (fill_bytes k v []) a n offset Ha) as E.
  rewrite fill_bytes_length in E. by rewrite E.
Qed.

Lemma digest_preimage_body vaa : body_wf vaa -> digest_preimage vaa = Ok (encode_body vaa).
Proof.
  intros (Ht & Hn & Hc & Ha & Hs & Hl). unfold digest_preimage. cbv zeta.
  set (p := length (payload vaa)).
  rewrite (buf_write_zeros 4 _ [] (47 + p)) by done. cbn [result_bind].
  rewrite (buf_write_zeros 4 _ _ (43 + p)) by done. cbn [result_bind].
  rewrite (buf_write_zeros 2 _ _ (41 + p)) by done. cbn [result_bind].
  replace (41 + p)%nat with (length (emitterAddress vaa) + (9 + p))%nat by lia.
  rewrite (buf_copy_zeros (emitterAddress vaa) _ (9 + p) 10) by (by rewrite !length_app, !fill_bytes_length).
  rewrite (buf_write_zeros 8 _ _ (1 + p) 42) by (done || rewrite !length_app, !fill_bytes_length, Ha; done).
  cbn [result_bind].
  rewrite (buf_write_zeros 1 _ _ p 50) by (done || rewrite !length_app, !fill_bytes_length, Ha; done).
  cbn [result_bind]. subst p.
  assert (forall a, length a = 51%nat ->
    buf_copy (payload vaa) 51 (a ++ repeat 0 (length (payload vaa))) = a ++ payload vaa) as E.
  { intros a Hl'. pose proof (buf_copy_zeros (payload vaa) a 0 51 Hl') as E. rewrite Nat.add_0_r in E.
    rewrite E. apply app_nil_r. }
  rewrite E by (rewrite !length_app, !fill_bytes_length, Ha; done).
  unfold encode_body. by rewrite <- !app_assoc.
Qed.

(** What the digest covers: everything but the signatures and the guardian set. *)
Definition same_body (v1 v2 : VaaPayload) : Prop :=
  timestamp v1 = timestamp v2 /\ nonce v1 = nonce v2 /\ emitterChain v1 = emitterChain v2 /\
  emitterAddress v1 = emitterAddress v2 /\ sequence v1 = sequence v2 /\
  consistencyLevel v1 = consistencyLevel v2 /\ payload v1 = payload v2.

Lemma encode_body_inj v1 v2 : body_wf v1 -> body_wf v2 -> encode_body v1 = encode_body v2 -> same_body v1 v2.
Proof.
  intros (Ht1 & Hn1 & Hc1 & Ha1 & Hs1 & Hl1) (Ht2 & Hn2 & Hc2 & Ha2 & Hs2 & Hl2) E.
  unfold encode_body in E.
  apply app_inj_1 in E as [Et E]; [|by rewrite !fill_bytes_length]. apply app_inj_1 in E as [En E]; [|by rewrite !fill_bytes_length].
  apply app_inj_1 in E as [Ec E]; [|by rewrite !fill_bytes_length]. apply app_inj_1 in E as [Ea E]; [|by rewrite Ha1].
  apply app_inj_1 in E as [Es E]; [|by rewrite !fill_bytes_length]. apply app_inj_1 in E as [El E]; [|by rewrite !fill_bytes_length].
  repeat split; eauto using fill_bytes_inj.
Qed.

(** The digest identifies the message: two VAAs have one digest exactly when
    their bodies agree in every field, whatever signatures and guardian set they
    were sent with, unless two byte strings with one SHA-256 digest are known. *)
Theorem vaa_digest_binds (sha256 : list Z -> list Z) (v1 v2 : VaaPayload) (H1 : body_wf v1) (H2 : body_wf v2) :
  (same_body v1 v2 -> vaaDigest sha256 v1 = vaaDigest sha256 v2) /\
  (vaaDigest sha256 v1 = vaaDigest sha256 v2 -> same_body v1 v2 \/ collides sha256).
Proof.
  unfold vaaDigest. rewrite !digest_preimage_body by done. cbn [result_bind]. split.
  - intros (Et & En & Ec & Ea & Es & El & Ep). unfold encode_body. by rewrite Et, En, Ec, Ea, Es, El, Ep.
  - intros E%ok_inj. destruct (decide (encode_body v1 = encode_body v2)) as [Eb|Nb]; [left; by apply encode_body_inj|].
    right. destruct (decide (sha256 (encode_body v1) = sha256 (encode_body v2))) as [Ed|Nd]; [by do 2 eexists|].
    by exists (sha256 (encode_body v1)), (sha256 (encode_body v2)).
Qed.

(** ** The transfer *)

Lemma transfer_reads p : (133 <= length p)%nat ->
  (exists t, get_uint 1 p 0 = Ok t) /\ (exists a, get_uint 8 p (1 + 24) = Ok a) /\ (exists c, get_uint 2 p 65 = Ok c) /\
  (exists c, get_uint 2 p 99 = Ok c) /\ (exists f, get_uint 8 p (101 + 24) = Ok f).
Proof.
  intros Hp. unfold get_uint.
  repeat match goal with |- context [(?n <=? length p)%nat] => rewrite (proj2 (Nat.leb_le n (length p))) by lia end.
  repeat split; eauto.
Qed.

(** The low eight bytes of a 32-byte number. *)
Lemma get_low_bytes p from v : Forall is_byte p -> get_uint 8 p (from + 24) = Ok v ->
  v = accumulate (byte_slice p from (from + 32)) mod 2 ^ 64.
Proof.
  intros Hp G. pose proof (get_uint_bound _ _ _ _ G) as Hl. revert G. unfold get_uint.
  rewrite (proj2 (Nat.leb_le _ _)) by lia. intros <-%ok_inj.
  pose proof (take_drop 24 (drop from p)) as E. rewrite drop_drop in E.
  unfold byte_slice. rewrite <- E. replace (from + 32 - from)%nat with (24 + 8)%nat by lia.
  rewrite take_app_add' by (rewrite length_take, length_drop; lia).
  rewrite accumulate_app by by repeat (apply Forall_take || apply Forall_drop).
  assert (length (take 8 (drop (from + 24) p)) = 8%nat) as E8 by (rewrite length_take, length_drop; lia).
  rewrite E8. change (256 ^ Z.of_nat 8) with (2 ^ 64). rewrite Z.add_comm, Z.mod_add by lia.
  rewrite Z.mod_small; [done|]. pose proof (accumulate_bound (take 8 (drop (from + 24) p))) as B.
  rewrite E8 in B.
  apply B. by repeat (apply Forall_take || apply Forall_drop).
Qed.

(** The parser of a token transfer fails only on a payload shorter than 133
    bytes or of another type; otherwise it returns the fields at their places, but
    of the 32-byte amount and fee it returns only the value modulo 2^64. *)
Theorem transfer_amount_truncated (p : list Z) (Hp : Forall is_byte p) :
  match parseTransferPayload p with
  | Throw _ => (length p < 133)%nat \/ get_uint 1 p 0 <> Ok 1 /\ get_uint 1 p 0 <> Ok 3
  | Ok t => (133 <= length p)%nat /\ (get_uint 1 p 0 = Ok 1 \/ get_uint 1 p 0 = Ok 3) /\
    amount t = accumulate (byte_slice p 1 33) mod 2 ^ 64 /\
    fee t = accumulate (byte_slice p 101 133) mod 2 ^ 64 /\
    tokenAddress t = byte_slice p 33 65 /\ recipient t = byte_slice p 67 99 /\
    get_uint 2 p 65 = Ok (sourceChain t) /\ get_uint 2 p 99 = Ok (recipientChain t)
  end.
Proof.
  unfold parseTransferPayload. destruct (Nat.ltb_spec (length p) 133) as [|Hl]; [by left|].
  destruct (transfer_reads p Hl) as ((ty & Gt) & (a & Ga) & (c & Gc) & (rc & Gr) & (f & Gf)).
  rewrite Gt. cbn [result_bind]. destruct (Z.eqb_spec ty 1) as [->|H1]; cbn [negb andb].
  2: destruct (Z.eqb_spec ty 3) as [->|H3]; cbn [negb]; [|right; split; by intros [= ?]].
  all: rewrite Ga, Gc, Gr, Gf; cbn [result_bind amount fee tokenAddress recipient sourceChain recipientChain];
    apply get_low_bytes in Ga; [|done]; apply get_low_bytes in Gf; [|done]; eauto 10.
Qed.

(** ** A concrete message *)

(** A transfer of 2^64 + 5 units of the token [0...0] on chain 2. *)
Definition sample_transfer : list Z :=
  fill_bytes 1 1 [] ++ fill_bytes 32 (2 ^ 64 + 5) [] ++ repeat 0 32 ++ fill_bytes 2 2 [] ++ repeat 7 32 ++
  fill_bytes 2 1 [] ++ fill_bytes 32 0 [].

Definition sample_vaa : VaaPayload :=
  {| version := 1; guardianSetIndex := 4; signatures := blank_signatures; timestamp := 1700000000; nonce := 1;
     emitterChain := 2; emitterAddress := repeat 9 32; sequence := 77; consistencyLevel := 15;
     payload := sample_transfer |}.

Lemma sample_body_wf : body_wf sample_vaa.
Proof. unfold body_wf, u_range. vm_compute. intuition congruence. Qed.

Lemma vaa_roundtrip_witness : vaa_wf sample_vaa /\ parseVaa (encode_vaa sample_vaa) = Ok sample_vaa.
Proof.
  assert (vaa_wf sample_vaa) as Hw.
  { split; [done|]. split; [unfold u_range; vm_compute; intuition congruence|].
    split; [unfold u_range; vm_compute; intuition congruence|]. split; [apply blank_wf|apply sample_body_wf]. }
  split; [done|]. by apply vaa_roundtrip.
Defined.

Lemma forged_vaa_accepted_witness :
  parseVaa (encode_vaa sample_vaa) = Ok sample_vaa /\ valid (verifyVaa 1700000000000 sample_vaa) = true.
Proof.
  destruct (forged_vaa_accepted 1700000000000 sample_vaa) as (Hp & Hv & _).
  - done.
  - unfold u_range. vm_compute. intuition congruence.
  - apply sample_body_wf.
  - unfold vaa_fresh. vm_compute. intuition congruence.
  - split; [exact Hp|exact Hv].
Defined.

Lemma vaa_digest_binds_witness :
  vaaDigest (fun l => l) sample_vaa = vaaDigest (fun l => l) (resign sample_vaa []).
Proof. apply (vaa_digest_binds (fun l => l)); [apply sample_body_wf..|]. by repeat split. Defined.

Lemma transfer_amount_truncated_witness :
  exists t, parseTransferPayload sample_transfer = Ok t /\ amount t = 5.
Proof.
  pose proof (transfer_amount_truncated sample_transfer (bytes_check sample_transfer eq_refl)) as H.
  destruct (parseTransferPayload sample_transfer) as [t|] eqn:E; [|discriminate E].
  exists t. split; [done|]. by destruct H as (_ & _ & -> & _).
Defined.
