(* ===== verification/CrossChain.v ===== *)
(** * CrossChain: settlement intents that come from other chains

    Models packages/sdk/src/research/cross-chain.ts (chain identifiers, the
    validation of an intent and the derivation of its state) and
    services/xrpl-bridge/src/workflow.ts (the intents the bridge makes of an XRPL
    payment and of a Wormhole transfer). *)

From Stdlib Require Import ZArith Lia Ascii.
From stdpp Require Import base list strings.
From S2P Require Import Prelude Json.

Open Scope Z_scope.
Open Scope saep_scope.

Inductive CrossChainProtocol := layerzero_intent | cctp | xrpl_bridge | wormhole.

Inductive CrossChainState :=
| cc_awaiting_funds | cc_attesting | cc_ready_to_fund_task | cc_task_funded
| cc_settled | cc_refunded | cc_expired | cc_failed.

Inductive CrossChainTrackLifecycle := live | prototype | research.

Inductive SupportedIntentChain := solana | ethereum | arbitrum | base | xrpl | bsc.

#[export] Instance CrossChainState_eq_dec : EqDecision CrossChainState.
Proof. solve_decision. Defined.
#[export] Instance SupportedIntentChain_eq_dec : EqDecision SupportedIntentChain.
Proof. solve_decision. Defined.

Definition chain_text (c : SupportedIntentChain) : string :=
  match c with
  | solana => "solana" | ethereum => "ethereum" | arbitrum => "arbitrum"
  | base => "base" | xrpl => "xrpl" | bsc => "bsc"
  end.

(** [destinationChain] is a string: the type allows only ['solana'], the
    validation tests it all the same. *)
Record CrossChainIntentEnvelope := {
  intentId : string;
  i_protocol : CrossChainProtocol;
  i_sourceChain : SupportedIntentChain;
  destinationChain : string;
  i_assetSymbol : string;
  i_amountAtomic : string;
  i_beneficiaryDid : string;
  i_requester : string;
  i_createdAtMs : Z;
  i_timeoutAtMs : Z;
  i_metadataHash : option string;
}.

Record CrossChainTrack := {
  track_id : string;
  label : string;
  track_protocol : CrossChainProtocol;
  lifecycle : CrossChainTrackLifecycle;
  supportedSources : list SupportedIntentChain;
}.

Definition RESEARCH_CROSS_CHAIN_TRACKS : list CrossChainTrack :=
  [{| track_id := "x402-cctp-funding"; label := "x402 + CCTP Funding"; track_protocol := cctp; lifecycle := live;
      supportedSources := [ethereum; arbitrum; base] |};
   {| track_id := "xrpl-bridge"; label := "XRPL Bridge"; track_protocol := xrpl_bridge; lifecycle := prototype;
      supportedSources := [xrpl] |};
   {| track_id := "layerzero-intents"; label := "LayerZero Intents"; track_protocol := layerzero_intent;
      lifecycle := research; supportedSources := [ethereum; arbitrum; base] |}].

Definition chainIdToSupportedIntentChain (chainId : Z) : option SupportedIntentChain :=
  if chainId =? 1 then Some solana else if chainId =? 2 then Some ethereum else if chainId =? 4 then Some bsc else None.

(** [/^\d+$/.test(s)] *)
Definition is_digit (c : ascii) : bool := let n := nat_of_ascii c in ((48 <=? n) && (n <=? 57))%nat.

Fixpoint digits_only (s : string) : bool :=
  match s with
  | EmptyString => true
  | String c s' => is_digit c && digits_only s'
  end.

Definition integer_string (s : string) : bool := negb (String.eqb s "") && digits_only s.

Definition default_supported : list SupportedIntentChain := [ethereum; arbitrum; base; xrpl].

Definition validateCrossChainIntent (intent : CrossChainIntentEnvelope) (supportedChains : list SupportedIntentChain) : list string :=
  push_if (negb (String.eqb (destinationChain intent) "solana")) "destinationChain must be solana" ++
  push_if (negb (bool_decide (i_sourceChain intent ∈ supportedChains)))
    ("unsupported source chain: " +:+ chain_text (i_sourceChain intent)) ++
  push_if (i_timeoutAtMs intent <=? i_createdAtMs intent) "timeoutAtMs must be after createdAtMs" ++
  push_if (negb (integer_string (i_amountAtomic intent))) "amountAtomic must be an integer string" ++
  push_if (String.length (i_beneficiaryDid intent) <? 16)%nat "beneficiaryDid is too short".

(** The flags are optional, and a missing one is falsy. *)
Record state_input := {
  nowMs : Z;
  s_timeoutAtMs : Z;
  attested : bool;
  taskFunded : bool;
  settled : bool;
  refunded : bool;
  failed : bool;
}.

Definition deriveCrossChainState (input : state_input) : CrossChainState :=
  if failed input then cc_failed
  else if settled input then cc_settled
  else if refunded input then cc_refunded
  else if s_timeoutAtMs input <=? nowMs input then cc_expired
  else if taskFunded input then cc_task_funded
  else if attested input then cc_ready_to_fund_task
  else if 0 <? nowMs input then cc_attesting
  else cc_awaiting_funds.

(** ** The bridge's intents *)

(** A payment seen by the XRPL listener, or made up from a Wormhole transfer. *)
Record ValidatedPayment := {
  txHash : string;
  sender : string;
  drops : Z;
  solanaPubkey : string;
  agentDid : string;
  ledgerIndex : Z;
}.

Definition DEFAULT_TIMEOUT_WINDOW_MS : Z := 15 * 60000.

Record SettlementContext := {
  c_protocol : CrossChainProtocol;
  c_sourceChain : SupportedIntentChain;
  c_assetSymbol : string;
  c_amountAtomic : string;
  c_requester : string;
  c_beneficiaryDid : string;
  c_createdAtMs : Z;
  c_timeoutAtMs : Z;
  c_metadataHash : option string;
}.

Definition buildIntentEnvelope (id : string) (c : SettlementContext) : CrossChainIntentEnvelope :=
  {| intentId := id; i_protocol := c_protocol c; i_sourceChain := c_sourceChain c; destinationChain := "solana";
     i_assetSymbol := c_assetSymbol c; i_amountAtomic := c_amountAtomic c; i_beneficiaryDid := c_beneficiaryDid c;
     i_requester := c_requester c; i_createdAtMs := c_createdAtMs c; i_timeoutAtMs := c_timeoutAtMs c;
     i_metadataHash := c_metadataHash c |}.

Inductive SettlementStatus := st_pending | st_settled | st_failed.

#[export] Instance SettlementStatus_eq_dec : EqDecision SettlementStatus.
Proof. solve_decision. Defined.

Definition workflowStateFor (status : SettlementStatus) (intent : CrossChainIntentEnvelope) (now : Z) : CrossChainState :=
  deriveCrossChainState
    {| nowMs := now; s_timeoutAtMs := i_timeoutAtMs intent; attested := false; taskFunded := false;
       settled := bool_decide (status = st_settled); refunded := false; failed := bool_decide (status = st_failed) |}.

Definition xrplSettlementContext (payment : ValidatedPayment) (now : Z) : SettlementContext :=
  {| c_protocol := xrpl_bridge; c_sourceChain := xrpl; c_assetSymbol := "XRP"; c_amountAtomic := z_text (drops payment);
     c_requester := sender payment; c_beneficiaryDid := agentDid payment; c_createdAtMs := now;
     c_timeoutAtMs := now + DEFAULT_TIMEOUT_WINDOW_MS; c_metadataHash := None |}.

Definition wormholeSettlementContext (sourceChainId amountAtomic : Z) (beneficiaryDid : string)
    (tokenSymbol : option string) (digest : string) (now : Z) : option SettlementContext :=
  match chainIdToSupportedIntentChain sourceChainId with
  | None => None
  | Some sourceChain =>
    Some {| c_protocol := wormhole; c_sourceChain := sourceChain; c_assetSymbol := default "UNKNOWN" tokenSymbol;
            c_amountAtomic := z_text amountAtomic; c_requester := "wormhole:chain" +:+ z_text sourceChainId;
            c_beneficiaryDid := beneficiaryDid; c_createdAtMs := now;
            c_timeoutAtMs := now + DEFAULT_TIMEOUT_WINDOW_MS; c_metadataHash := Some digest |}
  end.

(** ** The derived state *)

Definition cc_rank (s : CrossChainState) : nat :=
  match s with
  | cc_awaiting_funds => 0 | cc_attesting => 1 | cc_ready_to_fund_task => 2 | cc_task_funded => 3
  | cc_expired => 4 | cc_refunded => 5 | cc_settled => 6 | cc_failed => 7
  end.

(** [b] is observed after [a]: time has passed, and what had happened stays so. *)
Definition observed_later (a b : state_input) : Prop :=
  nowMs a <= nowMs b /\ s_timeoutAtMs a = s_timeoutAtMs b /\
  (attested a = true -> attested b = true) /\ (taskFunded a = true -> taskFunded b = true) /\
  (settled a = true -> settled b = true) /\ (refunded a = true -> refunded b = true) /\
  (failed a = true -> failed b = true).

(** A derived state never moves backwards: as long as facts are only added and
    time only passes, the state of an intent climbs the order awaiting_funds,
    attesting, ready_to_fund_task, task_funded, expired, refunded, settled,
    failed; in particular a settled or refunded intent never expires, and nothing
    leaves failed. *)
Theorem cross_chain_state_advances (a b : state_input) (H : observed_later a b) :
  (cc_rank (deriveCrossChainState a) <= cc_rank (deriveCrossChainState b))%nat.
Proof.
  destruct a as [ta oa a1 a2 a3 a4 a5], b as [tb ob b1 b2 b3 b4 b5], H as (Ht & Ho & H1 & H2 & H3 & H4 & H5).
  cbn in *. subst ob. unfold deriveCrossChainState. cbn -[Z.leb Z.ltb].
  destruct b5; [repeat case_match; cbn; lia|]. destruct a5; [discriminate (H5 eq_refl)|].
  destruct b3; [repeat case_match; cbn; lia|]. destruct a3; [discriminate (H3 eq_refl)|].
  destruct b4; [repeat case_match; cbn; lia|]. destruct a4; [discriminate (H4 eq_refl)|].
  destruct (Z.leb_spec oa tb); [repeat case_match; cbn; lia|].
  destruct (Z.leb_spec oa ta); [lia|].
  destruct b2; [repeat case_match; cbn; lia|]. destruct a2; [discriminate (H2 eq_refl)|].
  destruct b1; [repeat case_match; cbn; lia|]. destruct a1; [discriminate (H1 eq_refl)|].
  destruct (Z.ltb_spec 0 ta), (Z.ltb_spec 0 tb); cbn; lia.
Qed.

(** ** The bridge's intents are valid *)

Lemma digits_uint d : digits_only (DecimalString.NilEmpty.string_of_uint d) = true.
Proof. induction d; done. Qed.

Lemma integer_string_z z : 0 <= z -> integer_string (z_text z) = true.
Proof.
  intros Hz. unfold z_text. destruct z as [|p|p]; [done| |lia]. cbn [Z.to_int DecimalString.NilZero.string_of_int].
  pose proof (digits_uint (Pos.to_uint p)). unfold integer_string, DecimalString.NilZero.string_of_uint.
  by destruct (Pos.to_uint p).
Qed.

Definition intent_fields_ok (amount : Z) (did : string) : Prop := 0 <= amount /\ (16 <= String.length did)%nat.

Lemma bridge_intent_errors h c amount did now :
  intent_fields_ok amount did -> c_amountAtomic c = z_text amount -> c_beneficiaryDid c = did ->
  c_createdAtMs c = now -> c_timeoutAtMs c = now + DEFAULT_TIMEOUT_WINDOW_MS ->
  validateCrossChainIntent (buildIntentEnvelope h c) default_supported = [] <-> c_sourceChain c ∈ default_supported.
Proof.
  intros [Ha Hd] Ea Eb Ec Et. unfold validateCrossChainIntent, buildIntentEnvelope. cbn -[default_supported z_text Nat.ltb].
  rewrite Ea, Eb, Ec, Et, integer_string_z by done.
  destruct (Z.leb_spec (now + DEFAULT_TIMEOUT_WINDOW_MS) now); [unfold DEFAULT_TIMEOUT_WINDOW_MS in *; lia|].
  destruct (Nat.ltb_spec (String.length did) 16); [lia|]. cbn [negb push_if app].
  case_bool_decide as Hin; cbn [negb push_if app]; split; try done.
Qed.

(** The intents the bridge builds of payments with a non-negative amount and a
    DID of at least 16 characters pass the SDK's default validation, except those
    of Wormhole transfers from Solana and BSC, chains the bridge accepts and the
    validation does not support. *)
Theorem bridge_intents_valid (h did digest : string) (token : option string) (chainId amount now : Z) (p : ValidatedPayment)
  (Hx : intent_fields_ok (drops p) (agentDid p)) (Hw : intent_fields_ok amount did) :
  validateCrossChainIntent (buildIntentEnvelope h (xrplSettlementContext p now)) default_supported = [] /\
  match wormholeSettlementContext chainId amount did token digest now with
  | None => chainId <> 1 /\ chainId <> 2 /\ chainId <> 4
  | Some c =>
    (chainId = 2 /\ validateCrossChainIntent (buildIntentEnvelope h c) default_supported = []) \/
    ((chainId = 1 \/ chainId = 4) /\ validateCrossChainIntent (buildIntentEnvelope h c) default_supported <> [])
  end.
Proof.
  split; [apply (bridge_intent_errors h _ (drops p) (agentDid p) now); try done; apply (bool_decide_unpack _); done|].
  unfold wormholeSettlementContext, chainIdToSupportedIntentChain.
  assert (forall ch, let c := {| c_protocol := wormhole; c_sourceChain := ch; c_assetSymbol := default "UNKNOWN" token;
      c_amountAtomic := z_text amount; c_requester := "wormhole:chain" +:+ z_text chainId; c_beneficiaryDid := did;
      c_createdAtMs := now; c_timeoutAtMs := now + DEFAULT_TIMEOUT_WINDOW_MS; c_metadataHash := Some digest |} in
    validateCrossChainIntent (buildIntentEnvelope h c) default_supported = [] <-> ch ∈ default_supported) as E
    by (intros ch c; by apply (bridge_intent_errors h c amount did now)).
  destruct (Z.eqb_spec chainId 1) as [H1|]; [|destruct (Z.eqb_spec chainId 2) as [H2|]; [|destruct (Z.eqb_spec chainId 4) as [H4|]]].
  - right. split; [by left|]. rewrite E. apply (bool_decide_unpack _). done.
  - left. split; [done|]. apply E. apply (bool_decide_unpack _). done.
  - right. split; [by right|]. rewrite E. apply (bool_decide_unpack _). done.
  - done.
Qed.

Definition sample_payment : ValidatedPayment :=
  {| txHash := "A1"; sender := "rSender"; drops := 5000000; solanaPubkey := "pk"; agentDid := "did:saep:0123456789abcdef";
     ledgerIndex := 7 |}.

Lemma bridge_intents_valid_witness :
  validateCrossChainIntent (buildIntentEnvelope "A1" (xrplSettlementContext sample_payment 1000)) default_supported = [].
Proof.
  apply (bridge_intents_valid "A1" "did:saep:0123456789abcdef" "d" None 4 9 1000 sample_payment);
    (split; [vm_compute; congruence|vm_compute; lia]).
Defined.

Lemma cross_chain_state_advances_witness :
  let at_time t f := {| nowMs := t; s_timeoutAtMs := 900; attested := true; taskFunded := f; settled := false;
                        refunded := false; failed := false |} in
  observed_later (at_time 10 false) (at_time 1000 true) /\
  (cc_rank (deriveCrossChainState (at_time 10%Z false)) <= cc_rank (deriveCrossChainState (at_time 1000%Z true)))%nat.
Proof.
  intros at_time. assert (observed_later (at_time 10 false) (at_time 1000 true)) as H by (unfold observed_later; cbn; intuition lia).
  split; [exact H|]. by apply cross_chain_state_advances.
Defined.
