(* ===== verification/XrplOracle.v ===== *)
(** * XrplOracle: the price oracle of the XRPL bridge

    Models services/xrpl-bridge/src/price-oracle.ts: the two cached prices, their
    freshness and staleness tests and the conversion of XRP drops to lamports.  The
    module variables [xrpUsd], [solUsd] and [connection] are the [oracle] part of
    the state; the Pyth client is an operation of the outside world.  Prices are
    exact rationals: the rounding of doubles is not modelled. *)

From Stdlib Require Import ZArith QArith Qround Lqa Lia.
From stdpp Require Import base list strings.
From S2P Require Import Prelude Effects Json.

Open Scope Z_scope.
Open Scope saep_scope.

Definition XRP_USD_FEED : string := "ec5d399846a9209f3fe5881d70aae9268c94339ff9817e8d18ff19fa05eea1c8".
Definition SOL_USD_FEED : string := "ef0d8b6fda2ceba41da15d4095d1da392a0d2f8ed0c6c7bc0f4cfac8c280b56d".

Definition CACHE_TTL_MS : Z := 30000.
Definition MAX_STALENESS_MS : Z := 60000.

Record CachedPrice := {
  price : Q;
  confidence : Q;
  fetchedAt : Z;
  publishTime : Z;
}.

Record oracle := {
  xrpUsd : option CachedPrice;
  solUsd : option CachedPrice;
  connected : bool;
}.

(** What [getPriceNoOlderThan] gives of a feed; [None] when it is too old. *)
Record PythPrice := {
  py_price : Z;
  py_conf : Z;
  py_expo : Z;
  py_publishTime : Z;
}.

Definition _resetCache (o : oracle) : oracle := {| xrpUsd := None; solUsd := None; connected := connected o |}.
Definition initOracle (o : oracle) : oracle := {| xrpUsd := xrpUsd o; solUsd := solUsd o; connected := true |}.

Definition set_xrp (p : CachedPrice) (o : oracle) : oracle := {| xrpUsd := Some p; solUsd := solUsd o; connected := connected o |}.
Definition set_sol (p : CachedPrice) (o : oracle) : oracle := {| xrpUsd := xrpUsd o; solUsd := Some p; connected := connected o |}.

Section oracle.
Context {W : Type}.
Variable dateNow : W -> Z.
Variable getLatestPriceFeeds : string -> io W (option (list (option PythPrice))).

Abbreviation world := (oracle * W)%type.

(** An operation of the outside world: the module's variables stay as they are. *)
Definition outside {A} (m : io W A) : io world A := fun w =>
  match m w.2 with
  | Some (r, w') => Some (r, (w.1, w'))
  | None => None
  end.

Definition read_now : io world Z := fun w => Some (Ok (dateNow w.2), w).
Definition read_oracle : io world oracle := fun w => Some (Ok w.1, w).
Definition write_oracle (f : oracle -> oracle) : io world unit := fun w => Some (Ok tt, (f w.1, w.2)).

Definition fetchPrice (feedId : string) : io world CachedPrice :=
  do! o <- read_oracle in
  do! _ <- io_check (connected o) "oracle not initialized" in
  do! feeds <- outside (getLatestPriceFeeds feedId) in
  match feeds with
  | None | Some [] => io_throw ("no price feed for " +:+ feedId)
  | Some (None :: _) => io_throw ("price too stale for feed " +:+ feedId)
  | Some (Some current :: _) =>
    do! now <- read_now in
    io_ret {| price := inject_Z (py_price current) * 10 ^ py_expo current;
              confidence := inject_Z (py_conf current) * 10 ^ py_expo current;
              fetchedAt := now; publishTime := py_publishTime current * 1000 |}
  end.

Definition isFresh (now : Z) (cached : option CachedPrice) : bool :=
  match cached with
  | None => false
  | Some c => now - fetchedAt c <? CACHE_TTL_MS
  end.

(** [Math.round(age / 1000)] of an integer age. *)
Definition assertNotStale (now : Z) (cached : CachedPrice) (label : string) : result unit :=
  let age := now - publishTime cached in
  if MAX_STALENESS_MS <? age then Throw (label +:+ " price stale: " +:+ z_text ((age + 500) / 1000) +:+ "s old") else Ok tt.

(** [getXrpUsd] and [getSolUsd] differ in the variable, the feed and the label. *)
Definition get_price (get : oracle -> option CachedPrice) (set : CachedPrice -> oracle -> oracle) (feed label : string) :
    io world CachedPrice :=
  do! o <- read_oracle in
  do! now <- read_now in
  do! c <- (match get o with
            | Some c =>
              if isFresh now (get o) then io_ret c
              else do! c <- fetchPrice feed in do! _ <- write_oracle (set c) in io_ret c
            | None => do! c <- fetchPrice feed in do! _ <- write_oracle (set c) in io_ret c
            end) in
  do! now <- read_now in
  do! _ <- io_lift (assertNotStale now c label) in
  io_ret c.

Definition getXrpUsd : io world CachedPrice := get_price xrpUsd set_xrp XRP_USD_FEED "XRP/USD".
Definition getSolUsd : io world CachedPrice := get_price solUsd set_sol SOL_USD_FEED "SOL/USD".

Record rates := { rate : option Q; r_xrpUsd : Q; r_solUsd : Q }.

(** The two calls of [Promise.all] touch different variables and are run one
    after the other; the second runs even when the first is rejected.  A division
    by zero gives a number that is not finite, [None] here. *)
Definition getXrpToSolRate : io world rates := fun w =>
  match getXrpUsd w with
  | None => None
  | Some (rx, w1) =>
    match getSolUsd w1 with
    | None => None
    | Some (rs, w2) =>
      Some (let! xrp := rx in
            let! sol := rs in
            Ok {| rate := if Qeq_bool (price sol) 0 then None else Some (price xrp / price sol)%Q;
                  r_xrpUsd := price xrp; r_solUsd := price sol |}, w2)
    end
  end.

(** [BigInt] of an infinite number or of NaN throws. *)
Definition convertXrpToLamports (xrpDrops : Z) : io world Z :=
  do! r <- getXrpToSolRate in
  match rate r with
  | None => io_throw "The number cannot be converted to a BigInt because it is not an integer"
  | Some q =>
    let xrpAmount := (inject_Z xrpDrops / 1000000)%Q in
    let solAmount := (xrpAmount * q)%Q in
    io_ret (Qfloor (solAmount * 1000000000))
  end.
End oracle.

(** ** What the conversion promises *)

Section conversion.
Context {W : Type}.
Variable dateNow : W -> Z.
Variable feeds : string -> io W (option (list (option PythPrice))).
Hypothesis feeds_time : forall id w r w', feeds id w = Some (r, w') -> dateNow w <= dateNow w'.

Abbreviation world := (oracle * W)%type.

Lemma outside_ok {A} (m : io W A) (w : world) (a : A) w' :
  outside m w = Some (Ok a, w') -> w'.1 = w.1 /\ m w.2 = Some (Ok a, w'.2).
Proof. unfold outside. destruct (m w.2) as [[r w1]|]; [|done]. by intros [= -> <-]. Qed.

Lemma fetch_price_ok id (w : world) c w' : fetchPrice dateNow feeds id w = Some (Ok c, w') ->
  w'.1 = w.1 /\ dateNow w.2 <= dateNow w'.2 /\ fetchedAt c = dateNow w'.2.
Proof.
  unfold fetchPrice. intros H.
  apply io_bind_ok in H as (o & w0 & Ho & H). injection Ho as <- <-.
  apply io_bind_ok in H as (u & w1 & Hc & H). apply io_check_ok in Hc as [_ ->].
  apply io_bind_ok in H as (fs & w2 & Hf & H). apply outside_ok in Hf as [E Hf]. apply feeds_time in Hf.
  destruct fs as [[|[p|] fs]|]; try done. apply io_bind_ok in H as (now & w3 & Hn & H).
  injection Hn as <- <-. by injection H as <- <-.
Qed.

Definition not_stale (now : Z) (c : CachedPrice) : Prop := now - publishTime c <= MAX_STALENESS_MS.

Lemma get_price_ok get set feed label (w : world) c w' :
  (forall p o, get (set p o) = Some p) ->
  get_price dateNow feeds get set feed label w = Some (Ok c, w') ->
  dateNow w.2 <= dateNow w'.2 /\ not_stale (dateNow w'.2) c /\ dateNow w'.2 - fetchedAt c <= CACHE_TTL_MS /\
  get w'.1 = Some c /\ (w'.1 = w.1 \/ w'.1 = set c w.1).
Proof.
  intros Hgs H. unfold get_price in H.
  apply io_bind_ok in H as (o & w0 & Ho & H). injection Ho as <- <-.
  apply io_bind_ok in H as (n0 & w0 & Hn & H). injection Hn as <- <-.
  apply io_bind_ok in H as (c0 & w1 & Hc & H).
  apply io_bind_ok in H as (n1 & w2 & Hn & H). injection Hn as <- <-.
  apply io_bind_ok in H as (u & w2 & Hs & H). apply io_lift_ok in Hs as [Hs ->]. injection H as <- <-.
  assert (not_stale (dateNow w1.2) c0) as Hst
    by (unfold assertNotStale in Hs; unfold not_stale; case_match eqn:E; [done|by apply Z.ltb_ge in E]).
  assert (forall w1, (do! c <- fetchPrice dateNow feeds feed in do! _ <- write_oracle (set c) in io_ret c) w = Some (Ok c0, w1) ->
    dateNow w.2 <= dateNow w1.2 /\ dateNow w1.2 - fetchedAt c0 <= CACHE_TTL_MS /\ get w1.1 = Some c0 /\ w1.1 = set c0 w.1) as Hfetch.
  { intros w2 H. apply io_bind_ok in H as (c1 & w3 & Hf & H). apply fetch_price_ok in Hf as (E & Ht & Ef).
    apply io_bind_ok in H as (u' & w4 & Hw & H). injection Hw as <- <-. injection H as <- <-. cbn [fst snd].
    unfold CACHE_TTL_MS. rewrite Hgs, E. repeat split; [lia|lia]. }
  destruct (get w.1) as [p|] eqn:Eg; [destruct (isFresh (dateNow w.2) (Some p)) eqn:Ef|].
  - injection Hc as <- <-. apply Z.ltb_lt in Ef. split; [lia|]. split; [done|]. split; [lia|]. split; [done|by left].
  - destruct (Hfetch _ Hc) as (? & ? & ? & ?). auto 10.
  - destruct (Hfetch _ Hc) as (? & ? & ? & ?). auto 10.
Qed.

(** Lamports for drops: the amount the bridge pays is the payment at the ratio of
    two dollar prices, rounded down to a lamport, hence never more than the
    payment is worth; both prices are those cached in the oracle, each published
    at most sixty seconds before it was used, and the SOL price is not zero. *)
Theorem conversion_rounds_down (drops : Z) (w w' : oracle * W) (lamports : Z)
  (H : convertXrpToLamports dateNow feeds drops w = Some (Ok lamports, w')) :
  exists xrp sol t, xrpUsd w'.1 = Some xrp /\ solUsd w'.1 = Some sol /\ ~ (price sol == 0)%Q /\
    let worth := (inject_Z drops * 1000 * (price xrp / price sol))%Q in
    (inject_Z lamports <= worth < inject_Z lamports + 1)%Q /\
    dateNow w.2 <= t <= dateNow w'.2 /\ not_stale t xrp /\ not_stale (dateNow w'.2) sol.
Proof.
  unfold convertXrpToLamports in H. apply io_bind_ok in H as (r & w3 & Hr & H).
  unfold getXrpToSolRate in Hr. destruct (getXrpUsd dateNow feeds w) as [[rx w1]|] eqn:Ex; [|done].
  destruct (getSolUsd dateNow feeds w1) as [[rs w2]|] eqn:Es; [|done].
  destruct rx as [xrp|]; [|done]. destruct rs as [sol|]; [|done]. cbn [result_bind] in Hr. injection Hr as <- <-.
  apply get_price_ok in Ex as (Ht1 & Hst1 & _ & Hx & _); [|done].
  apply get_price_ok in Es as (Ht2 & Hst2 & _ & Hs & Hk); [|done].
  cbn [rate] in H. destruct (Qeq_bool (price sol) 0) eqn:Ez; [done|]. apply Qeq_bool_neq in Ez.
  apply io_ret_ok in H as [<- <-]. exists xrp, sol, (dateNow w1.2). split; [|split; [done|split; [done|]]].
  { destruct Hk as [->| ->]; [done|]. by destruct w1 as [[] ?]. }
  cbv zeta. split; [|by split].
  set (q := (inject_Z drops / 1000000 * (price xrp / price sol) * 1000000000)%Q).
  assert (q == inject_Z drops * 1000 * (price xrp / price sol))%Q as <- by (unfold q; field; done).
  split; [apply Qfloor_le|]. pose proof (Qlt_floor q) as E. by rewrite inject_Z_plus in E.
Qed.
End conversion.

(** A feed that always answers 2.50 USD for XRP and 125 USD for SOL. *)
Definition toy_feeds (id : string) : io Z (option (list (option PythPrice))) := fun t =>
  Some (Ok (Some [Some {| py_price := if String.eqb id XRP_USD_FEED then 250 else 12500; py_conf := 1; py_expo := -2;
                          py_publishTime := t / 1000 |}]), t).

Definition fresh_oracle : oracle := {| xrpUsd := None; solUsd := None; connected := true |}.

Lemma conversion_rounds_down_witness :
  exists w', convertXrpToLamports (fun t => t) toy_feeds 5000001 (fresh_oracle, 7000) = Some (Ok 100000020, w') /\
    exists sol, solUsd w'.1 = Some sol /\ ~ (price sol == 0)%Q.
Proof.
  destruct (convertXrpToLamports (fun t => t) toy_feeds 5000001 (fresh_oracle, 7000)) as [[[l|e] w']|] eqn:E;
    [|vm_compute in E; discriminate E..].
  assert (l = 100000020) as -> by (vm_compute in E; congruence).
  exists w'. split; [done|].
  destruct (fun HT => conversion_rounds_down (fun t => t) toy_feeds HT _ _ _ _ E) as (xrp & sol & t & _ & Hs & Hz & _).
  - intros id w r w1. unfold toy_feeds. intros [= _ ->]. lia.
  - exists sol. split; [exact Hs|exact Hz].
Defined.
