(* ===== verification/XrplBridge.v ===== *)
(** * XrplBridge: settling XRPL payments and Wormhole transfers on Solana

    Models services/xrpl-bridge/src/settlement.ts (the idempotency record in Redis,
    the settlement transaction and the settlement itself), server.ts (the HTTP
    handlers) and the [payment] callback of index.ts.  Redis, the Solana RPC node,
    the clock and the random source are operations of the outside world
    ([bridge_ops]); hashing, keys, encodings and the transaction format of web3.js
    are parameters ([bridge_lib]).  A record's JSON text is represented by the
    record; a key pair by its public key. *)

From Stdlib Require Import ZArith Lia Ascii DecimalString.
From stdpp Require Import base list strings.
From S2P Require Import Prelude Effects Bytes Json Attestation CrossChain Vaa XrplOracle Hex.

Open Scope Z_scope.
Open Scope saep_scope.

Inductive cluster_name := mainnet_beta | devnet | localnet.

Record SettlementResult := {
  res_txHash : string;
  solTxSig : string;
  lamports : Z;
  res_status : SettlementStatus;
  intent : CrossChainIntentEnvelope;
  workflowState : CrossChainState;
}.

(** What is stored under [xrpl-bridge:settlement:<hash>]: the lamports as text,
    the transaction hash only in the key. *)
Record stored := {
  st_solTxSig : string;
  st_lamports : string;
  st_status : SettlementStatus;
  st_intent : CrossChainIntentEnvelope;
  st_workflowState : CrossChainState;
}.

Definition REDIS_PREFIX : string := "xrpl-bridge:settlement:".
Definition REDIS_TTL : Z := 86400 * 7.

(** [BigInt(text)] of a decimal text. *)
Definition BigInt (text : string) : result Z :=
  match NilZero.int_of_string text with
  | Some d => Ok (Z.of_int d)
  | None => Throw ("Cannot convert " +:+ text +:+ " to a BigInt")
  end.

(** The instructions of the settlement transaction, with the arguments the bridge
    gives the SDK's builders. *)
Inductive bridge_ix :=
| B_createTask (client taskNonce agentDid operator agentId paymentMint : bytes) (paymentAmount : Z) (argsHash criteria : bytes)
    (deadline milestoneCount : Z)
| B_fundTask (client task paymentMint clientTokenAccount : bytes)
| B_submitResult (operator task agentAccount resultHash proofKey : bytes)
| B_release (cranker task paymentMint agentTokenAccount feeCollectorTokenAccount solrepPoolTokenAccount agentAccount client : bytes).

(** The accounts the task-market program declares as signers of each instruction
    (packages/sdk/src/idl/task_market.json). *)
Definition ix_signer (ix : bridge_ix) : bytes :=
  match ix with
  | B_createTask client _ _ _ _ _ _ _ _ _ _ => client
  | B_fundTask client _ _ _ => client
  | B_submitResult operator _ _ _ _ => operator
  | B_release cranker _ _ _ _ _ _ _ => cranker
  end.

Record tx := { recentBlockhash : string; feePayer : bytes; ixs : list bridge_ix }.

Record bridge_lib := {
  b_sha256 : bytes -> bytes;
  b_utf8 : string -> bytes;
  b_base64url : bytes -> string;
  b_base64 : string -> bytes;                       (* Buffer.from(_, 'base64') *)
  b_PublicKey : string -> result bytes;             (* new PublicKey(_) *)
  b_loadKeypair : string -> result bytes;           (* Keypair.fromSecretKey(bs58.decode(_)) *)
  b_Connection : string -> result unit;             (* new Connection(_) *)
  b_taskPda : bytes -> bytes -> bytes;
  b_agentAccountPda : bytes -> bytes -> bytes;
  b_encode : bridge_ix -> result unit;              (* Anchor's encoding of an instruction *)
  b_serialize : tx -> list bytes -> result string;  (* tx.serialize() after the signatures of these keys *)
}.

Record bridge_ops (W : Type) := {
  bo_now : W -> Z;
  bo_feeds : string -> io W (option (list (option PythPrice)));
  bo_get : string -> io W (option stored);
  bo_set : string -> stored -> Z -> io W unit;      (* SET key value EX seconds *)
  bo_randomBytes : nat -> io W bytes;
  bo_latestBlockhash : io W string;
  bo_send : string -> io W string;
  bo_confirm : string -> io W unit;
}.
Arguments bo_now {W} _ _.
Arguments bo_feeds {W} _ _ _.
Arguments bo_get {W} _ _ _.
Arguments bo_set {W} _ _ _ _ _.
Arguments bo_randomBytes {W} _ _ _.
Arguments bo_latestBlockhash {W} _ _.
Arguments bo_send {W} _ _ _.
Arguments bo_confirm {W} _ _ _.

Record bridge_config := {
  gatewayKeypair : string;
  solanaRpcUrl : string;
  cluster : cluster_name;
}.

(** [s.padEnd(64, '0').slice(0, 64)] *)
Definition pad_end (n : nat) (c : ascii) (s : string) : string :=
  s +:+ String.string_of_list_ascii (repeat c (n - String.length s)).

(** [Buffer.from(s, 'hex')] stops at the first pair that is not hexadecimal. *)
Fixpoint from_hex (s : string) : bytes :=
  match s with
  | String a (String b s') =>
    match hex_value a, hex_value b with
    | Some x, Some y => 16 * x + y :: from_hex s'
    | _, _ => []
    end
  | _ => []
  end.

(** [PublicKey.default] *)
Definition default_key : bytes := repeat 0 32.

Section bridge.
Context {W : Type}.
Variable lib : bridge_lib.
Variable ops : bridge_ops W.
Variable cfg : bridge_config.

Abbreviation world := (oracle * W)%type.

Definition redis_key (hash : string) : string := REDIS_PREFIX +:+ hash.

Definition checkIdempotency (hash : string) : io world (option SettlementResult) :=
  do! raw <- outside (bo_get ops (redis_key hash)) in
  match raw with
  | None => io_ret None
  | Some data =>
    do! l <- io_lift (BigInt (st_lamports data)) in
    io_ret (Some {| res_txHash := hash; solTxSig := st_solTxSig data; lamports := l; res_status := st_status data;
                    intent := st_intent data; workflowState := st_workflowState data |})
  end.

Definition recordSettlement (hash : string) (r : SettlementResult) : io world unit :=
  outside (bo_set ops (redis_key hash)
    {| st_solTxSig := solTxSig r; st_lamports := z_text (lamports r); st_status := res_status r; st_intent := intent r;
       st_workflowState := workflowState r |} REDIS_TTL).

Definition push_ix (ix : bridge_ix) : io world bridge_ix :=
  do! _ <- io_lift (b_encode lib ix) in io_ret ix.

Definition buildSettlementTx (gateway : bytes) (payment : ValidatedPayment) (lamports : Z) : io world tx :=
  do! taskNonce <- outside (bo_randomBytes ops 8) in
  let agentDidBytes := from_hex (String.substring 0 64 (pad_end 64 "0" (agentDid payment))) in
  let argsHash := b_sha256 lib (b_utf8 lib (txHash payment)) in
  do! recipient <- io_lift (b_PublicKey lib (solanaPubkey payment)) in
  do! now <- read_now (bo_now ops) in
  let deadline := now / 1000 + 300 in
  do! create <- push_ix (B_createTask gateway taskNonce agentDidBytes recipient (take 16 agentDidBytes) default_key
                           lamports (take 32 argsHash) (take 32 argsHash) deadline 1) in
  let taskAddr := b_taskPda lib gateway taskNonce in
  do! fund <- push_ix (B_fundTask gateway taskAddr default_key gateway) in
  let agentAccount := b_agentAccountPda lib recipient (take 16 agentDidBytes) in
  do! submit <- push_ix (B_submitResult recipient taskAddr agentAccount (take 32 argsHash) (repeat 0 32)) in
  do! release <- push_ix (B_release gateway taskAddr default_key recipient gateway gateway agentAccount gateway) in
  do! blockhash <- outside (bo_latestBlockhash ops) in
  io_ret {| recentBlockhash := blockhash; feePayer := gateway; ixs := [create; fund; submit; release] |}.

(** The intent a simulated settlement carries is replaced by the caller. *)
Definition simulateSettlement (payment : ValidatedPayment) (l : Z) : io world SettlementResult :=
  do! now <- read_now (bo_now ops) in
  io_ret {| res_txHash := txHash payment;
            solTxSig := b_base64url lib (b_sha256 lib (b_utf8 lib ("xrpl-bridge:" +:+ txHash payment)));
            lamports := l; res_status := st_settled;
            intent := buildIntentEnvelope (txHash payment)
              {| c_protocol := xrpl_bridge; c_sourceChain := xrpl; c_assetSymbol := "XRP";
                 c_amountAtomic := z_text (drops payment); c_requester := sender payment;
                 c_beneficiaryDid := agentDid payment; c_createdAtMs := now; c_timeoutAtMs := now; c_metadataHash := None |};
            workflowState := cc_settled |}.

(** The [try] block: build, sign with the gateway's key alone, send, confirm. *)
Definition pay (gateway : bytes) (payment : ValidatedPayment) (l : Z) (envelope : CrossChainIntentEnvelope) : io world SettlementResult :=
  do! t <- buildSettlementTx gateway payment l in
  do! wire <- io_lift (b_serialize lib t [gateway]) in
  do! sig <- outside (bo_send ops wire) in
  do! _ <- outside (bo_confirm ops sig) in
  do! now <- read_now (bo_now ops) in
  let r := {| res_txHash := txHash payment; solTxSig := sig; lamports := l; res_status := st_settled; intent := envelope;
              workflowState := workflowStateFor st_settled envelope now |} in
  do! _ <- recordSettlement (txHash payment) r in
  io_ret r.

Definition pay_or_record (gateway : bytes) (payment : ValidatedPayment) (l : Z) (envelope : CrossChainIntentEnvelope) :
    io world SettlementResult :=
  io_catch (pay gateway payment l envelope) (fun err =>
    do! now <- read_now (bo_now ops) in
    do! _ <- recordSettlement (txHash payment)
      {| res_txHash := txHash payment; solTxSig := ""; lamports := l; res_status := st_failed; intent := envelope;
         workflowState := workflowStateFor st_failed envelope now |} in
    io_throw err).

(** [settle] after the idempotency check. *)
Definition settle_after (payment : ValidatedPayment) (context : SettlementContext) (existing : option SettlementResult) :
    io world SettlementResult :=
  let envelope := buildIntentEnvelope (txHash payment) context in
  match existing with
  | Some r => io_ret r
  | None =>
    do! l <- convertXrpToLamports (bo_now ops) (bo_feeds ops) (drops payment) in
    match cluster cfg with
    | localnet =>
      do! r0 <- simulateSettlement payment l in
      do! now <- read_now (bo_now ops) in
      let r := {| res_txHash := res_txHash r0; solTxSig := solTxSig r0; lamports := lamports r0; res_status := res_status r0;
                  intent := envelope; workflowState := workflowStateFor (res_status r0) envelope now |} in
      do! _ <- recordSettlement (txHash payment) r in
      io_ret r
    | mainnet_beta => io_throw "mainnet settlement requires Jito bundle path"
    | devnet =>
      do! _ <- io_lift (b_Connection lib (solanaRpcUrl cfg)) in
      do! gateway <- io_lift (b_loadKeypair lib (gatewayKeypair cfg)) in
      pay_or_record gateway payment l envelope
    end
  end.

Definition settle (payment : ValidatedPayment) (context : SettlementContext) : io world SettlementResult :=
  do! existing <- checkIdempotency (txHash payment) in
  settle_after payment context existing.

Definition getStatus (hash : string) : io world (option SettlementResult) := checkIdempotency hash.
End bridge.

(** ** The HTTP handlers *)

(** A JSON body as the schemas see it: [None] is a field that is missing or not
    of its type. *)
Record XrplSubmit := {
  x_tx_hash : option string;
  x_sender : option string;
  x_drops : option string;
  x_solana_pubkey : option string;
  x_agent_did : option string;
  x_ledger_index : option QArith_base.Q;
}.

Record WormholeSubmit := {
  w_vaa : option string;
  w_solana_pubkey : option string;
  w_agent_did : option string;
}.

Definition length_between (lo hi : nat) (s : string) : bool := ((lo <=? String.length s) && (String.length s <=? hi))%nat.

(** [XrplSubmitBody.safeParse]: the payment it describes. *)
Definition XrplSubmitBody (b : XrplSubmit) : option (string * string * string * string * string * Z) :=
  match x_tx_hash b, x_sender b, x_drops b, x_solana_pubkey b, x_agent_did b, x_ledger_index b with
  | Some h, Some s, Some d, Some pk, Some did, Some i =>
    if length_between 64 64 h && length_between 25 35 s && integer_string d && length_between 32 44 pk &&
       length_between 32 64 did && is_integer i && q_ltb (QArith_base.inject_Z 0) i
    then Some (h, s, d, pk, did, Qround.Qfloor i)
    else None
  | _, _, _, _, _, _ => None
  end.

Definition WormholeBody (b : WormholeSubmit) : option (string * string * string) :=
  match w_vaa b, w_solana_pubkey b, w_agent_did b with
  | Some v, Some pk, Some did =>
    if (1 <=? String.length v)%nat && length_between 32 44 pk && length_between 32 64 did then Some (v, pk, did) else None
  | _, _, _ => None
  end.

(** The shared part of the three success replies. *)
Record settled_fields := {
  f_sol_tx_sig : string;
  f_lamports : string;
  f_status : SettlementStatus;
  f_workflow_state : CrossChainState;
  f_intent : CrossChainIntentEnvelope;
}.

Inductive reply :=
| Bad_request (code : Z) (error : string) (detail : option string)
| Unsupported_chain (source_chain : Z)
| Xrpl_ok (xrpl_tx_hash : string) (fields : settled_fields)
| Wormhole_ok (vaa_digest : string) (source_chain : Z) (token amount : string) (fields : settled_fields)
| Status_ok (xrpl_tx_hash : string) (fields : settled_fields).

Definition reply_code (r : reply) : Z :=
  match r with
  | Bad_request code _ _ => code
  | Unsupported_chain _ => 422
  | Xrpl_ok _ _ | Wormhole_ok _ _ _ _ _ | Status_ok _ _ => 200
  end.

Definition fields_of (r : SettlementResult) : settled_fields :=
  {| f_sol_tx_sig := solTxSig r; f_lamports := z_text (lamports r); f_status := res_status r;
     f_workflow_state := workflowState r; f_intent := intent r |}.

Section handlers.
Context {W : Type}.
Variable lib : bridge_lib.
Variable ops : bridge_ops W.
Variable cfg : bridge_config.
Variable zod_message : string.

Abbreviation world := (oracle * W)%type.

(** POST /bridge/xrpl *)
Definition post_bridge_xrpl (body : XrplSubmit) : io world reply :=
  match XrplSubmitBody body with
  | None => io_ret (Bad_request 400 zod_message None)
  | Some (h, s, d, pk, did, i) =>
    io_catch
      (do! n <- io_lift (BigInt d) in
       do! now <- read_now (bo_now ops) in
       let payment := {| txHash := h; sender := s; drops := n; solanaPubkey := pk; agentDid := did; ledgerIndex := i |} in
       do! r <- settle lib ops cfg payment (xrplSettlementContext payment now) in
       io_ret (Xrpl_ok (res_txHash r) (fields_of r)))
      (fun msg => io_ret (Bad_request 500 "settlement_failed" (Some msg)))
  end.

(** POST /bridge/wormhole; an exception outside the [try] is Fastify's 500. *)
Definition post_bridge_wormhole (body : WormholeSubmit) : io world reply :=
  match WormholeBody body with
  | None => io_ret (Bad_request 400 zod_message None)
  | Some (v, pk, did) =>
    match parseVaa (b_base64 lib v) with
    | Throw msg => io_ret (Bad_request 400 "invalid VAA" (Some msg))
    | Ok vaa =>
      do! now <- read_now (bo_now ops) in
      let check := verifyVaa now vaa in
      if negb (valid check) then io_ret (Bad_request 422 "VAA verification failed" (reason check))
      else match parseTransferPayload (payload vaa) with
      | Throw msg => io_ret (Bad_request 400 "invalid transfer payload" (Some msg))
      | Ok transfer =>
        let token := identifyToken (tokenAddress transfer) in
        do! d <- io_lift (vaaDigest (b_sha256 lib) vaa) in
        let digest := bytes_hex d in
        do! now <- read_now (bo_now ops) in
        match wormholeSettlementContext (sourceChain transfer) (amount transfer) did token digest now with
        | None => io_ret (Unsupported_chain (sourceChain transfer))
        | Some context =>
          do! _ <- convertXrpToLamports (bo_now ops) (bo_feeds ops) (amount transfer) in
          io_catch
            (do! r <- settle lib ops cfg
               {| txHash := digest; sender := "wormhole:chain" +:+ z_text (sourceChain transfer); drops := amount transfer;
                  solanaPubkey := pk; agentDid := did; ledgerIndex := 0 |} context in
             io_ret (Wormhole_ok digest (sourceChain transfer) (default "unknown" token) (z_text (amount transfer)) (fields_of r)))
            (fun msg => io_ret (Bad_request 500 "wormhole_settlement_failed" (Some msg)))
        end
      end
    end
  end.

(** GET /bridge/status/:txHash *)
Definition get_bridge_status (hash : string) : io world reply :=
  do! r <- getStatus ops hash in
  match r with
  | None => io_ret (Bad_request 404 "not_found" None)
  | Some r => io_ret (Status_ok (res_txHash r) (fields_of r))
  end.

(** The listener's [payment] callback (index.ts): errors are logged. *)
Definition on_payment (payment : ValidatedPayment) : io world unit :=
  io_catch
    (do! now <- read_now (bo_now ops) in
     do! _ <- settle lib ops cfg payment (xrplSettlementContext payment now) in
     io_ret tt)
    (fun _ => io_ret tt).
End handlers.
