(* ===== verification/XrplBridgeSafety.v ===== *)
(** * XrplBridgeSafety: what the XRPL bridge pays, and how often

    Theorems on XrplBridge.  The laws of the outside world ([bridge_laws]) are the
    documented behaviour of Redis' GET and SET with EX, seen through three ghost
    views: the records stored under each key with their expiry, the transactions
    handed to the RPC node, and the number of SETs that were rejected.  Any GET and
    any SET may be rejected, a rejected SET may have been carried out or not, and a
    send that is rejected may have reached the network. *)

From Stdlib Require Import ZArith Lia.
From stdpp Require Import base list strings.
From S2P Require Import Prelude Effects Bytes Json CrossChain Vaa XrplOracle XrplBridge.

Open Scope Z_scope.
Open Scope saep_scope.

Create HintDb calm.

(** ** The laws *)

Definition TTL_MS : Z := REDIS_TTL * 1000.

(** What GET sees at time [now] of an entry with its expiry. *)
Definition visible (now : Z) (entry : option (stored * Z)) : option stored :=
  match entry with
  | Some (v, e) => if now <? e then Some v else None
  | None => None
  end.

Section laws.
Context {W : Type}.
Variable ops : bridge_ops W.
Variable sent : W -> list string.
Variable store : W -> string -> option (stored * Z).
Variable rejected : W -> nat.

(** Nothing sent, nothing stored, no SET rejected, and time did not go back. *)
Definition quiet (w w' : W) : Prop :=
  sent w' = sent w /\ (forall k, store w' k = store w k) /\ bo_now ops w <= bo_now ops w' /\ rejected w' = rejected w.

(** The key holds the value for [ttl] seconds at least. *)
Definition holds (k : string) (v : stored) (ttl : Z) (w w' : W) : Prop :=
  exists e, store w' k = Some (v, e) /\ bo_now ops w + 1000 * ttl <= e.

Record bridge_laws : Prop := {
  law_get : forall k w, exists r w', bo_get ops k w = Some (r, w') /\ quiet w w' /\
    (r = Ok (visible (bo_now ops w) (store w k)) \/ exists e, r = Throw e);
  law_set : forall k v ttl w, exists r w', bo_set ops k v ttl w = Some (r, w') /\
    sent w' = sent w /\ bo_now ops w <= bo_now ops w' /\ (forall k', k' <> k -> store w' k' = store w k') /\
    match r with
    | Ok _ => holds k v ttl w w' /\ rejected w' = rejected w
    | Throw _ => (store w' k = store w k \/ holds k v ttl w w') /\ rejected w' = S (rejected w)
    end;
  law_send : forall wire w, exists r w', bo_send ops wire w = Some (r, w') /\
    (forall k, store w' k = store w k) /\ bo_now ops w <= bo_now ops w' /\ rejected w' = rejected w /\
    (sent w' = sent w ++ [wire] \/ sent w' = sent w /\ exists e, r = Throw e);
  law_feeds : forall id, io_total (bo_feeds ops id) /\ steps quiet (bo_feeds ops id);
  law_random : forall n, io_total (bo_randomBytes ops n) /\ steps quiet (bo_randomBytes ops n);
  law_blockhash : io_total (bo_latestBlockhash ops) /\ steps quiet (bo_latestBlockhash ops);
  law_confirm : forall s, io_total (bo_confirm ops s) /\ steps quiet (bo_confirm ops s);
}.

#[export] Instance quiet_refl : Reflexive quiet.
Proof. intros w. unfold quiet. repeat split. lia. Qed.

#[export] Instance quiet_trans : Transitive quiet.
Proof.
  intros a b c (H1 & H2 & H3 & H4) (G1 & G2 & G3 & G4). unfold quiet. split; [congruence|]. split; [intros k; by rewrite G2, H2|]. split; [lia|congruence].
Qed.
Definition wq (w w' : oracle * W) : Prop := quiet w.2 w'.2.

#[export] Instance wq_refl : Reflexive wq.
Proof. intros w. unfold wq. reflexivity. Qed.

#[export] Instance wq_trans : Transitive wq.
Proof. intros a b c. unfold wq. apply transitivity. Qed.

Lemma outside_quiet {A} (m : io W A) : steps quiet m -> steps wq (outside m).
Proof.
  intros Hm w r w'. unfold outside. destruct (m w.2) as [[r1 w1]|] eqn:E; [|done]. intros [= <- <-].
  by apply Hm in E.
Qed.

Lemma outside_total {A} (m : io W A) : io_total m -> io_total (outside m).
Proof. intros Hm w. unfold outside. destruct (Hm w.2) as [[r w'] ->]. by eexists. Qed.

Lemma quiet_now : steps wq (read_now (bo_now ops)).
Proof. intros w r w' [= <- <-]. reflexivity. Qed.

Lemma quiet_oracle : steps wq (@read_oracle W).
Proof. intros w r w' [= <- <-]. reflexivity. Qed.

Lemma quiet_write f : steps wq (@write_oracle W f).
Proof. intros w r w' [= <- <-]. unfold wq. cbn. reflexivity. Qed.
End laws.

Section safety.
Context {W : Type}.
Variable lib : bridge_lib.
Variable ops : bridge_ops W.
Variable cfg : bridge_config.
Variable sent : W -> list string.
Variable store : W -> string -> option (stored * Z).
Variable rejected : W -> nat.
Hypothesis laws : bridge_laws ops sent store rejected.

Abbreviation world := (oracle * W)%type.
#[local] Abbreviation wq := (wq ops sent store rejected).
#[local] Abbreviation entry h w := (store (w : world).2 (redis_key h)).
#[local] Abbreviation clock w := (bo_now ops (w : world).2).

(** ** Everything but Redis writes and sends is calm: it ends, and changes nothing *)

Definition calm {A} (m : io world A) : Prop := io_total m /\ steps wq m.

Lemma calm_bind {A B} (m : io world A) (k : A -> io world B) : calm m -> (forall a, calm (k a)) -> calm (io_bind m k).
Proof.
  intros [Tm Qm] Hk. split; [apply io_total_bind; [done|apply Hk]|]. apply steps_bind; [typeclasses eauto|done|apply Hk].
Qed.

Lemma calm_ret {A} (a : A) : calm (io_ret a).
Proof. split; [apply io_total_ret|apply steps_ret, _]. Qed.
Lemma calm_throw {A} e : calm (@io_throw world A e).
Proof. split; [apply io_total_throw|apply steps_throw, _]. Qed.
Lemma calm_lift {A} (r : result A) : calm (io_lift r).
Proof. split; [apply io_total_lift|apply steps_lift, _]. Qed.
Lemma calm_check b e : calm (io_check b e).
Proof. split; [apply io_total_check|apply steps_check, _]. Qed.
Lemma calm_now : calm (read_now (bo_now ops)).
Proof. split; [by eexists|apply quiet_now]. Qed.
Lemma calm_oracle : calm read_oracle.
Proof. split; [by eexists|apply quiet_oracle]. Qed.
Lemma calm_write f : calm (write_oracle f).
Proof. split; [by eexists|apply quiet_write]. Qed.
Lemma calm_outside {A} (m : io W A) : io_total m /\ steps (quiet ops sent store rejected) m -> calm (outside m).
Proof. intros [Ht Hq]. split; [by apply outside_total|by apply outside_quiet]. Qed.

#[local] Hint Resolve calm_bind calm_ret calm_throw calm_lift calm_check calm_now calm_oracle calm_write calm_outside : calm.
#[local] Hint Resolve law_feeds law_random law_blockhash law_confirm : calm.

Lemma calm_get k : calm (outside (bo_get ops k)).
Proof.
  apply calm_outside. split.
  - intros w. destruct (law_get _ _ _ _ laws k w) as (r & w' & -> & _). by eexists.
  - intros w r w' H. destruct (law_get _ _ _ _ laws k w) as (r1 & w1 & E & Hq & _). rewrite E in H. by injection H as <- <-.
Qed.

Lemma calm_fetch id : calm (fetchPrice (bo_now ops) (bo_feeds ops) id).
Proof.
  unfold fetchPrice. apply calm_bind; [auto with calm|intros o]. apply calm_bind; [auto with calm|intros _].
  apply calm_bind; [eauto with calm|intros [[|[c|] l]|]]; auto with calm.
Qed.
#[local] Hint Resolve calm_get calm_fetch : calm.

Lemma calm_price get set feed label : calm (get_price (bo_now ops) (bo_feeds ops) get set feed label).
Proof.
  unfold get_price. apply calm_bind; [auto with calm|intros o]. apply calm_bind; [auto with calm|intros n].
  apply calm_bind; [repeat case_match; auto with calm|auto with calm].
Qed.

Lemma calm_convert drops : calm (convertXrpToLamports (bo_now ops) (bo_feeds ops) drops).
Proof.
  unfold convertXrpToLamports. apply calm_bind; [|intros r; case_match; auto with calm].
  destruct (calm_price xrpUsd set_xrp XRP_USD_FEED "XRP/USD") as [Tx Qx].
  destruct (calm_price solUsd set_sol SOL_USD_FEED "SOL/USD") as [Ts Qs].
  unfold getXrpToSolRate, getXrpUsd, getSolUsd. split.
  - intros w. destruct (Tx w) as [[rx w1] ->]. destruct (Ts w1) as [[rs w2] ->]. by eexists.
  - intros w r w' H. destruct (get_price _ _ xrpUsd _ _ _ w) as [[rx w1]|] eqn:Ex; [|done].
    destruct (get_price _ _ solUsd _ _ _ w1) as [[rs w2]|] eqn:Es; [|done]. injection H as _ <-.
    etransitivity; [by eapply Qx|by eapply Qs].
Qed.
#[local] Hint Resolve calm_price calm_convert : calm.

Lemma calm_check_idempotency h : calm (checkIdempotency ops h).
Proof. unfold checkIdempotency. apply calm_bind; [auto with calm|intros [d|]; auto with calm]. Qed.

Lemma calm_build gateway p l : calm (buildSettlementTx lib ops gateway p l).
Proof.
  unfold buildSettlementTx, push_ix. cbv zeta. repeat (apply calm_bind; [eauto 6 with calm|intros]). auto with calm.
Qed.
#[local] Hint Resolve calm_check_idempotency calm_build : calm.

(** What an idempotency check answers. *)
Lemma check_answers h (w : world) : exists r w', checkIdempotency ops h w = Some (r, w') /\ wq w w' /\
  match r with
  | Ok None => visible (clock w) (entry h w) = None
  | Ok (Some x) => exists v, visible (clock w) (entry h w) = Some v /\ res_txHash x = h /\ solTxSig x = st_solTxSig v /\
      BigInt (st_lamports v) = Ok (lamports x) /\ res_status x = st_status v /\
      intent x = st_intent v /\ workflowState x = st_workflowState v
  | Throw _ => True
  end.
Proof.
  destruct (calm_check_idempotency h) as [Ht Hq]. destruct (Ht w) as [[r w'] H]. exists r, w'.
  split; [done|]. split; [by apply Hq in H|]. revert H. unfold checkIdempotency, io_bind, outside.
  destruct (law_get _ _ _ _ laws (redis_key h) w.2) as (r1 & w1 & -> & _ & [->|[e ->]]); [|by intros [= <- <-]].
  destruct (visible _ _) as [v|] eqn:Ev; [|by intros [= <- <-]]. unfold io_lift.
  destruct (BigInt (st_lamports v)) as [l|] eqn:El; [|by intros [= <- <-]].
  intros [= <- <-]. exists v. by rewrite El.
Qed.
(** ** One settlement *)

Lemma calm_run {A} (m : io world A) (w : world) : calm m -> exists r w', m w = Some (r, w') /\ wq w w'.
Proof. intros [Ht Hq]. destruct (Ht w) as [[r w'] H]. exists r, w'. split; [done|]. by apply Hq in H. Qed.

(** From [w] to [w'] the transactions [l] were sent and only [h]'s record was touched. *)
Definition paid (h : string) (l : list string) (w w' : world) : Prop :=
  sent w'.2 = sent w.2 ++ l /\ clock w <= clock w' /\ (forall k, k <> redis_key h -> store w'.2 k = store w.2 k) /\
  (rejected w.2 <= rejected w'.2)%nat.

(** [h] has a record with this status that lasts the whole time to live. *)
Definition recorded (h : string) (st : SettlementStatus) (w w' : world) : Prop :=
  exists v e, entry h w' = Some (v, e) /\ clock w + TTL_MS <= e /\ st_status v = st /\ is_ok (BigInt (st_lamports v)) = true.

Lemma paid_trans h l1 l2 a b c : paid h l1 a b -> paid h l2 b c -> paid h (l1 ++ l2) a c.
Proof.
  intros (S1 & C1 & K1 & N1) (S2 & C2 & K2 & N2). split; [by rewrite S2, S1, app_assoc|]. split; [lia|].
  split; [|lia]. intros k Hk. by rewrite K2, K1.
Qed.

Lemma paid_quiet h (a b : world) : wq a b -> paid h [] a b.
Proof. intros (S1 & K1 & C1 & N1). split; [by rewrite app_nil_r|]. split; [done|]. split; [|lia]. intros k _. apply K1. Qed.

Lemma recorded_earlier h st (a b c : world) : clock a <= clock b -> recorded h st b c -> recorded h st a c.
Proof. intros Hc (v & e & H & He & Hs & Hl). exists v, e. split; [done|]. split; [lia|done]. Qed.

Lemma bigint_text z : BigInt (z_text z) = Ok z.
Proof.
  unfold BigInt, z_text. rewrite DecimalString.NilZero.isi.
  - by rewrite DecimalZ.of_to.
  - destruct z as [|p|p]; cbn; try done. intros [= E]. by apply (DecimalPos.Unsigned.to_uint_nonnil p).
  - destruct z as [|p|p]; cbn; try done. intros [= E]. by apply (DecimalPos.Unsigned.to_uint_nonnil p).
Qed.

Lemma record_run h r (w : world) : exists x w', recordSettlement ops h r w = Some (x, w') /\ paid h [] w w' /\
  match x with
  | Ok _ => recorded h (res_status r) w w'
  | Throw _ => rejected w'.2 = S (rejected w.2)
  end.
Proof.
  unfold recordSettlement, outside.
  edestruct (law_set _ _ _ _ laws (redis_key h)) as (x & w1 & E & Hs & Hc & Hk & Hx). rewrite E.
  exists x. eexists. split; [done|]. split.
  - split; [by rewrite app_nil_r|]. split; [done|]. split; [done|]. destruct x; destruct Hx as [_ N]; cbn; lia.
  - destruct x as [u|e]; [|apply Hx]. destruct Hx as [(e & He & Ht) _]. do 2 eexists. split; [exact He|].
    cbn [st_status st_lamports]. rewrite bigint_text. unfold TTL_MS. split; [cbn [snd] in *; lia|done].
Qed.

Lemma pay_run gateway p l env (w : world) : exists r w' wires, pay lib ops gateway p l env w = Some (r, w') /\
  paid (txHash p) wires w w' /\ (length wires <= 1)%nat /\
  match r with
  | Ok x => length wires = 1%nat /\ recorded (txHash p) st_settled w w'
  | Throw _ => True
  end.
Proof.
  unfold pay.
  destruct (calm_run _ w (calm_build gateway p l)) as ([t|e] & w1 & E1 & Q1).
  2: { unfold io_bind at 1. rewrite E1. exists (Throw e), w1, []. eauto 10 using paid_quiet. }
  rewrite (bind_ok_run _ _ _ _ _ E1). apply (paid_quiet (txHash p)) in Q1.
  destruct (b_serialize lib t [gateway]) as [wire|e] eqn:Es.
  2: { exists (Throw e), w1, []. cbn. eauto 10. }
  cbn [io_lift]. unfold io_bind at 1. cbn [io_lift].
  destruct (law_send _ _ _ _ laws wire w1.2) as (r & w2 & E2 & K2 & C2 & N2 & Hsent).
  unfold io_bind at 1. unfold outside at 1. rewrite E2.
  assert (exists wires, paid (txHash p) wires w1 (w1.1, w2) /\ (length wires <= 1)%nat /\ (is_ok r = true -> length wires = 1%nat))
    as (wires & P2 & L2 & O2).
  { destruct Hsent as [Hs|[Hs [e ->]]].
    - exists [wire]. split; [split; [done|]; split; [done|]; split; [by intros k _|cbn in *; lia]|]. done.
    - exists []. split; [split; [by rewrite app_nil_r|]; split; [done|]; split; [by intros k _|cbn in *; lia]|]. split; [cbn; lia|done]. }
  pose proof (paid_trans _ _ _ _ _ _ Q1 P2) as P. cbn [app] in P.
  destruct r as [sig|e]; [|by exists (Throw e), (w1.1, w2), wires].
  destruct (calm_run (outside (bo_confirm ops sig)) (w1.1, w2)) as (r3 & w3 & E3 & Q3); [eauto with calm|].
  apply (paid_quiet (txHash p)) in Q3. pose proof (paid_trans _ _ _ _ _ _ P Q3) as P3. rewrite app_nil_r in P3.
  destruct r3 as [u|e]; [|unfold io_bind at 1; rewrite E3; by exists (Throw e), w3, wires].
  rewrite (bind_ok_run _ _ _ _ _ E3). unfold io_bind at 1, read_now at 1. cbv zeta.
  match goal with |- context [recordSettlement ops _ ?r] => destruct (record_run (txHash p) r w3) as (x & w4 & E4 & P4 & R4) end.
  pose proof (paid_trans _ _ _ _ _ _ P3 P4) as P5. rewrite app_nil_r in P5.
  destruct x as [y|e]; [|unfold io_bind at 1; rewrite E4; by exists (Throw e), w4, wires].
  rewrite (bind_ok_run _ _ _ _ _ E4). do 2 eexists. exists wires. split; [done|]. split; [done|]. split; [done|]. split; [by apply O2|]. eapply recorded_earlier; [|exact R4]. apply P3.
Qed.

Lemma pay_or_record_run gateway p l env (w : world) : exists r w' wires,
  pay_or_record lib ops gateway p l env w = Some (r, w') /\ paid (txHash p) wires w w' /\ (length wires <= 1)%nat /\
  match r with
  | Ok x => length wires = 1%nat /\ recorded (txHash p) st_settled w w'
  | Throw _ => recorded (txHash p) st_failed w w' \/ (rejected w.2 < rejected w'.2)%nat
  end.
Proof.
  unfold pay_or_record, io_catch. destruct (pay_run gateway p l env w) as (r & w1 & wires & -> & P1 & L1 & H1).
  destruct r as [x|e]; [by exists (Ok x), w1, wires|].
  unfold io_bind at 1, read_now at 1.
  match goal with |- context [recordSettlement ops _ ?r] => destruct (record_run (txHash p) r w1) as (x & w2 & E2 & P2 & R2) end.
  pose proof (paid_trans _ _ _ _ _ _ P1 P2) as P. rewrite app_nil_r in P. destruct P1 as (_ & C1 & _ & N1).
  destruct x as [y|e'].
  - rewrite (bind_ok_run _ _ _ _ _ E2). exists (Throw e), w2, wires. split; [done|]. split; [done|]. split; [done|].
    left. by eapply recorded_earlier; [|exact R2].
  - unfold io_bind at 1. rewrite E2. exists (Throw e'), w2, wires. split; [done|]. split; [done|]. split; [done|]. right. lia.
Qed.
Lemma settle_after_run p c (w : world) : exists r w' wires,
  settle_after lib ops cfg p c None w = Some (r, w') /\ paid (txHash p) wires w w' /\ (length wires <= 1)%nat /\
  (wires <> [] -> (exists st, recorded (txHash p) st w w') \/ (rejected w.2 < rejected w'.2)%nat) /\
  (cluster cfg = devnet -> is_ok r = true -> length wires = 1%nat).
Proof.
  unfold settle_after. cbv zeta.
  destruct (calm_run _ w (calm_convert (drops p))) as ([l|e] & w1 & E1 & Q1).
  2: { unfold io_bind at 1. rewrite E1. exists (Throw e), w1, []. split; [done|]. split; [by apply paid_quiet|]. split; [cbn; lia|]. by split. }
  rewrite (bind_ok_run _ _ _ _ _ E1). apply (paid_quiet (txHash p)) in Q1.
  destruct (cluster cfg) eqn:Ec.
  - exists (Throw "mainnet settlement requires Jito bundle path"), w1, []. split; [done|]. split; [done|]. split; [cbn; lia|]. by split.
  - unfold io_bind at 1, io_lift at 1. destruct (b_Connection lib (solanaRpcUrl cfg)) as [u|e].
    2: { exists (Throw e), w1, []. split; [done|]. split; [done|]. split; [cbn; lia|]. by split. }
    unfold io_bind at 1, io_lift at 1. destruct (b_loadKeypair lib (gatewayKeypair cfg)) as [g|e].
    2: { exists (Throw e), w1, []. split; [done|]. split; [done|]. split; [cbn; lia|]. by split. }
    destruct (pay_or_record_run g p l (buildIntentEnvelope (txHash p) c) w1) as (r & w2 & wires & -> & P2 & L2 & H2).
    exists r, w2, wires. split; [done|]. split; [exact (paid_trans _ _ _ _ _ _ Q1 P2)|]. split; [done|]. split.
    + intros _. destruct Q1 as (_ & C1 & _ & N1).
      destruct r as [x|e]; [destruct H2 as [_ H2]|destruct H2 as [H2|H2]; [|right; lia]]; left; eexists;
        by eapply recorded_earlier; [|exact H2].
    + intros _. destruct r; [by destruct H2|done].
  - unfold simulateSettlement. unfold io_bind at 1. unfold io_bind at 1, read_now at 1. cbn [io_ret].
    unfold io_ret at 1. unfold io_bind at 1, read_now at 1. cbv zeta.
    match goal with |- context [recordSettlement ops _ ?r] => destruct (record_run (txHash p) r w1) as (x & w2 & E2 & P2 & R2) end.
    pose proof (paid_trans _ _ _ _ _ _ Q1 P2) as P.
    destruct x as [y|e]; [rewrite (bind_ok_run _ _ _ _ _ E2)|unfold io_bind at 1; rewrite E2];
      (do 2 eexists; exists []; split; [done|]; split; [exact P|]; split; [cbn; lia|by split]).
Qed.

Lemma settle_run p c (w : world) : exists r w' wires,
  settle lib ops cfg p c w = Some (r, w') /\ paid (txHash p) wires w w' /\ (length wires <= 1)%nat /\
  (wires <> [] -> (exists st, recorded (txHash p) st w w') \/ (rejected w.2 < rejected w'.2)%nat) /\
  (visible (clock w) (entry (txHash p) w) <> None -> wires = [] /\ entry (txHash p) w' = entry (txHash p) w).
Proof.
  unfold settle. destruct (check_answers (txHash p) w) as (r & w1 & E1 & Q1 & H1).
  pose proof (paid_quiet (txHash p) _ _ Q1) as P1. destruct Q1 as (_ & K1 & _). destruct r as [[x|]|e].
  - rewrite (bind_ok_run _ _ _ _ _ E1). exists (Ok x), w1, [].
    split; [done|]. split; [done|]. split; [cbn; lia|]. split; [done|]. intros _. by rewrite K1.
  - rewrite (bind_ok_run _ _ _ _ _ E1).
    destruct (settle_after_run p c w1) as (r & w2 & wires & -> & P2 & L2 & R2 & _).
    exists r, w2, wires. split; [done|]. split; [exact (paid_trans _ _ _ _ _ _ P1 P2)|]. split; [done|]. split; [|done].
    intros Hne. destruct P1 as (_ & C1 & _ & N1). destruct (R2 Hne) as [[st R]|R]; [left; exists st|right; lia].
    by eapply recorded_earlier; [|exact R].
  - unfold io_bind. rewrite E1. exists (Throw e), w1, [].
    split; [done|]. split; [done|]. split; [cbn; lia|]. split; [done|]. intros _. by rewrite K1.
Qed.

(** Settlements one after the other, whatever each of them ends with. *)
Fixpoint settle_each (calls : list (ValidatedPayment * SettlementContext)) (w : world) : option world :=
  match calls with
  | [] => Some w
  | (p, c) :: rest =>
    match settle lib ops cfg p c w with
    | Some (_, w1) => settle_each rest w1
    | None => None
    end
  end.

(** [h] has a record that lasts until [deadline] at least. *)
Definition kept (h : string) (deadline : Z) (w : world) : Prop := exists v e, entry h w = Some (v, e) /\ deadline <= e.

Lemma settle_each_runs calls h (w : world) : Forall (fun pc => txHash pc.1 = h) calls ->
  exists w' wires, settle_each calls w = Some w' /\ sent w'.2 = sent w.2 ++ wires /\ clock w <= clock w' /\
    (forall deadline, kept h deadline w -> clock w' < deadline -> wires = []) /\
    (rejected w.2 <= rejected w'.2)%nat /\
    (clock w' < clock w + TTL_MS -> (length wires <= 1 + (rejected w'.2 - rejected w.2))%nat).
Proof.
  intros Hc. revert w. induction Hc as [|[p c] rest <- _ IH]; intros w.
  - exists w, []. rewrite app_nil_r. cbn. repeat split; try lia.
  - cbn [settle_each fst]. destruct (settle_run p c w) as (r & w1 & wires & -> & (S1 & C1 & K1 & N1) & L1 & R1 & V1).
    destruct (IH w1) as (w' & wires' & -> & S2 & C2 & D2 & N2 & L2). exists w', (wires ++ wires').
    split; [done|]. split; [by rewrite S2, S1, app_assoc|]. split; [lia|].
    assert (forall deadline, kept (txHash p) deadline w -> clock w' < deadline -> wires = [] /\ kept (txHash p) deadline w1) as Hno.
    { intros deadline (v & e & He & Hd) Hlt. destruct V1 as [-> Hv].
      - rewrite He. cbn [visible]. rewrite (proj2 (Z.ltb_lt _ _)) by lia. done.
      - split; [done|]. exists v, e. by rewrite Hv. }
    split.
    + intros deadline Hk Hlt. destruct (Hno _ Hk Hlt) as [-> Hk1]. by apply (D2 deadline).
    + split; [lia|]. intros Hlt. specialize (L2 ltac:(lia)). rewrite length_app. destruct wires as [|x l]; [cbn; lia|].
      destruct R1 as [(st & v & e & He & Hd & _)|R1]; [done| |lia].
      rewrite (D2 (clock w + TTL_MS)); [cbn in *; lia|by exists v, e|done].
Qed.

(** C8: at most one payment per record that was stored: whatever sequence of
    settlements of one XRPL transaction or VAA digest runs one after the other, and
    however each of them fails or succeeds, all of them end, and together they hand
    at most one transaction to the RPC node for the first, plus one for each SET of
    the idempotency record that Redis rejected, as long as they all run within the
    seven days the record lives.  With no rejected SET there is one payment at most;
    with rejected ones [lost_record_pays_again] shows that the bound is reached. *)
Theorem sequential_settlements_pay_once (h : string) (calls : list (ValidatedPayment * SettlementContext)) (w : oracle * W)
  (Hc : Forall (fun pc => txHash pc.1 = h) calls) :
  exists w' wires, settle_each calls w = Some w' /\ sent w'.2 = sent w.2 ++ wires /\
    (bo_now ops w'.2 < bo_now ops w.2 + TTL_MS -> (length wires <= 1 + (rejected w'.2 - rejected w.2))%nat).
Proof.
  destruct (settle_each_runs calls h w Hc) as (w' & wires & E & S & _ & _ & _ & L). by exists w', wires.
Qed.

(** Two settlements whose idempotency checks both ran before either paid. *)
Definition interleaved (p : ValidatedPayment) (c1 c2 : SettlementContext) : io world (SettlementResult * SettlementResult) :=
  do! e1 <- checkIdempotency ops (txHash p) in
  do! e2 <- checkIdempotency ops (txHash p) in
  do! r1 <- settle_after lib ops cfg p c1 e1 in
  do! r2 <- settle_after lib ops cfg p c2 e2 in
  io_ret (r1, r2).

Lemma visible_later t t' entry : t <= t' -> visible t entry = None -> visible t' entry = None.
Proof. destruct entry as [[v e]|]; [|done]. cbn. intros Ht. repeat case_match; try done. lia. Qed.

(** The idempotency record does not protect against concurrent settlements: the
    check and the payment are separate calls, so two settlements of one payment
    whose checks both come before the first payment both pay, and both report a
    success. *)
Theorem concurrent_settlements_both_pay (p : ValidatedPayment) (c1 c2 : SettlementContext) (w w' : oracle * W)
  (r : SettlementResult * SettlementResult) (Hd : cluster cfg = devnet)
  (Hnew : visible (bo_now ops w.2) (store w.2 (redis_key (txHash p))) = None)
  (Hrun : interleaved p c1 c2 w = Some (Ok r, w')) :
  exists wire1 wire2, sent w'.2 = sent w.2 ++ [wire1; wire2].
Proof.
  unfold interleaved in Hrun.
  apply io_bind_ok in Hrun as (e1 & w1 & E1 & Hrun). apply io_bind_ok in Hrun as (e2 & w2 & E2 & Hrun).
  destruct (check_answers (txHash p) w) as (x1 & v1 & G1 & (S1 & K1 & C1 & _) & H1). rewrite E1 in G1. injection G1 as <- <-.
  destruct (check_answers (txHash p) w1) as (x2 & v2 & G2 & (S2 & K2 & C2 & _) & H2). rewrite E2 in G2. injection G2 as <- <-.
  assert (e1 = None) as -> by (destruct e1; [|done]; destruct H1 as (v & Hv & _); congruence).
  assert (e2 = None) as ->.
  { destruct e2 as [x|]; [|done]. destruct H2 as (v & Hv & _). rewrite K1 in Hv. by rewrite (visible_later _ _ _ C1 Hnew) in Hv. }
  apply io_bind_ok in Hrun as (r1 & w3 & E3 & Hrun). apply io_bind_ok in Hrun as (r2 & w4 & E4 & Hrun).
  apply io_ret_ok in Hrun as [_ <-].
  destruct (settle_after_run p c1 w2) as (y1 & v3 & l1 & G3 & (S3 & _) & _ & _ & L3).
  rewrite E3 in G3. injection G3 as <- <-. specialize (L3 Hd eq_refl).
  destruct (settle_after_run p c2 w3) as (y2 & v4 & l2 & G4 & (S4 & _) & _ & _ & L4).
  rewrite E4 in G4. injection G4 as <- <-. specialize (L4 Hd eq_refl).
  destruct l1 as [|a [|]]; try done. destruct l2 as [|b [|]]; try done. exists a, b.
  by rewrite S4, S3, S2, S1, <- app_assoc.
Qed.

(** ** The settlement transaction needs a signature the bridge does not have *)

(** web3.js refuses to serialize a transaction that lacks a required signature. *)
Hypothesis serialize_signed : forall t keys wire, b_serialize lib t keys = Ok wire -> Forall (fun ix => ix_signer ix ∈ keys) (ixs t).

Lemma push_ix_ok ix (w : world) ix' w' : push_ix lib ix w = Some (Ok ix', w') -> ix' = ix.
Proof. unfold push_ix. intros H. apply io_bind_ok in H as (u & w1 & _ & H). by apply io_ret_ok in H as [<- _]. Qed.

Lemma build_submits gateway p l recipient (w : world) t w' : b_PublicKey lib (solanaPubkey p) = Ok recipient ->
  buildSettlementTx lib ops gateway p l w = Some (Ok t, w') ->
  exists ix, ix ∈ ixs t /\ ix_signer ix = recipient.
Proof.
  intros Hr H. unfold buildSettlementTx in H. cbv zeta in H.
  apply io_bind_ok in H as (n & w1 & _ & H). apply io_bind_ok in H as (r & w2 & E & H).
  apply io_lift_ok in E as [E ->]. rewrite Hr in E. injection E as ->.
  do 5 (apply io_bind_ok in H as (? & ? & ?E & H)). apply io_bind_ok in H as (bh & w3 & _ & H).
  apply io_ret_ok in H as [<- _].
  repeat match goal with E : push_ix _ _ _ = Some _ |- _ => apply push_ix_ok in E; subst end.
  cbn [ixs]. eexists. split; [do 2 right; left|]. done.
Qed.

Lemma pay_unsigned gateway recipient p l env (w : world) r w' :
  b_PublicKey lib (solanaPubkey p) = Ok recipient -> recipient <> gateway ->
  pay lib ops gateway p l env w = Some (r, w') -> sent w'.2 = sent w.2 /\ is_ok r = false.
Proof.
  intros Hr Hne H. unfold pay in H.
  destruct (calm_run _ w (calm_build gateway p l)) as ([t|e] & w1 & E1 & (S1 & _)).
  - rewrite (bind_ok_run _ _ _ _ _ E1) in H. unfold io_bind at 1 in H. unfold io_lift in H.
    destruct (b_serialize lib t [gateway]) as [wire|e] eqn:Es; [|by injection H as <- <-].
    apply serialize_signed in Es. destruct (build_submits _ _ _ _ _ _ _ Hr E1) as (ix & Hin & Hs).
    rewrite Forall_forall in Es. apply Es in Hin. rewrite Hs in Hin. apply list_elem_of_singleton in Hin. done.
  - unfold io_bind at 1 in H. rewrite E1 in H. by injection H as <- <-.
Qed.

(** On devnet no settlement is ever paid: the transaction contains a result
    submission that the agent's operator must sign, and the bridge signs with its
    own key alone.  Unless the payment's recipient is the gateway itself, a new
    settlement sends nothing and ends with an error. *)
Theorem devnet_settlement_never_sent (p : ValidatedPayment) (c : SettlementContext) (w : oracle * W) (gateway recipient : list Z)
  (Hd : cluster cfg = devnet) (Hg : b_loadKeypair lib (gatewayKeypair cfg) = Ok gateway)
  (Hr : b_PublicKey lib (solanaPubkey p) = Ok recipient) (Hne : recipient <> gateway)
  (Hnew : visible (bo_now ops w.2) (store w.2 (redis_key (txHash p))) = None) :
  exists e w', settle lib ops cfg p c w = Some (Throw e, w') /\ sent w'.2 = sent w.2.
Proof.
  unfold settle. destruct (check_answers (txHash p) w) as (x & w1 & E1 & (S1 & K1 & C1 & _) & H1).
  destruct x as [[x|]|e]; [destruct H1 as (v & Hv & _); congruence| |].
  2: { unfold io_bind. rewrite E1. by exists e, w1. }
  rewrite (bind_ok_run _ _ _ _ _ E1). unfold settle_after. cbv zeta.
  destruct (calm_run _ w1 (calm_convert (drops p))) as ([l|e] & w2 & E2 & (S2 & _)).
  2: { unfold io_bind at 1. rewrite E2. exists e, w2. split; [done|congruence]. }
  rewrite (bind_ok_run _ _ _ _ _ E2), Hd. unfold io_bind at 1, io_lift at 1.
  destruct (b_Connection lib (solanaRpcUrl cfg)) as [u|e]; [|exists e, w2; split; [done|congruence]].
  unfold io_bind at 1, io_lift at 1. rewrite Hg.
  set (env := buildIntentEnvelope (txHash p) c).
  destruct (pay_run gateway p l env w2) as (r & w3 & _ & E3 & _).
  destruct (pay_unsigned _ _ _ _ _ _ _ _ Hr Hne E3) as [S3 Hf]. destruct r as [x|e]; [done|].
  unfold pay_or_record, io_catch. rewrite E3. unfold io_bind at 1, read_now at 1.
  match goal with |- context [recordSettlement ops _ ?r] => destruct (record_run (txHash p) r w3) as (x & w4 & E4 & (S4 & _) & _) end.
  rewrite app_nil_r in S4.
  destruct x as [y|e']; [rewrite (bind_ok_run _ _ _ _ _ E4); exists e, w4|unfold io_bind at 1; rewrite E4; exists e', w4];
    (split; [done|congruence]).
Qed.

(** ** The handlers *)

Lemma digits_parse s : digits_only s = true -> exists d, DecimalString.NilEmpty.uint_of_string s = Some d.
Proof.
  induction s as [|c s IH]; [by eexists|]. cbn [digits_only]. intros [Hc [d Hd]%IH]%andb_true_iff. cbn. rewrite Hd.
  destruct c as [[] [] [] [] [] [] [] []]; cbn in Hc; try discriminate Hc; by eexists.
Qed.

Lemma integer_string_parses s : integer_string s = true -> is_ok (BigInt s) = true.
Proof.
  unfold integer_string. intros [Hs Hd]%andb_true_iff. destruct s as [|c s]; [done|].
  destruct (digits_parse _ Hd) as [d E]. unfold BigInt, DecimalString.NilZero.int_of_string, DecimalString.NilZero.uint_of_string.
  rewrite E. cbn [digits_only] in Hd. apply andb_true_iff in Hd as [Hc _].
  destruct c as [[] [] [] [] [] [] [] []]; cbn in Hc; try discriminate Hc; reflexivity.
Qed.

Lemma submit_body_drops b h s d pk did i : XrplSubmitBody b = Some (h, s, d, pk, did, i) -> is_ok (BigInt d) = true.
Proof.
  unfold XrplSubmitBody. intros H. repeat (case_match; try done).
  apply (f_equal (fun o => match o with Some x => x.1.1.1.2 | None => d end)) in H. cbn in H. subst d.
  apply integer_string_parses. by repeat match goal with E : _ && _ = true |- _ => apply andb_true_iff in E as [E ?] end.
Qed.

(** A failed settlement is final and reported as a success: once a settlement has
    been recorded as failed, every POST /bridge/xrpl for that transaction within
    the next seven days sends nothing and answers 200 with [ok: true] and the
    status "failed"; nothing retries the payment. *)
Theorem failed_settlement_reported_ok (zod : string) (body : XrplSubmit) (h s d pk did : string) (i : Z) (w0 w : oracle * W)
  (Hb : XrplSubmitBody body = Some (h, s, d, pk, did, i))
  (Hrec : recorded h st_failed w0 w) (Ht : bo_now ops w.2 < bo_now ops w0.2 + TTL_MS)
  (Hget : forall w, exists v w', bo_get ops (redis_key h) w = Some (Ok v, w')) :
  exists f w', post_bridge_xrpl lib ops cfg zod body w = Some (Ok (Xrpl_ok h f), w') /\
    reply_code (Xrpl_ok h f) = 200 /\ f_status f = st_failed /\ sent w'.2 = sent w.2.
Proof.
  unfold post_bridge_xrpl. rewrite Hb. unfold io_catch.
  pose proof (submit_body_drops _ _ _ _ _ _ _ Hb) as Hd. unfold io_bind at 1, io_lift at 1.
  destruct (BigInt d) as [n|]; [|done]. unfold io_bind at 1, read_now at 1. cbv zeta.
  unfold settle. cbn [txHash].
  destruct (check_answers h w) as (x & w1 & E & (S1 & _) & H1). destruct Hrec as (v & e & He & Hle & Hst & Hl).
  assert (visible (clock w) (entry h w) = Some v) as Hv.
  { rewrite He. cbn [visible]. by rewrite (proj2 (Z.ltb_lt _ _)) by lia. }
  assert (exists y, x = Ok (Some y)) as [y ->].
  { revert E. unfold checkIdempotency, io_bind, outside.
    destruct (law_get _ _ _ _ laws (redis_key h) w.2) as (r & w2 & G & _ & Hr). destruct (Hget w.2) as (u & w3 & G').
    rewrite G in G'. injection G' as -> _. destruct Hr as [[= ->]|[? ?]]; [|done]. rewrite G, Hv. unfold io_lift.
    destruct (BigInt (st_lamports v)); [|done]. intros [= <- _]. by eexists. }
  destruct H1 as (v' & Hv' & Hh & _ & _ & Hst' & _). rewrite Hv in Hv'. injection Hv' as <-.
  unfold io_bind at 1. rewrite (bind_ok_run _ _ _ _ _ E). cbn [settle_after]. unfold io_ret at 1.
  exists (fields_of y), w1. rewrite Hh. split; [done|]. split; [done|]. split; [cbn; congruence|done].
Qed.

(** The amount of a Wormhole transfer is taken as drops of XRP, whatever the token:
    a transfer that is settled for the first time is paid the lamports that as many
    drops of XRP are worth, be it WETH, USDC or an unknown token of an unknown
    number of decimals. *)
Theorem wormhole_amount_priced_as_xrp (zod : string) (body : WormholeSubmit) (w w' : oracle * W)
  (digest token amount_text : string) (chain : Z) (f : settled_fields)
  (Hnew : forall t, visible t (store w.2 (redis_key digest)) = None)
  (H : post_bridge_wormhole lib ops cfg zod body w = Some (Ok (Wormhole_ok digest chain token amount_text f), w')) :
  exists amount w1 w2 l, amount_text = z_text amount /\
    convertXrpToLamports (bo_now ops) (bo_feeds ops) amount w1 = Some (Ok l, w2) /\ f_lamports f = z_text l.
Proof.
  unfold post_bridge_wormhole in H. destruct (WormholeBody body) as [[[v pk] did]|]; [|done].
  destruct (parseVaa _) as [vaa|]; [|done]. unfold io_bind at 1, read_now at 1 in H. cbv zeta in H.
  destruct (valid _); [|done]. cbn [negb] in H. destruct (parseTransferPayload _) as [t|]; [|done].
  apply io_bind_ok in H as (d & w1 & Hd & H). apply io_lift_ok in Hd as [_ ->].
  unfold io_bind at 1, read_now at 1 in H. destruct (wormholeSettlementContext _ _ _ _ _ _) as [c|]; [|done].
  apply io_bind_ok in H as (l0 & w2 & Hconv & H). destruct (calm_convert (amount t)) as [_ Qc]. apply Qc in Hconv as (_ & K2 & _).
  unfold io_catch in H. destruct (io_bind _ _ w2) as [[[x|e] w3]|] eqn:E; [|done|done]. injection H as -> <-.
  apply io_bind_ok in E as (r & w4 & E & Hr). apply io_ret_ok in Hr as [Hr <-].
  injection Hr as <- <- <- <- <-. exists (amount t). unfold settle in E. cbn [txHash] in E.
  destruct (check_answers (bytes_hex d) w2) as (x & w5 & E5 & _ & H5).
  apply io_bind_ok in E as (y & w6 & E6 & E). rewrite E6 in E5. injection E5 as <- <-.
  destruct y as [y|]; [destruct H5 as (v' & Hv & _); rewrite K2, Hnew in Hv; done|].
  unfold settle_after in E. cbv zeta in E. cbn [drops] in E.
  apply io_bind_ok in E as (l & w7 & E7 & E). exists w6, w7, l. split; [done|]. split; [done|].
  cbn [fields_of f_lamports]. f_equal. destruct (cluster cfg); [done| |].
  - apply io_bind_ok in E as (u & w8 & _ & E). apply io_bind_ok in E as (g & w9 & _ & E).
    unfold pay_or_record, io_catch in E. destruct (pay _ _ _ _ _ _ w9) as [[[r'|e'] w10]|] eqn:Ep; [| |done].
    + injection E as <- <-. unfold pay in Ep.
      do 5 (apply io_bind_ok in Ep as (? & ? & _ & Ep)). cbv zeta in Ep.
      apply io_bind_ok in Ep as (? & ? & _ & Ep). apply io_ret_ok in Ep as [<- _]. done.
    + apply io_bind_ok in E as (? & ? & _ & E). apply io_bind_ok in E as (? & ? & _ & E). done.
  - apply io_bind_ok in E as (r0 & w8 & E8 & E). unfold simulateSettlement in E8.
    apply io_bind_ok in E8 as (? & ? & _ & E8). apply io_ret_ok in E8 as [<- _].
    apply io_bind_ok in E as (? & ? & _ & E). cbv zeta in E. apply io_bind_ok in E as (? & ? & _ & E).
    apply io_ret_ok in E as [<- _]. done.
Qed.
End safety.

(** ** A small outside world *)

Record toy_world := {
  tw_now : Z;
  tw_sent : list string;
  tw_store : string -> option (stored * Z);
  tw_redis_writes : bool;                           (* false: every SET is rejected *)
  tw_rejected : nat;
}.

Definition toy_ops : bridge_ops toy_world := {|
  bo_now := tw_now;
  bo_feeds := fun id w => Some (Ok (Some [Some {| py_price := if String.eqb id XRP_USD_FEED then 250 else 12500; py_conf := 1;
                                                  py_expo := -2; py_publishTime := tw_now w / 1000 |}]), w);
  bo_get := fun k w => Some (Ok (visible (tw_now w) (tw_store w k)), w);
  bo_set := fun k v ttl w =>
    if tw_redis_writes w
    then Some (Ok tt, {| tw_now := tw_now w; tw_sent := tw_sent w; tw_redis_writes := true; tw_rejected := tw_rejected w;
           tw_store := fun k' => if String.eqb k' k then Some (v, tw_now w + 1000 * ttl) else tw_store w k' |})
    else Some (Throw "READONLY You can't write against a read only replica.",
           {| tw_now := tw_now w; tw_sent := tw_sent w; tw_redis_writes := false; tw_rejected := S (tw_rejected w);
              tw_store := tw_store w |});
  bo_randomBytes := fun n w => Some (Ok (repeat 7 n), w);
  bo_latestBlockhash := fun w => Some (Ok "blockhash", w);
  bo_send := fun wire w => Some (Ok "signature", {| tw_now := tw_now w + 400; tw_sent := app (tw_sent w) [wire];
    tw_store := tw_store w; tw_redis_writes := tw_redis_writes w; tw_rejected := tw_rejected w |});
  bo_confirm := fun s w => Some (Ok tt, w);
|}%string.

Lemma toy_laws : bridge_laws toy_ops tw_sent tw_store tw_rejected.
Proof.
  assert (forall w, quiet toy_ops tw_sent tw_store tw_rejected w w) as Hq by (intros w; reflexivity).
  split; cbn [toy_ops bo_now bo_get bo_set bo_send bo_feeds bo_randomBytes bo_latestBlockhash bo_confirm].
  - intros k w. eexists _, w. split; [done|]. split; [done|]. by left.
  - intros k v ttl w. destruct (tw_redis_writes w); do 2 eexists; (split; [done|]); cbn; (split; [done|]); (split; [lia|]).
    + split; [intros k' Hk; by rewrite (proj2 (String.eqb_neq _ _)) by done|]. split; [|done].
      eexists. cbn. rewrite String.eqb_refl. split; [done|]. lia.
    + split; [done|]. split; [by left|done].
  - intros wire w. do 2 eexists. split; [done|]. cbn. split; [done|]. split; [lia|]. split; [done|]. by left.
  - intros id. split; [by eexists|]. by intros w r w' [= <- <-].
  - intros n. split; [by eexists|]. by intros w r w' [= <- <-].
  - split; [by eexists|]. by intros w r w' [= <- <-].
  - intros s. split; [by eexists|]. by intros w r w' [= <- <-].
Qed.

Definition toy_bytes (s : string) : list Z := map (fun c => Z.of_nat (Ascii.nat_of_ascii c)) (String.list_ascii_of_string s).

Definition toy_lib : bridge_lib := {|
  b_sha256 := fun l => take 32 (app l (repeat 0 32));
  b_utf8 := toy_bytes;
  b_base64url := fun _ => "digest";
  b_base64 := fun _ => encode_vaa sample_vaa;
  b_PublicKey := fun s => Ok (toy_bytes s);
  b_loadKeypair := fun s => Ok (toy_bytes s);
  b_Connection := fun _ => Ok tt;
  b_taskPda := fun a b => app a b;
  b_agentAccountPda := fun a b => app b a;
  b_encode := fun _ => Ok tt;
  b_serialize := fun t keys =>
    if forallb (fun ix => bool_decide (ix_signer ix ∈ keys)) (ixs t) then Ok "wire" else Throw "Signature verification failed";
|}%string.

Lemma toy_serialize t keys wire : b_serialize toy_lib t keys = Ok wire -> Forall (fun ix => ix_signer ix ∈ keys) (ixs t).
Proof.
  cbn [toy_lib b_serialize]. destruct (forallb _ (ixs t)) eqn:E; [|done]. intros _.
  rewrite Forall_forall. intros ix Hin. rewrite forallb_forall in E. apply list_elem_of_In, E in Hin.
  by apply bool_decide_eq_true in Hin.
Qed.

Definition toy_cfg : bridge_config := {| gatewayKeypair := "gateway"; solanaRpcUrl := "http://rpc"; cluster := devnet |}.
Definition toy_start : oracle * toy_world := 
  (fresh_oracle, {| tw_now := 1700000000000; tw_sent := []; tw_store := fun _ => None; tw_redis_writes := true; tw_rejected := 0 |}).

(** A payment to the gateway itself, the only kind devnet can send. *)
Definition own_payment : ValidatedPayment :=
  {| txHash := "A1"; sender := "rSender"; drops := 5000000; solanaPubkey := "gateway"; agentDid := "00ff"; ledgerIndex := 7 |}.
Definition own_context : SettlementContext := xrplSettlementContext own_payment 1700000000000.

Lemma sequential_settlements_pay_once_witness :
  exists w' wires, settle_each toy_lib toy_ops toy_cfg (repeat (own_payment, own_context) 3) toy_start = Some w' /\
    tw_sent w'.2 = wires /\ (length wires <= 1)%nat.
Proof.
  destruct (sequential_settlements_pay_once toy_lib toy_ops toy_cfg tw_sent tw_store tw_rejected toy_laws "A1"
    (repeat (own_payment, own_context) 3) toy_start) as (w' & wires & E & Hs & Hl).
  - cbn. by repeat constructor.
  - exists w', wires. split; [exact E|]. split; [exact Hs|].
    assert (match settle_each toy_lib toy_ops toy_cfg (repeat (own_payment, own_context) 3) toy_start with
            | Some x => (tw_now x.2 <? 1700000000000 + TTL_MS) && (tw_rejected x.2 =? 0)%nat | None => true end = true) as H
      by (vm_compute; reflexivity).
    rewrite E in H. apply andb_true_iff in H as [H1 H2]. apply Z.ltb_lt in H1. apply Nat.eqb_eq in H2.
    apply Hl in H1. rewrite H2 in H1. exact H1.
Defined.

(** A payment whose record cannot be stored is repeated: while Redis rejects every
    SET, three settlements of one transaction, each answered with an error after its
    payment was confirmed, send three payments. *)
Theorem lost_record_pays_again :
  match settle_each toy_lib toy_ops toy_cfg (repeat (own_payment, own_context) 3)
          (fresh_oracle, {| tw_now := 1700000000000; tw_sent := []; tw_store := fun _ => None;
                            tw_redis_writes := false; tw_rejected := 0 |}) with
  | Some w' => tw_sent w'.2 = ["wire"; "wire"; "wire"]%string
  | None => False
  end.
Proof. vm_compute. reflexivity. Qed.

Lemma concurrent_settlements_both_pay_witness :
  exists r w', interleaved toy_lib toy_ops toy_cfg own_payment own_context own_context toy_start = Some (Ok r, w') /\
    exists a b, tw_sent w'.2 = [a; b].
Proof.
  destruct (interleaved toy_lib toy_ops toy_cfg own_payment own_context own_context toy_start) as [[[r|e] w']|] eqn:E;
    [|vm_compute in E; discriminate E..].
  exists r, w'. split; [done|].
  destruct (concurrent_settlements_both_pay toy_lib toy_ops toy_cfg tw_sent tw_store tw_rejected toy_laws
    own_payment own_context own_context toy_start w' r eq_refl eq_refl E) as (a & b & H). by exists a, b.
Defined.

Lemma devnet_settlement_never_sent_witness :
  exists e w', settle toy_lib toy_ops toy_cfg sample_payment own_context toy_start = Some (Throw e, w') /\ tw_sent w'.2 = [].
Proof.
  apply (devnet_settlement_never_sent toy_lib toy_ops toy_cfg tw_sent tw_store tw_rejected toy_laws toy_serialize
    sample_payment own_context toy_start (toy_bytes "gateway") (toy_bytes "pk")); [reflexivity..| |reflexivity].
  vm_compute. discriminate.
Defined.

Definition failed_record : stored :=
  {| st_solTxSig := ""; st_lamports := "100"; st_status := st_failed; st_intent := buildIntentEnvelope "A1" own_context;
     st_workflowState := cc_failed |}.

Definition repeated_hash : string := "A1A1A1A1A1A1A1A1A1A1A1A1A1A1A1A1A1A1A1A1A1A1A1A1A1A1A1A1A1A1A1A1".

Definition submit_example : XrplSubmit :=
  {| x_tx_hash := Some repeated_hash; x_sender := Some "rSenderSenderSenderSenderSender"%string; x_drops := Some "5000000"%string;
     x_solana_pubkey := Some "agentagentagentagentagentagentagent"%string;
     x_agent_did := Some "00ff00ff00ff00ff00ff00ff00ff00ff"%string; x_ledger_index := Some (QArith_base.inject_Z 7) |}.

Definition failed_world : oracle * toy_world :=
  (fresh_oracle, {| tw_now := 1700000000000; tw_sent := []; tw_redis_writes := true; tw_rejected := 0;
    tw_store := fun k => if String.eqb k (redis_key repeated_hash) then Some (failed_record, 1700000000000 + TTL_MS) else None |}).

Lemma failed_settlement_reported_ok_witness :
  exists f w', post_bridge_xrpl toy_lib toy_ops toy_cfg "zod" submit_example failed_world = Some (Ok (Xrpl_ok repeated_hash f), w') /\
    f_status f = st_failed.
Proof.
  destruct (failed_settlement_reported_ok toy_lib toy_ops toy_cfg tw_sent tw_store tw_rejected toy_laws "zod" submit_example
    repeated_hash "rSenderSenderSenderSenderSender" "5000000" "agentagentagentagentagentagentagent"
    "00ff00ff00ff00ff00ff00ff00ff00ff" 7 failed_world failed_world) as (f & w' & E & _ & Hf & _).
  - reflexivity.
  - exists failed_record, (1700000000000 + TTL_MS). split; [reflexivity|]. split; [cbn; lia|]. split; reflexivity.
  - cbn. unfold TTL_MS, REDIS_TTL. lia.
  - intros w. do 2 eexists. reflexivity.
  - exists f, w'. split; [exact E|exact Hf].
Defined.

(** The forged transfer of [Vaa] on a local network: five units of an unknown token. *)
Definition wormhole_example : WormholeSubmit :=
  {| w_vaa := Some "dmFh"%string; w_solana_pubkey := Some "agentagentagentagentagentagentagent"%string;
     w_agent_did := Some "00ff00ff00ff00ff00ff00ff00ff00ff"%string |}.

Definition local_cfg : bridge_config := {| gatewayKeypair := "gateway"; solanaRpcUrl := "http://rpc"; cluster := localnet |}.

Lemma wormhole_amount_priced_as_xrp_witness :
  exists d c f w', post_bridge_wormhole toy_lib toy_ops local_cfg "zod" wormhole_example toy_start =
      Some (Ok (Wormhole_ok d c "unknown" "5" f), w') /\
    exists amount w1 w2 l, "5"%string = z_text amount /\
      convertXrpToLamports tw_now (bo_feeds toy_ops) amount w1 = Some (Ok l, w2) /\ f_lamports f = z_text l.
Proof.
  destruct (post_bridge_wormhole toy_lib toy_ops local_cfg "zod" wormhole_example toy_start) as [[[[| | |d c tok a f|]|e] w']|] eqn:E;
    try (vm_compute in E; discriminate E).
  assert (tok = "unknown"%string /\ a = "5"%string) as [-> ->] by (vm_compute in E; split; congruence).
  exists d, c, f, w'. split; [done|].
  apply (wormhole_amount_priced_as_xrp toy_lib toy_ops local_cfg tw_sent tw_store tw_rejected toy_laws "zod" wormhole_example toy_start w' d "unknown" "5" c f).
  - reflexivity.
  - exact E.
Defined.
