(* ===== verification/XrplListener.v ===== *)
(** * XrplListener: the bridge's view of the XRP Ledger

    Models services/xrpl-bridge/src/xrpl-listener.ts: which transactions count as
    payments ([handleTransaction], [parseMemos]) and the life of the connection as
    a state machine ([listener], [step]).  The xrpl.js client is an event emitter:
    its events are the inputs, and what is modelled of it is which callbacks have
    been registered on it and how often.  UTF-8 decoding is a parameter. *)

From Stdlib Require Import ZArith QArith Qround Lia Ascii.
From stdpp Require Import base list strings.
From S2P Require Import Prelude Json CrossChain XrplBridge.

Open Scope Z_scope.
Open Scope saep_scope.

Definition MAX_BACKOFF_MS : Z := 60000.
Definition BASE_BACKOFF_MS : Z := 1000.

Record Memo := { MemoType : option string; MemoData : option string }.

(** A transaction as the stream sends it: a missing or malformed field is [None];
    [Amount] is [None] for an issued currency, which is an object. *)
Record Transaction := {
  TransactionType : option string;
  Destination : option string;
  Amount : option string;
  Memos : option (list Memo);
  Account : string;
  t_hash : option string;
}.

(** The event, with the parts the listener does not look at: the engine result
    and the amount that was delivered. *)
Record TransactionStream := {
  tx_json : option Transaction;
  transaction : option Transaction;
  validated : bool;
  evt_hash : option string;
  ledger_index : option Z;
  engine_result : string;
  delivered_amount : option string;
}.

Record ParsedMemos := { m_solanaPubkey : string; m_agentDid : string }.

Section memos.
Variable utf8 : list Z -> string.

Definition hexToUtf8 (hex : string) : string := if String.eqb hex "" then "" else utf8 (from_hex hex).

(** The loop over the memos; the last one of a type wins. *)
Definition read_memo (acc : option string * option string) (m : Memo) : option string * option string :=
  let memoType := hexToUtf8 (default "" (MemoType m)) in
  let memoData := hexToUtf8 (default "" (MemoData m)) in
  if String.eqb memoType "solana/pubkey" then (Some memoData, acc.2)
  else if String.eqb memoType "saep/agent-did" then (acc.1, Some memoData)
  else acc.

Definition parseMemos (memos : option (list Memo)) : option ParsedMemos :=
  match memos with
  | None => None
  | Some ms =>
    if (length ms <? 2)%nat then None
    else let found := fold_left read_memo ms (None, None) in
    if negb (truthy found.1) || negb (truthy found.2) then None
    else let pk := default "" found.1 in
    let did := default "" found.2 in
    if ((String.length pk <? 32) || (44 <? String.length pk))%nat then None
    else if ((String.length did <? 32) || (64 <? String.length did))%nat then None
    else Some {| m_solanaPubkey := pk; m_agentDid := did |}
  end.

(** [handleTransaction]: the payment it emits, if any. *)
Definition handleTransaction (bridgeWallet : string) (minDrops : Z) (evt : TransactionStream) : result (option ValidatedPayment) :=
  match (match tx_json evt with Some t => Some t | None => transaction evt end) with
  | None => Ok None
  | Some tx =>
    if negb (bool_decide (TransactionType tx = Some "Payment"%string)) then Ok None
    else if negb (bool_decide (Destination tx = Some bridgeWallet)) then Ok None
    else match Amount tx with
    | None => Ok None
    | Some text =>
      let! drops := BigInt text in
      if drops <? minDrops then Ok None
      else match parseMemos (Memos tx) with
      | None => Ok None
      | Some parsed =>
        if negb (validated evt) then Ok None
        else Ok (Some {| txHash := default (default "" (t_hash tx)) (evt_hash evt); sender := Account tx; drops := drops;
                         solanaPubkey := m_solanaPubkey parsed; agentDid := m_agentDid parsed;
                         ledgerIndex := default 0 (ledger_index evt) |})
      end
    end
  end.
End memos.

(** [BigInt(Math.floor(minXrpAmount * 1_000_000))] *)
Definition min_drops (minXrpAmount : Q) : Z := Qfloor (minXrpAmount * 1000000).

(** ** The connection *)

(** [connecting] and [subscribing] count the calls of [connect] that wait for the
    client's [connect] and for the subscription; [timers] are the delays of the
    armed reconnects. *)
Record listener := {
  bridgeWallet : string;
  minDrops : Z;
  reconnectAttempt : nat;
  stopped : bool;
  connecting : nat;
  subscribing : nat;
  on_disconnected : nat;
  on_error : nat;
  on_transaction : nat;
  timers : list Z;
}.

Definition new_XrplListener (wallet : string) (minXrpAmount : Q) : listener :=
  {| bridgeWallet := wallet; minDrops := min_drops minXrpAmount; reconnectAttempt := 0; stopped := false; connecting := 0;
     subscribing := 0; on_disconnected := 0; on_error := 0; on_transaction := 0; timers := [] |}.

Inductive event :=
| Emit_error (message : string)
| Emit_connected
| Emit_payment (p : ValidatedPayment).

Definition backoff (attempt : nat) : Z := Z.min (BASE_BACKOFF_MS * 2 ^ Z.of_nat attempt) MAX_BACKOFF_MS.

Definition scheduleReconnect (l : listener) : listener :=
  {| bridgeWallet := bridgeWallet l; minDrops := minDrops l; reconnectAttempt := S (reconnectAttempt l); stopped := stopped l;
     connecting := connecting l; subscribing := subscribing l; on_disconnected := on_disconnected l; on_error := on_error l;
     on_transaction := on_transaction l; timers := timers l ++ [backoff (reconnectAttempt l)] |}.

Definition reconnect_unless_stopped (l : listener) : listener := if stopped l then l else scheduleReconnect l.

Definition set_stopped (b : bool) (l : listener) : listener :=
  {| bridgeWallet := bridgeWallet l; minDrops := minDrops l; reconnectAttempt := reconnectAttempt l; stopped := b;
     connecting := connecting l; subscribing := subscribing l; on_disconnected := on_disconnected l; on_error := on_error l;
     on_transaction := on_transaction l; timers := timers l |}.

(** Calls of [connect] that begin, move on to the subscription, or end. *)
Definition set_pending (c s : nat) (l : listener) : listener :=
  {| bridgeWallet := bridgeWallet l; minDrops := minDrops l; reconnectAttempt := reconnectAttempt l; stopped := stopped l;
     connecting := c; subscribing := s; on_disconnected := on_disconnected l; on_error := on_error l;
     on_transaction := on_transaction l; timers := timers l |}.

(** The client is connected: the counter is reset, two callbacks are registered. *)
Definition connect_opened (l : listener) : listener :=
  {| bridgeWallet := bridgeWallet l; minDrops := minDrops l; reconnectAttempt := 0; stopped := stopped l;
     connecting := connecting l; subscribing := subscribing l; on_disconnected := S (on_disconnected l);
     on_error := S (on_error l); on_transaction := on_transaction l; timers := timers l |}.

(** The account is subscribed to: the transaction callback is registered. *)
Definition connect_subscribed (l : listener) : listener :=
  {| bridgeWallet := bridgeWallet l; minDrops := minDrops l; reconnectAttempt := reconnectAttempt l; stopped := stopped l;
     connecting := connecting l; subscribing := subscribing l; on_disconnected := on_disconnected l; on_error := on_error l;
     on_transaction := S (on_transaction l); timers := timers l |}.

Definition drop_timer (i : nat) (l : listener) : listener :=
  {| bridgeWallet := bridgeWallet l; minDrops := minDrops l; reconnectAttempt := reconnectAttempt l; stopped := stopped l;
     connecting := connecting l; subscribing := subscribing l; on_disconnected := on_disconnected l; on_error := on_error l;
     on_transaction := on_transaction l; timers := delete i (timers l) |}.

Inductive input :=
| In_start
| In_stop
| In_connect_ok
| In_connect_failed (err : string)
| In_subscribe_ok
| In_subscribe_failed (err : string)
| In_disconnected
| In_client_error (err : string)
| In_transaction (evt : TransactionStream)
| In_timer (i : nat).

Section machine.
Variable utf8 : list Z -> string.

(** One event of the client, a timer or the owner; [None] when it cannot happen. *)
Definition step (l : listener) (i : input) : option (listener * list event) :=
  match i with
  | In_start => Some (set_pending (S (connecting l)) (subscribing l) (set_stopped false l), [])
  | In_stop => Some (set_stopped true l, [])
  | In_connect_ok =>
    match connecting l with
    | O => None
    | S n => Some (connect_opened (set_pending n (S (subscribing l)) l), [])
    end
  | In_connect_failed err =>
    match connecting l with
    | O => None
    | S n => Some (reconnect_unless_stopped (set_pending n (subscribing l) l), [Emit_error err])
    end
  | In_subscribe_ok =>
    match subscribing l with
    | O => None
    | S n => Some (connect_subscribed (set_pending (connecting l) n l), [Emit_connected])
    end
  | In_subscribe_failed err =>
    match subscribing l with
    | O => None
    | S n => Some (reconnect_unless_stopped (set_pending (connecting l) n l), [Emit_error err])
    end
  | In_disconnected => Some (Nat.iter (on_disconnected l) reconnect_unless_stopped l, [])
  | In_client_error err => Some (l, repeat (Emit_error err) (on_error l))
  | In_transaction evt =>
    match handleTransaction utf8 (bridgeWallet l) (minDrops l) evt with
    | Ok (Some p) => Some (l, repeat (Emit_payment p) (on_transaction l))
    | _ => Some (l, [])
    end
  | In_timer i =>
    match timers l !! i with
    | None => None
    | Some _ =>
      let l' := drop_timer i l in
      Some (if stopped l' then l' else set_pending (S (connecting l')) (subscribing l') l', [])
    end
  end.

Inductive run : listener -> list input -> listener -> list event -> Prop :=
| run_nil l : run l [] l []
| run_cons l i l1 out1 rest l2 out2 : step l i = Some (l1, out1) -> run l1 rest l2 out2 -> run l (i :: rest) l2 (out1 ++ out2).

(** The same, executable. *)
Fixpoint run_inputs (l : listener) (tr : list input) : option (listener * list event) :=
  match tr with
  | [] => Some (l, [])
  | i :: rest =>
    match step l i with
    | None => None
    | Some (l1, out1) =>
      match run_inputs l1 rest with
      | None => None
      | Some (l2, out2) => Some (l2, out1 ++ out2)
      end
    end
  end.

Lemma run_inputs_run l tr l' out : run_inputs l tr = Some (l', out) -> run l tr l' out.
Proof.
  revert l out. induction tr as [|i rest IH]; intros l out; cbn [run_inputs]; [intros [= <- <-]; constructor|].
  destruct (step l i) as [[l1 out1]|] eqn:E; [|done]. destruct (run_inputs l1 rest) as [[l2 out2]|] eqn:E2; [|done].
  intros [= <- <-]. econstructor; eauto.
Qed.
End machine.

(** ** What is accepted *)

Lemma parse_memos_lengths utf8 ms r : parseMemos utf8 ms = Some r ->
  (32 <= String.length (m_solanaPubkey r) <= 44)%nat /\ (32 <= String.length (m_agentDid r) <= 64)%nat.
Proof.
  unfold parseMemos. destruct ms as [ms|]; [|done]. destruct (length ms <? 2)%nat; [done|]. cbv zeta.
  case_match; [done|]. case_match eqn:E2; [done|]. case_match eqn:E3; [done|]. intros [= <-]. cbn [m_solanaPubkey m_agentDid]. apply orb_false_iff in E2 as [?%Nat.ltb_ge ?%Nat.ltb_ge], E3 as [?%Nat.ltb_ge ?%Nat.ltb_ge].
  lia.
Qed.

Lemma accepted_inv utf8 wallet m evt p : handleTransaction utf8 wallet m evt = Ok (Some p) ->
  exists t text memos, (tx_json evt = Some t \/ tx_json evt = None /\ transaction evt = Some t) /\
    Destination t = Some wallet /\ Amount t = Some text /\ BigInt text = Ok (drops p) /\ m <= drops p /\
    parseMemos utf8 (Memos t) = Some memos /\ agentDid p = m_agentDid memos /\ sender p = Account t /\ validated evt = true.
Proof.
  unfold handleTransaction. intros H.
  destruct (match tx_json evt with Some t => Some t | None => transaction evt end) as [t|] eqn:Et; [|done].
  destruct (bool_decide_reflect (TransactionType t = Some "Payment"%string)); [|done]. cbn [negb] in H.
  destruct (bool_decide_reflect (Destination t = Some wallet)); [|done]. cbn [negb] in H.
  destruct (Amount t) as [text|] eqn:Ea; [|done]. destruct (BigInt text) as [d|] eqn:Ed; [|done]. cbn [result_bind] in H.
  destruct (Z.ltb_spec d m); [done|]. destruct (parseMemos utf8 (Memos t)) as [ms|] eqn:Em; [|done].
  destruct (validated evt); [|done]. cbn [negb] in H. injection H as <-. cbn [drops sender agentDid].
  exists t, text, ms. split_and!; try done. destruct (tx_json evt); [left|right]; by simplify_eq.
Qed.

Definition with_outcome (evt : TransactionStream) (result : string) (delivered : option string) : TransactionStream :=
  {| tx_json := tx_json evt; transaction := transaction evt; validated := validated evt; evt_hash := evt_hash evt;
     ledger_index := ledger_index evt; engine_result := result; delivered_amount := delivered |}.

(** An accepted payment is a validated XRP payment to the bridge's wallet of at
    least the minimum, with both memos of the required lengths, and its intent
    passes the SDK's validation; but the amount is the one the sender asked for:
    the listener accepts the same payment when the transaction failed and when
    less, or nothing, was delivered. *)
Theorem accepted_payment_spec (utf8 : list Z -> string) (wallet : string) (minXrpAmount : Q) (evt : TransactionStream)
  (p : ValidatedPayment) (now : Z) (Hm : (0 <= minXrpAmount)%Q)
  (H : handleTransaction utf8 wallet (min_drops minXrpAmount) evt = Ok (Some p)) :
  validated evt = true /\
  (exists t text, (tx_json evt = Some t \/ tx_json evt = None /\ transaction evt = Some t) /\
    Destination t = Some wallet /\ Amount t = Some text /\ BigInt text = Ok (drops p) /\ sender p = Account t) /\
  min_drops minXrpAmount <= drops p /\
  validateCrossChainIntent (buildIntentEnvelope (txHash p) (xrplSettlementContext p now)) default_supported = [] /\
  forall result delivered,
    handleTransaction utf8 wallet (min_drops minXrpAmount) (with_outcome evt result delivered) = Ok (Some p).
Proof.
  assert (forall result delivered, handleTransaction utf8 wallet (min_drops minXrpAmount) (with_outcome evt result delivered) =
    handleTransaction utf8 wallet (min_drops minXrpAmount) evt) as Hout by (intros; reflexivity).
  destruct (accepted_inv _ _ _ _ _ H) as (t & text & ms & Ht & Hd & Ha & Hb & Hmin & Hms & Hdid & Hs & Hv).
  split; [done|]. split; [by exists t, text|]. split; [done|]. split; [|intros; by rewrite Hout].
  apply (bridge_intent_errors _ _ (drops p) (agentDid p) now); try done; [|by apply (bool_decide_unpack _)].
  apply parse_memos_lengths in Hms as [_ Hl]. rewrite <- Hdid in Hl. split; [|lia].
  assert (0 <= min_drops minXrpAmount); [|lia]. unfold min_drops. apply (Qfloor_resp_le 0).
  rewrite <- (Qmult_0_l 1000000). apply Qmult_le_compat_r; [done|]. discriminate.
Qed.

(** ** The connection *)

Definition is_connect (i : input) : bool := match i with In_connect_ok => true | _ => false end.
Definition is_subscribe (i : input) : bool := match i with In_subscribe_ok => true | _ => false end.

(** How often the client has been connected, and the account subscribed to. *)
Definition connections (tr : list input) : nat := length (List.filter is_connect tr).
Definition subscriptions (tr : list input) : nat := length (List.filter is_subscribe tr).

Definition delay_ok (d : Z) : Prop := BASE_BACKOFF_MS <= d <= MAX_BACKOFF_MS.

Lemma backoff_ok n : delay_ok (backoff n).
Proof.
  unfold delay_ok, backoff, BASE_BACKOFF_MS, MAX_BACKOFF_MS.
  assert (1 <= 2 ^ Z.of_nat n) by (pose proof (Z.pow_pos_nonneg 2 (Z.of_nat n)); lia). lia.
Qed.

Lemma backoff_doubles n : backoff (S n) = Z.min (2 * backoff n) MAX_BACKOFF_MS.
Proof. unfold backoff, BASE_BACKOFF_MS, MAX_BACKOFF_MS. rewrite Nat2Z.inj_succ, Z.pow_succ_r by lia. lia. Qed.

(** What an input does to the callbacks and the timers. *)
Record effect (l l' : listener) (dc ds : nat) : Prop := {
  eff_wallet : bridgeWallet l' = bridgeWallet l;
  eff_min : minDrops l' = minDrops l;
  eff_disconnected : on_disconnected l' = (on_disconnected l + dc)%nat;
  eff_transaction : on_transaction l' = (on_transaction l + ds)%nat;
  eff_timers : Forall delay_ok (timers l) -> Forall delay_ok (timers l');
}.

Lemma effect_schedule l : effect l (scheduleReconnect l) 0 0.
Proof. split; cbn; try done; try lia. intros H. apply Forall_app. split; [done|]. repeat constructor; apply backoff_ok. Qed.

Lemma effect_trans l1 l2 l3 dc1 ds1 dc2 ds2 : effect l1 l2 dc1 ds1 -> effect l2 l3 dc2 ds2 ->
  effect l1 l3 (dc1 + dc2) (ds1 + ds2).
Proof. intros [] []. split; [congruence|congruence|lia|lia|auto]. Qed.

Lemma effect_reconnect l : effect l (reconnect_unless_stopped l) 0 0.
Proof. unfold reconnect_unless_stopped. case_match; [by split; try lia|apply effect_schedule]. Qed.

Lemma effect_iter n l : effect l (Nat.iter n reconnect_unless_stopped l) 0 0.
Proof.
  induction n as [|n IH]; cbn; [by split; try lia|].
  exact (effect_trans _ _ _ 0 0 0 0 IH (effect_reconnect _)).
Qed.

Lemma step_effect utf8 l i l' out : step utf8 l i = Some (l', out) ->
  effect l l' (if is_connect i then 1 else 0) (if is_subscribe i then 1 else 0).
Proof.
  destruct i; cbn [step is_connect is_subscribe]; intros H;
    repeat match type of H with context [match ?x with _ => _ end] => destruct x eqn:? end;
    try discriminate H; injection H as <- _; try (by split; cbn; try lia);
    try (eapply (effect_trans _ _ _ 0 0 0 0); [|apply effect_reconnect]; by split; cbn; try lia).
  - apply effect_iter.
  - split; cbn; try lia; try done. apply Forall_delete.
  - split; cbn; try lia; try done. apply Forall_delete.
Qed.

Lemma run_effect utf8 l tr l' out : run utf8 l tr l' out -> effect l l' (connections tr) (subscriptions tr).
Proof.
  induction 1 as [l|l i l1 out1 rest l2 out2 Hs _ IH]; [by split; cbn; try lia|].
  apply step_effect in Hs. pose proof (effect_trans _ _ _ _ _ _ _ Hs IH) as E.
  unfold connections, subscriptions in *. cbn [List.filter]. by destruct (is_connect i), (is_subscribe i).
Qed.

Lemma iter_schedules n l : stopped l = false ->
  length (timers (Nat.iter n reconnect_unless_stopped l)) = (length (timers l) + n)%nat /\
  stopped (Nat.iter n reconnect_unless_stopped l) = false.
Proof.
  intros Hs. induction n as [|n [IH1 IH2]]; [cbn; split; [lia|done]|].
  change (Nat.iter (S n) reconnect_unless_stopped l) with (reconnect_unless_stopped (Nat.iter n reconnect_unless_stopped l)).
  set (k := Nat.iter n reconnect_unless_stopped l) in *. unfold reconnect_unless_stopped. rewrite IH2.
  unfold scheduleReconnect. cbn [timers stopped]. rewrite length_app, IH1. cbn [length]. split; [lia|done].
Qed.

(** A reconnect never removes the callbacks of the connection before it: on every
    path of the listener, a payment is emitted once for every subscription made
    since the start, so after k reconnects each payment is settled k + 1 times at
    once, and a lost connection arms one reconnect for every earlier connection.
    Every armed reconnect waits between one second and one minute. *)
Theorem payments_emitted_per_subscription (utf8 : list Z -> string) (wallet : string) (m : Q) (tr : list input) (l : listener)
  (out : list event) (Hrun : run utf8 (new_XrplListener wallet m) tr l out) :
  (forall evt p, handleTransaction utf8 wallet (min_drops m) evt = Ok (Some p) ->
     step utf8 l (In_transaction evt) = Some (l, repeat (Emit_payment p) (subscriptions tr))) /\
  (stopped l = false -> exists l', step utf8 l In_disconnected = Some (l', []) /\
     length (timers l') = (length (timers l) + connections tr)%nat) /\
  Forall delay_ok (timers l).
Proof.
  apply run_effect in Hrun as [Hw Hm Hd Ht Hb]. cbn [new_XrplListener bridgeWallet minDrops on_disconnected on_transaction timers Nat.add] in *. split; [|split].
  - intros evt p H. cbn [step]. by rewrite Hw, Hm, H, Ht.
  - intros Hs. eexists. split; [reflexivity|]. rewrite <- Hd. apply iter_schedules, Hs.
  - apply Hb. constructor.
Qed.

(** ** A lost connection, and a payment after it *)

Definition one_cycle : list input := [In_disconnected; In_timer 0; In_connect_ok; In_subscribe_ok].
Definition two_subscriptions : list input := [In_start; In_connect_ok; In_subscribe_ok] ++ one_cycle.

(** Bytes as characters. *)
Definition toy_utf8 (l : list Z) : string :=
  String.string_of_list_ascii (map (fun b => ascii_of_nat (Z.to_nat b)) l).

Definition toy_hex (s : string) : string :=
  Vaa.bytes_hex (map (fun c => Z.of_nat (nat_of_ascii c)) (String.list_ascii_of_string s)).

Definition sample_event : TransactionStream :=
  {| tx_json := Some {| TransactionType := Some "Payment"; Destination := Some "rBridge"; Amount := Some "5000000";
       Memos := Some [{| MemoType := Some (toy_hex "solana/pubkey"); MemoData := Some (toy_hex "agentagentagentagentagentagentagent") |};
                      {| MemoType := Some (toy_hex "saep/agent-did"); MemoData := Some (toy_hex "00ff00ff00ff00ff00ff00ff00ff00ff") |}];
       Account := "rSender"; t_hash := None |};
     transaction := None; validated := true; evt_hash := Some "A1"; ledger_index := Some 7; engine_result := "tecUNFUNDED_PAYMENT";
     delivered_amount := None |}%string.

Definition sample_accepted : option ValidatedPayment :=
  match handleTransaction toy_utf8 "rBridge" (min_drops 1) sample_event with
  | Ok p => p
  | Throw _ => None
  end.

Lemma accepted_payment_spec_witness : exists p, sample_accepted = Some p /\ 1000000 <= drops p /\ validated sample_event = true.
Proof.
  destruct sample_accepted as [p|] eqn:E; [|vm_compute in E; discriminate E].
  exists p. split; [done|].
  assert (handleTransaction toy_utf8 "rBridge" (min_drops 1) sample_event = Ok (Some p)) as H.
  { unfold sample_accepted in E. destruct (handleTransaction _ _ _ _); [by subst|discriminate E]. }
  destruct (accepted_payment_spec toy_utf8 "rBridge" 1 sample_event p 0) as (Hv & _ & Hm & _); [discriminate|done|].
  split; [exact Hm|exact Hv].
Defined.

Lemma sample_run : exists l out, run toy_utf8 (new_XrplListener "rBridge" 1) two_subscriptions l out.
Proof. eexists _, _. apply run_inputs_run. vm_compute. reflexivity. Qed.

Lemma payments_emitted_per_subscription_witness :
  exists l out p, run toy_utf8 (new_XrplListener "rBridge" 1) two_subscriptions l out /\ sample_accepted = Some p /\
    step toy_utf8 l (In_transaction sample_event) = Some (l, [Emit_payment p; Emit_payment p]).
Proof.
  destruct sample_accepted as [p|] eqn:E; [|vm_compute in E; discriminate E].
  assert (handleTransaction toy_utf8 "rBridge" (min_drops 1) sample_event = Ok (Some p)) as H.
  { unfold sample_accepted in E. destruct (handleTransaction _ _ _ _); [by subst|discriminate E]. }
  destruct sample_run as (l & out & Hrun). exists l, out, p. split; [exact Hrun|]. split; [done|].
  destruct (payments_emitted_per_subscription _ _ _ _ _ _ Hrun) as [Hp _].
  pose proof (Hp _ _ H) as G. change (subscriptions two_subscriptions) with 2%nat in G. exact G.
Defined.
