(* ===== verification/Webhooks.v ===== *)
(** * Webhooks: the webhook hub of the discovery API

    Models services/discovery/src/webhooks.ts: subscriptions, events and
    deliveries, the retries of a delivery, replay, and the snapshot the hub
    persists and is restarted from (webhook-store.ts).  A delivery's request is
    split at its [fetch]: [dispatch] is the part before, [settle] the part after,
    and [flights] are the requests in between.  [timers] are the scheduled
    dispatches.  Identifiers, clock readings and secrets come from outside; ISO
    dates, JSON, HMAC and string comparison are parameters.  A delivery object is
    found by its id: the hub never replaces one. *)

From Stdlib Require Import ZArith Lia Ascii.
From stdpp Require Import base list strings.
From S2P Require Import Prelude JsMap Json.

Open Scope Z_scope.

Inductive WebhookEventType :=
| task_created | task_verified | task_released | task_disputed
| bid_revealed | stream_withdrawn | agent_status_changed.

Inductive WebhookResourceType := rt_task | rt_bid | rt_stream | rt_agent.
Inductive DeliveryState := pending | delivered | retrying | dead_letter.

#[export] Instance WebhookEventType_eq_dec : EqDecision WebhookEventType.
Proof. solve_decision. Defined.
#[export] Instance WebhookResourceType_eq_dec : EqDecision WebhookResourceType.
Proof. solve_decision. Defined.
#[export] Instance DeliveryState_eq_dec : EqDecision DeliveryState.
Proof. solve_decision. Defined.

Definition WEBHOOK_EVENT_TYPES : list WebhookEventType :=
  [task_created; task_verified; task_released; task_disputed; bid_revealed; stream_withdrawn; agent_status_changed].

Record WebhookSubscriptionInput := {
  in_url : string;
  in_events : list WebhookEventType;
  in_secret : string;
  in_description : option string;
}.

(** The payload is its JSON text. *)
Record WebhookEventInput := {
  ie_type : WebhookEventType;
  ie_chain : string;
  ie_cluster : string;
  ie_resource_type : WebhookResourceType;
  ie_resource_id : string;
  ie_payload : string;
  ie_id : option string;
}.

Record WebhookEvent := {
  ev_input : WebhookEventInput;
  ev_id : string;
  emitted_at : string;
}.

Definition ev_type (e : WebhookEvent) : WebhookEventType := ie_type (ev_input e).

Record StoredPreviousSecret := {
  ps_version : Z;
  ps_secret_preview : string;
  ps_rotated_at : string;
}.

Record WebhookSubscriptionRecord := {
  sr_id : string;
  url : string;
  events : list WebhookEventType;
  description : option string;
  created_at : string;
  updated_at : string;
  secret_preview : string;
  secret_version : Z;
  rotated_at : option string;
  previous_secret_versions : list Z;
}.

Record StoredSubscription := {
  sub :> WebhookSubscriptionRecord;
  secret : string;
  previous_secrets : list StoredPreviousSecret;
}.

Record WebhookDeliveryRecord := {
  d_id : string;
  subscription_id : string;
  event_id : string;
  event_type : WebhookEventType;
  event_resource_type : option WebhookResourceType;
  event_resource_id : option string;
  state : DeliveryState;
  attempt_count : Z;
  target_url : string;
  d_created_at : string;
  last_attempt_at : option string;
  next_attempt_at : option string;
  completed_at : option string;
  last_status_code : option Z;
  last_error : option string;
  signature_version : option Z;
  signature_window_seconds : option Z;
}.

Record WebhookStateSnapshot := {
  snap_subscriptions : list StoredSubscription;
  snap_deliveries : list WebhookDeliveryRecord;
  snap_events : list WebhookEvent;
}.

(** ** Secrets and tokens *)

Definition last_n (n : nat) (s : string) : string := String.substring (String.length s - n) n s.

Definition previewSecret (secret : string) : string :=
  if (String.length secret <=? 8)%nat then secret +:+ "***"
  else String.substring 0 4 secret +:+ "..." +:+ last_n 4 secret.

(** The buffers are the tokens' bytes. *)
Definition authorizeToken (provided expected : option string) : bool :=
  if negb (truthy provided) || negb (truthy expected) then false
  else let left := default "" provided in
       let right := default "" expected in
       if negb (String.length left =? String.length right)%nat then false else String.eqb left right.

Definition sanitizeSubscription (s : StoredSubscription) : WebhookSubscriptionRecord :=
  {| sr_id := sr_id s; url := url s; events := events s; description := description s; created_at := created_at s;
     updated_at := updated_at s; secret_preview := secret_preview s; secret_version := secret_version s;
     rotated_at := rotated_at s; previous_secret_versions := map ps_version (previous_secrets s) |}.

(** ** Options and state *)

Record hub_options := {
  retryBaseMs : Z;
  maxAttempts : Z;
  signatureWindowSeconds : Z;
  userAgent : string;
  persistent : bool;   (* a [persist] callback was given *)
}.

(** The constructor's defaults. *)
Definition resolve_options (retryBase attempts window : option Z) (agent : option string) (persist : bool) : hub_options :=
  {| retryBaseMs := Z.max 1 (default 1000 retryBase); maxAttempts := Z.max 1 (default 4 attempts);
     signatureWindowSeconds := Z.max 1 (default 300 window);
     userAgent := default "saep-discovery-webhooks/0.1"%string agent; persistent := persist |}.

(** A request that was sent and is not answered yet. *)
Record flight := {
  fl_delivery : string;
  fl_url : string;
  fl_timestamp : string;
  fl_body : string;
  fl_version : Z;
  fl_signature : string;
}.

Record hub := {
  opts : hub_options;
  subscriptions : list (string * StoredSubscription);
  deliveries : list (string * WebhookDeliveryRecord);
  hub_events : list (string * WebhookEvent);
  timers : list (string * Z);      (* delivery and delay *)
  flights : list flight;
  disk : WebhookStateSnapshot;     (* what was persisted last *)
}.

Definition set_subscriptions (s : list (string * StoredSubscription)) (h : hub) : hub :=
  {| opts := opts h; subscriptions := s; deliveries := deliveries h; hub_events := hub_events h; timers := timers h;
     flights := flights h; disk := disk h |}.
Definition set_deliveries (d : list (string * WebhookDeliveryRecord)) (h : hub) : hub :=
  {| opts := opts h; subscriptions := subscriptions h; deliveries := d; hub_events := hub_events h; timers := timers h;
     flights := flights h; disk := disk h |}.
Definition set_events (e : list (string * WebhookEvent)) (h : hub) : hub :=
  {| opts := opts h; subscriptions := subscriptions h; deliveries := deliveries h; hub_events := e; timers := timers h;
     flights := flights h; disk := disk h |}.
Definition set_timers (t : list (string * Z)) (h : hub) : hub :=
  {| opts := opts h; subscriptions := subscriptions h; deliveries := deliveries h; hub_events := hub_events h; timers := t;
     flights := flights h; disk := disk h |}.
Definition set_flights (f : list flight) (h : hub) : hub :=
  {| opts := opts h; subscriptions := subscriptions h; deliveries := deliveries h; hub_events := hub_events h;
     timers := timers h; flights := f; disk := disk h |}.

(** [[...new Set(xs)]] *)
Fixpoint distinct_from {A} `{!EqDecision A} (seen : list A) (l : list A) : list A :=
  match l with
  | [] => []
  | x :: l' => if bool_decide (x ∈ seen) then distinct_from seen l' else x :: distinct_from (x :: seen) l'
  end.

Definition set_deliveries_of (k : string) (d : WebhookDeliveryRecord) (h : hub) : hub := set_deliveries (map_set k d (deliveries h)) h.

(** [sanitizeDelivery]: the timer is not part of the record. *)
Definition sanitizeDelivery (d : WebhookDeliveryRecord) : WebhookDeliveryRecord := d.

Definition snapshot (h : hub) : WebhookStateSnapshot :=
  {| snap_subscriptions := map_values (subscriptions h);
     snap_deliveries := map sanitizeDelivery (map_values (deliveries h));
     snap_events := map_values (hub_events h) |}.

Definition persistState (h : hub) : hub :=
  if persistent (opts h)
  then {| opts := opts h; subscriptions := subscriptions h; deliveries := deliveries h; hub_events := hub_events h;
          timers := timers h; flights := flights h; disk := snapshot h |}
  else h.

(** ** Filters *)

Record WebhookDeliveryListInput := {
  li_state : option DeliveryState;
  li_subscription_id : option string;
  li_event_id : option string;
  li_event_type : option WebhookEventType;
  li_limit : option Z;
}.

Record WebhookReplayInput := {
  re_event_id : option string;
  since : option string;
  until : option string;
  event_types : list WebhookEventType;
  subscription_ids : option (list string);
  re_limit : option Z;
}.

(** [!filter || value === filter]: an empty string filters nothing. *)
Definition text_filter (f : option string) (v : string) : bool :=
  match f with
  | None => true
  | Some s => String.eqb s "" || String.eqb v s
  end.

Definition option_filter {A} `{!EqDecision A} (f : option A) (v : A) : bool :=
  match f with
  | None => true
  | Some x => bool_decide (v = x)
  end.

(** ** Restoring a snapshot, whose records may lack fields *)

Record PartialSubscription := {
  p_id : string;
  p_url : option string;
  p_events : option (list WebhookEventType);
  p_description : option string;
  p_created_at : option string;
  p_updated_at : option string;
  p_secret_preview : option string;
  p_secret_version : option Z;
  p_rotated_at : option string;
  p_secret : option string;
  p_previous_secrets : option (list StoredPreviousSecret);
}.

Record PartialDelivery := {
  pd_id : string;
  pd_subscription_id : option string;
  pd_event_id : option string;
  pd_event_type : option WebhookEventType;
  pd_event_resource_type : option WebhookResourceType;
  pd_event_resource_id : option string;
  pd_state : option DeliveryState;
  pd_attempt_count : option Z;
  pd_target_url : option string;
  pd_created_at : option string;
  pd_last_attempt_at : option string;
  pd_next_attempt_at : option string;
  pd_completed_at : option string;
  pd_last_status_code : option Z;
  pd_last_error : option string;
  pd_signature_version : option Z;
  pd_signature_window_seconds : option Z;
}.

(** [a ?? b] *)
Definition coalesce {A} (a b : option A) : option A := match a with Some x => Some x | None => b end.

Section hub.
Variable iso : Z -> string.                          (* new Date(ms).toISOString() *)
Variable date_parse : string -> Z.                   (* Date.parse *)
Variable hmac : string -> string -> string.          (* createHmac('sha256', key).update(_).digest('hex') *)
Variable stringify : WebhookEvent -> string.         (* JSON.stringify *)
Variable compare : string -> string -> comparison.   (* localeCompare *)

Definition normalizeSubscription (s : PartialSubscription) : StoredSubscription :=
  let previousSecrets := default [] (p_previous_secrets s) in
  {| sub := {| sr_id := p_id s; url := default "" (p_url s); events := default [] (p_events s);
               description := p_description s; created_at := default (iso 0) (p_created_at s);
               updated_at := default (iso 0) (coalesce (p_updated_at s) (p_created_at s));
               secret_preview := default (previewSecret (default "" (p_secret s))) (p_secret_preview s);
               secret_version := default 1 (p_secret_version s); rotated_at := p_rotated_at s;
               previous_secret_versions := map ps_version previousSecrets |};
     secret := default "" (p_secret s); previous_secrets := previousSecrets |}%string.

Definition normalizeDelivery (d : PartialDelivery) : WebhookDeliveryRecord :=
  {| d_id := pd_id d; subscription_id := default "" (pd_subscription_id d); event_id := default "" (pd_event_id d);
     event_type := default task_created (pd_event_type d); event_resource_type := pd_event_resource_type d;
     event_resource_id := pd_event_resource_id d; state := default pending (pd_state d);
     attempt_count := default 0 (pd_attempt_count d); target_url := default "" (pd_target_url d);
     d_created_at := default (iso 0) (coalesce (pd_created_at d) (pd_last_attempt_at d));
     last_attempt_at := pd_last_attempt_at d; next_attempt_at := pd_next_attempt_at d; completed_at := pd_completed_at d;
     last_status_code := pd_last_status_code d; last_error := pd_last_error d; signature_version := pd_signature_version d;
     signature_window_seconds := pd_signature_window_seconds d |}%string.

(** The JSON of a full record has every field. *)
Definition stored_subscription (s : StoredSubscription) : PartialSubscription :=
  {| p_id := sr_id s; p_url := Some (url s); p_events := Some (events s); p_description := description s;
     p_created_at := Some (created_at s); p_updated_at := Some (updated_at s); p_secret_preview := Some (secret_preview s);
     p_secret_version := Some (secret_version s); p_rotated_at := rotated_at s; p_secret := Some (secret s);
     p_previous_secrets := Some (previous_secrets s) |}.

Definition stored_delivery (d : WebhookDeliveryRecord) : PartialDelivery :=
  {| pd_id := d_id d; pd_subscription_id := Some (subscription_id d); pd_event_id := Some (event_id d);
     pd_event_type := Some (event_type d); pd_event_resource_type := event_resource_type d;
     pd_event_resource_id := event_resource_id d; pd_state := Some (state d); pd_attempt_count := Some (attempt_count d);
     pd_target_url := Some (target_url d); pd_created_at := Some (d_created_at d); pd_last_attempt_at := last_attempt_at d;
     pd_next_attempt_at := next_attempt_at d; pd_completed_at := completed_at d; pd_last_status_code := last_status_code d;
     pd_last_error := last_error d; pd_signature_version := signature_version d;
     pd_signature_window_seconds := signature_window_seconds d |}.

(** What the store file holds; [None] is a file that does not exist. *)
Record raw_snapshot := {
  raw_subscriptions : list PartialSubscription;
  raw_deliveries : list PartialDelivery;
  raw_events : list WebhookEvent;
}.

Definition EMPTY_STATE : raw_snapshot := {| raw_subscriptions := []; raw_deliveries := []; raw_events := [] |}.

Definition store_load (file : option raw_snapshot) : raw_snapshot := default EMPTY_STATE file.

Definition store_save (s : WebhookStateSnapshot) : option raw_snapshot :=
  Some {| raw_subscriptions := map stored_subscription (snap_subscriptions s);
          raw_deliveries := map stored_delivery (snap_deliveries s); raw_events := snap_events s |}.

Definition unfinished (d : WebhookDeliveryRecord) : bool :=
  bool_decide (state d = pending) || bool_decide (state d = retrying).

(** The delay of a delivery that is resumed. *)
Definition resume_delay (now : Z) (d : WebhookDeliveryRecord) : Z :=
  if truthy (next_attempt_at d) then Z.max 0 (date_parse (default "" (next_attempt_at d)) - now) else 0.

Definition resumePendingDeliveries (now : Z) (h : hub) : hub :=
  set_timers (timers h ++ map (fun d => (d_id d, resume_delay now d)) (List.filter unfinished (map_values (deliveries h)))) h.

Definition load_all {V} (key : V -> string) (l : list V) : list (string * V) := fold_left (fun m v => map_set (key v) v m) l [].

(** The constructor: without an initial state it neither resumes nor persists. *)
Definition new_hub (o : hub_options) (initial : option raw_snapshot) (now : Z) : hub :=
  let empty := {| opts := o; subscriptions := []; deliveries := []; hub_events := []; timers := []; flights := [];
                  disk := {| snap_subscriptions := []; snap_deliveries := []; snap_events := [] |} |} in
  match initial with
  | None => empty
  | Some s =>
    let h := set_subscriptions (load_all (fun x : StoredSubscription => sr_id x) (map normalizeSubscription (raw_subscriptions s))) empty in
    let h := set_events (load_all ev_id (raw_events s)) h in
    let h := set_deliveries (load_all d_id (map normalizeDelivery (raw_deliveries s))) h in
    persistState (resumePendingDeliveries now h)
  end.

(** ** Subscriptions *)

Definition createSubscription (id : string) (now : Z) (input : WebhookSubscriptionInput) (h : hub) : hub * WebhookSubscriptionRecord :=
  let timestamp := iso now in
  let record :=
    {| sub := {| sr_id := id; url := in_url input; events := distinct_from [] (in_events input);
                 description := in_description input; created_at := timestamp; updated_at := timestamp;
                 secret_preview := previewSecret (in_secret input); secret_version := 1; rotated_at := None;
                 previous_secret_versions := [] |};
       secret := in_secret input; previous_secrets := [] |} in
  (persistState (set_subscriptions (map_set id record (subscriptions h)) h), sanitizeSubscription record).

(** The subscription with its new secret. *)
Definition rotated (now : Z) (new_secret : string) (s : StoredSubscription) : StoredSubscription :=
  let timestamp := iso now in
  let currentVersion := secret_version s in
  let previousSecrets := previous_secrets s ++
    [{| ps_version := currentVersion; ps_secret_preview := secret_preview s; ps_rotated_at := timestamp |}] in
  {| sub := {| sr_id := sr_id s; url := url s; events := events s; description := description s; created_at := created_at s;
               updated_at := timestamp; secret_preview := previewSecret new_secret; secret_version := currentVersion + 1;
               rotated_at := Some timestamp; previous_secret_versions := map ps_version previousSecrets |};
     secret := new_secret; previous_secrets := previousSecrets |}.

Definition rotateSubscriptionSecret (now : Z) (id new_secret : string) (h : hub) : hub * option WebhookSubscriptionRecord :=
  match map_get id (subscriptions h) with
  | None => (h, None)
  | Some s =>
    let s' := rotated now new_secret s in
    (persistState (set_subscriptions (map_set id s' (subscriptions h)) h), Some (sanitizeSubscription s'))
  end.

Definition listSubscriptions (h : hub) : list WebhookSubscriptionRecord :=
  js_sort (fun a b => compare (created_at a) (created_at b)) (map sanitizeSubscription (map_values (subscriptions h))).

Definition delivery_time (d : WebhookDeliveryRecord) : string := default (d_created_at d) (last_attempt_at d).

(** Most recent first, then by id. *)
Definition by_delivery_time (a b : WebhookDeliveryRecord) : comparison :=
  match compare (delivery_time b) (delivery_time a) with
  | Eq => compare (d_id a) (d_id b)
  | c => c
  end.

Definition matches_filters (f : WebhookDeliveryListInput) (d : WebhookDeliveryRecord) : bool :=
  option_filter (li_state f) (state d) && text_filter (li_subscription_id f) (subscription_id d) &&
  text_filter (li_event_id f) (event_id d) && option_filter (li_event_type f) (event_type d).

Definition listDeliveries (f : WebhookDeliveryListInput) (h : hub) : list WebhookDeliveryRecord :=
  let limit := Z.max 1 (Z.min 500 (default 100 (li_limit f))) in
  slice_to limit (js_sort by_delivery_time (map sanitizeDelivery (List.filter (matches_filters f) (map_values (deliveries h))))).

(** ** Deliveries *)

Definition createDelivery (id : string) (now : Z) (s : StoredSubscription) (event : WebhookEvent) (h : hub) : hub :=
  let delivery :=
    {| d_id := id; subscription_id := sr_id s; event_id := ev_id event; event_type := ev_type event;
       event_resource_type := Some (ie_resource_type (ev_input event)); event_resource_id := Some (ie_resource_id (ev_input event));
       state := pending; attempt_count := 0; target_url := url s; d_created_at := iso now; last_attempt_at := None;
       next_attempt_at := None; completed_at := None; last_status_code := None; last_error := None; signature_version := None;
       signature_window_seconds := None |} in
  persistState (set_deliveries (map_set id delivery (deliveries h)) h).

(** A delivery as an attempt begins, and once the attempt has been signed. *)
Definition attempted (now : Z) (d : WebhookDeliveryRecord) : WebhookDeliveryRecord :=
  {| d_id := d_id d; subscription_id := subscription_id d; event_id := event_id d; event_type := event_type d;
     event_resource_type := event_resource_type d; event_resource_id := event_resource_id d; state := state d;
     attempt_count := attempt_count d + 1; target_url := target_url d; d_created_at := d_created_at d;
     last_attempt_at := Some (iso now); next_attempt_at := None; completed_at := completed_at d;
     last_status_code := last_status_code d; last_error := None; signature_version := signature_version d;
     signature_window_seconds := signature_window_seconds d |}.

Definition signed (version window : Z) (d : WebhookDeliveryRecord) : WebhookDeliveryRecord :=
  {| d_id := d_id d; subscription_id := subscription_id d; event_id := event_id d; event_type := event_type d;
     event_resource_type := event_resource_type d; event_resource_id := event_resource_id d; state := state d;
     attempt_count := attempt_count d; target_url := target_url d; d_created_at := d_created_at d;
     last_attempt_at := last_attempt_at d; next_attempt_at := next_attempt_at d; completed_at := completed_at d;
     last_status_code := last_status_code d; last_error := last_error d; signature_version := Some version;
     signature_window_seconds := Some window |}.

(** [dispatch] up to the request. *)
Definition dispatch (now : Z) (deliveryId : string) (h : hub) : hub :=
  match map_get deliveryId (deliveries h) with
  | None => h
  | Some d =>
    match map_get (subscription_id d) (subscriptions h), map_get (event_id d) (hub_events h) with
    | Some s, Some event =>
      let d := attempted now d in
      let h := persistState (set_deliveries_of deliveryId d h) in
      let body := stringify event in
      let timestamp := z_text (now / 1000) in
      let version := secret_version s in
      let d := signed version (signatureWindowSeconds (opts h)) d in
      let request := {| fl_delivery := deliveryId; fl_url := url s; fl_timestamp := timestamp; fl_body := body;
                        fl_version := version; fl_signature := hmac (secret s) (timestamp +:+ "." +:+ body) |} in
      set_flights (flights h ++ [request]) (set_deliveries_of deliveryId d h)
    | _, _ => h
    end
  end.

(** What a request comes to: an HTTP status, or an exception's message. *)
Inductive outcome :=
| Response (status : Z)
| Failed (message : string).

Definition response_ok (status : Z) : bool := (200 <=? status) && (status <=? 299).

(** A delivery after an answer: its state, whether it is completed, its next
    attempt, and the status and error of the last one. *)
Definition concluded (st : DeliveryState) (complete : bool) (next : option string) (status : option Z) (err : option string)
    (d : WebhookDeliveryRecord) : WebhookDeliveryRecord :=
  {| d_id := d_id d; subscription_id := subscription_id d; event_id := event_id d; event_type := event_type d;
     event_resource_type := event_resource_type d; event_resource_id := event_resource_id d; state := st;
     attempt_count := attempt_count d; target_url := target_url d; d_created_at := d_created_at d;
     last_attempt_at := last_attempt_at d; next_attempt_at := next; completed_at := if complete then last_attempt_at d else completed_at d;
     last_status_code := status; last_error := err; signature_version := signature_version d;
     signature_window_seconds := signature_window_seconds d |}.

Definition retry_delay (o : hub_options) (attempts : Z) : Z := retryBaseMs o * Z.max 1 (2 ^ (attempts - 1)).

(** [dispatch] after the request. *)
Definition finish (now : Z) (deliveryId : string) (r : outcome) (h : hub) : hub :=
  match map_get deliveryId (deliveries h) with
  | None => h
  | Some d =>
    let status := match r with Response c => Some c | Failed _ => last_status_code d end in
    if match r with Response c => response_ok c | Failed _ => false end then
      persistState (set_deliveries_of deliveryId (concluded delivered true (next_attempt_at d) status (last_error d) d) h)
    else
      let err := match r with Response c => "http_" +:+ z_text c | Failed m => m end in
      if maxAttempts (opts h) <=? attempt_count d then
        persistState (set_deliveries_of deliveryId (concluded dead_letter true (next_attempt_at d) status (Some err) d) h)
      else
        let delayMs := retry_delay (opts h) (attempt_count d) in
        let h := set_deliveries_of deliveryId (concluded retrying false (Some (iso (now + delayMs))) status (Some err) d) h in
        persistState (set_timers (timers h ++ [(deliveryId, delayMs)]) h)
  end.

(** ** Emitting and replaying *)

(** Create the deliveries of an event, one per subscription, with the next ids. *)
Fixpoint create_deliveries (ids : list string) (now : Z) (todo : list (StoredSubscription * WebhookEvent)) (h : hub) : hub * list string :=
  match todo, ids with
  | (s, event) :: todo', id :: ids' =>
    let r := create_deliveries ids' now todo' (createDelivery id now s event h) in (r.1, id :: r.2)
  | _, _ => (h, [])
  end.

Definition dispatch_all (now : Z) (ids : list string) (h : hub) : hub := fold_left (fun h id => dispatch now id h) ids h.

Definition subscribed (event : WebhookEvent) (s : StoredSubscription) : bool := bool_decide (ev_type event ∈ events s).

(** [emit] up to its [await]: the event, the deliveries it made, and whether it
    was a duplicate.  [ids] are the next identifiers of the id factory. *)
Definition emit (ids : list string) (now : Z) (input : WebhookEventInput) (h : hub) : hub * (WebhookEvent * list string * bool) :=
  let id := match ie_id input with Some id => id | None => default "" (head ids) end in
  let ids := match ie_id input with Some _ => ids | None => tail ids end in
  match map_get id (hub_events h) with
  | Some existing => (h, (existing, [], true))
  | None =>
    let event := {| ev_input := input; ev_id := id; emitted_at := iso now |} in
    let h := set_events (map_set id event (hub_events h)) h in
    let matching := List.filter (subscribed event) (map_values (subscriptions h)) in
    let r := create_deliveries ids now (map (fun s => (s, event)) matching) h in
    (dispatch_all now r.2 r.1, (event, r.2, false))
  end.

(** [!(b < a)] on texts: JavaScript compares them unit by unit, whatever the locale. *)
Definition le_text (a b : string) : bool := String.leb a b.

Definition matchesReplay (event : WebhookEvent) (input : WebhookReplayInput) : bool :=
  text_filter (re_event_id input) (ev_id event) &&
  negb (truthy (since input) && negb (le_text (default "" (since input)) (emitted_at event))) &&
  negb (truthy (until input) && negb (le_text (emitted_at event) (default "" (until input)))) &&
  match event_types input with
  | [] => true
  | ts => bool_decide (ev_type event ∈ ts)
  end.

Definition matchingSubscriptions (event : WebhookEvent) (ids : option (list string)) (h : hub) : list StoredSubscription :=
  List.filter (fun s => match ids with None => true | Some l => bool_decide (sr_id (sub s) ∈ l) end)
    (List.filter (subscribed event) (map_values (subscriptions h))).

Definition replay_events (input : WebhookReplayInput) (h : hub) : list WebhookEvent :=
  slice_to (Z.max 1 (default 50 (re_limit input)))
    (js_sort (fun a b => compare (emitted_at a) (emitted_at b))
       (List.filter (fun e => matchesReplay e input) (map_values (hub_events h)))).

Definition replay (ids : list string) (now : Z) (input : WebhookReplayInput) (h : hub) : hub * (list WebhookEvent * list string) :=
  let selected := replay_events input h in
  let todo := flat_map (fun e => map (fun s => (s, e)) (matchingSubscriptions e (subscription_ids input) h)) selected in
  let r := create_deliveries ids now todo h in
  (dispatch_all now r.2 r.1, (selected, r.2)).

(** ** The hub in its process *)

(** What reaches the hub: a request of the API, a timer that fires, an answer to
    a request, or the end of the process and a new start from the store. *)
Inductive action :=
| A_create (id : string) (input : WebhookSubscriptionInput)
| A_rotate (id new_secret : string)
| A_emit (ids : list string) (input : WebhookEventInput)
| A_replay (ids : list string) (input : WebhookReplayInput)
| A_fire (i : nat)
| A_answer (i : nat) (r : outcome)
| A_restart.

Definition act (now : Z) (a : action) (h : hub) : option hub :=
  match a with
  | A_create id input => Some (createSubscription id now input h).1
  | A_rotate id new_secret => Some (rotateSubscriptionSecret now id new_secret h).1
  | A_emit ids input => Some (emit ids now input h).1
  | A_replay ids input => Some (replay ids now input h).1
  | A_fire i =>
    match timers h !! i with
    | None => None
    | Some (id, _) => Some (dispatch now id (set_timers (delete i (timers h)) h))
    end
  | A_answer i r =>
    match flights h !! i with
    | None => None
    | Some f => Some (finish now (fl_delivery f) r (set_flights (delete i (flights h)) h))
    end
  | A_restart => Some (new_hub (opts h) (Some (store_load (store_save (disk h)))) now)
  end.
End hub.
