(* ===== verification/WebhooksSafety.v ===== *)
(** * WebhooksSafety: what the webhook hub guarantees

    Theorems on Webhooks.  [hub_run] are the runs of a hub over any number of
    process restarts, with the log of the requests it has sent.  The invariant
    [hub_ok] accounts for every delivery and relates the hub to its snapshot;
    [todo] are deliveries taken from a timer or an answer, or just created, that
    the operation has yet to deal with. *)

From Stdlib Require Import ZArith Lia Ascii.
From stdpp Require Import base list strings.
From S2P Require Import Prelude JsMap Json Webhooks.

Open Scope Z_scope.

(** ** Maps *)

Section maps.
Context {K V : Type} `{!EqDecision K}.
Implicit Types (m : list (K * V)).

Lemma map_set_values (R : V -> V -> Prop) k v v' m : (forall x, R x x) -> map_get k m = Some v -> R v v' ->
  Forall2 R (map_values m) (map_values (map_set k v' m)).
Proof.
  intros Hr. unfold map_values. induction m as [|[k' w] m IH]; cbn; [done|]. case_decide.
  - intros [= ->] Hv. cbn. constructor; [done|]. apply Forall_Forall2_diag, Forall_forall. auto.
  - intros Hg Hv. cbn. constructor; auto.
Qed.

Definition keyed (key : V -> K) m : Prop := Forall (fun kv => kv.1 = key kv.2) m.

Lemma hub_keyed_set key k v m : keyed key m -> k = key v -> keyed key (map_set k v m).
Proof. intros Hk E. by apply map_set_Forall. Qed.

Lemma keyed_get key k v m : keyed key m -> map_get k m = Some v -> key v = k.
Proof. unfold keyed. rewrite Forall_forall. intros Hk Hg%map_get_elem. by apply Hk in Hg. Qed.

Lemma hub_keyed_keys key m : keyed key m -> map_keys m = map key (map_values m).
Proof.
  unfold keyed, map_keys, map_values. induction 1 as [|[k v] m E _ IH]; cbn in *; [done|]. by rewrite E, IH.
Qed.
End maps.

Lemma load_all_append {V} (key : V -> string) (l : list V) acc :
  NoDup (map_keys acc ++ map key l) ->
  fold_left (fun m v => map_set (key v) v m) l acc = acc ++ map (fun v => (key v, v)) l.
Proof.
  revert acc. induction l as [|v l IH]; intros acc; cbn; [intros _; by rewrite app_nil_r|]. intros Hnd.
  assert (map_get (key v) acc = None) as Hn.
  { apply map_get_None. intros Hin. apply NoDup_app in Hnd as (_ & Hd & _). apply (Hd _ Hin). apply elem_of_cons. by left. }
  rewrite map_set_new by done. rewrite IH, <- app_assoc; [done|].
  unfold map_keys in *. rewrite fmap_app, <- app_assoc. done.
Qed.

(** Loading the values of a map whose keys are its values' ids gives the map back. *)
Lemma load_all_values {V} (key : V -> string) (m : list (string * V)) : map_wf m -> keyed key m ->
  load_all key (map_values m) = m.
Proof.
  intros Hw Hk. unfold load_all. rewrite load_all_append; cbn.
  - unfold keyed, map_values in *. clear Hw. induction Hk as [|[k v] m E _ IH]; cbn in *; [done|]. by rewrite IH, <- E.
  - rewrite <- (hub_keyed_keys key m Hk). exact Hw.
Qed.

Definition occ : list string -> string -> nat := count_occ (decide_rel (=@{string})).

#[local] Arguments occ : simpl never.

Lemma occ_nil x : occ [] x = 0%nat.
Proof. done. Qed.

Lemma occ_app l k x : occ (l ++ k) x = (occ l x + occ k x)%nat.
Proof. apply count_occ_app. Qed.

Lemma occ_cons y l x : occ (y :: l) x = (if decide (y = x) then S (occ l x) else occ l x).
Proof. unfold occ. cbn. destruct (decide_rel _ y x), (decide (y = x)); done || congruence. Qed.

Lemma occ_zero l x : occ l x = 0%nat <-> x ∉ l.
Proof. unfold occ. rewrite <- count_occ_not_In. by rewrite list_elem_of_In. Qed.

Lemma occ_delete l i y x : l !! i = Some y -> occ l x = (occ [y] x + occ (delete i l) x)%nat.
Proof.
  intros Hi. pose proof (f_equal (fun l => occ l x) (take_drop_middle l i y Hi)) as E. cbn beta in E.
  rewrite occ_app, occ_cons in E. rewrite delete_take_drop, occ_app, occ_cons. rewrite occ_nil. case_decide; lia.
Qed.

(** ** The store's round trip *)

Section hub.
Variable iso : Z -> string.
Variable date_parse : string -> Z.
Variable hmac : string -> string -> string.
Variable stringify : WebhookEvent -> string.
Variable compare : string -> string -> comparison.

Lemma normalize_stored_delivery d : normalizeDelivery iso (stored_delivery d) = d.
Proof. by destruct d. Qed.

Lemma normalize_stored_subscription (s : StoredSubscription) :
  previous_secret_versions s = map ps_version (previous_secrets s) ->
  normalizeSubscription iso (stored_subscription s) = s.
Proof. destruct s as [[] ? ?]. cbn. by intros ->. Qed.

(** Two deliveries that differ at most in the signature that was not persisted. *)
Definition same_delivery (a b : WebhookDeliveryRecord) : Prop := a = b \/ exists v w, b = signed v w a.

Lemma same_delivery_refl d : same_delivery d d.
Proof. by left. Qed.

Lemma same_fields a b : same_delivery a b -> d_id a = d_id b /\ subscription_id a = subscription_id b /\
  event_id a = event_id b /\ state a = state b /\ attempt_count a = attempt_count b /\ next_attempt_at a = next_attempt_at b.
Proof. by intros [->|(v & w & ->)]. Qed.

(** What goes on for a delivery: timers, requests and work to do. *)
Definition activity (h : hub) (todo : list string) (k : string) : nat :=
  occ ((timers h).*1 ++ map fl_delivery (flights h) ++ todo) k.

Definition on_disk (h : hub) (e : string) : Prop := e ∈ map ev_id (snap_events (disk h)).

#[local] Arguments activity : simpl never.

Record hub_ok (restarts : Z) (log : list string) (todo : list string) (h : hub) : Prop := {
  ok_persistent : persistent (opts h) = true;
  ok_attempts : 1 <= maxAttempts (opts h);
  ok_restarts : 0 <= restarts;
  ok_subs : map_wf (subscriptions h) /\ keyed (fun s : StoredSubscription => sr_id s) (subscriptions h);
  ok_versions : Forall (fun kv => previous_secret_versions (sub kv.2) = map ps_version (previous_secrets kv.2)) (subscriptions h);
  ok_dels : map_wf (deliveries h) /\ keyed d_id (deliveries h);
  ok_events : map_wf (hub_events h) /\ keyed ev_id (hub_events h);
  ok_refs : Forall (fun kv => map_has (subscription_id kv.2) (subscriptions h) = true /\ on_disk h (event_id kv.2)) (deliveries h);
  ok_activity : forall k, activity h todo k =
    match map_get k (deliveries h) with Some d => if unfinished d then 1%nat else 0%nat | None => 0%nat end;
  ok_log : forall k, Z.of_nat (occ log k) =
    match map_get k (deliveries h) with Some d => attempt_count d | None => 0 end;
  ok_bound : forall k d, map_get k (deliveries h) = Some d -> attempt_count d <= maxAttempts (opts h) + restarts;
  ok_timers : forall k d, k ∈ (timers h).*1 -> map_get k (deliveries h) = Some d -> attempt_count d < maxAttempts (opts h) + restarts;
  ok_disk_subs : snap_subscriptions (disk h) = map_values (subscriptions h);
  ok_disk_dels : Forall2 same_delivery (snap_deliveries (disk h)) (map_values (deliveries h));
  ok_disk_events : exists later, map_values (hub_events h) = snap_events (disk h) ++ later;
}.

#[local] Abbreviation get_d h k := (map_get k (deliveries h)).

Lemma persist_on h : persistent (opts h) = true ->
  persistState h = {| opts := opts h; subscriptions := subscriptions h; deliveries := deliveries h; hub_events := hub_events h;
                      timers := timers h; flights := flights h; disk := snapshot h |}.
Proof. unfold persistState. by intros ->. Qed.

Lemma persist_fields h : opts (persistState h) = opts h /\ subscriptions (persistState h) = subscriptions h /\
  deliveries (persistState h) = deliveries h /\ hub_events (persistState h) = hub_events h /\
  timers (persistState h) = timers h /\ flights (persistState h) = flights h.
Proof. unfold persistState. by destruct (persistent (opts h)). Qed.

(** Everything of the invariant but the snapshot; [persistState] gives the rest. *)
Record hub_core (restarts : Z) (log todo : list string) (h : hub) : Prop := {
  co_persistent : persistent (opts h) = true;
  co_attempts : 1 <= maxAttempts (opts h);
  co_restarts : 0 <= restarts;
  co_subs : map_wf (subscriptions h) /\ keyed (fun s : StoredSubscription => sr_id s) (subscriptions h);
  co_versions : Forall (fun kv => previous_secret_versions (sub kv.2) = map ps_version (previous_secrets kv.2)) (subscriptions h);
  co_dels : map_wf (deliveries h) /\ keyed d_id (deliveries h);
  co_events : map_wf (hub_events h) /\ keyed ev_id (hub_events h);
  co_refs : Forall (fun kv => map_has (subscription_id kv.2) (subscriptions h) = true /\
                              map_has (event_id kv.2) (hub_events h) = true) (deliveries h);
  co_activity : forall k, activity h todo k =
    match get_d h k with Some d => if unfinished d then 1%nat else 0%nat | None => 0%nat end;
  co_log : forall k, Z.of_nat (occ log k) = match get_d h k with Some d => attempt_count d | None => 0 end;
  co_bound : forall k d, get_d h k = Some d -> attempt_count d <= maxAttempts (opts h) + restarts;
  co_timers : forall k d, k ∈ (timers h).*1 -> get_d h k = Some d -> attempt_count d < maxAttempts (opts h) + restarts;
}.

(** Only the snapshot differs. *)
Lemma core_ext r log todo h h' : hub_core r log todo h -> opts h' = opts h -> subscriptions h' = subscriptions h ->
  deliveries h' = deliveries h -> hub_events h' = hub_events h -> timers h' = timers h -> flights h' = flights h ->
  hub_core r log todo h'.
Proof.
  intros [] Eo Es Ed Ee Et Ef. assert (forall k, activity h' todo k = activity h todo k) as Ea
    by (intros k; unfold activity; by rewrite Et, Ef).
  split; rewrite ?Eo, ?Es, ?Ed, ?Ee, ?Et; try done. intros k. by rewrite Ea.
Qed.

Lemma has_on_disk (h : hub) e : map_wf (hub_events h) -> keyed ev_id (hub_events h) ->
  map_has e (hub_events h) = true -> e ∈ map ev_id (map_values (hub_events h)).
Proof. intros Hw Hk He%map_has_keys. by rewrite (hub_keyed_keys ev_id _ Hk) in He. Qed.

Lemma ok_of_core r log todo h : hub_core r log todo h ->
  snap_subscriptions (disk h) = map_values (subscriptions h) ->
  Forall2 same_delivery (snap_deliveries (disk h)) (map_values (deliveries h)) ->
  snap_events (disk h) = map_values (hub_events h) -> hub_ok r log todo h.
Proof.
  intros [] Hs Hd He. destruct co_events0 as [Hew Hek]. split; try done.
  - eapply Forall_impl; [exact co_refs0|]. intros [k d] [H1 H2]. split; [done|]. unfold on_disk. rewrite He. by apply has_on_disk.
  - exists []. by rewrite app_nil_r.
Qed.

Lemma hub_persist_ok r log todo h : hub_core r log todo h -> hub_ok r log todo (persistState h).
Proof.
  intros Hc. rewrite persist_on by apply Hc. apply ok_of_core; [|done| |done].
  - by apply (core_ext _ _ _ _ _ Hc).
  - cbn. unfold sanitizeDelivery. rewrite map_id. apply Forall_Forall2_diag, Forall_forall. auto using same_delivery_refl.
Qed.

Lemma ok_core r log todo h : hub_ok r log todo h -> hub_core r log todo h.
Proof.
  intros []. split; try done. destruct ok_disk_events0 as [later E]. destruct ok_events0 as [Hew Hek].
  eapply Forall_impl; [exact ok_refs0|]. intros [k d] [H1 H2]. split; [done|].
  apply map_has_keys. rewrite (hub_keyed_keys ev_id _ Hek), E, map_app. apply elem_of_app. by left.
Qed.

Lemma activity_cons h k todo x : activity h (k :: todo) x = (activity h todo x + occ [k] x)%nat.
Proof. unfold activity. rewrite !occ_app, (occ_cons k todo), (occ_cons k []). rewrite occ_nil. case_decide; lia. Qed.

Lemma occ_single k x : occ [k] x = if decide (k = x) then 1%nat else 0%nat.
Proof. by rewrite occ_cons. Qed.

(** A delivery replaced by a later version of itself, [n] requests of it sent. *)
Record update (n : Z) (d d' : WebhookDeliveryRecord) : Prop := {
  up_id : d_id d' = d_id d;
  up_sub : subscription_id d' = subscription_id d;
  up_event : event_id d' = event_id d;
  up_attempts : attempt_count d' = attempt_count d + n;
}.

(** Replace a delivery, the timers and the requests: what must be checked. *)
Lemma core_replace r log todo h k d d' n log' todo' ts fs :
  hub_core r log todo h -> get_d h k = Some d -> update n d d' -> attempt_count d' <= maxAttempts (opts h) + r ->
  let h' := set_flights fs (set_timers ts (set_deliveries_of k d' h)) in
  (forall x, x <> k -> activity h' todo' x = activity h todo x) ->
  activity h' todo' k = (if unfinished d' then 1%nat else 0%nat) ->
  (forall x, Z.of_nat (occ log' x) = Z.of_nat (occ log x) + (if decide (x = k) then n else 0)) ->
  (forall x d0, x ∈ ts.*1 -> map_get x (deliveries h') = Some d0 -> attempt_count d0 < maxAttempts (opts h) + r) ->
  hub_core r log' todo' h'.
Proof.
  intros [] Hd [] Hmax h' Ha1 Ha2 Hlog Hts.
  assert (d_id d' = k) as Hid by (rewrite up_id0; eapply keyed_get; [apply co_dels0|exact Hd]).
  split; try done.
  - destruct co_dels0 as [Hw Hk]. split; [by apply map_wf_set|]. apply hub_keyed_set; [done|done].
  - apply map_set_Forall; [done|]. cbn. rewrite up_sub0, up_event0.
    rewrite Forall_forall in co_refs0. apply (co_refs0 (k, d)). by apply map_get_elem.
  - intros x. change (deliveries h') with (map_set k d' (deliveries h)). rewrite map_get_set. case_decide; subst; [done|]. rewrite Ha1 by done. apply co_activity0.
  - intros x. unfold h'. cbn. rewrite map_get_set, Hlog, co_log0. case_decide; subst; [|lia]. rewrite Hd. lia.
  - intros x d0. unfold h'. cbn. rewrite map_get_set. case_decide; subst; [|apply co_bound0]. by intros [= <-].
Qed.

Lemma update_attempted now d : update 1 d (attempted iso now d).
Proof. by split. Qed.

Lemma update_signed n d v w d' : update n d d' -> update n d (signed v w d').
Proof. intros []. by split. Qed.

Lemma unfinished_activity r log todo h k : hub_core r log (k :: todo) h ->
  exists d, get_d h k = Some d /\ unfinished d = true /\ activity h todo k = 0%nat.
Proof.
  intros []. specialize (co_activity0 k). rewrite activity_cons, occ_single, decide_True in co_activity0 by done.
  destruct (get_d h k) as [d|]; [|lia]. exists d. destruct (unfinished d); [|lia]. repeat split; lia.
Qed.

Lemma persist_disk h : persistent (opts h) = true -> disk (persistState h) = snapshot h.
Proof. intros E. by rewrite persist_on. Qed.

(** [dispatch] sends one request of the delivery it is called for, and only it changes. *)
Lemma dispatch_ok r log todo h k now : hub_ok r log (k :: todo) h ->
  (forall d, get_d h k = Some d -> attempt_count d < maxAttempts (opts h) + r) ->
  let h' := dispatch iso hmac stringify now k h in
  hub_ok r (log ++ [k]) todo h' /\ timers h' = timers h /\ opts h' = opts h /\
  (exists f, flights h' = flights h ++ [f] /\ fl_delivery f = k) /\
  (forall x, x <> k -> get_d h' x = get_d h x).
Proof.
  intros Hok Hlt. pose proof (ok_core _ _ _ _ Hok) as Hc.
  destruct (unfinished_activity _ _ _ _ _ Hc) as (d & Hd & Hu & Ha0). specialize (Hlt d Hd).
  pose proof (co_refs _ _ _ _ Hc) as Hrefs. rewrite Forall_forall in Hrefs.
  destruct (Hrefs (k, d)) as [Hs He]; [by apply map_get_elem|]. cbn in Hs, He.
  unfold map_has in Hs, He. cbv zeta. unfold dispatch. rewrite Hd.
  destruct (map_get (subscription_id d) (subscriptions h)) as [s|] eqn:Es; [|done].
  destruct (map_get (event_id d) (hub_events h)) as [ev|] eqn:Ee; [|done]. clear Hs He. cbv zeta.
  rewrite persist_on by apply (co_persistent _ _ _ _ Hc).
  set (d1 := attempted iso now d). set (d2 := signed _ _ _). cbn [opts subscriptions deliveries hub_events timers flights disk
    set_deliveries_of set_deliveries set_flights].
  set (f := Build_flight _ _ _ _ _ _).
  assert (update 1 d d1) as U1 by apply update_attempted. assert (update 1 d d2) as U2 by apply update_signed, U1.
  set (h1 := set_deliveries_of k d1 h).
  assert (hub_core r (log ++ [k]) todo (set_flights (flights h ++ [f]) (set_timers (timers h) (set_deliveries_of k d2 h)))) as Hc2.
  { eapply (core_replace _ _ _ _ _ _ _ 1); [exact Hc|exact Hd|exact U2|rewrite (up_attempts _ _ _ U2); lia| | | |].
    - intros x Hx. unfold activity. cbn. rewrite !occ_app, map_app, occ_app. cbn. rewrite !occ_cons.
      rewrite !decide_False by done. rewrite occ_nil. lia.
    - unfold activity in *. cbn. rewrite !occ_app, map_app, occ_app in *. cbn. rewrite !occ_cons, decide_True by done.
      replace (unfinished d2) with true by done. rewrite occ_nil. lia.
    - intros x. rewrite occ_app, occ_single, Nat2Z.inj_add. destruct (decide (k = x)), (decide (x = k)); subst; done || lia.
    - intros x d0 Hx. cbn. rewrite map_get_set. case_decide as Hxk; [|by apply (co_timers _ _ _ _ Hc)]. subst x. exfalso.
      unfold activity in Ha0. rewrite occ_app in Ha0. assert (occ (timers h).*1 k = 0%nat) as E by lia.
      by apply occ_zero in E. }
  split; [|split; [done|split; [done|split; [by exists f|]]]].
  - apply ok_of_core.
    + apply (core_ext _ _ _ _ _ Hc2); try done. cbn. apply map_set_set.
    + done.
    + cbn. unfold sanitizeDelivery. rewrite map_id.
      apply (map_set_values same_delivery k d1 d2); [apply same_delivery_refl|apply map_get_set_eq|]. right. by eexists _, _.
    + done.
  - intros x Hx. cbn. by rewrite !map_get_set_ne.
Qed.

(** [finish] either completes the delivery or arms its next attempt. *)
Lemma finish_ok r log todo h k now out : hub_ok r log (k :: todo) h ->
  hub_ok r log todo (finish iso now k out h) /\ opts (finish iso now k out h) = opts h /\
  flights (finish iso now k out h) = flights h.
Proof.
  intros Hok. pose proof (ok_core _ _ _ _ Hok) as Hc.
  destruct (unfinished_activity _ _ _ _ _ Hc) as (d & Hd & Hu & Ha0).
  unfold finish. rewrite Hd. cbv zeta.
  set (status := match out with Response c => Some c | Failed _ => last_status_code d end).
  assert (forall st c nx er, unfinished (concluded st c nx status er d) = false ->
    hub_core r log todo (set_deliveries_of k (concluded st c nx status er d) h)) as Hdone.
  { intros st c nx er Hun.
    change (set_deliveries_of k (concluded st c nx status er d) h) with
      (set_flights (flights h) (set_timers (timers h) (set_deliveries_of k (concluded st c nx status er d) h))).
    eapply (core_replace _ _ _ _ _ _ _ 0); [exact Hc|exact Hd|by split; cbn; try lia|apply (co_bound _ _ _ _ Hc k d Hd)| | | |].
    - intros x Hx. rewrite activity_cons, occ_single, decide_False by done. unfold activity. cbn. lia.
    - rewrite Hun. exact Ha0.
    - intros x. case_decide; lia.
    - intros x d0 Hx. cbn. rewrite map_get_set. case_decide as Hxk; [|by apply (co_timers _ _ _ _ Hc)].
      intros _. subst x. exfalso. unfold activity in Ha0. rewrite occ_app in Ha0.
      assert (occ (timers h).*1 k = 0%nat) as E by lia. by apply occ_zero in E. }
  destruct (match out with Response c => response_ok c | Failed _ => false end);
    [|destruct (Z.leb_spec (maxAttempts (opts h)) (attempt_count d)) as [|Hlt]].
  - split; [apply hub_persist_ok, Hdone; done|]. pose proof (persist_fields (set_deliveries_of k
      (concluded delivered true (next_attempt_at d) status (last_error d) d) h)) as (-> & _ & _ & _ & _ & ->). done.
  - split; [apply hub_persist_ok, Hdone; done|]. match goal with |- opts (persistState ?x) = _ /\ _ =>
      pose proof (persist_fields x) as (-> & _ & _ & _ & _ & ->) end. done.
  - split; [|match goal with |- opts (persistState ?x) = _ /\ _ => pose proof (persist_fields x) as (-> & _ & _ & _ & _ & ->) end; done].
    apply hub_persist_ok. set (d' := concluded retrying _ _ _ _ _). set (delay := retry_delay _ _).
    change (set_timers _ _) with (set_flights (flights h) (set_timers (timers h ++ [(k, delay)]) (set_deliveries_of k d' h))).
    eapply (core_replace _ _ _ _ _ _ _ 0); [exact Hc|exact Hd|by split; cbn; try lia|apply (co_bound _ _ _ _ Hc k d Hd)| | | |].
    + intros x Hx. rewrite activity_cons, occ_single, decide_False by done. unfold activity. cbn.
      rewrite fmap_app, !occ_app. cbn. rewrite occ_cons, decide_False, occ_nil by done. lia.
    + replace (unfinished d') with true by done. unfold activity in *. cbn. rewrite fmap_app, !occ_app in *. cbn.
      rewrite occ_cons, decide_True, occ_nil by done. lia.
    + intros x. case_decide; lia.
    + intros x d0 Hx. cbn. rewrite map_get_set. case_decide as Hxk.
      * intros [= <-]. cbn. pose proof (co_restarts _ _ _ _ Hc). lia.
      * rewrite fmap_app, elem_of_app in Hx. destruct Hx as [Hx|Hx]; [by apply (co_timers _ _ _ _ Hc)|].
        cbn in Hx. by apply list_elem_of_singleton in Hx.
Qed.

Lemma ok_perm r log todo todo' h : Permutation todo todo' -> hub_ok r log todo h -> hub_ok r log todo' h.
Proof.
  intros Hp []. split; try done. intros k. rewrite <- ok_activity0. unfold activity. rewrite !occ_app. do 2 f_equal.
  apply Permutation_count_occ, Permutation_sym, Hp.
Qed.

(** [h'] is [h] with more deliveries. *)
Record extends (h h' : hub) : Prop := {
  ex_opts : opts h' = opts h;
  ex_subs : subscriptions h' = subscriptions h;
  ex_events : hub_events h' = hub_events h;
  ex_timers : timers h' = timers h;
  ex_flights : flights h' = flights h;
}.

Lemma extends_trans h1 h2 h3 : extends h1 h2 -> extends h2 h3 -> extends h1 h3.
Proof. intros [] []. split; congruence. Qed.

Lemma create_delivery_fields id now s ev h : extends h (createDelivery iso id now s ev h) /\
  forall x, get_d (createDelivery iso id now s ev h) x =
    if decide (x = id) then get_d (createDelivery iso id now s ev h) id else get_d h x.
Proof.
  unfold createDelivery. cbv zeta. set (d := Build_WebhookDeliveryRecord _ _ _ _ _ _ _ _ _ _ _ _ _ _ _ _ _).
  destruct (persist_fields (set_deliveries (map_set id d (deliveries h)) h)) as (Eo & Es & Ed & Ee & Et & Ef).
  split; [by split|]. intros x. rewrite Ed. cbn. rewrite map_get_set, map_get_set_eq. done.
Qed.

Lemma create_delivery_ok r log todo id now s ev h : hub_ok r log todo h -> get_d h id = None ->
  map_has (sr_id (sub s)) (subscriptions h) = true -> map_has (ev_id ev) (hub_events h) = true ->
  hub_ok r log (id :: todo) (createDelivery iso id now s ev h) /\
  exists d, get_d (createDelivery iso id now s ev h) id = Some d /\ attempt_count d = 0.
Proof.
  intros Hok Hid Hs He. pose proof (ok_core _ _ _ _ Hok) as []. unfold createDelivery. cbv zeta.
  set (d := Build_WebhookDeliveryRecord _ _ _ _ _ _ _ _ _ _ _ _ _ _ _ _ _).
  set (h1 := set_deliveries (map_set id d (deliveries h)) h).
  split; [|exists d; destruct (persist_fields h1) as (_ & _ & -> & _); cbn; by rewrite map_get_set_eq].
  apply hub_persist_ok. split; try done.
  - destruct co_dels0. split; [by apply map_wf_set|by apply hub_keyed_set].
  - apply map_set_Forall; [done|]. done.
  - intros k. rewrite activity_cons, occ_single. change (activity h1 todo k) with (activity h todo k).
    rewrite co_activity0. cbn. rewrite map_get_set.
    destruct (decide (id = k)) as [<-|]; [by rewrite decide_True, Hid|]. rewrite decide_False by done. lia.
  - intros k. rewrite co_log0. cbn. rewrite map_get_set. case_decide; subst; [by rewrite Hid|done].
  - intros k d0. cbn. rewrite map_get_set. case_decide; [|apply co_bound0]. intros [= <-]. cbn. lia.
  - intros k d0 Hk. cbn. rewrite map_get_set. case_decide; [|by apply co_timers0]. intros [= <-]. cbn. lia.
Qed.

Definition refs_ok (h : hub) (todo : list (StoredSubscription * WebhookEvent)) : Prop :=
  Forall (fun se => map_has (sr_id (sub se.1)) (subscriptions h) = true /\ map_has (ev_id se.2) (hub_events h) = true) todo.

Definition fresh_ids (h : hub) (ids : list string) : Prop := NoDup ids /\ Forall (fun id => get_d h id = None) ids.

Lemma create_deliveries_ok r log ids now work todo h : hub_ok r log todo h -> fresh_ids h ids ->
  refs_ok h work -> (length work <= length ids)%nat ->
  let c := create_deliveries iso ids now work h in
  hub_ok r log (c.2 ++ todo) c.1 /\ extends h c.1 /\ c.2 = take (length work) ids /\
  Forall (fun k => exists d, get_d c.1 k = Some d /\ attempt_count d = 0) c.2 /\
  (forall x, x ∉ c.2 -> get_d c.1 x = get_d h x).
Proof.
  revert ids todo h. induction work as [|[s ev] work IH]; intros ids todo h Hok [Hnd Hfr] Hrefs Hlen.
  - destruct ids; cbn; (split; [done|split; [by split|split; [done|split; [constructor|done]]]]).
  - destruct ids as [|id ids]; [cbn in Hlen; lia|]. cbn [create_deliveries].
    apply Forall_cons in Hfr as [Hid Hfr]. apply NoDup_cons in Hnd as [Hni Hnd]. apply Forall_cons in Hrefs as [[Hs He] Hrefs].
    cbn in Hs, He. destruct (create_delivery_ok _ _ _ id now s ev h Hok Hid Hs He) as (Hok1 & d1 & Hd1 & Ha1).
    destruct (create_delivery_fields id now s ev h) as [[Eo Es Ee Et Ef] Hget]. set (h1 := createDelivery iso id now s ev h) in *.
    destruct (IH ids (id :: todo) h1) as (Hok2 & Hex & Hids & Hnew & Hother).
    + done.
    + split; [done|]. rewrite Forall_forall in *. intros x Hx. rewrite Hget, decide_False; [by apply Hfr|congruence].
    + unfold refs_ok. by rewrite Es, Ee.
    + cbn in Hlen. lia.
    + set (c := create_deliveries iso ids now work h1) in *. cbn [fst snd length take].
      assert (id ∉ c.2) as Hic by (rewrite Hids; intros Hin; apply Hni; apply elem_of_take in Hin as (i & Hi & _);
        by eapply list_elem_of_lookup_2).
      split; [eapply ok_perm; [|exact Hok2]; symmetry; apply Permutation_middle|].
      split; [by eapply extends_trans; [|exact Hex]|]. split; [by rewrite Hids|]. split.
      * constructor; [|done]. rewrite (Hother id Hic). by exists d1.
      * intros x Hx. apply not_elem_of_cons in Hx as [Hx1 Hx2]. by rewrite Hother, Hget, decide_False.
Qed.

Lemma dispatch_all_ok r log todo ids now h : hub_ok r log (ids ++ todo) h -> NoDup ids ->
  Forall (fun k => exists d, get_d h k = Some d /\ attempt_count d < maxAttempts (opts h) + r) ids ->
  let h' := dispatch_all iso hmac stringify now ids h in
  hub_ok r (log ++ ids) todo h' /\ timers h' = timers h /\ opts h' = opts h /\
  exists fs, flights h' = flights h ++ fs /\ map fl_delivery fs = ids.
Proof.
  revert log h. induction ids as [|k ids IH]; intros log h Hok Hnd Hlt.
  - cbn. rewrite app_nil_r. split; [done|]. split; [done|]. split; [done|]. exists []. by rewrite app_nil_r.
  - cbn [dispatch_all fold_left]. apply NoDup_cons in Hnd as [Hni Hnd]. apply Forall_cons in Hlt as [(d & Hd & Hlt) Hrest].
    destruct (dispatch_ok _ _ _ _ _ now Hok) as (Hok1 & Et & Eo & (f & Ef & Hf) & Hget).
    { intros d0 Hd0. rewrite Hd in Hd0. by injection Hd0 as <-. }
    destruct (IH _ _ Hok1 Hnd) as (Hok2 & Et2 & Eo2 & fs & Ef2 & Hfs).
    { rewrite Forall_forall in *. intros x Hx. rewrite Hget, Eo by (intros ->; done). by apply Hrest. }
    unfold dispatch_all in *. cbn [fold_left] in *.
    split; [replace (log ++ k :: ids) with ((log ++ [k]) ++ ids) by (by rewrite <- app_assoc); done|]. split; [congruence|]. split; [congruence|].
    exists (f :: fs). rewrite Ef2, Ef, <- app_assoc. split; [done|]. cbn. by rewrite Hf, Hfs.
Qed.

(** Creating deliveries and sending their first requests. *)
Lemma launch_ok r log ids now work h : hub_ok r log [] h -> fresh_ids h ids -> refs_ok h work -> (length work <= length ids)%nat ->
  let c := create_deliveries iso ids now work h in
  let h' := dispatch_all iso hmac stringify now c.2 c.1 in
  hub_ok r (log ++ c.2) [] h' /\ timers h' = timers h /\ opts h' = opts h /\
  exists fs, flights h' = flights h ++ fs /\ map fl_delivery fs = c.2.
Proof.
  intros Hok Hfr Hrefs Hlen.
  destruct (create_deliveries_ok _ _ _ now _ _ _ Hok Hfr Hrefs Hlen) as (Hok1 & [Eo Es Ee Et Ef] & Hids & Hnew & _).
  destruct (dispatch_all_ok _ _ _ _ now _ Hok1) as (Hok2 & Et2 & Eo2 & fs & Ef2 & Hfs).
  - rewrite Hids. eapply sublist_NoDup; [apply Hfr|]. apply sublist_take.
  - rewrite Forall_forall in *. intros k Hk. destruct (Hnew k Hk) as (d & Hd & Ha). exists d. split; [done|].
    rewrite Ha. destruct Hok1. lia.
  - cbv zeta. split; [done|]. split; [congruence|]. split; [congruence|]. exists fs. split; [congruence|done].
Qed.

(** ** Every operation keeps the invariant *)

Lemma has_value {V} (key : V -> string) (m : list (string * V)) v : keyed key m -> v ∈ map_values m -> map_has (key v) m = true.
Proof.
  intros Hk Hv. apply map_has_keys. rewrite (hub_keyed_keys key m Hk). by apply list_elem_of_fmap_2.
Qed.

Lemma add_event_ok r log todo h ev : hub_ok r log todo h -> map_get (ev_id ev) (hub_events h) = None ->
  hub_ok r log todo (set_events (map_set (ev_id ev) ev (hub_events h)) h).
Proof.
  intros [] Hn. split; try done.
  - destruct ok_events0. split; [by apply map_wf_set|by apply hub_keyed_set].
  - destruct ok_disk_events0 as [later E]. cbn. rewrite map_set_new by done. exists (later ++ [ev]).
    unfold map_values in *. rewrite fmap_app, E, <- app_assoc. done.
Qed.

Lemma add_subscription_ok r log todo h s : hub_ok r log todo h ->
  previous_secret_versions (sub s) = map ps_version (previous_secrets s) ->
  hub_ok r log todo (persistState (set_subscriptions (map_set (sr_id (sub s)) s (subscriptions h)) h)).
Proof.
  intros Hok Hv. pose proof (ok_core _ _ _ _ Hok) as []. apply hub_persist_ok. split; try done.
  - destruct co_subs0. split; [by apply map_wf_set|by apply hub_keyed_set].
  - by apply map_set_Forall.
  - eapply Forall_impl; [exact co_refs0|]. intros [k d] [H1 H2]. split; [|done]. cbn in *.
    unfold map_has in *. rewrite map_get_set. by case_decide.
Qed.

Lemma fire_ok r log h i k delay : hub_ok r log [] h -> timers h !! i = Some (k, delay) ->
  hub_ok r log [k] (set_timers (delete i (timers h)) h) /\
  forall d, get_d h k = Some d -> attempt_count d < maxAttempts (opts h) + r.
Proof.
  intros [] Hi. assert ((timers h).*1 !! i = Some k) as Hk by (by rewrite list_lookup_fmap, Hi).
  split; [|intros d; apply ok_timers0; by eapply list_elem_of_lookup_2].
  split; try done.
  - intros x. rewrite <- ok_activity0. unfold activity. cbn.
    rewrite !occ_app, (occ_delete _ _ _ x Hk), list_fmap_delete, !occ_nil. lia.
  - intros x d Hx. apply ok_timers0. cbn in Hx. rewrite list_fmap_delete in Hx. by eapply list_elem_of_delete_inv.
Qed.

Lemma answer_ok r log h i f : hub_ok r log [] h -> flights h !! i = Some f ->
  hub_ok r log [fl_delivery f] (set_flights (delete i (flights h)) h).
Proof.
  intros [] Hi. assert (map fl_delivery (flights h) !! i = Some (fl_delivery f)) as Hk by (by rewrite list_lookup_fmap, Hi).
  assert (map fl_delivery (delete i (flights h)) = delete i (map fl_delivery (flights h))) as E by apply list_fmap_delete.
  split; try done. intros x. rewrite <- ok_activity0. unfold activity. cbn.
  rewrite E, !occ_app, (occ_delete _ _ _ x Hk), !occ_nil. lia.
Qed.

(** ** Restarting *)

Lemma loaded_get {V} (key : V -> string) (l : list V) k v : map_get k (map (fun v => (key v, v)) l) = Some v -> key v = k.
Proof. intros H%map_get_elem. apply list_elem_of_fmap in H as (w & [= -> ->] & _). done. Qed.

Lemma occ_filter {V} (key : V -> string) (p : V -> bool) (l : list V) k : NoDup (map key l) ->
  occ (map key (List.filter p l)) k =
  match map_get k (map (fun v => (key v, v)) l) with Some v => if p v then 1%nat else 0%nat | None => 0%nat end.
Proof.
  induction l as [|v l IH]; cbn; [done|]. intros [Hn Hnd]%NoDup_cons.
  assert (key v = k -> occ (map key (List.filter p l)) k = 0%nat) as Hz.
  { intros <-. apply occ_zero. intros Hin. apply Hn. apply list_elem_of_fmap in Hin as (w & -> & Hw).
    apply list_elem_of_In, filter_In in Hw as [Hw _]. apply list_elem_of_fmap_2. by apply list_elem_of_In. }
  destruct (p v) eqn:Ep; cbn; [rewrite occ_cons|]; destruct (decide (k = key v)) as [->|Hne].
  - rewrite decide_True, Ep by done. by rewrite Hz.
  - rewrite decide_False by congruence. by apply IH.
  - by rewrite Ep, Hz.
  - by apply IH.
Qed.

(** What was stored of the deliveries, as a map. *)
Lemma same_map (ds : list WebhookDeliveryRecord) (m : list (string * WebhookDeliveryRecord)) :
  Forall2 same_delivery ds (map_values m) -> keyed d_id m ->
  map d_id ds = map_keys m /\
  forall k, match map_get k (map (fun d => (d_id d, d)) ds), map_get k m with
            | Some a, Some b => same_delivery a b
            | None, None => True
            | _, _ => False
            end.
Proof.
  unfold map_values, map_keys. revert ds. induction m as [|[k d] m IH]; intros ds; cbn.
  - intros H%Forall2_nil_inv_r _. by subst.
  - intros (a & ds' & Ha & Hf & ->)%Forall2_cons_inv_r [E Hk]%Forall_cons. cbn in E.
    destruct (IH ds' Hf Hk) as [Hkeys Hget]. destruct (same_fields _ _ Ha) as (Eid & _).
    cbn. split; [by rewrite Hkeys, Eid, E|]. intros x. rewrite Eid, <- E. case_decide; [done|apply Hget].
Qed.

Definition restarted (now : Z) (h : hub) : hub := new_hub iso date_parse (opts h) (Some (store_load (store_save (disk h)))) now.

Lemma restart_fields r log h now : hub_ok r log [] h ->
  let ds := snap_deliveries (disk h) in
  subscriptions (restarted now h) = subscriptions h /\
  deliveries (restarted now h) = map (fun d => (d_id d, d)) ds /\
  hub_events (restarted now h) = map (fun e => (ev_id e, e)) (snap_events (disk h)) /\
  timers (restarted now h) = map (fun d => (d_id d, resume_delay date_parse now d)) (List.filter unfinished ds) /\
  flights (restarted now h) = [] /\ opts (restarted now h) = opts h /\
  NoDup (map d_id ds) /\ NoDup (map ev_id (snap_events (disk h))) /\ disk (restarted now h) = snapshot (restarted now h).
Proof.
  intros [].
  assert (NoDup (map d_id (snap_deliveries (disk h)))) as Hnd.
  { destruct ok_dels0 as [Hw Hk]. destruct (same_map _ _ ok_disk_dels0 Hk) as [-> _]. exact Hw. }
  assert (NoDup (map ev_id (snap_events (disk h)))) as Hne.
  { destruct ok_events0 as [Hw Hk]. destruct ok_disk_events0 as [later E]. unfold map_wf in Hw.
    rewrite (hub_keyed_keys ev_id _ Hk), E, map_app in Hw. by apply NoDup_app in Hw as (? & _). }
  assert (load_all (fun s : StoredSubscription => sr_id s) (map (normalizeSubscription iso) (map stored_subscription (snap_subscriptions (disk h))))
    = subscriptions h) as Es.
  { rewrite map_map, ok_disk_subs0.
    assert (map (fun s => normalizeSubscription iso (stored_subscription s)) (map_values (subscriptions h)) =
            map_values (subscriptions h)) as ->; [|by apply load_all_values; apply ok_subs0].
    etransitivity; [apply (map_ext_in _ (fun s => s))|apply map_id].
    intros s Hs%list_elem_of_In%list_elem_of_fmap. destruct Hs as ([k s'] & -> & Hin).
    rewrite Forall_forall in ok_versions0. apply normalize_stored_subscription, (ok_versions0 (k, s')), Hin. }
  assert (load_all d_id (map (normalizeDelivery iso) (map stored_delivery (snap_deliveries (disk h)))) =
    map (fun d => (d_id d, d)) (snap_deliveries (disk h))) as Ed.
  { rewrite map_map. rewrite (map_ext _ (fun d => d)) by apply normalize_stored_delivery. rewrite map_id.
    unfold load_all. rewrite load_all_append; [done|]. exact Hnd. }
  assert (load_all ev_id (snap_events (disk h)) = map (fun e => (ev_id e, e)) (snap_events (disk h))) as Ee
    by (unfold load_all; by rewrite load_all_append).
  unfold restarted, new_hub, store_load, store_save. cbn [from_option id raw_subscriptions raw_deliveries raw_events].
  cbv zeta. rewrite Es, Ed, Ee. unfold resumePendingDeliveries. rewrite persist_on by done. cbn.
  split_and!; try done. do 2 f_equal. unfold map_values. rewrite <- list_fmap_compose. apply list_fmap_id.
Qed.

Lemma restart_get r log h now k : hub_ok r log [] h ->
  match get_d (restarted now h) k, get_d h k with
  | Some a, Some b => same_delivery a b
  | None, None => True
  | _, _ => False
  end.
Proof.
  intros Hok. destruct (restart_fields _ _ _ now Hok) as (_ & -> & _). destruct Hok.
  apply same_map; [done|apply ok_dels0].
Qed.

Lemma restart_ok r log h now : hub_ok r log [] h -> hub_ok (r + 1) log [] (restarted now h).
Proof.
  intros Hok. pose proof (fun k => restart_get _ _ _ now k Hok) as Hget.
  destruct (restart_fields _ _ _ now Hok) as (Es & Ed & Ee & Et & Ef & Eo & Hnd & Hne & Edisk).
  destruct Hok. set (h' := restarted now h) in *.
  assert (forall k d, get_d h' k = Some d -> exists d0, get_d h k = Some d0 /\ same_delivery d d0) as Hsome.
  { intros k d Hd. specialize (Hget k). rewrite Hd in Hget. destruct (get_d h k) as [d0|]; [by exists d0|done]. }
  apply ok_of_core; [|by rewrite Edisk| |by rewrite Edisk].
  2: { rewrite Edisk. cbn. unfold sanitizeDelivery. rewrite map_id. apply Forall_Forall2_diag, Forall_forall. auto using same_delivery_refl. }
  split; rewrite ?Eo, ?Es; try done.
  - lia.
  - rewrite Ed. split; [|apply Forall_map, Forall_forall; done].
    unfold map_wf, map_keys. rewrite <- list_fmap_compose. exact Hnd.
  - rewrite Ee. split; [|apply Forall_map, Forall_forall; done].
    unfold map_wf, map_keys. rewrite <- list_fmap_compose. exact Hne.
  - apply Forall_forall. intros [k d] Hin. destruct (Hsome k d) as (d0 & Hd0 & Hsame).
    { apply map_elem_get; [|done]. rewrite Ed. unfold map_wf, map_keys. rewrite <- list_fmap_compose. exact Hnd. }
    cbn [fst snd]. destruct (same_fields _ _ Hsame) as (_ & -> & -> & _). rewrite Forall_forall in ok_refs0.
    destruct (ok_refs0 (k, d0)) as [H1 H2]; [by apply map_get_elem|]. split; [done|]. cbn in H2.
    apply map_has_keys. rewrite Ee. unfold map_keys. rewrite <- list_fmap_compose. exact H2.
  - intros k. unfold activity. rewrite Et, Ef, Ed. cbn. rewrite !occ_app, !occ_nil, <- list_fmap_compose.
    change (occ (map d_id (List.filter unfinished (snap_deliveries (disk h)))) k + (0 + 0) = match map_get k (map (fun d => (d_id d, d)) (snap_deliveries (disk h))) with
      Some d => if unfinished d then 1 else 0 | None => 0 end)%nat. rewrite occ_filter by done. lia.
  - intros k. rewrite ok_log0. specialize (Hget k). destruct (get_d h' k) as [a|], (get_d h k) as [b|]; try done.
    by destruct (same_fields _ _ Hget) as (_ & _ & _ & _ & -> & _).
  - intros k d (d0 & Hd0 & Hsame)%Hsome. destruct (same_fields _ _ Hsame) as (_ & _ & _ & _ & -> & _).
    specialize (ok_bound0 _ _ Hd0). lia.
  - intros k d _ (d0 & Hd0 & Hsame)%Hsome. destruct (same_fields _ _ Hsame) as (_ & _ & _ & _ & -> & _).
    specialize (ok_bound0 _ _ Hd0). lia.
Qed.

(** The deliveries a replay creates. *)
Definition replay_work (input : WebhookReplayInput) (h : hub) : list (StoredSubscription * WebhookEvent) :=
  flat_map (fun e => map (fun s => (s, e)) (matchingSubscriptions e (subscription_ids input) h)) (replay_events compare input h).

(** The id factory gives new and enough identifiers. *)
Definition supplied (a : action) (h : hub) : Prop :=
  match a with
  | A_emit ids input =>
    let ids := match ie_id input with Some _ => ids | None => tail ids end in
    fresh_ids h ids /\ (length (map_values (subscriptions h)) <= length ids)%nat
  | A_replay ids input => fresh_ids h ids /\ (length (replay_work input h) <= length ids)%nat
  | _ => True
  end.

(** The deliveries whose requests an action sends. *)
Definition requests_sent (a : action) (h h' : hub) : list string :=
  match a with
  | A_emit _ _ | A_replay _ _ => map fl_delivery (drop (length (flights h)) (flights h'))
  | A_fire _ => map fl_delivery (drop (length (flights h)) (flights h'))
  | _ => []
  end.

Definition restarts_in (a : action) : Z := match a with A_restart => 1 | _ => 0 end.

Lemma emit_ok r log ids now input h : hub_ok r log [] h -> supplied (A_emit ids input) h ->
  let h' := (emit iso hmac stringify ids now input h).1 in
  hub_ok r (log ++ map fl_delivery (drop (length (flights h)) (flights h'))) [] h' /\ opts h' = opts h.
Proof.
  intros Hok [Hfr Hlen]. cbv zeta. unfold emit.
  set (id := match ie_id input with Some i => i | None => _ end). set (ids' := match ie_id input with Some _ => ids | None => _ end) in *.
  destruct (map_get id (hub_events h)) as [ev|] eqn:E.
  - cbn. rewrite drop_all. cbn. by rewrite app_nil_r.
  - set (ev := Build_WebhookEvent _ _ _). cbn [fst].
    pose proof (add_event_ok _ _ _ _ ev Hok E) as Hok1. set (h1 := set_events _ h) in *.
    destruct (launch_ok r log ids' now (map (fun s => (s, ev)) (List.filter (subscribed ev) (map_values (subscriptions h1)))) h1)
      as (Hok2 & Et & Eo & fs & Ef & Hfs); [done|done| | |].
    + apply Forall_map, Forall_forall. intros s Hs. cbn. split.
      * apply list_elem_of_In, filter_In in Hs as [Hs _]. apply (has_value (fun s : StoredSubscription => sr_id s)); [apply (ok_subs _ _ _ _ Hok)|].
        by apply list_elem_of_In.
      * unfold map_has. by rewrite map_get_set_eq.
    + rewrite length_map. etransitivity; [|exact Hlen]. apply filter_length_le.
    + change (flights h1) with (flights h) in Ef. rewrite Ef, drop_app_length, Hfs. split; [exact Hok2|exact Eo].
Qed.

Lemma replay_refs r log input h : hub_ok r log [] h -> refs_ok h (replay_work input h).
Proof.
  intros Hok. apply Forall_forall. intros [s e] Hin. apply list_elem_of_In, in_flat_map in Hin as (e' & He & Hin).
  apply in_map_iff in Hin as (s' & [= -> ->] & Hin). unfold matchingSubscriptions in Hin.
  apply filter_In in Hin as [Hin _]. apply filter_In in Hin as [Hin _]. cbn. split.
  + apply (has_value (fun s : StoredSubscription => sr_id s)); [apply (ok_subs _ _ _ _ Hok)|]. by apply list_elem_of_In.
  + apply (has_value ev_id); [apply (ok_events _ _ _ _ Hok)|]. apply list_elem_of_In in He.
    unfold replay_events in He. apply slice_to_In in He. rewrite js_sort_perm in He.
    apply list_elem_of_In, filter_In in He as [He _]. by apply list_elem_of_In.
Qed.

Lemma replay_ok r log ids now input h : hub_ok r log [] h -> supplied (A_replay ids input) h ->
  let h' := (replay iso hmac stringify compare ids now input h).1 in
  hub_ok r (log ++ map fl_delivery (drop (length (flights h)) (flights h'))) [] h' /\ opts h' = opts h.
Proof.
  intros Hok [Hfr Hlen]. cbv zeta. unfold replay. cbn [fst].
  destruct (launch_ok r log ids now (replay_work input h) h) as (Hok2 & Et & Eo & fs & Ef & Hfs); [done|done| |done|].
  - by eapply replay_refs.
  - unfold replay_work in *. rewrite Ef, drop_app_length, Hfs. split; [exact Hok2|exact Eo].
Qed.

Lemma act_ok r log now a h h' : hub_ok r log [] h -> supplied a h ->
  act iso date_parse hmac stringify compare now a h = Some h' ->
  hub_ok (r + restarts_in a) (log ++ requests_sent a h h') [] h' /\ opts h' = opts h.
Proof.
  intros Hok Hs. destruct a as [id input|id new_secret|ids input|ids input|i|i out|]; cbn [act restarts_in requests_sent];
    rewrite ?Z.add_0_r, ?app_nil_r.
  - intros [= <-]. unfold createSubscription. cbn [fst].
    split; [|by match goal with |- opts (persistState ?x) = _ => apply (persist_fields x) end].
    by match goal with |- context [map_set id ?s (subscriptions h)] => apply (add_subscription_ok _ _ _ _ s Hok) end.
  - unfold rotateSubscriptionSecret. destruct (map_get id (subscriptions h)) as [s|] eqn:E; intros [= <-]; [|done].
    assert (id = sr_id (sub s)) as -> by (symmetry; apply (keyed_get (fun s : StoredSubscription => sr_id s) id s (subscriptions h)); [apply (ok_subs _ _ _ _ Hok)|done]).
    split; [by apply (add_subscription_ok _ _ _ _ (rotated iso now new_secret s) Hok)|].
    by match goal with |- opts (persistState ?x) = _ => apply (persist_fields x) end.
  - intros [= <-]. by apply emit_ok.
  - intros [= <-]. by apply replay_ok.
  - destruct (timers h !! i) as [[k delay]|] eqn:E; [|done]. intros [= <-].
    destruct (fire_ok _ _ _ _ _ _ Hok E) as [Hok1 Hlt].
    destruct (dispatch_ok _ _ _ _ _ now Hok1 Hlt) as (Hok2 & _ & Eo & (f & Ef & Hf) & _).
    rewrite Ef. cbn [flights set_timers]. rewrite drop_app_length. cbn [map]. rewrite Hf. split; [done|exact Eo].
  - destruct (flights h !! i) as [f|] eqn:E; [|done]. intros [= <-].
    destruct (finish_ok _ _ _ _ _ now out (answer_ok _ _ _ _ _ Hok E)) as (Hok2 & Eo & _). split; [done|exact Eo].
  - intros [= <-]. split; [by apply restart_ok|]. destruct (restart_fields _ _ _ now Hok) as (_ & _ & _ & _ & _ & Eo & _). exact Eo.
Qed.

(** The runs of a hub that persists, from a first start without a store file:
    what it has sent and how often its process was restarted. *)
Inductive hub_run (o : hub_options) : list string -> Z -> hub -> Prop :=
| run_start now : hub_run o [] 0 (new_hub iso date_parse o (Some (store_load None)) now)
| run_act log r h now a h' : hub_run o log r h -> supplied a h ->
    act iso date_parse hmac stringify compare now a h = Some h' -> hub_run o (log ++ requests_sent a h h') (r + restarts_in a) h'.

Lemma run_ok o log r h : persistent o = true -> 1 <= maxAttempts o -> hub_run o log r h -> hub_ok r log [] h /\ opts h = o.
Proof.
  intros Hp Ha. induction 1 as [now|log r h now a h' _ [IH Eo] Hs Hact].
  - unfold new_hub. cbv zeta. split; [|by match goal with |- opts (persistState ?x) = _ => apply (persist_fields x) end].
    apply hub_persist_ok. split; cbn; try done; try lia; try (split; [by apply map_wf_nil|constructor]).
  - destruct (act_ok _ _ _ _ _ _ IH Hs Hact) as [Hok Eo']. split; [done|congruence].
Qed.

(** Nothing is forgotten and nothing is sent twice at once: in every state a hub
    can reach, over any sequence of API calls, answers, timers and restarts, a
    delivery that is pending or retrying has exactly one timer or request in
    progress, a delivered or dead-lettered one has none, and every timer and
    request belongs to a delivery the hub knows. *)
Theorem webhook_deliveries_accounted (o : hub_options) (log : list string) (r : Z) (h : hub)
  (Hp : persistent o = true) (Ha : 1 <= maxAttempts o) (Hrun : hub_run o log r h) :
  forall k, (occ (timers h).*1 k + occ (map fl_delivery (flights h)) k)%nat =
    match map_get k (deliveries h) with
    | Some d => if unfinished d then 1%nat else 0%nat
    | None => 0%nat
    end.
Proof.
  destruct (run_ok _ _ _ _ Hp Ha Hrun) as [Hok _]. intros k. rewrite <- (ok_activity _ _ _ _ Hok k).
  unfold activity. by rewrite app_nil_r, occ_app.
Qed.

(** Attempts are counted before they are made and survive a crash: the number of
    requests ever sent for a delivery is its attempt count, and it is at most the
    maximum plus the number of restarts, each of which can repeat the attempt the
    process died in. *)
Theorem webhook_attempts_bounded (o : hub_options) (log : list string) (r : Z) (h : hub)
  (Hp : persistent o = true) (Ha : 1 <= maxAttempts o) (Hrun : hub_run o log r h) :
  forall k, match map_get k (deliveries h) with
            | Some d => Z.of_nat (occ log k) = attempt_count d /\ attempt_count d <= maxAttempts o + r
            | None => occ log k = 0%nat
            end.
Proof.
  destruct (run_ok _ _ _ _ Hp Ha Hrun) as [Hok Eo]. intros k. pose proof (ok_log _ _ _ _ Hok k) as Hl.
  pose proof (ok_bound _ _ _ _ Hok k) as Hb. rewrite Eo in Hb.
  destruct (map_get k (deliveries h)) as [d|]; [split; [done|by apply Hb]|lia].
Qed.

(** A restart resumes exactly the work that was left: the subscriptions with
    their secrets and the deliveries are those of the process that died, except
    for the signature of a request in progress, exactly the unfinished deliveries
    are scheduled again, and the events that were lost have no delivery. *)
Theorem webhook_restart_resumes (o : hub_options) (log : list string) (r : Z) (h : hub) (now : Z)
  (Hp : persistent o = true) (Ha : 1 <= maxAttempts o) (Hrun : hub_run o log r h) :
  let h' := restarted now h in
  subscriptions h' = subscriptions h /\
  (forall k, match map_get k (deliveries h'), map_get k (deliveries h) with
             | Some a, Some b => same_delivery a b
             | None, None => True
             | _, _ => False
             end) /\
  (forall k, occ (timers h').*1 k = match map_get k (deliveries h) with
                                    | Some d => if unfinished d then 1%nat else 0%nat
                                    | None => 0%nat
                                    end) /\
  flights h' = [] /\
  exists later, map_values (hub_events h) = map_values (hub_events h') ++ later /\
    forall k d, map_get k (deliveries h) = Some d -> event_id d ∈ map ev_id (map_values (hub_events h')).
Proof.
  destruct (run_ok _ _ _ _ Hp Ha Hrun) as [Hok _]. cbv zeta.
  pose proof (restart_ok _ _ _ now Hok) as Hok'. pose proof (fun k => restart_get _ _ _ now k Hok) as Hget.
  destruct (restart_fields _ _ _ now Hok) as (Es & _ & Ee & _ & Ef & _).
  split; [done|]. split; [done|]. split; [|split; [done|]].
  - intros k. specialize (Hget k). pose proof (ok_activity _ _ _ _ Hok' k) as Hact. unfold activity in Hact.
    rewrite Ef in Hact. cbn [map app] in Hact. rewrite app_nil_r in Hact. rewrite Hact.
    destruct (map_get k (deliveries (restarted now h))) as [a|], (map_get k (deliveries h)) as [b|]; try done.
    destruct (same_fields _ _ Hget) as (_ & _ & _ & E & _). unfold unfinished. by rewrite E.
  - destruct (ok_disk_events _ _ _ _ Hok) as [later El]. exists later.
    assert (map_values (hub_events (restarted now h)) = snap_events (disk h)) as Ev.
    { rewrite Ee. unfold map_values. rewrite <- list_fmap_compose. apply list_fmap_id. }
    rewrite Ev. split; [done|]. intros k d Hd%map_get_elem.
    pose proof (ok_refs _ _ _ _ Hok) as Hr. rewrite Forall_forall in Hr. by apply (Hr (k, d)).
Qed.
End hub.
