(* ===== verification/WebhooksDelivery.v ===== *)
(** * WebhooksDelivery: what subscribers receive, and what a delivery's state means

    Further theorems on Webhooks: the requests an event causes and how they are
    signed, the meaning of the final states of a delivery, the events a restart
    forgets, the access token, and a concrete hub on which the theorems of
    WebhooksSafety are applied. *)

From Stdlib Require Import ZArith Lia Ascii Sorted.
From stdpp Require Import base list strings.
From S2P Require Import Prelude JsMap Json Webhooks WebhooksSafety.

Open Scope Z_scope.

Section hub.
Variable iso : Z -> string.
Variable date_parse : string -> Z.
Variable hmac : string -> string -> string.
Variable stringify : WebhookEvent -> string.
Variable compare : string -> string -> comparison.

#[local] Abbreviation get_d h k := (map_get k (deliveries h)).

(** ** The requests of an event *)

(** [f] carries the event to the subscription, signed with its current secret. *)
Definition request_of (now : Z) (se : StoredSubscription * WebhookEvent) (f : flight) : Prop :=
  fl_url f = url (sub se.1) /\ fl_body f = stringify se.2 /\ fl_timestamp f = z_text (now / 1000) /\
  fl_version f = secret_version (sub se.1) /\
  fl_signature f = hmac (secret se.1) (fl_timestamp f +:+ "." +:+ fl_body f).

Definition delivery_of (h : hub) (k : string) (se : StoredSubscription * WebhookEvent) : Prop :=
  exists d, get_d h k = Some d /\ subscription_id d = sr_id (sub se.1) /\ event_id d = ev_id se.2.

Lemma create_deliveries_of r log ids now work todo h : hub_ok r log todo h -> fresh_ids h ids -> refs_ok h work ->
  (length work <= length ids)%nat ->
  let c := create_deliveries iso ids now work h in Forall2 (delivery_of c.1) c.2 work.
Proof.
  revert ids todo h. induction work as [|[s ev] work IH]; intros ids todo h Hok [Hnd Hfr] Hrefs Hlen.
  - destruct ids; constructor.
  - destruct ids as [|id ids]; [cbn in Hlen; lia|]. cbn [create_deliveries].
    apply Forall_cons in Hfr as [Hid Hfr]. apply NoDup_cons in Hnd as [Hni Hnd]. apply Forall_cons in Hrefs as [[Hs He] Hrefs].
    cbn in Hs, He. destruct (create_delivery_ok iso _ _ _ id now s ev h Hok Hid Hs He) as (Hok1 & _).
    destruct (create_delivery_fields iso id now s ev h) as [[Eo Es Ee Et Ef] Hget].
    assert (exists d1, get_d (createDelivery iso id now s ev h) id = Some d1 /\ subscription_id d1 = sr_id (sub s) /\ event_id d1 = ev_id ev) as Hd1.
    { unfold createDelivery. cbv zeta. match goal with |- context [persistState ?x] => destruct (persist_fields x) as (_ & _ & -> & _) end.
      cbn. rewrite map_get_set_eq. by eexists. }
    set (h1 := createDelivery iso id now s ev h) in *.
    assert (fresh_ids h1 ids) as Hfr1.
    { split; [done|]. rewrite Forall_forall in *. intros x Hx. rewrite Hget, decide_False; [by apply Hfr|congruence]. }
    assert (refs_ok h1 work) as Hrefs1 by (unfold refs_ok; by rewrite Es, Ee).
    assert (length work <= length ids)%nat as Hlen1 by (cbn in Hlen; lia).
    destruct (create_deliveries_ok iso _ _ _ now _ _ _ Hok1 Hfr1 Hrefs1 Hlen1) as (_ & _ & Hids & _ & Hother).
    cbn [fst snd]. constructor; [|by apply (IH ids (id :: todo))].
    destruct Hd1 as (d1 & Hd1 & Hrest). exists d1. split; [|done]. rewrite Hother; [done|].
    rewrite Hids. intros Hin. apply Hni. apply elem_of_take in Hin as (i & Hi & _). by eapply list_elem_of_lookup_2.
Qed.

Lemma dispatch_request now k h d s ev : get_d h k = Some d -> map_get (subscription_id d) (subscriptions h) = Some s ->
  map_get (event_id d) (hub_events h) = Some ev ->
  let h' := dispatch iso hmac stringify now k h in
  exists f, flights h' = flights h ++ [f] /\ request_of now (s, ev) f /\
    subscriptions h' = subscriptions h /\ hub_events h' = hub_events h /\ forall x, x <> k -> get_d h' x = get_d h x.
Proof.
  intros Hd Hs He. cbv zeta. unfold dispatch. rewrite Hd, Hs, He. cbv zeta.
  destruct (persist_fields (set_deliveries_of k (attempted iso now d) h)) as (_ & Es & Ed & Ee & _ & Ef).
  eexists. cbn [flights set_flights set_deliveries_of set_deliveries subscriptions deliveries hub_events] in *.
  rewrite ?Ef, ?Es, ?Ed, ?Ee. split; [reflexivity|]. split; [by repeat split|]. split; [done|]. split; [done|].
  intros x Hx. cbn. by rewrite !map_get_set_ne.
Qed.

Definition known (h : hub) (se : StoredSubscription * WebhookEvent) : Prop :=
  map_get (sr_id (sub se.1)) (subscriptions h) = Some se.1 /\ map_get (ev_id se.2) (hub_events h) = Some se.2.

Lemma dispatch_all_requests now ids work h : NoDup ids -> Forall2 (delivery_of h) ids work -> Forall (known h) work ->
  exists fs, flights (dispatch_all iso hmac stringify now ids h) = flights h ++ fs /\ Forall2 (request_of now) work fs /\
    hub_events (dispatch_all iso hmac stringify now ids h) = hub_events h.
Proof.
  intros Hnd Hf. revert h Hnd Hf. revert work. induction ids as [|k ids IH]; intros work h Hnd Hf Hk.
  - apply Forall2_nil_inv_l in Hf as ->. exists []. rewrite app_nil_r. split; [done|]. by split; [constructor|].
  - apply Forall2_cons_inv_l in Hf as (se & work' & (d & Hd & Esub & Eev) & Hf & ->).
    apply NoDup_cons in Hnd as [Hni Hnd]. apply Forall_cons in Hk as [[Hs He] Hk].
    cbn [dispatch_all fold_left].
    destruct (dispatch_request now k h d se.1 se.2) as (f & Ef & Hr & Es & Ee & Hget); [done|by rewrite Esub|by rewrite Eev|].
    destruct (IH work' (dispatch iso hmac stringify now k h) Hnd) as (fs & Efs & Hfs & Hev).
    + eapply Forall2_impl; [|intros x y Hxy; exact Hxy]. clear -Hf Hget Hni.
      induction Hf as [|x y l l' (dx & Hx & Hxs) Hf IH]; constructor.
      * exists dx. rewrite Hget by (intros ->; apply Hni; apply elem_of_cons; by left). done.
      * apply IH. intros Hin. apply Hni. apply elem_of_cons. by right.
    + eapply Forall_impl; [exact Hk|]. intros x [H1 H2]. split; [by rewrite Es|by rewrite Ee].
    + exists (f :: fs). unfold dispatch_all in Efs. rewrite Efs, Ef, <- app_assoc. split; [done|].
      split; [constructor; [by destruct se|done]|]. unfold dispatch_all in Hev. by rewrite Hev, Ee.
Qed.

(** The event's id: the caller's if there is one, otherwise the next of the id factory. *)
Definition given_id (ids : list string) (input : WebhookEventInput) : string :=
  match ie_id input with Some i => i | None => default ""%string (head ids) end.

(** C35: an event reaches every subscriber once: on every run of a hub that persists its
    state, emitting an event whose id (the caller's, or else the id factory's) is new
    stores it under that id and sends, in the order of the subscriptions, exactly one
    request to each subscription that names its type, each signed with the
    subscription's current secret over the time and the event; emitting an id the hub
    has seen returns the event stored under it and sends nothing. *)
Theorem emit_requests_each_subscriber (log : list string) (r : Z) (ids : list string) (now : Z) (input : WebhookEventInput) (h : hub)
  (o : hub_options) (Hp : persistent o = true) (Ha : 1 <= maxAttempts o)
  (Hrun : hub_run iso date_parse hmac stringify compare o log r h) (Hs : supplied compare (A_emit ids input) h) :
  let '(h', (event, created, duplicate)) := emit iso hmac stringify ids now input h in
  ev_id event = given_id ids input /\
  if duplicate then h' = h /\ created = [] /\ map_get (ev_id event) (hub_events h) = Some event
  else map_get (ev_id event) (hub_events h) = None /\ map_get (ev_id event) (hub_events h') = Some event /\
    ev_input event = input /\ emitted_at event = iso now /\
    exists fs, flights h' = flights h ++ fs /\ length created = length fs /\
      Forall2 (request_of now) (map (fun s => (s, event)) (List.filter (subscribed event) (map_values (subscriptions h)))) fs.
Proof.
  destruct (run_ok _ _ _ _ _ _ _ _ _ Hp Ha Hrun) as [Hok _]. destruct Hs as [Hfr Hlen]. unfold emit, given_id.
  set (id := match ie_id input with Some i => i | None => _ end). set (ids' := match ie_id input with Some _ => ids | None => _ end) in *.
  destruct (map_get id (hub_events h)) as [ev|] eqn:E.
  - assert (Hid : ev_id ev = id) by by apply (keyed_get ev_id id ev (hub_events h)); [apply (ok_events _ _ _ _ Hok)|].
    split; [done|]. split; [done|]. split; [done|]. by rewrite Hid.
  - cbv zeta. set (ev := Build_WebhookEvent _ _ _). set (h1 := set_events _ h).
    set (work := map (fun s => (s, ev)) (List.filter (subscribed ev) (map_values (subscriptions h)))).
    pose proof (add_event_ok _ _ _ _ ev Hok E) as Hok1. change (set_events _ h) with h1 in Hok1.
    assert (Forall (known h1) work) as Hknown.
    { apply Forall_map, Forall_forall. intros s Hin. apply list_elem_of_In, filter_In in Hin as [Hin _].
      apply list_elem_of_In, list_elem_of_fmap in Hin as ([k s'] & -> & Hin). cbn. destruct (ok_subs _ _ _ _ Hok) as [Hw Hk].
      split; [|apply map_get_set_eq]. cbn. unfold keyed in Hk. rewrite Forall_forall in Hk. specialize (Hk _ Hin). cbn in Hk.
      rewrite <- Hk. by apply map_elem_get. }
    assert (refs_ok h1 work) as Hrefs.
    { eapply Forall_impl; [exact Hknown|]. intros x [H1 H2]. unfold map_has. by rewrite H1, H2. }
    assert (length work <= length ids')%nat as Hl.
    { unfold work. rewrite length_map. etransitivity; [apply filter_length_le|exact Hlen]. }
    destruct (create_deliveries_ok iso _ _ _ now _ _ _ Hok1 Hfr Hrefs Hl) as (_ & [Eo Es Ee Et Ef] & Hids & _ & _).
    pose proof (create_deliveries_of _ _ _ now _ _ _ Hok1 Hfr Hrefs Hl) as Hdel. cbv zeta in Hdel.
    set (c := create_deliveries iso ids' now work h1) in *.
    destruct (dispatch_all_requests now c.2 work c.1) as (fs & Efs & Hfs & Hev).
    + rewrite Hids. eapply sublist_NoDup; [apply Hfr|]. apply sublist_take.
    + exact Hdel.
    + eapply Forall_impl; [exact Hknown|]. intros x [H1 H2]. split; [by rewrite Es|by rewrite Ee].
    + split; [done|]. split; [done|]. split.
      { change (subscriptions h1) with (subscriptions h). fold work. fold c.
        rewrite Hev, Ee. apply map_get_set_eq. }
      split; [done|]. split; [done|]. exists fs.
      change (subscriptions h1) with (subscriptions h). fold work. fold c. split; [by rewrite Efs, Ef|].
      split; [|exact Hfs]. apply Forall2_length in Hdel, Hfs. lia.
Qed.

(** ** The final states *)

Definition honest (max : Z) (d : WebhookDeliveryRecord) : Prop :=
  match state d with
  | pending | retrying => True
  | delivered => exists c, last_status_code d = Some c /\ response_ok c = true /\ completed_at d = last_attempt_at d
  | dead_letter => max <= attempt_count d /\ last_error d <> None /\ completed_at d = last_attempt_at d
  end.

Definition all_honest (h : hub) : Prop := forall k d, get_d h k = Some d -> honest (maxAttempts (opts h)) d.

Lemma unfinished_honest max d : unfinished d = true -> honest max d.
Proof. unfold unfinished, honest. by destruct (state d). Qed.

Lemma honest_same max a b : same_delivery a b -> honest max b -> honest max a.
Proof. intros [->|(v & w & ->)]; done. Qed.

Lemma honest_persist h : all_honest (persistState h) <-> all_honest h.
Proof. unfold all_honest. destruct (persist_fields h) as (-> & _ & -> & _). done. Qed.

Lemma dispatch_honest r log todo h k now : hub_ok r log (k :: todo) h -> all_honest h ->
  all_honest (dispatch iso hmac stringify now k h).
Proof.
  intros Hok Hh. destruct (unfinished_activity _ _ _ _ _ (ok_core _ _ _ _ Hok)) as (d & Hd & Hu & _).
  unfold dispatch. rewrite Hd. repeat (case_match; [|done]). cbv zeta.
  destruct (persist_fields (set_deliveries_of k (attempted iso now d) h)) as (Eo & _ & Ed & _).
  intros x dx. cbn. rewrite Ed, Eo. cbn. rewrite !map_get_set. case_decide; [|apply Hh].
  intros [= <-]. by apply unfinished_honest.
Qed.

Lemma dispatch_all_honest r log todo ids now h : hub_ok r log (ids ++ todo) h -> NoDup ids ->
  Forall (fun k => exists d, get_d h k = Some d /\ attempt_count d < maxAttempts (opts h) + r) ids ->
  all_honest h -> all_honest (dispatch_all iso hmac stringify now ids h).
Proof.
  revert log h. induction ids as [|k ids IH]; intros log h Hok Hnd Hlt Hh; [done|].
  cbn [dispatch_all fold_left]. apply NoDup_cons in Hnd as [Hni Hnd]. apply Forall_cons in Hlt as [(d & Hd & Hlt) Hrest].
  destruct (dispatch_ok iso hmac stringify _ _ _ _ _ now Hok) as (Hok1 & Et & Eo & _ & Hget).
  { intros d0 Hd0. rewrite Hd in Hd0. by injection Hd0 as <-. }
  apply (IH _ _ Hok1 Hnd); [|by eapply dispatch_honest].
  rewrite Forall_forall in *. intros x Hx. rewrite Hget, Eo by (intros ->; done). by apply Hrest.
Qed.

Lemma create_deliveries_honest now work ids h : all_honest h -> all_honest (create_deliveries iso ids now work h).1.
Proof.
  revert ids h. induction work as [|[s ev] work IH]; intros ids h Hh; [by destruct ids|]. destruct ids as [|id ids]; [done|].
  cbn [create_deliveries fst]. apply IH. unfold createDelivery. cbv zeta. apply honest_persist.
  intros x d. cbn. rewrite map_get_set. case_decide; [by intros [= <-]|apply Hh].
Qed.

Lemma launch_honest r log ids now work h : hub_ok r log [] h -> fresh_ids h ids -> refs_ok h work -> (length work <= length ids)%nat ->
  all_honest h ->
  let c := create_deliveries iso ids now work h in all_honest (dispatch_all iso hmac stringify now c.2 c.1).
Proof.
  intros Hok Hfr Hrefs Hlen Hh.
  destruct (create_deliveries_ok iso _ _ _ now _ _ _ Hok Hfr Hrefs Hlen) as (Hok1 & _ & Hids & Hnew & _).
  apply (dispatch_all_honest _ _ _ _ now _ Hok1).
  - rewrite Hids. eapply sublist_NoDup; [apply Hfr|]. apply sublist_take.
  - rewrite Forall_forall in *. intros k Hk. destruct (Hnew k Hk) as (d & Hd & Ha). exists d. split; [done|].
    rewrite Ha. destruct Hok1. lia.
  - by apply create_deliveries_honest.
Qed.

Lemma finish_honest k now out h : all_honest h -> all_honest (finish iso now k out h).
Proof.
  intros Hh. unfold finish. destruct (get_d h k) as [d|] eqn:Hd; [|done]. cbv zeta.
  destruct (match out with Response c => response_ok c | Failed _ => false end) eqn:Eok;
    [|destruct (Z.leb_spec (maxAttempts (opts h)) (attempt_count d))]; apply honest_persist; intros x dx; cbn; rewrite map_get_set;
    (case_decide; [|apply Hh]); intros [= <-]; unfold honest; cbn; [|done|done].
  destruct out as [c|]; [|done]. by exists c.
Qed.

Lemma emit_honest r log ids now input h : hub_ok r log [] h -> supplied compare (A_emit ids input) h -> all_honest h ->
  all_honest (emit iso hmac stringify ids now input h).1.
Proof.
  intros Hok [Hfr Hlen] Hh. unfold emit.
  set (id := match ie_id input with Some i => i | None => _ end). set (ids' := match ie_id input with Some _ => ids | None => _ end) in *.
  destruct (map_get id (hub_events h)) as [ev|] eqn:E; [done|]. cbv zeta. set (ev := Build_WebhookEvent _ _ _). cbn [fst].
  pose proof (add_event_ok _ _ _ _ ev Hok E) as Hok1. apply (launch_honest r log); [done|done| | |done].
  - apply Forall_map, Forall_forall. intros s Hs. cbn. split.
    + apply list_elem_of_In, filter_In in Hs as [Hs _]. apply (has_value (fun s : StoredSubscription => sr_id s)); [apply (ok_subs _ _ _ _ Hok)|].
      by apply list_elem_of_In.
    + unfold map_has. by rewrite map_get_set_eq.
  - rewrite length_map. etransitivity; [|exact Hlen]. apply filter_length_le.
Qed.

Lemma replay_honest r log ids now input h : hub_ok r log [] h -> supplied compare (A_replay ids input) h -> all_honest h ->
  all_honest (replay iso hmac stringify compare ids now input h).1.
Proof.
  intros Hok [Hfr Hlen] Hh. unfold replay. cbn [fst].
  apply (launch_honest r log ids now (replay_work compare input h)); [done|done|by apply replay_refs with r log|done|done].
Qed.

(** A delivery's final state is true: in every reachable state a delivery marked
    delivered was answered with a 2xx status, and one marked dead-letter has been
    attempted at least the maximum number of times and records the last error. *)
Theorem webhook_outcomes_honest (o : hub_options) (log : list string) (r : Z) (h : hub)
  (Hp : persistent o = true) (Ha : 1 <= maxAttempts o) (Hrun : hub_run iso date_parse hmac stringify compare o log r h) :
  forall k d, map_get k (deliveries h) = Some d -> honest (maxAttempts o) d.
Proof.
  assert (all_honest h) as Hh; [|destruct (run_ok _ _ _ _ _ _ _ _ _ Hp Ha Hrun) as [_ <-]; exact Hh].
  induction Hrun as [now|log r h now a h' Hrun IH Hs Hact].
  - unfold new_hub. cbv zeta. apply honest_persist. by intros k d.
  - destruct (run_ok _ _ _ _ _ _ _ _ _ Hp Ha Hrun) as [Hok _].
    destruct a as [id input|id new_secret|ids input|ids input|i|i out|]; cbn [act] in Hact.
    + injection Hact as <-. unfold createSubscription. cbn [fst]. by apply honest_persist.
    + injection Hact as <-. unfold rotateSubscriptionSecret. case_match; cbn [fst]; [by apply honest_persist|done].
    + injection Hact as <-. by eapply emit_honest.
    + injection Hact as <-. by eapply replay_honest.
    + destruct (timers h !! i) as [[k delay]|] eqn:E; [|done]. injection Hact as <-.
      destruct (fire_ok _ _ _ _ _ _ Hok E) as [Hok1 _]. by eapply dispatch_honest.
    + destruct (flights h !! i) as [f|] eqn:E; [|done]. injection Hact as <-. by apply finish_honest.
    + assert (h' = restarted iso date_parse now h) as -> by (by injection Hact as <-). intros k d Hd.
      destruct (restart_fields iso date_parse _ _ _ now Hok) as (_ & _ & _ & _ & _ & Eo & _). rewrite Eo.
      pose proof (restart_get iso date_parse _ _ _ now k Hok) as Hget. rewrite Hd in Hget.
      destruct (get_d h k) as [d0|] eqn:Ed0; [|done]. eapply honest_same; [exact Hget|]. by eapply IH.
Qed.

(** An event that nobody has subscribed to is not written to the store: after a
    restart the hub has forgotten it, and emitting the same id again is no
    duplicate. *)
Theorem unsubscribed_event_forgotten (o : hub_options) (log : list string) (r : Z) (h : hub) (ids : list string) (now later : Z)
  (id : string) (input : WebhookEventInput)
  (Hp : persistent o = true) (Ha : 1 <= maxAttempts o) (Hrun : hub_run iso date_parse hmac stringify compare o log r h)
  (Hid : ie_id input = Some id) (Hnew : map_get id (hub_events h) = None)
  (Hnone : List.filter (fun s => bool_decide (ie_type input ∈ events (sub s))) (map_values (subscriptions h)) = []) :
  let h1 := (emit iso hmac stringify ids now input h).1 in
  map_has id (hub_events h1) = true /\ map_get id (hub_events (restarted iso date_parse later h1)) = None.
Proof.
  destruct (run_ok _ _ _ _ _ _ _ _ _ Hp Ha Hrun) as [Hok _]. cbv zeta. unfold emit. rewrite Hid, Hnew. cbv zeta.
  set (ev := Build_WebhookEvent _ _ _). change (List.filter (subscribed ev) _) with
    (List.filter (fun s => bool_decide (ie_type input ∈ events (sub s))) (map_values (subscriptions h))).
  rewrite Hnone. cbn [map create_deliveries dispatch_all fold_left fst snd].
  pose proof (add_event_ok _ _ _ _ ev Hok Hnew) as Hok1. cbn [ev_id ev] in Hok1.
  split; [unfold map_has; by destruct ids; cbn; rewrite map_get_set_eq|].
  assert (map_get id (hub_events (restarted iso date_parse later (set_events (map_set id ev (hub_events h)) h))) = None) as Hgoal;
    [|by destruct ids].
  destruct (restart_fields iso date_parse _ _ _ later Hok1) as (_ & _ & -> & _). cbn [disk set_events].
  apply map_get_None. unfold map_keys. rewrite <- list_fmap_compose. intros Hin. apply map_get_None in Hnew. apply Hnew.
  destruct (ok_disk_events _ _ _ _ Hok) as [rest E]. rewrite (hub_keyed_keys ev_id _ (proj2 (ok_events _ _ _ _ Hok))), E, map_app.
  apply elem_of_app. by left.
Qed.

(** ** Executable runs *)

#[export] Instance supplied_dec a h : Decision (supplied compare a h).
Proof. destruct a; cbn; try apply _. Defined.

Fixpoint run_from (log : list string) (r : Z) (h : hub) (acts : list (Z * action)) : option (list string * Z * hub) :=
  match acts with
  | [] => Some (log, r, h)
  | (now, a) :: rest =>
    if bool_decide (supplied compare a h) then
      match act iso date_parse hmac stringify compare now a h with
      | Some h' => run_from (log ++ requests_sent a h h') (r + restarts_in a) h' rest
      | None => None
      end
    else None
  end.

Lemma run_from_run o log r h acts log' r' h' : hub_run iso date_parse hmac stringify compare o log r h ->
  run_from log r h acts = Some (log', r', h') -> hub_run iso date_parse hmac stringify compare o log' r' h'.
Proof.
  revert log r h. induction acts as [|[now a] rest IH]; intros log r h Hrun; cbn [run_from]; [by intros [= <- <- <-]|].
  case_bool_decide as Hs; [|done]. destruct (act _ _ _ _ _ now a h) as [h1|] eqn:E; [|done].
  apply IH. by apply (run_act _ _ _ _ _ o log r h now a).
Qed.
End hub.

(** ** Lists and tokens *)

(** A token is accepted exactly when one is expected, it is not empty, and it is
    the expected one. *)
Theorem authorize_token_spec (provided expected : option string) :
  authorizeToken provided expected = true <-> exists t, t <> ""%string /\ provided = Some t /\ expected = Some t.
Proof.
  unfold authorizeToken, truthy. destruct provided as [p|], expected as [e|]; cbn; try (split; [done|intros (t & ? & ? & ?); congruence]).
  2: { rewrite orb_true_r. split; [done|]. intros (t & ? & ? & ?); congruence. }
  destruct (String.eqb_spec p "") as [->|Hp]; cbn; [split; [done|]; intros (t & ? & ? & ?); congruence|].
  destruct (String.eqb_spec e "") as [->|He]; cbn; [split; [done|]; intros (t & ? & ? & ?); congruence|].
  destruct (String.length p =? String.length e)%nat eqn:El; cbn.
  - destruct (String.eqb_spec p e) as [->|Hne]; [split; [by exists e|done]|]. split; [done|]. intros (t & ? & ? & ?); congruence.
  - split; [done|]. intros (t & ? & [= ->] & [= ->]). by rewrite Nat.eqb_refl in El.
Qed.

(** A list of deliveries holds at most 500 of them, and only ones that match
    every filter that was given. *)
Theorem list_deliveries_spec (compare : string -> string -> comparison) (f : WebhookDeliveryListInput) (h : hub) :
  (Z.of_nat (length (listDeliveries compare f h)) <= Z.max 1 (Z.min 500 (default 100 (li_limit f)))) /\
  forall d, d ∈ listDeliveries compare f h -> d ∈ map_values (deliveries h) /\ matches_filters f d = true.
Proof.
  unfold listDeliveries, sanitizeDelivery. rewrite map_id. split; [apply slice_to_length; lia|].
  intros d Hd%slice_to_In. rewrite js_sort_perm in Hd. apply list_elem_of_In, filter_In in Hd as [Hd Hm].
  split; [by apply list_elem_of_In|done].
Qed.

(** ** A small hub *)

Definition toy_iso (t : Z) : string := z_text t.
Definition toy_hmac (key message : string) : string := key +:+ ":" +:+ message.
Definition toy_stringify (e : WebhookEvent) : string := ev_id e.
Definition toy_compare (a b : string) : comparison := Eq.
Definition toy_date (s : string) : Z := 0.

Definition toy_options : hub_options := resolve_options (Some 1000) (Some 2) None None true.
Definition toy_hub : hub := new_hub toy_iso toy_date toy_options (Some (store_load None)) 0.

Definition toy_run (acts : list (Z * action)) : option (list string * Z * hub) :=
  run_from toy_iso toy_date toy_hmac toy_stringify toy_compare [] 0 toy_hub acts.

Definition toy_subscription : WebhookSubscriptionInput :=
  {| in_url := "https://agent.example/hook"; in_events := [task_created]; in_secret := "0123456789"; in_description := None |}%string.

Definition toy_event : WebhookEventInput :=
  {| ie_type := task_created; ie_chain := "solana"; ie_cluster := "devnet"; ie_resource_type := rt_task; ie_resource_id := "t1";
     ie_payload := "{}"; ie_id := Some "e1" |}%string.

(** A subscription, an event, a failed attempt, a retry that is under way. *)
Definition toy_acts : list (Z * action) :=
  [(0, A_create "s1" toy_subscription); (1000, A_emit ["d1"%string] toy_event); (1500, A_answer 0 (Response 500)); (2500, A_fire 0)].

(** The process dies in the last attempt: the delivery is attempted a third time. *)
Definition toy_crash : list (Z * action) := toy_acts ++ [(3000, A_restart); (3000, A_fire 0)].

Lemma toy_run_run acts log r h : toy_run acts = Some (log, r, h) ->
  hub_run toy_iso toy_date toy_hmac toy_stringify toy_compare toy_options log r h.
Proof. apply run_from_run, run_start. Qed.

(** The bound on the attempts is reached: with a maximum of two attempts and one
    restart a delivery is sent three times. *)
Lemma restart_repeats_attempt : exists h, toy_run toy_crash = Some (["d1"; "d1"; "d1"]%string, 1, h).
Proof. eexists. vm_compute. reflexivity. Qed.

Lemma webhook_deliveries_accounted_witness :
  exists log r h, toy_run toy_acts = Some (log, r, h) /\
    (occ (timers h).*1 "d1" + occ (map fl_delivery (flights h)) "d1")%nat = 1%nat.
Proof.
  destruct (toy_run toy_acts) as [[[log r] h]|] eqn:E; [|vm_compute in E; discriminate E].
  exists log, r, h. split; [done|].
  rewrite (webhook_deliveries_accounted toy_iso toy_date toy_hmac toy_stringify toy_compare toy_options log r h eq_refl ltac:(vm_compute; discriminate) (toy_run_run _ _ _ _ E) "d1").
  assert (match toy_run toy_acts with Some (_, h) => match map_get "d1"%string (deliveries h) with Some d => unfinished d | None => false end | None => false end = true) as H
    by (vm_compute; reflexivity).
  rewrite E in H. destruct (map_get _ _) as [d|]; [|discriminate H]. by rewrite H.
Defined.

Lemma webhook_attempts_bounded_witness :
  exists log r h d, toy_run toy_crash = Some (log, r, h) /\ map_get "d1"%string (deliveries h) = Some d /\
    Z.of_nat (occ log "d1") = attempt_count d.
Proof.
  destruct (toy_run toy_crash) as [[[log r] h]|] eqn:E; [|vm_compute in E; discriminate E].
  assert (match toy_run toy_crash with Some (_, h) => map_has "d1"%string (deliveries h) | None => false end = true) as H
    by (vm_compute; reflexivity).
  rewrite E in H. unfold map_has in H. destruct (map_get "d1"%string (deliveries h)) as [d|] eqn:Ed; [|discriminate H].
  exists log, r, h, d. split; [done|]. split; [done|].
  pose proof (webhook_attempts_bounded toy_iso toy_date toy_hmac toy_stringify toy_compare toy_options log r h eq_refl ltac:(vm_compute; discriminate) (toy_run_run _ _ _ _ E) "d1") as W.
  rewrite Ed in W. by destruct W.
Defined.

Lemma webhook_restart_resumes_witness :
  exists log r h, toy_run toy_acts = Some (log, r, h) /\ flights (restarted toy_iso toy_date 3000 h) = [].
Proof.
  destruct (toy_run toy_acts) as [[[log r] h]|] eqn:E; [|vm_compute in E; discriminate E].
  exists log, r, h. split; [done|].
  apply (webhook_restart_resumes toy_iso toy_date toy_hmac toy_stringify toy_compare toy_options log r h 3000 eq_refl ltac:(vm_compute; discriminate) (toy_run_run _ _ _ _ E)).
Defined.

Lemma emit_requests_each_subscriber_witness :
  exists log r h, toy_run [(0, A_create "s1"%string toy_subscription)] = Some (log, r, h) /\
    supplied toy_compare (A_emit ["d1"%string] toy_event) h /\
    (emit toy_iso toy_hmac toy_stringify ["d1"%string] 1000 toy_event h).2.2 = false.
Proof.
  destruct (toy_run [(0, A_create "s1"%string toy_subscription)]) as [[[log r] h]|] eqn:E; [|vm_compute in E; discriminate E].
  exists log, r, h. split; [done|].
  assert (match toy_run [(0, A_create "s1"%string toy_subscription)] with
    Some (_, h) => bool_decide (supplied toy_compare (A_emit ["d1"%string] toy_event) h) &&
      negb (map_has "e1"%string (hub_events h)) | None => false end = true) as H
    by (vm_compute; reflexivity).
  rewrite E in H. apply andb_true_iff in H as [Hs Hn]. apply bool_decide_eq_true in Hs. split; [exact Hs|].
  pose proof (emit_requests_each_subscriber toy_iso toy_date toy_hmac toy_stringify toy_compare log r ["d1"%string] 1000 toy_event h toy_options
    eq_refl ltac:(vm_compute; discriminate) (toy_run_run _ _ _ _ E) Hs) as W.
  destruct (emit _ _ _ _ _ _ h) as [h' [[event created] duplicate]] eqn:Ee. destruct W as [_ W]. destruct duplicate; [|done].
  exfalso. unfold emit in Ee. cbn [ie_id toy_event] in Ee. unfold map_has in Hn.
  destruct (map_get "e1"%string (hub_events h)); [done|]. discriminate Ee.
Defined.

Lemma webhook_outcomes_honest_witness :
  exists log r h, toy_run toy_acts = Some (log, r, h) /\ forall k d, map_get k (deliveries h) = Some d -> honest 2 d.
Proof.
  destruct (toy_run toy_acts) as [[[log r] h]|] eqn:E; [|vm_compute in E; discriminate E].
  exists log, r, h. split; [done|].
  exact (webhook_outcomes_honest toy_iso toy_date toy_hmac toy_stringify toy_compare toy_options log r h eq_refl ltac:(vm_compute; discriminate) (toy_run_run _ _ _ _ E)).
Defined.
