(* ===== verification/EventProducer.v ===== *)
(** * EventProducer: from indexed program events to webhook events

    Models services/discovery/src/event-producer.ts: the mapping of a row of the
    indexer's [program_events] table to a webhook event and the poller that feeds
    the hub and advances its cursor.  The table is a list in insertion order and
    the SQL query is the function it denotes; a poll is split at its awaits, so
    that rows are inserted and the process dies in between. *)

From Stdlib Require Import ZArith QArith Lia Ascii Sorted Permutation.
From stdpp Require Import base list strings.
From S2P Require Import Prelude Json Webhooks Hex.

Open Scope Z_scope.

(** A value of a decoded event; [V_other] is an object or [null]. *)
Inductive value :=
| V_string (s : string)
| V_number (q : Q)
| V_bool (b : bool)
| V_array (l : list value)
| V_other.

(** [data[key]]; a key that is missing is [undefined]. *)
Definition data := list (string * value).

Definition field (d : data) (key : string) : option value :=
  option_map snd (List.find (fun kv => String.eqb kv.1 key) d).

Record ProgramEventRow := {
  row_id : Z;
  row_signature : string;
  slot : string;
  program_id : string;
  event_name : string;
  row_data : option data;
}.

Definition MAPPED_EVENTS : list string :=
  ["TaskCreated"; "TaskVerified"; "TaskReleased"; "DisputeRaised"; "BidRevealed"; "StreamWithdrawn"; "AgentRegistered";
   "ManifestUpdated"]%string.

Definition hex_byte (v : value) : option string :=
  match v with
  | V_number q => if negb (q_ltb q 0) && negb (q_ltb 255 q) && is_integer q then Some (byte_hex (Qround.Qfloor q)) else None
  | _ => None
  end.

Fixpoint hex_bytes (l : list value) : option string :=
  match l with
  | [] => Some ""%string
  | v :: l' =>
    match hex_byte v, hex_bytes l' with
    | Some a, Some b => Some (a +:+ b)
    | _, _ => None
    end
  end.

Definition bytesArrayToHex (v : option value) : option string :=
  match v with
  | Some (V_array []) => None
  | Some (V_array l) => hex_bytes l
  | _ => None
  end.

Definition readString (d : data) (key : string) : option string :=
  match field d key with
  | Some (V_string s) => if (0 <? String.length s)%nat then Some s else None
  | _ => None
  end.

(** A field of the payload. *)
Inductive payload_value :=
| P_text (s : option string)
| P_bool (b : bool).

Section producer.
Variable number_text : Q -> string.                           (* Number.prototype.toString *)
Variable stringify : list (string * payload_value) -> string. (* the payload's JSON text *)

Definition readNumeric (d : data) (key : string) : option string :=
  match field d key with
  | Some (V_string s) => Some s
  | Some (V_number q) => Some (number_text q)
  | _ => None
  end.

Definition event_text (row : ProgramEventRow) : string := "program_event:" +:+ z_text (row_id row).

(** The parts every mapped event shares. *)
Definition mapped (row : ProgramEventRow) (cluster : string) (type : WebhookEventType) (rt : WebhookResourceType) (id : string)
    (fields : list (string * payload_value)) : WebhookEventInput :=
  {| ie_type := type; ie_chain := "solana"; ie_cluster := cluster; ie_resource_type := rt; ie_resource_id := id;
     ie_payload := stringify (fields ++ [("signature", P_text (Some (row_signature row))); ("slot", P_text (Some (slot row)))]);
     ie_id := Some (event_text row) |}%string.

Definition mapEventRow (row : ProgramEventRow) (cluster : string) : option WebhookEventInput :=
  let d := default [] (row_data row) in
  let name := event_name row in
  let num k := (k, P_text (readNumeric d k)) in
  let str k := (k, P_text (readString d k)) in
  let task := bytesArrayToHex (field d "task_id") in
  let agent := bytesArrayToHex (field d "agent_did") in
  let task_event type fields :=
    match task with
    | None => None
    | Some t => Some (mapped row cluster type rt_task t (("task_id", P_text (Some t)) :: fields))
    end in
  let agent_event type rt fields :=
    match agent with
    | None => None
    | Some a => Some (mapped row cluster type rt a (("agent_did", P_text (Some a)) :: fields))
    end in
  (if String.eqb name "TaskCreated" then
    task_event task_created [str "client"; ("agent_did", P_text agent); num "payment_amount"; num "deadline"; num "timestamp"]
  else if String.eqb name "TaskVerified" then task_event task_verified [num "dispute_window_end"; num "timestamp"]
  else if String.eqb name "TaskReleased" then
    task_event task_released [("agent_did", P_text agent); str "operator"; str "client"; str "mint"; num "agent_payout";
                              num "protocol_fee"; num "solrep_fee"; num "timestamp"]
  else if String.eqb name "DisputeRaised" then task_event task_disputed [str "client"; num "timestamp"]
  else if String.eqb name "BidRevealed" then
    match task, readString d "bidder" with
    | Some t, Some b => Some (mapped row cluster bid_revealed rt_bid (t +:+ ":" +:+ b)
                                [("task_id", P_text (Some t)); ("bidder", P_text (Some b)); num "amount"])
    | _, _ => None
    end
  else if String.eqb name "StreamWithdrawn" then
    agent_event stream_withdrawn rt_stream
      [num "claimable"; ("swapped", P_bool (match field d "swapped" with Some (V_bool b) => b | _ => false end)); num "timestamp"]
  else if String.eqb name "AgentRegistered" || String.eqb name "ManifestUpdated" then
    agent_event agent_status_changed rt_agent
      [("change", P_text (Some (if String.eqb name "AgentRegistered" then "registered" else "manifest_updated"))); str "operator";
       num "version"; num "capability_mask"; num "stake_amount"; num "timestamp"]
  else None)%string.

(** ** The poller *)

Fixpoint insert_row (r : ProgramEventRow) (l : list ProgramEventRow) : list ProgramEventRow :=
  match l with
  | [] => [r]
  | x :: l' => if row_id r <=? row_id x then r :: l else x :: insert_row r l'
  end.

(** The SELECT: mapped events after the cursor, by id, at most [batch] of them. *)
Definition select_rows (table : list ProgramEventRow) (cursor : Z) (batch : nat) : list ProgramEventRow :=
  take batch (fold_right insert_row []
    (List.filter (fun r => (cursor <? row_id r) && bool_decide (event_name r ∈ MAPPED_EVENTS)) table)).

(** What [runOnce] has left to do: the rows of its batch and the last one done. *)
Record poll := { todo : list ProgramEventRow; latest : Z }.

Record producer := {
  cluster : string;
  batchSize : nat;
  table : list ProgramEventRow;
  cursor : Z;                     (* webhook_event_cursor, one row *)
  running : option poll;          (* [running] is true while a poll is in progress *)
  emits : list string;            (* the ids hub.emit was called with *)
}.

Inductive step_input :=
| S_insert (r : ProgramEventRow)  (* the indexer commits a row *)
| S_tick                          (* the interval fires: runOnce up to its emits *)
| S_emit                          (* the next row of the batch *)
| S_update                        (* the UPDATE after the batch *)
| S_crash.                        (* the process dies and starts again *)

Definition with_running (p : producer) (r : option poll) : producer :=
  {| cluster := cluster p; batchSize := batchSize p; table := table p; cursor := cursor p; running := r; emits := emits p |}.

Definition produce (p : producer) (i : step_input) : option producer :=
  match i with
  | S_insert r =>
    Some {| cluster := cluster p; batchSize := batchSize p; table := table p ++ [r]; cursor := cursor p; running := running p;
            emits := emits p |}
  | S_tick =>
    match running p with
    | Some _ => Some p
    | None =>
      match select_rows (table p) (cursor p) (batchSize p) with
      | [] => Some p
      | rows => Some (with_running p (Some {| todo := rows; latest := cursor p |}))
      end
    end
  | S_emit =>
    match running p with
    | Some {| todo := row :: rest |} =>
      let out := match mapEventRow row (cluster p) with Some input => option_list (ie_id input) | None => [] end in
      Some {| cluster := cluster p; batchSize := batchSize p; table := table p; cursor := cursor p;
              running := Some {| todo := rest; latest := row_id row |}; emits := emits p ++ out |}
    | _ => None
    end
  | S_update =>
    match running p with
    | Some {| todo := []; latest := l |} =>
      Some {| cluster := cluster p; batchSize := batchSize p; table := table p; cursor := l; running := None; emits := emits p |}
    | _ => None
    end
  | S_crash => Some (with_running p None)
  end.
End producer.

(** ** The mapping *)

Lemma event_text_inj r1 r2 : event_text r1 = event_text r2 -> row_id r1 = row_id r2.
Proof. unfold event_text. intros E%string_app_inj_l. by apply z_text_inj. Qed.

Lemma hex_bytes_nonempty v l s : hex_bytes (v :: l) = Some s -> s <> ""%string.
Proof.
  cbn. destruct (hex_byte v) as [a|] eqn:E; [|done]. destruct (hex_bytes l) as [b|]; [|done]. intros [= <-].
  unfold hex_byte in E. destruct v; try done. case_match; [|done]. injection E as <-. done.
Qed.

Lemma bytes_hex_nonempty v s : bytesArrayToHex v = Some s -> s <> ""%string.
Proof. destruct v as [[| | |[|x l]|]|]; cbn [bytesArrayToHex]; try done. apply hex_bytes_nonempty. Qed.

(** The events a row is mapped to, as one shape. *)
Lemma map_event_row_mapped number_text stringify row cl input :
  mapEventRow number_text stringify row cl = Some input ->
  event_name row ∈ MAPPED_EVENTS /\
  exists type rt id fields, id <> ""%string /\ input = mapped stringify row cl type rt id fields.
Proof.
  unfold mapEventRow. cbv zeta.
  destruct (bytesArrayToHex (field _ "task_id")) as [t|] eqn:Et;
    destruct (bytesArrayToHex (field _ "agent_did")) as [a|] eqn:Ea;
    try apply bytes_hex_nonempty in Et; try apply bytes_hex_nonempty in Ea;
    repeat match goal with
    | |- (if ?b then _ else _) = Some _ -> _ => let E := fresh "E" in destruct b eqn:E
    | |- match ?x with _ => _ end = Some _ -> _ => destruct x
    end; try discriminate;
    intros <-%(inj Some);
    (split;
     [ repeat match goal with H : (_ || _) = true |- _ => apply orb_true_iff in H as [H|H] end;
       match goal with H : String.eqb _ _ = true |- _ => apply String.eqb_eq in H; rewrite H end;
       match goal with |- ?P => exact (bool_decide_eq_true_1 P eq_refl) end
     | do 4 eexists; split; [|reflexivity]; try done ]).
  all: by destruct t.
Qed.

(** A mapped event names its row: its id is determined by the row's id and
    determines it, it comes from one of the eight mapped program events, and its
    resource is never empty. *)
Theorem mapped_event_spec number_text stringify (row : ProgramEventRow) (cl : string) (input : WebhookEventInput)
  (H : mapEventRow number_text stringify row cl = Some input) :
  event_name row ∈ MAPPED_EVENTS /\ ie_id input = Some (event_text row) /\ ie_cluster input = cl /\ ie_resource_id input <> ""%string /\
  forall row2 input2, mapEventRow number_text stringify row2 cl = Some input2 -> ie_id input2 = ie_id input -> row_id row2 = row_id row.
Proof.
  apply map_event_row_mapped in H as (Hn & type & rt & id & fields & Hid & ->).
  split_and!; try done. intros row2 input2 (_ & type2 & rt2 & id2 & fields2 & _ & ->)%map_event_row_mapped.
  cbn. intros E%(inj Some). by apply event_text_inj.
Qed.

(** ** The query *)

Definition rows_ltb (r1 r2 : ProgramEventRow) : Prop := row_id r1 < row_id r2.

Definition pending (cursor : Z) (r : ProgramEventRow) : bool := (cursor <? row_id r) && bool_decide (event_name r ∈ MAPPED_EVENTS).

Lemma pending_spec c r : pending c r = true <-> c < row_id r /\ event_name r ∈ MAPPED_EVENTS.
Proof. unfold pending. by rewrite andb_true_iff, Z.ltb_lt, bool_decide_eq_true. Qed.

Lemma insert_rows_sorted l : StronglySorted rows_ltb l -> fold_right insert_row [] l = l.
Proof.
  induction 1 as [|r l Hs IH Hr]; [done|]. cbn. rewrite IH. destruct l as [|x l]; [done|]. cbn.
  apply Forall_cons in Hr as [Hr _]. unfold rows_ltb in Hr. by destruct (Z.leb_spec (row_id r) (row_id x)); [|lia].
Qed.

Lemma insert_rows_elem x r l : x ∈ insert_row r l <-> x = r \/ x ∈ l.
Proof.
  induction l as [|y l IH]; cbn; [by rewrite list_elem_of_singleton, elem_of_nil; intuition|].
  case_match; rewrite !elem_of_cons; [done|]. rewrite IH. tauto.
Qed.

Lemma select_rows_above table c n t : t ∈ select_rows table c n -> t ∈ table /\ c < row_id t.
Proof.
  intros H%(subseteq_take _ _). revert H. induction table as [|r table IH]; cbn; [by intros ?%elem_of_nil|].
  destruct (c <? row_id r) eqn:Hc; cbn; [destruct (bool_decide _); cbn|]; intros H; try apply insert_rows_elem in H as [->|H];
    try (by split; [by left|apply Z.ltb_lt]); (split; [right|]; by apply IH).
Qed.

Lemma filter_rows_sorted (f : ProgramEventRow -> bool) l : StronglySorted rows_ltb l -> StronglySorted rows_ltb (List.filter f l).
Proof.
  induction 1 as [|r l Hs IH Hr]; cbn; [constructor|]. destruct (f r); [|done]. constructor; [done|].
  rewrite List.Forall_forall in *. intros x [Hx _]%List.filter_In. by apply Hr.
Qed.

(** On a table in order the query is a prefix of the pending rows. *)
Lemma select_rows_sorted table c n :
  StronglySorted rows_ltb table -> select_rows table c n = take n (List.filter (pending c) table).
Proof. intros Hs. unfold select_rows. rewrite insert_rows_sorted; [done|]. by apply filter_rows_sorted. Qed.

Lemma take_rows_sorted n l :
  StronglySorted rows_ltb l ->
  StronglySorted rows_ltb (take n l) /\ forall r t, r ∈ l -> t ∈ take n l -> row_id r <= row_id t -> r ∈ take n l.
Proof.
  intros Hs. revert n. induction Hs as [|x l Hs IH Hx]; intros [|n]; cbn.
  - split; [constructor|]. by intros r t _ H%elem_of_nil.
  - split; [constructor|]. by intros r t H%elem_of_nil.
  - split; [constructor|]. by intros r t _ H%elem_of_nil.
  - destruct (IH n) as [H1 H2]. rewrite Forall_forall in Hx. split.
    + constructor; [done|]. rewrite Forall_forall. intros y Hy. apply Hx. by apply (subseteq_take n l).
    + intros r t Hr Ht Hle. rewrite elem_of_cons in Hr, Ht |- *. destruct Hr as [->|Hr]; [by left|]. right.
      destruct Ht as [->|Ht]; [|by eapply H2].
      apply Hx in Hr. unfold rows_ltb in Hr. lia.
Qed.

(** ** What the cursor stands for *)

Section cursor.
Variables (number_text : Q -> string).
Variable stringify : list (string * payload_value) -> string.

#[local] Abbreviation step := (produce number_text stringify).

Fixpoint produce_all (p : producer) (ins : list step_input) : option producer :=
  match ins with
  | [] => Some p
  | i :: ins' => match step p i with Some p' => produce_all p' ins' | None => None end
  end.

(** The rows the indexer commits get increasing ids, in commit order. *)
Definition in_order (p : producer) (i : step_input) : Prop :=
  match i with
  | S_insert r => 0 < row_id r /\ forall x, x ∈ table p -> row_id x < row_id r
  | _ => True
  end.

Inductive orderly : producer -> list step_input -> producer -> Prop :=
| O_nil p : orderly p [] p
| O_cons p i p' ins p'' : in_order p i -> step p i = Some p' -> orderly p' ins p'' -> orderly p (i :: ins) p''.

(** The same, as a function, for concrete runs. *)
Definition in_order_b (p : producer) (i : step_input) : bool :=
  match i with
  | S_insert r => (0 <? row_id r) && forallb (fun x => row_id x <? row_id r) (table p)
  | _ => true
  end.

Fixpoint run_in_order (p : producer) (ins : list step_input) : option producer :=
  match ins with
  | [] => Some p
  | i :: ins' => if in_order_b p i then match step p i with Some p' => run_in_order p' ins' | None => None end else None
  end.

Lemma run_in_order_sound ins : forall p p', run_in_order p ins = Some p' -> orderly p ins p'.
Proof.
  induction ins as [|i ins IH]; cbn; intros p p' H; [injection H as <-; constructor|].
  destruct (in_order_b p i) eqn:Hi; [|done]. destruct (step p i) as [p1|] eqn:E; [|done].
  econstructor; [|exact E|by apply IH]. destruct i; try done. cbn in Hi. apply andb_true_iff in Hi as [H0 Hall].
  split; [by apply Z.ltb_lt|]. intros x Hx. rewrite forallb_forall in Hall. apply Z.ltb_lt, Hall. by apply list_elem_of_In.
Qed.

Definition fresh_producer (cl : string) (batch : nat) : producer :=
  {| cluster := cl; batchSize := batch; table := []; cursor := 0; running := None; emits := [] |}.

(** Every row up to [c] that maps to an event has been emitted. *)
Definition covered (p : producer) (c : Z) : Prop :=
  forall r input, r ∈ table p -> row_id r <= c -> mapEventRow number_text stringify r (cluster p) = Some input ->
    event_text r ∈ emits p.

(** A cursor is a row's id or the initial zero. *)
Definition reached (p : producer) (c : Z) : Prop := c = 0 \/ exists r, r ∈ table p /\ row_id r = c.

Record poll_ok (p : producer) (q : poll) : Prop := {
  poll_after : cursor p <= latest q;
  poll_reached : reached p (latest q);
  poll_covered : covered p (latest q);
  poll_sorted : StronglySorted rows_ltb (todo q);
  poll_rows : forall t, t ∈ todo q -> t ∈ table p /\ latest q < row_id t;
  poll_all : forall r t, r ∈ table p -> event_name r ∈ MAPPED_EVENTS -> latest q < row_id r ->
    t ∈ todo q -> row_id r <= row_id t -> r ∈ todo q;
}.

Record producer_ok (p : producer) : Prop := {
  ok_table : StronglySorted rows_ltb (table p);
  ok_ids : forall r, r ∈ table p -> 0 < row_id r;
  ok_reached : reached p (cursor p);
  ok_covered : covered p (cursor p);
  ok_poll : forall q, running p = Some q -> poll_ok p q;
}.

Lemma rows_snoc_sorted l r :
  StronglySorted rows_ltb l -> (forall x, x ∈ l -> row_id x < row_id r) -> StronglySorted rows_ltb (l ++ [r]).
Proof.
  induction 1 as [|x l Hs IH Hx]; intros Hr; cbn; [repeat constructor|]. constructor.
  - apply IH. intros y Hy. apply Hr. by right.
  - apply Forall_app. split; [done|]. constructor; [|done]. apply Hr. by left.
Qed.

Lemma below_reached p c r : reached p c -> in_order p (S_insert r) -> c < row_id r.
Proof. intros [->|(x & Hx & <-)] [H0 Hr]; [done|]. by apply Hr. Qed.

(** Inserting in order keeps what is known up to an older row. *)
Lemma insert_covered p p' c r :
  table p' = table p ++ [r] -> emits p' = emits p -> cluster p' = cluster p ->
  c < row_id r -> covered p c -> covered p' c.
Proof.
  intros Ht Hem Hcl Hr Hc x input Hx Hle. rewrite Ht in Hx. rewrite Hem, Hcl. apply elem_of_app in Hx as [Hx| ->%list_elem_of_singleton]; [|lia].
  by apply Hc.
Qed.

Lemma insert_reached p p' c r : table p' = table p ++ [r] -> reached p c -> reached p' c.
Proof. intros Ht [->|(x & Hx & E)]; [by left|]. right. exists x. rewrite Ht. split; [|done]. apply elem_of_app. by left. Qed.

Lemma insert_ok p r p' : producer_ok p -> in_order p (S_insert r) -> step p (S_insert r) = Some p' -> producer_ok p'.
Proof.
  intros Hp Hr Hp'. cbn in Hp'. apply (inj Some) in Hp'. subst p'.
  pose proof (below_reached _ _ _ (ok_reached p Hp) Hr) as Hc. destruct (Hr) as [H0 Hlt].
  constructor; cbn [table cursor running].
  - apply rows_snoc_sorted; [by apply ok_table|done].
  - intros x [Hx| ->%list_elem_of_singleton]%elem_of_app; [|done]. by apply (ok_ids p Hp).
  - eapply insert_reached; [done|]. by apply ok_reached.
  - eapply (insert_covered p); try done. by apply ok_covered.
  - intros q Hq. destruct (ok_poll p Hp q Hq) as [Ha Hre Hco Hs Hrows Hall].
    pose proof (below_reached _ _ _ Hre Hr) as Hl. constructor; cbn [table cursor]; try done.
    + by eapply insert_reached.
    + by eapply (insert_covered p).
    + intros t Ht. destruct (Hrows t Ht) as [H1 H2]. split; [|done]. apply elem_of_app. by left.
    + intros x t [Hx| ->%list_elem_of_singleton]%elem_of_app Hn Hlx Ht Hle; [by eapply Hall|].
      destruct (Hrows t Ht) as [H1 _]. apply Hlt in H1. lia.
Qed.

Lemma tick_ok p p' : producer_ok p -> step p S_tick = Some p' -> producer_ok p'.
Proof.
  intros Hp. cbn. destruct (running p) as [q|] eqn:Hr; [intros [= <-]; done|].
  destruct (select_rows _ _ _) as [|x l] eqn:E; [intros [= <-]; done|].
  rewrite (select_rows_sorted _ _ _ (ok_table p Hp)) in E.
  intros <-%(inj Some). pose proof Hp as [Ht Hi Hre Hco _]. constructor; try done.
  intros q [= <-]. rewrite <- E.
  pose proof (filter_rows_sorted (pending (cursor p)) _ Ht) as Hf.
  destruct (take_rows_sorted (batchSize p) _ Hf) as [Hs Hall].
  constructor; cbn [todo latest with_running cursor table]; try done.
  - intros t Hin%(subseteq_take _ _). apply list_elem_of_In, List.filter_In in Hin as [Hin Hpd].
    apply pending_spec in Hpd as [Hpd _]. split; [|done]. by apply list_elem_of_In.
  - intros r t Hin Hn Hlt Htk Hle. apply (Hall r t); [|done|done].
    apply list_elem_of_In, List.filter_In. split; [by apply list_elem_of_In|]. by apply pending_spec.
Qed.

Lemma emit_row_ok p p' : producer_ok p -> step p S_emit = Some p' -> producer_ok p'.
Proof.
  intros Hp. cbn. destruct (running p) as [[[|row rest] l]|] eqn:Hr; [done| |done].
  intros <-%(inj Some). destruct (ok_poll p Hp _ Hr) as [Ha Hre Hco Hs Hrows Hall]. cbn [todo latest] in *.
  destruct (Hrows row ltac:(by left)) as [Hrow Hlt].
  assert (Hmono : forall out e, e ∈ emits p -> e ∈ emits p ++ out) by (intros; apply elem_of_app; by left).
  constructor; cbn [table cursor running emits]; try apply Hp.
  - intros r input H1 H2 H3. apply Hmono. by eapply (ok_covered p Hp).
  - intros q [= <-]. apply StronglySorted_inv in Hs as [Hs Hfst]. rewrite Forall_forall in Hfst.
    constructor; cbn [table cursor running emits todo latest]; [lia| | |done| |].
    + right. by exists row.
    + intros r input H1 H2 H3. destruct (Z.le_gt_cases (row_id r) l) as [Hle|Hgt]; [apply Hmono; by eapply Hco|].
      apply elem_of_app. right.
      assert (r ∈ row :: rest) as Hin.
      { apply (Hall r row); try done; [by apply map_event_row_mapped in H3 as [H3 _]|by left]. }
      apply elem_of_cons in Hin as [->|Hin]; [|apply Hfst in Hin; unfold rows_ltb in Hin; lia].
      cbn [cluster] in H3. rewrite H3. apply map_event_row_mapped in H3 as (_ & ty & rt & id & fs & _ & ->).
      cbn. by left.
    + intros t Ht. split; [by apply Hrows; right|]. by apply Hfst.
    + intros r t H1 H2 H3 H4 H5.
      assert (r ∈ row :: rest) as Hin by (apply (Hall r t); try done; [lia|by right]).
      apply elem_of_cons in Hin as [->|Hin]; [lia|done].
Qed.

Lemma produce_ok p i p' : producer_ok p -> in_order p i -> step p i = Some p' -> producer_ok p'.
Proof.
  intros Hp Hi Hs. destruct i as [r| | | |]; [by eapply insert_ok|by eapply tick_ok|by eapply emit_row_ok| |].
  - cbn in Hs. destruct (running p) as [[[|row rest] l]|] eqn:Hr; try done. apply (inj Some) in Hs. subst p'.
    destruct (ok_poll p Hp _ Hr) as [Ha Hre Hco _ _ _]. constructor; cbn; try apply Hp; done.
  - cbn in Hs. apply (inj Some) in Hs. subst p'. constructor; try apply Hp. done.
Qed.

Lemma orderly_ok p ins p' : orderly p ins p' -> producer_ok p -> producer_ok p'.
Proof. induction 1; [done|]. intros Hp. apply IHorderly. by eapply produce_ok. Qed.

Lemma fresh_ok cl batch : producer_ok (fresh_producer cl batch).
Proof. constructor; cbn; try done; [constructor|by intros r ?%elem_of_nil|by left|by intros r input ?%elem_of_nil]. Qed.

(** What the poller did with one batch, in one piece. *)
Definition runOnce (p : producer) : option producer :=
  produce_all p (S_tick :: repeat S_emit (length (select_rows (table p) (cursor p) (batchSize p))) ++
                 (if decide (select_rows (table p) (cursor p) (batchSize p) = []) then [] else [S_update])).

Lemma produce_all_app l1 : forall p l2,
  produce_all p (l1 ++ l2) = match produce_all p l1 with Some p' => produce_all p' l2 | None => None end.
Proof. induction l1 as [|i l1 IH]; intros p l2; cbn; [done|]. destruct (step p i); [apply IH|done]. Qed.

Lemma emits_run l : forall p lt,
  running p = Some {| todo := l; latest := lt |} ->
  exists p', produce_all p (repeat S_emit (length l)) = Some p' /\ table p' = table p /\ cluster p' = cluster p /\
    batchSize p' = batchSize p /\ running p' = Some {| todo := []; latest := default lt (option_map row_id (last l)) |}.
Proof.
  induction l as [|r l IH]; intros p lt Hr; [exists p; cbn; by rewrite Hr|].
  cbn [repeat length produce_all produce]. rewrite Hr.
  match goal with |- context [produce_all ?q _] => set (p1 := q) end.
  destruct (IH p1 (row_id r) eq_refl) as (p' & H1 & H2 & H3 & H4 & H5). exists p'.
  split_and!; try done. rewrite H5. cbn [last]. rewrite last_cons. by destruct (last l).
Qed.

(** A batch advances the cursor to its last row; without pending rows nothing
    changes. *)
Lemma runOnce_spec p : running p = None ->
  exists p', runOnce p = Some p' /\ table p' = table p /\ cluster p' = cluster p /\ batchSize p' = batchSize p /\ running p' = None /\
    cursor p' = default (cursor p) (option_map row_id (last (select_rows (table p) (cursor p) (batchSize p)))).
Proof.
  intros Hr. unfold runOnce. cbn [produce_all produce]. rewrite Hr.
  destruct (select_rows _ _ _) as [|r l]; [exists p; by rewrite decide_True|].
  rewrite decide_False by done. rewrite produce_all_app.
  destruct (emits_run (r :: l) (with_running p (Some {| todo := r :: l; latest := cursor p |})) (cursor p) eq_refl)
    as (p1 & -> & H1 & H2 & H3 & H4).
  cbn [produce_all produce]. rewrite H4. eexists. split; [done|]. by cbn.
Qed.

Lemma runOnce_orderly p p' : runOnce p = Some p' -> exists l, orderly p l p' /\ Forall (fun i => forall r, i <> S_insert r) l.
Proof.
  unfold runOnce. match goal with |- produce_all _ ?l = _ -> _ => set (ins := l) end.
  assert (Hn : Forall (fun i => forall r, i <> S_insert r) ins).
  { unfold ins. constructor; [done|]. apply Forall_app. split; [|case_decide; repeat constructor; done].
    rewrite Forall_forall. by intros i ->%list_elem_of_In%repeat_spec. }
  intros H. exists ins. split; [|done]. clearbody ins. revert p H Hn. induction ins as [|i l IH]; cbn; intros p H Hn.
  - injection H as <-. constructor.
  - apply Forall_cons in Hn as [Hi Hn]. destruct (step p i) as [p1|] eqn:E; [|done].
    apply (O_cons p i p1); [|done|by apply IH]. destruct i; try done. by destruct (Hi r).
Qed.

Fixpoint runs (n : nat) (p : producer) : option producer :=
  match n with
  | O => Some p
  | S n' => match runOnce p with Some p' => runs n' p' | None => None end
  end.

End cursor.

(** What is left of the pending rows after a batch. *)
Lemma filter_filter {A} (f g : A -> bool) l : List.filter f (List.filter g l) = List.filter (fun x => g x && f x) l.
Proof. induction l as [|x l IH]; cbn; [done|]. destruct (g x); cbn; [by rewrite IH|done]. Qed.

Lemma filter_above (t : Z) l1 l2 :
  (forall r, r ∈ l1 -> row_id r <= t) -> (forall r, r ∈ l2 -> t < row_id r) ->
  List.filter (fun r => t <? row_id r) (l1 ++ l2) = l2.
Proof.
  intros H1 H2. induction l1 as [|x l1 IH]; cbn.
  - induction l2 as [|y l2 IH]; cbn; [done|]. rewrite (proj2 (Z.ltb_lt _ _)) by (apply H2; by left).
    f_equal. apply IH. intros r Hr. apply H2. by right.
  - rewrite (proj2 (Z.ltb_ge _ _)) by (apply H1; by left). apply IH. intros r Hr. apply H1. by right.
Qed.

Lemma sorted_app_rows l1 l2 :
  StronglySorted rows_ltb (l1 ++ l2) -> forall r1 r2, r1 ∈ l1 -> r2 ∈ l2 -> row_id r1 < row_id r2.
Proof.
  induction l1 as [|x l1 IH]; cbn; intros Hs r1 r2 H1 H2; [by apply elem_of_nil in H1|].
  apply StronglySorted_inv in Hs as [Hs Hx]. apply elem_of_cons in H1 as [->|H1]; [|by apply IH].
  rewrite Forall_forall in Hx. apply Hx. apply elem_of_app. by right.
Qed.

Lemma pending_after table c n :
  StronglySorted rows_ltb table ->
  let l := List.filter (pending c) table in
  List.filter (pending (default c (option_map row_id (last (take n l))))) table = drop n l.
Proof.
  cbv zeta. intros Hs. set (l := List.filter (pending c) table).
  assert (Hl : StronglySorted rows_ltb l) by by apply filter_rows_sorted.
  destruct (last (take n l)) as [t|] eqn:E; cbn.
  - assert (Ht : t ∈ take n l) by (by apply last_Some_elem_of in E).
    assert (c < row_id t) as Hc.
    { apply (subseteq_take _ _), list_elem_of_In, List.filter_In in Ht as [_ Ht]. by apply pending_spec in Ht as [? _]. }
    transitivity (List.filter (fun r => row_id t <? row_id r) l).
    + unfold l. rewrite filter_filter. apply List.filter_ext. intros r. unfold pending.
      destruct (Z.ltb_spec (row_id t) (row_id r)), (Z.ltb_spec c (row_id r)); cbn; rewrite ?andb_true_r, ?andb_false_r; try done. lia.
    + rewrite <- (take_drop n l) at 1. apply filter_above.
      * intros r Hr. apply last_Some in E as [l' E]. rewrite E in Hr.
        assert (Hs' : StronglySorted rows_ltb (l' ++ [t])) by (rewrite <- E; by apply take_rows_sorted).
        apply elem_of_app in Hr as [Hr| ->%list_elem_of_singleton]; [|done].
        apply Z.lt_le_incl. eapply sorted_app_rows; [done|done|by left].
      * intros r Hr. eapply (sorted_app_rows (take n l) (drop n l)); [|done|done]. by rewrite take_drop.
  - apply last_None in E. change (l = drop n l). clearbody l. destruct n as [|n]; [done|]. by destruct l.
Qed.

Section delivery.
Variable number_text : Q -> string.
Variable stringify : list (string * payload_value) -> string.

#[local] Abbreviation run := (orderly number_text stringify).
#[local] Abbreviation maps := (mapEventRow number_text stringify).

Lemma runs_drain n : forall p,
  StronglySorted rows_ltb (table p) -> running p = None -> (0 < batchSize p)%nat ->
  (length (List.filter (pending (cursor p)) (table p)) <= n)%nat ->
  exists p', runs number_text stringify n p = Some p' /\ table p' = table p /\ cluster p' = cluster p /\ running p' = None /\
    List.filter (pending (cursor p')) (table p) = [].
Proof.
  induction n as [|n IH]; intros p Hs Hr Hb Hn; cbn [runs].
  - exists p. split_and!; try done. by apply nil_length_inv, Nat.le_0_r.
  - destruct (runOnce_spec number_text stringify p Hr) as (p1 & -> & Ht & Hcl & Hbs & Hr1 & Hc).
    rewrite (select_rows_sorted _ _ _ Hs) in Hc.
    pose proof (pending_after (table p) (cursor p) (batchSize p) Hs) as Hd. cbv zeta in Hd. rewrite <- Hc in Hd.
    destruct (IH p1) as (p' & H1 & H2 & H3 & H4 & H5); [by rewrite Ht|done|by rewrite Hbs|rewrite Ht, Hd, length_drop; lia|].
    exists p'. rewrite Ht in H2, H5. split_and!; try done. by rewrite H3.
Qed.

Lemma runs_orderly n : forall p p', runs number_text stringify n p = Some p' -> exists ins, run p ins p'.
Proof.
  induction n as [|n IH]; cbn [runs]; intros p p' H; [injection H as <-; exists []; constructor|].
  destruct (runOnce number_text stringify p) as [p1|] eqn:E; [|done].
  apply runOnce_orderly in E as (l1 & E & _). destruct (IH _ _ H) as [l2 E2]. exists (l1 ++ l2).
  clear H. induction E; cbn; [done|]. econstructor; eauto.
Qed.

(** Below the cursor nothing more is emitted. *)
Lemma emits_above ins : forall p p' c,
  produce_all number_text stringify p ins = Some p' -> c <= cursor p ->
  (forall q, running p = Some q -> c <= latest q /\ forall t, t ∈ todo q -> c < row_id t) ->
  forall r, row_id r <= c -> event_text r ∈ emits p' -> event_text r ∈ emits p.
Proof.
  induction ins as [|i ins IH]; cbn [produce_all]; intros p p' c H Hc Hq r Hr Hin; [by injection H as <-|].
  destruct (produce _ _ p i) as [p1|] eqn:E; [|done].
  destruct i as [r'| | | |]; cbn in E.
  - apply (inj Some) in E. subst p1. exact (IH _ _ c H Hc Hq r Hr Hin).
  - destruct (running p) as [q|] eqn:Hrun; [injection E as <-; refine (IH _ _ c H Hc _ r Hr Hin); by rewrite Hrun|].
    destruct (select_rows _ _ _) as [|x l] eqn:Esel; [injection E as <-; refine (IH _ _ c H Hc _ r Hr Hin); by rewrite Hrun|].
    apply (inj Some) in E. subst p1. refine (IH _ _ c H Hc _ r Hr Hin). intros q [= <-]. cbn. split; [done|].
    intros t Ht. rewrite <- Esel in Ht. apply select_rows_above in Ht as [_ Ht]. lia.
  - destruct (running p) as [[[|row rest] l]|] eqn:Hrun; [done| |done].
    apply (inj Some) in E. subst p1. destruct (Hq _ eq_refl) as [Hl Ht]. cbn [todo latest] in *.
    pose proof (Ht row ltac:(by left)) as Hrow.
    pose proof (IH _ _ c H Hc ltac:(intros q [= <-]; cbn; split; [lia|intros t Htt; apply Ht; by right]) r Hr Hin) as Hin'.
    cbn [emits] in Hin'. apply elem_of_app in Hin' as [Hin'|Hin']; [done|].
    destruct (maps row (cluster p)) as [input|] eqn:Em; [|by apply elem_of_nil in Hin'].
    apply map_event_row_mapped in Em as (_ & ty & rt & id & fs & _ & ->). cbn in Hin'.
    apply list_elem_of_singleton, event_text_inj in Hin'. lia.
  - destruct (running p) as [[[|row rest] l]|] eqn:Hrun; try done.
    apply (inj Some) in E. subst p1. destruct (Hq _ eq_refl) as [Hl _].
    refine (IH _ _ c H Hl _ r Hr Hin). done.
  - apply (inj Some) in E. subst p1. refine (IH _ _ c H Hc _ r Hr Hin). done.
Qed.

Lemma orderly_run p ins p' : run p ins p' -> produce_all number_text stringify p ins = Some p'.
Proof. induction 1 as [|p i p1 ins p' _ E _ IH]; cbn; [done|]. by rewrite E. Qed.

Lemma produce_table p i p' r : produce number_text stringify p i = Some p' -> r ∈ table p -> r ∈ table p'.
Proof.
  destruct i as [r'| | | |]; cbn; [intros <-%(inj Some) H; apply elem_of_app; by left| | | |];
    repeat case_match; intros E; simplify_eq; done.
Qed.

Lemma produce_all_table ins : forall p p' r, produce_all number_text stringify p ins = Some p' -> r ∈ table p -> r ∈ table p'.
Proof.
  induction ins as [|i ins IH]; cbn; intros p p' r H Hr; [by injection H as <-|].
  destruct (produce _ _ p i) as [p1|] eqn:E; [|done]. eapply IH; [done|]. by eapply produce_table.
Qed.

(** The cursor never runs ahead of the emits: whatever rows the indexer commits
    in the order of their ids, and wherever the process dies and restarts, every
    row up to the stored cursor that maps to an event has been emitted. *)
Theorem cursor_covers (cl : string) (batch : nat) (ins : list step_input) (p : producer)
  (H : run (fresh_producer cl batch) ins p) (r : ProgramEventRow) (input : WebhookEventInput)
  (Hr : r ∈ table p) (Hc : row_id r <= cursor p) (Hm : maps r (cluster p) = Some input) :
  event_text r ∈ emits p.
Proof.
  assert (Hp : producer_ok number_text stringify p) by (eapply orderly_ok; [done|apply fresh_ok]).
  by eapply (ok_covered _ _ _ Hp).
Qed.

(** Between polls, as many polls as there are pending rows emit every row of the
    table that maps to an event: nothing that is committed waits for ever. *)
Theorem producer_drains (cl : string) (batch : nat) (ins : list step_input) (p : producer)
  (H : run (fresh_producer cl batch) ins p) (Hrun : running p = None) (Hb : (0 < batchSize p)%nat) :
  exists p', runs number_text stringify (length (List.filter (pending (cursor p)) (table p))) p = Some p' /\
    table p' = table p /\
    forall r input, r ∈ table p -> maps r (cluster p) = Some input -> event_text r ∈ emits p'.
Proof.
  assert (Hp : producer_ok number_text stringify p) by (eapply orderly_ok; [done|apply fresh_ok]).
  destruct (runs_drain _ p (ok_table _ _ _ Hp) Hrun Hb (le_n _)) as (p' & H1 & H2 & H3 & _ & H5).
  exists p'. split_and!; [done|done|]. intros r input Hr Hm.
  apply runs_orderly in H1 as [l Hl]. pose proof (orderly_ok _ _ _ _ _ Hl Hp) as Hp'.
  destruct (Z.le_gt_cases (row_id r) (cursor p')) as [Hle|Hgt].
  - eapply (ok_covered _ _ _ Hp'); [by rewrite H2|done|by rewrite H3].
  - assert (Hin : r ∈ List.filter (pending (cursor p')) (table p)).
    { apply list_elem_of_In, List.filter_In. split; [by apply list_elem_of_In|]. apply pending_spec. split; [done|].
      by apply map_event_row_mapped in Hm as [? _]. }
    rewrite H5 in Hin. by apply elem_of_nil in Hin.
Qed.

(** A row that becomes visible below the cursor (ids are drawn from the sequence
    before the transaction commits) is never emitted, whatever happens later. *)
Theorem late_row_never_emitted (p p' : producer) (r : ProgramEventRow) (ins : list step_input)
  (Hrun : running p = None) (Hr : row_id r <= cursor p) (Hnew : event_text r ∉ emits p)
  (H : produce_all number_text stringify p (S_insert r :: ins) = Some p') :
  r ∈ table p' /\ event_text r ∉ emits p'.
Proof.
  cbn [produce_all produce] in H. split.
  - eapply produce_all_table; [done|]. apply elem_of_app. right. by left.
  - intros Hin. apply Hnew. refine (emits_above _ _ _ (cursor p) H ltac:(done) _ r Hr Hin). cbn. by rewrite Hrun.
Qed.
End delivery.

(** ** The theorems on concrete runs *)

Definition a_row (id : Z) (name : string) : ProgramEventRow :=
  {| row_id := id; row_signature := "sig"; slot := "7"; program_id := "prog"; event_name := name;
     row_data := Some [("task_id", V_array [V_number 171; V_number 7]); ("amount", V_number 5)] |}%string.

Definition a_text (_ : Q) : string := "5".
Definition a_json (_ : list (string * payload_value)) : string := "{}".

(** Two rows committed, one emitted, the process dies, the batch runs again. *)
Definition a_history : list step_input :=
  [S_insert (a_row 1 "TaskCreated"); S_insert (a_row 2 "Unmapped"); S_insert (a_row 3 "TaskVerified");
   S_tick; S_emit; S_crash; S_tick; S_emit; S_emit; S_update; S_insert (a_row 4 "TaskReleased")]%string.

Definition an_end : producer :=
  from_option id (fresh_producer "devnet" 10) (produce_all a_text a_json (fresh_producer "devnet" 10) a_history).

Lemma a_history_runs : orderly a_text a_json (fresh_producer "devnet" 10) a_history an_end.
Proof. apply run_in_order_sound. vm_compute. reflexivity. Qed.

Lemma cursor_covers_witness : cursor an_end = 3 /\ event_text (a_row 3 "TaskVerified") ∈ emits an_end.
Proof.
  split; [reflexivity|].
  destruct (mapEventRow a_text a_json (a_row 3 "TaskVerified") (cluster an_end)) as [input|] eqn:E; [|vm_compute in E; discriminate E].
  apply (cursor_covers a_text a_json "devnet" 10 a_history an_end a_history_runs _ input); [|vm_compute; discriminate|exact E].
  assert (table an_end = [a_row 1 "TaskCreated"; a_row 2 "Unmapped"; a_row 3 "TaskVerified"; a_row 4 "TaskReleased"]%string) as ->
    by (vm_compute; reflexivity).
  right; right; left.
Defined.

Lemma producer_drains_witness : exists p', runs a_text a_json 1 an_end = Some p' /\ event_text (a_row 4 "TaskReleased") ∈ emits p'.
Proof.
  destruct (producer_drains a_text a_json "devnet" 10 a_history an_end a_history_runs ltac:(vm_compute; reflexivity)
    ltac:(vm_compute; lia)) as (p' & H1 & H2 & H3).
  exists p'. split; [exact H1|].
  destruct (mapEventRow a_text a_json (a_row 4 "TaskReleased") (cluster an_end)) as [input|] eqn:E; [|vm_compute in E; discriminate E].
  apply (H3 _ input); [|exact E].
  assert (table an_end = [a_row 1 "TaskCreated"; a_row 2 "Unmapped"; a_row 3 "TaskVerified"; a_row 4 "TaskReleased"]%string) as ->
    by (vm_compute; reflexivity).
  right; right; right; left.
Defined.

(** Row 2 commits after row 3 was handled: ten more polls do not emit it. *)
Lemma late_row_never_emitted_witness :
  exists p', produce_all a_text a_json an_end (S_insert (a_row 2 "TaskCreated") :: repeat S_tick 10) = Some p' /\
    event_text (a_row 2 "TaskCreated") ∉ emits p'.
Proof.
  destruct (produce_all a_text a_json an_end (S_insert (a_row 2 "TaskCreated") :: repeat S_tick 10)) as [p'|] eqn:E;
    [|vm_compute in E; discriminate E].
  exists p'. split; [reflexivity|].
  apply (late_row_never_emitted a_text a_json an_end p' (a_row 2 "TaskCreated") (repeat S_tick 10));
    [vm_compute; reflexivity|vm_compute; discriminate|match goal with |- ?P => exact (bool_decide_eq_true_1 P eq_refl) end|exact E].
Defined.

Lemma mapped_event_spec_witness : exists input, mapEventRow a_text a_json (a_row 3 "TaskVerified") "devnet" = Some input /\
  ie_id input = Some "program_event:3"%string.
Proof.
  destruct (mapEventRow a_text a_json (a_row 3 "TaskVerified") "devnet") as [input|] eqn:E; [|vm_compute in E; discriminate E].
  exists input. split; [reflexivity|]. exact (proj1 (proj2 (mapped_event_spec a_text a_json _ _ input E))).
Defined.
