(* ===== verification/ZkCatalog.v ===== *)
(** * ZkCatalog: the circuits the proof generator serves

    Models packages/sdk/src/research/zk.ts (catalog entries, the names derived
    from them, their validation) and services/proof-gen/src/catalog.ts (reading the
    manifests and locating the artifacts).  The file system is a function from
    directories and paths; joining path segments ([node:path]'s [resolve]) and
    SHA-256 are parameters. *)

From Stdlib Require Import ZArith Ascii.
From stdpp Require Import base list strings.
From S2P Require Import Prelude Bytes Json Zod.

Open Scope Z_scope.

Inductive VerificationKeyType := groth16_bn254 | ezkl.
Inductive CircuitLifecycle := live | planned | research.

Record CircuitCatalogEntry := {
  slug : string;
  displayName : string;
  lifecycle : CircuitLifecycle;
  version : Z;
  verifier : VerificationKeyType;
  verificationKeyVersion : Z;
  publicInputs : list string;
  summary : string;
}.

Definition DEFAULT_CIRCUIT_CATALOG : list CircuitCatalogEntry :=
  [{| slug := "task-completion"; displayName := "Task Completion"; lifecycle := live; version := 1; verifier := groth16_bn254;
      verificationKeyVersion := 1; publicInputs := ["task_hash"; "result_hash"; "deadline"; "submitted_at"; "criteria_root"];
      summary := "Current task-completion proof used to bind escrow release to a committed task/result pair." |};
   {| slug := "unique-execution"; displayName := "Unique Execution"; lifecycle := live; version := 1; verifier := groth16_bn254;
      verificationKeyVersion := 1; publicInputs := ["execution_root"; "task_id"; "nonce"];
      summary := "Reusable anti-replay and unique-execution primitive for proof-gated work classes." |};
   {| slug := "task-output-hash"; displayName := "Deterministic Task Output Hashing"; lifecycle := planned; version := 1;
      verifier := groth16_bn254; verificationKeyVersion := 1; publicInputs := ["task_id"; "input_hash"; "output_hash"];
      summary := "First reusable helper circuit for binding task inputs and outputs without re-specifying hash order per task family." |};
   {| slug := "zkml-ezkl"; displayName := "ZK-ML via EZKL"; lifecycle := research; version := 1; verifier := ezkl;
      verificationKeyVersion := 1; publicInputs := ["task_id"; "model_hash"; "input_hash"; "output_hash"];
      summary := "Research track for verifiable inference proofs once Solana-side verification feasibility is proven." |}]%string.

Definition circuitArtifactStem (slug : string) (version : Z) : string := slug +:+ "-v" +:+ z_text version.

Definition circuitManifestPath (slug : string) (version : Z) : string := "circuits/catalog/" +:+ circuitArtifactStem slug version +:+ ".json".

(** [slug.replace(/-/g, '_')] *)
Fixpoint underscores (s : string) : string :=
  match s with
  | EmptyString => EmptyString
  | String c s' => String (if bool_decide (c = "-"%char) then "_"%char else c) (underscores s')
  end.

Definition circuitRuntimeId (slug : string) (version : Z) : string := underscores slug +:+ ".v" +:+ z_text version.

Definition circuitRuntimeStem (slug : string) : string := underscores slug.

(** [/^[a-z0-9-]+$/] *)
Definition slug_char (c : ascii) : bool := char_in 97 122 c || char_in 48 57 c || bool_decide (c = "-"%char).
Definition slug_ok (s : string) : bool := (1 <=? String.length s)%nat && all_chars slug_char s.

(** [new Set(l).size !== l.length] *)
Definition has_duplicates (l : list string) : bool := negb (length (remove_dups l) =? length l)%nat.

Definition validateCircuitCatalogEntry (entry : CircuitCatalogEntry) : list string :=
  push_if (version entry <? 1) "version must be >= 1"%string ++
  push_if (verificationKeyVersion entry <? 1) "verificationKeyVersion must be >= 1"%string ++
  push_if (length (publicInputs entry) =? 0)%nat "publicInputs must not be empty"%string ++
  push_if (has_duplicates (publicInputs entry)) "publicInputs must be unique"%string ++
  push_if (negb (slug_ok (slug entry))) "slug must contain only lowercase letters, numbers, and dashes"%string.

(** ** catalog.ts *)

#[local] Open Scope string_scope.

Definition non_empty (s : string) : bool := (1 <=? String.length s)%nat.

Definition CircuitCatalogManifestSchema : schema CircuitCatalogEntry := z_object (fun o =>
  sl ← z_key "slug" (z_string slug_ok) o;
  dn ← z_key "displayName" (z_string non_empty) o;
  lc ← z_key "lifecycle" (z_enum [("live", live); ("planned", planned); ("research", research)]) o;
  ve ← z_key "version" (z_int_min 1) o;
  vf ← z_key "verifier" (z_enum [("groth16-bn254", groth16_bn254); ("ezkl", ezkl)]) o;
  vk ← z_default "verificationKeyVersion" (z_int_min 1) 1 o;
  pi ← z_key "publicInputs" (z_array (z_string non_empty) (fun n => 1 <=? n)%nat) o;
  su ← z_key "summary" (z_string non_empty) o;
  Some {| slug := sl; displayName := dn; lifecycle := lc; version := ve; verifier := vf; verificationKeyVersion := vk;
          publicInputs := pi; summary := su |}).

Record RuntimeCircuitCatalogEntry := {
  entry :> CircuitCatalogEntry;
  runtimeId : string;
  manifestPath : string;
  buildDir : string;
  wasmPath : string;
  zkeyPath : string;
  verificationKeyPath : string;
  artifactsReady : bool;
  verificationKeyPresent : bool;
}.

Fixpoint result_all {A} (l : list (result A)) : result (list A) :=
  match l with
  | [] => Ok []
  | Ok a :: l' => match result_all l' with Ok t => Ok (a :: t) | Throw e => Throw e end
  | Throw e :: _ => Throw e
  end.

#[local] Open Scope Z_scope.

Definition byte_order (a b : string) : comparison := String.compare a b.

Section catalog.
Variable resolve : list string -> string.                        (* path.resolve *)
Variable readdir : string -> option (list string).               (* None: the directory does not exist *)
Variable read_json : string -> result json.                      (* JSON.parse(readFileSync(_)) *)
Variable exists_file : string -> bool.
Variable sha256_hex : string -> string.

Definition read_manifest (catalogDir name : string) : result CircuitCatalogEntry :=
  match read_json (resolve [catalogDir; name]) with
  | Throw e => Throw e
  | Ok raw =>
    match CircuitCatalogManifestSchema raw with
    | None => Throw "invalid manifest"
    | Some entry =>
      match validateCircuitCatalogEntry entry with
      | [] => Ok entry
      | errors => Throw ("invalid circuit manifest " +:+ name +:+ ": " +:+ String.concat ", " errors)
      end
    end
  end.

Definition ends_with (suffix s : string) : bool :=
  let n := (String.length s - String.length suffix)%nat in
  (String.length suffix <=? String.length s)%nat && String.eqb (String.substring n (String.length suffix) s) suffix.

Definition readCatalogEntries (catalogDir : string) : result (list CircuitCatalogEntry) :=
  match readdir catalogDir with
  | None => Ok DEFAULT_CIRCUIT_CATALOG
  | Some names => result_all (map (read_manifest catalogDir) (js_sort byte_order (List.filter (ends_with ".json") names)))
  end.

Definition runtime_entry (catalogDir buildRoot : string) (e : CircuitCatalogEntry) : RuntimeCircuitCatalogEntry :=
  let runtimeStem := circuitRuntimeStem (slug e) in
  let buildDir := resolve [buildRoot; runtimeStem; "build"%string] in
  let wasmPath := resolve [buildDir; runtimeStem +:+ "_js"; runtimeStem +:+ ".wasm"] in
  let zkeyPath := resolve [buildDir; runtimeStem +:+ ".zkey"] in
  let verificationKeyPath := resolve [buildDir; "verification_key.json"%string] in
  {| entry := e; runtimeId := circuitRuntimeId (slug e) (version e);
     manifestPath := resolve [catalogDir; circuitArtifactStem (slug e) (version e) +:+ ".json"];
     buildDir := buildDir; wasmPath := wasmPath; zkeyPath := zkeyPath; verificationKeyPath := verificationKeyPath;
     artifactsReady := exists_file wasmPath && exists_file zkeyPath; verificationKeyPresent := exists_file verificationKeyPath |}.

Definition loadRuntimeCircuitCatalog (catalogDir buildRoot : string) : result (list RuntimeCircuitCatalogEntry) :=
  match readCatalogEntries catalogDir with
  | Throw e => Throw e
  | Ok entries => Ok (map (runtime_entry catalogDir buildRoot) entries)
  end.

Definition findRuntimeCircuit (catalog : list RuntimeCircuitCatalogEntry) (id : string) : option RuntimeCircuitCatalogEntry :=
  List.find (fun e => String.eqb (runtimeId e) id) catalog.

(** [JSON.stringify([id, ...])]: an absent field is [undefined], which an array
    shows as [null]. *)
Definition public_text (id : string) (fields : list string) (inputs : list (string * string)) : string :=
  json_array (JStr id :: map (fun f => match List.find (fun kv => String.eqb kv.1 f) inputs with
                                       | Some kv => JStr kv.2
                                       | None => JNull
                                       end) fields).

Definition hashCircuitPublicInputs (circuit : RuntimeCircuitCatalogEntry) (inputs : list (string * string)) : string :=
  sha256_hex (public_text (runtimeId circuit) (publicInputs circuit) inputs).
End catalog.
