(* ===== verification/ProofGen.v ===== *)
(** * ProofGen: the proof generator's API and worker

    Models services/proof-gen/src: schema.ts, the keys and defaults of queue.ts,
    the routes of server.ts with their rate limiter and witness encryption, and the
    job processor of worker.ts.  Redis, BullMQ, snarkjs, the random source and the
    file system are operations of the outside world ([proof_ops]); AES-GCM, JWT
    verification, SHA-256, base64 and JSON are parameters ([proof_lib]).  The
    circuit catalog is ZkCatalog's; API and worker load the same one.  The plaintext
    and key buffers the code overwrites with zeros are not modelled. *)

From Stdlib Require Import ZArith Ascii.
From stdpp Require Import base list strings.
From S2P Require Import Prelude Effects JsMap Json Zod ZkCatalog.

Open Scope Z_scope.
Open Scope saep_scope.

(** ** schema.ts *)

Definition digit_char (c : ascii) : bool := char_in 48 57 c.
Definition hex_any (c : ascii) : bool := char_in 48 57 c || char_in 97 102 c || char_in 65 70 c.

(** [/^0x[0-9a-fA-F]...$/], with a check on the number of digits. *)
Definition hex_text (size : nat -> bool) (s : string) : bool :=
  match s with
  | String "0" (String "x" t) => all_chars hex_any t && size (String.length t)
  | _ => false
  end%char.

Definition decimal_text (s : string) : bool := (1 <=? String.length s)%nat && all_chars digit_char s.

Definition field_text (s : string) : bool := hex_text (fun n => 1 <=? n)%nat s || decimal_text s.
Definition hash32_text (s : string) : bool := hex_text (fun n => n =? 64)%nat s.

Definition N_TASK : nat := 16.
Definition N_RESULT : nat := 32.
Definition K : nat := 8.
Definition LOG_K : nat := 3.

Record PublicInputs := {
  task_hash : string;
  result_hash : string;
  deadline : string;
  submitted_at : string;
  criteria_root : string;
}.

Record PrivateInputs := {
  task_preimage : list string;
  result_preimage : list string;
  salt : string;
  criteria_satisfied : list string;
  criteria_path : list string;
  criteria_index : list string;
}.

Record ProveRequest := {
  circuit_id : string;
  public_inputs : PublicInputs;
  private_inputs : PrivateInputs;
}.

Definition PublicInputsSchema : schema PublicInputs := z_object (fun o =>
  th ← z_key "task_hash" (z_string hash32_text) o;
  rh ← z_key "result_hash" (z_string hash32_text) o;
  dl ← z_key "deadline" (z_string decimal_text) o;
  sa ← z_key "submitted_at" (z_string decimal_text) o;
  cr ← z_key "criteria_root" (z_string hash32_text) o;
  Some {| task_hash := th; result_hash := rh; deadline := dl; submitted_at := sa; criteria_root := cr |}).

Definition z_fields (n : nat) : schema (list string) := z_array (z_string field_text) (fun k => k =? n)%nat.

Definition PrivateInputsSchema : schema PrivateInputs := z_object (fun o =>
  tp ← z_key "task_preimage" (z_fields N_TASK) o;
  rp ← z_key "result_preimage" (z_fields N_RESULT) o;
  sa ← z_key "salt" (z_string field_text) o;
  cs ← z_key "criteria_satisfied" (z_fields K) o;
  cp ← z_key "criteria_path" (z_fields LOG_K) o;
  ci ← z_key "criteria_index" (z_fields LOG_K) o;
  Some {| task_preimage := tp; result_preimage := rp; salt := sa; criteria_satisfied := cs; criteria_path := cp;
          criteria_index := ci |}).

(** [/^[a-z0-9_]+\.v[0-9]+$/] *)
Definition id_char (c : ascii) : bool := char_in 97 122 c || char_in 48 57 c || bool_decide (c = "_"%char).

Fixpoint runtime_id_text (seen : bool) (s : string) : bool :=
  match s with
  | String c s' =>
    if id_char c then runtime_id_text true s'
    else match s with
         | String "." (String "v" t) => seen && decimal_text t
         | _ => false
         end
  | EmptyString => false
  end%char.

Definition ProveRequestSchema : schema ProveRequest := z_object (fun o =>
  ci ← z_key "circuit_id" (z_string (runtime_id_text false)) o;
  pu ← z_key "public_inputs" PublicInputsSchema o;
  pr ← z_key "private_inputs" PrivateInputsSchema o;
  Some {| circuit_id := ci; public_inputs := pu; private_inputs := pr |}).

(** The parsed inputs as objects, their keys in the order the schema lists them. *)
Definition public_object (p : PublicInputs) : list (string * string) :=
  [("task_hash", task_hash p); ("result_hash", result_hash p); ("deadline", deadline p); ("submitted_at", submitted_at p);
   ("criteria_root", criteria_root p)]%string.

Definition strings (l : list string) : json := J_arr (map J_str l).

Definition private_object (p : PrivateInputs) : list (string * json) :=
  [("task_preimage", strings (task_preimage p)); ("result_preimage", strings (result_preimage p)); ("salt", J_str (salt p));
   ("criteria_satisfied", strings (criteria_satisfied p)); ("criteria_path", strings (criteria_path p));
   ("criteria_index", strings (criteria_index p))]%string.

(** ** queue.ts *)

Record ProveJobData := {
  jd_circuit_id : string;
  jd_public_inputs : PublicInputs;
  witness_ciphertext : string;
  witness_iv : string;
  witness_tag : string;
  agent_did : string;
  public_inputs_hash : string;
}.

(** The defaults of [buildQueue]. *)
Definition JOB_ATTEMPTS : Z := 3.

Definition resultKey (jobId : string) : string := "proof-gen:result:" +:+ jobId.
Definition keyKey (jobId : string) : string := "proof-gen:key:" +:+ jobId.
Definition cacheKey (hash : string) : string := "proof-gen:cache:" +:+ hash.

(** ** What the code relies on *)

(** A job as BullMQ shows it. *)
Record job_view := { job_state : string; returnvalue : option json; failedReason : option string }.

(** The options of jose's [jwtVerify]. *)
Record jwt_options := { jo_issuer : option string; jo_algorithms : option (list string); jo_audience : option string }.

Record proof_lib := {
  stringify : json -> string;                                     (* JSON.stringify *)
  parse : string -> option json;                                  (* JSON.parse; None: it throws *)
  sha256_hex : string -> string;
  to_base64 : string -> string;
  of_base64 : string -> string;
  encrypt : string -> string -> string -> string * string;        (* AES-256-GCM: key, iv, plaintext to ciphertext, tag *)
  decrypt : string -> string -> string -> string -> option string; (* key, iv, tag, ciphertext; None: it throws *)
  jwtVerify : string -> string -> jwt_options -> option (option string); (* token, secret, options to the subject; None: it throws *)
  is_uuid : string -> bool;                                       (* z.string().uuid() *)
}.

Record proof_ops (W : Type) := {
  po_get : string -> io W (option string);
  po_set : string -> string -> Z -> io W unit;                    (* SET key value EX seconds *)
  po_del : string -> io W unit;
  po_randomBytes : Z -> io W string;
  po_uuid : io W string;
  po_add : ProveJobData -> string -> io W unit;                   (* queue.add('prove', data, {jobId}) *)
  po_getJob : string -> io W (option job_view);                   (* queue.getJob and job.getState *)
  po_exists : string -> io W bool;                                (* existsSync *)
  po_fullProve : list (string * json) -> string -> string -> io W (json * list string);
  po_dlq_add : ProveJobData -> string -> string -> io W unit;     (* dlq.add('dead', {...data, error}, {jobId}) *)
}.
Arguments po_get {W} _ _ _.
Arguments po_set {W} _ _ _ _ _.
Arguments po_del {W} _ _ _.
Arguments po_randomBytes {W} _ _ _.
Arguments po_uuid {W} _ _.
Arguments po_add {W} _ _ _ _.
Arguments po_getJob {W} _ _ _.
Arguments po_exists {W} _ _ _.
Arguments po_fullProve {W} _ _ _ _ _.
Arguments po_dlq_add {W} _ _ _ _ _.

(** ** server.ts: authentication and the rate limiter *)

Definition SESSION_ISSUER : string := "saep.portal".
Definition SESSION_KEY_LENGTH : nat := 32.

(** What [resolveAgent] asks of a token. *)
Definition session_options : jwt_options :=
  {| jo_issuer := Some SESSION_ISSUER; jo_algorithms := Some ["HS256"%string]; jo_audience := Some "saep:proof-gen"%string |}.

Definition getSessionKey (secret : option string) : option string :=
  match secret with
  | Some s => if (String.length s <? SESSION_KEY_LENGTH)%nat then None else Some s
  | None => None
  end.

Definition resolveAgent (lib : proof_lib) (SESSION_SECRET : option string) (authHeader : option string) : option string :=
  match authHeader with
  | Some h =>
    if String.prefix "Bearer " h then
      let token := trim (String.substring 7 (String.length h - 7) h) in
      if String.eqb token "" then None
      else match getSessionKey SESSION_SECRET with
           | None => None
           | Some secret => match jwtVerify lib token secret session_options with Some (Some address) => Some address | _ => None end
           end
    else None
  | None => None
  end.

Definition BURST_LIMIT : Z := 10.
Definition WINDOW_MS : Z := 60000.

Record bucket := { count : Z; resetAt : Z }.

(** The interval's sweep: expired buckets are deleted. *)
Definition sweepBuckets (now : Z) (bs : list (string * bucket)) : list (string * bucket) :=
  List.filter (fun kb => now <? resetAt kb.2) bs.

(** [Math.ceil((resetAt - now) / 1000)] *)
Definition seconds_until (resetAt now : Z) : Z := - ((now - resetAt) / 1000).

(** [None] is [{ ok: true }], [Some s] is [{ ok: false, retry_after: s }]. *)
Definition checkRateLimit (agentDid : string) (now : Z) (bs : list (string * bucket)) : option Z * list (string * bucket) :=
  let b := match map_get agentDid bs with
           | Some b => if resetAt b <=? now then {| count := 0; resetAt := now + WINDOW_MS |} else b
           | None => {| count := 0; resetAt := now + WINDOW_MS |}
           end in
  let b := {| count := count b + 1; resetAt := resetAt b |} in
  (if BURST_LIMIT <? count b then Some (seconds_until (resetAt b) now) else None, map_set agentDid b bs).

(** ** server.ts: the routes *)

Inductive reply :=
| R_unauthorized                                        (* 401 *)
| R_rate_limited (retry_after : Z)                      (* 429 *)
| R_invalid_body                                        (* 400 *)
| R_unsupported_circuit                                 (* 400 *)
| R_circuit_not_live                                    (* 422 *)
| R_no_artifacts                                        (* 503 *)
| R_cached (body : json)                                (* 200, the parsed cache entry with its status and [cached] *)
| R_queued (job_id : string)                            (* 202 *)
| R_invalid_id                                          (* 400 *)
| R_not_found                                           (* 404 *)
| R_stored (body : json)                                (* 200, the parsed result entry *)
| R_completed (returnvalue : option json)               (* 200 *)
| R_failed (error : string)                             (* 200 *)
| R_state (status : string).                            (* 200 *)

Definition KEY_TTL : Z := 600.
Definition RESULT_TTL : Z := 3600.

Section proof_gen.
Context {W : Type}.
Variable ops : proof_ops W.
Variable lib : proof_lib.
Variable catalog : list RuntimeCircuitCatalogEntry.

(** [JSON.parse] of a text, which may throw. *)
Definition json_parse (s : string) : io W json :=
  match parse lib s with
  | Some v => io_ret v
  | None => io_throw "JSON"
  end.

Record encrypted := { e_ciphertext : string; e_iv : string; e_tag : string; e_key : string }.

Definition encryptWitness (priv : PrivateInputs) : io W encrypted :=
  do! key <- po_randomBytes ops 32 in
  do! iv <- po_randomBytes ops 12 in
  let ct := encrypt lib key iv (stringify lib (J_obj (private_object priv))) in
  io_ret {| e_ciphertext := to_base64 lib ct.1; e_iv := to_base64 lib iv; e_tag := to_base64 lib ct.2; e_key := key |}.

(** The last part of POST /prove: encrypt, store the key, add the job. *)
Definition enqueue_request (agent : string) (r : ProveRequest) (circuit : RuntimeCircuitCatalogEntry) : io W reply :=
  do! enc <- encryptWitness (private_inputs r) in
  do! jobId <- po_uuid ops in
  do! _ <- po_set ops (keyKey jobId) (to_base64 lib (e_key enc)) KEY_TTL in
  do! _ <- po_add ops {| jd_circuit_id := circuit_id r; jd_public_inputs := public_inputs r;
                         witness_ciphertext := e_ciphertext enc; witness_iv := e_iv enc; witness_tag := e_tag enc;
                         agent_did := agent;
                         public_inputs_hash := hashCircuitPublicInputs (sha256_hex lib) circuit (public_object (public_inputs r)) |} jobId in
  io_ret (R_queued jobId).

(** POST /prove once the request is authenticated, admitted and parsed. *)
Definition prove_request (agent : string) (r : ProveRequest) : io W reply :=
  match findRuntimeCircuit catalog (circuit_id r) with
  | None => io_ret R_unsupported_circuit
  | Some circuit =>
    match lifecycle circuit with
    | live =>
      if negb (artifactsReady circuit) then io_ret R_no_artifacts
      else
        let pubHash := hashCircuitPublicInputs (sha256_hex lib) circuit (public_object (public_inputs r)) in
        do! cached <- po_get ops (cacheKey pubHash) in
        match cached with
        | Some (String _ _ as text) => do! body <- json_parse text in io_ret (R_cached body)
        | _ => enqueue_request agent r circuit
        end
    | _ => io_ret R_circuit_not_live
    end
  end.

(** POST /prove: the buckets after the request, and what it still does. *)
Definition post_prove (SESSION_SECRET authHeader : option string) (body : json) (now : Z) (bs : list (string * bucket)) :
    list (string * bucket) * io W reply :=
  match resolveAgent lib SESSION_SECRET authHeader with
  | None => (bs, io_ret R_unauthorized)
  | Some agent =>
    let '(rl, bs') := checkRateLimit agent now bs in
    (bs', match rl with
          | Some retry_after => io_ret (R_rate_limited retry_after)
          | None => match ProveRequestSchema body with None => io_ret R_invalid_body | Some r => prove_request agent r end
          end)
  end.

(** GET /jobs/:id *)
Definition get_job (id : string) : io W reply :=
  if negb (is_uuid lib id) then io_ret R_invalid_id
  else
    do! cached <- po_get ops (resultKey id) in
    match cached with
    | Some (String _ _ as text) => do! body <- json_parse text in io_ret (R_stored body)
    | _ =>
      do! job <- po_getJob ops id in
      io_ret match job with
             | None => R_not_found
             | Some j =>
               if String.eqb (job_state j) "completed" then R_completed (returnvalue j)
               else if String.eqb (job_state j) "failed" then R_failed (default "unknown"%string (failedReason j))
               else R_state (job_state j)
             end
    end.

(** ** worker.ts *)

(** The artifacts of a circuit; the cache is the worker's [artifactCache]. *)
Definition artifacts := list (string * (string * string)).

Definition loadArtifacts (id : string) (cache : artifacts) : io W ((string * string) * artifacts) :=
  match map_get id cache with
  | Some paths => io_ret (paths, cache)
  | None =>
    match findRuntimeCircuit catalog id with
    | None => io_throw ("unknown circuit: " +:+ id)
    | Some circuit =>
      match lifecycle circuit with
      | live =>
        do! w <- po_exists ops (wasmPath circuit) in
        do! _ <- io_check w ("wasm missing: " +:+ wasmPath circuit) in
        do! z <- po_exists ops (zkeyPath circuit) in
        do! _ <- io_check z ("zkey missing: " +:+ zkeyPath circuit) in
        io_ret ((wasmPath circuit, zkeyPath circuit), map_set id (wasmPath circuit, zkeyPath circuit) cache)
      | _ => io_throw ("circuit not live: " +:+ id)
      end
    end
  end.

Definition decryptWitness (data : ProveJobData) (key : string) : io W json :=
  match decrypt lib key (of_base64 lib (witness_iv data)) (of_base64 lib (witness_tag data)) (of_base64 lib (witness_ciphertext data)) with
  | Some plaintext => json_parse plaintext
  | None => io_throw "Unsupported state or unable to authenticate data"
  end.

(** [{ ...public, ...priv }]: a spread of anything but an object adds no field
    here (arrays and strings would add their indices). *)
Definition merge_witness (pub : list (string * string)) (priv : json) : list (string * json) :=
  let fs := match priv with J_obj fs => fs | _ => [] end in
  fold_left (fun o kv => map_set kv.1 kv.2 o) fs (map (fun kv => (kv.1, J_str kv.2)) pub).

Definition completed_text (proof : json) (signals : list string) : string :=
  stringify lib (J_obj [("status", J_str "completed"); ("proof", proof); ("public_signals", strings signals)])%string.

(** The first part of the job processor: the key is taken and deleted. *)
Definition take_key (id : string) : io W string :=
  do! keyB64 <- po_get ops (keyKey id) in
  match keyB64 with
  | Some (String _ _ as t) =>
    do! _ <- po_del ops (keyKey id) in
    io_ret (of_base64 lib t)
  | _ => io_throw "witness_key_expired"
  end.

(** The rest: decrypt, prove, store the result under the job and the cache. *)
Definition prove_with (id : string) (data : ProveJobData) (paths : string * string) (key : string) : io W (json * list string) :=
  do! priv <- decryptWitness data key in
  do! r <- po_fullProve ops (merge_witness (public_object (jd_public_inputs data)) priv) paths.1 paths.2 in
  let payload := completed_text r.1 r.2 in
  do! _ <- po_set ops (resultKey id) payload RESULT_TTL in
  do! _ <- po_set ops (cacheKey (public_inputs_hash data)) payload RESULT_TTL in
  io_ret r.

(** One attempt at a job: its outcome and the artifact cache it leaves. *)
Definition process (id : string) (data : ProveJobData) (cache : artifacts) : io W (result (json * list string) * artifacts) :=
  do! p <- io_try (loadArtifacts (jd_circuit_id data) cache) in
  match p with
  | Throw e => io_ret (Throw e, cache)
  | Ok (paths, cache') =>
    do! r <- io_try (do! key <- take_key id in prove_with id data paths key) in
    io_ret (r, cache')
  end.

(** worker.on('failed'): the job goes to the dead-letter queue after its last
    attempt; an error there is only logged. *)
Definition on_failed (id : string) (data : ProveJobData) (attemptsMade attempts : Z) (err : string) : io W unit :=
  if attempts <=? attemptsMade then io_catch (po_dlq_add ops data err id) (fun _ => io_ret tt) else io_ret tt.
End proof_gen.
