(* ===== verification/ProofGenSafety.v ===== *)
(** * ProofGenSafety: what the proof generator serves, and how often it tries

    Theorems on ProofGen and ZkCatalog.  The outside world is seen through ghost
    views ([ghost]): what a GET of Redis may return, the uuids drawn, the jobs ever
    added, the proofs snarkjs returned.  [proof_laws] is the documented behaviour of
    the operations on these views; entries of Redis may expire at any time.
    [gstep] runs the handlers and the attempts of the worker in any order. *)

From Stdlib Require Import ZArith Lia Ascii.
From stdpp Require Import base list strings relations.
From S2P Require Import Prelude Bytes Effects JsMap Json Zod ZkCatalog ProofGen.

Open Scope Z_scope.

(** ** Names and hashes *)

Lemma underscores_inj s t : all_chars slug_char s = true -> all_chars slug_char t = true -> underscores s = underscores t -> s = t.
Proof.
  revert t. induction s as [|a s IH]; intros [|b t]; cbn; try done.
  intros [Ha Hs]%andb_true_iff [Hb Ht]%andb_true_iff H. injection H as Hab H. f_equal; [|by apply IH].
  destruct (decide (a = "-"%char)) as [->|Hna], (decide (b = "-"%char)) as [->|Hnb];
    rewrite ?bool_decide_true, ?bool_decide_false in Hab by done; try done; subst; vm_compute in Ha, Hb; discriminate.
Qed.

Lemma dotted_inj u v s t :
  all_chars (fun c => negb (bool_decide (c = "."%char))) u = true -> all_chars (fun c => negb (bool_decide (c = "."%char))) v = true ->
  u +:+ String "."%char s = v +:+ String "."%char t -> u = v /\ s = t.
Proof.
  revert v. induction u as [|a u IH]; intros [|b v]; cbn; intros Hu Hv H.
  - by injection H as ->.
  - injection H as <- H. apply andb_true_iff in Hv as [Hv _]. by vm_compute in Hv.
  - injection H as -> H. apply andb_true_iff in Hu as [Hu _]. by vm_compute in Hu.
  - apply andb_true_iff in Hu as [_ Hu], Hv as [_ Hv]. injection H as -> H. destruct (IH v Hu Hv H) as [-> ->]. done.
Qed.

Lemma underscores_no_dot s : all_chars slug_char s = true -> all_chars (fun c => negb (bool_decide (c = "."%char))) (underscores s) = true.
Proof.
  induction s as [|a s IH]; cbn; [done|]. intros [Ha Hs]%andb_true_iff. rewrite IH by done. rewrite andb_true_r.
  apply negb_true_iff, bool_decide_eq_false. case_bool_decide as H; [done|]. intros ->. by vm_compute in Ha.
Qed.

Lemma runtime_id_inj s1 v1 s2 v2 : all_chars slug_char s1 = true -> all_chars slug_char s2 = true ->
  circuitRuntimeId s1 v1 = circuitRuntimeId s2 v2 -> s1 = s2 /\ v1 = v2.
Proof.
  unfold circuitRuntimeId. intros H1 H2 H.
  apply dotted_inj in H as [E1 E2]; [|by apply underscores_no_dot..].
  apply underscores_inj in E1; [|done..]. split; [done|]. apply z_text_inj. by injection E2.
Qed.

Lemma result_all_in {A} (l : list (result A)) r a : result_all l = Ok r -> a ∈ r -> Ok a ∈ l.
Proof.
  revert r. induction l as [|x l IH]; cbn; intros r H Ha; [injection H as <-; by apply elem_of_nil in Ha|].
  destruct x as [x|e]; [|done]. destruct (result_all l) as [t|e]; [|done]. injection H as <-.
  apply elem_of_cons in Ha as [->|Ha]; [by left|right; by eapply IH].
Qed.

Lemma valid_slug e : validateCircuitCatalogEntry e = [] -> all_chars slug_char (slug e) = true.
Proof.
  unfold validateCircuitCatalogEntry. intros H. do 4 (apply app_eq_nil in H as [_ H]).
  apply push_if_nil, negb_false_iff in H. by apply andb_true_iff in H as [_ H].
Qed.

Section names.
Context (resolve : list string -> string) (readdir : string -> option (list string)) (read_json : string -> result json)
  (exists_file : string -> bool).

Lemma read_entries_valid dir es e :
  readCatalogEntries resolve readdir read_json dir = Ok es -> e ∈ es -> validateCircuitCatalogEntry e = [].
Proof.
  unfold readCatalogEntries. destruct (readdir dir) as [names|].
  - intros H He. eapply result_all_in in H; [|exact He]. apply list_elem_of_fmap in H as (name & H & _).
    unfold read_manifest in H. destruct (read_json _) as [raw|]; [|done].
    destruct (CircuitCatalogManifestSchema raw) as [x|]; [|done].
    destruct (validateCircuitCatalogEntry x) eqn:E; [|done]. by injection H as ->.
  - intros [= <-] He. repeat (apply elem_of_cons in He as [->|He]; [reflexivity|]). by apply elem_of_nil in He.
Qed.

(** A runtime id names one circuit: entries of a loaded catalog with the same id
    have the same slug and version, although the id replaces the slug's dashes,
    and every entry of a loaded catalog is valid. *)
Theorem runtime_ids_name_circuits (catalogDir buildRoot : string) (cat : list RuntimeCircuitCatalogEntry)
  (H : loadRuntimeCircuitCatalog resolve readdir read_json exists_file catalogDir buildRoot = Ok cat)
  (e1 e2 : RuntimeCircuitCatalogEntry) (H1 : e1 ∈ cat) (H2 : e2 ∈ cat) :
  validateCircuitCatalogEntry e1 = [] /\ (runtimeId e1 = runtimeId e2 <-> slug e1 = slug e2 /\ version e1 = version e2).
Proof.
  unfold loadRuntimeCircuitCatalog in H. destruct (readCatalogEntries _ _ _ _) as [es|] eqn:E; [|done]. injection H as <-.
  apply list_elem_of_fmap in H1 as (x1 & -> & H1), H2 as (x2 & -> & H2).
  pose proof (read_entries_valid _ _ _ E H1) as V1. pose proof (read_entries_valid _ _ _ E H2) as V2.
  split; [done|]. cbn [runtimeId slug version entry runtime_entry]. split; [|by intros [-> ->]].
  apply runtime_id_inj; by apply valid_slug.
Qed.
End names.

(** What the hash of a request is taken over. *)
Definition declared (c : RuntimeCircuitCatalogEntry) (p : PublicInputs) : list (option string) :=
  map (fun f => option_map snd (List.find (fun kv => String.eqb kv.1 f) (public_object p))) (publicInputs c).

Lemma public_text_declared c p :
  public_text (runtimeId c) (publicInputs c) (public_object p) =
  json_array (JStr (runtimeId c) :: map (fun o => match o with Some v => JStr v | None => JNull end) (declared c p)).
Proof. unfold public_text, declared. rewrite map_map. do 2 f_equal. apply map_ext. intros f. by destruct (List.find _ _). Qed.

Lemma declared_ok l : forallb jval_ok (map (fun o : option string => match o with Some v => JStr v | None => JNull end) l) = true.
Proof. induction l as [|[|] l IH]; done. Qed.

Lemma declared_jvals_inj l1 l2 :
  map (fun o : option string => match o with Some v => JStr v | None => JNull end) l1 =
  map (fun o : option string => match o with Some v => JStr v | None => JNull end) l2 -> l1 = l2.
Proof.
  revert l2. induction l1 as [|[x|] l1 IH]; intros [|[y|] l2]; cbn; try done; intros H.
  - injection H as -> H. f_equal. by apply IH.
  - injection H as H. f_equal. by apply IH.
Qed.

(** Two requests share a cache entry only if they are for one circuit and agree on
    every public input it declares, or a SHA-256 collision is at hand. *)
Lemma public_hash_binds sha c1 c2 p1 p2 :
  hashCircuitPublicInputs sha c1 (public_object p1) = hashCircuitPublicInputs sha c2 (public_object p2) ->
  runtimeId c1 = runtimeId c2 /\ declared c1 p1 = declared c2 p2 \/ collides sha.
Proof.
  unfold hashCircuitPublicInputs. rewrite !public_text_declared. intros H.
  match type of H with sha ?a = sha ?b => destruct (decide (a = b)) as [E|E]; [left|right; by exists a, b] end.
  apply json_array_inj in E; [|cbn [forallb jval_ok]; apply declared_ok..].
  injection E as E1 E2. split; [done|]. by apply declared_jvals_inj.
Qed.

Lemma find_key_none {A} f (l : list (string * A)) : f ∉ l.*1 -> List.find (fun kv => String.eqb kv.1 f) l = None.
Proof.
  induction l as [|[k v] l IH]; [done|]. rewrite fmap_cons, not_elem_of_cons. intros [Hne Hl]. cbn.
  destruct (String.eqb_spec k f) as [->|_]; [done|]. by apply IH.
Qed.

(** A circuit none of whose public inputs the request schema knows: all requests
    for it have one hash. *)
Lemma undeclared_hash sha (c : RuntimeCircuitCatalogEntry) p1 p2 :
  Forall (fun f => f ∉ (public_object p1).*1) (publicInputs c) ->
  hashCircuitPublicInputs sha c (public_object p1) = hashCircuitPublicInputs sha c (public_object p2).
Proof.
  intros H. unfold hashCircuitPublicInputs. rewrite !public_text_declared. do 4 f_equal.
  unfold declared. apply map_ext_in. intros f Hf. rewrite Forall_forall in H. specialize (H f (proj2 (list_elem_of_In _ _) Hf)).
  assert (Hne : forall p, List.find (fun kv => String.eqb kv.1 f) (public_object p) = None) by (intros p; by apply find_key_none).
  by rewrite !Hne.
Qed.

(** ** The outside world *)

(** What GET may still return, the uuids drawn, the jobs added, the proofs made:
    the witness, the two artifact paths and the result. *)
Definition proof_made : Type := list (string * json) * (string * string) * (json * list string).

Record ghost (W : Type) := {
  view : W -> string -> option string;
  issued : W -> list string;
  queued : W -> list (string * ProveJobData);
  proved : W -> list proof_made;
}.
Arguments view {W} _ _ _.
Arguments issued {W} _ _.
Arguments queued {W} _ _.
Arguments proved {W} _ _.

Record lib_laws (lib : proof_lib) : Prop := {
  law_parse : forall v, parse lib (stringify lib v) = Some v;
  law_base64 : forall s, of_base64 lib (to_base64 lib s) = s;
  law_decrypt : forall key iv pt, let ct := encrypt lib key iv pt in decrypt lib key iv ct.2 ct.1 = Some pt;
}.

Section world.
Context {W : Type}.
Variable ops : proof_ops W.
Variable g : ghost W.

(** Nothing was added; entries of Redis may have expired. *)
Definition calm (w w' : W) : Prop :=
  (forall k, view g w' k = view g w k \/ view g w' k = None) /\
  issued g w' = issued g w /\ queued g w' = queued g w /\ proved g w' = proved g w.

Record proof_laws : Prop := {
  law_get : forall k w r w', po_get ops k w = Some (r, w') -> calm w w' /\ forall v, r = Ok (Some v) -> view g w k = Some v;
  law_set : forall k v ttl w r w', po_set ops k v ttl w = Some (r, w') ->
    (forall k', k' <> k -> view g w' k' = view g w k' \/ view g w' k' = None) /\
    (view g w' k = Some v \/ view g w' k = view g w k \/ view g w' k = None) /\
    issued g w' = issued g w /\ queued g w' = queued g w /\ proved g w' = proved g w;
  law_del : forall k w r w', po_del ops k w = Some (r, w') -> calm w w' /\ (r = Ok tt -> view g w' k = None);
  law_random : forall n, steps calm (po_randomBytes ops n);
  law_uuid : forall w r w', po_uuid ops w = Some (r, w') ->
    match r with
    | Ok u => (u ∉ issued g w) /\ issued g w' = u :: issued g w /\ queued g w' = queued g w /\ proved g w' = proved g w /\
              forall k, view g w' k = view g w k \/ view g w' k = None
    | Throw _ => calm w w'
    end;
  law_add : forall d id w r w', po_add ops d id w = Some (r, w') ->
    (forall k, view g w' k = view g w k \/ view g w' k = None) /\ issued g w' = issued g w /\ proved g w' = proved g w /\
    (queued g w' = (id, d) :: queued g w \/ queued g w' = queued g w /\ r <> Ok tt);
  law_getJob : forall id, steps calm (po_getJob ops id);
  law_exists : forall p, steps calm (po_exists ops p);
  law_fullProve : forall wit wasm zkey w r w', po_fullProve ops wit wasm zkey w = Some (r, w') ->
    match r with
    | Ok p => proved g w' = (wit, (wasm, zkey), p) :: proved g w /\ issued g w' = issued g w /\ queued g w' = queued g w /\
              forall k, view g w' k = view g w k \/ view g w' k = None
    | Throw _ => calm w w'
    end;
  law_dlq : forall d e id, steps calm (po_dlq_add ops d e id);
}.

#[export] Instance calm_refl : Reflexive calm.
Proof. intros w. split; [by left|done]. Qed.

#[export] Instance calm_trans : Transitive calm.
Proof.
  intros a b c (H1 & H2 & H3 & H4) (G1 & G2 & G3 & G4). split; [|by rewrite G2, G3, G4].
  intros k. destruct (G1 k) as [->| ->]; [apply H1|by right].
Qed.
End world.

(** ** The witness of a request *)

Definition witness_of (r : ProveRequest) : list (string * json) :=
  map (fun kv => (kv.1, J_str kv.2)) (public_object (public_inputs r)) ++ private_object (private_inputs r).

Lemma fold_map_set {A} (fs : list (string * A)) : forall m, NoDup (m.*1 ++ fs.*1) -> fold_left (fun o kv => map_set kv.1 kv.2 o) fs m = m ++ fs.
Proof.
  induction fs as [|[k v] fs IH]; intros m H; cbn; [by rewrite app_nil_r|].
  rewrite fmap_cons, NoDup_app in H. destruct H as (H1 & H2 & H3). cbn in H2, H3.
  assert (k ∉ m.*1) as Hk by (intros Hk; apply (H2 k Hk); by left).
  rewrite map_set_new by (by apply map_get_None). rewrite IH, <- app_assoc; [done|].
  rewrite fmap_app. apply NoDup_cons in H3 as [Hk3 H3]. apply NoDup_app. split_and!; [|..|done].
  - apply NoDup_app. split_and!; [done| |by apply NoDup_singleton]. intros x Hx ->%list_elem_of_singleton. done.
  - intros x [Hx| ->%list_elem_of_singleton]%elem_of_app Hxf; [|done]. apply (H2 x Hx). by right.
Qed.

(** The private inputs cannot shadow a public one. *)
Lemma merge_witness_of r : merge_witness (public_object (public_inputs r)) (J_obj (private_object (private_inputs r))) = witness_of r.
Proof.
  unfold merge_witness, witness_of. apply fold_map_set.
  match goal with |- NoDup ?l => exact (bool_decide_eq_true_1 (NoDup l) eq_refl) end.
Qed.

Lemma cache_not_key h u : cacheKey h <> keyKey u.
Proof. unfold cacheKey, keyKey. cbn. discriminate. Qed.

Lemma cache_not_result h u : cacheKey h <> resultKey u.
Proof. unfold cacheKey, resultKey. cbn. discriminate. Qed.

Lemma key_not_result h u : keyKey h <> resultKey u.
Proof. unfold keyKey, resultKey. cbn. discriminate. Qed.

Lemma cache_key_inj h1 h2 : cacheKey h1 = cacheKey h2 -> h1 = h2.
Proof. apply string_app_inj_l. Qed.

Lemma key_key_inj u1 u2 : keyKey u1 = keyKey u2 -> u1 = u2.
Proof. apply string_app_inj_l. Qed.

(** ** The invariant *)

Section system.
Context {W : Type}.
Variable ops : proof_ops W.
Variable lib : proof_lib.
Variable catalog : list RuntimeCircuitCatalogEntry.
Variable g : ghost W.
Hypothesis laws : proof_laws ops g.

#[local] Abbreviation hash := (hashCircuitPublicInputs (sha256_hex lib)).

(** A cache entry is the result of a proof of a request with its hash. *)
Definition served (w : W) (h v : string) : Prop :=
  exists r circuit p, findRuntimeCircuit catalog (circuit_id r) = Some circuit /\ hash circuit (public_object (public_inputs r)) = h /\
    (witness_of r, (wasmPath circuit, zkeyPath circuit), p) ∈ proved g w /\ v = completed_text lib p.1 p.2.

Definition job_of (r : ProveRequest) (circuit : RuntimeCircuitCatalogEntry) (agent key iv : string) : ProveJobData :=
  let ct := encrypt lib key iv (stringify lib (J_obj (private_object (private_inputs r)))) in
  {| jd_circuit_id := circuit_id r; jd_public_inputs := public_inputs r; witness_ciphertext := to_base64 lib ct.1;
     witness_iv := to_base64 lib iv; witness_tag := to_base64 lib ct.2; agent_did := agent;
     public_inputs_hash := hash circuit (public_object (public_inputs r)) |}.

(** A job is a request, encrypted under the only key that can be stored for it. *)
Definition job_ok (w : W) (id : string) (d : ProveJobData) : Prop :=
  id ∈ issued g w /\
  exists r circuit agent key iv, findRuntimeCircuit catalog (circuit_id r) = Some circuit /\ d = job_of r circuit agent key iv /\
    forall v, view g w (keyKey id) = Some v -> of_base64 lib v = key.

Definition paths_ok (c : artifacts) : Prop :=
  forall id paths, map_get id c = Some paths ->
    exists circuit, findRuntimeCircuit catalog id = Some circuit /\ paths = (wasmPath circuit, zkeyPath circuit).

Record inv (w : W) : Prop := {
  inv_cache : forall h v, view g w (cacheKey h) = Some v -> served w h v;
  inv_jobs : forall id d, (id, d) ∈ queued g w -> job_ok w id d;
  inv_keys : forall u, view g w (keyKey u) <> None -> u ∈ issued g w;
}.

(** Steps that add no entry the invariant speaks of and no job. *)
Definition mild (w w' : W) : Prop :=
  (forall h, view g w' (cacheKey h) = view g w (cacheKey h) \/ view g w' (cacheKey h) = None) /\
  (forall u, view g w' (keyKey u) = view g w (keyKey u) \/ view g w' (keyKey u) = None) /\
  issued g w ⊆ issued g w' /\ queued g w' = queued g w /\ proved g w ⊆ proved g w'.

#[export] Instance mild_refl : Reflexive mild.
Proof. intros w. split_and!; by try left. Qed.

#[export] Instance mild_trans : Transitive mild.
Proof.
  intros a b c (H1 & H2 & H3 & H4 & H5) (G1 & G2 & G3 & G4 & G5). split_and!; [| |set_solver|congruence|set_solver].
  - intros h. destruct (G1 h) as [->| ->]; [apply H1|by right].
  - intros u. destruct (G2 u) as [->| ->]; [apply H2|by right].
Qed.

Lemma calm_mild w w' : calm g w w' -> mild w w'.
Proof. intros (H1 & H2 & H3 & H4). split_and!; [intros; apply H1|intros; apply H1|by rewrite H2|done|by rewrite H4]. Qed.

Lemma served_mild w w' h v : proved g w ⊆ proved g w' -> served w h v -> served w' h v.
Proof. intros Hp (r & c & p & H1 & H2 & H3 & H4). exists r, c, p. split_and!; auto. Qed.

Lemma inv_mild w w' : mild w w' -> inv w -> inv w'.
Proof.
  intros (H1 & H2 & H3 & H4 & H5) [Ic Ij Ik]. constructor.
  - intros h v Hv. eapply served_mild; [exact H5|]. apply Ic. destruct (H1 h) as [E|E]; by rewrite E in Hv.
  - intros id d Hd. rewrite H4 in Hd. destruct (Ij id d Hd) as (Hi & r & ci & ag & k & iv & E1 & E2 & E3).
    split; [by apply H3|]. exists r, ci, ag, k, iv. split_and!; try done.
    intros v Hv. apply E3. destruct (H2 id) as [E|E]; by rewrite E in Hv.
  - intros u Hu. apply H3, Ik. destruct (H2 u) as [E|E]; by rewrite E in Hu.
Qed.

Lemma steps_calm_mild {A} (m : io W A) : steps (calm g) m -> steps mild m.
Proof. intros H w r w' Hm. apply calm_mild. by eapply H. Qed.

Lemma get_mild k : steps mild (po_get ops k).
Proof. intros w r w' H. apply calm_mild. by apply (law_get _ _ laws) in H as [? _]. Qed.

Lemma uuid_mild : steps mild (po_uuid ops).
Proof.
  intros w r w' H. apply (law_uuid _ _ laws) in H. destruct r as [u|e]; [|by apply calm_mild].
  destruct H as (_ & H2 & H3 & H4 & H5). split_and!; [intros; apply H5|intros; apply H5|rewrite H2; set_solver|done|by rewrite H4].
Qed.

Lemma prove_mild wit wasm zkey : steps mild (po_fullProve ops wit wasm zkey).
Proof.
  intros w r w' H. apply (law_fullProve _ _ laws) in H. destruct r as [p|e]; [|by apply calm_mild].
  destruct H as (H2 & H3 & H4 & H5). split_and!; [intros; apply H5|intros; apply H5|by rewrite H3|done|rewrite H2; set_solver].
Qed.

Lemma set_result_mild id v ttl : steps mild (po_set ops (resultKey id) v ttl).
Proof.
  intros w r w' H. apply (law_set _ _ laws) in H as (H1 & _ & H3 & H4 & H5). split_and!; [| |by rewrite H3|done|by rewrite H5].
  - intros h. apply H1, cache_not_result.
  - intros u. apply H1, key_not_result.
Qed.

Lemma del_mild id : steps mild (po_del ops id).
Proof. intros w r w' H. apply calm_mild. by apply (law_del _ _ laws) in H as [? _]. Qed.

Lemma parse_mild s : steps mild (json_parse lib (W := W) s).
Proof. unfold json_parse. destruct (parse lib s); intros w r w' [= <- <-]; reflexivity. Qed.

Hypothesis lib_ok : lib_laws lib.

#[local] Hint Resolve get_mild uuid_mild prove_mild set_result_mild del_mild parse_mild : steps.
#[local] Hint Extern 1 (steps mild (po_randomBytes _ _)) => apply steps_calm_mild, (law_random _ _ laws) : steps.
#[local] Hint Extern 1 (steps mild (po_exists _ _)) => apply steps_calm_mild, (law_exists _ _ laws) : steps.
#[local] Hint Extern 1 (steps mild (po_getJob _ _)) => apply steps_calm_mild, (law_getJob _ _ laws) : steps.
#[local] Hint Extern 1 (steps mild (po_dlq_add _ _ _ _)) => apply steps_calm_mild, (law_dlq _ _ laws) : steps.

(** ** Adding a job *)

Lemma fresh_key_unset w w' u : inv w -> po_uuid ops w = Some (Ok u, w') ->
  inv w' /\ u ∈ issued g w' /\ (forall d, (u, d) ∉ queued g w') /\ view g w' (keyKey u) = None.
Proof.
  intros Hi H. pose proof (inv_mild _ _ (uuid_mild _ _ _ H) Hi) as Hi'.
  apply (law_uuid _ _ laws) in H as (Hu & H2 & H3 & _ & H5). split_and!; [done|rewrite H2; by left| |].
  - intros d Hd. rewrite H3 in Hd. by destruct (inv_jobs _ Hi _ _ Hd) as [? _].
  - assert (view g w (keyKey u) = None) as E.
    { destruct (view g w (keyKey u)) eqn:E; [|done]. destruct Hu. apply (inv_keys _ Hi). by rewrite E. }
    destruct (H5 (keyKey u)) as [->| ->]; done.
Qed.

Lemma set_key_inv u v ttl w r w' : inv w -> u ∈ issued g w -> (forall d, (u, d) ∉ queued g w) -> view g w (keyKey u) = None ->
  po_set ops (keyKey u) v ttl w = Some (r, w') ->
  inv w' /\ u ∈ issued g w' /\ (forall x, view g w' (keyKey u) = Some x -> x = v).
Proof.
  intros Hi Hu Hq Hn H. apply (law_set _ _ laws) in H as (H1 & H2 & H3 & H4 & H5).
  split_and!; [constructor| |].
  - intros h x Hx. apply (served_mild w); [by rewrite H5|]. apply (inv_cache _ Hi).
    destruct (H1 (cacheKey h) (cache_not_key h u)) as [E|E]; by rewrite E in Hx.
  - intros id d Hd. rewrite H4 in Hd. destruct (inv_jobs _ Hi _ _ Hd) as (Hid & re & ci & ag & k & iv & E1 & E2 & E3).
    split; [by rewrite H3|]. exists re, ci, ag, k, iv. split_and!; [done|done|]. intros x Hx. apply E3.
    assert (keyKey id <> keyKey u) as Hne by (intros ->%key_key_inj; by apply (Hq d)).
    destruct (H1 _ Hne) as [E|E]; by rewrite E in Hx.
  - intros u' Hu'. rewrite H3. destruct (decide (u' = u)) as [->|Hne]; [done|]. apply (inv_keys _ Hi).
    assert (keyKey u' <> keyKey u) as Hk by (intros E%key_key_inj; done).
    destruct (H1 _ Hk) as [E|E]; by rewrite E in Hu'.
  - by rewrite H3.
  - intros x Hx. destruct H2 as [E|[E|E]]; rewrite E in Hx; [by injection Hx|congruence|done].
Qed.

Lemma add_inv r circuit agent key iv id w o w' : inv w -> id ∈ issued g w ->
  findRuntimeCircuit catalog (circuit_id r) = Some circuit ->
  (forall v, view g w (keyKey id) = Some v -> of_base64 lib v = key) ->
  po_add ops (job_of r circuit agent key iv) id w = Some (o, w') -> inv w'.
Proof.
  intros Hi Hid Hc Hk H. apply (law_add _ _ laws) in H as (H1 & H2 & H3 & H4).
  assert (mild' : inv w' <-> forall i d, (i, d) ∈ queued g w' -> job_ok w' i d).
  { split; [apply inv_jobs|]. intros Hj. constructor; [|done|].
    - intros h v Hv. apply (served_mild w); [by rewrite H3|]. apply (inv_cache _ Hi). destruct (H1 (cacheKey h)) as [E|E]; by rewrite E in Hv.
    - intros u Hu. rewrite H2. apply (inv_keys _ Hi). destruct (H1 (keyKey u)) as [E|E]; by rewrite E in Hu. }
  apply mild'. intros i d Hd.
  assert (Hold : (i, d) ∈ queued g w -> job_ok w' i d).
  { intros Hin. destruct (inv_jobs _ Hi _ _ Hin) as (Hii & re & ci & ag & k & v & E1 & E2 & E3).
    split; [by rewrite H2|]. exists re, ci, ag, k, v. split_and!; [done|done|]. intros x Hx. apply E3.
    destruct (H1 (keyKey i)) as [E|E]; by rewrite E in Hx. }
  destruct H4 as [H4|[H4 _]]; rewrite H4 in Hd; [|by apply Hold].
  apply elem_of_cons in Hd as [[= -> ->]|Hd]; [|by apply Hold].
  split; [by rewrite H2|]. exists r, circuit, agent, key, iv. split_and!; [done|done|].
  intros x Hx. apply Hk. destruct (H1 (keyKey id)) as [E|E]; by rewrite E in Hx.
Qed.

Lemma encrypt_run priv w enc w' : encryptWitness ops lib priv w = Some (Ok enc, w') ->
  exists key iv, enc = let ct := encrypt lib key iv (stringify lib (J_obj (private_object priv))) in
    {| e_ciphertext := to_base64 lib ct.1; e_iv := to_base64 lib iv; e_tag := to_base64 lib ct.2; e_key := key |}.
Proof.
  unfold encryptWitness. intros H. apply io_bind_ok in H as (key & w1 & _ & H).
  apply io_bind_ok in H as (iv & w2 & _ & H). apply io_ret_ok in H as [<- _]. by exists key, iv.
Qed.

Lemma encrypt_mild priv : steps mild (encryptWitness ops lib priv).
Proof. unfold encryptWitness. eauto with steps typeclass_instances. Qed.

Lemma enqueue_inv agent r circuit w o w' : findRuntimeCircuit catalog (circuit_id r) = Some circuit ->
  inv w -> enqueue_request ops lib agent r circuit w = Some (o, w') -> inv w'.
Proof.
  unfold enqueue_request. intros Hc Hi H.
  apply io_bind_run in H as [(enc & w1 & E1 & H)|(e & E1 & ->)]; [|eapply inv_mild; [|done]; by eapply encrypt_mild].
  pose proof (inv_mild _ _ (encrypt_mild _ _ _ _ E1) Hi) as Hi1. apply encrypt_run in E1 as (key & iv & ->).
  apply io_bind_run in H as [(u & w2 & E2 & H)|(e & E2 & ->)]; [|eapply inv_mild; [|done]; by eapply uuid_mild].
  apply fresh_key_unset in E2 as (Hi2 & Hu & Hq & Hn); [|done].
  apply io_bind_run in H as [([] & w3 & E3 & H)|(e & E3 & ->)]; [|by eapply set_key_inv in E3 as [? _]].
  apply set_key_inv in E3 as (Hi3 & Hu3 & Hk); [|done..].
  assert (Hadd : forall o1 w4, po_add ops (job_of r circuit agent key iv) u w3 = Some (o1, w4) -> inv w4).
  { intros o1 w4 H4. eapply add_inv; [..|exact H4]; try done. intros v ->%Hk. apply (law_base64 _ lib_ok). }
  apply io_bind_run in H as [([] & w4 & E4 & H)|(e & E4 & ->)]; [|by eapply Hadd].
  unfold io_ret in H. injection H as _ <-. by eapply Hadd.
Qed.

(** What POST /prove does once a circuit was found: answer at once, answer from the
    cache, or enqueue. *)
Lemma prove_request_cases agent r w o w' : prove_request ops lib catalog agent r w = Some (o, w') ->
  w' = w /\ (exists x, o = Ok x /\ (forall b, x <> R_cached b) /\ forall j, x <> R_queued j) \/
  exists circuit, findRuntimeCircuit catalog (circuit_id r) = Some circuit /\ lifecycle circuit = live /\ artifactsReady circuit = true /\
    ((exists e, o = Throw e /\ mild w w') \/
     exists cached w1, po_get ops (cacheKey (hash circuit (public_object (public_inputs r)))) w = Some (Ok cached, w1) /\
       ((exists c t, cached = Some (String c t) /\ w' = w1 /\
           o = match parse lib (String c t) with Some body => Ok (R_cached body) | None => Throw "JSON" end) \/
        (forall c t, cached <> Some (String c t)) /\ enqueue_request ops lib agent r circuit w1 = Some (o, w'))).
Proof.
  unfold prove_request. destruct (findRuntimeCircuit catalog (circuit_id r)) as [circuit|];
    [|intros [= <- <-]; left; split; [done|]; eexists; repeat split; done].
  destruct (lifecycle circuit) eqn:El; try (intros [= <- <-]; left; split; [done|]; eexists; repeat split; done).
  destruct (artifactsReady circuit) eqn:Ea; cbn [negb]; [|intros [= <- <-]; left; split; [done|]; eexists; repeat split; done].
  intros H. right. exists circuit. split_and!; [done..|].
  apply io_bind_run in H as [(cached & w1 & E1 & H)|(e & E1 & ->)]; [|left; exists e; split; [done|by eapply get_mild]].
  right. exists cached, w1. split; [done|].
  destruct cached as [[|c t]|]; [right; split; [done|exact H]|left|right; split; [done|exact H]].
  exists c, t. unfold io_bind, json_parse in H. destruct (parse lib (String c t)) as [b|]; injection H as <- <-; done.
Qed.

Lemma prove_request_inv agent r w o w' : inv w -> prove_request ops lib catalog agent r w = Some (o, w') -> inv w'.
Proof.
  intros Hi [[-> _]|(circuit & Hc & _ & _ & [(e & _ & Hm)|(cached & w1 & E1 & H)])]%prove_request_cases;
    [done|by eapply inv_mild|].
  apply get_mild in E1. pose proof (inv_mild _ _ E1 Hi) as Hi1.
  destruct H as [(c & t & _ & -> & _)|[_ H]]; [done|]. by eapply enqueue_inv in H.
Qed.

Lemma get_job_mild id : steps mild (get_job ops lib id).
Proof.
  unfold get_job. destruct (is_uuid lib id); cbn [negb]; [|apply steps_ret, _].
  apply steps_bind; [apply _|auto with steps|]. intros [[|c t]|]; eauto with steps typeclass_instances.
Qed.

Lemma on_failed_mild id d made attempts e : steps mild (on_failed ops id d made attempts e).
Proof.
  unfold on_failed. destruct (attempts <=? made); [|apply steps_ret, _].
  apply steps_catch; [apply _|auto with steps|]. intros _. apply steps_ret, _.
Qed.

(** ** One attempt of the worker *)

Lemma load_mild id c : steps mild (loadArtifacts ops catalog id c).
Proof.
  unfold loadArtifacts. destruct (map_get id c); [apply steps_ret, _|].
  destruct (findRuntimeCircuit catalog id) as [circuit|]; [|apply steps_throw, _].
  destruct (lifecycle circuit); [|apply steps_throw, _..]. eauto 10 with steps typeclass_instances.
Qed.

Lemma load_paths id c w p c' w' : paths_ok c -> loadArtifacts ops catalog id c w = Some (Ok (p, c'), w') ->
  paths_ok c' /\ exists circuit, findRuntimeCircuit catalog id = Some circuit /\ p = (wasmPath circuit, zkeyPath circuit).
Proof.
  unfold loadArtifacts. intros Hc. destruct (map_get id c) as [q|] eqn:E.
  - intros [[= <- <-] _]%io_ret_ok. split; [done|]. by apply Hc.
  - destruct (findRuntimeCircuit catalog id) as [circuit|] eqn:Ef; [|done]. destruct (lifecycle circuit); try done.
    intros H. apply io_bind_ok in H as (x1 & w1 & _ & H). apply io_bind_ok in H as (x2 & w2 & _ & H).
    apply io_bind_ok in H as (x3 & w3 & _ & H). apply io_bind_ok in H as (x4 & w4 & _ & H).
    apply io_ret_ok in H as [[= <- <-] _]. split; [|by exists circuit].
    intros i q. rewrite map_get_set. case_decide as Hd; [|by apply Hc]. subst i. intros [= <-]. by exists circuit.
Qed.

Lemma take_key_mild id : steps mild (take_key ops lib id).
Proof. unfold take_key. apply steps_bind; [apply _|auto with steps|]. intros [[|c t]|]; eauto with steps typeclass_instances. Qed.

(** A key that was taken is the stored one, and is gone. *)
Lemma take_key_run id w key w' : take_key ops lib id w = Some (Ok key, w') ->
  (exists v, view g w (keyKey id) = Some v /\ key = of_base64 lib v) /\ view g w' (keyKey id) = None.
Proof.
  unfold take_key. intros H. apply io_bind_ok in H as (v & w1 & H1 & H).
  destruct v as [[|c t]|]; try done. apply io_bind_ok in H as ([] & w2 & H2 & H). apply io_ret_ok in H as [<- <-].
  apply (law_get _ _ laws) in H1 as [_ H1]. apply (law_del _ _ laws) in H2 as [_ H2].
  split; [|by apply H2]. eexists. split; [by apply H1|done].
Qed.

Lemma decrypt_mild d key : steps mild (decryptWitness lib (W := W) d key).
Proof. unfold decryptWitness. destruct (decrypt _ _ _ _ _); [apply parse_mild|apply steps_throw, _]. Qed.

Lemma decrypt_job r circuit agent key iv w :
  decryptWitness lib (job_of r circuit agent key iv) key (w : W) = Some (Ok (J_obj (private_object (private_inputs r))), w).
Proof.
  unfold decryptWitness, job_of. cbn [witness_iv witness_tag witness_ciphertext]. rewrite !(law_base64 _ lib_ok).
  rewrite (law_decrypt _ lib_ok). unfold json_parse. by rewrite (law_parse _ lib_ok).
Qed.

Lemma set_cache_inv h v ttl w r w' : inv w -> served w h v -> po_set ops (cacheKey h) v ttl w = Some (r, w') -> inv w'.
Proof.
  intros Hi Hs H. apply (law_set _ _ laws) in H as (H1 & H2 & H3 & H4 & H5). constructor.
  - intros h' x Hx. apply (served_mild w); [by rewrite H5|].
    destruct (decide (h' = h)) as [->|Hne].
    + destruct H2 as [E|[E|E]]; rewrite E in Hx; [by injection Hx as <-|by apply (inv_cache _ Hi)|done].
    + apply (inv_cache _ Hi). destruct (H1 (cacheKey h')) as [E|E]; [by intros ?%cache_key_inj|by rewrite E in Hx..].
  - intros id d Hd. rewrite H4 in Hd. destruct (inv_jobs _ Hi _ _ Hd) as (Hid & re & ci & ag & k & iv & E1 & E2 & E3).
    split; [by rewrite H3|]. exists re, ci, ag, k, iv. split_and!; [done|done|]. intros x Hx. apply E3.
    destruct (H1 (keyKey id)) as [E|E]; [by intros ?%eq_sym%cache_not_key|by rewrite E in Hx..].
  - intros u Hu. rewrite H3. apply (inv_keys _ Hi).
    destruct (H1 (keyKey u)) as [E|E]; [by intros ?%eq_sym%cache_not_key|by rewrite E in Hu..].
Qed.

Lemma prove_with_inv id r circuit agent key iv w o w' : inv w -> findRuntimeCircuit catalog (circuit_id r) = Some circuit ->
  prove_with ops lib id (job_of r circuit agent key iv) (wasmPath circuit, zkeyPath circuit) key w = Some (o, w') -> inv w'.
Proof.
  unfold prove_with. intros Hi Hc H.
  apply io_bind_run in H as [(priv & w1 & E1 & H)|(e & E1 & ->)]; [|eapply inv_mild; [|done]; by eapply decrypt_mild].
  rewrite decrypt_job in E1. injection E1 as <- <-.
  apply io_bind_run in H as [(p & w2 & E2 & H)|(e & E2 & ->)]; [|eapply inv_mild; [|done]; by eapply prove_mild].
  pose proof (inv_mild _ _ (prove_mild _ _ _ _ _ _ E2) Hi) as Hi2.
  apply (law_fullProve _ _ laws) in E2 as (E2 & _).
  assert (Hs : served w2 (hash circuit (public_object (public_inputs r))) (completed_text lib p.1 p.2)).
  { exists r, circuit, p. split_and!; [done|done| |done]. rewrite E2. cbn [jd_public_inputs job_of]. rewrite merge_witness_of. by left. }
  apply io_bind_run in H as [([] & w3 & E3 & H)|(e & E3 & ->)]; [|eapply inv_mild; [|done]; by eapply set_result_mild].
  apply set_result_mild in E3. pose proof (inv_mild _ _ E3 Hi2) as Hi3.
  assert (Hs3 : served w3 (hash circuit (public_object (public_inputs r))) (completed_text lib p.1 p.2)).
  { eapply served_mild; [|exact Hs]. apply E3. }
  apply io_bind_run in H as [([] & w4 & E4 & H)|(e & E4 & ->)]; [|by eapply set_cache_inv].
  apply io_ret_run in H as [_ <-]. by eapply set_cache_inv.
Qed.

(** The shape of an attempt: the artifacts could not be found; or the key could not
    be taken; or the rest ran with the job's key. *)
Lemma process_cases id d c w o w' : paths_ok c -> process ops lib catalog id d c w = Some (o, w') ->
  (exists e, o = Ok (Throw e, c) /\ mild w w') \/
  exists circuit c1 w1, paths_ok c1 /\ findRuntimeCircuit catalog (jd_circuit_id d) = Some circuit /\ mild w w1 /\
    ((exists e, o = Ok (Throw e, c1) /\ mild w1 w' /\ take_key ops lib id w1 = Some (Throw e, w')) \/
     exists key w2 r, take_key ops lib id w1 = Some (Ok key, w2) /\ o = Ok (r, c1) /\
       prove_with ops lib id d (wasmPath circuit, zkeyPath circuit) key w2 = Some (r, w')).
Proof.
  unfold process. intros Hp H. unfold io_try, io_bind, io_ret in H.
  destruct (loadArtifacts ops catalog (jd_circuit_id d) c w) as [[[[p c1]|e] w1]|] eqn:E1; [..|done].
  - right. pose proof (load_mild _ _ _ _ _ E1) as M1. apply load_paths in E1 as (Hp1 & circuit & Hc & ->); [|done].
    exists circuit, c1, w1. split_and!; [done..|].
    destruct (take_key ops lib id w1) as [[[key|e] w2]|] eqn:E2; [..|done].
    + destruct (prove_with _ _ _ _ _ _ w2) as [[r w3]|] eqn:E3; [|done]. injection H as <- <-. right. by exists key, w2, r.
    + injection H as <- <-. left. exists e. split_and!; [done| |done]. by eapply take_key_mild.
  - injection H as <- <-. left. exists e. split; [done|]. by eapply load_mild.
Qed.

Lemma process_inv id d c w o w' : inv w -> paths_ok c -> (id, d) ∈ queued g w -> process ops lib catalog id d c w = Some (o, w') ->
  inv w' /\ exists r c', o = Ok (r, c') /\ paths_ok c'.
Proof.
  intros Hi Hp Hd [(e & -> & Hm)|(circuit & c1 & w1 & Hp1 & Hc & Hm & H)]%process_cases; [| |done].
  - split; [by eapply inv_mild|by eexists _, _].
  - pose proof (inv_mild _ _ Hm Hi) as Hi1. destruct Hm as (_ & _ & _ & Hq & _). rewrite <- Hq in Hd.
    destruct H as [(e & -> & Hm & _)|(key & w2 & r & E1 & -> & E2)]; (split; [|by eexists _, _]); [by eapply inv_mild|].
    pose proof (inv_mild _ _ (take_key_mild _ _ _ _ E1) Hi1) as Hi2.
    destruct (inv_jobs _ Hi1 _ _ Hd) as (_ & re & ci & ag & k & iv & F1 & -> & F3).
    cbn [job_of jd_circuit_id] in Hc. rewrite F1 in Hc. injection Hc as <-.
    apply take_key_run in E1 as [(v & Hv & ->) _]. rewrite (F3 v Hv) in E2. by eapply prove_with_inv.
Qed.

(** ** Runs *)

Inductive gstep : W * artifacts -> W * artifacts -> Prop :=
| G_prove agent r w o w' c : prove_request ops lib catalog agent r w = Some (o, w') -> gstep (w, c) (w', c)
| G_get id w o w' c : get_job ops lib id w = Some (o, w') -> gstep (w, c) (w', c)
| G_attempt id d w r c' w' c : (id, d) ∈ queued g w -> process ops lib catalog id d c w = Some (Ok (r, c'), w') -> gstep (w, c) (w', c')
| G_failed id d made attempts e w o w' c : on_failed ops id d made attempts e w = Some (o, w') -> gstep (w, c) (w', c)
| G_time w w' c : calm g w w' -> gstep (w, c) (w', c)
| G_restart w c : gstep (w, c) (w, []).

Definition fresh_world (w : W) : Prop := (forall k, view g w k = None) /\ queued g w = [].

Definition reachable (w : W) : Prop := exists w0 c, fresh_world w0 /\ rtc gstep (w0, []) (w, c).

Lemma fresh_inv w : fresh_world w -> inv w.
Proof.
  intros [H1 H2]. constructor; intros *; rewrite ?H1, ?H2; try done. by intros ?%elem_of_nil.
Qed.

Lemma gstep_inv s s' : gstep s s' -> inv s.1 /\ paths_ok s.2 -> inv s'.1 /\ paths_ok s'.2.
Proof.
  intros H [Hi Hp]. destruct H; cbn [fst snd] in *.
  - split; [by eapply prove_request_inv|done].
  - split; [|done]. eapply inv_mild; [|done]. by eapply get_job_mild.
  - eapply process_inv in H0 as (? & r' & c'' & [= <- <-] & ?); done.
  - split; [|done]. eapply inv_mild; [|done]. by eapply on_failed_mild.
  - split; [|done]. eapply inv_mild; [|done]. by apply calm_mild.
  - split; [done|]. by intros id paths.
Qed.

Lemma gen_run_inv s s' : rtc gstep s s' -> inv s.1 /\ paths_ok s.2 -> inv s'.1 /\ paths_ok s'.2.
Proof. induction 1 as [|s s1 s' H1 _ IH]; [done|]. intros H. apply IH. by eapply gstep_inv. Qed.

Lemma reachable_inv w : reachable w -> inv w.
Proof.
  intros (w0 & c & Hf & Hr). apply gen_run_inv in Hr as [? _]; [done|]. split; [by apply fresh_inv|]. by intros id paths.
Qed.
End system.
