(* ===== verification/ProofGenServed.v ===== *)
(** * ProofGenServed: the guarantees of the proof generator

    The theorems on ProofGen over the reachable states of ProofGenSafety, the bound
    its rate limiter keeps, and a concrete outside world on which the theorems are
    applied. *)

From Stdlib Require Import ZArith QArith Lia Ascii.
From stdpp Require Import base countable list strings relations.
From S2P Require Import Prelude Bytes Effects JsMap Json Zod ZkCatalog ProofGen ProofGenSafety.

Open Scope Z_scope.

Lemma find_circuit catalog id c : findRuntimeCircuit catalog id = Some c -> runtimeId c = id.
Proof. intros [_ H]%List.find_some. by apply String.eqb_eq. Qed.

Section served.
Context {W : Type}.
Variable ops : proof_ops W.
Variable lib : proof_lib.
Variable catalog : list RuntimeCircuitCatalogEntry.
Variable g : ghost W.
Hypothesis laws : proof_laws ops g.
Hypothesis lib_ok : lib_laws lib.

(** A proof served from the cache was made for the circuit of the request and for
    the same values of all public inputs the circuit declares, with the private
    inputs of an accepted request; or a SHA-256 collision is at hand. *)
Theorem cached_proof_matches (w w' : W) (agent : string) (r : ProveRequest) (body : json)
  (Hw : reachable ops lib catalog g w) (H : prove_request ops lib catalog agent r w = Some (Ok (R_cached body), w')) :
  collides (sha256_hex lib) \/
  exists circuit r' p, findRuntimeCircuit catalog (circuit_id r) = Some circuit /\ circuit_id r' = circuit_id r /\
    declared circuit (public_inputs r') = declared circuit (public_inputs r) /\
    (witness_of r', (wasmPath circuit, zkeyPath circuit), p) ∈ proved g w /\
    body = J_obj [("status", J_str "completed"); ("proof", p.1); ("public_signals", strings p.2)]%string.
Proof.
  apply (reachable_inv _ _ _ _ laws lib_ok) in Hw.
  apply (prove_request_cases _ _ _ _ laws) in H as [(_ & x & [= <-] & Hx & _)|(circuit & Hc & _ & _ & [(e & [=] & _)|H])]; [by destruct (Hx body)|].
  destruct H as (cached & w1 & E1 & [(c & t & -> & -> & H)|[_ H]]).
  - apply (law_get _ _ laws) in E1 as [_ E1]. specialize (E1 _ eq_refl).
    apply (inv_cache _ _ _ _ Hw) in E1 as (r' & c' & p & Hc' & Hh & Hp & Ht).
    apply public_hash_binds in Hh as [[Hid Hd]|Hh]; [right|by left].
    rewrite Ht in H. unfold completed_text in H. rewrite (law_parse _ lib_ok) in H.
    pose proof (find_circuit _ _ _ Hc) as F. pose proof (find_circuit _ _ _ Hc') as F'.
    assert (c' = circuit) as -> by congruence. exists circuit, r', p. split_and!; [done|congruence|done|done|].
    apply ok_inj in H. by injection H.
  - unfold enqueue_request in H. apply io_bind_ok in H as (? & ? & _ & H). apply io_bind_ok in H as (? & ? & _ & H).
    apply io_bind_ok in H as (? & ? & _ & H). apply io_bind_ok in H as (? & ? & _ & H). by apply io_ret_ok in H as [[=] _].
Qed.

(** A key that is gone stays gone: a key is only ever stored under a fresh id. *)
Definition spent (id : string) (w : W) : Prop := view g w (keyKey id) = None /\ id ∈ issued g w.

Lemma mild_spent id w w' : mild g w w' -> spent id w -> spent id w'.
Proof. intros (_ & H2 & H3 & _) [S1 S2]. split; [|by apply H3]. by destruct (H2 id) as [->| ->]. Qed.

Lemma enqueue_spent id agent r circuit w o w' : enqueue_request ops lib agent r circuit w = Some (o, w') -> spent id w -> spent id w'.
Proof.
  unfold enqueue_request. intros H Hs.
  apply io_bind_run in H as [(enc & w1 & E1 & H)|(e & E1 & ->)]; [|eapply mild_spent; [|done]; by eapply encrypt_mild].
  pose proof (mild_spent _ _ _ (encrypt_mild _ _ _ laws _ _ _ _ E1) Hs) as Hs1.
  apply io_bind_run in H as [(u & w2 & E2 & H)|(e & E2 & ->)]; [|eapply mild_spent; [|done]; by eapply uuid_mild].
  pose proof (mild_spent _ _ _ (uuid_mild _ _ laws _ _ _ E2) Hs1) as Hs2.
  apply (law_uuid _ _ laws) in E2 as (Hu & _).
  assert (Hset : forall v ttl r1 w3, po_set ops (keyKey u) v ttl w2 = Some (r1, w3) -> spent id w3).
  { intros v ttl r1 w3 E. apply (law_set _ _ laws) in E as (G1 & _ & G3 & _). destruct Hs2 as [S1 S2]. split; [|by rewrite G3].
    destruct (G1 (keyKey id)) as [->| ->]; [|done..]. intros E%key_key_inj. subst u. by destruct Hu; apply Hs1. }
  apply io_bind_run in H as [([] & w3 & E3 & H)|(e & E3 & ->)]; [|by eapply Hset].
  apply Hset in E3.
  assert (Hadd : forall d r1 w4, po_add ops d u w3 = Some (r1, w4) -> spent id w4).
  { intros d r1 w4 E. apply (law_add _ _ laws) in E as (G1 & G2 & _). destruct E3 as [S1 S2]. split; [|by rewrite G2].
    by destruct (G1 (keyKey id)) as [->| ->]. }
  apply io_bind_run in H as [([] & w4 & E4 & H)|(e & E4 & ->)]; [|by eapply Hadd].
  apply io_ret_run in H as [_ <-]. by eapply Hadd.
Qed.

Lemma set_spent id k v ttl w r w' : k <> keyKey id -> po_set ops k v ttl w = Some (r, w') -> spent id w -> spent id w'.
Proof.
  intros Hk E [S1 S2]. apply (law_set _ _ laws) in E as (G1 & _ & G3 & _). split; [|by rewrite G3].
  by destruct (G1 (keyKey id)) as [->| ->].
Qed.

Lemma prove_with_spent i id d paths key w r w' : prove_with ops lib i d paths key w = Some (r, w') -> spent id w -> spent id w'.
Proof.
  unfold prove_with. intros H Hs.
  apply io_bind_run in H as [(priv & w1 & E1 & H)|(e & E1 & ->)]; [|eapply mild_spent; [|done]; by eapply decrypt_mild].
  apply (decrypt_mild lib g) in E1. pose proof (mild_spent _ _ _ E1 Hs) as Hs1.
  apply io_bind_run in H as [(p & w2 & E2 & H)|(e & E2 & ->)]; [|eapply mild_spent; [|done]; by eapply prove_mild].
  apply (prove_mild _ _ laws) in E2. pose proof (mild_spent _ _ _ E2 Hs1) as Hs2.
  apply io_bind_run in H as [([] & w3 & E3 & H)|(e & E3 & ->)]; [|eapply mild_spent; [|done]; by eapply set_result_mild].
  apply (set_result_mild _ _ laws) in E3. pose proof (mild_spent _ _ _ E3 Hs2) as Hs3.
  pose proof (cache_not_key (public_inputs_hash d) id) as Hne.
  apply io_bind_run in H as [([] & w4 & E4 & H)|(e & E4 & ->)]; [|by eapply set_spent].
  apply io_ret_run in H as [_ <-]. by eapply set_spent.
Qed.

Lemma process_spent i id d c w o w' : process ops lib catalog i d c w = Some (o, w') -> spent id w -> spent id w'.
Proof.
  unfold process, io_try, io_bind, io_ret. intros H Hs.
  destruct (loadArtifacts ops catalog (jd_circuit_id d) c w) as [[[[p c1]|e] w1]|] eqn:E1; [..|done];
    apply (load_mild _ _ _ laws) in E1; pose proof (mild_spent _ _ _ E1 Hs) as Hs1.
  - destruct (take_key ops lib i w1) as [[[key|e] w2]|] eqn:E2; [..|done]; apply (take_key_mild _ _ _ laws) in E2;
      pose proof (mild_spent _ _ _ E2 Hs1) as Hs2.
    + destruct (prove_with _ _ _ _ _ _ w2) as [[r w3]|] eqn:E3; [|done]. injection H as _ <-. by eapply prove_with_spent.
    + by injection H as _ <-.
  - by injection H as _ <-.
Qed.

Lemma gstep_spent id s s' : gstep ops lib catalog g s s' -> spent id s.1 -> spent id s'.1.
Proof.
  intros H Hs. destruct H; cbn [fst] in *; [| |by eapply process_spent| | |done].
  - apply (prove_request_cases _ _ _ g laws) in H as [[-> _]|(circuit & _ & _ & _ & [(e & _ & Hm)|(cached & w1 & E1 & H)])];
      [done|by eapply mild_spent|].
    apply (get_mild _ _ laws) in E1. pose proof (mild_spent _ _ _ E1 Hs) as Hs1.
    destruct H as [(c1 & t & _ & -> & _)|[_ H]]; [done|by eapply enqueue_spent].
  - eapply mild_spent; [|done]. by eapply get_job_mild.
  - eapply mild_spent; [|done]. by eapply on_failed_mild.
  - eapply mild_spent; [|done]. by apply calm_mild.
Qed.

Lemma run_spent id s s' : rtc (gstep ops lib catalog g) s s' -> spent id s.1 -> spent id s'.1.
Proof. induction 1 as [|s s1 s' H1 _ IH]; [done|]. intros H. by eapply IH, gstep_spent. Qed.

(** A witness can be decrypted once: after an attempt has taken the key of a job,
    no run stores it again, and every further attempt fails, with an artifact
    error, a Redis error or [witness_key_expired], never with the prover's. *)
Theorem witness_key_used_once (id key : string) (w1 w2 w3 w4 : W) (c2 c3 c4 : artifacts) (d : ProveJobData) (res : result (json * list string))
  (Hw : reachable ops lib catalog g w1) (Hk : take_key ops lib id w1 = Some (Ok key, w2))
  (Hr : rtc (gstep ops lib catalog g) (w2, c2) (w3, c3)) (H : process ops lib catalog id d c3 w3 = Some (Ok (res, c4), w4)) :
  view g w3 (keyKey id) = None /\
  exists e, res = Throw e /\
    (e = "witness_key_expired"%string \/
     (exists w, loadArtifacts ops catalog (jd_circuit_id d) c3 w3 = Some (Throw e, w)) \/
     exists w w', po_get ops (keyKey id) w = Some (Throw e, w')).
Proof.
  apply (reachable_inv _ _ _ _ laws lib_ok) in Hw. pose proof (take_key_mild _ _ _ laws _ _ _ _ Hk) as (_ & _ & Hm & _).
  apply (take_key_run _ _ _ laws) in Hk as [(v & Hv & _) Hn].
  assert (Hs : spent id w2) by (split; [done|apply Hm, (inv_keys _ _ _ _ Hw); by rewrite Hv]).
  apply (run_spent id) in Hr; [|done]. cbn [fst] in Hr. split; [apply Hr|].
  unfold process, io_try, io_bind, io_ret in H.
  destruct (loadArtifacts ops catalog (jd_circuit_id d) c3 w3) as [[[[p c']|e] w5]|] eqn:E1; [..|done].
  - apply (load_mild _ _ _ laws) in E1. pose proof (mild_spent _ _ _ E1 Hr) as [Hn5 _].
    destruct (take_key ops lib id w5) as [[[k|e] w6]|] eqn:E2; [..|done].
    + apply (take_key_run _ _ _ laws) in E2 as [(x & Hx & _) _]. congruence.
    + injection H as <- _ _. exists e. split; [done|].
      unfold take_key in E2. apply io_bind_run in E2 as [(x & w7 & E3 & E2)|(e' & E3 & [= ->])]; [|by right; right; eauto].
      destruct x as [[|ch t]|]; [injection E2 as -> _; by left| |injection E2 as -> _; by left].
      apply (law_get _ _ laws) in E3 as [_ E3]. specialize (E3 _ eq_refl). congruence.
  - injection H as <- _ _. exists e. split; [done|]. right; left. by exists w5.
Qed.

(** C40: a 202 stands for exactly one new job, under an id never used before: whoever
    takes its key decrypts the private inputs of the request, and proves for its
    public inputs with none of them overwritten.  Every other reply of the route leaves
    the queue as it was.  An exception, Fastify's 500, is outside the statement: a lost
    acknowledgement of the queue may leave a job behind. *)
Theorem prove_enqueues_once (w w' : W) (agent : string) (r : ProveRequest) (o : reply)
  (Hw : reachable ops lib catalog g w) (H : prove_request ops lib catalog agent r w = Some (Ok o, w')) :
  match o with
  | R_queued id => exists d, queued g w' = (id, d) :: queued g w /\ (id ∉ issued g w) /\
      jd_circuit_id d = circuit_id r /\ jd_public_inputs d = public_inputs r /\ agent_did d = agent /\
      forall key w'', take_key ops lib id w' = Some (Ok key, w'') ->
        exists priv, decryptWitness lib d key w'' = Some (Ok priv, w'') /\
          merge_witness (public_object (jd_public_inputs d)) priv = witness_of r
  | _ => queued g w' = queued g w
  end.
Proof.
  apply (reachable_inv _ _ _ _ laws lib_ok) in Hw.
  apply (prove_request_cases _ _ _ _ laws) in H as [(-> & x & [= ->] & _ & Hx)|(circuit & Hc & _ & _ & [(e & [=] & _)|H])].
  - destruct x; try done. by destruct (Hx job_id).
  - destruct H as (cached & w1 & E1 & [(c & t & _ & -> & H)|[_ H]]).
    + apply (law_get _ _ laws) in E1 as [(_ & _ & Hq & _) _]. by destruct (parse lib _); [injection H as ->|].
    + apply (get_mild _ _ laws) in E1. pose proof (inv_mild _ _ _ _ _ E1 Hw) as Hw1.
      destruct E1 as (_ & _ & I1 & Q1 & _). unfold enqueue_request in H.
      apply io_bind_ok in H as (enc & w2 & E2 & H). apply io_bind_ok in H as (u & w3 & E3 & H).
      apply io_bind_ok in H as ([] & w4 & E4 & H). apply io_bind_ok in H as ([] & w5 & E5 & H). apply io_ret_ok in H as [<- <-].
      pose proof (encrypt_mild _ _ _ laws _ _ _ _ E2) as M2. pose proof (inv_mild _ _ _ _ _ M2 Hw1) as Hw2.
      destruct M2 as (_ & _ & I2 & Q2 & _). apply encrypt_run in E2 as (key & iv & ->).
      pose proof E3 as F3. apply (fresh_key_unset _ lib catalog _ laws) in F3 as (Hw3 & Hu & Hq3 & Hn3); [|done].
      apply (law_uuid _ _ laws) in E3 as (Hfresh & _ & Q3 & _).
      pose proof E4 as F4. apply (set_key_inv _ lib catalog _ laws) in F4 as (_ & _ & Hk); [|done..].
      apply (law_set _ _ laws) in E4 as (_ & _ & _ & Q4 & _). apply (law_add _ _ laws) in E5 as (V5 & _ & _ & [Q5|[_ []]]); [|done].
      exists (job_of lib r circuit agent key iv). rewrite Q5, Q4, Q3, Q2, Q1. split_and!; [done| |done..|].
      * intros Hin. by apply Hfresh, I2, I1.
      * intros k w'' Ht. apply (take_key_run _ _ _ laws) in Ht as [(v & Hv & ->) _].
        assert (of_base64 lib v = key) as ->.
        { destruct (V5 (keyKey u)) as [E|E]; rewrite E in Hv; [|done]. apply Hk in Hv as ->. apply (law_base64 _ lib_ok). }
        eexists. split; [by apply (decrypt_job lib lib_ok)|]. apply merge_witness_of.
Qed.

(** A live circuit whose public inputs are not among the five the request schema
    keeps (as the catalog's unique-execution) has one cache entry: once it holds a
    proof, every request for the circuit is answered with it, whatever it asked. *)
Theorem undeclared_inputs_share_proofs (w w' : W) (agent1 agent2 : string) (r1 r2 : ProveRequest) (circuit : RuntimeCircuitCatalogEntry) (body : json)
  (Hc : findRuntimeCircuit catalog (circuit_id r1) = Some circuit) (H2 : circuit_id r2 = circuit_id r1)
  (Hd : Forall (fun f => f ∉ ["task_hash"; "result_hash"; "deadline"; "submitted_at"; "criteria_root"]%string) (publicInputs circuit))
  (H : prove_request ops lib catalog agent1 r1 w = Some (Ok (R_cached body), w')) :
  prove_request ops lib catalog agent2 r2 w = Some (Ok (R_cached body), w').
Proof.
  pose proof H as Hx. unfold prove_request in H |- *. rewrite H2, Hc in *. destruct (lifecycle circuit); try done.
  destruct (artifactsReady circuit); [|done]. cbn [negb] in *.
  rewrite (undeclared_hash _ circuit (public_inputs r1) (public_inputs r2)) in H by exact Hd.
  unfold io_bind at 1 in H. unfold io_bind at 1.
  destruct (po_get ops _ w) as [[[[[|c t]|]|e] w1]|]; try done; (exfalso;
    apply io_bind_ok in H as (? & ? & _ & H); apply io_bind_ok in H as (? & ? & _ & H);
    apply io_bind_ok in H as (? & ? & _ & H); apply io_bind_ok in H as (? & ? & _ & H); by apply io_ret_ok in H as [[=] _]).
Qed.
End served.

(** ** The rate limiter *)

(** Requests of agents and sweeps of the interval, with the clock's readings. *)
Inductive rl_event :=
| RL_call (agent : string) (now : Z)
| RL_sweep (now : Z).

Definition rl_time (e : rl_event) : Z := match e with RL_call _ n | RL_sweep n => n end.

Definition rl_step (bs : list (string * bucket)) (e : rl_event) : option Z * list (string * bucket) :=
  match e with
  | RL_call a now => checkRateLimit a now bs
  | RL_sweep now => (None, sweepBuckets now bs)
  end.

(** A request of [a] between [t] and [t + WINDOW_MS] that is admitted. *)
Definition counted (a : string) (t : Z) (e : rl_event) (r : option Z) : Z :=
  match e, r with
  | RL_call b now, None => if bool_decide (b = a) && (t <=? now) && (now <? t + WINDOW_MS) then 1 else 0
  | _, _ => 0
  end.

(** How many requests of [a] between [t] and [t + WINDOW_MS] are admitted. *)
Fixpoint admitted (a : string) (t : Z) (bs : list (string * bucket)) (es : list rl_event) : Z :=
  match es with
  | [] => 0
  | e :: es' =>
    let '(r, bs') := rl_step bs e in counted a t e r + admitted a t bs' es'
  end.

Fixpoint clock_ok (now : Z) (es : list rl_event) : Prop :=
  match es with
  | [] => True
  | e :: es' => now <= rl_time e /\ clock_ok (rl_time e) es'
  end.

Lemma map_get_filter {A} (f : string * A -> bool) a (m : list (string * A)) : map_wf m ->
  map_get a (List.filter f m) = match map_get a m with Some b => if f (a, b) then Some b else None | None => None end.
Proof.
  unfold map_wf. induction m as [|[k v] m IH]; [done|]. unfold map_keys. rewrite fmap_cons, NoDup_cons. intros [Hk Hm]. cbn.
  assert (Hno : map_get k m = None) by (by apply map_get_None). specialize (IH Hm).
  destruct (f (k, v)) eqn:Ef; cbn [map_get]; (destruct (decide (a = k)) as [->|Hne]; [|done]).
  - by rewrite Ef.
  - by rewrite IH, Hno, Ef.
Qed.

(** What may still be admitted in the window, from a time and a bucket. *)
Definition allowance (t now : Z) (o : option bucket) : Z :=
  if t + WINDOW_MS <=? now then 0
  else match o with
       | Some b =>
         if now <? resetAt b then
           if resetAt b <=? t then 19
           else Z.max 0 (BURST_LIMIT - count b) + (if resetAt b <? t + WINDOW_MS then 10 else 0)
         else if now <? t then 19 else 10
       | None => if now <? t then 19 else 10
       end.

Ltac allowance_cases := unfold allowance, BURST_LIMIT, WINDOW_MS in *; repeat case_match;
  rewrite ?Z.leb_le, ?Z.leb_gt, ?Z.ltb_lt, ?Z.ltb_ge in *; cbn [count resetAt] in *; try lia.

Lemma allowance_later t now n o : now <= n -> allowance t n o <= allowance t now o.
Proof. intros H. destruct o as [b|]; allowance_cases. Qed.

Lemma allowance_call t n b : let b' := {| count := count b + 1; resetAt := resetAt b |} in n < resetAt b ->
  (if BURST_LIMIT <? count b' then 0 else if (t <=? n) && (n <? t + WINDOW_MS) then 1 else 0) + allowance t n (Some b') <= allowance t n (Some b).
Proof.
  cbv zeta. intros H. destruct (Z.leb_spec t n), (Z.ltb_spec n (t + WINDOW_MS)); cbn [andb]; allowance_cases.
Qed.

Lemma allowance_new t n o : (forall b, o = Some b -> resetAt b <= n) ->
  (if (t <=? n) && (n <? t + WINDOW_MS) then 1 else 0) + allowance t n (Some {| count := 1; resetAt := n + WINDOW_MS |}) <= allowance t n o.
Proof.
  intros H. destruct o as [b|]; [specialize (H b eq_refl)|]; destruct (Z.leb_spec t n), (Z.ltb_spec n (t + WINDOW_MS)); cbn [andb]; allowance_cases.
Qed.

Lemma filter_wf {A} (f : string * A -> bool) (m : list (string * A)) : map_wf m -> map_wf (List.filter f m).
Proof.
  unfold map_wf, map_keys. intros H. eapply sublist_NoDup; [exact H|]. apply fmap_sublist. clear H.
  induction m as [|x m IH]; cbn; [constructor|]. destruct (f x); by constructor.
Qed.

Lemma rl_step_wf bs e : map_wf bs -> map_wf (rl_step bs e).2.
Proof.
  destruct e as [b n|n]; cbn; [|apply filter_wf]. unfold checkRateLimit. cbn [snd]. apply map_wf_set.
Qed.

Lemma rl_step_allowance a t bs e : map_wf bs ->
  counted a t e (rl_step bs e).1 + allowance t (rl_time e) (map_get a (rl_step bs e).2) <= allowance t (rl_time e) (map_get a bs).
Proof.
  intros Hwf. unfold counted. destruct e as [b n|n]; cbn [rl_step rl_time].
  - unfold checkRateLimit. destruct (decide (b = a)) as [->|Hne].
    + rewrite bool_decide_true by done. cbn [andb]. destruct (map_get a bs) as [bk|] eqn:E; cbn [fst snd].
      * destruct (Z.leb_spec (resetAt bk) n) as [Hle|Hlt]; cbn [count resetAt].
        -- rewrite map_get_set_eq. change (BURST_LIMIT <? 0 + 1) with false. apply allowance_new. by intros x [= <-].
        -- rewrite map_get_set_eq. pose proof (allowance_call t n bk Hlt) as H. cbv zeta in H. cbn [count resetAt] in H.
           destruct (BURST_LIMIT <? count bk + 1); exact H.
      * cbn [count resetAt]. rewrite map_get_set_eq. change (BURST_LIMIT <? 0 + 1) with false. by apply allowance_new.
    + rewrite bool_decide_false by done. cbn [andb fst snd]. rewrite map_get_set_ne by done.
      case_match; cbn; lia.
  - cbn [fst snd]. unfold sweepBuckets. rewrite map_get_filter by done. destruct (map_get a bs) as [bk|]; [|lia]. cbn [snd].
    destruct (Z.ltb_spec n (resetAt bk)); [lia|]. allowance_cases.
Qed.

Lemma admitted_allowance a t es : forall now bs, map_wf bs -> clock_ok now es -> admitted a t bs es <= allowance t now (map_get a bs).
Proof.
  induction es as [|e es IH]; cbn [admitted clock_ok]; intros now bs Hwf Ho.
  - destruct (map_get a bs); allowance_cases.
  - destruct Ho as [Hn Ho]. pose proof (rl_step_allowance a t bs e Hwf) as H. pose proof (rl_step_wf bs e Hwf) as Hwf'.
    destruct (rl_step bs e) as [r bs'] eqn:E. cbn [fst snd] in H, Hwf'. specialize (IH _ bs' Hwf' Ho).
    pose proof (allowance_later t now (rl_time e) (map_get a bs) Hn). lia.
Qed.

(** Whatever the agents and the sweeps in between, on a clock that does not go back
    one agent is admitted at most nineteen times in any minute, almost twice the
    burst. *)
Theorem prove_rate_bound (a : string) (t now : Z) (es : list rl_event) (H : clock_ok now es) :
  admitted a t [] es <= 2 * BURST_LIMIT - 1.
Proof.
  pose proof (admitted_allowance a t es now [] (NoDup_nil_2) H) as Hb.
  assert (allowance t now None <= 19) by allowance_cases. change (map_get a []) with (@None bucket) in Hb. unfold BURST_LIMIT. lia.
Qed.

(** A refusal tells the truth: the time to wait is between a second and a minute,
    and after it, whatever other agents did and the sweeps removed meanwhile, the
    agent is admitted. *)
Theorem retry_after_honest (a : string) (now later s : Z) (bs : list (string * bucket)) (es : list rl_event)
  (Hwf : map_wf bs) (Hb : forall b, map_get a bs = Some b -> resetAt b <= now + WINDOW_MS)
  (Hr : (checkRateLimit a now bs).1 = Some s) (Ho : Forall (fun e => match e with RL_call b _ => b <> a | RL_sweep _ => True end) es)
  (Hl : now + 1000 * s <= later) :
  1 <= s <= 60 /\
  (checkRateLimit a later (fold_left (fun m e => (rl_step m e).2) es (checkRateLimit a now bs).2)).1 = None.
Proof.
  unfold checkRateLimit in Hr at 1. destruct (map_get a bs) as [b|] eqn:E; [|by vm_compute in Hr].
  specialize (Hb b eq_refl). destruct (Z.leb_spec (resetAt b) now) as [Hle|Hlt]; [by vm_compute in Hr|]. cbn [count resetAt fst] in Hr.
  destruct (BURST_LIMIT <? count b + 1) eqn:Ec; [|done]. injection Hr as <-. unfold seconds_until, WINDOW_MS in *.
  pose proof (Z.div_mod (now - resetAt b) 1000 ltac:(lia)). pose proof (Z.mod_pos_bound (now - resetAt b) 1000 ltac:(lia)).
  split; [lia|].
  assert (Hkeep : forall l m, map_wf m -> Forall (fun e => match e with RL_call b _ => b <> a | RL_sweep _ => True end) l ->
    (forall b', map_get a m = Some b' -> resetAt b' = resetAt b) ->
    forall b', map_get a (fold_left (fun m e => (rl_step m e).2) l m) = Some b' -> resetAt b' = resetAt b).
  { induction l as [|e l IH]; cbn [fold_left]; intros m Hm Hl' Hg; [done|]. apply Forall_cons in Hl' as [He Hl'].
    apply IH; [by apply rl_step_wf|done|]. intros b'. destruct e as [c n|n]; cbn [rl_step snd].
    - unfold checkRateLimit. cbn [snd]. rewrite map_get_set_ne by done. apply Hg.
    - unfold sweepBuckets. rewrite map_get_filter by done. destruct (map_get a m) as [x|]; [|done]. cbn [snd].
      destruct (n <? resetAt x); [|done]. intros [= <-]. by apply Hg. }
  set (m1 := (checkRateLimit a now bs).2).
  assert (Hm1 : forall b', map_get a m1 = Some b' -> resetAt b' = resetAt b).
  { intros b'. unfold m1, checkRateLimit. rewrite E. destruct (Z.leb_spec (resetAt b) now); [lia|]. cbn [snd].
    rewrite map_get_set_eq. by intros [= <-]. }
  specialize (Hkeep es m1 (rl_step_wf bs (RL_call a now) Hwf) Ho Hm1).
  unfold checkRateLimit at 1. destruct (map_get a (fold_left _ es m1)) as [b'|]; [|done].
  specialize (Hkeep b' eq_refl). destruct (Z.leb_spec (resetAt b') later); [done|lia].
Qed.

(** ** A concrete outside world *)

(** ** The world *)

Record toy := { t_redis : list (string * string); t_ids : list string; t_jobs : list (string * ProveJobData); t_proofs : list proof_made }.

Definition toy_lib : proof_lib :=
  {| stringify := tree_text; parse := text_tree; sha256_hex := fun s => s; to_base64 := fun s => s; of_base64 := fun s => s;
     encrypt := fun _ _ pt => (pt, "tag"); decrypt := fun _ _ _ ct => Some ct;
     jwtVerify := fun token _ _ => Some (Some token); is_uuid := fun _ => true |}%string.

(** Ids longer than any before: the counter is the length of the list. *)
Definition toy_id (l : list string) : string := "id" +:+ z_text (Z.of_nat (length l)).

Definition toy_ops (prover : list (string * json) -> result (json * list string)) : proof_ops toy :=
  {| po_get := fun k w => Some (Ok (map_get k (t_redis w)), w);
     po_set := fun k v _ w => Some (Ok tt, {| t_redis := map_set k v (t_redis w); t_ids := t_ids w; t_jobs := t_jobs w; t_proofs := t_proofs w |});
     po_del := fun k w => Some (Ok tt, {| t_redis := List.filter (fun kv => negb (String.eqb kv.1 k)) (t_redis w); t_ids := t_ids w;
                                          t_jobs := t_jobs w; t_proofs := t_proofs w |});
     po_randomBytes := fun _ w => Some (Ok "key"%string, w);
     po_uuid := fun w => if decide (toy_id (t_ids w) ∈ t_ids w) then Some (Throw "exhausted", w)
                         else Some (Ok (toy_id (t_ids w)), {| t_redis := t_redis w; t_ids := toy_id (t_ids w) :: t_ids w;
                                                              t_jobs := t_jobs w; t_proofs := t_proofs w |});
     po_add := fun d id w => Some (Ok tt, {| t_redis := t_redis w; t_ids := t_ids w; t_jobs := (id, d) :: t_jobs w; t_proofs := t_proofs w |});
     po_getJob := fun _ w => Some (Ok None, w);
     po_exists := fun _ w => Some (Ok true, w);
     po_fullProve := fun wit wasm zkey w =>
       match prover wit with
       | Ok p => Some (Ok p, {| t_redis := t_redis w; t_ids := t_ids w; t_jobs := t_jobs w; t_proofs := (wit, (wasm, zkey), p) :: t_proofs w |})
       | Throw e => Some (Throw e, w)
       end;
     po_dlq_add := fun _ _ _ w => Some (Ok tt, w) |}.

Definition toy_ghost : ghost toy :=
  {| view := fun w k => map_get k (t_redis w); issued := t_ids; queued := t_jobs; proved := t_proofs |}.

Lemma toy_lib_ok : lib_laws toy_lib.
Proof. constructor; [apply text_tree_text|done|done]. Qed.

Lemma map_get_removed (k k' : string) (m : list (string * string)) :
  map_get k (List.filter (fun kv => negb (String.eqb kv.1 k')) m) = if String.eqb k k' then None else map_get k m.
Proof.
  induction m as [|[x v] m IH]; cbn [List.filter map_get fst]; [by destruct (String.eqb k k')|].
  destruct (String.eqb_spec x k') as [->|Hne]; cbn [negb map_get].
  - rewrite IH. destruct (String.eqb_spec k k') as [->|H]; [done|]. by destruct (decide (k = k')).
  - destruct (decide (k = x)) as [->|H]; [|done]. by destruct (String.eqb_spec x k').
Qed.

Lemma toy_gen_laws prover : proof_laws (toy_ops prover) toy_ghost.
Proof.
  constructor; cbn [toy_ops toy_ghost po_get po_set po_del po_randomBytes po_uuid po_add po_getJob po_exists po_fullProve po_dlq_add].
  - intros k w r w' [= <- <-]. split; [apply calm_refl|]. intros v H. by injection H.
  - intros k v ttl w r w' [= <- <-]. cbn. split_and!; try done; [|by left; apply map_get_set_eq].
    intros k' Hne. left. by apply map_get_set_ne.
  - intros k w r w' H. injection H as <- <-. split; [split; [|done]|].
    + intros k'. cbn [toy_ghost view t_redis]. rewrite map_get_removed. destruct (String.eqb k' k); [by right|by left].
    + intros _. cbn [toy_ghost view t_redis]. by rewrite map_get_removed, String.eqb_refl.
  - intros n w r w' [= <- <-]. apply calm_refl.
  - intros w r w'. destruct (decide _) as [H|H]; intros [= <- <-]; [apply calm_refl|]. cbn. split_and!; try done. by left.
  - intros d id w r w' [= <- <-]. cbn. split_and!; try done; [by left|by left].
  - intros id w r w' [= <- <-]. apply calm_refl.
  - intros p w r w' [= <- <-]. apply calm_refl.
  - intros wit wasm zkey w r w'. destruct (prover wit); intros [= <- <-]; [|apply calm_refl]. cbn. split_and!; try done. by left.
  - intros d e id w r w' [= <- <-]. apply calm_refl.
Qed.

(** ** A run *)

Definition toy_catalog : list RuntimeCircuitCatalogEntry :=
  match loadRuntimeCircuitCatalog (String.concat "/") (fun _ => None) (fun _ => Throw "") (fun _ => true) "catalog" "circuits" with
  | Ok c => c
  | Throw _ => []
  end.

Definition toy_request (id salt : string) : ProveRequest :=
  {| circuit_id := id;
     public_inputs := {| task_hash := "0x1"; result_hash := salt; deadline := "9"; submitted_at := "5"; criteria_root := "0x3" |};
     private_inputs := {| task_preimage := ["1"]; result_preimage := []; salt := salt; criteria_satisfied := []; criteria_path := [];
                          criteria_index := [] |} |}%string.

Definition good_prover (_ : list (string * json)) : result (json * list string) := Ok (J_str "pi", ["7"])%string.
Definition bad_prover (_ : list (string * json)) : result (json * list string) := Throw "Assert Failed".

Definition toy_start : toy := {| t_redis := []; t_ids := []; t_jobs := []; t_proofs := [] |}.

Definition world_after {A} (m : io toy A) (w : toy) : toy := match m w with Some (_, w') => w' | None => w end.

Section run.
Variable prover : list (string * json) -> result (json * list string).
Variable circuit : string.

Definition toy_prove (salt : string) : io toy reply := prove_request (toy_ops prover) toy_lib toy_catalog "agent" (toy_request circuit salt).
Definition toy_queued : toy := world_after (toy_prove "4") toy_start.
Definition toy_attempt : io toy (result (json * list string) * artifacts) := fun w =>
  match t_jobs w with
  | (id, d) :: _ => process (toy_ops prover) toy_lib toy_catalog id d [] w
  | [] => None
  end.
Definition toy_proved : toy := world_after toy_attempt toy_queued.

Lemma toy_start_reachable : reachable (toy_ops prover) toy_lib toy_catalog toy_ghost toy_start.
Proof. exists toy_start, []. split; [done|apply rtc_refl]. Qed.

Lemma toy_queued_reachable o w : toy_prove "4" toy_start = Some (o, w) -> reachable (toy_ops prover) toy_lib toy_catalog toy_ghost w.
Proof. intros H. exists toy_start, []. split; [done|]. eapply rtc_once, G_prove. exact H. Qed.
End run.

Lemma prove_enqueues_once_witness :
  exists w d, toy_prove good_prover "task_completion.v1" "4" toy_start = Some (Ok (R_queued "id0"), w) /\ t_jobs w = [("id0"%string, d)] /\
    jd_circuit_id d = "task_completion.v1"%string.
Proof.
  destruct (toy_prove good_prover "task_completion.v1" "4" toy_start) as [[[o|e] w]|] eqn:E; [|vm_compute in E; discriminate E..].
  assert (o = R_queued "id0") as -> by (vm_compute in E; injection E as <- _; reflexivity).
  destruct (prove_enqueues_once (toy_ops good_prover) toy_lib toy_catalog toy_ghost (toy_gen_laws _) toy_lib_ok toy_start w "agent"
    (toy_request "task_completion.v1" "4") _ (toy_start_reachable _) E) as (d & H1 & _ & H2 & _).
  exists w, d. split; [reflexivity|]. split; [exact H1|exact H2].
Defined.

(** Queued, proved, and asked again: the second agent is served the proof. *)
Lemma toy_proved_reachable circuit : circuit = "task_completion.v1"%string \/ circuit = "unique_execution.v1"%string ->
  reachable (toy_ops good_prover) toy_lib toy_catalog toy_ghost (toy_proved good_prover circuit).
Proof.
  intros Hc.
  assert (exists o, toy_prove good_prover circuit "4" toy_start = Some (o, toy_queued good_prover circuit)) as [o E1]
    by (destruct Hc as [-> | ->]; vm_compute; eauto).
  assert (exists id d, t_jobs (toy_queued good_prover circuit) = [(id, d)]) as (id & d & Ej)
    by (destruct Hc as [-> | ->]; vm_compute; eauto).
  assert (exists r c, toy_attempt good_prover (toy_queued good_prover circuit) = Some (Ok (r, c), toy_proved good_prover circuit))
    as (r & c & E2) by (destruct Hc as [-> | ->]; vm_compute; eauto).
  destruct (toy_queued_reachable _ _ _ _ E1) as (w0 & c0 & Hf & Hr).
  exists w0, c. split; [exact Hf|]. eapply rtc_r.
  - eapply rtc_r; [exact Hr|]. apply G_restart.
  - unfold toy_attempt in E2. rewrite Ej in E2. eapply G_attempt; [|exact E2]. cbn [queued toy_ghost]. rewrite Ej. left.
Qed.

Lemma cached_proof_matches_witness :
  exists w p, toy_prove good_prover "task_completion.v1" "4" (toy_proved good_prover "task_completion.v1") =
    Some (Ok (R_cached (J_obj [("status", J_str "completed"); ("proof", fst p); ("public_signals", strings (snd p))]%string)), w).
Proof.
  destruct (toy_prove good_prover "task_completion.v1" "4" (toy_proved good_prover "task_completion.v1")) as [[[o|e] w]|] eqn:E;
    [|vm_compute in E; discriminate E..].
  destruct o; try (vm_compute in E; discriminate E).
  destruct (cached_proof_matches (toy_ops good_prover) toy_lib toy_catalog toy_ghost (toy_gen_laws _) toy_lib_ok _ w "agent"
    (toy_request "task_completion.v1" "4") body (toy_proved_reachable _ (or_introl eq_refl)) E) as [(x & y & Hne & H)|H].
  - destruct (Hne H).
  - destruct H as (circuit & r' & p & _ & _ & _ & _ & ->). exists w, p. reflexivity.
Defined.

(** A request with other public inputs gets the same cached proof. *)
Lemma undeclared_inputs_share_proofs_witness :
  exists w body, toy_prove good_prover "unique_execution.v1" "5" (toy_proved good_prover "unique_execution.v1") = Some (Ok (R_cached body), w).
Proof.
  destruct (toy_prove good_prover "unique_execution.v1" "4" (toy_proved good_prover "unique_execution.v1")) as [[[o|e] w]|] eqn:E;
    [|vm_compute in E; discriminate E..].
  destruct o; try (vm_compute in E; discriminate E).
  exists w, body.
  destruct (findRuntimeCircuit toy_catalog "unique_execution.v1") as [c|] eqn:Ec; [|vm_compute in Ec; discriminate Ec].
  apply (undeclared_inputs_share_proofs (toy_ops good_prover) toy_lib toy_catalog _ _ "agent" "agent"
    (toy_request "unique_execution.v1" "4") (toy_request "unique_execution.v1" "5") c); [exact Ec|reflexivity| |exact E].
  assert (publicInputs c = ["execution_root"; "task_id"; "nonce"]%string) as ->
    by (vm_compute in Ec; injection Ec as <-; reflexivity).
  repeat (constructor; [match goal with |- ?P => exact (bool_decide_eq_true_1 P eq_refl) end|]). constructor.
Defined.

(** The prover fails: a later attempt reports an expired key. *)
Lemma witness_key_used_once_witness :
  exists d w1 w2 c e, take_key (toy_ops bad_prover) toy_lib "id0" (toy_queued bad_prover "task_completion.v1") = Some (Ok "key"%string, w1) /\
    process (toy_ops bad_prover) toy_lib toy_catalog "id0" d [] w1 = Some (Ok (Throw e, c), w2).
Proof.
  set (w0 := toy_queued bad_prover "task_completion.v1").
  assert (exists o, toy_prove bad_prover "task_completion.v1" "4" toy_start = Some (o, w0)) as [o E0] by (vm_compute; eauto).
  assert (exists w1, take_key (toy_ops bad_prover) toy_lib "id0" w0 = Some (Ok "key"%string, w1) /\
    exists d r c w2, process (toy_ops bad_prover) toy_lib toy_catalog "id0" d [] w1 = Some (Ok (r, c), w2)) as (w1 & E1 & d & r & c & w2 & E2).
  { eexists. split; [vm_compute; reflexivity|].
    exists (job_of toy_lib (toy_request "task_completion.v1" "4")
      {| entry := {| slug := ""; displayName := ""; lifecycle := live; version := 1; verifier := ezkl; verificationKeyVersion := 1;
                     publicInputs := []; summary := "" |};
         runtimeId := ""; manifestPath := ""; buildDir := ""; wasmPath := ""; zkeyPath := ""; verificationKeyPath := "";
         artifactsReady := true; verificationKeyPresent := true |} "agent" "key" "key")%string.
    vm_compute. eauto. }
  destruct (witness_key_used_once (toy_ops bad_prover) toy_lib toy_catalog toy_ghost (toy_gen_laws _) toy_lib_ok
    "id0" _ w0 w1 w1 w2 [] [] c d r (toy_queued_reachable _ _ _ _ E0) E1 (rtc_refl _ _) E2) as (Hv & e & -> & _).
  exists d, w1, w2, c, e. split; [exact E1|exact E2].
Defined.

(** Nineteen admitted calls in one minute, from the first call's last millisecond. *)
Lemma prove_rate_bound_witness :
  let calls := RL_call "a" 0 :: repeat (RL_call "a" 59999) 9 ++ repeat (RL_call "a" 60000) 11 in
  admitted "a" 59999 [] calls = 19 /\ admitted "a" 59999 [] calls <= 2 * BURST_LIMIT - 1.
Proof. split; [reflexivity|]. apply (prove_rate_bound "a" 59999 0). vm_compute. repeat split; discriminate. Defined.

Lemma retry_after_honest_witness :
  let bs := [("a"%string, {| count := 10; resetAt := 60000 |})] in
  (checkRateLimit "a" 500 bs).1 = Some 60 /\ (checkRateLimit "a" 60500 (checkRateLimit "a" 500 bs).2).1 = None.
Proof.
  split; [reflexivity|].
  apply (retry_after_honest "a" 500 60500 60 [("a"%string, {| count := 10; resetAt := 60000 |})] []).
  - apply NoDup_singleton.
  - intros b [= <-]. vm_compute. discriminate.
  - reflexivity.
  - constructor.
  - vm_compute. discriminate.
Defined.

Lemma runtime_ids_name_circuits_witness : exists cat, length cat = 4%nat /\
  forall e1 e2 : RuntimeCircuitCatalogEntry, e1 ∈ cat -> e2 ∈ cat -> runtimeId e1 = runtimeId e2 -> slug e1 = slug e2.
Proof.
  destruct (loadRuntimeCircuitCatalog (String.concat "/") (fun _ => None) (fun _ => Throw "") (fun _ => true) "catalog" "circuits")
    as [cat|e] eqn:E; [|vm_compute in E; discriminate E].
  exists cat. split; [vm_compute in E; injection E as <-; reflexivity|]. intros e1 e2 H1 H2 H.
  exact (proj1 (proj1 (proj2 (runtime_ids_name_circuits _ _ _ _ _ _ cat E e1 e2 H1 H2)) H)).
Defined.
