(* ===== verification/Submit.v ===== *)
(** * Submit: sending transactions through Jito and staked RPC nodes

    Models packages/sdk/src/submit/jito.ts and staked.ts and packages/sdk/src/jito:
    client.ts and tip.ts.  [fetch] and the fallback's [sendRawTransaction] are
    operations of the outside world; the serialisation of transactions, base58 and
    base64 and the compute-budget instructions of web3.js are parameters.  A request
    body is the JSON value it is the text of.  Amounts are exact rationals; a tip
    that is not finite is [None]. *)

From Stdlib Require Import ZArith QArith Qround Ascii.
From stdpp Require Import base list strings.
From S2P Require Import Prelude Effects Json Zod.

Open Scope Z_scope.
Open Scope saep_scope.

(** ** Reading JSON values as JavaScript does *)

(** [v.key]: [undefined] is [None]; [null] and [undefined] throw. *)
Definition js_get (key : string) (v : option json) : result (option json) :=
  match v with
  | None => Throw ("Cannot read properties of undefined (reading '" +:+ key +:+ "')")
  | Some J_null => Throw ("Cannot read properties of null (reading '" +:+ key +:+ "')")
  | Some (J_obj fs) => Ok (member key fs)
  | Some _ => Ok None
  end.

Definition js_truthy (v : option json) : bool :=
  match v with
  | None | Some J_null => false
  | Some (J_bool b) => b
  | Some (J_num q) => negb (Qeq_bool q 0)
  | Some (J_str s) => negb (String.eqb s "")
  | Some (J_arr _) | Some (J_obj _) => true
  end.

(** [v ?? d] *)
Definition js_or (v : option json) (d : json) : json :=
  match v with
  | None | Some J_null => d
  | Some x => x
  end.

(** [v?.[0]] *)
Definition js_first (v : option json) : option json :=
  match v with
  | Some (J_arr (x :: _)) => Some x
  | Some (J_str (String c _)) => Some (J_str (String c ""))
  | _ => None
  end.

(** ** The network *)

Record http_request := { rq_url : string; rq_headers : list (string * string); rq_body : json }.

Record http_response := { status : Z; res_text : result string; res_json : result json }.

Definition res_ok (r : http_response) : bool := (200 <=? status r) && (status r <? 300).

(** A JSON-RPC call. *)
Definition json_rpc (id : json) (method : string) (params : list json) : json :=
  J_obj [("jsonrpc", J_str "2.0"); ("id", id); ("method", J_str method); ("params", J_arr params)]%string.

(** ** jito.ts: tips *)

Definition clampTipLamports (tipLamports : option Q) (floor cap : Q) (paymentAmount paymentPct : option Q) : Z :=
  let tip := match tipLamports with Some q => if q_ltb q 0 then 0%Q else q | None => 0%Q end in
  let floor := Z.max 0 (Qfloor floor) in
  let capAbs := Z.max floor (Qfloor cap) in
  let payCap := match paymentAmount, paymentPct with
                | Some a, Some p => if q_ltb 0 a && q_ltb 0 p then Qfloor (a * p) else capAbs
                | _, _ => capAbs
                end in
  let effectiveCap := Z.min capAbs payCap in
  Z.min (Z.max (Qceiling tip) floor) (Z.max effectiveCap floor).

(** tip.ts *)
Definition TIP_FLOOR_LAMPORTS : Z := 1000.
Definition TIP_HEADROOM : Q := 12 # 10.
Definition TIP_CAP_BPS : Z := 100.

Definition JITO_TIP_ACCOUNTS : list string :=
  ["96gYZGLnJYVFmbjzopPSU6QiEV5fGqZNyN9nmNhvrZU5"; "HFqU5x63VTqvQss8hp11i4bPuAqfr4XCBQNGLDn7PkJE";
   "Cw8CFyM9FkoMi7K7Crf6HNQqf4uEMzpKw6QNghXLvLkY"; "ADaUMid9yfUytqMBgopwjb2DTLSLGSMBSVGaDBS9kmMP";
   "DfXygSm4jCyNCybVYYK6DwvWqjKee8pbDmJGcLWNDXjh"; "ADuUkR4vqLUMWXxW9gh6D6L8pMSawimctcNZ5pGwDcEt";
   "DttWaMuVvTiduZRnguLF7jNxTgiMBZ1hyAumKUiL6d33"; "3AVi9Tg9Uo68tJfuvoKvqKNWKkC5wPdSSdeBnizKZ6jT"]%string.

(** [Math.random()] is a rational from 0 inclusive to 1 exclusive. *)
Definition pickTipAccount (random : Q) : option string := JITO_TIP_ACCOUNTS !! Z.to_nat (Qfloor (random * 8)).

(** A missing or zero [recentTipLamports] is falsy. *)
Definition computeTip (recentTipLamports : option Q) (taskPaymentLamports : option Z) : Z :=
  let base := match recentTipLamports with
              | Some q => if Qeq_bool q 0 then TIP_FLOOR_LAMPORTS else Qceiling (q * TIP_HEADROOM)
              | None => TIP_FLOOR_LAMPORTS
              end in
  let tip := Z.max base TIP_FLOOR_LAMPORTS in
  match taskPaymentLamports with
  | Some p => Z.min tip (Z.max (Qfloor (inject_Z (p * TIP_CAP_BPS) / 10000)) TIP_FLOOR_LAMPORTS)
  | None => tip
  end.

(** ** staked.ts: priority fees *)

Definition clampPriorityFee (estimate : Q) (floor cap : option Q) : Z :=
  let value := Z.max 0 (Qceiling estimate) in
  let value := match floor with Some f => Z.max value (Qceiling f) | None => value end in
  match cap with Some c => Z.min value (Qfloor c) | None => value end.

Record instruction := { programId : string; data : list Z }.

Definition COMPUTE_BUDGET_PROGRAM_ID : string := "ComputeBudget111111111111111111111111111111".

Record budget_ixs := { has_price : bool; has_limit : bool }.

Definition budget_tag (ix : instruction) : option Z :=
  if String.eqb (programId ix) COMPUTE_BUDGET_PROGRAM_ID then head (data ix) else None.

Definition hasComputeBudgetIx (ixs : list instruction) : budget_ixs :=
  {| has_limit := existsb (fun ix => bool_decide (budget_tag ix = Some 2)) ixs;
     has_price := existsb (fun ix => bool_decide (budget_tag ix = Some 3)) ixs |}.

Section priority.
Variable setComputeUnitLimit : Q -> result instruction.
Variable setComputeUnitPrice : Z -> result instruction.

(** The instructions of the transaction afterwards; [microLamports] comes from
    [clampPriorityFee], which gives integers. *)
Definition withPriorityFee (ixs : list instruction) (microLamports : Z) (cuLimit : option Q) : result (list instruction) :=
  let present := hasComputeBudgetIx ixs in
  let! limit := match cuLimit with
                | Some units => if has_limit present then Ok [] else let! ix := setComputeUnitLimit units in Ok [ix]
                | None => Ok []
                end in
  let! price := if (0 <? microLamports) && negb (has_price present)
                then let! ix := setComputeUnitPrice microLamports in Ok [ix] else Ok [] in
  Ok (limit ++ price ++ ixs).
End priority.

(** ** jito.ts: the bundle submitter *)

Inductive jito_kind := rate_limited | server | client | network | rpc.

(** What a call may throw: a [JitoError] or any other error. *)
Inductive thrown :=
| JitoError (kind : jito_kind) (message : string) (http_status : option Z)
| Other (message : string).

Inductive InflightBundleStatus :=
| Pending
| Landed (slot : json)
| Failed (reason : json)
| Unknown.

(** A signed transaction is its wire form, or the error [serialize] throws. *)
Definition signed_tx : Type := result string.

Record submit_ops (W : Type) := {
  so_fetch : http_request -> io W http_response;
  so_sendRaw : string -> io W string;      (* sendRawTransaction of the fallback *)
}.
Arguments so_fetch {W} _ _ _.
Arguments so_sendRaw {W} _ _ _.

Record submitter := { url : string; retries : Z; authToken : option string }.

(** [url.replace(/\/$/, '')] *)
Definition drop_slash (s : string) : string :=
  let n := (String.length s - 1)%nat in
  if String.eqb (String.substring n 1 s) "/" then String.substring 0 n s else s.

Definition new_JitoBundleSubmitter (blockEngineUrl : string) (authToken : option string) (retries : option Z) : result submitter :=
  if String.eqb blockEngineUrl "" then Throw "blockEngineUrl required"
  else Ok {| url := drop_slash blockEngineUrl; retries := default 2 retries; authToken := authToken |}.

Fixpoint serialize_all (txs : list signed_tx) : result (list string) :=
  match txs with
  | [] => Ok []
  | Ok raw :: l => let! t := serialize_all l in Ok (raw :: t)
  | Throw e :: _ => Throw e
  end.

Section submit.
Context {W : Type}.
Variable ops : submit_ops W.
Variable bs58 : string -> string.

Definition safeText (r : http_response) : string := match res_text r with Ok t => t | Throw _ => "" end.

(** The message of a JSON-RPC error, or the default. *)
Definition rpc_message (error : option json) (d : string) : result json :=
  let! m := js_get "message" error in Ok (js_or m (J_str d)).

Definition text_of (v : json) : string := match v with J_str s => s | _ => "[object]" end.

(** What [rpc] makes of a response. *)
Definition rpc_outcome (r : http_response) : option json + thrown :=
  if status r =? 429 then inr (JitoError rate_limited "jito 429" (Some 429))
  else if 500 <=? status r then inr (JitoError server ("jito " +:+ z_text (status r) +:+ ": " +:+ safeText r) (Some (status r)))
  else if negb (res_ok r) then inr (JitoError client ("jito " +:+ z_text (status r) +:+ ": " +:+ safeText r) (Some (status r)))
  else match res_json r with
       | Throw e => inr (Other e)
       | Ok body =>
         match js_get "error" (Some body) with
         | Throw e => inr (Other e)
         | Ok error =>
           if js_truthy error then
             match rpc_message error "rpc error" with
             | Ok m => inr (JitoError rpc (text_of m) None)
             | Throw e => inr (Other e)
             end
           else match js_get "result" (Some body) with Ok v => inl v | Throw e => inr (Other e) end
         end
       end.

Definition rpc_headers (s : submitter) : list (string * string) :=
  ("content-type", "application/json")%string ::
  match authToken s with
  | Some t => if String.eqb t "" then [] else [("x-jito-auth"%string, t)]
  | None => []
  end.

(** [rpc]: the result, [undefined] included, or what it throws. *)
Definition jito_rpc (s : submitter) (method : string) (params : list json) : io W (option json + thrown) :=
  do! r <- io_try (so_fetch ops {| rq_url := url s +:+ "/api/v1/bundles"; rq_headers := rpc_headers s;
                                   rq_body := json_rpc (J_num 1) method params |}) in
  io_ret match r with
         | Throw e => inr (JitoError network e None)
         | Ok res => rpc_outcome res
         end.

(** The loop of [submitBundle]: [n] attempts are left, [last] is the last error. *)
Fixpoint submit_loop (n : nat) (s : submitter) (params : list json) (last : option thrown) : io W (option json + thrown) :=
  match n with
  | O => io_ret (inr (default (JitoError network "sendBundle failed with no error" None) last))
  | S n' =>
    do! r <- jito_rpc s "sendBundle" params in
    match r with
    | inl v => io_ret (inl v)
    | inr (JitoError client m st) => io_ret (inr (JitoError client m st))
    | inr e => submit_loop n' s params (Some e)
    end
  end.

Definition submitBundle (s : submitter) (txs : list signed_tx) (opt_retries : option Z) : io W (option json + thrown) :=
  if (length txs =? 0)%nat then io_ret (inr (Other "submitBundle: empty tx list"))
  else if (5 <? length txs)%nat then io_ret (inr (Other "submitBundle: max 5 txs per bundle"))
  else match serialize_all txs with
       | Throw e => io_ret (inr (Other e))
       | Ok raws => submit_loop (Z.to_nat (default (retries s) opt_retries + 1)) s [J_arr (map (fun r => J_str (bs58 r)) raws)] None
       end.

(** The first entry of a bundle status reply. *)
Definition status_entry (res : option json) : result (option json) :=
  let! value := js_get "value" res in Ok (js_first value).

Definition inflight_of (entry : option json) : result InflightBundleStatus :=
  if negb (js_truthy entry) then Ok Unknown
  else
    let! st := js_get "status" entry in
    match st with
    | Some (J_str s) =>
      if String.eqb s "Landed" then let! sl := js_get "slot" entry in Ok (Landed (js_or sl (J_num 0)))
      else if String.eqb s "Failed" then
        let! err := js_get "err" entry in
        let! msg := match err with None | Some J_null => Ok None | _ => js_get "msg" err end in
        Ok (Failed (js_or msg (J_str "unknown")))
      else if String.eqb s "Pending" || String.eqb s "Invalid" then Ok Pending
      else Ok Unknown
    | _ => Ok Unknown
    end.

Definition getInflightBundleStatus (s : submitter) (bundleId : string) : io W (InflightBundleStatus + thrown) :=
  do! r <- jito_rpc s "getInflightBundleStatuses" [J_arr [J_str bundleId]] in
  io_ret match r with
         | inl res =>
           match (let! e := status_entry res in inflight_of e) with
           | Ok st => inl st
           | Throw m => inr (JitoError network m None)
           end
         | inr (Other m) => inr (JitoError network m None)
         | inr e => inr e
         end.

(** Sends every transaction in turn; an error ends it. *)
Fixpoint send_each (txs : list signed_tx) : io W (list string) :=
  match txs with
  | [] => io_ret []
  | tx :: l =>
    do! raw <- io_lift tx in
    do! sig <- so_sendRaw ops raw in
    do! sigs <- send_each l in
    io_ret (sig :: sigs)
  end.

Record send_outcome := { bundleId : option json; signatures : option (list string); fallback : bool }.

Definition thrown_message (e : thrown) : string := match e with JitoError _ m _ => m | Other m => m end.

Definition submitBundleOrFallback (s : submitter) (txs : list signed_tx) (allowFallback has_sendRaw : bool) : io W send_outcome :=
  do! r <- submitBundle s txs None in
  match r with
  | inl id => io_ret {| bundleId := id; signatures := None; fallback := false |}
  | inr e =>
    if negb allowFallback || negb has_sendRaw then io_throw (thrown_message e)
    else do! sigs <- send_each txs in io_ret {| bundleId := None; signatures := Some sigs; fallback := true |}
  end.

(** ** client.ts: the older bundle client *)

Definition DEFAULT_BLOCK_ENGINE : string := "https://mainnet.block-engine.jito.wtf".

Definition new_JitoBundleClient (blockEngineUrl : string) (maxRetries : option Z) : submitter :=
  {| url := if String.eqb blockEngineUrl "" then DEFAULT_BLOCK_ENGINE else blockEngineUrl; retries := default 2 maxRetries;
     authToken := None |}.

Definition rpcCall (s : submitter) (method : string) (params : list json) : io W (option json) :=
  do! r <- so_fetch ops {| rq_url := url s +:+ "/api/v1/bundles"; rq_headers := [("content-type", "application/json")]%string;
                           rq_body := json_rpc (J_num 1) method params |} in
  if negb (res_ok r) then do! t <- io_lift (res_text r) in io_throw ("jito rpc " +:+ z_text (status r) +:+ ": " +:+ t)
  else
    do! body <- io_lift (res_json r) in
    do! error <- io_lift (js_get "error" (Some body)) in
    if js_truthy error then do! m <- io_lift (js_get "message" error) in
                            io_throw ("jito rpc error: " +:+ text_of (js_or m (J_str "undefined")))
    else io_lift (js_get "result" (Some body)).

Fixpoint bundle_loop (n : nat) (s : submitter) (params : list json) (last : string) : io W (option json) :=
  match n with
  | O => io_throw last
  | S n' => io_catch (rpcCall s "sendBundle" params) (fun e => bundle_loop n' s params e)
  end.

Definition sendBundle (s : submitter) (txs : list signed_tx) : io W (option json) :=
  do! raws <- io_lift (serialize_all txs) in
  bundle_loop (Z.to_nat (retries s + 1)) s [J_arr (map (fun r => J_str (bs58 r)) raws)] "null".

Inductive BundleStatus :=
| B_landed (slot : json)
| B_pending
| B_failed (reason : json).

Definition bundle_status_of (entry : option json) : result BundleStatus :=
  if negb (js_truthy entry) then Ok B_pending
  else
    let! st := js_get "status" entry in
    match st with
    | Some (J_str s) =>
      if String.eqb s "Landed" then let! sl := js_get "slot" entry in Ok (B_landed (js_or sl (J_num 0)))
      else if String.eqb s "Failed" then
        let! err := js_get "err" entry in
        let! msg := match err with None | Some J_null => Ok None | _ => js_get "msg" err end in
        Ok (B_failed (js_or msg (J_str "unknown")))
      else Ok B_pending
    | _ => Ok B_pending
    end.

Definition getBundleStatus (s : submitter) (id : string) : io W BundleStatus :=
  io_catch (do! res <- rpcCall s "getInflightBundleStatuses" [J_arr [J_str id]] in
            io_lift (let! e := status_entry res in bundle_status_of e)) (fun _ => io_ret B_pending).

(** [sendWithFallback]: the bundle's id is read inside the [try]. *)
Definition sendWithFallback (s : submitter) (txs : list signed_tx) (allowFallback : bool) : io W send_outcome :=
  io_catch (do! res <- sendBundle s txs in
            do! id <- io_lift (js_get "bundleId" res) in
            io_ret {| bundleId := id; signatures := None; fallback := false |})
    (fun _ => if negb allowFallback then io_throw "bundle failed and fallback disabled"
              else do! sigs <- send_each txs in io_ret {| bundleId := None; signatures := Some sigs; fallback := true |}).
End submit.

(** ** staked.ts: the estimate and the staked submitter *)

Definition level_text : Type := string.

Record PriorityFeeEstimate := { microLamports : Z; level : level_text }.

Record staked := { stakedUrl : string; has_fallback : bool; staked_retries : Z }.

Definition new_StakedRpcSubmitter (stakedUrl : string) (fallbackConnection : bool) (retries : option Z) : result staked :=
  if String.eqb stakedUrl "" then Throw "stakedUrl required"
  else Ok {| stakedUrl := stakedUrl; has_fallback := fallbackConnection; staked_retries := default 2 retries |}.

(** [SendOptions] and the [retries] of a call. *)
Record SubmitOptions := {
  skipPreflight : option bool;
  maxRetries : option Z;
  preflightCommitment : option string;
  opt_retries : option Z;
}.

Definition no_options : SubmitOptions :=
  {| skipPreflight := None; maxRetries := None; preflightCommitment := None; opt_retries := None |}.

Section staked.
Context {W : Type}.
Variable ops : submit_ops W.
Variable base64 : string -> string.

Definition getHeliusPriorityFeeEstimate (rpcUrl serializedTx : string) (lvl : level_text) : io W PriorityFeeEstimate :=
  let unavailable {A} (reason : string) : io W A := io_throw ("getPriorityFeeEstimate unavailable: " +:+ reason) in
  do! res <- so_fetch ops {| rq_url := rpcUrl; rq_headers := [("content-type", "application/json")]%string;
    rq_body := json_rpc (J_str "priority-fee") "getPriorityFeeEstimate"
      [J_obj [("transaction", J_str (base64 serializedTx));
              ("options", J_obj [("priorityLevel", J_str lvl); ("transactionEncoding", J_str "base64")])]]%string |} in
  if negb (res_ok res) then unavailable ("http " +:+ z_text (status res))
  else
    do! body <- io_lift (res_json res) in
    do! error <- io_lift (js_get "error" (Some body)) in
    if js_truthy error then do! m <- io_lift (rpc_message error "rpc error") in unavailable (text_of m)
    else
      do! r <- io_lift (js_get "result" (Some body)) in
      do! fee <- io_lift (match r with None | Some J_null => Ok None | _ => js_get "priorityFeeEstimate" r end) in
      match fee with
      | Some (J_num q) => io_ret {| microLamports := Z.max 0 (Qceiling q); level := lvl |}
      | _ => unavailable "missing priorityFeeEstimate"
      end.

(** The options of [sendTransaction]; [JSON.stringify] drops an undefined commitment. *)
Definition send_options (o : SubmitOptions) : json :=
  J_obj ([("encoding", J_str "base64"); ("skipPreflight", J_bool (default true (skipPreflight o)));
          ("maxRetries", J_num (inject_Z (default 0 (maxRetries o))))]%string ++
         match preflightCommitment o with Some c => [("preflightCommitment"%string, J_str c)] | None => [] end).

Definition rpcSend (s : staked) (raw : string) (o : SubmitOptions) : io W json :=
  do! res <- so_fetch ops {| rq_url := stakedUrl s; rq_headers := [("content-type", "application/json")]%string;
    rq_body := json_rpc (J_str "staked-send") "sendTransaction" [J_str (base64 raw); send_options o] |} in
  if negb (res_ok res) then do! t <- io_lift (res_text res) in io_throw ("staked rpc " +:+ z_text (status res) +:+ ": " +:+ t)
  else
    do! body <- io_lift (res_json res) in
    do! error <- io_lift (js_get "error" (Some body)) in
    if js_truthy error then do! m <- io_lift (rpc_message error "unknown") in io_throw ("staked rpc error: " +:+ text_of m)
    else
      do! r <- io_lift (js_get "result" (Some body)) in
      match r with
      | Some v => if js_truthy r then io_ret v else io_throw "staked rpc returned no signature"
      | None => io_throw "staked rpc returned no signature"
      end.

(** The loop of [sendRaw], then the fallback connection. *)
Fixpoint staked_loop (n : nat) (s : staked) (raw : string) (o : SubmitOptions) (last : string) : io W json :=
  match n with
  | O => if has_fallback s then do! sig <- so_sendRaw ops raw in io_ret (J_str sig) else io_throw last
  | S n' => do! r <- io_try (rpcSend s raw o) in
            match r with
            | Ok sig => io_ret sig
            | Throw e => staked_loop n' s raw o e
            end
  end.

Definition sendRaw (s : staked) (raw : string) (o : SubmitOptions) : io W json :=
  staked_loop (Z.to_nat (default (staked_retries s) (opt_retries o) + 1)) s raw o "staked submit failed".

Definition submit (s : staked) (tx : signed_tx) (o : SubmitOptions) : io W json :=
  do! raw <- io_lift tx in sendRaw s raw o.
End staked.
