(* ===== verification/SubmitSafety.v ===== *)
(** * SubmitSafety: how often and what the submitters send

    Theorems on Submit.  [sent_laws] is what a network operation does to the log of
    the requests sent: each call adds one entry, whether it succeeds or throws. *)

From Stdlib Require Import ZArith QArith Qround Lia.
From stdpp Require Import base list strings.
From S2P Require Import Prelude Effects Json Zod Submit.

Open Scope Z_scope.

(** ** Tips and fees *)

Lemma qceiling_mono (a b : Q) : (a <= b)%Q -> Qceiling a <= Qceiling b.
Proof. apply Qceiling_resp_le. Qed.

(** A tip lies between the floor and the cap (the floor wins when they cross); a
    payment limits it to its share or the floor; more is tipped for a higher
    market; and the tip computed for a bundle is at least the minimum and at most
    one percent of the payment or the minimum. *)
Theorem tips_bounded (tip tip' : option Q) (floor cap : Q) (amount pct recent : option Q) (payment : Z) :
  let lo := Z.max 0 (Qfloor floor) in
  let clamped t := clampTipLamports t floor cap amount pct in
  lo <= clamped tip <= Z.max lo (Qfloor cap) /\
  (forall a p, amount = Some a -> pct = Some p -> (0 < a)%Q -> (0 < p)%Q -> clamped tip <= Z.max lo (Qfloor (a * p))) /\
  (forall t t', tip = Some t -> tip' = Some t' -> (t <= t')%Q -> clamped tip <= clamped tip') /\
  TIP_FLOOR_LAMPORTS <= computeTip recent (Some payment) <= Z.max TIP_FLOOR_LAMPORTS (payment / 100) /\
  computeTip recent (Some payment) <= computeTip recent None.
Proof.
  cbv zeta. split_and!.
  - unfold clampTipLamports. cbv zeta. repeat case_match; lia.
  - unfold clampTipLamports. cbv zeta. repeat case_match; lia.
  - intros a p -> -> Ha Hp. unfold clampTipLamports. cbv zeta.
    rewrite (proj2 (q_ltb_lt 0 a) Ha), (proj2 (q_ltb_lt 0 p) Hp). cbn [andb]. lia.
  - intros t t' -> -> Ht. unfold clampTipLamports. cbv zeta.
    assert (Qceiling (if q_ltb t 0 then 0 else t) <= Qceiling (if q_ltb t' 0 then 0 else t')) as Hc.
    { apply qceiling_mono. destruct (q_ltb_spec t 0), (q_ltb_spec t' 0); [apply Qle_refl|done| |done].
      exfalso. apply (Qlt_irrefl 0). eapply Qle_lt_trans; [|exact H0]. by eapply Qle_trans. }
    apply Z.min_le_compat_r, Z.max_le_compat_r, Hc.
  - unfold computeTip, TIP_FLOOR_LAMPORTS. destruct recent as [q|]; [case_match|]; lia.
  - assert (Qfloor (inject_Z (payment * TIP_CAP_BPS) / 10000) = payment / 100) as E.
    { unfold TIP_CAP_BPS. rewrite <- (Z.div_mul_cancel_r payment 100 100) by lia. change (100 * 100) with 10000.
      unfold Qfloor, Qdiv, Qmult, Qinv, inject_Z. cbn [Qnum Qden]. f_equal; lia. }
    unfold computeTip. rewrite E. lia.
  - unfold computeTip. lia.
Qed.

Section fees.
Variable setComputeUnitLimit : Q -> result instruction.
Variable setComputeUnitPrice : Z -> result instruction.

(** web3.js builds compute-budget instructions, tagged 2 for the limit, 3 for the price. *)
Hypothesis limit_tag : forall u ix, setComputeUnitLimit u = Ok ix -> budget_tag ix = Some 2.
Hypothesis price_tag : forall m ix, setComputeUnitPrice m = Ok ix -> budget_tag ix = Some 3.

Lemma budget_app l1 l2 :
  has_limit (hasComputeBudgetIx (l1 ++ l2)) = has_limit (hasComputeBudgetIx l1) || has_limit (hasComputeBudgetIx l2) /\
  has_price (hasComputeBudgetIx (l1 ++ l2)) = has_price (hasComputeBudgetIx l1) || has_price (hasComputeBudgetIx l2).
Proof. unfold hasComputeBudgetIx. cbn [has_limit has_price]. by rewrite !existsb_app. Qed.

Lemma budget_singleton ix t : budget_tag ix = Some t ->
  has_limit (hasComputeBudgetIx [ix]) = bool_decide (t = 2) /\ has_price (hasComputeBudgetIx [ix]) = bool_decide (t = 3).
Proof. intros E. unfold hasComputeBudgetIx. cbn [has_limit has_price existsb]. rewrite E, !orb_false_r. split; by do 2 case_bool_decide; congruence. Qed.

(** What the call adds: at most one instruction of a kind, none if there is one. *)
Record added_ok (kind other : list instruction -> bool) (ixs added : list instruction) (wanted : Prop) : Prop := {
  ao_length : (length added <= 1)%nat;
  ao_other : other added = false;
  ao_new : added = [] \/ kind added = true /\ kind ixs = false;
  ao_wanted : wanted -> kind ixs || kind added = true;
}.

#[local] Abbreviation limits := (fun l => has_limit (hasComputeBudgetIx l)).
#[local] Abbreviation prices := (fun l => has_price (hasComputeBudgetIx l)).

Lemma limit_added ixs units l :
  (match units with Some u => if has_limit (hasComputeBudgetIx ixs) then Ok [] else
     result_bind (setComputeUnitLimit u) (fun ix => Ok [ix]) | None => Ok [] end) = Ok l ->
  added_ok limits prices ixs l (units <> None).
Proof.
  destruct units as [u|]; [|intros [= <-]; by constructor; auto].
  destruct (has_limit (hasComputeBudgetIx ixs)) eqn:Eh; [intros [= <-]; constructor; auto; by rewrite Eh|].
  destruct (setComputeUnitLimit u) as [ix|] eqn:E; [|done]. intros <-%ok_inj. apply limit_tag, budget_singleton in E as [E1 E2].
  constructor; rewrite ?E1, ?E2, ?Eh; auto.
Qed.

Lemma price_added ixs fee l :
  (if (0 <? fee) && negb (has_price (hasComputeBudgetIx ixs))
   then result_bind (setComputeUnitPrice fee) (fun ix => Ok [ix]) else Ok []) = Ok l ->
  added_ok prices limits ixs l (0 < fee).
Proof.
  destruct (Z.ltb_spec 0 fee); cbn [andb]; [|intros [= <-]; constructor; auto; lia].
  destruct (has_price (hasComputeBudgetIx ixs)) eqn:Eh; cbn [negb]; [intros [= <-]; constructor; auto; by rewrite Eh|].
  destruct (setComputeUnitPrice fee) as [ix|] eqn:E; [|done]. intros <-%ok_inj. apply price_tag, budget_singleton in E as [E1 E2].
  constructor; rewrite ?E1, ?E2, ?Eh; auto.
Qed.

(** A fee is added in front, at most one instruction of each kind and only where
    the transaction has none; a second call adds nothing. *)
Theorem priority_fee_once (ixs ixs' : list instruction) (fee : Z) (units : option Q)
  (H : withPriorityFee setComputeUnitLimit setComputeUnitPrice ixs fee units = Ok ixs') :
  withPriorityFee setComputeUnitLimit setComputeUnitPrice ixs' fee units = Ok ixs' /\
  exists added, ixs' = added ++ ixs /\ (length added <= 2)%nat /\
    (0 < fee -> has_price (hasComputeBudgetIx ixs') = true) /\
    (has_price (hasComputeBudgetIx ixs) = true -> has_price (hasComputeBudgetIx added) = false) /\
    (has_limit (hasComputeBudgetIx ixs) = true -> has_limit (hasComputeBudgetIx added) = false).
Proof.
  unfold withPriorityFee in H at 1. cbv zeta in H.
  match type of H with result_bind ?x _ = _ => destruct x as [limit|] eqn:E1; [|done] end. apply limit_added in E1 as [L1 L2 L3 L4].
  cbn [result_bind] in H. match type of H with result_bind ?x _ = _ => destruct x as [price|] eqn:E2; [|done] end.
  apply price_added in E2 as [P1 P2 P3 P4]. cbn [result_bind] in H. apply ok_inj in H. subst ixs'.
  destruct (budget_app limit (price ++ ixs)) as [HL HP]. destruct (budget_app price ixs) as [HL' HP'].
  rewrite HL', P2 in HL. rewrite HP', L2 in HP. cbn [orb] in HL, HP. destruct (budget_app limit price) as [GL GP].
  split.
  - unfold withPriorityFee. cbv zeta. rewrite HL, HP.
    assert ((0 <? fee) && negb (has_price (hasComputeBudgetIx price) || has_price (hasComputeBudgetIx ixs)) = false) as ->
      by (destruct (Z.ltb_spec 0 fee); [by rewrite orb_comm, P4|done]).
    destruct units as [u|]; [|done]. by rewrite orb_comm, L4.
  - exists (limit ++ price). rewrite <- app_assoc, GL, GP, L2, P2, orb_false_r. split_and!; [done|rewrite length_app; lia| | |].
    + intros Hf. rewrite HP, orb_comm. by apply P4.
    + intros Hx. by destruct P3 as [->|[_ P3]]; [|congruence].
    + intros Hx. by destruct L3 as [->|[_ L3]]; [|congruence].
Qed.
End fees.

(** ** Requests and raw sends *)

Section requests.
Context {W : Type}.
Variable ops : submit_ops W.
Variable bs58 : string -> string.
Variable base64 : string -> string.
Variable posts : W -> list http_request.
Variable raws : W -> list string.

Record sent_laws : Prop := {
  law_fetch : forall q w, exists r w', so_fetch ops q w = Some (r, w') /\ posts w' = posts w ++ [q] /\ raws w' = raws w;
  law_raw : forall raw w, exists r w', so_sendRaw ops raw w = Some (r, w') /\ posts w' = posts w /\ raws w' = raws w ++ [raw];
}.
Hypothesis laws : sent_laws.

(** A terminal answer ends the attempts: a result, or an error the client made. *)
Definition final (r : option json + thrown) : Prop :=
  match r with
  | inl _ => True
  | inr (JitoError client _ _) => True
  | inr _ => False
  end.

#[export] Instance final_dec r : Decision (final r).
Proof. unfold final. destruct r as [v|[[] m st|m]]; apply _. Defined.

Definition post_of (s : submitter) (method : string) (params : list json) : http_request :=
  {| rq_url := url s +:+ "/api/v1/bundles"; rq_headers := rpc_headers s; rq_body := json_rpc (J_num 1) method params |}.

Lemma jito_rpc_run s method params w : exists r w', jito_rpc ops s method params w = Some (Ok r, w') /\
  posts w' = posts w ++ [post_of s method params] /\ raws w' = raws w.
Proof.
  unfold jito_rpc, io_bind, io_try, io_ret. destruct (law_fetch laws (post_of s method params) w) as (r & w' & E & H).
  unfold post_of in E. rewrite E. by eexists _, w'.
Qed.

Lemma submit_loop_run n s params : forall last w, (forall e, last = Some e -> ~ final (inr e)) ->
  exists r w' k, submit_loop ops n s params last w = Some (Ok r, w') /\
    posts w' = posts w ++ repeat (post_of s "sendBundle" params) k /\ raws w' = raws w /\ (k <= n)%nat /\
    (final r -> (1 <= k)%nat) /\ (~ final r -> k = n).
Proof.
  induction n as [|n IH]; intros last w Hlast; cbn [submit_loop].
  - eexists _, w, O. split; [reflexivity|]. cbn [repeat]. rewrite app_nil_r. split_and!; try done.
    intros Hf. exfalso. destruct last as [e|]; [by apply (Hlast e)|done].
  - destruct (jito_rpc_run s "sendBundle" params w) as (r & w1 & E & P1 & R1). rewrite (bind_ok_run _ _ _ _ _ E).
    destruct (decide (final r)) as [Hf|Hn].
    + exists r, w1, 1%nat. split; [by destruct r as [v|[[] m st|m]]|]. split_and!; try done; lia.
    + destruct (IH (match r with inr e => Some e | inl _ => None end) w1) as (r' & w' & k & E' & P' & R' & K1 & K2 & K3).
      { intros e. destruct r as [v|e']; [done|]. by intros [= <-]. }
      exists r', w', (S k). split; [by destruct r as [v|[[] m st|m]]|]. rewrite P', P1, <- app_assoc. cbn [repeat app].
      split_and!; [done|congruence|lia|lia|]. intros Hx. f_equal. by apply K3.
Qed.

(** A bundle of one to five transactions is posted at most once per attempt, always
    the same request, and no more after a result or a client error; every other
    error has used all attempts.  Any other list posts nothing. *)
Theorem bundle_posts_bounded (s : submitter) (txs : list signed_tx) (opt_retries : option Z) (w : W) :
  exists r w' q k, submitBundle ops bs58 s txs opt_retries w = Some (Ok r, w') /\
    posts w' = posts w ++ repeat q k /\ raws w' = raws w /\ (k <= Z.to_nat (default (retries s) opt_retries + 1))%nat /\
    (final r -> (1 <= k)%nat) /\
    (~ final r -> k = Z.to_nat (default (retries s) opt_retries + 1) \/ k = O) /\
    ((length txs = 0 \/ 5 < length txs)%nat -> k = O).
Proof.
  assert (Hnone : forall e, exists r w' q k, Some (Ok (inr (Other e) : option json + thrown), w) = Some (Ok r, w') /\
    posts w' = posts w ++ repeat q k /\ raws w' = raws w /\ (k <= Z.to_nat (default (retries s) opt_retries + 1))%nat /\
    (final r -> (1 <= k)%nat) /\ (~ final r -> k = Z.to_nat (default (retries s) opt_retries + 1) \/ k = O) /\
    ((length txs = 0 \/ 5 < length txs)%nat -> k = O)).
  { intros e. exists (inr (Other e)), w, (post_of s "" []), O. cbn [repeat]. rewrite app_nil_r.
    split_and!; try done; [lia|by right]. }
  unfold submitBundle. destruct (Nat.eqb_spec (length txs) 0); [apply Hnone|].
  destruct (Nat.ltb_spec 5 (length txs)); [apply Hnone|]. destruct (serialize_all txs) as [l|e]; [|apply Hnone].
  match goal with |- context [submit_loop ops ?n s ?p None w] =>
    destruct (submit_loop_run n s p None w ltac:(done)) as (r & w' & k & E & H1 & H2 & H3 & H4 & H5);
    exists r, w', (post_of s "sendBundle" p), k; split; [exact E|] end.
  split_and!; try done; [intros Hf; left; by apply H5|lia].
Qed.

(** ** The fallback *)

Lemma send_each_run txs : forall w r w', send_each ops txs w = Some (r, w') ->
  posts w' = posts w /\ exists sent, raws w' = raws w ++ sent /\ sent `prefix_of` omap (fun t => match t with Ok x => Some x | Throw _ => None end) txs /\
    forall sigs, r = Ok sigs -> length sigs = length txs /\ txs = map Ok sent.
Proof.
  induction txs as [|tx txs IH]; cbn [send_each]; intros w r w' H.
  - apply io_ret_run in H as [-> <-]. split; [done|]. exists []. rewrite app_nil_r. split_and!; try done. by intros sigs <-%ok_inj.
  - destruct tx as [raw|e]; cbn [omap list_omap].
    2:{ injection H as <- <-. split; [done|]. exists []. rewrite app_nil_r. split_and!; [done|apply prefix_nil|done]. }
    unfold io_lift, io_bind at 1 in H. destruct (law_raw laws raw w) as (r1 & w1 & E1 & P1 & R1).
    apply io_bind_run in H as [(sig & w2 & E2 & H)|(e & E2 & ->)]; rewrite E1 in E2; injection E2 as -> ->.
    + apply io_bind_run in H as [(sigs & w3 & E3 & H)|(e & E3 & ->)].
      * apply IH in E3 as (P3 & sent & R3 & Hp & Hs). apply io_ret_run in H as [-> <-].
        split; [congruence|]. exists (raw :: sent). rewrite R3, R1, <- app_assoc. split_and!; [done|by apply prefix_cons|].
        intros l <-%ok_inj. destruct (Hs sigs eq_refl) as [Hl ->]. cbn. split; [by rewrite Hl|done].
      * apply IH in E3 as (P3 & sent & R3 & Hp & _). split; [congruence|]. exists (raw :: sent).
        rewrite R3, R1, <- app_assoc. split_and!; [done|by apply prefix_cons|done].
    + split; [done|]. exists [raw]. split_and!; [done|apply prefix_cons, prefix_nil|done].
Qed.

(** Posting a bundle sends nothing raw. *)
Definition no_raw (w w' : W) : Prop := raws w' = raws w.

#[export] Instance no_raw_refl : Reflexive no_raw.
Proof. by intros w. Qed.

#[export] Instance no_raw_trans : Transitive no_raw.
Proof. intros a b c. unfold no_raw. congruence. Qed.

Lemma fetch_quiet q : steps no_raw (so_fetch ops q).
Proof. intros w r w' H. destruct (law_fetch laws q w) as (r1 & w1 & E & _ & R). rewrite E in H. by injection H as _ <-. Qed.

#[local] Hint Resolve fetch_quiet : steps.

Lemma rpcCall_quiet s method params : steps no_raw (rpcCall ops s method params).
Proof.
  unfold rpcCall. apply steps_bind; [apply _|apply fetch_quiet|]. intros res.
  destruct (negb (res_ok res)); [eauto with steps typeclass_instances|].
  apply steps_bind; [apply _|apply steps_lift, _|]. intros body. apply steps_bind; [apply _|apply steps_lift, _|]. intros error.
  destruct (js_truthy error); eauto with steps typeclass_instances.
Qed.

Lemma bundle_loop_quiet n s params : forall last, steps no_raw (bundle_loop ops n s params last).
Proof.
  induction n as [|n IH]; intros last; cbn [bundle_loop]; [apply steps_throw, _|].
  apply steps_catch; [apply _|apply rpcCall_quiet|]. intros e. apply IH.
Qed.

Lemma sendBundle_quiet s txs : steps no_raw (sendBundle ops bs58 s txs).
Proof. unfold sendBundle. apply steps_bind; [apply _|apply steps_lift, _|]. intros l. apply bundle_loop_quiet. Qed.

Lemma submit_bundle_quiet s txs w : exists r w', submitBundle ops bs58 s txs None w = Some (Ok r, w') /\ raws w' = raws w.
Proof.
  unfold submitBundle. destruct (_ =? 0)%nat; [by eexists _, w|]. destruct (5 <? _)%nat; [by eexists _, w|].
  destruct (serialize_all txs); [|by eexists _, w].
  match goal with |- context [submit_loop ops ?n s ?p None w] =>
    destruct (submit_loop_run n s p None w ltac:(done)) as (r & w' & k & E & _ & R & _) end. by exists r, w'.
Qed.

(** What a call with a fallback may have sent raw. *)
Definition fallback_ok (txs : list signed_tx) (allow : bool) (w : W) (r : result send_outcome) (w' : W) : Prop :=
  exists sent, raws w' = raws w ++ sent /\ sent `prefix_of` omap (fun t => match t with Ok x => Some x | Throw _ => None end) txs /\
    match r with
    | Ok o => if fallback o then allow = true /\ txs = map Ok sent /\ exists sigs, signatures o = Some sigs /\ length sigs = length txs
              else sent = [] /\ signatures o = None
    | Throw _ => allow = false -> sent = []
    end.

Lemma fallback_sent txs w w1 r w' : raws w1 = raws w ->
  (do! sigs <- send_each ops txs in io_ret {| bundleId := None; signatures := Some sigs; fallback := true |})%saep w1 = Some (r, w') ->
  fallback_ok txs true w r w'.
Proof.
  intros R1 [(sigs & w2 & E & H2)|(e & E & ->)]%io_bind_run; apply send_each_run in E as (_ & sent & R & Hp & Hs); rewrite R1 in R.
  - apply io_ret_run in H2 as [-> <-]. exists sent. destruct (Hs sigs eq_refl) as [Hl Ht]. split_and!; try done. cbn. eauto.
  - by exists sent.
Qed.

Lemma fallback_unused txs allow w r w' : raws w' = raws w ->
  match r with Ok o => fallback o = false /\ signatures o = None | Throw _ => True end -> fallback_ok txs allow w r w'.
Proof.
  intros R1 Hr. exists []. rewrite app_nil_r. split_and!; [done|apply prefix_nil|]. destruct r as [o|e]; [|done].
  by destruct Hr as [-> ->].
Qed.

(** The fallback of both clients: a bundle that was taken sends nothing raw; a
    fallback that succeeds has sent every transaction exactly once, in order, and
    returns a signature for each; one that fails has sent a prefix: the bundle's
    all-or-nothing is lost. *)
Theorem fallback_sends_each_once (s : submitter) (txs : list signed_tx) (allow has : bool) (w w' : W) (r : result send_outcome) (old : bool)
  (H : (if old then sendWithFallback ops bs58 s txs allow else submitBundleOrFallback ops bs58 s txs allow has) w = Some (r, w')) :
  fallback_ok txs allow w r w'.
Proof.
  destruct old.
  - unfold sendWithFallback, io_catch in H.
    match type of H with match ?m ?w with _ => _ end = _ => destruct (m w) as [[[o|e] w1]|] eqn:E; [..|done] end.
    + injection H as <- <-. apply io_bind_ok in E as (res & w2 & E1 & E). apply io_bind_ok in E as (id & w3 & E2 & E).
      apply io_lift_ok in E2 as [_ ->]. apply io_ret_ok in E as [<- <-]. apply sendBundle_quiet in E1. by apply fallback_unused.
    + assert (raws w1 = raws w) as R1.
      { apply io_bind_run in E as [(res & w2 & E1 & E)|(e' & E1 & _)]; apply sendBundle_quiet in E1; [|done].
        apply io_bind_run in E as [(id & w3 & E2 & E)|(e' & E2 & _)]; [by apply io_ret_run in E as [[=] _]|].
        unfold io_lift in E2. by injection E2 as _ <-. }
      destruct allow; cbn [negb] in H; [by eapply fallback_sent|]. injection H as <- <-. by apply fallback_unused.
  - unfold submitBundleOrFallback in H. destruct (submit_bundle_quiet s txs w) as (o & w1 & E & R1).
    rewrite (bind_ok_run _ _ _ _ _ E) in H. destruct o as [v|e]; [injection H as <- <-; by apply fallback_unused|].
    destruct allow; cbn [negb orb] in H; [|injection H as <- <-; by apply fallback_unused].
    destruct has; cbn [negb] in H; [by eapply fallback_sent|]. injection H as <- <-. by apply fallback_unused.
Qed.

(** The block engine answers [sendBundle] with the bundle's id, a string.  The
    submitter returns it; the older client reads a field of the string and
    reports a bundle without an id, which it cannot ask about again. *)
Theorem client_loses_bundle_id (s : submitter) (tx id : string) (res : http_response) (w w1 w2 : W) (allow has : bool)
  (Hr : 0 <= retries s) (Hs : 200 <= status res < 300)
  (Hb : res_json res = Ok (J_obj [("jsonrpc", J_str "2.0"); ("id", J_num 1); ("result", J_str id)]%string))
  (Hnew : so_fetch ops (post_of s "sendBundle" [J_arr [J_str (bs58 tx)]]) w = Some (Ok res, w1))
  (Hold : so_fetch ops {| rq_url := url s +:+ "/api/v1/bundles"; rq_headers := [("content-type", "application/json")]%string;
                          rq_body := json_rpc (J_num 1) "sendBundle" [J_arr [J_str (bs58 tx)]] |} w = Some (Ok res, w2)) :
  submitBundleOrFallback ops bs58 s [Ok tx] allow has w =
    Some (Ok {| bundleId := Some (J_str id); signatures := None; fallback := false |}, w1) /\
  sendWithFallback ops bs58 s [Ok tx] allow w = Some (Ok {| bundleId := None; signatures := None; fallback := false |}, w2).
Proof.
  assert (exists n, Z.to_nat (retries s + 1) = S n) as [n En] by (exists (Z.to_nat (retries s)); lia).
  assert (res_ok res = true) as Hok by (unfold res_ok; rewrite andb_true_iff, Z.leb_le, Z.ltb_lt; lia).
  split.
  - unfold submitBundleOrFallback, submitBundle. cbn [length Nat.eqb Nat.ltb Nat.leb serialize_all result_bind default from_option map].
    rewrite En. cbn [submit_loop]. unfold jito_rpc, io_try, io_bind, io_ret. unfold post_of in Hnew. rewrite Hnew.
    unfold rpc_outcome. rewrite Hok, Hb. rewrite (proj2 (Z.eqb_neq _ _)) by lia. rewrite (proj2 (Z.leb_gt _ _)) by lia. reflexivity.
  - unfold sendWithFallback, sendBundle. cbn [serialize_all result_bind map]. rewrite En. cbn [bundle_loop].
    unfold io_catch, rpcCall, io_bind, io_lift, io_ret. cbn [map]. rewrite Hold, Hok. cbn [negb]. rewrite Hb. reflexivity.
Qed.

(** ** The staked submitter *)

Definition staked_post (s : staked) (raw : string) (o : SubmitOptions) : http_request :=
  {| rq_url := stakedUrl s; rq_headers := [("content-type", "application/json")]%string;
     rq_body := json_rpc (J_str "staked-send") "sendTransaction" [J_str (base64 raw); send_options o] |}.

Lemma rpcSend_run s raw o w : exists r w', rpcSend ops base64 s raw o w = Some (r, w') /\
  posts w' = posts w ++ [staked_post s raw o] /\ raws w' = raws w.
Proof.
  unfold rpcSend. fold (staked_post s raw o). destruct (law_fetch laws (staked_post s raw o) w) as (r & w' & E & P & R).
  destruct r as [res|e]; [|exists (Throw e), w'; unfold io_bind; by rewrite E].
  rewrite (bind_ok_run _ _ _ _ _ E). enough (exists r, forall k, k = w' -> (if negb (res_ok res) then _ else _) k = Some (r, k)) as [r Hr]
    by (exists r, w'; split; [by apply Hr|done]).
  unfold io_bind, io_lift, io_ret, io_throw. destruct (negb (res_ok res)); [destruct (res_text res); by eexists; intros k ->|].
  destruct (res_json res) as [body|e]; [|by eexists; intros k ->].
  destruct (js_get "error" (Some body)) as [error|e]; [|by eexists; intros k ->].
  destruct (js_truthy error); [destruct (rpc_message error "unknown"); by eexists; intros k ->|].
  destruct (js_get "result" (Some body)) as [[v|]|e]; [|by eexists; intros k ->..].
  destruct (js_truthy (Some v)); by eexists; intros k ->.
Qed.

Lemma staked_loop_run s raw o n : forall last w r w', staked_loop ops base64 n s raw o last w = Some (r, w') ->
  exists k, posts w' = posts w ++ repeat (staked_post s raw o) k /\ (k <= n)%nat /\
    (raws w' = raws w /\ (is_ok r = true -> (1 <= k)%nat) /\ (is_ok r = false -> k = n /\ has_fallback s = false) \/
     raws w' = raws w ++ [raw] /\ k = n /\ has_fallback s = true).
Proof.
  induction n as [|n IH]; intros last w r w' H; cbn [staked_loop] in H.
  - exists O. cbn [repeat]. rewrite app_nil_r. destruct (has_fallback s).
    + destruct (law_raw laws raw w) as (r1 & w1 & E1 & P1 & R1). unfold io_bind in H. rewrite E1 in H.
      destruct r1; injection H as <- <-; (split; [done|]; split; [done|]; by right).
    + injection H as <- <-. split; [done|]. split; [done|]. by left.
  - destruct (rpcSend_run s raw o w) as (r1 & w1 & E1 & P1 & R1). unfold io_bind at 1, io_try in H. rewrite E1 in H.
    destruct r1 as [v|e].
    + injection H as <- <-. exists 1%nat. cbn [repeat]. split; [done|]. split; [lia|]. left. split; [done|]. split; [lia|done].
    + apply IH in H as (k & P & K & H). exists (S k). cbn [repeat]. rewrite P, P1, <- app_assoc. rewrite R1 in H.
      split; [done|]. split; [lia|]. destruct H as [(H1 & H2 & H3)|(H1 & -> & H3)]; [left|by right].
      split; [done|]. split; [lia|]. intros Hx. destruct (H3 Hx) as [-> ?]. done.
Qed.

(** A transaction is posted at most once per attempt; the fallback connection gets
    it at most once, and only after every attempt has failed; a signature comes
    from the first attempt that gave one. *)
Theorem staked_sends_bounded (s : staked) (raw : string) (o : SubmitOptions) (w w' : W) (r : result json)
  (H : sendRaw ops base64 s raw o w = Some (r, w')) :
  let n := Z.to_nat (default (staked_retries s) (opt_retries o) + 1) in
  exists k, posts w' = posts w ++ repeat (staked_post s raw o) k /\ (k <= n)%nat /\
    (raws w' = raws w /\ (is_ok r = true -> (1 <= k)%nat) /\ (is_ok r = false -> k = n /\ has_fallback s = false) \/
     raws w' = raws w ++ [raw] /\ k = n /\ has_fallback s = true).
Proof. cbv zeta. unfold sendRaw in H. by apply staked_loop_run in H. Qed.
End requests.

(** ** A concrete network *)

Record net := { n_posts : list http_request; n_raws : list string; n_replies : list http_response }.

Definition net_ops : submit_ops net :=
  {| so_fetch := fun q n =>
       match n_replies n with
       | r :: l => Some (Ok r, {| n_posts := n_posts n ++ [q]; n_raws := n_raws n; n_replies := l |})
       | [] => Some (Throw "offline", {| n_posts := n_posts n ++ [q]; n_raws := n_raws n; n_replies := [] |})
       end;
     so_sendRaw := fun raw n => Some (Ok ("sig:" +:+ raw), {| n_posts := n_posts n; n_raws := n_raws n ++ [raw]; n_replies := n_replies n |}) |}%string.

Lemma net_laws : sent_laws net_ops n_posts n_raws.
Proof.
  constructor.
  - intros q w. cbn. destruct (n_replies w); by do 2 eexists.
  - intros raw w. by do 2 eexists.
Qed.

Definition answer (st : Z) (result : json) : http_response :=
  {| status := st; res_text := Ok ""; res_json := Ok (J_obj [("jsonrpc", J_str "2.0"); ("id", J_num 1); ("result", result)]) |}%string.

Definition engine : submitter := {| url := "https://engine"; retries := 2; authToken := None |}.
Definition offline : net := {| n_posts := []; n_raws := []; n_replies := [] |}.
Definition online : net := {| n_posts := []; n_raws := []; n_replies := [answer 200 (J_str "bundle")] |}.

Definition toy_limit (u : Q) : result instruction := Ok {| programId := COMPUTE_BUDGET_PROGRAM_ID; data := [2; 1] |}.
Definition toy_price (m : Z) : result instruction := Ok {| programId := COMPUTE_BUDGET_PROGRAM_ID; data := [3; m] |}.

Lemma priority_fee_once_witness :
  let tx := [{| programId := "app"; data := [] |}] in
  exists tx', withPriorityFee toy_limit toy_price tx 7 (Some 9%Q) = Ok tx' /\ withPriorityFee toy_limit toy_price tx' 7 (Some 9%Q) = Ok tx'.
Proof.
  cbv zeta. eexists. split; [reflexivity|].
  refine (proj1 (priority_fee_once toy_limit toy_price _ _ [{| programId := "app"; data := [] |}] _ 7 (Some 9%Q) _)).
  - intros u ix H. injection H as <-. reflexivity.
  - intros m ix H. injection H as <-. reflexivity.
  - reflexivity.
Defined.

Lemma bundle_posts_bounded_witness :
  exists r w', submitBundle net_ops (fun x => x) engine [Ok "tx"%string] None offline = Some (Ok r, w') /\ length (n_posts w') = 3%nat.
Proof.
  destruct (bundle_posts_bounded net_ops (fun x => x) n_posts n_raws net_laws engine [Ok "tx"%string] None offline)
    as (r & w' & q & k & E & H1 & _ & _ & _ & _ & _).
  exists r, w'. split; [exact E|]. vm_compute in E. injection E as _ <-. reflexivity.
Defined.

(** With the engine down, both transactions go out one by one. *)
Lemma fallback_sends_each_once_witness :
  exists o w', submitBundleOrFallback net_ops (fun x => x) engine [Ok "a"; Ok "b"]%string true true offline = Some (Ok o, w') /\
    fallback_ok n_raws [Ok "a"; Ok "b"]%string true offline (Ok o) w' /\ n_raws w' = ["a"; "b"]%string.
Proof.
  destruct (submitBundleOrFallback net_ops (fun x => x) engine [Ok "a"; Ok "b"]%string true true offline) as [[[o|e] w']|] eqn:E;
    [|vm_compute in E; discriminate E..].
  exists o, w'. split; [reflexivity|]. split.
  - exact (fallback_sends_each_once net_ops (fun x => x) n_posts n_raws net_laws engine _ true true offline w' (Ok o) false E).
  - vm_compute in E. injection E as _ <-. reflexivity.
Defined.

Lemma client_loses_bundle_id_witness :
  exists w1 w2, submitBundleOrFallback net_ops (fun x => x) engine [Ok "tx"%string] true true online =
      Some (Ok {| bundleId := Some (J_str "bundle"); signatures := None; fallback := false |}, w1) /\
    sendWithFallback net_ops (fun x => x) engine [Ok "tx"%string] true online =
      Some (Ok {| bundleId := None; signatures := None; fallback := false |}, w2).
Proof.
  do 2 eexists.
  apply (client_loses_bundle_id net_ops (fun x => x) engine "tx" "bundle" (answer 200 (J_str "bundle")) online _ _ true true).
  - vm_compute. discriminate.
  - split; vm_compute; [discriminate|reflexivity].
  - reflexivity.
  - reflexivity.
  - reflexivity.
Defined.

Lemma staked_sends_bounded_witness :
  let s := {| stakedUrl := "https://staked"; has_fallback := true; staked_retries := 1 |} in
  exists r w', sendRaw net_ops (fun x => x) s "tx" no_options offline = Some (r, w') /\ length (n_posts w') = 2%nat /\ n_raws w' = ["tx"%string].
Proof.
  cbv zeta.
  destruct (sendRaw net_ops (fun x => x) {| stakedUrl := "https://staked"; has_fallback := true; staked_retries := 1 |} "tx" no_options offline)
    as [[r w']|] eqn:E; [|vm_compute in E; discriminate E].
  exists r, w'. split; [reflexivity|].
  destruct (staked_sends_bounded net_ops (fun x => x) n_posts n_raws net_laws _ _ _ _ _ _ E) as (k & _ & _ & _).
  vm_compute in E. injection E as _ <-. split; reflexivity.
Defined.
