(* ===== verification/SendTx.v ===== *)
(** * SendTx: the SDK's transaction hook

    Models packages/sdk-ui/src/hooks/mutation.ts: the mutation function of
    [useSendTransaction] (build, fee, simulate, send, confirm) and its optimistic
    updates, snapshots and rollback.  The wallet and the RPC node are operations of
    the outside world; TanStack's query cache is an interface ([query_client])
    with its documented laws.  The snapshot maps are shared objects: they live in a
    store, and [snapshotsRef] holds the name of one.

    The theorems: what reaches the network has been simulated first; a failed mutation
    restores the queries it changed, under the conditions this takes; and the cases in
    which it does not. *)

From Stdlib Require Import ZArith QArith Ascii Lia.
From stdpp Require Import base list strings.
From S2P Require Import Prelude Effects JsMap Zod Submit SubmitSafety.

Open Scope Z_scope.
Open Scope saep_scope.

(** ** Sending *)

Record transaction := { instructions : list instruction; recentBlockhash : string; feePayer : string }.

Record simulated := { sim_err : option json; sim_logs : option (list string); sim_units : option Q }.

Record SimulationResult := { sim_slot : Z; unitsConsumed : option Q; logs : list string }.

Record PriorityFeeConfig := {
  cfg_microLamports : option Q;
  estimateUrl : option string;
  cfg_level : option string;
  cuLimit : option Q;
  cap : option Q;
  floor : option Q;
}.

Definition auto_config : PriorityFeeConfig :=
  {| cfg_microLamports := None; estimateUrl := None; cfg_level := None; cuLimit := None; cap := None; floor := None |}.

Record wallet_ops (W : Type) := {
  wo_submit : submit_ops W;
  wo_latestBlockhash : io W (string * Z);
  wo_simulate : transaction -> io W simulated;
  wo_sendTransaction : transaction -> io W string;    (* the wallet signs and sends *)
  wo_sign : transaction -> io W signed_tx;            (* signTransaction *)
  wo_confirm : string -> string -> Z -> io W (option json);
}.
Arguments wo_submit {W} _.
Arguments wo_latestBlockhash {W} _ _.
Arguments wo_simulate {W} _ _ _.
Arguments wo_sendTransaction {W} _ _ _.
Arguments wo_sign {W} _ _ _.
Arguments wo_confirm {W} _ _ _ _ _.

Definition parseSimulation (r : simulated) : SimulationResult :=
  {| sim_slot := 0; unitsConsumed := sim_units r; logs := default [] (sim_logs r) |}.

Definition newline : string := String (ascii_of_nat 10) EmptyString.

Section send.
Context {W : Type}.
Variable ops : wallet_ops W.
Variable base64 : string -> string.
Variable setComputeUnitLimit : Q -> result instruction.
Variable setComputeUnitPrice : Z -> result instruction.
Variable serialize_unsigned : transaction -> result string.
Variable json_text : json -> string.
Variable rpcEndpoint : option string.

Definition simulateAndSend (tx : transaction) (can_sign : bool) (submitter : option staked) : io W (json * SimulationResult) :=
  do! sim <- wo_simulate ops tx in
  if js_truthy (sim_err sim)
  then io_throw ("Transaction simulation failed: " +:+ json_text (js_or (sim_err sim) J_null) +:+ newline +:+
                  match sim_logs sim with Some l => String.concat newline l | None => "" end)
  else
    do! signature <- match submitter, can_sign with
                     | Some s, true => do! signed <- wo_sign ops tx in submit (wo_submit ops) base64 s signed no_options
                     | _, _ => do! sig <- wo_sendTransaction ops tx in io_ret (J_str sig)
                     end in
    io_ret (signature, parseSimulation sim).

Definition with_instructions (tx : transaction) (ixs : list instruction) : transaction :=
  {| instructions := ixs; recentBlockhash := recentBlockhash tx; feePayer := feePayer tx |}.

(** The fee the configuration asks for; an estimate that fails counts as zero. *)
Definition fee_of (tx : transaction) (cfg : PriorityFeeConfig) : io W (option Q) :=
  match cfg_microLamports cfg with
  | Some m => io_ret (Some m)
  | None =>
    match (match estimateUrl cfg with Some u => Some u | None => rpcEndpoint end) with
    | Some (String _ _ as url) =>
      do! est <- io_try (do! raw <- io_lift (serialize_unsigned tx) in
                         getHeliusPriorityFeeEstimate (wo_submit ops) base64 url raw (default "Medium"%string (cfg_level cfg))) in
      io_ret (Some match est with Ok e => inject_Z (microLamports e) | Throw _ => 0%Q end)
    | _ => io_ret None
    end
  end.

(** [applyPriorityFee]: the transaction is changed in place. *)
Definition applyPriorityFee (tx : transaction) (config : option PriorityFeeConfig) : io W transaction :=
  match config with
  | None => io_ret tx
  | Some cfg =>
    do! fee <- fee_of tx cfg in
    match fee with
    | None => io_ret tx
    | Some q =>
      let m := clampPriorityFee q (floor cfg) (cap cfg) in
      if (0 <? m) || match cuLimit cfg with Some _ => true | None => false end
      then do! ixs <- io_lift (withPriorityFee setComputeUnitLimit setComputeUnitPrice (instructions tx) m (cuLimit cfg)) in
           io_ret (with_instructions tx ixs)
      else io_ret tx
    end
  end.

(** [mutationFn]: [build] is [opts.buildInstruction], its result a list. *)
Definition mutationFn (publicKey : option string) (build : io W (list instruction)) (config : option PriorityFeeConfig)
    (can_sign : bool) (submitter : option staked) : io W (json * SimulationResult) :=
  match publicKey with
  | None => io_throw "Wallet not connected"
  | Some payer =>
    do! ixs <- build in
    do! bh <- wo_latestBlockhash ops in
    do! tx <- applyPriorityFee {| instructions := ixs; recentBlockhash := bh.1; feePayer := payer |} config in
    do! r <- simulateAndSend tx can_sign submitter in
    do! _ <- wo_confirm ops (match r.1 with J_str s => s | _ => "" end) bh.1 bh.2 in
    io_ret r
  end.
End send.

(** ** The optimistic cache *)

(** TanStack's query cache: [setQueryData] with [undefined] does nothing. *)
Record query_client (C D : Type) := {
  getQueryData : C -> string -> option D;
  setQueryData : C -> string -> option D -> C;
}.
Arguments getQueryData {C D} _ _ _.
Arguments setQueryData {C D} _ _ _ _.

Record query_laws {C D} (qc : query_client C D) : Prop := {
  law_set_eq : forall c k d, getQueryData qc (setQueryData qc c k (Some d)) k = Some d;
  law_set_ne : forall c k k' v, k' <> k -> getQueryData qc (setQueryData qc c k v) k' = getQueryData qc c k';
  law_set_undefined : forall c k, setQueryData qc c k None = c;
}.

Section optimistic.
Context {C D : Type}.
Variable qc : query_client C D.

(** An update of one query; the updater may give [undefined]. *)
Record OptimisticUpdate := { queryKey : string; updater : option D -> option D }.

Definition snapshot_map : Type := list (string * option D).

(** The hook's state: the cache, the snapshot objects made, the one [snapshotsRef]
    names. *)
Record hook := { cache : C; objects : list snapshot_map; snapshotsRef : nat }.

(** [onMutate] up to its loop: a new object, named by the ref. *)
Definition begin_mutation (h : hook) : nat * hook :=
  (length (objects h), {| cache := cache h; objects := objects h ++ [[]]; snapshotsRef := length (objects h) |}).

(** One round of the loop, for the object the closure holds. *)
Definition optimistic_update (object : nat) (u : OptimisticUpdate) (h : hook) : hook :=
  let prev := getQueryData qc (cache h) (queryKey u) in
  {| cache := setQueryData qc (cache h) (queryKey u) (updater u prev);
     objects := alter (map_set (queryKey u) prev) object (objects h); snapshotsRef := snapshotsRef h |}.

Definition onMutate (updates : list OptimisticUpdate) (h : hook) : hook :=
  let '(object, h') := begin_mutation h in fold_left (fun h u => optimistic_update object u h) updates h'.

Definition current (h : hook) : snapshot_map := default [] (objects h !! snapshotsRef h).

Definition rollback (snapshots : snapshot_map) (c : C) : C :=
  fold_left (fun c kv => setQueryData qc c kv.1 kv.2) snapshots c.

Definition onError (h : hook) : hook :=
  {| cache := rollback (current h) (cache h); objects := objects h; snapshotsRef := snapshotsRef h |}.

(** [snapshotsRef.current.clear()] *)
Definition onSettled (h : hook) : hook :=
  {| cache := cache h; objects := <[snapshotsRef h := []]> (objects h); snapshotsRef := snapshotsRef h |}.
End optimistic.

(** ** What the transaction hook sends, and when a rollback restores *)

Section optimistic.
Context {C D : Type}.
Variable qc : query_client C D.
Hypothesis laws : query_laws qc.

#[local] Abbreviation get := (getQueryData qc).

(** Two caches that no query can tell apart. *)
Definition same_data (c c' : C) : Prop := forall k, get c' k = get c k.

#[export] Instance same_data_equiv : Equivalence same_data.
Proof. split; unfold same_data; [done|congruence|intros a b c H1 H2 k; by rewrite H2, H1]. Qed.

#[export] Instance set_proper k v : Proper (same_data ==> same_data) (fun c => setQueryData qc c k v).
Proof.
  intros c c' H x. destruct v as [d|]; [|by rewrite !(law_set_undefined _ laws)].
  destruct (decide (x = k)) as [->|Hne]; [by rewrite !(law_set_eq _ laws)|]. by rewrite !(law_set_ne _ laws).
Qed.

(** What the loop of [onMutate] leaves: for queries with distinct keys the
    snapshot of each is its data before. *)
Lemma updates_spec (us : list (OptimisticUpdate (D := D))) : forall (h : hook) object m, objects h !! object = Some m ->
  NoDup (map queryKey us) -> (forall u, u ∈ us -> queryKey u ∉ m.*1) ->
  let h' := fold_left (fun h u => optimistic_update qc object u h) us h in
  snapshotsRef h' = snapshotsRef h /\
  objects h' !! object = Some (m ++ map (fun u => (queryKey u, get (cache h) (queryKey u))) us) /\
  (forall k, k ∉ map queryKey us -> get (cache h') k = get (cache h) k) /\
  (forall u, u ∈ us -> get (cache h') (queryKey u) = match updater u (get (cache h) (queryKey u)) with
                                                  | Some d => Some d | None => get (cache h) (queryKey u) end).
Proof.
  induction us as [|u us IH]; intros h object m Hm Hn Hk; cbn [fold_left map].
  - rewrite app_nil_r. split_and!; try done. by intros u ?%elem_of_nil.
  - cbn [map] in Hn. apply NoDup_cons in Hn as [Hu Hn].
    assert (Hkm : queryKey u ∉ m.*1) by (apply Hk; by left).
    set (h1 := optimistic_update qc object u h).
    assert (Hm1 : objects h1 !! object = Some (m ++ [(queryKey u, get (cache h) (queryKey u))])).
    { unfold h1, optimistic_update. cbn [objects]. etransitivity; [apply list_lookup_alter_eq|]. unfold snapshot_map in Hm. rewrite Hm. cbn. f_equal. apply map_set_new. by apply map_get_None. }
    assert (Hother : forall k, k <> queryKey u -> get (cache h1) k = get (cache h) k).
    { intros k Hne. unfold h1, optimistic_update. cbn [cache]. by apply (law_set_ne _ laws). }
    assert (Hself : get (cache h1) (queryKey u) = match updater u (get (cache h) (queryKey u)) with
        Some d => Some d | None => get (cache h) (queryKey u) end).
    { unfold h1, optimistic_update. cbn [cache]. destruct (updater u _) as [d|].
      - apply (law_set_eq _ laws). - by rewrite (law_set_undefined _ laws). }
    destruct (IH h1 object _ Hm1 Hn) as (I1 & I2 & I3 & I4).
    { intros v Hv. rewrite fmap_app, not_elem_of_app. split; [apply Hk; by right|].
      intros E%list_elem_of_singleton. cbn in E. apply Hu. rewrite <- E. by apply list_elem_of_fmap_2. }
    split_and!; [by rewrite I1| | |].
    + rewrite I2, <- app_assoc. cbn [app]. do 3 f_equal. apply map_ext_in. intros v Hv%list_elem_of_In. f_equal. apply Hother.
      intros E. apply Hu. rewrite <- E. by apply list_elem_of_fmap_2.
    + intros k [H1 H2]%not_elem_of_cons. rewrite I3 by done. by apply Hother.
    + intros v [->|Hv]%elem_of_cons; [by rewrite I3|]. rewrite I4 by done.
      rewrite Hother; [done|]. intros E. apply Hu. rewrite <- E. by apply list_elem_of_fmap_2.
Qed.

Lemma rollback_get (sn : snapshot_map) : forall c k, NoDup sn.*1 ->
  get (rollback qc sn c) k = match map_get k sn with Some (Some d) => Some d | _ => get c k end.
Proof.
  unfold rollback. induction sn as [|[k0 v] sn IH]; intros c k Hn; cbn [fold_left map_get]; [done|].
  rewrite fmap_cons in Hn. apply NoDup_cons in Hn as [Hk Hn]. rewrite IH by done. cbn [fst snd].
  destruct (decide (k = k0)) as [->|Hne].
  - assert (map_get k0 sn = None) as -> by by apply map_get_None. destruct v as [d|]; [apply (law_set_eq _ laws)|].
    by rewrite (law_set_undefined _ laws).
  - destruct (map_get k sn) as [[d|]|]; try done; by apply (law_set_ne _ laws).
Qed.

Lemma snapshot_get (us : list (OptimisticUpdate (D := D))) c k : NoDup (map queryKey us) ->
  map_get k (map (fun u => (queryKey u, get c (queryKey u))) us) = if decide (k ∈ map queryKey us) then Some (get c k) else None.
Proof.
  induction us as [|u us IH]; cbn [map map_get]; intros Hn; [by rewrite decide_False by apply not_elem_of_nil|].
  apply NoDup_cons in Hn as [Hu Hn]. destruct (decide (k = queryKey u)) as [->|Hne].
  - rewrite decide_True; [done|by left].
  - rewrite IH by done. by destruct (decide (k ∈ map queryKey us)) as [H|H];
      [rewrite decide_True by (by right)|rewrite decide_False by (by intros [?|?]%elem_of_cons)].
Qed.

(** A mutation that fails restores every query it changed that had data before,
    and touches no other; a query that had none keeps the optimistic value, since
    the cache ignores [undefined]. *)
Theorem rollback_restores (us : list (OptimisticUpdate (D := D))) (h : hook (C := C)) (Hn : NoDup (map queryKey us)) :
  let after := cache (onError qc (onMutate qc us h)) in
  (forall k, k ∉ map queryKey us \/ get (cache h) k <> None -> get after k = get (cache h) k) /\
  (forall u, u ∈ us -> get (cache h) (queryKey u) = None -> get after (queryKey u) = updater u None).
Proof.
  cbv zeta. unfold onError, onMutate, begin_mutation. cbn [cache].
  set (h0 := {| cache := cache h; objects := objects h ++ [[]]; snapshotsRef := length (objects h) |}).
  assert (Ho : objects h0 !! length (objects h) = Some []) by (apply list_lookup_middle; done).
  destruct (updates_spec us h0 _ [] Ho Hn ltac:(intros u _; apply not_elem_of_nil)) as (H1 & H2 & H3 & H4).
  set (h1 := fold_left _ us h0) in *. unfold current. rewrite H1. cbn [snapshotsRef h0]. rewrite H2. cbn [app default from_option id].
  assert (Hsn : NoDup (map (fun u => (queryKey u, get (cache h0) (queryKey u))) us).*1).
  { rewrite <- list_fmap_compose. exact Hn. }
  split.
  - intros k Hk. rewrite rollback_get by exact Hsn. rewrite snapshot_get by done. cbn [cache h0].
    destruct (decide (k ∈ map queryKey us)) as [Hin|Hin]; [|by apply H3].
    destruct Hk as [Hk|Hk]; [done|]. by destruct (get (cache h) k).
  - intros u Hu Hnone. rewrite rollback_get by exact Hsn. rewrite snapshot_get by done. cbn [cache h0].
    rewrite decide_True by by apply list_elem_of_fmap_2. rewrite Hnone, (H4 u Hu). cbn [cache h0]. rewrite Hnone. by destruct (updater u None).
Qed.

Lemma onMutate_one u (h : hook (C := C)) :
  onMutate qc [u] h = {| cache := setQueryData qc (cache h) (queryKey u) (updater u (get (cache h) (queryKey u)));
                         objects := objects h ++ [[(queryKey u, get (cache h) (queryKey u))]]; snapshotsRef := length (objects h) |}.
Proof.
  unfold onMutate, begin_mutation. cbn [fold_left optimistic_update cache objects snapshotsRef]. unfold optimistic_update.
  cbn [cache objects snapshotsRef]. f_equal. induction (objects h) as [|x l IH]; cbn; [done|]. f_equal. exact IH.
Qed.

(** Two overlapping mutations of one query that both fail: the first to fail rolls
    back from the second's snapshot and its end clears it, so the first's
    optimistic value stays for good. *)
Theorem overlapping_rollback_keeps_failed_update (u1 u2 : OptimisticUpdate (D := D)) (h : hook (C := C)) (d0 d1 d2 : D)
  (Hk : queryKey u2 = queryKey u1) (H0 : get (cache h) (queryKey u1) = Some d0)
  (H1 : updater u1 (Some d0) = Some d1) (H2 : updater u2 (Some d1) = Some d2) :
  let started := onMutate qc [u2] (onMutate qc [u1] h) in
  let first_failed := onSettled (onError qc started) in
  let both_failed := onSettled (onError qc first_failed) in
  get (cache both_failed) (queryKey u1) = Some d1.
Proof.
  cbv zeta. rewrite !onMutate_one. cbn [cache objects snapshotsRef]. rewrite Hk, H0, H1, (law_set_eq _ laws), H2.
  assert (Hc : forall (l : list (snapshot_map (D := D))) x, <[length l := []]> (l ++ [x]) !! length l = Some ([] : snapshot_map (D := D))).
  { intros l x. apply list_lookup_insert_eq. rewrite length_app. cbn. lia. }
  unfold onSettled, onError, current. cbn [cache objects snapshotsRef].
  rewrite Hc. rewrite (list_lookup_middle _ [] _ _ eq_refl). cbn. apply (law_set_eq _ laws).
Qed.

(** One mutation that updates the same query twice remembers the second snapshot:
    a rollback leaves the first update. *)
Theorem repeated_query_rollback (u1 u2 : OptimisticUpdate (D := D)) (h : hook (C := C)) (d0 d1 d2 : D)
  (Hk : queryKey u2 = queryKey u1) (H0 : get (cache h) (queryKey u1) = Some d0)
  (H1 : updater u1 (Some d0) = Some d1) (H2 : updater u2 (Some d1) = Some d2) :
  get (cache (onError qc (onMutate qc [u1; u2] h))) (queryKey u1) = Some d1.
Proof.
  unfold onError, onMutate, begin_mutation. cbn [fold_left]. unfold optimistic_update at 1 2. cbn [cache objects snapshotsRef].
  rewrite Hk, H0, H1, (law_set_eq _ laws), H2. unfold current. cbn [cache objects snapshotsRef].
  assert (forall l : list (snapshot_map (D := D)), alter (map_set (queryKey u1) (Some d1)) (length l)
    (alter (map_set (queryKey u1) (Some d0)) (length l) (l ++ [[]])) !! length l = Some [(queryKey u1, Some d1)]) as ->.
  { intros l. induction l as [|x l IH]; [|exact IH]. cbn. by rewrite decide_True. }
  cbn. apply (law_set_eq _ laws).
Qed.
End optimistic.

(** ** What the wallet is asked *)

(** A simulation with its error, or a transaction handed to the wallet. *)
Inductive wallet_event :=
| E_simulated (tx : transaction) (failed : bool)
| E_wallet (tx : transaction).

Section asked.
Context {W : Type}.
Variable ops : wallet_ops W.
Variable base64 : string -> string.
Variable setComputeUnitLimit : Q -> result instruction.
Variable setComputeUnitPrice : Z -> result instruction.
Variable serialize_unsigned : transaction -> result string.
Variable json_text : json -> string.
Variable rpcEndpoint : option string.
Variable asked : W -> list wallet_event.

Definition unasked (w w' : W) : Prop := asked w' = asked w.

#[export] Instance unasked_refl : Reflexive unasked.
Proof. by intros w. Qed.

#[export] Instance unasked_trans : Transitive unasked.
Proof. intros a b c. unfold unasked. congruence. Qed.

Record wallet_laws : Prop := {
  law_wfetch : forall q, steps unasked (so_fetch (wo_submit ops) q);
  law_wraw : forall raw, steps unasked (so_sendRaw (wo_submit ops) raw);
  law_blockhash : steps unasked (wo_latestBlockhash ops);
  law_confirm : forall sig bh h, steps unasked (wo_confirm ops sig bh h);
  law_simulate : forall tx w r w', wo_simulate ops tx w = Some (r, w') ->
    asked w' = asked w ++ [E_simulated tx (match r with Ok s => js_truthy (sim_err s) | Throw _ => true end)];
  law_send : forall tx w r w', wo_sendTransaction ops tx w = Some (r, w') -> asked w' = asked w ++ [E_wallet tx];
  law_sign : forall tx w r w', wo_sign ops tx w = Some (r, w') -> asked w' = asked w ++ [E_wallet tx];
}.
Hypothesis laws : wallet_laws.

#[local] Hint Resolve law_wfetch law_wraw law_blockhash law_confirm : steps.

Lemma steps_try {A} (m : io W A) : steps unasked m -> steps unasked (io_try m).
Proof.
  intros H w r w' E. unfold io_try in E. destruct (m w) as [[r1 w1]|] eqn:Em; [|done]. injection E as <- <-. by eapply H.
Qed.

Lemma rpcSend_unasked s raw o : steps unasked (rpcSend (wo_submit ops) base64 s raw o).
Proof.
  unfold rpcSend. apply steps_bind; [apply _|by apply (law_wfetch laws)|]. intros res.
  destruct (negb (res_ok res)); [eauto with steps typeclass_instances|].
  apply steps_bind; [apply _|apply steps_lift, _|]. intros body. apply steps_bind; [apply _|apply steps_lift, _|]. intros error.
  destruct (js_truthy error); [eauto with steps typeclass_instances|].
  apply steps_bind; [apply _|apply steps_lift, _|]. intros [v|]; [destruct (js_truthy (Some v))|]; eauto with steps typeclass_instances.
Qed.

Lemma staked_loop_unasked s raw o n : forall last, steps unasked (staked_loop (wo_submit ops) base64 n s raw o last).
Proof.
  induction n as [|n IH]; intros last; cbn [staked_loop].
  - destruct (has_fallback s); [|apply steps_throw, _]. apply steps_bind; [apply _|by apply (law_wraw laws)|]. intros sig. apply steps_ret, _.
  - apply steps_bind; [apply _|apply steps_try, rpcSend_unasked|]. intros [sig|e]; [apply steps_ret, _|apply IH].
Qed.

Lemma submit_unasked s tx : steps unasked (submit (wo_submit ops) base64 s tx no_options).
Proof. unfold submit. apply steps_bind; [apply _|apply steps_lift, _|]. intros raw. apply staked_loop_unasked. Qed.

Lemma estimate_unasked u raw lvl : steps unasked (getHeliusPriorityFeeEstimate (wo_submit ops) base64 u raw lvl).
Proof.
  unfold getHeliusPriorityFeeEstimate. cbv zeta. apply steps_bind; [apply _|by apply (law_wfetch laws)|]. intros res.
  destruct (negb (res_ok res)); [apply steps_throw, _|].
  apply steps_bind; [apply _|apply steps_lift, _|]. intros body. apply steps_bind; [apply _|apply steps_lift, _|]. intros error.
  destruct (js_truthy error); [eauto with steps typeclass_instances|].
  apply steps_bind; [apply _|apply steps_lift, _|]. intros r. apply steps_bind; [apply _|apply steps_lift, _|].
  intros [[]|]; eauto with steps typeclass_instances.
Qed.

Lemma fee_unasked tx cfg : steps unasked (fee_of ops base64 serialize_unsigned rpcEndpoint tx cfg).
Proof.
  unfold fee_of. destruct (cfg_microLamports cfg); [apply steps_ret, _|].
  destruct (match estimateUrl cfg with Some u => Some u | None => rpcEndpoint end) as [[|c u]|]; try apply steps_ret, _.
  apply steps_bind; [apply _| |intros est; apply steps_ret, _]. apply steps_try.
  apply steps_bind; [apply _|apply steps_lift, _|]. intros raw. apply estimate_unasked.
Qed.

(** A fee only adds instructions in front. *)
Lemma apply_fee_run tx config w r w' :
  applyPriorityFee ops base64 setComputeUnitLimit setComputeUnitPrice serialize_unsigned rpcEndpoint tx config w = Some (r, w') ->
  asked w' = asked w /\ forall tx', r = Ok tx' -> feePayer tx' = feePayer tx /\ recentBlockhash tx' = recentBlockhash tx /\
    exists added, instructions tx' = added ++ instructions tx.
Proof.
  unfold applyPriorityFee. destruct config as [cfg|].
  2:{ intros [-> <-]%io_ret_run. split; [done|]. intros tx' <-%ok_inj. split_and!; try done. by exists []. }
  intros [(fee & w1 & E1 & H)|(e & E1 & ->)]%io_bind_run; apply fee_unasked in E1; [|split; [exact E1|done]].
  destruct fee as [q|]; [|apply io_ret_run in H as [-> <-]; split; [exact E1|]; intros tx' <-%ok_inj; split_and!; try done; by exists []].
  destruct (_ || _); [|apply io_ret_run in H as [-> <-]; split; [exact E1|]; intros tx' <-%ok_inj; split_and!; try done; by exists []].
  apply io_bind_run in H as [(ixs & w2 & E2 & H)|(e & E2 & ->)].
  - apply io_lift_ok in E2 as [E2 ->]. apply io_ret_run in H as [-> <-]. split; [exact E1|]. intros tx' <-%ok_inj. split_and!; try done.
    cbn [instructions with_instructions]. unfold withPriorityFee in E2. cbv zeta in E2.
    match type of E2 with result_bind ?x _ = _ => destruct x as [limit|]; [|done] end. cbn [result_bind] in E2.
    match type of E2 with result_bind ?x _ = _ => destruct x as [price|]; [|done] end. cbn [result_bind] in E2.
    apply ok_inj in E2. exists (limit ++ price). by rewrite <- app_assoc, E2.
  - unfold io_lift in E2. injection E2 as _ <-. split; [exact E1|done].
Qed.

Lemma snoc_snoc {A} (l : list A) a b : l ++ [a; b] = (l ++ [a]) ++ [b].
Proof. by rewrite <- app_assoc. Qed.

(** C27: a mutation asks the wallet at most once, and only for the transaction whose
    simulation has just succeeded: the built instructions behind the fee's. *)
Theorem wallet_asked_after_simulation (payer : string) (build : io W (list instruction)) (config : option PriorityFeeConfig)
  (can_sign : bool) (st : option staked) (w w' : W) (r : result (json * SimulationResult))
  (Hb : steps unasked build)
  (H : mutationFn ops base64 setComputeUnitLimit setComputeUnitPrice serialize_unsigned json_text rpcEndpoint (Some payer) build config
         can_sign st w = Some (r, w')) :
  asked w' = asked w /\ is_ok r = false \/
  exists tx ixs added, feePayer tx = payer /\ instructions tx = added ++ ixs /\ (exists w1 w2, build w1 = Some (Ok ixs, w2)) /\
    (asked w' = asked w ++ [E_simulated tx true] /\ is_ok r = false \/
     asked w' = asked w ++ [E_simulated tx false; E_wallet tx]).
Proof.
  unfold mutationFn in H.
  apply io_bind_run in H as [(ixs & w1 & E1 & H)|(e & E1 & ->)]; pose proof (Hb _ _ _ E1) as U1; [|left; split; [exact U1|done]].
  apply io_bind_run in H as [(bh & w2 & E2 & H)|(e & E2 & ->)]; apply (law_blockhash laws) in E2; [|left; split; [unfold unasked in *; congruence|done]].
  apply io_bind_run in H as [(tx & w3 & E3 & H)|(e & E3 & ->)]; apply apply_fee_run in E3 as [U3 Htx]; [|left; split; [unfold unasked in *; congruence|done]].
  destruct (Htx tx eq_refl) as (Hp & _ & added & Hi). cbn [feePayer instructions] in Hp, Hi. clear Htx.
  right. exists tx, ixs, added. split_and!; [done|done|by exists w, w1|].
  assert (U : asked w3 = asked w) by (unfold unasked in *; congruence). rewrite <- U. clear U U1 E2 U3.
  assert (Hconf : forall rr w4, (do! _ <- wo_confirm ops (match rr.1 with J_str s => s | _ => ""%string end) bh.1 bh.2 in io_ret rr)%saep w4 = Some (r, w') ->
    asked w' = asked w4).
  { intros rr w4 [(x & w5 & E & Hr)|(e & E & ->)]%io_bind_run; apply (law_confirm laws) in E; [|exact E].
    by apply io_ret_run in Hr as [_ <-]. }
  unfold simulateAndSend in H.
  apply io_bind_run in H as [(rr & w4 & E4 & H)|(e & E4 & ->)]; [apply Hconf in H|].
  - apply io_bind_ok in E4 as (sim & w5 & E5 & E4). apply (law_simulate laws) in E5.
    destruct (js_truthy (sim_err sim)); [done|]. right. rewrite H.
    apply io_bind_ok in E4 as (sig & w6 & E6 & E4). apply io_ret_ok in E4 as [_ <-]. rewrite snoc_snoc, <- E5.
    destruct st as [s|], can_sign; apply io_bind_ok in E6 as (x & w7 & E7 & E6);
      try (apply (law_send laws) in E7; apply io_ret_ok in E6 as [_ <-]; exact E7).
    apply (law_sign laws) in E7. apply submit_unasked in E6. unfold unasked in E6. congruence.
  - apply io_bind_run in E4 as [(sim & w5 & E5 & E4)|(e' & E5 & _)]; apply (law_simulate laws) in E5; [|left; split; [exact E5|done]].
    destruct (js_truthy (sim_err sim)); [injection E4 as _ <-; left; split; [exact E5|done]|]. right.
    apply io_bind_run in E4 as [(sig & w6 & E6 & E4)|(e' & E6 & _)]; [by apply io_ret_run in E4 as [[=] _]|].
    rewrite snoc_snoc, <- E5.
    destruct st as [s|], can_sign; (apply io_bind_run in E6 as [(x & w7 & E7 & E6)|(e'' & E7 & _)];
      [|first [by apply (law_send laws) in E7|by apply (law_sign laws) in E7]]);
      try (by apply io_ret_run in E6 as [[=] _]).
    apply (law_sign laws) in E7. apply submit_unasked in E6. unfold unasked in E6. congruence.
Qed.
End asked.

(** ** A concrete cache and wallet *)

Definition toy_cache : query_client (list (string * Z)) Z :=
  {| getQueryData := fun c k => map_get k c;
     setQueryData := fun c k v => match v with Some d => map_set k d c | None => c end |}.

Lemma toy_cache_laws : query_laws toy_cache.
Proof.
  constructor; cbn.
  - intros c k d. apply map_get_set_eq.
  - intros c k k' [d|] Hne; [by apply map_get_set_ne|done].
  - done.
Qed.

Definition bump (k : string) (n : Z) : OptimisticUpdate := {| queryKey := k; updater := fun o => Some (default 0 o + n) |}.
Definition toy_hook : hook (D := Z) := {| cache := [("balance"%string, 10)]; objects := []; snapshotsRef := 0 |}.

Lemma rollback_restores_witness :
  let after := cache (onError toy_cache (onMutate toy_cache [bump "balance" 5; bump "tasks" 1] toy_hook)) in
  getQueryData toy_cache after "balance" = Some 10 /\ getQueryData toy_cache after "tasks" = Some 1.
Proof.
  destruct (rollback_restores toy_cache toy_cache_laws [bump "balance" 5; bump "tasks" 1] toy_hook) as [H1 H2].
  { match goal with |- ?P => exact (bool_decide_eq_true_1 P eq_refl) end. }
  cbv zeta. split.
  - refine (eq_trans (H1 "balance"%string (or_intror _)) _); [vm_compute; discriminate|reflexivity].
  - refine (eq_trans (H2 (bump "tasks" 1) _ _) _); [right; left|reflexivity|reflexivity].
Defined.

Lemma overlapping_rollback_keeps_failed_update_witness :
  let started := onMutate toy_cache [bump "balance" 1] (onMutate toy_cache [bump "balance" 5] toy_hook) in
  getQueryData toy_cache (cache (onSettled (onError toy_cache (onSettled (onError toy_cache started))))) "balance" = Some 15.
Proof.
  exact (overlapping_rollback_keeps_failed_update toy_cache toy_cache_laws (bump "balance" 5) (bump "balance" 1) toy_hook 10 15 16
    eq_refl eq_refl eq_refl eq_refl).
Defined.

Lemma repeated_query_rollback_witness :
  getQueryData toy_cache (cache (onError toy_cache (onMutate toy_cache [bump "balance" 5; bump "balance" 1] toy_hook))) "balance" = Some 15.
Proof.
  exact (repeated_query_rollback toy_cache toy_cache_laws (bump "balance" 5) (bump "balance" 1) toy_hook 10 15 16
    eq_refl eq_refl eq_refl eq_refl).
Defined.

Definition toy_wallet : wallet_ops (list wallet_event) :=
  {| wo_submit := {| so_fetch := fun _ w => Some (Throw "offline", w); so_sendRaw := fun raw w => Some (Ok raw, w) |};
     wo_latestBlockhash := fun w => Some (Ok ("hash", 9), w);
     wo_simulate := fun tx w => Some (Ok {| sim_err := None; sim_logs := None; sim_units := None |}, app w [E_simulated tx false]);
     wo_sendTransaction := fun tx w => Some (Ok "sig", app w [E_wallet tx]);
     wo_sign := fun tx w => Some (Ok (Ok "raw"), app w [E_wallet tx]);
     wo_confirm := fun _ _ _ w => Some (Ok None, w) |}%string.

Lemma toy_wallet_laws : wallet_laws toy_wallet (fun w => w).
Proof.
  constructor; try (intros *; intros w r w' [= <- <-]; reflexivity);
    try (intros w r w' [= <- <-]; reflexivity); intros tx w r w' [= <- <-]; reflexivity.
Qed.

Lemma wallet_asked_after_simulation_witness :
  exists r w' tx, mutationFn toy_wallet (fun s => s) toy_limit toy_price (fun _ => Ok "tx"%string) (fun _ => ""%string) None (Some "me"%string)
      (io_ret [{| programId := "app"; data := [1] |}]) None false None [] = Some (r, w') /\
    w' = [E_simulated tx false; E_wallet tx] /\ feePayer tx = "me"%string.
Proof.
  destruct (mutationFn toy_wallet (fun s => s) toy_limit toy_price (fun _ => Ok "tx"%string) (fun _ => ""%string) None (Some "me"%string)
      (io_ret [{| programId := "app"; data := [1] |}]) None false None []) as [[r w']|] eqn:E; [|vm_compute in E; discriminate E].
  destruct (wallet_asked_after_simulation toy_wallet (fun s => s) toy_limit toy_price (fun _ => Ok "tx"%string) (fun _ => ""%string) None
    (fun w => w) toy_wallet_laws "me" _ None false None [] w' r (steps_ret _ _) E)
    as [[H _]|(tx & ixs & added & Hp & _ & _ & [[H _]|H])].
  - vm_compute in E. injection E as _ <-. discriminate H.
  - vm_compute in E. injection E as _ <-. discriminate H.
  - exists r, w', tx. split; [reflexivity|]. split; [exact H|exact Hp].
Defined.
