(* ===== verification/Pda.v ===== *)
(** * Pda: the addresses the SDK derives

    Models packages/sdk/src/pda/index.ts, one function per program-derived address, and
    cluster/index.ts, the program ids of a cluster.
    [PublicKey.findProgramAddressSync] of web3.js is a parameter: it gets the seeds
    and the program and returns [A], an address with its bump.  A public key is the
    number its 32 bytes encode. *)

From Stdlib Require Import ZArith QArith Qround Ascii.
From stdpp Require Import base list strings.
From S2P Require Import Prelude Bytes.

#[local] Open Scope Z_scope.
#[local] Open Scope saep_scope.

(** ** Seeds *)

Definition pubkey : Type := Z.

(** [toBuffer]: 32 bytes, the highest first. *)
Definition toBuffer (k : pubkey) : list Z := fill_bytes 32 k [].

(** [TextEncoder.encode] of an ASCII text. *)
Definition enc (s : string) : list Z := map (fun c => Z.of_nat (nat_of_ascii c)) (String.list_ascii_of_string s).

(** [if (bytes.length !== n) throw new Error(message)] *)
Definition sized (bytes : list Z) (n : nat) (message : string) : result unit :=
  if (length bytes =? n)%nat then Ok tt else Throw message.

(** [Buffer.alloc(8).writeBigUInt64LE(n)]: a range error outside of 64 bits. *)
Definition writeBigUInt64LE (n : Z) : result (list Z) :=
  if (n <? 0) || (2 ^ 64 <=? n) then Throw "ERR_OUT_OF_RANGE" else Ok (rev (fill_bytes 8 n [])).

Section pda.
Context {A : Type}.
Variable findProgramAddressSync : list (list Z) -> pubkey -> result A.

Definition agentRegistryGlobalPda (programId : pubkey) : result A :=
  findProgramAddressSync [enc "global"] programId.

Definition agentAccountPda (programId : pubkey) (operator : pubkey) (agentId : list Z) : result A :=
  let! _ := sized agentId 32 "agentId must be 32 bytes" in
  findProgramAddressSync [enc "agent"; toBuffer operator; agentId] programId.

Definition agentStakePda (programId : pubkey) (agent : pubkey) : result A :=
  findProgramAddressSync [enc "stake"; toBuffer agent] programId.

Definition reentrancyGuardPda (programId : pubkey) : result A :=
  findProgramAddressSync [enc "guard"] programId.

Definition categoryReputationPda (programId : pubkey) (agentDid : list Z) (capabilityBit : Q) : result A :=
  let! _ := sized agentDid 32 "agentDid must be 32 bytes" in
  if negb (is_integer capabilityBit) || q_ltb capabilityBit 0 || q_ltb 127 capabilityBit
  then Throw "capabilityBit must be an integer in 0..=127"
  else
    let bit := Qfloor capabilityBit in
    let bitBytes := [Z.land bit 255; Z.land (Z.shiftr bit 8) 255] in
    findProgramAddressSync [enc "rep"; agentDid; bitBytes] programId.

Definition proofVerifierRepAuthorityPda (programId : pubkey) : result A :=
  findProgramAddressSync [enc "rep_authority"] programId.

Definition treasuryGlobalPda (programId : pubkey) : result A :=
  findProgramAddressSync [enc "treasury_global"] programId.

Definition treasuryAllowedMintsPda (programId : pubkey) : result A :=
  findProgramAddressSync [enc "allowed_mints"] programId.

Definition treasuryPda (programId : pubkey) (agentDid : list Z) : result A :=
  let! _ := sized agentDid 32 "agentDid must be 32 bytes" in
  findProgramAddressSync [enc "treasury"; agentDid] programId.

Definition treasuryAllowedTargetsPda (programId : pubkey) (agentDid : list Z) : result A :=
  let! _ := sized agentDid 32 "agentDid must be 32 bytes" in
  findProgramAddressSync [enc "allowed_targets"; agentDid] programId.

Definition treasuryYieldStrategyPda (programId : pubkey) (strategyId : list Z) : result A :=
  let! _ := sized strategyId 32 "strategyId must be 32 bytes" in
  findProgramAddressSync [enc "yield_strategy"; strategyId] programId.

Definition treasuryYieldConfigPda (programId : pubkey) (agentDid : list Z) : result A :=
  let! _ := sized agentDid 32 "agentDid must be 32 bytes" in
  findProgramAddressSync [enc "yield_config"; agentDid] programId.

Definition treasuryYieldPositionPda (programId : pubkey) (agentDid : list Z) (strategyId : list Z) (mint : pubkey) :
    result A :=
  let! _ := sized agentDid 32 "agentDid must be 32 bytes" in
  let! _ := sized strategyId 32 "strategyId must be 32 bytes" in
  findProgramAddressSync [enc "yield_position"; agentDid; strategyId; toBuffer mint] programId.

Definition treasuryYieldReceiptVaultPda (programId : pubkey) (position : pubkey) : result A :=
  findProgramAddressSync [enc "yield_receipt_vault"; toBuffer position] programId.

Definition vaultPda (programId : pubkey) (agentDid : list Z) (mint : pubkey) : result A :=
  let! _ := sized agentDid 32 "agentDid must be 32 bytes" in
  findProgramAddressSync [enc "vault"; agentDid; toBuffer mint] programId.

Definition marketGlobalPda (programId : pubkey) : result A :=
  findProgramAddressSync [enc "market_global"] programId.

Definition taskPda (programId : pubkey) (client : pubkey) (taskNonce : list Z) : result A :=
  let! _ := sized taskNonce 8 "taskNonce must be 8 bytes" in
  findProgramAddressSync [enc "task"; toBuffer client; taskNonce] programId.

Definition taskEscrowPda (programId : pubkey) (task : pubkey) : result A :=
  findProgramAddressSync [enc "task_escrow"; toBuffer task] programId.

Definition bidBookPda (programId : pubkey) (taskId : list Z) : result A :=
  let! _ := sized taskId 32 "taskId must be 32 bytes" in
  findProgramAddressSync [enc "bid_book"; taskId] programId.

Definition bondEscrowPda (programId : pubkey) (taskId : list Z) : result A :=
  let! _ := sized taskId 32 "taskId must be 32 bytes" in
  findProgramAddressSync [enc "bond_escrow"; taskId] programId.

Definition bidPda (programId : pubkey) (taskId : list Z) (bidder : pubkey) : result A :=
  let! _ := sized taskId 32 "taskId must be 32 bytes" in
  findProgramAddressSync [enc "bid"; taskId; toBuffer bidder] programId.

Definition verifierConfigPda (programId : pubkey) : result A :=
  findProgramAddressSync [enc "verifier_config"] programId.

Definition verifierKeyPda (programId : pubkey) (vkId : list Z) : result A :=
  let! _ := sized vkId 32 "vkId must be 32 bytes" in
  findProgramAddressSync [enc "vk"; vkId] programId.

Definition verifierModePda (programId : pubkey) : result A :=
  findProgramAddressSync [enc "mode"] programId.

Definition proofVerifierAllowedCallersPda (programId : pubkey) : result A :=
  findProgramAddressSync [enc "allowed_callers"] programId.

Definition batchStatePda (programId : pubkey) : result A :=
  findProgramAddressSync [enc "batch"] programId.

Definition guardPda (programId : pubkey) : result A :=
  findProgramAddressSync [enc "guard"] programId.

Definition proofVerifierGuardPda (programId : pubkey) : result A := guardPda programId.

Definition capabilityConfigPda (programId : pubkey) : result A :=
  findProgramAddressSync [enc "config"] programId.

Definition streamPda (programId : pubkey) (agentDid : list Z) (client : pubkey) (streamNonce : list Z) : result A :=
  let! _ := sized agentDid 32 "agentDid must be 32 bytes" in
  let! _ := sized streamNonce 8 "streamNonce must be 8 bytes" in
  findProgramAddressSync [enc "stream"; agentDid; toBuffer client; streamNonce] programId.

Definition streamEscrowPda (programId : pubkey) (stream : pubkey) : result A :=
  findProgramAddressSync [enc "stream_escrow"; toBuffer stream] programId.

Definition disputeConfigPda (programId : pubkey) : result A :=
  findProgramAddressSync [enc "dispute_config"] programId.

Definition disputePoolPda (programId : pubkey) : result A :=
  findProgramAddressSync [enc "dispute_pool"] programId.

Definition disputeCasePda (programId : pubkey) (caseId : Z) : result A :=
  let! buf := writeBigUInt64LE caseId in
  findProgramAddressSync [enc "dispute_case"; buf] programId.

Definition arbitratorPda (programId : pubkey) (operator : pubkey) : result A :=
  findProgramAddressSync [enc "arbitrator"; toBuffer operator] programId.

Definition disputeVotePda (programId : pubkey) (caseId : Z) (arbitrator : pubkey) : result A :=
  let! buf := writeBigUInt64LE caseId in
  findProgramAddressSync [enc "dispute_vote"; buf; toBuffer arbitrator] programId.

Definition appealPda (programId : pubkey) (caseId : Z) : result A :=
  let! buf := writeBigUInt64LE caseId in
  findProgramAddressSync [enc "appeal"; buf] programId.

Definition pendingSlashPda (programId : pubkey) (operator : pubkey) : result A :=
  findProgramAddressSync [enc "pending_slash"; toBuffer operator] programId.

Definition govConfigPda (programId : pubkey) : result A :=
  findProgramAddressSync [enc "governance_config"] programId.

Definition programRegistryPda (programId : pubkey) : result A :=
  findProgramAddressSync [enc "program_registry"] programId.

Definition proposalPda (programId : pubkey) (proposalId : Z) : result A :=
  let! buf := writeBigUInt64LE proposalId in
  findProgramAddressSync [enc "proposal"; buf] programId.

Definition govVoteRecordPda (programId : pubkey) (proposal : pubkey) (voter : pubkey) : result A :=
  findProgramAddressSync [enc "vote"; toBuffer proposal; toBuffer voter] programId.

Definition executionRecordPda (programId : pubkey) (proposal : pubkey) : result A :=
  findProgramAddressSync [enc "execution"; toBuffer proposal] programId.

Definition feeConfigPda (programId : pubkey) : result A :=
  findProgramAddressSync [enc "fee_config"] programId.

Definition feeHookAllowlistPda (programId : pubkey) : result A :=
  findProgramAddressSync [enc "hook_allowlist"] programId.

Definition feeAgentHooksPda (programId : pubkey) (agentDid : list Z) : result A :=
  let! _ := sized agentDid 32 "agentDid must be 32 bytes" in
  findProgramAddressSync [enc "agent_hooks"; agentDid] programId.

Definition epochPda (programId : pubkey) (epochId : Z) : result A :=
  let! buf := writeBigUInt64LE epochId in
  findProgramAddressSync [enc "epoch"; buf] programId.

Definition claimPda (programId : pubkey) (epochId : Z) (staker : pubkey) : result A :=
  let! buf := writeBigUInt64LE epochId in
  findProgramAddressSync [enc "claim"; buf; toBuffer staker] programId.

Definition intakeVaultPda (programId : pubkey) : result A :=
  findProgramAddressSync [enc "intake_vault"] programId.

Definition burnVaultPda (programId : pubkey) : result A :=
  findProgramAddressSync [enc "burn_vault"] programId.

Definition stakerVaultPda (programId : pubkey) : result A :=
  findProgramAddressSync [enc "staker_vault"] programId.

Definition depositVaultPda (programId : pubkey) : result A :=
  findProgramAddressSync [enc "deposit_vault"] programId.

Definition mintAuthorityPda (programId : pubkey) : result A :=
  findProgramAddressSync [enc "mint_authority"] programId.

Definition transferFeeWithdrawAuthorityPda (programId : pubkey) : result A :=
  findProgramAddressSync [enc "transfer_fee_withdraw_authority"] programId.

Definition stakingPoolPda (programId : pubkey) : result A :=
  findProgramAddressSync [enc "staking_pool"] programId.

Definition stakeAccountPda (programId : pubkey) (pool : pubkey) (owner : pubkey) : result A :=
  findProgramAddressSync [enc "stake"; toBuffer pool; toBuffer owner] programId.

Definition stakeVaultPda (programId : pubkey) (stakeAccount : pubkey) : result A :=
  findProgramAddressSync [enc "stake_vault"; toBuffer stakeAccount] programId.

Definition apyAuthorityPda (programId : pubkey) : result A :=
  findProgramAddressSync [enc "apy_authority"] programId.

Definition stakingConfigPda (programId : pubkey) : result A :=
  findProgramAddressSync [enc "staking_config"] programId.

Definition votingPowerSnapshotPda (programId : pubkey) (epoch : Z) : result A :=
  let! buf := writeBigUInt64LE epoch in
  findProgramAddressSync [enc "epoch_snapshot"; buf] programId.

Definition templateGlobalPda (programId : pubkey) : result A :=
  findProgramAddressSync [enc "tpl_global"] programId.

Definition templatePda (programId : pubkey) (templateId : list Z) : result A :=
  let! _ := sized templateId 32 "templateId must be 32 bytes" in
  findProgramAddressSync [enc "template"; templateId] programId.

Definition rentalPda (programId : pubkey) (template : pubkey) (renter : pubkey) (rentalNonce : list Z) : result A :=
  let! _ := sized rentalNonce 8 "rentalNonce must be 8 bytes" in
  findProgramAddressSync [enc "rental"; toBuffer template; toBuffer renter; rentalNonce] programId.

Definition rentalEscrowPda (programId : pubkey) (rental : pubkey) : result A :=
  findProgramAddressSync [enc "rental_escrow"; toBuffer rental] programId.

Definition forkPda (programId : pubkey) (childAgentDid : list Z) : result A :=
  let! _ := sized childAgentDid 32 "childAgentDid must be 32 bytes" in
  findProgramAddressSync [enc "fork"; childAgentDid] programId.
End pda.

(** ** All of them *)

(** A call of one of the functions, with its arguments. *)
Inductive derivation :=
| D_agentRegistryGlobal
| D_agentAccount (operator : pubkey) (agentId : list Z)
| D_agentStake (agent : pubkey)
| D_reentrancyGuard
| D_categoryReputation (agentDid : list Z) (capabilityBit : Q)
| D_proofVerifierRepAuthority
| D_treasuryGlobal
| D_treasuryAllowedMints
| D_treasury (agentDid : list Z)
| D_treasuryAllowedTargets (agentDid : list Z)
| D_treasuryYieldStrategy (strategyId : list Z)
| D_treasuryYieldConfig (agentDid : list Z)
| D_treasuryYieldPosition (agentDid : list Z) (strategyId : list Z) (mint : pubkey)
| D_treasuryYieldReceiptVault (position : pubkey)
| D_vault (agentDid : list Z) (mint : pubkey)
| D_marketGlobal
| D_task (client : pubkey) (taskNonce : list Z)
| D_taskEscrow (task : pubkey)
| D_bidBook (taskId : list Z)
| D_bondEscrow (taskId : list Z)
| D_bid (taskId : list Z) (bidder : pubkey)
| D_verifierConfig
| D_verifierKey (vkId : list Z)
| D_verifierMode
| D_proofVerifierAllowedCallers
| D_batchState
| D_guard
| D_proofVerifierGuard
| D_capabilityConfig
| D_stream (agentDid : list Z) (client : pubkey) (streamNonce : list Z)
| D_streamEscrow (stream : pubkey)
| D_disputeConfig
| D_disputePool
| D_disputeCase (caseId : Z)
| D_arbitrator (operator : pubkey)
| D_disputeVote (caseId : Z) (arbitrator : pubkey)
| D_appeal (caseId : Z)
| D_pendingSlash (operator : pubkey)
| D_govConfig
| D_programRegistry
| D_proposal (proposalId : Z)
| D_govVoteRecord (proposal : pubkey) (voter : pubkey)
| D_executionRecord (proposal : pubkey)
| D_feeConfig
| D_feeHookAllowlist
| D_feeAgentHooks (agentDid : list Z)
| D_epoch (epochId : Z)
| D_claim (epochId : Z) (staker : pubkey)
| D_intakeVault
| D_burnVault
| D_stakerVault
| D_depositVault
| D_mintAuthority
| D_transferFeeWithdrawAuthority
| D_stakingPool
| D_stakeAccount (pool : pubkey) (owner : pubkey)
| D_stakeVault (stakeAccount : pubkey)
| D_apyAuthority
| D_stakingConfig
| D_votingPowerSnapshot (epoch : Z)
| D_templateGlobal
| D_template (templateId : list Z)
| D_rental (template : pubkey) (renter : pubkey) (rentalNonce : list Z)
| D_rentalEscrow (rental : pubkey)
| D_fork (childAgentDid : list Z).

Section derive.
Context {A : Type}.
Variable findProgramAddressSync : list (list Z) -> pubkey -> result A.

Definition derive (d : derivation) (programId : pubkey) : result A :=
  match d with
  | D_agentRegistryGlobal => agentRegistryGlobalPda findProgramAddressSync programId
  | D_agentAccount operator agentId => agentAccountPda findProgramAddressSync programId operator agentId
  | D_agentStake agent => agentStakePda findProgramAddressSync programId agent
  | D_reentrancyGuard => reentrancyGuardPda findProgramAddressSync programId
  | D_categoryReputation agentDid capabilityBit => categoryReputationPda findProgramAddressSync programId agentDid capabilityBit
  | D_proofVerifierRepAuthority => proofVerifierRepAuthorityPda findProgramAddressSync programId
  | D_treasuryGlobal => treasuryGlobalPda findProgramAddressSync programId
  | D_treasuryAllowedMints => treasuryAllowedMintsPda findProgramAddressSync programId
  | D_treasury agentDid => treasuryPda findProgramAddressSync programId agentDid
  | D_treasuryAllowedTargets agentDid => treasuryAllowedTargetsPda findProgramAddressSync programId agentDid
  | D_treasuryYieldStrategy strategyId => treasuryYieldStrategyPda findProgramAddressSync programId strategyId
  | D_treasuryYieldConfig agentDid => treasuryYieldConfigPda findProgramAddressSync programId agentDid
  | D_treasuryYieldPosition agentDid strategyId mint => treasuryYieldPositionPda findProgramAddressSync programId agentDid strategyId mint
  | D_treasuryYieldReceiptVault position => treasuryYieldReceiptVaultPda findProgramAddressSync programId position
  | D_vault agentDid mint => vaultPda findProgramAddressSync programId agentDid mint
  | D_marketGlobal => marketGlobalPda findProgramAddressSync programId
  | D_task client taskNonce => taskPda findProgramAddressSync programId client taskNonce
  | D_taskEscrow task => taskEscrowPda findProgramAddressSync programId task
  | D_bidBook taskId => bidBookPda findProgramAddressSync programId taskId
  | D_bondEscrow taskId => bondEscrowPda findProgramAddressSync programId taskId
  | D_bid taskId bidder => bidPda findProgramAddressSync programId taskId bidder
  | D_verifierConfig => verifierConfigPda findProgramAddressSync programId
  | D_verifierKey vkId => verifierKeyPda findProgramAddressSync programId vkId
  | D_verifierMode => verifierModePda findProgramAddressSync programId
  | D_proofVerifierAllowedCallers => proofVerifierAllowedCallersPda findProgramAddressSync programId
  | D_batchState => batchStatePda findProgramAddressSync programId
  | D_guard => guardPda findProgramAddressSync programId
  | D_proofVerifierGuard => proofVerifierGuardPda findProgramAddressSync programId
  | D_capabilityConfig => capabilityConfigPda findProgramAddressSync programId
  | D_stream agentDid client streamNonce => streamPda findProgramAddressSync programId agentDid client streamNonce
  | D_streamEscrow stream => streamEscrowPda findProgramAddressSync programId stream
  | D_disputeConfig => disputeConfigPda findProgramAddressSync programId
  | D_disputePool => disputePoolPda findProgramAddressSync programId
  | D_disputeCase caseId => disputeCasePda findProgramAddressSync programId caseId
  | D_arbitrator operator => arbitratorPda findProgramAddressSync programId operator
  | D_disputeVote caseId arbitrator => disputeVotePda findProgramAddressSync programId caseId arbitrator
  | D_appeal caseId => appealPda findProgramAddressSync programId caseId
  | D_pendingSlash operator => pendingSlashPda findProgramAddressSync programId operator
  | D_govConfig => govConfigPda findProgramAddressSync programId
  | D_programRegistry => programRegistryPda findProgramAddressSync programId
  | D_proposal proposalId => proposalPda findProgramAddressSync programId proposalId
  | D_govVoteRecord proposal voter => govVoteRecordPda findProgramAddressSync programId proposal voter
  | D_executionRecord proposal => executionRecordPda findProgramAddressSync programId proposal
  | D_feeConfig => feeConfigPda findProgramAddressSync programId
  | D_feeHookAllowlist => feeHookAllowlistPda findProgramAddressSync programId
  | D_feeAgentHooks agentDid => feeAgentHooksPda findProgramAddressSync programId agentDid
  | D_epoch epochId => epochPda findProgramAddressSync programId epochId
  | D_claim epochId staker => claimPda findProgramAddressSync programId epochId staker
  | D_intakeVault => intakeVaultPda findProgramAddressSync programId
  | D_burnVault => burnVaultPda findProgramAddressSync programId
  | D_stakerVault => stakerVaultPda findProgramAddressSync programId
  | D_depositVault => depositVaultPda findProgramAddressSync programId
  | D_mintAuthority => mintAuthorityPda findProgramAddressSync programId
  | D_transferFeeWithdrawAuthority => transferFeeWithdrawAuthorityPda findProgramAddressSync programId
  | D_stakingPool => stakingPoolPda findProgramAddressSync programId
  | D_stakeAccount pool owner => stakeAccountPda findProgramAddressSync programId pool owner
  | D_stakeVault stakeAccount => stakeVaultPda findProgramAddressSync programId stakeAccount
  | D_apyAuthority => apyAuthorityPda findProgramAddressSync programId
  | D_stakingConfig => stakingConfigPda findProgramAddressSync programId
  | D_votingPowerSnapshot epoch => votingPowerSnapshotPda findProgramAddressSync programId epoch
  | D_templateGlobal => templateGlobalPda findProgramAddressSync programId
  | D_template templateId => templatePda findProgramAddressSync programId templateId
  | D_rental template renter rentalNonce => rentalPda findProgramAddressSync programId template renter rentalNonce
  | D_rentalEscrow rental => rentalEscrowPda findProgramAddressSync programId rental
  | D_fork childAgentDid => forkPda findProgramAddressSync programId childAgentDid
  end.
End derive.

(** The seeds of a call, or what it throws before it derives anything. *)
Definition seeds (d : derivation) : result (list (list Z)) := derive (fun s _ => Ok s) d 0.

(** The two other names of the guard's address. *)
Definition canon (d : derivation) : derivation :=
  match d with
  | D_reentrancyGuard | D_proofVerifierGuard => D_guard
  | D_categoryReputation did bit => D_categoryReputation did (inject_Z (Qfloor bit))
  | _ => d
  end.

Create HintDb pda.
#[export] Hint Unfold
  agentRegistryGlobalPda agentAccountPda agentStakePda reentrancyGuardPda categoryReputationPda
  proofVerifierRepAuthorityPda treasuryGlobalPda treasuryAllowedMintsPda treasuryPda treasuryAllowedTargetsPda
  treasuryYieldStrategyPda treasuryYieldConfigPda treasuryYieldPositionPda treasuryYieldReceiptVaultPda
  vaultPda marketGlobalPda taskPda taskEscrowPda bidBookPda bondEscrowPda bidPda verifierConfigPda
  verifierKeyPda verifierModePda proofVerifierAllowedCallersPda batchStatePda guardPda proofVerifierGuardPda
  capabilityConfigPda streamPda streamEscrowPda disputeConfigPda disputePoolPda disputeCasePda arbitratorPda
  disputeVotePda appealPda pendingSlashPda govConfigPda programRegistryPda proposalPda govVoteRecordPda
  executionRecordPda feeConfigPda feeHookAllowlistPda feeAgentHooksPda epochPda claimPda intakeVaultPda
  burnVaultPda stakerVaultPda depositVaultPda mintAuthorityPda transferFeeWithdrawAuthorityPda stakingPoolPda
  stakeAccountPda stakeVaultPda apyAuthorityPda stakingConfigPda votingPowerSnapshotPda templateGlobalPda
  templatePda rentalPda rentalEscrowPda forkPda : pda.

(** ** cluster/index.ts

    The program ids of a cluster.  [new PublicKey] of web3.js is a parameter that
    throws on what is no address, [clusterApiUrl] another; the connection itself is not
    modelled. *)

Inductive SaepCluster := devnet | mainnet_beta | localnet.

Inductive SaepProgramName :=
| agentRegistry | treasuryStandard | taskMarket | disputeArbitration | governanceProgram | feeCollector | proofVerifier
| capabilityRegistry | nxsStaking | templateRegistry.

#[global] Instance SaepProgramName_eq_dec : EqDecision SaepProgramName.
Proof. solve_decision. Defined.

Definition program_names : list SaepProgramName :=
  [agentRegistry; treasuryStandard; taskMarket; disputeArbitration; governanceProgram; feeCollector; proofVerifier;
   capabilityRegistry; nxsStaking; templateRegistry].

Definition DEVNET_PROGRAM_IDS (n : SaepProgramName) : string :=
  match n with
  | agentRegistry => "EQJ4Lp2gxJDD5hs185aDcermYWdAi4cQeSKfnuqLAQYu"
  | treasuryStandard => "6boJQg4L6FRS7YZ5rFXfKUaXSy3eCKnW2SdrT3LJLizQ"
  | taskMarket => "HiyqZ4q1GPPgx1EaxSuyBFKTzoPAYDPmnSfTX1vjbB8w"
  | disputeArbitration => "GM8xiT17USBpCW24XXBmUR8YVCxxrJPMEcsddwfUokMa"
  | governanceProgram => "9uczLDZaN9EWqW76be75ji4vCsz3cydefbChqvBS6qw1"
  | feeCollector => "4xLpFgjpZwJbf61UyvyMhmEBmeJzPaCyKvZeYuK2YFFu"
  | proofVerifier => "DcJx1p6bcNuFm4i5WMgK4uGZitc1bf4Ubc5d4sctZKVe"
  | capabilityRegistry => "GW161Wce7z4S2rdcSCPNGixn2YQajefNc4r3jUj9zZ5F"
  | nxsStaking => "GjXfJ6MHb6SJ4XBK3qcpGw4n256qYPrDcXrNj6kf2i2Z"
  | templateRegistry => "3QE649JDQbbudJX5j3VkmRSiRvfcu3mHCymPxZn9KC3e"
  end.

Definition ProgramIdMap : Type := SaepProgramName -> pubkey.

Record ClusterConfig := { cluster : SaepCluster; endpoint : string; programIds : ProgramIdMap }.

Section cluster.
Variable PublicKey : string -> result pubkey.
Variable clusterApiUrl : SaepCluster -> string.

(** An address written in the code. *)
Definition constant (text : string) : pubkey :=
  match PublicKey text with
  | Ok k => k
  | Throw _ => 0%Z
  end.

Fixpoint first_throw (texts : list string) : option string :=
  match texts with
  | [] => None
  | t :: rest => match PublicKey t with Throw e => Some e | Ok _ => first_throw rest end
  end.

Definition toPubkeyMap (raw : SaepProgramName -> string) : result ProgramIdMap :=
  match first_throw (map raw program_names) with
  | Some e => Throw e
  | None => Ok (fun n => constant (raw n))
  end.

Definition resolveCluster (input_cluster : option SaepCluster) (input_endpoint : option string)
    (input_programIds : SaepProgramName -> option string) : result ClusterConfig :=
  let cluster := default devnet input_cluster in
  let endpoint := match input_endpoint with
                  | Some e => e
                  | None => match cluster with localnet => "http://127.0.0.1:8899" | c => clusterApiUrl c end
                  end in
  let merged n := default (DEVNET_PROGRAM_IDS n) (input_programIds n) in
  let! ids := toPubkeyMap merged in
  Ok {| cluster := cluster; endpoint := endpoint; programIds := ids |}.

(** Without overrides every cluster has the program ids of devnet. *)
Lemma resolved_ids c e config : resolveCluster c e (fun _ => None) = Ok config ->
  forall n, programIds config n = constant (DEVNET_PROGRAM_IDS n).
Proof.
  unfold resolveCluster, toPubkeyMap. destruct (first_throw _); [done|]. cbn [result_bind]. intros [= <-] n. done.
Qed.
End cluster.
