(* ===== verification/PdaUnique.v ===== *)
(** * PdaUnique: one address for one thing

    The addresses of Pda never coincide: no two calls hash the same bytes, although
    the seeds are concatenated without separators. *)

From Stdlib Require Import ZArith QArith Qround Ascii Lia.
From stdpp Require Import base list strings.
From S2P Require Import Prelude Bytes Pda.

#[local] Open Scope Z_scope.
#[local] Open Scope saep_scope.

(** ** Seeds as text and parts of fixed lengths *)

Definition shape : Type := string * list nat.

(** A shape and how the arguments are read back from the parts. *)
Definition entry : Type := shape * (list (list Z) -> option derivation).

Definition table : list entry :=
  [(("global", []), fun l => match l with [] => Some D_agentRegistryGlobal | _ => None end);
   (("agent", [32; 32]%nat), fun l => match l with [a; b] => Some (D_agentAccount (accumulate a) b) | _ => None end);
   (("stake", [32]%nat), fun l => match l with [a] => Some (D_agentStake (accumulate a)) | _ => None end);
   (("rep", [32; 2]%nat), fun l => match l with [a; b] => Some (D_categoryReputation a (inject_Z (accumulate (rev b)))) | _ => None end);
   (("rep_authority", []), fun l => match l with [] => Some D_proofVerifierRepAuthority | _ => None end);
   (("treasury_global", []), fun l => match l with [] => Some D_treasuryGlobal | _ => None end);
   (("allowed_mints", []), fun l => match l with [] => Some D_treasuryAllowedMints | _ => None end);
   (("treasury", [32]%nat), fun l => match l with [a] => Some (D_treasury a) | _ => None end);
   (("allowed_targets", [32]%nat), fun l => match l with [a] => Some (D_treasuryAllowedTargets a) | _ => None end);
   (("yield_strategy", [32]%nat), fun l => match l with [a] => Some (D_treasuryYieldStrategy a) | _ => None end);
   (("yield_config", [32]%nat), fun l => match l with [a] => Some (D_treasuryYieldConfig a) | _ => None end);
   (("yield_position", [32; 32; 32]%nat), fun l => match l with [a; b; c] => Some (D_treasuryYieldPosition a b (accumulate c)) | _ => None end);
   (("yield_receipt_vault", [32]%nat), fun l => match l with [a] => Some (D_treasuryYieldReceiptVault (accumulate a)) | _ => None end);
   (("vault", [32; 32]%nat), fun l => match l with [a; b] => Some (D_vault a (accumulate b)) | _ => None end);
   (("market_global", []), fun l => match l with [] => Some D_marketGlobal | _ => None end);
   (("task", [32; 8]%nat), fun l => match l with [a; b] => Some (D_task (accumulate a) b) | _ => None end);
   (("task_escrow", [32]%nat), fun l => match l with [a] => Some (D_taskEscrow (accumulate a)) | _ => None end);
   (("bid_book", [32]%nat), fun l => match l with [a] => Some (D_bidBook a) | _ => None end);
   (("bond_escrow", [32]%nat), fun l => match l with [a] => Some (D_bondEscrow a) | _ => None end);
   (("bid", [32; 32]%nat), fun l => match l with [a; b] => Some (D_bid a (accumulate b)) | _ => None end);
   (("verifier_config", []), fun l => match l with [] => Some D_verifierConfig | _ => None end);
   (("vk", [32]%nat), fun l => match l with [a] => Some (D_verifierKey a) | _ => None end);
   (("mode", []), fun l => match l with [] => Some D_verifierMode | _ => None end);
   (("allowed_callers", []), fun l => match l with [] => Some D_proofVerifierAllowedCallers | _ => None end);
   (("batch", []), fun l => match l with [] => Some D_batchState | _ => None end);
   (("guard", []), fun l => match l with [] => Some D_guard | _ => None end);
   (("config", []), fun l => match l with [] => Some D_capabilityConfig | _ => None end);
   (("stream", [32; 32; 8]%nat), fun l => match l with [a; b; c] => Some (D_stream a (accumulate b) c) | _ => None end);
   (("stream_escrow", [32]%nat), fun l => match l with [a] => Some (D_streamEscrow (accumulate a)) | _ => None end);
   (("dispute_config", []), fun l => match l with [] => Some D_disputeConfig | _ => None end);
   (("dispute_pool", []), fun l => match l with [] => Some D_disputePool | _ => None end);
   (("dispute_case", [8]%nat), fun l => match l with [a] => Some (D_disputeCase (accumulate (rev a))) | _ => None end);
   (("arbitrator", [32]%nat), fun l => match l with [a] => Some (D_arbitrator (accumulate a)) | _ => None end);
   (("dispute_vote", [8; 32]%nat), fun l => match l with [a; b] => Some (D_disputeVote (accumulate (rev a)) (accumulate b)) | _ => None end);
   (("appeal", [8]%nat), fun l => match l with [a] => Some (D_appeal (accumulate (rev a))) | _ => None end);
   (("pending_slash", [32]%nat), fun l => match l with [a] => Some (D_pendingSlash (accumulate a)) | _ => None end);
   (("governance_config", []), fun l => match l with [] => Some D_govConfig | _ => None end);
   (("program_registry", []), fun l => match l with [] => Some D_programRegistry | _ => None end);
   (("proposal", [8]%nat), fun l => match l with [a] => Some (D_proposal (accumulate (rev a))) | _ => None end);
   (("vote", [32; 32]%nat), fun l => match l with [a; b] => Some (D_govVoteRecord (accumulate a) (accumulate b)) | _ => None end);
   (("execution", [32]%nat), fun l => match l with [a] => Some (D_executionRecord (accumulate a)) | _ => None end);
   (("fee_config", []), fun l => match l with [] => Some D_feeConfig | _ => None end);
   (("hook_allowlist", []), fun l => match l with [] => Some D_feeHookAllowlist | _ => None end);
   (("agent_hooks", [32]%nat), fun l => match l with [a] => Some (D_feeAgentHooks a) | _ => None end);
   (("epoch", [8]%nat), fun l => match l with [a] => Some (D_epoch (accumulate (rev a))) | _ => None end);
   (("claim", [8; 32]%nat), fun l => match l with [a; b] => Some (D_claim (accumulate (rev a)) (accumulate b)) | _ => None end);
   (("intake_vault", []), fun l => match l with [] => Some D_intakeVault | _ => None end);
   (("burn_vault", []), fun l => match l with [] => Some D_burnVault | _ => None end);
   (("staker_vault", []), fun l => match l with [] => Some D_stakerVault | _ => None end);
   (("deposit_vault", []), fun l => match l with [] => Some D_depositVault | _ => None end);
   (("mint_authority", []), fun l => match l with [] => Some D_mintAuthority | _ => None end);
   (("transfer_fee_withdraw_authority", []), fun l => match l with [] => Some D_transferFeeWithdrawAuthority | _ => None end);
   (("staking_pool", []), fun l => match l with [] => Some D_stakingPool | _ => None end);
   (("stake", [32; 32]%nat), fun l => match l with [a; b] => Some (D_stakeAccount (accumulate a) (accumulate b)) | _ => None end);
   (("stake_vault", [32]%nat), fun l => match l with [a] => Some (D_stakeVault (accumulate a)) | _ => None end);
   (("apy_authority", []), fun l => match l with [] => Some D_apyAuthority | _ => None end);
   (("staking_config", []), fun l => match l with [] => Some D_stakingConfig | _ => None end);
   (("epoch_snapshot", [8]%nat), fun l => match l with [a] => Some (D_votingPowerSnapshot (accumulate (rev a))) | _ => None end);
   (("tpl_global", []), fun l => match l with [] => Some D_templateGlobal | _ => None end);
   (("template", [32]%nat), fun l => match l with [a] => Some (D_template a) | _ => None end);
   (("rental", [32; 32; 8]%nat), fun l => match l with [a; b; c] => Some (D_rental (accumulate a) (accumulate b) c) | _ => None end);
   (("rental_escrow", [32]%nat), fun l => match l with [a] => Some (D_rentalEscrow (accumulate a)) | _ => None end);
   (("fork", [32]%nat), fun l => match l with [a] => Some (D_fork a) | _ => None end)]%string.

Definition place (d : derivation) : nat :=
  (match d with
  | D_agentRegistryGlobal => 0
  | D_agentAccount _ _ => 1
  | D_agentStake _ => 2
  | D_reentrancyGuard => 25
  | D_categoryReputation _ _ => 3
  | D_proofVerifierRepAuthority => 4
  | D_treasuryGlobal => 5
  | D_treasuryAllowedMints => 6
  | D_treasury _ => 7
  | D_treasuryAllowedTargets _ => 8
  | D_treasuryYieldStrategy _ => 9
  | D_treasuryYieldConfig _ => 10
  | D_treasuryYieldPosition _ _ _ => 11
  | D_treasuryYieldReceiptVault _ => 12
  | D_vault _ _ => 13
  | D_marketGlobal => 14
  | D_task _ _ => 15
  | D_taskEscrow _ => 16
  | D_bidBook _ => 17
  | D_bondEscrow _ => 18
  | D_bid _ _ => 19
  | D_verifierConfig => 20
  | D_verifierKey _ => 21
  | D_verifierMode => 22
  | D_proofVerifierAllowedCallers => 23
  | D_batchState => 24
  | D_guard => 25
  | D_proofVerifierGuard => 25
  | D_capabilityConfig => 26
  | D_stream _ _ _ => 27
  | D_streamEscrow _ => 28
  | D_disputeConfig => 29
  | D_disputePool => 30
  | D_disputeCase _ => 31
  | D_arbitrator _ => 32
  | D_disputeVote _ _ => 33
  | D_appeal _ => 34
  | D_pendingSlash _ => 35
  | D_govConfig => 36
  | D_programRegistry => 37
  | D_proposal _ => 38
  | D_govVoteRecord _ _ => 39
  | D_executionRecord _ => 40
  | D_feeConfig => 41
  | D_feeHookAllowlist => 42
  | D_feeAgentHooks _ => 43
  | D_epoch _ => 44
  | D_claim _ _ => 45
  | D_intakeVault => 46
  | D_burnVault => 47
  | D_stakerVault => 48
  | D_depositVault => 49
  | D_mintAuthority => 50
  | D_transferFeeWithdrawAuthority => 51
  | D_stakingPool => 52
  | D_stakeAccount _ _ => 53
  | D_stakeVault _ => 54
  | D_apyAuthority => 55
  | D_stakingConfig => 56
  | D_votingPowerSnapshot _ => 57
  | D_templateGlobal => 58
  | D_template _ => 59
  | D_rental _ _ _ => 60
  | D_rentalEscrow _ => 61
  | D_fork _ => 62
  end)%nat.

Definition valid_key (k : pubkey) : Prop := 0 <= k < 2 ^ 256.

Definition keys_ok (d : derivation) : Prop :=
  match d with
  | D_agentAccount operator _ => valid_key operator
  | D_agentStake agent => valid_key agent
  | D_treasuryYieldPosition _ _ mint => valid_key mint
  | D_treasuryYieldReceiptVault position => valid_key position
  | D_vault _ mint => valid_key mint
  | D_task client _ => valid_key client
  | D_taskEscrow task => valid_key task
  | D_bid _ bidder => valid_key bidder
  | D_stream _ client _ => valid_key client
  | D_streamEscrow stream => valid_key stream
  | D_arbitrator operator => valid_key operator
  | D_disputeVote _ arbitrator => valid_key arbitrator
  | D_pendingSlash operator => valid_key operator
  | D_govVoteRecord proposal voter => valid_key proposal /\ valid_key voter
  | D_executionRecord proposal => valid_key proposal
  | D_claim _ staker => valid_key staker
  | D_stakeAccount pool owner => valid_key pool /\ valid_key owner
  | D_stakeVault stakeAccount => valid_key stakeAccount
  | D_rental template renter _ => valid_key template /\ valid_key renter
  | D_rentalEscrow rental => valid_key rental
  | _ => True
  end.

Definition shape_length (s : shape) : nat := (length (enc s.1) + list_sum s.2)%nat.

(** Two shapes whose seeds never concatenate to the same bytes. *)
Definition separate (s t : shape) : bool :=
  let n := (length (enc s.1) `min` length (enc t.1))%nat in
  negb (shape_length s =? shape_length t)%nat || negb (bool_decide (take n (enc s.1) = take n (enc t.1))).

Fixpoint pairwise {A} (p : A -> A -> bool) (l : list A) : bool :=
  match l with
  | [] => true
  | x :: l' => forallb (fun y => p x y && p y x) l' && pairwise p l'
  end.

Lemma table_separate : pairwise separate (fst <$> table) = true.
Proof. vm_compute. reflexivity. Qed.

Lemma pairwise_lookup {A} (p : A -> A -> bool) l i j x y : pairwise p l = true -> l !! i = Some x -> l !! j = Some y -> i <> j -> p x y = true.
Proof.
  revert i j. induction l as [|a l IH]; intros [|i] [|j]; cbn; try done; intros [Hf Hp]%andb_prop Hi Hj Hne.
  - injection Hi as ->. rewrite forallb_forall in Hf. apply list_elem_of_lookup_2, list_elem_of_In, Hf, andb_prop in Hj. apply Hj.
  - injection Hj as ->. rewrite forallb_forall in Hf. apply list_elem_of_lookup_2, list_elem_of_In, Hf, andb_prop in Hi. apply Hi.
  - eapply IH; eauto.
Qed.

Definition fits (s : shape) (parts : list (list Z)) : Prop :=
  exists payload, parts = enc s.1 :: payload /\ map length payload = s.2.

Lemma fits_length s parts : fits s parts -> length (concat parts) = shape_length s.
Proof. intros (l & -> & H). unfold shape_length. cbn. rewrite length_app, length_concat. by rewrite <- H. Qed.

Lemma separate_sound s t p q : separate s t = true -> fits s p -> fits t q -> concat p <> concat q.
Proof.
  intros Hs Hp Hq E. apply orb_prop in Hs as [Hl|Ht].
  - apply negb_true_iff, Nat.eqb_neq in Hl. apply Hl. by rewrite <- (fits_length s p), <- (fits_length t q), E.
  - apply negb_true_iff, bool_decide_eq_false_1 in Ht. apply Ht. destruct Hp as (a & -> & _), Hq as (b & -> & _). cbn in E.
    apply (f_equal (take (length (enc s.1) `min` length (enc t.1)))) in E. by rewrite !take_app_le in E by lia.
Qed.

(** Parts of the same lengths are determined by their concatenation. *)
Lemma concat_inj {A} (p q : list (list A)) : map length p = map length q -> concat p = concat q -> p = q.
Proof.
  revert q. induction p as [|x p IH]; intros [|y q]; try done. cbn. intros [= Hl Hm] E.
  apply app_inj_1 in E as [-> E]; [|done]. f_equal. by apply IH.
Qed.

(** ** A call's parts *)

Lemma sized_ok b n m u : sized b n m = Ok u -> length b = n.
Proof. unfold sized. by destruct (Nat.eqb_spec (length b) n). Qed.

Lemma uint64_ok n buf : writeBigUInt64LE n = Ok buf -> length buf = 8%nat /\ accumulate (rev buf) = n.
Proof.
  unfold writeBigUInt64LE. destruct (Z.ltb_spec n 0), (Z.leb_spec (2 ^ 64) n); cbn [orb]; try done. intros <-%ok_inj.
  rewrite length_rev, fill_bytes_length, rev_involutive. split; [done|]. apply accumulate_fill_bytes. lia.
Qed.

Lemma toBuffer_length k : length (toBuffer k) = 32%nat.
Proof. apply fill_bytes_length. Qed.

Lemma toBuffer_value k : valid_key k -> accumulate (toBuffer k) = k.
Proof. intros H. apply accumulate_fill_bytes. exact H. Qed.

(** [d]'s parts fit its place in the table, and the table reads [d] back. *)
Definition placed (d : derivation) (s : list (list Z)) : Prop :=
  exists sh f payload, table !! place d = Some (sh, f) /\ s = enc sh.1 :: payload /\ map length payload = sh.2 /\
    f payload = Some (canon d).

Ltac seed_parts := repeat match goal with
  | H : result_bind (sized ?b ?n ?m) _ = Ok _ |- _ =>
    let E := fresh in destruct (sized b n m) eqn:E; [apply sized_ok in E; cbn [result_bind] in H|discriminate H]
  | H : result_bind (writeBigUInt64LE ?n) _ = Ok _ |- _ =>
    let E := fresh in destruct (writeBigUInt64LE n) eqn:E; [apply uint64_ok in E as [? ?]; cbn [result_bind] in H|discriminate H]
  end.

Lemma capability_bytes b : q_ltb b 0 = false -> q_ltb 127 b = false ->
  accumulate (rev [Z.land (Qfloor b) 255; Z.land (Z.shiftr (Qfloor b) 8) 255]) = Qfloor b.
Proof.
  intros H0 H1. apply q_ltb_ge in H0, H1.
  assert (Hb : 0 <= Qfloor b < 256).
  { apply Qfloor_resp_le in H0, H1. change (Qfloor 0) with 0 in H0. change (Qfloor 127) with 127 in H1. lia. }
  replace (rev _) with (fill_bytes 2 (Qfloor b) []) by reflexivity. apply accumulate_fill_bytes. lia.
Qed.

Lemma category_placed did bit s : seeds (D_categoryReputation did bit) = Ok s -> placed (D_categoryReputation did bit) s.
Proof.
  unfold seeds. cbn [derive]. autounfold with pda. intros H. seed_parts.
  destruct (negb (is_integer bit)), (q_ltb bit 0) eqn:E0, (q_ltb 127 bit) eqn:E1; try discriminate H. apply ok_inj in H. subst s.
  eexists _, _, _. split; [reflexivity|]. split; [reflexivity|]. split; [cbn; congruence|].
  cbn [canon]. by rewrite (capability_bytes bit E0 E1).
Qed.

Lemma seeds_placed d s : keys_ok d -> seeds d = Ok s -> placed d s.
Proof.
  destruct d; cbn [keys_ok]; intros Hk H; try (by apply category_placed); unfold seeds in H; cbn [derive] in H;
    autounfold with pda in H; seed_parts; apply ok_inj in H; subst s; eexists _, _, _;
    (split; [reflexivity|]; split; [reflexivity|]);
    cbn [map fst snd canon]; rewrite ?toBuffer_length, ?toBuffer_value by tauto; split; congruence.
Qed.

(** The seeds of two calls are different bytes, unless the calls are the same. *)
Lemma seeds_injective d d' s s' : keys_ok d -> keys_ok d' -> seeds d = Ok s -> seeds d' = Ok s' ->
  concat s = concat s' -> canon d = canon d'.
Proof.
  intros Hk Hk' (sh & f & l & Ht & -> & Hl & Hf)%(seeds_placed _ _ Hk) (sh' & f' & l' & Ht' & -> & Hl' & Hf')%(seeds_placed _ _ Hk') E.
  destruct (decide (place d = place d')) as [Hp|Hp].
  - rewrite Hp, Ht' in Ht. injection Ht as -> ->. cbn in E. apply app_inv_head, concat_inj in E; [|by rewrite Hl, Hl']. congruence.
  - exfalso. refine (separate_sound sh sh' _ _ _ _ _ E); [|by exists l|by exists l'].
    refine (pairwise_lookup _ _ _ _ _ _ table_separate _ _ Hp); rewrite list_lookup_fmap; [exact (f_equal (fmap fst) Ht)|exact (f_equal (fmap fst) Ht')].
Qed.

(** A call only looks at the arguments to make the seeds. *)
Lemma derive_seeds {A} (find : list (list Z) -> pubkey -> result A) d p : derive find d p = let! s := seeds d in find s p.
Proof.
  destruct d; unfold seeds; cbn [derive]; autounfold with pda;
    repeat match goal with |- context [result_bind (sized ?b ?n ?m) _] => destruct (sized b n m); cbn [result_bind] end;
    repeat match goal with |- context [result_bind (writeBigUInt64LE ?n) _] => destruct (writeBigUInt64LE n); cbn [result_bind] end;
    try reflexivity. by case_match.
Qed.

(** ** The addresses *)

(** What web3.js documents: the address is the hash of the concatenated seeds, the
    bump, the program and a marker. *)
Definition marker : list Z := enc "ProgramDerivedAddress".

Definition address_law (sha256 : list Z -> list Z) (find : list (list Z) -> pubkey -> result (pubkey * Z)) : Prop :=
  forall seeds p a bump, find seeds p = Ok (a, bump) -> toBuffer a = sha256 (concat seeds ++ [bump] ++ toBuffer p ++ marker).

(** C30: two calls that return one address are the same call for the same program, up
    to the three names of the guard's address, or SHA-256 collides. *)
Theorem pda_unique (sha256 : list Z -> list Z) (find : list (list Z) -> pubkey -> result (pubkey * Z))
    (law : address_law sha256 find) (d d' : derivation) (p p' a bump bump' : Z)
    (Hd : keys_ok d) (Hd' : keys_ok d') (Hp : valid_key p) (Hp' : valid_key p')
    (H : derive find d p = Ok (a, bump)) (H' : derive find d' p' = Ok (a, bump')) :
  (canon d = canon d' /\ p = p') \/ collides sha256.
Proof.
  rewrite derive_seeds in H, H'. destruct (seeds d) as [s|] eqn:Es; [|discriminate H]. destruct (seeds d') as [s'|] eqn:Es'; [|discriminate H'].
  apply law in H, H'. rewrite H in H'.
  destruct (decide (concat s ++ [bump] ++ toBuffer p ++ marker = concat s' ++ [bump'] ++ toBuffer p' ++ marker)) as [E|Hne].
  - left. apply app_inj_2 in E as [E1 E2]; [|by rewrite !length_app, !toBuffer_length].
    apply (f_equal tail), app_inv_tail in E2. split; [by eapply seeds_injective|].
    by rewrite <- (toBuffer_value p), <- (toBuffer_value p'), E2.
  - right. by eexists _, _.
Qed.

(** The proof verifier's batch accounts (batch_verify.rs) have the cranker and the
    batch's id among their seeds; the address the SDK derives is none of them. *)
Theorem batch_address_missed (sha256 : list Z -> list Z) (find : list (list Z) -> pubkey -> result (pubkey * Z))
    (law : address_law sha256 find) (p cranker a bump bump' : Z) (batch_id : list Z)
    (H : batchStatePda find p = Ok (a, bump)) (H' : find [enc "batch"; toBuffer cranker; batch_id] p = Ok (a, bump')) :
  collides sha256.
Proof.
  apply law in H, H'. rewrite H in H'. eexists _, _. split; [|exact H'].
  intros E%(f_equal length). revert E. rewrite !length_app. cbn [concat]. rewrite !length_app, !toBuffer_length. cbn [length]. lia.
Qed.

(** ** A concrete hash *)

Definition toy_sha (l : list Z) : list Z := fill_bytes 32 (be_value 0 l) [].

Definition toy_find (seeds : list (list Z)) (p : pubkey) : result (pubkey * Z) :=
  Ok (accumulate (toy_sha (concat seeds ++ [255] ++ toBuffer p ++ marker)), 255).

Lemma toBuffer_bytes l : Forall is_byte l -> length l = 32%nat -> toBuffer (accumulate l) = l.
Proof. apply fill_accumulate. Qed.

Lemma toy_sha_bytes l : Forall is_byte (toy_sha l) /\ length (toy_sha l) = 32%nat.
Proof. split; [apply fill_bytes_byte|apply fill_bytes_length]. Qed.

Lemma toy_find_law : address_law toy_sha toy_find.
Proof.
  intros s p a b H. unfold toy_find in H. apply ok_inj in H. rewrite <- (f_equal fst H : _ = a), <- (f_equal snd H : _ = b).
  cbn [fst snd]. generalize (concat s ++ [255] ++ toBuffer p ++ marker). intros l.
  destruct (toy_sha_bytes l) as [Hb Hl]. exact (toBuffer_bytes _ Hb Hl).
Qed.

Lemma toy_find_some s p : exists a b, toy_find s p = Ok (a, b).
Proof. by eexists _, _. Qed.

Lemma toy_find_suffix s s' p a b : toy_find s p = Ok (a, b) ->
  toy_sha (concat s ++ [255] ++ toBuffer p ++ marker) = toy_sha (concat s' ++ [255] ++ toBuffer p ++ marker) -> toy_find s' p = Ok (a, b).
Proof. unfold toy_find. by intros H <-. Qed.

Lemma pda_unique_witness : (canon D_guard = canon D_reentrancyGuard /\ 5 = 5) \/ collides toy_sha.
Proof.
  destruct (toy_find_some [enc "guard"] 5) as (a & b & E).
  assert (H5 : valid_key 5) by (unfold valid_key; lia).
  refine (pda_unique toy_sha toy_find toy_find_law D_guard D_reentrancyGuard 5 5 a b b I I H5 H5 _ _);
    rewrite derive_seeds; exact E.
Defined.

Lemma batch_address_missed_witness : collides toy_sha.
Proof.
  destruct (toy_find_some [enc "batch"] 0) as (a & b & E).
  refine (batch_address_missed toy_sha toy_find toy_find_law 0 3 a b b [1] E _).
  apply (toy_find_suffix _ _ _ _ _ E). vm_compute. reflexivity.
Defined.
