(* ===== verification/Buyback.v ===== *)
(** * Buyback: the bot that swaps fees for SAEP and burns it

    Models services/buyback-bot/src/worker.ts (one tick) and jupiter.ts (the quote
    and swap requests and the slippage gate); the timer that starts ticks comes last.  HTTP and the
    Solana RPC node are operations of the outside world ([buyback_ops]); URLs,
    keys, files and the transaction formats of web3.js and spl-token are
    parameters ([buyback_lib]).  A balance is the decimal text the node sends.

    The theorems: the requests and transactions of a tick, the slippage gate, and what
    a failed read of the balance does. *)

From Stdlib Require Import ZArith QArith Qround Qabs Ascii Lia Lqa.
From stdpp Require Import base list strings.
From S2P Require Import Prelude Effects Json Zod Numbers Submit.

#[local] Open Scope Z_scope.
#[local] Open Scope saep_scope.

(** ** jupiter.ts *)

Record QuoteResponse := {
  inputMint : string;
  outputMint : string;
  inAmount : string;
  outAmount : string;
  otherAmountThreshold : string;
  swapMode : string;
  q_slippageBps : Z;
  priceImpactPct : string;
}.

(** [z.number().int()] *)
Definition z_int : schema Z := fun v =>
  match v with
  | J_num q => if is_integer q then Some (Qfloor q) else None
  | _ => None
  end.

(** [z.object] keeps the listed keys and drops the others. *)
Definition QuoteResponseSchema : schema QuoteResponse := z_object (fun fs =>
  inm ← z_key "inputMint" z_str fs; outm ← z_key "outputMint" z_str fs; ina ← z_key "inAmount" z_str fs;
  outa ← z_key "outAmount" z_str fs; thr ← z_key "otherAmountThreshold" z_str fs; mode ← z_key "swapMode" z_str fs;
  bps ← z_key "slippageBps" z_int fs; impact ← z_key "priceImpactPct" z_str fs;
  Some {| inputMint := inm; outputMint := outm; inAmount := ina; outAmount := outa; otherAmountThreshold := thr; swapMode := mode;
          q_slippageBps := bps; priceImpactPct := impact |}).

(** The JSON value of a parsed quote. *)
Definition quote_json (q : QuoteResponse) : json :=
  J_obj [("inputMint", J_str (inputMint q)); ("outputMint", J_str (outputMint q)); ("inAmount", J_str (inAmount q));
         ("outAmount", J_str (outAmount q)); ("otherAmountThreshold", J_str (otherAmountThreshold q)); ("swapMode", J_str (swapMode q));
         ("slippageBps", J_num (inject_Z (q_slippageBps q))); ("priceImpactPct", J_str (priceImpactPct q))]%string.

Record SwapResponse := { swapTransaction : string; lastValidBlockHeight : Z }.

Definition SwapResponseSchema : schema SwapResponse := z_object (fun fs =>
  t ← z_key "swapTransaction" z_str fs; h ← z_key "lastValidBlockHeight" z_int fs;
  Some {| swapTransaction := t; lastValidBlockHeight := h |}).

(** What is not a finite number has no impact. *)
Definition priceImpactPctToBps (pct : string) : Z :=
  match js_Number pct with
  | Some parsed => js_round (Qabs parsed * 10000)
  | None => 0
  end.

Definition isWithinSlippageCap (quote : QuoteResponse) (capBps : Z) : bool := priceImpactPctToBps (priceImpactPct quote) <=? capBps.

(** [parse] of a schema. *)
Definition z_parse {A} (s : schema A) (v : json) : result A :=
  match s v with
  | Some a => Ok a
  | None => Throw "ZodError"
  end.

(** ** The outside world *)

(** What a confirmed transaction waits for: its blockhash and last valid height,
    or nothing but its signature. *)
Definition confirm_strategy : Type := option (string * Z).

Record buyback_ops (W : Type) := {
  bo_get : string -> io W (http_response * string);            (* with its statusText *)
  bo_post : string -> json -> io W (http_response * string);
  bo_tokenBalance : string -> io W string;                     (* getTokenAccountBalance(_).value.amount *)
  bo_sendRaw : string -> io W string;
  bo_confirm : string -> confirm_strategy -> io W (option json);
  bo_latestBlockhash : io W string;
}.
Arguments bo_get {W} _ _ _.
Arguments bo_post {W} _ _ _ _.
Arguments bo_tokenBalance {W} _ _ _.
Arguments bo_sendRaw {W} _ _ _.
Arguments bo_confirm {W} _ _ _ _.
Arguments bo_latestBlockhash {W} _ _.

Record buyback_lib (K V : Type) := {
  bl_url : string -> list (string * string) -> result string;     (* new URL(_), its parameters set *)
  bl_readFile : string -> result string;
  bl_keypair : string -> result K;                                (* Keypair.fromSecretKey of the JSON text *)
  bl_publicKey : K -> string;
  bl_PublicKey : string -> result string;
  bl_ata : string -> string -> result string;                     (* the owner's Token-2022 account of a mint *)
  bl_deserialize : string -> result V;                            (* a VersionedTransaction from base64 *)
  bl_sign : V -> K -> result V;
  bl_serialize : V -> string;
  bl_recentBlockhash : V -> string;
  bl_burnTx : string -> string -> K -> Z -> string -> result string;  (* account, mint, owner, amount, blockhash *)
}.
Arguments bl_url {K V} _ _ _.
Arguments bl_readFile {K V} _ _.
Arguments bl_keypair {K V} _ _.
Arguments bl_publicKey {K V} _ _.
Arguments bl_PublicKey {K V} _ _.
Arguments bl_ata {K V} _ _ _.
Arguments bl_deserialize {K V} _ _.
Arguments bl_sign {K V} _ _ _.
Arguments bl_serialize {K V} _ _.
Arguments bl_recentBlockhash {K V} _ _.
Arguments bl_burnTx {K V} _ _ _ _ _ _.

Inductive bot_mode := observe | active.

Record buyback_config := {
  mode : bot_mode;
  saepMint : string;
  usdcMint : string;
  feeAccumulatorAccount : option string;
  swapThresholdUsdc : Z;
  slippageBps : Z;
  jupiterApiUrl : string;
  operatorKeypairPath : option string;
  operatorKeypairJson : option string;
}.

Record TickResult := {
  feeBalanceUsdcBase : Z;
  swapped : bool;
  reason : option string;
  quotedSaepOutBase : option Z;
  quotedPriceImpactBps : option Z;
}.

Section bot.
Context {W K V : Type}.
Variable ops : buyback_ops W.
Variable lib : buyback_lib K V.

(** An HTTP answer that is not 2xx. *)
Definition http_failure (what : string) (r : http_response * string) : string :=
  let body := safeText r.1 in
  "jupiter " +:+ what +:+ " " +:+ z_text (status r.1) +:+ ": " +:+ (if String.eqb body "" then r.2 else body).

Definition getJupiterQuote (apiUrl inputMint outputMint : string) (amount slippageBps : Z) : io W QuoteResponse :=
  do! url <- io_lift (bl_url lib (drop_slash apiUrl +:+ "/quote")
    [("inputMint", inputMint); ("outputMint", outputMint); ("amount", z_text amount); ("slippageBps", z_text slippageBps);
     ("swapMode", "ExactIn")]%string) in
  do! res <- bo_get ops url in
  if negb (res_ok res.1) then io_throw (http_failure "quote" res)
  else do! body <- io_lift (res_json res.1) in io_lift (z_parse QuoteResponseSchema body).

Definition swap_body (quote : QuoteResponse) (userPublicKey : string) : json :=
  J_obj [("quoteResponse", quote_json quote); ("userPublicKey", J_str userPublicKey); ("wrapAndUnwrapSol", J_bool true)]%string.

Definition getJupiterSwap (apiUrl : string) (quote : QuoteResponse) (userPublicKey : string) : io W SwapResponse :=
  do! res <- bo_post ops (drop_slash apiUrl +:+ "/swap") (swap_body quote userPublicKey) in
  if negb (res_ok res.1) then io_throw (http_failure "swap" res)
  else do! body <- io_lift (res_json res.1) in io_lift (z_parse SwapResponseSchema body).

(** ** worker.ts *)

Definition resolveKeypair (config : buyback_config) : result K :=
  match operatorKeypairJson config, operatorKeypairPath config with
  | Some (String _ _ as json), _ => bl_keypair lib json
  | _, Some (String _ _ as path) => let! raw := bl_readFile lib path in bl_keypair lib raw
  | _, _ => Throw "active mode requires OPERATOR_KEYPAIR_PATH or OPERATOR_KEYPAIR_JSON"
  end.

Definition readBalance (tokenAccount : string) : io W Z :=
  do! amount <- bo_tokenBalance ops tokenAccount in io_lift (js_BigInt amount).

Definition TickResult_of (balance : Z) (swapped : bool) (reason : option string) (quote : option (Z * Z)) : TickResult :=
  {| feeBalanceUsdcBase := balance; swapped := swapped; reason := reason; quotedSaepOutBase := option_map fst quote;
     quotedPriceImpactBps := option_map snd quote |}.

(** The swap: what the operator's SAEP account grew by.  A balance that cannot be
    read before it counts as zero. *)
Definition swap (config : buyback_config) (quote : QuoteResponse) (cranker : K) (mint : string) : io W Z :=
  do! swapRes <- getJupiterSwap (jupiterApiUrl config) quote (bl_publicKey lib cranker) in
  do! unsigned <- io_lift (bl_deserialize lib (swapTransaction swapRes)) in
  do! vTx <- io_lift (bl_sign lib unsigned cranker) in
  do! ata <- io_lift (bl_ata lib mint (bl_publicKey lib cranker)) in
  do! preBal <- io_catch (readBalance ata) (fun _ => io_ret 0) in
  do! sig <- bo_sendRaw ops (bl_serialize lib vTx) in
  do! _ <- bo_confirm ops sig (Some (bl_recentBlockhash lib vTx, lastValidBlockHeight swapRes)) in
  do! postBal <- readBalance ata in
  io_ret (postBal - preBal).

Definition burn (cranker : K) (mint : string) (saepReceived : Z) : io W unit :=
  do! ata <- io_lift (bl_ata lib mint (bl_publicKey lib cranker)) in
  do! blockhash <- bo_latestBlockhash ops in
  do! tx <- io_lift (bl_burnTx lib ata mint cranker saepReceived blockhash) in
  do! sig <- bo_sendRaw ops tx in
  do! _ <- bo_confirm ops sig None in
  io_ret tt.

(** The tick once the quote has passed the gate in active mode. *)
Definition swap_and_burn (config : buyback_config) (balance : Z) (quote : QuoteResponse) (quoted : Z * Z) : io W TickResult :=
  do! cranker <- io_lift (match resolveKeypair config with
                          | Ok k => Ok k
                          | Throw _ => Throw "active mode requires OPERATOR_KEYPAIR_PATH or OPERATOR_KEYPAIR_JSON"
                          end) in
  do! mint <- io_lift (bl_PublicKey lib (saepMint config)) in
  do! saepReceived <- swap config quote cranker mint in
  if saepReceived <=? 0 then io_ret (TickResult_of balance true (Some "zero_saep_received"%string) (Some quoted))
  else
    do! _ <- burn cranker mint saepReceived in
    io_ret (TickResult_of balance true None (Some quoted)).

Definition runTick (config : buyback_config) : io W TickResult :=
  match feeAccumulatorAccount config with
  | Some (String _ _ as account) =>
    do! feeAccount <- io_lift (match bl_PublicKey lib account with
                               | Ok k => Ok k
                               | Throw _ => Throw ("invalid BUYBACK_FEE_ACCUMULATOR_ACCOUNT: " +:+ account)
                               end) in
    do! balance <- readBalance feeAccount in
    if balance <? swapThresholdUsdc config then io_ret (TickResult_of balance false (Some "below_threshold"%string) None)
    else
      do! quote <- getJupiterQuote (jupiterApiUrl config) (usdcMint config) (saepMint config) balance (slippageBps config) in
      do! outBase <- io_lift (js_BigInt (outAmount quote)) in
      let quoted := (outBase, priceImpactPctToBps (priceImpactPct quote)) in
      if negb (isWithinSlippageCap quote (slippageBps config))
      then io_ret (TickResult_of balance false (Some "slippage_above_cap"%string) (Some quoted))
      else match mode config with
           | active => swap_and_burn config balance quote quoted
           | observe => io_ret (TickResult_of balance false (Some "observe_mode"%string) (Some quoted))
           end
  | _ => io_ret (TickResult_of 0 false (Some "fee_account_unset"%string) None)
  end.
End bot.

(** ** startWorker: the periodic workers

    The scheduling of services/buyback-bot/src/worker.ts, which that of
    services/fee-crank/src/worker.ts repeats: an interval timer that begins a run
    unless one is in progress.  The environment's inputs are a list: calls of [start]
    and [stop], the interval's firing, and the end of the run in progress, whether it
    returned or threw. *)

Record poller := { timer : bool; running : bool }.

Definition new_poller : poller := {| timer := false; running := false |}.

Inductive poll_input := I_start | I_interval | I_settled | I_stop.

(** [tick] up to its await: whether it begins a run. *)
Definition tick (p : poller) : poller * bool :=
  if running p then (p, false) else ({| timer := timer p; running := true |}, true).

(** [start] *)
Definition start (p : poller) : poller * bool :=
  if timer p then (p, false) else tick {| timer := true; running := running p |}.

(** [stop]: it does not wait for the run in progress. *)
Definition stop (p : poller) : poller := {| timer := false; running := running p |}.

(** One input; [None] when the environment cannot give it. *)
Definition poll (p : poller) (i : poll_input) : option (poller * bool) :=
  match i with
  | I_start => Some (start p)
  | I_interval => if timer p then Some (tick p) else None
  | I_settled => if running p then Some ({| timer := timer p; running := false |}, false) else None
  | I_stop => Some (stop p, false)
  end.

(** What is observed of a list of inputs: where runs begin and end. *)
Inductive mark := Begins | Ends.

Fixpoint poll_all (p : poller) (ins : list poll_input) : option (poller * list mark) :=
  match ins with
  | [] => Some (p, [])
  | i :: ins' =>
    match poll p i with
    | None => None
    | Some (p', began) =>
      match poll_all p' ins' with
      | None => None
      | Some (q, ms) => Some (q, (if began then [Begins] else match i with I_settled => [Ends] | _ => [] end) ++ ms)
      end
    end
  end.

(** Begins and Ends in turn; [open] tells whether a run is in progress. *)
Fixpoint alternate (open : bool) (ms : list mark) : bool :=
  match ms with
  | [] => true
  | Begins :: ms' => negb open && alternate true ms'
  | Ends :: ms' => open && alternate false ms'
  end.

(** The marks of a list of inputs, before marks that fit the state it leads to. *)
Lemma poll_all_alternates p ins q ms tl : poll_all p ins = Some (q, ms) -> alternate (running q) tl = true ->
  alternate (running p) (ms ++ tl) = true.
Proof.
  revert p q ms. induction ins as [|i ins IH]; cbn; intros p q ms H Ht; [by injection H as <- <-|].
  destruct (poll p i) as [[p' began]|] eqn:Ep; [|done]. destruct (poll_all p' ins) as [[q' ms']|] eqn:Ea; [|done].
  injection H as <- <-. specialize (IH _ _ _ Ea Ht). destruct p as [t r], i, t, r; cbn in Ep; try done; injection Ep as <- <-; exact IH.
Qed.

Lemma stopped_begins_nothing p ins q ms : timer p = false -> I_start ∉ ins -> poll_all p ins = Some (q, ms) -> Begins ∉ ms.
Proof.
  revert p q ms. induction ins as [|i ins IH]; cbn; intros p q ms Ht Hs H; [injection H as <- <-; apply not_elem_of_nil|].
  apply not_elem_of_cons in Hs as [Hi Hs]. destruct (poll p i) as [[p' began]|] eqn:Ep; [|done].
  destruct (poll_all p' ins) as [[q' ms']|] eqn:Ea; [|done]. injection H as <- <-. destruct p as [t r]. cbn in Ht. subst t.
  destruct i, r; cbn in Ep; try done; injection Ep as <- <-; apply IH in Ea; try done; cbn; [|done..].
  by intros [?|?]%elem_of_cons.
Qed.

(** Runs of a worker never overlap: on every list of inputs they begin and end in
    turn, and an interval that fires during a run is dropped; every interval that
    fires outside of one begins a run; after [stop] nothing begins until [start]. *)
Theorem runs_never_overlap (ins rest : list poll_input) (p q : poller) (ms ms' : list mark)
    (H : poll_all new_poller ins = Some (p, ms)) (H' : poll_all p rest = Some (q, ms')) :
  alternate false (ms ++ ms') = true /\
  (timer p = true -> poll p I_interval = Some ({| timer := true; running := true |}, negb (running p))) /\
  (timer p = false -> I_start ∉ rest -> Begins ∉ ms').
Proof.
  split_and!.
  - apply (poll_all_alternates _ _ _ _ _ H). rewrite <- (app_nil_r ms'). by apply (poll_all_alternates _ _ _ _ _ H').
  - intros Ht. cbn. rewrite Ht. unfold tick. destruct p as [t []]; cbn in *; by subst t.
  - intros Ht Hs. by eapply stopped_begins_nothing.
Qed.

Lemma runs_never_overlap_witness :
  poll_all new_poller [I_start; I_interval; I_settled; I_interval; I_stop] =
    Some ({| timer := false; running := true |}, [Begins; Ends; Begins]) /\
  Begins ∉ [Ends].
Proof.
  split; [reflexivity|].
  apply (runs_never_overlap [I_start; I_interval; I_settled; I_interval; I_stop] [I_settled]
    {| timer := false; running := true |} {| timer := false; running := false |} [Begins; Ends; Begins] [Ends] eq_refl eq_refl);
    [reflexivity|]. by intros [?|?%not_elem_of_nil]%elem_of_cons.
Defined.

(** ** What a tick may do *)

(** ** The gate *)

Lemma js_round_le q n : js_round q <= n <-> (q < inject_Z n + (1 # 2))%Q.
Proof.
  unfold js_round. split.
  - intros H. pose proof (Qlt_floor (q + (1 # 2))) as L. rewrite inject_Z_plus in L.
    assert (inject_Z (Qfloor (q + (1 # 2))) <= inject_Z n)%Q by (by rewrite <- Zle_Qle). change (inject_Z 1) with 1%Q in L. lra.
  - intros H. pose proof (Qfloor_le (q + (1 # 2))) as L.
    enough (Qfloor (q + (1 # 2)) < n + 1) by lia. rewrite Zlt_Qlt, inject_Z_plus. change (inject_Z 1) with 1%Q. lra.
Qed.

(** A quote passes the gate when its impact is a number below the cap and half a
    basis point, whatever its sign; one whose impact is not a number always
    passes. *)
Theorem slippage_gate (quote : QuoteResponse) (cap : Z) (Hc : 0 <= cap) :
  isWithinSlippageCap quote cap =
    match js_Number (priceImpactPct quote) with
    | Some pct => q_ltb (Qabs pct * 10000) (inject_Z cap + (1 # 2))
    | None => true
    end.
Proof.
  unfold isWithinSlippageCap, priceImpactPctToBps. destruct (js_Number (priceImpactPct quote)) as [p|]; [|by apply Z.leb_le].
  apply eq_true_iff_eq. rewrite Z.leb_le, q_ltb_lt. apply js_round_le.
Qed.

Lemma slippage_gate_witness :
  let quote s := {| inputMint := ""; outputMint := ""; inAmount := ""; outAmount := ""; otherAmountThreshold := ""; swapMode := "";
                    q_slippageBps := 0; priceImpactPct := s |}%string in
  isWithinSlippageCap (quote "NaN") 200 = true /\ isWithinSlippageCap (quote "-0.0201") 200 = false.
Proof.
  intros quote. rewrite (slippage_gate (quote "NaN"%string) 200), (slippage_gate (quote "-0.0201"%string) 200) by lia.
  vm_compute. split; reflexivity.
Defined.

(** Of what Jupiter answered, the swap request carries the eight keys the bot
    itself looks at: the route is dropped. *)
Lemma swap_body_keys (answer : json) (quote : QuoteResponse) (user : string) : QuoteResponseSchema answer = Some quote ->
  exists fs, swap_body quote user = J_obj [("quoteResponse", J_obj fs); ("userPublicKey", J_str user); ("wrapAndUnwrapSol", J_bool true)]%string /\
    map fst fs = ["inputMint"; "outputMint"; "inAmount"; "outAmount"; "otherAmountThreshold"; "swapMode"; "slippageBps"; "priceImpactPct"]%string /\
    member "routePlan" fs = None.
Proof. intros _. by eexists. Qed.

(** ** The requests and transactions of a tick *)

Inductive bot_event :=
| E_swap_request (url : string) (body : json)
| E_sent (raw : string).

Section sent.
Context {W K V : Type}.
Variable ops : buyback_ops W.
Variable lib : buyback_lib K V.
Variable sent : W -> list bot_event.

Definition silent (w w' : W) : Prop := sent w' = sent w.

#[export] Instance silent_refl : Reflexive silent.
Proof. by intros w. Qed.

#[export] Instance silent_trans : Transitive silent.
Proof. intros a b c. unfold silent. congruence. Qed.

Record bot_laws : Prop := {
  law_get : forall u, steps silent (bo_get ops u);
  law_balance : forall a, steps silent (bo_tokenBalance ops a);
  law_bconfirm : forall s c, steps silent (bo_confirm ops s c);
  law_hash : steps silent (bo_latestBlockhash ops);
  law_post : forall u b w r w', bo_post ops u b w = Some (r, w') -> sent w' = sent w ++ [E_swap_request u b];
  law_sendRaw : forall raw w r w', bo_sendRaw ops raw w = Some (r, w') -> sent w' = sent w ++ [E_sent raw];
}.
Hypothesis laws : bot_laws.

#[local] Hint Resolve law_get law_balance law_bconfirm law_hash : steps.

Lemma readBalance_silent a : steps silent (readBalance ops a).
Proof. unfold readBalance. apply steps_bind; [apply _|by apply (law_balance laws)|]. intros s. apply steps_lift, _. Qed.

Lemma quote_silent api i o a b : steps silent (getJupiterQuote ops lib api i o a b).
Proof.
  unfold getJupiterQuote. apply steps_bind; [apply _|apply steps_lift, _|]. intros u. apply steps_bind; [apply _|by apply (law_get laws)|].
  intros res. destruct (negb _); [apply steps_throw, _|]. apply steps_bind; [apply _|apply steps_lift, _|]. intros v. apply steps_lift, _.
Qed.

(** [m] adds to the trace what [P] allows of its result. *)
Definition adds {A} (P : result A -> list bot_event -> Prop) (m : io W A) : Prop :=
  forall w r w', m w = Some (r, w') -> exists tr, sent w' = sent w ++ tr /\ P r tr.

Lemma adds_silent {A} (P : result A -> list bot_event -> Prop) m : steps silent m -> (forall r, P r []) -> adds P m.
Proof. intros H HP w r w' E. exists []. rewrite app_nil_r. split; [by eapply H|apply HP]. Qed.

Lemma adds_bind {A B} (P : result A -> list bot_event -> Prop) (Q : result B -> list bot_event -> Prop) (m : io W A) (k : A -> io W B) :
  adds P m -> (forall e tr, P (Throw e) tr -> Q (Throw e) tr) ->
  (forall a tr, P (Ok a) tr -> adds (fun r tr' => Q r (tr ++ tr')) (k a)) -> adds Q (io_bind m k).
Proof.
  intros Hm He Hk w r w' [(a & w1 & E1 & E2)|(e & E1 & ->)]%io_bind_run; apply Hm in E1 as (tr & S1 & P1).
  - apply (Hk a tr P1) in E2 as (tr' & S2 & Q2). exists (tr ++ tr'). rewrite S2, S1, app_assoc. done.
  - exists tr. auto.
Qed.

Lemma adds_quiet {A B} (Q : result B -> list bot_event -> Prop) (m : io W A) (k : A -> io W B) :
  steps silent m -> (forall e, Q (Throw e) []) -> (forall a, adds Q (k a)) -> adds Q (io_bind m k).
Proof.
  intros Hm He Hk. apply (adds_bind (fun _ tr => tr = []) Q); [by apply adds_silent|by intros e tr ->|]. intros a tr ->. apply Hk.
Qed.

Lemma adds_lift {A B} (Q : result B -> list bot_event -> Prop) (x : result A) (k : A -> io W B) :
  (forall e, Q (Throw e) []) -> (forall a, x = Ok a -> adds Q (k a)) -> adds Q (io_bind (io_lift x) k).
Proof.
  intros He Hk w r w'. unfold io_bind, io_lift. destruct x as [a|e]; [by apply Hk|]. intros [= <- <-]. exists []. by rewrite app_nil_r.
Qed.

Lemma adds_ret {A} (P : result A -> list bot_event -> Prop) a : P (Ok a) [] -> adds P (io_ret a).
Proof. intros HP w r w' [= <- <-]. exists []. by rewrite app_nil_r. Qed.

(** The request a swap of a quote begins with. *)
Definition swap_request (config : buyback_config) (quote : QuoteResponse) (k : K) : bot_event :=
  E_swap_request (drop_slash (jupiterApiUrl config) +:+ "/swap") (swap_body quote (bl_publicKey lib k)).

(** The swap of a quote: the request, then the transaction of the answer signed by
    the operator. *)
Definition swap_trace (config : buyback_config) (quote : QuoteResponse) (k : K) (r : result Z) (tr : list bot_event) : Prop :=
  (tr = [swap_request config quote k] /\ exists e, r = Throw e) \/
  exists unsigned v, bl_sign lib unsigned k = Ok v /\ tr = [swap_request config quote k; E_sent (bl_serialize lib v)].

Lemma getSwap_adds config quote k :
  adds (fun _ tr => tr = [swap_request config quote k]) (getJupiterSwap ops (jupiterApiUrl config) quote (bl_publicKey lib k)).
Proof.
  unfold getJupiterSwap. eapply (adds_bind (fun _ tr => tr = [swap_request config quote k])).
  - intros w r w' E. eexists. split; [by eapply (law_post laws)|done].
  - done.
  - intros res tr ->. cbn [app]. destruct (negb _); apply adds_silent; try done; [apply steps_throw, _|].
    apply steps_bind; [apply _|apply steps_lift, _|]. intros v. apply steps_lift, _.
Qed.

Lemma swap_adds config quote k mint : adds (swap_trace config quote k) (swap ops lib config quote k mint).
Proof.
  unfold swap, swap_trace. eapply adds_bind; [apply getSwap_adds|intros e tr ->; left; eauto|]. intros res tr ->. cbn [app].
  apply adds_lift; [left; eauto|]. intros unsigned _. apply adds_lift; [left; eauto|]. intros v Hv.
  apply adds_lift; [left; eauto|]. intros ata _. apply adds_quiet; [|left; eauto|].
  { apply steps_catch; [apply _|apply readBalance_silent|]. intros e. apply steps_ret, _. }
  intros pre. eapply (adds_bind (fun _ tr => tr = [E_sent (bl_serialize lib v)])).
  { intros w r w' E. eexists. split; [by eapply (law_sendRaw laws)|done]. }
  { intros e tr ->. right. by exists unsigned, v. }
  intros sig tr ->. apply adds_silent; [|intros r; right; by exists unsigned, v].
  apply steps_bind; [apply _|by apply (law_bconfirm laws)|]. intros _.
  apply steps_bind; [apply _|apply readBalance_silent|]. intros post. apply steps_ret, _.
Qed.

(** The burn of an amount: nothing, or the transaction that burns it. *)
Definition burn_trace (k : K) (mint : string) (n : Z) (r : result unit) (tr : list bot_event) : Prop :=
  (tr = [] /\ exists e, r = Throw e) \/ exists ata hash tx, bl_burnTx lib ata mint k n hash = Ok tx /\ tr = [E_sent tx].

Lemma burn_adds k mint n : adds (burn_trace k mint n) (burn ops lib k mint n).
Proof.
  unfold burn, burn_trace. apply adds_lift; [left; eauto|]. intros ata _.
  apply adds_quiet; [by apply (law_hash laws)|left; eauto|]. intros hash. apply adds_lift; [left; eauto|]. intros tx Htx.
  eapply (adds_bind (fun _ tr => tr = [E_sent tx])).
  { intros w r w' E. eexists. split; [by eapply (law_sendRaw laws)|done]. }
  { intros e tr ->. right. by eexists _, _, _. }
  intros sig tr ->. apply adds_silent; [|intros r; right; by eexists _, _, _].
  apply steps_bind; [apply _|by apply (law_bconfirm laws)|]. intros _. apply steps_ret, _.
Qed.

(** What a tick may add: nothing, or in active mode, for a balance at or above the
    threshold and a quote inside the cap, the operator's swap, and after a swap that
    brought something one burn of exactly that. *)
Definition tick_trace (config : buyback_config) (r : result TickResult) (tr : list bot_event) : Prop :=
  (tr = [] /\ forall t, r = Ok t -> swapped t = false) \/
  exists quote k, mode config = active /\ isWithinSlippageCap quote (slippageBps config) = true /\ resolveKeypair lib config = Ok k /\
    (forall t, r = Ok t -> swapped t = true /\ swapThresholdUsdc config <= feeBalanceUsdcBase t) /\
    ((tr = [swap_request config quote k] /\ exists e, r = Throw e) \/
     exists unsigned v burned, bl_sign lib unsigned k = Ok v /\ tr = [swap_request config quote k; E_sent (bl_serialize lib v)] ++ burned /\
       (burned = [] \/ exists mint ata n hash tx, bl_PublicKey lib (saepMint config) = Ok mint /\ 0 < n /\
          bl_burnTx lib ata mint k n hash = Ok tx /\ burned = [E_sent tx])).

Lemma swap_and_burn_adds config balance quote quoted :
  mode config = active -> isWithinSlippageCap quote (slippageBps config) = true -> swapThresholdUsdc config <= balance ->
  adds (tick_trace config) (swap_and_burn ops lib config balance quote quoted).
Proof.
  intros Hm Hs Hb. unfold swap_and_burn. apply adds_lift; [by left|]. intros k Hk.
  destruct (resolveKeypair lib config) as [k'|] eqn:Ek; [|done]. apply ok_inj in Hk as ->.
  apply adds_lift; [by left|]. intros mint Hmint.
  eapply adds_bind; [apply swap_adds| |].
  - intros e tr [[-> He]|(un & v & Hv & ->)]; right; exists quote, k; split_and!; try done; [left; split; [done|by eexists]|].
    right. exists un, v, []. split_and!; [done|done|by left].
  - intros n tr [[_ [e [=]]]|(un & v & Hv & ->)]. destruct (Z.leb_spec n 0).
    + apply adds_ret. right. exists quote, k. split_and!; try done; [by intros t <-%ok_inj|].
      right. exists un, v, []. split_and!; [done|done|by left].
    + eapply (adds_bind (burn_trace k mint n)); [apply burn_adds| |].
      * intros e tr [[-> He]|(ata & hash & tx & Htx & ->)]; right; exists quote, k; split_and!; try done; right;
          [exists un, v, []|exists un, v, [E_sent tx]]; split_and!; try done; [by left|right].
        exists mint, ata, n, hash, tx. split_and!; [done|lia|done|done].
      * intros u tr [[_ [e [=]]]|(ata & hash & tx & Htx & ->)]. apply adds_ret. right. exists quote, k.
        split_and!; try done; [by intros t <-%ok_inj|]. right. exists un, v, [E_sent tx]. split_and!; try done. right.
        exists mint, ata, n, hash, tx. split_and!; [done|lia|done|done].
Qed.

(** C31: a tick moves money only in active mode, once, for a balance at or above the
    threshold and a quote inside the slippage cap: one swap signed by the operator
    and, if it brought SAEP, one burn of a positive amount of it. *)
Theorem tick_moves_once (config : buyback_config) (w w' : W) (r : result TickResult) (H : runTick ops lib config w = Some (r, w')) :
  exists tr, sent w' = sent w ++ tr /\ tick_trace config r tr.
Proof.
  enough (HA : adds (tick_trace config) (runTick ops lib config)) by (by apply HA in H). unfold runTick.
  assert (Hq : forall b why q, tick_trace config (Ok (TickResult_of b false why q)) []) by (left; split; [done|by intros t <-%ok_inj]).
  destruct (feeAccumulatorAccount config) as [[|c account]|]; try by apply adds_ret.
  assert (Ht : forall e, tick_trace config (Throw e) []) by (by left).
  apply adds_lift; [done|]. intros account' _. apply adds_quiet; [apply readBalance_silent|done|]. intros balance.
  destruct (Z.ltb_spec balance (swapThresholdUsdc config)); [by apply adds_ret|].
  apply adds_quiet; [apply quote_silent|done|]. intros quote. apply adds_lift; [done|]. intros out _. cbv zeta.
  destruct (isWithinSlippageCap quote (slippageBps config)) eqn:Es; [|by apply adds_ret]. cbn [negb].
  destruct (mode config) eqn:Em; [by apply adds_ret|]. by apply swap_and_burn_adds.
Qed.
End sent.

(** ** What is burned *)

Section amount.
Context {W K V : Type}.
Variable ops : buyback_ops W.
Variable lib : buyback_lib K V.

(** The balance before the swap, as the bot counts it. *)
Definition counted_before (read : result string) : Z :=
  match (let! t := read in js_BigInt t) with
  | Ok n => n
  | Throw _ => 0
  end.

(** The amount to burn is the balance after the swap less the balance before it,
    whatever the confirmation reports; when the balance before cannot be read it is
    the operator's whole balance. *)
Theorem swap_amount (config : buyback_config) (quote : QuoteResponse) (k : K) (mint ata text : string) (res : SwapResponse) (u v : V)
    (before : result string) (sig : string) (err : option json) (after : Z) (w w1 w2 w3 w4 w5 : W)
    (Hq : getJupiterSwap ops (jupiterApiUrl config) quote (bl_publicKey lib k) w = Some (Ok res, w1))
    (Hu : bl_deserialize lib (swapTransaction res) = Ok u) (Hv : bl_sign lib u k = Ok v) (Ha : bl_ata lib mint (bl_publicKey lib k) = Ok ata)
    (Hb : bo_tokenBalance ops ata w1 = Some (before, w2)) (Hs : bo_sendRaw ops (bl_serialize lib v) w2 = Some (Ok sig, w3))
    (Hc : bo_confirm ops sig (Some (bl_recentBlockhash lib v, lastValidBlockHeight res)) w3 = Some (Ok err, w4))
    (Hp : bo_tokenBalance ops ata w4 = Some (Ok text, w5)) (Ht : js_BigInt text = Ok after) :
  swap ops lib config quote k mint w = Some (Ok (after - counted_before before), w5).
Proof.
  unfold swap. rewrite (bind_ok_run _ _ _ _ _ Hq), Hu, (bind_ok_run _ _ w1 u w1 eq_refl), Hv, (bind_ok_run _ _ w1 v w1 eq_refl), Ha,
    (bind_ok_run _ _ w1 ata w1 eq_refl).
  assert (Hpre : io_catch (readBalance ops ata) (fun _ => io_ret 0) w1 = Some (Ok (counted_before before), w2)).
  { unfold io_catch, readBalance, io_bind, io_lift, counted_before. rewrite Hb. destruct before as [t|e]; cbn [result_bind]; [|done].
    by destruct (js_BigInt t). }
  rewrite (bind_ok_run _ _ _ _ _ Hpre), (bind_ok_run _ _ _ _ _ Hs), (bind_ok_run _ _ _ _ _ Hc).
  assert (Hpost : readBalance ops ata w4 = Some (Ok after, w5)).
  { unfold readBalance. rewrite (bind_ok_run _ _ _ _ _ Hp). unfold io_lift. by rewrite Ht. }
  by rewrite (bind_ok_run _ _ _ _ _ Hpost).
Qed.
End amount.

(** ** A concrete world *)

(** What was sent, and the answers left to give to balance reads. *)
Definition toy_bot : Type := list bot_event * list (result string).

Definition toy_answer (body : json) : http_response * string := ({| status := 200; res_text := Ok ""; res_json := Ok body |}, "OK")%string.

Definition toy_quote_json : json :=
  J_obj [("inputMint", J_str "usdc"); ("outputMint", J_str "saep"); ("inAmount", J_str "60"); ("outAmount", J_str "900");
         ("otherAmountThreshold", J_str "880"); ("swapMode", J_str "ExactIn"); ("slippageBps", J_num 200); ("priceImpactPct", J_str "0.001");
         ("routePlan", J_arr [])]%string.

Definition toy_bot_ops : buyback_ops toy_bot :=
  {| bo_get := fun u w => Some (Ok (toy_answer toy_quote_json), w);
     bo_post := fun u b w => Some (Ok (toy_answer (J_obj [("swapTransaction", J_str "tx"); ("lastValidBlockHeight", J_num 9)])%string),
                                   (app w.1 [E_swap_request u b], w.2));
     bo_tokenBalance := fun a w => match w.2 with r :: rest => Some (r, (w.1, rest)) | [] => Some (Throw "no answer"%string, w) end;
     bo_sendRaw := fun raw w => Some (Ok "sig"%string, (app w.1 [E_sent raw], w.2));
     bo_confirm := fun _ _ w => Some (Ok (Some (J_str "InstructionError")), w);
     bo_latestBlockhash := fun w => Some (Ok "hash"%string, w) |}.

Definition toy_bot_lib : buyback_lib string string :=
  {| bl_url := fun b _ => Ok b; bl_readFile := fun p => Ok p; bl_keypair := fun s => Ok s; bl_publicKey := fun k => k;
     bl_PublicKey := fun s => Ok s; bl_ata := fun m o => Ok (m +:+ "/" +:+ o)%string; bl_deserialize := fun t => Ok t;
     bl_sign := fun v k => Ok (v +:+ " by " +:+ k)%string; bl_serialize := fun v => v; bl_recentBlockhash := fun _ => "hash"%string;
     bl_burnTx := fun a m k n h => Ok ("burn " +:+ z_text n)%string |}.

Definition toy_bot_config : buyback_config :=
  {| mode := active; saepMint := "saep"; usdcMint := "usdc"; feeAccumulatorAccount := Some "fees"%string; swapThresholdUsdc := 50;
     slippageBps := 200; jupiterApiUrl := "https://jup/"; operatorKeypairPath := None; operatorKeypairJson := Some "op"%string |}.

Lemma toy_bot_laws : bot_laws toy_bot_ops fst.
Proof.
  constructor; cbn; [by intros u w r w' [= <- <-]| |by intros s c w r w' [= <- <-]|by intros w r w' [= <- <-]|by intros u b w r w' [= <- <-]|
    by intros raw w r w' [= <- <-]].
  intros a [l [|r0 rest]] r w' H; cbn in H; by injection H as _ <-.
Qed.

Lemma tick_moves_once_witness :
  exists r l, runTick toy_bot_ops toy_bot_lib toy_bot_config ([], [Ok "60"; Ok "5"; Ok "905"])%string = Some (r, (l, [])) /\
    tick_trace toy_bot_lib toy_bot_config r l /\ l !! 2%nat = Some (E_sent "burn 900").
Proof.
  destruct (runTick toy_bot_ops toy_bot_lib toy_bot_config ([], [Ok "60"; Ok "5"; Ok "905"])%string) as [[r [l rest]]|] eqn:E;
    [|vm_compute in E; discriminate E].
  destruct (tick_moves_once toy_bot_ops toy_bot_lib fst toy_bot_laws toy_bot_config _ _ _ E) as (tr & Htr & HT). cbn [fst app] in Htr.
  subst tr. exists r, l. vm_compute in E. injection E as <- <- <-. split; [reflexivity|]. split; [exact HT|reflexivity].
Defined.

Definition toy_quote : QuoteResponse :=
  {| inputMint := "usdc"; outputMint := "saep"; inAmount := "60"; outAmount := "900"; otherAmountThreshold := "880"; swapMode := "ExactIn";
     q_slippageBps := 200; priceImpactPct := "0.001" |}%string.

Lemma swap_amount_witness :
  let w rest := ([swap_request toy_bot_lib toy_bot_config toy_quote "op"%string; E_sent "tx by op"], rest) in
  swap toy_bot_ops toy_bot_lib toy_bot_config toy_quote "op" "saep" ([], [Throw "timeout"; Ok "905"])%string = Some (Ok 905, w []).
Proof.
  set (l1 := [swap_request toy_bot_lib toy_bot_config toy_quote "op"%string]).
  set (l2 := app l1 [E_sent "tx by op"]).
  exact (swap_amount toy_bot_ops toy_bot_lib toy_bot_config toy_quote "op"%string "saep"%string "saep/op"%string "905"%string
    {| swapTransaction := "tx"; lastValidBlockHeight := 9 |}%string "tx"%string "tx by op"%string (Throw "timeout"%string) "sig"%string
    (Some (J_str "InstructionError")) 905 ([], [Throw "timeout"; Ok "905"])%string (l1, [Throw "timeout"; Ok "905"])%string
    (l1, [Ok "905"])%string (l2, [Ok "905"])%string (l2, [Ok "905"])%string (l2, [])
    eq_refl eq_refl eq_refl eq_refl eq_refl eq_refl eq_refl eq_refl eq_refl).
Defined.
