(* ===== verification/Settlement.v ===== *)
(** * Settlement: proofs for settling a task from the browser

    Models packages/sdk-ui/src/settlement.ts: hexadecimal and field-element bytes,
    the proof key, the request to the proof generator, the validation of a witness
    the user pastes, and the readiness checks.  The request's types are those of
    ProofGen, whose schemas receive it.  SHA-256, [TextDecoder] and [JSON.parse]
    are parameters. *)

From Stdlib Require Import ZArith QArith Ascii.
From stdpp Require Import base list strings.
From S2P Require Import Prelude Effects Bytes Json Hex Zod Numbers ZkCatalog ProofGen Pda.

#[local] Open Scope Z_scope.
#[local] Open Scope saep_scope.

Definition TASK_COMPLETION_CIRCUIT_ID : string := "task_completion.v1".
Definition TASK_COMPLETION_CIRCUIT_LABEL : string := "task_completion_v1".
Definition TASK_COMPLETION_PUBLIC_INPUTS : list string :=
  ["task_hash"; "result_hash"; "deadline"; "submitted_at"; "criteria_root"]%string.

Definition TaskCompletionPublicInputs : Type := PublicInputs.
Definition TaskCompletionPrivateInputs : Type := PrivateInputs.
Definition TaskCompletionProofGenRequest : Type := ProveRequest.

(** ** Bytes *)

(** [hexToBytes]: with or without 0x, an even number of hexadecimal characters. *)
Definition settlement_hexToBytes (hex : string) (expectedBytes : option nat) : result (list Z) :=
  let normalized := strip_0x hex in
  if negb (all_chars hex_any normalized) || negb (Nat.even (String.length normalized))
  then Throw "hex value must contain an even number of hexadecimal characters"
  else
    let out := map (fun h => to_uint8 (parseInt16 h)) (char_pairs normalized) in
    match expectedBytes with
    | Some n => if (length out =? n)%nat then Ok out else Throw ("hex value must be " +:+ z_text (Z.of_nat n) +:+ " bytes")
    | None => Ok out
    end.

Definition to0xHash32 (bytes : list Z) : result string :=
  if (length bytes =? 32)%nat then Ok ("0x" +:+ bytesToHex bytes) else Throw "hash must be 32 bytes".

Fixpoint until_zero (l : list Z) : list Z :=
  match l with
  | [] => []
  | b :: l' => if b =? 0 then [] else b :: until_zero l'
  end.

(** [label.replace(/\0+$/, '')] *)
Fixpoint drop_zeros (s : string) : string :=
  match s with
  | EmptyString => EmptyString
  | String c s' =>
    let t := drop_zeros s' in
    if bool_decide (c = Ascii.zero) && String.eqb t "" then EmptyString else String c t
  end.

(** Thirty-two bytes, the label's first. *)
Definition paddedCircuitLabel (label : string) : list Z :=
  let bytes := take 32 (enc label) in bytes ++ repeat 0 (32 - length bytes).

Definition fieldElementToBytes (value : string) : result (list Z) :=
  let! n := js_BigInt value in
  if n <? 0 then Throw "field element must be non-negative"
  else
    let cursor := Nat.iter 32 (fun c => Z.shiftr c 8) n in
    if cursor =? 0 then Ok (fill_bytes 32 n []) else Throw "field element exceeds 32 bytes".

Definition g1 : Type := string * string * string.
Definition g2 : Type := (string * string) * (string * string) * (string * string).

Record Groth16ProofLike := { pi_a : g1; pi_b : g2; pi_c : g1 }.

Record TaskMarketProofBytes := { proofA : list Z; proofB : list Z; proofC : list Z }.

Definition g1ToBytes (p : g1) : result (list Z) :=
  let! x := fieldElementToBytes p.1.1 in
  let! y := fieldElementToBytes p.1.2 in
  Ok (x ++ y).

(** The second coordinate of each pair first. *)
Definition g2ToBytes (p : g2) : result (list Z) :=
  let! a := fieldElementToBytes p.1.1.2 in
  let! b := fieldElementToBytes p.1.1.1 in
  let! c := fieldElementToBytes p.1.2.2 in
  let! d := fieldElementToBytes p.1.2.1 in
  Ok (a ++ b ++ c ++ d).

Definition groth16ProofToTaskMarketProofBytes (proof : Groth16ProofLike) : result TaskMarketProofBytes :=
  let! a := g1ToBytes (pi_a proof) in
  let! b := g2ToBytes (pi_b proof) in
  let! c := g1ToBytes (pi_c proof) in
  Ok {| proofA := a; proofB := b; proofC := c |}.

(** ** Keys and requests *)

Section keys.
Variable sha256 : list Z -> list Z.

Definition deriveTaskCompletionProofKey (taskId resultHash : list Z) (circuitId : option string) : result (list Z) :=
  let! _ := sized taskId 32 "taskId must be 32 bytes" in
  let! _ := sized resultHash 32 "resultHash must be 32 bytes" in
  Ok (sha256 (enc "saep:task-completion:proof-key:v1" ++ enc (default TASK_COMPLETION_CIRCUIT_ID circuitId) ++ taskId ++ resultHash)).

Definition computeTaskCompletionVkId (label : string) : list Z := sha256 (enc label).
End keys.

(** The fields of a task a proof is about. *)
Record settled_task := { t_taskHash : list Z; t_resultHash : list Z; t_deadline : Z; t_submittedAt : Z; t_criteriaRoot : list Z }.

Definition buildTaskCompletionPublicInputs (task : settled_task) : result TaskCompletionPublicInputs :=
  let! th := to0xHash32 (t_taskHash task) in
  let! rh := to0xHash32 (t_resultHash task) in
  let! cr := to0xHash32 (t_criteriaRoot task) in
  Ok {| task_hash := th; result_hash := rh; deadline := z_text (t_deadline task); submitted_at := z_text (t_submittedAt task);
        criteria_root := cr |}.

Definition buildTaskCompletionProveRequest (task : settled_task) (privateInputs : TaskCompletionPrivateInputs) :
    result TaskCompletionProofGenRequest :=
  let! pu := buildTaskCompletionPublicInputs task in
  Ok {| circuit_id := TASK_COMPLETION_CIRCUIT_ID; public_inputs := pu; private_inputs := privateInputs |}.

(** ** Witnesses *)

(** The errors of one array field and the elements kept. *)
Definition checkFieldArray (obj : list (string * json)) (field : string) (len : nat) : list string * list string :=
  match member field obj with
  | Some (J_arr value) =>
    let bad := imap (fun i e => match e with
                                | J_str s => push_if (negb (field_text s)) (field +:+ "[" +:+ z_text (Z.of_nat i) +:+ "] must be a decimal or 0x-prefixed field element")
                                | _ => [field +:+ "[" +:+ z_text (Z.of_nat i) +:+ "] must be a decimal or 0x-prefixed field element"]
                                end) value in
    (push_if (negb (length value =? len)%nat) (field +:+ " must contain " +:+ z_text (Z.of_nat len) +:+ " field elements") ++ concat bad,
     omap (fun e => match e with J_str s => if field_text s then Some s else None | _ => None end) value)
  | _ => ([field +:+ " must be an array"], [])
  end.

Definition salt_of (obj : list (string * json)) : string :=
  match member "salt" obj with
  | Some (J_str s) => if field_text s then s else ""
  | _ => ""
  end.

Definition validateTaskCompletionPrivateInputs (value : json) : TaskCompletionPrivateInputs + list string :=
  match value with
  | J_obj obj =>
    let tp := checkFieldArray obj "task_preimage" 16 in
    let rp := checkFieldArray obj "result_preimage" 32 in
    let cs := checkFieldArray obj "criteria_satisfied" 8 in
    let cp := checkFieldArray obj "criteria_path" 3 in
    let ci := checkFieldArray obj "criteria_index" 3 in
    let salt := salt_of obj in
    let errors := tp.1 ++ rp.1 ++ cs.1 ++ cp.1 ++ ci.1 ++
                  push_if (String.eqb salt "") "salt must be a decimal or 0x-prefixed field element"%string in
    match errors with
    | [] => inl {| task_preimage := tp.2; result_preimage := rp.2; salt := salt; criteria_satisfied := cs.2; criteria_path := cp.2;
                   criteria_index := ci.2 |}
    | _ => inr errors
    end
  | _ => inr ["witness must be a JSON object"%string]
  end.

Definition parseTaskCompletionWitnessJson (JSON_parse : string -> option json) (text : string) : result TaskCompletionPrivateInputs :=
  match JSON_parse text with
  | None => Throw "Witness JSON is not valid JSON"
  | Some parsed =>
    match validateTaskCompletionPrivateInputs parsed with
    | inl value => Ok value
    | inr errors => Throw (String.concat "; " errors)
    end
  end.

Definition validateProofPublicInputs (p : TaskCompletionPublicInputs) : list string :=
  push_if (negb (hash32_text (task_hash p))) "task_hash must be a 0x-prefixed 32-byte hash"%string ++
  push_if (negb (hash32_text (result_hash p))) "result_hash must be a 0x-prefixed 32-byte hash"%string ++
  push_if (negb (decimal_text (deadline p))) "deadline must be a decimal timestamp"%string ++
  push_if (negb (decimal_text (submitted_at p))) "submitted_at must be a decimal timestamp"%string ++
  push_if (negb (hash32_text (criteria_root p))) "criteria_root must be a 0x-prefixed 32-byte hash"%string.

(** ** Readiness *)

Record ProofGenCircuitSummary := {
  pc_circuit_id : string;
  pc_lifecycle : option string;
  pc_verifier : option string;
  pc_public_inputs : option (list string);
  pc_artifacts : option string;
  pc_verification_key : option string;
}.

Record verifier_key := { vk_address : string; isProduction : bool; circuitLabel : string + list Z; numPublicInputs : Z }.

Record proofgen_health := { h_ok : option bool; h_artifacts : option string; h_verification_key : option string }.

Record SettlementReadinessInputs := {
  taskMarketProgramId : string;
  expectedVerifierKeyAddress : string;
  market_paused : option bool;                 (* None: market is null *)
  verifier_isMainnet : option bool;
  verifier_config : option (bool * option string);   (* paused, activeVk *)
  activeVerifierKey : option verifier_key;
  allowedCallers : option (list string);
  proofGenHealth : option proofgen_health;
  proofGenCircuits : option (list ProofGenCircuitSummary);   (* None: null or without circuits *)
}.

Record SettlementReadinessCheck := { ck_key : string; ck_label : string; ck_ok : bool; ck_detail : string }.

Definition readinessCheck (key label : string) (ok : bool) (good bad : string) : SettlementReadinessCheck :=
  {| ck_key := key; ck_label := label; ck_ok := ok; ck_detail := if ok then good else bad |}.

Definition is_text (o : option string) (s : string) : bool := match o with Some t => String.eqb t s | None => false end.

Section readiness.
Variable TextDecoder_decode : list Z -> string.

Definition circuitLabelToString (label : string + list Z) : string :=
  match label with
  | inl s => drop_zeros s
  | inr bytes => TextDecoder_decode (until_zero bytes)
  end.

Definition our_circuit (input : SettlementReadinessInputs) : option ProofGenCircuitSummary :=
  List.find (fun c => String.eqb (pc_circuit_id c) TASK_COMPLETION_CIRCUIT_ID) (default [] (proofGenCircuits input)).

(** The same length and every expected name at its index. *)
Definition publicInputsOk (circuit : option ProofGenCircuitSummary) : bool :=
  match circuit ≫= pc_public_inputs with
  | Some l => (length l =? length TASK_COMPLETION_PUBLIC_INPUTS)%nat &&
              forallb id (imap (fun i name => bool_decide (l !! i = Some name)) TASK_COMPLETION_PUBLIC_INPUTS)
  | None => false
  end.

(** Both addresses are non-empty and equal, and equal to the expected one. *)
Definition activeVkMatches (input : SettlementReadinessInputs) : bool :=
  match verifier_config input ≫= snd, activeVerifierKey input with
  | Some active, Some vk => negb (String.eqb active "") && negb (String.eqb (vk_address vk) "") && String.eqb active (vk_address vk) &&
                            String.eqb active (expectedVerifierKeyAddress input)
  | _, _ => false
  end.

Definition readiness_checks (input : SettlementReadinessInputs) : list SettlementReadinessCheck :=
  let circuit := our_circuit input in
  let vk := activeVerifierKey input in
  [readinessCheck "market" "MarketGlobal" (match market_paused input with Some p => negb p | None => false end)
     "MarketGlobal is initialized and unpaused." (match market_paused input with Some _ => "MarketGlobal is paused." | None => "MarketGlobal is missing." end);
   readinessCheck "mode" "Mainnet mode" (default false (verifier_isMainnet input)) "Proof verifier is in mainnet mode."
     (match verifier_isMainnet input with Some _ => "Proof verifier is not in mainnet mode." | None => "Proof verifier mode is missing." end);
   readinessCheck "verifier-config" "Verifier config" (match verifier_config input with Some (p, _) => negb p | None => false end)
     "Verifier config is initialized and unpaused."
     (match verifier_config input with Some _ => "Verifier config is paused." | None => "Verifier config is missing." end);
   readinessCheck "active-vk" "Active VK" (activeVkMatches input) "Active VK matches task_completion.v1."
     (match vk with Some _ => "Active VK does not match task_completion.v1." | None => "Active task_completion.v1 VK is missing." end);
   readinessCheck "production-vk" "Production VK" (match vk with Some k => isProduction k | None => false end)
     "Active VK is marked production." "Active VK is not marked production.";
   readinessCheck "circuit-label" "Circuit label"
     (String.eqb (circuitLabelToString (match vk with Some k => circuitLabel k | None => inl "" end)) TASK_COMPLETION_CIRCUIT_LABEL)
     ("Circuit label is " +:+ TASK_COMPLETION_CIRCUIT_LABEL +:+ ".") ("Circuit label must be " +:+ TASK_COMPLETION_CIRCUIT_LABEL +:+ ".");
   readinessCheck "allowed-caller" "Allowed caller"
     (match allowedCallers input with Some l => bool_decide (taskMarketProgramId input ∈ l) | None => false end)
     "task_market is allowed to call proof_verifier." "task_market is not in proof_verifier allowed callers.";
   readinessCheck "proofgen-health" "Proof-gen health"
     (match proofGenHealth input with
      | Some h => default false (h_ok h) && is_text (h_artifacts h) "loaded" && is_text (h_verification_key h) "present"
      | None => false
      end)
     "Proof-gen is healthy with artifacts loaded." "Proof-gen is unavailable or missing artifacts.";
   readinessCheck "proofgen-circuit" "Proof-gen circuit"
     (match circuit with
      | Some c => is_text (pc_lifecycle c) "live" && is_text (pc_verifier c) "groth16-bn254" && is_text (pc_artifacts c) "loaded" &&
                  is_text (pc_verification_key c) "present" && publicInputsOk circuit
      | None => false
      end)
     "Hosted task_completion.v1 circuit is live and loaded." "Hosted task_completion.v1 circuit is missing, stale, or incomplete.";
   readinessCheck "public-inputs" "Public inputs"
     (match vk with Some k => (numPublicInputs k =? 5)%Z && publicInputsOk circuit | None => false end)
     "Verifier key and proof-gen agree on public inputs." "Verifier key and proof-gen public inputs differ."]%string.

Definition evaluateSettlementReadiness (input : SettlementReadinessInputs) : bool * list SettlementReadinessCheck :=
  let checks := readiness_checks input in (forallb ck_ok checks, checks).
End readiness.
