(* ===== verification/SettlementSafety.v ===== *)
(** * SettlementSafety: the browser and the proof generator agree

    The witness checks of the browser are the schema's of the proof generator, the
    requests it builds are accepted, and what the proof bytes, the proof key and
    the readiness verdict mean. *)

From Stdlib Require Import ZArith QArith Ascii Lia DecimalString.
From stdpp Require Import base list strings.
From S2P Require Import Prelude Effects Bytes Json Hex Zod Numbers ZkCatalog ProofGen Pda Settlement.

#[local] Open Scope Z_scope.
#[local] Open Scope saep_scope.

(** ** Witnesses *)

Lemma field_text_not_empty s : field_text s = true -> s <> ""%string.
Proof. by intros H ->. Qed.

(** An array of field elements, as both sides read it. *)
Definition fields_ok (len : nat) (value : list json) (l : list string) : Prop :=
  value = map J_str l /\ length l = len /\ Forall (fun s => field_text s = true) l.

Lemma z_all_fields value l : z_all (z_string field_text) value = Some l <-> value = map J_str l /\ Forall (fun s => field_text s = true) l.
Proof.
  revert l. induction value as [|v value IH]; intros l; cbn [z_all].
  - split; [by intros [= <-]|]. intros [H _]. by destruct l.
  - split.
    + destruct (z_string field_text v) as [s|] eqn:E; [|done]. destruct (z_all (z_string field_text) value) as [t|] eqn:Et; [|done].
      intros [= <-]. destruct (proj1 (IH t) eq_refl) as [-> Ht]. destruct v; try done. cbn in E.
      destruct (field_text s0) eqn:Ef; [|done]. injection E as ->. split; [done|]. by constructor.
    + intros [Hv Hl]. destruct l as [|s l]; [done|]. cbn in Hv. injection Hv as -> Hv. apply Forall_cons in Hl as [Hs Hl].
      cbn [z_string]. rewrite Hs. by rewrite (proj2 (IH l) (conj Hv Hl)).
Qed.

Lemma z_fields_ok n v l : z_fields n v = Some l <-> exists value, v = J_arr value /\ fields_ok n value l.
Proof.
  unfold z_fields, z_array, fields_ok. split.
  - destruct v; try done. destruct (Nat.eqb_spec (length l0) n) as [Hn|]; [|done]. intros [-> Hf]%z_all_fields.
    exists (map J_str l). rewrite length_map in Hn. by split_and!.
  - intros (value & -> & -> & <- & Hf). rewrite length_map, Nat.eqb_refl. by apply z_all_fields.
Qed.

(** The errors [imap] finds from index [i] on, and the elements kept. *)
Lemma bad_elements field i value :
  let bad j e := match e with
                 | J_str s => push_if (negb (field_text s)) (field +:+ "[" +:+ z_text (Z.of_nat (i + j)) +:+ "] must be a decimal or 0x-prefixed field element")
                 | _ => [field +:+ "[" +:+ z_text (Z.of_nat (i + j)) +:+ "] must be a decimal or 0x-prefixed field element"]
                 end in
  concat (imap bad value) = [] <->
  exists l, value = map J_str l /\ Forall (fun s => field_text s = true) l /\
    omap (fun e => match e with J_str s => if field_text s then Some s else None | _ => None end) value = l.
Proof.
  revert i. induction value as [|v value IH]; intros i; cbn zeta.
  - split; [intros _; by exists []|done].
  - cbn [imap concat]. rewrite app_nil_iff. specialize (IH (S i)). cbn zeta in IH.
    assert (E : imap ((fun j e => match e with
        | J_str s => push_if (negb (field_text s)) (field +:+ "[" +:+ z_text (Z.of_nat (i + j)) +:+ "] must be a decimal or 0x-prefixed field element")
        | _ => [field +:+ "[" +:+ z_text (Z.of_nat (i + j)) +:+ "] must be a decimal or 0x-prefixed field element"] end) ∘ S) value =
      imap (fun j e => match e with
        | J_str s => push_if (negb (field_text s)) (field +:+ "[" +:+ z_text (Z.of_nat (S i + j)) +:+ "] must be a decimal or 0x-prefixed field element")
        | _ => [field +:+ "[" +:+ z_text (Z.of_nat (S i + j)) +:+ "] must be a decimal or 0x-prefixed field element"] end) value).
    { apply imap_ext. intros j x _. cbn. by rewrite Nat.add_succ_r. }
    rewrite E, IH. clear E IH. split.
    + intros [Hv (l & -> & Hl & Ho)]. destruct v as [| | |s| |]; try done. apply push_if_nil, negb_false_iff in Hv.
      exists (s :: l). cbn. rewrite Hv, Ho. split_and!; [done|by constructor|done].
    + intros (l & Hl & Hf & Ho). destruct l as [|s l]; [done|]. cbn in Hl. injection Hl as -> ->. apply Forall_cons in Hf as [Hs Hf].
      cbn in Ho. rewrite Hs in *. injection Ho as Ho. split; [done|]. by exists l.
Qed.

Lemma check_array_ok obj field n l :
  (checkFieldArray obj field n).1 = [] /\ (checkFieldArray obj field n).2 = l <-> z_key field (z_fields n) obj = Some l.
Proof.
  unfold checkFieldArray, z_key. destruct (member field obj) as [v|]; cbn [mbind option_bind].
  2:{ split; [by intros [? _]|done]. }
  rewrite z_fields_ok. destruct v as [| | | |value|]; try (split; [by intros [? _]|by intros (? & [=] & _)]).
  cbn [fst snd]. rewrite app_nil_iff. pose proof (bad_elements field 0 value) as B. cbn zeta in B. split.
  - intros [[Hn%push_if_nil Hb%B] <-]. destruct Hb as (l & -> & Hl & Ho). exists (map J_str l). split; [done|].
    apply negb_false_iff, Nat.eqb_eq in Hn. rewrite length_map in Hn. cbn [Nat.add] in Ho. by rewrite Ho.
  - intros (value' & [= <-] & -> & <- & Hl). rewrite length_map, Nat.eqb_refl. cbn [negb push_if].
    assert (Ho : omap (fun e => match e with J_str s => if field_text s then Some s else None | _ => None end) (map J_str l) = l).
    { clear B. induction Hl as [|s l Hs Hl IH]; [done|]. cbn. by rewrite Hs, IH. }
    split; [|done]. split; [done|]. apply B. by exists l.
Qed.

Lemma salt_ok obj s : salt_of obj = s /\ String.eqb s "" = false <-> z_key "salt" (z_string field_text) obj = Some s.
Proof.
  unfold salt_of, z_key. destruct (member "salt" obj) as [[| | |t| |]|]; cbn [mbind option_bind z_string]; try (split; [by intros [<- ?]|done]).
  destruct (field_text t) eqn:E; [|split; [by intros [<- ?]|done]]. split; [by intros [<- _]|]. intros [= <-]. split; [done|].
  apply String.eqb_neq. by apply field_text_not_empty.
Qed.

Lemma witness_checks_iff (value : json) (p : TaskCompletionPrivateInputs) :
  validateTaskCompletionPrivateInputs value = inl p <-> PrivateInputsSchema value = Some p.
Proof.
  destruct value as [| | | | |obj]; try done. unfold validateTaskCompletionPrivateInputs, PrivateInputsSchema, z_object,
    N_TASK, N_RESULT, K, LOG_K. cbv zeta. split.
  - case_match eqn:E; [|done]. intros [= <-].
    repeat (apply app_nil_iff in E as [? E]). apply push_if_nil in E.
    rewrite (proj1 (check_array_ok obj "task_preimage" 16 _) (conj H eq_refl)).
    rewrite (proj1 (check_array_ok obj "result_preimage" 32 _) (conj H0 eq_refl)).
    rewrite (proj1 (salt_ok obj _) (conj eq_refl E)).
    rewrite (proj1 (check_array_ok obj "criteria_satisfied" 8 _) (conj H1 eq_refl)).
    rewrite (proj1 (check_array_ok obj "criteria_path" 3 _) (conj H2 eq_refl)).
    by rewrite (proj1 (check_array_ok obj "criteria_index" 3 _) (conj H3 eq_refl)).
  - destruct (z_key "task_preimage" _ _) as [tp|] eqn:E1; [|done]. destruct (z_key "result_preimage" _ _) as [rp|] eqn:E2; [|done].
    destruct (z_key "salt" _ _) as [sa|] eqn:E3; [|done]. destruct (z_key "criteria_satisfied" _ _) as [cs|] eqn:E4; [|done].
    destruct (z_key "criteria_path" _ _) as [cp|] eqn:E5; [|done]. destruct (z_key "criteria_index" _ _) as [ci|] eqn:E6; [|done].
    intros [= <-]. apply check_array_ok in E1 as [H1 <-], E2 as [H2 <-], E4 as [H4 <-], E5 as [H5 <-], E6 as [H6 <-].
    apply salt_ok in E3 as [<- H3]. by rewrite H1, H2, H3, H4, H5, H6.
Qed.

(** C28: the browser accepts a pasted witness exactly when the proof generator's schema
    does, and both read the same inputs from it. *)
Theorem witness_checks_agree (value : json) (p : TaskCompletionPrivateInputs) :
  validateTaskCompletionPrivateInputs value = inl p <-> PrivateInputsSchema value = Some p.
Proof. apply witness_checks_iff. Qed.

(** ** Requests *)

Lemma bytesToHex_any l : Forall is_byte l -> all_chars hex_any (bytesToHex l) = true.
Proof. by apply bytesToHex_chars. Qed.

Lemma hash32_text_bytes l : Forall is_byte l -> length l = 32%nat -> hash32_text ("0x" +:+ bytesToHex l) = true.
Proof.
  intros Hb Hl. change (all_chars hex_any (bytesToHex l) && (String.length (bytesToHex l) =? 64)%nat = true).
  by rewrite bytesToHex_any, bytesToHex_length, Hl.
Qed.

Lemma decimal_text_z z : 0 <= z -> decimal_text (z_text z) = true.
Proof.
  intros Hz. assert (D : forall d, all_chars digit_char (NilEmpty.string_of_uint d) = true) by (induction d; done).
  unfold z_text. destruct z as [|p|p]; [done| |lia]. cbn [Z.to_int NilZero.string_of_int]. specialize (D (Pos.to_uint p)).
  unfold decimal_text, NilZero.string_of_uint. by destruct (Pos.to_uint p).
Qed.

(** A task as the chain stores it: hashes of 32 bytes, times not negative. *)
Record task_ok (t : settled_task) : Prop := {
  ok_taskHash : length (t_taskHash t) = 32%nat /\ Forall is_byte (t_taskHash t);
  ok_resultHash : length (t_resultHash t) = 32%nat /\ Forall is_byte (t_resultHash t);
  ok_criteriaRoot : length (t_criteriaRoot t) = 32%nat /\ Forall is_byte (t_criteriaRoot t);
  ok_deadline : 0 <= t_deadline t;
  ok_submittedAt : 0 <= t_submittedAt t;
}.

(** The body the browser posts to the proof generator. *)
Definition request_json (r : ProveRequest) : json :=
  J_obj [("circuit_id", J_str (circuit_id r)); ("public_inputs", J_obj (map (fun kv => (kv.1, J_str kv.2)) (public_object (public_inputs r))));
         ("private_inputs", J_obj (private_object (private_inputs r)))]%string.

Lemma hash_text_ok l : length l = 32%nat /\ Forall is_byte l -> exists s, to0xHash32 l = Ok s /\ hash32_text s = true.
Proof. intros [Hl Hb]. unfold to0xHash32. rewrite Hl. eexists. split; [done|]. by apply hash32_text_bytes. Qed.

Lemma z_fields_strings n l : length l = n -> Forall (fun s => field_text s = true) l -> z_fields n (strings l) = Some l.
Proof. intros Hl Hf. apply z_fields_ok. exists (map J_str l). done. Qed.

Lemma private_object_read value p : PrivateInputsSchema value = Some p -> PrivateInputsSchema (J_obj (private_object p)) = Some p.
Proof.
  destruct value as [| | | | |obj]; try done. unfold PrivateInputsSchema, z_object. intros H.
  destruct (z_key "task_preimage" _ obj) as [tp|] eqn:E1; [|done]. destruct (z_key "result_preimage" _ obj) as [rp|] eqn:E2; [|done].
  destruct (z_key "salt" _ obj) as [sa|] eqn:E3; [|done]. destruct (z_key "criteria_satisfied" _ obj) as [cs|] eqn:E4; [|done].
  destruct (z_key "criteria_path" _ obj) as [cp|] eqn:E5; [|done]. destruct (z_key "criteria_index" _ obj) as [ci|] eqn:E6; [|done].
  cbn in H. injection H as <-.
  assert (F : forall k n l, z_key k (z_fields n) obj = Some l -> z_fields n (strings l) = Some l).
  { intros k n l Hk. unfold z_key in Hk. destruct (member k obj) as [v|]; [|done]. apply z_fields_ok in Hk as (value & -> & -> & Hl & Hf).
    by apply z_fields_strings. }
  assert (S : z_string field_text (J_str sa) = Some sa).
  { unfold z_key in E3. destruct (member "salt" obj) as [v|]; [|done]. cbn [mbind option_bind] in E3.
    destruct v; try done. cbn in *. destruct (field_text s) eqn:Ef; [|done]. injection E3 as <-. by rewrite Ef. }
  unfold private_object, z_key, member.
  cbn [List.find String.eqb Ascii.eqb Bool.eqb fst snd option_map mbind option_bind task_preimage result_preimage salt criteria_satisfied
       criteria_path criteria_index].
  by rewrite (F _ _ _ E1), (F _ _ _ E2), S, (F _ _ _ E4), (F _ _ _ E5), (F _ _ _ E6).
Qed.

(** C32: what the browser builds from a task of the chain and a witness it accepted, the
    proof generator's schema accepts, unchanged; the browser's own check of the
    public inputs finds no error. *)
Theorem browser_request_accepted (JSON_parse : string -> option json) (t : settled_task) (text : string) (p : TaskCompletionPrivateInputs)
    (Ht : task_ok t) (Hp : parseTaskCompletionWitnessJson JSON_parse text = Ok p) :
  exists r, buildTaskCompletionProveRequest t p = Ok r /\ ProveRequestSchema (request_json r) = Some r /\
    validateProofPublicInputs (public_inputs r) = [].
Proof.
  unfold parseTaskCompletionWitnessJson in Hp. destruct (JSON_parse text) as [v|]; [|done].
  destruct (validateTaskCompletionPrivateInputs v) as [p'|] eqn:Ev; [|done]. apply ok_inj in Hp as ->.
  apply witness_checks_iff, private_object_read in Ev.
  destruct (hash_text_ok _ (ok_taskHash t Ht)) as (th & E1 & H1), (hash_text_ok _ (ok_resultHash t Ht)) as (rh & E2 & H2),
    (hash_text_ok _ (ok_criteriaRoot t Ht)) as (cr & E3 & H3).
  unfold buildTaskCompletionProveRequest, buildTaskCompletionPublicInputs. rewrite E1, E2, E3. cbn [result_bind]. eexists. split; [done|].
  pose proof (decimal_text_z _ (ok_deadline t Ht)) as D1. pose proof (decimal_text_z _ (ok_submittedAt t Ht)) as D2.
  split.
  - unfold ProveRequestSchema, request_json, z_object, z_key at 1 2 3. unfold member.
    cbn [List.find String.eqb Ascii.eqb Bool.eqb fst snd option_map mbind option_bind circuit_id public_inputs private_inputs].
    rewrite Ev. unfold PublicInputsSchema, z_object, z_key, member, public_object. cbn [map fst snd].
    cbn [List.find String.eqb Ascii.eqb Bool.eqb fst snd option_map mbind option_bind task_hash result_hash deadline submitted_at criteria_root
         z_string]. by rewrite H1, H2, H3, D1, D2.
  - unfold validateProofPublicInputs. cbn [public_inputs task_hash result_hash deadline submitted_at criteria_root]. by rewrite H1, H2, H3, D1, D2.
Qed.

(** The circuit the browser asks for is the catalog's, with its public inputs. *)
Lemma browser_circuit_in_catalog :
  exists e, e ∈ DEFAULT_CIRCUIT_CATALOG /\ circuitRuntimeId (slug e) (version e) = TASK_COMPLETION_CIRCUIT_ID /\
    publicInputs e = TASK_COMPLETION_PUBLIC_INPUTS /\ lifecycle e = live.
Proof. eexists. split; [left|]. vm_compute. split_and!; reflexivity. Qed.

(** ** Proof bytes *)

(** The value of a field element that fits 32 bytes. *)
Definition field_value (s : string) : option Z :=
  match js_BigInt s with
  | Ok n => if (0 <=? n) && (n <? 2 ^ 256) then Some n else None
  | Throw _ => None
  end.

Lemma shifted_out k n : Nat.iter k (fun c => Z.shiftr c 8) n = n / 256 ^ Z.of_nat k.
Proof.
  induction k as [|k IH]; [by rewrite Z.div_1_r|]. rewrite Nat2Z.inj_succ, Z.pow_succ_r by lia. cbn [Nat.iter nat_rect].
  change (Z.shiftr (Nat.iter k (fun c => Z.shiftr c 8) n) 8 = n / (256 * 256 ^ Z.of_nat k)).
  rewrite IH, shiftr_8, Z.div_div by lia. by rewrite Z.mul_comm.
Qed.

Lemma field_bytes s l : fieldElementToBytes s = Ok l <-> exists n, field_value s = Some n /\ l = fill_bytes 32 n [].
Proof.
  unfold fieldElementToBytes, field_value. destruct (js_BigInt s) as [n|e]; cbn [result_bind]; [|by split; [|intros (? & ? & _)]].
  rewrite shifted_out. change (256 ^ Z.of_nat 32) with (2 ^ 256).
  destruct (Z.ltb_spec n 0), (Z.leb_spec 0 n); cbn [andb]; try lia; [by split; [|intros (? & ? & _)]|].
  destruct (Z.ltb_spec n (2 ^ 256)), (Z.eqb_spec (n / 2 ^ 256) 0) as [E|E].
  - split; [intros <-%ok_inj; by exists n|by intros (? & [= <-] & ->)].
  - exfalso. apply E. apply Z.div_small. lia.
  - exfalso. apply Z.div_small_iff in E; lia.
  - by split; [|intros (? & ? & _)].
Qed.

Lemma field_value_bound s n : field_value s = Some n -> 0 <= n < 2 ^ 256.
Proof.
  unfold field_value. destruct (js_BigInt s) as [m|]; [|done].
  destruct (Z.leb_spec 0 m), (Z.ltb_spec m (2 ^ 256)); cbn [andb]; try done. intros [= <-]. lia.
Qed.

(** The [i]-th number of 32 bytes. *)
Definition word (i : nat) (l : list Z) : Z := accumulate (take 32 (drop (32 * i) l)).

Definition words (l : list Z) (ns : list Z) : Prop :=
  length l = (32 * length ns)%nat /\ forall i n, ns !! i = Some n -> word i l = n.

Lemma words_concat ns : Forall (fun n => 0 <= n < 2 ^ 256) ns -> words (concat (map (fun n => fill_bytes 32 n []) ns)) ns.
Proof.
  induction 1 as [|n ns Hn Hns [IL IH]]; [done|]. cbn [map concat]. split.
  - rewrite length_app, fill_bytes_length, IL. cbn [length]. lia.
  - intros [|i] m; cbn [lookup list_lookup]; unfold word.
    + intros [= <-]. rewrite drop_0, take_app_le, take_ge by (rewrite fill_bytes_length; lia). by apply accumulate_fill_bytes.
    + intros Hi. apply IH in Hi. unfold word in Hi. rewrite drop_app_ge by (rewrite fill_bytes_length; lia).
      rewrite fill_bytes_length. replace (32 * S i - 32)%nat with (32 * i)%nat by lia. done.
Qed.

Lemma bytes_words (ss : list string) (ns : list Z) (ls : list (list Z)) :
  Forall2 (fun s l => fieldElementToBytes s = Ok l) ss ls -> map field_value ss = map Some ns -> words (concat ls) ns.
Proof.
  intros HF HN. assert (E : ls = map (fun n => fill_bytes 32 n []) ns /\ Forall (fun n => 0 <= n < 2 ^ 256) ns).
  { revert ns HN. induction HF as [|s l ss ls Hs HF IH]; intros [|n ns]; try done. cbn [map]. intros [= Hv Hr].
    apply field_bytes in Hs as (m & Hm & ->). rewrite Hv in Hm. injection Hm as ->. destruct (IH ns Hr) as [-> Hb].
    split; [done|]. constructor; [by apply field_value_bound in Hv|done]. }
  destruct E as [-> Hb]. by apply words_concat.
Qed.

(** The proof bytes of the task market: big-endian words of 32 bytes, each point's
    coordinates in order, the pairs of the second point swapped; a proof one of
    whose used coordinates is not a number of 256 bits throws. *)
Theorem proof_bytes_coordinates (proof : Groth16ProofLike) (b : TaskMarketProofBytes)
    (H : groth16ProofToTaskMarketProofBytes proof = Ok b) :
  exists ax ay bx0 bx1 by0 by1 cx cy,
    map field_value [(pi_a proof).1.1; (pi_a proof).1.2; (pi_b proof).1.1.1; (pi_b proof).1.1.2; (pi_b proof).1.2.1; (pi_b proof).1.2.2;
                     (pi_c proof).1.1; (pi_c proof).1.2] = map Some [ax; ay; bx0; bx1; by0; by1; cx; cy] /\
    words (proofA b) [ax; ay] /\ words (proofB b) [bx1; bx0; by1; by0] /\ words (proofC b) [cx; cy].
Proof.
  unfold groth16ProofToTaskMarketProofBytes, g1ToBytes, g2ToBytes in H.
  repeat match type of H with context [fieldElementToBytes ?s] =>
    let E := fresh "E" in destruct (fieldElementToBytes s) eqn:E; cbn [result_bind] in H; [|discriminate H] end.
  apply ok_inj in H. subst b. cbn [proofA proofB proofC].
  pose proof (proj1 (field_bytes _ _) E) as (ax & V1 & _). pose proof (proj1 (field_bytes _ _) E0) as (ay & V2 & _).
  pose proof (proj1 (field_bytes _ _) E1) as (b1 & V3 & _). pose proof (proj1 (field_bytes _ _) E2) as (b0 & V4 & _).
  pose proof (proj1 (field_bytes _ _) E3) as (c1 & V5 & _). pose proof (proj1 (field_bytes _ _) E4) as (c0 & V6 & _).
  pose proof (proj1 (field_bytes _ _) E5) as (cx & V7 & _). pose proof (proj1 (field_bytes _ _) E6) as (cy & V8 & _).
  exists ax, ay, b0, b1, c0, c1, cx, cy. split; [cbn [map]; by rewrite V1, V2, V3, V4, V5, V6, V7, V8|]. split_and!.
  - rewrite <- (app_nil_r a0). apply (bytes_words [(pi_a proof).1.1; (pi_a proof).1.2] _ [a; a0]); [by repeat constructor|].
    cbn [map]. by rewrite V1, V2.
  - rewrite <- (app_nil_r a4).
    apply (bytes_words [(pi_b proof).1.1.2; (pi_b proof).1.1.1; (pi_b proof).1.2.2; (pi_b proof).1.2.1] _ [a1; a2; a3; a4]);
      [by repeat constructor|]. cbn [map]. by rewrite V3, V4, V5, V6.
  - rewrite <- (app_nil_r a6). apply (bytes_words [(pi_c proof).1.1; (pi_c proof).1.2] _ [a5; a6]); [by repeat constructor|].
    cbn [map]. by rewrite V7, V8.
Qed.

(** ** The proof key *)

Lemma enc_length s : length (enc s) = String.length s.
Proof. unfold enc. rewrite length_map. induction s as [|c s IH]; [done|]. cbn. by rewrite IH. Qed.

Lemma enc_inj s t : enc s = enc t -> s = t.
Proof.
  unfold enc. intros H. apply (f_equal (map (fun z => ascii_of_nat (Z.to_nat z)))) in H. rewrite !map_map in H.
  assert (E : forall s, map (fun x => ascii_of_nat (Z.to_nat (Z.of_nat (nat_of_ascii x)))) (String.list_ascii_of_string s) = String.list_ascii_of_string s).
  { intros u. rewrite <- (map_id (String.list_ascii_of_string u)) at 2. apply map_ext. intros c. rewrite Nat2Z.id. apply ascii_nat_embedding. }
  rewrite !E in H. apply (f_equal String.string_of_list_ascii) in H. by rewrite !String.string_of_list_ascii_of_string in H.
Qed.

(** A proof key belongs to one circuit, task and result, or SHA-256 collides. *)
Theorem proof_key_binds (sha256 : list Z -> list Z) (taskId taskId' resultHash resultHash' key : list Z) (circuit circuit' : option string)
    (H : deriveTaskCompletionProofKey sha256 taskId resultHash circuit = Ok key)
    (H' : deriveTaskCompletionProofKey sha256 taskId' resultHash' circuit' = Ok key) :
  (default TASK_COMPLETION_CIRCUIT_ID circuit = default TASK_COMPLETION_CIRCUIT_ID circuit' /\ taskId = taskId' /\ resultHash = resultHash') \/
  collides sha256.
Proof.
  unfold deriveTaskCompletionProofKey, sized in H, H'.
  destruct (Nat.eqb_spec (length taskId) 32) as [L1|]; [|discriminate H]. destruct (Nat.eqb_spec (length resultHash) 32) as [L2|]; [|discriminate H].
  destruct (Nat.eqb_spec (length taskId') 32) as [L3|]; [|discriminate H']. destruct (Nat.eqb_spec (length resultHash') 32) as [L4|]; [|discriminate H'].
  cbn [result_bind] in H, H'. apply ok_inj in H, H'. rewrite <- H' in H.
  destruct (decide (enc "saep:task-completion:proof-key:v1" ++ enc (default TASK_COMPLETION_CIRCUIT_ID circuit) ++ taskId ++ resultHash =
                    enc "saep:task-completion:proof-key:v1" ++ enc (default TASK_COMPLETION_CIRCUIT_ID circuit') ++ taskId' ++ resultHash'))
    as [E|Hne]; [left|right; by eexists _, _].
  apply app_inv_head in E. apply app_inj_2 in E as [E1%enc_inj E2]; [|rewrite !length_app; lia].
  apply app_inj_1 in E2 as [-> ->]; [done|lia].
Qed.

(** ** Readiness *)

Section readiness.
Variable decode : list Z -> string.

(** The hosted circuit as it must be. *)
Definition circuit_ready (c : ProofGenCircuitSummary) : Prop :=
  pc_circuit_id c = TASK_COMPLETION_CIRCUIT_ID /\ pc_lifecycle c = Some "live"%string /\ pc_verifier c = Some "groth16-bn254"%string /\
  pc_artifacts c = Some "loaded"%string /\ pc_verification_key c = Some "present"%string /\
  pc_public_inputs c = Some TASK_COMPLETION_PUBLIC_INPUTS.

Lemma is_text_iff o s : is_text o s = true <-> o = Some s.
Proof. unfold is_text. destruct o as [t|]; [rewrite String.eqb_eq|]; split; congruence. Qed.

Lemma public_inputs_iff c : publicInputsOk (Some c) = true <-> pc_public_inputs c = Some TASK_COMPLETION_PUBLIC_INPUTS.
Proof.
  unfold publicInputsOk. cbn [mbind option_bind]. destruct (pc_public_inputs c) as [l|]; [|done]. split; [|by intros [= ->]].
  intros [Hl Hf]%andb_prop. apply Nat.eqb_eq in Hl. cbn in Hf. destruct l as [|a [|b [|c' [|d [|e [|f l]]]]]]; try done. cbn in Hf.
  repeat match type of Hf with (bool_decide ?P && _)%bool = true => destruct (bool_decide_reflect P) as [[= ->]|]; [cbn [andb] in Hf|discriminate Hf] end.
  done.
Qed.

(** A market is ready exactly when it runs, the verifier runs in mainnet mode with
    the expected, production key of this circuit's label and five public inputs,
    the market may call it, and the proof generator is up and serves the circuit
    with these public inputs. *)
Theorem ready_iff (input : SettlementReadinessInputs) :
  (evaluateSettlementReadiness decode input).1 = true <->
  market_paused input = Some false /\ verifier_isMainnet input = Some true /\
  (exists vk, verifier_config input = Some (false, Some (vk_address vk)) /\ activeVerifierKey input = Some vk /\
     vk_address vk = expectedVerifierKeyAddress input /\ vk_address vk <> ""%string /\ isProduction vk = true /\
     circuitLabelToString decode (circuitLabel vk) = TASK_COMPLETION_CIRCUIT_LABEL /\ numPublicInputs vk = 5) /\
  (exists callers, allowedCallers input = Some callers /\ taskMarketProgramId input ∈ callers) /\
  (exists h, proofGenHealth input = Some h /\ h_ok h = Some true /\ h_artifacts h = Some "loaded"%string /\
     h_verification_key h = Some "present"%string) /\
  (exists c, our_circuit input = Some c /\ circuit_ready c).
Proof.
  unfold evaluateSettlementReadiness, readiness_checks. cbv zeta. cbn [fst forallb ck_ok readinessCheck].
  rewrite !andb_true_iff. unfold activeVkMatches.
  assert (Hid : forall c, our_circuit input = Some c -> pc_circuit_id c = TASK_COMPLETION_CIRCUIT_ID).
  { intros c Hc. unfold our_circuit in Hc. apply List.find_some in Hc as [_ Hc]. by apply String.eqb_eq. }
  split.
  - intros (H1 & H2 & H3 & H4 & H5 & H6 & H7 & H8 & H9 & H10 & _).
    destruct (market_paused input) as [[]|]; try done. destruct (verifier_isMainnet input) as [[]|]; try done.
    destruct (verifier_config input) as [[[] [active|]]|]; try done. destruct (activeVerifierKey input) as [vk|]; try done.
    cbn [mbind option_bind snd] in H4. rewrite !andb_true_iff, !negb_true_iff, !String.eqb_neq, !String.eqb_eq in H4.
    destruct H4 as [[[Ha Hv] ->] He]. apply andb_prop in H10 as [Hn%Z.eqb_eq Hp].
    destruct (allowedCallers input) as [callers|]; try done. apply bool_decide_eq_true in H7.
    destruct (proofGenHealth input) as [h|]; try done. rewrite !andb_true_iff, !is_text_iff in H8. destruct H8 as [[Hok Hart] Hvk].
    destruct (our_circuit input) as [c|] eqn:Ec; try done. rewrite !andb_true_iff, !is_text_iff in H9. destruct H9 as [[[[C1 C2] C3] C4] C5].
    apply public_inputs_iff in C5. apply String.eqb_eq in H6. split_and!; try done.
    + exists vk. by split_and!.
    + by exists callers.
    + exists h. destruct (h_ok h) as [[]|]; try done; by split_and!.
    + exists c. split; [done|]. split_and!; auto.
  - intros (-> & -> & (vk & -> & -> & He & Hne & Hp & Hl & Hn) & (callers & -> & Hc) & (h & -> & -> & -> & ->) & (c & -> & Hr)).
    destruct Hr as (R1 & R2 & R3 & R4 & R5 & R6). cbn [mbind option_bind snd].
    rewrite <- He, String.eqb_refl, (proj2 (String.eqb_neq _ _) Hne), Hp, Hl, Hn, String.eqb_refl, bool_decide_true by done.
    rewrite (proj2 (public_inputs_iff c) R6), R2, R3, R4, R5. by vm_compute.
Qed.

(** A label of the chain, padded with zeros, is shown as the label it was made of. *)
Lemma circuit_label_roundtrip (law : forall s, decode (enc s) = s) (label : string) :
  (String.length label <= 32)%nat -> ~ In Ascii.zero (String.list_ascii_of_string label) ->
  circuitLabelToString decode (inr (paddedCircuitLabel label)) = label.
Proof.
  intros Hl Hz. cbn [circuitLabelToString]. rewrite <- (law label) at 2. f_equal. unfold paddedCircuitLabel. rewrite take_ge.
  2:{ by rewrite enc_length. }
  assert (E : forall n l, Forall (fun b => b <> 0) l -> until_zero (l ++ repeat 0 n) = l).
  { intros n l. induction 1 as [|b l Hb Hf IH]; cbn; [by destruct n|]. destruct (Z.eqb_spec b 0); [done|]. by rewrite IH. }
  apply E. unfold enc. apply Forall_map, Forall_forall. intros c Hc%list_elem_of_In H0. apply Hz.
  assert (nat_of_ascii c = O) by lia. replace Ascii.zero with c; [done|]. rewrite <- (ascii_nat_embedding c). by rewrite H.
Qed.
End readiness.

(** ** Witnesses *)

Definition sample_task : settled_task :=
  {| t_taskHash := repeat 1 32; t_resultHash := repeat 2 32; t_deadline := 200; t_submittedAt := 100; t_criteriaRoot := repeat 171 32 |}.

Definition sample_private : TaskCompletionPrivateInputs :=
  {| task_preimage := repeat "1" 16; result_preimage := repeat "0xff" 32; salt := "7"; criteria_satisfied := repeat "1" 8;
     criteria_path := repeat "0" 3; criteria_index := repeat "0" 3 |}%string.

Lemma sample_task_ok : task_ok sample_task.
Proof. split; cbn; split_and?; try done; repeat constructor; done. Qed.

Lemma browser_request_accepted_witness : exists r,
  buildTaskCompletionProveRequest sample_task sample_private = Ok r /\ ProveRequestSchema (request_json r) = Some r /\
  validateProofPublicInputs (public_inputs r) = [].
Proof.
  apply (browser_request_accepted (fun _ => Some (J_obj (private_object sample_private))) sample_task "pasted"); [exact sample_task_ok|].
  vm_compute. reflexivity.
Defined.

Definition sample_proof : Groth16ProofLike :=
  {| pi_a := ("1", "2", "1"); pi_b := (("3", "4"), ("5", "6"), ("1", "0")); pi_c := ("7", "256", "1") |}%string.

Definition sample_bytes : TaskMarketProofBytes :=
  {| proofA := repeat 0 31 ++ [1] ++ repeat 0 31 ++ [2];
     proofB := repeat 0 31 ++ [4] ++ repeat 0 31 ++ [3] ++ repeat 0 31 ++ [6] ++ repeat 0 31 ++ [5];
     proofC := repeat 0 31 ++ [7] ++ repeat 0 30 ++ [1; 0] |}.

Lemma proof_bytes_coordinates_witness :
  groth16ProofToTaskMarketProofBytes sample_proof = Ok sample_bytes /\
  exists ax ay bx0 bx1 by0 by1 cx cy,
    map field_value ["1"; "2"; "3"; "4"; "5"; "6"; "7"; "256"]%string = map Some [ax; ay; bx0; bx1; by0; by1; cx; cy] /\
    words (proofA sample_bytes) [ax; ay] /\ words (proofB sample_bytes) [bx1; bx0; by1; by0] /\ words (proofC sample_bytes) [cx; cy].
Proof.
  assert (E : groth16ProofToTaskMarketProofBytes sample_proof = Ok sample_bytes) by (vm_compute; reflexivity).
  split; [exact E|]. exact (proof_bytes_coordinates sample_proof sample_bytes E).
Defined.

Lemma proof_key_binds_witness :
  let sha256 := fun m : list Z => take 1 (rev m) in
  (TASK_COMPLETION_CIRCUIT_ID = TASK_COMPLETION_CIRCUIT_ID /\ repeat 1 32 = repeat 3 32 /\ repeat 2 32 = repeat 2 32) \/
  collides sha256.
Proof.
  exact (proof_key_binds (fun m : list Z => take 1 (rev m)) (repeat 1 32) (repeat 3 32) (repeat 2 32) (repeat 2 32) [2] None None eq_refl eq_refl).
Defined.
