(* ===== verification/Idl.v ===== *)
(** * Idl: the interfaces of the programs

    Models packages/sdk/src/generated/*.ts: of every instruction the SDK calls, its
    discriminator, its accounts with their flags, fixed addresses and PDA seeds,
    and its arguments.  An account seed is another account's key; a field seed is
    read from an account's data. *)

From Stdlib Require Import ZArith.
From stdpp Require Import base list strings.
From S2P Require Import Prelude.

#[local] Open Scope Z_scope.

Inductive idl_type :=
| T_u8 | T_u16 | T_u32 | T_u64 | T_i64 | T_u128 | T_bool | T_pubkey | T_string | T_bytes
| T_array (elem : idl_type) (len : nat)
| T_vec (elem : idl_type)
| T_option (elem : idl_type)
| T_defined (name : string).

Inductive idl_seed :=
| S_const (value : list Z)
| S_account (path : string)
| S_field (path : string)
| S_arg (path : string).

(** The program an address belongs to: the instruction's own unless given. *)
Inductive idl_program := P_self | P_account (path : string) | P_const (value : list Z).

Record idl_account := {
  ia_name : string;
  ia_writable : bool;
  ia_signer : bool;
  ia_optional : bool;
  ia_address : option string;
  ia_pda : option (list idl_seed * idl_program);
  ia_relations : list string;
}.

Record idl_instruction := {
  in_name : string;
  in_discriminator : list Z;
  in_accounts : list idl_account;
  in_args : list (string * idl_type);
}.

Definition account (name : string) (writable signer optional : bool) (address : option string)
    (pda : option (list idl_seed * idl_program)) (relations : list string) : idl_account :=
  {| ia_name := name; ia_writable := writable; ia_signer := signer; ia_optional := optional; ia_address := address; ia_pda := pda;
     ia_relations := relations |}.

(** ** task market *)

Definition task_market_cancelBidding : idl_instruction :=
  {| in_name := "cancelBidding"; in_discriminator := [144; 6; 97; 99; 211; 177; 168; 245];
     in_accounts := [
     account "task" true false false None (Some ([S_const [116; 97; 115; 107]; S_field "task.client"; S_field "task.task_nonce"], P_self)) [];
     account "bidBook" true false false None (Some ([S_const [98; 105; 100; 95; 98; 111; 111; 107]; S_field "task.task_id"], P_self)) [];
     account "paymentMint" false false false None None [];
     account "bondEscrow" true false false None (Some ([S_const [98; 111; 110; 100; 95; 101; 115; 99; 114; 111; 119]; S_field "task.task_id"], P_self)) [];
     account "client" true true false None None ["task"];
     account "tokenProgram" false false false None None []];
     in_args := [] |}%string.

Definition task_market_cancelUnfundedTask : idl_instruction :=
  {| in_name := "cancelUnfundedTask"; in_discriminator := [193; 14; 137; 66; 7; 191; 162; 99];
     in_accounts := [
     account "task" true false false None (Some ([S_const [116; 97; 115; 107]; S_field "task.client"; S_field "task.task_nonce"], P_self)) [];
     account "client" true true false None None ["task"]];
     in_args := [] |}%string.

Definition task_market_claimBond : idl_instruction :=
  {| in_name := "claimBond"; in_discriminator := [173; 34; 157; 61; 45; 120; 246; 11];
     in_accounts := [
     account "global" false false false None (Some ([S_const [109; 97; 114; 107; 101; 116; 95; 103; 108; 111; 98; 97; 108]], P_self)) [];
     account "task" false false false None (Some ([S_const [116; 97; 115; 107]; S_field "task.client"; S_field "task.task_nonce"], P_self)) [];
     account "bidBook" false false false None (Some ([S_const [98; 105; 100; 95; 98; 111; 111; 107]; S_field "task.task_id"], P_self)) [];
     account "bid" true false false None (Some ([S_const [98; 105; 100]; S_field "task.task_id"; S_account "bidder"], P_self)) [];
     account "paymentMint" false false false None None [];
     account "bondEscrow" true false false None (Some ([S_const [98; 111; 110; 100; 95; 101; 115; 99; 114; 111; 119]; S_field "task.task_id"], P_self)) [];
     account "bidderTokenAccount" true false false None None [];
     account "feeCollectorTokenAccount" true false false None None [];
     account "hookAllowlist" false false true None None [];
     account "bidder" false true false None None [];
     account "tokenProgram" false false false None None []];
     in_args := [] |}%string.

Definition task_market_closeBidding : idl_instruction :=
  {| in_name := "closeBidding"; in_discriminator := [219; 203; 190; 31; 25; 53; 75; 228];
     in_accounts := [
     account "global" false false false None (Some ([S_const [109; 97; 114; 107; 101; 116; 95; 103; 108; 111; 98; 97; 108]], P_self)) [];
     account "task" true false false None (Some ([S_const [116; 97; 115; 107]; S_field "task.client"; S_field "task.task_nonce"], P_self)) [];
     account "bidBook" true false false None (Some ([S_const [98; 105; 100; 95; 98; 111; 111; 107]; S_field "task.task_id"], P_self)) [];
     account "guard" true false false None (Some ([S_const [103; 117; 97; 114; 100]], P_self)) [];
     account "cranker" false true false None None []];
     in_args := [] |}%string.

Definition task_market_commitBid : idl_instruction :=
  {| in_name := "commitBid"; in_discriminator := [149; 237; 198; 113; 53; 66; 70; 76];
     in_accounts := [
     account "global" false false false None (Some ([S_const [109; 97; 114; 107; 101; 116; 95; 103; 108; 111; 98; 97; 108]], P_self)) [];
     account "task" false false false None (Some ([S_const [116; 97; 115; 107]; S_field "task.client"; S_field "task.task_nonce"], P_self)) [];
     account "bidBook" true false false None (Some ([S_const [98; 105; 100; 95; 98; 111; 111; 107]; S_field "task.task_id"], P_self)) [];
     account "bid" true false false None (Some ([S_const [98; 105; 100]; S_field "task.task_id"; S_account "bidder"], P_self)) [];
     account "paymentMint" false false false None None [];
     account "bondEscrow" true false false None (Some ([S_const [98; 111; 110; 100; 95; 101; 115; 99; 114; 111; 119]; S_field "task.task_id"], P_self)) [];
     account "bidderTokenAccount" true false false None None [];
     account "bidder" true true false None None [];
     account "agentRegistryProgram" false false false (Some "EQJ4Lp2gxJDD5hs185aDcermYWdAi4cQeSKfnuqLAQYu") None [];
     account "registryGlobal" false false false None (Some ([S_const [103; 108; 111; 98; 97; 108]], (P_account "agentRegistryProgram"))) [];
     account "agentAccount" false false false None (Some ([S_const [97; 103; 101; 110; 116]; S_field "agent_account.operator"; S_field "agent_account.agent_id"], (P_account "agentRegistryProgram"))) [];
     account "personhoodAttestation" false false true None (Some ([S_const [112; 101; 114; 115; 111; 110; 104; 111; 111; 100]; S_account "bidder"], (P_account "agentRegistryProgram"))) [];
     account "capabilityTag" false false true None None [];
     account "hookAllowlist" false false true None None [];
     account "tokenProgram" false false false None None [];
     account "systemProgram" false false false (Some "11111111111111111111111111111111") None []];
     in_args := [("commitHash", (T_array T_u8 32%nat)); ("agentDid", (T_array T_u8 32%nat))] |}%string.

Definition task_market_createTask : idl_instruction :=
  {| in_name := "createTask"; in_discriminator := [194; 80; 6; 180; 232; 127; 48; 171];
     in_accounts := [
     account "global" false false false None (Some ([S_const [109; 97; 114; 107; 101; 116; 95; 103; 108; 111; 98; 97; 108]], P_self)) [];
     account "task" true false false None (Some ([S_const [116; 97; 115; 107]; S_account "client"; S_arg "taskNonce"], P_self)) [];
     account "client" true true false None None [];
     account "agentRegistryProgram" false false false (Some "EQJ4Lp2gxJDD5hs185aDcermYWdAi4cQeSKfnuqLAQYu") None [];
     account "registryGlobal" false false false None (Some ([S_const [103; 108; 111; 98; 97; 108]], (P_account "agentRegistryProgram"))) [];
     account "agentAccount" false false false None (Some ([S_const [97; 103; 101; 110; 116]; S_field "agent_account.operator"; S_field "agent_account.agent_id"], (P_account "agentRegistryProgram"))) [];
     account "systemProgram" false false false (Some "11111111111111111111111111111111") None []];
     in_args := [("taskNonce", (T_array T_u8 8%nat)); ("agentDid", (T_array T_u8 32%nat)); ("paymentMint", T_pubkey); ("paymentAmount", T_u64); ("payload", (T_defined "taskPayload")); ("criteriaRoot", (T_array T_u8 32%nat)); ("deadline", T_i64); ("milestoneCount", T_u8)] |}%string.

Definition task_market_disputedTimeoutRefund : idl_instruction :=
  {| in_name := "disputedTimeoutRefund"; in_discriminator := [17; 111; 165; 110; 200; 139; 22; 136];
     in_accounts := [
     account "global" false false false None (Some ([S_const [109; 97; 114; 107; 101; 116; 95; 103; 108; 111; 98; 97; 108]], P_self)) [];
     account "task" true false false None (Some ([S_const [116; 97; 115; 107]; S_field "task.client"; S_field "task.task_nonce"], P_self)) [];
     account "paymentMint" false false false None None [];
     account "escrow" true false false None (Some ([S_const [116; 97; 115; 107; 95; 101; 115; 99; 114; 111; 119]; S_account "task"], P_self)) [];
     account "clientTokenAccount" true false false None None [];
     account "client" false false false None None [];
     account "hookAllowlist" false false true None None [];
     account "guard" true false false None (Some ([S_const [103; 117; 97; 114; 100]], P_self)) [];
     account "cranker" false true false None None [];
     account "tokenProgram" false false false None None []];
     in_args := [] |}%string.

Definition task_market_expire : idl_instruction :=
  {| in_name := "expire"; in_discriminator := [243; 83; 205; 58; 57; 201; 247; 146];
     in_accounts := [
     account "global" false false false None (Some ([S_const [109; 97; 114; 107; 101; 116; 95; 103; 108; 111; 98; 97; 108]], P_self)) [];
     account "task" true false false None (Some ([S_const [116; 97; 115; 107]; S_field "task.client"; S_field "task.task_nonce"], P_self)) [];
     account "paymentMint" false false false None None [];
     account "escrow" true false false None (Some ([S_const [116; 97; 115; 107; 95; 101; 115; 99; 114; 111; 119]; S_account "task"], P_self)) [];
     account "clientTokenAccount" true false false None None [];
     account "client" false false false None None [];
     account "agentRegistryProgram" false false false (Some "EQJ4Lp2gxJDD5hs185aDcermYWdAi4cQeSKfnuqLAQYu") None [];
     account "registryGlobal" false false false None (Some ([S_const [103; 108; 111; 98; 97; 108]], (P_account "agentRegistryProgram"))) [];
     account "agentAccount" false false false None (Some ([S_const [97; 103; 101; 110; 116]; S_field "agent_account.operator"; S_field "agent_account.agent_id"], (P_account "agentRegistryProgram"))) [];
     account "selfProgram" false false false (Some "HiyqZ4q1GPPgx1EaxSuyBFKTzoPAYDPmnSfTX1vjbB8w") None [];
     account "hookAllowlist" false false true None None [];
     account "guard" true false false None (Some ([S_const [103; 117; 97; 114; 100]], P_self)) [];
     account "cranker" false true false None None [];
     account "tokenProgram" false false false None None []];
     in_args := [] |}%string.

Definition task_market_fundTask : idl_instruction :=
  {| in_name := "fundTask"; in_discriminator := [188; 87; 71; 120; 11; 238; 84; 232];
     in_accounts := [
     account "global" false false false None (Some ([S_const [109; 97; 114; 107; 101; 116; 95; 103; 108; 111; 98; 97; 108]], P_self)) [];
     account "task" true false false None (Some ([S_const [116; 97; 115; 107]; S_field "task.client"; S_field "task.task_nonce"], P_self)) [];
     account "paymentMint" false false false None None [];
     account "escrow" true false false None (Some ([S_const [116; 97; 115; 107; 95; 101; 115; 99; 114; 111; 119]; S_account "task"], P_self)) [];
     account "clientTokenAccount" true false false None None [];
     account "hookAllowlist" false false true None None [];
     account "guard" true false false None (Some ([S_const [103; 117; 97; 114; 100]], P_self)) [];
     account "client" true true false None None ["task"];
     account "tokenProgram" false false false None None [];
     account "systemProgram" false false false (Some "11111111111111111111111111111111") None []];
     in_args := [] |}%string.

Definition task_market_openBidding : idl_instruction :=
  {| in_name := "openBidding"; in_discriminator := [89; 97; 154; 176; 213; 63; 102; 206];
     in_accounts := [
     account "global" false false false None (Some ([S_const [109; 97; 114; 107; 101; 116; 95; 103; 108; 111; 98; 97; 108]], P_self)) [];
     account "task" true false false None (Some ([S_const [116; 97; 115; 107]; S_field "task.client"; S_field "task.task_nonce"], P_self)) [];
     account "bidBook" true false false None (Some ([S_const [98; 105; 100; 95; 98; 111; 111; 107]; S_field "task.task_id"], P_self)) [];
     account "paymentMint" false false false None None [];
     account "bondEscrow" true false false None (Some ([S_const [98; 111; 110; 100; 95; 101; 115; 99; 114; 111; 119]; S_field "task.task_id"], P_self)) [];
     account "client" true true false None None ["task"];
     account "tokenProgram" false false false None None [];
     account "systemProgram" false false false (Some "11111111111111111111111111111111") None []];
     in_args := [("commitSecs", T_i64); ("revealSecs", T_i64); ("bondBps", T_u16)] |}%string.

Definition task_market_raiseDispute : idl_instruction :=
  {| in_name := "raiseDispute"; in_discriminator := [41; 243; 1; 51; 150; 95; 246; 73];
     in_accounts := [
     account "task" true false false None (Some ([S_const [116; 97; 115; 107]; S_field "task.client"; S_field "task.task_nonce"], P_self)) [];
     account "client" false true false None None ["task"]];
     in_args := [] |}%string.

Definition task_market_release : idl_instruction :=
  {| in_name := "release"; in_discriminator := [253; 249; 15; 206; 28; 127; 193; 241];
     in_accounts := [
     account "global" false false false None (Some ([S_const [109; 97; 114; 107; 101; 116; 95; 103; 108; 111; 98; 97; 108]], P_self)) [];
     account "task" true false false None (Some ([S_const [116; 97; 115; 107]; S_field "task.client"; S_field "task.task_nonce"], P_self)) [];
     account "paymentMint" false false false None None [];
     account "escrow" true false false None (Some ([S_const [116; 97; 115; 107; 95; 101; 115; 99; 114; 111; 119]; S_account "task"], P_self)) [];
     account "agentTokenAccount" true false false None None [];
     account "feeCollectorTokenAccount" true false false None None [];
     account "solrepPoolTokenAccount" true false false None None [];
     account "agentRegistryProgram" false false false (Some "EQJ4Lp2gxJDD5hs185aDcermYWdAi4cQeSKfnuqLAQYu") None [];
     account "registryGlobal" false false false None (Some ([S_const [103; 108; 111; 98; 97; 108]], (P_account "agentRegistryProgram"))) [];
     account "agentAccount" false false false None (Some ([S_const [97; 103; 101; 110; 116]; S_field "agent_account.operator"; S_field "agent_account.agent_id"], (P_account "agentRegistryProgram"))) [];
     account "selfProgram" false false false (Some "HiyqZ4q1GPPgx1EaxSuyBFKTzoPAYDPmnSfTX1vjbB8w") None [];
     account "hookAllowlist" false false true None None [];
     account "guard" true false false None (Some ([S_const [103; 117; 97; 114; 100]], P_self)) [];
     account "cranker" false true false None None [];
     account "tokenProgram" false false false None None []];
     in_args := [] |}%string.

Definition task_market_revealBid : idl_instruction :=
  {| in_name := "revealBid"; in_discriminator := [48; 73; 28; 255; 202; 126; 236; 196];
     in_accounts := [
     account "task" false false false None (Some ([S_const [116; 97; 115; 107]; S_field "task.client"; S_field "task.task_nonce"], P_self)) [];
     account "bidBook" true false false None (Some ([S_const [98; 105; 100; 95; 98; 111; 111; 107]; S_field "task.task_id"], P_self)) [];
     account "bid" true false false None (Some ([S_const [98; 105; 100]; S_field "task.task_id"; S_account "bidder"], P_self)) [];
     account "bidder" false true false None None []];
     in_args := [("amount", T_u64); ("nonce", (T_array T_u8 32%nat))] |}%string.

Definition task_market_submitResult : idl_instruction :=
  {| in_name := "submitResult"; in_discriminator := [240; 42; 89; 180; 10; 239; 9; 214];
     in_accounts := [
     account "global" false false false None (Some ([S_const [109; 97; 114; 107; 101; 116; 95; 103; 108; 111; 98; 97; 108]], P_self)) [];
     account "task" true false false None (Some ([S_const [116; 97; 115; 107]; S_field "task.client"; S_field "task.task_nonce"], P_self)) [];
     account "operator" false true false None None [];
     account "agentRegistryProgram" false false false (Some "EQJ4Lp2gxJDD5hs185aDcermYWdAi4cQeSKfnuqLAQYu") None [];
     account "agentAccount" false false false None (Some ([S_const [97; 103; 101; 110; 116]; S_field "agent_account.operator"; S_field "agent_account.agent_id"], (P_account "agentRegistryProgram"))) [];
     account "guard" true false false None (Some ([S_const [103; 117; 97; 114; 100]], P_self)) []];
     in_args := [("resultHash", (T_array T_u8 32%nat)); ("proofKey", (T_array T_u8 32%nat))] |}%string.

Definition task_market_verifyTask : idl_instruction :=
  {| in_name := "verifyTask"; in_discriminator := [175; 152; 172; 204; 64; 126; 201; 206];
     in_accounts := [
     account "global" false false false None (Some ([S_const [109; 97; 114; 107; 101; 116; 95; 103; 108; 111; 98; 97; 108]], P_self)) [];
     account "task" true false false None (Some ([S_const [116; 97; 115; 107]; S_field "task.client"; S_field "task.task_nonce"], P_self)) [];
     account "proofVerifierProgram" false false false (Some "DcJx1p6bcNuFm4i5WMgK4uGZitc1bf4Ubc5d4sctZKVe") None [];
     account "verifierConfig" false false false None (Some ([S_const [118; 101; 114; 105; 102; 105; 101; 114; 95; 99; 111; 110; 102; 105; 103]], (P_account "proofVerifierProgram"))) [];
     account "verifierKey" false false false None (Some ([S_const [118; 107]; S_field "verifier_key.vk_id"], (P_account "proofVerifierProgram"))) [];
     account "verifierMode" false false false None (Some ([S_const [109; 111; 100; 101]], (P_account "proofVerifierProgram"))) [];
     account "guard" true false false None (Some ([S_const [103; 117; 97; 114; 100]], P_self)) [];
     account "verifierSelfGuard" false false false None None [];
     account "verifierAllowedCallers" false false false None None [];
     account "instructions" false false false (Some "Sysvar1nstructions1111111111111111111111111") None [];
     account "cranker" false true false None None []];
     in_args := [("proofA", (T_array T_u8 64%nat)); ("proofB", (T_array T_u8 128%nat)); ("proofC", (T_array T_u8 64%nat))] |}%string.

(** ** dispute arbitration *)

Definition dispute_arbitration_commitVote : idl_instruction :=
  {| in_name := "commitVote"; in_discriminator := [134; 97; 90; 126; 91; 66; 16; 26];
     in_accounts := [
     account "config" false false false None (Some ([S_const [100; 105; 115; 112; 117; 116; 101; 95; 99; 111; 110; 102; 105; 103]], P_self)) [];
     account "disputeCase" false false false None (Some ([S_const [100; 105; 115; 112; 117; 116; 101; 95; 99; 97; 115; 101]; S_field "dispute_case.case_id"], P_self)) [];
     account "arbitrator" false false false None (Some ([S_const [97; 114; 98; 105; 116; 114; 97; 116; 111; 114]; S_account "arbitratorSigner"], P_self)) [];
     account "voteRecord" true false false None None [];
     account "operator" false false false None None ["arbitrator"];
     account "arbitratorSigner" true true false None None [];
     account "systemProgram" false false false (Some "11111111111111111111111111111111") None []];
     in_args := [("commitHash", (T_array T_u8 32%nat))] |}%string.

Definition dispute_arbitration_escalateAppeal : idl_instruction :=
  {| in_name := "escalateAppeal"; in_discriminator := [207; 25; 110; 186; 204; 76; 4; 220];
     in_accounts := [
     account "config" false false false None (Some ([S_const [100; 105; 115; 112; 117; 116; 101; 95; 99; 111; 110; 102; 105; 103]], P_self)) [];
     account "disputeCase" true false false None (Some ([S_const [100; 105; 115; 112; 117; 116; 101; 95; 99; 97; 115; 101]; S_field "dispute_case.case_id"], P_self)) [];
     account "appealRecord" true false false None (Some ([S_const [97; 112; 112; 101; 97; 108]; S_field "dispute_case.case_id"], P_self)) [];
     account "appellant" true true false None None [];
     account "systemProgram" false false false (Some "11111111111111111111111111111111") None []];
     in_args := [] |}%string.

Definition dispute_arbitration_raiseDispute : idl_instruction :=
  {| in_name := "raiseDispute"; in_discriminator := [41; 243; 1; 51; 150; 95; 246; 73];
     in_accounts := [
     account "config" true false false None (Some ([S_const [100; 105; 115; 112; 117; 116; 101; 95; 99; 111; 110; 102; 105; 103]], P_self)) [];
     account "disputeCase" true false false None (Some ([S_const [100; 105; 115; 112; 117; 116; 101; 95; 99; 97; 115; 101]; S_field "config.next_case_id"], P_self)) [];
     account "pool" false false false None (Some ([S_const [100; 105; 115; 112; 117; 116; 101; 95; 112; 111; 111; 108]], P_self)) [];
     account "payer" true true false None None [];
     account "systemProgram" false false false (Some "11111111111111111111111111111111") None []];
     in_args := [("taskId", T_u64); ("client", T_pubkey); ("agentOperator", T_pubkey); ("escrowAmount", T_u64); ("paymentMint", T_pubkey)] |}%string.

Definition dispute_arbitration_registerArbitrator : idl_instruction :=
  {| in_name := "registerArbitrator"; in_discriminator := [141; 158; 50; 47; 214; 118; 229; 183];
     in_accounts := [
     account "config" false false false None (Some ([S_const [100; 105; 115; 112; 117; 116; 101; 95; 99; 111; 110; 102; 105; 103]], P_self)) [];
     account "arbitrator" true false false None (Some ([S_const [97; 114; 98; 105; 116; 114; 97; 116; 111; 114]; S_account "operator"], P_self)) [];
     account "stakeAccount" false false false None None [];
     account "operator" true true false None None [];
     account "systemProgram" false false false (Some "11111111111111111111111111111111") None []];
     in_args := [("effectiveStake", T_u64); ("lockEnd", T_i64)] |}%string.

Definition dispute_arbitration_resolveDispute : idl_instruction :=
  {| in_name := "resolveDispute"; in_discriminator := [231; 6; 202; 6; 96; 103; 12; 230];
     in_accounts := [
     account "config" false false false None (Some ([S_const [100; 105; 115; 112; 117; 116; 101; 95; 99; 111; 110; 102; 105; 103]], P_self)) [];
     account "disputeCase" true false false None (Some ([S_const [100; 105; 115; 112; 117; 116; 101; 95; 99; 97; 115; 101]; S_field "dispute_case.case_id"], P_self)) [];
     account "cranker" false true false None None []];
     in_args := [] |}%string.

Definition dispute_arbitration_revealVote : idl_instruction :=
  {| in_name := "revealVote"; in_discriminator := [100; 157; 139; 17; 186; 75; 185; 149];
     in_accounts := [
     account "config" false false false None (Some ([S_const [100; 105; 115; 112; 117; 116; 101; 95; 99; 111; 110; 102; 105; 103]], P_self)) [];
     account "disputeCase" true false false None (Some ([S_const [100; 105; 115; 112; 117; 116; 101; 95; 99; 97; 115; 101]; S_field "dispute_case.case_id"], P_self)) [];
     account "arbitrator" false false false None (Some ([S_const [97; 114; 98; 105; 116; 114; 97; 116; 111; 114]; S_account "arbitratorSigner"], P_self)) [];
     account "voteRecord" true false false None None [];
     account "arbitratorSigner" false true false None None []];
     in_args := [("verdict", (T_defined "disputeVerdict")); ("salt", (T_array T_u8 32%nat))] |}%string.

Definition dispute_arbitration_slashArbitrator : idl_instruction :=
  {| in_name := "slashArbitrator"; in_discriminator := [156; 206; 214; 107; 241; 102; 228; 1];
     in_accounts := [
     account "config" false false false None (Some ([S_const [100; 105; 115; 112; 117; 116; 101; 95; 99; 111; 110; 102; 105; 103]], P_self)) [];
     account "disputeCase" false false false None (Some ([S_const [100; 105; 115; 112; 117; 116; 101; 95; 99; 97; 115; 101]; S_field "dispute_case.case_id"], P_self)) [];
     account "arbitrator" true false false None (Some ([S_const [97; 114; 98; 105; 116; 114; 97; 116; 111; 114]; S_field "arbitrator.operator"], P_self)) [];
     account "pendingSlash" true false false None (Some ([S_const [112; 101; 110; 100; 105; 110; 103; 95; 115; 108; 97; 115; 104]; S_field "arbitrator.operator"], P_self)) [];
     account "authority" true true false None None ["config"];
     account "systemProgram" false false false (Some "11111111111111111111111111111111") None []];
     in_args := [("reasonCode", T_u8)] |}%string.

Definition dispute_arbitration_tallyRound : idl_instruction :=
  {| in_name := "tallyRound"; in_discriminator := [176; 99; 204; 229; 229; 240; 167; 240];
     in_accounts := [
     account "disputeCase" true false false None (Some ([S_const [100; 105; 115; 112; 117; 116; 101; 95; 99; 97; 115; 101]; S_field "dispute_case.case_id"], P_self)) [];
     account "cranker" false true false None None []];
     in_args := [] |}%string.

(** ** treasury standard *)

Definition treasury_standard_closeStream : idl_instruction :=
  {| in_name := "closeStream"; in_discriminator := [255; 241; 196; 212; 95; 93; 160; 89];
     in_accounts := [
     account "global" false false false None (Some ([S_const [116; 114; 101; 97; 115; 117; 114; 121; 95; 103; 108; 111; 98; 97; 108]], P_self)) [];
     account "treasury" true false false None (Some ([S_const [116; 114; 101; 97; 115; 117; 114; 121]; S_field "treasury.agent_did"], P_self)) [];
     account "allowedTargets" false false true None (Some ([S_const [97; 108; 108; 111; 119; 101; 100; 95; 116; 97; 114; 103; 101; 116; 115]; S_field "treasury.agent_did"], P_self)) [];
     account "stream" true false false None (Some ([S_const [115; 116; 114; 101; 97; 109]; S_field "stream.agent_did"; S_field "stream.client"; S_field "stream.stream_nonce"], P_self)) [];
     account "payerMint" false false false None None [];
     account "escrow" true false false None (Some ([S_const [115; 116; 114; 101; 97; 109; 95; 101; 115; 99; 114; 111; 119]; S_account "stream"], P_self)) [];
     account "agentVault" true false false None (Some ([S_const [118; 97; 117; 108; 116]; S_field "treasury.agent_did"; S_account "payerMint"], P_self)) [];
     account "clientTokenAccount" true false false None None [];
     account "hookAllowlist" false false true None None [];
     account "agentHooks" false false true None (Some ([S_const [97; 103; 101; 110; 116; 95; 104; 111; 111; 107; 115]; S_field "treasury.agent_did"], (P_const [58; 192; 104; 235; 111; 55; 163; 185; 224; 202; 17; 51; 151; 168; 139; 20; 235; 153; 53; 111; 219; 212; 208; 244; 93; 58; 84; 237; 247; 91; 204; 0]))) [];
     account "guard" true false false None (Some ([S_const [103; 117; 97; 114; 100]], P_self)) [];
     account "signer" false true false None None [];
     account "tokenProgram" false false false None None []];
     in_args := [] |}%string.

Definition treasury_standard_depositToYieldStrategy : idl_instruction :=
  {| in_name := "depositToYieldStrategy"; in_discriminator := [123; 218; 167; 59; 133; 108; 103; 215];
     in_accounts := [
     account "global" false false false None (Some ([S_const [116; 114; 101; 97; 115; 117; 114; 121; 95; 103; 108; 111; 98; 97; 108]], P_self)) [];
     account "treasury" true false false None (Some ([S_const [116; 114; 101; 97; 115; 117; 114; 121]; S_field "treasury.agent_did"], P_self)) [];
     account "allowedMints" false false false None (Some ([S_const [97; 108; 108; 111; 119; 101; 100; 95; 109; 105; 110; 116; 115]], P_self)) [];
     account "allowedTargets" false false true None (Some ([S_const [97; 108; 108; 111; 119; 101; 100; 95; 116; 97; 114; 103; 101; 116; 115]; S_field "treasury.agent_did"], P_self)) [];
     account "strategy" false false false None (Some ([S_const [121; 105; 101; 108; 100; 95; 115; 116; 114; 97; 116; 101; 103; 121]; S_field "strategy.strategy_id"], P_self)) [];
     account "yieldConfig" true false false None (Some ([S_const [121; 105; 101; 108; 100; 95; 99; 111; 110; 102; 105; 103]; S_field "treasury.agent_did"], P_self)) [];
     account "position" true false false None (Some ([S_const [121; 105; 101; 108; 100; 95; 112; 111; 115; 105; 116; 105; 111; 110]; S_field "treasury.agent_did"; S_field "strategy.strategy_id"; S_account "mint"], P_self)) [];
     account "mint" false false false None None [];
     account "receiptMint" false false false None None [];
     account "vault" true false false None (Some ([S_const [118; 97; 117; 108; 116]; S_field "treasury.agent_did"; S_account "mint"], P_self)) [];
     account "receiptVault" true false false None (Some ([S_const [121; 105; 101; 108; 100; 95; 114; 101; 99; 101; 105; 112; 116; 95; 118; 97; 117; 108; 116]; S_account "position"], P_self)) [];
     account "kaminoProgram" false false false None None [];
     account "priceFeed" false false true None None [];
     account "guard" true false false None (Some ([S_const [103; 117; 97; 114; 100]], P_self)) [];
     account "operator" true true false None None ["treasury"];
     account "tokenProgram" false false false None None [];
     account "systemProgram" false false false (Some "11111111111111111111111111111111") None [];
     account "rent" false false false (Some "SysvarRent111111111111111111111111111111111") None []];
     in_args := [("amount", T_u64); ("routeData", T_bytes)] |}%string.

Definition treasury_standard_emergencyUnwindYieldStrategy : idl_instruction :=
  {| in_name := "emergencyUnwindYieldStrategy"; in_discriminator := [194; 107; 61; 130; 159; 126; 115; 53];
     in_accounts := [
     account "global" false false false None (Some ([S_const [116; 114; 101; 97; 115; 117; 114; 121; 95; 103; 108; 111; 98; 97; 108]], P_self)) [];
     account "treasury" true false false None (Some ([S_const [116; 114; 101; 97; 115; 117; 114; 121]; S_field "treasury.agent_did"], P_self)) [];
     account "allowedTargets" false false true None (Some ([S_const [97; 108; 108; 111; 119; 101; 100; 95; 116; 97; 114; 103; 101; 116; 115]; S_field "treasury.agent_did"], P_self)) [];
     account "strategy" false false false None (Some ([S_const [121; 105; 101; 108; 100; 95; 115; 116; 114; 97; 116; 101; 103; 121]; S_field "strategy.strategy_id"], P_self)) [];
     account "yieldConfig" true false false None (Some ([S_const [121; 105; 101; 108; 100; 95; 99; 111; 110; 102; 105; 103]; S_field "treasury.agent_did"], P_self)) [];
     account "position" true false false None (Some ([S_const [121; 105; 101; 108; 100; 95; 112; 111; 115; 105; 116; 105; 111; 110]; S_field "treasury.agent_did"; S_field "strategy.strategy_id"; S_account "mint"], P_self)) [];
     account "mint" false false false None None [];
     account "receiptMint" false false false None None [];
     account "vault" true false false None (Some ([S_const [118; 97; 117; 108; 116]; S_field "treasury.agent_did"; S_account "mint"], P_self)) [];
     account "receiptVault" true false false None (Some ([S_const [121; 105; 101; 108; 100; 95; 114; 101; 99; 101; 105; 112; 116; 95; 118; 97; 117; 108; 116]; S_account "position"], P_self)) [];
     account "kaminoProgram" false false false None None [];
     account "guard" true false false None (Some ([S_const [103; 117; 97; 114; 100]], P_self)) [];
     account "authority" false true false None None ["global"];
     account "tokenProgram" false false false None None []];
     in_args := [("routeData", T_bytes)] |}%string.

Definition treasury_standard_initStream : idl_instruction :=
  {| in_name := "initStream"; in_discriminator := [74; 210; 201; 7; 0; 227; 146; 105];
     in_accounts := [
     account "global" false false false None (Some ([S_const [116; 114; 101; 97; 115; 117; 114; 121; 95; 103; 108; 111; 98; 97; 108]], P_self)) [];
     account "allowedMints" false false false None (Some ([S_const [97; 108; 108; 111; 119; 101; 100; 95; 109; 105; 110; 116; 115]], P_self)) [];
     account "treasury" true false false None (Some ([S_const [116; 114; 101; 97; 115; 117; 114; 121]; S_field "treasury.agent_did"], P_self)) [];
     account "allowedTargets" false false true None (Some ([S_const [97; 108; 108; 111; 119; 101; 100; 95; 116; 97; 114; 103; 101; 116; 115]; S_field "treasury.agent_did"], P_self)) [];
     account "stream" true false false None (Some ([S_const [115; 116; 114; 101; 97; 109]; S_field "treasury.agent_did"; S_account "client"; S_arg "streamNonce"], P_self)) [];
     account "payerMint" false false false None None [];
     account "payoutMint" false false false None None [];
     account "escrow" true false false None (Some ([S_const [115; 116; 114; 101; 97; 109; 95; 101; 115; 99; 114; 111; 119]; S_account "stream"], P_self)) [];
     account "clientTokenAccount" true false false None None [];
     account "hookAllowlist" false false true None None [];
     account "guard" true false false None (Some ([S_const [103; 117; 97; 114; 100]], P_self)) [];
     account "client" true true false None None [];
     account "tokenProgram" false false false None None [];
     account "systemProgram" false false false (Some "11111111111111111111111111111111") None [];
     account "rent" false false false (Some "SysvarRent111111111111111111111111111111111") None []];
     in_args := [("streamNonce", (T_array T_u8 8%nat)); ("ratePerSec", T_u64); ("maxDuration", T_i64)] |}%string.

Definition treasury_standard_initTreasury : idl_instruction :=
  {| in_name := "initTreasury"; in_discriminator := [105; 152; 173; 51; 158; 151; 49; 14];
     in_accounts := [
     account "global" false false false None (Some ([S_const [116; 114; 101; 97; 115; 117; 114; 121; 95; 103; 108; 111; 98; 97; 108]], P_self)) [];
     account "treasury" true false false None (Some ([S_const [116; 114; 101; 97; 115; 117; 114; 121]; S_arg "agentDid"], P_self)) [];
     account "operator" true true false None None [];
     account "agentRegistryProgram" false false false (Some "EQJ4Lp2gxJDD5hs185aDcermYWdAi4cQeSKfnuqLAQYu") None [];
     account "registryGlobal" false false false None (Some ([S_const [103; 108; 111; 98; 97; 108]], (P_account "agentRegistryProgram"))) [];
     account "agentAccount" false false false None (Some ([S_const [97; 103; 101; 110; 116]; S_field "agent_account.operator"; S_field "agent_account.agent_id"], (P_account "agentRegistryProgram"))) [];
     account "systemProgram" false false false (Some "11111111111111111111111111111111") None []];
     in_args := [("agentDid", (T_array T_u8 32%nat)); ("dailySpendLimit", T_u64); ("perTxLimit", T_u64); ("weeklyLimit", T_u64)] |}%string.

Definition treasury_standard_recordTreasuryYieldAccounting : idl_instruction :=
  {| in_name := "recordTreasuryYieldAccounting"; in_discriminator := [47; 242; 226; 248; 199; 249; 114; 201];
     in_accounts := [
     account "global" false false false None (Some ([S_const [116; 114; 101; 97; 115; 117; 114; 121; 95; 103; 108; 111; 98; 97; 108]], P_self)) [];
     account "yieldConfig" true false false None (Some ([S_const [121; 105; 101; 108; 100; 95; 99; 111; 110; 102; 105; 103]; S_field "yield_config.agent_did"], P_self)) [];
     account "authority" false true false None None ["global"]];
     in_args := [("idleAmount", T_u64); ("deployedAmount", T_u64); ("realizedYieldAmount", T_i64); ("accountingSlot", T_u64)] |}%string.

Definition treasury_standard_registerYieldStrategy : idl_instruction :=
  {| in_name := "registerYieldStrategy"; in_discriminator := [232; 227; 174; 62; 153; 242; 64; 148];
     in_accounts := [
     account "global" false false false None (Some ([S_const [116; 114; 101; 97; 115; 117; 114; 121; 95; 103; 108; 111; 98; 97; 108]], P_self)) [];
     account "strategy" true false false None (Some ([S_const [121; 105; 101; 108; 100; 95; 115; 116; 114; 97; 116; 101; 103; 121]; S_arg "strategyId"], P_self)) [];
     account "authority" true true false None None ["global"];
     account "systemProgram" false false false (Some "11111111111111111111111111111111") None []];
     in_args := [("strategyId", (T_array T_u8 32%nat)); ("venue", (T_defined "yieldVenue")); ("strategyProgram", T_pubkey); ("underlyingMint", T_pubkey); ("receiptMint", T_pubkey); ("maxAllocationBps", T_u16); ("riskTier", (T_defined "yieldRiskTier")); ("name", T_string); ("metadataUri", T_string)] |}%string.

Definition treasury_standard_requestTreasuryYieldUnwind : idl_instruction :=
  {| in_name := "requestTreasuryYieldUnwind"; in_discriminator := [108; 126; 41; 113; 159; 18; 70; 153];
     in_accounts := [
     account "global" false false false None (Some ([S_const [116; 114; 101; 97; 115; 117; 114; 121; 95; 103; 108; 111; 98; 97; 108]], P_self)) [];
     account "treasury" false false false None (Some ([S_const [116; 114; 101; 97; 115; 117; 114; 121]; S_field "treasury.agent_did"], P_self)) [];
     account "yieldConfig" true false false None (Some ([S_const [121; 105; 101; 108; 100; 95; 99; 111; 110; 102; 105; 103]; S_field "treasury.agent_did"], P_self)) [];
     account "operator" false true false None None ["treasury"]];
     in_args := [] |}%string.

Definition treasury_standard_setLimits : idl_instruction :=
  {| in_name := "setLimits"; in_discriminator := [207; 50; 250; 67; 211; 33; 70; 91];
     in_accounts := [
     account "global" false false false None (Some ([S_const [116; 114; 101; 97; 115; 117; 114; 121; 95; 103; 108; 111; 98; 97; 108]], P_self)) [];
     account "treasury" true false false None (Some ([S_const [116; 114; 101; 97; 115; 117; 114; 121]; S_field "treasury.agent_did"], P_self)) [];
     account "operator" false true false None None ["treasury"]];
     in_args := [("daily", T_u64); ("perTx", T_u64); ("weekly", T_u64)] |}%string.

Definition treasury_standard_setTreasuryYieldConfig : idl_instruction :=
  {| in_name := "setTreasuryYieldConfig"; in_discriminator := [210; 165; 119; 107; 224; 73; 193; 252];
     in_accounts := [
     account "global" false false false None (Some ([S_const [116; 114; 101; 97; 115; 117; 114; 121; 95; 103; 108; 111; 98; 97; 108]], P_self)) [];
     account "treasury" false false false None (Some ([S_const [116; 114; 101; 97; 115; 117; 114; 121]; S_arg "agentDid"], P_self)) [];
     account "strategy" false false false None (Some ([S_const [121; 105; 101; 108; 100; 95; 115; 116; 114; 97; 116; 101; 103; 121]; S_arg "strategyId"], P_self)) [];
     account "yieldConfig" true false false None (Some ([S_const [121; 105; 101; 108; 100; 95; 99; 111; 110; 102; 105; 103]; S_arg "agentDid"], P_self)) [];
     account "operator" true true false None None ["treasury"];
     account "systemProgram" false false false (Some "11111111111111111111111111111111") None []];
     in_args := [("agentDid", (T_array T_u8 32%nat)); ("strategyId", (T_array T_u8 32%nat)); ("allocationBps", T_u16); ("paused", T_bool)] |}%string.

Definition treasury_standard_setYieldStrategyStatus : idl_instruction :=
  {| in_name := "setYieldStrategyStatus"; in_discriminator := [161; 25; 86; 105; 1; 69; 157; 158];
     in_accounts := [
     account "global" false false false None (Some ([S_const [116; 114; 101; 97; 115; 117; 114; 121; 95; 103; 108; 111; 98; 97; 108]], P_self)) [];
     account "strategy" true false false None (Some ([S_const [121; 105; 101; 108; 100; 95; 115; 116; 114; 97; 116; 101; 103; 121]; S_field "strategy.strategy_id"], P_self)) [];
     account "authority" false true false None None ["global"]];
     in_args := [("status", (T_defined "yieldStrategyStatus"))] |}%string.

Definition treasury_standard_withdraw : idl_instruction :=
  {| in_name := "withdraw"; in_discriminator := [183; 18; 70; 156; 148; 109; 161; 34];
     in_accounts := [
     account "global" false false false None (Some ([S_const [116; 114; 101; 97; 115; 117; 114; 121; 95; 103; 108; 111; 98; 97; 108]], P_self)) [];
     account "treasury" true false false None (Some ([S_const [116; 114; 101; 97; 115; 117; 114; 121]; S_field "treasury.agent_did"], P_self)) [];
     account "allowedTargets" false false true None (Some ([S_const [97; 108; 108; 111; 119; 101; 100; 95; 116; 97; 114; 103; 101; 116; 115]; S_field "treasury.agent_did"], P_self)) [];
     account "mint" false false false None None [];
     account "vault" true false false None (Some ([S_const [118; 97; 117; 108; 116]; S_field "treasury.agent_did"; S_account "mint"], P_self)) [];
     account "destination" true false false None None [];
     account "priceFeed" false false true None None [];
     account "hookAllowlist" false false true None None [];
     account "guard" true false false None (Some ([S_const [103; 117; 97; 114; 100]], P_self)) [];
     account "operator" false true false None None ["treasury"];
     account "tokenProgram" false false false None None []];
     in_args := [("amount", T_u64)] |}%string.

Definition treasury_standard_withdrawEarned : idl_instruction :=
  {| in_name := "withdrawEarned"; in_discriminator := [231; 255; 26; 76; 28; 120; 137; 111];
     in_accounts := [
     account "global" false false false None (Some ([S_const [116; 114; 101; 97; 115; 117; 114; 121; 95; 103; 108; 111; 98; 97; 108]], P_self)) [];
     account "treasury" false false false None (Some ([S_const [116; 114; 101; 97; 115; 117; 114; 121]; S_field "treasury.agent_did"], P_self)) [];
     account "allowedTargets" false false true None (Some ([S_const [97; 108; 108; 111; 119; 101; 100; 95; 116; 97; 114; 103; 101; 116; 115]; S_field "treasury.agent_did"], P_self)) [];
     account "stream" true false false None (Some ([S_const [115; 116; 114; 101; 97; 109]; S_field "stream.agent_did"; S_field "stream.client"; S_field "stream.stream_nonce"], P_self)) [];
     account "payerMint" false false false None None [];
     account "payoutMint" false false false None None [];
     account "escrow" true false false None (Some ([S_const [115; 116; 114; 101; 97; 109; 95; 101; 115; 99; 114; 111; 119]; S_account "stream"], P_self)) [];
     account "agentVault" true false false None (Some ([S_const [118; 97; 117; 108; 116]; S_field "treasury.agent_did"; S_account "payoutMint"], P_self)) [];
     account "jupiterProgram" false false false None None [];
     account "payerPriceFeed" false false true None None [];
     account "payoutPriceFeed" false false true None None [];
     account "hookAllowlist" false false true None None [];
     account "agentHooks" false false true None (Some ([S_const [97; 103; 101; 110; 116; 95; 104; 111; 111; 107; 115]; S_field "treasury.agent_did"], (P_const [58; 192; 104; 235; 111; 55; 163; 185; 224; 202; 17; 51; 151; 168; 139; 20; 235; 153; 53; 111; 219; 212; 208; 244; 93; 58; 84; 237; 247; 91; 204; 0]))) [];
     account "guard" true false false None (Some ([S_const [103; 117; 97; 114; 100]], P_self)) [];
     account "operator" false true false None None ["treasury"];
     account "tokenProgram" false false false None None []];
     in_args := [("routeData", T_bytes)] |}%string.

Definition treasury_standard_withdrawFromYieldStrategy : idl_instruction :=
  {| in_name := "withdrawFromYieldStrategy"; in_discriminator := [86; 199; 213; 140; 192; 214; 80; 66];
     in_accounts := [
     account "global" false false false None (Some ([S_const [116; 114; 101; 97; 115; 117; 114; 121; 95; 103; 108; 111; 98; 97; 108]], P_self)) [];
     account "treasury" true false false None (Some ([S_const [116; 114; 101; 97; 115; 117; 114; 121]; S_field "treasury.agent_did"], P_self)) [];
     account "allowedTargets" false false true None (Some ([S_const [97; 108; 108; 111; 119; 101; 100; 95; 116; 97; 114; 103; 101; 116; 115]; S_field "treasury.agent_did"], P_self)) [];
     account "strategy" false false false None (Some ([S_const [121; 105; 101; 108; 100; 95; 115; 116; 114; 97; 116; 101; 103; 121]; S_field "strategy.strategy_id"], P_self)) [];
     account "yieldConfig" true false false None (Some ([S_const [121; 105; 101; 108; 100; 95; 99; 111; 110; 102; 105; 103]; S_field "treasury.agent_did"], P_self)) [];
     account "position" true false false None (Some ([S_const [121; 105; 101; 108; 100; 95; 112; 111; 115; 105; 116; 105; 111; 110]; S_field "treasury.agent_did"; S_field "strategy.strategy_id"; S_account "mint"], P_self)) [];
     account "mint" false false false None None [];
     account "receiptMint" false false false None None [];
     account "vault" true false false None (Some ([S_const [118; 97; 117; 108; 116]; S_field "treasury.agent_did"; S_account "mint"], P_self)) [];
     account "receiptVault" true false false None (Some ([S_const [121; 105; 101; 108; 100; 95; 114; 101; 99; 101; 105; 112; 116; 95; 118; 97; 117; 108; 116]; S_account "position"], P_self)) [];
     account "kaminoProgram" false false false None None [];
     account "guard" true false false None (Some ([S_const [103; 117; 97; 114; 100]], P_self)) [];
     account "operator" false true false None None ["treasury"];
     account "tokenProgram" false false false None None []];
     in_args := [("receiptAmount", T_u64); ("routeData", T_bytes)] |}%string.

(** ** agent registry *)

Definition agent_registry_registerAgent : idl_instruction :=
  {| in_name := "registerAgent"; in_discriminator := [135; 157; 66; 195; 2; 113; 175; 30];
     in_accounts := [
     account "global" false false false None (Some ([S_const [103; 108; 111; 98; 97; 108]], P_self)) [];
     account "capabilityConfig" false false false None None [];
     account "agent" true false false None (Some ([S_const [97; 103; 101; 110; 116]; S_account "operator"; S_arg "agentId"], P_self)) [];
     account "stakeMint" false false false None None [];
     account "stakeVault" true false false None (Some ([S_const [115; 116; 97; 107; 101]; S_account "agent"], P_self)) [];
     account "operatorTokenAccount" true false false None None [];
     account "operator" true true false None None [];
     account "personhoodAttestation" false false true None (Some ([S_const [112; 101; 114; 115; 111; 110; 104; 111; 111; 100]; S_account "operator"], P_self)) [];
     account "guard" true false false None (Some ([S_const [103; 117; 97; 114; 100]], P_self)) [];
     account "tokenProgram" false false false None None [];
     account "systemProgram" false false false (Some "11111111111111111111111111111111") None [];
     account "rent" false false false (Some "SysvarRent111111111111111111111111111111111") None []];
     in_args := [("agentId", (T_array T_u8 32%nat)); ("manifestUri", (T_array T_u8 128%nat)); ("capabilityMask", T_u128); ("priceLamports", T_u64); ("streamRate", T_u64); ("stakeAmount", T_u64)] |}%string.

Definition agent_registry_setStatus : idl_instruction :=
  {| in_name := "setStatus"; in_discriminator := [181; 184; 224; 203; 193; 29; 177; 224];
     in_accounts := [
     account "global" false false false None (Some ([S_const [103; 108; 111; 98; 97; 108]], P_self)) [];
     account "agent" true false false None (Some ([S_const [97; 103; 101; 110; 116]; S_field "agent.operator"; S_field "agent.agent_id"], P_self)) [];
     account "signer" false true false None None []];
     in_args := [("newStatus", (T_defined "agentStatus"))] |}%string.

Definition agent_registry_stakeIncrease : idl_instruction :=
  {| in_name := "stakeIncrease"; in_discriminator := [239; 163; 255; 22; 206; 116; 44; 130];
     in_accounts := [
     account "global" false false false None (Some ([S_const [103; 108; 111; 98; 97; 108]], P_self)) [];
     account "agent" true false false None (Some ([S_const [97; 103; 101; 110; 116]; S_field "agent.operator"; S_field "agent.agent_id"], P_self)) [];
     account "stakeMint" false false false None None [];
     account "stakeVault" true false false None (Some ([S_const [115; 116; 97; 107; 101]; S_account "agent"], P_self)) [];
     account "operatorTokenAccount" true false false None None [];
     account "guard" true false false None (Some ([S_const [103; 117; 97; 114; 100]], P_self)) [];
     account "operator" false true false None None ["agent"];
     account "tokenProgram" false false false None None []];
     in_args := [("amount", T_u64)] |}%string.

Definition agent_registry_stakeWithdrawExecute : idl_instruction :=
  {| in_name := "stakeWithdrawExecute"; in_discriminator := [3; 191; 125; 25; 239; 169; 129; 161];
     in_accounts := [
     account "global" false false false None (Some ([S_const [103; 108; 111; 98; 97; 108]], P_self)) [];
     account "agent" true false false None (Some ([S_const [97; 103; 101; 110; 116]; S_field "agent.operator"; S_field "agent.agent_id"], P_self)) [];
     account "stakeMint" false false false None None [];
     account "stakeVault" true false false None (Some ([S_const [115; 116; 97; 107; 101]; S_account "agent"], P_self)) [];
     account "operatorTokenAccount" true false false None None [];
     account "guard" true false false None (Some ([S_const [103; 117; 97; 114; 100]], P_self)) [];
     account "operator" false true false None None ["agent"];
     account "tokenProgram" false false false None None []];
     in_args := [] |}%string.

Definition agent_registry_stakeWithdrawRequest : idl_instruction :=
  {| in_name := "stakeWithdrawRequest"; in_discriminator := [20; 22; 8; 195; 35; 24; 57; 20];
     in_accounts := [
     account "global" false false false None (Some ([S_const [103; 108; 111; 98; 97; 108]], P_self)) [];
     account "agent" true false false None (Some ([S_const [97; 103; 101; 110; 116]; S_field "agent.operator"; S_field "agent.agent_id"], P_self)) [];
     account "operator" false true false None None ["agent"]];
     in_args := [("amount", T_u64)] |}%string.

Definition agent_registry_updateManifest : idl_instruction :=
  {| in_name := "updateManifest"; in_discriminator := [232; 75; 222; 229; 60; 55; 168; 49];
     in_accounts := [
     account "global" false false false None (Some ([S_const [103; 108; 111; 98; 97; 108]], P_self)) [];
     account "capabilityConfig" false false false None None [];
     account "agent" true false false None (Some ([S_const [97; 103; 101; 110; 116]; S_field "agent.operator"; S_field "agent.agent_id"], P_self)) [];
     account "operator" false true false None None ["agent"]];
     in_args := [("manifestUri", (T_array T_u8 128%nat)); ("capabilityMask", T_u128); ("priceLamports", T_u64); ("streamRate", T_u64)] |}%string.

(** ** capability registry *)

Definition capability_registry_proposeTag : idl_instruction :=
  {| in_name := "proposeTag"; in_discriminator := [3; 89; 242; 204; 217; 153; 0; 134];
     in_accounts := [
     account "config" true false false None (Some ([S_const [99; 111; 110; 102; 105; 103]], P_self)) [];
     account "tag" true false false None None [];
     account "authority" false true false None None ["config"];
     account "payer" true true false None None [];
     account "systemProgram" false false false (Some "11111111111111111111111111111111") None []];
     in_args := [("bitIndex", T_u8); ("slug", (T_array T_u8 32%nat)); ("manifestUri", (T_array T_u8 96%nat))] |}%string.

Definition capability_registry_retireTag : idl_instruction :=
  {| in_name := "retireTag"; in_discriminator := [11; 248; 242; 230; 59; 185; 150; 162];
     in_accounts := [
     account "config" true false false None (Some ([S_const [99; 111; 110; 102; 105; 103]], P_self)) [];
     account "tag" true false false None None [];
     account "authority" false true false None None ["config"]];
     in_args := [("bitIndex", T_u8)] |}%string.

Definition capability_registry_validateMask : idl_instruction :=
  {| in_name := "validateMask"; in_discriminator := [55; 133; 88; 171; 130; 82; 219; 242];
     in_accounts := [
     account "config" false false false None (Some ([S_const [99; 111; 110; 102; 105; 103]], P_self)) []];
     in_args := [("mask", T_u128)] |}%string.

(** ** proof verifier *)

Definition proof_verifier_executeVkActivation : idl_instruction :=
  {| in_name := "executeVkActivation"; in_discriminator := [74; 212; 229; 200; 41; 188; 71; 198];
     in_accounts := [
     account "config" true false false None (Some ([S_const [118; 101; 114; 105; 102; 105; 101; 114; 95; 99; 111; 110; 102; 105; 103]], P_self)) [];
     account "vk" false false false None (Some ([S_const [118; 107]; S_field "vk.vk_id"], P_self)) []];
     in_args := [] |}%string.

Definition proof_verifier_proposeVkActivation : idl_instruction :=
  {| in_name := "proposeVkActivation"; in_discriminator := [233; 195; 204; 114; 237; 202; 226; 208];
     in_accounts := [
     account "config" true false false None (Some ([S_const [118; 101; 114; 105; 102; 105; 101; 114; 95; 99; 111; 110; 102; 105; 103]], P_self)) [];
     account "vk" false false false None (Some ([S_const [118; 107]; S_field "vk.vk_id"], P_self)) [];
     account "mode" false false false None (Some ([S_const [109; 111; 100; 101]], P_self)) [];
     account "authority" false true false None None ["config"]];
     in_args := [] |}%string.

Definition proof_verifier_registerVk : idl_instruction :=
  {| in_name := "registerVk"; in_discriminator := [248; 1; 135; 102; 153; 191; 170; 30];
     in_accounts := [
     account "config" false false false None (Some ([S_const [118; 101; 114; 105; 102; 105; 101; 114; 95; 99; 111; 110; 102; 105; 103]], P_self)) [];
     account "vk" true false false None (Some ([S_const [118; 107]; S_arg "vkId"], P_self)) [];
     account "authority" false true false None None ["config"];
     account "payer" true true false None None [];
     account "systemProgram" false false false (Some "11111111111111111111111111111111") None []];
     in_args := [("vkId", (T_array T_u8 32%nat)); ("alphaG1", (T_array T_u8 64%nat)); ("betaG2", (T_array T_u8 128%nat)); ("gammaG2", (T_array T_u8 128%nat)); ("deltaG2", (T_array T_u8 128%nat)); ("ic", (T_vec (T_array T_u8 64%nat))); ("numPublicInputs", T_u8); ("circuitLabel", (T_array T_u8 32%nat)); ("isProduction", T_bool)] |}%string.

Definition proof_verifier_verifyProof : idl_instruction :=
  {| in_name := "verifyProof"; in_discriminator := [217; 211; 191; 110; 144; 13; 186; 98];
     in_accounts := [
     account "config" false false false None (Some ([S_const [118; 101; 114; 105; 102; 105; 101; 114; 95; 99; 111; 110; 102; 105; 103]], P_self)) [];
     account "vk" false false false None (Some ([S_const [118; 107]; S_field "vk.vk_id"], P_self)) [];
     account "mode" false false false None (Some ([S_const [109; 111; 100; 101]], P_self)) [];
     account "selfGuard" false false false None (Some ([S_const [103; 117; 97; 114; 100]], P_self)) [];
     account "allowedCallers" false false false None (Some ([S_const [97; 108; 108; 111; 119; 101; 100; 95; 99; 97; 108; 108; 101; 114; 115]], P_self)) [];
     account "callerGuard" false false false None None [];
     account "instructions" false false false (Some "Sysvar1nstructions1111111111111111111111111") None []];
     in_args := [("proofA", (T_array T_u8 64%nat)); ("proofB", (T_array T_u8 128%nat)); ("proofC", (T_array T_u8 64%nat)); ("publicInputs", (T_vec (T_array T_u8 32%nat)))] |}%string.

(** ** nxs staking *)

Definition nxs_staking_beginUnstake : idl_instruction :=
  {| in_name := "beginUnstake"; in_discriminator := [156; 67; 177; 83; 28; 111; 174; 132];
     in_accounts := [
     account "pool" true false false None (Some ([S_const [115; 116; 97; 107; 105; 110; 103; 95; 112; 111; 111; 108]], P_self)) [];
     account "stakeAccount" true false false None (Some ([S_const [115; 116; 97; 107; 101]; S_account "pool"; S_account "owner"], P_self)) [];
     account "owner" false true false None None ["stakeAccount"]];
     in_args := [] |}%string.

Definition nxs_staking_snapshotEpoch : idl_instruction :=
  {| in_name := "snapshotEpoch"; in_discriminator := [246; 129; 45; 23; 245; 142; 227; 41];
     in_accounts := [
     account "config" false false false None (Some ([S_const [115; 116; 97; 107; 105; 110; 103; 95; 99; 111; 110; 102; 105; 103]], P_self)) [];
     account "pool" true false false None (Some ([S_const [115; 116; 97; 107; 105; 110; 103; 95; 112; 111; 111; 108]], P_self)) [];
     account "snapshot" true false false None (Some ([S_const [101; 112; 111; 99; 104; 95; 115; 110; 97; 112; 115; 104; 111; 116]; S_field "pool.current_epoch"], P_self)) [];
     account "authority" true true false None None ["config"];
     account "systemProgram" false false false (Some "11111111111111111111111111111111") None []];
     in_args := [("totalVotingPower", T_u128); ("stakerCount", T_u32)] |}%string.

Definition nxs_staking_stake : idl_instruction :=
  {| in_name := "stake"; in_discriminator := [206; 176; 202; 18; 200; 209; 179; 108];
     in_accounts := [
     account "pool" true false false None (Some ([S_const [115; 116; 97; 107; 105; 110; 103; 95; 112; 111; 111; 108]], P_self)) [];
     account "stakeAccount" true false false None (Some ([S_const [115; 116; 97; 107; 101]; S_account "pool"; S_account "owner"], P_self)) [];
     account "stakeMint" false false false None None [];
     account "vault" true false false None (Some ([S_const [115; 116; 97; 107; 101; 95; 118; 97; 117; 108; 116]; S_account "stakeAccount"], P_self)) [];
     account "ownerTokenAccount" true false false None None [];
     account "owner" true true false None None [];
     account "tokenProgram" false false false None None [];
     account "systemProgram" false false false (Some "11111111111111111111111111111111") None []];
     in_args := [("amount", T_u64); ("lockupDurationSecs", T_i64)] |}%string.

Definition nxs_staking_withdraw : idl_instruction :=
  {| in_name := "withdraw"; in_discriminator := [183; 18; 70; 156; 148; 109; 161; 34];
     in_accounts := [
     account "pool" true false false None (Some ([S_const [115; 116; 97; 107; 105; 110; 103; 95; 112; 111; 111; 108]], P_self)) [];
     account "stakeAccount" true false false None (Some ([S_const [115; 116; 97; 107; 101]; S_account "pool"; S_account "owner"], P_self)) [];
     account "stakeMint" false false false None None [];
     account "vault" true false false None (Some ([S_const [115; 116; 97; 107; 101; 95; 118; 97; 117; 108; 116]; S_account "stakeAccount"], P_self)) [];
     account "ownerTokenAccount" true false false None None [];
     account "owner" false true false None None ["stakeAccount"];
     account "tokenProgram" false false false None None []];
     in_args := [] |}%string.

(** ** governance program *)

Definition governance_program_executeProposal : idl_instruction :=
  {| in_name := "executeProposal"; in_discriminator := [186; 60; 116; 133; 108; 128; 111; 28];
     in_accounts := [
     account "config" false false false None (Some ([S_const [103; 111; 118; 101; 114; 110; 97; 110; 99; 101; 95; 99; 111; 110; 102; 105; 103]], P_self)) [];
     account "registry" false false false None (Some ([S_const [112; 114; 111; 103; 114; 97; 109; 95; 114; 101; 103; 105; 115; 116; 114; 121]], P_self)) [];
     account "proposal" true false false None (Some ([S_const [112; 114; 111; 112; 111; 115; 97; 108]; S_field "proposal.proposal_id"], P_self)) [];
     account "executionRecord" true false false None (Some ([S_const [101; 120; 101; 99; 117; 116; 105; 111; 110]; S_account "proposal"], P_self)) [];
     account "executor" true true false None None [];
     account "systemProgram" false false false (Some "11111111111111111111111111111111") None []];
     in_args := [] |}%string.

Definition governance_program_expireProposal : idl_instruction :=
  {| in_name := "expireProposal"; in_discriminator := [21; 237; 43; 176; 1; 202; 146; 144];
     in_accounts := [
     account "proposal" true false false None (Some ([S_const [112; 114; 111; 112; 111; 115; 97; 108]; S_field "proposal.proposal_id"], P_self)) [];
     account "cranker" false true false None None []];
     in_args := [] |}%string.

Definition governance_program_finalizeVote : idl_instruction :=
  {| in_name := "finalizeVote"; in_discriminator := [181; 176; 6; 248; 249; 134; 146; 56];
     in_accounts := [
     account "config" false false false None (Some ([S_const [103; 111; 118; 101; 114; 110; 97; 110; 99; 101; 95; 99; 111; 110; 102; 105; 103]], P_self)) [];
     account "registry" false false false None (Some ([S_const [112; 114; 111; 103; 114; 97; 109; 95; 114; 101; 103; 105; 115; 116; 114; 121]], P_self)) [];
     account "proposal" true false false None (Some ([S_const [112; 114; 111; 112; 111; 115; 97; 108]; S_field "proposal.proposal_id"], P_self)) [];
     account "cranker" false true false None None []];
     in_args := [] |}%string.

Definition governance_program_propose : idl_instruction :=
  {| in_name := "propose"; in_discriminator := [93; 253; 82; 168; 118; 33; 102; 90];
     in_accounts := [
     account "config" true false false None (Some ([S_const [103; 111; 118; 101; 114; 110; 97; 110; 99; 101; 95; 99; 111; 110; 102; 105; 103]], P_self)) [];
     account "registry" false false false None (Some ([S_const [112; 114; 111; 103; 114; 97; 109; 95; 114; 101; 103; 105; 115; 116; 114; 121]], P_self)) [];
     account "proposal" true false false None (Some ([S_const [112; 114; 111; 112; 111; 115; 97; 108]; S_field "config.next_proposal_id"], P_self)) [];
     account "proposer" true true false None None [];
     account "systemProgram" false false false (Some "11111111111111111111111111111111") None []];
     in_args := [("category", (T_defined "proposalCategory")); ("targetProgram", T_pubkey); ("ixData", T_bytes); ("metadataUri", T_bytes); ("snapshot", (T_defined "proposalSnapshot"))] |}%string.

Definition governance_program_proposerCancel : idl_instruction :=
  {| in_name := "proposerCancel"; in_discriminator := [191; 37; 166; 218; 45; 231; 66; 236];
     in_accounts := [
     account "proposal" true false false None (Some ([S_const [112; 114; 111; 112; 111; 115; 97; 108]; S_field "proposal.proposal_id"], P_self)) [];
     account "proposer" false true false None None ["proposal"]];
     in_args := [] |}%string.

Definition governance_program_queueExecution : idl_instruction :=
  {| in_name := "queueExecution"; in_discriminator := [112; 47; 222; 94; 168; 153; 227; 95];
     in_accounts := [
     account "proposal" true false false None (Some ([S_const [112; 114; 111; 112; 111; 115; 97; 108]; S_field "proposal.proposal_id"], P_self)) [];
     account "cranker" false true false None None []];
     in_args := [] |}%string.

Definition governance_program_vote : idl_instruction :=
  {| in_name := "vote"; in_discriminator := [227; 110; 155; 23; 136; 126; 172; 25];
     in_accounts := [
     account "config" false false false None (Some ([S_const [103; 111; 118; 101; 114; 110; 97; 110; 99; 101; 95; 99; 111; 110; 102; 105; 103]], P_self)) [];
     account "proposal" true false false None (Some ([S_const [112; 114; 111; 112; 111; 115; 97; 108]; S_field "proposal.proposal_id"], P_self)) [];
     account "voteRecord" true false false None (Some ([S_const [118; 111; 116; 101]; S_account "proposal"; S_account "voter"], P_self)) [];
     account "voter" true true false None None [];
     account "systemProgram" false false false (Some "11111111111111111111111111111111") None []];
     in_args := [("choice", (T_defined "voteChoice")); ("weight", T_u128); ("merkleProof", (T_vec (T_array T_u8 32%nat)))] |}%string.

(** ** fee collector *)

Definition fee_collector_claimStaker : idl_instruction :=
  {| in_name := "claimStaker"; in_discriminator := [226; 211; 121; 82; 144; 238; 194; 189];
     in_accounts := [
     account "config" false false false None (Some ([S_const [102; 101; 101; 95; 99; 111; 110; 102; 105; 103]], P_self)) [];
     account "epoch" true false false None (Some ([S_const [101; 112; 111; 99; 104]; S_arg "epochId"], P_self)) [];
     account "claim" true false false None (Some ([S_const [99; 108; 97; 105; 109]; S_arg "epochId"; S_account "staker"], P_self)) [];
     account "saepMint" false false false None None [];
     account "stakerVault" true false false None (Some ([S_const [115; 116; 97; 107; 101; 114; 95; 118; 97; 117; 108; 116]], P_self)) [];
     account "stakerTokenAccount" true false false None None [];
     account "staker" true true false None None [];
     account "tokenProgram" false false false None None [];
     account "systemProgram" false false false (Some "11111111111111111111111111111111") None []];
     in_args := [("epochId", T_u64); ("amount", T_u64); ("merkleProof", (T_vec (T_array T_u8 32%nat)))] |}%string.

Definition fee_collector_commitDistributionRoot : idl_instruction :=
  {| in_name := "commitDistributionRoot"; in_discriminator := [101; 170; 88; 162; 27; 185; 114; 173];
     in_accounts := [
     account "config" false false false None (Some ([S_const [102; 101; 101; 95; 99; 111; 110; 102; 105; 103]], P_self)) [];
     account "epoch" true false false None (Some ([S_const [101; 112; 111; 99; 104]; S_arg "epochId"], P_self)) [];
     account "committer" false true false None None []];
     in_args := [("epochId", T_u64); ("root", (T_array T_u8 32%nat)); ("leafCount", T_u32); ("totalWeight", T_u64)] |}%string.

Definition fee_collector_depositSaep : idl_instruction :=
  {| in_name := "depositSaep"; in_discriminator := [73; 76; 141; 21; 235; 215; 144; 133];
     in_accounts := [
     account "config" false false false None (Some ([S_const [102; 101; 101; 95; 99; 111; 110; 102; 105; 103]], P_self)) [];
     account "externalMint" true false false None None [];
     account "internalMint" true false false None None [];
     account "depositorExternal" true false false None None [];
     account "depositorInternal" true false false None None [];
     account "depositVault" true false false None (Some ([S_const [100; 101; 112; 111; 115; 105; 116; 95; 118; 97; 117; 108; 116]], P_self)) [];
     account "mintAuthority" false false false None (Some ([S_const [109; 105; 110; 116; 95; 97; 117; 116; 104; 111; 114; 105; 116; 121]], P_self)) [];
     account "depositor" false true false None None [];
     account "externalTokenProgram" false false false None None [];
     account "internalTokenProgram" false false false None None []];
     in_args := [("amount", T_u64)] |}%string.

Definition fee_collector_executeBurn : idl_instruction :=
  {| in_name := "executeBurn"; in_discriminator := [234; 48; 129; 220; 40; 222; 58; 159];
     in_accounts := [
     account "config" false false false None (Some ([S_const [102; 101; 101; 95; 99; 111; 110; 102; 105; 103]], P_self)) [];
     account "epoch" true false false None (Some ([S_const [101; 112; 111; 99; 104]; S_arg "epochId"], P_self)) [];
     account "saepMint" true false false None None [];
     account "burnVault" true false false None (Some ([S_const [98; 117; 114; 110; 95; 118; 97; 117; 108; 116]], P_self)) [];
     account "cranker" false true false None None [];
     account "tokenProgram" false false false None None []];
     in_args := [("epochId", T_u64)] |}%string.

Definition fee_collector_harvestConfidentialFees : idl_instruction :=
  {| in_name := "harvestConfidentialFees"; in_discriminator := [75; 72; 225; 51; 34; 119; 20; 50];
     in_accounts := [
     account "config" true false false None (Some ([S_const [102; 101; 101; 95; 99; 111; 110; 102; 105; 103]], P_self)) [];
     account "currentEpoch" true false false None (Some ([S_const [101; 112; 111; 99; 104]; S_field "config.next_epoch_id.saturating_sub(1)"], P_self)) [];
     account "saepMint" true false false None None [];
     account "intakeVault" true false false None (Some ([S_const [105; 110; 116; 97; 107; 101; 95; 118; 97; 117; 108; 116]], P_self)) [];
     account "feeWithdrawAuthority" false false false None (Some ([S_const [116; 114; 97; 110; 115; 102; 101; 114; 95; 102; 101; 101; 95; 119; 105; 116; 104; 100; 114; 97; 119; 95; 97; 117; 116; 104; 111; 114; 105; 116; 121]], P_self)) [];
     account "cranker" false true false None None [];
     account "tokenProgram" false false false None None []];
     in_args := [] |}%string.

Definition fee_collector_harvestTransferFees : idl_instruction :=
  {| in_name := "harvestTransferFees"; in_discriminator := [246; 104; 231; 171; 131; 105; 50; 55];
     in_accounts := [
     account "config" true false false None (Some ([S_const [102; 101; 101; 95; 99; 111; 110; 102; 105; 103]], P_self)) [];
     account "currentEpoch" true false false None (Some ([S_const [101; 112; 111; 99; 104]; S_field "config.next_epoch_id.saturating_sub(1)"], P_self)) [];
     account "saepMint" true false false None None [];
     account "intakeVault" true false false None (Some ([S_const [105; 110; 116; 97; 107; 101; 95; 118; 97; 117; 108; 116]], P_self)) [];
     account "feeWithdrawAuthority" false false false None (Some ([S_const [116; 114; 97; 110; 115; 102; 101; 114; 95; 102; 101; 101; 95; 119; 105; 116; 104; 100; 114; 97; 119; 95; 97; 117; 116; 104; 111; 114; 105; 116; 121]], P_self)) [];
     account "cranker" false true false None None [];
     account "tokenProgram" false false false None None []];
     in_args := [] |}%string.

Definition fee_collector_processEpoch : idl_instruction :=
  {| in_name := "processEpoch"; in_discriminator := [115; 194; 215; 160; 113; 154; 81; 5];
     in_accounts := [
     account "config" true false false None (Some ([S_const [102; 101; 101; 95; 99; 111; 110; 102; 105; 103]], P_self)) [];
     account "currentEpoch" true false false None (Some ([S_const [101; 112; 111; 99; 104]; S_field "current_epoch.epoch_id"], P_self)) [];
     account "nextEpoch" true false false None (Some ([S_const [101; 112; 111; 99; 104]; S_field "config.next_epoch_id"], P_self)) [];
     account "saepMint" false false false None None [];
     account "intakeVault" true false false None (Some ([S_const [105; 110; 116; 97; 107; 101; 95; 118; 97; 117; 108; 116]], P_self)) [];
     account "burnVault" true false false None (Some ([S_const [98; 117; 114; 110; 95; 118; 97; 117; 108; 116]], P_self)) [];
     account "stakerVault" true false false None (Some ([S_const [115; 116; 97; 107; 101; 114; 95; 118; 97; 117; 108; 116]], P_self)) [];
     account "grantRecipient" true false false None None [];
     account "treasuryRecipient" true false false None None [];
     account "cranker" true true false None None [];
     account "tokenProgram" false false false None None [];
     account "systemProgram" false false false (Some "11111111111111111111111111111111") None []];
     in_args := [("snapshotId", T_u64)] |}%string.

Definition fee_collector_setConfidentialTransfers : idl_instruction :=
  {| in_name := "setConfidentialTransfers"; in_discriminator := [89; 244; 199; 206; 160; 44; 207; 126];
     in_accounts := [
     account "config" true false false None (Some ([S_const [102; 101; 101; 95; 99; 111; 110; 102; 105; 103]], P_self)) [];
     account "authority" false true false None None []];
     in_args := [("enabled", T_bool)] |}%string.

Definition fee_collector_withdrawSaep : idl_instruction :=
  {| in_name := "withdrawSaep"; in_discriminator := [158; 242; 130; 67; 232; 20; 180; 172];
     in_accounts := [
     account "config" false false false None (Some ([S_const [102; 101; 101; 95; 99; 111; 110; 102; 105; 103]], P_self)) [];
     account "externalMint" true false false None None [];
     account "internalMint" true false false None None [];
     account "withdrawerInternal" true false false None None [];
     account "withdrawerExternal" true false false None None [];
     account "depositVault" true false false None (Some ([S_const [100; 101; 112; 111; 115; 105; 116; 95; 118; 97; 117; 108; 116]], P_self)) [];
     account "mintAuthority" false false false None (Some ([S_const [109; 105; 110; 116; 95; 97; 117; 116; 104; 111; 114; 105; 116; 121]], P_self)) [];
     account "withdrawer" false true false None None [];
     account "externalTokenProgram" false false false None None [];
     account "internalTokenProgram" false false false None None []];
     in_args := [("amount", T_u64)] |}%string.

(** ** template registry *)

Definition template_registry_claimRentalRevenue : idl_instruction :=
  {| in_name := "claimRentalRevenue"; in_discriminator := [73; 99; 248; 57; 155; 198; 3; 109];
     in_accounts := [
     account "global" false false false None (Some ([S_const [116; 112; 108; 95; 103; 108; 111; 98; 97; 108]], P_self)) [];
     account "template" false false false None (Some ([S_const [116; 101; 109; 112; 108; 97; 116; 101]; S_field "template.template_id"], P_self)) [];
     account "rental" true false false None None [];
     account "mint" false false false None None [];
     account "escrow" true false false None (Some ([S_const [114; 101; 110; 116; 97; 108; 95; 101; 115; 99; 114; 111; 119]; S_account "rental"], P_self)) [];
     account "authorTokenAccount" true false false None None [];
     account "feeCollectorTokenAccount" true false false None None [];
     account "cranker" false true false None None [];
     account "tokenProgram" false false false None None []];
     in_args := [] |}%string.

Definition template_registry_closeRental : idl_instruction :=
  {| in_name := "closeRental"; in_discriminator := [179; 188; 113; 211; 41; 232; 51; 51];
     in_accounts := [
     account "global" false false false None (Some ([S_const [116; 112; 108; 95; 103; 108; 111; 98; 97; 108]], P_self)) [];
     account "template" false false false None (Some ([S_const [116; 101; 109; 112; 108; 97; 116; 101]; S_field "template.template_id"], P_self)) [];
     account "rental" true false false None None [];
     account "mint" false false false None None [];
     account "escrow" true false false None (Some ([S_const [114; 101; 110; 116; 97; 108; 95; 101; 115; 99; 114; 111; 119]; S_account "rental"], P_self)) [];
     account "authorTokenAccount" true false false None None [];
     account "feeCollectorTokenAccount" true false false None None [];
     account "renterTokenAccount" true false false None None [];
     account "signer" false true false None None [];
     account "tokenProgram" false false false None None []];
     in_args := [] |}%string.

Definition template_registry_forkTemplate : idl_instruction :=
  {| in_name := "forkTemplate"; in_discriminator := [122; 103; 70; 69; 60; 42; 209; 55];
     in_accounts := [
     account "global" false false false None (Some ([S_const [116; 112; 108; 95; 103; 108; 111; 98; 97; 108]], P_self)) [];
     account "parent" true false false None (Some ([S_const [116; 101; 109; 112; 108; 97; 116; 101]; S_field "parent.template_id"], P_self)) [];
     account "fork" true false false None (Some ([S_const [102; 111; 114; 107]; S_arg "childAgentDid"], P_self)) [];
     account "forker" true true false None None [];
     account "systemProgram" false false false (Some "11111111111111111111111111111111") None []];
     in_args := [("childAgentDid", (T_array T_u8 32%nat))] |}%string.

Definition template_registry_mintTemplate : idl_instruction :=
  {| in_name := "mintTemplate"; in_discriminator := [102; 202; 189; 68; 157; 166; 93; 28];
     in_accounts := [
     account "global" false false false None (Some ([S_const [116; 112; 108; 95; 103; 108; 111; 98; 97; 108]], P_self)) [];
     account "template" true false false None (Some ([S_const [116; 101; 109; 112; 108; 97; 116; 101]; S_arg "templateId"], P_self)) [];
     account "author" true true false None None [];
     account "systemProgram" false false false (Some "11111111111111111111111111111111") None []];
     in_args := [("templateId", (T_array T_u8 32%nat)); ("configHash", (T_array T_u8 32%nat)); ("configUri", (T_array T_u8 128%nat)); ("capabilityMask", T_u128); ("royaltyBps", T_u16); ("rentPricePerSec", T_u64); ("minRentDuration", T_i64); ("maxRentDuration", T_i64)] |}%string.

Definition template_registry_openRental : idl_instruction :=
  {| in_name := "openRental"; in_discriminator := [180; 220; 236; 104; 25; 41; 254; 142];
     in_accounts := [
     account "global" false false false None (Some ([S_const [116; 112; 108; 95; 103; 108; 111; 98; 97; 108]], P_self)) [];
     account "template" false false false None (Some ([S_const [116; 101; 109; 112; 108; 97; 116; 101]; S_field "template.template_id"], P_self)) [];
     account "rental" true false false None (Some ([S_const [114; 101; 110; 116; 97; 108]; S_account "template"; S_account "renter"; S_arg "rentalNonce"], P_self)) [];
     account "mint" false false false None None [];
     account "escrow" true false false None (Some ([S_const [114; 101; 110; 116; 97; 108; 95; 101; 115; 99; 114; 111; 119]; S_account "rental"], P_self)) [];
     account "renterTokenAccount" true false false None None [];
     account "renter" true true false None None [];
     account "tokenProgram" false false false None None [];
     account "systemProgram" false false false (Some "11111111111111111111111111111111") None []];
     in_args := [("durationSecs", T_i64); ("rentalNonce", (T_array T_u8 8%nat))] |}%string.

Definition template_registry_retireTemplate : idl_instruction :=
  {| in_name := "retireTemplate"; in_discriminator := [17; 65; 241; 254; 218; 113; 64; 56];
     in_accounts := [
     account "global" false false false None (Some ([S_const [116; 112; 108; 95; 103; 108; 111; 98; 97; 108]], P_self)) [];
     account "template" true false false None (Some ([S_const [116; 101; 109; 112; 108; 97; 116; 101]; S_field "template.template_id"], P_self)) [];
     account "signer" false true false None None []];
     in_args := [] |}%string.

Definition template_registry_updateTemplate : idl_instruction :=
  {| in_name := "updateTemplate"; in_discriminator := [44; 43; 160; 160; 253; 236; 99; 61];
     in_accounts := [
     account "global" false false false None (Some ([S_const [116; 112; 108; 95; 103; 108; 111; 98; 97; 108]], P_self)) [];
     account "template" true false false None (Some ([S_const [116; 101; 109; 112; 108; 97; 116; 101]; S_field "template.template_id"], P_self)) [];
     account "author" false true false None None ["template"]];
     in_args := [("configHash", (T_array T_u8 32%nat)); ("configUri", (T_array T_u8 128%nat))] |}%string.
