(* ===== verification/IdlTypes.v ===== *)
(** * IdlTypes: the data of the programs

    Models packages/sdk/src/generated/*.ts: the types of each program's interface,
    its accounts and its events with their discriminators.  Anchor's clients encode
    and decode the accounts by these definitions. *)

From Stdlib Require Import ZArith.
From stdpp Require Import base list strings.
From S2P Require Import Prelude Idl.

#[local] Open Scope Z_scope.

Inductive idl_typedef :=
| TD_struct (fields : list (string * idl_type))
| TD_enum (variants : list (string * list (string * idl_type))).

(** ** agent registry *)

Definition agent_registry_agentAccount : idl_typedef :=
  TD_struct [
    ("operator", T_pubkey); ("agentId", (T_array T_u8 32%nat)); ("did", (T_array T_u8 32%nat));
    ("manifestUri", (T_array T_u8 128%nat)); ("capabilityMask", T_u128); ("priceLamports", T_u64); ("streamRate", T_u64);
    ("reputation", (T_defined "reputationScore")); ("jobsCompleted", T_u64); ("jobsDisputed", T_u32);
    ("stakeAmount", T_u64); ("status", (T_defined "agentStatus")); ("version", T_u32); ("registeredAt", T_i64);
    ("lastActive", T_i64); ("delegate", (T_option T_pubkey)); ("pendingSlash", (T_option (T_defined "pendingSlash")));
    ("pendingWithdrawal", (T_option (T_defined "pendingWithdrawal"))); ("bump", T_u8); ("vaultBump", T_u8)]%string.

Definition agent_registry_agentRegistered : idl_typedef :=
  TD_struct [
    ("agentDid", (T_array T_u8 32%nat)); ("operator", T_pubkey); ("capabilityMask", T_u128); ("stakeAmount", T_u64);
    ("timestamp", T_i64)]%string.

Definition agent_registry_agentStatus : idl_typedef :=
  TD_enum [
    ("active", []); ("paused", []); ("suspended", []); ("deregistered", [])]%string.

Definition agent_registry_allowedCallers : idl_typedef :=
  TD_struct [("programs", (T_vec T_pubkey)); ("bump", T_u8)]%string.

Definition agent_registry_allowedCallersUpdated : idl_typedef :=
  TD_struct [("program", T_pubkey); ("count", T_u16); ("timestamp", T_i64)]%string.

Definition agent_registry_availabilityDecayed : idl_typedef :=
  TD_struct [
    ("agentDid", (T_array T_u8 32%nat)); ("capabilityBit", T_u16); ("oldAvailability", T_u16); ("newAvailability", T_u16);
    ("missCount", T_u8); ("timestamp", T_i64)]%string.

Definition agent_registry_categoryReputation : idl_typedef :=
  TD_struct [
    ("agentDid", (T_array T_u8 32%nat)); ("capabilityBit", T_u16); ("score", (T_defined "reputationScore"));
    ("jobsCompleted", T_u32); ("jobsDisputed", T_u16); ("lastProofKey", (T_array T_u8 32%nat));
    ("lastTaskId", (T_array T_u8 32%nat)); ("version", T_u8); ("bump", T_u8)]%string.

Definition agent_registry_categoryReputationUpdated : idl_typedef :=
  TD_struct [
    ("agentDid", (T_array T_u8 32%nat)); ("capabilityBit", T_u16); ("quality", T_u16); ("timeliness", T_u16);
    ("availability", T_u16); ("costEfficiency", T_u16); ("honesty", T_u16); ("jobsCompleted", T_u32);
    ("jobsDisputed", T_u16); ("taskId", (T_array T_u8 32%nat)); ("timestamp", T_i64)]%string.

Definition agent_registry_delegateSet : idl_typedef :=
  TD_struct [
    ("agentDid", (T_array T_u8 32%nat)); ("delegate", (T_option T_pubkey)); ("timestamp", T_i64)]%string.

Definition agent_registry_gatekeeperAllowlistUpdated : idl_typedef :=
  TD_struct [("civicLen", T_u8); ("sasLen", T_u8); ("timestamp", T_i64)]%string.

Definition agent_registry_globalInitialized : idl_typedef :=
  TD_struct [
    ("authority", T_pubkey); ("stakeMint", T_pubkey); ("capabilityRegistry", T_pubkey); ("taskMarket", T_pubkey);
    ("timestamp", T_i64)]%string.

Definition agent_registry_globalParamsUpdated : idl_typedef :=
  TD_struct [("timestamp", T_i64)]%string.

Definition agent_registry_guardAdminReset : idl_typedef :=
  TD_struct [("program", T_pubkey); ("proposedAt", T_i64); ("executedAt", T_i64)]%string.

Definition agent_registry_guardEntered : idl_typedef :=
  TD_struct [("program", T_pubkey); ("caller", T_pubkey); ("slot", T_u64); ("stackHeight", T_u16)]%string.

Definition agent_registry_guardInitialized : idl_typedef :=
  TD_struct [("program", T_pubkey); ("timestamp", T_i64)]%string.

Definition agent_registry_manifestUpdated : idl_typedef :=
  TD_struct [
    ("agentDid", (T_array T_u8 32%nat)); ("version", T_u32); ("capabilityMask", T_u128); ("timestamp", T_i64)]%string.

Definition agent_registry_pendingSlash : idl_typedef :=
  TD_struct [
    ("amount", T_u64); ("reasonCode", T_u16); ("proposedAt", T_i64); ("executableAt", T_i64); ("proposer", T_pubkey);
    ("appealPending", T_bool)]%string.

Definition agent_registry_pendingWithdrawal : idl_typedef :=
  TD_struct [("amount", T_u64); ("requestedAt", T_i64); ("executableAt", T_i64)]%string.

Definition agent_registry_personhoodAttestation : idl_typedef :=
  TD_struct [
    ("operator", T_pubkey); ("provider", (T_defined "providerKind")); ("tier", (T_defined "personhoodTier"));
    ("gatekeeperNetwork", T_pubkey); ("attestationRef", (T_array T_u8 32%nat)); ("attestedAt", T_i64); ("expiresAt", T_i64);
    ("revoked", T_bool); ("bump", T_u8)]%string.

Definition agent_registry_personhoodAttested : idl_typedef :=
  TD_struct [
    ("operator", T_pubkey); ("provider", T_u8); ("tier", T_u8); ("expiresAt", T_i64); ("timestamp", T_i64)]%string.

Definition agent_registry_personhoodRefreshed : idl_typedef :=
  TD_struct [("operator", T_pubkey); ("newExpiresAt", T_i64); ("timestamp", T_i64)]%string.

Definition agent_registry_personhoodRevoked : idl_typedef :=
  TD_struct [("operator", T_pubkey); ("reasonCode", T_u16); ("timestamp", T_i64)]%string.

Definition agent_registry_personhoodTier : idl_typedef :=
  TD_enum [
    ("none", []); ("basic", []); ("verified", [])]%string.

Definition agent_registry_providerKind : idl_typedef :=
  TD_enum [
    ("civic", []); ("sas", [])]%string.

Definition agent_registry_reentrancyGuard : idl_typedef :=
  TD_struct [
    ("active", T_bool); ("enteredBy", T_pubkey); ("enteredAtSlot", T_u64); ("resetProposedAt", T_i64); ("bump", T_u8)]%string.

Definition agent_registry_reentrancyRejected : idl_typedef :=
  TD_struct [("program", T_pubkey); ("offendingCaller", T_pubkey); ("slot", T_u64)]%string.

Definition agent_registry_registryConfig : idl_typedef :=
  TD_struct [
    ("authority", T_pubkey); ("approvedMask", T_u128); ("tagCount", T_u8); ("pendingAuthority", (T_option T_pubkey));
    ("paused", T_bool); ("bump", T_u8)]%string.

Definition agent_registry_registryGlobal : idl_typedef :=
  TD_struct [
    ("authority", T_pubkey); ("pendingAuthority", (T_option T_pubkey)); ("capabilityRegistry", T_pubkey);
    ("taskMarket", T_pubkey); ("disputeArbitration", T_pubkey); ("slashingTreasury", T_pubkey); ("stakeMint", T_pubkey);
    ("proofVerifier", T_pubkey); ("minStake", T_u64); ("maxSlashBps", T_u16); ("slashTimelockSecs", T_i64);
    ("paused", T_bool); ("allowedCivicNetworks", (T_array T_pubkey 8%nat)); ("allowedCivicNetworksLen", T_u8);
    ("allowedSasIssuers", (T_array T_pubkey 8%nat)); ("allowedSasIssuersLen", T_u8);
    ("personhoodBasicMinTier", (T_defined "personhoodTier")); ("requirePersonhoodForRegister", T_bool);
    ("civicGatewayProgram", T_pubkey); ("bump", T_u8)]%string.

Definition agent_registry_reputationSample : idl_typedef :=
  TD_struct [
    ("quality", T_u16); ("timeliness", T_u16); ("availability", T_u16); ("costEfficiency", T_u16); ("honesty", T_u16);
    ("disputed", T_bool)]%string.

Definition agent_registry_reputationScore : idl_typedef :=
  TD_struct [
    ("quality", T_u16); ("timeliness", T_u16); ("availability", T_u16); ("costEfficiency", T_u16); ("honesty", T_u16);
    ("volume", T_u16); ("ewmaAlphaBps", T_u16); ("sampleCount", T_u32); ("lastUpdate", T_i64);
    ("reserved", (T_array T_u8 24%nat))]%string.

Definition agent_registry_slashCancelled : idl_typedef :=
  TD_struct [("agentDid", (T_array T_u8 32%nat)); ("timestamp", T_i64)]%string.

Definition agent_registry_slashExecuted : idl_typedef :=
  TD_struct [("agentDid", (T_array T_u8 32%nat)); ("amount", T_u64); ("timestamp", T_i64)]%string.

Definition agent_registry_slashProposed : idl_typedef :=
  TD_struct [
    ("agentDid", (T_array T_u8 32%nat)); ("amount", T_u64); ("reasonCode", T_u16); ("executableAt", T_i64);
    ("timestamp", T_i64)]%string.

Definition agent_registry_stakeIncreased : idl_typedef :=
  TD_struct [
    ("agentDid", (T_array T_u8 32%nat)); ("amount", T_u64); ("newTotal", T_u64); ("timestamp", T_i64)]%string.

Definition agent_registry_statusChanged : idl_typedef :=
  TD_struct [("agentDid", (T_array T_u8 32%nat)); ("newStatus", T_u8); ("timestamp", T_i64)]%string.

Definition agent_registry_withdrawalExecuted : idl_typedef :=
  TD_struct [("agentDid", (T_array T_u8 32%nat)); ("amount", T_u64); ("timestamp", T_i64)]%string.

Definition agent_registry_withdrawalRequested : idl_typedef :=
  TD_struct [
    ("agentDid", (T_array T_u8 32%nat)); ("amount", T_u64); ("executableAt", T_i64); ("timestamp", T_i64)]%string.

Definition agent_registry_types : list (string * idl_typedef) :=
  [("agentAccount", agent_registry_agentAccount); ("agentRegistered", agent_registry_agentRegistered);
   ("agentStatus", agent_registry_agentStatus); ("allowedCallers", agent_registry_allowedCallers);
   ("allowedCallersUpdated", agent_registry_allowedCallersUpdated);
   ("availabilityDecayed", agent_registry_availabilityDecayed); ("categoryReputation", agent_registry_categoryReputation);
   ("categoryReputationUpdated", agent_registry_categoryReputationUpdated); ("delegateSet", agent_registry_delegateSet);
   ("gatekeeperAllowlistUpdated", agent_registry_gatekeeperAllowlistUpdated);
   ("globalInitialized", agent_registry_globalInitialized); ("globalParamsUpdated", agent_registry_globalParamsUpdated);
   ("guardAdminReset", agent_registry_guardAdminReset); ("guardEntered", agent_registry_guardEntered);
   ("guardInitialized", agent_registry_guardInitialized); ("manifestUpdated", agent_registry_manifestUpdated);
   ("pendingSlash", agent_registry_pendingSlash); ("pendingWithdrawal", agent_registry_pendingWithdrawal);
   ("personhoodAttestation", agent_registry_personhoodAttestation);
   ("personhoodAttested", agent_registry_personhoodAttested); ("personhoodRefreshed", agent_registry_personhoodRefreshed);
   ("personhoodRevoked", agent_registry_personhoodRevoked); ("personhoodTier", agent_registry_personhoodTier);
   ("providerKind", agent_registry_providerKind); ("reentrancyGuard", agent_registry_reentrancyGuard);
   ("reentrancyRejected", agent_registry_reentrancyRejected); ("registryConfig", agent_registry_registryConfig);
   ("registryGlobal", agent_registry_registryGlobal); ("reputationSample", agent_registry_reputationSample);
   ("reputationScore", agent_registry_reputationScore); ("slashCancelled", agent_registry_slashCancelled);
   ("slashExecuted", agent_registry_slashExecuted); ("slashProposed", agent_registry_slashProposed);
   ("stakeIncreased", agent_registry_stakeIncreased); ("statusChanged", agent_registry_statusChanged);
   ("withdrawalExecuted", agent_registry_withdrawalExecuted); ("withdrawalRequested", agent_registry_withdrawalRequested)]%string.

Definition agent_registry_accounts : list (string * list Z) :=
  [
   ("agentAccount", [241; 119; 69; 140; 233; 9; 112; 50]);
   ("allowedCallers", [91; 102; 165; 7; 58; 35; 153; 85]);
   ("categoryReputation", [155; 22; 43; 177; 112; 216; 161; 121]);
   ("personhoodAttestation", [133; 103; 115; 254; 161; 136; 144; 234]);
   ("reentrancyGuard", [207; 227; 141; 11; 194; 21; 193; 32]);
   ("registryGlobal", [78; 84; 69; 29; 120; 227; 67; 4])]%string.

Definition agent_registry_events : list (string * list Z) :=
  [
   ("agentRegistered", [191; 78; 217; 54; 232; 100; 189; 85]);
   ("allowedCallersUpdated", [92; 1; 187; 172; 8; 117; 63; 122]);
   ("availabilityDecayed", [228; 195; 71; 32; 241; 41; 236; 178]);
   ("categoryReputationUpdated", [107; 50; 33; 135; 144; 70; 245; 108]);
   ("delegateSet", [103; 126; 239; 131; 201; 31; 212; 253]);
   ("gatekeeperAllowlistUpdated", [111; 247; 60; 10; 16; 126; 110; 253]);
   ("globalInitialized", [142; 186; 188; 168; 64; 228; 8; 20]);
   ("globalParamsUpdated", [212; 96; 46; 152; 150; 242; 177; 48]);
   ("guardAdminReset", [248; 63; 90; 37; 0; 46; 68; 81]);
   ("guardEntered", [168; 4; 164; 40; 174; 109; 201; 188]);
   ("guardInitialized", [96; 193; 193; 62; 210; 16; 25; 100]);
   ("manifestUpdated", [105; 65; 152; 106; 54; 175; 253; 179]);
   ("personhoodAttested", [58; 7; 64; 92; 141; 226; 44; 180]);
   ("personhoodRefreshed", [67; 167; 208; 170; 60; 140; 8; 100]);
   ("personhoodRevoked", [70; 140; 174; 184; 165; 47; 241; 219]);
   ("reentrancyRejected", [210; 169; 179; 180; 90; 49; 86; 89]);
   ("slashCancelled", [30; 217; 21; 135; 62; 236; 194; 221]);
   ("slashExecuted", [170; 48; 78; 119; 242; 155; 108; 61]);
   ("slashProposed", [158; 90; 179; 8; 227; 190; 15; 231]);
   ("stakeIncreased", [14; 167; 27; 172; 201; 127; 181; 214]);
   ("statusChanged", [146; 235; 222; 125; 145; 246; 34; 240]);
   ("withdrawalExecuted", [37; 78; 199; 192; 51; 68; 173; 162]);
   ("withdrawalRequested", [75; 207; 21; 12; 160; 102; 150; 55])]%string.

(** ** capability registry *)

Definition capability_registry_authorityTransferAccepted : idl_typedef :=
  TD_struct [("newAuthority", T_pubkey)]%string.

Definition capability_registry_authorityTransferProposed : idl_typedef :=
  TD_struct [("pending", T_pubkey)]%string.

Definition capability_registry_capabilityTag : idl_typedef :=
  TD_struct [
    ("bitIndex", T_u8); ("slug", (T_array T_u8 32%nat)); ("manifestUri", (T_array T_u8 96%nat)); ("addedAt", T_i64);
    ("addedBy", T_pubkey); ("retired", T_bool); ("minPersonhoodTier", T_u8); ("bump", T_u8)]%string.

Definition capability_registry_pausedSet : idl_typedef :=
  TD_struct [("paused", T_bool)]%string.

Definition capability_registry_registryConfig : idl_typedef :=
  TD_struct [
    ("authority", T_pubkey); ("approvedMask", T_u128); ("tagCount", T_u8); ("pendingAuthority", (T_option T_pubkey));
    ("paused", T_bool); ("bump", T_u8)]%string.

Definition capability_registry_registryInitialized : idl_typedef :=
  TD_struct [("authority", T_pubkey)]%string.

Definition capability_registry_tagApproved : idl_typedef :=
  TD_struct [
    ("bitIndex", T_u8); ("slug", (T_array T_u8 32%nat)); ("addedBy", T_pubkey); ("timestamp", T_i64)]%string.

Definition capability_registry_tagManifestUpdated : idl_typedef :=
  TD_struct [("bitIndex", T_u8)]%string.

Definition capability_registry_tagRetired : idl_typedef :=
  TD_struct [("bitIndex", T_u8); ("timestamp", T_i64)]%string.

Definition capability_registry_types : list (string * idl_typedef) :=
  [("authorityTransferAccepted", capability_registry_authorityTransferAccepted);
   ("authorityTransferProposed", capability_registry_authorityTransferProposed);
   ("capabilityTag", capability_registry_capabilityTag); ("pausedSet", capability_registry_pausedSet);
   ("registryConfig", capability_registry_registryConfig); ("registryInitialized", capability_registry_registryInitialized);
   ("tagApproved", capability_registry_tagApproved); ("tagManifestUpdated", capability_registry_tagManifestUpdated);
   ("tagRetired", capability_registry_tagRetired)]%string.

Definition capability_registry_accounts : list (string * list Z) :=
  [
   ("capabilityTag", [51; 206; 124; 254; 215; 150; 170; 177]);
   ("registryConfig", [23; 118; 10; 246; 173; 231; 243; 156])]%string.

Definition capability_registry_events : list (string * list Z) :=
  [
   ("authorityTransferAccepted", [149; 165; 140; 221; 104; 203; 239; 121]);
   ("authorityTransferProposed", [103; 244; 27; 116; 177; 4; 100; 119]);
   ("pausedSet", [171; 125; 127; 156; 233; 81; 68; 66]);
   ("registryInitialized", [144; 138; 62; 105; 58; 38; 100; 177]);
   ("tagApproved", [201; 48; 240; 160; 184; 101; 162; 46]);
   ("tagManifestUpdated", [144; 205; 39; 53; 227; 135; 49; 89]);
   ("tagRetired", [24; 178; 8; 45; 96; 40; 99; 153])]%string.

(** ** dispute arbitration *)

Definition dispute_arbitration_allowedCallers : idl_typedef :=
  TD_struct [("programs", (T_vec T_pubkey)); ("bump", T_u8)]%string.

Definition dispute_arbitration_allowedCallersUpdated : idl_typedef :=
  TD_struct [("program", T_pubkey); ("count", T_u16); ("timestamp", T_i64)]%string.

Definition dispute_arbitration_appealEscalated : idl_typedef :=
  TD_struct [("caseId", T_u64); ("appellant", T_pubkey); ("collateral", T_u64); ("timestamp", T_i64)]%string.

Definition dispute_arbitration_appealRecord : idl_typedef :=
  TD_struct [
    ("caseId", T_u64); ("appellant", T_pubkey); ("round", T_u8); ("collateralAmount", T_u64); ("collateralMint", T_pubkey);
    ("filedAt", T_i64); ("bump", T_u8)]%string.

Definition dispute_arbitration_arbitratorAccount : idl_typedef :=
  TD_struct [
    ("operator", T_pubkey); ("stakeAccount", T_pubkey); ("effectiveStake", T_u64); ("effectiveLockEnd", T_i64);
    ("status", (T_defined "arbitratorStatus")); ("badFaithStrikes", T_u8); ("casesParticipated", T_u32);
    ("withdrawUnlockTime", T_i64); ("registeredAt", T_i64); ("bump", T_u8)]%string.

Definition dispute_arbitration_arbitratorRegistered : idl_typedef :=
  TD_struct [("operator", T_pubkey); ("effectiveStake", T_u64); ("timestamp", T_i64)]%string.

Definition dispute_arbitration_arbitratorStatus : idl_typedef :=
  TD_enum [
    ("active", []); ("paused", []); ("slashed", []); ("withdrawing", [])]%string.

Definition dispute_arbitration_arbitratorsSelected : idl_typedef :=
  TD_struct [
    ("caseId", T_u64); ("arbitrators", (T_vec T_pubkey)); ("round", T_u8); ("timestamp", T_i64)]%string.

Definition dispute_arbitration_disputeCancelled : idl_typedef :=
  TD_struct [("caseId", T_u64); ("taskId", T_u64); ("timestamp", T_i64)]%string.

Definition dispute_arbitration_disputeCase : idl_typedef :=
  TD_struct [
    ("caseId", T_u64); ("taskId", T_u64); ("client", T_pubkey); ("agentOperator", T_pubkey); ("escrowAmount", T_u64);
    ("paymentMint", T_pubkey); ("status", (T_defined "disputeStatus")); ("round", T_u8); ("arbitrators", (T_vec T_pubkey));
    ("arbitratorCount", T_u8); ("vrfRequest", T_pubkey); ("vrfResult", (T_array T_u8 32%nat)); ("commitDeadline", T_i64);
    ("revealDeadline", T_i64); ("verdict", (T_defined "disputeVerdict")); ("votesForAgent", T_u128);
    ("votesForClient", T_u128); ("votesForSplit", T_u128); ("totalRevealedWeight", T_u128); ("resolvedAt", T_i64);
    ("createdAt", T_i64); ("snapshotPool", T_pubkey); ("bump", T_u8)]%string.

Definition dispute_arbitration_disputeConfig : idl_typedef :=
  TD_struct [
    ("authority", T_pubkey); ("pendingAuthority", T_pubkey); ("taskMarket", T_pubkey); ("nxsStaking", T_pubkey);
    ("feeCollector", T_pubkey); ("agentRegistry", T_pubkey); ("switchboardProgram", T_pubkey);
    ("emergencyCouncil", T_pubkey); ("round1Size", T_u8); ("round2Size", T_u8); ("commitWindowSecs", T_i64);
    ("revealWindowSecs", T_i64); ("appealWindowSecs", T_i64); ("appealCollateralBps", T_u16); ("maxSlashBps", T_u16);
    ("slashTimelockSecs", T_i64); ("minStake", T_u64); ("minLockSecs", T_i64); ("vrfStaleSlots", T_u64);
    ("round2WindowSecs", T_i64); ("badFaithThreshold", T_u8); ("badFaithLookback", T_u8); ("nextCaseId", T_u64);
    ("paused", T_bool); ("bump", T_u8)]%string.

Definition dispute_arbitration_disputePool : idl_typedef :=
  TD_struct [
    ("snapshotEpoch", T_u64); ("snapshotTime", T_i64); ("totalStaked", T_u128); ("arbitratorCount", T_u16);
    ("arbitrators", (T_vec T_pubkey)); ("cumulativeStakes", (T_vec T_u64)); ("bump", T_u8)]%string.

Definition dispute_arbitration_disputeRaised : idl_typedef :=
  TD_struct [
    ("caseId", T_u64); ("taskId", T_u64); ("client", T_pubkey); ("agentOperator", T_pubkey); ("escrowAmount", T_u64);
    ("timestamp", T_i64)]%string.

Definition dispute_arbitration_disputeResolved : idl_typedef :=
  TD_struct [
    ("caseId", T_u64); ("taskId", T_u64); ("verdict", (T_defined "disputeVerdict")); ("timestamp", T_i64)]%string.

Definition dispute_arbitration_disputeStatus : idl_typedef :=
  TD_enum [
    ("requestedVrf", []); ("selectionReady", []); ("committing", []); ("revealing", []); ("tallied", []); ("appealed", []);
    ("resolved", []); ("cancelled", [])]%string.

Definition dispute_arbitration_disputeVerdict : idl_typedef :=
  TD_enum [
    ("none", []); ("agentWins", []); ("clientWins", []); ("split", [])]%string.

Definition dispute_arbitration_disputeVoteRecord : idl_typedef :=
  TD_struct [
    ("caseId", T_u64); ("arbitrator", T_pubkey); ("round", T_u8); ("commitHash", (T_array T_u8 32%nat));
    ("committedAt", T_i64); ("revealedVerdict", (T_defined "disputeVerdict")); ("revealed", T_bool);
    ("revealedWeight", T_u128); ("revealedAt", T_i64); ("bump", T_u8)]%string.

Definition dispute_arbitration_guardAdminReset : idl_typedef :=
  TD_struct [("program", T_pubkey); ("proposedAt", T_i64); ("executedAt", T_i64)]%string.

Definition dispute_arbitration_guardEntered : idl_typedef :=
  TD_struct [("program", T_pubkey); ("caller", T_pubkey); ("slot", T_u64); ("stackHeight", T_u16)]%string.

Definition dispute_arbitration_guardInitialized : idl_typedef :=
  TD_struct [("program", T_pubkey); ("timestamp", T_i64)]%string.

Definition dispute_arbitration_initConfigParams : idl_typedef :=
  TD_struct [
    ("authority", T_pubkey); ("taskMarket", T_pubkey); ("nxsStaking", T_pubkey); ("feeCollector", T_pubkey);
    ("agentRegistry", T_pubkey); ("switchboardProgram", T_pubkey); ("emergencyCouncil", T_pubkey); ("minStake", T_u64);
    ("minLockSecs", T_i64)]%string.

Definition dispute_arbitration_paramsUpdated : idl_typedef :=
  TD_struct [("authority", T_pubkey); ("timestamp", T_i64)]%string.

Definition dispute_arbitration_pausedSet : idl_typedef :=
  TD_struct [("paused", T_bool); ("authority", T_pubkey); ("timestamp", T_i64)]%string.

Definition dispute_arbitration_pendingSlash : idl_typedef :=
  TD_struct [
    ("arbitrator", T_pubkey); ("caseId", T_u64); ("amount", T_u64); ("reasonCode", T_u8); ("executableAt", T_i64);
    ("bump", T_u8)]%string.

Definition dispute_arbitration_poolSnapshotted : idl_typedef :=
  TD_struct [
    ("epoch", T_u64); ("arbitratorCount", T_u16); ("totalStaked", T_u128); ("timestamp", T_i64)]%string.

Definition dispute_arbitration_reentrancyGuard : idl_typedef :=
  TD_struct [
    ("active", T_bool); ("enteredBy", T_pubkey); ("enteredAtSlot", T_u64); ("resetProposedAt", T_i64); ("bump", T_u8)]%string.

Definition dispute_arbitration_reentrancyRejected : idl_typedef :=
  TD_struct [("program", T_pubkey); ("offendingCaller", T_pubkey); ("slot", T_u64)]%string.

Definition dispute_arbitration_roundTallied : idl_typedef :=
  TD_struct [
    ("caseId", T_u64); ("round", T_u8); ("verdict", (T_defined "disputeVerdict")); ("votesForAgent", T_u128);
    ("votesForClient", T_u128); ("votesForSplit", T_u128); ("timestamp", T_i64)]%string.

Definition dispute_arbitration_slashCancelled : idl_typedef :=
  TD_struct [("arbitrator", T_pubkey); ("caseId", T_u64); ("timestamp", T_i64)]%string.

Definition dispute_arbitration_slashExecuted : idl_typedef :=
  TD_struct [("arbitrator", T_pubkey); ("caseId", T_u64); ("amount", T_u64); ("timestamp", T_i64)]%string.

Definition dispute_arbitration_slashProposed : idl_typedef :=
  TD_struct [
    ("arbitrator", T_pubkey); ("caseId", T_u64); ("amount", T_u64); ("reasonCode", T_u8); ("executableAt", T_i64);
    ("timestamp", T_i64)]%string.

Definition dispute_arbitration_updateParamsInput : idl_typedef :=
  TD_struct [
    ("commitWindowSecs", (T_option T_i64)); ("revealWindowSecs", (T_option T_i64)); ("appealWindowSecs", (T_option T_i64));
    ("appealCollateralBps", (T_option T_u16)); ("maxSlashBps", (T_option T_u16)); ("slashTimelockSecs", (T_option T_i64));
    ("minStake", (T_option T_u64)); ("minLockSecs", (T_option T_i64)); ("vrfStaleSlots", (T_option T_u64));
    ("badFaithThreshold", (T_option T_u8)); ("badFaithLookback", (T_option T_u8))]%string.

Definition dispute_arbitration_voteCommitted : idl_typedef :=
  TD_struct [("caseId", T_u64); ("arbitrator", T_pubkey); ("round", T_u8); ("timestamp", T_i64)]%string.

Definition dispute_arbitration_voteRevealed : idl_typedef :=
  TD_struct [
    ("caseId", T_u64); ("arbitrator", T_pubkey); ("verdict", (T_defined "disputeVerdict")); ("weight", T_u128);
    ("timestamp", T_i64)]%string.

Definition dispute_arbitration_types : list (string * idl_typedef) :=
  [("allowedCallers", dispute_arbitration_allowedCallers);
   ("allowedCallersUpdated", dispute_arbitration_allowedCallersUpdated);
   ("appealEscalated", dispute_arbitration_appealEscalated); ("appealRecord", dispute_arbitration_appealRecord);
   ("arbitratorAccount", dispute_arbitration_arbitratorAccount);
   ("arbitratorRegistered", dispute_arbitration_arbitratorRegistered);
   ("arbitratorStatus", dispute_arbitration_arbitratorStatus);
   ("arbitratorsSelected", dispute_arbitration_arbitratorsSelected);
   ("disputeCancelled", dispute_arbitration_disputeCancelled); ("disputeCase", dispute_arbitration_disputeCase);
   ("disputeConfig", dispute_arbitration_disputeConfig); ("disputePool", dispute_arbitration_disputePool);
   ("disputeRaised", dispute_arbitration_disputeRaised); ("disputeResolved", dispute_arbitration_disputeResolved);
   ("disputeStatus", dispute_arbitration_disputeStatus); ("disputeVerdict", dispute_arbitration_disputeVerdict);
   ("disputeVoteRecord", dispute_arbitration_disputeVoteRecord); ("guardAdminReset", dispute_arbitration_guardAdminReset);
   ("guardEntered", dispute_arbitration_guardEntered); ("guardInitialized", dispute_arbitration_guardInitialized);
   ("initConfigParams", dispute_arbitration_initConfigParams); ("paramsUpdated", dispute_arbitration_paramsUpdated);
   ("pausedSet", dispute_arbitration_pausedSet); ("pendingSlash", dispute_arbitration_pendingSlash);
   ("poolSnapshotted", dispute_arbitration_poolSnapshotted); ("reentrancyGuard", dispute_arbitration_reentrancyGuard);
   ("reentrancyRejected", dispute_arbitration_reentrancyRejected); ("roundTallied", dispute_arbitration_roundTallied);
   ("slashCancelled", dispute_arbitration_slashCancelled); ("slashExecuted", dispute_arbitration_slashExecuted);
   ("slashProposed", dispute_arbitration_slashProposed); ("updateParamsInput", dispute_arbitration_updateParamsInput);
   ("voteCommitted", dispute_arbitration_voteCommitted); ("voteRevealed", dispute_arbitration_voteRevealed)]%string.

Definition dispute_arbitration_accounts : list (string * list Z) :=
  [
   ("allowedCallers", [91; 102; 165; 7; 58; 35; 153; 85]);
   ("appealRecord", [224; 132; 120; 231; 41; 145; 233; 27]);
   ("arbitratorAccount", [5; 170; 140; 245; 127; 134; 11; 44]);
   ("disputeCase", [164; 200; 54; 239; 94; 76; 51; 130]);
   ("disputeConfig", [230; 88; 200; 99; 12; 93; 56; 156]);
   ("disputePool", [149; 179; 47; 36; 73; 3; 87; 69]);
   ("disputeVoteRecord", [46; 202; 204; 190; 143; 118; 130; 63]);
   ("pendingSlash", [211; 113; 250; 223; 122; 12; 110; 22]);
   ("reentrancyGuard", [207; 227; 141; 11; 194; 21; 193; 32])]%string.

Definition dispute_arbitration_events : list (string * list Z) :=
  [
   ("allowedCallersUpdated", [92; 1; 187; 172; 8; 117; 63; 122]);
   ("appealEscalated", [62; 220; 89; 50; 68; 6; 17; 143]);
   ("arbitratorRegistered", [74; 66; 60; 131; 232; 53; 205; 93]);
   ("arbitratorsSelected", [35; 36; 141; 17; 145; 124; 247; 105]);
   ("disputeCancelled", [38; 80; 189; 225; 112; 190; 156; 178]);
   ("disputeRaised", [246; 167; 109; 37; 142; 45; 38; 176]);
   ("disputeResolved", [121; 64; 249; 153; 139; 128; 236; 187]);
   ("guardAdminReset", [248; 63; 90; 37; 0; 46; 68; 81]);
   ("guardEntered", [168; 4; 164; 40; 174; 109; 201; 188]);
   ("guardInitialized", [96; 193; 193; 62; 210; 16; 25; 100]);
   ("paramsUpdated", [2; 163; 138; 99; 135; 11; 136; 169]);
   ("pausedSet", [171; 125; 127; 156; 233; 81; 68; 66]);
   ("poolSnapshotted", [17; 10; 153; 33; 111; 92; 104; 216]);
   ("reentrancyRejected", [210; 169; 179; 180; 90; 49; 86; 89]);
   ("roundTallied", [37; 194; 201; 75; 95; 168; 56; 93]);
   ("slashCancelled", [30; 217; 21; 135; 62; 236; 194; 221]);
   ("slashExecuted", [170; 48; 78; 119; 242; 155; 108; 61]);
   ("slashProposed", [158; 90; 179; 8; 227; 190; 15; 231]);
   ("voteCommitted", [74; 67; 158; 48; 168; 230; 217; 77]);
   ("voteRevealed", [104; 162; 140; 194; 213; 217; 117; 179])]%string.

(** ** fee collector *)

Definition fee_collector_agentMintAllowlist : idl_typedef :=
  TD_struct [("agentDid", (T_array T_u8 32%nat)); ("extraPrograms", (T_vec T_pubkey)); ("bump", T_u8)]%string.

Definition fee_collector_agentMintAllowlistUpdated : idl_typedef :=
  TD_struct [
    ("agentDid", (T_array T_u8 32%nat)); ("added", (T_vec T_pubkey)); ("removed", (T_vec T_pubkey)); ("timestamp", T_i64)]%string.

Definition fee_collector_allowedCallers : idl_typedef :=
  TD_struct [("programs", (T_vec T_pubkey)); ("bump", T_u8)]%string.

Definition fee_collector_burnExecuted : idl_typedef :=
  TD_struct [("epochId", T_u64); ("amount", T_u64); ("crank", T_pubkey); ("timestamp", T_i64)]%string.

Definition fee_collector_collateralForfeited : idl_typedef :=
  TD_struct [("epochId", T_u64); ("sourceProgram", T_pubkey); ("amount", T_u64); ("timestamp", T_i64)]%string.

Definition fee_collector_confidentialFeesCollected : idl_typedef :=
  TD_struct [("epochId", T_u64); ("amount", T_u64); ("collector", T_pubkey); ("timestamp", T_i64)]%string.

Definition fee_collector_confidentialTransfersToggled : idl_typedef :=
  TD_struct [("enabled", T_bool); ("authority", T_pubkey); ("timestamp", T_i64)]%string.

Definition fee_collector_distributionParamsUpdated : idl_typedef :=
  TD_struct [
    ("burnBps", T_u16); ("stakerShareBps", T_u16); ("grantShareBps", T_u16); ("treasuryShareBps", T_u16);
    ("timestamp", T_i64)]%string.

Definition fee_collector_distributionRootCommitted : idl_typedef :=
  TD_struct [
    ("epochId", T_u64); ("root", (T_array T_u8 32%nat)); ("leafCount", T_u32); ("totalWeight", T_u64);
    ("committer", T_pubkey); ("timestamp", T_i64)]%string.

Definition fee_collector_epochAccount : idl_typedef :=
  TD_struct [
    ("epochId", T_u64); ("status", (T_defined "epochStatus")); ("startedAtSlot", T_u64); ("startedAtTs", T_i64);
    ("closedAtSlot", (T_option T_u64)); ("closedAtTs", (T_option T_i64)); ("snapshotId", T_u64); ("totalCollected", T_u64);
    ("burnAmount", T_u64); ("burnExecuted", T_bool); ("stakerAmount", T_u64);
    ("stakerDistributionRoot", (T_array T_u8 32%nat)); ("stakerDistributionCommitted", T_bool);
    ("stakerClaimedTotal", T_u64); ("grantAmount", T_u64); ("treasuryAmount", T_u64); ("staleSwept", T_bool); ("bump", T_u8)]%string.

Definition fee_collector_epochProcessed : idl_typedef :=
  TD_struct [
    ("epochId", T_u64); ("totalCollected", T_u64); ("burnAmount", T_u64); ("stakerAmount", T_u64); ("grantAmount", T_u64);
    ("treasuryAmount", T_u64); ("snapshotId", T_u64); ("timestamp", T_i64)]%string.

Definition fee_collector_epochStatus : idl_typedef :=
  TD_enum [
    ("open", []); ("splitting", []); ("distributionCommitted", []); ("stale", [])]%string.

Definition fee_collector_epochSwept : idl_typedef :=
  TD_struct [
    ("epochId", T_u64); ("residualStaker", T_u64); ("residualBurn", T_u64); ("rolledToEpoch", T_u64); ("timestamp", T_i64)]%string.

Definition fee_collector_feeCollectorConfig : idl_typedef :=
  TD_struct [
    ("authority", T_pubkey); ("pendingAuthority", (T_option T_pubkey)); ("metaAuthority", T_pubkey);
    ("governanceProgram", T_pubkey); ("nxsStaking", T_pubkey); ("agentRegistry", T_pubkey);
    ("disputeArbitration", T_pubkey); ("emergencyCouncil", T_pubkey); ("saepMint", T_pubkey);
    ("externalSaepMint", T_pubkey); ("grantRecipient", T_pubkey); ("treasuryRecipient", T_pubkey); ("burnBps", T_u16);
    ("stakerShareBps", T_u16); ("grantShareBps", T_u16); ("treasuryShareBps", T_u16); ("burnCapBps", T_u16);
    ("stakerCapBps", T_u16); ("grantCapBps", T_u16); ("treasuryCapBps", T_u16); ("epochDurationSecs", T_i64);
    ("nextEpochId", T_u64); ("claimWindowSecs", T_i64); ("minEpochTotalForBurn", T_u64); ("paused", T_bool);
    ("confidentialTransfersEnabled", T_bool); ("bump", T_u8)]%string.

Definition fee_collector_feeCollectorInitialized : idl_typedef :=
  TD_struct [
    ("authority", T_pubkey); ("saepMint", T_pubkey); ("epochDurationSecs", T_i64); ("timestamp", T_i64)]%string.

Definition fee_collector_feesCollected : idl_typedef :=
  TD_struct [("epochId", T_u64); ("amount", T_u64); ("collector", T_pubkey); ("timestamp", T_i64)]%string.

Definition fee_collector_guardEntered : idl_typedef :=
  TD_struct [("program", T_pubkey); ("caller", T_pubkey); ("slot", T_u64); ("stackHeight", T_u16)]%string.

Definition fee_collector_initConfigParams : idl_typedef :=
  TD_struct [
    ("authority", T_pubkey); ("metaAuthority", T_pubkey); ("governanceProgram", T_pubkey); ("nxsStaking", T_pubkey);
    ("agentRegistry", T_pubkey); ("disputeArbitration", T_pubkey); ("emergencyCouncil", T_pubkey); ("saepMint", T_pubkey);
    ("externalSaepMint", T_pubkey); ("grantRecipient", T_pubkey); ("treasuryRecipient", T_pubkey); ("burnBps", T_u16);
    ("stakerShareBps", T_u16); ("grantShareBps", T_u16); ("treasuryShareBps", T_u16); ("epochDurationSecs", T_i64);
    ("claimWindowSecs", T_i64); ("minEpochTotalForBurn", T_u64)]%string.

Definition fee_collector_mintAccepted : idl_typedef :=
  TD_struct [
    ("mint", T_pubkey); ("acceptFlags", T_u32); ("hasConfidentialTransfer", T_bool); ("slot", T_u64); ("timestamp", T_i64)]%string.

Definition fee_collector_mintAllowlist : idl_typedef :=
  TD_struct [
    ("authority", T_pubkey); ("pendingAuthority", (T_option T_pubkey)); ("programs", (T_vec T_pubkey));
    ("defaultDeny", T_bool); ("bump", T_u8)]%string.

Definition fee_collector_mintAllowlistInitialized : idl_typedef :=
  TD_struct [("authority", T_pubkey); ("defaultDeny", T_bool); ("timestamp", T_i64)]%string.

Definition fee_collector_mintAllowlistUpdated : idl_typedef :=
  TD_struct [
    ("added", (T_vec T_pubkey)); ("removed", (T_vec T_pubkey)); ("defaultDeny", T_bool); ("timestamp", T_i64)]%string.

Definition fee_collector_mintRejected : idl_typedef :=
  TD_struct [("mint", T_pubkey); ("reason", T_u8); ("site", T_u8); ("timestamp", T_i64)]%string.

Definition fee_collector_pausedSet : idl_typedef :=
  TD_struct [("paused", T_bool); ("authority", T_pubkey); ("timestamp", T_i64)]%string.

Definition fee_collector_reentrancyGuard : idl_typedef :=
  TD_struct [
    ("active", T_bool); ("enteredBy", T_pubkey); ("enteredAtSlot", T_u64); ("resetProposedAt", T_i64); ("bump", T_u8)]%string.

Definition fee_collector_reentrancyRejected : idl_typedef :=
  TD_struct [("program", T_pubkey); ("offendingCaller", T_pubkey); ("slot", T_u64)]%string.

Definition fee_collector_saepDeposited : idl_typedef :=
  TD_struct [("depositor", T_pubkey); ("amount", T_u64); ("timestamp", T_i64)]%string.

Definition fee_collector_saepWithdrawn : idl_typedef :=
  TD_struct [("withdrawer", T_pubkey); ("amount", T_u64); ("timestamp", T_i64)]%string.

Definition fee_collector_slashReceived : idl_typedef :=
  TD_struct [("epochId", T_u64); ("slasherProgram", T_pubkey); ("amount", T_u64); ("timestamp", T_i64)]%string.

Definition fee_collector_stakerClaim : idl_typedef :=
  TD_struct [
    ("epochId", T_u64); ("staker", T_pubkey); ("amountClaimed", T_u64); ("claimedAtSlot", T_u64); ("bump", T_u8)]%string.

Definition fee_collector_stakerClaimed : idl_typedef :=
  TD_struct [("epochId", T_u64); ("staker", T_pubkey); ("amount", T_u64); ("timestamp", T_i64)]%string.

Definition fee_collector_types : list (string * idl_typedef) :=
  [("agentMintAllowlist", fee_collector_agentMintAllowlist);
   ("agentMintAllowlistUpdated", fee_collector_agentMintAllowlistUpdated); ("allowedCallers", fee_collector_allowedCallers);
   ("burnExecuted", fee_collector_burnExecuted); ("collateralForfeited", fee_collector_collateralForfeited);
   ("confidentialFeesCollected", fee_collector_confidentialFeesCollected);
   ("confidentialTransfersToggled", fee_collector_confidentialTransfersToggled);
   ("distributionParamsUpdated", fee_collector_distributionParamsUpdated);
   ("distributionRootCommitted", fee_collector_distributionRootCommitted); ("epochAccount", fee_collector_epochAccount);
   ("epochProcessed", fee_collector_epochProcessed); ("epochStatus", fee_collector_epochStatus);
   ("epochSwept", fee_collector_epochSwept); ("feeCollectorConfig", fee_collector_feeCollectorConfig);
   ("feeCollectorInitialized", fee_collector_feeCollectorInitialized); ("feesCollected", fee_collector_feesCollected);
   ("guardEntered", fee_collector_guardEntered); ("initConfigParams", fee_collector_initConfigParams);
   ("mintAccepted", fee_collector_mintAccepted); ("mintAllowlist", fee_collector_mintAllowlist);
   ("mintAllowlistInitialized", fee_collector_mintAllowlistInitialized);
   ("mintAllowlistUpdated", fee_collector_mintAllowlistUpdated); ("mintRejected", fee_collector_mintRejected);
   ("pausedSet", fee_collector_pausedSet); ("reentrancyGuard", fee_collector_reentrancyGuard);
   ("reentrancyRejected", fee_collector_reentrancyRejected); ("saepDeposited", fee_collector_saepDeposited);
   ("saepWithdrawn", fee_collector_saepWithdrawn); ("slashReceived", fee_collector_slashReceived);
   ("stakerClaim", fee_collector_stakerClaim); ("stakerClaimed", fee_collector_stakerClaimed)]%string.

Definition fee_collector_accounts : list (string * list Z) :=
  [
   ("agentMintAllowlist", [201; 14; 187; 228; 23; 216; 80; 240]);
   ("allowedCallers", [91; 102; 165; 7; 58; 35; 153; 85]);
   ("epochAccount", [206; 7; 143; 108; 95; 249; 190; 24]);
   ("feeCollectorConfig", [59; 59; 68; 103; 77; 32; 113; 81]);
   ("mintAllowlist", [155; 85; 58; 143; 107; 199; 161; 198]);
   ("reentrancyGuard", [207; 227; 141; 11; 194; 21; 193; 32]);
   ("stakerClaim", [108; 62; 148; 33; 207; 7; 247; 112])]%string.

Definition fee_collector_events : list (string * list Z) :=
  [
   ("agentMintAllowlistUpdated", [208; 27; 190; 237; 156; 250; 95; 249]);
   ("burnExecuted", [148; 9; 16; 114; 196; 85; 217; 2]);
   ("collateralForfeited", [29; 138; 62; 71; 27; 198; 7; 231]);
   ("confidentialFeesCollected", [202; 77; 38; 6; 11; 203; 72; 214]);
   ("confidentialTransfersToggled", [65; 45; 132; 98; 13; 15; 116; 123]);
   ("distributionParamsUpdated", [229; 97; 209; 133; 213; 153; 90; 52]);
   ("distributionRootCommitted", [59; 170; 147; 74; 245; 109; 110; 223]);
   ("epochProcessed", [18; 238; 2; 247; 238; 178; 94; 138]);
   ("epochSwept", [11; 16; 10; 21; 155; 190; 75; 56]);
   ("feeCollectorInitialized", [13; 12; 215; 187; 199; 185; 143; 228]);
   ("feesCollected", [233; 23; 117; 225; 107; 178; 254; 8]);
   ("guardEntered", [168; 4; 164; 40; 174; 109; 201; 188]);
   ("mintAccepted", [64; 209; 5; 8; 70; 172; 222; 50]);
   ("mintAllowlistInitialized", [112; 25; 201; 145; 179; 112; 73; 28]);
   ("mintAllowlistUpdated", [116; 189; 207; 216; 216; 164; 15; 135]);
   ("mintRejected", [21; 112; 77; 100; 147; 142; 93; 92]);
   ("pausedSet", [171; 125; 127; 156; 233; 81; 68; 66]);
   ("reentrancyRejected", [210; 169; 179; 180; 90; 49; 86; 89]);
   ("saepDeposited", [217; 159; 93; 214; 26; 149; 2; 249]);
   ("saepWithdrawn", [240; 28; 228; 10; 187; 144; 234; 230]);
   ("slashReceived", [123; 9; 22; 198; 22; 16; 160; 106]);
   ("stakerClaimed", [153; 39; 64; 225; 151; 207; 143; 17])]%string.

(** ** governance program *)

Definition governance_program_configInitialized : idl_typedef :=
  TD_struct [("authority", T_pubkey); ("timestamp", T_i64)]%string.

Definition governance_program_executionRecord : idl_typedef :=
  TD_struct [
    ("proposalId", T_u64); ("executedAt", T_i64); ("result", (T_defined "executionResult")); ("cpiTarget", T_pubkey);
    ("cpiPayloadHash", (T_array T_u8 32%nat)); ("bump", T_u8)]%string.

Definition governance_program_executionResult : idl_typedef :=
  TD_enum [
    ("ok", []); ("cpiFailed", [("code", T_u32)]); ("targetMissing", []); ("payloadInvalid", [])]%string.

Definition governance_program_governanceConfig : idl_typedef :=
  TD_struct [
    ("authority", T_pubkey); ("nxsStaking", T_pubkey); ("capabilityRegistry", T_pubkey); ("feeCollector", T_pubkey);
    ("emergencyCouncil", T_pubkey); ("minProposerStake", T_u64); ("proposerCollateral", T_u64);
    ("voteWindowSecsStandard", T_i64); ("voteWindowSecsEmergency", T_i64); ("voteWindowSecsMeta", T_i64);
    ("quorumBps", T_u16); ("passThresholdBps", T_u16); ("metaPassThresholdBps", T_u16); ("timelockSecsStandard", T_i64);
    ("timelockSecsCritical", T_i64); ("timelockSecsMeta", T_i64); ("minLockToVoteSecs", T_i64);
    ("devModeTimelockOverrideSecs", T_i64); ("nextProposalId", T_u64); ("nextEmergencyId", T_u64); ("paused", T_bool);
    ("bump", T_u8)]%string.

Definition governance_program_initConfigParams : idl_typedef :=
  TD_struct [
    ("authority", T_pubkey); ("nxsStaking", T_pubkey); ("capabilityRegistry", T_pubkey); ("feeCollector", T_pubkey);
    ("emergencyCouncil", T_pubkey); ("minProposerStake", T_u64); ("proposerCollateral", T_u64); ("quorumBps", T_u16);
    ("passThresholdBps", T_u16); ("metaPassThresholdBps", T_u16); ("devModeTimelockOverrideSecs", T_i64)]%string.

Definition governance_program_pausedSet : idl_typedef :=
  TD_struct [("paused", T_bool); ("authority", T_pubkey); ("timestamp", T_i64)]%string.

Definition governance_program_programRegistered : idl_typedef :=
  TD_struct [
    ("programId", T_pubkey); ("label", (T_array T_u8 16%nat)); ("isCritical", T_bool); ("timestamp", T_i64)]%string.

Definition governance_program_programRegistry : idl_typedef :=
  TD_struct [("entries", (T_vec (T_defined "registeredProgram"))); ("bump", T_u8)]%string.

Definition governance_program_proposalAccount : idl_typedef :=
  TD_struct [
    ("proposalId", T_u64); ("proposer", T_pubkey); ("category", (T_defined "proposalCategory"));
    ("targetProgram", T_pubkey); ("ixData", T_bytes); ("metadataUri", T_bytes);
    ("snapshot", (T_defined "proposalSnapshot")); ("status", (T_defined "proposalStatus")); ("createdAt", T_i64);
    ("voteStart", T_i64); ("voteEnd", T_i64); ("talliedAt", T_i64); ("executableAt", T_i64); ("executedAt", T_i64);
    ("forWeight", T_u128); ("againstWeight", T_u128); ("abstainWeight", T_u128); ("bump", T_u8)]%string.

Definition governance_program_proposalCancelled : idl_typedef :=
  TD_struct [("proposalId", T_u64); ("by", T_pubkey); ("timestamp", T_i64)]%string.

Definition governance_program_proposalCategory : idl_typedef :=
  TD_enum [
    ("parameterChange", []); ("programUpgrade", []); ("treasurySpend", []); ("emergencyPause", []);
    ("capabilityTagUpdate", []); ("meta", [])]%string.

Definition governance_program_proposalCreated : idl_typedef :=
  TD_struct [
    ("proposalId", T_u64); ("proposer", T_pubkey); ("category", (T_defined "proposalCategory"));
    ("targetProgram", T_pubkey); ("voteEnd", T_i64); ("timestamp", T_i64)]%string.

Definition governance_program_proposalExecuted : idl_typedef :=
  TD_struct [("proposalId", T_u64); ("cpiTarget", T_pubkey); ("success", T_bool); ("timestamp", T_i64)]%string.

Definition governance_program_proposalExpired : idl_typedef :=
  TD_struct [("proposalId", T_u64); ("timestamp", T_i64)]%string.

Definition governance_program_proposalFinalized : idl_typedef :=
  TD_struct [
    ("proposalId", T_u64); ("status", (T_defined "proposalStatus")); ("forWeight", T_u128); ("againstWeight", T_u128);
    ("abstainWeight", T_u128); ("timestamp", T_i64)]%string.

Definition governance_program_proposalSnapshot : idl_typedef :=
  TD_struct [
    ("totalEligibleWeight", T_u128); ("snapshotSlot", T_u64); ("snapshotRoot", (T_array T_u8 32%nat))]%string.

Definition governance_program_proposalStatus : idl_typedef :=
  TD_enum [
    ("voting", []); ("passed", []); ("rejected", []); ("queued", []); ("executed", []); ("failed", []); ("cancelled", []);
    ("expired", [])]%string.

Definition governance_program_registeredProgram : idl_typedef :=
  TD_struct [
    ("programId", T_pubkey); ("label", (T_array T_u8 16%nat)); ("isCritical", T_bool);
    ("paramAuthoritySeed", (T_array T_u8 32%nat)); ("maxParamPayloadBytes", T_u16)]%string.

Definition governance_program_voteCast : idl_typedef :=
  TD_struct [
    ("proposalId", T_u64); ("voter", T_pubkey); ("choice", (T_defined "voteChoice")); ("weight", T_u128);
    ("timestamp", T_i64)]%string.

Definition governance_program_voteChoice : idl_typedef :=
  TD_enum [
    ("for", []); ("against", []); ("abstain", [])]%string.

Definition governance_program_voteRecord : idl_typedef :=
  TD_struct [
    ("proposalId", T_u64); ("voter", T_pubkey); ("choice", (T_defined "voteChoice")); ("weight", T_u128); ("castAt", T_i64);
    ("bump", T_u8)]%string.

Definition governance_program_types : list (string * idl_typedef) :=
  [("configInitialized", governance_program_configInitialized); ("executionRecord", governance_program_executionRecord);
   ("executionResult", governance_program_executionResult); ("governanceConfig", governance_program_governanceConfig);
   ("initConfigParams", governance_program_initConfigParams); ("pausedSet", governance_program_pausedSet);
   ("programRegistered", governance_program_programRegistered); ("programRegistry", governance_program_programRegistry);
   ("proposalAccount", governance_program_proposalAccount); ("proposalCancelled", governance_program_proposalCancelled);
   ("proposalCategory", governance_program_proposalCategory); ("proposalCreated", governance_program_proposalCreated);
   ("proposalExecuted", governance_program_proposalExecuted); ("proposalExpired", governance_program_proposalExpired);
   ("proposalFinalized", governance_program_proposalFinalized); ("proposalSnapshot", governance_program_proposalSnapshot);
   ("proposalStatus", governance_program_proposalStatus); ("registeredProgram", governance_program_registeredProgram);
   ("voteCast", governance_program_voteCast); ("voteChoice", governance_program_voteChoice);
   ("voteRecord", governance_program_voteRecord)]%string.

Definition governance_program_accounts : list (string * list Z) :=
  [
   ("executionRecord", [133; 201; 182; 206; 224; 111; 45; 168]);
   ("governanceConfig", [81; 63; 124; 107; 210; 100; 145; 70]);
   ("programRegistry", [104; 149; 117; 95; 105; 140; 29; 64]);
   ("proposalAccount", [164; 190; 4; 248; 203; 124; 243; 64]);
   ("voteRecord", [112; 9; 123; 165; 234; 9; 157; 167])]%string.

Definition governance_program_events : list (string * list Z) :=
  [
   ("configInitialized", [181; 49; 200; 156; 19; 167; 178; 91]);
   ("pausedSet", [171; 125; 127; 156; 233; 81; 68; 66]);
   ("programRegistered", [211; 177; 222; 158; 113; 85; 224; 7]);
   ("proposalCancelled", [253; 59; 104; 46; 129; 78; 9; 14]);
   ("proposalCreated", [186; 8; 160; 108; 81; 13; 51; 206]);
   ("proposalExecuted", [92; 213; 189; 201; 101; 83; 111; 83]);
   ("proposalExpired", [48; 8; 10; 52; 213; 133; 166; 223]);
   ("proposalFinalized", [159; 104; 210; 220; 86; 209; 61; 51]);
   ("voteCast", [39; 53; 195; 104; 188; 17; 225; 213])]%string.

(** ** nxs staking *)

Definition nxs_staking_allowedCallers : idl_typedef :=
  TD_struct [("programs", (T_vec T_pubkey)); ("bump", T_u8)]%string.

Definition nxs_staking_allowedCallersUpdated : idl_typedef :=
  TD_struct [("program", T_pubkey); ("count", T_u16); ("timestamp", T_i64)]%string.

Definition nxs_staking_apyAuthorityMigrated : idl_typedef :=
  TD_struct [("oldMint", T_pubkey); ("newMint", T_pubkey); ("attestedAt", T_i64)]%string.

Definition nxs_staking_depositsFrozen : idl_typedef :=
  TD_struct [
    ("pool", T_pubkey); ("authority", T_pubkey); ("pauseNewStakesAt", T_i64); ("timestamp", T_i64)]%string.

Definition nxs_staking_depositsUnfrozen : idl_typedef :=
  TD_struct [("pool", T_pubkey); ("authority", T_pubkey); ("timestamp", T_i64)]%string.

Definition nxs_staking_epochSnapshotted : idl_typedef :=
  TD_struct [
    ("epoch", T_u64); ("totalVotingPower", T_u128); ("stakerCount", T_u32); ("timestamp", T_i64)]%string.

Definition nxs_staking_guardAdminReset : idl_typedef :=
  TD_struct [("program", T_pubkey); ("proposedAt", T_i64); ("executedAt", T_i64)]%string.

Definition nxs_staking_guardEntered : idl_typedef :=
  TD_struct [("program", T_pubkey); ("caller", T_pubkey); ("slot", T_u64); ("stackHeight", T_u16)]%string.

Definition nxs_staking_guardInitialized : idl_typedef :=
  TD_struct [("program", T_pubkey); ("timestamp", T_i64)]%string.

Definition nxs_staking_poolClosed : idl_typedef :=
  TD_struct [
    ("pool", T_pubkey); ("authority", T_pubkey); ("totalStakedAtClose", T_u64); ("closedAt", T_i64)]%string.

Definition nxs_staking_poolInitialized : idl_typedef :=
  TD_struct [
    ("authority", T_pubkey); ("stakeMint", T_pubkey); ("epochDurationSecs", T_i64); ("timestamp", T_i64)]%string.

Definition nxs_staking_reentrancyGuard : idl_typedef :=
  TD_struct [
    ("active", T_bool); ("enteredBy", T_pubkey); ("enteredAtSlot", T_u64); ("resetProposedAt", T_i64); ("bump", T_u8)]%string.

Definition nxs_staking_reentrancyRejected : idl_typedef :=
  TD_struct [("program", T_pubkey); ("offendingCaller", T_pubkey); ("slot", T_u64)]%string.

Definition nxs_staking_stakeAccount : idl_typedef :=
  TD_struct [
    ("owner", T_pubkey); ("pool", T_pubkey); ("amount", T_u64); ("lockupEnd", T_i64); ("lockupMultiplier", T_u8);
    ("votingPower", T_u64); ("stakedAt", T_i64); ("cooldownStart", T_i64); ("pendingRewards", T_u64);
    ("lastClaimEpoch", T_u64); ("status", (T_defined "stakeStatus")); ("bump", T_u8); ("vaultBump", T_u8)]%string.

Definition nxs_staking_stakeStatus : idl_typedef :=
  TD_enum [
    ("active", []); ("cooldown", []); ("withdrawn", [])]%string.

Definition nxs_staking_staked : idl_typedef :=
  TD_struct [
    ("owner", T_pubkey); ("amount", T_u64); ("lockupEnd", T_i64); ("votingPower", T_u64); ("multiplier", T_u8);
    ("timestamp", T_i64)]%string.

Definition nxs_staking_stakingConfig : idl_typedef :=
  TD_struct [("authority", T_pubkey); ("bump", T_u8)]%string.

Definition nxs_staking_stakingPool : idl_typedef :=
  TD_struct [
    ("authority", T_pubkey); ("pendingAuthority", (T_option T_pubkey)); ("stakeMint", T_pubkey); ("totalStaked", T_u64);
    ("totalStakers", T_u32); ("currentEpoch", T_u64); ("epochDurationSecs", T_i64); ("epochStartTime", T_i64);
    ("rewardRatePerEpoch", T_u64); ("paused", T_bool); ("pauseNewStakes", T_bool); ("pauseNewStakesAt", T_i64);
    ("closed", T_bool); ("closedAt", T_i64); ("bump", T_u8)]%string.

Definition nxs_staking_unstakeInitiated : idl_typedef :=
  TD_struct [("owner", T_pubkey); ("amount", T_u64); ("cooldownEnd", T_i64); ("timestamp", T_i64)]%string.

Definition nxs_staking_votingPowerSnapshot : idl_typedef :=
  TD_struct [
    ("epoch", T_u64); ("totalVotingPower", T_u128); ("snapshotTime", T_i64); ("stakerCount", T_u32); ("bump", T_u8)]%string.

Definition nxs_staking_withdrawn : idl_typedef :=
  TD_struct [("owner", T_pubkey); ("amount", T_u64); ("timestamp", T_i64)]%string.

Definition nxs_staking_types : list (string * idl_typedef) :=
  [("allowedCallers", nxs_staking_allowedCallers); ("allowedCallersUpdated", nxs_staking_allowedCallersUpdated);
   ("apyAuthorityMigrated", nxs_staking_apyAuthorityMigrated); ("depositsFrozen", nxs_staking_depositsFrozen);
   ("depositsUnfrozen", nxs_staking_depositsUnfrozen); ("epochSnapshotted", nxs_staking_epochSnapshotted);
   ("guardAdminReset", nxs_staking_guardAdminReset); ("guardEntered", nxs_staking_guardEntered);
   ("guardInitialized", nxs_staking_guardInitialized); ("poolClosed", nxs_staking_poolClosed);
   ("poolInitialized", nxs_staking_poolInitialized); ("reentrancyGuard", nxs_staking_reentrancyGuard);
   ("reentrancyRejected", nxs_staking_reentrancyRejected); ("stakeAccount", nxs_staking_stakeAccount);
   ("stakeStatus", nxs_staking_stakeStatus); ("staked", nxs_staking_staked); ("stakingConfig", nxs_staking_stakingConfig);
   ("stakingPool", nxs_staking_stakingPool); ("unstakeInitiated", nxs_staking_unstakeInitiated);
   ("votingPowerSnapshot", nxs_staking_votingPowerSnapshot); ("withdrawn", nxs_staking_withdrawn)]%string.

Definition nxs_staking_accounts : list (string * list Z) :=
  [
   ("allowedCallers", [91; 102; 165; 7; 58; 35; 153; 85]);
   ("reentrancyGuard", [207; 227; 141; 11; 194; 21; 193; 32]);
   ("stakeAccount", [80; 158; 67; 124; 50; 189; 192; 255]);
   ("stakingConfig", [45; 134; 252; 82; 37; 57; 84; 25]);
   ("stakingPool", [203; 19; 214; 220; 220; 154; 24; 102]);
   ("votingPowerSnapshot", [199; 73; 250; 191; 39; 60; 11; 193])]%string.

Definition nxs_staking_events : list (string * list Z) :=
  [
   ("allowedCallersUpdated", [92; 1; 187; 172; 8; 117; 63; 122]);
   ("apyAuthorityMigrated", [23; 249; 157; 195; 211; 14; 210; 165]);
   ("depositsFrozen", [99; 224; 136; 147; 198; 70; 82; 116]);
   ("depositsUnfrozen", [15; 148; 160; 231; 26; 25; 146; 100]);
   ("epochSnapshotted", [111; 242; 32; 171; 181; 144; 137; 48]);
   ("guardAdminReset", [248; 63; 90; 37; 0; 46; 68; 81]);
   ("guardEntered", [168; 4; 164; 40; 174; 109; 201; 188]);
   ("guardInitialized", [96; 193; 193; 62; 210; 16; 25; 100]);
   ("poolClosed", [106; 46; 29; 231; 42; 44; 73; 119]);
   ("poolInitialized", [100; 118; 173; 87; 12; 198; 254; 229]);
   ("reentrancyRejected", [210; 169; 179; 180; 90; 49; 86; 89]);
   ("staked", [11; 146; 45; 205; 230; 58; 213; 240]);
   ("unstakeInitiated", [191; 228; 210; 9; 181; 214; 12; 7]);
   ("withdrawn", [20; 89; 223; 198; 194; 124; 219; 13])]%string.

(** ** proof verifier *)

Definition proof_verifier_allowedCallers : idl_typedef :=
  TD_struct [("programs", (T_vec T_pubkey)); ("bump", T_u8)]%string.

Definition proof_verifier_authorityTransferAccepted : idl_typedef :=
  TD_struct [("newAuthority", T_pubkey)]%string.

Definition proof_verifier_authorityTransferProposed : idl_typedef :=
  TD_struct [("pending", T_pubkey)]%string.

Definition proof_verifier_batchState : idl_typedef :=
  TD_struct [
    ("cranker", T_pubkey); ("vkKey", T_pubkey); ("batchId", (T_array T_u8 16%nat)); ("count", T_u8); ("maxProofs", T_u8);
    ("accAlpha", (T_array T_u8 64%nat)); ("accVkX", (T_array T_u8 64%nat)); ("accC", (T_array T_u8 64%nat));
    ("randomState", (T_array T_u8 32%nat)); ("negAScaled", (T_vec (T_array T_u8 64%nat)));
    ("bPoints", (T_vec (T_array T_u8 128%nat))); ("bump", T_u8)]%string.

Definition proof_verifier_batchVerified : idl_typedef :=
  TD_struct [("batchId", (T_array T_u8 16%nat)); ("count", T_u8); ("vkId", (T_array T_u8 32%nat))]%string.

Definition proof_verifier_globalMode : idl_typedef :=
  TD_struct [("isMainnet", T_bool); ("bump", T_u8)]%string.

Definition proof_verifier_guardEntered : idl_typedef :=
  TD_struct [("program", T_pubkey); ("caller", T_pubkey); ("slot", T_u64); ("stackHeight", T_u16)]%string.

Definition proof_verifier_pausedSet : idl_typedef :=
  TD_struct [("paused", T_bool)]%string.

Definition proof_verifier_reentrancyGuard : idl_typedef :=
  TD_struct [
    ("active", T_bool); ("enteredBy", T_pubkey); ("enteredAtSlot", T_u64); ("resetProposedAt", T_i64); ("bump", T_u8)]%string.

Definition proof_verifier_reentrancyRejected : idl_typedef :=
  TD_struct [("program", T_pubkey); ("offendingCaller", T_pubkey); ("slot", T_u64)]%string.

Definition proof_verifier_reputationSample : idl_typedef :=
  TD_struct [
    ("quality", T_u16); ("timeliness", T_u16); ("availability", T_u16); ("costEfficiency", T_u16); ("honesty", T_u16);
    ("disputed", T_bool)]%string.

Definition proof_verifier_verifierConfig : idl_typedef :=
  TD_struct [
    ("authority", T_pubkey); ("pendingAuthority", (T_option T_pubkey)); ("activeVk", T_pubkey);
    ("pendingVk", (T_option T_pubkey)); ("pendingActivatesAt", T_i64); ("paused", T_bool); ("bump", T_u8)]%string.

Definition proof_verifier_verifierInitialized : idl_typedef :=
  TD_struct [("authority", T_pubkey)]%string.

Definition proof_verifier_verifierKey : idl_typedef :=
  TD_struct [
    ("vkId", (T_array T_u8 32%nat)); ("alphaG1", (T_array T_u8 64%nat)); ("betaG2", (T_array T_u8 128%nat));
    ("gammaG2", (T_array T_u8 128%nat)); ("deltaG2", (T_array T_u8 128%nat)); ("ic", (T_vec (T_array T_u8 64%nat)));
    ("numPublicInputs", T_u8); ("circuitLabel", (T_array T_u8 32%nat)); ("isProduction", T_bool); ("registeredAt", T_i64);
    ("registeredBy", T_pubkey); ("bump", T_u8)]%string.

Definition proof_verifier_vkActivated : idl_typedef :=
  TD_struct [("vkId", (T_array T_u8 32%nat))]%string.

Definition proof_verifier_vkActivationCancelled : idl_typedef :=
  TD_struct [("vkId", (T_array T_u8 32%nat))]%string.

Definition proof_verifier_vkActivationProposed : idl_typedef :=
  TD_struct [("vkId", (T_array T_u8 32%nat)); ("activatesAt", T_i64)]%string.

Definition proof_verifier_vkRegistered : idl_typedef :=
  TD_struct [
    ("vkId", (T_array T_u8 32%nat)); ("circuitLabel", (T_array T_u8 32%nat)); ("isProduction", T_bool)]%string.

Definition proof_verifier_types : list (string * idl_typedef) :=
  [("allowedCallers", proof_verifier_allowedCallers);
   ("authorityTransferAccepted", proof_verifier_authorityTransferAccepted);
   ("authorityTransferProposed", proof_verifier_authorityTransferProposed); ("batchState", proof_verifier_batchState);
   ("batchVerified", proof_verifier_batchVerified); ("globalMode", proof_verifier_globalMode);
   ("guardEntered", proof_verifier_guardEntered); ("pausedSet", proof_verifier_pausedSet);
   ("reentrancyGuard", proof_verifier_reentrancyGuard); ("reentrancyRejected", proof_verifier_reentrancyRejected);
   ("reputationSample", proof_verifier_reputationSample); ("verifierConfig", proof_verifier_verifierConfig);
   ("verifierInitialized", proof_verifier_verifierInitialized); ("verifierKey", proof_verifier_verifierKey);
   ("vkActivated", proof_verifier_vkActivated); ("vkActivationCancelled", proof_verifier_vkActivationCancelled);
   ("vkActivationProposed", proof_verifier_vkActivationProposed); ("vkRegistered", proof_verifier_vkRegistered)]%string.

Definition proof_verifier_accounts : list (string * list Z) :=
  [
   ("allowedCallers", [91; 102; 165; 7; 58; 35; 153; 85]);
   ("batchState", [45; 46; 153; 185; 167; 42; 128; 10]);
   ("globalMode", [58; 46; 119; 87; 28; 120; 139; 192]);
   ("reentrancyGuard", [207; 227; 141; 11; 194; 21; 193; 32]);
   ("verifierConfig", [176; 103; 248; 36; 138; 167; 176; 220]);
   ("verifierKey", [27; 40; 233; 33; 249; 246; 9; 239])]%string.

Definition proof_verifier_events : list (string * list Z) :=
  [
   ("authorityTransferAccepted", [149; 165; 140; 221; 104; 203; 239; 121]);
   ("authorityTransferProposed", [103; 244; 27; 116; 177; 4; 100; 119]);
   ("batchVerified", [88; 129; 192; 196; 64; 124; 188; 239]);
   ("guardEntered", [168; 4; 164; 40; 174; 109; 201; 188]);
   ("pausedSet", [171; 125; 127; 156; 233; 81; 68; 66]);
   ("reentrancyRejected", [210; 169; 179; 180; 90; 49; 86; 89]);
   ("verifierInitialized", [30; 145; 238; 29; 211; 34; 68; 235]);
   ("vkActivated", [151; 10; 80; 204; 179; 104; 104; 236]);
   ("vkActivationCancelled", [29; 11; 195; 12; 165; 32; 248; 88]);
   ("vkActivationProposed", [43; 228; 190; 163; 1; 228; 47; 168]);
   ("vkRegistered", [78; 137; 114; 30; 138; 75; 201; 7])]%string.

(** ** task market *)

Definition task_market_agentAccount : idl_typedef :=
  TD_struct [
    ("operator", T_pubkey); ("agentId", (T_array T_u8 32%nat)); ("did", (T_array T_u8 32%nat));
    ("manifestUri", (T_array T_u8 128%nat)); ("capabilityMask", T_u128); ("priceLamports", T_u64); ("streamRate", T_u64);
    ("reputation", (T_defined "reputationScore")); ("jobsCompleted", T_u64); ("jobsDisputed", T_u32);
    ("stakeAmount", T_u64); ("status", (T_defined "agentStatus")); ("version", T_u32); ("registeredAt", T_i64);
    ("lastActive", T_i64); ("delegate", (T_option T_pubkey)); ("pendingSlash", (T_option (T_defined "pendingSlash")));
    ("pendingWithdrawal", (T_option (T_defined "pendingWithdrawal"))); ("bump", T_u8); ("vaultBump", T_u8)]%string.

Definition task_market_agentStatus : idl_typedef :=
  TD_enum [
    ("active", []); ("paused", []); ("suspended", []); ("deregistered", [])]%string.

Definition task_market_allowedCallers : idl_typedef :=
  TD_struct [("programs", (T_vec T_pubkey)); ("bump", T_u8)]%string.

Definition task_market_bid : idl_typedef :=
  TD_struct [
    ("taskId", (T_array T_u8 32%nat)); ("agentDid", (T_array T_u8 32%nat)); ("bidder", T_pubkey);
    ("commitHash", (T_array T_u8 32%nat)); ("bondPaid", T_u64); ("revealedAmount", T_u64); ("revealed", T_bool);
    ("refunded", T_bool); ("slashed", T_bool); ("bump", T_u8)]%string.

Definition task_market_bidBook : idl_typedef :=
  TD_struct [
    ("taskId", (T_array T_u8 32%nat)); ("commitStart", T_i64); ("commitEnd", T_i64); ("revealEnd", T_i64);
    ("bondAmount", T_u64); ("bondMint", T_pubkey); ("commitCount", T_u16); ("revealCount", T_u16);
    ("winnerAgent", (T_option T_pubkey)); ("winnerBidder", (T_option T_pubkey)); ("winnerAmount", T_u64);
    ("phase", (T_defined "bidPhase")); ("bump", T_u8); ("escrowBump", T_u8)]%string.

Definition task_market_bidBookClosed : idl_typedef :=
  TD_struct [
    ("taskId", (T_array T_u8 32%nat)); ("winnerAgent", (T_option T_pubkey)); ("winnerAmount", T_u64); ("revealCount", T_u16)]%string.

Definition task_market_bidBookOpened : idl_typedef :=
  TD_struct [
    ("taskId", (T_array T_u8 32%nat)); ("commitEnd", T_i64); ("revealEnd", T_i64); ("bondAmount", T_u64)]%string.

Definition task_market_bidCommitted : idl_typedef :=
  TD_struct [("taskId", (T_array T_u8 32%nat)); ("bidder", T_pubkey); ("bondPaid", T_u64)]%string.

Definition task_market_bidPhase : idl_typedef :=
  TD_enum [
    ("commit", []); ("reveal", []); ("settled", []); ("cancelled", [])]%string.

Definition task_market_bidRevealed : idl_typedef :=
  TD_struct [("taskId", (T_array T_u8 32%nat)); ("bidder", T_pubkey); ("amount", T_u64)]%string.

Definition task_market_bidSlashed : idl_typedef :=
  TD_struct [("taskId", (T_array T_u8 32%nat)); ("bidder", T_pubkey); ("bondAmount", T_u64)]%string.

Definition task_market_capabilityTag : idl_typedef :=
  TD_struct [
    ("bitIndex", T_u8); ("slug", (T_array T_u8 32%nat)); ("manifestUri", (T_array T_u8 96%nat)); ("addedAt", T_i64);
    ("addedBy", T_pubkey); ("retired", T_bool); ("minPersonhoodTier", T_u8); ("bump", T_u8)]%string.

Definition task_market_disputeRaised : idl_typedef :=
  TD_struct [("taskId", (T_array T_u8 32%nat)); ("client", T_pubkey); ("timestamp", T_i64)]%string.

Definition task_market_globalInitialized : idl_typedef :=
  TD_struct [
    ("authority", T_pubkey); ("agentRegistry", T_pubkey); ("proofVerifier", T_pubkey); ("feeCollector", T_pubkey);
    ("solrepPool", T_pubkey); ("timestamp", T_i64)]%string.

Definition task_market_globalMode : idl_typedef :=
  TD_struct [("isMainnet", T_bool); ("bump", T_u8)]%string.

Definition task_market_globalParamsUpdated : idl_typedef :=
  TD_struct [("timestamp", T_i64)]%string.

Definition task_market_guardEntered : idl_typedef :=
  TD_struct [("program", T_pubkey); ("caller", T_pubkey); ("slot", T_u64); ("stackHeight", T_u16)]%string.

Definition task_market_marketGlobal : idl_typedef :=
  TD_struct [
    ("authority", T_pubkey); ("pendingAuthority", (T_option T_pubkey)); ("agentRegistry", T_pubkey);
    ("treasuryStandard", T_pubkey); ("proofVerifier", T_pubkey); ("feeCollector", T_pubkey); ("solrepPool", T_pubkey);
    ("protocolFeeBps", T_u16); ("solrepFeeBps", T_u16); ("disputeWindowSecs", T_i64); ("maxDeadlineSecs", T_i64);
    ("allowedPaymentMints", (T_array T_pubkey 8%nat)); ("paused", T_bool); ("bump", T_u8); ("hookAllowlist", T_pubkey)]%string.

Definition task_market_mintAcceptRecord : idl_typedef :=
  TD_struct [
    ("mint", T_pubkey); ("mintAcceptFlags", T_u32); ("hasConfidentialTransfer", T_bool); ("acceptedAtSlot", T_u64);
    ("acceptedAtTs", T_i64); ("bump", T_u8)]%string.

Definition task_market_mintAccepted : idl_typedef :=
  TD_struct [
    ("mint", T_pubkey); ("acceptFlags", T_u32); ("hasConfidentialTransfer", T_bool); ("slot", T_u64); ("timestamp", T_i64)]%string.

Definition task_market_mintAllowlist : idl_typedef :=
  TD_struct [
    ("authority", T_pubkey); ("pendingAuthority", (T_option T_pubkey)); ("programs", (T_vec T_pubkey));
    ("defaultDeny", T_bool); ("bump", T_u8)]%string.

Definition task_market_pausedSet : idl_typedef :=
  TD_struct [("paused", T_bool); ("timestamp", T_i64)]%string.

Definition task_market_pendingSlash : idl_typedef :=
  TD_struct [
    ("amount", T_u64); ("reasonCode", T_u16); ("proposedAt", T_i64); ("executableAt", T_i64); ("proposer", T_pubkey);
    ("appealPending", T_bool)]%string.

Definition task_market_pendingWithdrawal : idl_typedef :=
  TD_struct [("amount", T_u64); ("requestedAt", T_i64); ("executableAt", T_i64)]%string.

Definition task_market_personhoodAttestation : idl_typedef :=
  TD_struct [
    ("operator", T_pubkey); ("provider", (T_defined "providerKind")); ("tier", (T_defined "personhoodTier"));
    ("gatekeeperNetwork", T_pubkey); ("attestationRef", (T_array T_u8 32%nat)); ("attestedAt", T_i64); ("expiresAt", T_i64);
    ("revoked", T_bool); ("bump", T_u8)]%string.

Definition task_market_personhoodTier : idl_typedef :=
  TD_enum [
    ("none", []); ("basic", []); ("verified", [])]%string.

Definition task_market_providerKind : idl_typedef :=
  TD_enum [
    ("civic", []); ("sas", [])]%string.

Definition task_market_reentrancyGuard : idl_typedef :=
  TD_struct [
    ("active", T_bool); ("enteredBy", T_pubkey); ("enteredAtSlot", T_u64); ("resetProposedAt", T_i64); ("bump", T_u8)]%string.

Definition task_market_reentrancyRejected : idl_typedef :=
  TD_struct [("program", T_pubkey); ("offendingCaller", T_pubkey); ("slot", T_u64)]%string.

Definition task_market_registryGlobal : idl_typedef :=
  TD_struct [
    ("authority", T_pubkey); ("pendingAuthority", (T_option T_pubkey)); ("capabilityRegistry", T_pubkey);
    ("taskMarket", T_pubkey); ("disputeArbitration", T_pubkey); ("slashingTreasury", T_pubkey); ("stakeMint", T_pubkey);
    ("proofVerifier", T_pubkey); ("minStake", T_u64); ("maxSlashBps", T_u16); ("slashTimelockSecs", T_i64);
    ("paused", T_bool); ("allowedCivicNetworks", (T_array T_pubkey 8%nat)); ("allowedCivicNetworksLen", T_u8);
    ("allowedSasIssuers", (T_array T_pubkey 8%nat)); ("allowedSasIssuersLen", T_u8);
    ("personhoodBasicMinTier", (T_defined "personhoodTier")); ("requirePersonhoodForRegister", T_bool);
    ("civicGatewayProgram", T_pubkey); ("bump", T_u8)]%string.

Definition task_market_reputationScore : idl_typedef :=
  TD_struct [
    ("quality", T_u16); ("timeliness", T_u16); ("availability", T_u16); ("costEfficiency", T_u16); ("honesty", T_u16);
    ("volume", T_u16); ("ewmaAlphaBps", T_u16); ("sampleCount", T_u32); ("lastUpdate", T_i64);
    ("reserved", (T_array T_u8 24%nat))]%string.

Definition task_market_resultSubmitted : idl_typedef :=
  TD_struct [
    ("taskId", (T_array T_u8 32%nat)); ("resultHash", (T_array T_u8 32%nat)); ("proofKey", (T_array T_u8 32%nat));
    ("submittedAt", T_i64); ("timestamp", T_i64)]%string.

Definition task_market_taskCancelled : idl_typedef :=
  TD_struct [("taskId", (T_array T_u8 32%nat)); ("timestamp", T_i64)]%string.

Definition task_market_taskContract : idl_typedef :=
  TD_struct [
    ("taskId", (T_array T_u8 32%nat)); ("client", T_pubkey); ("agentDid", (T_array T_u8 32%nat));
    ("taskNonce", (T_array T_u8 8%nat)); ("paymentMint", T_pubkey); ("paymentAmount", T_u64); ("protocolFee", T_u64);
    ("solrepFee", T_u64); ("taskHash", (T_array T_u8 32%nat)); ("resultHash", (T_array T_u8 32%nat));
    ("proofKey", (T_array T_u8 32%nat)); ("criteriaRoot", (T_array T_u8 32%nat)); ("milestoneCount", T_u8);
    ("milestonesComplete", T_u8); ("status", (T_defined "taskStatus")); ("createdAt", T_i64); ("fundedAt", T_i64);
    ("deadline", T_i64); ("submittedAt", T_i64); ("disputeWindowEnd", T_i64); ("verified", T_bool); ("bump", T_u8);
    ("escrowBump", T_u8); ("bidBook", (T_option T_pubkey)); ("assignedAgent", (T_option T_pubkey));
    ("payload", (T_defined "taskPayload"))]%string.

Definition task_market_taskCreated : idl_typedef :=
  TD_struct [
    ("taskId", (T_array T_u8 32%nat)); ("client", T_pubkey); ("agentDid", (T_array T_u8 32%nat)); ("paymentAmount", T_u64);
    ("deadline", T_i64); ("timestamp", T_i64)]%string.

Definition task_market_taskExpired : idl_typedef :=
  TD_struct [("taskId", (T_array T_u8 32%nat)); ("refundAmount", T_u64); ("timestamp", T_i64)]%string.

Definition task_market_taskFunded : idl_typedef :=
  TD_struct [("taskId", (T_array T_u8 32%nat)); ("amount", T_u64); ("timestamp", T_i64)]%string.

Definition task_market_taskKind : idl_typedef :=
  TD_enum [
    ("swapExact", [("inMint", T_pubkey); ("outMint", T_pubkey); ("amountIn", T_u64); ("minOut", T_u64)]);
    ("transfer", [("mint", T_pubkey); ("to", T_pubkey); ("amount", T_u64)]);
    ("dataFetch", [("urlHash", (T_array T_u8 32%nat)); ("expectedHash", (T_array T_u8 32%nat))]);
    ("compute", [("circuitId", (T_array T_u8 32%nat)); ("publicInputsHash", (T_array T_u8 32%nat))]);
    ("generic", [("capabilityBit", T_u16); ("argsHash", (T_array T_u8 32%nat))])]%string.

Definition task_market_taskPayload : idl_typedef :=
  TD_struct [
    ("kind", (T_defined "taskKind")); ("capabilityBit", T_u16); ("criteria", T_bytes);
    ("requiresPersonhood", (T_defined "personhoodTier"))]%string.

Definition task_market_taskPayloadStored : idl_typedef :=
  TD_struct [("taskId", (T_array T_u8 32%nat)); ("kindDiscriminant", T_u8); ("capabilityBit", T_u16)]%string.

Definition task_market_taskReleased : idl_typedef :=
  TD_struct [
    ("taskId", (T_array T_u8 32%nat)); ("agentDid", (T_array T_u8 32%nat)); ("operator", T_pubkey); ("client", T_pubkey);
    ("mint", T_pubkey); ("agentPayout", T_u64); ("protocolFee", T_u64); ("solrepFee", T_u64); ("timestamp", T_i64)]%string.

Definition task_market_taskStatus : idl_typedef :=
  TD_enum [
    ("created", []); ("funded", []); ("inExecution", []); ("proofSubmitted", []); ("verified", []); ("released", []);
    ("expired", []); ("disputed", []); ("resolved", [])]%string.

Definition task_market_taskVerified : idl_typedef :=
  TD_struct [("taskId", (T_array T_u8 32%nat)); ("disputeWindowEnd", T_i64); ("timestamp", T_i64)]%string.

Definition task_market_verificationFailed : idl_typedef :=
  TD_struct [("taskId", (T_array T_u8 32%nat)); ("timestamp", T_i64)]%string.

Definition task_market_verifierConfig : idl_typedef :=
  TD_struct [
    ("authority", T_pubkey); ("pendingAuthority", (T_option T_pubkey)); ("activeVk", T_pubkey);
    ("pendingVk", (T_option T_pubkey)); ("pendingActivatesAt", T_i64); ("paused", T_bool); ("bump", T_u8)]%string.

Definition task_market_verifierKey : idl_typedef :=
  TD_struct [
    ("vkId", (T_array T_u8 32%nat)); ("alphaG1", (T_array T_u8 64%nat)); ("betaG2", (T_array T_u8 128%nat));
    ("gammaG2", (T_array T_u8 128%nat)); ("deltaG2", (T_array T_u8 128%nat)); ("ic", (T_vec (T_array T_u8 64%nat)));
    ("numPublicInputs", T_u8); ("circuitLabel", (T_array T_u8 32%nat)); ("isProduction", T_bool); ("registeredAt", T_i64);
    ("registeredBy", T_pubkey); ("bump", T_u8)]%string.

Definition task_market_types : list (string * idl_typedef) :=
  [("agentAccount", task_market_agentAccount); ("agentStatus", task_market_agentStatus);
   ("allowedCallers", task_market_allowedCallers); ("bid", task_market_bid); ("bidBook", task_market_bidBook);
   ("bidBookClosed", task_market_bidBookClosed); ("bidBookOpened", task_market_bidBookOpened);
   ("bidCommitted", task_market_bidCommitted); ("bidPhase", task_market_bidPhase); ("bidRevealed", task_market_bidRevealed);
   ("bidSlashed", task_market_bidSlashed); ("capabilityTag", task_market_capabilityTag);
   ("disputeRaised", task_market_disputeRaised); ("globalInitialized", task_market_globalInitialized);
   ("globalMode", task_market_globalMode); ("globalParamsUpdated", task_market_globalParamsUpdated);
   ("guardEntered", task_market_guardEntered); ("marketGlobal", task_market_marketGlobal);
   ("mintAcceptRecord", task_market_mintAcceptRecord); ("mintAccepted", task_market_mintAccepted);
   ("mintAllowlist", task_market_mintAllowlist); ("pausedSet", task_market_pausedSet);
   ("pendingSlash", task_market_pendingSlash); ("pendingWithdrawal", task_market_pendingWithdrawal);
   ("personhoodAttestation", task_market_personhoodAttestation); ("personhoodTier", task_market_personhoodTier);
   ("providerKind", task_market_providerKind); ("reentrancyGuard", task_market_reentrancyGuard);
   ("reentrancyRejected", task_market_reentrancyRejected); ("registryGlobal", task_market_registryGlobal);
   ("reputationScore", task_market_reputationScore); ("resultSubmitted", task_market_resultSubmitted);
   ("taskCancelled", task_market_taskCancelled); ("taskContract", task_market_taskContract);
   ("taskCreated", task_market_taskCreated); ("taskExpired", task_market_taskExpired);
   ("taskFunded", task_market_taskFunded); ("taskKind", task_market_taskKind); ("taskPayload", task_market_taskPayload);
   ("taskPayloadStored", task_market_taskPayloadStored); ("taskReleased", task_market_taskReleased);
   ("taskStatus", task_market_taskStatus); ("taskVerified", task_market_taskVerified);
   ("verificationFailed", task_market_verificationFailed); ("verifierConfig", task_market_verifierConfig);
   ("verifierKey", task_market_verifierKey)]%string.

Definition task_market_accounts : list (string * list Z) :=
  [
   ("allowedCallers", [91; 102; 165; 7; 58; 35; 153; 85]);
   ("bid", [143; 246; 48; 245; 42; 145; 180; 88]);
   ("bidBook", [182; 97; 57; 49; 241; 83; 113; 20]);
   ("marketGlobal", [224; 186; 155; 178; 152; 159; 92; 240]);
   ("mintAcceptRecord", [122; 82; 110; 234; 225; 88; 241; 227]);
   ("reentrancyGuard", [207; 227; 141; 11; 194; 21; 193; 32]);
   ("taskContract", [71; 7; 90; 25; 16; 89; 88; 254])]%string.

Definition task_market_events : list (string * list Z) :=
  [
   ("bidBookClosed", [81; 79; 65; 122; 112; 64; 146; 208]);
   ("bidBookOpened", [10; 179; 205; 134; 73; 169; 128; 54]);
   ("bidCommitted", [81; 13; 193; 139; 0; 168; 82; 55]);
   ("bidRevealed", [227; 144; 125; 229; 28; 109; 18; 209]);
   ("bidSlashed", [151; 115; 136; 75; 32; 56; 99; 5]);
   ("disputeRaised", [246; 167; 109; 37; 142; 45; 38; 176]);
   ("globalInitialized", [142; 186; 188; 168; 64; 228; 8; 20]);
   ("globalParamsUpdated", [212; 96; 46; 152; 150; 242; 177; 48]);
   ("guardEntered", [168; 4; 164; 40; 174; 109; 201; 188]);
   ("mintAccepted", [64; 209; 5; 8; 70; 172; 222; 50]);
   ("pausedSet", [171; 125; 127; 156; 233; 81; 68; 66]);
   ("reentrancyRejected", [210; 169; 179; 180; 90; 49; 86; 89]);
   ("resultSubmitted", [156; 153; 163; 89; 245; 144; 63; 94]);
   ("taskCancelled", [158; 101; 220; 187; 16; 141; 141; 64]);
   ("taskCreated", [49; 174; 6; 7; 71; 159; 69; 175]);
   ("taskExpired", [36; 130; 189; 154; 110; 249; 231; 45]);
   ("taskFunded", [215; 0; 224; 16; 151; 4; 3; 195]);
   ("taskPayloadStored", [142; 81; 151; 192; 2; 99; 211; 205]);
   ("taskReleased", [206; 87; 144; 39; 45; 254; 186; 247]);
   ("taskVerified", [8; 131; 95; 118; 38; 42; 132; 106]);
   ("verificationFailed", [244; 93; 101; 3; 8; 187; 51; 199])]%string.

(** ** template registry *)

Definition template_registry_agentTemplate : idl_typedef :=
  TD_struct [
    ("templateId", (T_array T_u8 32%nat)); ("author", T_pubkey); ("configHash", (T_array T_u8 32%nat));
    ("configUri", (T_array T_u8 128%nat)); ("capabilityMask", T_u128); ("royaltyBps", T_u16);
    ("parentTemplate", (T_option T_pubkey)); ("lineageDepth", T_u8); ("forkCount", T_u32); ("rentCount", T_u32);
    ("totalRevenue", T_u64); ("rentPricePerSec", T_u64); ("minRentDuration", T_i64); ("maxRentDuration", T_i64);
    ("status", (T_defined "templateStatus")); ("createdAt", T_i64); ("updatedAt", T_i64); ("bump", T_u8)]%string.

Definition template_registry_rentalClosed : idl_typedef :=
  TD_struct [("rental", T_pubkey); ("refund", T_u64); ("timestamp", T_i64)]%string.

Definition template_registry_rentalOpened : idl_typedef :=
  TD_struct [
    ("template", T_pubkey); ("renter", T_pubkey); ("start", T_i64); ("end", T_i64); ("prepaid", T_u64)]%string.

Definition template_registry_rentalRevenueClaimed : idl_typedef :=
  TD_struct [
    ("rental", T_pubkey); ("platformFee", T_u64); ("authorRoyalty", T_u64); ("renterRetained", T_u64)]%string.

Definition template_registry_rentalStatus : idl_typedef :=
  TD_enum [
    ("active", []); ("closed", []); ("cancelled", [])]%string.

Definition template_registry_royaltySettled : idl_typedef :=
  TD_struct [("template", T_pubkey); ("gross", T_u64); ("royalty", T_u64); ("settler", T_pubkey)]%string.

Definition template_registry_templateFork : idl_typedef :=
  TD_struct [
    ("childAgentDid", (T_array T_u8 32%nat)); ("parentTemplate", T_pubkey); ("forker", T_pubkey);
    ("royaltyBpsSnapshot", T_u16); ("forkedAt", T_i64); ("bump", T_u8)]%string.

Definition template_registry_templateForked : idl_typedef :=
  TD_struct [
    ("templateId", (T_array T_u8 32%nat)); ("childAgentDid", (T_array T_u8 32%nat)); ("forker", T_pubkey);
    ("royaltyBpsSnapshot", T_u16)]%string.

Definition template_registry_templatePublished : idl_typedef :=
  TD_struct [
    ("templateId", (T_array T_u8 32%nat)); ("author", T_pubkey); ("configHash", (T_array T_u8 32%nat)); ("royaltyBps", T_u16)]%string.

Definition template_registry_templateRegistryGlobal : idl_typedef :=
  TD_struct [
    ("authority", T_pubkey); ("pendingAuthority", (T_option T_pubkey)); ("agentRegistry", T_pubkey);
    ("treasuryStandard", T_pubkey); ("feeCollector", T_pubkey); ("royaltyCapBps", T_u16); ("platformFeeBps", T_u16);
    ("rentEscrowMint", T_pubkey); ("paused", T_bool); ("bump", T_u8)]%string.

Definition template_registry_templateRental : idl_typedef :=
  TD_struct [
    ("template", T_pubkey); ("renter", T_pubkey); ("startTime", T_i64); ("endTime", T_i64); ("prepaidAmount", T_u64);
    ("dripRatePerSec", T_u64); ("claimedAuthor", T_u64); ("claimedPlatform", T_u64); ("status", (T_defined "rentalStatus"));
    ("bump", T_u8); ("escrowBump", T_u8)]%string.

Definition template_registry_templateRetired : idl_typedef :=
  TD_struct [("templateId", (T_array T_u8 32%nat)); ("retiredBy", T_pubkey); ("timestamp", T_i64)]%string.

Definition template_registry_templateStatus : idl_typedef :=
  TD_enum [
    ("draft", []); ("published", []); ("deprecated", []); ("retired", [])]%string.

Definition template_registry_types : list (string * idl_typedef) :=
  [("agentTemplate", template_registry_agentTemplate); ("rentalClosed", template_registry_rentalClosed);
   ("rentalOpened", template_registry_rentalOpened); ("rentalRevenueClaimed", template_registry_rentalRevenueClaimed);
   ("rentalStatus", template_registry_rentalStatus); ("royaltySettled", template_registry_royaltySettled);
   ("templateFork", template_registry_templateFork); ("templateForked", template_registry_templateForked);
   ("templatePublished", template_registry_templatePublished);
   ("templateRegistryGlobal", template_registry_templateRegistryGlobal);
   ("templateRental", template_registry_templateRental); ("templateRetired", template_registry_templateRetired);
   ("templateStatus", template_registry_templateStatus)]%string.

Definition template_registry_accounts : list (string * list Z) :=
  [
   ("agentTemplate", [144; 215; 86; 173; 92; 116; 55; 22]);
   ("templateFork", [66; 227; 182; 240; 88; 130; 218; 219]);
   ("templateRegistryGlobal", [93; 140; 226; 165; 61; 163; 154; 225]);
   ("templateRental", [156; 225; 31; 10; 3; 15; 162; 242])]%string.

Definition template_registry_events : list (string * list Z) :=
  [
   ("rentalClosed", [77; 252; 165; 5; 168; 29; 237; 40]);
   ("rentalOpened", [226; 85; 149; 217; 246; 206; 200; 54]);
   ("rentalRevenueClaimed", [149; 78; 65; 6; 80; 194; 33; 79]);
   ("royaltySettled", [179; 245; 37; 4; 159; 55; 164; 231]);
   ("templateForked", [36; 212; 178; 130; 108; 226; 24; 8]);
   ("templatePublished", [198; 49; 87; 159; 80; 32; 0; 47]);
   ("templateRetired", [25; 160; 126; 244; 25; 27; 23; 35])]%string.

(** ** treasury standard *)

Definition treasury_standard_agentAccount : idl_typedef :=
  TD_struct [
    ("operator", T_pubkey); ("agentId", (T_array T_u8 32%nat)); ("did", (T_array T_u8 32%nat));
    ("manifestUri", (T_array T_u8 128%nat)); ("capabilityMask", T_u128); ("priceLamports", T_u64); ("streamRate", T_u64);
    ("reputation", (T_defined "reputationScore")); ("jobsCompleted", T_u64); ("jobsDisputed", T_u32);
    ("stakeAmount", T_u64); ("status", (T_defined "agentStatus")); ("version", T_u32); ("registeredAt", T_i64);
    ("lastActive", T_i64); ("delegate", (T_option T_pubkey)); ("pendingSlash", (T_option (T_defined "pendingSlash")));
    ("pendingWithdrawal", (T_option (T_defined "pendingWithdrawal"))); ("bump", T_u8); ("vaultBump", T_u8)]%string.

Definition treasury_standard_agentMintAllowlist : idl_typedef :=
  TD_struct [("agentDid", (T_array T_u8 32%nat)); ("extraPrograms", (T_vec T_pubkey)); ("bump", T_u8)]%string.

Definition treasury_standard_agentStatus : idl_typedef :=
  TD_enum [
    ("active", []); ("paused", []); ("suspended", []); ("deregistered", [])]%string.

Definition treasury_standard_agentTreasury : idl_typedef :=
  TD_struct [
    ("agentDid", (T_array T_u8 32%nat)); ("operator", T_pubkey); ("dailySpendLimit", T_u64); ("perTxLimit", T_u64);
    ("weeklyLimit", T_u64); ("spentToday", T_u64); ("spentThisWeek", T_u64); ("lastResetDay", T_i64);
    ("lastResetWeek", T_i64); ("streamingActive", T_bool); ("streamCounterparty", (T_option T_pubkey));
    ("streamRatePerSec", T_u64); ("bump", T_u8)]%string.

Definition treasury_standard_allowedCallers : idl_typedef :=
  TD_struct [("programs", (T_vec T_pubkey)); ("bump", T_u8)]%string.

Definition treasury_standard_allowedMintAdded : idl_typedef :=
  TD_struct [("mint", T_pubkey); ("timestamp", T_i64)]%string.

Definition treasury_standard_allowedMintRemoved : idl_typedef :=
  TD_struct [("mint", T_pubkey); ("timestamp", T_i64)]%string.

Definition treasury_standard_allowedMints : idl_typedef :=
  TD_struct [("authority", T_pubkey); ("mints", (T_vec T_pubkey)); ("bump", T_u8)]%string.

Definition treasury_standard_allowedTargets : idl_typedef :=
  TD_struct [("agentDid", (T_array T_u8 32%nat)); ("targets", (T_vec T_pubkey)); ("bump", T_u8)]%string.

Definition treasury_standard_allowedTargetsUpdated : idl_typedef :=
  TD_struct [
    ("agentDid", (T_array T_u8 32%nat)); ("addedCount", T_u16); ("removedCount", T_u16); ("timestamp", T_i64)]%string.

Definition treasury_standard_guardEntered : idl_typedef :=
  TD_struct [("program", T_pubkey); ("caller", T_pubkey); ("slot", T_u64); ("stackHeight", T_u16)]%string.

Definition treasury_standard_limitsUpdated : idl_typedef :=
  TD_struct [
    ("agentDid", (T_array T_u8 32%nat)); ("daily", T_u64); ("perTx", T_u64); ("weekly", T_u64); ("timestamp", T_i64)]%string.

Definition treasury_standard_mintAllowlist : idl_typedef :=
  TD_struct [
    ("authority", T_pubkey); ("pendingAuthority", (T_option T_pubkey)); ("programs", (T_vec T_pubkey));
    ("defaultDeny", T_bool); ("bump", T_u8)]%string.

Definition treasury_standard_pausedSet : idl_typedef :=
  TD_struct [("paused", T_bool); ("timestamp", T_i64)]%string.

Definition treasury_standard_paymentStream : idl_typedef :=
  TD_struct [
    ("agentDid", (T_array T_u8 32%nat)); ("client", T_pubkey); ("payerMint", T_pubkey); ("payoutMint", T_pubkey);
    ("ratePerSec", T_u64); ("startTime", T_i64); ("maxDuration", T_i64); ("depositTotal", T_u64); ("withdrawn", T_u64);
    ("escrowBump", T_u8); ("status", (T_defined "streamStatus")); ("streamNonce", (T_array T_u8 8%nat)); ("bump", T_u8)]%string.

Definition treasury_standard_pendingSlash : idl_typedef :=
  TD_struct [
    ("amount", T_u64); ("reasonCode", T_u16); ("proposedAt", T_i64); ("executableAt", T_i64); ("proposer", T_pubkey);
    ("appealPending", T_bool)]%string.

Definition treasury_standard_pendingWithdrawal : idl_typedef :=
  TD_struct [("amount", T_u64); ("requestedAt", T_i64); ("executableAt", T_i64)]%string.

Definition treasury_standard_personhoodTier : idl_typedef :=
  TD_enum [
    ("none", []); ("basic", []); ("verified", [])]%string.

Definition treasury_standard_reentrancyGuard : idl_typedef :=
  TD_struct [
    ("active", T_bool); ("enteredBy", T_pubkey); ("enteredAtSlot", T_u64); ("resetProposedAt", T_i64); ("bump", T_u8)]%string.

Definition treasury_standard_reentrancyRejected : idl_typedef :=
  TD_struct [("program", T_pubkey); ("offendingCaller", T_pubkey); ("slot", T_u64)]%string.

Definition treasury_standard_registryGlobal : idl_typedef :=
  TD_struct [
    ("authority", T_pubkey); ("pendingAuthority", (T_option T_pubkey)); ("capabilityRegistry", T_pubkey);
    ("taskMarket", T_pubkey); ("disputeArbitration", T_pubkey); ("slashingTreasury", T_pubkey); ("stakeMint", T_pubkey);
    ("proofVerifier", T_pubkey); ("minStake", T_u64); ("maxSlashBps", T_u16); ("slashTimelockSecs", T_i64);
    ("paused", T_bool); ("allowedCivicNetworks", (T_array T_pubkey 8%nat)); ("allowedCivicNetworksLen", T_u8);
    ("allowedSasIssuers", (T_array T_pubkey 8%nat)); ("allowedSasIssuersLen", T_u8);
    ("personhoodBasicMinTier", (T_defined "personhoodTier")); ("requirePersonhoodForRegister", T_bool);
    ("civicGatewayProgram", T_pubkey); ("bump", T_u8)]%string.

Definition treasury_standard_reputationScore : idl_typedef :=
  TD_struct [
    ("quality", T_u16); ("timeliness", T_u16); ("availability", T_u16); ("costEfficiency", T_u16); ("honesty", T_u16);
    ("volume", T_u16); ("ewmaAlphaBps", T_u16); ("sampleCount", T_u32); ("lastUpdate", T_i64);
    ("reserved", (T_array T_u8 24%nat))]%string.

Definition treasury_standard_strategyPosition : idl_typedef :=
  TD_struct [
    ("agentDid", (T_array T_u8 32%nat)); ("strategyId", (T_array T_u8 32%nat)); ("vaultMint", T_pubkey);
    ("receiptMint", T_pubkey); ("principalAmount", T_u64); ("receiptAmount", T_u64); ("realizedYieldAmount", T_i64);
    ("lastAccountingSlot", T_u64); ("status", (T_defined "strategyPositionStatus")); ("unwindRequested", T_bool);
    ("createdAt", T_i64); ("updatedAt", T_i64); ("bump", T_u8)]%string.

Definition treasury_standard_strategyPositionStatus : idl_typedef :=
  TD_enum [
    ("active", []); ("unwinding", []); ("closed", [])]%string.

Definition treasury_standard_streamClosed : idl_typedef :=
  TD_struct [
    ("agentDid", (T_array T_u8 32%nat)); ("agentReceipts", T_u64); ("clientRefund", T_u64); ("timestamp", T_i64)]%string.

Definition treasury_standard_streamInitialized : idl_typedef :=
  TD_struct [
    ("agentDid", (T_array T_u8 32%nat)); ("client", T_pubkey); ("payerMint", T_pubkey); ("payoutMint", T_pubkey);
    ("ratePerSec", T_u64); ("maxDuration", T_i64); ("depositTotal", T_u64); ("timestamp", T_i64)]%string.

Definition treasury_standard_streamStatus : idl_typedef :=
  TD_enum [
    ("active", []); ("closed", [])]%string.

Definition treasury_standard_streamWithdrawn : idl_typedef :=
  TD_struct [
    ("agentDid", (T_array T_u8 32%nat)); ("claimable", T_u64); ("swapped", T_bool); ("timestamp", T_i64)]%string.

Definition treasury_standard_swapExecuted : idl_typedef :=
  TD_struct [
    ("agentDid", (T_array T_u8 32%nat)); ("amountIn", T_u64); ("amountOut", T_u64); ("payerMint", T_pubkey);
    ("payoutMint", T_pubkey); ("timestamp", T_i64)]%string.

Definition treasury_standard_treasuryCreated : idl_typedef :=
  TD_struct [
    ("agentDid", (T_array T_u8 32%nat)); ("operator", T_pubkey); ("dailySpendLimit", T_u64); ("perTxLimit", T_u64);
    ("weeklyLimit", T_u64); ("timestamp", T_i64)]%string.

Definition treasury_standard_treasuryFunded : idl_typedef :=
  TD_struct [
    ("agentDid", (T_array T_u8 32%nat)); ("mint", T_pubkey); ("amount", T_u64); ("funder", T_pubkey); ("timestamp", T_i64)]%string.

Definition treasury_standard_treasuryGlobal : idl_typedef :=
  TD_struct [
    ("authority", T_pubkey); ("pendingAuthority", (T_option T_pubkey)); ("agentRegistry", T_pubkey);
    ("jupiterProgram", T_pubkey); ("allowedMints", T_pubkey); ("maxStreamDuration", T_i64); ("defaultDailyLimit", T_u64);
    ("maxDailyLimit", T_u64); ("paused", T_bool); ("bump", T_u8); ("globalCallTargets", (T_vec T_pubkey));
    ("hookAllowlist", T_pubkey)]%string.

Definition treasury_standard_treasuryGlobalInitialized : idl_typedef :=
  TD_struct [
    ("authority", T_pubkey); ("agentRegistry", T_pubkey); ("jupiterProgram", T_pubkey); ("timestamp", T_i64)]%string.

Definition treasury_standard_treasuryWithdraw : idl_typedef :=
  TD_struct [
    ("agentDid", (T_array T_u8 32%nat)); ("mint", T_pubkey); ("amount", T_u64); ("normalizedAmount", T_u64);
    ("destination", T_pubkey); ("timestamp", T_i64)]%string.

Definition treasury_standard_treasuryYieldAccountingRecorded : idl_typedef :=
  TD_struct [
    ("agentDid", (T_array T_u8 32%nat)); ("strategyId", (T_array T_u8 32%nat)); ("idleAmount", T_u64);
    ("deployedAmount", T_u64); ("realizedYieldAmount", T_i64); ("accountingSlot", T_u64); ("status", T_string);
    ("timestamp", T_i64)]%string.

Definition treasury_standard_treasuryYieldConfig : idl_typedef :=
  TD_struct [
    ("agentDid", (T_array T_u8 32%nat)); ("strategyId", (T_array T_u8 32%nat)); ("allocationBps", T_u16);
    ("status", (T_defined "treasuryYieldStatus")); ("unwindRequested", T_bool); ("idleAmount", T_u64);
    ("deployedAmount", T_u64); ("realizedYieldAmount", T_i64); ("lastAccountingSlot", T_u64); ("createdAt", T_i64);
    ("updatedAt", T_i64); ("bump", T_u8)]%string.

Definition treasury_standard_treasuryYieldConfigSet : idl_typedef :=
  TD_struct [
    ("agentDid", (T_array T_u8 32%nat)); ("strategyId", (T_array T_u8 32%nat)); ("allocationBps", T_u16);
    ("status", T_string); ("timestamp", T_i64)]%string.

Definition treasury_standard_treasuryYieldStatus : idl_typedef :=
  TD_enum [
    ("inactive", []); ("active", []); ("paused", []); ("unwinding", [])]%string.

Definition treasury_standard_treasuryYieldUnwindRequested : idl_typedef :=
  TD_struct [
    ("agentDid", (T_array T_u8 32%nat)); ("strategyId", (T_array T_u8 32%nat)); ("timestamp", T_i64)]%string.

Definition treasury_standard_yieldRiskTier : idl_typedef :=
  TD_enum [
    ("conservative", []); ("moderate", []); ("aggressive", [])]%string.

Definition treasury_standard_yieldStrategyDeposit : idl_typedef :=
  TD_struct [
    ("agentDid", (T_array T_u8 32%nat)); ("strategyId", (T_array T_u8 32%nat)); ("vaultMint", T_pubkey);
    ("receiptMint", T_pubkey); ("principalDelta", T_u64); ("receiptDelta", T_u64); ("principalAmount", T_u64);
    ("receiptAmount", T_u64); ("realizedYieldAmount", T_i64); ("deployedAmount", T_u64); ("idleAmount", T_u64);
    ("accountingSlot", T_u64); ("status", T_string); ("timestamp", T_i64)]%string.

Definition treasury_standard_yieldStrategyDescriptor : idl_typedef :=
  TD_struct [
    ("strategyId", (T_array T_u8 32%nat)); ("venue", (T_defined "yieldVenue")); ("strategyProgram", T_pubkey);
    ("underlyingMint", T_pubkey); ("receiptMint", T_pubkey); ("maxAllocationBps", T_u16);
    ("riskTier", (T_defined "yieldRiskTier")); ("status", (T_defined "yieldStrategyStatus")); ("name", T_string);
    ("metadataUri", T_string); ("createdAt", T_i64); ("updatedAt", T_i64); ("bump", T_u8)]%string.

Definition treasury_standard_yieldStrategyEmergencyUnwind : idl_typedef :=
  TD_struct [
    ("agentDid", (T_array T_u8 32%nat)); ("strategyId", (T_array T_u8 32%nat)); ("vaultMint", T_pubkey);
    ("receiptMint", T_pubkey); ("principalReduced", T_u64); ("receiptDelta", T_u64); ("amountReceived", T_u64);
    ("realizedYieldDelta", T_i64); ("principalAmount", T_u64); ("receiptAmount", T_u64); ("realizedYieldAmount", T_i64);
    ("deployedAmount", T_u64); ("idleAmount", T_u64); ("accountingSlot", T_u64); ("status", T_string); ("timestamp", T_i64)]%string.

Definition treasury_standard_yieldStrategyRegistered : idl_typedef :=
  TD_struct [
    ("strategyId", (T_array T_u8 32%nat)); ("venue", T_string); ("strategyProgram", T_pubkey); ("underlyingMint", T_pubkey);
    ("receiptMint", T_pubkey); ("maxAllocationBps", T_u16); ("riskTier", T_string); ("status", T_string);
    ("name", T_string); ("metadataUri", T_string); ("timestamp", T_i64)]%string.

Definition treasury_standard_yieldStrategyStatus : idl_typedef :=
  TD_enum [
    ("active", []); ("paused", []); ("revoked", [])]%string.

Definition treasury_standard_yieldStrategyStatusSet : idl_typedef :=
  TD_struct [("strategyId", (T_array T_u8 32%nat)); ("status", T_string); ("timestamp", T_i64)]%string.

Definition treasury_standard_yieldStrategyWithdraw : idl_typedef :=
  TD_struct [
    ("agentDid", (T_array T_u8 32%nat)); ("strategyId", (T_array T_u8 32%nat)); ("vaultMint", T_pubkey);
    ("receiptMint", T_pubkey); ("principalReduced", T_u64); ("receiptDelta", T_u64); ("amountReceived", T_u64);
    ("realizedYieldDelta", T_i64); ("principalAmount", T_u64); ("receiptAmount", T_u64); ("realizedYieldAmount", T_i64);
    ("deployedAmount", T_u64); ("idleAmount", T_u64); ("accountingSlot", T_u64); ("status", T_string); ("timestamp", T_i64)]%string.

Definition treasury_standard_yieldVenue : idl_typedef :=
  TD_enum [
    ("kamino", []); ("marginfi", []); ("drift", [])]%string.

Definition treasury_standard_types : list (string * idl_typedef) :=
  [("agentAccount", treasury_standard_agentAccount); ("agentMintAllowlist", treasury_standard_agentMintAllowlist);
   ("agentStatus", treasury_standard_agentStatus); ("agentTreasury", treasury_standard_agentTreasury);
   ("allowedCallers", treasury_standard_allowedCallers); ("allowedMintAdded", treasury_standard_allowedMintAdded);
   ("allowedMintRemoved", treasury_standard_allowedMintRemoved); ("allowedMints", treasury_standard_allowedMints);
   ("allowedTargets", treasury_standard_allowedTargets); ("allowedTargetsUpdated", treasury_standard_allowedTargetsUpdated);
   ("guardEntered", treasury_standard_guardEntered); ("limitsUpdated", treasury_standard_limitsUpdated);
   ("mintAllowlist", treasury_standard_mintAllowlist); ("pausedSet", treasury_standard_pausedSet);
   ("paymentStream", treasury_standard_paymentStream); ("pendingSlash", treasury_standard_pendingSlash);
   ("pendingWithdrawal", treasury_standard_pendingWithdrawal); ("personhoodTier", treasury_standard_personhoodTier);
   ("reentrancyGuard", treasury_standard_reentrancyGuard); ("reentrancyRejected", treasury_standard_reentrancyRejected);
   ("registryGlobal", treasury_standard_registryGlobal); ("reputationScore", treasury_standard_reputationScore);
   ("strategyPosition", treasury_standard_strategyPosition);
   ("strategyPositionStatus", treasury_standard_strategyPositionStatus); ("streamClosed", treasury_standard_streamClosed);
   ("streamInitialized", treasury_standard_streamInitialized); ("streamStatus", treasury_standard_streamStatus);
   ("streamWithdrawn", treasury_standard_streamWithdrawn); ("swapExecuted", treasury_standard_swapExecuted);
   ("treasuryCreated", treasury_standard_treasuryCreated); ("treasuryFunded", treasury_standard_treasuryFunded);
   ("treasuryGlobal", treasury_standard_treasuryGlobal);
   ("treasuryGlobalInitialized", treasury_standard_treasuryGlobalInitialized);
   ("treasuryWithdraw", treasury_standard_treasuryWithdraw);
   ("treasuryYieldAccountingRecorded", treasury_standard_treasuryYieldAccountingRecorded);
   ("treasuryYieldConfig", treasury_standard_treasuryYieldConfig);
   ("treasuryYieldConfigSet", treasury_standard_treasuryYieldConfigSet);
   ("treasuryYieldStatus", treasury_standard_treasuryYieldStatus);
   ("treasuryYieldUnwindRequested", treasury_standard_treasuryYieldUnwindRequested);
   ("yieldRiskTier", treasury_standard_yieldRiskTier); ("yieldStrategyDeposit", treasury_standard_yieldStrategyDeposit);
   ("yieldStrategyDescriptor", treasury_standard_yieldStrategyDescriptor);
   ("yieldStrategyEmergencyUnwind", treasury_standard_yieldStrategyEmergencyUnwind);
   ("yieldStrategyRegistered", treasury_standard_yieldStrategyRegistered);
   ("yieldStrategyStatus", treasury_standard_yieldStrategyStatus);
   ("yieldStrategyStatusSet", treasury_standard_yieldStrategyStatusSet);
   ("yieldStrategyWithdraw", treasury_standard_yieldStrategyWithdraw); ("yieldVenue", treasury_standard_yieldVenue)]%string.

Definition treasury_standard_accounts : list (string * list Z) :=
  [
   ("agentTreasury", [129; 97; 0; 63; 102; 222; 200; 166]);
   ("allowedCallers", [91; 102; 165; 7; 58; 35; 153; 85]);
   ("allowedMints", [207; 250; 95; 68; 245; 220; 110; 31]);
   ("allowedTargets", [182; 32; 55; 95; 132; 19; 63; 154]);
   ("paymentStream", [124; 85; 193; 22; 93; 1; 143; 75]);
   ("reentrancyGuard", [207; 227; 141; 11; 194; 21; 193; 32]);
   ("strategyPosition", [39; 177; 202; 35; 88; 177; 104; 129]);
   ("treasuryGlobal", [130; 123; 197; 75; 23; 55; 247; 26]);
   ("treasuryYieldConfig", [38; 100; 169; 32; 57; 53; 107; 165]);
   ("yieldStrategyDescriptor", [236; 129; 244; 4; 212; 134; 29; 104])]%string.

Definition treasury_standard_events : list (string * list Z) :=
  [
   ("allowedMintAdded", [211; 40; 158; 69; 225; 225; 214; 39]);
   ("allowedMintRemoved", [86; 214; 232; 84; 42; 65; 120; 57]);
   ("allowedTargetsUpdated", [166; 99; 157; 120; 2; 218; 94; 172]);
   ("guardEntered", [168; 4; 164; 40; 174; 109; 201; 188]);
   ("limitsUpdated", [160; 131; 108; 76; 91; 80; 118; 137]);
   ("pausedSet", [171; 125; 127; 156; 233; 81; 68; 66]);
   ("reentrancyRejected", [210; 169; 179; 180; 90; 49; 86; 89]);
   ("streamClosed", [14; 206; 32; 10; 248; 82; 169; 234]);
   ("streamInitialized", [165; 148; 216; 67; 105; 214; 199; 173]);
   ("streamWithdrawn", [229; 224; 216; 237; 68; 225; 122; 75]);
   ("swapExecuted", [150; 166; 26; 225; 28; 89; 38; 79]);
   ("treasuryCreated", [190; 59; 58; 105; 76; 234; 21; 199]);
   ("treasuryFunded", [172; 66; 241; 101; 216; 219; 147; 130]);
   ("treasuryGlobalInitialized", [164; 24; 58; 253; 151; 171; 117; 189]);
   ("treasuryWithdraw", [164; 41; 149; 134; 248; 87; 41; 218]);
   ("treasuryYieldAccountingRecorded", [7; 54; 107; 48; 239; 179; 150; 75]);
   ("treasuryYieldConfigSet", [51; 28; 217; 183; 7; 46; 41; 31]);
   ("treasuryYieldUnwindRequested", [96; 246; 94; 99; 23; 201; 182; 0]);
   ("yieldStrategyDeposit", [46; 167; 194; 174; 93; 244; 204; 233]);
   ("yieldStrategyEmergencyUnwind", [144; 58; 181; 141; 60; 188; 214; 238]);
   ("yieldStrategyRegistered", [129; 221; 119; 200; 66; 254; 36; 53]);
   ("yieldStrategyStatusSet", [198; 124; 167; 10; 175; 187; 99; 198]);
   ("yieldStrategyWithdraw", [254; 25; 233; 134; 158; 23; 99; 149])]%string.
