(* ===== verification/IdlInstructions.v ===== *)
(** * IdlInstructions: the instructions of the programs

    Models packages/sdk/src/generated/*.ts: the instructions that Idl leaves out
    because the SDK has no builder for them (administration, migrations, calls
    between programs), and the whole interface of each program.

    The theorems: the first eight bytes of an instruction, an account or an event name
    exactly one of its program; every type an interface mentions is defined in it; every
    seed of an address it derives is an account or an argument of the instruction. *)

From Stdlib Require Import ZArith Ascii Lia.
From stdpp Require Import base list strings.
From S2P Require Import Prelude Idl IdlTypes JsMap.

#[local] Open Scope Z_scope.

(** ** agent registry *)

Definition agent_registry_acceptAuthority : idl_instruction :=
  {| in_name := "acceptAuthority"; in_discriminator := [107; 86; 198; 91; 33; 12; 107; 160];
     in_accounts := [
     account "global" true false false None (Some ([S_const [103; 108; 111; 98; 97; 108]], P_self)) [];
     account "pendingAuthority" false true false None None []];
     in_args := [] |}%string.

Definition agent_registry_adminResetGuard : idl_instruction :=
  {| in_name := "adminResetGuard"; in_discriminator := [191; 217; 54; 48; 119; 178; 160; 238];
     in_accounts := [
     account "global" false false false None (Some ([S_const [103; 108; 111; 98; 97; 108]], P_self)) [];
     account "guard" true false false None (Some ([S_const [103; 117; 97; 114; 100]], P_self)) [];
     account "authority" false true false None None ["global"]];
     in_args := [] |}%string.

Definition agent_registry_attestPersonhood : idl_instruction :=
  {| in_name := "attestPersonhood"; in_discriminator := [56; 197; 168; 156; 217; 134; 153; 198];
     in_accounts := [
     account "global" false false false None (Some ([S_const [103; 108; 111; 98; 97; 108]], P_self)) [];
     account "attestation" true false false None (Some ([S_const [112; 101; 114; 115; 111; 110; 104; 111; 111; 100]; S_account "operator"], P_self)) [];
     account "civicGatewayToken" false false false None None [];
     account "operator" true true false None None [];
     account "systemProgram" false false false (Some "11111111111111111111111111111111") None []];
     in_args := [] |}%string.

Definition agent_registry_cancelSlash : idl_instruction :=
  {| in_name := "cancelSlash"; in_discriminator := [222; 163; 161; 54; 103; 113; 42; 67];
     in_accounts := [
     account "global" false false false None (Some ([S_const [103; 108; 111; 98; 97; 108]], P_self)) [];
     account "agent" true false false None (Some ([S_const [97; 103; 101; 110; 116]; S_field "agent.operator"; S_field "agent.agent_id"], P_self)) [];
     account "authority" false true false None None ["global"]];
     in_args := [] |}%string.

Definition agent_registry_decayAvailability : idl_instruction :=
  {| in_name := "decayAvailability"; in_discriminator := [34; 192; 235; 84; 20; 107; 145; 231];
     in_accounts := [
     account "global" false false false None (Some ([S_const [103; 108; 111; 98; 97; 108]], P_self)) [];
     account "category" true false false None (Some ([S_const [114; 101; 112]; S_arg "agentDid"; S_arg "capabilityBit"], P_self)) []];
     in_args := [("agentDid", (T_array T_u8 32%nat)); ("capabilityBit", T_u16); ("missCount", T_u8)] |}%string.

Definition agent_registry_delegateControl : idl_instruction :=
  {| in_name := "delegateControl"; in_discriminator := [229; 33; 220; 233; 130; 77; 101; 155];
     in_accounts := [
     account "agent" true false false None (Some ([S_const [97; 103; 101; 110; 116]; S_field "agent.operator"; S_field "agent.agent_id"], P_self)) [];
     account "operator" false true false None None ["agent"]];
     in_args := [("delegate", (T_option T_pubkey))] |}%string.

Definition agent_registry_executeSlash : idl_instruction :=
  {| in_name := "executeSlash"; in_discriminator := [15; 240; 38; 73; 175; 55; 88; 55];
     in_accounts := [
     account "global" false false false None (Some ([S_const [103; 108; 111; 98; 97; 108]], P_self)) [];
     account "agent" true false false None (Some ([S_const [97; 103; 101; 110; 116]; S_field "agent.operator"; S_field "agent.agent_id"], P_self)) [];
     account "stakeMint" false false false None None [];
     account "stakeVault" true false false None (Some ([S_const [115; 116; 97; 107; 101]; S_account "agent"], P_self)) [];
     account "slashingTreasury" true false false None None [];
     account "cranker" false true false None None [];
     account "tokenProgram" false false false None None []];
     in_args := [] |}%string.

Definition agent_registry_initGlobal : idl_instruction :=
  {| in_name := "initGlobal"; in_discriminator := [44; 238; 77; 253; 76; 182; 192; 162];
     in_accounts := [
     account "global" true false false None (Some ([S_const [103; 108; 111; 98; 97; 108]], P_self)) [];
     account "stakeMintInfo" false false false None None [];
     account "payer" true true false None None [];
     account "systemProgram" false false false (Some "11111111111111111111111111111111") None []];
     in_args := [("authority", T_pubkey); ("capabilityRegistry", T_pubkey); ("taskMarket", T_pubkey); ("disputeArbitration", T_pubkey); ("slashingTreasury", T_pubkey); ("stakeMint", T_pubkey); ("proofVerifier", T_pubkey); ("minStake", T_u64); ("maxSlashBps", T_u16); ("slashTimelockSecs", T_i64)] |}%string.

Definition agent_registry_initGuard : idl_instruction :=
  {| in_name := "initGuard"; in_discriminator := [80; 108; 68; 230; 253; 134; 39; 155];
     in_accounts := [
     account "global" false false false None (Some ([S_const [103; 108; 111; 98; 97; 108]], P_self)) [];
     account "guard" true false false None (Some ([S_const [103; 117; 97; 114; 100]], P_self)) [];
     account "allowedCallers" true false false None (Some ([S_const [97; 108; 108; 111; 119; 101; 100; 95; 99; 97; 108; 108; 101; 114; 115]], P_self)) [];
     account "authority" true true false None None ["global"];
     account "systemProgram" false false false (Some "11111111111111111111111111111111") None []];
     in_args := [("initialCallers", (T_vec T_pubkey))] |}%string.

Definition agent_registry_proposeGuardReset : idl_instruction :=
  {| in_name := "proposeGuardReset"; in_discriminator := [123; 148; 24; 9; 217; 22; 91; 219];
     in_accounts := [
     account "global" false false false None (Some ([S_const [103; 108; 111; 98; 97; 108]], P_self)) [];
     account "guard" true false false None (Some ([S_const [103; 117; 97; 114; 100]], P_self)) [];
     account "authority" false true false None None ["global"]];
     in_args := [] |}%string.

Definition agent_registry_proposeSlash : idl_instruction :=
  {| in_name := "proposeSlash"; in_discriminator := [198; 144; 128; 49; 72; 78; 74; 118];
     in_accounts := [
     account "global" false false false None (Some ([S_const [103; 108; 111; 98; 97; 108]], P_self)) [];
     account "agent" true false false None (Some ([S_const [97; 103; 101; 110; 116]; S_field "agent.operator"; S_field "agent.agent_id"], P_self)) [];
     account "authority" false true false None None ["global"]];
     in_args := [("amount", T_u64); ("reasonCode", T_u16)] |}%string.

Definition agent_registry_refreshPersonhood : idl_instruction :=
  {| in_name := "refreshPersonhood"; in_discriminator := [225; 40; 189; 150; 68; 40; 143; 165];
     in_accounts := [
     account "global" false false false None (Some ([S_const [103; 108; 111; 98; 97; 108]], P_self)) [];
     account "attestation" true false false None (Some ([S_const [112; 101; 114; 115; 111; 110; 104; 111; 111; 100]; S_account "operator"], P_self)) [];
     account "civicGatewayToken" false false false None None [];
     account "operator" false true false None None []];
     in_args := [] |}%string.

Definition agent_registry_revokePersonhood : idl_instruction :=
  {| in_name := "revokePersonhood"; in_discriminator := [16; 166; 49; 138; 181; 47; 237; 4];
     in_accounts := [
     account "global" false false false None (Some ([S_const [103; 108; 111; 98; 97; 108]], P_self)) [];
     account "attestation" true false false None (Some ([S_const [112; 101; 114; 115; 111; 110; 104; 111; 111; 100]; S_field "attestation.operator"], P_self)) [];
     account "authority" false true false None None ["global"]];
     in_args := [("reasonCode", T_u16)] |}%string.

Definition agent_registry_setAllowedCallers : idl_instruction :=
  {| in_name := "setAllowedCallers"; in_discriminator := [206; 75; 219; 6; 147; 196; 67; 152];
     in_accounts := [
     account "global" false false false None (Some ([S_const [103; 108; 111; 98; 97; 108]], P_self)) [];
     account "allowedCallers" true false false None (Some ([S_const [97; 108; 108; 111; 119; 101; 100; 95; 99; 97; 108; 108; 101; 114; 115]], P_self)) [];
     account "authority" false true false None None ["global"]];
     in_args := [("programs", (T_vec T_pubkey))] |}%string.

Definition agent_registry_setCivicGatewayProgram : idl_instruction :=
  {| in_name := "setCivicGatewayProgram"; in_discriminator := [139; 40; 183; 46; 216; 203; 171; 83];
     in_accounts := [
     account "global" true false false None (Some ([S_const [103; 108; 111; 98; 97; 108]], P_self)) [];
     account "authority" false true false None None ["global"]];
     in_args := [("newCivicGatewayProgram", T_pubkey)] |}%string.

Definition agent_registry_setGatekeeperAllowlist : idl_instruction :=
  {| in_name := "setGatekeeperAllowlist"; in_discriminator := [146; 73; 162; 148; 85; 133; 71; 251];
     in_accounts := [
     account "global" true false false None (Some ([S_const [103; 108; 111; 98; 97; 108]], P_self)) [];
     account "authority" false true false None None ["global"]];
     in_args := [("civicNetworks", (T_vec T_pubkey)); ("sasIssuers", (T_vec T_pubkey)); ("basicMinTier", (T_defined "personhoodTier")); ("requireForRegister", T_bool)] |}%string.

Definition agent_registry_setMaxSlashBps : idl_instruction :=
  {| in_name := "setMaxSlashBps"; in_discriminator := [98; 130; 145; 120; 194; 117; 96; 202];
     in_accounts := [
     account "global" true false false None (Some ([S_const [103; 108; 111; 98; 97; 108]], P_self)) [];
     account "authority" false true false None None ["global"]];
     in_args := [("newMaxSlashBps", T_u16)] |}%string.

Definition agent_registry_setMinStake : idl_instruction :=
  {| in_name := "setMinStake"; in_discriminator := [11; 62; 97; 159; 11; 240; 52; 20];
     in_accounts := [
     account "global" true false false None (Some ([S_const [103; 108; 111; 98; 97; 108]], P_self)) [];
     account "authority" false true false None None ["global"]];
     in_args := [("newMinStake", T_u64)] |}%string.

Definition agent_registry_setPaused : idl_instruction :=
  {| in_name := "setPaused"; in_discriminator := [91; 60; 125; 192; 176; 225; 166; 218];
     in_accounts := [
     account "global" true false false None (Some ([S_const [103; 108; 111; 98; 97; 108]], P_self)) [];
     account "authority" false true false None None ["global"]];
     in_args := [("paused", T_bool)] |}%string.

Definition agent_registry_setProofVerifier : idl_instruction :=
  {| in_name := "setProofVerifier"; in_discriminator := [219; 102; 103; 107; 91; 80; 181; 120];
     in_accounts := [
     account "global" true false false None (Some ([S_const [103; 108; 111; 98; 97; 108]], P_self)) [];
     account "authority" false true false None None ["global"]];
     in_args := [("newProofVerifier", T_pubkey)] |}%string.

Definition agent_registry_setSlashTimelock : idl_instruction :=
  {| in_name := "setSlashTimelock"; in_discriminator := [29; 112; 48; 53; 102; 82; 90; 57];
     in_accounts := [
     account "global" true false false None (Some ([S_const [103; 108; 111; 98; 97; 108]], P_self)) [];
     account "authority" false true false None None ["global"]];
     in_args := [("newTimelockSecs", T_i64)] |}%string.

Definition agent_registry_setStakeMint : idl_instruction :=
  {| in_name := "setStakeMint"; in_discriminator := [98; 90; 126; 218; 121; 228; 110; 87];
     in_accounts := [
     account "global" true false false None (Some ([S_const [103; 108; 111; 98; 97; 108]], P_self)) [];
     account "stakeMintInfo" false false false None None [];
     account "authority" false true false None None ["global"]];
     in_args := [("newStakeMint", T_pubkey)] |}%string.

Definition agent_registry_transferAuthority : idl_instruction :=
  {| in_name := "transferAuthority"; in_discriminator := [48; 169; 76; 72; 229; 180; 55; 161];
     in_accounts := [
     account "global" true false false None (Some ([S_const [103; 108; 111; 98; 97; 108]], P_self)) [];
     account "authority" false true false None None ["global"]];
     in_args := [("newAuthority", T_pubkey)] |}%string.

Definition agent_registry_updateReputation : idl_instruction :=
  {| in_name := "updateReputation"; in_discriminator := [194; 220; 43; 201; 54; 209; 49; 178];
     in_accounts := [
     account "global" false false false None (Some ([S_const [103; 108; 111; 98; 97; 108]], P_self)) [];
     account "agent" false false false None (Some ([S_const [97; 103; 101; 110; 116]; S_field "agent.operator"; S_field "agent.agent_id"], P_self)) [];
     account "category" true false false None (Some ([S_const [114; 101; 112]; S_arg "agentDid"; S_arg "capabilityBit"], P_self)) [];
     account "proofVerifierAuthority" false true false None None [];
     account "payer" true true false None None [];
     account "selfGuard" false false false None (Some ([S_const [103; 117; 97; 114; 100]], P_self)) [];
     account "allowedCallers" false false false None (Some ([S_const [97; 108; 108; 111; 119; 101; 100; 95; 99; 97; 108; 108; 101; 114; 115]], P_self)) [];
     account "callerGuard" false false false None None [];
     account "instructions" false false false (Some "Sysvar1nstructions1111111111111111111111111") None [];
     account "systemProgram" false false false (Some "11111111111111111111111111111111") None []];
     in_args := [("agentDid", (T_array T_u8 32%nat)); ("capabilityBit", T_u16); ("sample", (T_defined "reputationSample")); ("taskId", (T_array T_u8 32%nat)); ("proofKey", (T_array T_u8 32%nat))] |}%string.

Definition agent_registry_instructions : list idl_instruction :=
  [agent_registry_acceptAuthority; agent_registry_adminResetGuard; agent_registry_attestPersonhood;
   agent_registry_cancelSlash; agent_registry_decayAvailability; agent_registry_delegateControl;
   agent_registry_executeSlash; agent_registry_initGlobal; agent_registry_initGuard; agent_registry_proposeGuardReset;
   agent_registry_proposeSlash; agent_registry_refreshPersonhood; agent_registry_registerAgent;
   agent_registry_revokePersonhood; agent_registry_setAllowedCallers; agent_registry_setCivicGatewayProgram;
   agent_registry_setGatekeeperAllowlist; agent_registry_setMaxSlashBps; agent_registry_setMinStake;
   agent_registry_setPaused; agent_registry_setProofVerifier; agent_registry_setSlashTimelock; agent_registry_setStakeMint;
   agent_registry_setStatus; agent_registry_stakeIncrease; agent_registry_stakeWithdrawExecute;
   agent_registry_stakeWithdrawRequest; agent_registry_transferAuthority; agent_registry_updateManifest;
   agent_registry_updateReputation].

(** ** capability registry *)

Definition capability_registry_acceptAuthority : idl_instruction :=
  {| in_name := "acceptAuthority"; in_discriminator := [107; 86; 198; 91; 33; 12; 107; 160];
     in_accounts := [
     account "config" true false false None (Some ([S_const [99; 111; 110; 102; 105; 103]], P_self)) [];
     account "pendingAuthority" false true false None None []];
     in_args := [] |}%string.

Definition capability_registry_initialize : idl_instruction :=
  {| in_name := "initialize"; in_discriminator := [175; 175; 109; 31; 13; 152; 155; 237];
     in_accounts := [
     account "config" true false false None (Some ([S_const [99; 111; 110; 102; 105; 103]], P_self)) [];
     account "payer" true true false None None [];
     account "systemProgram" false false false (Some "11111111111111111111111111111111") None []];
     in_args := [("authority", T_pubkey)] |}%string.

Definition capability_registry_setPaused : idl_instruction :=
  {| in_name := "setPaused"; in_discriminator := [91; 60; 125; 192; 176; 225; 166; 218];
     in_accounts := [
     account "config" true false false None (Some ([S_const [99; 111; 110; 102; 105; 103]], P_self)) [];
     account "authority" false true false None None ["config"]];
     in_args := [("paused", T_bool)] |}%string.

Definition capability_registry_setTagPersonhood : idl_instruction :=
  {| in_name := "setTagPersonhood"; in_discriminator := [175; 150; 246; 11; 176; 36; 59; 134];
     in_accounts := [
     account "config" false false false None (Some ([S_const [99; 111; 110; 102; 105; 103]], P_self)) [];
     account "tag" true false false None None [];
     account "authority" false true false None None ["config"]];
     in_args := [("bitIndex", T_u8); ("minTier", T_u8)] |}%string.

Definition capability_registry_transferAuthority : idl_instruction :=
  {| in_name := "transferAuthority"; in_discriminator := [48; 169; 76; 72; 229; 180; 55; 161];
     in_accounts := [
     account "config" true false false None (Some ([S_const [99; 111; 110; 102; 105; 103]], P_self)) [];
     account "authority" false true false None None ["config"]];
     in_args := [("newAuthority", T_pubkey)] |}%string.

Definition capability_registry_updateManifestUri : idl_instruction :=
  {| in_name := "updateManifestUri"; in_discriminator := [155; 95; 45; 52; 139; 44; 16; 228];
     in_accounts := [
     account "config" false false false None (Some ([S_const [99; 111; 110; 102; 105; 103]], P_self)) [];
     account "tag" true false false None None [];
     account "authority" false true false None None ["config"]];
     in_args := [("bitIndex", T_u8); ("manifestUri", (T_array T_u8 96%nat))] |}%string.

Definition capability_registry_instructions : list idl_instruction :=
  [capability_registry_acceptAuthority; capability_registry_initialize; capability_registry_proposeTag;
   capability_registry_retireTag; capability_registry_setPaused; capability_registry_setTagPersonhood;
   capability_registry_transferAuthority; capability_registry_updateManifestUri; capability_registry_validateMask].

(** ** dispute arbitration *)

Definition dispute_arbitration_adminResetGuard : idl_instruction :=
  {| in_name := "adminResetGuard"; in_discriminator := [191; 217; 54; 48; 119; 178; 160; 238];
     in_accounts := [
     account "config" false false false None (Some ([S_const [100; 105; 115; 112; 117; 116; 101; 95; 99; 111; 110; 102; 105; 103]], P_self)) [];
     account "guard" true false false None (Some ([S_const [103; 117; 97; 114; 100]], P_self)) [];
     account "authority" false true false None None ["config"]];
     in_args := [] |}%string.

Definition dispute_arbitration_beginWithdraw : idl_instruction :=
  {| in_name := "beginWithdraw"; in_discriminator := [194; 165; 222; 75; 204; 184; 171; 58];
     in_accounts := [
     account "config" false false false None (Some ([S_const [100; 105; 115; 112; 117; 116; 101; 95; 99; 111; 110; 102; 105; 103]], P_self)) [];
     account "arbitrator" true false false None (Some ([S_const [97; 114; 98; 105; 116; 114; 97; 116; 111; 114]; S_account "operator"], P_self)) [];
     account "operator" false true false None None ["arbitrator"]];
     in_args := [] |}%string.

Definition dispute_arbitration_cancelSlash : idl_instruction :=
  {| in_name := "cancelSlash"; in_discriminator := [222; 163; 161; 54; 103; 113; 42; 67];
     in_accounts := [
     account "config" false false false None (Some ([S_const [100; 105; 115; 112; 117; 116; 101; 95; 99; 111; 110; 102; 105; 103]], P_self)) [];
     account "arbitrator" true false false None (Some ([S_const [97; 114; 98; 105; 116; 114; 97; 116; 111; 114]; S_field "pending_slash.arbitrator"], P_self)) [];
     account "pendingSlash" true false false None (Some ([S_const [112; 101; 110; 100; 105; 110; 103; 95; 115; 108; 97; 115; 104]; S_field "pending_slash.arbitrator"], P_self)) [];
     account "authority" true true false None None ["config"]];
     in_args := [] |}%string.

Definition dispute_arbitration_cancelStaleVrf : idl_instruction :=
  {| in_name := "cancelStaleVrf"; in_discriminator := [87; 6; 207; 170; 139; 213; 13; 150];
     in_accounts := [
     account "config" false false false None (Some ([S_const [100; 105; 115; 112; 117; 116; 101; 95; 99; 111; 110; 102; 105; 103]], P_self)) [];
     account "disputeCase" true false false None (Some ([S_const [100; 105; 115; 112; 117; 116; 101; 95; 99; 97; 115; 101]; S_field "dispute_case.case_id"], P_self)) [];
     account "cranker" false true false None None []];
     in_args := [] |}%string.

Definition dispute_arbitration_completeWithdraw : idl_instruction :=
  {| in_name := "completeWithdraw"; in_discriminator := [172; 129; 141; 17; 95; 253; 251; 98];
     in_accounts := [
     account "arbitrator" true false false None (Some ([S_const [97; 114; 98; 105; 116; 114; 97; 116; 111; 114]; S_account "operator"], P_self)) [];
     account "operator" true true false None None ["arbitrator"]];
     in_args := [] |}%string.

Definition dispute_arbitration_consumeVrf : idl_instruction :=
  {| in_name := "consumeVrf"; in_discriminator := [147; 13; 167; 195; 209; 51; 78; 64];
     in_accounts := [
     account "config" false false false None (Some ([S_const [100; 105; 115; 112; 117; 116; 101; 95; 99; 111; 110; 102; 105; 103]], P_self)) [];
     account "disputeCase" true false false None (Some ([S_const [100; 105; 115; 112; 117; 116; 101; 95; 99; 97; 115; 101]; S_field "dispute_case.case_id"], P_self)) [];
     account "pool" false false false None (Some ([S_const [100; 105; 115; 112; 117; 116; 101; 95; 112; 111; 111; 108]], P_self)) [];
     account "authority" false true false None None ["config"]];
     in_args := [("vrfResult", (T_array T_u8 32%nat))] |}%string.

Definition dispute_arbitration_executeSlash : idl_instruction :=
  {| in_name := "executeSlash"; in_discriminator := [15; 240; 38; 73; 175; 55; 88; 55];
     in_accounts := [
     account "config" false false false None (Some ([S_const [100; 105; 115; 112; 117; 116; 101; 95; 99; 111; 110; 102; 105; 103]], P_self)) [];
     account "arbitrator" true false false None (Some ([S_const [97; 114; 98; 105; 116; 114; 97; 116; 111; 114]; S_field "pending_slash.arbitrator"], P_self)) [];
     account "pendingSlash" true false false None (Some ([S_const [112; 101; 110; 100; 105; 110; 103; 95; 115; 108; 97; 115; 104]; S_field "pending_slash.arbitrator"], P_self)) [];
     account "cranker" true true false None None []];
     in_args := [] |}%string.

Definition dispute_arbitration_initGuard : idl_instruction :=
  {| in_name := "initGuard"; in_discriminator := [80; 108; 68; 230; 253; 134; 39; 155];
     in_accounts := [
     account "config" false false false None (Some ([S_const [100; 105; 115; 112; 117; 116; 101; 95; 99; 111; 110; 102; 105; 103]], P_self)) [];
     account "guard" true false false None (Some ([S_const [103; 117; 97; 114; 100]], P_self)) [];
     account "allowedCallers" true false false None (Some ([S_const [97; 108; 108; 111; 119; 101; 100; 95; 99; 97; 108; 108; 101; 114; 115]], P_self)) [];
     account "authority" true true false None None ["config"];
     account "systemProgram" false false false (Some "11111111111111111111111111111111") None []];
     in_args := [("initialCallers", (T_vec T_pubkey))] |}%string.

Definition dispute_arbitration_initialize : idl_instruction :=
  {| in_name := "initialize"; in_discriminator := [175; 175; 109; 31; 13; 152; 155; 237];
     in_accounts := [
     account "config" true false false None (Some ([S_const [100; 105; 115; 112; 117; 116; 101; 95; 99; 111; 110; 102; 105; 103]], P_self)) [];
     account "payer" true true false None None [];
     account "systemProgram" false false false (Some "11111111111111111111111111111111") None []];
     in_args := [("params", (T_defined "initConfigParams"))] |}%string.

Definition dispute_arbitration_proposeGuardReset : idl_instruction :=
  {| in_name := "proposeGuardReset"; in_discriminator := [123; 148; 24; 9; 217; 22; 91; 219];
     in_accounts := [
     account "config" false false false None (Some ([S_const [100; 105; 115; 112; 117; 116; 101; 95; 99; 111; 110; 102; 105; 103]], P_self)) [];
     account "guard" true false false None (Some ([S_const [103; 117; 97; 114; 100]], P_self)) [];
     account "authority" false true false None None ["config"]];
     in_args := [] |}%string.

Definition dispute_arbitration_refreshStake : idl_instruction :=
  {| in_name := "refreshStake"; in_discriminator := [194; 123; 40; 247; 37; 237; 119; 119];
     in_accounts := [
     account "config" false false false None (Some ([S_const [100; 105; 115; 112; 117; 116; 101; 95; 99; 111; 110; 102; 105; 103]], P_self)) [];
     account "arbitrator" true false false None (Some ([S_const [97; 114; 98; 105; 116; 114; 97; 116; 111; 114]; S_account "operator"], P_self)) [];
     account "stakeAccount" false false false None None [];
     account "operator" false true false None None ["arbitrator"]];
     in_args := [("newStake", T_u64); ("newLockEnd", T_i64)] |}%string.

Definition dispute_arbitration_setAllowedCallers : idl_instruction :=
  {| in_name := "setAllowedCallers"; in_discriminator := [206; 75; 219; 6; 147; 196; 67; 152];
     in_accounts := [
     account "config" false false false None (Some ([S_const [100; 105; 115; 112; 117; 116; 101; 95; 99; 111; 110; 102; 105; 103]], P_self)) [];
     account "allowedCallers" true false false None (Some ([S_const [97; 108; 108; 111; 119; 101; 100; 95; 99; 97; 108; 108; 101; 114; 115]], P_self)) [];
     account "authority" false true false None None ["config"]];
     in_args := [("programs", (T_vec T_pubkey))] |}%string.

Definition dispute_arbitration_setParams : idl_instruction :=
  {| in_name := "setParams"; in_discriminator := [27; 234; 178; 52; 147; 2; 187; 141];
     in_accounts := [
     account "config" true false false None (Some ([S_const [100; 105; 115; 112; 117; 116; 101; 95; 99; 111; 110; 102; 105; 103]], P_self)) [];
     account "authority" false true false None None ["config"]];
     in_args := [("input", (T_defined "updateParamsInput"))] |}%string.

Definition dispute_arbitration_setPaused : idl_instruction :=
  {| in_name := "setPaused"; in_discriminator := [91; 60; 125; 192; 176; 225; 166; 218];
     in_accounts := [
     account "config" true false false None (Some ([S_const [100; 105; 115; 112; 117; 116; 101; 95; 99; 111; 110; 102; 105; 103]], P_self)) [];
     account "authority" false true false None None []];
     in_args := [("paused", T_bool)] |}%string.

Definition dispute_arbitration_snapshotPool : idl_instruction :=
  {| in_name := "snapshotPool"; in_discriminator := [117; 201; 126; 48; 223; 232; 125; 78];
     in_accounts := [
     account "config" false false false None (Some ([S_const [100; 105; 115; 112; 117; 116; 101; 95; 99; 111; 110; 102; 105; 103]], P_self)) [];
     account "pool" true false false None (Some ([S_const [100; 105; 115; 112; 117; 116; 101; 95; 112; 111; 111; 108]], P_self)) [];
     account "authority" true true false None None ["config"];
     account "systemProgram" false false false (Some "11111111111111111111111111111111") None []];
     in_args := [("arbitrators", (T_vec T_pubkey)); ("stakes", (T_vec T_u64))] |}%string.

Definition dispute_arbitration_instructions : list idl_instruction :=
  [dispute_arbitration_adminResetGuard; dispute_arbitration_beginWithdraw; dispute_arbitration_cancelSlash;
   dispute_arbitration_cancelStaleVrf; dispute_arbitration_commitVote; dispute_arbitration_completeWithdraw;
   dispute_arbitration_consumeVrf; dispute_arbitration_escalateAppeal; dispute_arbitration_executeSlash;
   dispute_arbitration_initGuard; dispute_arbitration_initialize; dispute_arbitration_proposeGuardReset;
   dispute_arbitration_raiseDispute; dispute_arbitration_refreshStake; dispute_arbitration_registerArbitrator;
   dispute_arbitration_resolveDispute; dispute_arbitration_revealVote; dispute_arbitration_setAllowedCallers;
   dispute_arbitration_setParams; dispute_arbitration_setPaused; dispute_arbitration_slashArbitrator;
   dispute_arbitration_snapshotPool; dispute_arbitration_tallyRound].

(** ** fee collector *)

Definition fee_collector_acceptMintAllowlistAuthority : idl_instruction :=
  {| in_name := "acceptMintAllowlistAuthority"; in_discriminator := [83; 119; 16; 94; 114; 8; 56; 246];
     in_accounts := [
     account "allowlist" true false false None (Some ([S_const [104; 111; 111; 107; 95; 97; 108; 108; 111; 119; 108; 105; 115; 116]], P_self)) [];
     account "pendingAuthority" false true false None None []];
     in_args := [] |}%string.

Definition fee_collector_adminResetGuard : idl_instruction :=
  {| in_name := "adminResetGuard"; in_discriminator := [191; 217; 54; 48; 119; 178; 160; 238];
     in_accounts := [
     account "allowlist" false false false None (Some ([S_const [104; 111; 111; 107; 95; 97; 108; 108; 111; 119; 108; 105; 115; 116]], P_self)) [];
     account "guard" true false false None (Some ([S_const [103; 117; 97; 114; 100]], P_self)) [];
     account "authority" false true false None None ["allowlist"]];
     in_args := [] |}%string.

Definition fee_collector_initAgentMintAllowlist : idl_instruction :=
  {| in_name := "initAgentMintAllowlist"; in_discriminator := [105; 58; 176; 50; 240; 1; 62; 58];
     in_accounts := [
     account "global" false false false None (Some ([S_const [104; 111; 111; 107; 95; 97; 108; 108; 111; 119; 108; 105; 115; 116]], P_self)) [];
     account "agent" true false false None (Some ([S_const [97; 103; 101; 110; 116; 95; 104; 111; 111; 107; 115]; S_arg "agentDid"], P_self)) [];
     account "authority" false true false None None ["global"];
     account "payer" true true false None None [];
     account "systemProgram" false false false (Some "11111111111111111111111111111111") None []];
     in_args := [("agentDid", (T_array T_u8 32%nat))] |}%string.

Definition fee_collector_initConfig : idl_instruction :=
  {| in_name := "initConfig"; in_discriminator := [23; 235; 115; 232; 168; 96; 1; 231];
     in_accounts := [
     account "config" true false false None (Some ([S_const [102; 101; 101; 95; 99; 111; 110; 102; 105; 103]], P_self)) [];
     account "epochZero" true false false None (Some ([S_const [101; 112; 111; 99; 104]; S_const [0; 0; 0; 0; 0; 0; 0; 0]], P_self)) [];
     account "deployer" true true false None None [];
     account "systemProgram" false false false (Some "11111111111111111111111111111111") None []];
     in_args := [("params", (T_defined "initConfigParams"))] |}%string.

Definition fee_collector_initGuard : idl_instruction :=
  {| in_name := "initGuard"; in_discriminator := [80; 108; 68; 230; 253; 134; 39; 155];
     in_accounts := [
     account "allowlist" false false false None (Some ([S_const [104; 111; 111; 107; 95; 97; 108; 108; 111; 119; 108; 105; 115; 116]], P_self)) [];
     account "guard" true false false None (Some ([S_const [103; 117; 97; 114; 100]], P_self)) [];
     account "allowedCallers" true false false None (Some ([S_const [97; 108; 108; 111; 119; 101; 100; 95; 99; 97; 108; 108; 101; 114; 115]], P_self)) [];
     account "authority" true true false None None ["allowlist"];
     account "systemProgram" false false false (Some "11111111111111111111111111111111") None []];
     in_args := [("initialCallers", (T_vec T_pubkey))] |}%string.

Definition fee_collector_initMintAllowlist : idl_instruction :=
  {| in_name := "initMintAllowlist"; in_discriminator := [17; 183; 106; 209; 234; 14; 0; 253];
     in_accounts := [
     account "allowlist" true false false None (Some ([S_const [104; 111; 111; 107; 95; 97; 108; 108; 111; 119; 108; 105; 115; 116]], P_self)) [];
     account "payer" true true false None None [];
     account "authority" false false false None None [];
     account "systemProgram" false false false (Some "11111111111111111111111111111111") None []];
     in_args := [("defaultDeny", T_bool)] |}%string.

Definition fee_collector_proposeGuardReset : idl_instruction :=
  {| in_name := "proposeGuardReset"; in_discriminator := [123; 148; 24; 9; 217; 22; 91; 219];
     in_accounts := [
     account "allowlist" false false false None (Some ([S_const [104; 111; 111; 107; 95; 97; 108; 108; 111; 119; 108; 105; 115; 116]], P_self)) [];
     account "guard" true false false None (Some ([S_const [103; 117; 97; 114; 100]], P_self)) [];
     account "authority" false true false None None ["allowlist"]];
     in_args := [] |}%string.

Definition fee_collector_recordCollateralForfeit : idl_instruction :=
  {| in_name := "recordCollateralForfeit"; in_discriminator := [22; 30; 71; 211; 142; 173; 126; 155];
     in_accounts := [
     account "config" false false false None (Some ([S_const [102; 101; 101; 95; 99; 111; 110; 102; 105; 103]], P_self)) [];
     account "currentEpoch" true false false None (Some ([S_const [101; 112; 111; 99; 104]; S_field "current_epoch.epoch_id"], P_self)) [];
     account "callerProgram" false true false None None []];
     in_args := [("amount", T_u64)] |}%string.

Definition fee_collector_recordSlashReceipt : idl_instruction :=
  {| in_name := "recordSlashReceipt"; in_discriminator := [70; 33; 26; 61; 28; 85; 239; 183];
     in_accounts := [
     account "config" false false false None (Some ([S_const [102; 101; 101; 95; 99; 111; 110; 102; 105; 103]], P_self)) [];
     account "currentEpoch" true false false None (Some ([S_const [101; 112; 111; 99; 104]; S_field "current_epoch.epoch_id"], P_self)) [];
     account "callerProgram" false true false None None []];
     in_args := [("amount", T_u64)] |}%string.

Definition fee_collector_setAllowedCallers : idl_instruction :=
  {| in_name := "setAllowedCallers"; in_discriminator := [206; 75; 219; 6; 147; 196; 67; 152];
     in_accounts := [
     account "allowlist" false false false None (Some ([S_const [104; 111; 111; 107; 95; 97; 108; 108; 111; 119; 108; 105; 115; 116]], P_self)) [];
     account "allowedCallers" true false false None (Some ([S_const [97; 108; 108; 111; 119; 101; 100; 95; 99; 97; 108; 108; 101; 114; 115]], P_self)) [];
     account "authority" false true false None None ["allowlist"]];
     in_args := [("programs", (T_vec T_pubkey))] |}%string.

Definition fee_collector_setDefaultDeny : idl_instruction :=
  {| in_name := "setDefaultDeny"; in_discriminator := [81; 107; 154; 245; 11; 13; 253; 216];
     in_accounts := [
     account "allowlist" true false false None (Some ([S_const [104; 111; 111; 107; 95; 97; 108; 108; 111; 119; 108; 105; 115; 116]], P_self)) [];
     account "authority" false true false None None ["allowlist"]];
     in_args := [("defaultDeny", T_bool)] |}%string.

Definition fee_collector_setDistributionParams : idl_instruction :=
  {| in_name := "setDistributionParams"; in_discriminator := [139; 153; 98; 199; 230; 5; 186; 224];
     in_accounts := [
     account "config" true false false None (Some ([S_const [102; 101; 101; 95; 99; 111; 110; 102; 105; 103]], P_self)) [];
     account "authority" false true false None None []];
     in_args := [("burnBps", T_u16); ("stakerShareBps", T_u16); ("grantShareBps", T_u16); ("treasuryShareBps", T_u16)] |}%string.

Definition fee_collector_setPaused : idl_instruction :=
  {| in_name := "setPaused"; in_discriminator := [91; 60; 125; 192; 176; 225; 166; 218];
     in_accounts := [
     account "config" true false false None (Some ([S_const [102; 101; 101; 95; 99; 111; 110; 102; 105; 103]], P_self)) [];
     account "authority" false true false None None []];
     in_args := [("paused", T_bool)] |}%string.

Definition fee_collector_sweepStaleEpoch : idl_instruction :=
  {| in_name := "sweepStaleEpoch"; in_discriminator := [86; 109; 152; 218; 91; 243; 19; 187];
     in_accounts := [
     account "config" false false false None (Some ([S_const [102; 101; 101; 95; 99; 111; 110; 102; 105; 103]], P_self)) [];
     account "epoch" true false false None (Some ([S_const [101; 112; 111; 99; 104]; S_arg "epochId"], P_self)) [];
     account "nextEpoch" true false false None None [];
     account "saepMint" false false false None None [];
     account "stakerVault" true false false None (Some ([S_const [115; 116; 97; 107; 101; 114; 95; 118; 97; 117; 108; 116]], P_self)) [];
     account "burnVault" true false false None (Some ([S_const [98; 117; 114; 110; 95; 118; 97; 117; 108; 116]], P_self)) [];
     account "intakeVault" true false false None (Some ([S_const [105; 110; 116; 97; 107; 101; 95; 118; 97; 117; 108; 116]], P_self)) [];
     account "cranker" false true false None None [];
     account "tokenProgram" false false false None None []];
     in_args := [("epochId", T_u64)] |}%string.

Definition fee_collector_transferMintAllowlistAuthority : idl_instruction :=
  {| in_name := "transferMintAllowlistAuthority"; in_discriminator := [185; 217; 70; 47; 192; 177; 67; 121];
     in_accounts := [
     account "allowlist" true false false None (Some ([S_const [104; 111; 111; 107; 95; 97; 108; 108; 111; 119; 108; 105; 115; 116]], P_self)) [];
     account "authority" false true false None None ["allowlist"]];
     in_args := [("newAuthority", T_pubkey)] |}%string.

Definition fee_collector_updateAgentMintAllowlist : idl_instruction :=
  {| in_name := "updateAgentMintAllowlist"; in_discriminator := [164; 164; 230; 227; 45; 92; 88; 206];
     in_accounts := [
     account "global" false false false None (Some ([S_const [104; 111; 111; 107; 95; 97; 108; 108; 111; 119; 108; 105; 115; 116]], P_self)) [];
     account "agent" true false false None (Some ([S_const [97; 103; 101; 110; 116; 95; 104; 111; 111; 107; 115]; S_field "agent.agent_did"], P_self)) [];
     account "authority" false true false None None ["global"]];
     in_args := [("add", (T_vec T_pubkey)); ("remove", (T_vec T_pubkey))] |}%string.

Definition fee_collector_updateMintAllowlist : idl_instruction :=
  {| in_name := "updateMintAllowlist"; in_discriminator := [170; 125; 146; 149; 76; 152; 190; 24];
     in_accounts := [
     account "allowlist" true false false None (Some ([S_const [104; 111; 111; 107; 95; 97; 108; 108; 111; 119; 108; 105; 115; 116]], P_self)) [];
     account "authority" false true false None None ["allowlist"]];
     in_args := [("add", (T_vec T_pubkey)); ("remove", (T_vec T_pubkey))] |}%string.

Definition fee_collector_instructions : list idl_instruction :=
  [fee_collector_acceptMintAllowlistAuthority; fee_collector_adminResetGuard; fee_collector_claimStaker;
   fee_collector_commitDistributionRoot; fee_collector_depositSaep; fee_collector_executeBurn;
   fee_collector_harvestConfidentialFees; fee_collector_harvestTransferFees; fee_collector_initAgentMintAllowlist;
   fee_collector_initConfig; fee_collector_initGuard; fee_collector_initMintAllowlist; fee_collector_processEpoch;
   fee_collector_proposeGuardReset; fee_collector_recordCollateralForfeit; fee_collector_recordSlashReceipt;
   fee_collector_setAllowedCallers; fee_collector_setConfidentialTransfers; fee_collector_setDefaultDeny;
   fee_collector_setDistributionParams; fee_collector_setPaused; fee_collector_sweepStaleEpoch;
   fee_collector_transferMintAllowlistAuthority; fee_collector_updateAgentMintAllowlist; fee_collector_updateMintAllowlist;
   fee_collector_withdrawSaep].

(** ** governance program *)

Definition governance_program_initConfig : idl_instruction :=
  {| in_name := "initConfig"; in_discriminator := [23; 235; 115; 232; 168; 96; 1; 231];
     in_accounts := [
     account "config" true false false None (Some ([S_const [103; 111; 118; 101; 114; 110; 97; 110; 99; 101; 95; 99; 111; 110; 102; 105; 103]], P_self)) [];
     account "registry" true false false None (Some ([S_const [112; 114; 111; 103; 114; 97; 109; 95; 114; 101; 103; 105; 115; 116; 114; 121]], P_self)) [];
     account "deployer" true true false None None [];
     account "systemProgram" false false false (Some "11111111111111111111111111111111") None []];
     in_args := [("params", (T_defined "initConfigParams"))] |}%string.

Definition governance_program_registerProgram : idl_instruction :=
  {| in_name := "registerProgram"; in_discriminator := [104; 9; 166; 5; 200; 228; 112; 131];
     in_accounts := [
     account "config" false false false None (Some ([S_const [103; 111; 118; 101; 114; 110; 97; 110; 99; 101; 95; 99; 111; 110; 102; 105; 103]], P_self)) [];
     account "registry" true false false None (Some ([S_const [112; 114; 111; 103; 114; 97; 109; 95; 114; 101; 103; 105; 115; 116; 114; 121]], P_self)) [];
     account "authority" false true false None None ["config"]];
     in_args := [("label", (T_array T_u8 16%nat)); ("programId", T_pubkey); ("isCritical", T_bool); ("paramAuthoritySeed", (T_array T_u8 32%nat)); ("maxParamPayloadBytes", T_u16)] |}%string.

Definition governance_program_setPaused : idl_instruction :=
  {| in_name := "setPaused"; in_discriminator := [91; 60; 125; 192; 176; 225; 166; 218];
     in_accounts := [
     account "config" true false false None (Some ([S_const [103; 111; 118; 101; 114; 110; 97; 110; 99; 101; 95; 99; 111; 110; 102; 105; 103]], P_self)) [];
     account "authority" false true false None None []];
     in_args := [("paused", T_bool)] |}%string.

Definition governance_program_instructions : list idl_instruction :=
  [governance_program_executeProposal; governance_program_expireProposal; governance_program_finalizeVote;
   governance_program_initConfig; governance_program_propose; governance_program_proposerCancel;
   governance_program_queueExecution; governance_program_registerProgram; governance_program_setPaused;
   governance_program_vote].

(** ** nxs staking *)

Definition nxs_staking_adminResetGuard : idl_instruction :=
  {| in_name := "adminResetGuard"; in_discriminator := [191; 217; 54; 48; 119; 178; 160; 238];
     in_accounts := [
     account "config" false false false None (Some ([S_const [115; 116; 97; 107; 105; 110; 103; 95; 99; 111; 110; 102; 105; 103]], P_self)) [];
     account "guard" true false false None (Some ([S_const [103; 117; 97; 114; 100]], P_self)) [];
     account "authority" false true false None None ["config"]];
     in_args := [] |}%string.

Definition nxs_staking_closePool : idl_instruction :=
  {| in_name := "closePool"; in_discriminator := [140; 189; 209; 23; 239; 62; 239; 11];
     in_accounts := [
     account "pool" true false false None (Some ([S_const [115; 116; 97; 107; 105; 110; 103; 95; 112; 111; 111; 108]], P_self)) [];
     account "authority" false true false None None ["pool"]];
     in_args := [] |}%string.

Definition nxs_staking_freezeDeposits : idl_instruction :=
  {| in_name := "freezeDeposits"; in_discriminator := [247; 191; 178; 18; 206; 243; 133; 118];
     in_accounts := [
     account "pool" true false false None (Some ([S_const [115; 116; 97; 107; 105; 110; 103; 95; 112; 111; 111; 108]], P_self)) [];
     account "authority" false true false None None ["pool"]];
     in_args := [] |}%string.

Definition nxs_staking_initGuard : idl_instruction :=
  {| in_name := "initGuard"; in_discriminator := [80; 108; 68; 230; 253; 134; 39; 155];
     in_accounts := [
     account "config" false false false None (Some ([S_const [115; 116; 97; 107; 105; 110; 103; 95; 99; 111; 110; 102; 105; 103]], P_self)) [];
     account "guard" true false false None (Some ([S_const [103; 117; 97; 114; 100]], P_self)) [];
     account "allowedCallers" true false false None (Some ([S_const [97; 108; 108; 111; 119; 101; 100; 95; 99; 97; 108; 108; 101; 114; 115]], P_self)) [];
     account "authority" true true false None None ["config"];
     account "systemProgram" false false false (Some "11111111111111111111111111111111") None []];
     in_args := [("initialCallers", (T_vec T_pubkey))] |}%string.

Definition nxs_staking_initPool : idl_instruction :=
  {| in_name := "initPool"; in_discriminator := [116; 233; 199; 204; 115; 159; 171; 36];
     in_accounts := [
     account "config" false false false None (Some ([S_const [115; 116; 97; 107; 105; 110; 103; 95; 99; 111; 110; 102; 105; 103]], P_self)) [];
     account "pool" true false false None (Some ([S_const [115; 116; 97; 107; 105; 110; 103; 95; 112; 111; 111; 108]], P_self)) [];
     account "authority" true true false None None ["config"];
     account "systemProgram" false false false (Some "11111111111111111111111111111111") None []];
     in_args := [("stakeMint", T_pubkey); ("epochDurationSecs", T_i64); ("rewardRatePerEpoch", T_u64)] |}%string.

Definition nxs_staking_initialize : idl_instruction :=
  {| in_name := "initialize"; in_discriminator := [175; 175; 109; 31; 13; 152; 155; 237];
     in_accounts := [
     account "config" true false false None (Some ([S_const [115; 116; 97; 107; 105; 110; 103; 95; 99; 111; 110; 102; 105; 103]], P_self)) [];
     account "payer" true true false None None [];
     account "systemProgram" false false false (Some "11111111111111111111111111111111") None []];
     in_args := [("authority", T_pubkey)] |}%string.

Definition nxs_staking_migrateApyAuthority : idl_instruction :=
  {| in_name := "migrateApyAuthority"; in_discriminator := [104; 167; 17; 46; 40; 86; 154; 16];
     in_accounts := [
     account "config" false false false None (Some ([S_const [115; 116; 97; 107; 105; 110; 103; 95; 99; 111; 110; 102; 105; 103]], P_self)) [];
     account "authority" false true false None None ["config"]];
     in_args := [("oldMint", T_pubkey); ("newMint", T_pubkey)] |}%string.

Definition nxs_staking_proposeGuardReset : idl_instruction :=
  {| in_name := "proposeGuardReset"; in_discriminator := [123; 148; 24; 9; 217; 22; 91; 219];
     in_accounts := [
     account "config" false false false None (Some ([S_const [115; 116; 97; 107; 105; 110; 103; 95; 99; 111; 110; 102; 105; 103]], P_self)) [];
     account "guard" true false false None (Some ([S_const [103; 117; 97; 114; 100]], P_self)) [];
     account "authority" false true false None None ["config"]];
     in_args := [] |}%string.

Definition nxs_staking_setAllowedCallers : idl_instruction :=
  {| in_name := "setAllowedCallers"; in_discriminator := [206; 75; 219; 6; 147; 196; 67; 152];
     in_accounts := [
     account "config" false false false None (Some ([S_const [115; 116; 97; 107; 105; 110; 103; 95; 99; 111; 110; 102; 105; 103]], P_self)) [];
     account "allowedCallers" true false false None (Some ([S_const [97; 108; 108; 111; 119; 101; 100; 95; 99; 97; 108; 108; 101; 114; 115]], P_self)) [];
     account "authority" false true false None None ["config"]];
     in_args := [("programs", (T_vec T_pubkey))] |}%string.

Definition nxs_staking_unfreezeDeposits : idl_instruction :=
  {| in_name := "unfreezeDeposits"; in_discriminator := [49; 219; 228; 140; 125; 105; 54; 1];
     in_accounts := [
     account "pool" true false false None (Some ([S_const [115; 116; 97; 107; 105; 110; 103; 95; 112; 111; 111; 108]], P_self)) [];
     account "authority" false true false None None ["pool"]];
     in_args := [] |}%string.

Definition nxs_staking_instructions : list idl_instruction :=
  [nxs_staking_adminResetGuard; nxs_staking_beginUnstake; nxs_staking_closePool; nxs_staking_freezeDeposits;
   nxs_staking_initGuard; nxs_staking_initPool; nxs_staking_initialize; nxs_staking_migrateApyAuthority;
   nxs_staking_proposeGuardReset; nxs_staking_setAllowedCallers; nxs_staking_snapshotEpoch; nxs_staking_stake;
   nxs_staking_unfreezeDeposits; nxs_staking_withdraw].

(** ** proof verifier *)

Definition proof_verifier_abortBatch : idl_instruction :=
  {| in_name := "abortBatch"; in_discriminator := [57; 46; 251; 27; 67; 79; 55; 211];
     in_accounts := [
     account "cranker" true true false None None ["batch"];
     account "batch" true false false None None []];
     in_args := [] |}%string.

Definition proof_verifier_acceptAuthority : idl_instruction :=
  {| in_name := "acceptAuthority"; in_discriminator := [107; 86; 198; 91; 33; 12; 107; 160];
     in_accounts := [
     account "config" true false false None (Some ([S_const [118; 101; 114; 105; 102; 105; 101; 114; 95; 99; 111; 110; 102; 105; 103]], P_self)) [];
     account "pendingAuthority" false true false None None []];
     in_args := [] |}%string.

Definition proof_verifier_addBatchProof : idl_instruction :=
  {| in_name := "addBatchProof"; in_discriminator := [203; 191; 192; 8; 77; 92; 113; 198];
     in_accounts := [
     account "cranker" false true false None None ["batch"];
     account "batch" true false false None None [];
     account "config" false false false None (Some ([S_const [118; 101; 114; 105; 102; 105; 101; 114; 95; 99; 111; 110; 102; 105; 103]], P_self)) [];
     account "vk" false false false None (Some ([S_const [118; 107]; S_field "vk.vk_id"], P_self)) [];
     account "mode" false false false None (Some ([S_const [109; 111; 100; 101]], P_self)) []];
     in_args := [("proofA", (T_array T_u8 64%nat)); ("proofB", (T_array T_u8 128%nat)); ("proofC", (T_array T_u8 64%nat)); ("publicInputs", (T_vec (T_array T_u8 32%nat)))] |}%string.

Definition proof_verifier_adminResetGuard : idl_instruction :=
  {| in_name := "adminResetGuard"; in_discriminator := [191; 217; 54; 48; 119; 178; 160; 238];
     in_accounts := [
     account "config" false false false None (Some ([S_const [118; 101; 114; 105; 102; 105; 101; 114; 95; 99; 111; 110; 102; 105; 103]], P_self)) [];
     account "guard" true false false None (Some ([S_const [103; 117; 97; 114; 100]], P_self)) [];
     account "authority" false true false None None ["config"]];
     in_args := [] |}%string.

Definition proof_verifier_appendVkIc : idl_instruction :=
  {| in_name := "appendVkIc"; in_discriminator := [79; 17; 2; 173; 71; 133; 96; 148];
     in_accounts := [
     account "config" false false false None (Some ([S_const [118; 101; 114; 105; 102; 105; 101; 114; 95; 99; 111; 110; 102; 105; 103]], P_self)) [];
     account "vk" true false false None (Some ([S_const [118; 107]; S_field "vk.vk_id"], P_self)) [];
     account "authority" false true false None None ["config"]];
     in_args := [("icPoints", (T_vec (T_array T_u8 64%nat))); ("finalize", T_bool)] |}%string.

Definition proof_verifier_cancelVkActivation : idl_instruction :=
  {| in_name := "cancelVkActivation"; in_discriminator := [16; 60; 214; 63; 223; 81; 171; 232];
     in_accounts := [
     account "config" true false false None (Some ([S_const [118; 101; 114; 105; 102; 105; 101; 114; 95; 99; 111; 110; 102; 105; 103]], P_self)) [];
     account "authority" false true false None None ["config"]];
     in_args := [] |}%string.

Definition proof_verifier_finalizeBatch : idl_instruction :=
  {| in_name := "finalizeBatch"; in_discriminator := [255; 211; 130; 81; 161; 239; 27; 11];
     in_accounts := [
     account "cranker" true true false None None ["batch"];
     account "batch" true false false None None [];
     account "config" false false false None (Some ([S_const [118; 101; 114; 105; 102; 105; 101; 114; 95; 99; 111; 110; 102; 105; 103]], P_self)) [];
     account "vk" false false false None (Some ([S_const [118; 107]; S_field "vk.vk_id"], P_self)) []];
     in_args := [] |}%string.

Definition proof_verifier_initConfig : idl_instruction :=
  {| in_name := "initConfig"; in_discriminator := [23; 235; 115; 232; 168; 96; 1; 231];
     in_accounts := [
     account "config" true false false None (Some ([S_const [118; 101; 114; 105; 102; 105; 101; 114; 95; 99; 111; 110; 102; 105; 103]], P_self)) [];
     account "mode" true false false None (Some ([S_const [109; 111; 100; 101]], P_self)) [];
     account "payer" true true false None None [];
     account "systemProgram" false false false (Some "11111111111111111111111111111111") None []];
     in_args := [("authority", T_pubkey); ("isMainnet", T_bool)] |}%string.

Definition proof_verifier_initGuard : idl_instruction :=
  {| in_name := "initGuard"; in_discriminator := [80; 108; 68; 230; 253; 134; 39; 155];
     in_accounts := [
     account "config" false false false None (Some ([S_const [118; 101; 114; 105; 102; 105; 101; 114; 95; 99; 111; 110; 102; 105; 103]], P_self)) [];
     account "guard" true false false None (Some ([S_const [103; 117; 97; 114; 100]], P_self)) [];
     account "allowedCallers" true false false None (Some ([S_const [97; 108; 108; 111; 119; 101; 100; 95; 99; 97; 108; 108; 101; 114; 115]], P_self)) [];
     account "authority" true true false None None ["config"];
     account "systemProgram" false false false (Some "11111111111111111111111111111111") None []];
     in_args := [("initialCallers", (T_vec T_pubkey))] |}%string.

Definition proof_verifier_initVk : idl_instruction :=
  {| in_name := "initVk"; in_discriminator := [130; 185; 234; 65; 43; 113; 212; 132];
     in_accounts := [
     account "config" false false false None (Some ([S_const [118; 101; 114; 105; 102; 105; 101; 114; 95; 99; 111; 110; 102; 105; 103]], P_self)) [];
     account "vk" true false false None (Some ([S_const [118; 107]; S_arg "vkId"], P_self)) [];
     account "authority" false true false None None ["config"];
     account "payer" true true false None None [];
     account "systemProgram" false false false (Some "11111111111111111111111111111111") None []];
     in_args := [("vkId", (T_array T_u8 32%nat)); ("alphaG1", (T_array T_u8 64%nat)); ("betaG2", (T_array T_u8 128%nat)); ("gammaG2", (T_array T_u8 128%nat)); ("deltaG2", (T_array T_u8 128%nat)); ("numPublicInputs", T_u8); ("circuitLabel", (T_array T_u8 32%nat)); ("isProduction", T_bool)] |}%string.

Definition proof_verifier_openBatch : idl_instruction :=
  {| in_name := "openBatch"; in_discriminator := [103; 163; 23; 69; 63; 155; 108; 163];
     in_accounts := [
     account "cranker" true true false None None [];
     account "batch" true false false None (Some ([S_const [98; 97; 116; 99; 104]; S_account "cranker"; S_arg "batchId"], P_self)) [];
     account "config" false false false None (Some ([S_const [118; 101; 114; 105; 102; 105; 101; 114; 95; 99; 111; 110; 102; 105; 103]], P_self)) [];
     account "systemProgram" false false false (Some "11111111111111111111111111111111") None []];
     in_args := [("batchId", (T_array T_u8 16%nat)); ("maxProofs", T_u8)] |}%string.

Definition proof_verifier_proposeGuardReset : idl_instruction :=
  {| in_name := "proposeGuardReset"; in_discriminator := [123; 148; 24; 9; 217; 22; 91; 219];
     in_accounts := [
     account "config" false false false None (Some ([S_const [118; 101; 114; 105; 102; 105; 101; 114; 95; 99; 111; 110; 102; 105; 103]], P_self)) [];
     account "guard" true false false None (Some ([S_const [103; 117; 97; 114; 100]], P_self)) [];
     account "authority" false true false None None ["config"]];
     in_args := [] |}%string.

Definition proof_verifier_setAllowedCallers : idl_instruction :=
  {| in_name := "setAllowedCallers"; in_discriminator := [206; 75; 219; 6; 147; 196; 67; 152];
     in_accounts := [
     account "config" false false false None (Some ([S_const [118; 101; 114; 105; 102; 105; 101; 114; 95; 99; 111; 110; 102; 105; 103]], P_self)) [];
     account "allowedCallers" true false false None (Some ([S_const [97; 108; 108; 111; 119; 101; 100; 95; 99; 97; 108; 108; 101; 114; 115]], P_self)) [];
     account "authority" false true false None None ["config"]];
     in_args := [("programs", (T_vec T_pubkey))] |}%string.

Definition proof_verifier_setPaused : idl_instruction :=
  {| in_name := "setPaused"; in_discriminator := [91; 60; 125; 192; 176; 225; 166; 218];
     in_accounts := [
     account "config" true false false None (Some ([S_const [118; 101; 114; 105; 102; 105; 101; 114; 95; 99; 111; 110; 102; 105; 103]], P_self)) [];
     account "authority" false true false None None ["config"]];
     in_args := [("paused", T_bool)] |}%string.

Definition proof_verifier_transferAuthority : idl_instruction :=
  {| in_name := "transferAuthority"; in_discriminator := [48; 169; 76; 72; 229; 180; 55; 161];
     in_accounts := [
     account "config" true false false None (Some ([S_const [118; 101; 114; 105; 102; 105; 101; 114; 95; 99; 111; 110; 102; 105; 103]], P_self)) [];
     account "authority" false true false None None ["config"]];
     in_args := [("newAuthority", T_pubkey)] |}%string.

Definition proof_verifier_verifyAndUpdateReputation : idl_instruction :=
  {| in_name := "verifyAndUpdateReputation"; in_discriminator := [253; 12; 70; 42; 191; 185; 31; 98];
     in_accounts := [
     account "config" false false false None (Some ([S_const [118; 101; 114; 105; 102; 105; 101; 114; 95; 99; 111; 110; 102; 105; 103]], P_self)) [];
     account "vk" false false false None (Some ([S_const [118; 107]; S_field "vk.vk_id"], P_self)) [];
     account "mode" false false false None (Some ([S_const [109; 111; 100; 101]], P_self)) [];
     account "repAuthority" false false false None (Some ([S_const [114; 101; 112; 95; 97; 117; 116; 104; 111; 114; 105; 116; 121]], P_self)) [];
     account "registryGlobal" true false false None None [];
     account "registryAgent" false false false None None [];
     account "categoryReputation" true false false None None [];
     account "payer" true true false None None [];
     account "selfGuard" false false false None (Some ([S_const [103; 117; 97; 114; 100]], P_self)) [];
     account "allowedCallers" false false false None (Some ([S_const [97; 108; 108; 111; 119; 101; 100; 95; 99; 97; 108; 108; 101; 114; 115]], P_self)) [];
     account "callerGuard" false false false None None [];
     account "instructions" false false false (Some "Sysvar1nstructions1111111111111111111111111") None [];
     account "registrySelfGuard" false false false None None [];
     account "registryAllowedCallers" false false false None None [];
     account "agentRegistryProgram" false false false (Some "EQJ4Lp2gxJDD5hs185aDcermYWdAi4cQeSKfnuqLAQYu") None [];
     account "systemProgram" false false false (Some "11111111111111111111111111111111") None []];
     in_args := [("proofA", (T_array T_u8 64%nat)); ("proofB", (T_array T_u8 128%nat)); ("proofC", (T_array T_u8 64%nat)); ("publicInputs", (T_vec (T_array T_u8 32%nat))); ("agentDid", (T_array T_u8 32%nat)); ("capabilityBit", T_u16); ("sample", (T_defined "reputationSample")); ("taskId", (T_array T_u8 32%nat))] |}%string.

Definition proof_verifier_instructions : list idl_instruction :=
  [proof_verifier_abortBatch; proof_verifier_acceptAuthority; proof_verifier_addBatchProof; proof_verifier_adminResetGuard;
   proof_verifier_appendVkIc; proof_verifier_cancelVkActivation; proof_verifier_executeVkActivation;
   proof_verifier_finalizeBatch; proof_verifier_initConfig; proof_verifier_initGuard; proof_verifier_initVk;
   proof_verifier_openBatch; proof_verifier_proposeGuardReset; proof_verifier_proposeVkActivation;
   proof_verifier_registerVk; proof_verifier_setAllowedCallers; proof_verifier_setPaused; proof_verifier_transferAuthority;
   proof_verifier_verifyAndUpdateReputation; proof_verifier_verifyProof].

(** ** task market *)

Definition task_market_acceptAuthority : idl_instruction :=
  {| in_name := "acceptAuthority"; in_discriminator := [107; 86; 198; 91; 33; 12; 107; 160];
     in_accounts := [
     account "global" true false false None (Some ([S_const [109; 97; 114; 107; 101; 116; 95; 103; 108; 111; 98; 97; 108]], P_self)) [];
     account "pendingAuthority" false true false None None []];
     in_args := [] |}%string.

Definition task_market_adminResetGuard : idl_instruction :=
  {| in_name := "adminResetGuard"; in_discriminator := [191; 217; 54; 48; 119; 178; 160; 238];
     in_accounts := [
     account "global" false false false None (Some ([S_const [109; 97; 114; 107; 101; 116; 95; 103; 108; 111; 98; 97; 108]], P_self)) [];
     account "guard" true false false None (Some ([S_const [103; 117; 97; 114; 100]], P_self)) [];
     account "authority" false true false None None ["global"]];
     in_args := [] |}%string.

Definition task_market_allowPaymentMint : idl_instruction :=
  {| in_name := "allowPaymentMint"; in_discriminator := [154; 99; 153; 168; 114; 129; 42; 116];
     in_accounts := [
     account "global" true false false None (Some ([S_const [109; 97; 114; 107; 101; 116; 95; 103; 108; 111; 98; 97; 108]], P_self)) [];
     account "authority" false true false None None ["global"];
     account "payer" true true false None None [];
     account "mint" false false false None None [];
     account "mintAccept" true false false None (Some ([S_const [109; 105; 110; 116; 95; 97; 99; 99; 101; 112; 116]; S_account "mint"], P_self)) [];
     account "hookAllowlist" false false true None None [];
     account "systemProgram" false false false (Some "11111111111111111111111111111111") None []];
     in_args := [("slot", T_u8)] |}%string.

Definition task_market_closeBid : idl_instruction :=
  {| in_name := "closeBid"; in_discriminator := [169; 171; 66; 115; 220; 168; 231; 21];
     in_accounts := [
     account "task" false false false None (Some ([S_const [116; 97; 115; 107]; S_field "task.client"; S_field "task.task_nonce"], P_self)) [];
     account "bidBook" false false false None (Some ([S_const [98; 105; 100; 95; 98; 111; 111; 107]; S_field "task.task_id"], P_self)) [];
     account "bid" true false false None (Some ([S_const [98; 105; 100]; S_field "task.task_id"; S_account "bidder"], P_self)) [];
     account "bidder" true true false None None []];
     in_args := [] |}%string.

Definition task_market_closeBidBook : idl_instruction :=
  {| in_name := "closeBidBook"; in_discriminator := [72; 95; 184; 179; 250; 52; 119; 165];
     in_accounts := [
     account "task" true false false None (Some ([S_const [116; 97; 115; 107]; S_field "task.client"; S_field "task.task_nonce"], P_self)) [];
     account "bidBook" true false false None (Some ([S_const [98; 105; 100; 95; 98; 111; 111; 107]; S_field "task.task_id"], P_self)) [];
     account "paymentMint" false false false None None [];
     account "bondEscrow" true false false None (Some ([S_const [98; 111; 110; 100; 95; 101; 115; 99; 114; 111; 119]; S_field "task.task_id"], P_self)) [];
     account "client" true true false None None ["task"];
     account "tokenProgram" false false false None None []];
     in_args := [] |}%string.

Definition task_market_initGlobal : idl_instruction :=
  {| in_name := "initGlobal"; in_discriminator := [44; 238; 77; 253; 76; 182; 192; 162];
     in_accounts := [
     account "global" true false false None (Some ([S_const [109; 97; 114; 107; 101; 116; 95; 103; 108; 111; 98; 97; 108]], P_self)) [];
     account "payer" true true false None None [];
     account "systemProgram" false false false (Some "11111111111111111111111111111111") None []];
     in_args := [("authority", T_pubkey); ("agentRegistry", T_pubkey); ("treasuryStandard", T_pubkey); ("proofVerifier", T_pubkey); ("feeCollector", T_pubkey); ("solrepPool", T_pubkey); ("protocolFeeBps", T_u16); ("solrepFeeBps", T_u16); ("disputeWindowSecs", T_i64); ("maxDeadlineSecs", T_i64); ("allowedPaymentMints", (T_array T_pubkey 8%nat))] |}%string.

Definition task_market_initGuard : idl_instruction :=
  {| in_name := "initGuard"; in_discriminator := [80; 108; 68; 230; 253; 134; 39; 155];
     in_accounts := [
     account "global" false false false None (Some ([S_const [109; 97; 114; 107; 101; 116; 95; 103; 108; 111; 98; 97; 108]], P_self)) [];
     account "guard" true false false None (Some ([S_const [103; 117; 97; 114; 100]], P_self)) [];
     account "allowedCallers" true false false None (Some ([S_const [97; 108; 108; 111; 119; 101; 100; 95; 99; 97; 108; 108; 101; 114; 115]], P_self)) [];
     account "authority" true true false None None ["global"];
     account "systemProgram" false false false (Some "11111111111111111111111111111111") None []];
     in_args := [("initialCallers", (T_vec T_pubkey))] |}%string.

Definition task_market_proposeGuardReset : idl_instruction :=
  {| in_name := "proposeGuardReset"; in_discriminator := [123; 148; 24; 9; 217; 22; 91; 219];
     in_accounts := [
     account "global" false false false None (Some ([S_const [109; 97; 114; 107; 101; 116; 95; 103; 108; 111; 98; 97; 108]], P_self)) [];
     account "guard" true false false None (Some ([S_const [103; 117; 97; 114; 100]], P_self)) [];
     account "authority" false true false None None ["global"]];
     in_args := [] |}%string.

Definition task_market_setAllowedCallers : idl_instruction :=
  {| in_name := "setAllowedCallers"; in_discriminator := [206; 75; 219; 6; 147; 196; 67; 152];
     in_accounts := [
     account "global" false false false None (Some ([S_const [109; 97; 114; 107; 101; 116; 95; 103; 108; 111; 98; 97; 108]], P_self)) [];
     account "allowedCallers" true false false None (Some ([S_const [97; 108; 108; 111; 119; 101; 100; 95; 99; 97; 108; 108; 101; 114; 115]], P_self)) [];
     account "authority" false true false None None ["global"]];
     in_args := [("programs", (T_vec T_pubkey))] |}%string.

Definition task_market_setAllowedMint : idl_instruction :=
  {| in_name := "setAllowedMint"; in_discriminator := [188; 9; 189; 141; 102; 91; 227; 254];
     in_accounts := [
     account "global" true false false None (Some ([S_const [109; 97; 114; 107; 101; 116; 95; 103; 108; 111; 98; 97; 108]], P_self)) [];
     account "authority" false true false None None ["global"]];
     in_args := [("slot", T_u8); ("mint", T_pubkey)] |}%string.

Definition task_market_setDisputeWindowSecs : idl_instruction :=
  {| in_name := "setDisputeWindowSecs"; in_discriminator := [216; 165; 79; 99; 37; 109; 193; 208];
     in_accounts := [
     account "global" true false false None (Some ([S_const [109; 97; 114; 107; 101; 116; 95; 103; 108; 111; 98; 97; 108]], P_self)) [];
     account "authority" false true false None None ["global"]];
     in_args := [("disputeWindowSecs", T_i64)] |}%string.

Definition task_market_setFees : idl_instruction :=
  {| in_name := "setFees"; in_discriminator := [137; 178; 49; 58; 0; 245; 242; 190];
     in_accounts := [
     account "global" true false false None (Some ([S_const [109; 97; 114; 107; 101; 116; 95; 103; 108; 111; 98; 97; 108]], P_self)) [];
     account "authority" false true false None None ["global"]];
     in_args := [("protocolFeeBps", T_u16); ("solrepFeeBps", T_u16)] |}%string.

Definition task_market_setHookAllowlistPtr : idl_instruction :=
  {| in_name := "setHookAllowlistPtr"; in_discriminator := [194; 79; 184; 147; 229; 169; 201; 31];
     in_accounts := [
     account "global" true false false None (Some ([S_const [109; 97; 114; 107; 101; 116; 95; 103; 108; 111; 98; 97; 108]], P_self)) [];
     account "authority" false true false None None ["global"]];
     in_args := [("hookAllowlist", T_pubkey)] |}%string.

Definition task_market_setPaused : idl_instruction :=
  {| in_name := "setPaused"; in_discriminator := [91; 60; 125; 192; 176; 225; 166; 218];
     in_accounts := [
     account "global" true false false None (Some ([S_const [109; 97; 114; 107; 101; 116; 95; 103; 108; 111; 98; 97; 108]], P_self)) [];
     account "authority" false true false None None ["global"]];
     in_args := [("paused", T_bool)] |}%string.

Definition task_market_transferAuthority : idl_instruction :=
  {| in_name := "transferAuthority"; in_discriminator := [48; 169; 76; 72; 229; 180; 55; 161];
     in_accounts := [
     account "global" true false false None (Some ([S_const [109; 97; 114; 107; 101; 116; 95; 103; 108; 111; 98; 97; 108]], P_self)) [];
     account "authority" false true false None None ["global"]];
     in_args := [("newAuthority", T_pubkey)] |}%string.

Definition task_market_instructions : list idl_instruction :=
  [task_market_acceptAuthority; task_market_adminResetGuard; task_market_allowPaymentMint; task_market_cancelBidding;
   task_market_cancelUnfundedTask; task_market_claimBond; task_market_closeBid; task_market_closeBidBook;
   task_market_closeBidding; task_market_commitBid; task_market_createTask; task_market_disputedTimeoutRefund;
   task_market_expire; task_market_fundTask; task_market_initGlobal; task_market_initGuard; task_market_openBidding;
   task_market_proposeGuardReset; task_market_raiseDispute; task_market_release; task_market_revealBid;
   task_market_setAllowedCallers; task_market_setAllowedMint; task_market_setDisputeWindowSecs; task_market_setFees;
   task_market_setHookAllowlistPtr; task_market_setPaused; task_market_submitResult; task_market_transferAuthority;
   task_market_verifyTask].

(** ** template registry *)

Definition template_registry_initGlobal : idl_instruction :=
  {| in_name := "initGlobal"; in_discriminator := [44; 238; 77; 253; 76; 182; 192; 162];
     in_accounts := [
     account "global" true false false None (Some ([S_const [116; 112; 108; 95; 103; 108; 111; 98; 97; 108]], P_self)) [];
     account "authority" true true false None None [];
     account "systemProgram" false false false (Some "11111111111111111111111111111111") None []];
     in_args := [("agentRegistry", T_pubkey); ("treasuryStandard", T_pubkey); ("feeCollector", T_pubkey); ("royaltyCapBps", T_u16); ("platformFeeBps", T_u16); ("rentEscrowMint", T_pubkey)] |}%string.

Definition template_registry_setGlobalParams : idl_instruction :=
  {| in_name := "setGlobalParams"; in_discriminator := [19; 207; 15; 46; 165; 96; 89; 49];
     in_accounts := [
     account "global" true false false None (Some ([S_const [116; 112; 108; 95; 103; 108; 111; 98; 97; 108]], P_self)) [];
     account "authority" false true false None None ["global"]];
     in_args := [("paused", (T_option T_bool)); ("royaltyCapBps", (T_option T_u16)); ("platformFeeBps", (T_option T_u16))] |}%string.

Definition template_registry_settleRoyaltyCpi : idl_instruction :=
  {| in_name := "settleRoyaltyCpi"; in_discriminator := [10; 85; 23; 102; 102; 152; 154; 97];
     in_accounts := [
     account "global" false false false None (Some ([S_const [116; 112; 108; 95; 103; 108; 111; 98; 97; 108]], P_self)) [];
     account "template" true false false None (Some ([S_const [116; 101; 109; 112; 108; 97; 116; 101]; S_field "template.template_id"], P_self)) [];
     account "fork" false false false None (Some ([S_const [102; 111; 114; 107]; S_field "fork.child_agent_did"], P_self)) [];
     account "mint" false false false None None [];
     account "source" true false false None None [];
     account "authorTokenAccount" true false false None None [];
     account "settler" false true false None None [];
     account "tokenProgram" false false false None None []];
     in_args := [("grossAmount", T_u64)] |}%string.

Definition template_registry_instructions : list idl_instruction :=
  [template_registry_claimRentalRevenue; template_registry_closeRental; template_registry_forkTemplate;
   template_registry_initGlobal; template_registry_mintTemplate; template_registry_openRental;
   template_registry_retireTemplate; template_registry_setGlobalParams; template_registry_settleRoyaltyCpi;
   template_registry_updateTemplate].

(** ** treasury standard *)

Definition treasury_standard_acceptAuthority : idl_instruction :=
  {| in_name := "acceptAuthority"; in_discriminator := [107; 86; 198; 91; 33; 12; 107; 160];
     in_accounts := [
     account "global" true false false None (Some ([S_const [116; 114; 101; 97; 115; 117; 114; 121; 95; 103; 108; 111; 98; 97; 108]], P_self)) [];
     account "pendingAuthority" false true false None None []];
     in_args := [] |}%string.

Definition treasury_standard_addAllowedMint : idl_instruction :=
  {| in_name := "addAllowedMint"; in_discriminator := [114; 83; 166; 247; 86; 17; 220; 147];
     in_accounts := [
     account "global" false false false None (Some ([S_const [116; 114; 101; 97; 115; 117; 114; 121; 95; 103; 108; 111; 98; 97; 108]], P_self)) [];
     account "allowedMints" true false false None (Some ([S_const [97; 108; 108; 111; 119; 101; 100; 95; 109; 105; 110; 116; 115]], P_self)) [];
     account "authority" false true false None None ["global"]];
     in_args := [("mint", T_pubkey)] |}%string.

Definition treasury_standard_adminResetGuard : idl_instruction :=
  {| in_name := "adminResetGuard"; in_discriminator := [191; 217; 54; 48; 119; 178; 160; 238];
     in_accounts := [
     account "global" false false false None (Some ([S_const [116; 114; 101; 97; 115; 117; 114; 121; 95; 103; 108; 111; 98; 97; 108]], P_self)) [];
     account "guard" true false false None (Some ([S_const [103; 117; 97; 114; 100]], P_self)) [];
     account "authority" false true false None None ["global"]];
     in_args := [] |}%string.

Definition treasury_standard_fundTreasury : idl_instruction :=
  {| in_name := "fundTreasury"; in_discriminator := [71; 154; 45; 220; 206; 32; 174; 239];
     in_accounts := [
     account "global" false false false None (Some ([S_const [116; 114; 101; 97; 115; 117; 114; 121; 95; 103; 108; 111; 98; 97; 108]], P_self)) [];
     account "allowedMints" false false false None (Some ([S_const [97; 108; 108; 111; 119; 101; 100; 95; 109; 105; 110; 116; 115]], P_self)) [];
     account "treasury" false false false None (Some ([S_const [116; 114; 101; 97; 115; 117; 114; 121]; S_field "treasury.agent_did"], P_self)) [];
     account "allowedTargets" false false true None (Some ([S_const [97; 108; 108; 111; 119; 101; 100; 95; 116; 97; 114; 103; 101; 116; 115]; S_field "treasury.agent_did"], P_self)) [];
     account "mint" false false false None None [];
     account "vault" true false false None (Some ([S_const [118; 97; 117; 108; 116]; S_field "treasury.agent_did"; S_account "mint"], P_self)) [];
     account "funderTokenAccount" true false false None None [];
     account "hookAllowlist" false false true None None [];
     account "guard" true false false None (Some ([S_const [103; 117; 97; 114; 100]], P_self)) [];
     account "funder" true true false None None [];
     account "tokenProgram" false false false None None [];
     account "systemProgram" false false false (Some "11111111111111111111111111111111") None [];
     account "rent" false false false (Some "SysvarRent111111111111111111111111111111111") None []];
     in_args := [("amount", T_u64)] |}%string.

Definition treasury_standard_initAllowedTargets : idl_instruction :=
  {| in_name := "initAllowedTargets"; in_discriminator := [214; 193; 83; 242; 175; 162; 8; 211];
     in_accounts := [
     account "treasury" false false false None (Some ([S_const [116; 114; 101; 97; 115; 117; 114; 121]; S_arg "agentDid"], P_self)) [];
     account "allowedTargets" true false false None (Some ([S_const [97; 108; 108; 111; 119; 101; 100; 95; 116; 97; 114; 103; 101; 116; 115]; S_arg "agentDid"], P_self)) [];
     account "operator" true true false None None ["treasury"];
     account "systemProgram" false false false (Some "11111111111111111111111111111111") None []];
     in_args := [("agentDid", (T_array T_u8 32%nat)); ("targets", (T_vec T_pubkey))] |}%string.

Definition treasury_standard_initGlobal : idl_instruction :=
  {| in_name := "initGlobal"; in_discriminator := [44; 238; 77; 253; 76; 182; 192; 162];
     in_accounts := [
     account "global" true false false None (Some ([S_const [116; 114; 101; 97; 115; 117; 114; 121; 95; 103; 108; 111; 98; 97; 108]], P_self)) [];
     account "allowedMints" true false false None (Some ([S_const [97; 108; 108; 111; 119; 101; 100; 95; 109; 105; 110; 116; 115]], P_self)) [];
     account "payer" true true false None None [];
     account "systemProgram" false false false (Some "11111111111111111111111111111111") None []];
     in_args := [("authority", T_pubkey); ("agentRegistry", T_pubkey); ("jupiterProgram", T_pubkey); ("defaultDailyLimit", T_u64); ("maxDailyLimit", T_u64)] |}%string.

Definition treasury_standard_initGuard : idl_instruction :=
  {| in_name := "initGuard"; in_discriminator := [80; 108; 68; 230; 253; 134; 39; 155];
     in_accounts := [
     account "global" false false false None (Some ([S_const [116; 114; 101; 97; 115; 117; 114; 121; 95; 103; 108; 111; 98; 97; 108]], P_self)) [];
     account "guard" true false false None (Some ([S_const [103; 117; 97; 114; 100]], P_self)) [];
     account "allowedCallers" true false false None (Some ([S_const [97; 108; 108; 111; 119; 101; 100; 95; 99; 97; 108; 108; 101; 114; 115]], P_self)) [];
     account "authority" true true false None None ["global"];
     account "systemProgram" false false false (Some "11111111111111111111111111111111") None []];
     in_args := [("initialCallers", (T_vec T_pubkey))] |}%string.

Definition treasury_standard_payTask : idl_instruction :=
  {| in_name := "payTask"; in_discriminator := [143; 133; 144; 74; 182; 76; 65; 12];
     in_accounts := [
     account "caller" false true false None None []];
     in_args := [("amount", T_u64)] |}%string.

Definition treasury_standard_proposeGuardReset : idl_instruction :=
  {| in_name := "proposeGuardReset"; in_discriminator := [123; 148; 24; 9; 217; 22; 91; 219];
     in_accounts := [
     account "global" false false false None (Some ([S_const [116; 114; 101; 97; 115; 117; 114; 121; 95; 103; 108; 111; 98; 97; 108]], P_self)) [];
     account "guard" true false false None (Some ([S_const [103; 117; 97; 114; 100]], P_self)) [];
     account "authority" false true false None None ["global"]];
     in_args := [] |}%string.

Definition treasury_standard_removeAllowedMint : idl_instruction :=
  {| in_name := "removeAllowedMint"; in_discriminator := [53; 133; 46; 51; 25; 228; 27; 73];
     in_accounts := [
     account "global" false false false None (Some ([S_const [116; 114; 101; 97; 115; 117; 114; 121; 95; 103; 108; 111; 98; 97; 108]], P_self)) [];
     account "allowedMints" true false false None (Some ([S_const [97; 108; 108; 111; 119; 101; 100; 95; 109; 105; 110; 116; 115]], P_self)) [];
     account "authority" false true false None None ["global"]];
     in_args := [("mint", T_pubkey)] |}%string.

Definition treasury_standard_setAllowedCallers : idl_instruction :=
  {| in_name := "setAllowedCallers"; in_discriminator := [206; 75; 219; 6; 147; 196; 67; 152];
     in_accounts := [
     account "global" false false false None (Some ([S_const [116; 114; 101; 97; 115; 117; 114; 121; 95; 103; 108; 111; 98; 97; 108]], P_self)) [];
     account "allowedCallers" true false false None (Some ([S_const [97; 108; 108; 111; 119; 101; 100; 95; 99; 97; 108; 108; 101; 114; 115]], P_self)) [];
     account "authority" false true false None None ["global"]];
     in_args := [("programs", (T_vec T_pubkey))] |}%string.

Definition treasury_standard_setDefaultDailyLimit : idl_instruction :=
  {| in_name := "setDefaultDailyLimit"; in_discriminator := [193; 179; 159; 81; 165; 61; 50; 171];
     in_accounts := [
     account "global" true false false None (Some ([S_const [116; 114; 101; 97; 115; 117; 114; 121; 95; 103; 108; 111; 98; 97; 108]], P_self)) [];
     account "authority" false true false None None ["global"]];
     in_args := [("newDefault", T_u64)] |}%string.

Definition treasury_standard_setGlobalCallTargets : idl_instruction :=
  {| in_name := "setGlobalCallTargets"; in_discriminator := [66; 75; 1; 236; 235; 131; 193; 110];
     in_accounts := [
     account "global" true false false None (Some ([S_const [116; 114; 101; 97; 115; 117; 114; 121; 95; 103; 108; 111; 98; 97; 108]], P_self)) [];
     account "authority" false true false None None ["global"]];
     in_args := [("add", (T_vec T_pubkey)); ("remove", (T_vec T_pubkey))] |}%string.

Definition treasury_standard_setHookAllowlistPtr : idl_instruction :=
  {| in_name := "setHookAllowlistPtr"; in_discriminator := [194; 79; 184; 147; 229; 169; 201; 31];
     in_accounts := [
     account "global" true false false None (Some ([S_const [116; 114; 101; 97; 115; 117; 114; 121; 95; 103; 108; 111; 98; 97; 108]], P_self)) [];
     account "authority" false true false None None ["global"]];
     in_args := [("hookAllowlist", T_pubkey)] |}%string.

Definition treasury_standard_setMaxDailyLimit : idl_instruction :=
  {| in_name := "setMaxDailyLimit"; in_discriminator := [184; 60; 106; 63; 99; 191; 205; 196];
     in_accounts := [
     account "global" true false false None (Some ([S_const [116; 114; 101; 97; 115; 117; 114; 121; 95; 103; 108; 111; 98; 97; 108]], P_self)) [];
     account "authority" false true false None None ["global"]];
     in_args := [("newMax", T_u64)] |}%string.

Definition treasury_standard_setMaxStreamDuration : idl_instruction :=
  {| in_name := "setMaxStreamDuration"; in_discriminator := [146; 16; 3; 101; 200; 132; 231; 61];
     in_accounts := [
     account "global" true false false None (Some ([S_const [116; 114; 101; 97; 115; 117; 114; 121; 95; 103; 108; 111; 98; 97; 108]], P_self)) [];
     account "authority" false true false None None ["global"]];
     in_args := [("newDuration", T_i64)] |}%string.

Definition treasury_standard_setPaused : idl_instruction :=
  {| in_name := "setPaused"; in_discriminator := [91; 60; 125; 192; 176; 225; 166; 218];
     in_accounts := [
     account "global" true false false None (Some ([S_const [116; 114; 101; 97; 115; 117; 114; 121; 95; 103; 108; 111; 98; 97; 108]], P_self)) [];
     account "authority" false true false None None ["global"]];
     in_args := [("paused", T_bool)] |}%string.

Definition treasury_standard_transferAuthority : idl_instruction :=
  {| in_name := "transferAuthority"; in_discriminator := [48; 169; 76; 72; 229; 180; 55; 161];
     in_accounts := [
     account "global" true false false None (Some ([S_const [116; 114; 101; 97; 115; 117; 114; 121; 95; 103; 108; 111; 98; 97; 108]], P_self)) [];
     account "authority" false true false None None ["global"]];
     in_args := [("newAuthority", T_pubkey)] |}%string.

Definition treasury_standard_updateAllowedTargets : idl_instruction :=
  {| in_name := "updateAllowedTargets"; in_discriminator := [20; 132; 223; 58; 251; 73; 203; 5];
     in_accounts := [
     account "treasury" false false false None (Some ([S_const [116; 114; 101; 97; 115; 117; 114; 121]; S_field "treasury.agent_did"], P_self)) [];
     account "allowedTargets" true false false None (Some ([S_const [97; 108; 108; 111; 119; 101; 100; 95; 116; 97; 114; 103; 101; 116; 115]; S_field "treasury.agent_did"], P_self)) [];
     account "operator" false true false None None ["treasury"]];
     in_args := [("add", (T_vec T_pubkey)); ("remove", (T_vec T_pubkey))] |}%string.

Definition treasury_standard_instructions : list idl_instruction :=
  [treasury_standard_acceptAuthority; treasury_standard_addAllowedMint; treasury_standard_adminResetGuard;
   treasury_standard_closeStream; treasury_standard_depositToYieldStrategy; treasury_standard_emergencyUnwindYieldStrategy;
   treasury_standard_fundTreasury; treasury_standard_initAllowedTargets; treasury_standard_initGlobal;
   treasury_standard_initGuard; treasury_standard_initStream; treasury_standard_initTreasury; treasury_standard_payTask;
   treasury_standard_proposeGuardReset; treasury_standard_recordTreasuryYieldAccounting;
   treasury_standard_registerYieldStrategy; treasury_standard_removeAllowedMint;
   treasury_standard_requestTreasuryYieldUnwind; treasury_standard_setAllowedCallers;
   treasury_standard_setDefaultDailyLimit; treasury_standard_setGlobalCallTargets; treasury_standard_setHookAllowlistPtr;
   treasury_standard_setLimits; treasury_standard_setMaxDailyLimit; treasury_standard_setMaxStreamDuration;
   treasury_standard_setPaused; treasury_standard_setTreasuryYieldConfig; treasury_standard_setYieldStrategyStatus;
   treasury_standard_transferAuthority; treasury_standard_updateAllowedTargets; treasury_standard_withdraw;
   treasury_standard_withdrawEarned; treasury_standard_withdrawFromYieldStrategy].

(** A program's interface: its address and everything it defines. *)
Record idl := {
  address : string;
  instructions : list idl_instruction;
  accounts : list (string * list Z);
  events : list (string * list Z);
  types : list (string * idl_typedef);
}.

Definition agent_registry_idl : idl :=
  {| address := "EQJ4Lp2gxJDD5hs185aDcermYWdAi4cQeSKfnuqLAQYu"; instructions := agent_registry_instructions; accounts := agent_registry_accounts;
     events := agent_registry_events; types := agent_registry_types |}%string.

Definition capability_registry_idl : idl :=
  {| address := "GW161Wce7z4S2rdcSCPNGixn2YQajefNc4r3jUj9zZ5F"; instructions := capability_registry_instructions; accounts := capability_registry_accounts;
     events := capability_registry_events; types := capability_registry_types |}%string.

Definition dispute_arbitration_idl : idl :=
  {| address := "GM8xiT17USBpCW24XXBmUR8YVCxxrJPMEcsddwfUokMa"; instructions := dispute_arbitration_instructions; accounts := dispute_arbitration_accounts;
     events := dispute_arbitration_events; types := dispute_arbitration_types |}%string.

Definition fee_collector_idl : idl :=
  {| address := "4xLpFgjpZwJbf61UyvyMhmEBmeJzPaCyKvZeYuK2YFFu"; instructions := fee_collector_instructions; accounts := fee_collector_accounts;
     events := fee_collector_events; types := fee_collector_types |}%string.

Definition governance_program_idl : idl :=
  {| address := "9uczLDZaN9EWqW76be75ji4vCsz3cydefbChqvBS6qw1"; instructions := governance_program_instructions; accounts := governance_program_accounts;
     events := governance_program_events; types := governance_program_types |}%string.

Definition nxs_staking_idl : idl :=
  {| address := "GjXfJ6MHb6SJ4XBK3qcpGw4n256qYPrDcXrNj6kf2i2Z"; instructions := nxs_staking_instructions; accounts := nxs_staking_accounts;
     events := nxs_staking_events; types := nxs_staking_types |}%string.

Definition proof_verifier_idl : idl :=
  {| address := "DcJx1p6bcNuFm4i5WMgK4uGZitc1bf4Ubc5d4sctZKVe"; instructions := proof_verifier_instructions; accounts := proof_verifier_accounts;
     events := proof_verifier_events; types := proof_verifier_types |}%string.

Definition task_market_idl : idl :=
  {| address := "HiyqZ4q1GPPgx1EaxSuyBFKTzoPAYDPmnSfTX1vjbB8w"; instructions := task_market_instructions; accounts := task_market_accounts;
     events := task_market_events; types := task_market_types |}%string.

Definition template_registry_idl : idl :=
  {| address := "3QE649JDQbbudJX5j3VkmRSiRvfcu3mHCymPxZn9KC3e"; instructions := template_registry_instructions; accounts := template_registry_accounts;
     events := template_registry_events; types := template_registry_types |}%string.

Definition treasury_standard_idl : idl :=
  {| address := "6boJQg4L6FRS7YZ5rFXfKUaXSy3eCKnW2SdrT3LJLizQ"; instructions := treasury_standard_instructions; accounts := treasury_standard_accounts;
     events := treasury_standard_events; types := treasury_standard_types |}%string.

Definition idls : list (string * idl) :=
  [("agent_registry", agent_registry_idl); ("capability_registry", capability_registry_idl);
   ("dispute_arbitration", dispute_arbitration_idl); ("fee_collector", fee_collector_idl);
   ("governance_program", governance_program_idl); ("nxs_staking", nxs_staking_idl); ("proof_verifier", proof_verifier_idl);
   ("task_market", task_market_idl); ("template_registry", template_registry_idl);
   ("treasury_standard", treasury_standard_idl)]%string.

(** ** The interfaces are unambiguous and closed *)

(** ** Dispatch *)

Definition discriminator_of (data : list Z) : list Z := take 8 data.

(** The instruction a program runs on [data]. *)
Definition dispatch (i : idl) (data : list Z) : option idl_instruction :=
  head (filter (fun ix => in_discriminator ix = discriminator_of data) (instructions i)).

(** The kind of an account, or of an event, from its data. *)
Definition kind_named (kinds : list (string * list Z)) (data : list Z) : option string :=
  fst <$> head (filter (fun k => k.2 = discriminator_of data) kinds).

Definition eight_bytes (d : list Z) : bool := (length d =? 8)%nat.

(** Different from each other, and of eight bytes. *)
Definition spread (ds : list (list Z)) : bool := bool_decide (NoDup ds) && forallb eight_bytes ds.

Definition all_distinct (i : idl) : bool :=
  spread (map in_discriminator (instructions i)) && spread (accounts i).*2 && spread (events i).*2.

Lemma idls_spread : forallb (fun pi => all_distinct pi.2) idls = true.
Proof. vm_compute. reflexivity. Qed.

Lemma head_filter_unique {A} (d : A -> list Z) (l : list A) x : NoDup (map d l) -> x ∈ l ->
  head (filter (fun y => d y = d x) l) = Some x.
Proof.
  induction l as [|y l IH]; intros Hn Hx; [by apply elem_of_nil in Hx|]. simpl in Hn.
  apply NoDup_cons in Hn as [Hy Hn]. rewrite filter_cons. apply elem_of_cons in Hx as [->|Hx].
  - by rewrite decide_True.
  - case_decide as E; [|by apply IH]. destruct Hy. rewrite E. apply list_elem_of_In, in_map, list_elem_of_In, Hx.
Qed.

Lemma distinct_found {A} (d : A -> list Z) (l : list A) x rest : spread (map d l) = true -> x ∈ l ->
  head (filter (fun y => d y = discriminator_of (d x ++ rest)) l) = Some x.
Proof.
  intros [Hn%bool_decide_eq_true H8]%andb_true_iff Hx.
  assert (E : discriminator_of (d x ++ rest) = d x).
  { apply take_app_length'. symmetry. apply Nat.eqb_eq, (proj1 (forallb_forall _ _) H8). apply in_map, list_elem_of_In, Hx. }
  rewrite E. by apply head_filter_unique.
Qed.

Lemma idl_distinct p i : map_get p idls = Some i -> all_distinct i = true.
Proof.
  intros H%map_get_elem%list_elem_of_In. exact (proj1 (forallb_forall _ _) idls_spread (p, i) H).
Qed.

(** Data that begins with the discriminator of an instruction of a program is run as
    that instruction, whatever follows; an account's or an event's data is taken for
    the kind it was written as. *)
Theorem dispatch_unambiguous (p : string) (i : idl) (rest : list Z) : map_get p idls = Some i ->
  (forall ix, ix ∈ instructions i -> dispatch i (in_discriminator ix ++ rest) = Some ix) /\
  (forall k, k ∈ accounts i -> kind_named (accounts i) (k.2 ++ rest) = Some k.1) /\
  (forall k, k ∈ events i -> kind_named (events i) (k.2 ++ rest) = Some k.1).
Proof.
  intros H%idl_distinct. apply andb_true_iff in H as [[Hi Ha]%andb_true_iff He]. split_and!; intros x Hx.
  - by apply (distinct_found in_discriminator).
  - unfold kind_named. by rewrite (distinct_found snd).
  - unfold kind_named. by rewrite (distinct_found snd).
Qed.

Lemma dispatch_unambiguous_witness :
  dispatch task_market_idl (in_discriminator task_market_release ++ [1; 2; 3]) = Some task_market_release.
Proof.
  destruct (dispatch_unambiguous "task_market" task_market_idl [1; 2; 3] eq_refl) as [H _]. apply H.
  apply list_elem_of_In. vm_compute. tauto.
Defined.

(** ** Closed interfaces *)

(** The names of the types [t] mentions. *)
Fixpoint mentions (t : idl_type) : list string :=
  match t with
  | T_array e _ | T_vec e | T_option e => mentions e
  | T_defined name => [name]
  | _ => []
  end.

Definition typedef_mentions (td : idl_typedef) : list string :=
  match td with
  | TD_struct fs => flat_map mentions fs.*2
  | TD_enum vs => flat_map (fun v => flat_map mentions v.2.*2) vs
  end.

Definition defined (i : idl) (name : string) : bool := map_has name (types i).

Definition is_struct (i : idl) (name : string) : bool :=
  match map_get name (types i) with Some (TD_struct _) => true | _ => false end.

(** Paths with a dot keep the program's own spelling, with underscores. *)
Fixpoint camel (up : bool) (s : string) : string :=
  match s with
  | EmptyString => EmptyString
  | String c s' =>
    if Ascii.eqb c "_" then camel true s'
    else String (if up && char_in 97 122 c then ascii_of_nat (nat_of_ascii c - 32) else c) (camel false s')
  end.

(** The account or argument a path starts from. *)
Definition path_head (path : string) : string := camel false (default "" (head (split_on "."%char path))).

Definition seed_known (ix : idl_instruction) (s : idl_seed) : bool :=
  match s with
  | S_const _ => true
  | S_account path | S_field path => existsb (String.eqb (path_head path)) (map ia_name (in_accounts ix))
  | S_arg path => existsb (String.eqb (path_head path)) (in_args ix).*1
  end.

Definition program_known (ix : idl_instruction) (p : idl_program) : bool :=
  match p with
  | P_account path => existsb (String.eqb path) (map ia_name (in_accounts ix))
  | _ => true
  end.

Definition account_known (ix : idl_instruction) (a : idl_account) : bool :=
  match ia_pda a with
  | Some (seeds, p) => forallb (seed_known ix) seeds && program_known ix p
  | None => true
  end && forallb (fun r => existsb (String.eqb r) (map ia_name (in_accounts ix))) (ia_relations a).

Definition closed (i : idl) : bool :=
  forallb (fun td => forallb (defined i) (typedef_mentions td.2)) (types i) &&
  forallb (fun ix => forallb (defined i) (flat_map mentions (in_args ix).*2) && forallb (account_known ix) (in_accounts ix))
    (instructions i) &&
  forallb (is_struct i) ((accounts i).*1 ++ (events i).*1).

(** Every interface defines the types it mentions, gives each account and event the
    layout of a struct, and derives addresses only from what the instruction has. *)
Theorem interfaces_closed (p : string) (i : idl) : map_get p idls = Some i -> closed i = true.
Proof.
  assert (H : forallb (fun pi => closed pi.2) idls = true) by (vm_compute; reflexivity).
  intros Hp%map_get_elem%list_elem_of_In. exact (proj1 (forallb_forall _ _) H (p, i) Hp).
Qed.
