(* ===== verification/Ix.v ===== *)
(** * Ix: the instructions the SDK builds

    Models packages/sdk/src/programs/*.ts: every function that builds an
    instruction, down to what it hands to Anchor: the method, its arguments, the
    accounts by name ([None] for null) and the remaining accounts.  Anchor itself,
    which encodes this against the IDL, is outside of the model;
    [PublicKey.findProgramAddressSync] and [new PublicKey] are parameters. *)

From Stdlib Require Import ZArith QArith.
From stdpp Require Import base list strings.
From S2P Require Import Prelude Json Pda Idl.

#[local] Open Scope Z_scope.
#[local] Open Scope saep_scope.

(** An argument of a method: bytes (an array of numbers or a Buffer), a BN, a
    number, ...; an enum is the object with the variant's name as its key. *)
Inductive arg :=
| A_bytes (bytes : list Z)
| A_bn (n : Z)
| A_num (n : Q)
| A_bool (b : bool)
| A_key (k : pubkey)
| A_string (s : string)
| A_vec (l : list arg)
| A_enum (variant : string)
| A_data (variant : string) (fields : list (string * arg))
| A_struct (fields : list (string * arg)).

(** An enum's value as Anchor takes it, an object with one key: the key. *)
Definition variant : Type := string.

Record AccountMeta := { am_pubkey : pubkey; am_isSigner : bool; am_isWritable : bool }.

Record call := {
  ix_method : string;
  ix_args : list arg;
  ix_accounts : list (string * option pubkey);
  ix_remaining : list AccountMeta;
}.

(** [const [address] = ...Pda(...)] *)
Definition key (r : result (pubkey * Z)) : result pubkey := let! x := r in Ok x.1.

Section constants.
Variable PublicKey : string -> result pubkey.

Definition SystemProgram_programId : pubkey := constant PublicKey "11111111111111111111111111111111".
Definition SYSVAR_INSTRUCTIONS_PUBKEY : pubkey := constant PublicKey "Sysvar1nstructions1111111111111111111111111".
Definition SYSVAR_RENT_PUBKEY : pubkey := constant PublicKey "SysvarRent111111111111111111111111111111111".
Definition TOKEN_2022_PROGRAM_ID : pubkey := constant PublicKey "TokenzQdBNbLqP5VEhdkAS6EPFLC1PHnBqCXEpPxuEb".
Definition SYSVAR_RENT : pubkey := constant PublicKey "SysvarRent111111111111111111111111111111111".
End constants.

(** ** The payload of a task *)

Inductive personhood_tier := none | basic | verified.

(** A tier is named by its text or by the key of an object. *)
Inductive PersonhoodTierInput := T_text (t : personhood_tier) | T_object (t : personhood_tier).

Inductive task_kind :=
| swapExact (inMint outMint : pubkey) (amountIn minOut : Z)
| transfer (mint to : pubkey) (amount : Z)
| dataFetch (urlHash expectedHash : list Z)
| compute (circuitId publicInputsHash : list Z)
| generic (capabilityBit : Q) (argsHash : list Z).

(** The kind of a payload: tagged by a [type] field, or by the key of an object. *)
Inductive task_kind_input := LegacyKind (k : task_kind) | StructuredKind (k : task_kind).

Record payload_input := {
  pi_kind : task_kind_input;
  pi_capabilityBit : Q;
  pi_criteria : list Z;
  pi_requiresPersonhood : option PersonhoodTierInput;
}.

Definition toByteArray (bytes : list Z) (label : string) (expectedLength : option nat) : result arg :=
  match expectedLength with
  | Some n => if (length bytes =? n)%nat then Ok (A_bytes bytes)
              else Throw (label +:+ " must be " +:+ z_text (Z.of_nat n) +:+ " bytes")
  | None => Ok (A_bytes bytes)
  end.

Definition normalizePersonhoodTier (tier : option PersonhoodTierInput) : arg :=
  match tier with
  | None | Some (T_text none) | Some (T_object none) => A_enum "none"
  | Some (T_text basic) | Some (T_object basic) => A_enum "basic"
  | Some (T_text verified) | Some (T_object verified) => A_enum "verified"
  end.

Definition normalizeTaskKind (kind : task_kind_input) : result arg :=
  match kind with
  | LegacyKind k | StructuredKind k =>
    match k with
    | swapExact inMint outMint amountIn minOut =>
      Ok (A_data "swapExact" [("inMint", A_key inMint); ("outMint", A_key outMint); ("amountIn", A_bn amountIn); ("minOut", A_bn minOut)]%string)
    | transfer mint to amount => Ok (A_data "transfer" [("mint", A_key mint); ("to", A_key to); ("amount", A_bn amount)]%string)
    | dataFetch urlHash expectedHash =>
      let! u := toByteArray urlHash "payload.kind.urlHash" (Some 32%nat) in
      let! e := toByteArray expectedHash "payload.kind.expectedHash" (Some 32%nat) in
      Ok (A_data "dataFetch" [("urlHash", u); ("expectedHash", e)]%string)
    | compute circuitId publicInputsHash =>
      let! c := toByteArray circuitId "payload.kind.circuitId" (Some 32%nat) in
      let! p := toByteArray publicInputsHash "payload.kind.publicInputsHash" (Some 32%nat) in
      Ok (A_data "compute" [("circuitId", c); ("publicInputsHash", p)]%string)
    | generic capabilityBit argsHash =>
      let! a := toByteArray argsHash "payload.kind.argsHash" (Some 32%nat) in
      Ok (A_data "generic" [("capabilityBit", A_num capabilityBit); ("argsHash", a)]%string)
    end
  end.

Definition normalizeTaskPayload (input : payload_input) : result arg :=
  let! kind := normalizeTaskKind (pi_kind input) in
  Ok (A_struct [("kind", kind); ("capabilityBit", A_num (pi_capabilityBit input)); ("criteria", A_bytes (pi_criteria input));
                ("requiresPersonhood", normalizePersonhoodTier (pi_requiresPersonhood input))]%string).

(** ** Other inputs *)

Inductive TreasuryYieldVenue := kamino | marginfi | drift.
Inductive TreasuryYieldRiskTier := conservative | moderate | aggressive.
Inductive TreasuryYieldStrategyStatus := yield_active | yield_paused | yield_revoked.

Definition yieldVenueArg (venue : TreasuryYieldVenue) : arg :=
  A_enum (match venue with kamino => "kamino" | marginfi => "marginfi" | drift => "drift" end).

Definition yieldRiskTierArg (riskTier : TreasuryYieldRiskTier) : arg :=
  A_enum (match riskTier with conservative => "conservative" | moderate => "moderate" | aggressive => "aggressive" end).

Definition yieldStrategyStatusArg (status : TreasuryYieldStrategyStatus) : arg :=
  A_enum (match status with yield_active => "active" | yield_paused => "paused" | yield_revoked => "revoked" end).

Record snapshot_input := { totalEligibleWeight : Z; snapshotSlot : Z; snapshotRoot : list Z }.

Definition snapshotArg (s : snapshot_input) : arg :=
  A_struct [("totalEligibleWeight", A_bn (totalEligibleWeight s)); ("snapshotSlot", A_bn (snapshotSlot s));
            ("snapshotRoot", A_bytes (snapshotRoot s))]%string.

Definition AGENT_ID_LEN : nat := 32.
Definition MANIFEST_URI_LEN : nat := 128.

(** Bytes of a text in a buffer of [n] zeros. *)
Definition padded (n : nat) (text message : string) : result (list Z) :=
  let bytes := enc text in
  if (n <? length bytes)%nat then Throw message else Ok (bytes ++ repeat 0 (n - length bytes)).

Definition encodeAgentId (seed : string) : result (list Z) := padded AGENT_ID_LEN seed "agentId seed exceeds 32 bytes".

Definition encodeManifestUri (uri : string) : result (list Z) := padded MANIFEST_URI_LEN uri "manifestUri exceeds 128 bytes".

(** ** The builders *)

Section builders.
Variable PublicKey : string -> result pubkey.
Variable findProgramAddressSync : list (list Z) -> pubkey -> result (pubkey * Z).

Definition register_capabilityConfigPda (capabilityRegistry : pubkey) : result pubkey :=
  key (findProgramAddressSync [enc "config"] capabilityRegistry).

(** ** programs/task_market.ts *)

Definition buildCreateTaskIx (programId : pubkey) (ids : ProgramIdMap) (client : pubkey) (taskNonce agentDid : list Z)
    (agentOperator : pubkey) (agentId : list Z) (paymentMint : pubkey) (paymentAmount : Z) (payload : payload_input)
    (criteriaRoot : list Z) (deadline : Z) (milestoneCount : Q) : result call :=
  let! global := key (marketGlobalPda findProgramAddressSync programId) in
  let! task := key (taskPda findProgramAddressSync programId client taskNonce) in
  let! registryGlobal := key (agentRegistryGlobalPda findProgramAddressSync (ids agentRegistry)) in
  let! agentAccount := key (agentAccountPda findProgramAddressSync (ids agentRegistry) agentOperator agentId) in
  let! payloadArg := normalizeTaskPayload payload in
  Ok {| ix_method := "createTask";
        ix_args := [A_bytes taskNonce; A_bytes agentDid; A_key paymentMint; A_bn paymentAmount; payloadArg;
          A_bytes criteriaRoot; A_bn deadline; A_num milestoneCount];
        ix_accounts := [("global", Some global); ("task", Some task); ("client", Some client); ("agentRegistryProgram", Some (ids agentRegistry));
          ("registryGlobal", Some registryGlobal); ("agentAccount", Some agentAccount);
          ("systemProgram", Some (SystemProgram_programId PublicKey))];
        ix_remaining := [] |}%string.

Definition buildFundTaskIx (programId : pubkey) (client task paymentMint clientTokenAccount : pubkey)
    (tokenProgramId : option pubkey) : result call :=
  let! global := key (marketGlobalPda findProgramAddressSync programId) in
  let! escrow := key (taskEscrowPda findProgramAddressSync programId task) in
  let! guard := key (guardPda findProgramAddressSync programId) in
  Ok {| ix_method := "fundTask";
        ix_args := [];
        ix_accounts := [("global", Some global); ("task", Some task); ("paymentMint", Some paymentMint); ("escrow", Some escrow);
          ("clientTokenAccount", Some clientTokenAccount); ("hookAllowlist", None); ("guard", Some guard); ("client", Some client);
          ("tokenProgram", Some (default (TOKEN_2022_PROGRAM_ID PublicKey) tokenProgramId));
          ("systemProgram", Some (SystemProgram_programId PublicKey))];
        ix_remaining := [] |}%string.

Definition buildSubmitResultIx (programId : pubkey) (ids : ProgramIdMap) (operator task agentAccount : pubkey)
    (resultHash proofKey : list Z) : result call :=
  let! global := key (marketGlobalPda findProgramAddressSync programId) in
  let! guard := key (guardPda findProgramAddressSync programId) in
  Ok {| ix_method := "submitResult";
        ix_args := [A_bytes resultHash; A_bytes proofKey];
        ix_accounts := [("global", Some global); ("task", Some task); ("operator", Some operator); ("agentRegistryProgram", Some (ids agentRegistry));
          ("agentAccount", Some agentAccount); ("guard", Some guard)];
        ix_remaining := [] |}%string.

Definition buildVerifyTaskIx (programId : pubkey) (ids : ProgramIdMap) (cranker task verifierKey : pubkey)
    (vkId proofA proofB proofC : list Z) : result call :=
  let! global := key (marketGlobalPda findProgramAddressSync programId) in
  let! verConfig := key (verifierConfigPda findProgramAddressSync (ids proofVerifier)) in
  let! vk := key (verifierKeyPda findProgramAddressSync (ids proofVerifier) vkId) in
  let! mode := key (verifierModePda findProgramAddressSync (ids proofVerifier)) in
  let! guard := key (reentrancyGuardPda findProgramAddressSync programId) in
  let! verifierSelfGuard := key (reentrancyGuardPda findProgramAddressSync (ids proofVerifier)) in
  let! verifierAllowedCallers := key (proofVerifierAllowedCallersPda findProgramAddressSync (ids proofVerifier)) in
  Ok {| ix_method := "verifyTask";
        ix_args := [A_bytes proofA; A_bytes proofB; A_bytes proofC];
        ix_accounts := [("global", Some global); ("task", Some task); ("proofVerifierProgram", Some (ids proofVerifier));
          ("verifierConfig", Some verConfig); ("verifierKey", Some vk); ("verifierMode", Some mode); ("guard", Some guard);
          ("verifierSelfGuard", Some verifierSelfGuard); ("verifierAllowedCallers", Some verifierAllowedCallers);
          ("instructions", Some (SYSVAR_INSTRUCTIONS_PUBKEY PublicKey)); ("cranker", Some cranker)];
        ix_remaining := [] |}%string.

Definition buildReleaseIx (programId : pubkey) (ids : ProgramIdMap)
    (cranker task paymentMint agentTokenAccount feeCollectorTokenAccount solrepPoolTokenAccount agentAccount client : pubkey)
    (hookAllowlist tokenProgramId : option pubkey) : result call :=
  let! global := key (marketGlobalPda findProgramAddressSync programId) in
  let! escrow := key (taskEscrowPda findProgramAddressSync programId task) in
  let! registryGlobal := key (agentRegistryGlobalPda findProgramAddressSync (ids agentRegistry)) in
  let! guard := key (reentrancyGuardPda findProgramAddressSync programId) in
  Ok {| ix_method := "release";
        ix_args := [];
        ix_accounts := [("global", Some global); ("task", Some task); ("paymentMint", Some paymentMint); ("escrow", Some escrow);
          ("agentTokenAccount", Some agentTokenAccount); ("feeCollectorTokenAccount", Some feeCollectorTokenAccount);
          ("solrepPoolTokenAccount", Some solrepPoolTokenAccount); ("agentRegistryProgram", Some (ids agentRegistry));
          ("registryGlobal", Some registryGlobal); ("agentAccount", Some agentAccount); ("selfProgram", Some (ids taskMarket));
          ("hookAllowlist", hookAllowlist); ("guard", Some guard); ("cranker", Some cranker);
          ("tokenProgram", Some (default (TOKEN_2022_PROGRAM_ID PublicKey) tokenProgramId))];
        ix_remaining := [] |}%string.

Definition buildExpireIx (programId : pubkey) (ids : ProgramIdMap)
    (cranker task paymentMint clientTokenAccount client agentAccount : pubkey) (tokenProgramId : option pubkey) : result call :=
  let! global := key (marketGlobalPda findProgramAddressSync programId) in
  let! escrow := key (taskEscrowPda findProgramAddressSync programId task) in
  let! registryGlobal := key (agentRegistryGlobalPda findProgramAddressSync (ids agentRegistry)) in
  Ok {| ix_method := "expire";
        ix_args := [];
        ix_accounts := [("global", Some global); ("task", Some task); ("paymentMint", Some paymentMint); ("escrow", Some escrow);
          ("clientTokenAccount", Some clientTokenAccount); ("client", Some client); ("agentRegistryProgram", Some (ids agentRegistry));
          ("registryGlobal", Some registryGlobal); ("agentAccount", Some agentAccount); ("selfProgram", Some (ids taskMarket));
          ("cranker", Some cranker); ("tokenProgram", Some (default (TOKEN_2022_PROGRAM_ID PublicKey) tokenProgramId))];
        ix_remaining := [] |}%string.

Definition buildRaiseDisputeIx (programId : pubkey) (client task : pubkey) : result call :=
  Ok {| ix_method := "raiseDispute";
        ix_args := [];
        ix_accounts := [("task", Some task); ("client", Some client)];
        ix_remaining := [] |}%string.

Definition buildDisputedTimeoutRefundIx (programId : pubkey) (cranker client task paymentMint clientTokenAccount : pubkey)
    (tokenProgramId : option pubkey) : result call :=
  let! global := key (marketGlobalPda findProgramAddressSync programId) in
  let! escrow := key (taskEscrowPda findProgramAddressSync programId task) in
  Ok {| ix_method := "disputedTimeoutRefund";
        ix_args := [];
        ix_accounts := [("global", Some global); ("task", Some task); ("paymentMint", Some paymentMint); ("escrow", Some escrow);
          ("clientTokenAccount", Some clientTokenAccount); ("client", Some client); ("cranker", Some cranker);
          ("tokenProgram", Some (default (TOKEN_2022_PROGRAM_ID PublicKey) tokenProgramId))];
        ix_remaining := [] |}%string.

Definition buildOpenBiddingIx (programId : pubkey) (client task : pubkey) (taskId : list Z) (paymentMint : pubkey)
    (commitSecs revealSecs : Z) (bondBps : Q) (tokenProgramId : option pubkey) : result call :=
  let! global := key (marketGlobalPda findProgramAddressSync programId) in
  let! bidBook := key (bidBookPda findProgramAddressSync programId taskId) in
  let! bondEscrow := key (bondEscrowPda findProgramAddressSync programId taskId) in
  Ok {| ix_method := "openBidding";
        ix_args := [A_bn commitSecs; A_bn revealSecs; A_num bondBps];
        ix_accounts := [("global", Some global); ("task", Some task); ("bidBook", Some bidBook); ("paymentMint", Some paymentMint);
          ("bondEscrow", Some bondEscrow); ("client", Some client);
          ("tokenProgram", Some (default (TOKEN_2022_PROGRAM_ID PublicKey) tokenProgramId));
          ("systemProgram", Some (SystemProgram_programId PublicKey))];
        ix_remaining := [] |}%string.

Definition buildCommitBidIx (programId : pubkey) (ids : ProgramIdMap) (bidder task : pubkey) (taskId : list Z)
    (paymentMint bidderTokenAccount agentOperator : pubkey) (agentId agentDid commitHash : list Z)
    (tokenProgramId : option pubkey) : result call :=
  let! global := key (marketGlobalPda findProgramAddressSync programId) in
  let! registryGlobal := key (agentRegistryGlobalPda findProgramAddressSync (ids agentRegistry)) in
  let! bidBook := key (bidBookPda findProgramAddressSync programId taskId) in
  let! bid := key (bidPda findProgramAddressSync programId taskId bidder) in
  let! bondEscrow := key (bondEscrowPda findProgramAddressSync programId taskId) in
  let! agentAccount := key (agentAccountPda findProgramAddressSync (ids agentRegistry) agentOperator agentId) in
  Ok {| ix_method := "commitBid";
        ix_args := [A_bytes commitHash; A_bytes agentDid];
        ix_accounts := [("global", Some global); ("task", Some task); ("bidBook", Some bidBook); ("bid", Some bid); ("paymentMint", Some paymentMint);
          ("bondEscrow", Some bondEscrow); ("bidderTokenAccount", Some bidderTokenAccount); ("bidder", Some bidder);
          ("agentRegistryProgram", Some (ids agentRegistry)); ("registryGlobal", Some registryGlobal); ("agentAccount", Some agentAccount);
          ("personhoodAttestation", None); ("capabilityTag", None); ("hookAllowlist", None);
          ("tokenProgram", Some (default (TOKEN_2022_PROGRAM_ID PublicKey) tokenProgramId));
          ("systemProgram", Some (SystemProgram_programId PublicKey))];
        ix_remaining := [] |}%string.

Definition buildRevealBidIx (programId : pubkey) (bidder task : pubkey) (taskId : list Z) (amount : Z) (nonce : list Z) : result call :=
  let! bidBook := key (bidBookPda findProgramAddressSync programId taskId) in
  let! bid := key (bidPda findProgramAddressSync programId taskId bidder) in
  Ok {| ix_method := "revealBid";
        ix_args := [A_bn amount; A_bytes nonce];
        ix_accounts := [("task", Some task); ("bidBook", Some bidBook); ("bid", Some bid); ("bidder", Some bidder)];
        ix_remaining := [] |}%string.

Definition buildCloseBiddingIx (programId : pubkey) (cranker task : pubkey) (taskId : list Z) : result call :=
  let! global := key (marketGlobalPda findProgramAddressSync programId) in
  let! bidBook := key (bidBookPda findProgramAddressSync programId taskId) in
  let! guard := key (reentrancyGuardPda findProgramAddressSync programId) in
  Ok {| ix_method := "closeBidding";
        ix_args := [];
        ix_accounts := [("global", Some global); ("task", Some task); ("bidBook", Some bidBook); ("guard", Some guard); ("cranker", Some cranker)];
        ix_remaining := [] |}%string.

Definition buildClaimBondIx (programId : pubkey) (bidder task : pubkey) (taskId : list Z)
    (paymentMint bidderTokenAccount feeCollectorTokenAccount : pubkey) (tokenProgramId : option pubkey) : result call :=
  let! global := key (marketGlobalPda findProgramAddressSync programId) in
  let! bidBook := key (bidBookPda findProgramAddressSync programId taskId) in
  let! bid := key (bidPda findProgramAddressSync programId taskId bidder) in
  let! bondEscrow := key (bondEscrowPda findProgramAddressSync programId taskId) in
  Ok {| ix_method := "claimBond";
        ix_args := [];
        ix_accounts := [("global", Some global); ("task", Some task); ("bidBook", Some bidBook); ("bid", Some bid); ("paymentMint", Some paymentMint);
          ("bondEscrow", Some bondEscrow); ("bidderTokenAccount", Some bidderTokenAccount);
          ("feeCollectorTokenAccount", Some feeCollectorTokenAccount); ("bidder", Some bidder);
          ("tokenProgram", Some (default (TOKEN_2022_PROGRAM_ID PublicKey) tokenProgramId))];
        ix_remaining := [] |}%string.

Definition buildCancelBiddingIx (programId : pubkey) (client task : pubkey) (taskId : list Z) (paymentMint : pubkey)
    (tokenProgramId : option pubkey) : result call :=
  let! bidBook := key (bidBookPda findProgramAddressSync programId taskId) in
  let! bondEscrow := key (bondEscrowPda findProgramAddressSync programId taskId) in
  Ok {| ix_method := "cancelBidding";
        ix_args := [];
        ix_accounts := [("task", Some task); ("bidBook", Some bidBook); ("paymentMint", Some paymentMint); ("bondEscrow", Some bondEscrow);
          ("client", Some client); ("tokenProgram", Some (default (TOKEN_2022_PROGRAM_ID PublicKey) tokenProgramId))];
        ix_remaining := [] |}%string.

Definition buildCancelUnfundedTaskIx (programId : pubkey) (client task : pubkey) : result call :=
  Ok {| ix_method := "cancelUnfundedTask";
        ix_args := [];
        ix_accounts := [("task", Some task); ("client", Some client)];
        ix_remaining := [] |}%string.

(** ** programs/dispute_arbitration.ts *)

Definition buildDisputeRaiseIx (programId : pubkey) (disputeCase payer : pubkey) (taskId : Z) (client agentOperator : pubkey)
    (escrowAmount : Z) (paymentMint : pubkey) : result call :=
  let! config := key (disputeConfigPda findProgramAddressSync programId) in
  let! pool := key (disputePoolPda findProgramAddressSync programId) in
  Ok {| ix_method := "raiseDispute";
        ix_args := [A_bn taskId; A_key client; A_key agentOperator; A_bn escrowAmount; A_key paymentMint];
        ix_accounts := [("config", Some config); ("disputeCase", Some disputeCase); ("pool", Some pool); ("payer", Some payer);
          ("systemProgram", Some (SystemProgram_programId PublicKey))];
        ix_remaining := [] |}%string.

Definition buildCommitVoteIx (programId : pubkey) (disputeCase arbitratorSigner operator : pubkey) (caseId : Z)
    (commitHash : list Z) : result call :=
  let! config := key (disputeConfigPda findProgramAddressSync programId) in
  let! arbitrator := key (arbitratorPda findProgramAddressSync programId arbitratorSigner) in
  let! voteRecord := key (disputeVotePda findProgramAddressSync programId caseId arbitrator) in
  Ok {| ix_method := "commitVote";
        ix_args := [A_bytes commitHash];
        ix_accounts := [("config", Some config); ("disputeCase", Some disputeCase); ("arbitrator", Some arbitrator); ("voteRecord", Some voteRecord);
          ("operator", Some operator); ("arbitratorSigner", Some arbitratorSigner);
          ("systemProgram", Some (SystemProgram_programId PublicKey))];
        ix_remaining := [] |}%string.

Definition buildRevealVoteIx (programId : pubkey) (disputeCase arbitratorSigner : pubkey) (caseId : Z) (verdict : variant)
    (salt : list Z) : result call :=
  let! config := key (disputeConfigPda findProgramAddressSync programId) in
  let! arbitrator := key (arbitratorPda findProgramAddressSync programId arbitratorSigner) in
  let! voteRecord := key (disputeVotePda findProgramAddressSync programId caseId arbitrator) in
  Ok {| ix_method := "revealVote";
        ix_args := [A_enum verdict; A_bytes salt];
        ix_accounts := [("config", Some config); ("disputeCase", Some disputeCase); ("arbitrator", Some arbitrator); ("voteRecord", Some voteRecord);
          ("arbitratorSigner", Some arbitratorSigner)];
        ix_remaining := [] |}%string.

Definition buildResolveDisputeIx (programId : pubkey) (disputeCase cranker : pubkey) : result call :=
  let! config := key (disputeConfigPda findProgramAddressSync programId) in
  Ok {| ix_method := "resolveDispute";
        ix_args := [];
        ix_accounts := [("config", Some config); ("disputeCase", Some disputeCase); ("cranker", Some cranker)];
        ix_remaining := [] |}%string.

Definition buildEscalateAppealIx (programId : pubkey) (disputeCase appellant : pubkey) (caseId : Z) : result call :=
  let! config := key (disputeConfigPda findProgramAddressSync programId) in
  let! appealRecord := key (appealPda findProgramAddressSync programId caseId) in
  Ok {| ix_method := "escalateAppeal";
        ix_args := [];
        ix_accounts := [("config", Some config); ("disputeCase", Some disputeCase); ("appealRecord", Some appealRecord); ("appellant", Some appellant);
          ("systemProgram", Some (SystemProgram_programId PublicKey))];
        ix_remaining := [] |}%string.

Definition buildRegisterArbitratorIx (programId : pubkey) (operator stakeAccount : pubkey) (effectiveStake lockEnd : Z) : result call :=
  let! config := key (disputeConfigPda findProgramAddressSync programId) in
  let! arbitrator := key (arbitratorPda findProgramAddressSync programId operator) in
  Ok {| ix_method := "registerArbitrator";
        ix_args := [A_bn effectiveStake; A_bn lockEnd];
        ix_accounts := [("config", Some config); ("arbitrator", Some arbitrator); ("stakeAccount", Some stakeAccount); ("operator", Some operator);
          ("systemProgram", Some (SystemProgram_programId PublicKey))];
        ix_remaining := [] |}%string.

Definition buildSlashArbitratorIx (programId : pubkey) (disputeCase arbitratorOperator proposer : pubkey) (reasonCode : Q) : result call :=
  let! config := key (disputeConfigPda findProgramAddressSync programId) in
  let! arbitrator := key (arbitratorPda findProgramAddressSync programId arbitratorOperator) in
  let! pendingSlash := key (pendingSlashPda findProgramAddressSync programId arbitratorOperator) in
  Ok {| ix_method := "slashArbitrator";
        ix_args := [A_num reasonCode];
        ix_accounts := [("config", Some config); ("disputeCase", Some disputeCase); ("arbitrator", Some arbitrator); ("pendingSlash", Some pendingSlash);
          ("authority", Some proposer); ("systemProgram", Some (SystemProgram_programId PublicKey))];
        ix_remaining := [] |}%string.

Definition buildTallyRoundIx (programId : pubkey) (disputeCase cranker : pubkey) : result call :=
  Ok {| ix_method := "tallyRound";
        ix_args := [];
        ix_accounts := [("disputeCase", Some disputeCase); ("cranker", Some cranker)];
        ix_remaining := [] |}%string.

(** ** programs/treasury_standard.ts *)

Definition MAX_YIELD_ROUTE_DATA_LEN : nat := 512.

Definition assertYieldMovementInput (agentDid strategyId routeData : list Z) : result unit :=
  let! _ := sized agentDid 32 "agentDid must be 32 bytes" in
  let! _ := sized strategyId 32 "strategyId must be 32 bytes" in
  let! _ := check (negb (length routeData =? 0)%nat) "routeData is required" in
  check (negb (MAX_YIELD_ROUTE_DATA_LEN <? length routeData)%nat) "routeData exceeds 512 bytes".

Record yield_pdas := {
  yp_global : pubkey; yp_allowedMints : pubkey; yp_treasury : pubkey; yp_strategy : pubkey; yp_yieldConfig : pubkey;
  yp_position : pubkey; yp_vault : pubkey; yp_receiptVault : pubkey; yp_guard : pubkey;
}.

Definition yieldMovementPdas (programId : pubkey) (agentDid strategyId : list Z) (mint : pubkey) : result yield_pdas :=
  let! global := key (treasuryGlobalPda findProgramAddressSync programId) in
  let! allowedMints := key (treasuryAllowedMintsPda findProgramAddressSync programId) in
  let! treasury := key (treasuryPda findProgramAddressSync programId agentDid) in
  let! strategy := key (treasuryYieldStrategyPda findProgramAddressSync programId strategyId) in
  let! yieldConfig := key (treasuryYieldConfigPda findProgramAddressSync programId agentDid) in
  let! position := key (treasuryYieldPositionPda findProgramAddressSync programId agentDid strategyId mint) in
  let! vault := key (vaultPda findProgramAddressSync programId agentDid mint) in
  let! receiptVault := key (treasuryYieldReceiptVaultPda findProgramAddressSync programId position) in
  let! guard := key (reentrancyGuardPda findProgramAddressSync programId) in
  Ok {| yp_global := global; yp_allowedMints := allowedMints; yp_treasury := treasury; yp_strategy := strategy;
        yp_yieldConfig := yieldConfig; yp_position := position; yp_vault := vault; yp_receiptVault := receiptVault; yp_guard := guard |}.

Definition buildInitTreasuryIx (programId : pubkey) (ids : ProgramIdMap) (operator : pubkey) (agentDid : list Z)
    (agentOperator : pubkey) (agentId : list Z) (dailySpendLimit perTxLimit weeklyLimit : Z) : result call :=
  let! global := key (treasuryGlobalPda findProgramAddressSync programId) in
  let! treasury := key (treasuryPda findProgramAddressSync programId agentDid) in
  let! registryGlobal := key (agentRegistryGlobalPda findProgramAddressSync (ids agentRegistry)) in
  let! agentAccount := key (agentAccountPda findProgramAddressSync (ids agentRegistry) agentOperator agentId) in
  Ok {| ix_method := "initTreasury";
        ix_args := [A_bytes agentDid; A_bn dailySpendLimit; A_bn perTxLimit; A_bn weeklyLimit];
        ix_accounts := [("global", Some global); ("treasury", Some treasury); ("operator", Some operator);
          ("agentRegistryProgram", Some (ids agentRegistry)); ("registryGlobal", Some registryGlobal); ("agentAccount", Some agentAccount);
          ("systemProgram", Some (SystemProgram_programId PublicKey))];
        ix_remaining := [] |}%string.

Definition buildSetLimitsIx (programId : pubkey) (operator : pubkey) (agentDid : list Z) (daily perTx weekly : Z) : result call :=
  let! global := key (treasuryGlobalPda findProgramAddressSync programId) in
  let! treasury := key (treasuryPda findProgramAddressSync programId agentDid) in
  Ok {| ix_method := "setLimits";
        ix_args := [A_bn daily; A_bn perTx; A_bn weekly];
        ix_accounts := [("global", Some global); ("treasury", Some treasury); ("operator", Some operator)];
        ix_remaining := [] |}%string.

Definition buildWithdrawIx (programId : pubkey) (operator : pubkey) (agentDid : list Z) (mint destination : pubkey)
    (amount : Z) (priceFeed : option pubkey) : result call :=
  let! global := key (treasuryGlobalPda findProgramAddressSync programId) in
  let! treasury := key (treasuryPda findProgramAddressSync programId agentDid) in
  let! vault := key (vaultPda findProgramAddressSync programId agentDid mint) in
  Ok {| ix_method := "withdraw";
        ix_args := [A_bn amount];
        ix_accounts := [("global", Some global); ("treasury", Some treasury); ("mint", Some mint); ("vault", Some vault);
          ("destination", Some destination); ("priceFeed", priceFeed); ("operator", Some operator);
          ("tokenProgram", Some (TOKEN_2022_PROGRAM_ID PublicKey))];
        ix_remaining := [] |}%string.

Definition buildInitStreamIx (programId : pubkey) (client : pubkey) (agentDid streamNonce : list Z)
    (payerMint payoutMint clientTokenAccount : pubkey) (ratePerSec maxDuration : Z) : result call :=
  let! global := key (treasuryGlobalPda findProgramAddressSync programId) in
  let! allowedMints := key (treasuryAllowedMintsPda findProgramAddressSync programId) in
  let! treasury := key (treasuryPda findProgramAddressSync programId agentDid) in
  let! stream := key (streamPda findProgramAddressSync programId agentDid client streamNonce) in
  let! escrow := key (streamEscrowPda findProgramAddressSync programId stream) in
  Ok {| ix_method := "initStream";
        ix_args := [A_bytes streamNonce; A_bn ratePerSec; A_bn maxDuration];
        ix_accounts := [("global", Some global); ("allowedMints", Some allowedMints); ("treasury", Some treasury); ("stream", Some stream);
          ("payerMint", Some payerMint); ("payoutMint", Some payoutMint); ("escrow", Some escrow);
          ("clientTokenAccount", Some clientTokenAccount); ("client", Some client);
          ("tokenProgram", Some (TOKEN_2022_PROGRAM_ID PublicKey)); ("systemProgram", Some (SystemProgram_programId PublicKey));
          ("rent", Some (SYSVAR_RENT PublicKey))];
        ix_remaining := [] |}%string.

Definition buildCloseStreamIx (programId : pubkey) (signer stream treasury payerMint : pubkey) (agentDid : list Z)
    (clientTokenAccount : pubkey) : result call :=
  let! escrow := key (streamEscrowPda findProgramAddressSync programId stream) in
  let! agentVault := key (vaultPda findProgramAddressSync programId agentDid payerMint) in
  Ok {| ix_method := "closeStream";
        ix_args := [];
        ix_accounts := [("treasury", Some treasury); ("stream", Some stream); ("payerMint", Some payerMint); ("escrow", Some escrow);
          ("agentVault", Some agentVault); ("clientTokenAccount", Some clientTokenAccount); ("signer", Some signer);
          ("tokenProgram", Some (TOKEN_2022_PROGRAM_ID PublicKey))];
        ix_remaining := [] |}%string.

Definition buildWithdrawEarnedIx (programId : pubkey) (operator : pubkey) (agentDid : list Z)
    (stream payerMint payoutMint jupiterProgram : pubkey) (routeData : list Z)
    (payerPriceFeed payoutPriceFeed allowedTargets hookAllowlist agentHooks tokenProgramId : option pubkey) : result call :=
  let! global := key (treasuryGlobalPda findProgramAddressSync programId) in
  let! treasury := key (treasuryPda findProgramAddressSync programId agentDid) in
  let! escrow := key (streamEscrowPda findProgramAddressSync programId stream) in
  let! agentVault := key (vaultPda findProgramAddressSync programId agentDid payoutMint) in
  let! guard := key (reentrancyGuardPda findProgramAddressSync programId) in
  Ok {| ix_method := "withdrawEarned";
        ix_args := [A_bytes routeData];
        ix_accounts := [("global", Some global); ("treasury", Some treasury); ("allowedTargets", allowedTargets); ("stream", Some stream);
          ("payerMint", Some payerMint); ("payoutMint", Some payoutMint); ("escrow", Some escrow); ("agentVault", Some agentVault);
          ("jupiterProgram", Some jupiterProgram); ("payerPriceFeed", payerPriceFeed); ("payoutPriceFeed", payoutPriceFeed);
          ("hookAllowlist", hookAllowlist); ("agentHooks", agentHooks); ("guard", Some guard); ("operator", Some operator);
          ("tokenProgram", Some (default (TOKEN_2022_PROGRAM_ID PublicKey) tokenProgramId))];
        ix_remaining := [] |}%string.

Definition buildRegisterYieldStrategyIx (programId : pubkey) (authority : pubkey) (strategyId : list Z)
    (venue : TreasuryYieldVenue) (strategyProgram underlyingMint receiptMint : pubkey) (maxAllocationBps : Q)
    (riskTier : TreasuryYieldRiskTier) (name metadataUri : string) : result call :=
  let! global := key (treasuryGlobalPda findProgramAddressSync programId) in
  let! strategy := key (treasuryYieldStrategyPda findProgramAddressSync programId strategyId) in
  Ok {| ix_method := "registerYieldStrategy";
        ix_args := [A_bytes strategyId; yieldVenueArg venue; A_key strategyProgram; A_key underlyingMint; A_key receiptMint;
          A_num maxAllocationBps; yieldRiskTierArg riskTier; A_string name; A_string metadataUri];
        ix_accounts := [("global", Some global); ("strategy", Some strategy); ("authority", Some authority);
          ("systemProgram", Some (SystemProgram_programId PublicKey))];
        ix_remaining := [] |}%string.

Definition buildSetYieldStrategyStatusIx (programId : pubkey) (authority : pubkey) (strategyId : list Z)
    (status : TreasuryYieldStrategyStatus) : result call :=
  let! global := key (treasuryGlobalPda findProgramAddressSync programId) in
  let! strategy := key (treasuryYieldStrategyPda findProgramAddressSync programId strategyId) in
  Ok {| ix_method := "setYieldStrategyStatus";
        ix_args := [yieldStrategyStatusArg status];
        ix_accounts := [("global", Some global); ("strategy", Some strategy); ("authority", Some authority)];
        ix_remaining := [] |}%string.

Definition buildSetTreasuryYieldConfigIx (programId : pubkey) (operator : pubkey) (agentDid strategyId : list Z)
    (allocationBps : Q) (paused : option bool) : result call :=
  let! global := key (treasuryGlobalPda findProgramAddressSync programId) in
  let! treasury := key (treasuryPda findProgramAddressSync programId agentDid) in
  let! strategy := key (treasuryYieldStrategyPda findProgramAddressSync programId strategyId) in
  let! yieldConfig := key (treasuryYieldConfigPda findProgramAddressSync programId agentDid) in
  Ok {| ix_method := "setTreasuryYieldConfig";
        ix_args := [A_bytes agentDid; A_bytes strategyId; A_num allocationBps; A_bool (default false paused)];
        ix_accounts := [("global", Some global); ("treasury", Some treasury); ("strategy", Some strategy); ("yieldConfig", Some yieldConfig);
          ("operator", Some operator); ("systemProgram", Some (SystemProgram_programId PublicKey))];
        ix_remaining := [] |}%string.

Definition buildRequestTreasuryYieldUnwindIx (programId : pubkey) (operator : pubkey) (agentDid : list Z) : result call :=
  let! global := key (treasuryGlobalPda findProgramAddressSync programId) in
  let! treasury := key (treasuryPda findProgramAddressSync programId agentDid) in
  let! yieldConfig := key (treasuryYieldConfigPda findProgramAddressSync programId agentDid) in
  Ok {| ix_method := "requestTreasuryYieldUnwind";
        ix_args := [];
        ix_accounts := [("global", Some global); ("treasury", Some treasury); ("yieldConfig", Some yieldConfig); ("operator", Some operator)];
        ix_remaining := [] |}%string.

Definition buildRecordTreasuryYieldAccountingIx (programId : pubkey) (authority : pubkey) (agentDid : list Z)
    (idleAmount deployedAmount realizedYieldAmount accountingSlot : Z) : result call :=
  let! global := key (treasuryGlobalPda findProgramAddressSync programId) in
  let! yieldConfig := key (treasuryYieldConfigPda findProgramAddressSync programId agentDid) in
  Ok {| ix_method := "recordTreasuryYieldAccounting";
        ix_args := [A_bn idleAmount; A_bn deployedAmount; A_bn realizedYieldAmount; A_bn accountingSlot];
        ix_accounts := [("global", Some global); ("yieldConfig", Some yieldConfig); ("authority", Some authority)];
        ix_remaining := [] |}%string.

Definition buildDepositToYieldStrategyIx (programId : pubkey) (agentDid strategyId : list Z)
    (mint receiptMint kaminoProgram : pubkey) (routeData : list Z) (routeAccounts : option (list AccountMeta))
    (allowedTargets tokenProgramId : option pubkey) (operator : pubkey) (amount : Z) (priceFeed : option pubkey) : result call :=
  let! _ := assertYieldMovementInput agentDid strategyId routeData in
  let! _ := check (negb (amount <=? 0)) "amount must be greater than zero" in
  let! pdas := yieldMovementPdas programId agentDid strategyId mint in
  Ok {| ix_method := "depositToYieldStrategy";
        ix_args := [A_bn amount; A_bytes routeData];
        ix_accounts := [("global", Some (yp_global pdas)); ("treasury", Some (yp_treasury pdas)); ("allowedMints", Some (yp_allowedMints pdas));
          ("allowedTargets", allowedTargets); ("strategy", Some (yp_strategy pdas)); ("yieldConfig", Some (yp_yieldConfig pdas));
          ("position", Some (yp_position pdas)); ("mint", Some mint); ("receiptMint", Some receiptMint); ("vault", Some (yp_vault pdas));
          ("receiptVault", Some (yp_receiptVault pdas)); ("kaminoProgram", Some kaminoProgram); ("priceFeed", priceFeed);
          ("guard", Some (yp_guard pdas)); ("operator", Some operator);
          ("tokenProgram", Some (default (TOKEN_2022_PROGRAM_ID PublicKey) tokenProgramId));
          ("systemProgram", Some (SystemProgram_programId PublicKey)); ("rent", Some (SYSVAR_RENT PublicKey))];
        ix_remaining := default [] routeAccounts |}%string.

Definition buildWithdrawFromYieldStrategyIx (programId : pubkey) (agentDid strategyId : list Z)
    (mint receiptMint kaminoProgram : pubkey) (routeData : list Z) (routeAccounts : option (list AccountMeta))
    (allowedTargets tokenProgramId : option pubkey) (operator : pubkey) (receiptAmount : Z) : result call :=
  let! _ := assertYieldMovementInput agentDid strategyId routeData in
  let! _ := check (negb (receiptAmount <=? 0)) "receiptAmount must be greater than zero" in
  let! pdas := yieldMovementPdas programId agentDid strategyId mint in
  Ok {| ix_method := "withdrawFromYieldStrategy";
        ix_args := [A_bn receiptAmount; A_bytes routeData];
        ix_accounts := [("global", Some (yp_global pdas)); ("treasury", Some (yp_treasury pdas)); ("allowedTargets", allowedTargets);
          ("strategy", Some (yp_strategy pdas)); ("yieldConfig", Some (yp_yieldConfig pdas)); ("position", Some (yp_position pdas));
          ("mint", Some mint); ("receiptMint", Some receiptMint); ("vault", Some (yp_vault pdas));
          ("receiptVault", Some (yp_receiptVault pdas)); ("kaminoProgram", Some kaminoProgram); ("guard", Some (yp_guard pdas));
          ("operator", Some operator); ("tokenProgram", Some (default (TOKEN_2022_PROGRAM_ID PublicKey) tokenProgramId))];
        ix_remaining := default [] routeAccounts |}%string.

Definition buildEmergencyUnwindYieldStrategyIx (programId : pubkey) (agentDid strategyId : list Z)
    (mint receiptMint kaminoProgram : pubkey) (routeData : list Z) (routeAccounts : option (list AccountMeta))
    (allowedTargets tokenProgramId : option pubkey) (authority : pubkey) : result call :=
  let! _ := assertYieldMovementInput agentDid strategyId routeData in
  let! pdas := yieldMovementPdas programId agentDid strategyId mint in
  Ok {| ix_method := "emergencyUnwindYieldStrategy";
        ix_args := [A_bytes routeData];
        ix_accounts := [("global", Some (yp_global pdas)); ("treasury", Some (yp_treasury pdas)); ("allowedTargets", allowedTargets);
          ("strategy", Some (yp_strategy pdas)); ("yieldConfig", Some (yp_yieldConfig pdas)); ("position", Some (yp_position pdas));
          ("mint", Some mint); ("receiptMint", Some receiptMint); ("vault", Some (yp_vault pdas));
          ("receiptVault", Some (yp_receiptVault pdas)); ("kaminoProgram", Some kaminoProgram); ("guard", Some (yp_guard pdas));
          ("authority", Some authority); ("tokenProgram", Some (default (TOKEN_2022_PROGRAM_ID PublicKey) tokenProgramId))];
        ix_remaining := default [] routeAccounts |}%string.

(** ** programs/agent_registry.ts *)

Definition buildUpdateManifestIx (programId : pubkey) (operator agent : pubkey) (manifestUri : string)
    (capabilityMask priceLamports streamRate : Z) (capabilityRegistryProgramId : pubkey) : result call :=
  let! global := key (agentRegistryGlobalPda findProgramAddressSync programId) in
  let! capConfig := key (capabilityConfigPda findProgramAddressSync capabilityRegistryProgramId) in
  let! manifestBytes := encodeManifestUri manifestUri in
  Ok {| ix_method := "updateManifest";
        ix_args := [A_bytes manifestBytes; A_bn capabilityMask; A_bn priceLamports; A_bn streamRate];
        ix_accounts := [("global", Some global); ("capabilityConfig", Some capConfig); ("agent", Some agent); ("operator", Some operator)];
        ix_remaining := [] |}%string.

Definition buildStakeIncreaseIx (programId : pubkey) (operator agent stakeMint operatorTokenAccount : pubkey) (amount : Z) : result call :=
  let! global := key (agentRegistryGlobalPda findProgramAddressSync programId) in
  let! stakeVault := key (agentStakePda findProgramAddressSync programId agent) in
  Ok {| ix_method := "stakeIncrease";
        ix_args := [A_bn amount];
        ix_accounts := [("global", Some global); ("agent", Some agent); ("stakeMint", Some stakeMint); ("stakeVault", Some stakeVault);
          ("operatorTokenAccount", Some operatorTokenAccount); ("operator", Some operator);
          ("tokenProgram", Some (TOKEN_2022_PROGRAM_ID PublicKey))];
        ix_remaining := [] |}%string.

Definition buildRequestStakeWithdrawIx (programId : pubkey) (operator agent : pubkey) (amount : Z) : result call :=
  let! global := key (agentRegistryGlobalPda findProgramAddressSync programId) in
  Ok {| ix_method := "stakeWithdrawRequest";
        ix_args := [A_bn amount];
        ix_accounts := [("global", Some global); ("agent", Some agent); ("operator", Some operator)];
        ix_remaining := [] |}%string.

Definition buildExecuteStakeWithdrawIx (programId : pubkey) (operator agent stakeMint operatorTokenAccount : pubkey) : result call :=
  let! global := key (agentRegistryGlobalPda findProgramAddressSync programId) in
  let! stakeVault := key (agentStakePda findProgramAddressSync programId agent) in
  Ok {| ix_method := "stakeWithdrawExecute";
        ix_args := [];
        ix_accounts := [("global", Some global); ("agent", Some agent); ("stakeMint", Some stakeMint); ("stakeVault", Some stakeVault);
          ("operatorTokenAccount", Some operatorTokenAccount); ("operator", Some operator);
          ("tokenProgram", Some (TOKEN_2022_PROGRAM_ID PublicKey))];
        ix_remaining := [] |}%string.

Definition buildDeregisterIx (programId : pubkey) (operator agent : pubkey) : result call :=
  let! global := key (agentRegistryGlobalPda findProgramAddressSync programId) in
  Ok {| ix_method := "setStatus";
        ix_args := [A_enum "deregistered"];
        ix_accounts := [("global", Some global); ("agent", Some agent); ("signer", Some operator)];
        ix_remaining := [] |}%string.

Definition buildReactivateIx (programId : pubkey) (operator agent : pubkey) : result call :=
  let! global := key (agentRegistryGlobalPda findProgramAddressSync programId) in
  Ok {| ix_method := "setStatus";
        ix_args := [A_enum "active"];
        ix_accounts := [("global", Some global); ("agent", Some agent); ("signer", Some operator)];
        ix_remaining := [] |}%string.

(** ** programs/register_agent.ts *)

Definition buildRegisterAgentIx (programId : pubkey) (operator : pubkey) (agentId : list Z) (manifestUri : string)
    (capabilityMask priceLamports streamRate stakeAmount : Z)
    (stakeMint operatorTokenAccount capabilityRegistryProgramId : pubkey) (personhoodAttestation tokenProgramId : option pubkey) : result call :=
  let! global := key (agentRegistryGlobalPda findProgramAddressSync programId) in
  let! agent := key (agentAccountPda findProgramAddressSync programId operator agentId) in
  let! stakeVault := key (agentStakePda findProgramAddressSync programId agent) in
  let! guard := key (guardPda findProgramAddressSync programId) in
  let! capabilityConfig := register_capabilityConfigPda capabilityRegistryProgramId in
  let! manifestBytes := encodeManifestUri manifestUri in
  Ok {| ix_method := "registerAgent";
        ix_args := [A_bytes agentId; A_bytes manifestBytes; A_bn capabilityMask; A_bn priceLamports; A_bn streamRate;
          A_bn stakeAmount];
        ix_accounts := [("global", Some global); ("capabilityConfig", Some capabilityConfig); ("agent", Some agent); ("stakeMint", Some stakeMint);
          ("stakeVault", Some stakeVault); ("operatorTokenAccount", Some operatorTokenAccount); ("operator", Some operator);
          ("personhoodAttestation", personhoodAttestation); ("guard", Some guard);
          ("tokenProgram", Some (default (TOKEN_2022_PROGRAM_ID PublicKey) tokenProgramId));
          ("systemProgram", Some (SystemProgram_programId PublicKey)); ("rent", Some (SYSVAR_RENT_PUBKEY PublicKey))];
        ix_remaining := [] |}%string.

(** ** programs/capability_registry.ts *)

Definition buildProposeTagIx (programId : pubkey) (authority payer tag : pubkey) (bitIndex : Q) (slug manifestUri : list Z) : result call :=
  let! config := key (capabilityConfigPda findProgramAddressSync programId) in
  Ok {| ix_method := "proposeTag";
        ix_args := [A_num bitIndex; A_bytes slug; A_bytes manifestUri];
        ix_accounts := [("config", Some config); ("tag", Some tag); ("authority", Some authority); ("payer", Some payer);
          ("systemProgram", Some (SystemProgram_programId PublicKey))];
        ix_remaining := [] |}%string.

Definition buildRetireTagIx (programId : pubkey) (authority tag : pubkey) (bitIndex : Q) : result call :=
  let! config := key (capabilityConfigPda findProgramAddressSync programId) in
  Ok {| ix_method := "retireTag";
        ix_args := [A_num bitIndex];
        ix_accounts := [("config", Some config); ("tag", Some tag); ("authority", Some authority)];
        ix_remaining := [] |}%string.

Definition buildValidateMaskIx (programId : pubkey) (mask : Z) : result call :=
  let! config := key (capabilityConfigPda findProgramAddressSync programId) in
  Ok {| ix_method := "validateMask";
        ix_args := [A_bn mask];
        ix_accounts := [("config", Some config)];
        ix_remaining := [] |}%string.

(** ** programs/proof_verifier.ts *)

Definition buildRegisterVkIx (programId : pubkey) (authority payer : pubkey) (vkId alphaG1 betaG2 gammaG2 deltaG2 : list Z)
    (ic : list (list Z)) (numPublicInputs : Q) (circuitLabel : list Z) (isProduction : bool) : result call :=
  let! config := key (verifierConfigPda findProgramAddressSync programId) in
  let! vk := key (verifierKeyPda findProgramAddressSync programId vkId) in
  Ok {| ix_method := "registerVk";
        ix_args := [A_bytes vkId; A_bytes alphaG1; A_bytes betaG2; A_bytes gammaG2; A_bytes deltaG2; A_vec (map A_bytes ic);
          A_num numPublicInputs; A_bytes circuitLabel; A_bool isProduction];
        ix_accounts := [("config", Some config); ("vk", Some vk); ("authority", Some authority); ("payer", Some payer);
          ("systemProgram", Some (SystemProgram_programId PublicKey))];
        ix_remaining := [] |}%string.

Definition buildProposeVkActivationIx (programId : pubkey) (authority vk : pubkey) : result call :=
  let! config := key (verifierConfigPda findProgramAddressSync programId) in
  let! mode := key (verifierModePda findProgramAddressSync programId) in
  Ok {| ix_method := "proposeVkActivation";
        ix_args := [];
        ix_accounts := [("config", Some config); ("vk", Some vk); ("mode", Some mode); ("authority", Some authority)];
        ix_remaining := [] |}%string.

Definition buildExecuteVkActivationIx (programId : pubkey) (vk : pubkey) : result call :=
  let! config := key (verifierConfigPda findProgramAddressSync programId) in
  Ok {| ix_method := "executeVkActivation";
        ix_args := [];
        ix_accounts := [("config", Some config); ("vk", Some vk)];
        ix_remaining := [] |}%string.

Definition buildVerifyProofIx (programId : pubkey) (vk : pubkey) (proofA proofB proofC : list Z) (publicInputs : list (list Z))
    (callerGuard : pubkey) : result call :=
  let! config := key (verifierConfigPda findProgramAddressSync programId) in
  let! mode := key (verifierModePda findProgramAddressSync programId) in
  let! selfGuard := key (proofVerifierGuardPda findProgramAddressSync programId) in
  let! allowedCallers := key (proofVerifierAllowedCallersPda findProgramAddressSync programId) in
  Ok {| ix_method := "verifyProof";
        ix_args := [A_bytes proofA; A_bytes proofB; A_bytes proofC; A_vec (map A_bytes publicInputs)];
        ix_accounts := [("config", Some config); ("vk", Some vk); ("mode", Some mode); ("selfGuard", Some selfGuard);
          ("allowedCallers", Some allowedCallers); ("callerGuard", Some callerGuard);
          ("instructions", Some (SYSVAR_INSTRUCTIONS_PUBKEY PublicKey))];
        ix_remaining := [] |}%string.

(** ** programs/nxs_staking.ts *)

Definition buildStakeIx (programId : pubkey) (owner stakeMint ownerTokenAccount : pubkey) (amount lockupDurationSecs : Z)
    (tokenProgram : pubkey) : result call :=
  let! pool := key (stakingPoolPda findProgramAddressSync programId) in
  let! stakeAccount := key (stakeAccountPda findProgramAddressSync programId pool owner) in
  let! vault := key (stakeVaultPda findProgramAddressSync programId stakeAccount) in
  Ok {| ix_method := "stake";
        ix_args := [A_bn amount; A_bn lockupDurationSecs];
        ix_accounts := [("pool", Some pool); ("stakeAccount", Some stakeAccount); ("stakeMint", Some stakeMint); ("vault", Some vault);
          ("ownerTokenAccount", Some ownerTokenAccount); ("owner", Some owner); ("tokenProgram", Some tokenProgram);
          ("systemProgram", Some (SystemProgram_programId PublicKey))];
        ix_remaining := [] |}%string.

Definition buildBeginUnstakeIx (programId : pubkey) (owner : pubkey) : result call :=
  let! pool := key (stakingPoolPda findProgramAddressSync programId) in
  let! stakeAccount := key (stakeAccountPda findProgramAddressSync programId pool owner) in
  Ok {| ix_method := "beginUnstake";
        ix_args := [];
        ix_accounts := [("pool", Some pool); ("stakeAccount", Some stakeAccount); ("owner", Some owner)];
        ix_remaining := [] |}%string.

Definition buildStakeWithdrawIx (programId : pubkey) (owner stakeMint ownerTokenAccount tokenProgram : pubkey) : result call :=
  let! pool := key (stakingPoolPda findProgramAddressSync programId) in
  let! stakeAccount := key (stakeAccountPda findProgramAddressSync programId pool owner) in
  let! vault := key (stakeVaultPda findProgramAddressSync programId stakeAccount) in
  Ok {| ix_method := "withdraw";
        ix_args := [];
        ix_accounts := [("pool", Some pool); ("stakeAccount", Some stakeAccount); ("stakeMint", Some stakeMint); ("vault", Some vault);
          ("ownerTokenAccount", Some ownerTokenAccount); ("owner", Some owner); ("tokenProgram", Some tokenProgram)];
        ix_remaining := [] |}%string.

Definition buildSnapshotEpochIx (programId : pubkey) (authority : pubkey) (totalVotingPower : Z) (stakerCount : Q)
    (currentEpoch : Z) : result call :=
  let! config := key (stakingConfigPda findProgramAddressSync programId) in
  let! pool := key (stakingPoolPda findProgramAddressSync programId) in
  let! snapshot := key (votingPowerSnapshotPda findProgramAddressSync programId currentEpoch) in
  Ok {| ix_method := "snapshotEpoch";
        ix_args := [A_bn totalVotingPower; A_num stakerCount];
        ix_accounts := [("config", Some config); ("pool", Some pool); ("snapshot", Some snapshot); ("authority", Some authority);
          ("systemProgram", Some (SystemProgram_programId PublicKey))];
        ix_remaining := [] |}%string.

(** ** programs/governance_program.ts *)

Definition buildProposeIx (programId : pubkey) (proposer proposal : pubkey) (category : variant) (targetProgram : pubkey)
    (ixData metadataUri : list Z) (snapshot : snapshot_input) : result call :=
  let! config := key (govConfigPda findProgramAddressSync programId) in
  let! registry := key (programRegistryPda findProgramAddressSync programId) in
  Ok {| ix_method := "propose";
        ix_args := [A_enum category; A_key targetProgram; A_bytes ixData; A_bytes metadataUri; snapshotArg snapshot];
        ix_accounts := [("config", Some config); ("registry", Some registry); ("proposal", Some proposal); ("proposer", Some proposer);
          ("systemProgram", Some (SystemProgram_programId PublicKey))];
        ix_remaining := [] |}%string.

Definition buildVoteIx (programId : pubkey) (proposal voter : pubkey) (choice : variant) (weight : Z)
    (merkleProof : list (list Z)) : result call :=
  let! config := key (govConfigPda findProgramAddressSync programId) in
  let! voteRecord := key (govVoteRecordPda findProgramAddressSync programId proposal voter) in
  Ok {| ix_method := "vote";
        ix_args := [A_enum choice; A_bn weight; A_vec (map A_bytes merkleProof)];
        ix_accounts := [("config", Some config); ("proposal", Some proposal); ("voteRecord", Some voteRecord); ("voter", Some voter);
          ("systemProgram", Some (SystemProgram_programId PublicKey))];
        ix_remaining := [] |}%string.

Definition buildFinalizeVoteIx (programId : pubkey) (proposal cranker : pubkey) : result call :=
  let! config := key (govConfigPda findProgramAddressSync programId) in
  let! registry := key (programRegistryPda findProgramAddressSync programId) in
  Ok {| ix_method := "finalizeVote";
        ix_args := [];
        ix_accounts := [("config", Some config); ("registry", Some registry); ("proposal", Some proposal); ("cranker", Some cranker)];
        ix_remaining := [] |}%string.

Definition buildExecuteProposalIx (programId : pubkey) (proposal executor : pubkey) : result call :=
  let! config := key (govConfigPda findProgramAddressSync programId) in
  let! registry := key (programRegistryPda findProgramAddressSync programId) in
  let! executionRecord := key (executionRecordPda findProgramAddressSync programId proposal) in
  Ok {| ix_method := "executeProposal";
        ix_args := [];
        ix_accounts := [("config", Some config); ("registry", Some registry); ("proposal", Some proposal); ("executionRecord", Some executionRecord);
          ("executor", Some executor); ("systemProgram", Some (SystemProgram_programId PublicKey))];
        ix_remaining := [] |}%string.

Definition buildExpireProposalIx (programId : pubkey) (proposal cranker : pubkey) : result call :=
  Ok {| ix_method := "expireProposal";
        ix_args := [];
        ix_accounts := [("proposal", Some proposal); ("cranker", Some cranker)];
        ix_remaining := [] |}%string.

Definition buildProposerCancelIx (programId : pubkey) (proposal proposer : pubkey) : result call :=
  Ok {| ix_method := "proposerCancel";
        ix_args := [];
        ix_accounts := [("proposal", Some proposal); ("proposer", Some proposer)];
        ix_remaining := [] |}%string.

Definition buildQueueExecutionIx (programId : pubkey) (proposal cranker : pubkey) : result call :=
  Ok {| ix_method := "queueExecution";
        ix_args := [];
        ix_accounts := [("proposal", Some proposal); ("cranker", Some cranker)];
        ix_remaining := [] |}%string.

(** ** programs/fee_collector.ts *)

Definition buildClaimStakerIx (programId : pubkey) (staker saepMint stakerTokenAccount : pubkey) (epochId amount : Z)
    (merkleProof : list (list Z)) (tokenProgram : pubkey) : result call :=
  let! config := key (feeConfigPda findProgramAddressSync programId) in
  let! epoch := key (epochPda findProgramAddressSync programId epochId) in
  let! claim := key (claimPda findProgramAddressSync programId epochId staker) in
  let! stakerVault := key (stakerVaultPda findProgramAddressSync programId) in
  Ok {| ix_method := "claimStaker";
        ix_args := [A_bn epochId; A_bn amount; A_vec (map A_bytes merkleProof)];
        ix_accounts := [("config", Some config); ("epoch", Some epoch); ("claim", Some claim); ("saepMint", Some saepMint);
          ("stakerVault", Some stakerVault); ("stakerTokenAccount", Some stakerTokenAccount); ("staker", Some staker);
          ("tokenProgram", Some tokenProgram); ("systemProgram", Some (SystemProgram_programId PublicKey))];
        ix_remaining := [] |}%string.

Definition buildProcessEpochIx (programId : pubkey) (cranker saepMint grantRecipient treasuryRecipient : pubkey)
    (currentEpochId nextEpochId snapshotId : Z) (tokenProgram : pubkey) : result call :=
  let! config := key (feeConfigPda findProgramAddressSync programId) in
  let! currentEpoch := key (epochPda findProgramAddressSync programId currentEpochId) in
  let! nextEpoch := key (epochPda findProgramAddressSync programId nextEpochId) in
  let! intakeVault := key (intakeVaultPda findProgramAddressSync programId) in
  let! burnVault := key (burnVaultPda findProgramAddressSync programId) in
  let! stakerVault := key (stakerVaultPda findProgramAddressSync programId) in
  Ok {| ix_method := "processEpoch";
        ix_args := [A_bn snapshotId];
        ix_accounts := [("config", Some config); ("currentEpoch", Some currentEpoch); ("nextEpoch", Some nextEpoch); ("saepMint", Some saepMint);
          ("intakeVault", Some intakeVault); ("burnVault", Some burnVault); ("stakerVault", Some stakerVault);
          ("grantRecipient", Some grantRecipient); ("treasuryRecipient", Some treasuryRecipient); ("cranker", Some cranker);
          ("tokenProgram", Some tokenProgram); ("systemProgram", Some (SystemProgram_programId PublicKey))];
        ix_remaining := [] |}%string.

Definition buildExecuteBurnIx (programId : pubkey) (cranker saepMint : pubkey) (epochId : Z) (tokenProgram : pubkey) : result call :=
  let! config := key (feeConfigPda findProgramAddressSync programId) in
  let! epoch := key (epochPda findProgramAddressSync programId epochId) in
  let! burnVault := key (burnVaultPda findProgramAddressSync programId) in
  Ok {| ix_method := "executeBurn";
        ix_args := [A_bn epochId];
        ix_accounts := [("config", Some config); ("epoch", Some epoch); ("saepMint", Some saepMint); ("burnVault", Some burnVault);
          ("cranker", Some cranker); ("tokenProgram", Some tokenProgram)];
        ix_remaining := [] |}%string.

Definition buildDepositSaepIx (programId : pubkey)
    (depositor externalMint internalMint depositorExternal depositorInternal externalTokenProgram internalTokenProgram : pubkey)
    (amount : Z) : result call :=
  let! config := key (feeConfigPda findProgramAddressSync programId) in
  let! depositVault := key (depositVaultPda findProgramAddressSync programId) in
  let! mintAuthority := key (mintAuthorityPda findProgramAddressSync programId) in
  Ok {| ix_method := "depositSaep";
        ix_args := [A_bn amount];
        ix_accounts := [("config", Some config); ("externalMint", Some externalMint); ("internalMint", Some internalMint);
          ("depositorExternal", Some depositorExternal); ("depositorInternal", Some depositorInternal); ("depositVault", Some depositVault);
          ("mintAuthority", Some mintAuthority); ("depositor", Some depositor); ("externalTokenProgram", Some externalTokenProgram);
          ("internalTokenProgram", Some internalTokenProgram)];
        ix_remaining := [] |}%string.

Definition buildWithdrawSaepIx (programId : pubkey)
    (withdrawer externalMint internalMint withdrawerExternal withdrawerInternal externalTokenProgram internalTokenProgram : pubkey)
    (amount : Z) : result call :=
  let! config := key (feeConfigPda findProgramAddressSync programId) in
  let! depositVault := key (depositVaultPda findProgramAddressSync programId) in
  let! mintAuthority := key (mintAuthorityPda findProgramAddressSync programId) in
  Ok {| ix_method := "withdrawSaep";
        ix_args := [A_bn amount];
        ix_accounts := [("config", Some config); ("externalMint", Some externalMint); ("internalMint", Some internalMint);
          ("withdrawerInternal", Some withdrawerInternal); ("withdrawerExternal", Some withdrawerExternal);
          ("depositVault", Some depositVault); ("mintAuthority", Some mintAuthority); ("withdrawer", Some withdrawer);
          ("externalTokenProgram", Some externalTokenProgram); ("internalTokenProgram", Some internalTokenProgram)];
        ix_remaining := [] |}%string.

Definition buildHarvestTransferFeesIx (programId : pubkey) (cranker saepMint : pubkey) (currentEpochId : Z)
    (tokenProgram : pubkey) (remainingAccounts : option (list AccountMeta)) : result call :=
  let! config := key (feeConfigPda findProgramAddressSync programId) in
  let! currentEpoch := key (epochPda findProgramAddressSync programId currentEpochId) in
  let! intakeVault := key (intakeVaultPda findProgramAddressSync programId) in
  let! feeWithdrawAuthority := key (transferFeeWithdrawAuthorityPda findProgramAddressSync programId) in
  Ok {| ix_method := "harvestTransferFees";
        ix_args := [];
        ix_accounts := [("config", Some config); ("currentEpoch", Some currentEpoch); ("saepMint", Some saepMint); ("intakeVault", Some intakeVault);
          ("feeWithdrawAuthority", Some feeWithdrawAuthority); ("cranker", Some cranker); ("tokenProgram", Some tokenProgram)];
        ix_remaining := default [] remainingAccounts |}%string.

Definition buildHarvestConfidentialFeesIx (programId : pubkey) (cranker saepMint : pubkey) (currentEpochId : Z)
    (tokenProgram : pubkey) (remainingAccounts : option (list AccountMeta)) : result call :=
  let! config := key (feeConfigPda findProgramAddressSync programId) in
  let! currentEpoch := key (epochPda findProgramAddressSync programId currentEpochId) in
  let! intakeVault := key (intakeVaultPda findProgramAddressSync programId) in
  let! feeWithdrawAuthority := key (transferFeeWithdrawAuthorityPda findProgramAddressSync programId) in
  Ok {| ix_method := "harvestConfidentialFees";
        ix_args := [];
        ix_accounts := [("config", Some config); ("currentEpoch", Some currentEpoch); ("saepMint", Some saepMint); ("intakeVault", Some intakeVault);
          ("feeWithdrawAuthority", Some feeWithdrawAuthority); ("cranker", Some cranker); ("tokenProgram", Some tokenProgram)];
        ix_remaining := default [] remainingAccounts |}%string.

Definition buildCommitDistributionRootIx (programId : pubkey) (committer : pubkey) (epochId : Z) (root : list Z)
    (leafCount : Q) (totalWeight : Z) : result call :=
  let! config := key (feeConfigPda findProgramAddressSync programId) in
  let! epoch := key (epochPda findProgramAddressSync programId epochId) in
  Ok {| ix_method := "commitDistributionRoot";
        ix_args := [A_bn epochId; A_bytes root; A_num leafCount; A_bn totalWeight];
        ix_accounts := [("config", Some config); ("epoch", Some epoch); ("committer", Some committer)];
        ix_remaining := [] |}%string.

Definition buildSetConfidentialTransfersIx (programId : pubkey) (authority : pubkey) (enabled : bool) : result call :=
  let! config := key (feeConfigPda findProgramAddressSync programId) in
  Ok {| ix_method := "setConfidentialTransfers";
        ix_args := [A_bool enabled];
        ix_accounts := [("config", Some config); ("authority", Some authority)];
        ix_remaining := [] |}%string.

(** ** programs/template_registry.ts *)

Definition buildMintTemplateIx (programId : pubkey) (author : pubkey) (templateId configHash configUri : list Z)
    (capabilityMask : Z) (royaltyBps : Q) (rentPricePerSec minRentDuration maxRentDuration : Z) : result call :=
  let! global := key (templateGlobalPda findProgramAddressSync programId) in
  let! template := key (templatePda findProgramAddressSync programId templateId) in
  Ok {| ix_method := "mintTemplate";
        ix_args := [A_bytes templateId; A_bytes configHash; A_bytes configUri; A_bn capabilityMask; A_num royaltyBps;
          A_bn rentPricePerSec; A_bn minRentDuration; A_bn maxRentDuration];
        ix_accounts := [("global", Some global); ("template", Some template); ("author", Some author);
          ("systemProgram", Some (SystemProgram_programId PublicKey))];
        ix_remaining := [] |}%string.

Definition buildUpdateTemplateIx (programId : pubkey) (author : pubkey) (templateId configHash configUri : list Z) : result call :=
  let! global := key (templateGlobalPda findProgramAddressSync programId) in
  let! template := key (templatePda findProgramAddressSync programId templateId) in
  Ok {| ix_method := "updateTemplate";
        ix_args := [A_bytes configHash; A_bytes configUri];
        ix_accounts := [("global", Some global); ("template", Some template); ("author", Some author)];
        ix_remaining := [] |}%string.

Definition buildRetireTemplateIx (programId : pubkey) (signer : pubkey) (templateId : list Z) : result call :=
  let! global := key (templateGlobalPda findProgramAddressSync programId) in
  let! template := key (templatePda findProgramAddressSync programId templateId) in
  Ok {| ix_method := "retireTemplate";
        ix_args := [];
        ix_accounts := [("global", Some global); ("template", Some template); ("signer", Some signer)];
        ix_remaining := [] |}%string.

Definition buildForkTemplateIx (programId : pubkey) (forker : pubkey) (parentTemplateId childAgentDid : list Z) : result call :=
  let! global := key (templateGlobalPda findProgramAddressSync programId) in
  let! parent := key (templatePda findProgramAddressSync programId parentTemplateId) in
  let! fork := key (forkPda findProgramAddressSync programId childAgentDid) in
  Ok {| ix_method := "forkTemplate";
        ix_args := [A_bytes childAgentDid];
        ix_accounts := [("global", Some global); ("parent", Some parent); ("fork", Some fork); ("forker", Some forker);
          ("systemProgram", Some (SystemProgram_programId PublicKey))];
        ix_remaining := [] |}%string.

Definition buildOpenRentalIx (programId : pubkey) (renter : pubkey) (templateId : list Z) (mint renterTokenAccount : pubkey)
    (durationSecs : Z) (rentalNonce : list Z) (tokenProgram : pubkey) : result call :=
  let! global := key (templateGlobalPda findProgramAddressSync programId) in
  let! template := key (templatePda findProgramAddressSync programId templateId) in
  let! rental := key (rentalPda findProgramAddressSync programId template renter rentalNonce) in
  let! escrow := key (rentalEscrowPda findProgramAddressSync programId rental) in
  Ok {| ix_method := "openRental";
        ix_args := [A_bn durationSecs; A_bytes rentalNonce];
        ix_accounts := [("global", Some global); ("template", Some template); ("rental", Some rental); ("mint", Some mint); ("escrow", Some escrow);
          ("renterTokenAccount", Some renterTokenAccount); ("renter", Some renter); ("tokenProgram", Some tokenProgram);
          ("systemProgram", Some (SystemProgram_programId PublicKey))];
        ix_remaining := [] |}%string.

Definition buildCloseRentalIx (programId : pubkey) (signer rental : pubkey) (templateId : list Z)
    (mint authorTokenAccount feeCollectorTokenAccount renterTokenAccount tokenProgram : pubkey) : result call :=
  let! global := key (templateGlobalPda findProgramAddressSync programId) in
  let! template := key (templatePda findProgramAddressSync programId templateId) in
  let! escrow := key (rentalEscrowPda findProgramAddressSync programId rental) in
  Ok {| ix_method := "closeRental";
        ix_args := [];
        ix_accounts := [("global", Some global); ("template", Some template); ("rental", Some rental); ("mint", Some mint); ("escrow", Some escrow);
          ("authorTokenAccount", Some authorTokenAccount); ("feeCollectorTokenAccount", Some feeCollectorTokenAccount);
          ("renterTokenAccount", Some renterTokenAccount); ("signer", Some signer); ("tokenProgram", Some tokenProgram)];
        ix_remaining := [] |}%string.

Definition buildClaimRentalRevenueIx (programId : pubkey) (cranker rental : pubkey) (templateId : list Z)
    (mint authorTokenAccount feeCollectorTokenAccount tokenProgram : pubkey) : result call :=
  let! global := key (templateGlobalPda findProgramAddressSync programId) in
  let! template := key (templatePda findProgramAddressSync programId templateId) in
  let! escrow := key (rentalEscrowPda findProgramAddressSync programId rental) in
  Ok {| ix_method := "claimRentalRevenue";
        ix_args := [];
        ix_accounts := [("global", Some global); ("template", Some template); ("rental", Some rental); ("mint", Some mint); ("escrow", Some escrow);
          ("authorTokenAccount", Some authorTokenAccount); ("feeCollectorTokenAccount", Some feeCollectorTokenAccount);
          ("cranker", Some cranker); ("tokenProgram", Some tokenProgram)];
        ix_remaining := [] |}%string.

End builders.

(** ** All of them *)

(** A call of one of the builders, with its inputs. *)
Inductive request :=
| R_CreateTask (client : pubkey) (taskNonce agentDid : list Z) (agentOperator : pubkey) (agentId : list Z)
    (paymentMint : pubkey) (paymentAmount : Z) (payload : payload_input) (criteriaRoot : list Z) (deadline : Z)
    (milestoneCount : Q)
| R_FundTask (client task paymentMint clientTokenAccount : pubkey) (tokenProgramId : option pubkey)
| R_SubmitResult (operator task agentAccount : pubkey) (resultHash proofKey : list Z)
| R_VerifyTask (cranker task verifierKey : pubkey) (vkId proofA proofB proofC : list Z)
| R_Release
    (cranker task paymentMint agentTokenAccount feeCollectorTokenAccount solrepPoolTokenAccount agentAccount client : pubkey)
    (hookAllowlist tokenProgramId : option pubkey)
| R_Expire (cranker task paymentMint clientTokenAccount client agentAccount : pubkey) (tokenProgramId : option pubkey)
| R_RaiseDispute (client task : pubkey)
| R_DisputedTimeoutRefund (cranker client task paymentMint clientTokenAccount : pubkey) (tokenProgramId : option pubkey)
| R_OpenBidding (client task : pubkey) (taskId : list Z) (paymentMint : pubkey) (commitSecs revealSecs : Z) (bondBps : Q)
    (tokenProgramId : option pubkey)
| R_CommitBid (bidder task : pubkey) (taskId : list Z) (paymentMint bidderTokenAccount agentOperator : pubkey)
    (agentId agentDid commitHash : list Z) (tokenProgramId : option pubkey)
| R_RevealBid (bidder task : pubkey) (taskId : list Z) (amount : Z) (nonce : list Z)
| R_CloseBidding (cranker task : pubkey) (taskId : list Z)
| R_ClaimBond (bidder task : pubkey) (taskId : list Z) (paymentMint bidderTokenAccount feeCollectorTokenAccount : pubkey)
    (tokenProgramId : option pubkey)
| R_CancelBidding (client task : pubkey) (taskId : list Z) (paymentMint : pubkey) (tokenProgramId : option pubkey)
| R_CancelUnfundedTask (client task : pubkey)
| R_DisputeRaise (disputeCase payer : pubkey) (taskId : Z) (client agentOperator : pubkey) (escrowAmount : Z)
    (paymentMint : pubkey)
| R_CommitVote (disputeCase arbitratorSigner operator : pubkey) (caseId : Z) (commitHash : list Z)
| R_RevealVote (disputeCase arbitratorSigner : pubkey) (caseId : Z) (verdict : variant) (salt : list Z)
| R_ResolveDispute (disputeCase cranker : pubkey)
| R_EscalateAppeal (disputeCase appellant : pubkey) (caseId : Z)
| R_RegisterArbitrator (operator stakeAccount : pubkey) (effectiveStake lockEnd : Z)
| R_SlashArbitrator (disputeCase arbitratorOperator proposer : pubkey) (reasonCode : Q)
| R_TallyRound (disputeCase cranker : pubkey)
| R_InitTreasury (operator : pubkey) (agentDid : list Z) (agentOperator : pubkey) (agentId : list Z)
    (dailySpendLimit perTxLimit weeklyLimit : Z)
| R_SetLimits (operator : pubkey) (agentDid : list Z) (daily perTx weekly : Z)
| R_Withdraw (operator : pubkey) (agentDid : list Z) (mint destination : pubkey) (amount : Z) (priceFeed : option pubkey)
| R_InitStream (client : pubkey) (agentDid streamNonce : list Z) (payerMint payoutMint clientTokenAccount : pubkey)
    (ratePerSec maxDuration : Z)
| R_CloseStream (signer stream treasury payerMint : pubkey) (agentDid : list Z) (clientTokenAccount : pubkey)
| R_WithdrawEarned (operator : pubkey) (agentDid : list Z) (stream payerMint payoutMint jupiterProgram : pubkey)
    (routeData : list Z) (payerPriceFeed payoutPriceFeed allowedTargets hookAllowlist agentHooks tokenProgramId : option pubkey)
| R_RegisterYieldStrategy (authority : pubkey) (strategyId : list Z) (venue : TreasuryYieldVenue)
    (strategyProgram underlyingMint receiptMint : pubkey) (maxAllocationBps : Q) (riskTier : TreasuryYieldRiskTier)
    (name metadataUri : string)
| R_SetYieldStrategyStatus (authority : pubkey) (strategyId : list Z) (status : TreasuryYieldStrategyStatus)
| R_SetTreasuryYieldConfig (operator : pubkey) (agentDid strategyId : list Z) (allocationBps : Q) (paused : option bool)
| R_RequestTreasuryYieldUnwind (operator : pubkey) (agentDid : list Z)
| R_RecordTreasuryYieldAccounting (authority : pubkey) (agentDid : list Z)
    (idleAmount deployedAmount realizedYieldAmount accountingSlot : Z)
| R_DepositToYieldStrategy (agentDid strategyId : list Z) (mint receiptMint kaminoProgram : pubkey) (routeData : list Z)
    (routeAccounts : option (list AccountMeta)) (allowedTargets tokenProgramId : option pubkey) (operator : pubkey)
    (amount : Z) (priceFeed : option pubkey)
| R_WithdrawFromYieldStrategy (agentDid strategyId : list Z) (mint receiptMint kaminoProgram : pubkey) (routeData : list Z)
    (routeAccounts : option (list AccountMeta)) (allowedTargets tokenProgramId : option pubkey) (operator : pubkey)
    (receiptAmount : Z)
| R_EmergencyUnwindYieldStrategy (agentDid strategyId : list Z) (mint receiptMint kaminoProgram : pubkey) (routeData : list Z)
    (routeAccounts : option (list AccountMeta)) (allowedTargets tokenProgramId : option pubkey) (authority : pubkey)
| R_UpdateManifest (operator agent : pubkey) (manifestUri : string) (capabilityMask priceLamports streamRate : Z)
    (capabilityRegistryProgramId : pubkey)
| R_StakeIncrease (operator agent stakeMint operatorTokenAccount : pubkey) (amount : Z)
| R_RequestStakeWithdraw (operator agent : pubkey) (amount : Z)
| R_ExecuteStakeWithdraw (operator agent stakeMint operatorTokenAccount : pubkey)
| R_Deregister (operator agent : pubkey)
| R_Reactivate (operator agent : pubkey)
| R_RegisterAgent (operator : pubkey) (agentId : list Z) (manifestUri : string)
    (capabilityMask priceLamports streamRate stakeAmount : Z)
    (stakeMint operatorTokenAccount capabilityRegistryProgramId : pubkey) (personhoodAttestation tokenProgramId : option pubkey)
| R_ProposeTag (authority payer tag : pubkey) (bitIndex : Q) (slug manifestUri : list Z)
| R_RetireTag (authority tag : pubkey) (bitIndex : Q)
| R_ValidateMask (mask : Z)
| R_RegisterVk (authority payer : pubkey) (vkId alphaG1 betaG2 gammaG2 deltaG2 : list Z) (ic : list (list Z))
    (numPublicInputs : Q) (circuitLabel : list Z) (isProduction : bool)
| R_ProposeVkActivation (authority vk : pubkey)
| R_ExecuteVkActivation (vk : pubkey)
| R_VerifyProof (vk : pubkey) (proofA proofB proofC : list Z) (publicInputs : list (list Z)) (callerGuard : pubkey)
| R_Stake (owner stakeMint ownerTokenAccount : pubkey) (amount lockupDurationSecs : Z) (tokenProgram : pubkey)
| R_BeginUnstake (owner : pubkey)
| R_StakeWithdraw (owner stakeMint ownerTokenAccount tokenProgram : pubkey)
| R_SnapshotEpoch (authority : pubkey) (totalVotingPower : Z) (stakerCount : Q) (currentEpoch : Z)
| R_Propose (proposer proposal : pubkey) (category : variant) (targetProgram : pubkey) (ixData metadataUri : list Z)
    (snapshot : snapshot_input)
| R_Vote (proposal voter : pubkey) (choice : variant) (weight : Z) (merkleProof : list (list Z))
| R_FinalizeVote (proposal cranker : pubkey)
| R_ExecuteProposal (proposal executor : pubkey)
| R_ExpireProposal (proposal cranker : pubkey)
| R_ProposerCancel (proposal proposer : pubkey)
| R_QueueExecution (proposal cranker : pubkey)
| R_ClaimStaker (staker saepMint stakerTokenAccount : pubkey) (epochId amount : Z) (merkleProof : list (list Z))
    (tokenProgram : pubkey)
| R_ProcessEpoch (cranker saepMint grantRecipient treasuryRecipient : pubkey) (currentEpochId nextEpochId snapshotId : Z)
    (tokenProgram : pubkey)
| R_ExecuteBurn (cranker saepMint : pubkey) (epochId : Z) (tokenProgram : pubkey)
| R_DepositSaep
    (depositor externalMint internalMint depositorExternal depositorInternal externalTokenProgram internalTokenProgram : pubkey)
    (amount : Z)
| R_WithdrawSaep
    (withdrawer externalMint internalMint withdrawerExternal withdrawerInternal externalTokenProgram internalTokenProgram : pubkey)
    (amount : Z)
| R_HarvestTransferFees (cranker saepMint : pubkey) (currentEpochId : Z) (tokenProgram : pubkey)
    (remainingAccounts : option (list AccountMeta))
| R_HarvestConfidentialFees (cranker saepMint : pubkey) (currentEpochId : Z) (tokenProgram : pubkey)
    (remainingAccounts : option (list AccountMeta))
| R_CommitDistributionRoot (committer : pubkey) (epochId : Z) (root : list Z) (leafCount : Q) (totalWeight : Z)
| R_SetConfidentialTransfers (authority : pubkey) (enabled : bool)
| R_MintTemplate (author : pubkey) (templateId configHash configUri : list Z) (capabilityMask : Z) (royaltyBps : Q)
    (rentPricePerSec minRentDuration maxRentDuration : Z)
| R_UpdateTemplate (author : pubkey) (templateId configHash configUri : list Z)
| R_RetireTemplate (signer : pubkey) (templateId : list Z)
| R_ForkTemplate (forker : pubkey) (parentTemplateId childAgentDid : list Z)
| R_OpenRental (renter : pubkey) (templateId : list Z) (mint renterTokenAccount : pubkey) (durationSecs : Z)
    (rentalNonce : list Z) (tokenProgram : pubkey)
| R_CloseRental (signer rental : pubkey) (templateId : list Z)
    (mint authorTokenAccount feeCollectorTokenAccount renterTokenAccount tokenProgram : pubkey)
| R_ClaimRentalRevenue (cranker rental : pubkey) (templateId : list Z)
    (mint authorTokenAccount feeCollectorTokenAccount tokenProgram : pubkey).

Section requests.
Variable PublicKey : string -> result pubkey.
Variable findProgramAddressSync : list (list Z) -> pubkey -> result (pubkey * Z).
Variable ids : ProgramIdMap.

(** The program a request is for. *)
Definition program_of (r : request) : SaepProgramName :=
  match r with
  | R_CreateTask _ _ _ _ _ _ _ _ _ _ _ | R_FundTask _ _ _ _ _ | R_SubmitResult _ _ _ _ _ | R_VerifyTask _ _ _ _ _ _ _
  | R_Release _ _ _ _ _ _ _ _ _ _ | R_Expire _ _ _ _ _ _ _ | R_RaiseDispute _ _ | R_DisputedTimeoutRefund _ _ _ _ _ _
  | R_OpenBidding _ _ _ _ _ _ _ _ | R_CommitBid _ _ _ _ _ _ _ _ _ _ | R_RevealBid _ _ _ _ _ | R_CloseBidding _ _ _
  | R_ClaimBond _ _ _ _ _ _ _ | R_CancelBidding _ _ _ _ _ | R_CancelUnfundedTask _ _ => taskMarket
  | R_DisputeRaise _ _ _ _ _ _ _ | R_CommitVote _ _ _ _ _ | R_RevealVote _ _ _ _ _ | R_ResolveDispute _ _
  | R_EscalateAppeal _ _ _ | R_RegisterArbitrator _ _ _ _ | R_SlashArbitrator _ _ _ _ | R_TallyRound _ _ => disputeArbitration
  | R_InitTreasury _ _ _ _ _ _ _ | R_SetLimits _ _ _ _ _ | R_Withdraw _ _ _ _ _ _ | R_InitStream _ _ _ _ _ _ _ _
  | R_CloseStream _ _ _ _ _ _ | R_WithdrawEarned _ _ _ _ _ _ _ _ _ _ _ _ _ | R_RegisterYieldStrategy _ _ _ _ _ _ _ _ _ _
  | R_SetYieldStrategyStatus _ _ _ | R_SetTreasuryYieldConfig _ _ _ _ _ | R_RequestTreasuryYieldUnwind _ _
  | R_RecordTreasuryYieldAccounting _ _ _ _ _ _ | R_DepositToYieldStrategy _ _ _ _ _ _ _ _ _ _ _ _
  | R_WithdrawFromYieldStrategy _ _ _ _ _ _ _ _ _ _ _ | R_EmergencyUnwindYieldStrategy _ _ _ _ _ _ _ _ _ _ => treasuryStandard
  | R_UpdateManifest _ _ _ _ _ _ _ | R_StakeIncrease _ _ _ _ _ | R_RequestStakeWithdraw _ _ _ | R_ExecuteStakeWithdraw _ _ _ _
  | R_Deregister _ _ | R_Reactivate _ _ | R_RegisterAgent _ _ _ _ _ _ _ _ _ _ _ _ => agentRegistry
  | R_ProposeTag _ _ _ _ _ _ | R_RetireTag _ _ _ | R_ValidateMask _ => capabilityRegistry
  | R_RegisterVk _ _ _ _ _ _ _ _ _ _ _ | R_ProposeVkActivation _ _ | R_ExecuteVkActivation _ | R_VerifyProof _ _ _ _ _ _ => proofVerifier
  | R_Stake _ _ _ _ _ _ | R_BeginUnstake _ | R_StakeWithdraw _ _ _ _ | R_SnapshotEpoch _ _ _ _ => nxsStaking
  | R_Propose _ _ _ _ _ _ _ | R_Vote _ _ _ _ _ | R_FinalizeVote _ _ | R_ExecuteProposal _ _ | R_ExpireProposal _ _
  | R_ProposerCancel _ _ | R_QueueExecution _ _ => governanceProgram
  | R_ClaimStaker _ _ _ _ _ _ _ | R_ProcessEpoch _ _ _ _ _ _ _ _ | R_ExecuteBurn _ _ _ _ | R_DepositSaep _ _ _ _ _ _ _ _
  | R_WithdrawSaep _ _ _ _ _ _ _ _ | R_HarvestTransferFees _ _ _ _ _ | R_HarvestConfidentialFees _ _ _ _ _
  | R_CommitDistributionRoot _ _ _ _ _ | R_SetConfidentialTransfers _ _ => feeCollector
  | R_MintTemplate _ _ _ _ _ _ _ _ _ | R_UpdateTemplate _ _ _ _ | R_RetireTemplate _ _ | R_ForkTemplate _ _ _
  | R_OpenRental _ _ _ _ _ _ _ | R_CloseRental _ _ _ _ _ _ _ _ | R_ClaimRentalRevenue _ _ _ _ _ _ _ => templateRegistry
  end.

Definition build (r : request) : result call :=
  let programId := ids (program_of r) in
  match r with
  | R_CreateTask client taskNonce agentDid agentOperator agentId paymentMint paymentAmount payload criteriaRoot deadline milestoneCount =>
    buildCreateTaskIx PublicKey findProgramAddressSync programId ids client taskNonce agentDid agentOperator agentId paymentMint paymentAmount payload criteriaRoot deadline milestoneCount
  | R_FundTask client task paymentMint clientTokenAccount tokenProgramId =>
    buildFundTaskIx PublicKey findProgramAddressSync programId client task paymentMint clientTokenAccount tokenProgramId
  | R_SubmitResult operator task agentAccount resultHash proofKey =>
    buildSubmitResultIx findProgramAddressSync programId ids operator task agentAccount resultHash proofKey
  | R_VerifyTask cranker task verifierKey vkId proofA proofB proofC =>
    buildVerifyTaskIx PublicKey findProgramAddressSync programId ids cranker task verifierKey vkId proofA proofB proofC
  | R_Release cranker task paymentMint agentTokenAccount feeCollectorTokenAccount solrepPoolTokenAccount agentAccount client hookAllowlist tokenProgramId =>
    buildReleaseIx PublicKey findProgramAddressSync programId ids cranker task paymentMint agentTokenAccount feeCollectorTokenAccount solrepPoolTokenAccount agentAccount client hookAllowlist tokenProgramId
  | R_Expire cranker task paymentMint clientTokenAccount client agentAccount tokenProgramId =>
    buildExpireIx PublicKey findProgramAddressSync programId ids cranker task paymentMint clientTokenAccount client agentAccount tokenProgramId
  | R_RaiseDispute client task =>
    buildRaiseDisputeIx programId client task
  | R_DisputedTimeoutRefund cranker client task paymentMint clientTokenAccount tokenProgramId =>
    buildDisputedTimeoutRefundIx PublicKey findProgramAddressSync programId cranker client task paymentMint clientTokenAccount tokenProgramId
  | R_OpenBidding client task taskId paymentMint commitSecs revealSecs bondBps tokenProgramId =>
    buildOpenBiddingIx PublicKey findProgramAddressSync programId client task taskId paymentMint commitSecs revealSecs bondBps tokenProgramId
  | R_CommitBid bidder task taskId paymentMint bidderTokenAccount agentOperator agentId agentDid commitHash tokenProgramId =>
    buildCommitBidIx PublicKey findProgramAddressSync programId ids bidder task taskId paymentMint bidderTokenAccount agentOperator agentId agentDid commitHash tokenProgramId
  | R_RevealBid bidder task taskId amount nonce =>
    buildRevealBidIx findProgramAddressSync programId bidder task taskId amount nonce
  | R_CloseBidding cranker task taskId =>
    buildCloseBiddingIx findProgramAddressSync programId cranker task taskId
  | R_ClaimBond bidder task taskId paymentMint bidderTokenAccount feeCollectorTokenAccount tokenProgramId =>
    buildClaimBondIx PublicKey findProgramAddressSync programId bidder task taskId paymentMint bidderTokenAccount feeCollectorTokenAccount tokenProgramId
  | R_CancelBidding client task taskId paymentMint tokenProgramId =>
    buildCancelBiddingIx PublicKey findProgramAddressSync programId client task taskId paymentMint tokenProgramId
  | R_CancelUnfundedTask client task =>
    buildCancelUnfundedTaskIx programId client task
  | R_DisputeRaise disputeCase payer taskId client agentOperator escrowAmount paymentMint =>
    buildDisputeRaiseIx PublicKey findProgramAddressSync programId disputeCase payer taskId client agentOperator escrowAmount paymentMint
  | R_CommitVote disputeCase arbitratorSigner operator caseId commitHash =>
    buildCommitVoteIx PublicKey findProgramAddressSync programId disputeCase arbitratorSigner operator caseId commitHash
  | R_RevealVote disputeCase arbitratorSigner caseId verdict salt =>
    buildRevealVoteIx findProgramAddressSync programId disputeCase arbitratorSigner caseId verdict salt
  | R_ResolveDispute disputeCase cranker =>
    buildResolveDisputeIx findProgramAddressSync programId disputeCase cranker
  | R_EscalateAppeal disputeCase appellant caseId =>
    buildEscalateAppealIx PublicKey findProgramAddressSync programId disputeCase appellant caseId
  | R_RegisterArbitrator operator stakeAccount effectiveStake lockEnd =>
    buildRegisterArbitratorIx PublicKey findProgramAddressSync programId operator stakeAccount effectiveStake lockEnd
  | R_SlashArbitrator disputeCase arbitratorOperator proposer reasonCode =>
    buildSlashArbitratorIx PublicKey findProgramAddressSync programId disputeCase arbitratorOperator proposer reasonCode
  | R_TallyRound disputeCase cranker =>
    buildTallyRoundIx programId disputeCase cranker
  | R_InitTreasury operator agentDid agentOperator agentId dailySpendLimit perTxLimit weeklyLimit =>
    buildInitTreasuryIx PublicKey findProgramAddressSync programId ids operator agentDid agentOperator agentId dailySpendLimit perTxLimit weeklyLimit
  | R_SetLimits operator agentDid daily perTx weekly =>
    buildSetLimitsIx findProgramAddressSync programId operator agentDid daily perTx weekly
  | R_Withdraw operator agentDid mint destination amount priceFeed =>
    buildWithdrawIx PublicKey findProgramAddressSync programId operator agentDid mint destination amount priceFeed
  | R_InitStream client agentDid streamNonce payerMint payoutMint clientTokenAccount ratePerSec maxDuration =>
    buildInitStreamIx PublicKey findProgramAddressSync programId client agentDid streamNonce payerMint payoutMint clientTokenAccount ratePerSec maxDuration
  | R_CloseStream signer stream treasury payerMint agentDid clientTokenAccount =>
    buildCloseStreamIx PublicKey findProgramAddressSync programId signer stream treasury payerMint agentDid clientTokenAccount
  | R_WithdrawEarned operator agentDid stream payerMint payoutMint jupiterProgram routeData payerPriceFeed payoutPriceFeed allowedTargets hookAllowlist agentHooks tokenProgramId =>
    buildWithdrawEarnedIx PublicKey findProgramAddressSync programId operator agentDid stream payerMint payoutMint jupiterProgram routeData payerPriceFeed payoutPriceFeed allowedTargets hookAllowlist agentHooks tokenProgramId
  | R_RegisterYieldStrategy authority strategyId venue strategyProgram underlyingMint receiptMint maxAllocationBps riskTier name metadataUri =>
    buildRegisterYieldStrategyIx PublicKey findProgramAddressSync programId authority strategyId venue strategyProgram underlyingMint receiptMint maxAllocationBps riskTier name metadataUri
  | R_SetYieldStrategyStatus authority strategyId status =>
    buildSetYieldStrategyStatusIx findProgramAddressSync programId authority strategyId status
  | R_SetTreasuryYieldConfig operator agentDid strategyId allocationBps paused =>
    buildSetTreasuryYieldConfigIx PublicKey findProgramAddressSync programId operator agentDid strategyId allocationBps paused
  | R_RequestTreasuryYieldUnwind operator agentDid =>
    buildRequestTreasuryYieldUnwindIx findProgramAddressSync programId operator agentDid
  | R_RecordTreasuryYieldAccounting authority agentDid idleAmount deployedAmount realizedYieldAmount accountingSlot =>
    buildRecordTreasuryYieldAccountingIx findProgramAddressSync programId authority agentDid idleAmount deployedAmount realizedYieldAmount accountingSlot
  | R_DepositToYieldStrategy agentDid strategyId mint receiptMint kaminoProgram routeData routeAccounts allowedTargets tokenProgramId operator amount priceFeed =>
    buildDepositToYieldStrategyIx PublicKey findProgramAddressSync programId agentDid strategyId mint receiptMint kaminoProgram routeData routeAccounts allowedTargets tokenProgramId operator amount priceFeed
  | R_WithdrawFromYieldStrategy agentDid strategyId mint receiptMint kaminoProgram routeData routeAccounts allowedTargets tokenProgramId operator receiptAmount =>
    buildWithdrawFromYieldStrategyIx PublicKey findProgramAddressSync programId agentDid strategyId mint receiptMint kaminoProgram routeData routeAccounts allowedTargets tokenProgramId operator receiptAmount
  | R_EmergencyUnwindYieldStrategy agentDid strategyId mint receiptMint kaminoProgram routeData routeAccounts allowedTargets tokenProgramId authority =>
    buildEmergencyUnwindYieldStrategyIx PublicKey findProgramAddressSync programId agentDid strategyId mint receiptMint kaminoProgram routeData routeAccounts allowedTargets tokenProgramId authority
  | R_UpdateManifest operator agent manifestUri capabilityMask priceLamports streamRate capabilityRegistryProgramId =>
    buildUpdateManifestIx findProgramAddressSync programId operator agent manifestUri capabilityMask priceLamports streamRate capabilityRegistryProgramId
  | R_StakeIncrease operator agent stakeMint operatorTokenAccount amount =>
    buildStakeIncreaseIx PublicKey findProgramAddressSync programId operator agent stakeMint operatorTokenAccount amount
  | R_RequestStakeWithdraw operator agent amount =>
    buildRequestStakeWithdrawIx findProgramAddressSync programId operator agent amount
  | R_ExecuteStakeWithdraw operator agent stakeMint operatorTokenAccount =>
    buildExecuteStakeWithdrawIx PublicKey findProgramAddressSync programId operator agent stakeMint operatorTokenAccount
  | R_Deregister operator agent =>
    buildDeregisterIx findProgramAddressSync programId operator agent
  | R_Reactivate operator agent =>
    buildReactivateIx findProgramAddressSync programId operator agent
  | R_RegisterAgent operator agentId manifestUri capabilityMask priceLamports streamRate stakeAmount stakeMint operatorTokenAccount capabilityRegistryProgramId personhoodAttestation tokenProgramId =>
    buildRegisterAgentIx PublicKey findProgramAddressSync programId operator agentId manifestUri capabilityMask priceLamports streamRate stakeAmount stakeMint operatorTokenAccount capabilityRegistryProgramId personhoodAttestation tokenProgramId
  | R_ProposeTag authority payer tag bitIndex slug manifestUri =>
    buildProposeTagIx PublicKey findProgramAddressSync programId authority payer tag bitIndex slug manifestUri
  | R_RetireTag authority tag bitIndex =>
    buildRetireTagIx findProgramAddressSync programId authority tag bitIndex
  | R_ValidateMask mask =>
    buildValidateMaskIx findProgramAddressSync programId mask
  | R_RegisterVk authority payer vkId alphaG1 betaG2 gammaG2 deltaG2 ic numPublicInputs circuitLabel isProduction =>
    buildRegisterVkIx PublicKey findProgramAddressSync programId authority payer vkId alphaG1 betaG2 gammaG2 deltaG2 ic numPublicInputs circuitLabel isProduction
  | R_ProposeVkActivation authority vk =>
    buildProposeVkActivationIx findProgramAddressSync programId authority vk
  | R_ExecuteVkActivation vk =>
    buildExecuteVkActivationIx findProgramAddressSync programId vk
  | R_VerifyProof vk proofA proofB proofC publicInputs callerGuard =>
    buildVerifyProofIx PublicKey findProgramAddressSync programId vk proofA proofB proofC publicInputs callerGuard
  | R_Stake owner stakeMint ownerTokenAccount amount lockupDurationSecs tokenProgram =>
    buildStakeIx PublicKey findProgramAddressSync programId owner stakeMint ownerTokenAccount amount lockupDurationSecs tokenProgram
  | R_BeginUnstake owner =>
    buildBeginUnstakeIx findProgramAddressSync programId owner
  | R_StakeWithdraw owner stakeMint ownerTokenAccount tokenProgram =>
    buildStakeWithdrawIx findProgramAddressSync programId owner stakeMint ownerTokenAccount tokenProgram
  | R_SnapshotEpoch authority totalVotingPower stakerCount currentEpoch =>
    buildSnapshotEpochIx PublicKey findProgramAddressSync programId authority totalVotingPower stakerCount currentEpoch
  | R_Propose proposer proposal category targetProgram ixData metadataUri snapshot =>
    buildProposeIx PublicKey findProgramAddressSync programId proposer proposal category targetProgram ixData metadataUri snapshot
  | R_Vote proposal voter choice weight merkleProof =>
    buildVoteIx PublicKey findProgramAddressSync programId proposal voter choice weight merkleProof
  | R_FinalizeVote proposal cranker =>
    buildFinalizeVoteIx findProgramAddressSync programId proposal cranker
  | R_ExecuteProposal proposal executor =>
    buildExecuteProposalIx PublicKey findProgramAddressSync programId proposal executor
  | R_ExpireProposal proposal cranker =>
    buildExpireProposalIx programId proposal cranker
  | R_ProposerCancel proposal proposer =>
    buildProposerCancelIx programId proposal proposer
  | R_QueueExecution proposal cranker =>
    buildQueueExecutionIx programId proposal cranker
  | R_ClaimStaker staker saepMint stakerTokenAccount epochId amount merkleProof tokenProgram =>
    buildClaimStakerIx PublicKey findProgramAddressSync programId staker saepMint stakerTokenAccount epochId amount merkleProof tokenProgram
  | R_ProcessEpoch cranker saepMint grantRecipient treasuryRecipient currentEpochId nextEpochId snapshotId tokenProgram =>
    buildProcessEpochIx PublicKey findProgramAddressSync programId cranker saepMint grantRecipient treasuryRecipient currentEpochId nextEpochId snapshotId tokenProgram
  | R_ExecuteBurn cranker saepMint epochId tokenProgram =>
    buildExecuteBurnIx findProgramAddressSync programId cranker saepMint epochId tokenProgram
  | R_DepositSaep depositor externalMint internalMint depositorExternal depositorInternal externalTokenProgram internalTokenProgram amount =>
    buildDepositSaepIx findProgramAddressSync programId depositor externalMint internalMint depositorExternal depositorInternal externalTokenProgram internalTokenProgram amount
  | R_WithdrawSaep withdrawer externalMint internalMint withdrawerExternal withdrawerInternal externalTokenProgram internalTokenProgram amount =>
    buildWithdrawSaepIx findProgramAddressSync programId withdrawer externalMint internalMint withdrawerExternal withdrawerInternal externalTokenProgram internalTokenProgram amount
  | R_HarvestTransferFees cranker saepMint currentEpochId tokenProgram remainingAccounts =>
    buildHarvestTransferFeesIx findProgramAddressSync programId cranker saepMint currentEpochId tokenProgram remainingAccounts
  | R_HarvestConfidentialFees cranker saepMint currentEpochId tokenProgram remainingAccounts =>
    buildHarvestConfidentialFeesIx findProgramAddressSync programId cranker saepMint currentEpochId tokenProgram remainingAccounts
  | R_CommitDistributionRoot committer epochId root leafCount totalWeight =>
    buildCommitDistributionRootIx findProgramAddressSync programId committer epochId root leafCount totalWeight
  | R_SetConfidentialTransfers authority enabled =>
    buildSetConfidentialTransfersIx findProgramAddressSync programId authority enabled
  | R_MintTemplate author templateId configHash configUri capabilityMask royaltyBps rentPricePerSec minRentDuration maxRentDuration =>
    buildMintTemplateIx PublicKey findProgramAddressSync programId author templateId configHash configUri capabilityMask royaltyBps rentPricePerSec minRentDuration maxRentDuration
  | R_UpdateTemplate author templateId configHash configUri =>
    buildUpdateTemplateIx findProgramAddressSync programId author templateId configHash configUri
  | R_RetireTemplate signer templateId =>
    buildRetireTemplateIx findProgramAddressSync programId signer templateId
  | R_ForkTemplate forker parentTemplateId childAgentDid =>
    buildForkTemplateIx PublicKey findProgramAddressSync programId forker parentTemplateId childAgentDid
  | R_OpenRental renter templateId mint renterTokenAccount durationSecs rentalNonce tokenProgram =>
    buildOpenRentalIx PublicKey findProgramAddressSync programId renter templateId mint renterTokenAccount durationSecs rentalNonce tokenProgram
  | R_CloseRental signer rental templateId mint authorTokenAccount feeCollectorTokenAccount renterTokenAccount tokenProgram =>
    buildCloseRentalIx findProgramAddressSync programId signer rental templateId mint authorTokenAccount feeCollectorTokenAccount renterTokenAccount tokenProgram
  | R_ClaimRentalRevenue cranker rental templateId mint authorTokenAccount feeCollectorTokenAccount tokenProgram =>
    buildClaimRentalRevenueIx findProgramAddressSync programId cranker rental templateId mint authorTokenAccount feeCollectorTokenAccount tokenProgram
  end.

End requests.

(** The instruction of a request. *)
Definition idl_of (r : request) : idl_instruction :=
  match r with
  | R_CreateTask _ _ _ _ _ _ _ _ _ _ _ => task_market_createTask
  | R_FundTask _ _ _ _ _ => task_market_fundTask
  | R_SubmitResult _ _ _ _ _ => task_market_submitResult
  | R_VerifyTask _ _ _ _ _ _ _ => task_market_verifyTask
  | R_Release _ _ _ _ _ _ _ _ _ _ => task_market_release
  | R_Expire _ _ _ _ _ _ _ => task_market_expire
  | R_RaiseDispute _ _ => task_market_raiseDispute
  | R_DisputedTimeoutRefund _ _ _ _ _ _ => task_market_disputedTimeoutRefund
  | R_OpenBidding _ _ _ _ _ _ _ _ => task_market_openBidding
  | R_CommitBid _ _ _ _ _ _ _ _ _ _ => task_market_commitBid
  | R_RevealBid _ _ _ _ _ => task_market_revealBid
  | R_CloseBidding _ _ _ => task_market_closeBidding
  | R_ClaimBond _ _ _ _ _ _ _ => task_market_claimBond
  | R_CancelBidding _ _ _ _ _ => task_market_cancelBidding
  | R_CancelUnfundedTask _ _ => task_market_cancelUnfundedTask
  | R_DisputeRaise _ _ _ _ _ _ _ => dispute_arbitration_raiseDispute
  | R_CommitVote _ _ _ _ _ => dispute_arbitration_commitVote
  | R_RevealVote _ _ _ _ _ => dispute_arbitration_revealVote
  | R_ResolveDispute _ _ => dispute_arbitration_resolveDispute
  | R_EscalateAppeal _ _ _ => dispute_arbitration_escalateAppeal
  | R_RegisterArbitrator _ _ _ _ => dispute_arbitration_registerArbitrator
  | R_SlashArbitrator _ _ _ _ => dispute_arbitration_slashArbitrator
  | R_TallyRound _ _ => dispute_arbitration_tallyRound
  | R_InitTreasury _ _ _ _ _ _ _ => treasury_standard_initTreasury
  | R_SetLimits _ _ _ _ _ => treasury_standard_setLimits
  | R_Withdraw _ _ _ _ _ _ => treasury_standard_withdraw
  | R_InitStream _ _ _ _ _ _ _ _ => treasury_standard_initStream
  | R_CloseStream _ _ _ _ _ _ => treasury_standard_closeStream
  | R_WithdrawEarned _ _ _ _ _ _ _ _ _ _ _ _ _ => treasury_standard_withdrawEarned
  | R_RegisterYieldStrategy _ _ _ _ _ _ _ _ _ _ => treasury_standard_registerYieldStrategy
  | R_SetYieldStrategyStatus _ _ _ => treasury_standard_setYieldStrategyStatus
  | R_SetTreasuryYieldConfig _ _ _ _ _ => treasury_standard_setTreasuryYieldConfig
  | R_RequestTreasuryYieldUnwind _ _ => treasury_standard_requestTreasuryYieldUnwind
  | R_RecordTreasuryYieldAccounting _ _ _ _ _ _ => treasury_standard_recordTreasuryYieldAccounting
  | R_DepositToYieldStrategy _ _ _ _ _ _ _ _ _ _ _ _ => treasury_standard_depositToYieldStrategy
  | R_WithdrawFromYieldStrategy _ _ _ _ _ _ _ _ _ _ _ => treasury_standard_withdrawFromYieldStrategy
  | R_EmergencyUnwindYieldStrategy _ _ _ _ _ _ _ _ _ _ => treasury_standard_emergencyUnwindYieldStrategy
  | R_UpdateManifest _ _ _ _ _ _ _ => agent_registry_updateManifest
  | R_StakeIncrease _ _ _ _ _ => agent_registry_stakeIncrease
  | R_RequestStakeWithdraw _ _ _ => agent_registry_stakeWithdrawRequest
  | R_ExecuteStakeWithdraw _ _ _ _ => agent_registry_stakeWithdrawExecute
  | R_Deregister _ _ => agent_registry_setStatus
  | R_Reactivate _ _ => agent_registry_setStatus
  | R_RegisterAgent _ _ _ _ _ _ _ _ _ _ _ _ => agent_registry_registerAgent
  | R_ProposeTag _ _ _ _ _ _ => capability_registry_proposeTag
  | R_RetireTag _ _ _ => capability_registry_retireTag
  | R_ValidateMask _ => capability_registry_validateMask
  | R_RegisterVk _ _ _ _ _ _ _ _ _ _ _ => proof_verifier_registerVk
  | R_ProposeVkActivation _ _ => proof_verifier_proposeVkActivation
  | R_ExecuteVkActivation _ => proof_verifier_executeVkActivation
  | R_VerifyProof _ _ _ _ _ _ => proof_verifier_verifyProof
  | R_Stake _ _ _ _ _ _ => nxs_staking_stake
  | R_BeginUnstake _ => nxs_staking_beginUnstake
  | R_StakeWithdraw _ _ _ _ => nxs_staking_withdraw
  | R_SnapshotEpoch _ _ _ _ => nxs_staking_snapshotEpoch
  | R_Propose _ _ _ _ _ _ _ => governance_program_propose
  | R_Vote _ _ _ _ _ => governance_program_vote
  | R_FinalizeVote _ _ => governance_program_finalizeVote
  | R_ExecuteProposal _ _ => governance_program_executeProposal
  | R_ExpireProposal _ _ => governance_program_expireProposal
  | R_ProposerCancel _ _ => governance_program_proposerCancel
  | R_QueueExecution _ _ => governance_program_queueExecution
  | R_ClaimStaker _ _ _ _ _ _ _ => fee_collector_claimStaker
  | R_ProcessEpoch _ _ _ _ _ _ _ _ => fee_collector_processEpoch
  | R_ExecuteBurn _ _ _ _ => fee_collector_executeBurn
  | R_DepositSaep _ _ _ _ _ _ _ _ => fee_collector_depositSaep
  | R_WithdrawSaep _ _ _ _ _ _ _ _ => fee_collector_withdrawSaep
  | R_HarvestTransferFees _ _ _ _ _ => fee_collector_harvestTransferFees
  | R_HarvestConfidentialFees _ _ _ _ _ => fee_collector_harvestConfidentialFees
  | R_CommitDistributionRoot _ _ _ _ _ => fee_collector_commitDistributionRoot
  | R_SetConfidentialTransfers _ _ => fee_collector_setConfidentialTransfers
  | R_MintTemplate _ _ _ _ _ _ _ _ _ => template_registry_mintTemplate
  | R_UpdateTemplate _ _ _ _ => template_registry_updateTemplate
  | R_RetireTemplate _ _ => template_registry_retireTemplate
  | R_ForkTemplate _ _ _ => template_registry_forkTemplate
  | R_OpenRental _ _ _ _ _ _ _ => template_registry_openRental
  | R_CloseRental _ _ _ _ _ _ _ _ => template_registry_closeRental
  | R_ClaimRentalRevenue _ _ _ _ _ _ _ => template_registry_claimRentalRevenue
  end.
