(* ===== verification/IxSafety.v ===== *)
(** * IxSafety: the instructions the SDK builds are the programs' own

    What every builder hands to Anchor, compared with the IDL of the program: the
    method, the number and types of the arguments (an enum's variants and a struct's
    fields by the IDL's type definitions), the names of the accounts, their fixed
    addresses, and the address of each account the IDL derives from seeds. *)

From Stdlib Require Import ZArith QArith.
From stdpp Require Import base list strings.
From S2P Require Import Prelude Bytes JsMap Json Merkle Idl IdlTypes IdlInstructions Pda PdaUnique Ix.

#[local] Open Scope Z_scope.
#[local] Open Scope saep_scope.

#[local] Arguments toBuffer : simpl never.

(** ** What it is to conform *)

Fixpoint assoc {A} (n : string) (l : list (string * A)) : option A :=
  match l with
  | [] => None
  | (k, v) :: l' => if String.eqb k n then Some v else assoc n l'
  end.

(** A value of the type: a struct has the fields of its definition, in their order,
    each with a value of its type; an enum's value is one of its variants, with that
    variant's fields.  The lengths of arrays and the ranges of numbers are Anchor's to
    check when it encodes. *)
Fixpoint fits (types : list (string * idl_typedef)) (a : arg) (t : idl_type) {struct a} : bool :=
  let fields := fix fields (fs : list (string * arg)) (ts : list (string * idl_type)) {struct fs} : bool :=
    match fs, ts with
    | [], [] => true
    | (f, x) :: fs', (g, u) :: ts' => String.eqb f g && fits types x u && fields fs' ts'
    | _, _ => false
    end in
  let variant_fields := fun name var =>
    match map_get name types with Some (TD_enum vs) => map_get var vs | _ => None end in
  match a, t with
  | A_num _, (T_u8 | T_u16 | T_u32) => true
  | A_bn _, (T_u64 | T_i64 | T_u128) => true
  | A_bool _, T_bool => true
  | A_key _, T_pubkey => true
  | A_string _, T_string => true
  | A_bytes _, (T_bytes | T_array T_u8 _) => true
  | A_vec l, T_vec t' => forallb (fun x => fits types x t') l
  | A_enum var, T_defined name => match variant_fields name var with Some [] => true | _ => false end
  | A_data var fs, T_defined name => match variant_fields name var with Some ts => fields fs ts | None => false end
  | A_struct fs, T_defined name => match map_get name types with Some (TD_struct ts) => fields fs ts | _ => false end
  | _, _ => false
  end.

Fixpoint fits_all (types : list (string * idl_typedef)) (ts : list (string * idl_type)) (l : list arg) : bool :=
  match ts, l with
  | [], [] => true
  | (_, t) :: ts', a :: l' => fits types a t && fits_all types ts' l'
  | _, _ => false
  end.

(** The eight bytes of a u64, the lowest first. *)
Definition u64_bytes (n : Z) : option (list Z) :=
  match writeBigUInt64LE n with
  | Ok b => Some b
  | Throw _ => None
  end.

Section conform.
Variable PublicKey : string -> result pubkey.
Variable findProgramAddressSync : list (list Z) -> pubkey -> result (pubkey * Z).

(** The bytes of a seed, from the call and from what is known of account data. *)
Definition seed_bytes (ix : idl_instruction) (kn : list (string * option (list Z))) (c : call) (s : idl_seed) : option (list Z) :=
  match s with
  | S_const value => Some value
  | S_account path => match assoc path (ix_accounts c) with Some (Some k) => Some (toBuffer k) | _ => None end
  | S_field path => match assoc path kn with Some (Some b) => Some b | _ => None end
  | S_arg path => match assoc path (zip (map fst (in_args ix)) (ix_args c)) with
                  | Some (A_bytes b) => Some b
                  | Some (A_bn n) => u64_bytes n
                  | _ => None
                  end
  end.

Fixpoint all_seeds (ix : idl_instruction) (kn : list (string * option (list Z))) (c : call) (l : list idl_seed) : option (list (list Z)) :=
  match l with
  | [] => Some []
  | s :: l' => match seed_bytes ix kn c s, all_seeds ix kn c l' with
               | Some b, Some bs => Some (b :: bs)
               | _, _ => None
               end
  end.

Definition program_key (programId : pubkey) (c : call) (p : idl_program) : option pubkey :=
  match p with
  | P_self => Some programId
  | P_account path => match assoc path (ix_accounts c) with Some (Some k) => Some k | _ => None end
  | P_const value => Some (accumulate value)
  end.

(** An account the caller did not pass is at the address its seeds give. *)
Definition address_ok (ix : idl_instruction) (programId : pubkey) (kn : list (string * option (list Z))) (ps : list string) (c : call)
    (a : idl_account) : Prop :=
  match ia_pda a, assoc (ia_name a) (ix_accounts c) with
  | Some (l, p), Some (Some k) =>
    if existsb (String.eqb (ia_name a)) ps then True
    else match all_seeds ix kn c l, program_key programId c p with
         | Some bs, Some program => exists bump, findProgramAddressSync bs program = Ok (k, bump)
         | _, _ => False
         end
  | _, _ => True
  end.

(** An account with a fixed address has it. *)
Definition fixed_ok (c : call) (a : idl_account) : Prop :=
  match ia_address a, assoc (ia_name a) (ix_accounts c) with
  | Some text, Some (Some k) => k = constant PublicKey text
  | _, _ => True
  end.

Definition constant_seed (s : idl_seed) : bool := match s with S_const _ => true | _ => false end.

(** An account is named, not null unless optional, or can be derived from nothing
    but constants. *)
Definition given_ok (c : call) (a : idl_account) : bool :=
  match assoc (ia_name a) (ix_accounts c) with
  | Some (Some _) => true
  | Some None => ia_optional a
  | None => ia_optional a || match ia_pda a with Some (l, _) => forallb constant_seed l | None => false end
  end.

Definition names_ok (ix : idl_instruction) (c : call) : bool :=
  forallb (fun n => existsb (String.eqb n) (map ia_name (in_accounts ix))) (map fst (ix_accounts c)) &&
  bool_decide (NoDup (map fst (ix_accounts c))).

Record conforms (types : list (string * idl_typedef)) (ix : idl_instruction) (programId : pubkey) (kn : list (string * option (list Z))) (ps : list string) (c : call) : Prop := {
  conf_method : ix_method c = in_name ix;
  conf_args : fits_all types (in_args ix) (ix_args c) = true;
  conf_names : names_ok ix c = true;
  conf_given : forallb (given_ok c) (in_accounts ix) = true;
  conf_addresses : Forall (address_ok ix programId kn ps c) (in_accounts ix);
  conf_fixed : Forall (fixed_ok c) (in_accounts ix);
}.
End conform.

(** The interface of a program. *)
Definition program_idl (p : SaepProgramName) : idl :=
  match p with
  | agentRegistry => agent_registry_idl | capabilityRegistry => capability_registry_idl | disputeArbitration => dispute_arbitration_idl
  | feeCollector => fee_collector_idl | governanceProgram => governance_program_idl | nxsStaking => nxs_staking_idl
  | proofVerifier => proof_verifier_idl | taskMarket => task_market_idl | templateRegistry => template_registry_idl
  | treasuryStandard => treasury_standard_idl
  end.

(** Three builders pass on a variant their caller names: it is one of those the
    program has. *)
Definition variants_ok (r : request) : bool :=
  match r with
  | R_RevealVote _ _ _ verdict _ => existsb (String.eqb verdict) ["none"; "agentWins"; "clientWins"; "split"]
  | R_Propose _ _ category _ _ _ _ =>
    existsb (String.eqb category) ["parameterChange"; "programUpgrade"; "treasurySpend"; "emergencyPause"; "capabilityTagUpdate"; "meta"]
  | R_Vote _ _ choice _ _ => existsb (String.eqb choice) ["for"; "against"; "abstain"]
  | _ => true
  end%string.

(** What a request says of the data of the accounts it names. *)
Definition known (r : request) : list (string * option (list Z)) :=
  match r with
  | R_CreateTask _ _ _ agentOperator agentId _ _ _ _ _ _ =>
    [("agent_account.operator", Some (toBuffer agentOperator)); ("agent_account.agent_id", Some agentId)]
  | R_VerifyTask _ _ _ vkId _ _ _ => [("verifier_key.vk_id", Some vkId)]
  | R_OpenBidding _ _ taskId _ _ _ _ _ => [("task.task_id", Some taskId)]
  | R_CommitBid _ _ taskId _ _ agentOperator agentId _ _ _ =>
    [("task.task_id", Some taskId); ("agent_account.operator", Some (toBuffer agentOperator)); ("agent_account.agent_id", Some agentId)]
  | R_RevealBid _ _ taskId _ _ => [("task.task_id", Some taskId)]
  | R_CloseBidding _ _ taskId => [("task.task_id", Some taskId)]
  | R_ClaimBond _ _ taskId _ _ _ _ => [("task.task_id", Some taskId)]
  | R_CancelBidding _ _ taskId _ _ => [("task.task_id", Some taskId)]
  | R_CommitVote _ _ _ caseId _ => [("dispute_case.case_id", u64_bytes caseId)]
  | R_RevealVote _ _ caseId _ _ => [("dispute_case.case_id", u64_bytes caseId)]
  | R_EscalateAppeal _ _ caseId => [("dispute_case.case_id", u64_bytes caseId)]
  | R_SlashArbitrator _ arbitratorOperator _ _ => [("arbitrator.operator", Some (toBuffer arbitratorOperator))]
  | R_InitTreasury _ _ agentOperator agentId _ _ _ =>
    [("agent_account.operator", Some (toBuffer agentOperator)); ("agent_account.agent_id", Some agentId)]
  | R_SetLimits _ agentDid _ _ _ => [("treasury.agent_did", Some agentDid)]
  | R_Withdraw _ agentDid _ _ _ _ => [("treasury.agent_did", Some agentDid)]
  | R_InitStream _ agentDid _ _ _ _ _ _ => [("treasury.agent_did", Some agentDid)]
  | R_CloseStream _ _ _ _ agentDid _ => [("treasury.agent_did", Some agentDid)]
  | R_WithdrawEarned _ agentDid _ _ _ _ _ _ _ _ _ _ _ => [("treasury.agent_did", Some agentDid)]
  | R_SetYieldStrategyStatus _ strategyId _ => [("strategy.strategy_id", Some strategyId)]
  | R_RequestTreasuryYieldUnwind _ agentDid => [("treasury.agent_did", Some agentDid)]
  | R_RecordTreasuryYieldAccounting _ agentDid _ _ _ _ => [("yield_config.agent_did", Some agentDid)]
  | R_DepositToYieldStrategy agentDid strategyId _ _ _ _ _ _ _ _ _ _ =>
    [("treasury.agent_did", Some agentDid); ("strategy.strategy_id", Some strategyId)]
  | R_WithdrawFromYieldStrategy agentDid strategyId _ _ _ _ _ _ _ _ _ =>
    [("treasury.agent_did", Some agentDid); ("strategy.strategy_id", Some strategyId)]
  | R_EmergencyUnwindYieldStrategy agentDid strategyId _ _ _ _ _ _ _ _ =>
    [("treasury.agent_did", Some agentDid); ("strategy.strategy_id", Some strategyId)]
  | R_SnapshotEpoch _ _ _ currentEpoch => [("pool.current_epoch", u64_bytes currentEpoch)]
  | R_ProcessEpoch _ _ _ _ currentEpochId nextEpochId _ _ =>
    [("current_epoch.epoch_id", u64_bytes currentEpochId); ("config.next_epoch_id", u64_bytes nextEpochId)]
  | R_HarvestTransferFees _ _ currentEpochId _ _ => [("config.next_epoch_id.saturating_sub(1)", u64_bytes currentEpochId)]
  | R_HarvestConfidentialFees _ _ currentEpochId _ _ => [("config.next_epoch_id.saturating_sub(1)", u64_bytes currentEpochId)]
  | R_UpdateTemplate _ templateId _ _ => [("template.template_id", Some templateId)]
  | R_RetireTemplate _ templateId => [("template.template_id", Some templateId)]
  | R_ForkTemplate _ parentTemplateId _ => [("parent.template_id", Some parentTemplateId)]
  | R_OpenRental _ templateId _ _ _ _ _ => [("template.template_id", Some templateId)]
  | R_CloseRental _ _ templateId _ _ _ _ _ => [("template.template_id", Some templateId)]
  | R_ClaimRentalRevenue _ _ templateId _ _ _ _ => [("template.template_id", Some templateId)]
  | _ => []
  end%string.

(** The addresses a request is given by its caller. *)
Definition passed (r : request) : list string :=
  match r with
  | R_FundTask _ _ _ _ _ => ["task"]
  | R_SubmitResult _ _ _ _ _ => ["task"; "agentAccount"]
  | R_VerifyTask _ _ _ _ _ _ _ => ["task"]
  | R_Release _ _ _ _ _ _ _ _ _ _ => ["task"; "agentAccount"]
  | R_Expire _ _ _ _ _ _ _ => ["task"; "agentAccount"]
  | R_RaiseDispute _ _ => ["task"]
  | R_DisputedTimeoutRefund _ _ _ _ _ _ => ["task"]
  | R_OpenBidding _ _ _ _ _ _ _ _ => ["task"]
  | R_CommitBid _ _ _ _ _ _ _ _ _ _ => ["task"]
  | R_RevealBid _ _ _ _ _ => ["task"]
  | R_CloseBidding _ _ _ => ["task"]
  | R_ClaimBond _ _ _ _ _ _ _ => ["task"]
  | R_CancelBidding _ _ _ _ _ => ["task"]
  | R_CancelUnfundedTask _ _ => ["task"]
  | R_DisputeRaise _ _ _ _ _ _ _ => ["disputeCase"]
  | R_CommitVote _ _ _ _ _ => ["disputeCase"]
  | R_RevealVote _ _ _ _ _ => ["disputeCase"]
  | R_ResolveDispute _ _ => ["disputeCase"]
  | R_EscalateAppeal _ _ _ => ["disputeCase"]
  | R_SlashArbitrator _ _ _ _ => ["disputeCase"]
  | R_TallyRound _ _ => ["disputeCase"]
  | R_CloseStream _ _ _ _ _ _ => ["treasury"; "stream"]
  | R_WithdrawEarned _ _ _ _ _ _ _ _ _ _ _ _ _ => ["allowedTargets"; "stream"; "agentHooks"]
  | R_DepositToYieldStrategy _ _ _ _ _ _ _ _ _ _ _ _ => ["allowedTargets"]
  | R_WithdrawFromYieldStrategy _ _ _ _ _ _ _ _ _ _ _ => ["allowedTargets"]
  | R_EmergencyUnwindYieldStrategy _ _ _ _ _ _ _ _ _ _ => ["allowedTargets"]
  | R_UpdateManifest _ _ _ _ _ _ _ => ["agent"]
  | R_StakeIncrease _ _ _ _ _ => ["agent"]
  | R_RequestStakeWithdraw _ _ _ => ["agent"]
  | R_ExecuteStakeWithdraw _ _ _ _ => ["agent"]
  | R_Deregister _ _ => ["agent"]
  | R_Reactivate _ _ => ["agent"]
  | R_RegisterAgent _ _ _ _ _ _ _ _ _ _ _ _ => ["personhoodAttestation"]
  | R_ProposeVkActivation _ _ => ["vk"]
  | R_ExecuteVkActivation _ => ["vk"]
  | R_VerifyProof _ _ _ _ _ _ => ["vk"]
  | R_Propose _ _ _ _ _ _ _ => ["proposal"]
  | R_Vote _ _ _ _ _ => ["proposal"]
  | R_FinalizeVote _ _ => ["proposal"]
  | R_ExecuteProposal _ _ => ["proposal"]
  | R_ExpireProposal _ _ => ["proposal"]
  | R_ProposerCancel _ _ => ["proposal"]
  | R_QueueExecution _ _ => ["proposal"]
  | _ => []
  end%string.


(** ** Every builder conforms *)

Lemma key_ok (e : result (pubkey * Z)) k : key e = Ok k -> exists bump, e = Ok (k, bump).
Proof. destruct e as [[a bump]|]; [|done]. intros [= <-]. by exists bump. Qed.

Lemma fits_vec tys n l : forallb (fun x => fits tys x (T_array T_u8 n)) (map A_bytes l) = true.
Proof. induction l; [done|]. done. Qed.

(** A normalised payload is a TaskPayload of the task market. *)
Lemma payload_fits input a : normalizeTaskPayload input = Ok a -> fits (types (program_idl taskMarket)) a (T_defined "taskPayload") = true.
Proof.
  destruct input as [kind cap crit tier]. unfold normalizeTaskPayload, normalizeTaskKind, toByteArray. cbn [pi_kind pi_capabilityBit pi_criteria pi_requiresPersonhood].
  intros H. assert (exists t, normalizePersonhoodTier tier = A_enum t /\ t ∈ ["none"; "basic"; "verified"]%string) as (t & E & Ht)
    by (destruct tier as [[[]|[]]|]; eexists; (split; [reflexivity|]); rewrite !elem_of_cons; tauto).
  rewrite E in H. clear E. rewrite !elem_of_cons, elem_of_nil in Ht. destruct kind as [k|k], k; cbn [result_bind] in H;
    repeat match type of H with context [(length ?l =? 32)%nat] => destruct (length l =? 32)%nat; cbn [result_bind] in H; [|discriminate H] end;
    injection H as <-; destruct Ht as [->|[->|[->|[]]]]; vm_compute; reflexivity.
Qed.

Create HintDb ix.
#[local] Hint Unfold buildCreateTaskIx buildFundTaskIx buildSubmitResultIx buildVerifyTaskIx buildReleaseIx buildExpireIx
  buildRaiseDisputeIx buildDisputedTimeoutRefundIx buildOpenBiddingIx buildCommitBidIx buildRevealBidIx
  buildCloseBiddingIx buildClaimBondIx buildCancelBiddingIx buildCancelUnfundedTaskIx buildDisputeRaiseIx
  buildCommitVoteIx buildRevealVoteIx buildResolveDisputeIx buildEscalateAppealIx buildRegisterArbitratorIx
  buildSlashArbitratorIx buildTallyRoundIx buildInitTreasuryIx buildSetLimitsIx buildWithdrawIx buildInitStreamIx
  buildCloseStreamIx buildWithdrawEarnedIx buildRegisterYieldStrategyIx buildSetYieldStrategyStatusIx
  buildSetTreasuryYieldConfigIx buildRequestTreasuryYieldUnwindIx buildRecordTreasuryYieldAccountingIx
  buildDepositToYieldStrategyIx buildWithdrawFromYieldStrategyIx buildEmergencyUnwindYieldStrategyIx
  buildUpdateManifestIx buildStakeIncreaseIx buildRequestStakeWithdrawIx buildExecuteStakeWithdrawIx buildDeregisterIx
  buildReactivateIx buildRegisterAgentIx buildProposeTagIx buildRetireTagIx buildValidateMaskIx buildRegisterVkIx
  buildProposeVkActivationIx buildExecuteVkActivationIx buildVerifyProofIx buildStakeIx buildBeginUnstakeIx
  buildStakeWithdrawIx buildSnapshotEpochIx buildProposeIx buildVoteIx buildFinalizeVoteIx buildExecuteProposalIx
  buildExpireProposalIx buildProposerCancelIx buildQueueExecutionIx buildClaimStakerIx buildProcessEpochIx
  buildExecuteBurnIx buildDepositSaepIx buildWithdrawSaepIx buildHarvestTransferFeesIx buildHarvestConfidentialFeesIx
  buildCommitDistributionRootIx buildSetConfidentialTransfersIx buildMintTemplateIx buildUpdateTemplateIx
  buildRetireTemplateIx buildForkTemplateIx buildOpenRentalIx buildCloseRentalIx buildClaimRentalRevenueIx register_capabilityConfigPda yieldMovementPdas assertYieldMovementInput : ix.

(** Takes a builder apart: the addresses it derived and the call. *)
Ltac built := repeat match goal with
  | H : result_bind _ _ = Ok _ |- _ => let x := fresh "x" in let E := fresh "E" in apply result_bind_ok in H as (x & E & H)
  | H : key _ = Ok _ |- _ => let b := fresh "bump" in apply key_ok in H as [b H]
  | H : Ok _ = Ok _ |- _ => apply ok_inj in H
  | E : writeBigUInt64LE ?z = Ok _, F : writeBigUInt64LE ?z = Ok _ |- _ => rewrite E in F; apply ok_inj in F
  end.

Ltac each_option := repeat match goal with |- context [match ?o with Some _ | _ => _ end] => is_var o; destruct o end.

(** An enum of the SDK or a variant the caller named: one case each. *)
Ltac each_variant := repeat match goal with
  | |- context [yieldVenueArg ?v] => is_var v; destruct v
  | |- context [yieldRiskTierArg ?v] => is_var v; destruct v
  | |- context [yieldStrategyStatusArg ?v] => is_var v; destruct v
  | H : existsb _ _ = true |- _ => apply existsb_exists in H as (? & H & ->%String.eqb_eq); repeat destruct H as [<-|H]; try destruct H
  end.

(** The types are only looked at for the arguments they define. *)
Ltac args_fit :=
  each_variant; cbn [program_of]; match goal with |- fits_all ?t _ _ = true => let tys := fresh "tys" in let E := fresh "E" in
    remember t as tys eqn:E; cbn; rewrite ?fits_vec;
    first [ reflexivity
          | subst tys; match goal with H : normalizeTaskPayload _ = Ok _ |- _ => rewrite (payload_fits _ _ H) end; reflexivity
          | subst tys; vm_compute; reflexivity ] end.

Ltac conform_with Hids :=
  built; autounfold with ix in *; built; autounfold with pda in *; built; subst;
  constructor;
  [ reflexivity
  | args_fit
  | vm_compute; reflexivity
  | cbn; each_option; reflexivity
  | repeat apply Forall_cons_2; try apply Forall_nil_2; cbn; unfold u64_bytes;
    repeat match goal with E : writeBigUInt64LE ?z = Ok _ |- context [writeBigUInt64LE ?z] => rewrite E; cbn end; each_option; try exact I; try (eexists; eassumption)
  | repeat apply Forall_cons_2; try apply Forall_nil_2; cbn; rewrite ?Hids; try exact I; try reflexivity ].

Section builders_conform.
Variable PublicKey : string -> result pubkey.
Variable find : list (list Z) -> pubkey -> result (pubkey * Z).
Variable ids : ProgramIdMap.
Hypothesis Hids : forall n, ids n = constant PublicKey (DEVNET_PROGRAM_IDS n).


(** C29: with program ids the devnet's ([Hids]), what a builder returns is a call of the
    IDL's instruction: its method, arguments of the right number and types (enums with
    a variant and structs with exactly the fields the IDL's type definitions list,
    provided a verdict, category or choice the caller names is one of the program's),
    only accounts the IDL names, every one of them given, optional or derivable from
    constants, fixed addresses as the IDL has them, and every account the builder
    derives at the address the IDL's seeds give. *)
Theorem builders_conform (r : request) (c : call) (Hv : variants_ok r = true) (H : build PublicKey find ids r = Ok c) :
  conforms PublicKey find (types (program_idl (program_of r))) (idl_of r) (ids (program_of r)) (known r) (passed r) c.
Proof. destruct r; cbn [build program_of] in *; cbn [variants_ok] in Hv; autounfold with ix in H; conform_with Hids. Qed.
End builders_conform.

(** ** When a builder returns *)

Definition has_length (l : list Z) (n : nat) : bool := (length l =? n)%nat.

Definition u64_ok (n : Z) : bool := (0 <=? n) && (n <? 2 ^ 64).

Definition route_ok (route : list Z) : bool := negb (length route =? 0)%nat && (length route <=? 512)%nat.

Definition kind_ok (k : task_kind_input) : bool :=
  match k with
  | LegacyKind k | StructuredKind k =>
    match k with
    | swapExact _ _ _ _ | transfer _ _ _ => true
    | dataFetch a b | compute a b => has_length a 32 && has_length b 32
    | generic _ a => has_length a 32
    end
  end.

(** What a builder checks of its inputs. *)
Definition inputs_ok (r : request) : bool :=
  match r with
  | R_CreateTask _ taskNonce _ _ agentId _ _ payload _ _ _ =>
    has_length taskNonce 8 && has_length agentId 32 && kind_ok (pi_kind payload)
  | R_VerifyTask _ _ _ vkId _ _ _ => has_length vkId 32
  | R_OpenBidding _ _ taskId _ _ _ _ _ => has_length taskId 32
  | R_CommitBid _ _ taskId _ _ _ agentId _ _ _ => has_length taskId 32 && has_length agentId 32
  | R_RevealBid _ _ taskId _ _ => has_length taskId 32
  | R_CloseBidding _ _ taskId => has_length taskId 32
  | R_ClaimBond _ _ taskId _ _ _ _ => has_length taskId 32
  | R_CancelBidding _ _ taskId _ _ => has_length taskId 32
  | R_CommitVote _ _ _ caseId _ => u64_ok caseId
  | R_RevealVote _ _ caseId _ _ => u64_ok caseId
  | R_EscalateAppeal _ _ caseId => u64_ok caseId
  | R_InitTreasury _ agentDid _ agentId _ _ _ => has_length agentDid 32 && has_length agentId 32
  | R_SetLimits _ agentDid _ _ _ => has_length agentDid 32
  | R_Withdraw _ agentDid _ _ _ _ => has_length agentDid 32
  | R_InitStream _ agentDid streamNonce _ _ _ _ _ => has_length agentDid 32 && has_length streamNonce 8
  | R_CloseStream _ _ _ _ agentDid _ => has_length agentDid 32
  | R_WithdrawEarned _ agentDid _ _ _ _ _ _ _ _ _ _ _ => has_length agentDid 32
  | R_RegisterYieldStrategy _ strategyId _ _ _ _ _ _ _ _ => has_length strategyId 32
  | R_SetYieldStrategyStatus _ strategyId _ => has_length strategyId 32
  | R_SetTreasuryYieldConfig _ agentDid strategyId _ _ => has_length agentDid 32 && has_length strategyId 32
  | R_RequestTreasuryYieldUnwind _ agentDid => has_length agentDid 32
  | R_RecordTreasuryYieldAccounting _ agentDid _ _ _ _ => has_length agentDid 32
  | R_DepositToYieldStrategy agentDid strategyId _ _ _ routeData _ _ _ _ amount _ =>
    has_length agentDid 32 && has_length strategyId 32 && route_ok routeData && (0 <? amount)
  | R_WithdrawFromYieldStrategy agentDid strategyId _ _ _ routeData _ _ _ _ receiptAmount =>
    has_length agentDid 32 && has_length strategyId 32 && route_ok routeData && (0 <? receiptAmount)
  | R_EmergencyUnwindYieldStrategy agentDid strategyId _ _ _ routeData _ _ _ _ =>
    has_length agentDid 32 && has_length strategyId 32 && route_ok routeData
  | R_UpdateManifest _ _ manifestUri _ _ _ _ => (length (enc manifestUri) <=? 128)%nat
  | R_RegisterAgent _ agentId manifestUri _ _ _ _ _ _ _ _ _ => has_length agentId 32 && (length (enc manifestUri) <=? 128)%nat
  | R_RegisterVk _ _ vkId _ _ _ _ _ _ _ _ => has_length vkId 32
  | R_SnapshotEpoch _ _ _ currentEpoch => u64_ok currentEpoch
  | R_ClaimStaker _ _ _ epochId _ _ _ => u64_ok epochId
  | R_ProcessEpoch _ _ _ _ currentEpochId nextEpochId _ _ => u64_ok currentEpochId && u64_ok nextEpochId
  | R_ExecuteBurn _ _ epochId _ => u64_ok epochId
  | R_HarvestTransferFees _ _ currentEpochId _ _ => u64_ok currentEpochId
  | R_HarvestConfidentialFees _ _ currentEpochId _ _ => u64_ok currentEpochId
  | R_CommitDistributionRoot _ epochId _ _ _ => u64_ok epochId
  | R_MintTemplate _ templateId _ _ _ _ _ _ _ => has_length templateId 32
  | R_UpdateTemplate _ templateId _ _ => has_length templateId 32
  | R_RetireTemplate _ templateId => has_length templateId 32
  | R_ForkTemplate _ parentTemplateId childAgentDid => has_length parentTemplateId 32 && has_length childAgentDid 32
  | R_OpenRental _ templateId _ _ _ rentalNonce _ => has_length templateId 32 && has_length rentalNonce 8
  | R_CloseRental _ _ templateId _ _ _ _ _ => has_length templateId 32
  | R_ClaimRentalRevenue _ _ templateId _ _ _ _ => has_length templateId 32
  | _ => true
  end.

Lemma sized_if l n m : sized l n m = if has_length l n then Ok tt else Throw m.
Proof. done. Qed.

Lemma uint64_if n : writeBigUInt64LE n = if u64_ok n then Ok (rev (fill_bytes 8 n [])) else Throw "ERR_OUT_OF_RANGE".
Proof. unfold writeBigUInt64LE, u64_ok. rewrite Z.ltb_antisym, (Z.leb_antisym n (2 ^ 64)). by destruct (0 <=? n), (n <? 2 ^ 64). Qed.

Lemma manifest_if uri : encodeManifestUri uri =
  if (length (enc uri) <=? 128)%nat then Ok (enc uri ++ repeat 0 (128 - length (enc uri))) else Throw "manifestUri exceeds 128 bytes".
Proof. unfold encodeManifestUri, padded, MANIFEST_URI_LEN. rewrite Nat.leb_antisym. by destruct (128 <? length (enc uri))%nat. Qed.

Lemma kind_is_ok input : is_ok (normalizeTaskPayload input) = kind_ok (pi_kind input).
Proof.
  unfold normalizeTaskPayload, normalizeTaskKind, kind_ok, toByteArray, has_length.
  destruct (pi_kind input) as [k|k], k; cbn [result_bind is_ok];
    repeat match goal with |- context [(length ?l =? 32)%nat] => destruct (length l =? 32)%nat; cbn [result_bind is_ok andb] end; done.
Qed.

Section builders_return.
Variable PublicKey : string -> result pubkey.
Variable find : list (list Z) -> pubkey -> result (pubkey * Z).
Variable ids : ProgramIdMap.
Hypothesis total : forall seeds program, exists a, find seeds program = Ok a.

Ltac decide_inputs := repeat (cbn [key result_bind is_ok fst andb negb]; match goal with
  | |- context [find ?s ?p] => destruct (total s p) as [[? ?] ->]
  | |- context [normalizeTaskPayload ?p] => rewrite <- (kind_is_ok p); destruct (normalizeTaskPayload p)
  | |- context [has_length ?l ?n] => destruct (has_length l n)
  | |- context [u64_ok ?n] => destruct (u64_ok n)
  | |- context [(?a =? ?b)%nat] => destruct (a =? b)%nat
  | |- context [(?a <? ?b)%nat] => destruct (a <? b)%nat
  | |- context [?a <=? 0] => destruct (Z.leb_spec a 0)
  | |- context [(?a <=? ?b)%nat] => destruct (a <=? b)%nat
  end).

(** When every derivation finds an address, a builder throws only for an input of
    the wrong size, a number outside of 64 bits it derives an address from, a
    manifest that does not fit, or a route or amount that is not positive. *)
Theorem builders_return (r : request) : is_ok (build PublicKey find ids r) = inputs_ok r.
Proof.
  destruct r; cbn [build program_of inputs_ok]; autounfold with ix; autounfold with pda; rewrite ?sized_if, ?uint64_if, ?manifest_if;
    unfold check, route_ok, MAX_YIELD_ROUTE_DATA_LEN; rewrite ?(Z.ltb_antisym _ 0), ?(Nat.leb_antisym 512);
    decide_inputs; done.
Qed.
End builders_return.

(** ** Dispute votes *)

(** The program keeps an arbitrator's vote at an address of the case, the
    arbitrator's own key and the round (programs/dispute_arbitration, voting.rs);
    the SDK's is of the case and the arbitrator's account.  They differ, or SHA-256
    collides. *)
Theorem vote_record_missed (PublicKey : string -> result pubkey) (sha256 : list Z -> list Z)
    (find : list (list Z) -> pubkey -> result (pubkey * Z)) (law : address_law sha256 find) (ids : ProgramIdMap)
    (disputeCase arbitratorSigner operator k k' bump caseId round : Z) (commitHash case salt : list Z) (verdict : variant) (c : call)
    (Hc : build PublicKey find ids (R_CommitVote disputeCase arbitratorSigner operator caseId commitHash) = Ok c \/
          build PublicKey find ids (R_RevealVote disputeCase arbitratorSigner caseId verdict salt) = Ok c)
    (Hk : assoc "voteRecord" (ix_accounts c) = Some (Some k)) (Hcase : writeBigUInt64LE caseId = Ok case)
    (Hk' : find [enc "dispute_vote"; case; toBuffer arbitratorSigner; [round]] (ids disputeArbitration) = Ok (k', bump)) :
  k <> k' \/ collides sha256.
Proof.
  assert (exists a b, find [enc "dispute_vote"; case; toBuffer a] (ids disputeArbitration) = Ok (k, b)) as (a & b & H).
  { destruct Hc as [Hc|Hc]; cbn [build program_of] in Hc; autounfold with ix in Hc; built; autounfold with pda in *; built; subst c;
      cbn in Hk; injection Hk as ->; rewrite Hcase in *; built; subst; by eexists _, _. }
  destruct (decide (k = k')) as [->|]; [right|by left]. apply law in H, Hk'. rewrite H in Hk'.
  eexists _, _. split; [|exact Hk']. cbn [concat]. intros Heq. apply (f_equal length) in Heq. revert Heq.
  rewrite !length_app, !toBuffer_length. cbn [length]. lia.
Qed.

(** ** Witnesses *)

Definition toy_PublicKey (text : string) : result pubkey := Ok (Z.of_nat (String.length text)).

Definition toy_ids : ProgramIdMap := fun n => constant toy_PublicKey (DEVNET_PROGRAM_IDS n).

Definition toy_request : request := R_RevealBid 7 8 (repeat 1 32) 1000 (repeat 2 32).

Definition toy_call : call := match build toy_PublicKey toy_find toy_ids toy_request with Ok c => c | Throw _ => Build_call "" [] [] [] end.

Lemma builders_conform_witness :
  build toy_PublicKey toy_find toy_ids toy_request = Ok toy_call /\
  conforms toy_PublicKey toy_find task_market_types task_market_revealBid (toy_ids taskMarket) [("task.task_id"%string, Some (repeat 1 32))] ["task"%string] toy_call.
Proof.
  assert (E : build toy_PublicKey toy_find toy_ids toy_request = Ok toy_call) by (vm_compute; reflexivity).
  split; [exact E|]. exact (builders_conform toy_PublicKey toy_find toy_ids (ltac:(intros n; reflexivity)) toy_request toy_call eq_refl E).
Defined.

Lemma builders_return_witness : is_ok (build toy_PublicKey toy_find toy_ids (R_RevealBid 7 8 [1] 1000 [])) = false.
Proof.
  exact (builders_return toy_PublicKey toy_find toy_ids (ltac:(intros s p; unfold toy_find; eexists; reflexivity)) (R_RevealBid 7 8 [1] 1000 [])).
Defined.

Lemma vote_record_missed_witness : exists k k' : Z, k <> k' \/ collides toy_sha.
Proof.
  destruct (build toy_PublicKey toy_find toy_ids (R_CommitVote 1 2 2 3 [])) as [c|] eqn:E; [|vm_compute in E; discriminate E].
  destruct (assoc "voteRecord" (ix_accounts c)) as [[k|]|] eqn:Ek.
  - destruct (toy_find_some [enc "dispute_vote"; [3; 0; 0; 0; 0; 0; 0; 0]; toBuffer 2; [1]] (toy_ids disputeArbitration)) as (k' & b & Ek').
    exists k, k'. refine (vote_record_missed toy_PublicKey toy_sha toy_find toy_find_law toy_ids 1 2 2 k k' b 3 1 [] _ [] "" c (or_introl E) Ek _ Ek').
    vm_compute. reflexivity.
  - exfalso. vm_compute in E. injection E as <-. vm_compute in Ek. discriminate Ek.
  - exfalso. vm_compute in E. injection E as <-. vm_compute in Ek. discriminate Ek.
Defined.
