(* ===== verification/IdlErrors.v ===== *)
(** * IdlErrors: the errors of the programs

    Models packages/sdk/src/generated/*.ts: the error codes of each program with
    their names and messages, as Anchor gives them to a client. *)

From Stdlib Require Import ZArith.
From stdpp Require Import base list strings.
From S2P Require Import Prelude.

#[local] Open Scope Z_scope.

Record idl_error := { ie_code : Z; ie_name : string; ie_msg : string }.

Definition error (code : Z) (name msg : string) : idl_error := {| ie_code := code; ie_name := name; ie_msg := msg |}.

Definition agent_registry_errors : list idl_error :=
  [
   error 6000 "unauthorized" "signer is not authorized for this instruction";
   error 6001 "paused" "registry is paused";
   error 6002 "invalidCapability" "capability mask contains unapproved bits";
   error 6003 "stakeBelowMinimum" "stake is below configured minimum";
   error 6004 "agentExists" "agent already exists for these seeds";
   error 6005 "agentNotFound" "agent not found";
   error 6006 "invalidStatusTransition" "illegal status transition";
   error 6007 "slashPending" "a slash is already pending";
   error 6008 "slashBoundExceeded" "slash amount exceeds per-incident bound";
   error 6009 "timelockNotElapsed" "slash timelock has not elapsed";
   error 6010 "withdrawalPending" "a withdrawal is already pending";
   error 6011 "noPendingSlash" "no pending slash";
   error 6012 "noPendingWithdrawal" "no pending withdrawal";
   error 6013 "arithmeticOverflow" "arithmetic overflow";
   error 6014 "invalidManifest" "manifest uri invalid";
   error 6015 "callerNotTaskMarket" "caller is not the TaskMarket program";
   error 6016 "noPendingAuthority" "no pending authority to accept";
   error 6017 "slashCapTooHigh" "max_slash_bps above 10% cap";
   error 6018 "reputationOutOfRange" "reputation value out of range";
   error 6019 "unauthorizedReputationUpdate" "only the proof_verifier program may update reputation";
   error 6020 "invalidCapabilityBit" "capability bit exceeds capability_mask width";
   error 6021 "capabilityNotDeclared" "agent has not declared this capability bit";
   error 6022 "reputationReplay" "task_id already applied to this category reputation";
   error 6023 "personhoodRequired" "personhood attestation required but missing";
   error 6024 "personhoodExpired" "personhood attestation has expired";
   error 6025 "personhoodRevoked" "personhood attestation has been revoked";
   error 6026 "gatekeeperNotAllowed" "gatekeeper network or SAS issuer is not on the allowlist";
   error 6027 "attestationOperatorMismatch" "attestation operator does not match signer or bidder";
   error 6028 "gatewayTokenInvalid" "gateway token layout is invalid";
   error 6029 "gatewayTokenNotActive" "gateway token state is not active";
   error 6030 "gatewayTokenOwnerMismatch" "gateway token owner does not match operator";
   error 6031 "gatekeeperListFull" "gatekeeper allowlist overflow";
   error 6032 "attestationStillValid" "attestation is still valid; refresh not needed";
   error 6033 "reentrancyDetected" "reentrancy detected — guard is already active";
   error 6034 "unauthorizedCaller" "caller program is not on the allowed callers list";
   error 6035 "callerGuardNotActive" "caller program's reentrancy guard is not active";
   error 6036 "cpiDepthExceeded" "cpi stack height exceeds allowed bound";
   error 6037 "guardAlreadyActive" "reentrancy guard is already active";
   error 6038 "guardNotInitialized" "reentrancy guard has not been initialized";
   error 6039 "adminResetNotTimelocked" "admin reset has not met the 24h timelock";
   error 6040 "civicGatewayProgramNotSet" "civic gateway program id has not been configured on RegistryGlobal";
   error 6041 "civicGatewayProgramMismatch" "civic gateway token account owner does not match civic gateway program";
   error 6042 "invalidCivicGateway" "civic gateway program cannot be set to Pubkey::default";
   error 6043 "decayCooldownNotElapsed" "availability decay cooldown has not elapsed (24h minimum)";
   error 6044 "invalidStakeMint" "stake mint must be owned by the SPL Token or Token-2022 program";
   error 6045 "stakeMintHasTransferHook" "stake mint may not enable the TransferHook extension"]%string.

Definition capability_registry_errors : list idl_error :=
  [
   error 6000 "unauthorized" "signer is not the registry authority";
   error 6001 "alreadyInitialized" "registry already initialized";
   error 6002 "bitIndexOutOfRange" "bit index must be < 128";
   error 6003 "tagAlreadyExists" "tag already exists for this bit index";
   error 6004 "tagNotFound" "tag not found";
   error 6005 "tagRetired" "tag is retired";
   error 6006 "invalidSlug" "slug must be non-empty lowercase ascii [a-z0-9_] without leading or trailing underscore";
   error 6007 "invalidManifestUri" "manifest uri must be non-empty";
   error 6008 "invalidCapability" "mask contains unapproved or retired bits";
   error 6009 "paused" "registry is paused";
   error 6010 "noPendingAuthority" "no pending authority to accept";
   error 6011 "tagCountOverflow" "tag count overflow";
   error 6012 "invalidPersonhoodTier" "personhood tier value out of range"]%string.

Definition dispute_arbitration_errors : list idl_error :=
  [
   error 6000 "unauthorized" "signer is not authorized for this instruction";
   error 6001 "reentrancyDetected" "reentrancy detected — guard is already active";
   error 6002 "unauthorizedCaller" "caller program is not on the allowed callers list";
   error 6003 "callerGuardNotActive" "caller program's reentrancy guard is not active";
   error 6004 "cpiDepthExceeded" "cpi stack height exceeds allowed bound";
   error 6005 "guardAlreadyActive" "reentrancy guard is already active";
   error 6006 "guardNotInitialized" "reentrancy guard has not been initialized";
   error 6007 "adminResetNotTimelocked" "admin reset has not met the 24h timelock";
   error 6008 "paused" "program is paused";
   error 6009 "poolMissing" "dispute pool has not been snapshotted";
   error 6010 "poolTooSmall" "dispute pool has too few eligible arbitrators";
   error 6011 "vrfStale" "VRF result is stale";
   error 6012 "vrfNotFulfilled" "VRF has not been fulfilled";
   error 6013 "wrongStatus" "invalid status for this operation";
   error 6014 "commitWindowClosed" "commit window has closed";
   error 6015 "revealWindowClosed" "reveal window has closed";
   error 6016 "revealWindowOpen" "reveal window has not closed yet";
   error 6017 "commitHashMismatch" "commit hash does not match revealed data";
   error 6018 "duplicateVote" "arbitrator has already voted in this round";
   error 6019 "arbitratorNotSelected" "arbitrator was not selected for this case";
   error 6020 "appealWindowClosed" "appeal window has closed";
   error 6021 "appealCollateralInsufficient" "appeal collateral is insufficient";
   error 6022 "tooManyAppeals" "maximum number of appeals reached";
   error 6023 "slashAlreadyPending" "a pending slash already exists for this arbitrator";
   error 6024 "slashTimelockNotElapsed" "slash timelock has not elapsed";
   error 6025 "noMajority" "no clean majority was reached";
   error 6026 "verdictEncodingInvalid" "verdict encoding is invalid";
   error 6027 "stakeInsufficient" "stake is below minimum requirement";
   error 6028 "stakeLockTooShort" "stake lockup is too short";
   error 6029 "arithmeticOverflow" "arithmetic overflow";
   error 6030 "callerNotTaskMarket" "caller is not the task market program";
   error 6031 "arbitratorNotActive" "arbitrator is not active";
   error 6032 "poolFull" "pool is at maximum capacity";
   error 6033 "alreadyRegistered" "arbitrator already registered";
   error 6034 "appealWindowOpen" "appeal window has not elapsed";
   error 6035 "executionWindowOpen" "execution window has not elapsed";
   error 6036 "notWithdrawing" "arbitrator is not in withdrawing status";
   error 6037 "withdrawNotReady" "withdraw unlock time has not been reached";
   error 6038 "badFaithThresholdNotMet" "bad faith threshold not met for slash";
   error 6039 "invalidBps" "invalid bps value"]%string.

Definition fee_collector_errors : list idl_error :=
  [
   error 6000 "unauthorized" "signer is not authorized for this instruction";
   error 6001 "mintNotAllowed" "mint is not on the allowlist";
   error 6002 "mintAllowlistFull" "mint allowlist is at capacity";
   error 6003 "agentMintAllowlistFull" "per-agent mint allowlist is at capacity";
   error 6004 "confidentialTransfersDisabled" "confidential transfers are not enabled";
   error 6005 "hookNotAllowed" "transfer-hook program is not on the allowlist";
   error 6006 "hookAllowlistFull" "hook allowlist is at capacity";
   error 6007 "agentHookAllowlistFull" "per-agent hook allowlist is at capacity";
   error 6008 "invalidProgramId" "program id must be a non-default pubkey";
   error 6009 "mintExtensionRejected" "mint extension configuration is not acceptable";
   error 6010 "mintParseFailed" "failed to parse Token-2022 mint extensions";
   error 6011 "noPendingAuthority" "no pending authority to accept";
   error 6012 "reentrancyDetected" "reentrancy detected — guard is already active";
   error 6013 "unauthorizedCaller" "caller program is not on the allowed callers list";
   error 6014 "callerGuardNotActive" "caller program's reentrancy guard is not active";
   error 6015 "cpiDepthExceeded" "cpi stack height exceeds allowed bound";
   error 6016 "guardAlreadyActive" "reentrancy guard is already active";
   error 6017 "guardNotInitialized" "reentrancy guard has not been initialized";
   error 6018 "adminResetNotTimelocked" "admin reset has not met the 24h timelock";
   error 6019 "paused" "program is paused";
   error 6020 "invalidBpsSum" "bps quadruple must sum to 10000";
   error 6021 "bucketCapExceeded" "bucket bps exceeds its hard cap";
   error 6022 "epochNotOpen" "epoch is not in Open status";
   error 6023 "epochNotElapsed" "epoch duration has not elapsed";
   error 6024 "intakeAccountingDrift" "intake vault balance does not match total_collected";
   error 6025 "distributionAlreadyCommitted" "distribution root already committed for this epoch";
   error 6026 "distributionWindowElapsed" "distribution commit window has elapsed";
   error 6027 "merkleProofInvalid" "merkle proof is invalid";
   error 6028 "merkleProofTooDeep" "merkle proof exceeds max depth";
   error 6029 "claimOverflow" "claim would exceed staker_amount for this epoch";
   error 6030 "claimWindowElapsed" "claim window has elapsed";
   error 6031 "burnBelowThreshold" "burn amount below minimum threshold";
   error 6032 "burnAlreadyExecuted" "burn already executed for this epoch";
   error 6033 "sweepGraceNotElapsed" "sweep grace period has not elapsed";
   error 6034 "alreadySwept" "epoch has already been swept";
   error 6035 "invalidEpochStatus" "invalid epoch status for this operation";
   error 6036 "arithmeticOverflow" "arithmetic overflow";
   error 6037 "callerNotRegisteredSlasher" "caller is not a registered slash source";
   error 6038 "invalidEpochDuration" "epoch duration out of allowed range";
   error 6039 "invalidClaimWindow" "claim window out of allowed range";
   error 6040 "zeroDeposit" "deposit amount must be greater than zero";
   error 6041 "insufficientBalance" "withdraw amount exceeds available balance"]%string.

Definition governance_program_errors : list idl_error :=
  [
   error 6000 "unauthorized" "signer is not authorized";
   error 6001 "paused" "governance is paused";
   error 6002 "invalidProposalStatus" "proposal is not in the expected status";
   error 6003 "votingNotEnded" "voting window has not ended";
   error 6004 "votingEnded" "voting window has ended";
   error 6005 "timelockNotElapsed" "timelock has not elapsed";
   error 6006 "executionWindowExpired" "execution window has expired";
   error 6007 "quorumNotMet" "quorum was not met";
   error 6008 "merkleProofInvalid" "merkle proof is invalid";
   error 6009 "merkleProofTooDeep" "merkle proof exceeds max depth";
   error 6010 "registryFull" "program registry is at capacity";
   error 6011 "duplicateProgram" "duplicate program in registry";
   error 6012 "programNotRegistered" "target program not found in registry";
   error 6013 "arithmeticOverflow" "arithmetic overflow";
   error 6014 "payloadTooLarge" "ix_data exceeds max payload size for target program";
   error 6015 "cannotCancelAfterVoteStart" "proposal cannot be cancelled after voting starts";
   error 6016 "emptyMetadataUri" "metadata_uri is empty"]%string.

Definition nxs_staking_errors : list idl_error :=
  [
   error 6000 "unauthorized" "signer is not authorized for this instruction";
   error 6001 "reentrancyDetected" "reentrancy detected — guard is already active";
   error 6002 "unauthorizedCaller" "caller program is not on the allowed callers list";
   error 6003 "callerGuardNotActive" "caller program's reentrancy guard is not active";
   error 6004 "cpiDepthExceeded" "cpi stack height exceeds allowed bound";
   error 6005 "guardAlreadyActive" "reentrancy guard is already active";
   error 6006 "guardNotInitialized" "reentrancy guard has not been initialized";
   error 6007 "adminResetNotTimelocked" "admin reset has not met the 24h timelock";
   error 6008 "paused" "staking pool is paused";
   error 6009 "invalidLockup" "lockup duration out of allowed range";
   error 6010 "zeroAmount" "amount must be greater than zero";
   error 6011 "lockupNotEnded" "lockup period has not ended";
   error 6012 "cooldownNotEnded" "cooldown period has not ended";
   error 6013 "notActive" "stake account is not active";
   error 6014 "notInCooldown" "stake account is not in cooldown";
   error 6015 "arithmeticOverflow" "arithmetic overflow";
   error 6016 "epochNotEnded" "epoch has not ended yet";
   error 6017 "depositsFrozen" "deposits are frozen for this pool (migration window)";
   error 6018 "depositsNotFrozen" "deposits are not frozen; nothing to unfreeze";
   error 6019 "poolClosed" "staking pool is closed; no new state transitions";
   error 6020 "migrationWindowActive" "migration window still active; pool has stake and grace period has not elapsed"]%string.

Definition proof_verifier_errors : list idl_error :=
  [
   error 6000 "unauthorized" "signer is not the verifier authority";
   error 6001 "paused" "verifier is paused";
   error 6002 "vkAlreadyExists" "verifying key already exists";
   error 6003 "vkNotFound" "verifying key not found";
   error 6004 "vkMismatch" "provided verifying key does not match active vk";
   error 6005 "publicInputCountMismatch" "public input count does not match verifying key";
   error 6006 "publicInputOutOfField" "public input exceeds bn254 scalar field modulus";
   error 6007 "proofMalformed" "proof bytes failed curve deserialization";
   error 6008 "proofInvalid" "pairing check failed";
   error 6009 "timelockNotElapsed" "timelock has not elapsed";
   error 6010 "noPendingActivation" "no pending vk activation";
   error 6011 "activationPending" "a vk activation is already pending";
   error 6012 "notProductionVk" "non-production vk cannot be activated in mainnet mode";
   error 6013 "icLengthMismatch" "ic length must equal num_public_inputs + 1";
   error 6014 "tooManyPublicInputs" "num_public_inputs exceeds m1 cap of 16";
   error 6015 "noPendingAuthority" "no pending authority to accept";
   error 6016 "notImplemented" "not implemented in m1";
   error 6017 "invalidBatchSize" "batch size must be 1-10";
   error 6018 "batchFull" "batch is full";
   error 6019 "batchEmpty" "batch has no proofs";
   error 6020 "batchVkMismatch" "batch vk does not match active vk";
   error 6021 "reentrancyDetected" "reentrancy detected — guard is already active";
   error 6022 "unauthorizedCaller" "caller program is not on the allowed callers list";
   error 6023 "callerGuardNotActive" "caller program's reentrancy guard is not active";
   error 6024 "cpiDepthExceeded" "cpi stack height exceeds allowed bound";
   error 6025 "guardAlreadyActive" "reentrancy guard is already active";
   error 6026 "guardNotInitialized" "reentrancy guard has not been initialized";
   error 6027 "adminResetNotTimelocked" "admin reset has not met the 24h timelock";
   error 6028 "reputationBindingNotReady" "reputation args are not yet bound to the circuit's public outputs; rail disabled";
   error 6029 "sampleHashMismatch" "on-chain poseidon hash of sample does not match proof's sample_hash commitment";
   error 6030 "poseidonError" "poseidon hash computation failed";
   error 6031 "vkAlreadyFinalized" "vk is already finalized and cannot accept more ic points"]%string.

Definition task_market_errors : list idl_error :=
  [
   error 6000 "unauthorized" "signer is not authorized for this instruction";
   error 6001 "paused" "market is paused";
   error 6002 "mintNotAllowed" "payment mint is not allowed";
   error 6003 "invalidAmount" "payment amount must be positive";
   error 6004 "invalidDeadline" "deadline must be in the future";
   error 6005 "deadlineTooFar" "deadline exceeds max_deadline_secs";
   error 6006 "agentNotActive" "agent is not active";
   error 6007 "wrongStatus" "task is in the wrong status for this instruction";
   error 6008 "deadlinePassed" "deadline has passed";
   error 6009 "disputeWindowClosed" "dispute window has closed";
   error 6010 "disputeWindowOpen" "dispute window is still open";
   error 6011 "notExpired" "task is not yet expired";
   error 6012 "escrowMismatch" "escrow balance mismatch";
   error 6013 "arithmeticOverflow" "arithmetic overflow";
   error 6014 "proofInvalid" "proof verification failed";
   error 6015 "callerNotOperator" "signer is not the operator of the assigned agent";
   error 6016 "taskNotFound" "task not found";
   error 6017 "feeBoundExceeded" "fee bps exceeds bound";
   error 6018 "tooManyMilestones" "milestone_count exceeds maximum";
   error 6019 "noPendingAuthority" "no pending authority to accept";
   error 6020 "graceNotElapsed" "grace period has not elapsed";
   error 6021 "zeroResultHash" "result hash must be non-zero";
   error 6022 "agentMismatch" "agent DID does not match task assignment";
   error 6023 "outcomeCpiFailed" "agent registry CPI failed";
   error 6024 "insufficientStake" "agent stake below required minimum";
   error 6025 "phaseClosed" "bid phase closed for this action";
   error 6026 "revealMismatch" "revealed bid does not match commit hash";
   error 6027 "bondOutOfRange" "bond bps out of allowed range";
   error 6028 "tooManyBidders" "bid book is at capacity";
   error 6029 "bidBookNotSettled" "bid book has not been settled";
   error 6030 "notWinner" "signer is not the winning bidder";
   error 6031 "noReveals" "no eligible reveals in bid book";
   error 6032 "alreadyRefunded" "bond has already been claimed";
   error 6033 "windowInvalid" "bid window parameters invalid";
   error 6034 "bidBookAlreadyOpen" "task already has an open bid book";
   error 6035 "commitsPresent" "bid book has active commits; cannot cancel";
   error 6036 "payloadTooLarge" "task payload exceeds size caps";
   error 6037 "invalidCapabilityBit" "capability_bit out of allowed range";
   error 6038 "unknownCapability" "agent does not advertise the requested capability_bit";
   error 6039 "personhoodRequired" "personhood attestation required but missing";
   error 6040 "personhoodExpired" "personhood attestation has expired";
   error 6041 "personhoodRevoked" "personhood attestation has been revoked";
   error 6042 "attestationOperatorMismatch" "attestation operator does not match bidder";
   error 6043 "hookNotAllowed" "transfer-hook program not on fee_collector allowlist";
   error 6044 "mintExtensionRejected" "mint extension configuration is not acceptable";
   error 6045 "hookAllowlistMismatch" "hook_allowlist account does not match MarketGlobal hook_allowlist";
   error 6046 "mintAlreadyAccepted" "mint already has a MintAcceptRecord";
   error 6047 "reentrancyDetected" "reentrancy detected — guard is already active";
   error 6048 "unauthorizedCaller" "caller program is not on the allowed callers list";
   error 6049 "callerGuardNotActive" "caller program's reentrancy guard is not active";
   error 6050 "cpiDepthExceeded" "cpi stack height exceeds allowed bound";
   error 6051 "guardAlreadyActive" "reentrancy guard is already active";
   error 6052 "guardNotInitialized" "reentrancy guard has not been initialized";
   error 6053 "adminResetNotTimelocked" "admin reset has not met the 24h timelock";
   error 6054 "incompleteBidEnumeration" "close_bidding must receive every revealed bid in remaining_accounts";
   error 6055 "duplicateBidEnumeration" "duplicate bid detected in close_bidding enumeration";
   error 6056 "capabilityNotInAgentMask" "agent has not declared the task's capability bit";
   error 6057 "invalidBidInEnumeration" "unrevealed or slashed bid present in close_bidding enumeration";
   error 6058 "bondNotClaimed" "bond must be claimed before closing bid PDA";
   error 6059 "escrowNotEmpty" "bond escrow still holds tokens"]%string.

Definition template_registry_errors : list idl_error :=
  [
   error 6000 "paused" "Program is paused";
   error 6001 "unauthorized" "unauthorized";
   error 6002 "royaltyExceedsCap" "Royalty bps exceeds cap";
   error 6003 "invalidStatus" "Template not in valid state for this operation";
   error 6004 "lineageDepthExceeded" "Lineage depth exceeds maximum";
   error 6005 "capabilityMaskMismatch" "Capability mask includes bits not present in parent";
   error 6006 "rentalDisabled" "Rental is disabled for this template";
   error 6007 "rentalDurationOutOfBounds" "Rental duration out of bounds";
   error 6008 "rentalNotEnded" "Rental not yet ended";
   error 6009 "rentalAlreadyClosed" "Rental already closed";
   error 6010 "arithmeticOverflow" "Arithmetic overflow";
   error 6011 "nothingToClaim" "Nothing to claim";
   error 6012 "invalidCpiCaller" "Invalid CPI caller";
   error 6013 "feeSplitExceeds100" "Fee split exceeds 100%"]%string.

Definition treasury_standard_errors : list idl_error :=
  [
   error 6000 "unauthorized" "signer is not authorized for this instruction";
   error 6001 "paused" "treasury is paused";
   error 6002 "mintNotAllowed" "mint is not on the allowlist";
   error 6003 "limitExceeded" "spending or transfer limit exceeded";
   error 6004 "insufficientVault" "vault balance insufficient";
   error 6005 "streamAlreadyActive" "a stream is already active for this treasury";
   error 6006 "streamNotActive" "stream is not active";
   error 6007 "streamAlreadyClosed" "stream is already closed";
   error 6008 "invalidDuration" "stream duration invalid";
   error 6009 "invalidRate" "stream rate invalid";
   error 6010 "oracleStale" "oracle price is stale";
   error 6011 "oracleConfidenceTooWide" "oracle confidence interval too wide";
   error 6012 "swapSlippage" "swap exceeded slippage tolerance";
   error 6013 "arithmeticOverflow" "arithmetic overflow";
   error 6014 "callerNotTaskMarket" "caller is not TaskMarket program";
   error 6015 "agentNotActive" "agent is not active in AgentRegistry";
   error 6016 "invalidLimits" "limits violate per_tx <= daily <= weekly invariant";
   error 6017 "allowedMintsFull" "allowed-mints list is full";
   error 6018 "mintNotFound" "mint not found in allowlist";
   error 6019 "noPendingAuthority" "no pending authority to accept";
   error 6020 "zeroAmount" "amount must be greater than zero";
   error 6021 "payTaskDisabled" "pay_task is reserved for M2 and is inert in M1";
   error 6022 "invalidJupiterProgram" "jupiter program does not match configured address";
   error 6023 "swapRouteRequired" "swap route data required for cross-mint withdrawal";
   error 6024 "routeDataTooLong" "route_data exceeds MAX_ROUTE_DATA_LEN";
   error 6025 "swapAmountExceeded" "swap consumed more tokens than earned";
   error 6026 "oracleRequired" "oracle price feed required for cross-mint withdrawal";
   error 6027 "oracleNonPositivePrice" "oracle price is non-positive";
   error 6028 "agentMismatch" "agent DID does not match AgentAccount";
   error 6029 "operatorMismatch" "operator does not match AgentAccount operator";
   error 6030 "targetNotAllowed" "outbound CPI target is not on the allowed-call-targets list";
   error 6031 "tooManyCallTargets" "allowed-call-targets list exceeds cap";
   error 6032 "invalidCallTarget" "call target must be a non-default pubkey";
   error 6033 "hookNotAllowed" "transfer-hook program not on fee_collector allowlist";
   error 6034 "hookAllowlistAlreadySet" "hook_allowlist pointer has already been set";
   error 6035 "hookAllowlistMismatch" "hook_allowlist account does not match TreasuryGlobal.hook_allowlist";
   error 6036 "reentrancyDetected" "reentrancy detected — guard is already active";
   error 6037 "unauthorizedCaller" "caller program is not on the allowed callers list";
   error 6038 "callerGuardNotActive" "caller program's reentrancy guard is not active";
   error 6039 "cpiDepthExceeded" "cpi stack height exceeds allowed bound";
   error 6040 "guardAlreadyActive" "reentrancy guard is already active";
   error 6041 "guardNotInitialized" "reentrancy guard has not been initialized";
   error 6042 "adminResetNotTimelocked" "admin reset has not met the 24h timelock";
   error 6043 "yieldNameTooLong" "yield strategy name exceeds maximum length";
   error 6044 "yieldUriTooLong" "yield strategy metadata URI exceeds maximum length";
   error 6045 "yieldAllocationInvalid" "yield allocation must be between 0 and 10_000 bps";
   error 6046 "yieldAllocationExceeded" "yield allocation exceeds the strategy cap";
   error 6047 "yieldStrategyNotActive" "yield strategy is not active";
   error 6048 "treasuryYieldNotActive" "treasury yield config is not active";
   error 6049 "yieldAccountingStale" "treasury yield accounting slot moved backwards";
   error 6050 "yieldRouteRequired" "yield movement route data is required";
   error 6051 "unsupportedYieldVenue" "yield venue is not supported by this instruction";
   error 6052 "invalidYieldProgram" "yield strategy program does not match the Kamino program account";
   error 6053 "yieldMintMismatch" "yield strategy mint does not match the provided vault mint";
   error 6054 "yieldReceiptMintMismatch" "yield strategy receipt mint does not match the provided receipt mint";
   error 6055 "yieldDepositAmountExceeded" "yield deposit exceeded the requested amount";
   error 6056 "yieldWithdrawAmountExceeded" "yield withdrawal exceeded the requested receipt amount";
   error 6057 "yieldNoBalanceDelta" "yield movement did not change balances";
   error 6058 "yieldPositionClosed" "yield position is closed";
   error 6059 "yieldUnwindIncomplete" "emergency unwind did not fully drain the receipt vault"]%string.

(** The errors of each program, by the name of its file. *)
Definition idl_errors : list (string * list idl_error) :=
  [
   ("agent_registry", agent_registry_errors);
   ("capability_registry", capability_registry_errors);
   ("dispute_arbitration", dispute_arbitration_errors);
   ("fee_collector", fee_collector_errors);
   ("governance_program", governance_program_errors);
   ("nxs_staking", nxs_staking_errors);
   ("proof_verifier", proof_verifier_errors);
   ("task_market", task_market_errors);
   ("template_registry", template_registry_errors);
   ("treasury_standard", treasury_standard_errors)]%string.
