(* ===== verification/Decoded.v ===== *)
(** * Decoded: accounts as Anchor hands them to a client

    Models the run-time shapes described in
    packages/sdk/src/accounts/anchor-decoded.ts.  A decoded account is a [value]:
    numbers of up to 32 bits are numbers, wider ones BNs, arrays of bytes and
    Buffers bytes, an absent option null, a struct an object and an enum an object
    with one key.  [has_type] says which values Anchor's decoder can produce for a
    type of the interface. *)

From Stdlib Require Import ZArith.
From stdpp Require Import base list strings.
From S2P Require Import Prelude Bytes Effects JsMap Pda Idl IdlTypes.

#[local] Open Scope Z_scope.
#[local] Open Scope saep_scope.

Inductive value :=
| V_num (n : Z)
| V_bn (n : Z)
| V_bool (b : bool)
| V_key (k : pubkey)
| V_bytes (bytes : list Z)
| V_text (s : string)
| V_list (l : list value)
| V_null
| V_struct (fields : list (string * value))
| V_enum (variant : string) (fields : list (string * value)).

Definition core (t : idl_type) : idl_type := match t with T_option t' => t' | _ => t end.
Definition optional (t : idl_type) : bool := match t with T_option _ => true | _ => false end.

Definition unsigned (bits n : Z) : bool := (0 <=? n) && (n <? 2 ^ bits).
Definition signed64 (n : Z) : bool := (- 2 ^ 63 <=? n) && (n <? 2 ^ 63).
Definition bytes_ok (l : list Z) : bool := forallb (unsigned 8) l.

Section types.
Variable types : list (string * idl_typedef).

Fixpoint has_type (v : value) (t : idl_type) {struct v} : bool :=
  let have := fix have (fs : list (string * value)) (ts : list (string * idl_type)) {struct fs} : bool :=
    match fs, ts with
    | [], [] => true
    | (f, v) :: fs', (g, t) :: ts' => String.eqb f g && has_type v t && have fs' ts'
    | _, _ => false
    end in
  let all := fix all (l : list value) (t : idl_type) {struct l} : bool :=
    match l with
    | [] => true
    | v :: l' => has_type v t && all l' t
    end in
  match v with
  | V_null => optional t
  | V_num n => match core t with T_u8 => unsigned 8 n | T_u16 => unsigned 16 n | T_u32 => unsigned 32 n | _ => false end
  | V_bn n => match core t with T_u64 => unsigned 64 n | T_i64 => signed64 n | T_u128 => unsigned 128 n | _ => false end
  | V_bool _ => match core t with T_bool => true | _ => false end
  | V_key k => match core t with T_pubkey => unsigned 256 k | _ => false end
  | V_bytes l => match core t with
                 | T_array T_u8 n => (length l =? n)%nat && bytes_ok l
                 | T_bytes => bytes_ok l
                 | _ => false
                 end
  | V_text _ => match core t with T_string => true | _ => false end
  | V_list l => match core t with
                | T_array T_u8 _ => false
                | T_array t' n => (length l =? n)%nat && all l t'
                | T_vec t' => all l t'
                | _ => false
                end
  | V_struct fs => match core t with
                   | T_defined name => match map_get name types with Some (TD_struct ts) => have fs ts | _ => false end
                   | _ => false
                   end
  | V_enum var fs => match core t with
                     | T_defined name => match map_get name types with
                                         | Some (TD_enum vs) => match map_get var vs with Some ts => have fs ts | None => false end
                                         | _ => false
                                         end
                     | _ => false
                     end
  end.
End types.

(** ** Reading a decoded account

    Client code casts what it gets from Anchor to an interface and reads its fields.
    TypeScript does not check such casts: where the value is not of the shape the
    interface promises, the definitions below throw, whereas the code would go on
    with a wrong value.  AccountsSafety shows that this never happens. *)

Definition wrong_shape (what : string) : string := "not " +:+ what.

(** [a.f] *)
Definition prop (a : value) (f : string) : result value :=
  match a with
  | V_struct fs => match map_get f fs with Some v => Ok v | None => Throw (wrong_shape ("an object with " +:+ f)) end
  | _ => Throw (wrong_shape "an object")
  end.

Definition get_key (a : value) (f : string) : result pubkey :=
  let! v := prop a f in match v with V_key k => Ok k | _ => Throw (wrong_shape "a public key") end.

(** [a.f ?? null] *)
Definition get_key_or_null (a : value) (f : string) : result (option pubkey) :=
  let! v := prop a f in
  match v with V_key k => Ok (Some k) | V_null => Ok None | _ => Throw (wrong_shape "a public key or null") end.

(** [Uint8Array.from(a.f)] *)
Definition get_bytes (a : value) (f : string) : result (list Z) :=
  let! v := prop a f in match v with V_bytes b => Ok b | _ => Throw (wrong_shape "bytes") end.

(** [BigInt(a.f.toString())] *)
Definition get_bigint (a : value) (f : string) : result Z :=
  let! v := prop a f in match v with V_bn n => Ok n | _ => Throw (wrong_shape "a BN") end.

Definition toNumber_error : string := "Number can only safely store up to 53 bits".

(** bn.js's [toNumber]. *)
Definition toNumber (n : Z) : result Z := if Z.abs n <? 2 ^ 53 then Ok n else Throw toNumber_error.

(** [a.f.toNumber()] *)
Definition get_time (a : value) (f : string) : result Z :=
  let! v := prop a f in match v with V_bn n => toNumber n | _ => Throw (wrong_shape "a BN") end.

Definition get_num (a : value) (f : string) : result Z :=
  let! v := prop a f in match v with V_num n => Ok n | _ => Throw (wrong_shape "a number") end.

Definition get_bool (a : value) (f : string) : result bool :=
  let! v := prop a f in match v with V_bool b => Ok b | _ => Throw (wrong_shape "a boolean") end.

(** The key of an enum's object, and its value. *)
Definition get_enum (a : value) (f : string) : result string :=
  let! v := prop a f in match v with V_enum var _ => Ok var | _ => Throw (wrong_shape "an enum") end.

Definition as_keys (l : list value) : result (list pubkey) :=
  foldr (fun v r => let! ks := r in match v with V_key k => Ok (k :: ks) | _ => Throw (wrong_shape "a public key") end) (Ok []) l.

Definition get_keys (a : value) (f : string) : result (list pubkey) :=
  let! v := prop a f in match v with V_list l => as_keys l | _ => Throw (wrong_shape "an array") end.

(** ** Programs and the RPC node *)

(** A [Program] of Anchor: the interface it was built with and the address it calls. *)
Record Program := { pg_name : string; programId : pubkey }.

(** [{ memcmp: { offset, bytes } }] with the base58 text of a public key. *)
Record memcmp := { offset : nat; key_at : pubkey }.

(** [program.account.<name>.all(filters)], [fetchNullable(address)] and the raw reads of a connection:
    the owner and the data of an account. *)
Record node_ops (W : Type) := {
  all : Program -> string -> list memcmp -> io W (list (pubkey * value));
  fetchNullable : Program -> string -> pubkey -> io W (option value);
  getAccountInfo : pubkey -> io W (option (pubkey * list Z));
  getMultipleAccountsInfo : list pubkey -> io W (list (option (pubkey * list Z)));
}.
Arguments all {W} _ _ _ _.
Arguments fetchNullable {W} _ _ _ _.
Arguments getAccountInfo {W} _ _.
Arguments getMultipleAccountsInfo {W} _ _.
