(* ===== verification/Accounts.v ===== *)
(** * Accounts: reading the programs' accounts

    Models packages/sdk/src/accounts/index.ts: the summaries, the functions that
    make them from decoded accounts and the functions that fetch them.  The RPC node
    behind Anchor's account clients is an interface ([node_ops]); UTF-8 decoding,
    [findProgramAddressSync] and [new PublicKey(bytes)] are parameters. *)

From Stdlib Require Import ZArith QArith.
From stdpp Require Import base list strings.
From S2P Require Import Prelude Bytes Effects JsMap Hex Pda Ix Decoded.

#[local] Open Scope Z_scope.
#[local] Open Scope saep_scope.

(** ** Status names *)

(** [if ('a' in s) return 'a'; ... return last;] *)
Definition first_of (names : list string) (last s : string) : string :=
  if existsb (String.eqb s) names then s else last.

Definition statusFromEnum (s : string) : string := first_of ["active"; "paused"; "suspended"]%string "deregistered" s.

Definition streamStatusFromEnum (s : string) : string := first_of ["active"; "paused"; "closed"]%string "expired" s.

Definition strategyPositionStatusFromEnum (s : string) : string := first_of ["active"; "unwinding"]%string "closed" s.

Definition taskStatusFromEnum (s : string) : string :=
  first_of ["created"; "funded"; "inExecution"; "proofSubmitted"; "verified"; "released"; "expired"; "disputed"]%string "resolved" s.

Definition bidPhaseFromEnum (s : string) : string := first_of ["commit"; "reveal"; "settled"]%string "cancelled" s.

Definition templateStatusFromEnum (s : string) : string := first_of ["draft"; "published"; "deprecated"]%string "retired" s.

Definition rentalStatusFromEnum (s : string) : string := first_of ["active"; "closed"]%string "cancelled" s.

(** ** Summaries *)

Record AgentSummary := {
  ag_address : pubkey; ag_operator : pubkey; ag_agentId : list Z; ag_did : list Z; ag_manifestUri : string;
  ag_capabilityMask : Z; ag_priceLamports : Z; ag_streamRate : Z; ag_stakeAmount : Z; ag_status : string;
  ag_jobsCompleted : Z; ag_registeredAt : Z;
}.

Record ReputationDims := {
  quality : Z; timeliness : Z; availability : Z; costEfficiency : Z; honesty : Z; volume : Z; sampleCount : Z; lastUpdate : Z;
}.

Record AgentDetail := {
  ad_summary : AgentSummary; ad_reputation : ReputationDims; ad_jobsDisputed : Z; ad_version : Z; ad_lastActive : Z;
  ad_delegate : option pubkey;
}.

Record TreasurySummary := {
  tr_address : pubkey; tr_agentDid : list Z; tr_operator : pubkey; tr_dailySpendLimit : Z; tr_perTxLimit : Z; tr_weeklyLimit : Z;
  tr_spentToday : Z; tr_spentThisWeek : Z; tr_streamingActive : bool;
}.

Record StreamSummary := {
  st_address : pubkey; st_agentDid : list Z; st_client : pubkey; st_payerMint : pubkey; st_payoutMint : pubkey; st_ratePerSec : Z;
  st_startTime : Z; st_maxDuration : Z; st_depositTotal : Z; st_withdrawn : Z; st_status : string; st_streamNonce : list Z;
}.

Record VaultBalance := { vb_mint : pubkey; vb_vault : pubkey; vb_amount : Z; vb_exists : bool }.

Record StrategyPositionSummary := {
  sp_address : pubkey; sp_agentDid : list Z; sp_strategyId : list Z; sp_vaultMint : pubkey; sp_receiptMint : pubkey;
  sp_principalAmount : Z; sp_receiptAmount : Z; sp_realizedYieldAmount : Z; sp_lastAccountingSlot : Z; sp_status : string;
  sp_unwindRequested : bool; sp_createdAt : Z; sp_updatedAt : Z;
}.

Inductive TaskPayloadKind :=
| K_swapExact (inMint outMint : pubkey) (amountIn minOut : Z)
| K_transfer (mint to : pubkey) (amount : Z)
| K_dataFetch (urlHash expectedHash : list Z)
| K_compute (circuitId publicInputsHash : list Z)
| K_generic (capabilityBit : Z) (argsHash : list Z).

Record TaskPayload := { tp_kind : TaskPayloadKind; tp_capabilityBit : Z; tp_criteria : list Z }.

Record TaskSummary := {
  ts_address : pubkey; ts_taskId : list Z; ts_client : pubkey; ts_agentDid : list Z; ts_taskNonce : list Z; ts_taskHash : list Z;
  ts_catalogHash : option (list Z); ts_paymentMint : pubkey; ts_paymentAmount : Z; ts_status : string; ts_deadline : Z;
  ts_verified : bool; ts_createdAt : Z;
}.

Record TaskDetail := {
  td_summary : TaskSummary; td_resultHash : list Z; td_proofKey : list Z; td_criteriaRoot : list Z; td_protocolFee : Z;
  td_solrepFee : Z; td_milestoneCount : Z; td_milestonesComplete : Z; td_fundedAt : Z; td_submittedAt : Z;
  td_disputeWindowEnd : Z; td_payload : TaskPayload;
}.

Record MarketGlobalSummary := {
  mg_address : pubkey; mg_authority : pubkey; mg_pendingAuthority : option pubkey; mg_agentRegistry : pubkey;
  mg_treasuryStandard : pubkey; mg_proofVerifier : pubkey; mg_feeCollector : pubkey; mg_solrepPool : pubkey;
  mg_protocolFeeBps : Z; mg_solrepFeeBps : Z; mg_disputeWindowSecs : Z; mg_maxDeadlineSecs : Z;
  mg_allowedPaymentMints : list pubkey; mg_paused : bool;
}.

Record BidBookSummary := {
  bb_address : pubkey; bb_taskId : list Z; bb_commitStart : Z; bb_commitEnd : Z; bb_revealEnd : Z; bb_bondAmount : Z;
  bb_bondMint : pubkey; bb_commitCount : Z; bb_revealCount : Z; bb_winnerAgent : option pubkey; bb_winnerBidder : option pubkey;
  bb_winnerAmount : Z; bb_phase : string;
}.

Record BidSummary := {
  bd_address : pubkey; bd_taskId : list Z; bd_agentDid : list Z; bd_bidder : pubkey; bd_commitHash : list Z; bd_bondPaid : Z;
  bd_revealedAmount : Z; bd_revealed : bool; bd_refunded : bool; bd_slashed : bool;
}.

Record VerifierConfigSummary := {
  vc_address : pubkey; vc_authority : pubkey; vc_activeVk : pubkey; vc_pendingVk : option pubkey; vc_pendingActivatesAt : Z;
  vc_paused : bool;
}.

Record VerifierModeSummary := { vm_address : pubkey; vm_isMainnet : bool }.

Record ProofVerifierAllowedCallersSummary := { pc_address : pubkey; pc_programs : list pubkey }.

Record VerifierKeySummary := {
  vk_address : pubkey; vk_vkId : list Z; vk_circuitLabel : list Z; vk_isProduction : bool; vk_numPublicInputs : Z;
  vk_registeredAt : Z; vk_registeredBy : pubkey;
}.

Record TemplateRegistryConfigSummary := {
  tc_address : pubkey; tc_authority : pubkey; tc_pendingAuthority : option pubkey; tc_agentRegistry : pubkey;
  tc_treasuryStandard : pubkey; tc_feeCollector : pubkey; tc_royaltyCapBps : Z; tc_platformFeeBps : Z; tc_rentEscrowMint : pubkey;
  tc_paused : bool;
}.

Record TemplateSummary := {
  tm_address : pubkey; tm_templateId : list Z; tm_author : pubkey; tm_configHash : list Z; tm_configUri : string;
  tm_capabilityMask : Z; tm_royaltyBps : Z; tm_parentTemplate : option pubkey; tm_lineageDepth : Z; tm_forkCount : Z;
  tm_rentCount : Z; tm_totalRevenue : Z; tm_rentPricePerSec : Z; tm_minRentDuration : Z; tm_maxRentDuration : Z; tm_status : string;
  tm_createdAt : Z; tm_updatedAt : Z;
}.

Record TemplateForkSummary := {
  tf_address : pubkey; tf_childAgentDid : list Z; tf_parentTemplate : pubkey; tf_forker : pubkey; tf_royaltyBpsSnapshot : Z;
  tf_forkedAt : Z;
}.

Record TemplateRentalSummary := {
  rn_address : pubkey; rn_template : pubkey; rn_renter : pubkey; rn_startTime : Z; rn_endTime : Z; rn_prepaidAmount : Z;
  rn_dripRatePerSec : Z; rn_claimedAuthor : Z; rn_claimedPlatform : Z; rn_status : string;
}.

Record CategoryReputationSummary := {
  cr_address : pubkey; cr_agentDid : list Z; cr_capabilityBit : Z; cr_dims : ReputationDims; cr_jobsCompleted : Z;
  cr_jobsDisputed : Z; cr_lastProofKey : list Z; cr_lastTaskId : list Z; cr_version : Z;
}.

Record RegistryConfigSummary := {
  rc_address : pubkey; rc_authority : pubkey; rc_approvedMask : Z; rc_tagCount : Z; rc_paused : bool;
}.

Section readers.
(** [new TextDecoder().decode(bytes)] *)
Variable decode_utf8 : list Z -> string.

(** ** From a decoded account to a summary *)

Fixpoint until_zero_byte (bytes : list Z) : list Z :=
  match bytes with
  | [] => []
  | b :: rest => if b =? 0 then [] else b :: until_zero_byte rest
  end.

Definition decodeUri (bytes : list Z) : string := decode_utf8 (until_zero_byte bytes).

Definition toAgentSummary (address : pubkey) (a : value) : result AgentSummary :=
  let! operator := get_key a "operator" in
  let! agentId := get_bytes a "agentId" in
  let! did := get_bytes a "did" in
  let! uri := get_bytes a "manifestUri" in
  let! mask := get_bigint a "capabilityMask" in
  let! price := get_bigint a "priceLamports" in
  let! rate := get_bigint a "streamRate" in
  let! stake := get_bigint a "stakeAmount" in
  let! status := get_enum a "status" in
  let! completed := get_bigint a "jobsCompleted" in
  let! registered := get_time a "registeredAt" in
  Ok {| ag_address := address; ag_operator := operator; ag_agentId := agentId; ag_did := did; ag_manifestUri := decodeUri uri;
        ag_capabilityMask := mask; ag_priceLamports := price; ag_streamRate := rate; ag_stakeAmount := stake;
        ag_status := statusFromEnum status; ag_jobsCompleted := completed; ag_registeredAt := registered |}.

(** The dimensions read from a [reputationScore]. *)
Definition dims (rep : value) : result ReputationDims :=
  let! q := get_num rep "quality" in
  let! t := get_num rep "timeliness" in
  let! a := get_num rep "availability" in
  let! c := get_num rep "costEfficiency" in
  let! h := get_num rep "honesty" in
  let! v := get_num rep "volume" in
  let! n := get_num rep "sampleCount" in
  let! u := get_time rep "lastUpdate" in
  Ok {| quality := q; timeliness := t; availability := a; costEfficiency := c; honesty := h; volume := v; sampleCount := n;
        lastUpdate := u |}.

Definition toDetail (address : pubkey) (raw : value) : result AgentDetail :=
  let! rep := prop raw "reputation" in
  let! summary := toAgentSummary address raw in
  let! d := dims rep in
  let! disputed := get_num raw "jobsDisputed" in
  let! version := get_num raw "version" in
  let! active := get_time raw "lastActive" in
  let! delegate := get_key_or_null raw "delegate" in
  Ok {| ad_summary := summary; ad_reputation := d; ad_jobsDisputed := disputed; ad_version := version; ad_lastActive := active;
        ad_delegate := delegate |}.

Definition toTreasurySummary (address : pubkey) (raw : value) : result TreasurySummary :=
  let! did := get_bytes raw "agentDid" in
  let! operator := get_key raw "operator" in
  let! daily := get_bigint raw "dailySpendLimit" in
  let! perTx := get_bigint raw "perTxLimit" in
  let! weekly := get_bigint raw "weeklyLimit" in
  let! today := get_bigint raw "spentToday" in
  let! week := get_bigint raw "spentThisWeek" in
  let! streaming := get_bool raw "streamingActive" in
  Ok {| tr_address := address; tr_agentDid := did; tr_operator := operator; tr_dailySpendLimit := daily; tr_perTxLimit := perTx;
        tr_weeklyLimit := weekly; tr_spentToday := today; tr_spentThisWeek := week; tr_streamingActive := streaming |}.

Definition toStreamSummary (address : pubkey) (s : value) : result StreamSummary :=
  let! did := get_bytes s "agentDid" in
  let! client := get_key s "client" in
  let! payer := get_key s "payerMint" in
  let! payout := get_key s "payoutMint" in
  let! rate := get_bigint s "ratePerSec" in
  let! start := get_time s "startTime" in
  let! duration := get_time s "maxDuration" in
  let! deposit := get_bigint s "depositTotal" in
  let! withdrawn := get_bigint s "withdrawn" in
  let! status := get_enum s "status" in
  let! nonce := get_bytes s "streamNonce" in
  Ok {| st_address := address; st_agentDid := did; st_client := client; st_payerMint := payer; st_payoutMint := payout;
        st_ratePerSec := rate; st_startTime := start; st_maxDuration := duration; st_depositTotal := deposit;
        st_withdrawn := withdrawn; st_status := streamStatusFromEnum status; st_streamNonce := nonce |}.

Definition toStrategyPositionSummary (address : pubkey) (p : value) : result StrategyPositionSummary :=
  let! did := get_bytes p "agentDid" in
  let! strategy := get_bytes p "strategyId" in
  let! vault := get_key p "vaultMint" in
  let! receipt := get_key p "receiptMint" in
  let! principal := get_bigint p "principalAmount" in
  let! received := get_bigint p "receiptAmount" in
  let! yield := get_bigint p "realizedYieldAmount" in
  let! slot := get_bigint p "lastAccountingSlot" in
  let! status := get_enum p "status" in
  let! unwind := get_bool p "unwindRequested" in
  let! created := get_time p "createdAt" in
  let! updated := get_time p "updatedAt" in
  Ok {| sp_address := address; sp_agentDid := did; sp_strategyId := strategy; sp_vaultMint := vault; sp_receiptMint := receipt;
        sp_principalAmount := principal; sp_receiptAmount := received; sp_realizedYieldAmount := yield;
        sp_lastAccountingSlot := slot; sp_status := strategyPositionStatusFromEnum status; sp_unwindRequested := unwind;
        sp_createdAt := created; sp_updatedAt := updated |}.

(** The kind is found by the first key the object has; what is none of the others
    is taken to be generic. *)
Definition decodeTaskKind (kindRaw : value) : result TaskPayloadKind :=
  match kindRaw with
  | V_enum variant fields =>
    let k := V_struct fields in
    if String.eqb variant "swapExact" then
      let! i := get_key k "inMint" in
      let! o := get_key k "outMint" in
      let! a := get_bigint k "amountIn" in
      let! m := get_bigint k "minOut" in
      Ok (K_swapExact i o a m)
    else if String.eqb variant "transfer" then
      let! m := get_key k "mint" in
      let! t := get_key k "to" in
      let! a := get_bigint k "amount" in
      Ok (K_transfer m t a)
    else if String.eqb variant "dataFetch" then
      let! u := get_bytes k "urlHash" in
      let! e := get_bytes k "expectedHash" in
      Ok (K_dataFetch u e)
    else if String.eqb variant "compute" then
      let! c := get_bytes k "circuitId" in
      let! p := get_bytes k "publicInputsHash" in
      Ok (K_compute c p)
    else if String.eqb variant "generic" then
      let! b := get_num k "capabilityBit" in
      let! a := get_bytes k "argsHash" in
      Ok (K_generic b a)
    else Throw (wrong_shape "a task kind")
  | _ => Throw (wrong_shape "an enum")
  end.

Definition decodeTaskPayload (raw : value) : result TaskPayload :=
  let! kindRaw := prop raw "kind" in
  let! kind := decodeTaskKind kindRaw in
  let! bit := get_num raw "capabilityBit" in
  let! criteria := get_bytes raw "criteria" in
  Ok {| tp_kind := kind; tp_capabilityBit := bit; tp_criteria := criteria |}.

Definition catalogHashFromPayload (payload : TaskPayload) : option (list Z) :=
  match tp_kind payload with
  | K_generic _ argsHash => Some argsHash
  | _ => None
  end.

(** Everything of a task's summary once its payload is decoded. *)
Definition task_summary (address : pubkey) (t : value) (payload : TaskPayload) : result TaskSummary :=
  let! taskId := get_bytes t "taskId" in
  let! client := get_key t "client" in
  let! did := get_bytes t "agentDid" in
  let! nonce := get_bytes t "taskNonce" in
  let! hash := get_bytes t "taskHash" in
  let! mint := get_key t "paymentMint" in
  let! amount := get_bigint t "paymentAmount" in
  let! status := get_enum t "status" in
  let! deadline := get_time t "deadline" in
  let! isVerified := get_bool t "verified" in
  let! created := get_time t "createdAt" in
  Ok {| ts_address := address; ts_taskId := taskId; ts_client := client; ts_agentDid := did; ts_taskNonce := nonce;
        ts_taskHash := hash; ts_catalogHash := catalogHashFromPayload payload; ts_paymentMint := mint; ts_paymentAmount := amount;
        ts_status := taskStatusFromEnum status; ts_deadline := deadline; ts_verified := isVerified; ts_createdAt := created |}.

Definition toTaskSummary (address : pubkey) (t : value) : result TaskSummary :=
  let! raw := prop t "payload" in
  let! payload := decodeTaskPayload raw in
  task_summary address t payload.

Definition toTaskDetail (address : pubkey) (t : value) : result TaskDetail :=
  let! raw := prop t "payload" in
  let! payload := decodeTaskPayload raw in
  let! summary := task_summary address t payload in
  let! result_hash := get_bytes t "resultHash" in
  let! proofKey := get_bytes t "proofKey" in
  let! root := get_bytes t "criteriaRoot" in
  let! protocolFee := get_bigint t "protocolFee" in
  let! solrepFee := get_bigint t "solrepFee" in
  let! count := get_num t "milestoneCount" in
  let! complete := get_num t "milestonesComplete" in
  let! funded := get_time t "fundedAt" in
  let! submitted := get_time t "submittedAt" in
  let! window := get_time t "disputeWindowEnd" in
  Ok {| td_summary := summary; td_resultHash := result_hash; td_proofKey := proofKey; td_criteriaRoot := root;
        td_protocolFee := protocolFee; td_solrepFee := solrepFee; td_milestoneCount := count; td_milestonesComplete := complete;
        td_fundedAt := funded; td_submittedAt := submitted; td_disputeWindowEnd := window; td_payload := payload |}.

Definition toMarketGlobalSummary (PublicKey_default : pubkey) (address : pubkey) (raw : value) : result MarketGlobalSummary :=
  let! authority := get_key raw "authority" in
  let! pending := get_key_or_null raw "pendingAuthority" in
  let! registry := get_key raw "agentRegistry" in
  let! treasury := get_key raw "treasuryStandard" in
  let! verifier := get_key raw "proofVerifier" in
  let! collector := get_key raw "feeCollector" in
  let! pool := get_key raw "solrepPool" in
  let! protocolBps := get_num raw "protocolFeeBps" in
  let! solrepBps := get_num raw "solrepFeeBps" in
  let! window := get_bigint raw "disputeWindowSecs" in
  let! deadline := get_bigint raw "maxDeadlineSecs" in
  let! mints := get_keys raw "allowedPaymentMints" in
  let! paused := get_bool raw "paused" in
  Ok {| mg_address := address; mg_authority := authority; mg_pendingAuthority := pending; mg_agentRegistry := registry;
        mg_treasuryStandard := treasury; mg_proofVerifier := verifier; mg_feeCollector := collector; mg_solrepPool := pool;
        mg_protocolFeeBps := protocolBps; mg_solrepFeeBps := solrepBps; mg_disputeWindowSecs := window;
        mg_maxDeadlineSecs := deadline; mg_allowedPaymentMints := filter (fun mint => mint <> PublicKey_default) mints;
        mg_paused := paused |}.

Definition toBidBookSummary (address : pubkey) (raw : value) : result BidBookSummary :=
  let! taskId := get_bytes raw "taskId" in
  let! commitStart := get_time raw "commitStart" in
  let! commitEnd := get_time raw "commitEnd" in
  let! revealEnd := get_time raw "revealEnd" in
  let! bond := get_bigint raw "bondAmount" in
  let! mint := get_key raw "bondMint" in
  let! commits := get_num raw "commitCount" in
  let! reveals := get_num raw "revealCount" in
  let! agent := get_key_or_null raw "winnerAgent" in
  let! bidder := get_key_or_null raw "winnerBidder" in
  let! amount := get_bigint raw "winnerAmount" in
  let! phase := get_enum raw "phase" in
  Ok {| bb_address := address; bb_taskId := taskId; bb_commitStart := commitStart; bb_commitEnd := commitEnd;
        bb_revealEnd := revealEnd; bb_bondAmount := bond; bb_bondMint := mint; bb_commitCount := commits; bb_revealCount := reveals;
        bb_winnerAgent := agent; bb_winnerBidder := bidder; bb_winnerAmount := amount; bb_phase := bidPhaseFromEnum phase |}.

Definition toBidSummary (address : pubkey) (raw : value) : result BidSummary :=
  let! taskId := get_bytes raw "taskId" in
  let! did := get_bytes raw "agentDid" in
  let! bidder := get_key raw "bidder" in
  let! hash := get_bytes raw "commitHash" in
  let! bond := get_bigint raw "bondPaid" in
  let! amount := get_bigint raw "revealedAmount" in
  let! revealed := get_bool raw "revealed" in
  let! refunded := get_bool raw "refunded" in
  let! slashed := get_bool raw "slashed" in
  Ok {| bd_address := address; bd_taskId := taskId; bd_agentDid := did; bd_bidder := bidder; bd_commitHash := hash;
        bd_bondPaid := bond; bd_revealedAmount := amount; bd_revealed := revealed; bd_refunded := refunded; bd_slashed := slashed |}.

Definition toVerifierConfigSummary (address : pubkey) (vc : value) : result VerifierConfigSummary :=
  let! authority := get_key vc "authority" in
  let! active := get_key vc "activeVk" in
  let! pending := get_key_or_null vc "pendingVk" in
  let! activates := get_time vc "pendingActivatesAt" in
  let! paused := get_bool vc "paused" in
  Ok {| vc_address := address; vc_authority := authority; vc_activeVk := active; vc_pendingVk := pending;
        vc_pendingActivatesAt := activates; vc_paused := paused |}.

Definition toVerifierModeSummary (address : pubkey) (mode : value) : result VerifierModeSummary :=
  let! m := get_bool mode "isMainnet" in Ok {| vm_address := address; vm_isMainnet := m |}.

Definition toAllowedCallersSummary (address : pubkey) (allowed : value) : result ProofVerifierAllowedCallersSummary :=
  let! ps := get_keys allowed "programs" in Ok {| pc_address := address; pc_programs := ps |}.

Definition toVerifierKeySummary (address : pubkey) (vk : value) : result VerifierKeySummary :=
  let! vkId := get_bytes vk "vkId" in
  let! label := get_bytes vk "circuitLabel" in
  let! production := get_bool vk "isProduction" in
  let! inputs := get_num vk "numPublicInputs" in
  let! registered := get_time vk "registeredAt" in
  let! registrar := get_key vk "registeredBy" in
  Ok {| vk_address := address; vk_vkId := vkId; vk_circuitLabel := label; vk_isProduction := production;
        vk_numPublicInputs := inputs; vk_registeredAt := registered; vk_registeredBy := registrar |}.

Definition toTemplateRegistryConfigSummary (address : pubkey) (raw : value) : result TemplateRegistryConfigSummary :=
  let! authority := get_key raw "authority" in
  let! pending := get_key_or_null raw "pendingAuthority" in
  let! registry := get_key raw "agentRegistry" in
  let! treasury := get_key raw "treasuryStandard" in
  let! collector := get_key raw "feeCollector" in
  let! royalty := get_num raw "royaltyCapBps" in
  let! platform := get_num raw "platformFeeBps" in
  let! mint := get_key raw "rentEscrowMint" in
  let! paused := get_bool raw "paused" in
  Ok {| tc_address := address; tc_authority := authority; tc_pendingAuthority := pending; tc_agentRegistry := registry;
        tc_treasuryStandard := treasury; tc_feeCollector := collector; tc_royaltyCapBps := royalty; tc_platformFeeBps := platform;
        tc_rentEscrowMint := mint; tc_paused := paused |}.

Definition toTemplateSummary (address : pubkey) (raw : value) : result TemplateSummary :=
  let! templateId := get_bytes raw "templateId" in
  let! author := get_key raw "author" in
  let! hash := get_bytes raw "configHash" in
  let! uri := get_bytes raw "configUri" in
  let! mask := get_bigint raw "capabilityMask" in
  let! royalty := get_num raw "royaltyBps" in
  let! parent := get_key_or_null raw "parentTemplate" in
  let! depth := get_num raw "lineageDepth" in
  let! forks := get_num raw "forkCount" in
  let! rents := get_num raw "rentCount" in
  let! revenue := get_bigint raw "totalRevenue" in
  let! price := get_bigint raw "rentPricePerSec" in
  let! shortest := get_time raw "minRentDuration" in
  let! longest := get_time raw "maxRentDuration" in
  let! status := get_enum raw "status" in
  let! created := get_time raw "createdAt" in
  let! updated := get_time raw "updatedAt" in
  Ok {| tm_address := address; tm_templateId := templateId; tm_author := author; tm_configHash := hash;
        tm_configUri := decodeUri uri; tm_capabilityMask := mask; tm_royaltyBps := royalty; tm_parentTemplate := parent;
        tm_lineageDepth := depth; tm_forkCount := forks; tm_rentCount := rents; tm_totalRevenue := revenue;
        tm_rentPricePerSec := price; tm_minRentDuration := shortest; tm_maxRentDuration := longest;
        tm_status := templateStatusFromEnum status; tm_createdAt := created; tm_updatedAt := updated |}.

Definition toTemplateForkSummary (address : pubkey) (raw : value) : result TemplateForkSummary :=
  let! child := get_bytes raw "childAgentDid" in
  let! parent := get_key raw "parentTemplate" in
  let! forker := get_key raw "forker" in
  let! royalty := get_num raw "royaltyBpsSnapshot" in
  let! forked := get_time raw "forkedAt" in
  Ok {| tf_address := address; tf_childAgentDid := child; tf_parentTemplate := parent; tf_forker := forker;
        tf_royaltyBpsSnapshot := royalty; tf_forkedAt := forked |}.

Definition toTemplateRentalSummary (address : pubkey) (raw : value) : result TemplateRentalSummary :=
  let! template := get_key raw "template" in
  let! renter := get_key raw "renter" in
  let! start := get_time raw "startTime" in
  let! ends := get_time raw "endTime" in
  let! prepaid := get_bigint raw "prepaidAmount" in
  let! rate := get_bigint raw "dripRatePerSec" in
  let! author := get_bigint raw "claimedAuthor" in
  let! platform := get_bigint raw "claimedPlatform" in
  let! status := get_enum raw "status" in
  Ok {| rn_address := address; rn_template := template; rn_renter := renter; rn_startTime := start; rn_endTime := ends;
        rn_prepaidAmount := prepaid; rn_dripRatePerSec := rate; rn_claimedAuthor := author; rn_claimedPlatform := platform;
        rn_status := rentalStatusFromEnum status |}.

Definition toCategoryRep (address : pubkey) (raw : value) : result CategoryReputationSummary :=
  let! score := prop raw "score" in
  let! did := get_bytes raw "agentDid" in
  let! bit := get_num raw "capabilityBit" in
  let! d := dims score in
  let! completed := get_num raw "jobsCompleted" in
  let! disputed := get_num raw "jobsDisputed" in
  let! proofKey := get_bytes raw "lastProofKey" in
  let! taskId := get_bytes raw "lastTaskId" in
  let! version := get_num raw "version" in
  Ok {| cr_address := address; cr_agentDid := did; cr_capabilityBit := bit; cr_dims := d; cr_jobsCompleted := completed;
        cr_jobsDisputed := disputed; cr_lastProofKey := proofKey; cr_lastTaskId := taskId; cr_version := version |}.

Definition toRegistryConfigSummary (address : pubkey) (rc : value) : result RegistryConfigSummary :=
  let! authority := get_key rc "authority" in
  let! mask := get_bigint rc "approvedMask" in
  let! tags := get_num rc "tagCount" in
  let! paused := get_bool rc "paused" in
  Ok {| rc_address := address; rc_authority := authority; rc_approvedMask := mask; rc_tagCount := tags; rc_paused := paused |}.
End readers.

(** ** Fetching *)

Section fetch.
Context {W : Type}.
Variable ops : node_ops W.
Variable decode_utf8 : list Z -> string.
Variable findProgramAddressSync : list (list Z) -> pubkey -> result (pubkey * Z).
(** [new PublicKey(bytes)] and [PublicKey.default] *)
Variable PublicKey_of_bytes : list Z -> result pubkey.
Variable PublicKey_default : pubkey.

(** [accounts.map(({ publicKey, account }) => f(publicKey, account))]: the first exception ends it. *)
Fixpoint map_accounts {A} (f : pubkey -> value -> result A) (accounts : list (pubkey * value)) : result (list A) :=
  match accounts with
  | [] => Ok []
  | (k, a) :: rest => let! x := f k a in let! xs := map_accounts f rest in Ok (x :: xs)
  end.

(** [const raw = await fetchNullable(addr); if (!raw) return null; return f(addr, raw)] *)
Definition fetch_one {A} (program : Program) (account : string) (addr : result pubkey) (f : pubkey -> value -> result A) :
    io W (option A) :=
  do! addr <- io_lift addr in
  do! raw <- fetchNullable ops program account addr in
  match raw with
  | None => io_ret None
  | Some v => do! a <- io_lift (f addr v) in io_ret (Some a)
  end.

Definition fetch_all {A} (program : Program) (account : string) (filters : list memcmp) (f : pubkey -> value -> result A) :
    io W (list A) :=
  do! accounts <- all ops program account filters in
  io_lift (map_accounts f accounts).

(** [.all([{ memcmp: { offset, bytes: new PublicKey(bytes).toBase58() } }])] *)
Definition fetch_all_by_bytes {A} (program : Program) (account : string) (offset : nat) (bytes : list Z)
    (f : pubkey -> value -> result A) : io W (list A) :=
  do! k <- io_lift (PublicKey_of_bytes bytes) in
  fetch_all program account [{| offset := offset; key_at := k |}] f.

(** [.sort((a, b) => b.at - a.at)] *)
Definition latest_first {A} (at_ : A -> Z) (l : list A) : list A := js_sort (fun a b => Z.compare (at_ b) (at_ a)) l.

Definition fetchAgentsByOperator (program : Program) (operator : pubkey) : io W (list AgentSummary) :=
  fetch_all program "agentAccount" [{| offset := 8; key_at := operator |}] (toAgentSummary decode_utf8).

Definition fetchAgent (program : Program) (operator : pubkey) (agentId : list Z) : io W (option AgentSummary) :=
  fetch_one program "agentAccount" (key (agentAccountPda findProgramAddressSync (programId program) operator agentId))
    (toAgentSummary decode_utf8).

Definition fetchTreasury (program : Program) (agentDid : list Z) : io W (option TreasurySummary) :=
  fetch_one program "agentTreasury" (key (treasuryPda findProgramAddressSync (programId program) agentDid)) toTreasurySummary.

Definition fetchStreamsByAgent (program : Program) (agentDid : list Z) : io W (list StreamSummary) :=
  fetch_all_by_bytes program "paymentStream" 8 agentDid toStreamSummary.

Definition fetchAllowedMints (program : Program) : io W (list pubkey) :=
  do! r <- fetch_one program "allowedMints" (key (treasuryAllowedMintsPda findProgramAddressSync (programId program)))
             (fun _ raw => get_keys raw "mints") in
  io_ret (default [] r).

(** [info.data.readBigUInt64LE(64)] of at least 72 bytes. *)
Definition readBigUInt64LE_64 (data : list Z) : Z := accumulate (rev (byte_slice data 64 72)).

Definition vault_balance (v : pubkey * pubkey) (info : option (pubkey * list Z)) : VaultBalance :=
  match info with
  | Some (_, data) =>
    if (length data <? 72)%nat then {| vb_mint := v.1; vb_vault := v.2; vb_amount := 0; vb_exists := false |}
    else {| vb_mint := v.1; vb_vault := v.2; vb_amount := readBigUInt64LE_64 data; vb_exists := true |}
  | None => {| vb_mint := v.1; vb_vault := v.2; vb_amount := 0; vb_exists := false |}
  end.

(** [mints.map((mint) => ({ mint, vault: vaultPda(...)[0] }))] *)
Fixpoint vaults_of (id : pubkey) (agentDid : list Z) (mints : list pubkey) : result (list (pubkey * pubkey)) :=
  match mints with
  | [] => Ok []
  | mint :: rest =>
    let! vault := key (vaultPda findProgramAddressSync id agentDid mint) in
    let! vs := vaults_of id agentDid rest in
    Ok ((mint, vault) :: vs)
  end.

Definition fetchVaultBalances (program : Program) (agentDid : list Z) (mints : list pubkey) : io W (list VaultBalance) :=
  do! vaults <- io_lift (vaults_of (programId program) agentDid mints) in
  do! infos <- getMultipleAccountsInfo ops (map snd vaults) in
  io_ret (imap (fun i v => vault_balance v (default None (infos !! i))) vaults).

Definition fetchStrategyPosition (program : Program) (agentDid strategyId : list Z) (mint : pubkey) :
    io W (option StrategyPositionSummary) :=
  fetch_one program "strategyPosition"
    (key (treasuryYieldPositionPda findProgramAddressSync (programId program) agentDid strategyId mint)) toStrategyPositionSummary.

Definition fetchStrategyPositionsByAgent (program : Program) (agentDid : list Z) : io W (list StrategyPositionSummary) :=
  if (length agentDid =? 32)%nat then fetch_all_by_bytes program "strategyPosition" 8 agentDid toStrategyPositionSummary
  else io_throw "agentDid must be 32 bytes".

Definition fetchMarketGlobal (program : Program) : io W (option MarketGlobalSummary) :=
  fetch_one program "marketGlobal" (key (marketGlobalPda findProgramAddressSync (programId program)))
    (toMarketGlobalSummary PublicKey_default).

Definition fetchRecentTasks (program : Program) (limit : option Z) (statuses : option (list string)) : io W (list TaskSummary) :=
  do! tasks <- fetch_all program "taskContract" [] toTaskSummary in
  let kept := List.filter (fun task => match statuses with Some s => existsb (String.eqb (ts_status task)) s | None => true end) tasks in
  io_ret (slice_to (default 20 limit) (latest_first ts_createdAt kept)).

Definition fetchTask (program : Program) (client : pubkey) (taskNonce : list Z) : io W (option TaskSummary) :=
  fetch_one program "taskContract" (key (taskPda findProgramAddressSync (programId program) client taskNonce)) toTaskSummary.

Definition fetchTasksByClient (program : Program) (client : pubkey) : io W (list TaskSummary) :=
  fetch_all program "taskContract" [{| offset := 8 + 32; key_at := client |}] toTaskSummary.

(** The first account, read after the list has come back. *)
Definition fetch_first {A} (program : Program) (account : string) (offset : nat) (bytes : list Z)
    (f : pubkey -> value -> result A) : io W (option A) :=
  do! k <- io_lift (PublicKey_of_bytes bytes) in
  do! accounts <- all ops program account [{| offset := offset; key_at := k |}] in
  match accounts with
  | [] => io_ret None
  | (address, account) :: _ => do! a <- io_lift (f address account) in io_ret (Some a)
  end.

Definition fetchTaskById (program : Program) (taskIdHex : string) : io W (option TaskDetail) :=
  do! bytes <- io_lift (hexPairs taskIdHex) in
  fetch_first program "taskContract" 8 bytes toTaskDetail.

Definition fetchBidBook (program : Program) (taskId : list Z) : io W (option BidBookSummary) :=
  fetch_one program "bidBook" (key (bidBookPda findProgramAddressSync (programId program) taskId)) toBidBookSummary.

Definition fetchBid (program : Program) (taskId : list Z) (bidder : pubkey) : io W (option BidSummary) :=
  fetch_one program "bid" (key (bidPda findProgramAddressSync (programId program) taskId bidder)) toBidSummary.

Definition fetchBidsForTask (program : Program) (taskId : list Z) : io W (list BidSummary) :=
  fetch_all_by_bytes program "bid" 8 taskId toBidSummary.

Definition fetchVerifierConfig (program : Program) : io W (option VerifierConfigSummary) :=
  fetch_one program "verifierConfig" (key (verifierConfigPda findProgramAddressSync (programId program))) toVerifierConfigSummary.

Definition fetchVerifierMode (program : Program) : io W (option VerifierModeSummary) :=
  fetch_one program "globalMode" (key (verifierModePda findProgramAddressSync (programId program))) toVerifierModeSummary.

Definition fetchProofVerifierAllowedCallers (program : Program) : io W (option ProofVerifierAllowedCallersSummary) :=
  fetch_one program "allowedCallers" (key (proofVerifierAllowedCallersPda findProgramAddressSync (programId program)))
    toAllowedCallersSummary.

Definition fetchVerifierKey (program : Program) (vkId : list Z) : io W (option VerifierKeySummary) :=
  fetch_one program "verifierKey" (key (verifierKeyPda findProgramAddressSync (programId program) vkId)) toVerifierKeySummary.

Definition fetchAgentByDid (program : Program) (didHex : string) : io W (option AgentDetail) :=
  do! didBytes <- io_lift (hexPairs didHex) in
  fetch_first program "agentAccount" 72 didBytes (toDetail decode_utf8).

Definition fetchTasksByAgent (program : Program) (didHex : string) : io W (list TaskSummary) :=
  do! didBytes <- io_lift (hexPairs didHex) in
  fetch_all_by_bytes program "taskContract" 72 didBytes toTaskSummary.

Definition fetchAllAgents (program : Program) : io W (list AgentSummary) :=
  fetch_all program "agentAccount" [] (toAgentSummary decode_utf8).

Definition fetchAllAgentsDetailed (program : Program) : io W (list AgentDetail) :=
  fetch_all program "agentAccount" [] (toDetail decode_utf8).

Definition fetchTemplateRegistryConfig (program : Program) : io W (option TemplateRegistryConfigSummary) :=
  fetch_one program "templateRegistryGlobal" (key (templateGlobalPda findProgramAddressSync (programId program)))
    toTemplateRegistryConfigSummary.

Definition fetchTemplateById (program : Program) (templateIdHex : string) : io W (option TemplateSummary) :=
  do! templateId <- io_lift (hexPairs templateIdHex) in
  fetch_one program "agentTemplate" (key (templatePda findProgramAddressSync (programId program) templateId))
    (toTemplateSummary decode_utf8).

Definition fetchAllTemplates (program : Program) : io W (list TemplateSummary) :=
  do! l <- fetch_all program "agentTemplate" [] (toTemplateSummary decode_utf8) in
  io_ret (latest_first tm_updatedAt l).

Definition fetchTemplateForks (program : Program) (parentTemplate : pubkey) : io W (list TemplateForkSummary) :=
  do! l <- fetch_all program "templateFork" [{| offset := 8 + 32; key_at := parentTemplate |}] toTemplateForkSummary in
  io_ret (latest_first tf_forkedAt l).

Definition fetchTemplateRentals (program : Program) (template : pubkey) : io W (list TemplateRentalSummary) :=
  do! l <- fetch_all program "templateRental" [{| offset := 8; key_at := template |}] toTemplateRentalSummary in
  io_ret (latest_first rn_endTime l).

Definition fetchTemplateRentalsByRenter (program : Program) (renter : pubkey) : io W (list TemplateRentalSummary) :=
  do! l <- fetch_all program "templateRental" [{| offset := 8 + 32; key_at := renter |}] toTemplateRentalSummary in
  io_ret (latest_first rn_endTime l).

Definition fetchCategoryReputation (program : Program) (agentDid : list Z) (capabilityBit : Q) :
    io W (option CategoryReputationSummary) :=
  fetch_one program "categoryReputation"
    (key (categoryReputationPda findProgramAddressSync (programId program) agentDid capabilityBit)) toCategoryRep.

Definition fetchCategoryReputationsByAgent (program : Program) (agentDid : list Z) : io W (list CategoryReputationSummary) :=
  fetch_all_by_bytes program "categoryReputation" 8 agentDid toCategoryRep.

Definition fetchRegistryConfig (program : Program) : io W (option RegistryConfigSummary) :=
  fetch_one program "registryConfig" (key (capabilityConfigPda findProgramAddressSync (programId program))) toRegistryConfigSummary.
End fetch.
