(* ===== verification/AccountsSafety.v ===== *)
(** * AccountsSafety: the accounts that are fetched, and what is read from them

    Every field the SDK reads from a decoded account exists and has the type it is
    read at, the byte offsets of its queries are those of the fields they mean, and
    what the SDK reads of a task's payload is what it wrote.  Borsh, the encoding of
    the accounts, is seen through its documented laws ([borsh_laws]); the node lists
    the accounts it stores whose bytes match the filters ([node_laws]); concrete
    accounts are at the end. *)

From Stdlib Require Import ZArith QArith Lia Sorted Permutation.
From stdpp Require Import base list strings.
From S2P Require Import Prelude Bytes Effects JsMap Json Hex Pda Idl IdlTypes IdlInstructions Ix Decoded Accounts.

#[local] Open Scope Z_scope.
#[local] Open Scope saep_scope.

(** ** Fields of typed values *)

(** The fields of a struct, one by one, are of the types given. *)
Fixpoint typed_fields (tys : list (string * idl_typedef)) (fs : list (string * value)) (ts : list (string * idl_type)) : Prop :=
  match fs, ts with
  | [], [] => True
  | (f, v) :: fs', (g, t) :: ts' => f = g /\ has_type tys v t = true /\ typed_fields tys fs' ts'
  | _, _ => False
  end.

Lemma struct_typed tys v name ts : has_type tys v (T_defined name) = true -> map_get name tys = Some (TD_struct ts) ->
  exists fs, v = V_struct fs /\ typed_fields tys fs ts.
Proof.
  intros H Hn. destruct v; simpl in H; rewrite ?Hn in H; try done.
  exists fields. split; [done|]. clear Hn. revert ts H.
  induction fields as [|[f v] fs IH]; intros [|[g t] ts] H; simpl in *; try done.
  apply andb_true_iff in H as [[H1 H2]%andb_true_iff H3]. apply String.eqb_eq in H1. auto.
Qed.

Lemma enum_typed tys v name vs : has_type tys v (T_defined name) = true -> map_get name tys = Some (TD_enum vs) ->
  exists var fs ts, v = V_enum var fs /\ map_get var vs = Some ts /\ typed_fields tys fs ts.
Proof.
  intros H Hn. destruct v; simpl in H; rewrite ?Hn in H; try done.
  destruct (map_get variant vs) as [ts|] eqn:E; [|done]. exists variant, fields, ts. split; [done|]. split; [done|].
  clear E Hn. revert ts H. induction fields as [|[f v] fs IH]; intros [|[g t] ts] H; simpl in *; try done.
  apply andb_true_iff in H as [[H1 H2]%andb_true_iff H3]. apply String.eqb_eq in H1. auto.
Qed.

(** [v] has a field [f] of type [t]. *)
Definition has_field (tys : list (string * idl_typedef)) (v : value) (f : string) (t : idl_type) : Prop :=
  exists x, prop v f = Ok x /\ has_type tys x t = true.

Lemma field_typed tys fs ts f t : typed_fields tys fs ts -> map_get f ts = Some t -> has_field tys (V_struct fs) f t.
Proof.
  revert ts. induction fs as [|[g v] fs IH]; intros [|[g' t'] ts] H Hf; simpl in *; try done.
  destruct H as (-> & Hv & H). unfold has_field. simpl. case_decide.
  - simplify_eq. eauto.
  - by apply (IH ts).
Qed.

(** ** Readers *)

(** A reader ends well, or a number is too large for [toNumber]. *)
Definition reads_well {A} (r : result A) : Prop :=
  match r with
  | Ok _ => True
  | Throw e => e = toNumber_error
  end.

Lemma reads_bind {A B} (m : result A) (k : A -> result B) :
  reads_well m -> (forall a, m = Ok a -> reads_well (k a)) -> reads_well (result_bind m k).
Proof. destruct m; simpl; auto. Qed.

Lemma reads_key tys v f : has_field tys v f T_pubkey -> reads_well (get_key v f).
Proof. intros (x & Hx & Ht). unfold get_key. rewrite Hx. by destruct x. Qed.

Lemma reads_key_or_null tys v f : has_field tys v f (T_option T_pubkey) -> reads_well (get_key_or_null v f).
Proof. intros (x & Hx & Ht). unfold get_key_or_null. rewrite Hx. by destruct x. Qed.

Lemma reads_array tys v f n : has_field tys v f (T_array T_u8 n) -> reads_well (get_bytes v f).
Proof. intros (x & Hx & Ht). unfold get_bytes. rewrite Hx. by destruct x. Qed.

Lemma reads_buffer tys v f : has_field tys v f T_bytes -> reads_well (get_bytes v f).
Proof. intros (x & Hx & Ht). unfold get_bytes. rewrite Hx. by destruct x. Qed.

(** The types Anchor reads as BNs, and those it reads as numbers. *)
Definition wide (t : idl_type) : bool := match t with T_u64 | T_i64 | T_u128 => true | _ => false end.
Definition narrow (t : idl_type) : bool := match t with T_u8 | T_u16 | T_u32 => true | _ => false end.

Lemma reads_bigint tys v f t : has_field tys v f t -> wide t = true -> reads_well (get_bigint v f).
Proof. intros (x & Hx & Ht) Hw. unfold get_bigint. rewrite Hx. by destruct t, x. Qed.

Lemma reads_toNumber n : reads_well (toNumber n).
Proof. unfold toNumber. by case_match. Qed.

Lemma reads_time tys v f t : has_field tys v f t -> wide t = true -> reads_well (get_time v f).
Proof. intros (x & Hx & Ht) Hw. unfold get_time. rewrite Hx. destruct t, x; try done; apply reads_toNumber. Qed.

Lemma reads_num tys v f t : has_field tys v f t -> narrow t = true -> reads_well (get_num v f).
Proof. intros (x & Hx & Ht) Hw. unfold get_num. rewrite Hx. by destruct t, x. Qed.

Lemma reads_bool tys v f : has_field tys v f T_bool -> reads_well (get_bool v f).
Proof. intros (x & Hx & Ht). unfold get_bool. rewrite Hx. by destruct x. Qed.

Lemma reads_enum tys v f name vs : has_field tys v f (T_defined name) -> map_get name tys = Some (TD_enum vs) ->
  reads_well (get_enum v f).
Proof. intros (x & Hx & Ht) Hn. unfold get_enum. rewrite Hx. destruct (enum_typed _ _ _ _ Ht Hn) as (? & ? & ? & -> & _). done. Qed.

Lemma as_keys_typed tys l t : (forall v, v ∈ l -> has_type tys v t = true) -> t = T_pubkey -> reads_well (as_keys l).
Proof.
  intros H ->. induction l as [|v l IH]; simpl; [done|].
  apply reads_bind; [apply IH; intros w Hw; apply H; by right|].
  intros ks _. specialize (H v (list_elem_of_here _ _)). by destruct v.
Qed.

Lemma list_typed tys l t : has_type tys (V_list l) t = true ->
  exists e, (core t = T_vec e \/ exists n, core t = T_array e n) /\ forall v, v ∈ l -> has_type tys v e = true.
Proof.
  intros H. simpl in H.
  assert (Hall : forall e, (fix all (l : list value) (t : idl_type) {struct l} : bool :=
    match l with [] => true | v :: l' => has_type tys v t && all l' t end) l e = true -> forall v, v ∈ l -> has_type tys v e = true).
  { clear H. intros e. induction l as [|x l IH]; intros H v Hv; [by apply elem_of_nil in Hv|].
    apply andb_true_iff in H as [Hx H]. apply elem_of_cons in Hv as [->|Hv]; eauto. }
  destruct (core t) as [| | | | | | | | | |e n|e|e|s]; try done; exists e; [|eauto].
  split; [eauto|]. apply Hall. destruct e; try done; by apply andb_true_iff in H as [_ H].
Qed.

Lemma reads_keys tys v f t : has_field tys v f t -> t = T_vec T_pubkey \/ (exists n, t = T_array T_pubkey n) -> reads_well (get_keys v f).
Proof.
  intros (x & Hx & Ht) H. unfold get_keys. rewrite Hx. simpl.
  destruct H as [->|[n ->]]; destruct x; try done; destruct (list_typed _ _ _ Ht) as (e & [He|[k He]] & Hl);
    simpl in He; simplify_eq; by apply (as_keys_typed tys _ T_pubkey).
Qed.

Create HintDb reads.
#[export] Hint Resolve reads_key reads_key_or_null reads_array reads_buffer reads_bool : reads.

(** [f] reads every account of the kind [name] of the program. *)
Definition reads_kind (i : idl) (name : string) {A} (f : pubkey -> value -> result A) : Prop :=
  forall addr v, has_type (types i) v (T_defined name) = true -> reads_well (f addr v).

(** Solve [reads_well] of a chain of reads from a struct whose fields are [H]. *)
Ltac field_of H := eapply field_typed; [exact H|reflexivity].

Ltac read_one H :=
  first
  [ eapply reads_key; field_of H
  | eapply reads_key_or_null; field_of H
  | eapply reads_array; field_of H
  | eapply reads_buffer; field_of H
  | eapply reads_bool; field_of H
  | eapply reads_bigint; [field_of H|reflexivity]
  | eapply reads_time; [field_of H|reflexivity]
  | eapply reads_num; [field_of H|reflexivity]
  | eapply reads_enum; [field_of H|reflexivity]
  | eapply reads_keys; [field_of H|eauto] ].

Ltac read_all H :=
  repeat (apply reads_bind; [solve [read_one H]|intros ? _]); try exact I.

Ltac open_struct H :=
  let fs := fresh "fs" in
  eapply struct_typed in H; [|reflexivity]; destruct H as (fs & -> & H).

Definition struct_fields (td : idl_typedef) : list (string * idl_type) := match td with TD_struct ts => ts | _ => [] end.

Lemma reads_dims fs : typed_fields agent_registry_types fs (struct_fields agent_registry_reputationScore) -> reads_well (dims (V_struct fs)).
Proof. intros H. unfold dims. read_all H. Qed.

Lemma agent_summary_reads decode : reads_kind agent_registry_idl "agentAccount" (toAgentSummary decode).
Proof. intros addr v H. open_struct H. unfold toAgentSummary. read_all H. Qed.

Lemma struct_field tys fs ts f name us : typed_fields tys fs ts -> map_get f ts = Some (T_defined name) ->
  map_get name tys = Some (TD_struct us) -> exists gs, prop (V_struct fs) f = Ok (V_struct gs) /\ typed_fields tys gs us.
Proof.
  intros H Hf Hn. destruct (field_typed _ _ _ _ _ H Hf) as (x & Hx & Ht).
  destruct (struct_typed _ _ _ _ Ht Hn) as (gs & -> & Hg). eauto.
Qed.

Lemma agent_detail_reads decode : reads_kind agent_registry_idl "agentAccount" (toDetail decode).
Proof.
  intros addr v H. pose proof (agent_summary_reads decode addr v H) as Hs. open_struct H. unfold toDetail.
  destruct (struct_field _ _ _ "reputation" "reputationScore" (struct_fields agent_registry_reputationScore) H) as (gs & Hg & Hr); [reflexivity..|]. rewrite Hg. cbn [result_bind].
  apply reads_bind; [exact Hs|intros ? _]. apply reads_bind; [by apply reads_dims|intros ? _]. read_all H.
Qed.

Lemma category_reads : reads_kind agent_registry_idl "categoryReputation" toCategoryRep.
Proof.
  intros addr v H. open_struct H. unfold toCategoryRep.
  destruct (struct_field _ _ _ "score" "reputationScore" (struct_fields agent_registry_reputationScore) H) as (gs & Hg & Hr); [reflexivity..|]. rewrite Hg. cbn [result_bind].
  do 2 (apply reads_bind; [solve [read_one H]|intros ? _]). apply reads_bind; [by apply reads_dims|intros ? _]. read_all H.
Qed.

(** The kinds of task are told apart, and every one is read. *)
Lemma task_kind_reads v : has_type task_market_types v (T_defined "taskKind") = true -> reads_well (decodeTaskKind v).
Proof.
  intros H. eapply enum_typed in H; [|reflexivity]. destruct H as (var & fs & ts & -> & Hv & H). cbn [decodeTaskKind].
  cbn [map_get] in Hv. repeat case_decide; simplify_eq; simpl String.eqb; cbn [andb]; read_all H.
Qed.

Lemma payload_reads v : has_type task_market_types v (T_defined "taskPayload") = true -> reads_well (decodeTaskPayload v).
Proof.
  intros H. open_struct H. unfold decodeTaskPayload.
  destruct (field_typed _ _ _ "kind" (T_defined "taskKind") H eq_refl) as (k & Hk & Ht). rewrite Hk. cbn [result_bind].
  apply reads_bind; [by apply task_kind_reads|intros ? _]. read_all H.
Qed.

Lemma task_summary_reads addr payload v : has_type task_market_types v (T_defined "taskContract") = true ->
  reads_well (task_summary addr v payload).
Proof. intros H. open_struct H. unfold task_summary. read_all H. Qed.

Lemma task_payload_field v : has_type task_market_types v (T_defined "taskContract") = true ->
  exists p, prop v "payload" = Ok p /\ reads_well (decodeTaskPayload p).
Proof.
  intros H. open_struct H.
  destruct (field_typed _ _ _ "payload" (T_defined "taskPayload") H eq_refl) as (p & Hp & Ht).
  exists p. split; [exact Hp|by apply payload_reads].
Qed.

Lemma task_reads : reads_kind task_market_idl "taskContract" toTaskSummary.
Proof.
  intros addr v H. destruct (task_payload_field v H) as (p & Hp & Hr). unfold toTaskSummary. rewrite Hp. cbn [result_bind].
  apply reads_bind; [exact Hr|intros ? _]. by apply task_summary_reads.
Qed.

Lemma task_detail_reads : reads_kind task_market_idl "taskContract" toTaskDetail.
Proof.
  intros addr v H. destruct (task_payload_field v H) as (p & Hp & Hr). unfold toTaskDetail. rewrite Hp. cbn [result_bind].
  apply reads_bind; [exact Hr|intros ? _]. apply reads_bind; [by apply task_summary_reads|intros ? _].
  open_struct H. read_all H.
Qed.

(** The accounts of plain fields. *)
Ltac plain_reads f := intros addr v H; open_struct H; unfold f; read_all H.

(** Every field the SDK reads from an account, behind a cast the compiler does not
    check, is in the program's interface at the type it is read as: reading an
    account Anchor has decoded succeeds, unless a time is beyond 53 bits. *)
Theorem casts_sound (decode : list Z -> string) (default_key : pubkey) :
  reads_kind agent_registry_idl "agentAccount" (toAgentSummary decode) /\
  reads_kind agent_registry_idl "agentAccount" (toDetail decode) /\
  reads_kind agent_registry_idl "categoryReputation" toCategoryRep /\
  reads_kind treasury_standard_idl "agentTreasury" toTreasurySummary /\
  reads_kind treasury_standard_idl "paymentStream" toStreamSummary /\
  reads_kind treasury_standard_idl "strategyPosition" toStrategyPositionSummary /\
  reads_kind treasury_standard_idl "allowedMints" (fun _ raw => get_keys raw "mints") /\
  reads_kind task_market_idl "taskContract" toTaskSummary /\
  reads_kind task_market_idl "taskContract" toTaskDetail /\
  reads_kind task_market_idl "marketGlobal" (toMarketGlobalSummary default_key) /\
  reads_kind task_market_idl "bidBook" toBidBookSummary /\
  reads_kind task_market_idl "bid" toBidSummary /\
  reads_kind proof_verifier_idl "verifierConfig" toVerifierConfigSummary /\
  reads_kind proof_verifier_idl "globalMode" toVerifierModeSummary /\
  reads_kind proof_verifier_idl "allowedCallers" toAllowedCallersSummary /\
  reads_kind proof_verifier_idl "verifierKey" toVerifierKeySummary /\
  reads_kind template_registry_idl "templateRegistryGlobal" toTemplateRegistryConfigSummary /\
  reads_kind template_registry_idl "agentTemplate" (toTemplateSummary decode) /\
  reads_kind template_registry_idl "templateFork" toTemplateForkSummary /\
  reads_kind template_registry_idl "templateRental" toTemplateRentalSummary /\
  reads_kind capability_registry_idl "registryConfig" toRegistryConfigSummary.
Proof.
  split; [apply agent_summary_reads|]. split; [apply agent_detail_reads|]. split; [apply category_reads|].
  split; [plain_reads toTreasurySummary|]. split; [plain_reads toStreamSummary|]. split; [plain_reads toStrategyPositionSummary|].
  split; [intros addr v H; open_struct H; read_one H|].
  split; [apply task_reads|]. split; [apply task_detail_reads|].
  split; [plain_reads toMarketGlobalSummary|]. split; [plain_reads toBidBookSummary|]. split; [plain_reads toBidSummary|].
  split; [plain_reads toVerifierConfigSummary|]. split; [plain_reads toVerifierModeSummary|].
  split; [plain_reads toAllowedCallersSummary|]. split; [plain_reads toVerifierKeySummary|].
  split; [plain_reads toTemplateRegistryConfigSummary|]. split; [plain_reads toTemplateSummary|].
  split; [plain_reads toTemplateForkSummary|]. split; [plain_reads toTemplateRentalSummary|]. plain_reads toRegistryConfigSummary.
Qed.

(** ** Queries by a field *)

(** Borsh: a public key is its 32 bytes, an array of bytes those bytes, a struct its
    fields one after the other. *)
Record borsh_laws (borsh : list (string * idl_typedef) -> idl_type -> value -> list Z) : Prop := {
  borsh_key : forall tys k, borsh tys T_pubkey (V_key k) = toBuffer k;
  borsh_bytes : forall tys n b, length b = n -> borsh tys (T_array T_u8 n) (V_bytes b) = b;
  borsh_struct : forall tys name ts fs, map_get name tys = Some (TD_struct ts) -> typed_fields tys fs ts ->
    borsh tys (T_defined name) (V_struct fs) = concat (zip_with (fun f t => borsh tys t.2 f.2) fs ts);
}.

(** A field's value as the 32 bytes a query compares: a public key or an array. *)
Definition field_is (v : value) (f : string) (k : pubkey) : bool :=
  match prop v f with
  | Ok (V_key k') => Z.eqb k' k
  | Ok (V_bytes b) => bool_decide (b = toBuffer k)
  | _ => false
  end.

Section queries.
Variable borsh : list (string * idl_typedef) -> idl_type -> value -> list Z.
Hypothesis laws : borsh_laws borsh.

(** The data of an account: the discriminator of its kind and the encoded fields. *)
Definition account_data (i : idl) (name : string) (v : value) : list Z :=
  default [] (map_get name (accounts i)) ++ borsh (types i) (T_defined name) v.

Definition data_matches (data : list Z) (m : memcmp) : bool := bool_decide (take 32 (drop (offset m) data) = toBuffer (key_at m)).

(** A type whose encoding has 32 bytes. *)
Definition is32 (t : idl_type) : bool := match t with T_pubkey => true | T_array T_u8 32 => true | _ => false end.

Lemma borsh_32 tys t v : is32 t = true -> has_type tys v t = true ->
  length (borsh tys t v) = 32%nat /\ Forall is_byte (borsh tys t v).
Proof.
  intros Ht Hv. destruct t as [| | | | | | | | | |e n|e|e|s]; try done.
  - destruct v; try done. rewrite (borsh_key _ laws). split; [apply fill_bytes_length|apply fill_bytes_byte].
  - destruct e; try done. do 32 (destruct n as [|n]; [done|]). destruct n; [|done].
    destruct v; simpl in Hv; try done; apply andb_true_iff in Hv as [Hl Hb].
    apply Nat.eqb_eq in Hl. rewrite (borsh_bytes _ laws) by done. split; [done|]. by apply bytes_check.
Qed.

(** How many fields of 32 bytes precede the field [f], if no others do. *)
Fixpoint position (f : string) (ts : list (string * idl_type)) : option nat :=
  match ts with
  | [] => None
  | (g, t) :: ts' => if decide (f = g) then (if is32 t then Some 0%nat else None) else if is32 t then S <$> position f ts' else None
  end.

Lemma position_encoding tys ts n f fs : position f ts = Some n -> typed_fields tys fs ts ->
  exists v t, prop (V_struct fs) f = Ok v /\ is32 t = true /\ has_type tys v t = true /\
    take 32 (drop (32 * n) (concat (zip_with (fun f t => borsh tys t.2 f.2) fs ts))) = borsh tys t v.
Proof.
  revert n fs. induction ts as [|[g t] ts IH]; intros n [|[g' v] fs] Hp H; try done. destruct H as (-> & Hv & H).
  cbn [position prop map_get] in *. destruct (is32 t) eqn:Ht; [|by case_decide].
  destruct (borsh_32 _ _ _ Ht Hv) as [Hl _]. case_decide as E.
  - simplify_eq. exists v, t. split_and!; [done..|]. cbn [zip_with concat fst snd]. rewrite Nat.mul_0_r, drop_0.
    by rewrite take_app_length'.
  - destruct (position f ts) as [m|] eqn:Em; [|done]. injection Hp as <-.
    destruct (IH m fs eq_refl H) as (w & u & Hw & Hu & Hty & He). exists w, u.
    cbn [prop] in Hw. split_and!; [exact Hw|done..|]. rewrite <- He.
    cbn [zip_with concat fst snd]. replace (32 * S m)%nat with (32 + 32 * m)%nat by lia.
    rewrite <- drop_drop, drop_app_length'; done.
Qed.

(** A query at the offset of a field compares that field. *)
Lemma query_selects (i : idl) name ts f n v k :
  map_get name (types i) = Some (TD_struct ts) -> length (default [] (map_get name (accounts i))) = 8%nat ->
  position f ts = Some n -> 0 <= k < 2 ^ 256 -> has_type (types i) v (T_defined name) = true ->
  data_matches (account_data i name v) {| offset := 8 + 32 * n; key_at := k |} = field_is v f k.
Proof.
  intros Hn Hd Hp Hk Hv. destruct (struct_typed _ _ _ _ Hv Hn) as (fs & -> & H).
  destruct (position_encoding _ _ _ _ _ Hp H) as (x & t & Hx & Ht & Hty & He).
  unfold data_matches, account_data. cbn [offset key_at]. rewrite <- drop_drop, drop_app_length' by done.
  rewrite (borsh_struct _ laws _ _ _ _ Hn H), He. unfold field_is. rewrite Hx.
  destruct t as [| | | | | | | | | |e m|e|e|s]; try done.
  - destruct x as [| | |k'| | | | | |]; try done. rewrite (borsh_key _ laws). simpl in Hty.
    apply andb_true_iff in Hty as [H1%Z.leb_le H2%Z.ltb_lt].
    destruct (Z.eqb_spec k' k) as [->|Hne]; [by apply bool_decide_eq_true|]. apply bool_decide_eq_false.
    intros E. apply Hne. by apply (fill_bytes_inj 32).
  - destruct e; try done. do 32 (destruct m as [|m]; [done|]). destruct m; [|done].
    destruct x; simpl in Hty; try done; apply andb_true_iff in Hty as [Hl Hb].
    apply Nat.eqb_eq in Hl. by rewrite (borsh_bytes _ laws) by done.
Qed.
End queries.

Section node.
Context {W : Type}.
Variable ops : node_ops W.
Variable borsh : list (string * idl_typedef) -> idl_type -> value -> list Z.
(** The accounts of a kind a program owns, as the node lists them. *)
Variable stored : W -> Program -> string -> list (pubkey * value).

(** The node lists the accounts whose bytes match every filter; what a program
    stores is of the type its interface gives. *)
Record node_laws : Prop := {
  node_borsh : borsh_laws borsh;
  node_all : forall p i name ms w l w', map_get (pg_name p) idls = Some i ->
    all ops p name ms w = Some (Ok l, w') ->
    l = List.filter (fun a => forallb (data_matches (account_data borsh i name a.2)) ms) (stored w p name);
  node_typed : forall w p i name k v, map_get (pg_name p) idls = Some i -> (k, v) ∈ stored w p name ->
    has_type (types i) v (T_defined name) = true;
}.

Hypothesis laws : node_laws.

Lemma filter_on {A} (f g : A -> bool) l : (forall x, x ∈ l -> f x = g x) -> List.filter f l = List.filter g l.
Proof.
  induction l as [|x l IH]; intros H; simpl; [done|].
  rewrite (H x (list_elem_of_here _ _)), IH; [done|]. intros y Hy. apply H. by right.
Qed.

(** The accounts of [p] whose field [f] is [k], in the node's order. *)
Definition with_field (w : W) (p : Program) (name f : string) (k : pubkey) : list (pubkey * value) :=
  List.filter (fun a => field_is a.2 f k) (stored w p name).

(** [f] is a field of 32 bytes of the accounts [name] of [p], [n] such fields into the data. *)
Definition queryable (p : Program) (name f : string) (n : nat) : Prop :=
  exists i ts, map_get (pg_name p) idls = Some i /\ map_get name (types i) = Some (TD_struct ts) /\
    length (default [] (map_get name (accounts i))) = 8%nat /\ position f ts = Some n.

Lemma all_by_field p name f n k w l w' : queryable p name f n -> 0 <= k < 2 ^ 256 ->
  all ops p name [{| offset := 8 + 32 * n; key_at := k |}] w = Some (Ok l, w') -> l = with_field w p name f k.
Proof.
  intros (i & ts & Hi & Hn & Hd & Hp) Hk H. apply (node_all laws _ _ _ _ _ _ _ Hi) in H. subst l.
  apply filter_on. intros [addr v] Hin. cbn [forallb fst snd]. rewrite andb_true_r.
  apply (query_selects borsh (node_borsh laws) i name ts); try done. by apply (node_typed laws w p i name addr).
Qed.

(** What a query answers when it succeeds. *)
Definition lists {A} (m : io W (list A)) (f : pubkey -> value -> result A) (found : W -> list (pubkey * value)) : Prop :=
  forall w l w', m w = Some (Ok l, w') -> map_accounts f (found w) = Ok l.

Definition lists_latest {A} (m : io W (list A)) (at_ : A -> Z) (f : pubkey -> value -> result A)
    (found : W -> list (pubkey * value)) : Prop :=
  forall w l w', m w = Some (Ok l, w') -> exists l0, map_accounts f (found w) = Ok l0 /\ l = latest_first at_ l0.

Definition finds_first {A} (m : io W (option A)) (f : pubkey -> value -> result A) (found : W -> list (pubkey * value)) : Prop :=
  forall w r w', m w = Some (Ok r, w') ->
  match found w with
  | [] => r = None
  | (addr, v) :: _ => exists a, f addr v = Ok a /\ r = Some a
  end.

Lemma fetch_all_lists {A} p name fld n k (f : pubkey -> value -> result A) : queryable p name fld n -> 0 <= k < 2 ^ 256 ->
  lists (fetch_all ops p name [{| offset := 8 + 32 * n; key_at := k |}] f) f (fun w => with_field w p name fld k).
Proof.
  intros Hq Hk w l w' H. unfold fetch_all in H. io_inv. by erewrite <- (all_by_field p name fld n) by eassumption.
Qed.

Lemma sorted_lists {A} (m : io W (list A)) (at_ : A -> Z) f found : lists m f found ->
  lists_latest (do! l <- m in io_ret (latest_first at_ l)) at_ f found.
Proof. intros H w l w' Hm. io_inv. eauto. Qed.

Variable PublicKey_of_bytes : list Z -> result pubkey.
(** [new PublicKey(bytes)] of 32 bytes is the key they encode. *)
Hypothesis PublicKey_32 : forall b, Forall is_byte b -> length b = 32%nat -> PublicKey_of_bytes b = Ok (accumulate b).

Lemma accumulate_32 b : Forall is_byte b -> length b = 32%nat -> 0 <= accumulate b < 2 ^ 256.
Proof. intros Hb Hl. pose proof (accumulate_bound b Hb) as H. rewrite Hl in H. exact H. Qed.

Lemma fetch_by_bytes_lists {A} p name fld n b (f : pubkey -> value -> result A) : queryable p name fld n ->
  Forall is_byte b -> length b = 32%nat ->
  lists (fetch_all_by_bytes ops PublicKey_of_bytes p name (8 + 32 * n) b f) f (fun w => with_field w p name fld (accumulate b)).
Proof.
  intros Hq Hb Hl w l w' H. unfold fetch_all_by_bytes in H. rewrite PublicKey_32 in H by done. io_inv. simplify_eq.
  by eapply fetch_all_lists; eauto using accumulate_32.
Qed.

Lemma fetch_first_finds {A} p name fld n b (f : pubkey -> value -> result A) : queryable p name fld n ->
  Forall is_byte b -> length b = 32%nat ->
  finds_first (fetch_first ops PublicKey_of_bytes p name (8 + 32 * n) b f) f (fun w => with_field w p name fld (accumulate b)).
Proof.
  intros Hq Hb Hl w r w' H. unfold fetch_first in H. rewrite PublicKey_32 in H by done. io_inv. simplify_eq.
  match goal with Ha : all _ _ _ _ _ = Some (Ok ?l, _) |- _ =>
    rewrite <- (all_by_field _ _ _ _ _ _ _ _ Hq (accumulate_32 _ Hb Hl) Ha); destruct l as [|[addr v] l] end.
  - io_inv. done.
  - io_inv. eauto.
Qed.
End node.

Ltac query := match goal with |- queryable _ ?name ?f ?n => unfold queryable end;
  eexists _, _; split; [match goal with H : pg_name _ = _ |- _ => rewrite H; reflexivity end|]; split; [reflexivity|]; split; reflexivity.

(** C37: each query of the SDK answers with the accounts whose field is the one asked
    for, all of them and no others: the byte offsets it compares at are those of the
    fields in the programs' own layouts. *)
Theorem queries_exact {W} (ops : node_ops W) borsh stored (laws : node_laws ops borsh stored)
    (PublicKey_of_bytes : list Z -> result pubkey) (decode : list Z -> string)
    (PublicKey_32 : forall b, Forall is_byte b -> length b = 32%nat -> PublicKey_of_bytes b = Ok (accumulate b))
    (ar tm ts tr : Program) (Har : pg_name ar = "agent_registry"%string) (Htm : pg_name tm = "task_market"%string)
    (Hts : pg_name ts = "treasury_standard"%string) (Htr : pg_name tr = "template_registry"%string)
    (k : pubkey) (Hk : 0 <= k < 2 ^ 256) (b : list Z) (Hb : Forall is_byte b) (Hl : length b = 32%nat)
    (hex : string) (Hhex : hexPairs hex = Ok b) :
  let found p name f k w := with_field stored w p name f k in
  let id := accumulate b in
  lists (fetchAgentsByOperator ops decode ar k) (toAgentSummary decode) (found ar "agentAccount" "operator" k)%string /\
  finds_first (fetchAgentByDid ops decode PublicKey_of_bytes ar hex) (toDetail decode) (found ar "agentAccount" "did" id)%string /\
  lists (fetchCategoryReputationsByAgent ops PublicKey_of_bytes ar b) toCategoryRep (found ar "categoryReputation" "agentDid" id)%string /\
  lists (fetchStreamsByAgent ops PublicKey_of_bytes ts b) toStreamSummary (found ts "paymentStream" "agentDid" id)%string /\
  lists (fetchStrategyPositionsByAgent ops PublicKey_of_bytes ts b) toStrategyPositionSummary (found ts "strategyPosition" "agentDid" id)%string /\
  lists (fetchTasksByClient ops tm k) toTaskSummary (found tm "taskContract" "client" k)%string /\
  lists (fetchTasksByAgent ops PublicKey_of_bytes tm hex) toTaskSummary (found tm "taskContract" "agentDid" id)%string /\
  finds_first (fetchTaskById ops PublicKey_of_bytes tm hex) toTaskDetail (found tm "taskContract" "taskId" id)%string /\
  lists (fetchBidsForTask ops PublicKey_of_bytes tm b) toBidSummary (found tm "bid" "taskId" id)%string /\
  lists_latest (fetchTemplateForks ops tr k) tf_forkedAt toTemplateForkSummary (found tr "templateFork" "parentTemplate" k)%string /\
  lists_latest (fetchTemplateRentals ops tr k) rn_endTime toTemplateRentalSummary (found tr "templateRental" "template" k)%string /\
  lists_latest (fetchTemplateRentalsByRenter ops tr k) rn_endTime toTemplateRentalSummary (found tr "templateRental" "renter" k)%string.
Proof.
  cbv zeta.
  unfold fetchAgentsByOperator, fetchAgentByDid, fetchCategoryReputationsByAgent, fetchStreamsByAgent, fetchStrategyPositionsByAgent,
    fetchTasksByClient, fetchTasksByAgent, fetchTaskById, fetchBidsForTask, fetchTemplateForks, fetchTemplateRentals,
    fetchTemplateRentalsByRenter.
  rewrite Hhex, Hl. cbn [Nat.eqb].
  split; [eapply (fetch_all_lists ops borsh stored laws _ _ _ 0); [query|done]|].
  split; [intros w r w' H; io_inv; simplify_eq;
    eapply (fetch_first_finds ops borsh stored laws _ PublicKey_32 _ _ _ 2); [query|done|done|eassumption]|].
  split; [eapply (fetch_by_bytes_lists ops borsh stored laws _ PublicKey_32 _ _ _ 0); [query|done|done]|].
  split; [eapply (fetch_by_bytes_lists ops borsh stored laws _ PublicKey_32 _ _ _ 0); [query|done|done]|].
  split; [eapply (fetch_by_bytes_lists ops borsh stored laws _ PublicKey_32 _ _ _ 0); [query|done|done]|].
  split; [eapply (fetch_all_lists ops borsh stored laws _ _ _ 1); [query|done]|].
  split; [intros w r w' H; io_inv; simplify_eq;
    eapply (fetch_by_bytes_lists ops borsh stored laws _ PublicKey_32 _ _ _ 2); [query|done|done|eassumption]|].
  split; [intros w r w' H; io_inv; simplify_eq;
    eapply (fetch_first_finds ops borsh stored laws _ PublicKey_32 _ _ _ 0); [query|done|done|eassumption]|].
  split; [eapply (fetch_by_bytes_lists ops borsh stored laws _ PublicKey_32 _ _ _ 0); [query|done|done]|].
  split; [apply sorted_lists; eapply (fetch_all_lists ops borsh stored laws _ _ _ 1); [query|done]|].
  split; [apply sorted_lists; eapply (fetch_all_lists ops borsh stored laws _ _ _ 0); [query|done]|].
  apply sorted_lists; eapply (fetch_all_lists ops borsh stored laws _ _ _ 1); [query|done].
Qed.

(** ** Payloads of tasks *)

(** Anchor's coder gives back, decoded, what it was given to encode: numbers come
    back as integers. *)
Fixpoint handed_back (a : arg) : value :=
  match a with
  | A_bytes b => V_bytes b
  | A_bn n => V_bn n
  | A_num q => V_num (Qround.Qfloor q)
  | A_bool b => V_bool b
  | A_key k => V_key k
  | A_string s => V_text s
  | A_vec l => V_list (map handed_back l)
  | A_enum var => V_enum var []
  | A_data var fs => V_enum var (map (fun f => (f.1, handed_back f.2)) fs)
  | A_struct fs => V_struct (map (fun f => (f.1, handed_back f.2)) fs)
  end.

Definition kind_of (k : task_kind_input) : task_kind := match k with LegacyKind k | StructuredKind k => k end.

Definition bit_ok (q : Q) : Prop := exists z, q = inject_Z z /\ unsigned 16 z = true.

(** The numbers, keys and bytes of a kind fit the program's types. *)
Definition kind_fits (k : task_kind) : Prop :=
  match k with
  | swapExact i o a m => unsigned 256 i && unsigned 256 o && unsigned 64 a && unsigned 64 m = true
  | transfer m t a => unsigned 256 m && unsigned 256 t && unsigned 64 a = true
  | dataFetch u e => bytes_ok u && bytes_ok e = true
  | compute c p => bytes_ok c && bytes_ok p = true
  | generic b a => bit_ok b /\ bytes_ok a = true
  end.

Definition read_kind (k : task_kind) : TaskPayloadKind :=
  match k with
  | swapExact i o a m => K_swapExact i o a m
  | transfer m t a => K_transfer m t a
  | dataFetch u e => K_dataFetch u e
  | compute c p => K_compute c p
  | generic b a => K_generic (Qround.Qfloor b) a
  end.

Lemma toByteArray_32 b label a : toByteArray b label (Some 32%nat) = Ok a -> a = A_bytes b /\ length b = 32%nat.
Proof. unfold toByteArray. destruct (Nat.eqb_spec (length b) 32); [|done]. by intros [= <-]. Qed.

Lemma bytes_typed tys b n : length b = n -> bytes_ok b = true -> has_type tys (V_bytes b) (T_array T_u8 n) = true.
Proof. intros <- Hb. simpl. by rewrite Nat.eqb_refl, Hb. Qed.

Lemma kind_roundtrip (k : task_kind_input) a : normalizeTaskKind k = Ok a -> kind_fits (kind_of k) ->
  has_type task_market_types (handed_back a) (T_defined "taskKind") = true /\
  decodeTaskKind (handed_back a) = Ok (read_kind (kind_of k)).
Proof.
  intros H Hf. assert (Hn : normalizeTaskKind (LegacyKind (kind_of k)) = Ok a) by (by destruct k). clear H.
  destruct (kind_of k); cbn [normalizeTaskKind kind_fits] in *.
  - injection Hn as <-. rewrite !andb_true_iff in Hf. destruct Hf as [[[H1 H2] H3] H4]. simpl. by rewrite H1, H2, H3, H4.
  - injection Hn as <-. rewrite !andb_true_iff in Hf. destruct Hf as [[H1 H2] H3]. simpl. by rewrite H1, H2, H3.
  - apply andb_true_iff in Hf as [H1 H2].
    apply result_bind_ok in Hn as (u & [-> Hu]%toByteArray_32 & Hn). apply result_bind_ok in Hn as (e & [-> He]%toByteArray_32 & Hn).
    injection Hn as <-. simpl. by rewrite Hu, He, H1, H2.
  - apply andb_true_iff in Hf as [H1 H2].
    apply result_bind_ok in Hn as (u & [-> Hu]%toByteArray_32 & Hn). apply result_bind_ok in Hn as (e & [-> He]%toByteArray_32 & Hn).
    injection Hn as <-. simpl. by rewrite Hu, He, H1, H2.
  - destruct Hf as [(z & -> & Hz) H2]. apply result_bind_ok in Hn as (e & [-> He]%toByteArray_32 & Hn).
    injection Hn as <-. simpl. by rewrite He, H2, Z.div_1_r, Hz.
Qed.

(** A payload the SDK sends is a value of the program's type, and what it reads back
    from the task is what was sent, except for the personhood tier, which it does
    not read. *)
Theorem payload_roundtrip (p : payload_input) (a : arg) (bit : Z) : normalizeTaskPayload p = Ok a ->
  kind_fits (kind_of (pi_kind p)) -> pi_capabilityBit p = inject_Z bit -> unsigned 16 bit = true -> bytes_ok (pi_criteria p) = true ->
  has_type task_market_types (handed_back a) (T_defined "taskPayload") = true /\
  decodeTaskPayload (handed_back a)
  = Ok {| tp_kind := read_kind (kind_of (pi_kind p)); tp_capabilityBit := bit; tp_criteria := pi_criteria p |}.
Proof.
  intros H Hk Hb Hbit Hc. unfold normalizeTaskPayload in H. apply result_bind_ok in H as (ka & Hka & H). injection H as <-.
  destruct (kind_roundtrip _ _ Hka Hk) as [Ht Hd]. rewrite Hb. split.
  - cbn [handed_back map fst snd has_type core map_get]. 
    change (map_get "taskPayload" task_market_types) with (Some task_market_taskPayload). unfold task_market_taskPayload.
    rewrite Ht. cbn [has_type core andb String.eqb Ascii.eqb Bool.eqb].
    replace (Qround.Qfloor (inject_Z bit)) with bit by (symmetry; apply Qround.Qfloor_Z). rewrite Hbit, Hc.
    destruct (pi_requiresPersonhood p) as [[[]|[]]|]; reflexivity.
  - cbn [handed_back map fst snd]. clear Ht. revert Hd. generalize (handed_back ka). intros kv Hd.
    unfold decodeTaskPayload. simpl. rewrite Hd. simpl. by rewrite Z.div_1_r.
Qed.

(** ** Status names, and the lists that are cut and sorted *)

Definition variants_of (td : idl_typedef) : list string := match td with TD_enum vs => vs.*1 | _ => [] end.

(** Every status the programs have is given its own name; the branch that catches
    what is left over never renames one. *)
Theorem statuses_kept_names :
  Forall (fun s => statusFromEnum s = s) (variants_of agent_registry_agentStatus) /\
  Forall (fun s => streamStatusFromEnum s = s) (variants_of treasury_standard_streamStatus) /\
  Forall (fun s => strategyPositionStatusFromEnum s = s) (variants_of treasury_standard_strategyPositionStatus) /\
  Forall (fun s => taskStatusFromEnum s = s) (variants_of task_market_taskStatus) /\
  Forall (fun s => bidPhaseFromEnum s = s) (variants_of task_market_bidPhase) /\
  Forall (fun s => templateStatusFromEnum s = s) (variants_of template_registry_templateStatus) /\
  Forall (fun s => rentalStatusFromEnum s = s) (variants_of template_registry_rentalStatus).
Proof. repeat split; repeat constructor. Qed.

Lemma latest_first_sorted {A} (at_ : A -> Z) l : StronglySorted (fun x y => at_ y <= at_ x) (latest_first at_ l).
Proof.
  apply js_sort_sorted; [| |intros x y z; lia]; intros x y; unfold cmp_le;
    destruct (Z.compare_spec (at_ y) (at_ x)); try done; lia.
Qed.

Lemma latest_first_In {A} (at_ : A -> Z) l x : x ∈ latest_first at_ l <-> x ∈ l.
Proof. unfold latest_first. by rewrite js_sort_perm. Qed.

(** The recent tasks are at most as many as asked for, newest first, all of a status
    that was asked for, and no task that was left out is newer than one listed. *)
Theorem recent_tasks_newest {W} (ops : node_ops W) (p : Program) limit statuses w l w' :
  fetchRecentTasks ops p (Some limit) statuses w = Some (Ok l, w') -> 0 <= limit ->
  exists accounts tasks, all ops p "taskContract" [] w = Some (Ok accounts, w') /\ map_accounts toTaskSummary accounts = Ok tasks /\
  let wanted t := match statuses with Some s => ts_status t ∈ s | None => True end in
  Z.of_nat (length l) <= limit /\ StronglySorted (fun x y => ts_createdAt y <= ts_createdAt x) l /\
  (forall t, t ∈ l -> t ∈ tasks /\ wanted t) /\
  (forall t u, t ∈ tasks -> wanted t -> t ∉ l -> u ∈ l -> ts_createdAt t <= ts_createdAt u).
Proof.
  intros H Hlimit. unfold fetchRecentTasks, fetch_all in H. io_inv. simplify_eq.
  match goal with Ha : all _ _ _ _ _ = Some (Ok ?a, _), Hm : map_accounts _ _ = Ok ?t |- _ => exists a, t; split; [exact Ha|];
    split; [exact Hm|]; clear Ha Hm; set (tasks := t) end.
  cbv zeta. cbn [default].
  set (keep := fun task => match statuses with Some s => existsb (String.eqb (ts_status task)) s | None => true end).
  assert (Hkeep : forall t, keep t = true <-> match statuses with Some s => ts_status t ∈ s | None => True end).
  { intros t. unfold keep. destruct statuses as [s|]; [|done]. rewrite existsb_exists, list_elem_of_In. split.
    - by intros (y & Hy & ->%String.eqb_eq).
    - intros Hy. exists (ts_status t). split; [done|apply String.eqb_refl]. }
  set (sorted := latest_first ts_createdAt (List.filter keep tasks)).
  assert (Hin : forall t, t ∈ sorted <-> t ∈ tasks /\ keep t = true).
  { intros t. unfold sorted. rewrite latest_first_In, !list_elem_of_In. apply filter_In. }
  pose proof (latest_first_sorted ts_createdAt (List.filter keep tasks)) as Hs. fold sorted in Hs.
  split; [by apply slice_to_length|]. split; [by apply slice_to_sorted|]. split.
  - intros t Ht%slice_to_In%Hin. by rewrite <- Hkeep.
  - intros t u Ht Hw Hnot Hu. unfold slice_to in *. destruct (Z.ltb_spec limit 0); [lia|].
    assert (Hts : t ∈ sorted) by (apply Hin; by rewrite Hkeep). revert Hts Hnot Hu Hs.
    rewrite <- (take_drop (Z.to_nat limit) sorted) at 1 4. intros [Hts|Hts]%elem_of_app Hnot Hu Hs; [done|].
    clear -Hu Hts Hs. induction (take (Z.to_nat limit) sorted) as [|y r IH]; [by apply elem_of_nil in Hu|].
    apply StronglySorted_inv in Hs as [Hs Hy]. apply elem_of_cons in Hu as [->|Hu]; [|by apply IH].
    apply (proj1 (Forall_forall _ _) Hy). rewrite elem_of_app. by right.
Qed.

(** ** Concrete accounts *)

(** Keys, bytes and structs are encoded as Borsh does, the rest as nothing. *)
Fixpoint small_borsh (tys : list (string * idl_typedef)) (t : idl_type) (v : value) {struct v} : list Z :=
  match v with
  | V_key k => toBuffer k
  | V_bytes b => b
  | V_struct fs =>
    let fields := fix fields (fs : list (string * value)) (ts : list (string * idl_type)) {struct fs} : list (list Z) :=
      match fs, ts with
      | (_, v) :: fs', (_, t) :: ts' => small_borsh tys t v :: fields fs' ts'
      | _, _ => []
      end in
    match t with
    | T_defined name => match map_get name tys with Some (TD_struct ts) => concat (fields fs ts) | _ => [] end
    | _ => []
    end
  | _ => []
  end.

Lemma small_borsh_laws : borsh_laws small_borsh.
Proof.
  split; [done..|]. intros tys name ts fs Hn H. cbn [small_borsh]. rewrite Hn. f_equal. clear Hn.
  revert ts H. induction fs as [|[f v] fs IH]; intros [|[g t] ts] H; try done. destruct H as (_ & _ & H).
  cbn [zip_with fst snd]. f_equal. by apply IH.
Qed.

(** The world: the accounts of each program and kind. *)
Definition world : Type := list (string * string * (pubkey * value)).

(** What the world holds of a kind, if it is of its type. *)
Definition small_stored (w : world) (p : Program) (name : string) : list (pubkey * value) :=
  map snd (List.filter (fun a => String.eqb a.1.1 (pg_name p) && String.eqb a.1.2 name &&
    match map_get (pg_name p) idls with Some i => has_type (types i) a.2.2 (T_defined name) | None => false end) w).

Definition small_node : node_ops world := {|
  all := fun p name ms w =>
    Some (Ok (match map_get (pg_name p) idls with
              | Some i => List.filter (fun a => forallb (data_matches (account_data small_borsh i name a.2)) ms) (small_stored w p name)
              | None => []
              end), w);
  fetchNullable := fun _ _ _ w => Some (Ok None, w);
  getAccountInfo := fun _ w => Some (Ok None, w);
  getMultipleAccountsInfo := fun ks w => Some (Ok (map (fun _ => None) ks), w);
|}.

Lemma small_node_laws : node_laws small_node small_borsh small_stored.
Proof.
  split.
  - apply small_borsh_laws.
  - intros p i name ms w l w' Hi H. cbn [all small_node] in H. rewrite Hi in H. by injection H as <- <-.
  - intros w p i name k v Hi Hin. unfold small_stored in Hin. rewrite Hi in Hin.
    apply list_elem_of_In, in_map_iff in Hin as ([a kv] & E & H). cbn [snd] in E. subst kv.
    apply filter_In in H as [_ H]. by apply andb_true_iff in H as [_ H].
Qed.

(** ** A task *)

Definition id32 (n : Z) : list Z := repeat n 32.

Definition a_payload : value :=
  V_struct [("kind", V_enum "generic" [("capabilityBit", V_num 3); ("argsHash", V_bytes (id32 9))]);
            ("capabilityBit", V_num 3); ("criteria", V_bytes []); ("requiresPersonhood", V_enum "none" [])]%string.

Definition a_task (created : Z) : value :=
  V_struct [("taskId", V_bytes (id32 1)); ("client", V_key 7); ("agentDid", V_bytes (id32 2)); ("taskNonce", V_bytes (repeat 0 8));
            ("paymentMint", V_key 8); ("paymentAmount", V_bn 100); ("protocolFee", V_bn 1); ("solrepFee", V_bn 1);
            ("taskHash", V_bytes (id32 3)); ("resultHash", V_bytes (id32 0)); ("proofKey", V_bytes (id32 0));
            ("criteriaRoot", V_bytes (id32 0)); ("milestoneCount", V_num 0); ("milestonesComplete", V_num 0);
            ("status", V_enum "funded" []); ("createdAt", V_bn created); ("fundedAt", V_bn created); ("deadline", V_bn (created + 60));
            ("submittedAt", V_bn 0); ("disputeWindowEnd", V_bn 0); ("verified", V_bool false); ("bump", V_num 255);
            ("escrowBump", V_num 254); ("bidBook", V_null); ("assignedAgent", V_null); ("payload", a_payload)]%string.

Definition a_world : world := [("task_market", "taskContract", (40, a_task 1000)); ("task_market", "taskContract", (41, a_task 2000))]%string.

Definition a_market : Program := {| pg_name := "task_market"; programId := 5 |}.
Definition named (name : string) : Program := {| pg_name := name; programId := 0 |}.

Definition a_PublicKey (b : list Z) : result pubkey := Ok (accumulate b).
Definition no_text (_ : list Z) : string := ""%string.

Definition did_hex : string := bytesToHex (id32 2).

(** The two tasks of the agent are found by its identifier, and no task by another. *)
Lemma queries_exact_witness :
  match fetchTasksByAgent small_node a_PublicKey a_market did_hex a_world with
  | Some (Ok l, _) => map_accounts toTaskSummary (with_field small_stored a_world a_market "taskContract" "agentDid" (accumulate (id32 2))) = Ok l
                      /\ map ts_address l = [40; 41]
  | _ => False
  end.
Proof.
  assert (Hb : Forall is_byte (id32 2)) by (apply bytes_check; reflexivity).
  assert (Hk : 0 <= 7 < 2 ^ 256) by lia.
  assert (Hx : hexPairs did_hex = Ok (id32 2)) by (vm_compute; reflexivity).
  pose proof (queries_exact small_node small_borsh small_stored small_node_laws a_PublicKey no_text (fun _ _ _ => eq_refl)
    (named "agent_registry") a_market (named "treasury_standard") (named "template_registry") eq_refl eq_refl eq_refl eq_refl
    7 Hk (id32 2) Hb eq_refl did_hex Hx) as H.
  destruct H as (_ & _ & _ & _ & _ & _ & H & _).
  destruct (fetchTasksByAgent small_node a_PublicKey a_market did_hex a_world) as [[[l|e] w']|] eqn:E.
  - split; [exact (H a_world l w' E)|]. revert E. vm_compute. intros [= <- _]. reflexivity.
  - revert E. vm_compute. discriminate.
  - revert E. vm_compute. discriminate.
Defined.

Lemma recent_tasks_newest_witness :
  match fetchRecentTasks small_node a_market (Some 1) None a_world with
  | Some (Ok l, _) => Z.of_nat (length l) <= 1 /\ map ts_address l = [41]
  | _ => False
  end.
Proof.
  destruct (fetchRecentTasks small_node a_market (Some 1) None a_world) as [[[l|e] w']|] eqn:E.
  - assert (H1 : 0 <= 1) by lia.
    destruct (recent_tasks_newest small_node a_market 1 None a_world l w' E H1) as (a & t & _ & _ & Hl & _).
    split; [exact Hl|]. revert E. vm_compute. intros [= <- _]. reflexivity.
  - revert E. vm_compute. discriminate.
  - revert E. vm_compute. discriminate.
Defined.

Definition a_payload_input : payload_input :=
  {| pi_kind := LegacyKind (generic 3 (id32 9)); pi_capabilityBit := 3; pi_criteria := [1; 2]; pi_requiresPersonhood := None |}.

Lemma payload_roundtrip_witness :
  match normalizeTaskPayload a_payload_input with
  | Ok a => decodeTaskPayload (handed_back a)
            = Ok {| tp_kind := K_generic 3 (id32 9); tp_capabilityBit := 3; tp_criteria := [1; 2] |}
  | Throw _ => False
  end.
Proof.
  destruct (normalizeTaskPayload a_payload_input) as [a|e] eqn:E; [|revert E; vm_compute; discriminate].
  refine (proj2 (payload_roundtrip a_payload_input a 3 E _ eq_refl eq_refl eq_refl)).
  split; [exists 3; split; reflexivity|reflexivity].
Defined.
