(* ===== verification/AgentTools.v ===== *)
(** * AgentTools: what the agent handlers and the MCP bridge share

    Models packages/handlers/src: schemas.ts, crypto.ts, guardrails.ts and
    resolveTokenProgram of context.ts.  (The bridge's tools.ts repeats these; Mcp
    models its copies where they differ.)  web3.js, spl-token, keccak and the
    decoding of text are parameters ([agent_lib]); the node, the clock, the random
    source and the sending of a transaction are operations of the outside world
    ([agent_ops]).  The times of the transactions signed without asking are a module
    variable: a world is that list next to the outside world. *)

From Stdlib Require Import ZArith QArith Ascii.
From stdpp Require Import base list strings.
From S2P Require Import Prelude Bytes Effects Json Hex Zod Pda Idl Ix Decoded Accounts.

#[local] Open Scope Z_scope.
#[local] Open Scope saep_scope.

(** ** schemas.ts *)

(** [/^[1-9A-HJ-NP-Za-km-z]{32,44}$/] *)
Definition base58_char (c : ascii) : bool :=
  char_in 49 57 c || char_in 65 72 c || char_in 74 78 c || char_in 80 90 c || char_in 97 107 c || char_in 109 122 c.
Definition Base58 : schema string := z_string (fun s => len_between 32 44 s && all_chars base58_char s).

(** [/^[0-9a-f]{64}$/i] *)
Definition hex_char (c : ascii) : bool := char_in 48 57 c || char_in 97 102 c || char_in 65 70 c.
Definition Hex32 : schema string := z_string (fun s => len_between 64 64 s && all_chars hex_char s).

(** [/^\d+$/] *)
Definition UintString : schema string := z_string (fun s => negb (String.eqb s "") && all_chars (char_in 48 57) s).

(** [z.number().int().min(lo).max(hi)] *)
Definition z_int (lo hi : Z) : schema Z := fun v =>
  match z_int_min lo v with
  | Some n => if n <=? hi then Some n else None
  | None => None
  end.

(** [item.optional()] *)
Definition z_optional {A} (k : string) (item : schema A) (fs : list (string * json)) : option (option A) :=
  match member k fs with
  | Some v => option_map Some (item v)
  | None => Some None
  end.

(** [z.number().nonnegative()] *)
Definition z_nonnegative : schema Q := fun v => match v with J_num q => if q_leb 0 q then Some q else None | _ => None end.

Inductive UserStatus := open | bidding | awarded | settled | disputed.

Definition user_status : schema UserStatus :=
  z_enum [("open", open); ("bidding", bidding); ("awarded", awarded); ("settled", settled); ("disputed", disputed)]%string.

Record RegisterAgentInput := {
  ra_capability_bits : list Z; ra_metadata_uri : string; ra_agent_id_seed : option string; ra_stake_amount : string;
  ra_stake_mint : string; ra_operator_token_account : string; ra_price_lamports : string; ra_stream_rate : string;
}.
Record ListTasksInput := { lt_agent_did_hex : option string; lt_limit : Z }.
Record DiscoverTasksInput := {
  dt_capability_bit : option Z; dt_status : option UserStatus; dt_min_payment_usdc : option Q; dt_limit : Z;
}.
Record GetReputationInput := { gr_agent_did_hex : option string; gr_capability_bit : option Z }.
Record BidInput := { bi_task_address : string; bi_amount_usdc_micro : Z; bi_agent_did_hex : string; bi_bidder_token_account : string }.
Record RevealBidInput := { rb_task_address : string; rb_amount_usdc_micro : Z; rb_nonce_hex : string }.
Record SubmitResultInput := { sr_task_address : string; sr_result_hash : string; sr_proof_key : string }.
Record ClaimPayoutInput := {
  cp_task_address : string; cp_agent_account_address : option string; cp_agent_token_account : option string;
}.
Record WithdrawEarningsInput := {
  we_stream_address : string; we_route_data_base64 : option string; we_jupiter_program : option string;
  we_payer_price_feed : option string; we_payout_price_feed : option string;
}.

(** [z.string().url()] is the platform's URL parser. *)
Definition RegisterAgentSchema (is_url : string -> bool) : schema RegisterAgentInput := z_object (fun o =>
  bits ← z_key "capability_bits" (z_array (z_int 0 127) (fun n => 1 <=? n)%nat) o;
  uri ← z_key "metadata_uri" (z_string is_url) o;
  seed ← z_optional "agent_id_seed" (z_string (len_between 0 32)) o;
  stake ← z_default "stake_amount" UintString "0"%string o;
  mint ← z_key "stake_mint" Base58 o;
  account ← z_key "operator_token_account" Base58 o;
  price ← z_default "price_lamports" UintString "0"%string o;
  rate ← z_default "stream_rate" UintString "0"%string o;
  Some {| ra_capability_bits := bits; ra_metadata_uri := uri; ra_agent_id_seed := seed; ra_stake_amount := stake;
          ra_stake_mint := mint; ra_operator_token_account := account; ra_price_lamports := price; ra_stream_rate := rate |}).

Definition ListTasksSchema : schema ListTasksInput := z_object (fun o =>
  did ← z_optional "agent_did_hex" Hex32 o;
  limit ← z_default "limit" (z_int 1 100) 20 o;
  Some {| lt_agent_did_hex := did; lt_limit := limit |}).

Definition DiscoverTasksSchema : schema DiscoverTasksInput := z_object (fun o =>
  bit ← z_optional "capability_bit" (z_int 0 127) o;
  status ← z_optional "status" user_status o;
  least ← z_optional "min_payment_usdc" z_nonnegative o;
  limit ← z_default "limit" (z_int 1 100) 20 o;
  Some {| dt_capability_bit := bit; dt_status := status; dt_min_payment_usdc := least; dt_limit := limit |}).

Definition GetTaskSchema : schema string := z_object (fun o => z_key "task_address" Base58 o).

Definition GetReputationSchema : schema GetReputationInput := z_object (fun o =>
  did ← z_optional "agent_did_hex" Hex32 o;
  bit ← z_optional "capability_bit" (z_int 0 127) o;
  Some {| gr_agent_did_hex := did; gr_capability_bit := bit |}).

Definition BidSchema : schema BidInput := z_object (fun o =>
  task ← z_key "task_address" Base58 o;
  amount ← z_key "amount_usdc_micro" (z_int_min 1) o;
  did ← z_key "agent_did_hex" Hex32 o;
  account ← z_key "bidder_token_account" Base58 o;
  Some {| bi_task_address := task; bi_amount_usdc_micro := amount; bi_agent_did_hex := did; bi_bidder_token_account := account |}).

Definition RevealBidSchema : schema RevealBidInput := z_object (fun o =>
  task ← z_key "task_address" Base58 o;
  amount ← z_key "amount_usdc_micro" (z_int_min 1) o;
  nonce ← z_key "nonce_hex" Hex32 o;
  Some {| rb_task_address := task; rb_amount_usdc_micro := amount; rb_nonce_hex := nonce |}).

Definition SubmitResultSchema : schema SubmitResultInput := z_object (fun o =>
  task ← z_key "task_address" Base58 o;
  hash ← z_key "result_hash" Hex32 o;
  proofKey ← z_key "proof_key" Hex32 o;
  Some {| sr_task_address := task; sr_result_hash := hash; sr_proof_key := proofKey |}).

Definition ClaimPayoutSchema : schema ClaimPayoutInput := z_object (fun o =>
  task ← z_key "task_address" Base58 o;
  account ← z_optional "agent_account_address" Base58 o;
  token ← z_optional "agent_token_account" Base58 o;
  Some {| cp_task_address := task; cp_agent_account_address := account; cp_agent_token_account := token |}).

Definition WithdrawEarningsSchema : schema WithdrawEarningsInput := z_object (fun o =>
  stream ← z_key "stream_address" Base58 o;
  route ← z_optional "route_data_base64" z_str o;
  jupiter ← z_optional "jupiter_program" Base58 o;
  payer ← z_optional "payer_price_feed" Base58 o;
  payout ← z_optional "payout_price_feed" Base58 o;
  Some {| we_stream_address := stream; we_route_data_base64 := route; we_jupiter_program := jupiter; we_payer_price_feed := payer;
          we_payout_price_feed := payout |}).

(** ** crypto.ts *)

Definition hexToBytes (hex : string) : result (list Z) :=
  let clean := strip_0x hex in
  if (String.length clean =? 64)%nat then hexPairs clean else Throw "expected 32-byte hex".

(** The lowest eight bytes, the lowest first. *)
Definition amountLe (amount : Z) : list Z := rev (fill_bytes 8 amount []).

Definition commitHash (keccak_256 : list Z -> list Z) (amount : Z) (nonce agentDid : list Z) : list Z :=
  keccak_256 (amountLe amount ++ nonce ++ agentDid).

Definition capabilityMaskFrom (bits : list Z) : Z := fold_left (fun m b => Z.lor m (Z.shiftl 1 b)) bits 0.

(** ** The outside *)

Record Transaction := { tx_program : pubkey; tx_call : call }.

Record agent_lib := {
  PublicKey : string -> result pubkey;
  PublicKey_of_bytes : list Z -> result pubkey;
  PublicKey_default : pubkey;
  findProgramAddressSync : list (list Z) -> pubkey -> result (pubkey * Z);
  toBase58 : pubkey -> string;
  (** mint, owner, token program; owners off the curve are allowed *)
  getAssociatedTokenAddressSync : pubkey -> pubkey -> pubkey -> result pubkey;
  keccak_256 : list Z -> list Z;
  decode_utf8 : list Z -> string;
  base64_bytes : string -> list Z;
  (** a JavaScript number as text *)
  number_text : Q -> string;
}.

Record agent_ops (W : Type) := {
  node : node_ops W;
  Date_now : io W Z;
  getRandomValues : nat -> io W (list Z);
  sendAndConfirm : Transaction -> io W string;
}.
Arguments node {W} _.
Arguments Date_now {W} _.
Arguments getRandomValues {W} _ _.
Arguments sendAndConfirm {W} _ _.

(** The module's [autoSignTimestamps] and the outside world. *)
Definition session (W : Type) : Type := list Z * W.

(** An operation of the outside world, run by a handler. *)
Definition outside {W A} (m : io W A) : io (session W) A := fun s =>
  match m s.2 with
  | Some (r, w') => Some (r, (s.1, w'))
  | None => None
  end.

Section guardrails.
Context {W : Type}.
Variable L : agent_lib.
Variable ops : agent_ops W.

(** ** guardrails.ts *)

Record GuardrailOpts := { maxAutoSignLamports : option Q; velocityLimit : option Q }.

Definition DEFAULT_MAX_LAMPORTS : Q := 1000000.
Definition DEFAULT_VELOCITY_LIMIT : Q := 10.

(** [while (timestamps.length > 0 && timestamps[0] < windowStart) timestamps.shift()] *)
Fixpoint shift_old (windowStart : Z) (timestamps : list Z) : list Z :=
  match timestamps with
  | [] => []
  | t :: rest => if t <? windowStart then shift_old windowStart rest else timestamps
  end.

Definition checkVelocity (limit : Q) : io (session W) bool :=
  do! now <- outside (Date_now ops) in
  fun s =>
    let kept := shift_old (now - 60000) s.1 in
    Some (Ok (q_ltb (inject_Z (Z.of_nat (length kept))) limit), (kept, s.2)).

Definition recordAutoSign : io (session W) unit :=
  do! now <- outside (Date_now ops) in
  fun s => Some (Ok tt, (s.1 ++ [now], s.2)).

Definition value_message (v maxLamports : Q) : string :=
  "Auto-sign rejected: transaction value " +:+ number_text L v +:+ " lamports exceeds cap " +:+ number_text L maxLamports +:+
  ". Ask the human to sign manually or increase maxAutoSignLamports.".
Definition velocity_message (limit : Q) : string :=
  "Auto-sign rejected: velocity limit exceeded (" +:+ number_text L limit +:+ " transactions per 60s window). " +:+
  "Wait before submitting more transactions or ask the human to sign manually.".

Definition enforceGuardrails (opts : option GuardrailOpts) (valueLamports : option Q) : io (session W) unit :=
  let maxLamports := default DEFAULT_MAX_LAMPORTS (o ← opts; maxAutoSignLamports o) in
  let limit := default DEFAULT_VELOCITY_LIMIT (o ← opts; velocityLimit o) in
  do! _ <- match valueLamports with
           | Some v => io_check (negb (q_ltb maxLamports v)) (value_message v maxLamports)
           | None => io_ret tt
           end in
  do! free <- checkVelocity limit in
  do! _ <- io_check free (velocity_message limit) in
  recordAutoSign.

Definition resetVelocityWindow : io (session W) unit := fun s => Some (Ok tt, ([], s.2)).
End guardrails.

(** ** context.ts *)

Record HandlerContext := { hc_config : ClusterConfig; hc_operator : pubkey }.

Definition TOKEN_PROGRAM_ID (L : agent_lib) : pubkey := constant (PublicKey L) "TokenkegQfeZyiNwAJbNbGKPFXCWuBvf9Ss623VQ5DA".

(** [label] is "mint" here and "payment mint" in the bridge. *)
Definition resolveTokenProgram {W} (L : agent_lib) (ops : agent_ops W) (label : string) (mint : pubkey) : io W pubkey :=
  do! info <- getAccountInfo (node ops) mint in
  match info with
  | None => io_throw (label +:+ " " +:+ toBase58 L mint +:+ " was not found")
  | Some (owner, _) =>
    if Z.eqb owner (TOKEN_2022_PROGRAM_ID (PublicKey L)) then io_ret (TOKEN_2022_PROGRAM_ID (PublicKey L))
    else if Z.eqb owner (TOKEN_PROGRAM_ID L) then io_ret (TOKEN_PROGRAM_ID L)
    else io_throw (label +:+ " " +:+ toBase58 L mint +:+ " is not an SPL token mint")
  end.
