(* ===== verification/Handlers.v ===== *)
(** * Handlers: what an agent does with its wallet

    Models packages/handlers/src/handlers: one function per action, from its parsed
    input to its reply, over the interfaces of AgentTools, the readers of Accounts
    and the instruction builders of Ix.  A reply is a JSON object, a public key in
    it its base58 text. *)

From Stdlib Require Import ZArith QArith.
From stdpp Require Import base list strings.
From S2P Require Import Prelude Bytes Effects JsMap Json Hex Zod Numbers Pda Idl Ix Decoded Accounts AgentTools.

#[local] Open Scope Z_scope.
#[local] Open Scope saep_scope.

Definition reply : Type := list (string * json).

Definition j_int (n : Z) : json := J_num (inject_Z n).
Definition j_hex (b : list Z) : json := J_str (bytesToHex b).

(** [cluster: ctx.cluster] *)
Definition cluster_text (c : SaepCluster) : string :=
  match c with devnet => "devnet" | mainnet_beta => "mainnet-beta" | localnet => "localnet" end.

Section handlers.
Context {W : Type}.
Variable L : agent_lib.
Variable ops : agent_ops W.
Variable ctx : HandlerContext.

Definition ids : ProgramIdMap := programIds (hc_config ctx).
Definition hdr : string * json := ("cluster"%string, J_str (cluster_text (cluster (hc_config ctx)))).
Definition key_json (k : pubkey) : json := J_str (toBase58 L k).

(** [taskMarketProgram(ctx.provider, ctx.config)] and its like. *)
Definition taskMarketProgram : Program := {| pg_name := "task_market"; programId := ids taskMarket |}.
Definition agentRegistryProgram : Program := {| pg_name := "agent_registry"; programId := ids agentRegistry |}.
Definition treasuryStandardProgram : Program := {| pg_name := "treasury_standard"; programId := ids treasuryStandard |}.

(** [program.account.<name>.fetch(address)] throws where there is no account. *)
Definition fetch_account (p : Program) (name : string) (address : pubkey) : io W value :=
  do! raw <- fetchNullable (node ops) p name address in
  match raw with
  | Some v => io_ret v
  | None => io_throw ("Account does not exist or has no data " +:+ toBase58 L address)
  end.

Definition agent_by_did (hex : string) : io W (option AgentDetail) :=
  fetchAgentByDid (node ops) (decode_utf8 L) (PublicKey_of_bytes L) agentRegistryProgram hex.

Definition agents_of_operator : io W (list AgentSummary) :=
  fetchAgentsByOperator (node ops) (decode_utf8 L) agentRegistryProgram (hc_operator ctx).

(** [enforceGuardrails(opts); await ctx.provider.sendAndConfirm(new Transaction().add(ix))] *)
Definition guarded_send (opts : option GuardrailOpts) (program : pubkey) (ix : call) : io (session W) string :=
  do! _ <- enforceGuardrails L ops opts None in
  outside (sendAndConfirm ops {| tx_program := program; tx_call := ix |}).

(** ** bid.ts *)

Definition handleBid (input : BidInput) (opts : option GuardrailOpts) : io (session W) reply :=
  do! taskPk <- io_lift (PublicKey L (bi_task_address input)) in
  do! task <- outside (fetch_account taskMarketProgram "taskContract" taskPk) in
  do! taskId <- io_lift (get_bytes task "taskId") in
  do! paymentMint <- io_lift (get_key task "paymentMint") in
  do! agentAcc <- outside (agent_by_did (bi_agent_did_hex input)) in
  match agentAcc with
  | None => io_ret [hdr; ("error", J_str "agent_not_found"); ("agent_did_hex", J_str (bi_agent_did_hex input))]%string
  | Some agent =>
    if negb (Z.eqb (ag_operator (ad_summary agent)) (hc_operator ctx))
    then io_ret [hdr; ("error", J_str "operator_mismatch");
                 ("reason", J_str "wallet is not the registered operator for this agent_did")]%string
    else
      do! agentDid <- io_lift (hexToBytes (bi_agent_did_hex input)) in
      let amount := bi_amount_usdc_micro input in
      do! nonce <- outside (getRandomValues ops 32) in
      let hash := commitHash (keccak_256 L) amount nonce agentDid in
      do! account <- io_lift (PublicKey L (bi_bidder_token_account input)) in
      do! ix <- io_lift (buildCommitBidIx (PublicKey L) (findProgramAddressSync L) (ids taskMarket) ids (hc_operator ctx) taskPk taskId
                   paymentMint account (ag_operator (ad_summary agent)) (ag_agentId (ad_summary agent)) agentDid hash None) in
      do! signature <- guarded_send opts (ids taskMarket) ix in
      io_ret [hdr; ("signature", J_str signature); ("nonce_hex", j_hex nonce); ("amount_usdc_micro", j_int amount);
              ("agent_did_hex", J_str (bi_agent_did_hex input)); ("task_id_hex", j_hex taskId);
              ("warning", J_str "PERSIST nonce_hex — required for reveal_bid. Loss forfeits bond.")]%string
  end.

(** ** reveal-bid.ts *)

Definition handleRevealBid (input : RevealBidInput) (opts : option GuardrailOpts) : io (session W) reply :=
  do! taskPk <- io_lift (PublicKey L (rb_task_address input)) in
  do! task <- outside (fetch_account taskMarketProgram "taskContract" taskPk) in
  do! taskId <- io_lift (get_bytes task "taskId") in
  do! nonce <- io_lift (hexToBytes (rb_nonce_hex input)) in
  do! ix <- io_lift (buildRevealBidIx (findProgramAddressSync L) (ids taskMarket) (hc_operator ctx) taskPk taskId
               (rb_amount_usdc_micro input) nonce) in
  do! signature <- guarded_send opts (ids taskMarket) ix in
  io_ret [hdr; ("signature", J_str signature); ("task_id_hex", j_hex taskId)]%string.

(** ** submit-result.ts *)

Definition handleSubmitResult (input : SubmitResultInput) (opts : option GuardrailOpts) : io (session W) reply :=
  do! taskPk <- io_lift (PublicKey L (sr_task_address input)) in
  do! task <- outside (fetch_account taskMarketProgram "taskContract" taskPk) in
  do! did <- io_lift (get_bytes task "agentDid") in
  let didHex := bytesToHex did in
  do! agentAcc <- outside (agent_by_did didHex) in
  match agentAcc with
  | None => io_ret [hdr; ("error", J_str "agent_not_found_for_task"); ("agent_did_hex", J_str didHex)]%string
  | Some agent =>
    do! resultHash <- io_lift (hexToBytes (sr_result_hash input)) in
    do! proofKey <- io_lift (hexToBytes (sr_proof_key input)) in
    do! ix <- io_lift (buildSubmitResultIx (findProgramAddressSync L) (ids taskMarket) ids (hc_operator ctx) taskPk
                 (ag_address (ad_summary agent)) resultHash proofKey) in
    do! signature <- guarded_send opts (ids taskMarket) ix in
    io_ret [hdr; ("signature", J_str signature); ("agent_did_hex", J_str didHex)]%string
  end.

(** ** claim-payout.ts *)

Definition operator_at (address : pubkey) : io W (option pubkey) :=
  do! raw <- fetchNullable (node ops) agentRegistryProgram "agentAccount" address in
  match raw with
  | Some v => do! k <- io_lift (get_key v "operator") in io_ret (Some k)
  | None => io_ret None
  end.

(** The agent of a task: the account given, the one assigned, or the one with the task's identifier;
    its address and its operator. *)
Definition resolveAgentAccount (task : value) (explicitAddress : option string) : io W (pubkey * pubkey) :=
  let by_did :=
    do! did <- io_lift (get_bytes task "agentDid") in
    do! agent <- agent_by_did (bytesToHex did) in
    match agent with
    | Some a => io_ret (ag_address (ad_summary a), ag_operator (ad_summary a))
    | None => io_throw ("agent_not_found_for_task:" +:+ bytesToHex did)
    end in
  if truthy explicitAddress then
    do! address <- io_lift (PublicKey L (default ""%string explicitAddress)) in
    do! operator <- operator_at address in
    match operator with
    | Some k => io_ret (address, k)
    | None => io_throw "agent_account_not_found"
    end
  else
    do! assigned <- io_lift (get_key_or_null task "assignedAgent") in
    match assigned with
    | None => by_did
    | Some a =>
      do! operator <- operator_at a in
      match operator with
      | Some k => io_ret (a, k)
      | None => by_did
      end
    end.

(** The accounts a payout goes to: the agent's, the fee collector's, the reputation pool's. *)
Definition payout_accounts (paymentMint tokenProgramId agentOperator feeCollector solrepPool : pubkey) (agent_token : option string) :
    result (pubkey * pubkey * pubkey) :=
  let! agentToken := if truthy agent_token then PublicKey L (default ""%string agent_token)
                     else getAssociatedTokenAddressSync L paymentMint agentOperator tokenProgramId in
  let! feeToken := getAssociatedTokenAddressSync L paymentMint feeCollector tokenProgramId in
  let! poolToken := getAssociatedTokenAddressSync L paymentMint solrepPool tokenProgramId in
  Ok (agentToken, feeToken, poolToken).

Definition handleClaimPayout (input : ClaimPayoutInput) (opts : option GuardrailOpts) : io (session W) reply :=
  do! taskPk <- io_lift (PublicKey L (cp_task_address input)) in
  do! found <- outside (fetchNullable (node ops) taskMarketProgram "taskContract" taskPk) in
  match found with
  | None => io_ret [hdr; ("error", J_str "task_not_found")]%string
  | Some task =>
    do! market <- outside (fetchMarketGlobal (node ops) (findProgramAddressSync L) (PublicKey_default L) taskMarketProgram) in
    match market with
    | None => io_ret [hdr; ("error", J_str "market_global_not_found")]%string
    | Some marketGlobal =>
      do! paymentMint <- io_lift (get_key task "paymentMint") in
      do! tokenProgramId <- outside (resolveTokenProgram L ops "mint" paymentMint) in
      do! agentAccount <- outside (resolveAgentAccount task (cp_agent_account_address input)) in
      do! accounts <- io_lift (payout_accounts paymentMint tokenProgramId agentAccount.2 (mg_feeCollector marketGlobal)
                        (mg_solrepPool marketGlobal) (cp_agent_token_account input)) in
      let '(agentToken, feeToken, poolToken) := accounts in
      do! client <- io_lift (get_key task "client") in
      do! ix <- io_lift (buildReleaseIx (PublicKey L) (findProgramAddressSync L) (ids taskMarket) ids (hc_operator ctx) taskPk paymentMint
                   agentToken feeToken poolToken agentAccount.1 client None (Some tokenProgramId)) in
      do! signature <- guarded_send opts (ids taskMarket) ix in
      do! taskId <- io_lift (get_bytes task "taskId") in
      do! amount <- io_lift (get_bigint task "paymentAmount") in
      io_ret [hdr; ("signature", J_str signature); ("task_address", key_json taskPk); ("task_id_hex", j_hex taskId);
              ("payment_mint", key_json paymentMint); ("payment_amount", J_str (z_text amount));
              ("agent_account_address", key_json agentAccount.1); ("agent_token_account", key_json agentToken)]%string
    end
  end.

(** ** withdraw-earnings.ts *)

(** [x ? new PublicKey(x) : undefined] *)
Definition key_if (text : option string) : result (option pubkey) :=
  if truthy text then let! k := PublicKey L (default ""%string text) in Ok (Some k) else Ok None.

(** What is missing from a withdrawal that has to swap: the error and its reason. *)
Definition swap_missing (swapped : bool) (input : WithdrawEarningsInput) : option (string * string) :=
  if swapped && negb (truthy (we_route_data_base64 input))
  then Some ("swap_route_required", "cross-mint withdrawals need route_data_base64 plus Jupiter + oracle accounts")%string
  else if swapped && (negb (truthy (we_jupiter_program input)) || negb (truthy (we_payer_price_feed input))
                      || negb (truthy (we_payout_price_feed input)))
  then Some ("swap_accounts_required",
             "cross-mint withdrawals need jupiter_program, payer_price_feed, and payout_price_feed")%string
  else None.

Definition route_data (input : WithdrawEarningsInput) : list Z :=
  if truthy (we_route_data_base64 input) then base64_bytes L (default ""%string (we_route_data_base64 input)) else [].

Definition handleWithdrawEarnings (input : WithdrawEarningsInput) (opts : option GuardrailOpts) : io (session W) reply :=
  do! streamPk <- io_lift (PublicKey L (we_stream_address input)) in
  do! stream <- outside (fetch_account treasuryStandardProgram "paymentStream" streamPk) in
  do! agentDid <- io_lift (get_bytes stream "agentDid") in
  do! payerMint <- io_lift (get_key stream "payerMint") in
  do! payoutMint <- io_lift (get_key stream "payoutMint") in
  let swapped := negb (Z.eqb payerMint payoutMint) in
  match swap_missing swapped input with
  | Some (error, reason) =>
    io_ret [hdr; ("error", J_str error); ("agent_did_hex", j_hex agentDid); ("reason", J_str reason)]%string
  | None =>
    do! tokenProgramId <- outside (resolveTokenProgram L ops "mint" payerMint) in
    do! jupiter <- io_lift (key_if (we_jupiter_program input)) in
    do! payerFeed <- io_lift (key_if (we_payer_price_feed input)) in
    do! payoutFeed <- io_lift (key_if (we_payout_price_feed input)) in
    do! ix <- io_lift (buildWithdrawEarnedIx (PublicKey L) (findProgramAddressSync L) (ids treasuryStandard) (hc_operator ctx) agentDid
                 streamPk payerMint payoutMint (default (PublicKey_default L) jupiter) (route_data input) payerFeed payoutFeed
                 None None None (Some tokenProgramId)) in
    do! signature <- guarded_send opts (ids treasuryStandard) ix in
    io_ret [hdr; ("signature", J_str signature); ("stream_address", key_json streamPk); ("agent_did_hex", j_hex agentDid);
            ("payer_mint", key_json payerMint); ("payout_mint", key_json payoutMint); ("swapped", J_bool swapped)]%string
  end.

(** ** register-agent.ts *)

Definition register_agent_id (seed : option string) : io W (list Z) :=
  if truthy seed then io_lift (encodeAgentId (default ""%string seed)) else getRandomValues ops 32.

Definition created_agent (agentId : list Z) (fetched : list AgentSummary) : option AgentSummary :=
  List.find (fun a => bool_decide (ag_agentId a = agentId)) fetched.

Definition handleRegisterAgent (input : RegisterAgentInput) (opts : option GuardrailOpts) : io (session W) reply :=
  do! agentId <- outside (register_agent_id (ra_agent_id_seed input)) in
  do! price <- io_lift (js_BigInt (ra_price_lamports input)) in
  do! rate <- io_lift (js_BigInt (ra_stream_rate input)) in
  do! stake <- io_lift (js_BigInt (ra_stake_amount input)) in
  do! stakeMint <- io_lift (PublicKey L (ra_stake_mint input)) in
  do! account <- io_lift (PublicKey L (ra_operator_token_account input)) in
  do! ix <- io_lift (buildRegisterAgentIx (PublicKey L) (findProgramAddressSync L) (ids agentRegistry) (hc_operator ctx) agentId
               (ra_metadata_uri input) (capabilityMaskFrom (ra_capability_bits input)) price rate stake stakeMint account
               (ids capabilityRegistry) None None) in
  do! signature <- guarded_send opts (ids agentRegistry) ix in
  do! fetched <- outside agents_of_operator in
  let created := created_agent agentId fetched in
  io_ret [hdr; ("signature", J_str signature);
          ("agent_address", match created with Some a => key_json (ag_address a) | None => J_null end);
          ("agent_did_hex", match created with Some a => j_hex (ag_did a) | None => J_null end);
          ("agent_id_hex", j_hex agentId)]%string.

(** ** list-tasks.ts and get-reputation.ts *)

(** The operator's active agent, or the first. *)
Definition own_agent (mine : list AgentSummary) : option AgentSummary :=
  match List.find (fun a => String.eqb (ag_status a) "active") mine with
  | Some a => Some a
  | None => head mine
  end.

(** The identifier given, or that of the operator's own agent. *)
Definition did_or_own (given : option string) : io W (option string) :=
  if truthy given then io_ret given
  else do! mine <- agents_of_operator in io_ret (option_map (fun a => bytesToHex (ag_did a)) (own_agent mine)).

Definition listed_task (t : TaskSummary) : json :=
  J_obj [("task_address", key_json (ts_address t)); ("task_id_hex", j_hex (ts_taskId t)); ("client", key_json (ts_client t));
         ("payment_mint", key_json (ts_paymentMint t)); ("payment_amount", J_str (z_text (ts_paymentAmount t)));
         ("status", J_str (ts_status t)); ("verified", J_bool (ts_verified t)); ("deadline", j_int (ts_deadline t));
         ("created_at", j_int (ts_createdAt t))]%string.

Definition handleListTasks (input : ListTasksInput) : io W reply :=
  do! did <- did_or_own (lt_agent_did_hex input) in
  match did with
  | None => io_ret [hdr; ("tasks", J_arr []); ("error", J_str "no_agent_for_operator")]%string
  | Some d =>
    do! tasks <- fetchTasksByAgent (node ops) (PublicKey_of_bytes L) taskMarketProgram d in
    io_ret [hdr; ("agent_did_hex", J_str d); ("tasks", J_arr (map listed_task (slice_to (lt_limit input) tasks)))]%string
  end.

Definition dims_json (r : ReputationDims) : json :=
  J_obj [("quality", j_int (quality r)); ("timeliness", j_int (timeliness r)); ("availability", j_int (availability r));
         ("costEfficiency", j_int (costEfficiency r)); ("honesty", j_int (honesty r)); ("volume", j_int (volume r));
         ("sampleCount", j_int (sampleCount r)); ("lastUpdate", j_int (lastUpdate r))]%string.

Definition reputation_reply (did : string) (bit : option Z) (detail : AgentDetail) : reply :=
  [hdr; ("agent_did_hex", J_str did); ("agent_address", key_json (ag_address (ad_summary detail)));
   ("operator", key_json (ag_operator (ad_summary detail))); ("jobs_completed", J_str (z_text (ag_jobsCompleted (ad_summary detail))));
   ("jobs_disputed", j_int (ad_jobsDisputed detail)); ("reputation", dims_json (ad_reputation detail));
   ("capability_bit_filter", match bit with Some b => j_int b | None => J_null end); ("category_scoped", J_bool false)]%string.

Definition handleGetReputation (input : GetReputationInput) : io W reply :=
  do! did <- did_or_own (gr_agent_did_hex input) in
  match did with
  | None => io_ret [hdr; ("error", J_str "no_agent_for_operator")]%string
  | Some d =>
    do! detail <- agent_by_did d in
    match detail with
    | None => io_ret [hdr; ("error", J_str "agent_not_found"); ("agent_did_hex", J_str d)]%string
    | Some a => io_ret (reputation_reply d (gr_capability_bit input) a)
    end
  end.

(** ** get-task.ts *)

(** The part of a task that both listings and the detail show. *)
Definition task_fields (address : pubkey) (raw : value) : result reply :=
  let! status := get_enum raw "status" in
  let! taskId := get_bytes raw "taskId" in
  let! client := get_key raw "client" in
  let! did := get_bytes raw "agentDid" in
  let! mint := get_key raw "paymentMint" in
  let! amount := get_bigint raw "paymentAmount" in
  let! deadline := get_time raw "deadline" in
  let! isVerified := get_bool raw "verified" in
  let! created := get_time raw "createdAt" in
  Ok [("task_address", key_json address); ("task_id_hex", j_hex taskId); ("client", key_json client); ("agent_did_hex", j_hex did);
      ("payment_mint", key_json mint); ("payment_amount", J_str (z_text amount)); ("status", J_str status);
      ("deadline", j_int deadline); ("verified", J_bool isVerified); ("created_at", j_int created)]%string.

Definition detail_fields (raw : value) : result reply :=
  let! taskHash := get_bytes raw "taskHash" in
  let! resultHash := get_bytes raw "resultHash" in
  let! proofKey := get_bytes raw "proofKey" in
  let! root := get_bytes raw "criteriaRoot" in
  let! protocolFee := get_bigint raw "protocolFee" in
  let! solrepFee := get_bigint raw "solrepFee" in
  let! count := get_num raw "milestoneCount" in
  let! complete := get_num raw "milestonesComplete" in
  Ok [("task_hash_hex", j_hex taskHash); ("result_hash_hex", j_hex resultHash); ("proof_key_hex", j_hex proofKey);
      ("criteria_root_hex", j_hex root); ("protocol_fee", J_str (z_text protocolFee)); ("solrep_fee", J_str (z_text solrepFee));
      ("milestone_count", j_int count); ("milestones_complete", j_int complete)]%string.

Definition handleGetTask (task_address : string) : io W reply :=
  do! pk <- io_lift (PublicKey L task_address) in
  do! found <- fetchNullable (node ops) taskMarketProgram "taskContract" pk in
  match found with
  | None => io_ret [hdr; ("error", J_str "task_not_found")]%string
  | Some raw =>
    do! a <- io_lift (task_fields pk raw) in
    do! b <- io_lift (detail_fields raw) in
    io_ret (hdr :: a ++ b)
  end.

(** ** discover-tasks.ts *)

Definition USER_STATUS_MAP (s : UserStatus) : list string :=
  match s with
  | open => ["created"; "funded"]
  | bidding => []
  | awarded => ["inExecution"; "proofSubmitted"]
  | settled => ["verified"; "released"]
  | disputed => ["disputed"]
  end%string.

(** [Math.round(usdc * 1_000_000)] *)
Definition micro (usdc : Q) : Z := js_round (usdc * 1000000).

Record search_params := {
  sp_capability : option Z; sp_statuses : option (list string); sp_minReward : option Z; sp_limit : Z;
}.

(** A task of the listing and the fields of it the listing looks at. *)
Record listing := { li_id : string; li_status : string; li_amount : Z; li_fields : reply }.

Definition to_listing (address : pubkey) (raw : value) : result listing :=
  let! fields := task_fields address raw in
  let! status := get_enum raw "status" in
  let! taskId := get_bytes raw "taskId" in
  let! amount := get_bigint raw "paymentAmount" in
  Ok {| li_id := bytesToHex taskId; li_status := status; li_amount := amount; li_fields := fields |}.

Definition admitted_by (allowed : option (list string)) (minPay : option Z) (t : listing) : bool :=
  match allowed with Some l => existsb (String.eqb (li_status t)) l | None => true end &&
  match minPay with Some m => m <=? li_amount t | None => true end.

(** [new Map(hits.map((t, i) => [t.task_id_hex, i]))] *)
Definition ranks_of (hits : list string) : list (string * Z) :=
  fold_left (fun m th => map_set th.2 th.1 m) (zip (map Z.of_nat (seq 0 (length hits))) hits) [].

(** The hits of the search among the tasks, in the order of the hits. *)
Definition by_rank (hits : list string) (tasks : list listing) : list listing :=
  let ranks := ranks_of hits in
  let rank t := default 0 (map_get (li_id t) ranks) in
  js_sort (fun a b => Z.compare (rank a) (rank b)) (List.filter (fun t => map_has (li_id t) ranks) tasks).

Definition listing_reply (limit : Z) (tasks : list listing) : reply :=
  [hdr; ("tasks", J_arr (map (fun t => J_obj (li_fields t)) (slice_to limit tasks))); ("total_matched", j_int (Z.of_nat (length tasks)))]%string.

(** The tasks of the chain that pass the filters, ranked by the hits if there was a search. *)
Definition listed (allowed : option (list string)) (minPay : option Z) (hits : option (list string)) (tasks : list listing) : list listing :=
  let filtered := List.filter (admitted_by allowed minPay) tasks in
  match hits with
  | Some h => by_rank h filtered
  | None => filtered
  end.

(** [search] is the discovery backend, if there is one: the task identifiers it finds, best first. *)
Definition handleDiscoverTasks (input : DiscoverTasksInput) (search : option (search_params -> io W (list string))) : io W reply :=
  let allowed := option_map USER_STATUS_MAP (dt_status input) in
  let minPay := option_map micro (dt_min_payment_usdc input) in
  match search, dt_capability_bit input with
  | None, Some _ => io_ret [hdr; ("tasks", J_arr []); ("error", J_str "DISCOVERY_REQUIRED");
                            ("reason", J_str "capability_bit search routes through the discovery service")]%string
  | _, _ =>
    do! hits <- match search with
                | Some f => do! h <- f {| sp_capability := dt_capability_bit input;
                                          sp_statuses := match allowed with Some ((_ :: _) as l) => Some l | _ => None end;
                                          sp_minReward := minPay; sp_limit := dt_limit input |} in io_ret (Some h)
                | None => io_ret None
                end in
    match hits with
    | Some [] => io_ret [hdr; ("tasks", J_arr []); ("total_matched", j_int 0)]%string
    | _ =>
      do! accounts <- all (node ops) taskMarketProgram "taskContract" [] in
      do! tasks <- io_lift (map_accounts to_listing accounts) in
      io_ret (listing_reply (dt_limit input) (listed allowed minPay hits tasks))
    end
  end.
End handlers.
