(* ===== verification/HandlersSafety.v ===== *)
(** * HandlersSafety: what the agent handlers sign, and that bids can be revealed

    Theorems on AgentTools and Handlers: the limit on transactions signed without
    asking holds over any sequence of handler calls; a bid's reply holds what reveals
    it; a listing ranks what the search found.  The outside world is seen through
    the clock and the transactions sent ([agent_laws]); at the end the theorems are
    applied to a concrete one. *)

From Stdlib Require Import ZArith QArith Lia Lqa Sorted Permutation.
From stdpp Require Import base list strings.
From S2P Require Import Prelude Bytes Effects JsMap Json Hex Zod Numbers Pda Idl Ix Decoded Accounts AccountsSafety AgentTools Handlers.

#[local] Open Scope Z_scope.
#[local] Open Scope saep_scope.

(** ** Sealed bids in the task market

    The part of src/programs/task_market the bidding handlers drive: what commit_bid
    stores of a bid (instructions/commit_bid.rs) and how reveal_bid
    (instructions/reveal_bid.rs, state.rs) judges it.  Accounts, signatures and the
    transfer of the bond are left out; Keccak-256 is a parameter. *)

Inductive BidPhase := CommitPhase | RevealPhase | SettledPhase | CancelledPhase.

#[global] Instance BidPhase_eq_dec : EqDecision BidPhase.
Proof. solve_decision. Defined.

Record BidBook := { phase : BidPhase; commit_end : Z; reveal_end : Z; reveal_count : Z }.

Record Bid := { bid_agent_did : list Z; bid_commit_hash : list Z; revealed_amount : Z; revealed : bool; slashed : bool }.

Section bids.
Variable keccak_256 : list Z -> list Z.

(** [amount.to_le_bytes()] *)
Definition u64_le (amount : Z) : list Z := rev (fill_bytes 8 amount []).

Definition reveal_commit_hash (amount : Z) (nonce agent_did : list Z) : list Z :=
  keccak_256 (u64_le amount ++ nonce ++ agent_did).

(** What commit_bid writes into the new account. *)
Definition committed (commit_hash agent_did : list Z) : Bid :=
  {| bid_agent_did := agent_did; bid_commit_hash := commit_hash; revealed_amount := 0; revealed := false; slashed := false |}.

(** A mismatch is recorded, not refused: the slash has to persist. *)
Definition reveal_bid (now payment_amount : Z) (book : BidBook) (bid : Bid) (amount : Z) (nonce : list Z) : result (BidBook * Bid) :=
  if negb (bool_decide (phase book = CommitPhase) || bool_decide (phase book = RevealPhase)) then Throw "PhaseClosed"
  else if negb ((commit_end book <=? now) && (now <? reveal_end book)) then Throw "PhaseClosed"
  else
    let book := {| phase := RevealPhase; commit_end := commit_end book; reveal_end := reveal_end book;
                   reveal_count := reveal_count book |} in
    if revealed bid then Throw "WrongStatus"
    else if slashed bid then Throw "WrongStatus"
    else if negb (bool_decide (reveal_commit_hash amount nonce (bid_agent_did bid) = bid_commit_hash bid)) then
      Ok (book, {| bid_agent_did := bid_agent_did bid; bid_commit_hash := bid_commit_hash bid; revealed_amount := revealed_amount bid;
                   revealed := false; slashed := true |})
    else if negb ((0 <? amount) && (amount <=? payment_amount)) then Throw "InvalidAmount"
    else if 2 ^ 16 - 1 <=? reveal_count book then Throw "ArithmeticOverflow"
    else Ok ({| phase := RevealPhase; commit_end := commit_end book; reveal_end := reveal_end book;
                reveal_count := reveal_count book + 1 |},
             {| bid_agent_did := bid_agent_did bid; bid_commit_hash := bid_commit_hash bid; revealed_amount := amount;
                revealed := true; slashed := false |}).
End bids.

Create HintDb quiet.

Section safety.
Context {W : Type}.
Variable L : agent_lib.
Variable ops : agent_ops W.
Variable ctx : HandlerContext.

(** The time the world has reached, and the transactions handed to the network, each
    with the time at which [sendAndConfirm] was called.  Reads and sends take time,
    the code between them none. *)
Variable clock : W -> Z.
Variable sent : W -> list (Z * Transaction).

(** An operation that reads: time passes, nothing is sent. *)
Definition quiet (w w' : W) : Prop := clock w <= clock w' /\ sent w' = sent w.

Record agent_laws : Prop := {
  law_now : forall w r w', Date_now ops w = Some (r, w') -> r = Ok (clock w') /\ clock w <= clock w' /\ sent w' = sent w;
  law_random : forall n w r w', getRandomValues ops n w = Some (r, w') ->
    quiet w w' /\ exists b, r = Ok b /\ length b = n /\ Forall is_byte b;
  law_send : forall tx w r w', sendAndConfirm ops tx w = Some (r, w') -> clock w <= clock w' /\ sent w' = sent w ++ [(clock w, tx)];
  law_all : forall p name ms, steps quiet (all (node ops) p name ms);
  law_one : forall p name k, steps quiet (fetchNullable (node ops) p name k);
  law_info : forall k, steps quiet (getAccountInfo (node ops) k);
}.

Hypothesis laws : agent_laws.

#[local] Instance quiet_refl : Reflexive quiet.
Proof. intros w. split; [lia|done]. Qed.

#[local] Instance quiet_trans : Transitive quiet.
Proof. intros a b c [H1 H2] [H3 H4]. split; [lia|congruence]. Qed.

(** ** The limit on signing *)

(** What a handler does to the world: nothing is sent, though old times may be
    forgotten; or one transaction is sent, after a time was recorded that the limit
    left room for. *)
Definition forgets (s s' : session W) : Prop :=
  clock s.2 <= clock s'.2 /\ sent s'.2 = sent s.2 /\
  (s'.1 = s.1 \/ exists n, clock s.2 <= n <= clock s'.2 /\ s'.1 = shift_old (n - 60000) s.1).

Definition signs (limit : Q) (n1 n2 : Z) (s s' : session W) : Prop :=
  clock s.2 <= n1 /\ n1 <= n2 /\ n2 <= clock s'.2 /\ (exists tx, sent s'.2 = sent s.2 ++ [(n2, tx)]) /\
  s'.1 = shift_old (n1 - 60000) s.1 ++ [n2] /\ (inject_Z (Z.of_nat (length (shift_old (n1 - 60000) s.1))) < limit)%Q.

Definition guarded (limit : Q) (s s' : session W) : Prop :=
  forgets s s' \/ exists n1 n2, signs limit n1 n2 s s'.

(** The session before anything is signed: the outside world has only been read. *)
Definition silent (s s' : session W) : Prop := s'.1 = s.1 /\ quiet s.2 s'.2.

#[local] Instance silent_refl : Reflexive silent.
Proof. intros s. split; reflexivity. Qed.

#[local] Instance silent_trans : Transitive silent.
Proof. intros a b c [H1 H2] [H3 H4]. split; [congruence|by transitivity b.2]. Qed.

Lemma outside_silent {A} (m : io W A) : steps quiet m -> steps silent (outside m).
Proof.
  intros Hm s r s'. unfold outside. destruct (m s.2) as [[r' w']|] eqn:E; [|done].
  intros [= <- <-]. split; [done|]. by apply Hm in E.
Qed.

Lemma silent_then_guarded limit s s1 s' : silent s s1 -> guarded limit s1 s' -> guarded limit s s'.
Proof.
  destruct s as [ts w], s1 as [ts1 w1], s' as [ts' w']. intros [Ht [Hc Hs]] H. cbn in *. subst ts1.
  destruct H as [(H1 & H2 & H3)|(n1 & n2 & H1 & H2 & H3 & (tx & H4) & H5 & H6)].
  - left. cbn in *. split; [cbn; lia|]. cbn. split; [congruence|]. destruct H3 as [->|(n & Hn & ->)]; [by left|].
    right. exists n. split; [lia|done].
  - right. exists n1, n2. cbn in *. split; [cbn; lia|]. cbn. split; [lia|]. split; [lia|]. split; [exists tx; congruence|done].
Qed.

Lemma guarded_then_silent limit s s1 s' : guarded limit s s1 -> silent s1 s' -> guarded limit s s'.
Proof.
  destruct s as [ts w], s1 as [ts1 w1], s' as [ts' w']. intros H [Ht [Hc Hs]]. cbn in *. subst ts'.
  destruct H as [(H1 & H2 & H3)|(n1 & n2 & H1 & H2 & H3 & (tx & H4) & H5 & H6)].
  - left. cbn in *. split; [cbn; lia|]. cbn. split; [congruence|]. destruct H3 as [->|(n & Hn & ->)]; [by left|].
    right. exists n. split; [lia|done].
  - right. exists n1, n2. cbn in *. split; [cbn; lia|]. cbn. split; [lia|]. split; [lia|]. split; [exists tx; congruence|done].
Qed.

Lemma silent_guarded limit s s' : silent s s' -> guarded limit s s'.
Proof. intros [H1 [H2 H3]]. left. split; [done|]. split; [done|by left]. Qed.

Definition limit_of (opts : option GuardrailOpts) : Q := default DEFAULT_VELOCITY_LIMIT (o ← opts; velocityLimit o).

Lemma guarded_send_steps opts program ix : steps (guarded (limit_of opts)) (guarded_send L ops opts program ix).
Proof.
  intros [ts w] r [ts' w'] H. unfold guarded_send, enforceGuardrails in H. fold (limit_of opts) in H.
  unfold checkVelocity, recordAutoSign, outside, io_check, io_ret, io_bind in H. cbn in H.
  destruct (Date_now ops w) as [[r1 w1]|] eqn:E1; [|done]. destruct (law_now laws _ _ _ E1) as (-> & Hn1 & Hs1). cbn in H.
  set (n1 := clock w1) in *.
  set (kept := shift_old (n1 - 60000) ts) in *.
  destruct (q_ltb (inject_Z (Z.of_nat (length kept))) (limit_of opts)) eqn:El; cbn in H.
  2:{ injection H as _ <- <-. left. split; [cbn; lia|]. split; [done|]. right. exists n1. split; [cbn; lia|done]. }
  destruct (Date_now ops w1) as [[r2 w2]|] eqn:E2; [|done]. destruct (law_now laws _ _ _ E2) as (-> & Hn2 & Hs2). cbn in H.
  destruct (sendAndConfirm ops _ w2) as [[r3 w3]|] eqn:E3; [|done]. destruct (law_send laws _ _ _ _ E3) as [Hc Hs3].
  injection H as _ <- <-. right. exists n1, (clock w2). unfold signs. cbn.
  split; [lia|]. split; [lia|]. split; [lia|]. split; [eexists; rewrite Hs3, Hs2, Hs1; done|]. split; [done|]. by apply q_ltb_lt.
Qed.

Lemma steps_silent_bind {A B} l (m : io (session W) A) (k : A -> io (session W) B) :
  steps silent m -> (forall a, steps (guarded l) (k a)) -> steps (guarded l) (io_bind m k).
Proof.
  intros Hm Hk s r s' [(a & s1 & H1 & H2)|(e & H1 & ->)]%io_bind_run.
  - eapply silent_then_guarded; [by eapply Hm|by eapply Hk].
  - by apply silent_guarded, (Hm _ _ _ H1).
Qed.

Lemma steps_guarded_bind {A B} l (m : io (session W) A) (k : A -> io (session W) B) :
  steps (guarded l) m -> (forall a, steps silent (k a)) -> steps (guarded l) (io_bind m k).
Proof.
  intros Hm Hk s r s' [(a & s1 & H1 & H2)|(e & H1 & ->)]%io_bind_run; [|by eapply Hm].
  eapply guarded_then_silent; [by eapply Hm|by eapply Hk].
Qed.

Lemma steps_silent_guarded {A} l (m : io (session W) A) : steps silent m -> steps (guarded l) m.
Proof. intros H s r s' E. apply silent_guarded. by eapply H. Qed.

(** ** Reads *)

Lemma random_quiet n : steps quiet (getRandomValues ops n).
Proof. intros w r w' H. by apply (law_random laws) in H as [H _]. Qed.

Lemma bind_quiet {A B} (m : io W A) (k : A -> io W B) : steps quiet m -> (forall a, steps quiet (k a)) -> steps quiet (io_bind m k).
Proof. apply steps_bind, _. Qed.

Lemma ret_quiet {A} (a : A) : steps quiet (io_ret a).
Proof. apply steps_ret, _. Qed.

Lemma lift_quiet {A} (r : result A) : steps quiet (io_lift r).
Proof. apply steps_lift, _. Qed.

Lemma throw_quiet {A} e : steps quiet (@io_throw W A e).
Proof. apply steps_throw, _. Qed.

Lemma session_ret {A} (a : A) : steps silent (io_ret a).
Proof. apply steps_ret, _. Qed.

Lemma session_lift {A} (r : result A) : steps silent (io_lift r).
Proof. apply steps_lift, _. Qed.

#[local] Hint Resolve random_quiet ret_quiet lift_quiet throw_quiet session_ret session_lift law_all law_one law_info : quiet.

(** Split a computation made of reads. *)
Ltac quiet_all :=
  repeat first
  [ progress intros
  | apply bind_quiet
  | solve [eauto with quiet]
  | match goal with |- context [match ?x with _ => _ end] => destruct x end
  | match goal with |- context [if ?b then _ else _] => destruct b end ].

Lemma agent_by_did_quiet hex : steps quiet (agent_by_did L ops ctx hex).
Proof. unfold agent_by_did, fetchAgentByDid, fetch_first. quiet_all. Qed.

Lemma agents_of_operator_quiet : steps quiet (agents_of_operator L ops ctx).
Proof. unfold agents_of_operator, fetchAgentsByOperator, fetch_all. quiet_all. Qed.

Lemma fetch_account_quiet p name k : steps quiet (fetch_account L ops p name k).
Proof. unfold fetch_account. quiet_all. Qed.

Lemma market_global_quiet p : steps quiet (fetchMarketGlobal (node ops) (findProgramAddressSync L) (PublicKey_default L) p).
Proof. unfold fetchMarketGlobal, fetch_one. quiet_all. Qed.

Lemma token_program_quiet label mint : steps quiet (resolveTokenProgram L ops label mint).
Proof. unfold resolveTokenProgram. quiet_all. Qed.

Lemma register_id_quiet seed : steps quiet (register_agent_id ops seed).
Proof. unfold register_agent_id. quiet_all. Qed.

#[local] Hint Resolve agent_by_did_quiet agents_of_operator_quiet fetch_account_quiet market_global_quiet token_program_quiet
  register_id_quiet : quiet.

Lemma operator_at_quiet k : steps quiet (operator_at ops ctx k).
Proof. unfold operator_at. quiet_all. Qed.

#[local] Hint Resolve operator_at_quiet : quiet.

Lemma resolve_agent_quiet task explicit : steps quiet (resolveAgentAccount L ops ctx task explicit).
Proof. unfold resolveAgentAccount. cbv zeta. quiet_all. Qed.

#[local] Hint Resolve resolve_agent_quiet outside_silent : quiet.

(** Split a handler: reads, at most one guarded send, reads. *)
Ltac guarded_all :=
  repeat first
  [ progress intros
  | solve [apply steps_silent_guarded; eauto with quiet]
  | apply steps_guarded_bind; [apply guarded_send_steps|]
  | apply steps_silent_bind; [solve [eauto with quiet]|]
  | apply steps_bind; [apply _|solve [eauto with quiet]|]
  | solve [eauto with quiet]
  | match goal with |- context [match ?x with _ => _ end] => destruct x end
  | match goal with |- context [if ?b then _ else _] => destruct b end ].

Lemma bid_guarded input opts : steps (guarded (limit_of opts)) (handleBid L ops ctx input opts).
Proof. unfold handleBid. guarded_all. Qed.

Lemma reveal_guarded input opts : steps (guarded (limit_of opts)) (handleRevealBid L ops ctx input opts).
Proof. unfold handleRevealBid. guarded_all. Qed.

Lemma submit_guarded input opts : steps (guarded (limit_of opts)) (handleSubmitResult L ops ctx input opts).
Proof. unfold handleSubmitResult. guarded_all. Qed.

Lemma claim_guarded input opts : steps (guarded (limit_of opts)) (handleClaimPayout L ops ctx input opts).
Proof. unfold handleClaimPayout. guarded_all. Qed.

Lemma withdraw_guarded input opts : steps (guarded (limit_of opts)) (handleWithdrawEarnings L ops ctx input opts).
Proof. unfold handleWithdrawEarnings. guarded_all. Qed.

Lemma register_guarded input opts : steps (guarded (limit_of opts)) (handleRegisterAgent L ops ctx input opts).
Proof. unfold handleRegisterAgent. guarded_all. Qed.

(** ** Any number of calls *)

Inductive agent_call :=
| C_bid (i : BidInput) | C_reveal (i : RevealBidInput) | C_submit (i : SubmitResultInput) | C_claim (i : ClaimPayoutInput)
| C_withdraw (i : WithdrawEarningsInput) | C_register (i : RegisterAgentInput).

Definition perform (opts : option GuardrailOpts) (c : agent_call) : io (session W) reply :=
  match c with
  | C_bid i => handleBid L ops ctx i opts
  | C_reveal i => handleRevealBid L ops ctx i opts
  | C_submit i => handleSubmitResult L ops ctx i opts
  | C_claim i => handleClaimPayout L ops ctx i opts
  | C_withdraw i => handleWithdrawEarnings L ops ctx i opts
  | C_register i => handleRegisterAgent L ops ctx i opts
  end.

Lemma perform_guarded opts c : steps (guarded (limit_of opts)) (perform opts c).
Proof. destruct c; [apply bid_guarded|apply reveal_guarded|apply submit_guarded|apply claim_guarded|apply withdraw_guarded|apply register_guarded]. Qed.

(** Calls one after another, with other things happening in between. *)
Inductive agent_run (opts : option GuardrailOpts) (s0 : session W) : session W -> Prop :=
| run_start : agent_run opts s0 s0
| run_call s c r s' : agent_run opts s0 s -> perform opts c s = Some (r, s') -> agent_run opts s0 s'
| run_wait s w' : agent_run opts s0 s -> quiet s.2 w' -> agent_run opts s0 (s.1, w').

(** How many of the times lie within the minute from [t]. *)
Definition within_minute (t : Z) (times : list Z) : nat := length (List.filter (fun x => (t <=? x) && (x <=? t + 60000)) times).

Lemma within_app t a b : within_minute t (a ++ b) = (within_minute t a + within_minute t b)%nat.
Proof. unfold within_minute. by rewrite List.filter_app, length_app. Qed.

Lemma within_none t l : (forall x, x ∈ l -> x < t) -> within_minute t l = 0%nat.
Proof.
  unfold within_minute. induction l as [|x l IH]; intros H; simpl; [done|].
  pose proof (H x (list_elem_of_here _ _)). destruct (Z.leb_spec t x); [lia|]. apply IH. intros y Hy. apply H. by right.
Qed.

Lemma within_le t l : (within_minute t l <= length l)%nat.
Proof. apply List.filter_length_le. Qed.

Lemma shift_old_dropped ws ts : exists dropped, ts = dropped ++ shift_old ws ts /\ forall x, x ∈ dropped -> x < ws.
Proof.
  induction ts as [|x ts IH]; simpl; [exists []; split; [done|]; intros x Hx; by apply elem_of_nil in Hx|].
  destruct (Z.ltb_spec x ws).
  - destruct IH as (d & E & Hd). exists (x :: d). split; [simpl; by f_equal|]. intros y [->|Hy]%elem_of_cons; auto.
  - exists []. split; [done|]. intros y Hy. by apply elem_of_nil in Hy.
Qed.

(** What a run has sent, against the times it remembers: those still remembered are
    the times of the last transactions, the others are a minute old. *)
Record signed_times (limit : Q) (w0 : W) (s : session W) (txs : list (Z * Transaction)) : Prop := {
  times_old : exists old, map fst txs = old ++ s.1 /\ forall x, x ∈ old -> x < clock s.2 - 60000;
  times_clock : forall x, x ∈ map fst txs -> x <= clock s.2;
  times_sent : sent s.2 = sent w0 ++ txs;
  times_rate : forall t, (inject_Z (Z.of_nat (within_minute t (map fst txs))) < limit + 1)%Q;
}.

Lemma forgets_times limit w0 s s' txs : signed_times limit w0 s txs -> forgets s s' -> signed_times limit w0 s' txs.
Proof.
  intros [(old & E & Hold) Hclock Hs Hrate] (Hc & Hsent & H). split; [|intros x Hx; specialize (Hclock x Hx); lia|congruence|done].
  destruct H as [->|(n & Hn & ->)]; [exists old; split; [done|]; intros x Hx; specialize (Hold x Hx); lia|].
  destruct (shift_old_dropped (n - 60000) s.1) as (d & Ed & Hd). exists (old ++ d).
  rewrite <- app_assoc, <- Ed. split; [done|]. intros x [Hx|Hx]%elem_of_app; [specialize (Hold x Hx)|specialize (Hd x Hx)]; lia.
Qed.

Lemma signs_times limit w0 s s' n1 n2 txs : signed_times limit w0 s txs -> signs limit n1 n2 s s' ->
  exists tx, signed_times limit w0 s' (txs ++ [(n2, tx)]).
Proof.
  intros [(old & E & Hold) Hclock Hs Hrate] (H1 & H2 & H3 & (tx & Hsent) & E' & Hlen). exists tx.
  destruct (shift_old_dropped (n1 - 60000) s.1) as (d & Ed & Hd). set (kept := shift_old (n1 - 60000) s.1) in *. split.
  - exists (old ++ d). rewrite map_app, E', E, Ed at 1. split; [by rewrite !app_assoc|].
    intros x [Hx|Hx]%elem_of_app; [specialize (Hold x Hx)|specialize (Hd x Hx)]; lia.
  - rewrite map_app. intros x [Hx|Hx]%elem_of_app; [specialize (Hclock x Hx)|apply list_elem_of_singleton in Hx; cbn in Hx]; lia.
  - by rewrite Hsent, Hs, app_assoc.
  - intros t. rewrite map_app, within_app. cbn [map fst]. destruct (decide (t <= n2 <= t + 60000)) as [Ht|Ht].
    + assert (Hk : within_minute t (map fst txs) = within_minute t kept).
      { rewrite E, Ed, !within_app.
        assert (Ho : within_minute t old = 0%nat) by (apply within_none; intros x Hx; specialize (Hold x Hx); lia).
        assert (Hdr : within_minute t d = 0%nat) by (apply within_none; intros x Hx; specialize (Hd x Hx); lia).
        by rewrite Ho, Hdr. }
      rewrite Hk. pose proof (within_le t kept). pose proof (within_le t [n2]) as Hone. cbn [length] in Hone.
      assert ((inject_Z (Z.of_nat (within_minute t kept + within_minute t [n2])) <= inject_Z (Z.of_nat (length kept) + 1))%Q)
        as Hle by (rewrite <- Zle_Qle; lia). rewrite inject_Z_plus in Hle. change (inject_Z 1) with 1%Q in Hle. lra.
    + replace (within_minute t [n2]) with 0%nat; [rewrite Nat.add_0_r; apply Hrate|].
      unfold within_minute. simpl. destruct (Z.leb_spec t n2), (Z.leb_spec n2 (t + 60000)); simpl; lia.
Qed.

(** Any sequence of such steps. *)
Inductive guarded_run (limit : Q) (s0 : session W) : session W -> Prop :=
| guarded_start : guarded_run limit s0 s0
| guarded_step s s' : guarded_run limit s0 s -> guarded limit s s' -> guarded_run limit s0 s'.

Lemma run_times limit w0 s : (0 <= limit)%Q -> guarded_run limit ([], w0) s -> exists txs, signed_times limit w0 s txs.
Proof.
  intros H0 H. induction H as [|s s' _ (txs & IH) [Hf|(n1 & n2 & Hf)]].
  - exists []. split; cbn [fst snd map]; [| |by rewrite app_nil_r|].
    + exists []. split; [done|]. intros x Hx. by apply elem_of_nil in Hx.
    + intros x Hx. by apply elem_of_nil in Hx.
    + intros t. change (inject_Z (Z.of_nat (within_minute t []))) with 0%Q. lra.
  - exists txs. by apply (forgets_times _ _ s).
  - destruct (signs_times _ _ s s' n1 n2 txs IH Hf) as [tx Htx]. by eexists.
Qed.

(** The transactions a run has sent, of which no minute saw more than the limit: the
    times are those at which they were handed over. *)
Definition sent_within (limit : Q) (w0 : W) (s : session W) : Prop :=
  exists txs, sent s.2 = sent w0 ++ txs /\
  forall t, (inject_Z (Z.of_nat (within_minute t (map fst txs))) < limit + 1)%Q.

Lemma guarded_rate limit w0 s : (0 <= limit)%Q -> guarded_run limit ([], w0) s -> sent_within limit w0 s.
Proof. intros H0 H. destruct (run_times limit w0 s H0 H) as (txs & [_ _ Hs Hr]). by exists txs. Qed.

(** Whatever the handlers are asked to do, in any number and order, of all the
    transactions they sign and send at most as many fall into one minute as the
    velocity limit allows. *)
Theorem auto_sign_rate opts w0 s : (0 <= limit_of opts)%Q -> agent_run opts ([], w0) s -> sent_within (limit_of opts) w0 s.
Proof.
  intros H0 H. apply guarded_rate; [done|]. induction H as [|s c r s' _ IH Hp|s w' _ IH Hq]; [apply guarded_start|..].
  - eapply guarded_step; [exact IH|]. by eapply perform_guarded.
  - eapply guarded_step; [exact IH|]. by apply silent_guarded.
Qed.

(** ** Bids *)

Lemma hexToBytes_bytes b : Forall is_byte b -> length b = 32%nat -> hexToBytes (bytesToHex b) = Ok b.
Proof.
  intros Hb Hl. unfold hexToBytes. rewrite strip_0x_bytes, bytesToHex_length, Hl by done. cbn [Nat.mul Nat.add Nat.eqb].
  apply hexPairs_bytes; [done|]. by intros ->.
Qed.

Lemma outside_sent {A} (m : io W A) s r s' : steps quiet m -> outside m s = Some (r, s') -> sent s'.2 = sent s.2.
Proof. intros Hm H. by apply (outside_silent m Hm) in H as [_ [_ H]]. Qed.

Lemma guarded_send_sent opts program ix s sig s' : guarded_send L ops opts program ix s = Some (Ok sig, s') ->
  exists time, sent s'.2 = sent s.2 ++ [(time, {| tx_program := program; tx_call := ix |})].
Proof.
  intros H. unfold guarded_send in H. apply io_bind_ok in H as ([] & s1 & Hg & H).
  assert (Hq : sent s1.2 = sent s.2).
  { unfold enforceGuardrails, checkVelocity, recordAutoSign in Hg. io_inv.
    repeat match goal with
    | E : outside (Date_now ops) ?a = Some (_, ?b) |- _ =>
      unfold outside in E; destruct (Date_now ops a.2) as [[? ?]|] eqn:?; [|done]; injection E as ? <-
    end.
    repeat match goal with E : Date_now ops _ = Some _ |- _ => apply (law_now laws) in E as (_ & _ & ?) end.
    simplify_eq/=. congruence. }
  unfold outside in H. destruct (sendAndConfirm ops _ s1.2) as [[r w]|] eqn:E; [|done]. injection H as -> <-.
  apply (law_send laws) in E as [_ E]. cbn. eexists. by rewrite E, Hq.
Qed.

(** Chain the logs of transactions through the steps of a handler. *)
Ltac same_sent :=
  repeat match goal with
  | E : outside (getRandomValues _ _) ?a = Some (_, ?b) |- _ => apply outside_sent in E; [|apply random_quiet]
  | E : outside _ ?a = Some (_, ?b) |- _ => apply outside_sent in E; [|solve [eauto with quiet]]
  end.

(** What handleBid does when its reply has a nonce. *)
Lemma bid_committed input opts s r s' nonce_hex : handleBid L ops ctx input opts s = Some (Ok r, s') ->
  member "nonce_hex" r = Some (J_str nonce_hex) ->
  exists nonce did commit time, nonce_hex = bytesToHex nonce /\ length nonce = 32%nat /\ Forall is_byte nonce /\
  sent s'.2 = sent s.2 ++ [(time, {| tx_program := ids ctx taskMarket; tx_call := commit |})] /\ ix_method commit = "commitBid"%string /\
  ix_args commit = [A_bytes (commitHash (keccak_256 L) (bi_amount_usdc_micro input) nonce did); A_bytes did].
Proof.
  intros H Hm. unfold handleBid in H.
  do 5 (apply io_bind_ok in H as (? & ? & ? & H)).
  match type of H with match ?a with _ => _ end _ = _ => destruct a as [agent|] end; [|io_inv; discriminate Hm].
  destruct (negb _); [io_inv; discriminate Hm|].
  apply io_bind_ok in H as (did & ? & ? & H). apply io_bind_ok in H as (nonce & sr & Hr & H).
  apply io_bind_ok in H as (? & ? & ? & H). apply io_bind_ok in H as (ix & ? & Hix & H).
  apply io_bind_ok in H as (sig & s2 & Hg & H). apply guarded_send_sent in Hg as [time Hg]. io_inv. injection Hm as <-.
  assert (Hn : length nonce = 32%nat /\ Forall is_byte nonce).
  { unfold outside in Hr. destruct (getRandomValues ops 32 _) as [[? ?]|] eqn:E; [|done]. injection Hr as -> _.
    apply (law_random laws) in E as (_ & b & [= ->] & Hb). exact Hb. }
  exists nonce, did, ix, time. destruct Hn. split; [done|]. split; [done|]. split; [done|].
  assert (Hargs : ix_method ix = "commitBid"%string /\
    ix_args ix = [A_bytes (commitHash (keccak_256 L) (bi_amount_usdc_micro input) nonce did); A_bytes did]).
  { match goal with E : buildCommitBidIx _ _ _ _ _ _ _ _ _ _ _ _ _ _ = Ok ix |- _ => unfold buildCommitBidIx in E;
      repeat (apply result_bind_ok in E as (? & _ & E)); by injection E as <- end. }
  split; [|exact Hargs]. same_sent. simplify_eq/=. congruence.
Qed.

Lemma reveal_sent input opts s r s' nonce : handleRevealBid L ops ctx input opts s = Some (Ok r, s') ->
  hexToBytes (rb_nonce_hex input) = Ok nonce ->
  exists reveal time, sent s'.2 = sent s.2 ++ [(time, {| tx_program := ids ctx taskMarket; tx_call := reveal |})] /\
  ix_method reveal = "revealBid"%string /\ ix_args reveal = [A_bn (rb_amount_usdc_micro input); A_bytes nonce].
Proof.
  intros H Hn. unfold handleRevealBid in H. rewrite Hn in H.
  do 5 (apply io_bind_ok in H as (? & ? & ? & H)). apply io_bind_ok in H as (sig & s2 & Hg & H).
  apply guarded_send_sent in Hg as [time Hg]. io_inv. simplify_eq.
  match goal with E : buildRevealBidIx _ _ _ _ _ _ _ = Ok ?ix |- _ => exists ix, time; unfold buildRevealBidIx in E;
    repeat (apply result_bind_ok in E as (? & _ & E)); injection E as <- end.
  split; [|done]. same_sent. simplify_eq/=. congruence.
Qed.

(** C16: the nonce a bid's reply carries opens the bid: the reveal made from the reply
    sends an amount and a nonce that the program accepts for the commitment the bid
    made, without slashing the bond, provided that the book is in its commit or
    reveal phase, the time is in the reveal window, fewer than 2^16 - 1 bids are
    revealed, and the amount is positive and at most the task's payment.  The last
    condition is the bidder's to keep: [overpriced_bid_unrevealable]. *)
Theorem bid_reveals input opts s r s' nonce_hex : handleBid L ops ctx input opts s = Some (Ok r, s') ->
  member "nonce_hex" r = Some (J_str nonce_hex) ->
  exists hash did commit time, sent s'.2 = sent s.2 ++ [(time, {| tx_program := ids ctx taskMarket; tx_call := commit |})] /\
  ix_method commit = "commitBid"%string /\ ix_args commit = [A_bytes hash; A_bytes did] /\
  forall opts' t r' t',
  handleRevealBid L ops ctx {| rb_task_address := bi_task_address input; rb_amount_usdc_micro := bi_amount_usdc_micro input;
                               rb_nonce_hex := nonce_hex |} opts' t = Some (Ok r', t') ->
  exists nonce reveal time', sent t'.2 = sent t.2 ++ [(time', {| tx_program := ids ctx taskMarket; tx_call := reveal |})] /\
  ix_method reveal = "revealBid"%string /\ ix_args reveal = [A_bn (bi_amount_usdc_micro input); A_bytes nonce] /\
  forall now payment book, (phase book = CommitPhase \/ phase book = RevealPhase) -> commit_end book <= now < reveal_end book ->
  reveal_count book < 2 ^ 16 - 1 -> 0 < bi_amount_usdc_micro input <= payment ->
  exists book' bid', reveal_bid (keccak_256 L) now payment book (committed hash did) (bi_amount_usdc_micro input) nonce = Ok (book', bid')
    /\ revealed bid' = true /\ slashed bid' = false /\ revealed_amount bid' = bi_amount_usdc_micro input.
Proof.
  intros H Hm. destruct (bid_committed _ _ _ _ _ _ H Hm) as (nonce & did & commit & time & -> & Hl & Hb & Hs & Hmeth & Hargs).
  exists (commitHash (keccak_256 L) (bi_amount_usdc_micro input) nonce did), did, commit, time.
  split; [exact Hs|]. split; [exact Hmeth|]. split; [exact Hargs|]. intros opts' t r' t' Hr.
  destruct (reveal_sent _ _ _ _ _ nonce Hr) as (reveal & time' & Hs' & Hm' & Ha'); [by apply hexToBytes_bytes|].
  exists nonce, reveal, time'. split; [exact Hs'|]. split; [exact Hm'|]. split; [exact Ha'|].
  intros now payment book Hphase Hwin Hcount Hamount. unfold reveal_bid. cbn [committed bid_agent_did bid_commit_hash revealed slashed].
  replace (bool_decide (phase book = CommitPhase) || bool_decide (phase book = RevealPhase)) with true
    by (symmetry; apply orb_true_iff; rewrite !bool_decide_eq_true; tauto). cbn [negb].
  destruct (Z.leb_spec (commit_end book) now), (Z.ltb_spec now (reveal_end book)); try lia. cbn [andb negb].
  rewrite bool_decide_eq_true_2 by done. cbn [negb].
  destruct (Z.ltb_spec 0 (bi_amount_usdc_micro input)), (Z.leb_spec (bi_amount_usdc_micro input) payment); try lia. cbn [andb negb reveal_count].
  destruct (Z.leb_spec (2 ^ 16 - 1) (reveal_count book)); [lia|]. eexists _, _. split; [reflexivity|]. done.
Qed.
(** [handleBid] never compares the amount with the task's payment: a bid above it is
    committed with its bond like any other, and no reveal of it, at any time and
    whatever nonce is sent, is ever accepted. *)
Theorem overpriced_bid_unrevealable keccak_256 now payment book hash did amount nonce : payment < amount ->
  match reveal_bid keccak_256 now payment book (committed hash did) amount nonce with
  | Ok (_, bid') => revealed bid' = false /\ slashed bid' = true
  | Throw _ => True
  end.
Proof.
  intros Hp. unfold reveal_bid. cbn [committed bid_agent_did bid_commit_hash revealed slashed].
  repeat case_match; simplify_eq; try done. lia.
Qed.
End safety.

(** ** Listings *)

Lemma ranks_fold (hs : list string) n m id :
  map_get id (fold_left (fun m th => map_set th.2 th.1 m) (zip (map Z.of_nat (seq n (length hs))) hs) m)
  = if decide (id ∈ hs) then map_get id (fold_left (fun m th => map_set th.2 th.1 m) (zip (map Z.of_nat (seq n (length hs))) hs) [])
    else map_get id m.
Proof.
  revert n m. induction hs as [|h hs IH]; intros n m; [done|]. cbn [length seq map zip zip_with fold_left fst snd].
  rewrite IH, (IH (S n) (map_set h (Z.of_nat n) [])). destruct (decide (id ∈ hs)) as [Hin|Hout].
  - rewrite decide_True by by right. done.
  - rewrite map_get_set. destruct (decide (id = h)) as [->|Hne].
    + rewrite decide_True by by left. cbn. by rewrite decide_True.
    + rewrite decide_False; [done|]. by intros [?|?]%elem_of_cons.
Qed.

Lemma ranks_at (hs : list string) n i id : NoDup hs -> hs !! i = Some id ->
  map_get id (fold_left (fun m th => map_set th.2 th.1 m) (zip (map Z.of_nat (seq n (length hs))) hs) []) = Some (Z.of_nat (n + i)).
Proof.
  revert n i. induction hs as [|h hs IH]; intros n i Hn Hi; [done|]. apply NoDup_cons in Hn as [Hh Hn].
  cbn [length seq map zip zip_with fold_left fst snd]. rewrite ranks_fold. destruct i as [|i]; cbn in Hi.
  - injection Hi as ->. rewrite decide_False by done. cbn. rewrite decide_True by done. do 2 f_equal. lia.
  - rewrite decide_True by (by eapply list_elem_of_lookup_2). rewrite (IH (S n) i) by done. do 2 f_equal. lia.
Qed.

Lemma ranks_in hits id : NoDup hits -> map_has id (ranks_of hits) = true <-> id ∈ hits.
Proof.
  intros Hn. unfold map_has, ranks_of. split.
  - intros H. rewrite ranks_fold in H. by case_decide.
  - intros (i & Hi)%list_elem_of_lookup_1. by rewrite (ranks_at hits 0 i).
Qed.

Lemma sorted_weaken {A} (R S : A -> A -> Prop) l : (forall x y, R x y -> S x y) -> StronglySorted R l -> StronglySorted S l.
Proof. intros H. induction 1 as [|x l Hs IH Hx]; constructor; [done|]. eapply Forall_impl; [exact Hx|]. auto. Qed.

Lemma sort_by_sorted {A} (rank : A -> Z) l :
  StronglySorted (fun a b => rank a <= rank b) (js_sort (fun a b => Z.compare (rank a) (rank b)) l).
Proof.
  apply js_sort_sorted; [| |intros a b c; lia]; intros a b; unfold cmp_le; destruct (Z.compare_spec (rank a) (rank b)); try done; lia.
Qed.

(** A search's hits decide which tasks a listing shows and in which order: those of
    the chain that pass the filters and are hits, all of them, in the order of the
    hits; the reply has the first of them, up to the limit, and counts them all. *)
Theorem discovery_ranked {W} (L : agent_lib) (ops : agent_ops W) (ctx : HandlerContext) input search hits w w1 r w' :
  search {| sp_capability := dt_capability_bit input;
            sp_statuses := match option_map USER_STATUS_MAP (dt_status input) with Some ((_ :: _) as l) => Some l | _ => None end;
            sp_minReward := option_map micro (dt_min_payment_usdc input); sp_limit := dt_limit input |} w = Some (Ok hits, w1) ->
  hits <> [] -> NoDup hits -> handleDiscoverTasks L ops ctx input (Some search) w = Some (Ok r, w') ->
  exists accounts tasks shown, all (node ops) (taskMarketProgram ctx) "taskContract" [] w1 = Some (Ok accounts, w') /\
  map_accounts (to_listing L) accounts = Ok tasks /\ r = listing_reply ctx (dt_limit input) shown /\
  (forall t, t ∈ shown <-> t ∈ tasks /\ li_id t ∈ hits /\
    admitted_by (option_map USER_STATUS_MAP (dt_status input)) (option_map micro (dt_min_payment_usdc input)) t = true) /\
  StronglySorted (fun a b => forall i j, hits !! i = Some (li_id a) -> hits !! j = Some (li_id b) -> (i <= j)%nat) shown.
Proof.
  intros Hsearch Hne Hnd H. unfold handleDiscoverTasks in H. cbv zeta in H. unfold io_bind at 1 2 in H. rewrite Hsearch in H.
  cbn [io_ret] in H. unfold io_ret at 1 in H. destruct hits as [|h0 hs]; [done|]. set (hits := h0 :: hs) in *.
  apply io_bind_ok in H as (accounts & w2 & Ha & H). apply io_bind_ok in H as (tasks & w3 & Ht & H).
  apply io_lift_ok in Ht as [Ht ->]. apply io_ret_ok in H as [<- <-].
  eexists accounts, tasks, _. split; [exact Ha|]. split; [exact Ht|]. split; [reflexivity|].
  unfold listed, by_rank. split.
  - intros t. rewrite js_sort_perm, list_elem_of_In, !filter_In, <- list_elem_of_In, ranks_in by done. tauto.
  - set (rank := fun t => default 0 (map_get (li_id t) (ranks_of hits))).
    apply (sorted_weaken (fun a b => rank a <= rank b)); [|exact (sort_by_sorted rank _)].
    intros a b Hab i j Hi Hj. unfold rank, ranks_of in Hab. rewrite (ranks_at hits 0 i), (ranks_at hits 0 j) in Hab by done.
    change (Z.of_nat (0 + i) <= Z.of_nat (0 + j)) in Hab. lia.
Qed.

(** ** A desk: the handlers on a concrete outside world *)

(** The time and the transactions sent. *)
Definition desk : Type := Z * list (Z * Transaction).

Definition an_agent : value :=
  V_struct [("operator", V_key 7); ("agentId", V_bytes (id32 4)); ("did", V_bytes (id32 2)); ("manifestUri", V_bytes (repeat 0 128));
            ("capabilityMask", V_bn 8); ("priceLamports", V_bn 1); ("streamRate", V_bn 1);
            ("reputation", V_struct [("quality", V_num 1); ("timeliness", V_num 1); ("availability", V_num 1); ("costEfficiency", V_num 1);
                                     ("honesty", V_num 1); ("volume", V_num 1); ("ewmaAlphaBps", V_num 1); ("sampleCount", V_num 1);
                                     ("lastUpdate", V_bn 1); ("reserved", V_bytes (repeat 0 24))]);
            ("jobsCompleted", V_bn 3); ("jobsDisputed", V_num 0); ("stakeAmount", V_bn 9); ("status", V_enum "active" []);
            ("version", V_num 1); ("registeredAt", V_bn 10); ("lastActive", V_bn 10); ("delegate", V_null); ("pendingSlash", V_null);
            ("pendingWithdrawal", V_null); ("bump", V_num 1); ("vaultBump", V_num 1)]%string.

Definition desk_node : node_ops desk := {|
  all := fun _ name _ w => Some (Ok (if String.eqb name "agentAccount" then [(50, an_agent)] else [(40, a_task 1000); (41, a_task 2000)]), w);
  fetchNullable := fun _ _ _ w => Some (Ok (Some (a_task 1000)), w);
  getAccountInfo := fun _ w => Some (Ok None, w);
  getMultipleAccountsInfo := fun _ w => Some (Ok [], w);
|}.

Definition desk_ops : agent_ops desk := {|
  node := desk_node;
  Date_now := fun w => Some (Ok (w.1 + 1000), (w.1 + 1000, w.2));
  getRandomValues := fun n w => Some (Ok (repeat 5 n), w);
  sendAndConfirm := fun tx w => Some (Ok "signature"%string, (w.1, w.2 ++ [(w.1, tx)]));
|}.

Definition desk_lib : agent_lib := {|
  PublicKey := fun _ => Ok 40;
  PublicKey_of_bytes := fun b => Ok (accumulate b);
  PublicKey_default := 0;
  findProgramAddressSync := fun _ _ => Ok (1, 255);
  toBase58 := fun _ => "key"%string;
  getAssociatedTokenAddressSync := fun _ _ _ => Ok 2;
  keccak_256 := fun l => l;
  decode_utf8 := fun _ => ""%string;
  base64_bytes := fun _ => [];
  number_text := fun _ => "0"%string;
|}.

Definition desk_ctx : HandlerContext :=
  {| hc_config := {| cluster := devnet; endpoint := ""; programIds := fun _ => 3 |}; hc_operator := 7 |}.

Lemma desk_laws : agent_laws desk_ops fst snd.
Proof.
  split.
  - intros w r w' [= <- <-]. cbn. split; [done|]. split; [lia|done].
  - intros n w r w' [= <- <-]. split; [split; [lia|done]|]. exists (repeat 5 n). split; [done|]. split; [apply repeat_length|].
    apply Forall_forall. intros x Hx%list_elem_of_In%repeat_spec. subst x. unfold is_byte. lia.
  - intros tx w r w' [= <- <-]. cbn. split; [lia|done].
  - intros p name ms w r w' [= <- <-]. split; [lia|done].
  - intros p name k w r w' [= <- <-]. split; [lia|done].
  - intros k w r w' [= <- <-]. split; [lia|done].
Qed.

Definition a_bid : BidInput :=
  {| bi_task_address := "task"; bi_amount_usdc_micro := 60; bi_agent_did_hex := bytesToHex (id32 2); bi_bidder_token_account := "account" |}.

Definition desk_start : session desk := ([], (0, [])).

Lemma bid_reveals_witness :
  match handleBid desk_lib desk_ops desk_ctx a_bid None desk_start with
  | Some (Ok r, s') => member "nonce_hex" r = Some (J_str (bytesToHex (id32 5))) /\
                       exists hash did commit time, s'.2.2 = [(time, {| tx_program := 3; tx_call := commit |})] /\ ix_args commit = [A_bytes hash; A_bytes did]
  | _ => False
  end.
Proof.
  destruct (handleBid desk_lib desk_ops desk_ctx a_bid None desk_start) as [[[r|e] s']|] eqn:E;
    [|revert E; vm_compute; discriminate|revert E; vm_compute; discriminate].
  assert (Hm : member "nonce_hex" r = Some (J_str (bytesToHex (id32 5)))).
  { revert E. vm_compute. intros [= <- _]. reflexivity. }
  split; [exact Hm|].
  destruct (bid_reveals desk_lib desk_ops desk_ctx fst snd desk_laws a_bid None desk_start r s' _ E Hm)
    as (hash & did & commit & time & Hs & _ & Hargs & _).
  exists hash, did, commit, time. split; [exact Hs|exact Hargs].
Defined.

Definition one_per_minute : option GuardrailOpts := Some {| maxAutoSignLamports := None; velocityLimit := Some (1 # 1) |}.

(** Two bids, the second of which throws after one transaction was sent. *)
Definition bids_twice : bool :=
  match perform desk_lib desk_ops desk_ctx one_per_minute (C_bid a_bid) desk_start with
  | Some (Ok _, s1) => match perform desk_lib desk_ops desk_ctx one_per_minute (C_bid a_bid) s1 with
                       | Some (Throw _, s2) => Nat.eqb (length s2.2.2) 1
                       | _ => false
                       end
  | _ => false
  end.

Lemma second_bid_refused : bids_twice = true.
Proof. vm_compute. reflexivity. Qed.

(** A second bid within the minute is refused. *)
Lemma auto_sign_rate_witness :
  match perform desk_lib desk_ops desk_ctx one_per_minute (C_bid a_bid) desk_start with
  | Some (Ok _, s1) =>
    match perform desk_lib desk_ops desk_ctx one_per_minute (C_bid a_bid) s1 with
    | Some (Throw _, s2) => length s2.2.2 = 1%nat /\ sent_within snd (limit_of one_per_minute) (0, []) s2
    | _ => False
    end
  | _ => False
  end.
Proof.
  pose proof second_bid_refused as H. unfold bids_twice in H.
  destruct (perform desk_lib desk_ops desk_ctx one_per_minute (C_bid a_bid) desk_start) as [[[r|e] s1]|] eqn:E1; try discriminate H.
  destruct (perform desk_lib desk_ops desk_ctx one_per_minute (C_bid a_bid) s1) as [[[r2|e2] s2]|] eqn:E2; try discriminate H.
  split; [by apply Nat.eqb_eq|].
  assert (Hlim : (0 <= limit_of one_per_minute)%Q) by (vm_compute; discriminate).
  assert (Hrun : agent_run desk_lib desk_ops desk_ctx fst snd one_per_minute ([], (0, [])) s2).
  { eapply run_call; [|exact E2]. eapply run_call; [|exact E1]. apply run_start. }
  exact (auto_sign_rate desk_lib desk_ops desk_ctx fst snd desk_laws one_per_minute (0, []) s2 Hlim Hrun).
Defined.

Definition a_search (_ : search_params) : io desk (list string) := fun w => Some (Ok [bytesToHex (id32 9); bytesToHex (id32 1)], w).
Definition an_input : DiscoverTasksInput :=
  {| dt_capability_bit := Some 3; dt_status := Some open; dt_min_payment_usdc := None; dt_limit := 1 |}.

Lemma discovery_ranked_witness :
  match handleDiscoverTasks desk_lib desk_ops desk_ctx an_input (Some a_search) (0, []) with
  | Some (Ok r, _) => exists shown, r = listing_reply desk_ctx 1 shown /\ member "total_matched" r = Some (J_num 2)
  | _ => False
  end.
Proof.
  destruct (handleDiscoverTasks desk_lib desk_ops desk_ctx an_input (Some a_search) (0, [])) as [[[r|e] w']|] eqn:E;
    [|revert E; vm_compute; discriminate|revert E; vm_compute; discriminate].
  assert (Hne : [bytesToHex (id32 9); bytesToHex (id32 1)] <> []) by discriminate.
  assert (Hnd : NoDup [bytesToHex (id32 9); bytesToHex (id32 1)]).
  { apply (bool_decide_eq_true_1 _). vm_compute. reflexivity. }
  destruct (discovery_ranked desk_lib desk_ops desk_ctx an_input a_search _ (0, []) (0, []) r w' eq_refl Hne Hnd E)
    as (accounts & tasks & shown & _ & _ & Hr & _).
  exists shown. split; [exact Hr|]. revert E. vm_compute. intros [= <- _]. reflexivity.
Defined.
