(* ===== verification/Mcp.v ===== *)
(** * Mcp: the bridge that offers an agent's actions as tools

    Models services/mcp-bridge/src: tools.ts (arguments, signing or serialising, the
    tools), the configuration of config.ts and the dispatch of server.ts.  What the
    bridge shares with the agent handlers is taken from AgentTools and Handlers; its
    tools differ in how they sign, in passing on the token program of a mint and in
    their replies.  The text of a reply is the JSON value it is the text of. *)

From Stdlib Require Import ZArith QArith Ascii String.
From stdpp Require Import base list strings.
From S2P Require Import Prelude Bytes Effects JsMap Json Hex Zod Numbers Pda Idl Ix Decoded Accounts AgentTools Handlers.

#[local] Open Scope Z_scope.
#[local] Open Scope saep_scope.

(** ** The arguments of the tools *)

Definition RegisterAgentArgs : (string -> bool) -> schema RegisterAgentInput := RegisterAgentSchema.
Definition ListTasksArgs : schema DiscoverTasksInput := DiscoverTasksSchema.
Definition GetTaskArgs : schema string := GetTaskSchema.

Definition GetReputationArgs : schema (string * option Z) := z_object (fun o =>
  did ← z_key "agent_did_hex" Hex32 o;
  bit ← z_optional "capability_bit" (z_int 0 127) o;
  Some (did, bit)).

Definition BidOnTaskArgs : schema BidInput := BidSchema.
Definition RevealBidArgs : schema RevealBidInput := RevealBidSchema.
Definition SubmitResultArgs : schema SubmitResultInput := SubmitResultSchema.
Definition ClaimPayoutArgs : schema ClaimPayoutInput := ClaimPayoutSchema.
Definition WithdrawEarningsArgs : schema WithdrawEarningsInput := WithdrawEarningsSchema.

(** [schema.parse(args)]; the text of a ZodError is not modelled. *)
Definition zod_error : string := "ZodError".
Definition parse {A} (s : schema A) (args : json) : result A := match s args with Some a => Ok a | None => Throw zod_error end.

(** ** The schemas as the bridge describes them to its client *)

(** The kinds of zod types, as [_def.typeName] tells them apart. *)
Inductive zod_type := ZodString | ZodNumber | ZodArray | ZodEnum | ZodOptional (t : zod_type) | ZodDefault (t : zod_type).

(** [inferType]: the names of optional and defaulted types name neither what they wrap nor a type
    of JSON. *)
Definition inferType (t : zod_type) : string :=
  match t with
  | ZodNumber => "number"
  | ZodArray => "array"
  | ZodString | ZodEnum | ZodOptional _ | ZodDefault _ => "string"
  end.

Definition isOptional (t : zod_type) : bool := match t with ZodOptional _ | ZodDefault _ => true | _ => false end.

Definition toJsonSchema (shape : list (string * zod_type)) : json :=
  J_obj [("type", J_str "object");
         ("properties", J_obj (map (fun kt => (kt.1, J_obj [("type", J_str (inferType kt.2))])) shape));
         ("required", J_arr (map (fun kt => J_str kt.1) (List.filter (fun kt => negb (isOptional kt.2)) shape)))]%string.

(** The shapes of the schemas above. *)
Definition RegisterAgentShape : list (string * zod_type) :=
  [("capability_bits", ZodArray); ("metadata_uri", ZodString); ("agent_id_seed", ZodOptional ZodString);
   ("stake_amount", ZodDefault ZodString); ("stake_mint", ZodString); ("operator_token_account", ZodString);
   ("price_lamports", ZodDefault ZodString); ("stream_rate", ZodDefault ZodString)]%string.
Definition ListTasksShape : list (string * zod_type) :=
  [("capability_bit", ZodOptional ZodNumber); ("status", ZodOptional ZodEnum); ("min_payment_usdc", ZodOptional ZodNumber);
   ("limit", ZodDefault ZodNumber)]%string.
Definition GetTaskShape : list (string * zod_type) := [("task_address", ZodString)]%string.
Definition GetReputationShape : list (string * zod_type) :=
  [("agent_did_hex", ZodString); ("capability_bit", ZodOptional ZodNumber)]%string.
Definition BidOnTaskShape : list (string * zod_type) :=
  [("task_address", ZodString); ("amount_usdc_micro", ZodNumber); ("agent_did_hex", ZodString); ("bidder_token_account", ZodString)]%string.
Definition RevealBidShape : list (string * zod_type) :=
  [("task_address", ZodString); ("amount_usdc_micro", ZodNumber); ("nonce_hex", ZodString)]%string.
Definition SubmitResultShape : list (string * zod_type) :=
  [("task_address", ZodString); ("result_hash", ZodString); ("proof_key", ZodString)]%string.
Definition ClaimPayoutShape : list (string * zod_type) :=
  [("task_address", ZodString); ("agent_account_address", ZodOptional ZodString); ("agent_token_account", ZodOptional ZodString)]%string.
Definition WithdrawEarningsShape : list (string * zod_type) :=
  [("stream_address", ZodString); ("route_data_base64", ZodOptional ZodString); ("jupiter_program", ZodOptional ZodString);
   ("payer_price_feed", ZodOptional ZodString); ("payout_price_feed", ZodOptional ZodString)]%string.

(** ** config.ts *)

Record Config := {
  cfg_cluster : SaepCluster;
  rpcUrl : string;
  discoveryUrl : option string;
  autoSign : bool;
  autoSignMaxLamports : Q;
  autoSignVelocityLimit : Q;
  allowedTools : option (list string);
  keypair : option pubkey;
  (** the provider's wallet: the key pair's, or a new one *)
  wallet : pubkey;
}.

Definition DEFAULT_RPC (c : SaepCluster) : string :=
  match c with
  | localnet => "http://127.0.0.1:8899"
  | devnet => "https://api.devnet.solana.com"
  | mainnet_beta => "https://api.mainnet-beta.solana.com"
  end.

Definition ClusterSchema : schema SaepCluster :=
  z_enum [("localnet", localnet); ("devnet", devnet); ("mainnet-beta", mainnet_beta)]%string.

(** [v.split(',').map((s) => s.trim()).filter(Boolean)], or null for an empty text. *)
Definition allowed_of (v : option string) : option (list string) :=
  if truthy v then Some (List.filter (fun s => negb (String.eqb s "")) (map trim (split_on ","%char (default ""%string v)))) else None.

(** [loadConfig(env)]: [load_key] reads the key pair's file, [fresh] is a generated key.  A variable
    that is set is a text. *)
Definition loadConfig (is_url : string -> bool) (load_key : string -> result pubkey) (fresh : pubkey) (env : list (string * string)) :
    result Config :=
  let o := map (fun kv => (kv.1, J_str kv.2)) env in
  let parsed :=
    c ← z_default "SAEP_CLUSTER" ClusterSchema devnet o;
    url ← z_optional "SAEP_RPC_URL" (z_string is_url) o;
    discovery ← z_optional "SAEP_DISCOVERY_URL" (z_string is_url) o;
    path ← z_optional "SAEP_OPERATOR_KEYPAIR" z_str o;
    auto ← z_default "SAEP_AUTO_SIGN" (z_enum [("true", true); ("false", false)]%string) false o;
    cap ← z_default "SAEP_AUTO_SIGN_MAX_LAMPORTS" UintString "1000000"%string o;
    velocity ← z_default "SAEP_AUTO_SIGN_VELOCITY_LIMIT" UintString "10"%string o;
    tools ← z_optional "SAEP_ALLOWED_TOOLS" z_str o;
    Some (c, url, discovery, path, auto, cap, velocity, tools) in
  match parsed with
  | None => Throw zod_error
  | Some (c, url, discovery, path, auto, cap, velocity, tools) =>
    let! keypair := if truthy path then let! k := load_key (default ""%string path) in Ok (Some k) else Ok None in
    let! _ := check (negb (bool_decide (keypair = None) && auto)) "SAEP_AUTO_SIGN=true requires SAEP_OPERATOR_KEYPAIR to be set" in
    Ok {| cfg_cluster := c; rpcUrl := default (DEFAULT_RPC c) url; discoveryUrl := discovery; autoSign := auto;
          autoSignMaxLamports := default 0%Q (js_Number cap); autoSignVelocityLimit := default 0%Q (js_Number velocity);
          allowedTools := allowed_of tools; keypair := keypair; wallet := default fresh keypair |}
  end.

(** ** The outside of the bridge *)

Record mcp_lib := {
  agent : agent_lib;
  clusterApiUrl : SaepCluster -> string;
  is_url : string -> bool;
  (** the transaction with fee payer and blockhash set, serialised unsigned, in base64 *)
  serialize_base64 : Transaction -> pubkey -> string -> result string;
  (** [new URL(path, base)] with search parameters set in order *)
  url_with : string -> string -> list (string * string) -> result string;
}.

Record mcp_ops (W : Type) := {
  base : agent_ops W;
  (** blockhash and last valid block height *)
  getLatestBlockhash : io W (string * Z);
  (** the status of the response and its body, if it is JSON *)
  http_get : string -> io W (Z * option json);
}.
Arguments base {W} _.
Arguments getLatestBlockhash {W} _.
Arguments http_get {W} _ _.

Section tools.
Context {W : Type}.
Variable M : mcp_lib.
Variable ops : mcp_ops W.
Variable cfg : Config.

Definition operator_key : pubkey := default (wallet cfg) (keypair cfg).

(** [resolveCluster({ cluster: cfg.cluster })] and the operator, as the handlers' context. *)
Definition bridge_ctx : result HandlerContext :=
  let! config := resolveCluster (PublicKey (agent M)) (clusterApiUrl M) (Some (cfg_cluster cfg)) None (fun _ => None) in
  Ok {| hc_config := config; hc_operator := operator_key |}.

Definition cluster_field : string * json := ("cluster"%string, J_str (cluster_text (cfg_cluster cfg))).

(** ** Signing *)

(** [serializeUnsigned] *)
Definition serializeUnsigned (tx : Transaction) (operator : pubkey) (bh : string * Z) : result reply :=
  let! text := serialize_base64 M tx operator bh.1 in
  Ok [("signed", J_bool false); ("unsigned_tx_base64", J_str text); ("last_valid_block_height", j_int bh.2)]%string.

Definition unsigned_reply (tx : Transaction) (operator : pubkey) (rejected : reply) : io (session W) reply :=
  do! bh <- outside (getLatestBlockhash ops) in
  do! r <- io_lift (serializeUnsigned tx operator bh) in
  io_ret (r ++ rejected).

Definition value_rejection (v : Q) : reply :=
  [("auto_sign_rejected", J_str ("value " +:+ number_text (agent M) v +:+ " lamports exceeds cap " +:+ number_text (agent M) (autoSignMaxLamports cfg)))]%string.

Definition velocity_rejection : reply :=
  [("auto_sign_rejected", J_str ("velocity limit exceeded (" +:+ number_text (agent M) (autoSignVelocityLimit cfg) +:+ " per 60s)"))]%string.

Definition over_cap (valueLamports : option Q) : option Q :=
  match valueLamports with
  | Some v => if q_ltb (autoSignMaxLamports cfg) v then Some v else None
  | None => None
  end.

(** The fields of the outcome, and whether it was signed. *)
Definition signOrSerialize (tx : Transaction) (operator : pubkey) (valueLamports : option Q) : io (session W) (bool * reply) :=
  if autoSign cfg && negb (bool_decide (keypair cfg = None)) then
    match over_cap valueLamports with
    | Some v => do! r <- unsigned_reply tx operator (value_rejection v) in io_ret (false, r)
    | None =>
      do! free <- checkVelocity (base ops) (autoSignVelocityLimit cfg) in
      if free then
        do! _ <- recordAutoSign (base ops) in
        do! signature <- outside (sendAndConfirm (base ops) tx) in
        io_ret (true, [("signed", J_bool true); ("signature", J_str signature)])%string
      else
        do! r <- unsigned_reply tx operator velocity_rejection in io_ret (false, r)
    end
  else do! r <- unsigned_reply tx operator [] in io_ret (false, r).

Definition sign_ix (program : pubkey) (ix : call) : io (session W) (bool * reply) :=
  signOrSerialize {| tx_program := program; tx_call := ix |} operator_key None.

(** [fetchNullable], or the error reply. *)
Definition found_or (p : Program) (name : string) (k : pubkey) (error : string) (found : value -> io (session W) reply) :
    io (session W) reply :=
  do! raw <- outside (fetchNullable (node (base ops)) p name k) in
  match raw with
  | Some v => found v
  | None => io_ret [cluster_field; ("error", J_str error)]%string
  end.

(** ** The tools *)

Definition register_agent (args : json) : io (session W) reply :=
  do! input <- io_lift (parse (RegisterAgentArgs (is_url M)) args) in
  do! ctx <- io_lift bridge_ctx in
  do! stakeMint <- io_lift (PublicKey (agent M) (ra_stake_mint input)) in
  do! agentId <- outside (register_agent_id (base ops) (ra_agent_id_seed input)) in
  do! tokenProgramId <- outside (resolveTokenProgram (agent M) (base ops) "payment mint" stakeMint) in
  do! price <- io_lift (js_BigInt (ra_price_lamports input)) in
  do! rate <- io_lift (js_BigInt (ra_stream_rate input)) in
  do! stake <- io_lift (js_BigInt (ra_stake_amount input)) in
  do! account <- io_lift (PublicKey (agent M) (ra_operator_token_account input)) in
  do! ix <- io_lift (buildRegisterAgentIx (PublicKey (agent M)) (findProgramAddressSync (agent M)) (ids ctx agentRegistry) operator_key agentId
               (ra_metadata_uri input) (capabilityMaskFrom (ra_capability_bits input)) price rate stake stakeMint account
               (ids ctx capabilityRegistry) None (Some tokenProgramId)) in
  do! outcome <- sign_ix (ids ctx agentRegistry) ix in
  do! created <- (if outcome.1 : bool
                  then do! registered <- outside (agents_of_operator (agent M) (base ops) ctx) in io_ret (created_agent agentId registered)
                  else io_ret None) in
  io_ret (cluster_field :: outcome.2 ++
          [("agent_address", match created with Some a => key_json (agent M) (ag_address a) | None => J_null end);
           ("agent_did_hex", match created with Some a => j_hex (ag_did a) | None => J_null end);
           ("agent_id_hex", j_hex agentId)])%string.

(** The value of a list in a query. *)
Definition joined (l : list string) : string := String.concat "," l.

(** [base.endsWith('/') ? base : `${base}/`] *)
Definition with_slash (url : string) : string :=
  match last (list_ascii_of_string url) with
  | Some "/"%char => url
  | _ => url +:+ "/"
  end.

(** The items the discovery service answers with; items that are no array fail. *)
Definition searchTasksViaDiscovery (input : DiscoverTasksInput) : io W (list json) :=
  match discoveryUrl cfg with
  | None => io_throw "SAEP_DISCOVERY_URL is required for discovery-backed task search"
  | Some base_url =>
    if String.eqb base_url "" then io_throw "SAEP_DISCOVERY_URL is required for discovery-backed task search"
    else
      let allowed := option_map USER_STATUS_MAP (dt_status input) in
      match dt_status input with
      | Some bidding => io_ret []
      | _ =>
        let params :=
          concat
            [match dt_capability_bit input with Some b => [("capability", z_text b)] | None => [] end;
             match allowed with Some ((_ :: _) as l) => [("status", joined l)] | _ => [] end;
             match dt_min_payment_usdc input with Some m => [("min_reward", z_text (micro m))] | None => [] end;
             [("page", "1"); ("limit", z_text (dt_limit input))]] in
        do! url <- io_lift (url_with M (with_slash base_url) "tasks" params) in
        do! res <- http_get (ops) url in
        do! _ <- io_check ((200 <=? res.1)%Z && (res.1 <=? 299)%Z) ("discovery request failed (" +:+ z_text res.1 +:+ ")") in
        match res.2 with
        | Some (J_obj fs) => match member "items" fs with
                             | Some (J_arr l) => io_ret l
                             | None | Some J_null => io_ret []
                             | Some _ => io_throw "items is not an array"
                             end
        | Some J_null => io_throw "Cannot read properties of null (reading 'items')"
        | Some _ => io_ret []
        | None => io_throw "the body is not JSON"
        end
      end
  end%string.

(** The identifiers the items have; an item without a text for it ranks no task. *)
Fixpoint item_ids (items : list json) : result (list string) :=
  match items with
  | [] => Ok []
  | J_null :: _ => Throw "Cannot read properties of null (reading 'task_id_hex')"
  | J_obj fs :: rest =>
    let! l := item_ids rest in
    Ok (match member "task_id_hex" fs with Some (J_str id) => id :: l | _ => l end)
  | _ :: rest => item_ids rest
  end.

Definition list_tasks (args : json) : io (session W) reply :=
  do! input <- io_lift (parse ListTasksArgs args) in
  do! ctx <- io_lift bridge_ctx in
  let allowed := option_map USER_STATUS_MAP (dt_status input) in
  let minPay := option_map micro (dt_min_payment_usdc input) in
  let searching := truthy (discoveryUrl cfg) in
  do! items <- (if searching then do! l <- outside (searchTasksViaDiscovery input) in io_ret (Some l) else io_ret None) in
  if negb searching && negb (bool_decide (dt_capability_bit input = None)) then
    io_ret [cluster_field; ("tasks", J_arr []); ("error", J_str "DISCOVERY_URL_REQUIRED");
            ("reason", J_str "capability_bit search now routes through the discovery service; set SAEP_DISCOVERY_URL.")]%string
  else
    match items with
    | Some [] => io_ret [cluster_field; ("tasks", J_arr []); ("total_matched", j_int 0)]%string
    | _ =>
      do! accounts <- outside (all (node (base ops)) (taskMarketProgram ctx) "taskContract" []) in
      do! tasks <- io_lift (map_accounts (to_listing (agent M)) accounts) in
      do! hits <- (match items with
                   | Some l => do! h <- io_lift (item_ids l) in io_ret (Some h)
                   | None => io_ret None
                   end) in
      io_ret (listing_reply ctx (dt_limit input) (listed allowed minPay hits tasks))
    end.

Definition get_task (args : json) : io (session W) reply :=
  do! task_address <- io_lift (parse GetTaskArgs args) in
  do! ctx <- io_lift bridge_ctx in
  outside (handleGetTask (agent M) (base ops) ctx task_address).

Definition get_reputation (args : json) : io (session W) reply :=
  do! input <- io_lift (parse GetReputationArgs args) in
  do! ctx <- io_lift bridge_ctx in
  do! detail <- outside (agent_by_did (agent M) (base ops) ctx input.1) in
  match detail with
  | None => io_ret [cluster_field; ("error", J_str "agent_not_found")]%string
  | Some a =>
    io_ret (reputation_reply (agent M) ctx input.1 input.2 a ++
            match input.2 with
            | Some _ => [("note", J_str "category-scoped scores require pre-audit-03 reputation graph; returning global dims")]%string
            | None => []
            end)
  end.

Definition bid_on_task (args : json) : io (session W) reply :=
  do! input <- io_lift (parse BidOnTaskArgs args) in
  do! ctx <- io_lift bridge_ctx in
  do! taskPk <- io_lift (PublicKey (agent M) (bi_task_address input)) in
  found_or (taskMarketProgram ctx) "taskContract" taskPk "task_not_found" (fun task =>
    do! agentAcc <- outside (agent_by_did (agent M) (base ops) ctx (bi_agent_did_hex input)) in
    match agentAcc with
    | None => io_ret [cluster_field; ("error", J_str "agent_not_found"); ("agent_did_hex", J_str (bi_agent_did_hex input))]%string
    | Some a =>
      if negb (Z.eqb (ag_operator (ad_summary a)) operator_key)
      then io_ret [cluster_field; ("error", J_str "operator_mismatch");
                   ("reason", J_str "bridge keypair is not the registered operator for this agent_did");
                   ("expected_operator", key_json (agent M) (ag_operator (ad_summary a)))]%string
      else
        do! agentDid <- io_lift (hexPairs (bi_agent_did_hex input)) in
        let amount := bi_amount_usdc_micro input in
        do! nonce <- outside (getRandomValues (base ops) 32) in
        let hash := commitHash (keccak_256 (agent M)) amount nonce agentDid in
        do! taskId <- io_lift (get_bytes task "taskId") in
        do! paymentMint <- io_lift (get_key task "paymentMint") in
        do! tokenProgramId <- outside (resolveTokenProgram (agent M) (base ops) "payment mint" paymentMint) in
        do! account <- io_lift (PublicKey (agent M) (bi_bidder_token_account input)) in
        do! ix <- io_lift (buildCommitBidIx (PublicKey (agent M)) (findProgramAddressSync (agent M)) (ids ctx taskMarket) (ids ctx) operator_key taskPk
                     taskId paymentMint account (ag_operator (ad_summary a)) (ag_agentId (ad_summary a)) agentDid hash
                     (Some tokenProgramId)) in
        do! outcome <- sign_ix (ids ctx taskMarket) ix in
        io_ret (cluster_field :: outcome.2 ++
                [("nonce_hex", j_hex nonce); ("amount_usdc_micro", j_int amount); ("agent_did_hex", J_str (bi_agent_did_hex input));
                 ("task_id_hex", j_hex taskId);
                 ("warning", J_str "PERSIST nonce_hex — required for reveal_bid. Loss forfeits bond.")])%string
    end).

Definition reveal_bid_tool (args : json) : io (session W) reply :=
  do! input <- io_lift (parse RevealBidArgs args) in
  do! ctx <- io_lift bridge_ctx in
  do! taskPk <- io_lift (PublicKey (agent M) (rb_task_address input)) in
  found_or (taskMarketProgram ctx) "taskContract" taskPk "task_not_found" (fun task =>
    do! taskId <- io_lift (get_bytes task "taskId") in
    do! nonce <- io_lift (hexPairs (rb_nonce_hex input)) in
    do! ix <- io_lift (buildRevealBidIx (findProgramAddressSync (agent M)) (ids ctx taskMarket) operator_key taskPk taskId
                 (rb_amount_usdc_micro input) nonce) in
    do! outcome <- sign_ix (ids ctx taskMarket) ix in
    io_ret (cluster_field :: outcome.2 ++ [("task_id_hex", j_hex taskId)])%string).

Definition submit_result (args : json) : io (session W) reply :=
  do! input <- io_lift (parse SubmitResultArgs args) in
  do! ctx <- io_lift bridge_ctx in
  do! taskPk <- io_lift (PublicKey (agent M) (sr_task_address input)) in
  found_or (taskMarketProgram ctx) "taskContract" taskPk "task_not_found" (fun task =>
    do! did <- io_lift (get_bytes task "agentDid") in
    do! agentAcc <- outside (agent_by_did (agent M) (base ops) ctx (bytesToHex did)) in
    match agentAcc with
    | None => io_ret [cluster_field; ("error", J_str "agent_not_found_for_task"); ("agent_did_hex", j_hex did)]%string
    | Some a =>
      do! resultHash <- io_lift (hexPairs (sr_result_hash input)) in
      do! proofKey <- io_lift (hexPairs (sr_proof_key input)) in
      do! ix <- io_lift (buildSubmitResultIx (findProgramAddressSync (agent M)) (ids ctx taskMarket) (ids ctx) operator_key taskPk
                   (ag_address (ad_summary a)) resultHash proofKey) in
      do! outcome <- sign_ix (ids ctx taskMarket) ix in
      io_ret (cluster_field :: outcome.2 ++ [("agent_did_hex", j_hex did)])%string
    end).

Definition claim_payout (args : json) : io (session W) reply :=
  do! input <- io_lift (parse ClaimPayoutArgs args) in
  do! ctx <- io_lift bridge_ctx in
  do! taskPk <- io_lift (PublicKey (agent M) (cp_task_address input)) in
  found_or (taskMarketProgram ctx) "taskContract" taskPk "task_not_found" (fun task =>
    do! market <- outside (fetchMarketGlobal (node (base ops)) (findProgramAddressSync (agent M)) (PublicKey_default (agent M)) (taskMarketProgram ctx)) in
    match market with
    | None => io_ret [cluster_field; ("error", J_str "market_global_not_found")]%string
    | Some marketGlobal =>
      do! paymentMint <- io_lift (get_key task "paymentMint") in
      do! tokenProgramId <- outside (resolveTokenProgram (agent M) (base ops) "payment mint" paymentMint) in
      do! agentAccount <- outside (resolveAgentAccount (agent M) (base ops) ctx task (cp_agent_account_address input)) in
      do! accounts <- io_lift (payout_accounts (agent M) paymentMint tokenProgramId agentAccount.2 (mg_feeCollector marketGlobal)
                        (mg_solrepPool marketGlobal) (cp_agent_token_account input)) in
      let '(agentToken, feeToken, poolToken) := accounts in
      do! client <- io_lift (get_key task "client") in
      do! ix <- io_lift (buildReleaseIx (PublicKey (agent M)) (findProgramAddressSync (agent M)) (ids ctx taskMarket) (ids ctx) operator_key taskPk
                   paymentMint agentToken feeToken poolToken agentAccount.1 client None (Some tokenProgramId)) in
      do! outcome <- sign_ix (ids ctx taskMarket) ix in
      do! taskId <- io_lift (get_bytes task "taskId") in
      do! amount <- io_lift (get_bigint task "paymentAmount") in
      io_ret (cluster_field :: outcome.2 ++
              [("task_address", key_json (agent M) taskPk); ("task_id_hex", j_hex taskId); ("payment_mint", key_json (agent M) paymentMint);
               ("payment_amount", J_str (z_text amount)); ("agent_account_address", key_json (agent M) agentAccount.1);
               ("agent_token_account", key_json (agent M) agentToken); ("fee_collector_token_account", key_json (agent M) feeToken);
               ("solrep_pool_token_account", key_json (agent M) poolToken)])%string
    end).

Definition withdraw_earnings (args : json) : io (session W) reply :=
  do! input <- io_lift (parse WithdrawEarningsArgs args) in
  do! ctx <- io_lift bridge_ctx in
  do! streamPk <- io_lift (PublicKey (agent M) (we_stream_address input)) in
  found_or (treasuryStandardProgram ctx) "paymentStream" streamPk "stream_not_found" (fun stream =>
    do! agentDid <- io_lift (get_bytes stream "agentDid") in
    do! payerMint <- io_lift (get_key stream "payerMint") in
    do! payoutMint <- io_lift (get_key stream "payoutMint") in
    let swapped := negb (Z.eqb payerMint payoutMint) in
    match swap_missing swapped input with
    | Some (error, reason) =>
      io_ret [cluster_field; ("error", J_str error); ("agent_did_hex", j_hex agentDid); ("reason", J_str reason)]%string
    | None =>
      do! tokenProgramId <- outside (resolveTokenProgram (agent M) (base ops) "payment mint" payerMint) in
      do! jupiter <- io_lift (key_if (agent M) (we_jupiter_program input)) in
      do! payerFeed <- io_lift (key_if (agent M) (we_payer_price_feed input)) in
      do! payoutFeed <- io_lift (key_if (agent M) (we_payout_price_feed input)) in
      do! ix <- io_lift (buildWithdrawEarnedIx (PublicKey (agent M)) (findProgramAddressSync (agent M)) (ids ctx treasuryStandard) operator_key
                   agentDid streamPk payerMint payoutMint (default (PublicKey_default (agent M)) jupiter) (route_data (agent M) input) payerFeed
                   payoutFeed None None None (Some tokenProgramId)) in
      do! outcome <- sign_ix (ids ctx treasuryStandard) ix in
      io_ret (cluster_field :: outcome.2 ++
              [("stream_address", key_json (agent M) streamPk); ("agent_did_hex", j_hex agentDid); ("payer_mint", key_json (agent M) payerMint);
               ("payout_mint", key_json (agent M) payoutMint); ("swapped", J_bool swapped)])%string
    end).

(** ** server.ts *)

Record Tool := { tool_name : string; inputSchema : json; handler : json -> io (session W) reply }.

Definition buildTools : list Tool :=
  [{| tool_name := "register_agent"; inputSchema := toJsonSchema RegisterAgentShape; handler := register_agent |};
   {| tool_name := "list_tasks"; inputSchema := toJsonSchema ListTasksShape; handler := list_tasks |};
   {| tool_name := "get_task"; inputSchema := toJsonSchema GetTaskShape; handler := get_task |};
   {| tool_name := "get_reputation"; inputSchema := toJsonSchema GetReputationShape; handler := get_reputation |};
   {| tool_name := "bid_on_task"; inputSchema := toJsonSchema BidOnTaskShape; handler := bid_on_task |};
   {| tool_name := "reveal_bid"; inputSchema := toJsonSchema RevealBidShape; handler := reveal_bid_tool |};
   {| tool_name := "submit_result"; inputSchema := toJsonSchema SubmitResultShape; handler := submit_result |};
   {| tool_name := "claim_payout"; inputSchema := toJsonSchema ClaimPayoutShape; handler := claim_payout |};
   {| tool_name := "withdraw_earnings"; inputSchema := toJsonSchema WithdrawEarningsShape; handler := withdraw_earnings |}]%string.

Definition visibleTools : list Tool :=
  match allowedTools cfg with
  | Some names => List.filter (fun t => existsb (String.eqb (tool_name t)) names) buildTools
  | None => buildTools
  end.

(** What a client of the bridge gets: the value of the text, or an error's message. *)
Inductive tool_result := Content (r : reply) | IsError (message : string).

(** The handler of a CallTool request; absent arguments are an empty object. *)
Definition call_tool (name : string) (arguments : option json) : io (session W) tool_result :=
  match List.find (fun t => String.eqb (tool_name t) name) visibleTools with
  | None => io_ret (IsError ("unknown tool: " +:+ name))
  | Some t =>
    do! r <- io_try (handler t (default (J_obj []) arguments)) in
    match r with
    | Ok x => io_ret (Content x)
    | Throw e => io_ret (IsError e)
    end
  end.

(** The handler of a ListTools request: names and schemas. *)
Definition list_tools : list (string * json) := map (fun t => (tool_name t, inputSchema t)) visibleTools.
End tools.
