(* ===== verification/McpSafety.v ===== *)
(** * McpSafety: when the bridge signs, and what it tells its client

    Theorems on Mcp: nothing is sent unless the bridge is configured to sign, tools
    that are not allowed cannot be called, signing keeps to the velocity limit over
    any sequence of calls, and the types the bridge advertises for optional numbers
    are types it refuses. *)

From Stdlib Require Import ZArith QArith Lia Ascii.
From stdpp Require Import base list strings.
From S2P Require Import Prelude Bytes Effects JsMap Json Hex Zod Numbers Pda Idl Ix Decoded Accounts AccountsSafety AgentTools.
From S2P Require Import Handlers HandlersSafety Mcp.

#[local] Open Scope Z_scope.
#[local] Open Scope saep_scope.

Section bridge.
Context {W : Type}.
Variable M : mcp_lib.
Variable ops : mcp_ops W.
Variable cfg : Config.
Variable clock : W -> Z.
Variable sent : W -> list (Z * Transaction).

Record bridge_laws : Prop := {
  bridge_agent : agent_laws (base ops) clock sent;
  bridge_blockhash : steps (quiet clock sent) (getLatestBlockhash ops);
  bridge_http : forall url, steps (quiet clock sent) (http_get ops url);
}.

Hypothesis laws : bridge_laws.

#[local] Abbreviation quiet := (quiet clock sent).
#[local] Abbreviation silent := (silent clock sent).
#[local] Abbreviation guarded := (guarded clock sent (autoSignVelocityLimit cfg)).

#[local] Existing Instance quiet_refl.
#[local] Existing Instance quiet_trans.
#[local] Existing Instance silent_refl.
#[local] Existing Instance silent_trans.

(** The bridge signs by itself. *)
Definition signing : bool := autoSign cfg && negb (bool_decide (keypair cfg = None)).

Lemma unsigned_silent tx k rejected : steps silent (unsigned_reply M ops tx k rejected).
Proof.
  unfold unsigned_reply. apply steps_bind; [apply _|apply outside_silent, (bridge_blockhash laws)|]. intros bh.
  apply steps_bind; [apply _|apply steps_lift, _|]. intros r. apply steps_ret, _.
Qed.

Lemma unsigned_outcome_silent tx k rejected :
  steps silent (do! r <- unsigned_reply M ops tx k rejected in io_ret (false, r)).
Proof. apply steps_bind; [apply _|apply unsigned_silent|]. intros r. apply steps_ret, _. Qed.

Lemma not_signing_silent program ix : signing = false -> steps silent (sign_ix M ops cfg program ix).
Proof. intros H. unfold sign_ix, signOrSerialize. fold signing. rewrite H. apply unsigned_outcome_silent. Qed.

(** Without a value the cap is never looked at. *)
Lemma sign_guarded program ix : steps guarded (sign_ix M ops cfg program ix).
Proof.
  unfold sign_ix, signOrSerialize. fold signing. destruct signing; [|apply steps_silent_guarded, unsigned_outcome_silent].
  cbn [over_cap]. intros [ts w] r [ts' w'] H.
  apply io_bind_run in H as [(free & s1 & Hv & H)|(e & Hv & ->)].
  2:{ unfold checkVelocity, outside, io_bind in Hv. cbn in Hv. destruct (Date_now (base ops) w) as [[r1 w1]|] eqn:E; [|done].
      destruct (law_now _ _ _ (bridge_agent laws) _ _ _ E) as (-> & _). discriminate Hv. }
  unfold checkVelocity, outside, io_bind in Hv. cbn in Hv. destruct (Date_now (base ops) w) as [[r1 w1]|] eqn:E1; [|done].
  destruct (law_now _ _ _ (bridge_agent laws) _ _ _ E1) as (-> & Hn1 & Hs1). injection Hv as <- <-.
  set (n1 := clock w1) in *.
  set (kept := shift_old (n1 - 60000) ts) in *.
  destruct (q_ltb (inject_Z (Z.of_nat (length kept))) (autoSignVelocityLimit cfg)) eqn:El.
  - apply io_bind_run in H as [([] & s2 & Hrec & H)|(e & Hrec & ->)].
    2:{ unfold recordAutoSign, outside, io_bind in Hrec. cbn in Hrec. destruct (Date_now (base ops) w1) as [[r2 w2]|] eqn:E2; [|done].
        destruct (law_now _ _ _ (bridge_agent laws) _ _ _ E2) as (-> & _). discriminate Hrec. }
    unfold recordAutoSign, outside, io_bind in Hrec. cbn in Hrec. destruct (Date_now (base ops) w1) as [[r2 w2]|] eqn:E2; [|done].
    destruct (law_now _ _ _ (bridge_agent laws) _ _ _ E2) as (-> & Hn2 & Hs2). injection Hrec as <-.
    set (n2 := clock w2) in *.
    assert (Hsend : exists w3, ts' = kept ++ [n2] /\ w' = w3 /\ clock w2 <= clock w3 /\
      sent w3 = sent w2 ++ [(n2, {| tx_program := program; tx_call := ix |})]).
    { unfold outside, io_bind in H. cbn in H. destruct (sendAndConfirm (base ops) _ w2) as [[r3 w3]|] eqn:E3; [|done].
      destruct (law_send _ _ _ (bridge_agent laws) _ _ _ _ E3) as [Hc Hs]. exists w3.
      destruct r3; cbn in H; injection H as _ <- <-; done. }
    destruct Hsend as (w3 & -> & -> & Hc & Hs). right. exists n1, n2. unfold signs. cbn.
    split; [lia|]. split; [lia|]. split; [lia|]. split; [eexists; rewrite Hs, Hs2, Hs1; done|]. split; [done|]. by apply q_ltb_lt.
  - pose proof (unsigned_outcome_silent _ _ _ _ _ _ H) as [Ht [Hc Hs]]. cbn in Ht, Hc, Hs.
    left. unfold forgets. cbn. split; [lia|]. split; [congruence|]. right. exists n1. split; [lia|done].
Qed.

(** ** Reads *)

Lemma search_quiet input : steps quiet (searchTasksViaDiscovery M ops cfg input).
Proof.
  unfold searchTasksViaDiscovery. cbv zeta.
  repeat first
  [ progress intros | apply steps_bind; [apply _| |] | apply steps_ret, _ | apply steps_throw, _ | apply steps_lift, _
  | apply steps_check, _ | apply (bridge_http laws)
  | match goal with |- context [match ?x with _ => _ end] => destruct x end ].
Qed.

Lemma get_task_quiet ctx address : steps quiet (handleGetTask (agent M) (base ops) ctx address).
Proof.
  unfold handleGetTask.
  repeat first
  [ progress intros | apply steps_bind; [apply _| |] | apply steps_ret, _ | apply steps_lift, _ | apply (law_one _ _ _ (bridge_agent laws))
  | match goal with |- context [match ?x with _ => _ end] => destruct x end ].
Qed.

Lemma ret_silent {A} (a : A) : steps silent (io_ret a).
Proof. apply steps_ret, _. Qed.

Lemma lift_silent {A} (r : result A) : steps silent (io_lift r).
Proof. apply steps_lift, _. Qed.

Lemma read_silent {A} (m : io W A) : steps quiet m -> steps silent (outside m).
Proof. apply outside_silent. Qed.

Definition base_agent_by_did ctx := agent_by_did_quiet (agent M) (base ops) ctx clock sent (bridge_agent laws).
Definition base_agents ctx := agents_of_operator_quiet (agent M) (base ops) ctx clock sent (bridge_agent laws).
Definition base_market := market_global_quiet (agent M) (base ops) clock sent (bridge_agent laws).
Definition base_token_program := token_program_quiet (agent M) (base ops) clock sent (bridge_agent laws).
Definition base_resolve ctx := resolve_agent_quiet (agent M) (base ops) ctx clock sent (bridge_agent laws).
Definition base_random := random_quiet (base ops) clock sent (bridge_agent laws).
Definition base_register_id := register_id_quiet (base ops) clock sent (bridge_agent laws).
Definition base_one := law_one (base ops) clock sent (bridge_agent laws).
Definition base_all := law_all (base ops) clock sent (bridge_agent laws).

(** ** The tools *)

Section any_signing.
(** What signing may do: no less than a read, and unaffected by reads around it. *)
Variable R : session W -> session W -> Prop.
Hypothesis R_silent : forall s s', silent s s' -> R s s'.
Hypothesis R_after : forall s s1 s', silent s s1 -> R s1 s' -> R s s'.
Hypothesis R_before : forall s s1 s', R s s1 -> silent s1 s' -> R s s'.
Hypothesis R_sign : forall program ix, steps R (sign_ix M ops cfg program ix).

Lemma silent_R {A} (m : io (session W) A) : steps silent m -> steps R m.
Proof. intros H s r s' E. apply R_silent. by eapply H. Qed.

Lemma silent_bind_R {A B} (m : io (session W) A) (k : A -> io (session W) B) :
  steps silent m -> (forall a, steps R (k a)) -> steps R (io_bind m k).
Proof.
  intros Hm Hk s r s' [(a & s1 & H1 & H2)|(e & H1 & ->)]%io_bind_run; [|by apply R_silent, (Hm _ _ _ H1)].
  eapply R_after; [by eapply Hm|by eapply Hk].
Qed.

Lemma R_bind_silent {A B} (m : io (session W) A) (k : A -> io (session W) B) :
  steps R m -> (forall a, steps silent (k a)) -> steps R (io_bind m k).
Proof.
  intros Hm Hk s r s' [(a & s1 & H1 & H2)|(e & H1 & ->)]%io_bind_run; [|by eapply Hm].
  eapply R_before; [by eapply Hm|by eapply Hk].
Qed.

(** Split a tool: reads, a transaction signed or serialised, reads. *)
Ltac reads := eauto using read_silent, ret_silent, lift_silent, search_quiet, get_task_quiet, base_agent_by_did, base_agents, base_market,
  base_token_program, base_resolve, base_random, base_register_id, base_one, base_all.

Ltac tool_steps :=
  cbv zeta; repeat first
  [ progress intros
  | solve [apply silent_R; reads]
  | apply R_bind_silent; [apply R_sign|]
  | apply silent_bind_R
  | apply steps_bind; [apply _| |]
  | solve [reads]
  | match goal with |- context [match ?x with _ => _ end] => destruct x end ].

Lemma found_or_R p name k error found : (forall v, steps R (found v)) -> steps R (found_or ops cfg p name k error found).
Proof. intros H. unfold found_or. apply silent_bind_R; [reads|]. intros [v|]; [apply H|]. apply silent_R. reads. Qed.

Lemma register_agent_R args : steps R (register_agent M ops cfg args).
Proof.
  unfold register_agent. repeat (apply silent_bind_R; [solve [reads]|intros ?]).
  apply R_bind_silent; [apply R_sign|]. intros outcome. destruct outcome.1; tool_steps.
Qed.

Lemma list_tasks_R args : steps R (list_tasks M ops cfg args).
Proof. unfold list_tasks. tool_steps. Qed.

Lemma get_task_R args : steps R (get_task M ops cfg args).
Proof. unfold get_task. tool_steps. Qed.

Lemma get_reputation_R args : steps R (get_reputation M ops cfg args).
Proof. unfold get_reputation. tool_steps. Qed.

Lemma bid_on_task_R args : steps R (bid_on_task M ops cfg args).
Proof. unfold bid_on_task. do 3 (apply silent_bind_R; [solve [reads]|intros ?]). apply found_or_R. tool_steps. Qed.

Lemma reveal_bid_R args : steps R (reveal_bid_tool M ops cfg args).
Proof. unfold reveal_bid_tool. do 3 (apply silent_bind_R; [solve [reads]|intros ?]). apply found_or_R. tool_steps. Qed.

Lemma submit_result_R args : steps R (submit_result M ops cfg args).
Proof. unfold submit_result. do 3 (apply silent_bind_R; [solve [reads]|intros ?]). apply found_or_R. tool_steps. Qed.

Lemma claim_payout_R args : steps R (claim_payout M ops cfg args).
Proof. unfold claim_payout. do 3 (apply silent_bind_R; [solve [reads]|intros ?]). apply found_or_R. tool_steps. Qed.

Lemma withdraw_earnings_R args : steps R (withdraw_earnings M ops cfg args).
Proof. unfold withdraw_earnings. do 3 (apply silent_bind_R; [solve [reads]|intros ?]). apply found_or_R. tool_steps. Qed.

Lemma handler_R t args : In t (buildTools M ops cfg) -> steps R (handler t args).
Proof.
  intros H. simpl in H.
  repeat (destruct H as [<-|H]); [apply register_agent_R|apply list_tasks_R|apply get_task_R|apply get_reputation_R|apply bid_on_task_R|
    apply reveal_bid_R|apply submit_result_R|apply claim_payout_R|apply withdraw_earnings_R|destruct H].
Qed.

Lemma visible_built t : In t (visibleTools M ops cfg) -> In t (buildTools M ops cfg).
Proof. unfold visibleTools. destruct (allowedTools cfg); [|done]. by intros [H _]%filter_In. Qed.

Lemma call_tool_R name arguments : steps R (call_tool M ops cfg name arguments).
Proof.
  unfold call_tool. destruct (List.find _ _) as [t|] eqn:Ef; [|apply silent_R; reads].
  apply List.find_some in Ef as [Hin _]. apply visible_built in Hin.
  apply R_bind_silent; [|intros [x|e]; reads]. intros s r s' H. unfold io_try in H.
  destruct (handler t _ s) as [[r1 s1]|] eqn:E; [|done]. injection H as _ <-. by eapply handler_R.
Qed.
End any_signing.

(** ** Any number of calls *)

Inductive bridge_run (s0 : session W) : session W -> Prop :=
| bridge_start : bridge_run s0 s0
| bridge_call s name arguments r s' :
  bridge_run s0 s -> call_tool M ops cfg name arguments s = Some (r, s') -> bridge_run s0 s'
| bridge_wait s w' : bridge_run s0 s -> quiet s.2 w' -> bridge_run s0 (s.1, w').

Lemma call_guarded name arguments : steps guarded (call_tool M ops cfg name arguments).
Proof.
  apply call_tool_R; [apply silent_guarded|apply silent_then_guarded|apply guarded_then_silent|apply sign_guarded].
Qed.

Lemma call_silent name arguments : signing = false -> steps silent (call_tool M ops cfg name arguments).
Proof.
  intros H. apply call_tool_R; [done|intros ???; apply silent_trans|intros ???; apply silent_trans|]. intros ??. by apply not_signing_silent.
Qed.

(** C17: however often and with whatever arguments the bridge's tools are called, one
    call after another from the start of the process: a bridge that is not configured
    to sign sends nothing; of one that is, no minute sees more transactions handed to
    the network than its velocity limit, by the times at which they were handed over. *)
Theorem bridge_rate w0 s : (0 <= autoSignVelocityLimit cfg)%Q -> bridge_run ([], w0) s ->
  (signing = false -> sent s.2 = sent w0) /\ sent_within sent (autoSignVelocityLimit cfg) w0 s.
Proof.
  intros H0 H. split.
  - intros Hoff. induction H as [|s n a r s' _ IH Hc|s w' _ IH [_ Hq]]; [done| |by rewrite <- IH].
    apply (call_silent _ _ Hoff) in Hc as [_ [_ Hc]]. congruence.
  - apply (guarded_rate clock); [done|]. induction H as [|s n a r s' _ IH Hp|s w' _ IH Hq]; [apply guarded_start|..].
    + eapply guarded_step; [exact IH|]. by eapply call_guarded.
    + eapply guarded_step; [exact IH|]. by apply silent_guarded.
Qed.

Definition unknown_tool (name : string) : string := "unknown tool: " +:+ name.

(** A tool outside the allow list is not listed and cannot be called: the call is an
    error that leaves the session as it was. *)
Theorem only_allowed_tools names name arguments s : allowedTools cfg = Some names -> ~ In name names ->
  call_tool M ops cfg name arguments s = Some (Ok (IsError (unknown_tool name)), s) /\
  ~ In name (map fst (list_tools M ops cfg)).
Proof.
  intros Hn Hout.
  assert (Hno : forall t, In t (visibleTools M ops cfg) -> tool_name t <> name).
  { unfold visibleTools. rewrite Hn. intros t [_ Hin]%filter_In <-. apply Hout.
    apply existsb_exists in Hin as (x & Hx & E%String.eqb_eq). by rewrite E. }
  split.
  - unfold call_tool. destruct (List.find _ _) as [t|] eqn:Ef; [|done].
    apply List.find_some in Ef as [Hin E%String.eqb_eq]. by destruct (Hno t Hin).
  - unfold list_tools. rewrite map_map. intros (t & E & Hin)%in_map_iff. by apply (Hno t).
Qed.

(** ** What the schemas say *)

(** The type a tool's schema gives for a field. *)
Definition advertised (schema : json) (field : string) : option json :=
  match schema with
  | J_obj fs => match member "properties" fs with
                | Some (J_obj ps) => match member field ps with Some (J_obj p) => member "type" p | _ => None end
                | _ => None
                end
  | _ => None
  end.

Lemma optional_text {A} k (item : schema A) fs text : member k fs = Some (J_str text) -> item (J_str text) = None ->
  z_optional k item fs = None.
Proof. intros H E. unfold z_optional. rewrite H. by rewrite E. Qed.

Lemma default_text {A} k (item : schema A) d fs text : member k fs = Some (J_str text) -> item (J_str text) = None ->
  z_default k item d fs = None.
Proof. intros H E. unfold z_default. by rewrite H. Qed.

(** The optional numbers of the bridge's tools. *)
Definition optional_numbers : list (string * string) :=
  [("list_tasks", "capability_bit"); ("list_tasks", "min_payment_usdc"); ("list_tasks", "limit"); ("get_reputation", "capability_bit")]%string.

Lemma list_tasks_refuses field args text : In ("list_tasks"%string, field) optional_numbers -> member field args = Some (J_str text) ->
  ListTasksArgs (J_obj args) = None.
Proof.
  intros H Hm. unfold ListTasksArgs, DiscoverTasksSchema, z_object. simpl in H.
  destruct H as [H|[H|[H|[H|[]]]]]; [injection H as <-..|discriminate H].
  - by rewrite (optional_text _ _ _ _ Hm).
  - destruct (z_optional "capability_bit" _ _); [|done]. destruct (z_optional "status" _ _); [|done]. cbn [mbind option_bind].
    by rewrite (optional_text _ _ _ _ Hm).
  - destruct (z_optional "capability_bit" _ _); [|done]. destruct (z_optional "status" _ _); [|done].
    destruct (z_optional "min_payment_usdc" _ _); [|done]. cbn [mbind option_bind]. by rewrite (default_text _ _ _ _ _ Hm).
Qed.

Lemma get_reputation_refuses args text : member "capability_bit" args = Some (J_str text) -> GetReputationArgs (J_obj args) = None.
Proof.
  intros Hm. unfold GetReputationArgs, z_object. destruct (z_key _ _ _); [|done]. cbn [mbind option_bind].
  by rewrite (optional_text _ _ _ _ Hm).
Qed.

Lemma tool_throws tool t args s e : allowedTools cfg = None ->
  List.find (fun t => String.eqb (tool_name t) tool) (buildTools M ops cfg) = Some t -> handler t args s = Some (Throw e, s) ->
  call_tool M ops cfg tool (Some args) s = Some (Ok (IsError e), s).
Proof. intros Ha Hf Hh. unfold call_tool, visibleTools. rewrite Ha, Hf. unfold io_bind, io_try. cbn [default from_option id]. by rewrite Hh. Qed.

(** The optional numbers are listed with the type string, yet a client that sends a
    string for one of them, whatever the string, gets an error. *)
Theorem advertised_types_refused tool field args text s : allowedTools cfg = None -> In (tool, field) optional_numbers ->
  member field args = Some (J_str text) ->
  (exists schema, In (tool, schema) (list_tools M ops cfg) /\ advertised schema field = Some (J_str "string")) /\
  call_tool M ops cfg tool (Some (J_obj args)) s = Some (Ok (IsError zod_error), s).
Proof.
  intros Ha Hin Hm. unfold list_tools, visibleTools. rewrite Ha. pose proof Hin as Hcase. simpl in Hcase.
  destruct Hcase as [H|[H|[H|[H|[]]]]]; injection H as <- <-.
  1-3: split; [exists (toJsonSchema ListTasksShape); split; [simpl; tauto|reflexivity]|];
    eapply tool_throws; [done|reflexivity|]; cbn [handler]; unfold list_tasks, parse; by rewrite (list_tasks_refuses _ _ _ Hin Hm).
  split; [exists (toJsonSchema GetReputationShape); split; [simpl; tauto|reflexivity]|].
  eapply tool_throws; [done|reflexivity|]. cbn [handler]. unfold get_reputation, parse. by rewrite (get_reputation_refuses _ _ Hm).
Qed.
End bridge.

(** ** A bridge on the desk *)

Definition desk_mcp : mcp_lib := {|
  agent := desk_lib;
  clusterApiUrl := fun _ => "url"%string;
  is_url := fun _ => true;
  serialize_base64 := fun _ _ _ => Ok "unsigned"%string;
  url_with := fun u p _ => Ok (u +:+ p);
|}.

Definition desk_bridge : mcp_ops desk := {|
  base := desk_ops;
  getLatestBlockhash := fun w => Some (Ok ("blockhash"%string, 9), w);
  http_get := fun _ w => Some (Ok (200, Some (J_obj [])), w);
|}.

Definition desk_config (velocity : Q) (tools : option (list string)) : Config := {|
  cfg_cluster := devnet; rpcUrl := ""; discoveryUrl := None; autoSign := true; autoSignMaxLamports := 1;
  autoSignVelocityLimit := velocity; allowedTools := tools; keypair := Some 7; wallet := 7 |}.

Lemma desk_bridge_laws : bridge_laws desk_bridge fst snd.
Proof.
  split; [exact desk_laws| |].
  - intros w r w' [= <- <-]. split; [lia|done].
  - intros u w r w' [= <- <-]. split; [lia|done].
Qed.

Definition reveal_args : option json :=
  Some (J_obj [("task_address", J_str "4zMMC9srt5Ri5X14GAgXhaHii3GnPAEERYPJgZJDncDU"); ("amount_usdc_micro", J_num 60);
               ("nonce_hex", J_str (bytesToHex (id32 5)))])%string.

(** Two reveals, the second of which is not signed, so that one transaction was sent. *)
Definition reveals_twice : bool :=
  match call_tool desk_mcp desk_bridge (desk_config 1 None) "reveal_bid" reveal_args desk_start with
  | Some (Ok (Content _), s1) =>
    match call_tool desk_mcp desk_bridge (desk_config 1 None) "reveal_bid" reveal_args s1 with
    | Some (Ok (Content r), s2) =>
      match member "signed" r with Some (J_bool b) => negb b | _ => false end && Nat.eqb (length s2.2.2) 1
    | _ => false
    end
  | _ => false
  end.

Lemma second_reveal_unsigned : reveals_twice = true.
Proof. vm_compute. reflexivity. Qed.

(** The second reveal within the minute is handed back unsigned. *)
Lemma bridge_rate_witness :
  match call_tool desk_mcp desk_bridge (desk_config 1 None) "reveal_bid" reveal_args desk_start with
  | Some (Ok (Content _), s1) =>
    match call_tool desk_mcp desk_bridge (desk_config 1 None) "reveal_bid" reveal_args s1 with
    | Some (Ok (Content r), s2) => member "signed" r = Some (J_bool false) /\ length s2.2.2 = 1%nat /\ sent_within snd 1 (0, []) s2
    | _ => False
    end
  | _ => False
  end.
Proof.
  pose proof second_reveal_unsigned as H. unfold reveals_twice in H.
  destruct (call_tool desk_mcp desk_bridge (desk_config 1 None) "reveal_bid" reveal_args desk_start) as [[[[r1|]|] s1]|] eqn:E1;
    try discriminate H.
  destruct (call_tool desk_mcp desk_bridge (desk_config 1 None) "reveal_bid" reveal_args s1) as [[[[r2|]|] s2]|] eqn:E2; try discriminate H.
  apply andb_true_iff in H as [Hr Hs]. split.
  { destruct (member "signed" r2) as [[|[]| | | |]|]; done. }
  split; [by apply Nat.eqb_eq|].
  assert (Hrun : bridge_run desk_mcp desk_bridge (desk_config 1 None) fst snd ([], (0, [])) s2).
  { eapply bridge_call; [|exact E2]. eapply bridge_call; [|exact E1]. apply bridge_start. }
  assert (Hlim : (0 <= 1)%Q) by (vm_compute; discriminate).
  exact (proj2 (bridge_rate desk_mcp desk_bridge (desk_config 1 None) fst snd desk_bridge_laws (0, []) s2 Hlim Hrun)).
Defined.

Lemma only_allowed_tools_witness :
  call_tool desk_mcp desk_bridge (desk_config 1 (Some ["get_task"%string])) "bid_on_task" None desk_start
  = Some (Ok (IsError (unknown_tool "bid_on_task")), desk_start).
Proof.
  apply (only_allowed_tools desk_mcp desk_bridge (desk_config 1 (Some ["get_task"%string])) ["get_task"%string] "bid_on_task" None desk_start
    eq_refl). intros [H|[]]. discriminate H.
Defined.

Lemma advertised_types_refused_witness :
  call_tool desk_mcp desk_bridge (desk_config 1 None) "list_tasks" (Some (J_obj [("limit", J_str "10")]%string)) desk_start
  = Some (Ok (IsError zod_error), desk_start).
Proof.
  apply (advertised_types_refused desk_mcp desk_bridge (desk_config 1 None) "list_tasks" "limit" [("limit", J_str "10")]%string "10" desk_start
    eq_refl); [simpl; tauto|reflexivity].
Defined.
