(* ===== verification/DisputeProgram.v ===== *)
(** * DisputeProgram: how the arbitration program takes a case to its verdict

    The part of src/programs/dispute_arbitration that the voting pages drive: the
    state of a case and of a vote (state.rs), voting (instructions/voting.rs),
    appeals and resolution (resolution.rs), the selection of arbitrators and the
    cancellation of a stale case (dispute.rs).  Accounts, signatures and events are
    left out, the arbitrators a selection yields are an argument, SHA-256 is a
    parameter. *)

From Stdlib Require Import ZArith.
From stdpp Require Import base list strings.
From S2P Require Import Prelude Bytes Pda.

#[local] Open Scope Z_scope.
#[local] Open Scope saep_scope.

Inductive DisputeStatus := RequestedVrf | SelectionReady | Committing | Revealing | Tallied | Appealed | Resolved | Cancelled.

#[global] Instance DisputeStatus_eq_dec : EqDecision DisputeStatus.
Proof. solve_decision. Defined.

Inductive DisputeVerdict := NoVerdict | AgentWins | ClientWins | Split.

#[global] Instance DisputeVerdict_eq_dec : EqDecision DisputeVerdict.
Proof. solve_decision. Defined.

Record DisputeCase := {
  dc_client : pubkey; dc_agent_operator : pubkey; dc_status : DisputeStatus; dc_round : Z; dc_arbitrators : list pubkey;
  commit_deadline : Z; reveal_deadline : Z; dc_verdict : DisputeVerdict;
  votes_for_agent : Z; votes_for_client : Z; votes_for_split : Z; total_revealed_weight : Z; resolved_at : Z; created_at : Z;
}.

Record DisputeVoteRecord := {
  vr_arbitrator : pubkey; vr_round : Z; commit_hash : list Z; committed_at : Z;
  revealed_verdict : DisputeVerdict; vr_revealed : bool; revealed_weight : Z; revealed_at : Z;
}.

Record DisputeConfig := {
  cf_paused : bool; round1_size : Z; round2_size : Z; commit_window_secs : Z; reveal_window_secs : Z; appeal_window_secs : Z;
}.

Definition with_status (s : DisputeStatus) (dc : DisputeCase) : DisputeCase :=
  {| dc_client := dc_client dc; dc_agent_operator := dc_agent_operator dc; dc_status := s; dc_round := dc_round dc;
     dc_arbitrators := dc_arbitrators dc; commit_deadline := commit_deadline dc; reveal_deadline := reveal_deadline dc;
     dc_verdict := dc_verdict dc; votes_for_agent := votes_for_agent dc; votes_for_client := votes_for_client dc;
     votes_for_split := votes_for_split dc; total_revealed_weight := total_revealed_weight dc; resolved_at := resolved_at dc;
     created_at := created_at dc |}.

Definition verdict_byte (v : DisputeVerdict) : Z := match v with NoVerdict => 0 | AgentWins => 1 | ClientWins => 2 | Split => 3 end.

(** [checked_add] of u128 and of i64. *)
Definition add_u128 (a b : Z) : result Z := if a + b <? 2 ^ 128 then Ok (a + b) else Throw "ArithmeticOverflow".
Definition add_i64 (a b : Z) : result Z :=
  if (- 2 ^ 63 <=? a + b) && (a + b <? 2 ^ 63) then Ok (a + b) else Throw "ArithmeticOverflow".

Section program.
Variable sha256 : list Z -> list Z.

Definition compute_commit_hash (verdict : DisputeVerdict) (salt : list Z) : list Z := sha256 (verdict_byte verdict :: salt).

Definition commit_vote (paused : bool) (dc : DisputeCase) (now : Z) (signer : pubkey) (hash : list Z) : result DisputeVoteRecord :=
  let! _ := check (negb paused) "Paused" in
  let! _ := check (bool_decide (dc_status dc = Committing)) "WrongStatus" in
  let! _ := check (now <=? commit_deadline dc) "CommitWindowClosed" in
  let! _ := check (existsb (Z.eqb signer) (dc_arbitrators dc)) "ArbitratorNotSelected" in
  Ok {| vr_arbitrator := signer; vr_round := dc_round dc; commit_hash := hash; committed_at := now; revealed_verdict := NoVerdict;
        vr_revealed := false; revealed_weight := 0; revealed_at := 0 |}.

(** The case with the weight added to the verdict's votes and to the total. *)
Definition add_votes (verdict : DisputeVerdict) (weight : Z) (dc : DisputeCase) : result DisputeCase :=
  let! agent := match verdict with AgentWins => add_u128 (votes_for_agent dc) weight | _ => Ok (votes_for_agent dc) end in
  let! client := match verdict with ClientWins => add_u128 (votes_for_client dc) weight | _ => Ok (votes_for_client dc) end in
  let! split := match verdict with Split => add_u128 (votes_for_split dc) weight | _ => Ok (votes_for_split dc) end in
  let! total := add_u128 (total_revealed_weight dc) weight in
  Ok {| dc_client := dc_client dc; dc_agent_operator := dc_agent_operator dc;
        dc_status := if bool_decide (dc_status dc = Committing) then Revealing else dc_status dc; dc_round := dc_round dc;
        dc_arbitrators := dc_arbitrators dc; commit_deadline := commit_deadline dc; reveal_deadline := reveal_deadline dc;
        dc_verdict := dc_verdict dc; votes_for_agent := agent; votes_for_client := client; votes_for_split := split;
        total_revealed_weight := total; resolved_at := resolved_at dc; created_at := created_at dc |}.

(** The first reveal of a round moves the case from committing to revealing. *)
Definition reveal_vote (dc : DisputeCase) (vr : DisputeVoteRecord) (effective_stake now : Z) (verdict : DisputeVerdict) (salt : list Z) :
    result (DisputeCase * DisputeVoteRecord) :=
  let! _ := check (bool_decide (dc_status dc = Committing) || bool_decide (dc_status dc = Revealing)) "WrongStatus" in
  let! _ := check (commit_deadline dc <? now) "CommitWindowClosed" in
  let! _ := check (now <=? reveal_deadline dc) "RevealWindowClosed" in
  let! _ := check (negb (bool_decide (verdict = NoVerdict))) "VerdictEncodingInvalid" in
  let! _ := check (negb (vr_revealed vr)) "DuplicateVote" in
  let! _ := check (bool_decide (commit_hash vr = compute_commit_hash verdict salt)) "CommitHashMismatch" in
  let! dc := add_votes verdict effective_stake dc in
  Ok (dc, {| vr_arbitrator := vr_arbitrator vr; vr_round := vr_round vr; commit_hash := commit_hash vr; committed_at := committed_at vr;
             revealed_verdict := verdict; vr_revealed := true; revealed_weight := effective_stake; revealed_at := now |}).

(** The verdict with more than half of the revealed weight. *)
Definition majority (dc : DisputeCase) : DisputeVerdict :=
  let threshold := total_revealed_weight dc / 2 in
  if threshold <? votes_for_agent dc then AgentWins
  else if threshold <? votes_for_client dc then ClientWins
  else if threshold <? votes_for_split dc then Split
  else NoVerdict.

Definition set_outcome (s : DisputeStatus) (round : Z) (v : DisputeVerdict) (dc : DisputeCase) : DisputeCase :=
  {| dc_client := dc_client dc; dc_agent_operator := dc_agent_operator dc; dc_status := s; dc_round := round;
     dc_arbitrators := dc_arbitrators dc; commit_deadline := commit_deadline dc; reveal_deadline := reveal_deadline dc;
     dc_verdict := v; votes_for_agent := votes_for_agent dc; votes_for_client := votes_for_client dc;
     votes_for_split := votes_for_split dc; total_revealed_weight := total_revealed_weight dc; resolved_at := resolved_at dc;
     created_at := created_at dc |}.

Definition tally_round (dc : DisputeCase) (now : Z) : result DisputeCase :=
  let! _ := check (bool_decide (dc_status dc = Revealing)) "WrongStatus" in
  let! _ := check (reveal_deadline dc <? now) "RevealWindowOpen" in
  let winner := majority dc in
  Ok (if negb (bool_decide (winner = NoVerdict)) then set_outcome Tallied (dc_round dc) winner dc
      else if dc_round dc =? 1 then set_outcome Appealed 2 (dc_verdict dc) dc
      else set_outcome Tallied (dc_round dc) NoVerdict dc).

Definition escalate_appeal (cf : DisputeConfig) (dc : DisputeCase) (now : Z) (appellant : pubkey) : result DisputeCase :=
  let! _ := check (negb (cf_paused cf)) "Paused" in
  let! _ := check (bool_decide (dc_status dc = Tallied)) "WrongStatus" in
  let! _ := check (dc_round dc =? 1) "TooManyAppeals" in
  let! appeal_deadline := add_i64 (reveal_deadline dc) (appeal_window_secs cf) in
  let! _ := check (now <=? appeal_deadline) "AppealWindowClosed" in
  let! _ := check (match dc_verdict dc with
                   | AgentWins => Z.eqb appellant (dc_client dc)
                   | ClientWins => Z.eqb appellant (dc_agent_operator dc)
                   | _ => false
                   end) "Unauthorized" in
  Ok (set_outcome Appealed 2 (dc_verdict dc) dc).

Definition resolve_dispute (cf : DisputeConfig) (dc : DisputeCase) (now : Z) : result DisputeCase :=
  let! _ := check (bool_decide (dc_status dc = Tallied)) "WrongStatus" in
  let! _ := (if dc_round dc =? 1 then
               let! appeal_deadline := add_i64 (reveal_deadline dc) (appeal_window_secs cf) in
               check (appeal_deadline <? now) "AppealWindowOpen"
             else Ok tt) in
  Ok {| dc_client := dc_client dc; dc_agent_operator := dc_agent_operator dc; dc_status := Resolved; dc_round := dc_round dc;
        dc_arbitrators := dc_arbitrators dc; commit_deadline := commit_deadline dc; reveal_deadline := reveal_deadline dc;
        dc_verdict := dc_verdict dc; votes_for_agent := votes_for_agent dc; votes_for_client := votes_for_client dc;
        votes_for_split := votes_for_split dc; total_revealed_weight := total_revealed_weight dc; resolved_at := now;
        created_at := created_at dc |}.

(** [pool_count]: the arbitrators of the pool; [selected]: those the random value picks from it. *)
Definition consume_vrf (cf : DisputeConfig) (dc : DisputeCase) (now pool_count : Z) (selected : list pubkey) : result DisputeCase :=
  let! _ := check (bool_decide (dc_status dc = RequestedVrf) || bool_decide (dc_status dc = Appealed)) "WrongStatus" in
  let count := if dc_round dc =? 1 then round1_size cf else round2_size cf in
  let! _ := check (count <=? pool_count) "PoolTooSmall" in
  let! _ := check (Z.of_nat (length selected) =? count) "PoolTooSmall" in
  let! _ := check (bool_decide (NoDup selected)) "DuplicateVote" in
  Ok {| dc_client := dc_client dc; dc_agent_operator := dc_agent_operator dc; dc_status := Committing; dc_round := dc_round dc;
        dc_arbitrators := selected; commit_deadline := now + commit_window_secs cf;
        reveal_deadline := now + commit_window_secs cf + reveal_window_secs cf;
        dc_verdict := NoVerdict; votes_for_agent := 0; votes_for_client := 0; votes_for_split := 0; total_revealed_weight := 0;
        resolved_at := resolved_at dc; created_at := created_at dc |}.

Definition cancel_stale_vrf (cf : DisputeConfig) (dc : DisputeCase) (now : Z) : result DisputeCase :=
  let! _ := check (bool_decide (dc_status dc = RequestedVrf)) "WrongStatus" in
  let! stale_after := add_i64 (created_at dc) (commit_window_secs cf) in
  let! _ := check (stale_after <? now) "VrfNotFulfilled" in
  Ok (with_status Cancelled dc).
End program.
