(* ===== verification/DisputeVote.v ===== *)
(** * DisputeVote: dispute cases in the browser and casting votes in the portal

    Models packages/sdk-ui/src/hooks/disputes.ts: the rows the queries return and
    the instructions the mutations build.  The queries cast Anchor's BNs to bigint
    without converting them, so a row's wide number is an [operand]: a bigint where
    the type is right, a BN where it came from the chain; the arithmetic of both is
    JavaScript's.

    Then packages/sdk-ui/src/hooks/dispute-salt-store.ts and the disputes pages of
    apps/portal/src/app/(app)/disputes: what the pages offer for a case, the two
    dialogs an arbitrator votes with, and the results shown.  The browser's
    localStorage is an insertion-ordered map of texts next to the outside world;
    SHA-256, JSON and the mutations' sending are parameters.  Storage is never
    full. *)

From Stdlib Require Import ZArith QArith Qround.
From stdpp Require Import base list strings.
From S2P Require Import Prelude Bytes Effects JsMap Json Hex Zod X402Auth Pda Idl Ix Decoded Accounts.

#[local] Open Scope Z_scope.
#[local] Open Scope saep_scope.


(** ** BNs where bigints are expected *)

Inductive operand := O_bigint (n : Z) | O_bn (n : Z) | O_text (s : string).

Definition mix_error : string := "Cannot mix BigInt and other types, use explicit conversions".

(** [x.toString()], the text of [`${x}`] *)
Definition operand_text (a : operand) : string := match a with O_bigint n | O_bn n => z_text n | O_text s => s end.

(** [a + b]: a BN has no number for [+], only a text. *)
Definition js_plus (a b : operand) : operand :=
  match a, b with
  | O_bigint x, O_bigint y => O_bigint (x + y)
  | _, _ => O_text (operand_text a +:+ operand_text b)
  end.

(** [a * n], [n] a bigint *)
Definition js_times (a : operand) (n : Z) : result operand :=
  match a with
  | O_bigint x => Ok (O_bigint (x * n))
  | _ => Throw mix_error
  end.

(** [a / b], [a] a bigint that is not divided by zero *)
Definition js_divide (a b : operand) : result operand :=
  match a, b with
  | O_bigint x, O_bigint y => Ok (O_bigint (Z.quot x y))
  | _, _ => Throw mix_error
  end.

(** [a === 0n] *)
Definition is_0n (a : operand) : bool := match a with O_bigint n => n =? 0 | _ => false end.

(** [Number(a)] of a bigint or a BN *)
Definition js_Number_of (a : operand) : Z := match a with O_bigint n | O_bn n => n | O_text _ => 0 end.

(** The argument of [writeBigUInt64LE]: what is no bigint cannot be masked. *)
Definition as_u64_argument (a : operand) : result Z := match a with O_bigint n => Ok n | _ => Throw mix_error end.

(** ** Reading a decoded account *)

(** [raw.f as bigint] *)
Definition get_wide (raw : value) (f : string) : result operand :=
  let! v := prop raw f in match v with V_bn n => Ok (O_bn n) | _ => Throw (wrong_shape "a BN") end.

(** [Number(raw.f)] *)
Definition get_Number (raw : value) (f : string) : result Z :=
  let! v := prop raw f in match v with V_num n | V_bn n => Ok n | _ => Throw (wrong_shape "a number") end.

Record DisputeCaseRow := {
  row_address : pubkey; row_caseId : operand; row_taskId : operand; row_client : pubkey; row_agentOperator : pubkey;
  row_escrowAmount : operand; row_paymentMint : pubkey; row_status : string; row_round : Z; row_arbitrators : list pubkey;
  row_arbitratorCount : Z; row_commitDeadline : Z; row_revealDeadline : Z; row_verdict : string;
  row_votesForAgent : operand; row_votesForClient : operand; row_votesForSplit : operand; row_totalRevealedWeight : operand;
  row_resolvedAt : Z; row_createdAt : Z; row_bump : Z;
}.

Record ArbitratorRow := {
  ar_address : pubkey; ar_operator : pubkey; ar_stakeAccount : pubkey; ar_effectiveStake : operand; ar_effectiveLockEnd : Z;
  ar_status : string; ar_badFaithStrikes : Z; ar_casesParticipated : Z; ar_withdrawUnlockTime : Z; ar_registeredAt : Z;
}.

Record DisputeVoteRow := {
  dv_address : pubkey; dv_caseId : operand; dv_arbitrator : pubkey; dv_round : Z; dv_commitHash : list Z; dv_committedAt : Z;
  dv_revealedVerdict : string; dv_revealed : bool; dv_revealedWeight : operand; dv_revealedAt : Z;
}.

Record AppealRow := {
  ap_address : pubkey; ap_caseId : operand; ap_appellant : pubkey; ap_round : Z; ap_collateralAmount : operand;
  ap_collateralMint : pubkey; ap_filedAt : Z;
}.

Definition mapCase (address : pubkey) (raw : value) : result DisputeCaseRow :=
  let! caseId := get_wide raw "caseId" in
  let! taskId := get_wide raw "taskId" in
  let! client := get_key raw "client" in
  let! agentOperator := get_key raw "agentOperator" in
  let! escrowAmount := get_wide raw "escrowAmount" in
  let! paymentMint := get_key raw "paymentMint" in
  let! status := get_enum raw "status" in
  let! round := get_Number raw "round" in
  let! arbitrators := get_keys raw "arbitrators" in
  let! arbitratorCount := get_Number raw "arbitratorCount" in
  let! commitDeadline := get_Number raw "commitDeadline" in
  let! revealDeadline := get_Number raw "revealDeadline" in
  let! verdict := get_enum raw "verdict" in
  let! votesForAgent := get_wide raw "votesForAgent" in
  let! votesForClient := get_wide raw "votesForClient" in
  let! votesForSplit := get_wide raw "votesForSplit" in
  let! totalRevealedWeight := get_wide raw "totalRevealedWeight" in
  let! resolvedAt := get_Number raw "resolvedAt" in
  let! createdAt := get_Number raw "createdAt" in
  let! bump := get_Number raw "bump" in
  Ok {| row_address := address; row_caseId := caseId; row_taskId := taskId; row_client := client; row_agentOperator := agentOperator;
        row_escrowAmount := escrowAmount; row_paymentMint := paymentMint; row_status := status; row_round := round;
        row_arbitrators := arbitrators; row_arbitratorCount := arbitratorCount; row_commitDeadline := commitDeadline;
        row_revealDeadline := revealDeadline; row_verdict := verdict; row_votesForAgent := votesForAgent;
        row_votesForClient := votesForClient; row_votesForSplit := votesForSplit; row_totalRevealedWeight := totalRevealedWeight;
        row_resolvedAt := resolvedAt; row_createdAt := createdAt; row_bump := bump |}.

Definition mapArbitrator (address : pubkey) (raw : value) : result ArbitratorRow :=
  let! operator := get_key raw "operator" in
  let! stakeAccount := get_key raw "stakeAccount" in
  let! effectiveStake := get_wide raw "effectiveStake" in
  let! effectiveLockEnd := get_Number raw "effectiveLockEnd" in
  let! status := get_enum raw "status" in
  let! badFaithStrikes := get_Number raw "badFaithStrikes" in
  let! casesParticipated := get_Number raw "casesParticipated" in
  let! withdrawUnlockTime := get_Number raw "withdrawUnlockTime" in
  let! registeredAt := get_Number raw "registeredAt" in
  Ok {| ar_address := address; ar_operator := operator; ar_stakeAccount := stakeAccount; ar_effectiveStake := effectiveStake;
        ar_effectiveLockEnd := effectiveLockEnd; ar_status := status; ar_badFaithStrikes := badFaithStrikes;
        ar_casesParticipated := casesParticipated; ar_withdrawUnlockTime := withdrawUnlockTime; ar_registeredAt := registeredAt |}.

Definition mapVote (address : pubkey) (raw : value) : result DisputeVoteRow :=
  let! caseId := get_wide raw "caseId" in
  let! arbitrator := get_key raw "arbitrator" in
  let! round := get_Number raw "round" in
  let! commitHash := get_bytes raw "commitHash" in
  let! committedAt := get_Number raw "committedAt" in
  let! revealedVerdict := get_enum raw "revealedVerdict" in
  let! revealed := get_bool raw "revealed" in
  let! revealedWeight := get_wide raw "revealedWeight" in
  let! revealedAt := get_Number raw "revealedAt" in
  Ok {| dv_address := address; dv_caseId := caseId; dv_arbitrator := arbitrator; dv_round := round; dv_commitHash := commitHash;
        dv_committedAt := committedAt; dv_revealedVerdict := revealedVerdict; dv_revealed := revealed;
        dv_revealedWeight := revealedWeight; dv_revealedAt := revealedAt |}.

Definition mapAppeal (address : pubkey) (raw : value) : result AppealRow :=
  let! caseId := get_wide raw "caseId" in
  let! appellant := get_key raw "appellant" in
  let! round := get_Number raw "round" in
  let! collateralAmount := get_wide raw "collateralAmount" in
  let! collateralMint := get_key raw "collateralMint" in
  let! filedAt := get_Number raw "filedAt" in
  Ok {| ap_address := address; ap_caseId := caseId; ap_appellant := appellant; ap_round := round;
        ap_collateralAmount := collateralAmount; ap_collateralMint := collateralMint; ap_filedAt := filedAt |}.

(** ** Queries *)

Section hooks.
Context {W : Type}.
Variable PublicKey : string -> result pubkey.
Variable findProgramAddressSync : list (list Z) -> pubkey -> result (pubkey * Z).
Variable node : node_ops W.

(** The account at an address, mapped; null if there is none. *)
Definition fetch_row {A} (p : Program) (name : string) (address : result pubkey) (to_row : pubkey -> value -> result A) : io W (option A) :=
  do! k <- io_lift address in
  do! raw <- fetchNullable node p name k in
  match raw with
  | Some v => do! r <- io_lift (to_row k v) in io_ret (Some r)
  | None => io_ret None
  end.

(** The configuration as Anchor decodes it. *)
Definition useDisputeConfig (p : Program) : io W (option value) :=
  fetch_row p "disputeConfig" (key (disputeConfigPda findProgramAddressSync (programId p))) (fun _ v => Ok v).

Definition useDisputeCase (p : Program) (caseId : Z) : io W (option DisputeCaseRow) :=
  fetch_row p "disputeCase" (key (disputeCasePda findProgramAddressSync (programId p) caseId)) mapCase.

Definition useAllDisputeCases (p : Program) : io W (list DisputeCaseRow) :=
  do! raw <- all node p "disputeCase" [] in
  io_lift (map_accounts mapCase raw).

Definition useArbitratorAccount (p : Program) (operator : pubkey) : io W (option ArbitratorRow) :=
  fetch_row p "arbitratorAccount" (key (arbitratorPda findProgramAddressSync (programId p) operator)) mapArbitrator.

Definition useDisputeVoteRecord (p : Program) (caseId : Z) (arbitratorAddr : pubkey) : io W (option DisputeVoteRow) :=
  fetch_row p "disputeVoteRecord" (key (disputeVotePda findProgramAddressSync (programId p) caseId arbitratorAddr)) mapVote.

Definition useAppealRecord (p : Program) (caseId : Z) : io W (option AppealRow) :=
  fetch_row p "appealRecord" (key (appealPda findProgramAddressSync (programId p) caseId)) mapAppeal.

(** ** Mutations: the instructions they build *)

(** The program and the wallet a mutation needs. *)
Definition connected (program publicKey : option pubkey) : result (pubkey * pubkey) :=
  match program, publicKey with
  | None, _ => Throw "Dispute program unavailable"
  | Some _, None => Throw "Wallet not connected"
  | Some p, Some k => Ok (p, k)
  end.

Record CommitDisputeVoteInput := { cv_disputeCase : pubkey; cv_operator : pubkey; cv_caseId : operand; cv_commitHash : list Z }.
Record RevealDisputeVoteInput := { rv_disputeCase : pubkey; rv_caseId : operand; rv_verdict : variant; rv_salt : list Z }.
Record EscalateAppealInput := { ea_disputeCase : pubkey; ea_caseId : operand }.
Record RegisterArbitratorInput := { rg_stakeAccount : pubkey; rg_effectiveStake : Z; rg_lockEnd : Z }.

Definition useCommitDisputeVote (program publicKey : option pubkey) (input : CommitDisputeVoteInput) : result call :=
  let! w := connected program publicKey in
  let! caseId := as_u64_argument (cv_caseId input) in
  buildCommitVoteIx PublicKey findProgramAddressSync w.1 (cv_disputeCase input) w.2 (cv_operator input) caseId (cv_commitHash input).

Definition useRevealDisputeVote (program publicKey : option pubkey) (input : RevealDisputeVoteInput) : result call :=
  let! w := connected program publicKey in
  let! caseId := as_u64_argument (rv_caseId input) in
  buildRevealVoteIx findProgramAddressSync w.1 (rv_disputeCase input) w.2 caseId (rv_verdict input) (rv_salt input).

Definition useTallyRound (program publicKey : option pubkey) (disputeCase : pubkey) : result call :=
  let! w := connected program publicKey in
  buildTallyRoundIx w.1 disputeCase w.2.

Definition useEscalateAppeal (program publicKey : option pubkey) (input : EscalateAppealInput) : result call :=
  let! w := connected program publicKey in
  let! caseId := as_u64_argument (ea_caseId input) in
  buildEscalateAppealIx PublicKey findProgramAddressSync w.1 (ea_disputeCase input) w.2 caseId.

Definition useResolveDispute (program publicKey : option pubkey) (disputeCase : pubkey) : result call :=
  let! w := connected program publicKey in
  buildResolveDisputeIx findProgramAddressSync w.1 disputeCase w.2.

Definition useRegisterArbitrator (program publicKey : option pubkey) (input : RegisterArbitratorInput) : result call :=
  let! w := connected program publicKey in
  buildRegisterArbitratorIx PublicKey findProgramAddressSync w.1 w.2 (rg_stakeAccount input) (rg_effectiveStake input) (rg_lockEnd input).
End hooks.


(** ** dispute-salt-store.ts *)

Definition PREFIX : string := "saep:dispute:salt".

Record StoredSalt := {
  st_salt : string; st_verdict : Z; st_commitHash : string; st_caseId : string; st_round : Z; st_createdAt : Z;
}.

Definition storageKey (caseId : string) (round : Z) (wallet : string) : string :=
  PREFIX +:+ String colon (caseId +:+ String colon (z_text round +:+ String colon wallet)).

Definition computeCommitHash (sha256 : list Z -> list Z) (verdictByte : Z) (salt : list Z) : list Z := sha256 (verdictByte :: salt).

(** [JSON.stringify(entry)] is the text of this object. *)
Definition entry_json (e : StoredSalt) : json :=
  J_obj [("salt", J_str (st_salt e)); ("verdict", J_num (inject_Z (st_verdict e))); ("commitHash", J_str (st_commitHash e));
         ("caseId", J_str (st_caseId e)); ("round", J_num (inject_Z (st_round e))); ("createdAt", J_num (inject_Z (st_createdAt e)))]%string.

(** [JSON.parse(raw) as StoredSalt]: an unchecked cast, as in Decoded. *)
Definition as_number (v : option json) : result Z :=
  match v with
  | Some (J_num q) => if is_integer q then Ok (Qfloor q) else Throw (wrong_shape "an integer")
  | _ => Throw (wrong_shape "a number")
  end.
Definition as_text (v : option json) : result string := match v with Some (J_str s) => Ok s | _ => Throw (wrong_shape "a text") end.

Definition as_stored (v : json) : result StoredSalt :=
  match v with
  | J_obj fs =>
    let! salt := as_text (member "salt" fs) in
    let! verdict := as_number (member "verdict" fs) in
    let! hash := as_text (member "commitHash" fs) in
    let! caseId := as_text (member "caseId" fs) in
    let! round := as_number (member "round" fs) in
    let! createdAt := as_number (member "createdAt" fs) in
    Ok {| st_salt := salt; st_verdict := verdict; st_commitHash := hash; st_caseId := caseId; st_round := round; st_createdAt := createdAt |}
  | _ => Throw (wrong_shape "an object")
  end.

(** The browser's storage. *)
Definition storage : Type := list (string * string).

Record page_lib := {
  sha256 : list Z -> list Z;
  JSON_stringify : json -> string;
  JSON_parse : string -> option json;
  toBase58 : pubkey -> string;
}.

Section store.
Variable L : page_lib.

Definition parse_stored (raw : string) : result StoredSalt :=
  match JSON_parse L raw with
  | Some v => as_stored v
  | None => Throw "SyntaxError"
  end.

Definition saveSalt (caseId : string) (round : Z) (wallet : string) (salt : list Z) (verdict : Z) (commitHash : list Z) (now : Z)
    (s : storage) : storage :=
  map_set (storageKey caseId round wallet)
    (JSON_stringify L (entry_json {| st_salt := bytesToHex salt; st_verdict := verdict; st_commitHash := bytesToHex commitHash;
                                     st_caseId := caseId; st_round := round; st_createdAt := now |})) s.

Definition loadSalt (caseId : string) (round : Z) (wallet : string) (s : storage) : result (option StoredSalt) :=
  match map_get (storageKey caseId round wallet) s with
  | None | Some EmptyString => Ok None
  | Some raw => let! e := parse_stored raw in Ok (Some e)
  end.

Definition deleteSalt (caseId : string) (round : Z) (wallet : string) (s : storage) : storage :=
  map_delete (storageKey caseId round wallet) s.

Definition pending_key (wallet key : string) : bool := String.prefix PREFIX key && ends_with (String colon wallet) key.

Fixpoint pending_entries (wallet : string) (s : storage) : result (list StoredSalt) :=
  match s with
  | [] => Ok []
  | (k, raw) :: rest =>
    if negb (pending_key wallet k) || String.eqb raw "" then pending_entries wallet rest
    else
      let! e := parse_stored raw in
      let! l := pending_entries wallet rest in
      Ok (e :: l)
  end.

Definition listPendingSalts (wallet : string) (s : storage) : result (list StoredSalt) :=
  let! l := pending_entries wallet s in
  Ok (js_sort (fun a b => Z.compare (st_createdAt b) (st_createdAt a)) l).

Definition saltFromHex (hex : string) : result (list Z) := hexPairs hex.
End store.

(** ** types.ts *)

Inductive VoteChoice := agentWins | clientWins | split.

Definition VERDICT_BYTE (c : VoteChoice) : Z := match c with agentWins => 1 | clientWins => 2 | split => 3 end.

Definition isTerminal (status : string) : bool := existsb (String.eqb status) ["resolved"; "cancelled"]%string.

Definition fmtCountdown (seconds : Z) : string :=
  if seconds <=? 0 then "Ended"
  else
    let d := seconds / 86400 in
    let h := (seconds mod 86400) / 3600 in
    let m := (seconds mod 3600) / 60 in
    if 0 <? d then z_text d +:+ "d " +:+ z_text h +:+ "h"
    else if 0 <? h then z_text h +:+ "h " +:+ z_text m +:+ "m"
    else
      let s := seconds mod 60 in
      if 0 <? m then z_text m +:+ "m " +:+ z_text s +:+ "s" else z_text s +:+ "s".

(** ** vote-results.tsx *)

(** [Number((votes * 1000n) / total) / 10] *)
Definition percentage (votes total : operand) : result Q :=
  let! scaled := js_times votes 1000 in
  let! q := js_divide scaled total in
  Ok (inject_Z (js_Number_of q) / 10)%Q.

(** The three percentages, or nothing while no vote has been revealed. *)
Definition VoteResults (dispute : DisputeCaseRow) : result (option (Q * Q * Q)) :=
  let total := js_plus (js_plus (row_votesForAgent dispute) (row_votesForClient dispute)) (row_votesForSplit dispute) in
  if is_0n total then Ok None
  else
    let! a := percentage (row_votesForAgent dispute) total in
    let! c := percentage (row_votesForClient dispute) total in
    let! s := percentage (row_votesForSplit dispute) total in
    Ok (Some (a, c, s)).

(** ** [caseId]/page.tsx: what the page offers *)

Inductive arbitrator_offer := CommitButton | CommittedNote | RevealButton | NoAction.

(** [ArbitratorActions], for a selected arbitrator. *)
Definition arbitrator_offers (status : string) (commitDeadline revealDeadline now : Z) (stored : bool) : list arbitrator_offer :=
  let canCommit := String.eqb status "committing" && (now <? commitDeadline) in
  let canReveal := String.eqb status "revealing" && (now <? revealDeadline) in
  concat
    [if canCommit && negb stored then [CommitButton] else [];
     if canCommit && stored then [CommittedNote] else [];
     if canReveal then [RevealButton] else [];
     if negb (String.eqb status "committing") && negb (String.eqb status "revealing") then [NoAction] else []].

(** [AppealSection]: the seconds left to appeal, if the wallet may. *)
Definition appeal_offered (status verdict : string) (is_client is_agent : bool) (revealDeadline appealWindowSecs now : Z) : option Z :=
  if negb (String.eqb status "tallied") then None
  else
    let isLoser := String.eqb verdict "agentWins" && is_client || String.eqb verdict "clientWins" && is_agent in
    if negb isLoser then None
    else
      let remaining := revealDeadline + appealWindowSecs - now in
      if remaining <=? 0 then None else Some remaining.

(** [CrankerActions] *)
Definition canTally (status : string) (revealDeadline now : Z) : bool := String.eqb status "revealing" && (revealDeadline <=? now).
Definition canResolve (status : string) : bool := String.eqb status "tallied" || String.eqb status "appealed".

Section pages.
Context {W : Type}.
Variable L : page_lib.

(** What the page of a case offers the wallet. *)
Definition ArbitratorActions (dispute : DisputeCaseRow) (wallet : pubkey) (now : Z) (s : storage) : result (list arbitrator_offer) :=
  if negb (existsb (Z.eqb wallet) (row_arbitrators dispute)) then Ok []
  else
    let! stored := loadSalt L (operand_text (row_caseId dispute)) (row_round dispute) (toBase58 L wallet) s in
    Ok (arbitrator_offers (row_status dispute) (row_commitDeadline dispute) (row_revealDeadline dispute) now
          (match stored with Some _ => true | None => false end)).

(** ** page.tsx *)

Definition activeCases (disputes : list DisputeCaseRow) : list DisputeCaseRow :=
  List.filter (fun d => negb (isTerminal (row_status d))) disputes.

Definition myCases (wallet : pubkey) (disputes : list DisputeCaseRow) : list DisputeCaseRow :=
  List.filter (fun d => Z.eqb (row_client d) wallet || Z.eqb (row_agentOperator d) wallet || existsb (Z.eqb wallet) (row_arbitrators d))
    disputes.

Definition arbCases (wallet : pubkey) (disputes : list DisputeCaseRow) : list DisputeCaseRow :=
  List.filter (fun d => existsb (Z.eqb wallet) (row_arbitrators d)) disputes.

(** The cases with a salt of the wallet; a storage that cannot be read has none. *)
Definition pendingCaseIds (wallet : pubkey) (s : storage) : list string :=
  match listPendingSalts L (toBase58 L wallet) s with
  | Ok l => map st_caseId l
  | Throw _ => []
  end.

Definition needsReveal (pending : list string) (cases : list DisputeCaseRow) : list DisputeCaseRow :=
  List.filter (fun c => String.eqb (row_status c) "revealing" && existsb (String.eqb (operand_text (row_caseId c))) pending) cases.

Definition needsCommit (cases : list DisputeCaseRow) : list DisputeCaseRow :=
  List.filter (fun c => String.eqb (row_status c) "committing") cases.

(** ** The dialogs *)

Record vote_ops := {
  getRandomValues : nat -> io W (list Z);
  Date_now : io W Z;
  (** [mutateAsync] of the two hooks *)
  commit : CommitDisputeVoteInput -> io W unit;
  reveal : RevealDisputeVoteInput -> io W unit;
}.
Variable ops : vote_ops.

(** The storage of the browser and the outside world. *)
Definition browser : Type := storage * W.

Definition remote {A} (m : io W A) : io browser A := fun b =>
  match m b.2 with
  | Some (r, w') => Some (r, (b.1, w'))
  | None => None
  end.

Definition store (f : storage -> storage) : io browser unit := fun b => Some (Ok tt, (f b.1, b.2)).

(** What a dialog shows after its button was pressed. *)
Inductive shown := Unchanged | Failed (message : string) | Committed (saltHex : string) | Revealed.

(** [try { ... } catch (err) { setError(err.message) }] *)
Definition or_failed (m : io browser shown) : io browser shown := io_catch m (fun e => io_ret (Failed e)).

(** commit-vote-modal.tsx, [onSubmit] *)
Definition CommitVoteModal (dispute : DisputeCaseRow) (choice : option VoteChoice) (publicKey : option pubkey) : io browser shown :=
  match choice, publicKey with
  | Some c, Some wallet =>
    or_failed (
      do! salt <- remote (getRandomValues ops 32) in
      let verdictByte := VERDICT_BYTE c in
      let hash := computeCommitHash (sha256 L) verdictByte salt in
      do! now <- remote (Date_now ops) in
      do! _ <- store (saveSalt L (operand_text (row_caseId dispute)) (row_round dispute) (toBase58 L wallet) salt verdictByte hash now) in
      do! _ <- remote (commit ops {| cv_disputeCase := row_address dispute; cv_operator := wallet; cv_caseId := row_caseId dispute;
                                     cv_commitHash := hash |}) in
      io_ret (Committed (bytesToHex salt)))
  | _, _ => io_ret Unchanged
  end.

(** reveal-vote-modal.tsx *)
Definition verdictEnumFromByte (b : Z) : variant :=
  if b =? 1 then "agentWins" else if b =? 2 then "clientWins" else if b =? 3 then "split" else "none".

(** The salt and the verdict byte a reveal uses: those stored, or the pasted salt with byte 0. *)
Definition revealed_pair (stored : option StoredSalt) (manualHex : string) : result (option (list Z * Z)) :=
  match stored with
  | Some e => let! salt := saltFromHex (st_salt e) in Ok (Some (salt, st_verdict e))
  | None =>
    let trimmed := trim manualHex in
    if negb (String.length trimmed =? 64)%nat then Ok None
    else let! salt := saltFromHex trimmed in Ok (Some (salt, 0))
  end.

(** [onSubmit]; [stored] is what the dialog found when it was opened. *)
Definition RevealVoteModal (dispute : DisputeCaseRow) (stored : option StoredSalt) (manualHex : string) (publicKey : option pubkey) :
    io browser shown :=
  match publicKey with
  | None => io_ret Unchanged
  | Some wallet =>
    or_failed (
      do! found <- io_lift (revealed_pair stored manualHex) in
      match found with
      | None => io_ret (Failed "Salt must be 64 hex characters (32 bytes)")
      | Some (salt, verdictByte) =>
        do! _ <- remote (reveal ops {| rv_disputeCase := row_address dispute; rv_caseId := row_caseId dispute;
                                       rv_verdict := verdictEnumFromByte verdictByte; rv_salt := salt |}) in
        do! _ <- store (deleteSalt (operand_text (row_caseId dispute)) (row_round dispute) (toBase58 L wallet)) in
        io_ret Revealed
      end)
  end.

(** Opening the dialog looks the salt up. *)
Definition opened (dispute : DisputeCaseRow) (wallet : pubkey) : io browser (option StoredSalt) := fun b =>
  Some (loadSalt L (operand_text (row_caseId dispute)) (row_round dispute) (toBase58 L wallet) b.1, b).
End pages.

(** The mutations the pages use: the hooks above build the instruction, and
    [useSendTransaction] sends it. *)
Section wired.
Context {W : Type}.
Variable PublicKey : string -> result pubkey.
Variable findProgramAddressSync : list (list Z) -> pubkey -> result (pubkey * Z).
Variable randomValues : nat -> io W (list Z).
Variable now : io W Z.
Variable sendTransaction : call -> io W unit.

Definition wired_ops (program publicKey : option pubkey) : vote_ops (W := W) := {|
  getRandomValues := randomValues;
  Date_now := now;
  commit := fun input =>
    do! ix <- io_lift (useCommitDisputeVote PublicKey findProgramAddressSync program publicKey input) in sendTransaction ix;
  reveal := fun input =>
    do! ix <- io_lift (useRevealDisputeVote findProgramAddressSync program publicKey input) in sendTransaction ix;
|}.
End wired.
