(* ===== verification/DisputeSafety.v ===== *)
(** * DisputeSafety: votes that count and votes that cannot

    Theorems on DisputeVote and DisputeProgram: no vote on a case read from the chain
    is ever sent, though the page says it was; a pasted backup salt cannot be
    revealed; cases read from the chain break the results; a vote that failed to be
    sent looks committed; in the portal no case ever reaches its reveals.  For a row
    with the bigints its type promises, a vote that was committed is found again by
    the reveal dialog and counts.  A concrete browser satisfies the assumptions and
    the theorems are applied to it. *)

From Stdlib Require Import ZArith QArith Qround Lia Lqa Sorted Permutation Ascii.
From stdpp Require Import base list strings.
From S2P Require Import Prelude Bytes Effects JsMap Json Hex Zod X402Auth Pda Idl IdlTypes IdlInstructions Ix Decoded Accounts AccountsSafety.
From S2P Require Import DisputeProgram DisputeVote.

#[local] Open Scope Z_scope.
#[local] Open Scope saep_scope.

(** ** Rows of decoded cases *)

Lemma got_key tys v f : has_field tys v f T_pubkey -> exists k, get_key v f = Ok k.
Proof. intros (x & Hx & Ht). unfold get_key. rewrite Hx. destruct x; try done. eauto. Qed.

Lemma got_wide tys v f t : has_field tys v f t -> AccountsSafety.wide t = true -> exists n, get_wide v f = Ok (O_bn n).
Proof. intros (x & Hx & Ht) Hw. unfold get_wide. rewrite Hx. destruct t, x; try done; by eexists. Qed.

Lemma got_Number tys v f t : has_field tys v f t -> AccountsSafety.wide t || narrow t = true -> exists n, get_Number v f = Ok n.
Proof. intros (x & Hx & Ht) Hw. unfold get_Number. rewrite Hx. destruct t, x; try done; by eexists. Qed.

Lemma got_enum tys v f name vs : has_field tys v f (T_defined name) -> map_get name tys = Some (TD_enum vs) ->
  exists var, get_enum v f = Ok var.
Proof.
  intros (x & Hx & Ht) Hn. unfold get_enum. rewrite Hx. destruct (enum_typed _ _ _ _ Ht Hn) as (var & ? & ? & -> & _). by exists var.
Qed.

Lemma got_keys tys v f : has_field tys v f (T_vec T_pubkey) -> exists ks, get_keys v f = Ok ks.
Proof.
  intros (x & Hx & Ht). unfold get_keys. rewrite Hx. destruct x; try done. simpl.
  destruct (list_typed _ _ _ Ht) as (e & [He|[n He]] & Hl); simpl in He; simplify_eq. clear Ht Hx.
  induction l as [|v' l IH]; [by exists []|]. destruct IH as [ks E]; [intros w Hw; apply Hl; by right|]. simpl. rewrite E. simpl.
  specialize (Hl v' (list_elem_of_here _ _)). destruct v'; try done. eauto.
Qed.

(** Read the next field of a row. *)
Ltac got_field r P tac :=
  let E := fresh "E" in
  assert (exists x, r = Ok (P x)) as (? & E) by tac; rewrite E; clear E; cbn [result_bind].
Ltac got_next H :=
  match goal with
  | |- context [result_bind (get_wide ?v ?f) _] => got_field (get_wide v f) O_bn ltac:(eapply got_wide; [field_of H|reflexivity])
  | |- context [result_bind (get_Number ?v ?f) _] => got_field (get_Number v f) (@id Z) ltac:(eapply got_Number; [field_of H|reflexivity])
  | |- context [result_bind (get_key ?v ?f) _] => got_field (get_key v f) (@id pubkey) ltac:(eapply got_key; field_of H)
  | |- context [result_bind (get_enum ?v ?f) _] => got_field (get_enum v f) (@id string) ltac:(eapply got_enum; [field_of H|reflexivity])
  | |- context [result_bind (get_keys ?v ?f) _] => got_field (get_keys v f) (@id (list pubkey)) ltac:(eapply got_keys; field_of H)
  end.

(** A case of the chain becomes a row whose wide numbers are BNs. *)
Lemma chain_row address v : has_type (types dispute_arbitration_idl) v (T_defined "disputeCase") = true ->
  exists row caseId a c s, mapCase address v = Ok row /\ row_address row = address /\ row_caseId row = O_bn caseId /\
  row_votesForAgent row = O_bn a /\ row_votesForClient row = O_bn c /\ row_votesForSplit row = O_bn s.
Proof. intros H. open_struct H. unfold mapCase. repeat got_next H. by eexists _, _, _, _, _. Qed.

(** The results of a case read from the chain throw, and so do the instructions of
    its votes and its appeal: the casts promise bigints and the decoder gives BNs. *)
Theorem chain_cases_unusable PublicKey find address v program wallet operator hash verdict salt :
  has_type (types dispute_arbitration_idl) v (T_defined "disputeCase") = true ->
  exists row, mapCase address v = Ok row /\ VoteResults row = Throw mix_error /\
  useCommitDisputeVote PublicKey find (Some program) (Some wallet)
    {| cv_disputeCase := address; cv_operator := operator; cv_caseId := row_caseId row; cv_commitHash := hash |} = Throw mix_error /\
  useRevealDisputeVote find (Some program) (Some wallet)
    {| rv_disputeCase := address; rv_caseId := row_caseId row; rv_verdict := verdict; rv_salt := salt |} = Throw mix_error /\
  useEscalateAppeal PublicKey find (Some program) (Some wallet) {| ea_disputeCase := address; ea_caseId := row_caseId row |} = Throw mix_error.
Proof.
  intros H. destruct (chain_row address v H) as (row & caseId & a & c & s & Hr & _ & Hid & Ha & Hc & Hs).
  exists row. split; [done|]. unfold VoteResults, useCommitDisputeVote, useRevealDisputeVote, useEscalateAppeal. cbn [cv_caseId rv_caseId ea_caseId].
  by rewrite Hid, Ha, Hc, Hs.
Qed.

(** With the bigints the type promises, the percentages lie between 0 and 100 and add
    up to 100, short of rounding. *)
Lemma quot_tenth x t : 0 <= x <= t -> 0 < t -> 0 <= Z.quot (x * 1000) t <= 1000 /\ x * 1000 - t < Z.quot (x * 1000) t * t <= x * 1000.
Proof. intros Hx Ht. rewrite Z.quot_div_nonneg by lia. pose proof (Z.div_mod (x * 1000) t). pose proof (Z.mod_pos_bound (x * 1000) t). nia. Qed.

Theorem vote_percentages row a c s : row_votesForAgent row = O_bigint a -> row_votesForClient row = O_bigint c ->
  row_votesForSplit row = O_bigint s -> 0 <= a -> 0 <= c -> 0 <= s ->
  (a + c + s = 0 /\ VoteResults row = Ok None) \/
  exists pa pc ps, VoteResults row = Ok (Some (pa, pc, ps)) /\
  (0 <= pa /\ 0 <= pc /\ 0 <= ps /\ pa + pc + ps <= 100 /\ 100 - (3 # 10) < pa + pc + ps)%Q.
Proof.
  intros Ha Hc Hs H1 H2 H3. unfold VoteResults. rewrite Ha, Hc, Hs. cbn [js_plus is_0n].
  destruct (Z.eqb_spec (a + c + s) 0) as [E|E]; [by left|right]. cbn [percentage js_times js_divide result_bind js_Number_of].
  eexists _, _, _. split; [reflexivity|]. set (t := a + c + s) in *.
  destruct (quot_tenth a t ltac:(lia) ltac:(lia)) as [Ba Qa], (quot_tenth c t ltac:(lia) ltac:(lia)) as [Bc Qc],
    (quot_tenth s t ltac:(lia) ltac:(lia)) as [Bs Qs].
  assert (Hsum : 997 < Z.quot (a * 1000) t + Z.quot (c * 1000) t + Z.quot (s * 1000) t <= 1000) by nia.
  set (x := Z.quot (a * 1000) t) in *. set (y := Z.quot (c * 1000) t) in *. set (z := Z.quot (s * 1000) t) in *.
  assert (HxQ : (0 <= inject_Z x)%Q) by (change 0%Q with (inject_Z 0); rewrite <- Zle_Qle; lia).
  assert (HyQ : (0 <= inject_Z y)%Q) by (change 0%Q with (inject_Z 0); rewrite <- Zle_Qle; lia).
  assert (HzQ : (0 <= inject_Z z)%Q) by (change 0%Q with (inject_Z 0); rewrite <- Zle_Qle; lia).
  assert (Hlo : (997 < inject_Z x + inject_Z y + inject_Z z)%Q)
    by (rewrite <- !inject_Z_plus; change 997%Q with (inject_Z 997); rewrite <- Zlt_Qlt; lia).
  assert (Hhi : (inject_Z x + inject_Z y + inject_Z z <= 1000)%Q)
    by (rewrite <- !inject_Z_plus; change 1000%Q with (inject_Z 1000); rewrite <- Zle_Qle; lia).
  unfold Qdiv. change (/ 10)%Q with (1 # 10)%Q. lra.
Qed.

(** ** The keys of the salts *)

Lemma storageKey_inj c r w c' r' w' : occurs colon w = false -> occurs colon w' = false ->
  storageKey c r w = storageKey c' r' w' -> c = c' /\ r = r' /\ w = w'.
Proof.
  unfold storageKey. intros Hw Hw' H. apply string_app_inj_l in H. injection H as H.
  assert (E : forall a b d : string, (a +:+ String colon (b +:+ String colon d) = (a +:+ String colon b) +:+ String colon d)%string)
    by (intros a b d; by rewrite string_app_assoc).
  rewrite !E in H. apply last_sep_inj in H as [H ->]; [|done|done]. apply last_sep_inj in H as [-> H]; [|apply colon_free_z..].
  by apply z_text_inj in H as ->.
Qed.

(** ** Votes *)

(** A vote that was sent. *)
Inductive ballot := B_commit (i : CommitDisputeVoteInput) | B_reveal (i : RevealDisputeVoteInput).

Definition choice_verdict (c : VoteChoice) : DisputeVerdict :=
  match c with agentWins => AgentWins | clientWins => ClientWins | split => Split end.

(** The verdict the program decodes from the enum's name. *)
Definition decoded_verdict (name : variant) : DisputeVerdict :=
  if String.eqb name "agentWins" then AgentWins else if String.eqb name "clientWins" then ClientWins
  else if String.eqb name "split" then Split else NoVerdict.

Lemma choice_decoded c : decoded_verdict (verdictEnumFromByte (VERDICT_BYTE c)) = choice_verdict c.
Proof. by destruct c. Qed.

Lemma choice_byte c : verdict_byte (choice_verdict c) = VERDICT_BYTE c.
Proof. by destruct c. Qed.

Section voting.
Context {W : Type}.
Variable L : page_lib.
Variable ops : vote_ops (W := W).
Variable votes : W -> list ballot.

(** JSON and base58 texts. *)
Record text_laws : Prop := {
  law_json : forall v, JSON_parse L (JSON_stringify L v) = Some v;
  law_json_text : forall v, JSON_stringify L v <> ""%string;
  law_base58 : forall k, occurs colon (toBase58 L k) = false;
}.

(** A mutation that resolves has sent its vote; one that rejects has sent it (and its
    confirmation failed) or not. *)
Definition may_send (i : ballot) (w : W) (r : result unit) (w' : W) : Prop :=
  match r with
  | Ok _ => votes w' = votes w ++ [i]
  | Throw _ => votes w' = votes w \/ votes w' = votes w ++ [i]
  end.

Record page_laws : Prop := {
  law_texts : text_laws;
  law_random : forall n w r w', getRandomValues ops n w = Some (r, w') ->
    votes w' = votes w /\ exists b, r = Ok b /\ length b = n /\ Forall is_byte b;
  law_now : forall w r w', Date_now ops w = Some (r, w') -> votes w' = votes w /\ exists n, r = Ok n;
  law_commit : forall i w r w', commit ops i w = Some (r, w') -> may_send (B_commit i) w r w';
  law_reveal : forall i w r w', reveal ops i w = Some (r, w') -> may_send (B_reveal i) w r w';
}.

Lemma stored_read e : as_stored (entry_json e) = Ok e.
Proof.
  unfold as_stored, entry_json. cbn. rewrite !is_integer_inject. cbn. unfold Qfloor. cbn. rewrite !Z.div_1_r. by destruct e.
Qed.

(** What a dialog saved is what it finds. *)
Lemma load_saved (texts : text_laws) c r w salt v h now s : loadSalt L c r w (saveSalt L c r w salt v h now s) =
  Ok (Some {| st_salt := bytesToHex salt; st_verdict := v; st_commitHash := bytesToHex h; st_caseId := c; st_round := r; st_createdAt := now |}).
Proof.
  unfold loadSalt, saveSalt. rewrite map_get_set_eq. set (e := Build_StoredSalt _ _ _ _ _ _).
  pose proof (law_json_text texts (entry_json e)). destruct (JSON_stringify L (entry_json e)) as [|a t] eqn:E; [done|].
  unfold parse_stored. rewrite <- E, (law_json texts), stored_read. done.
Qed.

Hypothesis laws : page_laws.

Definition same_key (d : DisputeCaseRow) (k : pubkey) (d' : DisputeCaseRow) (k' : pubkey) : Prop :=
  operand_text (row_caseId d) = operand_text (row_caseId d') /\ row_round d = row_round d' /\ toBase58 L k = toBase58 L k'.

(** The storage's key of a case, its round and a wallet. *)
Definition key_of (d : DisputeCaseRow) (k : pubkey) : string := storageKey (operand_text (row_caseId d)) (row_round d) (toBase58 L k).

Lemma key_of_inj d k d' k' : key_of d k = key_of d' k' -> same_key d k d' k'.
Proof. intros (? & ? & ?)%storageKey_inj; [done|apply (law_base58 (law_texts laws))..]. Qed.

(** What else happens in the browser: dialogs on other cases, rounds and wallets, and
    whatever the world does. *)
Inductive meanwhile (d : DisputeCaseRow) (k : pubkey) (b : browser (W := W)) : browser -> Prop :=
| mw_start : meanwhile d k b b
| mw_world s w w' : meanwhile d k b (s, w) -> meanwhile d k b (s, w')
| mw_commit b1 d' c k' r b2 : meanwhile d k b b1 -> ~ same_key d k d' k' ->
    CommitVoteModal L ops d' c (Some k') b1 = Some (r, b2) -> meanwhile d k b b2
| mw_reveal b1 d' e t k' r b2 : meanwhile d k b b1 -> ~ same_key d k d' k' ->
    RevealVoteModal L ops d' e t (Some k') b1 = Some (r, b2) -> meanwhile d k b b2.

(** The two dialogs, step by step. *)
Lemma commit_run d c k b r b' : CommitVoteModal L ops d (Some c) (Some k) b = Some (r, b') ->
  exists salt now, length salt = 32%nat /\ Forall is_byte salt /\
  let hash := computeCommitHash (DisputeVote.sha256 L) (VERDICT_BYTE c) salt in
  b'.1 = saveSalt L (operand_text (row_caseId d)) (row_round d) (toBase58 L k) salt (VERDICT_BYTE c) hash now b.1 /\
  ((exists h, r = Ok (Committed h)) ->
   votes b'.2 = votes b.2 ++ [B_commit {| cv_disputeCase := row_address d; cv_operator := k; cv_caseId := row_caseId d; cv_commitHash := hash |}]).
Proof.
  unfold CommitVoteModal, or_failed, io_catch, io_bind, remote, store. intros H.
  destruct (getRandomValues ops 32 b.2) as [[r1 w1]|] eqn:E1; [|done]. destruct (law_random laws _ _ _ _ E1) as [Hv1 (salt & -> & Hl & Hb)].
  cbn in H. destruct (Date_now ops w1) as [[r2 w2]|] eqn:E2; [|done]. destruct (law_now laws _ _ _ E2) as [Hv2 [now ->]]. cbn in H.
  destruct (commit ops _ w2) as [[r3 w3]|] eqn:E3; [|done]. pose proof (law_commit laws _ _ _ _ E3) as Hv3. exists salt, now.
  split; [done|]. split; [done|]. cbv zeta. destruct r3; cbn in H; injection H as <- <-; cbn; (split; [done|]); intros [h Hh]; [|done].
  cbn in Hv3. by rewrite Hv3, Hv2, Hv1.
Qed.

Lemma reveal_run d stored t k b r b' : RevealVoteModal L ops d stored t (Some k) b = Some (r, b') ->
  (b' = b /\ r <> Ok Revealed) \/
  exists salt byte, revealed_pair stored t = Ok (Some (salt, byte)) /\
  let i := {| rv_disputeCase := row_address d; rv_caseId := row_caseId d; rv_verdict := verdictEnumFromByte byte; rv_salt := salt |} in
  (r = Ok Revealed /\ votes b'.2 = votes b.2 ++ [B_reveal i] /\ b'.1 = map_delete (key_of d k) b.1 \/
   r <> Ok Revealed /\ (votes b'.2 = votes b.2 \/ votes b'.2 = votes b.2 ++ [B_reveal i]) /\ b'.1 = b.1).
Proof.
  unfold RevealVoteModal, or_failed, io_catch, io_bind, io_lift. intros H.
  destruct (revealed_pair stored t) as [[[salt byte]|]|e] eqn:E.
  - right. exists salt, byte. split; [done|]. cbv zeta. unfold remote, store in H. destruct (reveal ops _ b.2) as [[r1 w1]|] eqn:E1; [|done].
    pose proof (law_reveal laws _ _ _ _ E1) as Hv. destruct r1; cbn in H; injection H as <- <-; cbn in *; [by left|by right].
  - left. injection H as <- <-. by destruct b.
  - left. injection H as <- <-. by destruct b.
Qed.

Lemma meanwhile_kept d k b b' : meanwhile d k b b' -> map_get (key_of d k) b'.1 = map_get (key_of d k) b.1.
Proof.
  induction 1 as [|s w w' _ IH|b1 d' c k' r b2 _ IH Hk H|b1 d' e t k' r b2 _ IH Hk H]; [done|done| |]; rewrite <- IH.
  - destruct c as [c|]; [|by injection H as _ <-].
    destruct (commit_run _ _ _ _ _ _ H) as (salt & now & _ & _ & Hs & _). rewrite Hs. unfold saveSalt.
    apply map_get_set_ne. intros E. by apply Hk, key_of_inj.
  - destruct (reveal_run _ _ _ _ _ _ _ H) as [[-> _]|(salt & byte & _ & [(_ & _ & ->)|(_ & _ & ->)])]; [done| |done].
    apply map_get_delete_ne. intros E. by apply Hk, key_of_inj.
Qed.

Lemma bytes_salt b : Forall is_byte b -> length b = 32%nat -> saltFromHex (bytesToHex b) = Ok b.
Proof. intros Hb Hl. apply hexPairs_bytes; [done|]. by intros ->. Qed.

(** The weight is added to the votes for the choice, and to the total. *)
Definition tallied_for (c : VoteChoice) (stake : Z) (dc dc' : DisputeCase) : Prop :=
  votes_for_agent dc' = votes_for_agent dc + (match c with agentWins => stake | _ => 0 end) /\
  votes_for_client dc' = votes_for_client dc + (match c with clientWins => stake | _ => 0 end) /\
  votes_for_split dc' = votes_for_split dc + (match c with split => stake | _ => 0 end) /\
  total_revealed_weight dc' = total_revealed_weight dc + stake.

(** The program counts a reveal that opens the vote's commitment within the window. *)
Definition counts (j : RevealDisputeVoteInput) (c : VoteChoice) (hash : list Z) : Prop :=
  forall dc vr stake now, dc_status dc = Committing \/ dc_status dc = Revealing -> commit_deadline dc < now <= reveal_deadline dc ->
  commit_hash vr = hash -> vr_revealed vr = false -> 0 <= stake ->
  0 <= votes_for_agent dc -> 0 <= votes_for_client dc -> 0 <= votes_for_split dc ->
  votes_for_agent dc + votes_for_client dc + votes_for_split dc = total_revealed_weight dc -> total_revealed_weight dc + stake < 2 ^ 128 ->
  exists dc' vr', reveal_vote (DisputeVote.sha256 L) dc vr stake now (decoded_verdict (rv_verdict j)) (rv_salt j) = Ok (dc', vr') /\
  revealed_verdict vr' = choice_verdict c /\ revealed_weight vr' = stake /\ dc_status dc' = Revealing /\
  tallied_for c stake dc dc'.

Lemma add_votes_ok c dc stake : 0 <= stake -> 0 <= votes_for_agent dc -> 0 <= votes_for_client dc -> 0 <= votes_for_split dc ->
  votes_for_agent dc + votes_for_client dc + votes_for_split dc = total_revealed_weight dc -> total_revealed_weight dc + stake < 2 ^ 128 ->
  exists dc', add_votes (choice_verdict c) stake dc = Ok dc' /\
  dc_status dc' = (if bool_decide (dc_status dc = Committing) then Revealing else dc_status dc) /\ tallied_for c stake dc dc'.
Proof.
  intros. assert (Hadd : forall x, 0 <= x <= total_revealed_weight dc -> add_u128 x stake = Ok (x + stake)).
  { intros x Hx. unfold add_u128. destruct (Z.ltb_spec (x + stake) (2 ^ 128)); [done|lia]. }
  unfold add_votes. destruct c; cbn [choice_verdict result_bind]; rewrite !Hadd by lia; cbn [result_bind];
    (eexists; split; [reflexivity|]); cbn; (split; [done|]); unfold tallied_for; cbn; lia.
Qed.

Lemma pair_counts d i e c salt now : Forall is_byte salt -> length salt = 32%nat ->
  st_salt e = bytesToHex salt -> st_verdict e = VERDICT_BYTE c -> st_createdAt e = now ->
  revealed_pair (Some e) i = Ok (Some (salt, VERDICT_BYTE c)) /\
  counts {| rv_disputeCase := row_address d; rv_caseId := row_caseId d; rv_verdict := verdictEnumFromByte (VERDICT_BYTE c); rv_salt := salt |} c
    (computeCommitHash (DisputeVote.sha256 L) (VERDICT_BYTE c) salt).
Proof.
  intros Hb Hl Hs Hv _. split.
  - unfold revealed_pair. by rewrite Hs, bytes_salt, Hv.
  - intros dc vr stake t Hst Ht Hh Hr H0 H1 H2 H3 H4 H5. unfold reveal_vote. cbn [rv_verdict rv_salt].
    rewrite choice_decoded, Hh, Hr. unfold compute_commit_hash, computeCommitHash. rewrite choice_byte.
    rewrite (bool_decide_eq_true_2 (_ = _ :> list Z)) by done.
    replace (bool_decide (dc_status dc = Committing) || bool_decide (dc_status dc = Revealing)) with true
      by (symmetry; apply orb_true_iff; rewrite !bool_decide_eq_true; done).
    destruct (Z.ltb_spec (commit_deadline dc) t), (Z.leb_spec t (reveal_deadline dc)); try lia. cbn [Prelude.check result_bind negb].
    rewrite bool_decide_eq_false_2 by (by destruct c). cbn [negb Prelude.check result_bind].
    destruct (add_votes_ok c dc stake) as (dc' & -> & Hs' & Htot); try done. cbn [result_bind].
    eexists _, _. split; [reflexivity|]. cbn. split; [done|]. split; [done|]. split; [|done]. rewrite Hs'.
    destruct Hst as [->| ->]; [by rewrite bool_decide_eq_true_2|by rewrite bool_decide_eq_false_2].
Qed.

(** With the bigints the row's type promises, a vote committed in the portal can be
    revealed in it: whatever the dialogs do for other cases, rounds and wallets in
    between, opening the reveal dialog finds the vote, and when the dialog reports it
    revealed, what it sent is a reveal the program counts for the chosen verdict. *)
Theorem vote_opens d c k b h b1 : CommitVoteModal L ops d (Some c) (Some k) b = Some (Ok (Committed h), b1) ->
  exists i, votes b1.2 = votes b.2 ++ [B_commit i] /\ cv_caseId i = row_caseId d /\
  forall d' b2, meanwhile d k b1 b2 -> operand_text (row_caseId d') = operand_text (row_caseId d) -> row_round d' = row_round d ->
  exists e, opened L d' k b2 = Some (Ok (Some e), b2) /\
  forall t b3, RevealVoteModal L ops d' (Some e) t (Some k) b2 = Some (Ok Revealed, b3) ->
  exists j, votes b3.2 = votes b2.2 ++ [B_reveal j] /\ rv_caseId j = row_caseId d' /\ counts j c (cv_commitHash i).
Proof.
  intros H. destruct (commit_run _ _ _ _ _ _ H) as (salt & now & Hl & Hb & Hs & Hv). cbv zeta in *.
  eexists. split; [apply Hv; by eexists|]. split; [done|]. cbn [cv_commitHash]. intros d' b2 Hm Hid Hround.
  set (hash := computeCommitHash _ _ salt) in *.
  set (e := {| st_salt := bytesToHex salt; st_verdict := VERDICT_BYTE c; st_commitHash := bytesToHex hash;
               st_caseId := operand_text (row_caseId d); st_round := row_round d; st_createdAt := now |}).
  destruct (pair_counts d' "" e c salt now Hb Hl) as [_ Hcounts]; [done..|].
  exists e. split.
  - unfold opened. rewrite Hid, Hround. do 2 f_equal. unfold loadSalt. fold (key_of d k). rewrite (meanwhile_kept _ _ _ _ Hm), Hs.
    apply (load_saved (law_texts laws) _ _ _ salt _ hash).
  - intros t b3 Hr. destruct (pair_counts d' t e c salt now Hb Hl) as [Hp _]; [done..|].
    destruct (reveal_run _ _ _ _ _ _ _ Hr) as [(_ & Hnr)|(salt' & byte & Hp' & [(_ & Hv' & _)|(Hnr & _)])]; [done| |done].
    rewrite Hp in Hp'. injection Hp' as <- <-. eexists. split; [exact Hv'|]. split; [done|exact Hcounts].
Qed.

(** A pasted backup salt is of no use: without a stored vote the dialog sends nothing,
    or reveals no verdict, which the program refuses whatever the case, the vote and
    the time. *)
Theorem backup_salt_refused d t k b r b' : RevealVoteModal L ops d None t (Some k) b = Some (r, b') ->
  votes b'.2 = votes b.2 \/ exists j, votes b'.2 = votes b.2 ++ [B_reveal j] /\
  forall dc vr stake now, is_ok (reveal_vote (DisputeVote.sha256 L) dc vr stake now (decoded_verdict (rv_verdict j)) (rv_salt j)) = false.
Proof.
  intros H. destruct (reveal_run _ _ _ _ _ _ _ H) as [(-> & _)|(salt & byte & Hp & Hv)]; [by left|]. cbv zeta in Hv.
  assert (Hsent : votes b'.2 = votes b.2 \/ votes b'.2 = votes b.2 ++ [B_reveal {| rv_disputeCase := row_address d;
    rv_caseId := row_caseId d; rv_verdict := verdictEnumFromByte byte; rv_salt := salt |}]) by (destruct Hv as [(_ & ? & _)|(_ & ? & _)]; auto).
  destruct Hsent as [?|Hsent]; [by left|right].
  eexists. split; [exact Hsent|]. intros dc vr stake now. unfold revealed_pair in Hp.
  destruct (negb _); [done|]. destruct (saltFromHex _); [|done]. injection Hp as <- <-. cbn [rv_verdict rv_salt].
  unfold reveal_vote. change (decoded_verdict (verdictEnumFromByte 0)) with NoVerdict.
  by destruct (_ || _), (_ <? now), (now <=? _).
Qed.

(** A vote whose mutation throws is shown as committed, and the button to commit is
    gone: the salt is stored before the transaction is sent and is not removed. *)
Theorem failed_vote_looks_committed d c k b m b1 : CommitVoteModal L ops d (Some c) (Some k) b = Some (Ok (Failed m), b1) ->
  existsb (Z.eqb k) (row_arbitrators d) = true -> row_status d = "committing"%string ->
  forall now, now < row_commitDeadline d -> ArbitratorActions L d k now b1.1 = Ok [CommittedNote].
Proof.
  intros H Hk Hst now Hnow. destruct (commit_run _ _ _ _ _ _ H) as (salt & at_ & _ & _ & Hs & _).
  unfold ArbitratorActions. rewrite Hk, Hs, load_saved by apply (law_texts laws). cbn [negb result_bind]. rewrite Hst.
  unfold arbitrator_offers. destruct (Z.ltb_spec now (row_commitDeadline d)); [done|lia].
Qed.
End voting.

(** ** Votes on cases read from the chain *)

Section chain.
Context {W : Type}.
Variable L : page_lib.
Variable PublicKey : string -> result pubkey.
Variable find : list (list Z) -> pubkey -> result (pubkey * Z).
Variable randomValues : nat -> io W (list Z).
Variable now : io W Z.
Variable sendTransaction : call -> io W unit.
Variable calls : W -> list call.

(** The random source and the clock answer and send nothing; nothing is assumed of
    [sendTransaction]. *)
Record browser_laws : Prop := {
  bl_texts : text_laws L;
  bl_random : forall n w, exists b w', randomValues n w = Some (Ok b, w') /\ calls w' = calls w;
  bl_now : forall w, exists t w', now w = Some (Ok t, w') /\ calls w' = calls w;
}.

#[local] Abbreviation wired program wallet := (wired_ops PublicKey find randomValues now sendTransaction (Some program) (Some wallet)).

(** C18: no vote on a case read from the chain leaves the browser, and the arbitrator is
    told it did: whatever the case, the choice and the connected wallet, the commit
    dialog fails on the row's case id with nothing sent, but has stored the salt, so
    that while the case is committing the page notes a committed vote and offers an
    arbitrator no commit; the reveal dialog sends nothing either and leaves the
    storage as it is. *)
Theorem chain_votes_unsent address v program wallet : browser_laws ->
  has_type (types dispute_arbitration_idl) v (T_defined "disputeCase") = true ->
  exists row, mapCase address v = Ok row /\
  (forall choice b, exists b1,
     CommitVoteModal L (wired program wallet) row (Some choice) (Some wallet) b = Some (Ok (Failed mix_error), b1) /\
     calls b1.2 = calls b.2 /\
     forall t, existsb (Z.eqb wallet) (row_arbitrators row) = true -> row_status row = "committing"%string -> t < row_commitDeadline row ->
     ArbitratorActions L row wallet t b1.1 = Ok [CommittedNote]) /\
  (forall stored text b, exists m,
     RevealVoteModal L (wired program wallet) row stored text (Some wallet) b = Some (Ok (Failed m), b)).
Proof.
  intros laws H. destruct (chain_row address v H) as (row & caseId & a & c & s & Hr & _ & Hid & _). exists row. split; [done|]. split.
  - intros choice b. unfold CommitVoteModal, or_failed, io_catch, io_bind, remote, store. cbn [wired_ops getRandomValues Date_now commit].
    destruct (bl_random laws 32 b.2) as (salt & w1 & E1 & H1). rewrite E1. cbn.
    destruct (bl_now laws w1) as (t0 & w2 & E2 & H2). rewrite E2. cbn. unfold io_bind, io_lift, useCommitDisputeVote. cbn.
    rewrite Hid. cbn. eexists. split; [reflexivity|]. cbn. split; [congruence|].
    intros t Hk Hst Ht. unfold ArbitratorActions. rewrite Hk. cbn [negb]. rewrite Hid. cbn [operand_text].
    pose proof (load_saved L (bl_texts laws) (z_text caseId) (row_round row) (toBase58 L wallet) salt (VERDICT_BYTE choice)
      (computeCommitHash (DisputeVote.sha256 L) (VERDICT_BYTE choice) salt) t0 b.1) as Hload.
    unfold saveSalt in Hload. rewrite Hload. cbn [result_bind]. rewrite Hst.
    unfold arbitrator_offers. destruct (Z.ltb_spec t (row_commitDeadline row)); [done|lia].
  - intros stored text b. unfold RevealVoteModal, or_failed, io_catch, io_bind, io_lift.
    destruct (revealed_pair stored text) as [[[salt byte]|]|e]; [|by eexists|by eexists].
    unfold remote, store. cbn [wired_ops reveal]. unfold io_bind, io_lift, useRevealDisputeVote. cbn. rewrite Hid. cbn.
    eexists. by destruct b.
Qed.
End chain.

(** ** The portal's half of the protocol *)

(** The status as the row shows it. *)
Definition status_name (s : DisputeStatus) : string :=
  match s with
  | RequestedVrf => "requestedVrf" | SelectionReady => "selectionReady" | Committing => "committing" | Revealing => "revealing"
  | Tallied => "tallied" | Appealed => "appealed" | Resolved => "resolved" | Cancelled => "cancelled"
  end.

Definition verdict_name (v : DisputeVerdict) : string :=
  match v with NoVerdict => "none" | AgentWins => "agentWins" | ClientWins => "clientWins" | Split => "split" end.

Section portal.
Variable sha256 : list Z -> list Z.
Variable cf : DisputeConfig.

(** What happens to a case: the authority selects arbitrators, anyone cancels, and
    whoever uses the portal reveals, tallies, appeals and resolves when it offers to,
    at the time it does or later. *)
Inductive portal_step (dc : DisputeCase) : DisputeCase -> Prop :=
| P_select now pool selected dc' : consume_vrf cf dc now pool selected = Ok dc' -> portal_step dc dc'
| P_cancel now dc' : cancel_stale_vrf cf dc now = Ok dc' -> portal_step dc dc'
| P_reveal seen stored vr stake now verdict salt dc' vr' :
  In RevealButton (arbitrator_offers (status_name (dc_status dc)) (commit_deadline dc) (reveal_deadline dc) seen stored) ->
  reveal_vote sha256 dc vr stake now verdict salt = Ok (dc', vr') -> portal_step dc dc'
| P_tally seen now dc' : canTally (status_name (dc_status dc)) (reveal_deadline dc) seen = true ->
  tally_round dc now = Ok dc' -> portal_step dc dc'
| P_appeal seen wallet now dc' :
  is_Some (appeal_offered (status_name (dc_status dc)) (verdict_name (dc_verdict dc)) (Z.eqb wallet (dc_client dc))
             (Z.eqb wallet (dc_agent_operator dc)) (reveal_deadline dc) (appeal_window_secs cf) seen) ->
  escalate_appeal cf dc now wallet = Ok dc' -> portal_step dc dc'
| P_resolve now dc' : canResolve (status_name (dc_status dc)) = true -> resolve_dispute cf dc now = Ok dc' -> portal_step dc dc'.

Inductive portal_run (dc0 : DisputeCase) : DisputeCase -> Prop :=
| portal_start : portal_run dc0 dc0
| portal_next dc dc' : portal_run dc0 dc -> portal_step dc dc' -> portal_run dc0 dc'.

Definition before_reveals (s : DisputeStatus) : Prop := s = RequestedVrf \/ s = Committing \/ s = Cancelled.

Lemma portal_step_stuck dc dc' : before_reveals (dc_status dc) -> portal_step dc dc' -> before_reveals (dc_status dc').
Proof.
  intros H [now pool selected d E|now d E|seen stored vr stake now verdict salt d vr' Ho E|seen now d Ho E|seen wallet now d Ho E|now d Ho E].
  - unfold consume_vrf in E. cbv zeta in E. repeat apply result_bind_ok in E as (? & _ & E). injection E as <-. right. by left.
  - unfold cancel_stale_vrf in E. repeat apply result_bind_ok in E as (? & _ & E). injection E as <-. right. by right.
  - exfalso. destruct H as [H|[H|H]]; rewrite H in Ho; unfold arbitrator_offers in Ho; cbn in Ho;
      repeat case_match; simpl in Ho; intuition discriminate.
  - exfalso. destruct H as [H|[H|H]]; by rewrite H in Ho.
  - exfalso. destruct H as [H|[H|H]]; rewrite H in Ho; cbn in Ho; by destruct Ho.
  - exfalso. destruct H as [H|[H|H]]; by rewrite H in Ho.
Qed.

(** C19: in the portal no dispute is ever decided: reveals are offered from the status
    revealing on, which only a reveal brings about. *)
Theorem portal_never_decides dc0 dc : dc_status dc0 = RequestedVrf -> portal_run dc0 dc ->
  dc_status dc = RequestedVrf \/ dc_status dc = Committing \/ dc_status dc = Cancelled.
Proof.
  intros H0 H. assert (before_reveals (dc_status dc)) as Hb; [|exact Hb].
  induction H as [|dc dc' _ IH Hs]; [by left|]. by eapply portal_step_stuck.
Qed.
End portal.

(** ** A vote on a concrete browser *)

Definition desk_page : page_lib :=
  {| DisputeVote.sha256 := fun l => l; JSON_stringify := tree_text; JSON_parse := text_tree; toBase58 := fun _ => "wallet"%string |}.

Lemma desk_texts : text_laws desk_page.
Proof.
  split.
  - intros v. apply text_tree_text.
  - intros v. discriminate.
  - intros k. reflexivity.
Qed.

(** Mutations are logged and answer [outcome]. *)
Definition vote_desk (outcome : result unit) : vote_ops (W := list ballot) := {|
  getRandomValues := fun n w => Some (Ok (repeat 5 n), w);
  Date_now := fun w => Some (Ok 1000, w);
  commit := fun i w => Some (outcome, w ++ [B_commit i]);
  reveal := fun i w => Some (outcome, w ++ [B_reveal i]);
|}.

Lemma vote_desk_laws outcome : page_laws desk_page (vote_desk outcome) (fun w => w).
Proof.
  split.
  - exact desk_texts.
  - intros n w r w' [= <- <-]. split; [done|]. exists (repeat 5 n). split; [done|]. split; [apply repeat_length|].
    apply Forall_forall. intros x Hx%list_elem_of_In%repeat_spec. subst x. unfold is_byte. lia.
  - intros w r w' [= <- <-]. split; [done|by eexists].
  - intros i w r w' [= <- <-]. unfold may_send. destruct outcome; [done|by right].
  - intros i w r w' [= <- <-]. unfold may_send. destruct outcome; [done|by right].
Qed.

(** A case as Anchor decodes it. *)
Definition a_case : value :=
  V_struct [("caseId", V_bn 3); ("taskId", V_bn 9); ("client", V_key 1); ("agentOperator", V_key 2); ("escrowAmount", V_bn 500);
            ("paymentMint", V_key 4); ("status", V_enum "committing" []); ("round", V_num 1); ("arbitrators", V_list [V_key 7]);
            ("arbitratorCount", V_num 1); ("vrfRequest", V_key 0); ("vrfResult", V_bytes (repeat 0 32)); ("commitDeadline", V_bn 2000);
            ("revealDeadline", V_bn 3000); ("verdict", V_enum "none" []); ("votesForAgent", V_bn 5); ("votesForClient", V_bn 3);
            ("votesForSplit", V_bn 0); ("totalRevealedWeight", V_bn 8); ("resolvedAt", V_bn 0); ("createdAt", V_bn 1);
            ("snapshotPool", V_key 6); ("bump", V_num 254)]%string.

Definition a_row (caseId a c s : operand) : DisputeCaseRow := {|
  row_address := 30; row_caseId := caseId; row_taskId := O_bn 9; row_client := 1; row_agentOperator := 2; row_escrowAmount := O_bn 500;
  row_paymentMint := 4; row_status := "committing"; row_round := 1; row_arbitrators := [7]; row_arbitratorCount := 1;
  row_commitDeadline := 2000; row_revealDeadline := 3000; row_verdict := "none"; row_votesForAgent := a; row_votesForClient := c;
  row_votesForSplit := s; row_totalRevealedWeight := O_bn 8; row_resolvedAt := 0; row_createdAt := 1; row_bump := 254 |}.

Definition desk_find (_ : list (list Z)) (_ : pubkey) : result (pubkey * Z) := Ok (1, 255).

Lemma chain_cases_unusable_witness : exists row, mapCase 30 a_case = Ok row /\ VoteResults row = Throw mix_error.
Proof.
  destruct (chain_cases_unusable (fun _ => Ok 0) desk_find 30 a_case 5 7 7 [] "agentWins" [] eq_refl) as (row & Hr & Hv & _).
  exists row. split; [exact Hr|exact Hv].
Defined.

Lemma vote_percentages_witness : exists pa pc ps, VoteResults (a_row (O_bigint 3) (O_bigint 5) (O_bigint 3) (O_bigint 0)) = Ok (Some (pa, pc, ps)) /\
  (pa + pc + ps <= 100)%Q.
Proof.
  destruct (vote_percentages (a_row (O_bigint 3) (O_bigint 5) (O_bigint 3) (O_bigint 0)) 5 3 0 eq_refl eq_refl eq_refl
    ltac:(lia) ltac:(lia) ltac:(lia)) as [[H _]|(pa & pc & ps & H & _ & _ & _ & Hs & _)]; [discriminate H|].
  exists pa, pc, ps. split; [exact H|exact Hs].
Defined.

Definition vote_row : DisputeCaseRow := a_row (O_bn 3) (O_bn 0) (O_bn 0) (O_bn 0).

(** A vote is committed and revealed, and the program counts it. *)
Lemma vote_opens_witness :
  match CommitVoteModal desk_page (vote_desk (Ok tt)) vote_row (Some split) (Some 7) ([], []) with
  | Some (Ok (Committed _), b1) =>
    match opened (W := list ballot) desk_page vote_row 7 b1 with
    | Some (Ok (Some e), _) =>
      match RevealVoteModal desk_page (vote_desk (Ok tt)) vote_row (Some e) "" (Some 7) b1 with
      | Some (Ok Revealed, b3) => exists i j, b3.2 = [B_commit i; B_reveal j] /\ counts desk_page j split (cv_commitHash i)
      | _ => False
      end
    | _ => False
    end
  | _ => False
  end.
Proof.
  destruct (CommitVoteModal desk_page (vote_desk (Ok tt)) vote_row (Some split) (Some 7) ([], [])) as [[r1 b1]|] eqn:E1; [|discriminate E1].
  pose proof E1 as Hb. cbn in Hb. injection Hb as <- <-.
  match type of E1 with _ = Some (_, ?b) => set (b1 := b) in * end.
  destruct (vote_opens desk_page (vote_desk (Ok tt)) (fun w => w) (vote_desk_laws _) vote_row split 7 ([], []) _ b1 E1) as (i & Hi & _ & H).
  destruct (H vote_row b1 (mw_start _ _ _ _ _) eq_refl eq_refl) as (e & He & Hr). rewrite He.
  destruct (RevealVoteModal desk_page (vote_desk (Ok tt)) vote_row (Some e) "" (Some 7) b1) as [[r3 b3]|] eqn:E3.
  - assert (Hok : r3 = Ok Revealed).
    { clear - E3 He. vm_compute in He. injection He as <-. vm_compute in E3. injection E3 as <- _. reflexivity. }
    subst r3. destruct (Hr _ _ E3) as (j & Hj & _ & Hc). exists i, j. split; [|exact Hc]. rewrite Hj. cbn in Hi. cbn. injection Hi as <-. reflexivity.
  - exfalso. clear - E3 He. vm_compute in He. injection He as <-. vm_compute in E3. discriminate E3.
Defined.

Definition desk_random (n : nat) : io (list call) (list Z) := fun w => Some (Ok (repeat 5 n), w).
Definition desk_now : io (list call) Z := fun w => Some (Ok 1000, w).
Definition desk_send (c : call) : io (list call) unit := fun w => Some (Ok tt, w ++ [c]).

(** The arbitrator of a case of the chain presses commit: nothing is sent, and the
    page says the vote is committed. *)
Lemma chain_votes_unsent_witness : exists row b1, mapCase 30 a_case = Ok row /\
  CommitVoteModal desk_page (wired_ops (fun _ => Ok 0) desk_find desk_random desk_now desk_send (Some 5) (Some 7)) row (Some split) (Some 7) ([], [])
    = Some (Ok (Failed mix_error), b1) /\ b1.2 = [] /\ ArbitratorActions desk_page row 7 1500 b1.1 = Ok [CommittedNote].
Proof.
  destruct (chain_votes_unsent desk_page (fun _ => Ok 0) desk_find desk_random desk_now desk_send (fun w => w) 30 a_case 5 7)
    as (row & Hr & Hc & _).
  - split; [exact desk_texts|intros n w; by do 2 eexists|intros w; by do 2 eexists].
  - reflexivity.
  - destruct (Hc split ([], [])) as (b1 & E & Hs & Hp). exists row, b1. split; [exact Hr|]. split; [exact E|]. split; [exact Hs|].
    vm_compute in Hr. injection Hr as <-. apply Hp; [reflexivity|reflexivity|cbn; lia].
Defined.

Definition pasted : string := bytesToHex (repeat 5 32).

Lemma backup_salt_refused_witness :
  match RevealVoteModal desk_page (vote_desk (Ok tt)) vote_row None pasted (Some 7) ([], []) with
  | Some (_, b') => exists j, b'.2 = [B_reveal j] /\ forall dc vr stake now,
      is_ok (reveal_vote (fun l => l) dc vr stake now (decoded_verdict (rv_verdict j)) (rv_salt j)) = false
  | None => False
  end.
Proof.
  destruct (RevealVoteModal desk_page (vote_desk (Ok tt)) vote_row None pasted (Some 7) ([], [])) as [[r b']|] eqn:E; [|discriminate E].
  destruct (backup_salt_refused desk_page (vote_desk (Ok tt)) (fun w => w) (vote_desk_laws _) vote_row pasted 7 ([], []) r b' E)
    as [Hb|(j & Hj & H)].
  - exfalso. cbn in E. injection E as _ <-. discriminate Hb.
  - exists j. split; [exact Hj|exact H].
Defined.

Lemma failed_vote_looks_committed_witness :
  match CommitVoteModal desk_page (vote_desk (Throw mix_error)) vote_row (Some agentWins) (Some 7) ([], []) with
  | Some (Ok (Failed m), b1) => m = mix_error /\ ArbitratorActions desk_page vote_row 7 1500 b1.1 = Ok [CommittedNote]
  | _ => False
  end.
Proof.
  destruct (CommitVoteModal desk_page (vote_desk (Throw mix_error)) vote_row (Some agentWins) (Some 7) ([], [])) as [[r b1]|] eqn:E;
    [|discriminate E].
  pose proof E as Hb. cbn in Hb. injection Hb as <- <-.
  match type of E with _ = Some (_, ?b) => set (b1 := b) in * end. split; [reflexivity|].
  apply (failed_vote_looks_committed desk_page (vote_desk (Throw mix_error)) (fun w => w) (vote_desk_laws _) vote_row agentWins 7 ([], [])
    _ b1 E); [reflexivity|reflexivity|vm_compute; reflexivity].
Defined.

Definition raised : DisputeCase := {|
  dc_client := 1; dc_agent_operator := 2; dc_status := RequestedVrf; dc_round := 1; dc_arbitrators := []; commit_deadline := 0;
  reveal_deadline := 0; dc_verdict := NoVerdict; votes_for_agent := 0; votes_for_client := 0; votes_for_split := 0;
  total_revealed_weight := 0; resolved_at := 0; created_at := 0 |}.

Definition windows : DisputeConfig := {| cf_paused := false; round1_size := 1; round2_size := 3; commit_window_secs := 100; reveal_window_secs := 100; appeal_window_secs := 100 |}.

(** Selected at 1000, the case waits for a reveal that the program would take at 1150
    and the portal does not offer. *)
Lemma portal_never_decides_witness :
  match consume_vrf windows raised 1000 1 [7] with
  | Ok dc => (dc_status dc = RequestedVrf \/ dc_status dc = Committing \/ dc_status dc = Cancelled) /\
             arbitrator_offers (status_name (dc_status dc)) (commit_deadline dc) (reveal_deadline dc) 1150 true = [] /\
             match commit_vote false dc 1050 7 (compute_commit_hash (fun l => l) AgentWins []) with
             | Ok vr => is_ok (reveal_vote (fun l => l) dc vr 10 1150 AgentWins []) = true
             | Throw _ => False
             end
  | Throw _ => False
  end.
Proof.
  destruct (consume_vrf windows raised 1000 1 [7]) as [dc|e] eqn:E; [|discriminate E].
  split.
  - apply (portal_never_decides (fun l => l) windows raised dc eq_refl).
    eapply portal_next; [apply portal_start|]. eapply P_select. exact E.
  - injection E as <-. split; vm_compute; reflexivity.
Defined.
