(* ===== verification/PortalAuth.v ===== *)
(** * PortalAuth: signing in to the portal with a wallet

    Models apps/portal/src/lib/nonce.ts and session.ts, the routes of
    apps/portal/src/app/api/auth, the bearer of the proof-gen proxy, the text a wallet
    signs (packages/sdk/src/auth/siws.ts) and the browser's side of the exchange
    (packages/sdk-ui/src/auth/session.ts); [sessionSecret] and [verifySessionJwt] are
    those of Messages.  A request body has the types its handler casts it to, and a
    handler reads the clock once.  A handler that throws answers 500.  jose, tweetnacl,
    [PublicKey], URLs and dates are parameters. *)

From Stdlib Require Import ZArith Ascii.
From stdpp Require Import base list strings sets.
From S2P Require Import Prelude JsMap Json Attestation Messages.

#[local] Open Scope Z_scope.
#[local] Open Scope saep_scope.

(** ** siws.ts *)

Record SiwsMessage := {
  domain : string; siws_address : string; statement : string; uri : string; version : string; chainId : string;
  siws_nonce : string; siws_issuedAt : string; expirationTime : string;
}.

Definition newline : ascii := ascii_of_nat 10.

(** The labelled lines. *)
Definition LABELS (msg : SiwsMessage) : list (string * string) :=
  [("URI", uri msg); ("Version", version msg); ("Chain ID", chainId msg); ("Nonce", siws_nonce msg);
   ("Issued At", siws_issuedAt msg); ("Expiration Time", expirationTime msg)]%string.

(** [xs.join('\n')] *)
Fixpoint join_lines (ls : list string) : string :=
  match ls with
  | [] => ""
  | [l] => l
  | l :: ls' => l +:+ String newline (join_lines ls')
  end.

Definition formatSiwsMessage (msg : SiwsMessage) : string :=
  let header := domain msg +:+ " wants you to sign in with your Solana account:" +:+ String newline (siws_address msg) in
  let body := join_lines (map (fun '(label, v) => label +:+ ": " +:+ v) (LABELS msg)) in
  header +:+ String newline (String newline (statement msg +:+ String newline (String newline body))).

(** ** Tokens *)

(** The claims of a JWT, those this code sets or reads. *)
Record payload := {
  p_iss : option string; p_sub : option string; p_aud : option string;
  p_nonce : option string; p_address : option string; p_iat : option Z; p_exp : option Z;
}.

Definition session_claims (p : payload) : jwt_claims := {| sub := p_sub p; iat := p_iat p; exp := p_exp p |}.

Record auth_lib := {
  jwt_sign : bytes -> payload -> string;                         (* new SignJWT(_)...sign(key), HS256 *)
  jwt_verify : Z -> string -> bytes -> string -> result payload; (* jwtVerify(token, key, { issuer }) at a time in seconds *)
  key_bytes : string -> result (list Z);                         (* new PublicKey(_).toBytes() *)
  from_base64 : string -> list Z;                                (* Buffer.from(_, 'base64') *)
  to_base64 : list Z -> string;                                  (* Buffer.from(_).toString('base64') *)
  nacl_verify : string -> list Z -> list Z -> result bool;       (* nacl.sign.detached.verify *)
  iso : Z -> string;                                             (* new Date(ms).toISOString() *)
  date_ms : string -> option Z;                                  (* new Date(_).getTime(), None for NaN *)
  url_origin : string -> string;                                 (* new URL(_).origin *)
  url_host : string -> string;                                   (* new URL(_).host *)
}.

(** The process environment. *)
Record portal_env := { SESSION_SECRET : option string; production : bool; SOLANA_CLUSTER : option string }.

Definition utf8 (s : string) : bytes := map (fun c => Z.of_nat (nat_of_ascii c)) (String.list_ascii_of_string s).

(** Cookies of a response and of a request, and the answers of the routes. *)
Record cookie := { ck_name : string; ck_value : string; httpOnly : bool; sameSite : string; secure : bool; path : string; maxAge : Z }.
Inductive set_cookie := Cookie (c : cookie) | Clear (name : string).

Inductive auth_reply :=
| E_error (message : string)
| E_nonce (message : SiwsMessage) (nonceToken : string)
| E_session (address : string) (issuedAt expiresAt : Z)
| E_me (session : option (string * string))
| E_ok
| E_token (token address expiresAt : string).

Record response := { status : Z; sent : auth_reply; cookies : list set_cookie }.

Definition fail (status : Z) (message : string) : result response := Ok {| status := status; sent := E_error message; cookies := [] |}.

Definition COOKIE : string := "saep_session".
Definition NONCE_COOKIE : string := "saep_nonce".
Definition NONCE_ISSUER : string := "saep.nonce".

Section portal.
Variable L : auth_lib.
Variable env : portal_env.

(** ** lib/nonce.ts *)

Definition nonce_secret : result bytes :=
  if negb (truthy (SESSION_SECRET env)) then Throw "SESSION_SECRET is required" else Ok (utf8 (default "" (SESSION_SECRET env))).

Record NonceClaims := { nc_nonce : option string; nc_address : option string; nc_issuedAt : string; nc_expirationTime : string }.

Definition nonce_payload (nonce address : option string) (iat exp : Z) : payload :=
  {| p_iss := Some NONCE_ISSUER; p_sub := None; p_aud := None; p_nonce := nonce; p_address := address;
     p_iat := Some iat; p_exp := Some exp |}.

(** The token signed here is dropped: only the secret's absence shows. *)
Definition issueNonce (now : Z) (nonce address : string) (ttlSeconds : Z) : result NonceClaims :=
  let exp := now + ttlSeconds * 1000 in
  let! key := nonce_secret in
  let _ := jwt_sign L key (nonce_payload (Some nonce) (Some address) (now / 1000) (exp / 1000)) in
  Ok {| nc_nonce := Some nonce; nc_address := Some address; nc_issuedAt := iso L now; nc_expirationTime := iso L exp |}.

Definition date_seconds (text : string) : result Z :=
  match date_ms L text with
  | Some ms => Ok (ms / 1000)
  | None => Throw "Invalid input"
  end.

Definition signNonceToken (claims : NonceClaims) : result string :=
  let! iat := date_seconds (nc_issuedAt claims) in
  let! exp := date_seconds (nc_expirationTime claims) in
  let! key := nonce_secret in
  Ok (jwt_sign L key (nonce_payload (nc_nonce claims) (nc_address claims) iat exp)).

Definition iso_seconds (t : option Z) : result string :=
  match t with
  | Some s => Ok (iso L (s * 1000))
  | None => Throw "Invalid time value"
  end.

Definition verifyNonceToken (now : Z) (token : string) : result NonceClaims :=
  let! key := nonce_secret in
  let! p := jwt_verify L (now / 1000) token key NONCE_ISSUER in
  let! issuedAt := iso_seconds (p_iat p) in
  let! expirationTime := iso_seconds (p_exp p) in
  Ok {| nc_nonce := p_nonce p; nc_address := p_address p; nc_issuedAt := issuedAt; nc_expirationTime := expirationTime |}.

(** ** lib/session.ts *)

Definition session_secret : result bytes := sessionSecret (SESSION_SECRET env).

Definition session_payload (address : string) (audience : option string) (now ttlSeconds : Z) : payload :=
  {| p_iss := Some SESSION_ISSUER; p_sub := Some address; p_aud := if truthy audience then audience else None;
     p_nonce := None; p_address := Some address; p_iat := Some (now / 1000); p_exp := Some (now / 1000 + ttlSeconds) |}.

(** The token, when it was issued and when it expires. *)
Definition signSession (now : Z) (address : string) (ttlSeconds : Z) (audience : option string) : result (string * Z * Z) :=
  let! key := session_secret in
  Ok (jwt_sign L key (session_payload address audience now ttlSeconds), now / 1000, now / 1000 + ttlSeconds).

Definition set (name value : string) (maxAge : Z) : set_cookie :=
  Cookie {| ck_name := name; ck_value := value; httpOnly := true; sameSite := "lax"; secure := production env; path := "/"; maxAge := maxAge |}.

Definition DAY : Z := 24 * 60 * 60.

(** The session and the cookie put in the jar. *)
Definition createSession (now : Z) (address : string) (ttlSeconds : Z) : result (string * Z * Z * set_cookie) :=
  let! t := signSession now address ttlSeconds None in
  let '(token, issuedAt, expiresAt) := t in
  Ok (address, issuedAt, expiresAt, set COOKIE token ttlSeconds).

(** jose at time [now], as Messages takes it. *)
Definition jose (now : Z) (token : string) (key : bytes) (issuer : string) : result jwt_claims :=
  let! p := jwt_verify L (now / 1000) token key issuer in Ok (session_claims p).

Definition readSession (now : Z) (jar : list (string * string)) : result (option SessionPayload) :=
  let token := map_get COOKIE jar in
  if negb (truthy token) then Ok None
  else let! key := session_secret in Ok (verifySessionJwt (jose now) (default "" token) key).

Definition destroySession : set_cookie := Clear COOKIE.

(** ** The routes *)

(** POST /api/auth/nonce; [random] is [randomBytes(16).toString('hex')], [body] the
    parsed body's [address] when there is a body. *)
Definition post_nonce (now : Z) (random url : string) (body : option (option string)) : result response :=
  match mjoin body with
  | Some address =>
    if String.eqb address "" then fail 400 "address is required" else
    let origin := url_origin L url in
    let host := url_host L origin in
    let! claims := issueNonce now random address (5 * 60) in
    let! nonceToken := signNonceToken claims in
    let message := {| domain := host; siws_address := address; statement := "Sign in to SAEP portal."; uri := origin;
                      version := "1"; chainId := default "devnet" (SOLANA_CLUSTER env); siws_nonce := random;
                      siws_issuedAt := nc_issuedAt claims; expirationTime := nc_expirationTime claims |} in
    Ok {| status := 200; sent := E_nonce message nonceToken; cookies := [set NONCE_COOKIE nonceToken (5 * 60)] |}
  | None => fail 400 "address is required"
  end.

Record VerifyBody := { vb_message : option SiwsMessage; vb_signature : option string }.

(** POST /api/auth/verify, after the checks on the body and the cookie. *)
Definition verify_claims (now : Z) (url : string) (m : SiwsMessage) (signature : string) (claims : NonceClaims) : result response :=
  if negb (bool_decide (nc_nonce claims = Some (siws_nonce m))) || negb (bool_decide (nc_address claims = Some (siws_address m)))
  then fail 401 "nonce mismatch"
  else if match date_ms L (expirationTime m) with Some t => t <? now | None => false end then fail 401 "message expired"
  else if negb (String.eqb (domain m) (url_host L url)) then fail 401 "domain mismatch"
  else match key_bytes L (siws_address m) with
       | Throw _ => fail 400 "invalid address"
       | Ok pubkey =>
         let! ok := nacl_verify L (formatSiwsMessage m) (from_base64 L signature) pubkey in
         if negb ok then fail 401 "bad signature"
         else let! s := createSession now (siws_address m) DAY in
              let '(address, issuedAt, expiresAt, c) := s in
              Ok {| status := 200; sent := E_session address issuedAt expiresAt; cookies := [c; Clear NONCE_COOKIE] |}
       end.

Definition post_verify (now : Z) (url : string) (body : option VerifyBody) (jar : list (string * string)) : result response :=
  match body ≫= vb_message with
  | Some m =>
    if negb (truthy (body ≫= vb_signature)) then fail 400 "message and signature required" else
    let nonceToken := map_get NONCE_COOKIE jar in
    if negb (truthy nonceToken) then fail 401 "nonce expired" else
    match verifyNonceToken now (default "" nonceToken) with
    | Throw _ => fail 401 "invalid nonce"
    | Ok claims => verify_claims now url m (default "" (body ≫= vb_signature)) claims
    end
  | None => fail 400 "message and signature required"
  end.

Definition get_me (now : Z) (jar : list (string * string)) : result response :=
  let! session := readSession now jar in
  Ok {| status := 200; cookies := [];
        sent := E_me (match session with
                      | Some s => Some (Messages.address s, iso L (session_expiresAt s * 1000))
                      | None => None
                      end) |}.

Definition post_logout : result response := Ok {| status := 200; sent := E_ok; cookies := [destroySession] |}.

Definition WS_TOKEN_TTL_SECONDS : Z := 5 * 60.

Definition post_ws_token (now : Z) (jar : list (string * string)) : result response :=
  let! session := readSession now jar in
  match session with
  | None => fail 401 "unauthenticated"
  | Some s =>
    let! t := signSession now (Messages.address s) WS_TOKEN_TTL_SECONDS None in
    let '(token, _, expiresAt) := t in
    Ok {| status := 200; sent := E_token token (Messages.address s) (iso L (expiresAt * 1000)); cookies := [] |}
  end.

(** The token the proof-gen proxy forwards. *)
Definition PROOFGEN_AUDIENCE : string := "saep:proof-gen".
Definition PROOFGEN_TOKEN_TTL_SECONDS : Z := 5 * 60.

Definition proofGenBearer (now : Z) (jar : list (string * string)) : result (option string) :=
  let! session := readSession now jar in
  match session with
  | None => Ok None
  | Some s =>
    let! t := signSession now (Messages.address s) PROOFGEN_TOKEN_TTL_SECONDS (Some PROOFGEN_AUDIENCE) in
    Ok (Some t.1.1)
  end.

(** ** The browser *)

Definition apply_cookie (jar : list (string * string)) (c : set_cookie) : list (string * string) :=
  match c with
  | Cookie c => map_set (ck_name c) (ck_value c) jar
  | Clear name => map_delete name jar
  end.
Definition apply_cookies (cs : list set_cookie) (jar : list (string * string)) : list (string * string) := fold_left apply_cookie cs jar.

(** A connected wallet: the address it shows and, when it has one, [signMessage]. *)
Record wallet := { w_address : string; signMessage : option (string -> result (list Z)) }.

(** [useSiwsSignIn]: the nonce is fetched at [t1], the signature posted at [t2]; the
    jar carries the cookies between the two requests. *)
Definition siwsSignIn (t1 t2 : Z) (random url : string) (w : option wallet) (jar : list (string * string)) : result (list (string * string)) :=
  match w with
  | None => Throw "Connect a wallet first"
  | Some w =>
    match signMessage w with
    | None => Throw "Wallet does not support signMessage"
    | Some sign =>
      match post_nonce t1 random url (Some (Some (w_address w))) with
      | Ok {| status := 200; sent := E_nonce message _; cookies := cs |} =>
        let jar := apply_cookies cs jar in
        let! signature := sign (formatSiwsMessage message) in
        match post_verify t2 url (Some {| vb_message := Some message; vb_signature := Some (to_base64 L signature) |}) jar with
        | Ok {| status := 200; cookies := cs |} => Ok (apply_cookies cs jar)
        | Ok {| sent := E_error e |} => Throw e
        | _ => Throw "Verification failed"
        end
      | _ => Throw "Failed to fetch nonce"
      end
    end
  end.

(** [fetchSession] *)
Definition fetchSession (now : Z) (jar : list (string * string)) : option (string * string) :=
  match get_me now jar with
  | Ok {| status := 200; sent := E_me s |} => s
  | _ => None
  end.

(** [useSignOut] *)
Definition signOut (jar : list (string * string)) : list (string * string) :=
  match post_logout with
  | Ok r => apply_cookies (cookies r) jar
  | Throw _ => jar
  end.
End portal.
