(* ===== verification/PortalSafety.v ===== *)
(** * PortalSafety: who is signed in to the portal

    Theorems on PortalAuth: the text a wallet signs, every history of the portal's
    routes, the exchange of an honest wallet, and how long a sign-in and its tokens can
    be used again. *)

From Stdlib Require Import ZArith QArith Qround Lia Ascii.
From stdpp Require Import base list strings sets.
From S2P Require Import Prelude JsMap Json Zod Attestation Messages PortalAuth.

#[local] Open Scope Z_scope.
#[local] Open Scope saep_scope.

(** ** What the libraries promise *)

(** jose: a token is verified exactly under the key and issuer it was signed with and
    before it expires, and passing time only ever expires it.  The language: a date's
    ISO text reads back. *)
Record auth_laws (L : auth_lib) : Prop := {
  law_sound : forall now k iss c c', jwt_verify L now (jwt_sign L k c) k iss = Ok c' ->
    c' = c /\ p_iss c = Some iss /\ (forall e, p_exp c = Some e -> now < e);
  law_complete : forall now k iss c, p_iss c = Some iss -> (forall e, p_exp c = Some e -> now < e) ->
    jwt_verify L now (jwt_sign L k c) k iss = Ok c;
  law_time : forall now now' t k iss c, jwt_verify L now t k iss = Ok c -> now <= now' ->
    (forall e, p_exp c = Some e -> now' < e) -> jwt_verify L now' t k iss = Ok c;
  law_text : forall k c, jwt_sign L k c <> ""%string;
  law_date : forall ms, 0 <= ms <= 8640000000000000 -> date_ms L (iso L ms) = Some ms;
}.

(** ** The signed text *)

Definition one_line (s : string) : bool := negb (occurs newline s).

Definition siws_fields (m : SiwsMessage) : list string :=
  [domain m; siws_address m; statement m; uri m; version m; chainId m; siws_nonce m; siws_issuedAt m; expirationTime m].

Lemma split_app c a b : split_on c (a +:+ String c b) = removelast (split_on c a) ++ [List.last (split_on c a) ""%string] ++ split_on c b.
Proof.
  induction a as [|x a IH]; simpl.
  - by rewrite bool_decide_true.
  - case_bool_decide.
    + rewrite IH. destruct (split_on c a) eqn:E; [|done]. by destruct a as [|y a]; simpl in E; [|case_bool_decide; [|destruct (split_on c a)]].
    + rewrite IH. destruct (split_on c a) as [|w [|w' ws]] eqn:E; simpl; [|done..].
      by destruct a as [|y a]; simpl in E; [|case_bool_decide; [|destruct (split_on c a)]].
Qed.

Lemma split_nonempty c s : split_on c s <> [].
Proof. destruct s as [|x s]; simpl; [done|]. case_bool_decide; [done|]. by destruct (split_on c s). Qed.

Lemma split_length c a b : length (split_on c (a +:+ String c b)) = (length (split_on c a) + length (split_on c b))%nat.
Proof.
  rewrite split_app, !length_app. pose proof (split_nonempty c a) as H.
  destruct (exists_last H) as (l & x & ->). rewrite removelast_last, length_app. simpl. lia.
Qed.

Lemma split_free c s : occurs c s = false <-> length (split_on c s) = 1%nat.
Proof.
  induction s as [|x s IH]; simpl; [done|]. pose proof (split_nonempty c s).
  rewrite orb_false_iff, IH. rewrite bool_decide_eq_false. case_bool_decide; subst; simpl.
  - destruct (split_on c s); [done|]. simpl. split; [intros [? _]; done|done].
  - destruct (split_on c s); simpl; [done|]. split; [intros [_ ?]; done|]. intros; split; [congruence|done].
Qed.

Lemma split_one c s : occurs c s = false -> split_on c s = [s].
Proof.
  induction s as [|x s IH]; cbn; [done|]. rewrite orb_false_iff, bool_decide_eq_false. intros [Hx Hs].
  rewrite bool_decide_false by done. by rewrite IH.
Qed.

Definition line_count (s : string) : nat := length (split_on newline s).

Lemma line_count_pos s : (1 <= line_count s)%nat.
Proof. unfold line_count. pose proof (split_nonempty newline s). destruct (split_on newline s); [done|]. simpl. lia. Qed.

Lemma one_line_count s : one_line s = true <-> line_count s = 1%nat.
Proof. unfold one_line. rewrite negb_true_iff. apply split_free. Qed.

Lemma join_count l ls : line_count (join_lines (l :: ls)) = list_sum (map line_count (l :: ls)).
Proof.
  revert l. induction ls as [|l' ls IH]; intros l; [by apply eq_sym, Nat.add_0_r|].
  change (join_lines (l :: l' :: ls)) with (l +:+ String newline (join_lines (l' :: ls))).
  unfold line_count at 1. rewrite split_length. fold (line_count l) (line_count (join_lines (l' :: ls))). by rewrite IH.
Qed.

Lemma join_split l ls : forallb one_line (l :: ls) = true -> split_on newline (join_lines (l :: ls)) = l :: ls.
Proof.
  revert l. induction ls as [|l' ls IH]; intros l [Hl H]%andb_true_iff; apply negb_true_iff in Hl; [by apply split_one|].
  change (join_lines (l :: l' :: ls)) with (l +:+ String newline (join_lines (l' :: ls))).
  by rewrite split_app, IH, (split_one _ l).
Qed.

#[local] Opaque line_count.

Lemma count_cons l ls : list_sum (map line_count (l :: ls)) = (line_count l + list_sum (map line_count ls))%nat.
Proof. done. Qed.

Lemma least_count ls : (length ls <= list_sum (map line_count ls))%nat.
Proof. induction ls as [|l ls IH]; [done|]. rewrite count_cons. pose proof (line_count_pos l). cbn [length]. lia. Qed.

Lemma count_least ls : list_sum (map line_count ls) = length ls <-> forallb one_line ls = true.
Proof.
  induction ls as [|l ls IH]; [done|]. rewrite count_cons. cbn [length forallb].
  pose proof (line_count_pos l). pose proof (least_count ls). rewrite andb_true_iff, one_line_count, <- IH. lia.
Qed.

Lemma join_inj l ls l' ls' : length ls = length ls' -> forallb one_line (l :: ls) = true ->
  join_lines (l :: ls) = join_lines (l' :: ls') -> l :: ls = l' :: ls'.
Proof.
  intros Hlen H E. rewrite <- (join_split l ls H), E. apply join_split, count_least.
  rewrite <- join_count, <- E, join_count. rewrite (proj2 (count_least _) H). cbn. by rewrite Hlen.
Qed.

Definition siws_lines (m : SiwsMessage) : list string :=
  (domain m +:+ " wants you to sign in with your Solana account:") :: siws_address m :: ""%string :: statement m :: ""%string ::
  map (fun '(label, v) => label +:+ ": " +:+ v) (LABELS m).

Lemma format_lines m : formatSiwsMessage m = join_lines (siws_lines m).
Proof.
  unfold formatSiwsMessage, siws_lines. cbv zeta. set (W := " wants you to sign in with your Solana account:"%string). clearbody W.
  destruct m as [dom addr st ur ve ch no ia ex]. cbn [domain siws_address statement].
  set (b := join_lines (map _ _)).
  change (join_lines (_ :: addr :: _)) with
    ((dom +:+ W) +:+ String newline (addr +:+ String newline (String newline (st +:+ String newline (String newline b))))).
  by rewrite !string_app_assoc.
Qed.

Lemma one_line_app a b : one_line (a +:+ b) = one_line a && one_line b.
Proof. unfold one_line. rewrite occurs_app. apply negb_orb. Qed.

Lemma lines_free m : forallb one_line (siws_fields m) = true -> forallb one_line (siws_lines m) = true.
Proof.
  unfold siws_fields, siws_lines, LABELS. cbn [map forallb]. rewrite !one_line_app, !andb_true_iff.
  intros (H1 & H2 & H3 & H4 & H5 & H6 & H7 & H8 & H9 & _). repeat split; done.
Qed.

Lemma label_inj (label v w : string) : label +:+ ": " +:+ v = label +:+ ": " +:+ w -> v = w.
Proof. intros H%string_app_inj_l. by apply string_app_inj_l in H. Qed.

(** What a wallet signs is what the server reads: the text of a sign-in message
    whose fields are single lines (as the server's own are) is the text of no other
    message, not even one with line breaks in its fields. *)
Theorem siws_text_inj (m m' : SiwsMessage) (Hm : forallb one_line (siws_fields m) = true)
  (E : formatSiwsMessage m = formatSiwsMessage m') : m' = m.
Proof.
  rewrite !format_lines in E. unfold siws_lines in E. apply join_inj in E; [|done|by apply lines_free].
  unfold LABELS in E. cbn [map] in E.
  apply cons_eq_inj in E as [E1 E]. apply cons_eq_inj in E as [E2 E]. apply cons_eq_inj in E as [_ E].
  apply cons_eq_inj in E as [E3 E]. apply cons_eq_inj in E as [_ E].
  do 6 (apply cons_eq_inj in E as [?%label_inj E]).
  apply string_app_inj_r in E1. destruct m, m'. cbn in *. by subst.
Qed.

(** ** The routes on each branch *)

Section safety.
Variable L : auth_lib.
Hypothesis HL : auth_laws L.
Variable env : portal_env.

Definition key : bytes := utf8 (default ""%string (SESSION_SECRET env)).

Lemma nonce_secret_key k : nonce_secret env = Ok k -> k = key.
Proof. unfold nonce_secret. destruct (negb _); [done|]. by intros [= <-]. Qed.

Lemma session_secret_key k : session_secret env = Ok k -> k = key.
Proof.
  unfold session_secret, sessionSecret. destruct (negb _); [done|]. cbv zeta. destruct (_ <? _)%nat; [done|]. by intros [= <-].
Qed.

(** A session read from a jar is the claims of its cookie. *)
Lemma read_session now jar s : readSession L env now jar = Ok (Some s) ->
  exists t c, map_get COOKIE jar = Some t /\ jwt_verify L (now / 1000) t key SESSION_ISSUER = Ok c /\
    p_sub c = Some (Messages.address s) /\ p_exp c = Some (session_expiresAt s).
Proof.
  unfold readSession. destruct (map_get COOKIE jar) as [t|] eqn:Et; cbn [truthy]; [|done].
  destruct (negb _) eqn:Ec; [done|]. intros (k & Hk%session_secret_key & [= H])%result_bind_ok. subst k. exists t.
  unfold verifySessionJwt, jose in H. change (default ""%string (Some t)) with t in H.
  destruct (jwt_verify L (now / 1000) t key SESSION_ISSUER) as [c|]; cbn in H; [|done].
  destruct (p_sub c) as [a|] eqn:Es, (p_iat c), (p_exp c) as [e|] eqn:Ee; cbn in H; simplify_eq. by exists c.
Qed.

(** A branch that answers an error. *)
Ltac rejected := unfold fail; let H := fresh in let H2 := fresh in intros H H2; exfalso; injection H as H; subst; discriminate H2.

(** Everything an accepted sign-in has checked. *)
Lemma post_verify_inv now url body jar r : post_verify L env now url body jar = Ok r -> status r = 200 ->
  exists m sig t c pk s, body ≫= vb_message = Some m /\ body ≫= vb_signature = Some sig /\ map_get NONCE_COOKIE jar = Some t /\
    jwt_verify L (now / 1000) t key NONCE_ISSUER = Ok c /\ p_nonce c = Some (siws_nonce m) /\ p_address c = Some (siws_address m) /\
    domain m = url_host L url /\ (forall e, date_ms L (expirationTime m) = Some e -> now <= e) /\
    key_bytes L (siws_address m) = Ok pk /\ nacl_verify L (formatSiwsMessage m) (from_base64 L sig) pk = Ok true /\
    createSession L env now (siws_address m) DAY = Ok s /\
    r = {| status := 200; sent := E_session s.1.1.1 s.1.1.2 s.1.2; cookies := [s.2; Clear NONCE_COOKIE] |} /\
    sig <> ""%string /\ t <> ""%string /\ p_iat c <> None /\ p_exp c <> None.
Proof.
  unfold post_verify. destruct (body ≫= vb_message) as [m|]; [|rejected].
  destruct (body ≫= vb_signature) as [sig|]; cbn [truthy]; [|rejected]. destruct (String.eqb_spec sig "") as [|Hsig]; cbn [negb]; [rejected|].
  destruct (map_get NONCE_COOKIE jar) as [t|] eqn:Et; cbn [truthy]; [|rejected].
  destruct (String.eqb_spec t "") as [|Hne]; cbn [negb]; [rejected|].
  change (default ""%string (Some t)) with t. destruct (verifyNonceToken L env now t) as [claims|] eqn:Ec; [|rejected].
  unfold verifyNonceToken in Ec. apply result_bind_ok in Ec as (k & Hk%nonce_secret_key & Ec). subst k.
  apply result_bind_ok in Ec as (c & Hc & Ec). apply result_bind_ok in Ec as (i & Hi & Ec).
  apply result_bind_ok in Ec as (e & He & [= <-]). unfold verify_claims. cbn [nc_nonce nc_address].
  destruct (negb (bool_decide (p_nonce c = _)) || _) eqn:En; [rejected|].
  apply orb_false_iff in En as [En%negb_false_iff%bool_decide_eq_true Ea%negb_false_iff%bool_decide_eq_true].
  destruct (match date_ms L (expirationTime m) with Some t => _ | None => _ end) eqn:Ed; [rejected|].
  destruct (String.eqb_spec (domain m) (url_host L url)) as [Eh|]; cbn [negb]; [|rejected].
  destruct (key_bytes L (siws_address m)) as [pk|] eqn:Ep; [|rejected].
  intros (ok & Eok & H)%result_bind_ok. destruct ok; cbn [negb] in H; [|by unfold fail in H; simplify_eq].
  apply result_bind_ok in H as ([[[a i'] x] ck] & Es & [= <-]). intros _.
  exists m, sig, t, c, pk, (a, i', x, ck). repeat (split; [done|]). split.
  { intros e' He'. rewrite He' in Ed. by apply Z.ltb_ge in Ed. }
  repeat (split; [done|]). split; intros Hn; [by rewrite Hn in Hi|by rewrite Hn in He].
Qed.

Lemma post_verify_refuses now url body jar r : post_verify L env now url body jar = Ok r ->
  status r = 200 \/ exists e, sent r = E_error e /\ cookies r = [].
Proof.
  assert (forall n e, fail n e = Ok r -> status r = 200 \/ exists e, sent r = E_error e /\ cookies r = []) as Hf.
  { intros n e [= <-]. right. by exists e. }
  unfold post_verify, verify_claims. repeat case_match; try apply Hf;
    intros (ok & _ & H')%result_bind_ok; (destruct ok; cbn [negb] in H'; [|by eapply Hf]);
    apply result_bind_ok in H' as (? & _ & H'); repeat case_match; injection H' as <-; by left.
Qed.

Lemma create_session now a ttl s : createSession L env now a ttl = Ok s ->
  s.2 = set env COOKIE (jwt_sign L key (session_payload a None now ttl)) ttl.
Proof.
  unfold createSession, signSession. intros H. apply result_bind_ok in H as (t & Ht & H).
  apply result_bind_ok in Ht as (k & Hk%session_secret_key & [= <-]). subst k. by injection H as <-.
Qed.

(** ** Every history of the portal *)

(** A request, with the cookies its sender presents. *)
Inductive call :=
| C_nonce (random url : string) (body : option (option string))
| C_verify (url : string) (body : option VerifyBody) (jar : list (string * string))
| C_me (jar : list (string * string))
| C_logout
| C_ws_token (jar : list (string * string))
| C_proofgen (jar : list (string * string)).

Definition answer (now : Z) (c : call) : result response :=
  match c with
  | C_nonce random url body => post_nonce L env now random url body
  | C_verify url body jar => post_verify L env now url body jar
  | C_me jar => get_me L env now jar
  | C_logout => post_logout
  | C_ws_token jar => post_ws_token L env now jar
  | C_proofgen jar =>
    let! t := proofGenBearer L env now jar in
    match t with
    | None => fail 401 "unauthenticated"
    | Some t => Ok {| status := 200; sent := E_token t "" ""; cookies := [] |}
    end
  end.

Definition presented (c : call) : list (string * string) :=
  match c with
  | C_verify _ _ jar | C_me jar | C_ws_token jar | C_proofgen jar => jar
  | C_nonce _ _ _ | C_logout => []
  end.

(** The tokens that leave the server. *)
Definition tokens_of (r : response) : list string :=
  match sent r with E_nonce _ t | E_token t _ _ => [t] | _ => [] end ++
  flat_map (fun c => match c with Cookie c => [ck_value c] | Clear _ => [] end) (cookies r).

Record world := {
  given : list string;                                  (* tokens handed out *)
  nonces : list (string * string);                      (* nonces, with the address they were issued for *)
  signins : list (string * SiwsMessage * string);       (* accepted sign-ins: URL, message, signature *)
}.

Definition serve (now : Z) (c : call) (w : world) : world :=
  match answer now c with
  | Throw _ => w
  | Ok r =>
    {| given := given w ++ tokens_of r;
       nonces := nonces w ++ match c, sent r with C_nonce _ _ _, E_nonce m _ => [(siws_nonce m, siws_address m)] | _, _ => [] end;
       signins := signins w ++
         match c with
         | C_verify url (Some {| vb_message := Some m; vb_signature := Some sig |}) _ =>
           if bool_decide (status r = 200) then [(url, m, sig)] else []
         | _ => []
         end |}
  end.

(** Nobody forges a token: a cookie that verifies under the secret is one the server
    handed out. *)
Definition unforged (w : world) (jar : list (string * string)) : Prop :=
  forall name t now iss c, map_get name jar = Some t -> jwt_verify L now t key iss = Ok c -> t ∈ given w.

Inductive history : world -> Prop :=
| H_start : history {| given := []; nonces := []; signins := [] |}
| H_serve w now c : history w -> unforged w (presented c) -> history (serve now c w).

(** The owner of [a]'s key signed this host's message for a nonce issued to [a]. *)
Definition signed_in (w : world) (a : string) : Prop :=
  exists url m sig pk, (url, m, sig) ∈ signins w /\ siws_address m = a /\ domain m = url_host L url /\
    (siws_nonce m, a) ∈ nonces w /\ key_bytes L a = Ok pk /\ nacl_verify L (formatSiwsMessage m) (from_base64 L sig) pk = Ok true.

Definition genuine (w : world) (c : payload) : Prop :=
  p_iss c = Some NONCE_ISSUER /\ (exists n a, p_nonce c = Some n /\ p_address c = Some a /\ (n, a) ∈ nonces w) \/
  p_iss c = Some SESSION_ISSUER /\ (exists a, p_sub c = Some a /\ signed_in w a).

Definition traced (w : world) : Prop := Forall (fun t => exists c, t = jwt_sign L key c /\ genuine w c) (given w).

(** More is known later. *)
Record later (w w' : world) : Prop := {
  later_nonces : nonces w ⊆ nonces w';
  later_signins : signins w ⊆ signins w';
}.

Lemma serve_later now c w : later w (serve now c w).
Proof. unfold serve. destruct (answer now c); split; cbn; set_solver. Qed.

Lemma signed_in_later w w' a : later w w' -> signed_in w a -> signed_in w' a.
Proof.
  intros [Hn Hs] (url & m & sig & pk & H1 & H2 & H3 & H4 & H5). exists url, m, sig, pk. by repeat split; auto; apply H5.
Qed.

Lemma genuine_later w w' c : later w w' -> genuine w c -> genuine w' c.
Proof.
  intros Hl [(Hi & n & a & H1 & H2 & H3)|(Hi & a & H1 & H2)]; [left|right]; (split; [done|]).
  - exists n, a. repeat split; try done. by apply (later_nonces _ _ Hl).
  - exists a. split; [done|]. by eapply signed_in_later.
Qed.

Lemma traced_claims w now t iss c : traced w -> t ∈ given w -> jwt_verify L now t key iss = Ok c -> genuine w c /\ p_iss c = Some iss.
Proof.
  intros Ht Hin Hv. unfold traced in Ht. rewrite Forall_forall in Ht. destruct (Ht _ Hin) as (c0 & -> & Hg).
  by apply (law_sound _ HL) in Hv as (-> & Hi & _).
Qed.

Lemma session_traced w now jar s : traced w -> unforged w jar -> readSession L env now jar = Ok (Some s) -> signed_in w (Messages.address s).
Proof.
  intros Ht Hu (t & c & Hj & Hv & Hs & _)%read_session. pose proof (Hu _ _ _ _ _ Hj Hv) as Hin.
  destruct (traced_claims _ _ _ _ _ Ht Hin Hv) as [[[Hi _]|[_ (a & Ha & Hg)]] Hi'].
  - rewrite Hi in Hi'. discriminate Hi'.
  - rewrite Ha in Hs. by injection Hs as <-.
Qed.

Lemma session_genuine w now a aud ttl : signed_in w a -> genuine w (session_payload a aud now ttl).
Proof. intros H. right. split; [done|]. by exists a. Qed.

Lemma bearer_token now jar t : proofGenBearer L env now jar = Ok (Some t) ->
  exists s, readSession L env now jar = Ok (Some s) /\
    t = jwt_sign L key (session_payload (Messages.address s) (Some PROOFGEN_AUDIENCE) now PROOFGEN_TOKEN_TTL_SECONDS).
Proof.
  unfold proofGenBearer. intros ([s|] & Hs & H)%result_bind_ok; [|done]. exists s. split; [done|].
  apply result_bind_ok in H as (t' & (k & Hk%session_secret_key & [= <-])%result_bind_ok & [= <-]). by subst.
Qed.

Lemma ws_token_sent now jar r : post_ws_token L env now jar = Ok r -> tokens_of r = [] \/
  exists s, readSession L env now jar = Ok (Some s) /\ tokens_of r = [jwt_sign L key (session_payload (Messages.address s) None now WS_TOKEN_TTL_SECONDS)].
Proof.
  unfold post_ws_token. intros ([s|] & Hs & H)%result_bind_ok; [right|left; by injection H as <-]. exists s. split; [done|].
  apply result_bind_ok in H as ([[t' x] y] & (k & Hk%session_secret_key & [= <- <- <-])%result_bind_ok & [= <-]). by subst.
Qed.

Lemma nonce_sent now random url body r : post_nonce L env now random url body = Ok r -> tokens_of r = [] \/
  exists m t c, sent r = E_nonce m t /\ tokens_of r = [t; t] /\ t = jwt_sign L key c /\ p_iss c = Some NONCE_ISSUER /\
    p_nonce c = Some (siws_nonce m) /\ p_address c = Some (siws_address m).
Proof.
  unfold post_nonce. destruct (mjoin body) as [a|]; [|intros [= <-]; by left].
  destruct (String.eqb a ""); [intros [= <-]; by left|]. cbv zeta. intros (cl & Hcl & H)%result_bind_ok.
  apply result_bind_ok in H as (t & Ht & [= <-]). unfold issueNonce in Hcl. apply result_bind_ok in Hcl as (k & _ & [= <-]).
  unfold signNonceToken in Ht. apply result_bind_ok in Ht as (i & _ & Ht). apply result_bind_ok in Ht as (e & _ & Ht).
  apply result_bind_ok in Ht as (k' & Hk%nonce_secret_key & [= <-]). subst k'.
  right. by eexists _, _, _.
Qed.

Lemma later_all w w' ts : later w w' -> Forall (fun t => exists c, t = jwt_sign L key c /\ genuine w c) ts ->
  Forall (fun t => exists c, t = jwt_sign L key c /\ genuine w' c) ts.
Proof. intros Hl H. eapply Forall_impl; [exact H|]. intros t (c & -> & Hg). exists c. split; [done|]. by eapply genuine_later. Qed.

(** Every token an answer carries is genuine once the request is on record. *)
Lemma answer_genuine w now c r : traced w -> unforged w (presented c) -> answer now c = Ok r ->
  Forall (fun t => exists c', t = jwt_sign L key c' /\ genuine (serve now c w) c') (tokens_of r).
Proof.
  intros Ht Hu Hr. pose proof (serve_later now c w) as Hl.
  assert (forall jar s aud ttl, presented c = jar -> readSession L env now jar = Ok (Some s) ->
    genuine (serve now c w) (session_payload (Messages.address s) aud now ttl)) as Hmint.
  { intros jar s aud ttl <- Hs. apply session_genuine. eapply signed_in_later; [exact Hl|]. by eapply session_traced. }
  destruct c as [rnd url body|url body jar|jar| |jar|jar]; cbn [answer presented] in *.
  - pose proof Hr as Hr'. apply nonce_sent in Hr' as [->|(m & t & c & Es & -> & -> & Hi & Hn & Ha)]; [done|].
    assert (genuine (serve now (C_nonce rnd url body) w) c) as Hg.
    { left. split; [done|]. exists (siws_nonce m), (siws_address m). repeat split; try done.
      unfold serve. cbn [answer]. rewrite Hr. cbn [nonces]. rewrite Es. set_solver. }
    repeat constructor; by exists c.
  - destruct (decide (status r = 200)) as [H200|Hn].
    + destruct (post_verify_inv _ _ _ _ _ Hr H200) as (m & sig & t & c & pk & s & Hm & Hs & Hj & Hv & Hno & Ha & Hd & _ & Hp & Hok & Hc & -> & _).
      unfold tokens_of. cbn [sent cookies flat_map app]. rewrite (create_session _ _ _ _ Hc). repeat constructor.
      eexists. split; [done|]. apply session_genuine. destruct body as [[om os]|]; [|done]. cbn in Hm, Hs. subst om os.
      exists url, m, sig, pk. unfold serve. cbn [answer]. rewrite Hr. cbn [signins status nonces].
      rewrite bool_decide_true by done. split; [set_solver|]. repeat split; try done.
      pose proof (Hu _ _ _ _ _ Hj Hv) as Hin. destruct (traced_claims _ _ _ _ _ Ht Hin Hv) as [[(_ & n & a & Hn & Ha' & Hin')|[Hi _]] Hi'].
      * rewrite Hn in Hno. injection Hno as ->. rewrite Ha' in Ha. injection Ha as ->. set_solver.
      * rewrite Hi in Hi'. discriminate Hi'.
    + destruct (post_verify_refuses _ _ _ _ _ Hr) as [?|(e & Es & Ec)]; [done|]. unfold tokens_of. by rewrite Es, Ec.
  - unfold get_me in Hr. apply result_bind_ok in Hr as (s & _ & [= <-]). by destruct s.
  - by injection Hr as <-.
  - apply ws_token_sent in Hr as [->|(s & Hs & ->)]; [done|]. repeat constructor. eexists. split; [done|]. by eapply Hmint.
  - apply result_bind_ok in Hr as ([t|] & Hb & Hr); [|unfold fail in Hr; by injection Hr as <-]. injection Hr as <-.
    apply bearer_token in Hb as (s & Hs & ->). repeat constructor. eexists. split; [done|]. by eapply Hmint.
Qed.

Lemma history_traced w : history w -> traced w.
Proof.
  induction 1 as [|w now c Hw IH Hu]; [constructor|]. pose proof (serve_later now c w) as Hl.
  pose proof (answer_genuine w now c) as Hg. unfold traced. set (w' := serve now c w) in *.
  assert (given w' = given w ++ match answer now c with Ok r => tokens_of r | Throw _ => [] end) as ->.
  { unfold w', serve. destruct (answer now c); cbn; [done|]. by rewrite app_nil_r. }
  apply Forall_app_2; [by eapply later_all|]. destruct (answer now c) as [r|] eqn:Er; [|done]. by apply Hg.
Qed.

(** C14: nobody is signed in without their wallet: in every history of the portal in
    which no token is forged, whatever cookies a request presents, a session for an
    address is read only when the owner of that address signed, for this host, a
    message with a nonce the portal had issued to that address, and posted it; a
    nonce's token is never taken for a session. *)
Theorem session_needs_signature (w : world) (now : Z) (jar : list (string * string)) (s : SessionPayload)
  (Hw : history w) (Hu : unforged w jar) (Hs : readSession L env now jar = Ok (Some s)) :
  signed_in w (Messages.address s).
Proof. by eapply session_traced; [apply history_traced| |]. Qed.

(** ** Signing in, and how long it lasts *)

Definition configured : Prop := exists s, SESSION_SECRET env = Some s /\ (32 <= String.length s)%nat.

Lemma secret_configured k : session_secret env = Ok k -> configured.
Proof.
  unfold session_secret, sessionSecret, configured. destruct (SESSION_SECRET env) as [s|]; cbn [truthy]; [|done].
  destruct (negb _); [done|]. cbv zeta. change (default ""%string (Some s)) with s.
  destruct (Nat.ltb_spec (String.length s) 32); [done|]. intros _. by exists s.
Qed.

Lemma configured_keys : configured -> nonce_secret env = Ok key /\ session_secret env = Ok key.
Proof.
  intros (s & E & Hs). unfold nonce_secret, session_secret, sessionSecret, key. rewrite E.
  change (default ""%string (Some s)) with s. destruct s as [|c s]; [cbn in Hs; lia|]. cbn [truthy String.eqb negb].
  split; [done|]. cbv zeta. by rewrite (proj2 (Nat.ltb_ge _ _) Hs).
Qed.

(** A jar with a live session token. *)
Lemma read_minted now now' a aud ttl jar : configured -> map_get COOKIE jar = Some (jwt_sign L key (session_payload a aud now ttl)) ->
  now' / 1000 < now / 1000 + ttl ->
  readSession L env now' jar = Ok (Some {| address := a; issuedAt := now / 1000; session_expiresAt := now / 1000 + ttl |}).
Proof.
  intros [_ Hk]%configured_keys Hj Ht. unfold readSession. rewrite Hj. set (t := jwt_sign L key _).
  assert (t <> ""%string) as Hne by apply (law_text _ HL). cbn [truthy]. rewrite (proj2 (String.eqb_neq _ _) Hne). cbn [negb].
  rewrite Hk. cbn [result_bind]. change (default ""%string (Some t)) with t. unfold verifySessionJwt, jose, t.
  by rewrite (law_complete _ HL); [|done|intros e [= <-]].
Qed.

Lemma post_nonce_ok now random url a : configured -> 0 <= now <= 8640000000000000 - 300000 -> a <> ""%string ->
  post_nonce L env now random url (Some (Some a)) =
  let token := jwt_sign L key (nonce_payload (Some random) (Some a) (now / 1000) ((now + 300000) / 1000)) in
  Ok {| status := 200; cookies := [set env NONCE_COOKIE token 300];
        sent := E_nonce {| domain := url_host L (url_origin L url); siws_address := a; statement := "Sign in to SAEP portal.";
                           uri := url_origin L url; version := "1"; chainId := default "devnet" (SOLANA_CLUSTER env); siws_nonce := random;
                           siws_issuedAt := iso L now; expirationTime := iso L (now + 300000) |} token |}.
Proof.
  intros [Hk _]%configured_keys Hn Ha. unfold post_nonce. cbn [mjoin option_join]. rewrite (proj2 (String.eqb_neq _ _) Ha).
  unfold issueNonce, signNonceToken, date_seconds. rewrite Hk. change (5 * 60 * 1000) with 300000. cbn [result_bind nc_issuedAt nc_expirationTime nc_nonce nc_address].
  rewrite !(law_date _ HL) by lia. done.
Qed.

(** A sign-in whose parts are in order is accepted. *)
Lemma post_verify_ok now url m sig jar t c pk : configured -> sig <> ""%string -> map_get NONCE_COOKIE jar = Some t -> t <> ""%string ->
  jwt_verify L (now / 1000) t key NONCE_ISSUER = Ok c -> p_iat c <> None -> p_exp c <> None ->
  p_nonce c = Some (siws_nonce m) -> p_address c = Some (siws_address m) -> domain m = url_host L url ->
  (forall e, date_ms L (expirationTime m) = Some e -> now <= e) -> key_bytes L (siws_address m) = Ok pk ->
  nacl_verify L (formatSiwsMessage m) (from_base64 L sig) pk = Ok true ->
  post_verify L env now url (Some {| vb_message := Some m; vb_signature := Some sig |}) jar =
  Ok {| status := 200; sent := E_session (siws_address m) (now / 1000) (now / 1000 + DAY);
        cookies := [set env COOKIE (jwt_sign L key (session_payload (siws_address m) None now DAY)) DAY; Clear NONCE_COOKIE] |}.
Proof.
  intros [Hk1 Hk2]%configured_keys Hs Hj Ht Hv Hi He Hn Ha Hd Hx Hp Hok. unfold post_verify. cbn [mbind option_bind vb_message vb_signature].
  rewrite Hj. cbn [truthy]. rewrite (proj2 (String.eqb_neq _ _) Hs), (proj2 (String.eqb_neq _ _) Ht). cbn [negb].
  change (default ""%string (Some t)) with t. change (default ""%string (Some sig)) with sig.
  unfold verifyNonceToken. rewrite Hk1. cbn [result_bind]. rewrite Hv. cbn [result_bind].
  destruct (p_iat c) as [i|]; [|done]. destruct (p_exp c) as [e|]; [|done]. cbn [iso_seconds result_bind].
  unfold verify_claims. cbn [nc_nonce nc_address]. rewrite !bool_decide_true by done. cbn [negb orb].
  destruct (match date_ms L (expirationTime m) with Some t => _ | None => _ end) eqn:Ed.
  { destruct (date_ms L (expirationTime m)) as [x|]; [|done]. apply Z.ltb_lt in Ed. specialize (Hx x eq_refl). lia. }
  rewrite Hd, String.eqb_refl. cbn [negb]. rewrite Hp, Hok. cbn [result_bind negb].
  unfold createSession, signSession. rewrite Hk2. done.
Qed.

(** C20: a wallet signs in: with a secret of at least 32 characters, a wallet that signs
    what it is asked and under five minutes between the two requests, the exchange
    succeeds, the nonce's cookie is gone, and for the next day the portal reports a
    session for the wallet's address. *)
Theorem sign_in_works (t1 t2 : Z) (random url a : string) (sign : string -> result (list Z)) (pk : list Z) (jar : list (string * string))
  (Henv : configured) (Hclock : 0 <= t1 <= 8640000000000000 - 300000) (Horder : t1 <= t2) (Htime : t2 / 1000 < t1 / 1000 + 300)
  (Ha : a <> ""%string) (Hpk : key_bytes L a = Ok pk) (Hhost : url_host L (url_origin L url) = url_host L url)
  (Hsign : forall text, exists sig, sign text = Ok sig /\ to_base64 L sig <> ""%string /\
    nacl_verify L text (from_base64 L (to_base64 L sig)) pk = Ok true) :
  exists jar', siwsSignIn L env t1 t2 random url (Some {| w_address := a; signMessage := Some sign |}) jar = Ok jar' /\
    (map_wf jar -> map_get NONCE_COOKIE jar' = None) /\
    forall t3, t3 / 1000 < t2 / 1000 + DAY -> fetchSession L env t3 jar' = Some (a, iso L ((t2 / 1000 + DAY) * 1000)).
Proof.
  unfold siwsSignIn. cbn [signMessage w_address]. rewrite (post_nonce_ok t1 random url a) by done. cbv zeta.
  set (m := Build_SiwsMessage _ _ _ _ _ _ _ _ _). set (tok := jwt_sign L key (nonce_payload _ _ _ _)).
  cbv beta iota. set (jar1 := apply_cookies [set env NONCE_COOKIE tok 300] jar). destruct (Hsign (formatSiwsMessage m)) as (sig & -> & Hne & Hok). cbn [result_bind].
  assert ((t1 + 300000) / 1000 = t1 / 1000 + 300) as Ediv.
  { change 300000 with (300 * 1000). by rewrite Z.div_add. }
  erewrite (post_verify_ok t2 url m (to_base64 L sig) jar1 tok); try done.
  - eexists. split; [reflexivity|]. split.
    + intros Hw. unfold jar1. cbn -[map_set map_delete map_get]. apply map_get_delete_eq. by repeat apply map_wf_set.
    + intros t3 Ht3. unfold fetchSession, get_me. rewrite (read_minted t2 t3 a None DAY); [done|done| |done].
      cbn -[map_set map_delete map_get session_payload]. by rewrite map_get_delete_ne, map_get_set_eq.
  - unfold jar1. apply map_get_set_eq.
  - apply (law_text _ HL).
  - unfold tok. apply (law_complete _ HL); [done|]. intros e [= <-]. rewrite Ediv. done.
  - done.
  - done.
  - done.
  - done.
  - intros e He. unfold m in He. cbn [expirationTime] in He. rewrite (law_date _ HL) in He by lia. injection He as <-.
    pose proof (Z.div_mod t2 1000 ltac:(lia)). pose proof (Z.mod_pos_bound t2 1000 ltac:(lia)).
    pose proof (Z.div_mod t1 1000 ltac:(lia)). pose proof (Z.mod_pos_bound t1 1000 ltac:(lia)). lia.
Qed.

(** A nonce is not used up: a sign-in request the portal has accepted is accepted
    again, by any client and as often as it is sent, until its nonce's token and its
    message expire; each time it opens a new day-long session. *)
Theorem sign_in_replays (now now' : Z) (url : string) (m : SiwsMessage) (sig : string) (jar : list (string * string)) (r : response)
  (Hr : post_verify L env now url (Some {| vb_message := Some m; vb_signature := Some sig |}) jar = Ok r) (H200 : status r = 200)
  (Hlater : now <= now') (Hmsg : forall x, date_ms L (expirationTime m) = Some x -> now' <= x) :
  exists t c e, map_get NONCE_COOKIE jar = Some t /\ jwt_verify L (now / 1000) t key NONCE_ISSUER = Ok c /\ p_exp c = Some e /\
    (now' / 1000 < e -> exists r', post_verify L env now' url (Some {| vb_message := Some m; vb_signature := Some sig |}) jar = Ok r' /\
      status r' = 200 /\ sent r' = E_session (siws_address m) (now' / 1000) (now' / 1000 + DAY)).
Proof.
  destruct (post_verify_inv _ _ _ _ _ Hr H200) as (m0 & sig0 & t & c & pk & s & Em & Es & Hj & Hv & Hn & Ha & Hd & _ & Hp & Hok & Hc & _ & Hs & Ht & Hi & He).
  cbn in Em, Es. injection Em as <-. injection Es as <-. destruct (p_exp c) as [e|] eqn:Ee; [|done].
  exists t, c, e. repeat (split; [done|]). intros Hlt.
  assert (configured) as Henv.
  { unfold createSession, signSession in Hc. apply result_bind_ok in Hc as (? & (k & Hk & _)%result_bind_ok & _). by eapply secret_configured. }
  erewrite (post_verify_ok now' url m sig jar t c pk); try done; [by eexists| |by rewrite Ee].
  eapply (law_time _ HL); [exact Hv|by apply Z.div_le_mono|]. intros e' He'. rewrite Ee in He'. by injection He' as <-.
Qed.

(** ** Renewal *)

(** POST /api/auth/ws-token with a token as the session's cookie. *)
Definition ws_again (now : Z) (token : string) : result string :=
  let! r := post_ws_token L env now [(COOKIE, token)] in
  match sent r with
  | E_token t _ _ => Ok t
  | _ => Throw "unauthenticated"
  end.

(** [n] renewals, [every] milliseconds apart. *)
Fixpoint renew (n : nat) (now every : Z) (token : string) : result string :=
  match n with
  | O => Ok token
  | S n' => let! t := ws_again now token in renew n' (now + every) every t
  end.

Lemma ws_again_ok now token s : readSession L env now [(COOKIE, token)] = Ok (Some s) ->
  configured /\ ws_again now token = Ok (jwt_sign L key (session_payload (Messages.address s) None now WS_TOKEN_TTL_SECONDS)).
Proof.
  intros Hs. assert (configured) as Henv.
  { unfold readSession in Hs. destruct (negb _); [done|]. apply result_bind_ok in Hs as (k & Hk & _). by eapply secret_configured. }
  split; [done|]. apply configured_keys in Henv as [_ Hk]. unfold ws_again, post_ws_token, signSession. rewrite Hs. cbn [result_bind].
  by rewrite Hk.
Qed.

(** The five-minute token is a session of its own: whoever holds one (it is sent in
    a WebSocket URL) can present it as the session's cookie, obtain its successor and so
    stay signed in for the same address for ever, whatever the owner does; logging out
    only deletes a cookie. *)
Theorem ws_tokens_renew (n : nat) (now every : Z) (token : string) (s : SessionPayload)
  (Hs : readSession L env now [(COOKIE, token)] = Ok (Some s)) (He : 0 <= every <= 299000) :
  exists token' s', renew n now every token = Ok token' /\ Messages.address s' = Messages.address s /\
    readSession L env (now + Z.of_nat n * every) [(COOKIE, token')] = Ok (Some s').
Proof.
  revert now token s Hs. induction n as [|n IH]; intros now token s Hs.
  { exists token, s. by rewrite Z.add_0_r. }
  destruct (ws_again_ok _ _ _ Hs) as [Henv E]. cbn [renew]. rewrite E. cbn [result_bind].
  set (t := jwt_sign L key _). assert (now <= now + every) as Hle by lia.
  assert ((now + every) / 1000 < now / 1000 + WS_TOKEN_TTL_SECONDS) as Hlive.
  { change WS_TOKEN_TTL_SECONDS with 300. pose proof (Z.div_mod now 1000 ltac:(lia)). pose proof (Z.mod_pos_bound now 1000 ltac:(lia)).
    pose proof (Z.div_mod (now + every) 1000 ltac:(lia)). pose proof (Z.mod_pos_bound (now + every) 1000 ltac:(lia)). lia. }
  pose proof (read_minted now (now + every) (Messages.address s) None WS_TOKEN_TTL_SECONDS [(COOKIE, t)] Henv (map_get_set_eq COOKIE t []) Hlive) as Hs1.
  destruct (IH _ _ _ Hs1) as (t' & s' & Et & Ea & Hr). exists t', s'. split; [done|]. split; [done|].
  rewrite <- Hr. f_equal. lia.
Qed.
End safety.

(** ** A concrete portal *)

Definition opt_json (o : option json) : json := default J_null o.
Definition json_opt (v : json) : option json := match v with J_null => None | v => Some v end.
Definition json_text (v : json) : option string := match v with J_str s => Some s | _ => None end.
Definition json_int (v : json) : option Z := match v with J_num q => Some (Qfloor q) | _ => None end.

(** A token that names its key next to the claims. *)
Definition a_sign (k : bytes) (c : payload) : string :=
  tree_text (J_arr [J_arr (map (fun z => J_num (inject_Z z)) k);
    opt_json (J_str <$> p_iss c); opt_json (J_str <$> p_sub c); opt_json (J_str <$> p_aud c); opt_json (J_str <$> p_nonce c);
    opt_json (J_str <$> p_address c); opt_json ((J_num ∘ inject_Z) <$> p_iat c); opt_json ((J_num ∘ inject_Z) <$> p_exp c)]).

Definition a_read (t : string) : option (bytes * payload) :=
  match text_tree t with
  | Some (J_arr [J_arr k; iss; sub; aud; nonce; addr; iat; exp]) =>
    Some (omap json_int k, {| p_iss := json_text iss; p_sub := json_text sub; p_aud := json_text aud; p_nonce := json_text nonce;
                              p_address := json_text addr; p_iat := json_int iat; p_exp := json_int exp |})
  | _ => None
  end.

Definition a_verify (now : Z) (t : string) (k : bytes) (iss : string) : result payload :=
  match a_read t with
  | Some (k', c) =>
    if bool_decide (k' = k) && bool_decide (p_iss c = Some iss) && match p_exp c with Some e => now <? e | None => true end
    then Ok c else Throw "JWT refused"
  | None => Throw "JWT refused"
  end.

Definition text_of (b : list Z) : string := String.string_of_list_ascii (map (fun z => ascii_of_nat (Z.to_nat z)) b).

(** A wallet's signature is its address and the text it signed. *)
Definition a_lib : auth_lib := {|
  jwt_sign := a_sign; jwt_verify := a_verify; key_bytes := fun s => Ok (utf8 s);
  from_base64 := fun s => match s with String _ s => utf8 s | EmptyString => [] end; to_base64 := fun b => String "s" (text_of b);
  nacl_verify := fun text sig pk => Ok (bool_decide (sig = pk ++ utf8 text));
  iso := fun ms => tree_text (J_num (inject_Z ms)); date_ms := fun s => text_tree s ≫= json_int;
  url_origin := fun u => u; url_host := fun u => u;
|}.

Lemma a_read_sign k c : a_read (a_sign k c) = Some (k, c).
Proof.
  unfold a_read, a_sign. rewrite text_tree_text. destruct c as [iss sub aud nonce addr iat exp].
  assert (omap json_int (map (fun z => J_num (inject_Z z)) k) = k) as ->.
  { induction k as [|z k IH]; [done|]. cbn. rewrite Z.div_1_r. f_equal. exact IH. }
  do 2 f_equal. cbn [p_iss p_sub p_aud p_nonce p_address p_iat p_exp].
  destruct iss, sub, aud, nonce, addr, iat, exp; cbn; by rewrite ?Z.div_1_r.
Qed.

Lemma a_lib_laws : auth_laws a_lib.
Proof.
  split; cbn [jwt_sign jwt_verify a_lib iso date_ms].
  - intros now k iss c c'. unfold a_verify. rewrite a_read_sign.
    destruct (_ && _) eqn:E; [|done]. intros [= <-]. apply andb_true_iff in E as [[_ E]%andb_true_iff Ee].
    apply bool_decide_eq_true in E. split; [done|]. split; [done|]. intros e He. rewrite He in Ee. by apply Z.ltb_lt.
  - intros now k iss c Hi He. unfold a_verify. rewrite a_read_sign, !bool_decide_true by done.
    destruct (p_exp c) as [e|]; [|done]. by rewrite (proj2 (Z.ltb_lt _ _) (He e eq_refl)).
  - intros now now' t k iss c. unfold a_verify. destruct (a_read t) as [[k' c']|]; [|done].
    destruct (_ && _) eqn:E; [|done]. intros [= ->] _ He. apply andb_true_iff in E as [E _]. rewrite E.
    destruct (p_exp c) as [e|]; [|done]. by rewrite (proj2 (Z.ltb_lt _ _) (He e eq_refl)).
  - done.
  - intros ms _. rewrite text_tree_text. cbn. by rewrite Z.div_1_r.
Qed.

Definition an_env : portal_env :=
  {| SESSION_SECRET := Some "a secret of more than thirty-two characters"%string; production := true; SOLANA_CLUSTER := None |}.

Definition a_message : SiwsMessage :=
  {| domain := "saep.io"; siws_address := "addr"; statement := "Sign in to SAEP portal."; uri := "saep.io"; version := "1";
     chainId := "devnet"; siws_nonce := "abcd"; siws_issuedAt := iso a_lib 1000; expirationTime := iso a_lib 301000 |}.
Definition a_nonce_token : string := a_sign (key an_env) (nonce_payload (Some "abcd") (Some "addr") 1 301)%string.
Definition a_signature : string := to_base64 a_lib (utf8 "addr" ++ utf8 (formatSiwsMessage a_message)).
Definition a_body : VerifyBody := {| vb_message := Some a_message; vb_signature := Some a_signature |}.
Definition a_jar : list (string * string) := [(NONCE_COOKIE, a_nonce_token)].
Definition a_session_token : string := a_sign (key an_env) (session_payload "addr" None 2000 DAY).

Definition asked : world := serve a_lib an_env 1000 (C_nonce "abcd" "saep.io" (Some (Some "addr"%string))) {| given := []; nonces := []; signins := [] |}.
Definition in_world : world := serve a_lib an_env 2000 (C_verify "saep.io" (Some a_body) a_jar) asked.

Lemma single_unforged w name t : t ∈ given w -> unforged a_lib an_env w [(name, t)].
Proof.
  intros Hin n x now iss c Hg _. apply map_get_elem in Hg. apply list_elem_of_singleton in Hg. by injection Hg as _ ->.
Qed.

Lemma tokens_given : bool_decide (a_nonce_token ∈ given asked) && bool_decide (a_session_token ∈ given in_world) &&
  bool_decide (length (signins in_world) = 1%nat) = true.
Proof. vm_compute. reflexivity. Qed.

Lemma in_world_history : history a_lib an_env in_world.
Proof.
  pose proof tokens_given as [[H _]%andb_true_iff _]%andb_true_iff. apply bool_decide_eq_true in H.
  constructor; [constructor; [constructor|]|by apply single_unforged].
  intros name t now iss c Hg. discriminate Hg.
Qed.

Lemma session_needs_signature_witness : exists s, readSession a_lib an_env 3000 [(COOKIE, a_session_token)] = Ok (Some s) /\
  signed_in a_lib in_world (Messages.address s).
Proof.
  exists {| address := "addr"; issuedAt := 2; session_expiresAt := 86402 |}.
  assert (H : readSession a_lib an_env 3000 [(COOKIE, a_session_token)] =
    Ok (Some {| address := "addr"; issuedAt := 2; session_expiresAt := 86402 |})) by (vm_compute; reflexivity).
  split; [exact H|].
  refine (session_needs_signature a_lib a_lib_laws an_env in_world 3000 [(COOKIE, a_session_token)] _ in_world_history _ H).
  apply single_unforged. pose proof tokens_given as [[_ Hg]%andb_true_iff _]%andb_true_iff. by apply bool_decide_eq_true in Hg.
Defined.

Lemma siws_text_inj_witness : forallb one_line (siws_fields a_message) = true /\
  (forall m, formatSiwsMessage a_message = formatSiwsMessage m -> m = a_message).
Proof.
  assert (H : forallb one_line (siws_fields a_message) = true) by (vm_compute; reflexivity).
  split; [exact H|]. intros m. apply (siws_text_inj a_message m H).
Defined.

Lemma utf8_text s : utf8 (text_of (utf8 s)) = utf8 s.
Proof.
  induction s as [|c s IH]; [done|]. unfold text_of, utf8 in *. cbn. rewrite Nat2Z.id, ascii_nat_embedding. by f_equal.
Qed.

Lemma utf8_app a b : utf8 a ++ utf8 b = utf8 (a +:+ b).
Proof. induction a as [|c a IH]; [done|]. exact (f_equal (cons _) IH). Qed.

Lemma an_env_configured : configured an_env.
Proof. eexists. split; [reflexivity|]. apply Nat.leb_le. reflexivity. Qed.

Lemma sign_in_works_witness : exists jar,
  siwsSignIn a_lib an_env 1000 2000 "abcd" "saep.io"
    (Some {| w_address := "addr"; signMessage := Some (fun text => Ok (utf8 "addr" ++ utf8 text)) |}) [] = Ok jar /\
  fetchSession a_lib an_env 5000 jar = Some ("addr"%string, iso a_lib 86402000).
Proof.
  destruct (sign_in_works a_lib a_lib_laws an_env 1000 2000 "abcd" "saep.io" "addr" (fun text => Ok (utf8 "addr" ++ utf8 text)) (utf8 "addr") [])
    as (jar & H1 & _ & H3); try done; try lia.
  - exact an_env_configured.
  - intros text. eexists. split; [reflexivity|]. split; [done|]. cbn [nacl_verify from_base64 to_base64 a_lib].
    rewrite utf8_app, utf8_text. by rewrite bool_decide_true.
  - exists jar. split; [exact H1|]. apply H3. reflexivity.
Defined.

Lemma sign_in_replays_witness : exists r, post_verify a_lib an_env 2000 "saep.io" (Some a_body) a_jar = Ok r /\ status r = 200 /\
  exists r', post_verify a_lib an_env 9000 "saep.io" (Some a_body) a_jar = Ok r' /\ sent r' = E_session "addr" 9 86409.
Proof.
  assert (Hx : exists r, post_verify a_lib an_env 2000 "saep.io" (Some a_body) a_jar = Ok r /\ status r = 200).
  { eexists. split; [vm_compute; reflexivity|reflexivity]. }
  destruct Hx as (r & Hr & Hs). exists r. split; [exact Hr|]. split; [exact Hs|].
  destruct (sign_in_replays a_lib a_lib_laws an_env 2000 9000 "saep.io" a_message a_signature a_jar r Hr Hs) as (t & c & e & Ht & Hv & He & H).
  - lia.
  - cbn [date_ms a_lib expirationTime a_message iso]. intros x Hx. rewrite text_tree_text in Hx. cbn in Hx. injection Hx as <-. vm_compute. discriminate.
  - cbn in Ht. injection Ht as <-. cbn [jwt_verify a_lib] in Hv. unfold a_verify, a_nonce_token in Hv. rewrite a_read_sign in Hv.
    destruct (_ && _); [|discriminate Hv]. injection Hv as <-. cbn in He. injection He as <-.
    destruct (H eq_refl) as (r' & E & _ & Esent). exists r'. split; [exact E|exact Esent].
Defined.

Lemma ws_tokens_renew_witness : exists token s, renew a_lib an_env 1000 3000 240000 a_session_token = Ok token /\
  readSession a_lib an_env (3000 + 1000 * 240000) [(COOKIE, token)] = Ok (Some s) /\ Messages.address s = "addr"%string.
Proof.
  assert (H : readSession a_lib an_env 3000 [(COOKIE, a_session_token)] =
    Ok (Some {| address := "addr"; issuedAt := 2; session_expiresAt := 86402 |})) by (vm_compute; reflexivity).
  destruct (ws_tokens_renew a_lib a_lib_laws an_env 1000 3000 240000 a_session_token _ H) as (t & s & Et & Ea & Er); [lia|].
  exists t, s. split; [exact Et|]. split; [exact Er|exact Ea].
Defined.
