(* ===== verification/DiscoveryApi.v ===== *)
(** * DiscoveryApi: the discovery service's HTTP and WebSocket interface

    Models services/discovery/src: schema.ts, compute-bonds.ts and the routes of
    server.ts, over the webhook hub of Webhooks.  A query string, the parameters of a
    path and a body are JSON values; a parameter given twice is refused by every
    schema.  A SQL statement is kept as its clauses; the database is a parameter that
    answers a statement with its values by rows of the type the code casts to, an
    integer column being the text node-postgres gives.  A route that throws answers
    500.  Start-up and the wiring of timers to sockets are left out; also modelled is
    the frame with which the browser's hook packages/sdk-ui/src/hooks/discovery-stream.ts
    subscribes. *)

From Stdlib Require Import ZArith QArith Qround Ascii.
From stdpp Require Import base list strings.
From S2P Require Import Prelude JsMap Json Hex Zod Numbers AgentTools Webhooks.

#[local] Open Scope Z_scope.
#[local] Open Scope saep_scope.

(** ** schema.ts *)

(** [Number(v)], where it is finite. *)
Definition coerced (v : json) : option Q :=
  match v with
  | J_null => Some 0%Q
  | J_bool b => Some (if b then 1 else 0)%Q
  | J_num q => Some q
  | J_str s => js_Number s
  | J_arr _ | J_obj _ => None
  end.

(** [z.coerce.number().int().min(lo)], with [.max(hi)] when there is one. *)
Definition z_coerce (lo : Z) (hi : option Z) : schema Z := fun v =>
  match coerced v with
  | Some q => if is_integer q && (lo <=? Qfloor q) && match hi with Some m => Qfloor q <=? m | None => true end
              then Some (Qfloor q) else None
  | None => None
  end.

Definition page_of (fs : list (string * json)) : option Z := z_default "page" (z_coerce 1 None) 1 fs.
Definition limit_of (most d : Z) (fs : list (string * json)) : option Z := z_default "limit" (z_coerce 1 (Some most)) d fs.

Definition z_text_of (l : list string) : schema string := z_enum (map (fun s => (s, s)) l).

Record AgentsQuery := {
  aq_capability : option Z; min_reputation : option Z; min_stake : option string; price_max : option string;
  aq_status : option string; aq_sort : option string; aq_page : Z; aq_limit : Z;
}.

Definition AgentsQuerySchema : schema AgentsQuery := z_object (fun o =>
  capability ← z_optional "capability" (z_coerce 0 None) o;
  reputation ← z_optional "min_reputation" (z_coerce 0 (Some 10000)) o;
  stake ← z_optional "min_stake" UintString o;
  price ← z_optional "price_max" UintString o;
  status ← z_optional "status" (z_text_of ["active"; "paused"; "slashed"; "suspended"]%string) o;
  sort ← z_optional "sort" (z_text_of ["reputation"; "price"; "jobs_completed"]%string) o;
  page ← page_of o;
  limit ← limit_of 200 50 o;
  Some {| aq_capability := capability; min_reputation := reputation; min_stake := stake; price_max := price;
          aq_status := status; aq_sort := sort; aq_page := page; aq_limit := limit |}).

Definition AgentDidParamsSchema : schema string := z_object (fun o => z_key "did" Hex32 o).
Definition TaskIdParamsSchema : schema string := z_object (fun o => z_key "task_id" Hex32 o).

Record TaskHistoryQuery := { hq_status : option string; hq_page : Z; hq_limit : Z }.

Definition TaskHistoryQuerySchema : schema TaskHistoryQuery := z_object (fun o =>
  status ← z_optional "status" z_str o;
  page ← page_of o;
  limit ← limit_of 200 50 o;
  Some {| hq_status := status; hq_page := page; hq_limit := limit |}).

Record TasksQuery := { tq_capability : option Z; tq_status : option string; min_reward : option string; tq_page : Z; tq_limit : Z }.

Definition TasksQuerySchema : schema TasksQuery := z_object (fun o =>
  capability ← z_optional "capability" (z_coerce 0 (Some 127)) o;
  status ← z_optional "status" z_str o;
  reward ← z_optional "min_reward" UintString o;
  page ← page_of o;
  limit ← limit_of 200 50 o;
  Some {| tq_capability := capability; tq_status := status; min_reward := reward; tq_page := page; tq_limit := limit |}).

Record ComputeBondQuery := { bq_status : option string; bq_provider : option string; bq_limit : Z }.

Definition ComputeBondQuerySchema : schema ComputeBondQuery := z_object (fun o =>
  status ← z_optional "status" (z_text_of ["reserved"; "locked"; "released"; "slashed"; "cancelled"; "expired"]%string) o;
  provider ← z_optional "provider" (z_text_of ["ionet"; "akash"]%string) o;
  limit ← limit_of 200 50 o;
  Some {| bq_status := status; bq_provider := provider; bq_limit := limit |}).

Record YieldStrategyQuery := { yq_venue : option string; yq_status : option string; yq_limit : Z }.

Definition YieldStrategyQuerySchema : schema YieldStrategyQuery := z_object (fun o =>
  venue ← z_optional "venue" (z_text_of ["kamino"; "marginfi"; "drift"]%string) o;
  status ← z_optional "status" (z_text_of ["active"; "paused"; "revoked"]%string) o;
  limit ← limit_of 200 50 o;
  Some {| yq_venue := venue; yq_status := status; yq_limit := limit |}).

(** WebSocket messages. *)
Inductive stream_event := status_change | new_task | task_released_frame | task_disputed_frame.

#[export] Instance stream_event_eq_dec : EqDecision stream_event.
Proof. solve_decision. Defined.

Definition stream_event_names : list (string * stream_event) :=
  [("status_change", status_change); ("new_task", new_task); ("task_released", task_released_frame); ("task_disputed", task_disputed_frame)]%string.

Definition event_name (e : stream_event) : string :=
  match e with
  | status_change => "status_change"
  | new_task => "new_task"
  | task_released_frame => "task_released"
  | task_disputed_frame => "task_disputed"
  end.

Inductive WsMessage := Subscribe (capabilities : option (list Z)) (events : option (list stream_event)) | Unsubscribe.

Definition WsMessageSchema : schema WsMessage := z_object (fun o =>
  kind ← z_key "type" (z_text_of ["subscribe"; "unsubscribe"]%string) o;
  if String.eqb kind "subscribe" then
    capabilities ← z_optional "capabilities" (z_array (z_int_min 0) (fun _ => true)) o;
    events ← z_optional "events" (z_array (z_enum stream_event_names) (fun _ => true)) o;
    Some (Subscribe capabilities events)
  else Some Unsubscribe).

(** Webhook requests. *)
Definition event_type_names : list (string * WebhookEventType) :=
  [("task_created", task_created); ("task_verified", task_verified); ("task_released", task_released);
   ("task_disputed", task_disputed); ("bid_revealed", bid_revealed); ("stream_withdrawn", stream_withdrawn);
   ("agent_status_changed", agent_status_changed)]%string.
Definition WebhookEventTypeSchema : schema WebhookEventType := z_enum event_type_names.

(** [z.string().trim().min(1)], with [.max(most)] when there is one. *)
Definition z_trimmed (most : option nat) : schema string := fun v =>
  match z_str v with
  | Some s => let t := trim s in
              if negb (String.eqb t "") && match most with Some m => (String.length t <=? m)%nat | None => true end then Some t else None
  | None => None
  end.

Definition some_of (n : nat) : bool := (1 <=? n)%nat.

Section bodies.
Variable is_url : string -> bool.       (* the platform's URL parser *)
Variable is_date : string -> bool.      (* Date.parse gives a number *)
Variable json_text : json -> string.    (* JSON.stringify *)

Definition WebhookSubscriptionCreateSchema : schema WebhookSubscriptionInput := z_object (fun o =>
  url ← z_key "url" (z_string is_url) o;
  events ← z_key "events" (z_array WebhookEventTypeSchema some_of) o;
  secret ← z_key "secret" (z_string (len_between 16 256)) o;
  description ← z_optional "description" (z_trimmed (Some 120%nat)) o;
  Some {| in_url := url; in_events := events; in_secret := secret; in_description := description |}).

Definition WebhookSubscriptionParamsSchema : schema string := z_object (fun o => z_key "id" (z_trimmed None) o).
Definition WebhookSubscriptionRotateSecretSchema : schema string := z_object (fun o => z_key "secret" (z_string (len_between 16 256)) o).

Definition WebhookDeliveriesQuerySchema : schema WebhookDeliveryListInput := z_object (fun o =>
  state ← z_optional "state" (z_enum [("pending", pending); ("delivered", delivered); ("retrying", retrying); ("dead_letter", dead_letter)]%string) o;
  subscription ← z_optional "subscription_id" (z_trimmed None) o;
  event ← z_optional "event_id" (z_trimmed None) o;
  type ← z_optional "event_type" WebhookEventTypeSchema o;
  limit ← limit_of 500 100 o;
  Some {| li_state := state; li_subscription_id := subscription; li_event_id := event; li_event_type := type; li_limit := Some limit |}).

Definition z_record : schema json := fun v => match v with J_obj _ => Some v | _ => None end.

Definition resource_of (v : json) : option (WebhookResourceType * string) := z_object (fun o =>
  type ← z_key "type" (z_enum [("task", rt_task); ("bid", rt_bid); ("stream", rt_stream); ("agent", rt_agent)]%string) o;
  id ← z_key "id" (z_trimmed None) o;
  Some (type, id)) v.

Definition WebhookEventEmitSchema : schema WebhookEventInput := z_object (fun o =>
  type ← z_key "type" WebhookEventTypeSchema o;
  chain ← z_default "chain" (z_trimmed None) "solana"%string o;
  cluster ← z_default "cluster" (z_trimmed None) "devnet"%string o;
  resource ← z_key "resource" resource_of o;
  payload ← z_default "payload" z_record (J_obj []) o;
  id ← z_optional "id" (z_trimmed (Some 128%nat)) o;
  Some {| ie_type := type; ie_chain := chain; ie_cluster := cluster; ie_resource_type := resource.1;
          ie_resource_id := resource.2; ie_payload := json_text payload; ie_id := id |}).

Definition WebhookReplayRequestSchema : schema WebhookReplayInput := z_object (fun o =>
  event ← z_optional "event_id" (z_trimmed None) o;
  from ← z_optional "since" (z_string is_date) o;
  upto ← z_optional "until" (z_string is_date) o;
  types ← z_optional "event_types" (z_array WebhookEventTypeSchema some_of) o;
  subscriptions ← z_optional "subscription_ids" (z_array (z_trimmed None) some_of) o;
  limit ← limit_of 200 50 o;
  if truthy event || truthy from then
    Some {| re_event_id := event; since := from; until := upto; event_types := default [] types;
            subscription_ids := subscriptions; re_limit := Some limit |}
  else None).
End bodies.

(** ** SQL *)

Inductive sql_value := V_text (s : string) | V_texts (l : list string) | V_int (z : Z) | V_bytes (b : list Z).

(** A SELECT by its clauses, with [$n] for its parameters. *)
Record statement := {
  columns : list string; from : string; conditions : list string; order : list string;
  limit : option string; offset : option string; values : list sql_value;
}.

(** The conditions and values collected so far; [idx] is the next parameter. *)
Record clauses := { c_conditions : list string; c_values : list sql_value; idx : Z }.

Definition no_clauses : clauses := {| c_conditions := []; c_values := []; idx := 1 |}.

Definition param (n : Z) : string := "$" +:+ z_text n.

(** [conditions.push(`<text>$${idx++}<more>`); values.push(v)] *)
Definition push (text more : string) (v : sql_value) (c : clauses) : clauses :=
  {| c_conditions := c_conditions c ++ [text +:+ param (idx c) +:+ more]; c_values := c_values c ++ [v]; idx := idx c + 1 |}.

Definition push_some {A} (o : option A) (text more : string) (f : A -> sql_value) (c : clauses) : clauses :=
  match o with
  | Some a => push text more (f a) c
  | None => c
  end.

(** [(column & $n::numeric) = $n::numeric], where [value] has every bit of the mask. *)
Definition push_mask (column : string) (mask : option Z) (c : clauses) : clauses :=
  match mask with
  | Some m =>
    let p := param (idx c) +:+ "::numeric" in
    {| c_conditions := c_conditions c ++ ["(" +:+ column +:+ " & " +:+ p +:+ ") = " +:+ p];
       c_values := c_values c ++ [V_text (z_text m)]; idx := idx c + 1 |}
  | None => c
  end.

(** [if (text)]: the empty text is falsy. *)
Definition given (o : option string) : option string := if truthy o then o else None.

(** The statement with its page, [LIMIT $n OFFSET $n+1]. *)
Definition paged (columns : list string) (from : string) (order : list string) (c : clauses) (limit offset : Z) : statement :=
  {| columns := columns; from := from; conditions := c_conditions c; order := order; limit := Some (param (idx c));
     offset := Some (param (idx c + 1)); values := c_values c ++ [V_int limit; V_int offset] |}.

(** [SELECT count( * )::int AS total] *)
Definition counted (from : string) (c : clauses) : statement :=
  {| columns := ["count"%string]; from := from; conditions := c_conditions c; order := []; limit := None; offset := None; values := c_values c |}.

(** A statement on one key. *)
Definition keyed (columns : list string) (from key : string) (order : list string) (limit : option string) (v : sql_value) : statement :=
  {| columns := columns; from := from; conditions := [key +:+ " = $1"]; order := order; limit := limit; offset := None; values := [v] |}.

(** ** Rows, as the code casts them *)

Record agent_row := {
  ar_agent_did : list Z; operator : option string; capability_mask : option string; stake_amount : option string;
  reputation_composite : Z; ar_status : string; last_active_unix : string;
}.
Record task_row := {
  tr_task_id : list Z; creator : option string; tr_agent_did : option (list Z); tr_status : option string;
  reward_lamports : option string; tr_capability_mask : option string; created_at_unix : string;
  deadline_unix : option string; updated_at_unix : option string;
}.
Record reputation_row := {
  capability_bit : Z; quality : Z; timeliness : Z; availability : Z; cost_efficiency : Z; honesty : Z;
  jobs_completed : string; jobs_disputed : string; composite_score : Z; last_update : Z;
}.
Record bond_row := {
  lease_id : string; br_agent_did : string; br_provider : string; gpu_hours : Q; br_expires_at : string; slashable_until : string;
  task_id_hex : option string; br_status : string; status_reason : option string; reserved_price_usd_micro : option string;
  broker_pubkey : string; attestation_sig : string; created_at_ms : string; updated_at_ms : string; provider_status : option string;
}.
Record strategy_row := {
  strategy_id : list Z; venue : string; strategy_program : string; underlying_mint : string; receipt_mint : string;
  max_allocation_bps : Z; risk_tier : string; sy_status : string; sy_name : string; metadata_uri : string;
  registered_unix : string; status_unix : option string;
}.
Record yield_row := {
  yr_agent_did : list Z; yr_strategy_id : list Z; allocation_bps : Z; yr_status : string; unwind_requested : bool;
  idle_amount : string; deployed_amount : string; realized_yield_amount : string; accounting_slot : option string;
  config_unix : string; unwind_unix : option string; accounting_unix : option string;
}.

Record position_row := {
  po_agent_did : list Z; po_strategy_id : list Z; vault_mint : string; po_receipt_mint : string; principal_amount : string;
  receipt_amount : string; po_realized_yield_amount : string; po_deployed_amount : string; po_idle_amount : string;
  po_accounting_slot : option string; po_status : string; po_unwind_requested : bool; last_event_name : string; updated_unix : string;
}.
Record capability_row := { ca_bit : Z; ca_agents : Z; ca_tasks : Z }.
Record stats_row := {
  total_agents : Z; total_tasks : Z; volume_lamports : string; active_streams : Z; protocol_fees_lamports : string; last_24h_fees_lamports : string;
}.

(** The database; the statements of the last two have no parameters.  [q_count] gives [rows[0].total], nothing when there is no row. *)
Record discovery_db := {
  q_ping : result unit;
  q_count : statement -> result (option Z);
  q_agents : statement -> result (list agent_row);
  q_tasks : statement -> result (list task_row);
  q_reputation : statement -> result (list reputation_row);
  q_bonds : statement -> result (list bond_row);
  q_strategies : statement -> result (list strategy_row);
  q_yield : statement -> result (list yield_row);
  q_positions : statement -> result (list position_row);
  q_capabilities : result (list capability_row);
  q_stats : result (option stats_row);
}.

(** ** compute-bonds.ts *)

Record ComputeBondSummary := {
  cb_lease_id : string; cb_agent_did : string; cb_provider : string; cb_gpu_hours : Q; cb_expires_at : option Q;
  cb_slashable_until : option Q; cb_task_id : option string; cb_status : string; cb_status_reason : option string;
  cb_reserved_price_usd_micro : option (option Q); cb_broker_pubkey : string; cb_attestation_sig : string;
  cb_created_at_ms : option Q; cb_updated_at_ms : option Q; cb_provider_status : option string;
}.

(** [Number(value)], [None] for NaN. *)
Definition asNumber (value : string) : option Q := js_Number value.

Definition mapRow (row : bond_row) : ComputeBondSummary :=
  {| cb_lease_id := lease_id row; cb_agent_did := br_agent_did row; cb_provider := br_provider row; cb_gpu_hours := gpu_hours row;
     cb_expires_at := asNumber (br_expires_at row); cb_slashable_until := asNumber (slashable_until row); cb_task_id := task_id_hex row;
     cb_status := br_status row; cb_status_reason := status_reason row;
     cb_reserved_price_usd_micro := option_map asNumber (reserved_price_usd_micro row); cb_broker_pubkey := broker_pubkey row;
     cb_attestation_sig := attestation_sig row; cb_created_at_ms := asNumber (created_at_ms row);
     cb_updated_at_ms := asNumber (updated_at_ms row); cb_provider_status := provider_status row |}.

Definition BOND_COLUMNS : list string :=
  ["lease_id"; "agent_did"; "provider"; "gpu_hours"; "expires_at"; "slashable_until"; "task_id_hex"; "status"; "status_reason";
   "reserved_price_usd_micro"; "broker_pubkey"; "attestation_sig"; "created_at_ms"; "updated_at_ms"; "provider_status"]%string.
Definition BOND_ORDER : list string := ["updated_at_ms DESC"; "lease_id ASC"]%string.

(** [[...new Set(ids)]] *)
Definition unique (ids : list string) : list string := distinct_from [] ids.

(** One row added to its task's list. *)
Definition group_row (grouped : list (string * list ComputeBondSummary)) (row : bond_row) : list (string * list ComputeBondSummary) :=
  let summary := mapRow row in
  match given (cb_task_id summary) with
  | None => grouped
  | Some t => map_set t (default [] (map_get t grouped) ++ [summary]) grouped
  end.

Definition loadComputeBondMapForTaskIds (db : discovery_db) (taskIds : list string) : result (list (string * list ComputeBondSummary)) :=
  match taskIds with
  | [] => Ok []
  | _ =>
    let! rows := q_bonds db {| columns := BOND_COLUMNS; from := "compute_bond_snapshots"; conditions := ["task_id_hex = ANY($1::text[])"%string];
                               order := BOND_ORDER; limit := None; offset := None; values := [V_texts (unique taskIds)] |} in
    Ok (fold_left group_row rows [])
  end.

Record ListComputeBondsQuery := {
  lq_taskId : option string; lq_taskIds : list string; lq_status : option string; lq_provider : option string; lq_limit : option Z;
}.

Definition bond_clauses (f : ListComputeBondsQuery) : option clauses :=
  let scope := match given (lq_taskId f), lq_taskIds f with
               | Some t, _ => Some (push "task_id_hex = " "" (V_text t) no_clauses)
               | None, [] => None
               | None, ids => Some (push "task_id_hex = ANY(" "::text[])" (V_texts (unique ids)) no_clauses)
               end in
  option_map (fun c => push_some (given (lq_provider f)) "provider = " "" V_text (push_some (given (lq_status f)) "status = " "" V_text c)) scope.

Definition listPersistedComputeBonds (db : discovery_db) (f : ListComputeBondsQuery) : result (list ComputeBondSummary) :=
  match bond_clauses f with
  | None => Ok []
  | Some c =>
    let most := Z.min 200 (Z.max 1 (default 50 (lq_limit f))) in
    let! rows := q_bonds db {| columns := BOND_COLUMNS; from := "compute_bond_snapshots"; conditions := c_conditions c; order := BOND_ORDER;
                               limit := Some (param (idx c)); offset := None; values := c_values c ++ [V_int most] |} in
    Ok (map mapRow rows)
  end.

(** ** The read routes of server.ts *)

Definition SORT_MAP (sort : string) : string :=
  if String.eqb sort "price" then "reward_lamports" else if String.eqb sort "jobs_completed" then "jobs_completed" else "reputation_composite".

Record agent_item := {
  ai_did : string; ai_operator : option string; ai_capability_mask : option string; ai_stake_lamports : option string;
  ai_reputation : Z; ai_status : string; ai_last_active_unix : option Q;
}.
(** [Number] of a column that can be null: null for null where the code tests it, 0 where it does not. *)
Definition number_or_null (v : option string) : option (option Q) := option_map asNumber (given v).
Definition number_of_null (v : option string) : option Q := match v with Some s => asNumber s | None => Some 0%Q end.

Record task_item := {
  ti_task_id : string; ti_creator : option string; ti_agent_did : option string; ti_status : option string;
  ti_reward_lamports : option string; ti_capability_mask : option string; ti_created_at_unix : option Q;
  ti_deadline_unix : option (option Q); ti_updated_at_unix : option (option Q); ti_compute_bonds : list ComputeBondSummary;
}.
Record reputation_item := {
  ri_row : reputation_row; ri_jobs_completed : option Q; ri_jobs_disputed : option Q; ri_last_update_unix : Z;
}.

Inductive body :=
| E (error : string)
| B_health (status : string)
| B_agents (items : list agent_item) (page limit total : Z)
| B_tasks (items : list task_item) (page limit total : Z)
| B_agent (agent : agent_item) (reputation_breakdown : list reputation_item)
| B_bonds (key id : string) (items : list ComputeBondSummary)
| B_strategies (items : list (strategy_row * option Q * option (option Q)))
| B_yield (row : yield_row) (slot configured unwind accounting : option (option Q))
| B_positions (did : string) (items : list (position_row * option (option Q) * option Q))
| B_capabilities (capabilities : list capability_row)
| B_stats (stats : stats_row)
| B_subscription (s : WebhookSubscriptionRecord)
| B_subscriptions (items : list WebhookSubscriptionRecord)
| B_deliveries (items : list WebhookDeliveryRecord)
| B_emitted (event : WebhookEvent) (deliveries : list string)
| B_replayed (events : list WebhookEvent) (deliveries : list string).

Definition response : Type := Z * body.

Definition AGENT_COLUMNS : list string :=
  ["agent_did"; "operator"; "capability_mask"; "stake_amount"; "reputation_composite"; "status"; "last_active_unix"]%string.

Definition agent_clauses (q : AgentsQuery) : clauses :=
  push_some (given (min_stake q)) "stake_amount >= " "::numeric" V_text
    (push_some (min_reputation q) "reputation_composite >= " "" V_int
      (push_mask "capability_mask" (aq_capability q)
        (push_some (given (aq_status q)) "status = " "" V_text no_clauses))).

Definition agents_statement (q : AgentsQuery) : statement :=
  let sortCol := SORT_MAP (default "reputation" (aq_sort q)) in
  paged AGENT_COLUMNS "agent_directory" [sortCol +:+ " DESC"; "agent_did ASC"%string] (agent_clauses q) (aq_limit q) ((aq_page q - 1) * aq_limit q).

Definition to_agent_item (r : agent_row) : agent_item :=
  {| ai_did := bytesToHex (ar_agent_did r); ai_operator := operator r; ai_capability_mask := capability_mask r;
     ai_stake_lamports := stake_amount r; ai_reputation := reputation_composite r; ai_status := ar_status r;
     ai_last_active_unix := asNumber (last_active_unix r) |}.

Definition TASK_COLUMNS : list string :=
  ["t.task_id"; "t.creator"; "t.agent_did"; "t.status"; "t.reward_lamports";
   "COALESCE(t.capability_mask, a.capability_mask) AS capability_mask"; "t.created_at_unix"; "t.deadline_unix"; "t.updated_at_unix"]%string.
Definition TASK_FROM : string := "task_directory t LEFT JOIN agent_directory a ON a.agent_did = t.agent_did".

(** [status.split(',').map(trim)], and in GET /tasks [.filter(Boolean)]. *)
Definition statuses_of (status : string) : list string := map trim (split_on comma status).
Definition nonempty (l : list string) : list string := List.filter (fun s => negb (String.eqb s "")) l.

Definition task_clauses (q : TasksQuery) : clauses :=
  let c := match given (tq_status q) with
           | Some s => match nonempty (statuses_of s) with
                       | [] => no_clauses
                       | l => push "t.status = ANY(" ")" (V_texts l) no_clauses
                       end
           | None => no_clauses
           end in
  push_some (given (min_reward q)) "t.reward_lamports >= " "::numeric" V_text
    (push_mask "a.capability_mask" (option_map (Z.shiftl 1) (tq_capability q)) c).

Definition tasks_statement (q : TasksQuery) : statement :=
  paged TASK_COLUMNS TASK_FROM ["t.created_at_unix DESC"; "t.task_id ASC"]%string (task_clauses q) (tq_limit q) ((tq_page q - 1) * tq_limit q).

Definition to_task_item (r : task_row) : task_item :=
  {| ti_task_id := bytesToHex (tr_task_id r); ti_creator := creator r; ti_agent_did := option_map bytesToHex (tr_agent_did r);
     ti_status := tr_status r; ti_reward_lamports := reward_lamports r; ti_capability_mask := tr_capability_mask r;
     ti_created_at_unix := asNumber (created_at_unix r); ti_deadline_unix := number_or_null (deadline_unix r);
     ti_updated_at_unix := number_or_null (updated_at_unix r); ti_compute_bonds := [] |}.

(** A row of an agent's history: no agent or mask, and [Number] of what may be null. *)
Definition to_history_item (r : task_row) : task_item :=
  {| ti_task_id := bytesToHex (tr_task_id r); ti_creator := creator r; ti_agent_did := None; ti_status := tr_status r;
     ti_reward_lamports := reward_lamports r; ti_capability_mask := None; ti_created_at_unix := asNumber (created_at_unix r);
     ti_deadline_unix := Some (number_of_null (deadline_unix r)); ti_updated_at_unix := Some (number_of_null (updated_at_unix r));
     ti_compute_bonds := [] |}.

(** [bondsByTaskId.get(id) ?? []] on each item. *)
Definition with_bonds (bonds : list (string * list ComputeBondSummary)) (i : task_item) : task_item :=
  {| ti_task_id := ti_task_id i; ti_creator := ti_creator i; ti_agent_did := ti_agent_did i; ti_status := ti_status i;
     ti_reward_lamports := ti_reward_lamports i; ti_capability_mask := ti_capability_mask i; ti_created_at_unix := ti_created_at_unix i;
     ti_deadline_unix := ti_deadline_unix i; ti_updated_at_unix := ti_updated_at_unix i;
     ti_compute_bonds := default [] (map_get (ti_task_id i) bonds) |}.

Definition HISTORY_COLUMNS : list string :=
  ["task_id"; "creator"; "status"; "reward_lamports"; "created_at_unix"; "deadline_unix"; "updated_at_unix"]%string.

Definition history_clauses (did : list Z) (q : TaskHistoryQuery) : clauses :=
  let c := push "agent_did = " "" (V_bytes did) no_clauses in
  push_some (given (hq_status q)) "status = ANY(" ")" (fun s => V_texts (statuses_of s)) c.

Definition history_statement (did : list Z) (q : TaskHistoryQuery) : statement :=
  paged HISTORY_COLUMNS "task_directory" ["created_at_unix DESC"; "task_id ASC"]%string (history_clauses did q) (hq_limit q) ((hq_page q - 1) * hq_limit q).

Definition strategy_statement (q : YieldStrategyQuery) : statement :=
  let c := push_some (given (yq_status q)) "status = " "" V_text (push_some (given (yq_venue q)) "venue = " "" V_text no_clauses) in
  {| columns := ["strategy_id"; "venue"; "strategy_program"; "underlying_mint"; "receipt_mint"; "max_allocation_bps"; "risk_tier";
                 "status"; "name"; "metadata_uri"; "registered_unix"; "status_unix"]%string;
     from := "yield_strategy_directory"; conditions := c_conditions c; order := ["status ASC"; "venue ASC"; "registered_unix DESC"]%string;
     limit := Some (param (idx c)); offset := None; values := c_values c ++ [V_int (yq_limit q)] |}.

Definition YIELD_COLUMNS : list string :=
  ["agent_did"; "strategy_id"; "allocation_bps"; "status"; "unwind_requested"; "idle_amount"; "deployed_amount";
   "realized_yield_amount"; "accounting_slot"; "config_unix"; "unwind_unix"; "accounting_unix"]%string.
Definition POSITION_COLUMNS : list string :=
  ["agent_did"; "strategy_id"; "vault_mint"; "receipt_mint"; "principal_amount"; "receipt_amount"; "realized_yield_amount"; "deployed_amount";
   "idle_amount"; "accounting_slot"; "status"; "unwind_requested"; "last_event_name"; "updated_unix"]%string.
Definition REPUTATION_COLUMNS : list string :=
  ["capability_bit"; "quality"; "timeliness"; "availability"; "cost_efficiency"; "honesty"; "jobs_completed"; "jobs_disputed";
   "composite_score"; "last_update"]%string.

Section routes.
Variable db : discovery_db.
Variable hexToBytes : string -> list Z.   (* Buffer.from(hex, 'hex') *)

Definition invalid (name : string) : result response := Ok (400, E name).

Definition get_healthz : response := (200, B_health (if is_ok (q_ping db) then "ok" else "degraded")).

Definition get_agents (query : json) : result response :=
  match AgentsQuerySchema query with
  | None => invalid "invalid_query"
  | Some q =>
    let! total := q_count db (counted "agent_directory" (agent_clauses q)) in
    let! rows := q_agents db (agents_statement q) in
    Ok (200, B_agents (map to_agent_item rows) (aq_page q) (aq_limit q) (default 0 total))
  end.

Definition get_tasks (query : json) : result response :=
  match TasksQuerySchema query with
  | None => invalid "invalid_query"
  | Some q =>
    let! total := q_count db (counted TASK_FROM (task_clauses q)) in
    let! rows := q_tasks db (tasks_statement q) in
    let items := map to_task_item rows in
    let! bonds := loadComputeBondMapForTaskIds db (map ti_task_id items) in
    Ok (200, B_tasks (map (with_bonds bonds) items) (tq_page q) (tq_limit q) (default 0 total))
  end.

Definition get_agent (params : json) : result response :=
  match AgentDidParamsSchema params with
  | None => invalid "invalid_did"
  | Some did =>
    let! rows := q_agents db (keyed AGENT_COLUMNS "agent_directory" "agent_did" [] None (V_bytes (hexToBytes did))) in
    match rows with
    | [] => Ok (404, E "agent_not_found")
    | agent :: _ =>
      let! reputation := q_reputation db (keyed REPUTATION_COLUMNS "reputation_rollup" "agent_did" ["capability_bit ASC"%string] None (V_bytes (hexToBytes did))) in
      Ok (200, B_agent (to_agent_item agent)
            (map (fun r => {| ri_row := r; ri_jobs_completed := asNumber (jobs_completed r); ri_jobs_disputed := asNumber (jobs_disputed r);
                              ri_last_update_unix := last_update r / 1000 |}) reputation))
    end
  end.

Definition get_agent_tasks (params query : json) : result response :=
  match AgentDidParamsSchema params with
  | None => invalid "invalid_did"
  | Some did =>
    match TaskHistoryQuerySchema query with
    | None => invalid "invalid_query"
    | Some q =>
      let! total := q_count db (counted "task_directory" (history_clauses (hexToBytes did) q)) in
      let! rows := q_tasks db (history_statement (hexToBytes did) q) in
      let items := map to_history_item rows in
      let! bonds := loadComputeBondMapForTaskIds db (map ti_task_id items) in
      Ok (200, B_tasks (map (with_bonds bonds) items) (hq_page q) (hq_limit q) (default 0 total))
    end
  end.

Definition get_agent_bonds (params query : json) : result response :=
  match AgentDidParamsSchema params with
  | None => invalid "invalid_did"
  | Some did =>
    match ComputeBondQuerySchema query with
    | None => invalid "invalid_query"
    | Some q =>
      let! rows := q_tasks db (keyed ["task_id"%string] "task_directory" "agent_did"
                                 ["COALESCE(updated_at_unix, created_at_unix) DESC"; "task_id ASC"]%string (Some "200"%string) (V_bytes (hexToBytes did))) in
      match map (fun r => bytesToHex (tr_task_id r)) rows with
      | [] => Ok (200, B_bonds "agent_did" did [])
      | ids =>
        let! items := listPersistedComputeBonds db {| lq_taskId := None; lq_taskIds := ids; lq_status := bq_status q;
                                                      lq_provider := bq_provider q; lq_limit := Some (bq_limit q) |} in
        Ok (200, B_bonds "agent_did" did items)
      end
    end
  end.

Definition get_task_bonds (params query : json) : result response :=
  match TaskIdParamsSchema params with
  | None => invalid "invalid_task_id"
  | Some task =>
    match ComputeBondQuerySchema query with
    | None => invalid "invalid_query"
    | Some q =>
      let! items := listPersistedComputeBonds db {| lq_taskId := Some task; lq_taskIds := []; lq_status := bq_status q;
                                                    lq_provider := bq_provider q; lq_limit := Some (bq_limit q) |} in
      Ok (200, B_bonds "task_id" task items)
    end
  end.

Definition get_yield_strategies (query : json) : result response :=
  match YieldStrategyQuerySchema query with
  | None => invalid "invalid_query"
  | Some q =>
    let! rows := q_strategies db (strategy_statement q) in
    Ok (200, B_strategies (map (fun r => (r, asNumber (registered_unix r), option_map asNumber (status_unix r))) rows))
  end.

Definition get_treasury_yield (params : json) : result response :=
  match AgentDidParamsSchema params with
  | None => invalid "invalid_params"
  | Some did =>
    let! rows := q_yield db (keyed YIELD_COLUMNS "treasury_yield_directory" "agent_did" [] None (V_bytes (hexToBytes did))) in
    match rows with
    | [] => Ok (404, E "not_found")
    | r :: _ => Ok (200, B_yield r (option_map asNumber (accounting_slot r)) (Some (asNumber (config_unix r)))
                           (option_map asNumber (unwind_unix r)) (option_map asNumber (accounting_unix r)))
    end
  end.

(** The did of the answer is in lower case. *)
Definition get_positions (toLowerCase : string -> string) (params : json) : result response :=
  match AgentDidParamsSchema params with
  | None => invalid "invalid_params"
  | Some did =>
    let! rows := q_positions db (keyed POSITION_COLUMNS "treasury_yield_position_directory" "agent_did"
                                   ["status ASC"; "updated_unix DESC"; "strategy_id ASC"]%string None (V_bytes (hexToBytes did))) in
    Ok (200, B_positions (toLowerCase did) (map (fun r => (r, option_map asNumber (po_accounting_slot r), asNumber (updated_unix r))) rows))
  end.

Definition get_capabilities : result response := let! rows := q_capabilities db in Ok (200, B_capabilities rows).

(** Without a row every figure is zero. *)
Definition get_stats : result response :=
  let! row := q_stats db in
  Ok (200, B_stats (default {| total_agents := 0; total_tasks := 0; volume_lamports := "0"; active_streams := 0; protocol_fees_lamports := "0";
                               last_24h_fees_lamports := "0" |} row)).
End routes.

(** ** The webhook routes *)

Record access := { webhookAdminToken : option string; webhookServiceToken : option string }.

(** A request to a webhook route: the token of its header and its parts; [ids] are the
    next identifiers of the hub's id factory. *)
Inductive webhook_request :=
| W_subscribe (token : option string) (body : json) (id : string)
| W_list (token : option string)
| W_rotate (token : option string) (params body : json)
| W_deliveries (token : option string) (query : json)
| W_emit (token : option string) (body : json) (ids : list string)
| W_replay (token : option string) (body : json) (ids : list string).

Section webhooks.
Variable iso : Z -> string.
Variable date_parse : string -> Z.
Variable hmac : string -> string -> string.
Variable stringify : WebhookEvent -> string.
Variable compare : string -> string -> comparison.
Variable is_url is_date : string -> bool.
Variable json_text : json -> string.
Variable acc : access.

Definition requireToken (header expected : option string) : bool := authorizeToken header expected.

Definition unauthorized : response := (401, E "unauthorized").

Definition post_subscriptions (now : Z) (token : option string) (b : json) (id : string) (h : hub) : hub * response :=
  if negb (requireToken token (webhookAdminToken acc)) then (h, unauthorized) else
  match WebhookSubscriptionCreateSchema is_url b with
  | None => (h, (400, E "invalid_body"))
  | Some data => let r := createSubscription iso id now data h in (r.1, (201, B_subscription r.2))
  end.

Definition get_subscriptions (token : option string) (h : hub) : hub * response :=
  if negb (requireToken token (webhookAdminToken acc)) then (h, unauthorized)
  else (h, (200, B_subscriptions (listSubscriptions compare h))).

Definition post_rotate_secret (now : Z) (token : option string) (params b : json) (h : hub) : hub * response :=
  if negb (requireToken token (webhookAdminToken acc)) then (h, unauthorized) else
  match WebhookSubscriptionParamsSchema params with
  | None => (h, (400, E "invalid_params"))
  | Some id =>
    match WebhookSubscriptionRotateSecretSchema b with
    | None => (h, (400, E "invalid_body"))
    | Some secret =>
      match rotateSubscriptionSecret iso now id secret h with
      | (h', None) => (h', (404, E "subscription_not_found"))
      | (h', Some s) => (h', (200, B_subscription s))
      end
    end
  end.

Definition get_deliveries (token : option string) (query : json) (h : hub) : hub * response :=
  if negb (requireToken token (webhookAdminToken acc)) then (h, unauthorized) else
  match WebhookDeliveriesQuerySchema query with
  | None => (h, (400, E "invalid_query"))
  | Some f => (h, (200, B_deliveries (listDeliveries compare f h)))
  end.

Definition post_events (now : Z) (token : option string) (b : json) (ids : list string) (h : hub) : hub * response :=
  if negb (requireToken token (webhookServiceToken acc)) then (h, unauthorized) else
  match WebhookEventEmitSchema json_text b with
  | None => (h, (400, E "invalid_body"))
  | Some data => let '(h', (event, deliveries, _)) := emit iso hmac stringify ids now data h in (h', (202, B_emitted event deliveries))
  end.

Definition post_replay (now : Z) (token : option string) (b : json) (ids : list string) (h : hub) : hub * response :=
  if negb (requireToken token (webhookAdminToken acc)) then (h, unauthorized) else
  match WebhookReplayRequestSchema is_date b with
  | None => (h, (400, E "invalid_body"))
  | Some data => let '(h', (replayed, deliveries)) := replay iso hmac stringify compare ids now data h in (h', (202, B_replayed replayed deliveries))
  end.

Definition webhook_route (now : Z) (r : webhook_request) (h : hub) : hub * response :=
  match r with
  | W_subscribe token b id => post_subscriptions now token b id h
  | W_list token => get_subscriptions token h
  | W_rotate token params b => post_rotate_secret now token params b h
  | W_deliveries token query => get_deliveries token query h
  | W_emit token b ids => post_events now token b ids h
  | W_replay token b ids => post_replay now token b ids h
  end.
End webhooks.

(** ** GET /ws *)

(** What a poll reads: the agents, and the tasks, with the times the queries compare. *)
Record agent_change := { ac_did : string; ac_status : string; ac_reputation : Z; ac_last_active : Z }.
Record task_change := {
  tc_task_id : string; tc_creator : option string; tc_agent_did : option string; tc_status : option string;
  tc_reward : option string; tc_created : Z; tc_deadline : option Z; tc_updated : option Z;
}.

Inductive frame :=
| F_invalid (error : string)
| F_subscribed (capabilities : option (list Z)) (events : option (list stream_event))
| F_unsubscribed
| F_status_change (a : agent_change)
| F_new_task (t : task_change)
| F_task (kind : stream_event) (t : task_change).

(** The closure's variables; a Set is the list it was made from. *)
Record socket := { s_capabilities : option (list Z); s_events : option (list stream_event); lastPoll : Z }.

Definition new_socket (now : Z) : socket := {| s_capabilities := None; s_events := None; lastPoll := now |}.

(** [socket.on('message')]; [raw] is the parsed text. *)
Definition on_message (raw : option json) (s : socket) : socket * frame :=
  match raw with
  | None => (s, F_invalid "invalid_json")
  | Some v =>
    match WsMessageSchema v with
    | None => (s, F_invalid "invalid_message")
    | Some (Subscribe capabilities events) =>
      ({| s_capabilities := capabilities; s_events := events; lastPoll := lastPoll s |}, F_subscribed capabilities events)
    | Some Unsubscribe => ({| s_capabilities := None; s_events := None; lastPoll := lastPoll s |}, F_unsubscribed)
    end
  end.

(** The polling queries, by the time they compare with. *)
Record ws_db := {
  q_changed : Z -> result (list agent_change);
  q_created : Z -> result (list task_change);
  q_status : string -> Z -> result (list task_change);
}.

(** [!events || events.has(e)] *)
Definition wants (s : socket) (e : stream_event) : bool :=
  match s_events s with
  | None => true
  | Some l => bool_decide (e ∈ l)
  end.

(** The frames of each query in turn, up to the first that fails. *)
Fixpoint send_all (qs : list (result (list frame))) : list frame :=
  match qs with
  | Ok fs :: qs' => fs ++ send_all qs'
  | Throw _ :: _ | [] => []
  end.

Definition framed {A} (f : A -> frame) (r : result (list A)) : result (list frame) := let! l := r in Ok (map f l).

(** One tick of the interval. *)
Definition poll (db : ws_db) (now : Z) (s : socket) : socket * list frame :=
  match s_capabilities s, s_events s with
  | None, None => (s, [])
  | _, _ =>
    let sinceUnix := lastPoll s / 1000 in
    let transition kind status := if wants s kind then [framed (F_task kind) (q_status db status sinceUnix)] else [] in
    ({| s_capabilities := s_capabilities s; s_events := s_events s; lastPoll := now |},
     send_all ((if wants s status_change then [framed F_status_change (q_changed db sinceUnix)] else []) ++
               (if wants s new_task then [framed F_new_task (q_created db sinceUnix)] else []) ++
               transition task_released_frame "released"%string ++ transition task_disputed_frame "disputed"%string))
  end.

(** The queries on the views as they are: [WHERE t > $1 ORDER BY t DESC LIMIT 50]. *)
Record views := { v_agents : list agent_change; v_tasks : list task_change }.

Definition newest {A} (time : A -> Z) (l : list A) : list A := slice_to 50 (js_sort (fun a b => Z.compare (time b) (time a)) l).
Definition since_of {A} (time : A -> option Z) (since : Z) (l : list A) : list A :=
  List.filter (fun a => match time a with Some t => since <? t | None => false end) l.

Definition view_db (v : views) : ws_db := {|
  q_changed since := Ok (newest ac_last_active (since_of (Some ∘ ac_last_active) since (v_agents v)));
  q_created since := Ok (newest tc_created (since_of (Some ∘ tc_created) since (v_tasks v)));
  q_status st since := Ok (newest (fun t => default 0 (tc_updated t))
                             (List.filter (fun t => bool_decide (tc_status t = Some st)) (since_of tc_updated since (v_tasks v))));
|}.

(** The frame the browser's hook opens with. *)
Definition hook_subscribe (capabilities : option (list Z)) (events : option (list stream_event)) : json :=
  J_obj ([("type"%string, J_str "subscribe")]
    ++ match capabilities with Some l => [("capabilities"%string, J_arr (map (fun z => J_num (inject_Z z)) l))] | None => [] end
    ++ match events with Some l => [("events"%string, J_arr (map (fun e => J_str (event_name e)) l))] | None => [] end).
