(* ===== verification/DiscoverySafety.v ===== *)
(** * DiscoverySafety: what the discovery service answers and pushes

    Theorems on DiscoveryApi: statements and their values, the bonds of a listed task,
    the searches PostgreSQL refuses, the access to the webhook hub, and what a WebSocket
    subscriber is and is never sent. *)

From Stdlib Require Import ZArith QArith Qround Lia Ascii.
From stdpp Require Import base list strings.
From S2P Require Import Prelude JsMap Json Hex Zod Numbers AgentTools Webhooks WebhooksSafety DiscoveryApi.

#[local] Open Scope Z_scope.
#[local] Open Scope saep_scope.

(** ** Statements and their parameters *)

(** Condition [i] has the parameter of value [i], and the next parameter is the next. *)
Definition mentions (cond : string) (n : Z) : Prop := exists before after, cond = before +:+ param n +:+ after.

Record bound (conds : list string) (vals : list sql_value) : Prop := {
  bound_length : length conds = length vals;
  bound_params : forall i cond, conds !! i = Some cond -> mentions cond (Z.of_nat i + 1);
}.

Definition clauses_ok (c : clauses) : Prop := bound (c_conditions c) (c_values c) /\ idx c = Z.of_nat (length (c_values c)) + 1.

Lemma bound_snoc conds vals cond v : bound conds vals -> mentions cond (Z.of_nat (length vals) + 1) -> bound (conds ++ [cond]) (vals ++ [v]).
Proof.
  intros [Hl Hp] Hm. split; [rewrite !length_app; cbn; lia|]. intros i c Hi.
  apply lookup_snoc_Some in Hi as [[_ Hi]|[-> <-]]; [by apply Hp|]. by rewrite Hl.
Qed.

Lemma push_ok text more v c : clauses_ok c -> clauses_ok (push text more v c).
Proof.
  intros [Hb Hi]. split; cbn [push c_conditions c_values idx].
  - apply bound_snoc; [done|]. rewrite <- Hi. by exists text, more.
  - rewrite length_app. cbn. lia.
Qed.

Lemma push_some_ok {A} (o : option A) text more f c : clauses_ok c -> clauses_ok (push_some o text more f c).
Proof. destruct o; [apply push_ok|done]. Qed.

Lemma push_mask_ok column mask c : clauses_ok c -> clauses_ok (push_mask column mask c).
Proof.
  destruct mask as [m|]; [|done]. intros [Hb Hi]. split; cbn [push_mask c_conditions c_values idx].
  - apply bound_snoc; [done|]. rewrite <- Hi. exists ("(" +:+ column +:+ " & "), ("::numeric) = " +:+ param (idx c) +:+ "::numeric").
    by rewrite !string_app_assoc.
  - rewrite length_app. cbn. lia.
Qed.

Lemma no_clauses_ok : clauses_ok no_clauses.
Proof. split; [split|]; done. Qed.

#[local] Hint Resolve push_ok push_some_ok push_mask_ok no_clauses_ok : saep.

(** A page's statement: every condition reads its own value, then come the limit and the offset. *)
Definition statement_ok (st : statement) (page per_page : Z) : Prop :=
  exists vals, values st = vals ++ [V_int per_page; V_int ((page - 1) * per_page)] /\ bound (conditions st) vals /\
    limit st = Some (param (Z.of_nat (length vals) + 1)) /\ offset st = Some (param (Z.of_nat (length vals) + 2)).

Lemma paged_ok columns from order c page per_page : clauses_ok c ->
  statement_ok (paged columns from order c per_page ((page - 1) * per_page)) page per_page.
Proof.
  intros [Hb Hi]. exists (c_values c). cbn [paged values conditions limit offset]. split; [done|]. split; [done|].
  rewrite Hi. split; [done|]. do 2 f_equal. lia.
Qed.

(** Whatever filters a search has, its statement is aligned with its values: the
    n-th condition reads parameter n, the values are one per condition, and LIMIT and
    OFFSET read the page size and the position of the page. *)
Theorem statements_aligned (qa : AgentsQuery) (qt : TasksQuery) (did : list Z) (qh : TaskHistoryQuery) :
  statement_ok (agents_statement qa) (aq_page qa) (aq_limit qa) /\ statement_ok (tasks_statement qt) (tq_page qt) (tq_limit qt) /\
  statement_ok (history_statement did qh) (hq_page qh) (hq_limit qh).
Proof.
  split; [|split]; apply paged_ok.
  - unfold agent_clauses. auto with saep.
  - unfold task_clauses. destruct (given (tq_status qt)); [destruct (nonempty _)|]; auto 6 with saep.
  - unfold history_clauses. auto with saep.
Qed.

(** ** The bonds of a task *)

Lemma group_get rows t g : t <> ""%string ->
  default [] (map_get t (fold_left group_row rows g)) =
  default [] (map_get t g) ++ map mapRow (List.filter (fun r => bool_decide (task_id_hex r = Some t)) rows).
Proof.
  intros Ht. revert g. induction rows as [|r rows IH]; intros g; cbn [fold_left List.filter]; [by rewrite app_nil_r|].
  rewrite IH. unfold group_row. change (cb_task_id (mapRow r)) with (task_id_hex r). unfold given.
  destruct (task_id_hex r) as [u|] eqn:Eu; cbn [truthy].
  - destruct (String.eqb_spec u "") as [->|Hu]; cbn [negb]; [by rewrite bool_decide_false by congruence|].
    rewrite map_get_set. destruct (decide (t = u)) as [->|Hne].
    + rewrite bool_decide_true by done. simpl. by rewrite <- app_assoc.
    + by rewrite bool_decide_false by congruence.
  - by rewrite bool_decide_false.
Qed.

(** The rows the database gives for the tasks of a page. *)
Definition bonds_of (db : discovery_db) (ids : list string) : result (list bond_row) :=
  match ids with
  | [] => Ok []
  | _ => q_bonds db {| columns := BOND_COLUMNS; from := "compute_bond_snapshots"; conditions := ["task_id_hex = ANY($1::text[])"%string];
                       order := BOND_ORDER; limit := None; offset := None; values := [V_texts (unique ids)] |}
  end.

Definition carries (db : discovery_db) (items : list task_item) : Prop :=
  exists rows, bonds_of db (map ti_task_id items) = Ok rows /\
    forall i, i ∈ items -> ti_task_id i <> ""%string ->
      ti_compute_bonds i = map mapRow (List.filter (fun r => bool_decide (task_id_hex r = Some (ti_task_id i))) rows).

Lemma load_carries db items bonds : loadComputeBondMapForTaskIds db (map ti_task_id items) = Ok bonds ->
  carries db (map (with_bonds bonds) items).
Proof.
  intros H. assert (map ti_task_id (map (with_bonds bonds) items) = map ti_task_id items) as Eids by by rewrite map_map.
  assert (exists rows, bonds_of db (map ti_task_id items) = Ok rows /\ bonds = fold_left group_row rows []) as (rows & Er & ->).
  { unfold loadComputeBondMapForTaskIds in H. unfold bonds_of. destruct (map ti_task_id items) as [|i ids]; [injection H as <-; by exists []|].
    apply result_bind_ok in H as (rows & Hr & [= <-]). by exists rows. }
  exists rows. rewrite Eids. split; [done|]. intros i Hi Hne. apply list_elem_of_fmap in Hi as (i0 & -> & _).
  cbn [with_bonds ti_compute_bonds ti_task_id] in *. by rewrite group_get.
Qed.

(** Every task GET /tasks and GET /agents/:did/tasks list carries exactly the
    persisted bonds of that task, each once and in the database's order. *)
Theorem tasks_carry_bonds (db : discovery_db) (hexToBytes : string -> list Z) (params query : json) (items : list task_item) (p l n : Z)
  (H : get_tasks db query = Ok (200, B_tasks items p l n) \/ get_agent_tasks db hexToBytes params query = Ok (200, B_tasks items p l n)) :
  carries db items.
Proof.
  destruct H as [H|H].
  - unfold get_tasks in H. destruct (TasksQuerySchema query) as [q|]; [|discriminate H].
    apply result_bind_ok in H as (total & _ & H). apply result_bind_ok in H as (rows & _ & H). cbv zeta in H.
    apply result_bind_ok in H as (bonds & Hb & [= <- _ _ _]). by apply load_carries.
  - unfold get_agent_tasks in H. destruct (AgentDidParamsSchema params); [|discriminate H].
    destruct (TaskHistoryQuerySchema query) as [q|]; [|discriminate H].
    apply result_bind_ok in H as (total & _ & H). apply result_bind_ok in H as (rows & _ & H). cbv zeta in H.
    apply result_bind_ok in H as (bonds & Hb & [= <- _ _ _]). by apply load_carries.
Qed.

(** ** Searching agents *)

(** The columns of the view agent_directory (the indexer's migration). *)
Definition agent_directory_columns : list string :=
  ["agent_did"; "operator"; "capability_mask"; "stake_amount"; "reputation_composite"; "status"; "manifest_uri"; "last_active_unix"; "refreshed_at"]%string.

(** PostgreSQL refuses to order a view by a column it lacks, and has no bitwise AND on
    its type numeric. *)
Record postgres_laws (db : discovery_db) : Prop := {
  law_order : forall st col, from st = "agent_directory"%string -> (col +:+ " DESC") ∈ order st -> col ∉ agent_directory_columns ->
    is_ok (q_agents db st) = false;
  law_numeric_and : forall st col p, col ∈ ["capability_mask"; "a.capability_mask"]%string ->
    ("(" +:+ col +:+ " & " +:+ p +:+ "::numeric) = " +:+ p +:+ "::numeric") ∈ conditions st ->
    is_ok (q_count db st) = false;
}.

Lemma push_conditions text more v c cond : cond ∈ c_conditions c -> cond ∈ c_conditions (push text more v c).
Proof. intros H. cbn. apply elem_of_app. by left. Qed.

Lemma push_some_conditions {A} (o : option A) text more f c cond : cond ∈ c_conditions c -> cond ∈ c_conditions (push_some o text more f c).
Proof. destruct o; [apply push_conditions|done]. Qed.

Lemma push_mask_condition column m c :
  ("(" +:+ column +:+ " & " +:+ param (idx c) +:+ "::numeric) = " +:+ param (idx c) +:+ "::numeric") ∈ c_conditions (push_mask column (Some m) c).
Proof.
  cbn [push_mask c_conditions]. apply elem_of_app. right. apply list_elem_of_singleton. by rewrite !string_app_assoc.
Qed.

Lemma not_ok {A} (r : result A) : is_ok r = false -> exists e, r = Throw e.
Proof. destruct r; [done|]. by eexists. Qed.

(** C25: the search by capability and the orders by price and by jobs never work: against
    PostgreSQL with the indexer's views, GET /agents with a capability, or sorted by
    anything but reputation, and GET /tasks with a capability end in an error whatever
    the data. *)
Theorem searches_fail (db : discovery_db) (query : json) (Hdb : postgres_laws db) :
  (forall q, AgentsQuerySchema query = Some q ->
     aq_capability q <> None \/ aq_sort q = Some "price"%string \/ aq_sort q = Some "jobs_completed"%string ->
     exists e, get_agents db query = Throw e) /\
  (forall q, TasksQuerySchema query = Some q -> tq_capability q <> None -> exists e, get_tasks db query = Throw e).
Proof.
  split.
  - intros q Hq Hcase. unfold get_agents. rewrite Hq.
    destruct (aq_capability q) as [m|] eqn:Em.
    + destruct (not_ok (q_count db (counted "agent_directory" (agent_clauses q)))) as (e & ->); [|by eexists].
      eapply (law_numeric_and _ Hdb) with (col := "capability_mask"%string); [by left|]. cbn [counted conditions]. unfold agent_clauses. rewrite Em.
      apply push_some_conditions, push_some_conditions, push_mask_condition.
    + destruct (q_count db _) as [total|e]; cbn [result_bind]; [|by eexists].
      destruct (not_ok (q_agents db (agents_statement q))) as (e & ->); [|by eexists].
      eapply (law_order _ Hdb) with (col := SORT_MAP (default "reputation"%string (aq_sort q))); [done|by left|].
      destruct Hcase as [?|[->| ->]]; [done|..]; refine (bool_decide_unpack _ _); vm_compute; exact I.
  - intros q Hq Hm. unfold get_tasks. rewrite Hq. destruct (tq_capability q) as [m|] eqn:Em; [|done].
    destruct (not_ok (q_count db (counted TASK_FROM (task_clauses q)))) as (e & ->); [|by eexists].
    eapply (law_numeric_and _ Hdb) with (col := "a.capability_mask"%string); [right; by left|]. cbn [counted conditions]. unfold task_clauses. rewrite Em.
    apply push_some_conditions, push_mask_condition.
Qed.

(** ** Access to the webhooks *)

Section access.
Variable iso : Z -> string.
Variable date_parse : string -> Z.
Variable hmac : string -> string -> string.
Variable stringify : WebhookEvent -> string.
Variable compare : string -> string -> comparison.
Variable is_url is_date : string -> bool.
Variable json_text : json -> string.
Variable acc : access.

#[local] Abbreviation route := (webhook_route iso hmac stringify compare is_url is_date json_text acc).

(** The token a request needs, and the one it has. *)
Definition needed (r : webhook_request) : option string :=
  match r with
  | W_emit _ _ _ => webhookServiceToken acc
  | _ => webhookAdminToken acc
  end.
Definition shown (r : webhook_request) : option string :=
  match r with
  | W_subscribe t _ _ | W_list t | W_rotate t _ _ | W_deliveries t _ | W_emit t _ _ | W_replay t _ _ => t
  end.

(** The hub's operation a request stands for, when its parts are in order. *)
Definition operation (r : webhook_request) : option action :=
  match r with
  | W_subscribe _ b id => option_map (A_create id) (WebhookSubscriptionCreateSchema is_url b)
  | W_rotate _ params b =>
    id ← WebhookSubscriptionParamsSchema params; secret ← WebhookSubscriptionRotateSecretSchema b; Some (A_rotate id secret)
  | W_emit _ b ids => option_map (A_emit ids) (WebhookEventEmitSchema json_text b)
  | W_replay _ b ids => option_map (A_replay ids) (WebhookReplayRequestSchema is_date b)
  | W_list _ | W_deliveries _ _ => None
  end.

Lemma token_matches t e : authorizeToken t e = true -> exists s, t = Some s /\ e = Some s /\ s <> ""%string.
Proof.
  unfold authorizeToken. destruct t as [s|], e as [s'|]; cbn [truthy]; rewrite ?orb_true_r; try done.
  destruct (String.eqb_spec s ""); [done|]. destruct (String.eqb_spec s' ""); [done|]. cbn [negb orb].
  change (default ""%string (Some s)) with s. change (default ""%string (Some s')) with s'. cbv zeta.
  destruct (negb _); [done|]. intros ->%String.eqb_eq. by exists s'.
Qed.

Lemma route_refused now r h : authorizeToken (shown r) (needed r) = false -> route now r h = (h, unauthorized).
Proof.
  intros H. destruct r; cbn [webhook_route shown needed] in *;
    unfold post_subscriptions, get_subscriptions, post_rotate_secret, get_deliveries, post_events, post_replay, requireToken; by rewrite H.
Qed.

Lemma route_acts now r h : authorizeToken (shown r) (needed r) = true ->
  Some (route now r h).1 = match operation r with Some a => act iso date_parse hmac stringify compare now a h | None => Some h end.
Proof.
  intros H. destruct r as [t b i|t|t ps b|t q|t b ids|t b ids]; cbn [webhook_route shown needed operation] in *;
    unfold post_subscriptions, get_subscriptions, post_rotate_secret, get_deliveries, post_events, post_replay, requireToken; rewrite H; cbn [negb].
  - by destruct (WebhookSubscriptionCreateSchema _ _).
  - done.
  - destruct (WebhookSubscriptionParamsSchema ps) as [id|]; [|done]. cbn [mbind option_bind].
    destruct (WebhookSubscriptionRotateSecretSchema b) as [secret|]; [|done]. cbn [mbind option_bind act].
    by destruct (rotateSubscriptionSecret iso now id secret h) as [h' [s|]].
  - by destruct (WebhookDeliveriesQuerySchema q).
  - destruct (WebhookEventEmitSchema json_text b) as [d|]; [|done]. cbn [option_map act].
    by destruct (emit iso hmac stringify ids now d h) as [h' [[ev ds] dup]].
  - destruct (WebhookReplayRequestSchema is_date b) as [d|]; [|done]. cbn [option_map act].
    by destruct (replay iso hmac stringify compare ids now d h) as [h' [evs ds]].
Qed.

(** C15: the webhook routes expose the hub's operations and nothing else, and only to the
    right token: without it (always, when none is configured) a request is answered 401
    and the hub stays as it was; with it the hub is left as the operation the request
    stands for leaves it, so that from a hub in any reachable state the routes reach only
    reachable states, in which the guarantees on deliveries hold. *)
Theorem webhook_routes (now : Z) (r : webhook_request) (o : hub_options) (log : list string) (restarts : Z) (h : hub)
  (Hrun : hub_run iso date_parse hmac stringify compare o log restarts h)
  (Hs : forall a, operation r = Some a -> supplied compare a h) :
  (authorizeToken (shown r) (needed r) = false /\ route now r h = (h, unauthorized)) \/
  ((exists s, shown r = Some s /\ needed r = Some s /\ s <> ""%string) /\
   Some (route now r h).1 = match operation r with Some a => act iso date_parse hmac stringify compare now a h | None => Some h end /\
   exists log' n, hub_run iso date_parse hmac stringify compare o log' n (route now r h).1).
Proof.
  destruct (authorizeToken (shown r) (needed r)) eqn:E; [right|left; split; [done|by apply route_refused]].
  split; [by apply token_matches|]. pose proof (route_acts now r h E) as Ha. split; [exact Ha|].
  destruct (operation r) as [a|]; [|injection Ha as ->; by eexists _, _].
  eexists _, _. eapply run_act; [exact Hrun|by apply Hs|by symmetry].
Qed.
End access.

(** ** What a subscriber is sent *)

(** What reaches a socket: a message, or a tick of its interval with the views as they are. *)
Inductive ws_event := W_message (raw : option json) | W_poll (now : Z) (v : views).

Definition ws_step (s : socket) (e : ws_event) : socket * list frame :=
  match e with
  | W_message raw => let r := on_message raw s in (r.1, [r.2])
  | W_poll now v => poll (view_db v) now s
  end.

Fixpoint ws_run (s : socket) (es : list ws_event) : socket * list (list frame) :=
  match es with
  | [] => (s, [])
  | e :: es' => let r := ws_step s e in let k := ws_run r.1 es' in (k.1, r.2 :: k.2)
  end.

(** The time of what a frame reports. *)
Definition frame_time (f : frame) : option Z :=
  match f with
  | F_status_change a => Some (ac_last_active a)
  | F_new_task t => Some (tc_created t)
  | F_task _ t => tc_updated t
  | _ => None
  end.

(** What the views say that a subscriber could want to know. *)
Definition reports (v : views) (since : Z) (f : frame) : Prop :=
  match f with
  | F_status_change a => a ∈ v_agents v /\ since < ac_last_active a
  | F_new_task t => t ∈ v_tasks v /\ since < tc_created t
  | F_task k t => t ∈ v_tasks v /\ (exists u, tc_updated t = Some u /\ since < u) /\
      (k = task_released_frame /\ tc_status t = Some "released"%string \/ k = task_disputed_frame /\ tc_status t = Some "disputed"%string)
  | _ => False
  end.

Definition kind_of (f : frame) : option stream_event :=
  match f with
  | F_status_change _ => Some status_change
  | F_new_task _ => Some new_task
  | F_task k _ => Some k
  | _ => None
  end.

Definition listening (s : socket) : bool := match s_capabilities s, s_events s with None, None => false | _, _ => true end.

Lemma since_elem {A} (time : A -> option Z) since l x : x ∈ since_of time since l <-> x ∈ l /\ exists t, time x = Some t /\ since < t.
Proof.
  unfold since_of. rewrite list_elem_of_In, filter_In, <- list_elem_of_In. destruct (time x) as [t|]; split; intros [H1 H2]; split; try done.
  - apply Z.ltb_lt in H2. by exists t.
  - destruct H2 as (u & [= <-] & Hu). by apply Z.ltb_lt.
  - by destruct H2 as (u & ? & _).
Qed.

Lemma newest_in {A} (time : A -> Z) l x : x ∈ newest time l -> x ∈ l.
Proof. unfold newest. intros H%slice_to_In. by rewrite js_sort_perm in H. Qed.

Lemma newest_all {A} (time : A -> Z) l x : (length l <= 50)%nat -> x ∈ l -> x ∈ newest time l.
Proof. intros Hl H. unfold newest. rewrite slice_to_all by (rewrite js_sort_length; lia). by rewrite js_sort_perm. Qed.

(** The rows each query of a poll returns. *)
Definition statuses_since (v : views) (st : string) (since : Z) : list task_change :=
  List.filter (fun t => bool_decide (tc_status t = Some st)) (since_of tc_updated since (v_tasks v)).

Definition poll_rows (v : views) (s : socket) : list frame :=
  let since := lastPoll s / 1000 in
  (if wants s status_change then map F_status_change (newest ac_last_active (since_of (Some ∘ ac_last_active) since (v_agents v))) else []) ++
  (if wants s new_task then map F_new_task (newest tc_created (since_of (Some ∘ tc_created) since (v_tasks v))) else []) ++
  (if wants s task_released_frame then map (F_task task_released_frame) (newest (fun t => default 0 (tc_updated t)) (statuses_since v "released" since)) else []) ++
  (if wants s task_disputed_frame then map (F_task task_disputed_frame) (newest (fun t => default 0 (tc_updated t)) (statuses_since v "disputed" since)) else []).

Lemma poll_view v now s : poll (view_db v) now s =
  if listening s then ({| s_capabilities := s_capabilities s; s_events := s_events s; lastPoll := now |}, poll_rows v s) else (s, []).
Proof.
  unfold poll, listening, poll_rows. destruct (s_capabilities s), (s_events s); try done;
    (f_equal; destruct (wants s status_change), (wants s new_task), (wants s task_released_frame), (wants s task_disputed_frame);
     cbn [app send_all framed view_db q_changed q_created q_status result_bind]; rewrite ?app_nil_r; done).
Qed.

Lemma statuses_elem v st since t : t ∈ statuses_since v st since <->
  t ∈ v_tasks v /\ (exists u, tc_updated t = Some u /\ since < u) /\ tc_status t = Some st.
Proof.
  unfold statuses_since. rewrite list_elem_of_In, filter_In, <- list_elem_of_In, since_elem, bool_decide_eq_true. tauto.
Qed.

Lemma poll_rows_report v s f : f ∈ poll_rows v s -> reports v (lastPoll s / 1000) f /\ exists k, kind_of f = Some k /\ wants s k = true.
Proof.
  unfold poll_rows. cbv zeta. rewrite !elem_of_app. intros [H|[H|[H|H]]];
    (destruct (wants s _) eqn:Ew in H; [|by apply not_elem_of_nil in H]); apply list_elem_of_fmap in H as (x & -> & Hx%newest_in).
  - apply since_elem in Hx as (Hx & t & [= <-] & Ht). split; [done|by eexists].
  - apply since_elem in Hx as (Hx & t & [= <-] & Ht). split; [done|by eexists].
  - apply statuses_elem in Hx as (Hx & Hu & Hst). split; [|by eexists]. repeat split; [done|done|by left].
  - apply statuses_elem in Hx as (Hx & Hu & Hst). split; [|by eexists]. repeat split; [done|done|by right].
Qed.

(** At most fifty rows of each kind are news. *)
Definition few (v : views) (since : Z) : Prop :=
  (length (since_of (Some ∘ ac_last_active) since (v_agents v)) <= 50 /\ length (since_of (Some ∘ tc_created) since (v_tasks v)) <= 50 /\
   length (since_of tc_updated since (v_tasks v)) <= 50)%nat.

Lemma statuses_few v since st : few v since -> (length (statuses_since v st since) <= 50)%nat.
Proof. intros (_ & _ & H). unfold statuses_since. etransitivity; [apply filter_length_le|exact H]. Qed.

(** A tick pushes the news: to a listening socket a poll sends only frames of the kinds
    it asked for, on rows of the views that changed after the second of the previous
    poll; and it sends all of these when there are at most fifty of a kind. *)
Theorem poll_pushes_news (v : views) (now : Z) (s : socket) (f : frame) (Hl : listening s = true) :
  let sent := (poll (view_db v) now s).2 in
  (f ∈ sent -> reports v (lastPoll s / 1000) f /\ exists k, kind_of f = Some k /\ wants s k = true) /\
  (few v (lastPoll s / 1000) -> reports v (lastPoll s / 1000) f -> (exists k, kind_of f = Some k /\ wants s k = true) -> f ∈ sent).
Proof.
  cbv zeta. rewrite poll_view, Hl. cbn [snd]. split; [apply poll_rows_report|].
  intros Hf Hr (k & Hk & Hw). unfold poll_rows. cbv zeta. rewrite !elem_of_app. pose proof (statuses_few v (lastPoll s / 1000)) as Hs.
  destruct f as [| | |a|t|k' t]; try done; injection Hk as <-.
  - left. rewrite Hw. apply list_elem_of_fmap_2, newest_all; [apply Hf|]. apply since_elem. destruct Hr as [Hin Hlt]. split; [done|by eexists].
  - right. left. rewrite Hw. apply list_elem_of_fmap_2, newest_all; [apply Hf|]. apply since_elem. destruct Hr as [Hin Hlt]. split; [done|by eexists].
  - destruct Hr as (Hin & Hu & [[-> Hst]|[-> Hst]]); rewrite Hw; right; right; [left|right];
      (apply list_elem_of_fmap_2, newest_all; [by apply Hs|]; by apply statuses_elem).
Qed.

(** Ticks come in order. *)
Fixpoint ordered (t : Z) (es : list ws_event) : Prop :=
  match es with
  | [] => True
  | W_message _ :: es' => ordered t es'
  | W_poll now _ :: es' => t <= now /\ ordered now es'
  end.

(** No row is from the future. *)
Fixpoint timely (es : list ws_event) : Prop :=
  match es with
  | [] => True
  | W_message _ :: es' => timely es'
  | W_poll now v :: es' => (forall since f t, reports v since f -> frame_time f = Some t -> t <= now / 1000) /\ timely es'
  end.

Lemma reports_time v since f t : reports v since f -> frame_time f = Some t -> since < t.
Proof.
  destruct f as [| | |a|x|k x]; cbn; try done.
  - by intros [_ H] [= <-].
  - by intros [_ H] [= <-].
  - intros (_ & (u & E & Hu) & _) E'. rewrite E in E'. by injection E' as <-.
Qed.

Lemma message_time raw s : frame_time (on_message raw s).2 = None /\ lastPoll (on_message raw s).1 = lastPoll s.
Proof. unfold on_message. destruct raw as [v|]; [|done]. by destruct (WsMessageSchema v) as [[]|]. Qed.

Lemma ordered_le t t' es : t' <= t -> ordered t es -> ordered t' es.
Proof. intros Ht. induction es as [|[raw|now v] es IH]; cbn; [done|exact IH|]. intros [H1 H2]. split; [lia|done]. Qed.

(** Whatever comes next, only rows after the second of the last poll are pushed. *)
Lemma run_after es : forall s, ordered (lastPoll s) es ->
  forall fs f t, fs ∈ (ws_run s es).2 -> f ∈ fs -> frame_time f = Some t -> lastPoll s / 1000 < t.
Proof.
  induction es as [|e es IH]; intros s Ho fs f t Hfs Hf Ht; cbn [ws_run snd] in Hfs; [by apply not_elem_of_nil in Hfs|].
  apply elem_of_cons in Hfs as [->|Hfs]; destruct e as [raw|now v]; cbn [ws_step fst snd] in *.
  - apply list_elem_of_singleton in Hf as ->. by rewrite (proj1 (message_time raw s)) in Ht.
  - rewrite poll_view in Hf. destruct (listening s); cbn [snd] in Hf; [|by apply not_elem_of_nil in Hf].
    apply poll_rows_report in Hf as [Hr _]. by eapply reports_time.
  - rewrite <- (proj2 (message_time raw s)). eapply IH; [|exact Hfs|exact Hf|exact Ht]. by rewrite (proj2 (message_time raw s)).
  - destruct Ho as [Hle Ho]. rewrite poll_view in Hfs. destruct (listening s); cbn [fst] in Hfs.
    + eapply Z.le_lt_trans; [by apply Z.div_le_mono|]. by eapply (IH {| lastPoll := now |}).
    + eapply IH; [|exact Hfs|exact Hf|exact Ht]. by eapply ordered_le.
Qed.

(** A late row is never pushed: once a listening socket has been polled at [now], no
    row that reports a time up to that second is sent by any later tick, whenever the
    view comes to show it.  (The views are refreshed every minute, the poll runs every
    five seconds, and the times are the chain's.) *)
Theorem late_rows_never_pushed (s : socket) (now : Z) (v : views) (es : list ws_event) (fs : list frame) (f : frame) (t : Z)
  (Hl : listening s = true) (Ho : ordered now es) (Hfs : fs ∈ (ws_run (ws_step s (W_poll now v)).1 es).2)
  (Hf : f ∈ fs) (Ht : frame_time f = Some t) : now / 1000 < t.
Proof.
  cbn [ws_step] in Hfs. rewrite poll_view, Hl in Hfs. cbn [fst] in Hfs. by eapply (run_after es {| lastPoll := now |}).
Qed.

(** Nothing is pushed twice: when no row reports the future, a frame on a row's
    change is sent by at most one tick of a socket's life, whatever messages come
    between. *)
Theorem news_pushed_once (s : socket) (es : list ws_event) (i j : nat) (fs gs : list frame) (f : frame) (t : Z)
  (Ho : ordered (lastPoll s) es) (Htimely : timely es) (Hij : (i < j)%nat)
  (Hi : (ws_run s es).2 !! i = Some fs) (Hj : (ws_run s es).2 !! j = Some gs) (Hf : f ∈ fs) (Ht : frame_time f = Some t) : f ∉ gs.
Proof.
  revert s i j Ho Htimely Hij Hi Hj. induction es as [|e es IH]; intros s i j Ho Htimely Hij Hi Hj Hg; [by destruct i|].
  cbn [ws_run snd] in Hi, Hj. destruct j as [|j]; [lia|]. cbn in Hj. destruct i as [|i]; cbn in Hi.
  - injection Hi as <-. apply list_elem_of_lookup_2 in Hj. destruct e as [raw|now v]; cbn [ws_step fst snd] in *.
    + apply list_elem_of_singleton in Hf as ->. by rewrite (proj1 (message_time raw s)) in Ht.
    + destruct Ho as [Hle Ho], Htimely as [Hnow _]. rewrite poll_view in Hf, Hj. destruct (listening s); cbn [fst snd] in *; [|by apply not_elem_of_nil in Hf].
      apply poll_rows_report in Hf as [Hr _]. specialize (Hnow _ _ _ Hr Ht).
      pose proof (run_after es {| lastPoll := now |} Ho _ _ _ Hj Hg Ht) as H. cbn in H. lia.
  - destruct e as [raw|now v]; cbn [ws_step fst snd] in *.
    + eapply (IH (on_message raw s).1 i j); try done; [by rewrite (proj2 (message_time raw s))|lia].
    + destruct Ho as [Hle Ho], Htimely as [_ Htimely]. rewrite poll_view in Hi, Hj.
      destruct (listening s); cbn [fst] in *; (eapply (IH _ i j); [|exact Htimely| |exact Hi|exact Hj|exact Hg]; [|lia]); [done|by eapply ordered_le].
Qed.

(** What the hook asks for is what the server understands. *)
Lemma read_capabilities l : Forall (fun z => 0 <= z) l -> z_all (z_int_min 0) (map (fun z => J_num (inject_Z z)) l) = Some l.
Proof.
  induction 1 as [|z l Hz Hl IH]; [done|]. cbn [map z_all]. rewrite IH.
  unfold z_int_min. rewrite is_integer_inject, Qfloor_Z. cbn [andb].
  rewrite (proj2 (q_leb_le _ _)); [done|]. by rewrite <- Zle_Qle.
Qed.

Lemma read_events l : z_all (z_enum stream_event_names) (map (fun e => J_str (event_name e)) l) = Some l.
Proof. induction l as [|e l IH]; [done|]. cbn [map z_all]. rewrite IH. by destruct e. Qed.

Lemma hook_understood capabilities events : Forall (fun z => 0 <= z) (default [] capabilities) ->
  WsMessageSchema (hook_subscribe capabilities events) = Some (Subscribe capabilities events).
Proof.
  intros H. destruct capabilities as [l|], events as [k|]; cbn in H |- *; rewrite ?(read_capabilities l H), ?read_events; done.
Qed.

(** Subscribing to everything yields nothing: what the browser's hook sends is
    confirmed with exactly the capabilities and events it was given; but without either
    no tick ever pushes a frame after the confirmation. *)
Theorem hook_subscriptions (now : Z) (capabilities : option (list Z)) (events : option (list stream_event)) (ticks : list (Z * views))
  (Hc : Forall (fun z => 0 <= z) (default [] capabilities)) :
  let sent := (ws_run (new_socket now) (W_message (Some (hook_subscribe capabilities events)) :: map (fun t => W_poll t.1 t.2) ticks)).2 in
  sent !! 0%nat = Some [F_subscribed capabilities events] /\
  (capabilities = None -> events = None -> drop 1 sent = map (fun _ => []) ticks).
Proof.
  cbv zeta. cbn [ws_run]. assert (ws_step (new_socket now) (W_message (Some (hook_subscribe capabilities events))) =
    ({| s_capabilities := capabilities; s_events := events; lastPoll := now |}, [F_subscribed capabilities events])) as ->.
  { cbn [ws_step]. unfold on_message. by rewrite hook_understood. }
  cbn [fst snd]. split; [done|]. intros -> ->. rewrite skipn_cons, drop_0. induction ticks as [|[t v] ticks IH]; [done|]. cbn [map ws_run fst snd ws_step].
  rewrite poll_view. cbn [listening s_capabilities s_events fst snd]. by rewrite IH.
Qed.

Lemma view_times v since f t u : Forall (fun a => ac_last_active a <= u) (v_agents v) ->
  Forall (fun x => tc_created x <= u) (v_tasks v) -> Forall (fun x => forall w, tc_updated x = Some w -> w <= u) (v_tasks v) ->
  reports v since f -> frame_time f = Some t -> t <= u.
Proof.
  rewrite !Forall_forall. intros Ha Hc Hu Hr Ht. destruct f as [| | |a|x|k x]; try done.
  - injection Ht as <-. by apply Ha, Hr.
  - injection Ht as <-. by apply Hc, Hr.
  - eapply Hu; [apply Hr|exact Ht].
Qed.

(** ** Concrete requests *)

Definition a_bond (lease task : string) : bond_row :=
  {| lease_id := lease; br_agent_did := "agent"; br_provider := "akash"; gpu_hours := 8; br_expires_at := "1710000000"; slashable_until := "1710003600";
     task_id_hex := Some task; br_status := "locked"; status_reason := None; reserved_price_usd_micro := Some "50000000"%string;
     broker_pubkey := "broker"; attestation_sig := "sig"; created_at_ms := "1"; updated_at_ms := "2"; provider_status := None |}.

Definition a_task : task_row :=
  {| tr_task_id := [170; 187]; creator := None; tr_agent_did := None; tr_status := Some "funded"%string; reward_lamports := None;
     tr_capability_mask := None; created_at_unix := "5"; deadline_unix := None; updated_at_unix := None |}.

(** A database that refuses what PostgreSQL refuses. *)
Definition and_conditions (st : statement) : bool :=
  existsb (fun cond => String.prefix "(capability_mask &" cond || String.prefix "(a.capability_mask &" cond) (conditions st).
Definition known_order (st : statement) : bool :=
  forallb (fun o => bool_decide (o ∈ map (fun c => c +:+ " DESC") agent_directory_columns) || String.eqb o "agent_did ASC") (order st).

Definition a_db : discovery_db := {|
  q_ping := Ok tt;
  q_count st := if and_conditions st then Throw "operator does not exist: numeric & numeric" else Ok (Some 1);
  q_agents st := if known_order st then Ok [] else Throw "column does not exist";
  q_tasks _ := Ok [a_task]; q_reputation _ := Ok []; q_bonds _ := Ok [a_bond "lease-1" "aabb"; a_bond "lease-2" "ccdd"; a_bond "lease-3" "aabb"];
  q_strategies _ := Ok []; q_yield _ := Ok []; q_positions _ := Ok []; q_capabilities := Ok []; q_stats := Ok None;
|}.

Lemma a_db_laws : postgres_laws a_db.
Proof.
  split; cbn [q_agents q_count a_db].
  - intros st col _ Hin Hcol. destruct (known_order st) eqn:E; [|done]. exfalso. unfold known_order in E.
    rewrite forallb_forall in E. apply list_elem_of_In, E, orb_true_iff in Hin as [Ho%bool_decide_eq_true|Ho%String.eqb_eq].
    + apply list_elem_of_fmap in Ho as (c & Ho%string_app_inj_r & Hc). by subst.
    + apply (f_equal (fun s => rev (String.list_ascii_of_string s))) in Ho. rewrite ascii_app, rev_app_distr in Ho. discriminate Ho.
  - intros st col p Hcol Hin. assert (and_conditions st = true) as ->; [|done]. apply existsb_exists. eexists. split; [by apply list_elem_of_In|].
    apply elem_of_cons in Hcol as [->|Hcol%list_elem_of_singleton]; [done|]. by rewrite Hcol.
Qed.

Definition a_search : json := J_obj [("capability"%string, J_str "3")].

Lemma searches_fail_witness : exists e1 e2 e3, get_agents a_db a_search = Throw e1 /\
  get_agents a_db (J_obj [("sort"%string, J_str "price")]) = Throw e2 /\ get_tasks a_db a_search = Throw e3.
Proof.
  destruct (proj1 (searches_fail a_db a_search a_db_laws) _ eq_refl) as (e1 & E1); [left; discriminate|].
  destruct (proj1 (searches_fail a_db (J_obj [("sort"%string, J_str "price")]) a_db_laws) _ eq_refl) as (e2 & E2); [right; left; reflexivity|].
  destruct (proj2 (searches_fail a_db a_search a_db_laws) _ eq_refl) as (e3 & E3); [discriminate|].
  exists e1, e2, e3. split; [exact E1|]. split; [exact E2|exact E3].
Defined.

Lemma tasks_carry_bonds_witness : exists items : list task_item, get_tasks a_db (J_obj []) = Ok (200, B_tasks items 1 50 1) /\ carries a_db items /\ map (fun i => map cb_lease_id (ti_compute_bonds i)) items = [["lease-1"; "lease-3"]]%string.
Proof.
  assert (H : exists items, get_tasks a_db (J_obj []) = Ok (200, B_tasks items 1 50 1) /\ map (fun i => map cb_lease_id (ti_compute_bonds i)) items = [["lease-1"; "lease-3"]]%string).
  { eexists. split; reflexivity. }
  destruct H as (items & H & Hl). exists items. split; [exact H|]. split; [|exact Hl].
  exact (tasks_carry_bonds a_db (fun _ => []) (J_obj []) (J_obj []) items 1 50 1 (or_introl H)).
Defined.

Definition a_listener : socket := {| s_capabilities := None; s_events := Some [new_task; task_released_frame]; lastPoll := 1000000 |}.
Definition a_change (id : string) (created : Z) (st : string) (updated : Z) : task_change :=
  {| tc_task_id := id; tc_creator := None; tc_agent_did := None; tc_status := Some st; tc_reward := None; tc_created := created;
     tc_deadline := None; tc_updated := Some updated |}.
Definition a_view : views := {| v_agents := []; v_tasks := [a_change "t1" 1002 "funded" 1003; a_change "t2" 900 "released" 1004] |}.
Definition a_later_view : views := {| v_agents := []; v_tasks := [a_change "t1" 1002 "funded" 1003; a_change "t2" 900 "released" 1004;
  a_change "t3" 1004 "created" 1004; a_change "t4" 1008 "created" 1008] |}.
Definition an_event : frame := F_new_task (a_change "t1" 1002 "funded" 1003).

Lemma poll_pushes_news_witness : listening a_listener = true /\ an_event ∈ (poll (view_db a_view) 1005000 a_listener).2.
Proof.
  split; [reflexivity|]. apply (poll_pushes_news a_view 1005000 a_listener an_event eq_refl).
  - unfold few. vm_compute. lia.
  - split; [by left|reflexivity].
  - exists new_task. split; reflexivity.
Defined.

(** The row that came late ([t3]) is not among those pushed at the next tick. *)
Lemma late_rows_never_pushed_witness : exists fs, fs ∈ (ws_run (ws_step a_listener (W_poll 1005000 a_view)).1 [W_poll 1010000 a_later_view]).2 /\ F_new_task (a_change "t4" 1008 "created" 1008) ∈ fs /\ 1005000 / 1000 < 1008.
Proof.
  eexists. split; [by left|]. split; [by left|].
  refine (late_rows_never_pushed a_listener 1005000 a_view [W_poll 1010000 a_later_view] _ (F_new_task (a_change "t4" 1008 "created" 1008)) 1008 _ _ _ _ _).
  - reflexivity.
  - split; [lia|exact I].
  - left.
  - left.
  - reflexivity.
Defined.

Lemma news_pushed_once_witness : exists fs gs, (ws_run a_listener [W_poll 1005000 a_view; W_poll 1010000 a_later_view]).2 !! 0%nat = Some fs /\ (ws_run a_listener [W_poll 1005000 a_view; W_poll 1010000 a_later_view]).2 !! 1%nat = Some gs /\ an_event ∈ fs /\ an_event ∉ gs.
Proof.
  eexists _, _. split; [reflexivity|]. split; [reflexivity|]. split; [by left|].
  refine (news_pushed_once a_listener [W_poll 1005000 a_view; W_poll 1010000 a_later_view] 0 1 _ _ an_event 1002 _ _ _ eq_refl eq_refl _ eq_refl).
  - cbn [ordered]. split; [vm_compute; discriminate|]. split; [lia|exact I].
  - cbn [timely]. split; [|split; [|exact I]]; intros since f t; apply view_times; repeat constructor; vm_compute; try discriminate; by intros u [= <-].
  - lia.
  - by left.
Defined.

Definition an_access : access := {| webhookAdminToken := Some "admin-token"%string; webhookServiceToken := None |}.
Definition an_options : hub_options := resolve_options None None None None true.
Definition a_hub : hub := new_hub z_text (fun _ => 0) an_options (Some (store_load None)) 1000.
Definition a_request : webhook_request :=
  W_subscribe (Some "admin-token"%string) (J_obj [("url", J_str "https://a.io"); ("events", J_arr [J_str "task_created"]); ("secret", J_str "0123456789abcdef")]%string) "s1".

#[local] Abbreviation a_route := (webhook_route z_text (fun _ b => b) ev_id (fun _ _ => Eq) (fun _ => true) (fun _ => true) tree_text an_access).

Lemma webhook_routes_witness : (a_route 2000 a_request a_hub).2.1 = 201 /\
  exists log n, hub_run z_text (fun _ => 0) (fun _ b => b) ev_id (fun _ _ => Eq) an_options log n (a_route 2000 a_request a_hub).1.
Proof.
  assert (H : (a_route 2000 a_request a_hub).2.1 = 201) by reflexivity. split; [exact H|].
  destruct (webhook_routes z_text (fun _ => 0) (fun _ b => b) ev_id (fun _ _ => Eq) (fun _ => true) (fun _ => true) tree_text an_access
    2000 a_request an_options [] 0 a_hub (run_start _ _ _ _ _ _ 1000)) as [[E _]|(_ & _ & Hr)].
  - intros a [= <-]. exact I.
  - discriminate E.
  - exact Hr.
Defined.

Lemma hook_subscriptions_witness :
  drop 1 (ws_run (new_socket 0) (W_message (Some (hook_subscribe None None)) :: map (fun t => W_poll t.1 t.2) [(5000, a_later_view)])).2 = [[]].
Proof. exact (proj2 (hook_subscriptions 0 None None [(5000, a_later_view)] (Forall_nil_2 _)) eq_refl eq_refl). Defined.
