(* ===== verification/Rentals.v ===== *)
(** * Rentals: renting agent templates

    Models the rental of templates from end to end: packages/sdk-ui
    hooks/templates.ts and template-simulator.ts, apps/portal lib/template-actions.ts,
    lib/template-serializer.ts, lib/token-accounts.ts and the templates pages (the
    rent and fork forms, the list of rentals), and the part of the Rust program
    template_registry they drive (open_rental, claim_rental_revenue, close_rental).
    The token programs are an interface ([TokenLedger]) whose documented laws are
    [TokenLaws]; web3.js and spl-token are parameters.  An instruction reaches the
    program as the [call] Ix builds. *)

From Stdlib Require Import ZArith QArith Qround Ascii Lia.
From stdpp Require Import base list strings gmap.
From S2P Require Import Prelude Bytes Effects Json Hex Zod Numbers Pda Idl Ix Decoded Accounts.

#[local] Open Scope Z_scope.
#[local] Open Scope saep_scope.

(** ** Tokens *)

Record token_account := { ta_mint : pubkey; ta_owner : pubkey; ta_amount : Z }.

(** What the token programs keep, and their two instructions the registry invokes. *)
Class TokenLedger (T : Type) := {
  token_at : T -> pubkey -> option token_account;
  mint_program : T -> pubkey -> option pubkey;             (* the token program a mint belongs to *)
  transfer_checked : pubkey -> pubkey -> pubkey -> pubkey -> pubkey -> Z -> T -> result T;   (* program, from, mint, to, authority, amount *)
  initialize_account : pubkey -> pubkey -> pubkey -> pubkey -> T -> result T;                (* program, account, mint, owner *)
}.

Definition with_amount (a : token_account) (n : Z) : token_account :=
  {| ta_mint := ta_mint a; ta_owner := ta_owner a; ta_amount := n |}.

(** A transfer by the owner of an account that holds enough, under the program of its
    mint, moves the amount; one that succeeds did just that.  An account that owns
    itself, as an escrow does, has no delegates: nobody else moves its tokens. *)
Class TokenLaws (T : Type) `{!TokenLedger T} : Prop := {
  transfer_succeeds : forall program from mint to_ authority n (t : T) a b,
    mint_program t mint = Some program -> token_at t from = Some a -> token_at t to_ = Some b ->
    ta_mint a = mint -> ta_mint b = mint -> ta_owner a = authority -> 0 <= n <= ta_amount a -> ta_amount b + n < 2 ^ 64 ->
    is_ok (transfer_checked program from mint to_ authority n t) = true;
  transfer_moves : forall program from mint to_ authority n (t t' : T),
    transfer_checked program from mint to_ authority n t = Ok t' -> from <> to_ ->
    exists a b, token_at t from = Some a /\ token_at t to_ = Some b /\ n <= ta_amount a /\
      token_at t' from = Some (with_amount a (ta_amount a - n)) /\ token_at t' to_ = Some (with_amount b (ta_amount b + n)) /\
      (forall k, k <> from -> k <> to_ -> token_at t' k = token_at t k);
  transfer_authority : forall program from mint to_ authority n (t t' : T) a,
    transfer_checked program from mint to_ authority n t = Ok t' -> token_at t from = Some a -> ta_owner a = from -> authority = from;
  transfer_self : forall program from mint authority n (t t' : T) k,
    transfer_checked program from mint from authority n t = Ok t' -> token_at t' k = token_at t k;
  transfer_mints : forall program from mint to_ authority n (t t' : T) m,
    transfer_checked program from mint to_ authority n t = Ok t' -> mint_program t' m = mint_program t m;
  initialize_succeeds : forall program account mint owner (t : T),
    mint_program t mint = Some program -> token_at t account = None -> is_ok (initialize_account program account mint owner t) = true;
  initialize_creates : forall program account mint owner (t t' : T),
    initialize_account program account mint owner t = Ok t' ->
    token_at t account = None /\ token_at t' account = Some {| ta_mint := mint; ta_owner := owner; ta_amount := 0 |} /\
    (forall k, k <> account -> token_at t' k = token_at t k) /\ forall m, mint_program t' m = mint_program t m;
}.

(** A ledger that behaves so: the programs of the mints and the accounts. *)
Definition plain_ledger : Type := gmap pubkey pubkey * gmap pubkey token_account.

Definition plain_transfer (program from mint to_ authority : pubkey) (n : Z) (t : plain_ledger) : result plain_ledger :=
  match (t.1 !! mint : option pubkey), t.2 !! from, t.2 !! to_ with
  | Some p, Some a, Some b =>
    let! _ := check ((p =? program) && (ta_mint a =? mint) && (ta_mint b =? mint) && (ta_owner a =? authority)) "invalid accounts" in
    let! _ := check ((0 <=? n) && (n <=? ta_amount a) && (ta_amount b + n <? 2 ^ 64)) "insufficient funds" in
    if from =? to_ then Ok t
    else Ok (t.1, <[to_ := with_amount b (ta_amount b + n)]> (<[from := with_amount a (ta_amount a - n)]> t.2))
  | _, _, _ => Throw "account not found"
  end.

Definition plain_initialize (program account mint owner : pubkey) (t : plain_ledger) : result plain_ledger :=
  match (t.1 !! mint : option pubkey), t.2 !! account with
  | Some p, None =>
    let! _ := check (p =? program) "invalid program" in
    Ok (t.1, <[account := {| ta_mint := mint; ta_owner := owner; ta_amount := 0 |}]> t.2)
  | _, _ => Throw "account in use"
  end.

#[global] Instance plain_token_ledger : TokenLedger plain_ledger := {
  token_at t k := t.2 !! k;
  mint_program t m := t.1 !! m;
  transfer_checked := plain_transfer;
  initialize_account := plain_initialize;
}.

#[global] Instance plain_token_laws : TokenLaws plain_ledger.
Proof.
  split; cbn [token_at mint_program transfer_checked initialize_account plain_token_ledger]; unfold plain_transfer, plain_initialize.
  - intros program from mint to_ authority n t a b H1 H2 H3 <- Hm <- Hn Hb. rewrite H1, H2, H3, Hm, !Z.eqb_refl. cbn.
    rewrite (proj2 (Z.leb_le 0 n)), (proj2 (Z.leb_le n _)), (proj2 (Z.ltb_lt _ _)) by lia. cbn. by destruct (from =? to_).
  - intros program from mint to_ authority n t t' H Hne. unfold check, result_bind in H. apply Z.eqb_neq in Hne. rewrite Hne in H.
    apply Z.eqb_neq in Hne. repeat case_match; simplify_eq.
    repeat match goal with H : _ && _ = true |- _ => apply andb_prop in H as [? H] end.
    do 2 eexists. cbn. split_and!; try done; [lia|by rewrite lookup_insert_ne, lookup_insert_eq by done|by rewrite lookup_insert_eq|].
    intros k Hf Ht. by rewrite !lookup_insert_ne by done.
  - intros program from mint to_ authority n t t' a H Ha Ho. rewrite Ha in H. unfold check, result_bind in H.
    repeat case_match; simplify_eq; repeat match goal with H : _ && _ = true |- _ => apply andb_prop in H as [H ?] end; lia.
  - intros program from mint authority n t t' k H. rewrite Z.eqb_refl in H. unfold check, result_bind in H. repeat case_match; by simplify_eq.
  - intros program from mint to_ authority n t t' m H. unfold check, result_bind in H. repeat case_match; by simplify_eq.
  - intros program account mint owner t H1 H2. rewrite H1, H2. by rewrite Z.eqb_refl.
  - intros program account mint owner t t' H. unfold check, result_bind in H. repeat case_match; simplify_eq. cbn.
    split_and!; [done|by rewrite lookup_insert_eq| |done]. intros k Hk. by rewrite lookup_insert_ne.
Qed.

(** ** The program *)

Inductive TemplateStatus := Draft | Published | Deprecated | Retired.
Inductive RentalStatus := Active | Closed | Cancelled.

#[global] Instance TemplateStatus_eq_dec : EqDecision TemplateStatus.
Proof. solve_decision. Defined.
#[global] Instance RentalStatus_eq_dec : EqDecision RentalStatus.
Proof. solve_decision. Defined.

(** The fields the rental instructions read. *)
Record TemplateRegistryGlobal := { fee_collector : pubkey; platform_fee_bps : Z; rent_escrow_mint : pubkey; paused : bool }.

Record AgentTemplate := {
  template_id : list Z; author : pubkey; royalty_bps : Z; rent_price_per_sec : Z; min_rent_duration : Z; max_rent_duration : Z;
  t_status : TemplateStatus;
}.

Record TemplateRental := {
  template : pubkey; renter : pubkey; start_time : Z; end_time : Z; prepaid_amount : Z; drip_rate_per_sec : Z;
  claimed_author : Z; claimed_platform : Z; r_status : RentalStatus;
}.

Definition u64 (n : Z) : result Z := if (0 <=? n) && (n <? 2 ^ 64) then Ok n else Throw "ArithmeticOverflow".

(** [amount.checked_mul(bps).checked_div(10_000)] *)
Definition share (amount bps : Z) : result Z := let! v := u64 (amount * bps) in Ok (v / 10000).

Definition with_claims (r : TemplateRental) (by_author by_platform : Z) : TemplateRental :=
  {| template := template r; renter := renter r; start_time := start_time r; end_time := end_time r;
     prepaid_amount := prepaid_amount r; drip_rate_per_sec := drip_rate_per_sec r; claimed_author := by_author;
     claimed_platform := by_platform; r_status := r_status r |}.

Definition with_status (r : TemplateRental) (s : RentalStatus) : TemplateRental :=
  {| template := template r; renter := renter r; start_time := start_time r; end_time := end_time r;
     prepaid_amount := prepaid_amount r; drip_rate_per_sec := drip_rate_per_sec r; claimed_author := claimed_author r;
     claimed_platform := claimed_platform r; r_status := s |}.

Definition already_claimed (r : TemplateRental) : Z := claimed_author r + claimed_platform r.

(** What has dripped at a time that is not before the start. *)
Definition accrued_at (r : TemplateRental) (now : Z) : Z := (Z.min now (end_time r) - start_time r) * drip_rate_per_sec r.

(** The account an instruction names. *)
Definition account_of (c : call) (name : string) : result pubkey :=
  match List.find (fun x => String.eqb x.1 name) (ix_accounts c) with
  | Some (_, Some k) => Ok k
  | _ => Throw "AccountNotEnoughKeys"
  end.

Definition some_or {A} (o : option A) (e : string) : result A := match o with Some a => Ok a | None => Throw e end.

Section program.
Context {T : Type} `{!TokenLedger T}.
Variable find_program_address : list (list Z) -> pubkey -> result (pubkey * Z).
Variable program_id : pubkey.

Record chain := {
  tokens : T;
  global : TemplateRegistryGlobal;
  templates : gmap pubkey AgentTemplate;
  rentals : gmap pubkey TemplateRental;
}.

(** [seeds = [...], bump]: the address is the one derived. *)
Definition at_seeds (k : pubkey) (derived : result (pubkey * Z)) : result unit :=
  let! d := derived in check (k =? d.1) "ConstraintSeeds".

(** [#[account(mut, token::mint = mint)]] *)
Definition token_of (t : T) (k mint : pubkey) : result token_account :=
  let! a := some_or (token_at t k) "AccountNotInitialized" in
  let! _ := check (ta_mint a =? mint) "ConstraintTokenMint" in
  Ok a.

Definition transfer_some (program from mint to_ authority n : Z) (t : T) : result T :=
  if 0 <? n then transfer_checked program from mint to_ authority n t else Ok t.

(** open_rental.rs, [handler] *)
Definition prepaid_of (g : TemplateRegistryGlobal) (t : AgentTemplate) (duration_secs : Z) : result Z :=
  let! _ := check (negb (paused g)) "Paused" in
  let! _ := check (bool_decide (t_status t = Published)) "InvalidStatus" in
  let! _ := check (0 <? rent_price_per_sec t) "RentalDisabled" in
  let! _ := check ((min_rent_duration t <=? duration_secs) && (duration_secs <=? max_rent_duration t)) "RentalDurationOutOfBounds" in
  u64 (rent_price_per_sec t * (duration_secs mod 2 ^ 128)).

Definition open_rental (now : Z) (c : call) (duration_secs : Z) (nonce : list Z) (st : chain) : result chain :=
  let! template_key := account_of c "template" in
  let! rental_key := account_of c "rental" in
  let! mint := account_of c "mint" in
  let! escrow := account_of c "escrow" in
  let! renter_token_account := account_of c "renterTokenAccount" in
  let! renter_key := account_of c "renter" in
  let! token_program := account_of c "tokenProgram" in
  let! t := some_or (templates st !! template_key) "AccountNotInitialized" in
  let! _ := at_seeds template_key (templatePda find_program_address program_id (template_id t)) in
  let! _ := at_seeds rental_key (rentalPda find_program_address program_id template_key renter_key nonce) in
  let! _ := check (bool_decide (rentals st !! rental_key = None)) "already in use" in
  let! _ := check (mint =? rent_escrow_mint (global st)) "ConstraintAddress" in
  let! _ := at_seeds escrow (rentalEscrowPda find_program_address program_id rental_key) in
  let! tokens1 := initialize_account token_program escrow mint escrow (tokens st) in
  let! _ := token_of tokens1 renter_token_account mint in
  let! prepaid := prepaid_of (global st) t duration_secs in
  let! tokens2 := transfer_checked token_program renter_token_account mint escrow renter_key prepaid tokens1 in
  let! _ := check (now + duration_secs <? 2 ^ 63) "ArithmeticOverflow" in
  Ok {| tokens := tokens2; global := global st; templates := templates st;
        rentals := <[rental_key := {| template := template_key; renter := renter_key; start_time := now; end_time := now + duration_secs;
                                      prepaid_amount := prepaid; drip_rate_per_sec := rent_price_per_sec t; claimed_author := 0;
                                      claimed_platform := 0; r_status := Active |}]> (rentals st) |}.

(** The accounts claim_rental_revenue and close_rental share, with their constraints. *)
Record rental_ctx := {
  x_rental_key : pubkey; x_rental : TemplateRental; x_template : AgentTemplate; x_mint : pubkey; x_escrow : pubkey;
  x_author_token_account : pubkey; x_fee_collector_token_account : pubkey; x_token_program : pubkey;
}.

Definition rental_accounts (c : call) (st : chain) : result rental_ctx :=
  let! template_key := account_of c "template" in
  let! rental_key := account_of c "rental" in
  let! mint := account_of c "mint" in
  let! escrow := account_of c "escrow" in
  let! author_token_account := account_of c "authorTokenAccount" in
  let! fee_collector_token_account := account_of c "feeCollectorTokenAccount" in
  let! token_program := account_of c "tokenProgram" in
  let! t := some_or (templates st !! template_key) "AccountNotInitialized" in
  let! _ := at_seeds template_key (templatePda find_program_address program_id (template_id t)) in
  let! r := some_or (rentals st !! rental_key) "AccountNotInitialized" in
  let! _ := check (template r =? template_key) "ConstraintRaw" in
  let! _ := check (bool_decide (r_status r = Active)) "RentalAlreadyClosed" in
  let! _ := check (mint =? rent_escrow_mint (global st)) "ConstraintAddress" in
  let! _ := at_seeds escrow (rentalEscrowPda find_program_address program_id rental_key) in
  let! _ := token_of (tokens st) escrow mint in
  let! a := token_of (tokens st) author_token_account mint in
  let! _ := check (ta_owner a =? author t) "Unauthorized" in
  let! _ := token_of (tokens st) fee_collector_token_account mint in
  let! _ := check (fee_collector_token_account =? fee_collector (global st)) "Unauthorized" in
  Ok {| x_rental_key := rental_key; x_rental := r; x_template := t; x_mint := mint; x_escrow := escrow;
        x_author_token_account := author_token_account; x_fee_collector_token_account := fee_collector_token_account;
        x_token_program := token_program |}.

(** The author's royalty, then the platform's fee, out of the escrow. *)
Definition pay_shares (x : rental_ctx) (author_royalty platform_fee : Z) (t : T) : result T :=
  let! t1 := transfer_some (x_token_program x) (x_escrow x) (x_mint x) (x_author_token_account x) (x_escrow x) author_royalty t in
  transfer_some (x_token_program x) (x_escrow x) (x_mint x) (x_fee_collector_token_account x) (x_escrow x) platform_fee t1.

(** claim_rental_revenue.rs: what a claim may divide. *)
Definition claimable_at (r : TemplateRental) (now : Z) : result Z :=
  let! _ := check (start_time r <? now) "NothingToClaim" in
  let claimable := accrued_at r now - already_claimed r in
  let! _ := check (0 <=? claimable) "ArithmeticOverflow" in
  let! _ := check (negb (claimable =? 0)) "NothingToClaim" in
  u64 claimable.

Definition shares (g : TemplateRegistryGlobal) (t : AgentTemplate) (claimable : Z) : result (Z * Z) :=
  let! platform_fee := share claimable (platform_fee_bps g) in
  let! author_royalty := share claimable (royalty_bps t) in
  Ok (author_royalty, platform_fee).

Definition claim_rental_revenue (now : Z) (c : call) (st : chain) : result chain :=
  let! x := rental_accounts c st in
  let r := x_rental x in
  let! claimable := claimable_at r now in
  let! s := shares (global st) (x_template x) claimable in
  let! _ := u64 (claimable - s.2 - s.1) in
  let! tokens1 := pay_shares x s.1 s.2 (tokens st) in
  let! by_author := u64 (claimed_author r + s.1) in
  let! by_platform := u64 (claimed_platform r + s.2) in
  Ok {| tokens := tokens1; global := global st; templates := templates st;
        rentals := <[x_rental_key x := with_claims r by_author by_platform]> (rentals st) |}.

(** close_rental.rs *)
Definition remaining_accrual (r : TemplateRental) (now : Z) : result Z :=
  u64 (Z.max 0 (((Z.min now (end_time r) - start_time r) mod 2 ^ 128) * drip_rate_per_sec r - already_claimed r)).

Definition close_rental (now : Z) (c : call) (st : chain) : result chain :=
  let! x := rental_accounts c st in
  let! renter_token_account := account_of c "renterTokenAccount" in
  let! signer := account_of c "signer" in
  let r := x_rental x in
  let! b := token_of (tokens st) renter_token_account (x_mint x) in
  let! _ := check (ta_owner b =? renter r) "Unauthorized" in
  let is_renter := signer =? renter r in
  let is_after_end := end_time r <=? now in
  let! _ := check (is_renter || is_after_end) "Unauthorized" in
  let! remaining := remaining_accrual r now in
  let! tokens1 := (if 0 <? remaining
                   then let! s := shares (global st) (x_template x) remaining in pay_shares x s.1 s.2 (tokens st)
                   else Ok (tokens st)) in
  let! e := some_or (token_at tokens1 (x_escrow x)) "AccountNotInitialized" in
  let! tokens2 := transfer_some (x_token_program x) (x_escrow x) (x_mint x) renter_token_account (x_escrow x) (ta_amount e) tokens1 in
  Ok {| tokens := tokens2; global := global st; templates := templates st;
        rentals := <[x_rental_key x := with_status r (if is_renter && negb is_after_end then Cancelled else Closed)]> (rentals st) |}.

(** The program's entry point, for these instructions. *)
Definition process_rental (now : Z) (c : call) (st : chain) : result chain :=
  if String.eqb (ix_method c) "openRental" then
    match ix_args c with
    | [A_bn duration; A_bytes nonce] =>
      let! _ := check ((- 2 ^ 63 <=? duration) && (duration <? 2 ^ 63)) "InstructionDidNotDeserialize" in
      open_rental now c duration nonce st
    | _ => Throw "InstructionDidNotDeserialize"
    end
  else if String.eqb (ix_method c) "claimRentalRevenue" then claim_rental_revenue now c st
  else if String.eqb (ix_method c) "closeRental" then close_rental now c st
  else Throw "InstructionFallbackNotFound".
End program.
Arguments chain T : clear implicits.

(** ** hooks/templates.ts *)

Record ui_lib := {
  PublicKey : string -> result pubkey;
  toBase58 : pubkey -> string;
  findProgramAddressSync : list (list Z) -> pubkey -> result (pubkey * Z);
  (** mint, owner, whether owners off the curve are allowed, token program *)
  getAssociatedTokenAddressSync : pubkey -> pubkey -> bool -> pubkey -> result pubkey;
  toLocaleString : Z -> string;
}.

Record ui_ops (W : Type) := {
  ui_getAccountInfo : pubkey -> io W (option (pubkey * list Z));
  getAccount : pubkey -> pubkey -> io W Z;        (* an account's amount, under a token program *)
  getMint : pubkey -> pubkey -> io W Z;           (* a mint's decimals *)
  getRandomValues : nat -> io W (list Z);
  send : call -> io W string;                     (* what useSendTransaction does once the instruction is built *)
}.
Arguments ui_getAccountInfo {W} _ _.
Arguments getAccount {W} _ _ _.
Arguments getMint {W} _ _ _.
Arguments getRandomValues {W} _ _.
Arguments send {W} _ _.

Definition requireBytes (value : list Z) (len : nat) (label : string) : result (list Z) :=
  if (length value =? len)%nat then Ok value else Throw (label +:+ " must be " +:+ z_text (Z.of_nat len) +:+ " bytes").

Record RentTemplateInput := {
  ri_templateId : list Z; ri_mint : pubkey; ri_durationSecs : Z; ri_rentalNonce : list Z; ri_renterTokenAccount : option pubkey;
}.
Record ForkTemplateMutationInput := { fi_parentTemplateId : list Z; fi_childAgentDid : list Z }.
Record ClaimTemplateRentalInput := {
  ci_rental : pubkey; ci_templateId : list Z; ci_mint : pubkey; ci_author : pubkey; ci_feeCollectorTokenAccount : pubkey;
}.
Record CloseTemplateRentalInput := { cl_claim : ClaimTemplateRentalInput; cl_renter : pubkey }.

Section hooks.
Context {W : Type}.
Variable L : ui_lib.
Variable ops : ui_ops W.

Definition TOKEN_PROGRAM_ID : pubkey := constant (PublicKey L) "TokenkegQfeZyiNwAJbNbGKPFXCWuBvf9Ss623VQ5DA".
Definition TOKEN_2022 : pubkey := TOKEN_2022_PROGRAM_ID (PublicKey L).

Definition resolveTokenProgram (mint : pubkey) : io W pubkey :=
  do! mintAccount <- ui_getAccountInfo ops mint in
  match mintAccount with
  | None => io_throw ("Mint " +:+ toBase58 L mint +:+ " was not found on the current cluster")
  | Some (owner, _) =>
    if owner =? TOKEN_2022 then io_ret TOKEN_2022
    else if owner =? TOKEN_PROGRAM_ID then io_ret TOKEN_PROGRAM_ID
    else io_throw "Template escrow mint is not owned by SPL Token or Token-2022"
  end.

(** The program and the wallet, or the error of every mutation without them. *)
Definition connected (program publicKey : option pubkey) : io W (pubkey * pubkey) :=
  match program, publicKey with
  | Some p, Some k => io_ret (p, k)
  | _, _ => io_throw "Wallet not connected"
  end.

(** [buildInstruction] of each hook. *)
Definition useRentTemplate (program publicKey : option pubkey) (input : RentTemplateInput) : io W call :=
  do! w <- connected program publicKey in
  do! templateId <- io_lift (requireBytes (ri_templateId input) 32 "templateId") in
  do! rentalNonce <- io_lift (requireBytes (ri_rentalNonce input) 8 "rentalNonce") in
  do! tokenProgram <- resolveTokenProgram (ri_mint input) in
  do! renterTokenAccount <- io_lift (match ri_renterTokenAccount input with
                                     | Some k => Ok k
                                     | None => getAssociatedTokenAddressSync L (ri_mint input) w.2 false tokenProgram
                                     end) in
  io_lift (buildOpenRentalIx (PublicKey L) (findProgramAddressSync L) w.1 w.2 templateId (ri_mint input) renterTokenAccount
             (ri_durationSecs input) rentalNonce tokenProgram).

Definition useForkTemplate (program publicKey : option pubkey) (input : ForkTemplateMutationInput) : io W call :=
  do! w <- connected program publicKey in
  do! parentTemplateId <- io_lift (requireBytes (fi_parentTemplateId input) 32 "parentTemplateId") in
  do! childAgentDid <- io_lift (requireBytes (fi_childAgentDid input) 32 "childAgentDid") in
  io_lift (buildForkTemplateIx (PublicKey L) (findProgramAddressSync L) w.1 w.2 parentTemplateId childAgentDid).

Definition useClaimRentalRevenue (program publicKey : option pubkey) (input : ClaimTemplateRentalInput) : io W call :=
  do! w <- connected program publicKey in
  do! tokenProgram <- resolveTokenProgram (ci_mint input) in
  do! authorTokenAccount <- io_lift (getAssociatedTokenAddressSync L (ci_mint input) (ci_author input) true tokenProgram) in
  do! templateId <- io_lift (requireBytes (ci_templateId input) 32 "templateId") in
  io_lift (buildClaimRentalRevenueIx (findProgramAddressSync L) w.1 w.2 (ci_rental input) templateId (ci_mint input)
             authorTokenAccount (ci_feeCollectorTokenAccount input) tokenProgram).

Definition useCloseTemplateRental (program publicKey : option pubkey) (input : CloseTemplateRentalInput) : io W call :=
  let i := cl_claim input in
  do! w <- connected program publicKey in
  do! tokenProgram <- resolveTokenProgram (ci_mint i) in
  do! authorTokenAccount <- io_lift (getAssociatedTokenAddressSync L (ci_mint i) (ci_author i) true tokenProgram) in
  do! renterTokenAccount <- io_lift (getAssociatedTokenAddressSync L (ci_mint i) (cl_renter input) false tokenProgram) in
  do! templateId <- io_lift (requireBytes (ci_templateId i) 32 "templateId") in
  io_lift (buildCloseRentalIx (findProgramAddressSync L) w.1 w.2 (ci_rental i) templateId (ci_mint i)
             authorTokenAccount (ci_feeCollectorTokenAccount i) renterTokenAccount tokenProgram).

(** ** lib/token-accounts.ts *)

Definition resolveTokenProgramForMint (mint : pubkey) : io W pubkey :=
  do! mintAccount <- ui_getAccountInfo ops mint in
  match mintAccount with
  | None => io_throw ("Mint " +:+ toBase58 L mint +:+ " was not found on the current cluster")
  | Some (owner, _) =>
    if owner =? TOKEN_2022 then io_ret TOKEN_2022
    else if owner =? TOKEN_PROGRAM_ID then io_ret TOKEN_PROGRAM_ID
    else io_throw "Mint is not owned by SPL Token or Token-2022"
  end.

Record token_balance := { tb_address : pubkey; tb_amount : Z; tb_decimals : Z; tb_tokenProgram : pubkey }.

Definition loadTokenAccountBalance (mint owner : pubkey) : io W token_balance :=
  do! tokenProgram <- resolveTokenProgramForMint mint in
  do! address <- io_lift (getAssociatedTokenAddressSync L mint owner false tokenProgram) in
  do! amount <- getAccount ops address tokenProgram in
  do! decimals <- getMint ops mint tokenProgram in
  io_ret {| tb_address := address; tb_amount := amount; tb_decimals := decimals; tb_tokenProgram := tokenProgram |}.

Definition loadMintDecimals (mint : pubkey) : io W Z :=
  do! tokenProgram <- resolveTokenProgramForMint mint in
  getMint ops mint tokenProgram.
End hooks.

(** ** lib/template-serializer.ts *)

Record SerializedTemplate := {
  sz_address : string; sz_templateId : string; sz_author : string; sz_configHash : string; sz_configUri : string;
  sz_capabilityMask : string; sz_royaltyBps : Z; sz_parentTemplate : option string; sz_lineageDepth : Z; sz_forkCount : Z;
  sz_rentCount : Z; sz_totalRevenue : string; sz_rentPricePerSec : string; sz_minRentDuration : Z; sz_maxRentDuration : Z;
  sz_status : string; sz_createdAt : Z; sz_updatedAt : Z;
}.
Record SerializedTemplateFork := {
  sf_address : string; sf_childAgentDid : string; sf_parentTemplate : string; sf_forker : string; sf_royaltyBpsSnapshot : Z; sf_forkedAt : Z;
}.
Record SerializedTemplateRental := {
  sr_address : string; sr_template : string; sr_renter : string; sr_startTime : Z; sr_endTime : Z; sr_prepaidAmount : string;
  sr_dripRatePerSec : string; sr_claimedAuthor : string; sr_claimedPlatform : string; sr_status : string;
}.
Record SerializedTemplateRegistryConfig := {
  sc_address : string; sc_authority : string; sc_pendingAuthority : option string; sc_agentRegistry : string;
  sc_treasuryStandard : string; sc_feeCollector : string; sc_royaltyCapBps : Z; sc_platformFeeBps : Z; sc_rentEscrowMint : string;
  sc_paused : bool;
}.

Section serializers.
Variable L : ui_lib.

Definition serializeTemplate (t : TemplateSummary) : SerializedTemplate :=
  {| sz_address := toBase58 L (tm_address t); sz_templateId := bytesToHex (tm_templateId t); sz_author := toBase58 L (tm_author t);
     sz_configHash := bytesToHex (tm_configHash t); sz_configUri := tm_configUri t; sz_capabilityMask := z_text (tm_capabilityMask t);
     sz_royaltyBps := tm_royaltyBps t; sz_parentTemplate := option_map (toBase58 L) (tm_parentTemplate t);
     sz_lineageDepth := tm_lineageDepth t; sz_forkCount := tm_forkCount t; sz_rentCount := tm_rentCount t;
     sz_totalRevenue := z_text (tm_totalRevenue t); sz_rentPricePerSec := z_text (tm_rentPricePerSec t);
     sz_minRentDuration := tm_minRentDuration t; sz_maxRentDuration := tm_maxRentDuration t; sz_status := tm_status t;
     sz_createdAt := tm_createdAt t; sz_updatedAt := tm_updatedAt t |}.

Definition serializeTemplateFork (f : TemplateForkSummary) : SerializedTemplateFork :=
  {| sf_address := toBase58 L (tf_address f); sf_childAgentDid := bytesToHex (tf_childAgentDid f);
     sf_parentTemplate := toBase58 L (tf_parentTemplate f); sf_forker := toBase58 L (tf_forker f);
     sf_royaltyBpsSnapshot := tf_royaltyBpsSnapshot f; sf_forkedAt := tf_forkedAt f |}.

Definition serializeTemplateRental (r : TemplateRentalSummary) : SerializedTemplateRental :=
  {| sr_address := toBase58 L (rn_address r); sr_template := toBase58 L (rn_template r); sr_renter := toBase58 L (rn_renter r);
     sr_startTime := rn_startTime r; sr_endTime := rn_endTime r; sr_prepaidAmount := z_text (rn_prepaidAmount r);
     sr_dripRatePerSec := z_text (rn_dripRatePerSec r); sr_claimedAuthor := z_text (rn_claimedAuthor r);
     sr_claimedPlatform := z_text (rn_claimedPlatform r); sr_status := rn_status r |}.

Definition serializeTemplateRegistryConfig (c : TemplateRegistryConfigSummary) : SerializedTemplateRegistryConfig :=
  {| sc_address := toBase58 L (tc_address c); sc_authority := toBase58 L (tc_authority c);
     sc_pendingAuthority := option_map (toBase58 L) (tc_pendingAuthority c); sc_agentRegistry := toBase58 L (tc_agentRegistry c);
     sc_treasuryStandard := toBase58 L (tc_treasuryStandard c); sc_feeCollector := toBase58 L (tc_feeCollector c);
     sc_royaltyCapBps := tc_royaltyCapBps c; sc_platformFeeBps := tc_platformFeeBps c;
     sc_rentEscrowMint := toBase58 L (tc_rentEscrowMint c); sc_paused := tc_paused c |}.
End serializers.

(** ** lib/template-actions.ts *)

Definition to_lower_ascii (c : ascii) : ascii :=
  if char_in 65 90 c then ascii_of_nat (nat_of_ascii c + 32) else c.

Fixpoint toLowerCase (s : string) : string :=
  match s with
  | EmptyString => EmptyString
  | String c s' => String (to_lower_ascii c) (toLowerCase s')
  end.

Definition hex_lower (c : ascii) : bool := char_in 48 57 c || char_in 97 102 c.

Definition bytesFromHex (hex label : string) : result (list Z) :=
  let normalized := toLowerCase (trim hex) in
  if negb (all_chars hex_lower normalized && (String.length normalized =? 64)%nat) then Throw (label +:+ " must be a 32-byte hex string")
  else Ok (map (fun part => to_uint8 (parseInt16 part)) (char_pairs normalized)).

(** [BigInt(text || '0')] *)
Definition BigInt_or_0 (text : string) : result Z := js_BigInt (if String.eqb text "" then "0" else text).

(** For a rate that is a text and a duration that is a whole number of seconds. *)
Definition rentalPrepaidAmount (rentPricePerSec : string) (durationSecs : Z) : result Z :=
  let! rate := BigInt_or_0 rentPricePerSec in Ok (rate * Z.max 0 durationSecs).

Fixpoint zeros (n : nat) : string := match n with O => EmptyString | S n' => String "0" (zeros n') end.
Definition padStart (n : nat) (s : string) : string := zeros (n - String.length s) +:+ s.

(** [.replace(/0+$/, '')] *)
Fixpoint drop_final_zeros (s : string) : string :=
  match s with
  | EmptyString => EmptyString
  | String c s' =>
    let t := drop_final_zeros s' in
    if bool_decide (c = "0"%char) && String.eqb t "" then EmptyString else String c t
  end.

Definition fraction_text (decimals : nat) (fraction : Z) : string :=
  String.substring 0 4 (drop_final_zeros (padStart decimals (z_text fraction))).

Definition formatBaseUnits (L : ui_lib) (raw : Z) (decimals : nat) (symbol : string) : string :=
  let abs := Z.abs raw in
  let scale := 10 ^ Z.of_nat decimals in
  let trimmed := fraction_text decimals (abs mod scale) in
  (if raw <? 0 then "-" else "") +:+ toLocaleString L (abs / scale) +:+
  (if String.eqb trimmed "" then "" else "." +:+ trimmed) +:+ " " +:+ symbol.

Definition rentalRemainingSeconds (endTime : Z) (status : string) (nowSec : Z) : Z :=
  if negb (String.eqb status "active") then 0 else Z.max 0 (endTime - nowSec).

Definition rentalAccruedAmount (r : SerializedTemplateRental) (nowSec : Z) : result Z :=
  let effectiveEnd := Z.min nowSec (sr_endTime r) in
  let elapsed := Z.max 0 (effectiveEnd - sr_startTime r) in
  let! rate := BigInt_or_0 (sr_dripRatePerSec r) in
  Ok (rate * elapsed).

Definition rentalClaimableAmount (r : SerializedTemplateRental) (nowSec : Z) : result Z :=
  let! accrued := rentalAccruedAmount r nowSec in
  let! by_author := BigInt_or_0 (sr_claimedAuthor r) in
  let! by_platform := BigInt_or_0 (sr_claimedPlatform r) in
  let claimed := by_author + by_platform in
  Ok (if claimed <? accrued then accrued - claimed else 0).

Definition formatDurationShort (seconds : Z) : string :=
  if seconds <=? 0 then "0s"
  else if 86400 <=? seconds then z_text (seconds / 86400) +:+ "d"
  else if 3600 <=? seconds then z_text (seconds / 3600) +:+ "h"
  else if 60 <=? seconds then z_text (seconds / 60) +:+ "m"
  else z_text seconds +:+ "s".

(** ** The rent form, the fork form and the list of rentals *)

Section pages.
Context {W : Type}.
Variable L : ui_lib.
Variable ops : ui_ops W.

Definition durationHours (seconds : Z) : Z := Z.max 1 (- (- seconds / 3600)).

(** [durationSecs], from what is typed, exactly: the product of doubles may fall on the
    other side of a whole second. *)
Definition durationSecs (duration : string) : Z :=
  match js_Number duration with
  | Some parsed => Z.max 0 (Qfloor (parsed * 3600))
  | None => 0
  end.

Definition disabledReason (t : SerializedTemplate) (registry : option SerializedTemplateRegistryConfig) (publicKey : option pubkey)
    (secs : Z) : result (option string) :=
  match registry with
  | None => Ok (Some "Template registry config is not available.")
  | Some c =>
    if sc_paused c then Ok (Some "Template rentals are paused by the registry.")
    else if negb (String.eqb (sz_status t) "published") then Ok (Some "Only published templates can be rented.")
    else
      let! rate := BigInt_or_0 (sz_rentPricePerSec t) in
      if (rate <=? 0)%Z then Ok (Some "This template has rentals disabled.")
      else match publicKey with
           | None => Ok (Some "Connect a wallet to rent this template.")
           | Some _ =>
             if ((secs <? sz_minRentDuration t) || (sz_maxRentDuration t <? secs))%Z
             then Ok (Some ("Choose " +:+ formatDurationShort (sz_minRentDuration t) +:+ " to " +:+ formatDurationShort (sz_maxRentDuration t) +:+ "."))
             else Ok None
           end
  end%string.

(** What the form shows after the button was pressed. *)
Inductive rent_shown := RentError (message : string) | RentReceipt (signature rental : string) (prepaid secs : Z).

(** The body of [try]. *)
Definition rent_now (t : SerializedTemplate) (c : SerializedTemplateRegistryConfig) (publicKey program : pubkey) (secs prepaid : Z) :
    io W rent_shown :=
  do! mint <- io_lift (PublicKey L (sc_rentEscrowMint c)) in
  do! balance <- loadTokenAccountBalance L ops mint publicKey in
  do! _ <- io_check (prepaid <=? tb_amount balance)
             ("Insufficient escrow mint balance. Need " +:+ formatBaseUnits L prepaid (Z.to_nat (tb_decimals balance)) "units" +:+
              ", have " +:+ formatBaseUnits L (tb_amount balance) (Z.to_nat (tb_decimals balance)) "units" +:+ ".") in
  do! nonce <- getRandomValues ops 8 in
  do! template <- io_lift (PublicKey L (sz_address t)) in
  do! rental <- io_lift (key (rentalPda (findProgramAddressSync L) program template publicKey nonce)) in
  do! templateId <- io_lift (bytesFromHex (sz_templateId t) "template id") in
  do! c <- useRentTemplate L ops (Some program) (Some publicKey)
             {| ri_templateId := templateId; ri_mint := mint; ri_durationSecs := secs; ri_rentalNonce := nonce;
                ri_renterTokenAccount := Some (tb_address balance) |} in
  do! signature <- send ops c in
  io_ret (RentReceipt signature (toBase58 L rental) prepaid secs).

(** [submit]; the clicks of a button that is disabled do nothing, so it runs only with no reason. *)
Definition rent_submit (t : SerializedTemplate) (registry : option SerializedTemplateRegistryConfig) (publicKey program : option pubkey)
    (duration : string) : io W rent_shown :=
  let secs := durationSecs duration in
  do! prepaid <- io_lift (rentalPrepaidAmount (sz_rentPricePerSec t) secs) in
  do! reason <- io_lift (disabledReason t registry publicKey secs) in
  match reason with
  | Some message => io_ret (RentError message)
  | None =>
    match registry, publicKey, program with
    | Some c, Some k, Some p => io_catch (rent_now t c k p secs prepaid) (fun e => io_ret (RentError e))
    | _, _, _ => io_ret (RentError "Wallet or template program is not ready.")
    end
  end.

(** fork-template-form.tsx *)
Definition fork_disabledReason (t : SerializedTemplate) (registryPaused : bool) (publicKey : option pubkey) (childDid : string) :
    option string :=
  if registryPaused then Some "Template registry is paused."
  else if negb (String.eqb (sz_status t) "published") then Some "Only published templates can be fork-linked."
  else match publicKey with
       | None => Some "Connect a wallet to link a fork."
       | Some _ =>
         if all_chars (fun c => hex_lower c || char_in 65 70 c) (trim childDid) && (String.length (trim childDid) =? 64)%nat then None
         else Some "Enter the child agent DID as 32-byte hex."
       end%string.

Definition fork_submit (t : SerializedTemplate) (registryPaused : bool) (publicKey program : option pubkey) (childDid : string) :
    io W (string + string) :=
  match fork_disabledReason t registryPaused publicKey childDid with
  | Some message => io_ret (inl message)
  | None =>
    io_catch (do! parentTemplateId <- io_lift (bytesFromHex (sz_templateId t) "template id") in
              do! childAgentDid <- io_lift (bytesFromHex childDid "child agent DID") in
              do! c <- useForkTemplate L program publicKey
                         {| fi_parentTemplateId := parentTemplateId; fi_childAgentDid := childAgentDid |} in
              do! signature <- send ops c in
              io_ret (inr signature))
             (fun e => io_ret (inl e))
  end.

(** rentals/page.tsx: a rental's amounts and whether its buttons work. *)
Record rental_row := { rr_remaining : Z; rr_claimable : Z; rr_canClaim : bool; rr_canClose : bool }.

Definition rental_row_of (r : TemplateRentalSummary) (template : option TemplateSummary) (nowSec : Z) : result rental_row :=
  let! claimable := rentalClaimableAmount (serializeTemplateRental L r) nowSec in
  let active := String.eqb (rn_status r) "active" in
  let known := match template with Some _ => true | None => false end in
  Ok {| rr_remaining := rentalRemainingSeconds (rn_endTime r) (rn_status r) nowSec; rr_claimable := claimable;
        rr_canClaim := active && known && (0 <? claimable); rr_canClose := active && known |}.

Definition claim_input (r : TemplateRentalSummary) (t : TemplateSummary) (c : TemplateRegistryConfigSummary) : ClaimTemplateRentalInput :=
  {| ci_rental := rn_address r; ci_templateId := tm_templateId t; ci_mint := tc_rentEscrowMint c; ci_author := tm_author t;
     ci_feeCollectorTokenAccount := tc_feeCollector c |}.

(** [claimRental] and [closeRental]: the signature or the error shown. *)
Definition no_rental_data : string := "Template or registry data is not available for this rental.".

Definition claimRental (program publicKey : option pubkey) (r : TemplateRentalSummary) (template : option TemplateSummary)
    (registry : option TemplateRegistryConfigSummary) : io W (string + string) :=
  match registry, template with
  | Some c, Some t =>
    io_catch (do! ix <- useClaimRentalRevenue L ops program publicKey (claim_input r t c) in
              do! signature <- send ops ix in io_ret (inr signature))
             (fun e => io_ret (inl e))
  | _, _ => io_ret (inl no_rental_data)
  end.

Definition closeRental (program publicKey : option pubkey) (r : TemplateRentalSummary) (template : option TemplateSummary)
    (registry : option TemplateRegistryConfigSummary) : io W (string + string) :=
  match registry, template with
  | Some c, Some t =>
    io_catch (do! ix <- useCloseTemplateRental L ops program publicKey {| cl_claim := claim_input r t c; cl_renter := rn_renter r |} in
              do! signature <- send ops ix in io_ret (inr signature))
             (fun e => io_ret (inl e))
  | _, _ => io_ret (inl no_rental_data)
  end.
End pages.

(** ** template-simulator.ts

    A [number] is an exact rational, [None] what is not finite; the numbers of a
    result that come from bigints are given as those bigints. *)

Inductive amount_input := In_bigint (n : Z) | In_number (q : option Q) | In_text (s : string) | In_undefined.

Record TemplateSimulationInput := {
  i_tasksPerMonth : option Q; i_avgRewardLamports : amount_input; i_successRateBps : option Q; i_disputeRateBps : option Q;
  i_royaltyBps : option Q; i_platformFeeBps : option Q; i_rentPricePerSecLamports : amount_input; i_rentDurationDays : option Q;
  i_forkSetupLamports : amount_input;
}.

Inductive TemplateSimulationRecommendation := Rent | Fork | Wait.

#[global] Instance recommendation_eq_dec : EqDecision TemplateSimulationRecommendation.
Proof. solve_decision. Defined.

Record TemplateSimulationResult := {
  tasksPerMonth : Z; expectedSuccessfulTasks : Q; expectedDisputedTasks : Q; grossRevenueLamports : Z; royaltyCostLamports : Z;
  rentCostLamports : Z; platformFeeLamports : Z; disputeLossLamports : Z; rentNetLamports : Z; forkNetLamports : Z;
  bestNetLamports : Z; authorRevenueLamports : Z; breakEvenTasks : option Z; marginBps : Z;
  recommendation : TemplateSimulationRecommendation;
}.

Definition toBigInt (value : amount_input) (fallback : Z) : Z :=
  match value with
  | In_undefined => fallback
  | In_bigint n => n
  | In_number None => fallback
  | In_number (Some q) => Z.max 0 (Qfloor q)
  | In_text s => if String.eqb s "" then fallback else match js_BigInt s with Ok n => n | Throw _ => fallback end
  end.

Definition clampInt (value : option Q) (min max : Z) : Z :=
  match value with
  | None => min
  | Some q => Z.min max (Z.max min (Qfloor q))
  end.

(** The division of bigints truncates. *)
Definition bpsMul (value bps : Z) : Z := Z.quot (value * Z.min 10000 (Z.max 0 bps)) 10000.

Definition ceilDiv (numerator denominator : Z) : Z := Z.quot (numerator + denominator - 1) denominator.

(** What the clamped inputs come to. *)
Record economics := {
  e_tasks : Z; e_reward : Z; e_success : Z; e_dispute : Z; e_royalty : Z; e_fee : Z; e_price : Z; e_days : Z; e_setup : Z;
}.

Definition economics_of (i : TemplateSimulationInput) : economics :=
  {| e_tasks := clampInt (i_tasksPerMonth i) 0 1000000; e_reward := toBigInt (i_avgRewardLamports i) 0;
     e_success := clampInt (i_successRateBps i) 0 10000; e_dispute := clampInt (i_disputeRateBps i) 0 10000;
     e_royalty := clampInt (i_royaltyBps i) 0 10000; e_fee := clampInt (i_platformFeeBps i) 0 10000;
     e_price := toBigInt (i_rentPricePerSecLamports i) 0; e_days := clampInt (i_rentDurationDays i) 0 3650;
     e_setup := toBigInt (i_forkSetupLamports i) 0 |}.

Definition e_gross (e : economics) : Z := bpsMul (e_reward e * e_tasks e) (e_success e).
Definition e_disputeLoss (e : economics) : Z := bpsMul (e_reward e * e_tasks e) (e_dispute e).
Definition e_royaltyCost (e : economics) : Z := bpsMul (e_gross e) (e_royalty e).
Definition e_rentCost (e : economics) : Z := e_price e * e_days e * 86400.
Definition e_platformFee (e : economics) : Z := bpsMul (e_rentCost e) (e_fee e).
Definition e_rentNet (e : economics) : Z := e_gross e - e_royaltyCost e - e_rentCost e - e_platformFee e - e_disputeLoss e.
Definition e_forkNet (e : economics) : Z := e_gross e - e_royaltyCost e - e_setup e - e_disputeLoss e.
Definition e_bestNet (e : economics) : Z := if e_forkNet e <=? e_rentNet e then e_rentNet e else e_forkNet e.

Definition e_perTask (e : economics) : Z :=
  let gross := bpsMul (e_reward e) (e_success e) in
  gross - bpsMul gross (e_royalty e) - bpsMul (e_reward e) (e_dispute e).

Definition e_breakEven (e : economics) : option Z :=
  let fixed := e_rentCost e + e_platformFee e in
  if (0 <? fixed) && (0 <? e_perTask e) then Some (ceilDiv fixed (e_perTask e)) else None.

Definition e_margin (e : economics) : Z :=
  if 0 <? e_gross e then Z.quot (e_bestNet e * 10000) (e_gross e) else if 0 <=? e_bestNet e then 0 else -10000.

Definition e_recommendation (e : economics) : TemplateSimulationRecommendation :=
  if e_bestNet e <=? 0 then Wait else if e_forkNet e <=? e_rentNet e then Rent else Fork.

Definition simulateTemplateEconomics (i : TemplateSimulationInput) : TemplateSimulationResult :=
  let e := economics_of i in
  {| tasksPerMonth := e_tasks e; expectedSuccessfulTasks := inject_Z (e_tasks e * e_success e) / 10000;
     expectedDisputedTasks := inject_Z (e_tasks e * e_dispute e) / 10000; grossRevenueLamports := e_gross e;
     royaltyCostLamports := e_royaltyCost e; rentCostLamports := e_rentCost e; platformFeeLamports := e_platformFee e;
     disputeLossLamports := e_disputeLoss e; rentNetLamports := e_rentNet e; forkNetLamports := e_forkNet e;
     bestNetLamports := e_bestNet e; authorRevenueLamports := e_royaltyCost e + e_rentCost e; breakEvenTasks := e_breakEven e;
     marginBps := e_margin e; recommendation := e_recommendation e |}.

(** template-simulator.tsx *)
Definition LAMPORTS_PER_SOL : Z := 1000000000.

Definition digits_text (s : string) : bool := negb (String.eqb s "") && all_chars (char_in 48 57) s.

Definition parseSolToLamports (value : string) : Z :=
  let normalized := String.concat "" (split_on comma (trim value)) in
  match split_on "."%char normalized with
  | [whole] => if digits_text whole then match js_BigInt whole with Ok n => n * LAMPORTS_PER_SOL | Throw _ => 0 end else 0
  | [whole; fractional] =>
    if digits_text whole && digits_text fractional
    then match js_BigInt whole, js_BigInt (String.substring 0 9 (fractional +:+ "000000000")) with
         | Ok w, Ok f => w * LAMPORTS_PER_SOL + f
         | _, _ => 0
         end
    else 0
  | _ => 0
  end.
