(* ===== verification/RentalsSafety.v ===== *)
(** * RentalsSafety: what renting a template guarantees

    The theorems of Rentals: an escrow always holds what is left of a rental
    ([rentals_covered]), claims and closings succeed and a closing is final
    ([rental_closes], [closed_for_good]), the rent form opens the rental it shows
    ([rent_form_opens]), and what goes wrong: how claims drain the renter's part
    ([claims_drain_the_renter]), the amount the page calls claimable
    ([claimable_shown]) and how far the simulator's break-even count is off
    ([break_even_bounds]).  The toy registry is the world the witnesses run in. *)

From Stdlib Require Import ZArith QArith Qround Ascii Lia.
From stdpp Require Import base list strings gmap.
From S2P Require Import Prelude Bytes Effects Json Hex Zod Numbers Pda Idl Ix Decoded Accounts Rentals.

#[local] Open Scope Z_scope.
#[local] Open Scope saep_scope.

(** Split a [let!] chain that ended normally into its steps. *)
Ltac ok_inv :=
  repeat match goal with
  | H : result_bind _ _ = Ok _ |- _ => apply result_bind_ok in H as (? & ? & H)
  | H : check _ _ = Ok _ |- _ => unfold check in H
  | H : (if ?b then Ok _ else Throw _) = Ok _ |- _ => destruct b eqn:?; [|discriminate H]
  | H : some_or ?o _ = Ok _ |- _ => unfold some_or in H; destruct o eqn:?; [|discriminate H]
  | H : Ok _ = Ok _ |- _ => injection H as H; subst
  | H : _ && _ = true |- _ => apply andb_prop in H as [? H]
  end.

Lemma step_ok {A B} (r : result A) (k : A -> result B) a : r = Ok a -> result_bind r k = k a.
Proof. by intros ->. Qed.

Lemma run_check {B} b m (k : unit -> result B) : b = true -> result_bind (check b m) k = k tt.
Proof. by intros ->. Qed.

Lemma Ok_inj {A} (a b : A) : Ok a = Ok b -> a = b.
Proof. by intros [=]. Qed.

Lemma share_bounds amount bps s : share amount bps = Ok s -> 0 <= s /\ s = amount * bps / 10000.
Proof. intros H. unfold share, u64 in H. ok_inv. split; [|done]. apply Z.div_pos; lia. Qed.

Section solvency.
Context {T : Type} `{!TokenLedger T, !TokenLaws T}.
Variable find_program_address : list (list Z) -> pubkey -> result (pubkey * Z).
Variable program_id : pubkey.

(** ** The ledger *)

(** No account disappears or changes hands, and only [from] may hold less, by [n]. *)
Definition spends (from : pubkey) (n : Z) (t t' : T) : Prop :=
  forall k a, token_at t k = Some a -> exists a', token_at t' k = Some a' /\ ta_mint a' = ta_mint a /\ ta_owner a' = ta_owner a /\
    (if bool_decide (k = from) then ta_amount a - n else ta_amount a) <= ta_amount a'.

Lemma spends_refl from n t : 0 <= n -> spends from n t t.
Proof. intros Hn k a H. exists a. split_and!; try done. case_bool_decide; lia. Qed.

Lemma spends_trans from n m t t1 t2 : spends from n t t1 -> spends from m t1 t2 -> spends from (n + m) t t2.
Proof.
  intros H1 H2 k a Ha. destruct (H1 k a Ha) as (a1 & E1 & M1 & O1 & L1). destruct (H2 k a1 E1) as (a2 & E2 & M2 & O2 & L2).
  exists a2. split_and!; [done|congruence..|]. case_bool_decide; lia.
Qed.

Lemma transfer_spends program from mint to_ authority n t t' : 0 <= n ->
  transfer_checked program from mint to_ authority n t = Ok t' -> spends from n t t'.
Proof.
  intros Hn H k a Ha. destruct (decide (from = to_)) as [<-|Hne].
  - exists a. rewrite (transfer_self _ _ _ _ _ _ _ k H). split_and!; try done. case_bool_decide; lia.
  - destruct (transfer_moves _ _ _ _ _ _ _ _ H Hne) as (b & c & Hb & Hc & _ & Hb' & Hc' & Hk).
    destruct (decide (k = from)) as [->|Hf]; [|destruct (decide (k = to_)) as [->|Ht]].
    + rewrite Hb in Ha. injection Ha as ->. eexists. split; [exact Hb'|]. rewrite bool_decide_true by done. cbn. lia.
    + rewrite Hc in Ha. injection Ha as ->. eexists. split; [exact Hc'|]. rewrite bool_decide_false by done. cbn. lia.
    + exists a. rewrite (Hk k Hf Ht). rewrite bool_decide_false by done. by split_and!.
Qed.

Lemma transfer_some_spends program from mint to_ authority n t t' : 0 <= n ->
  transfer_some program from mint to_ authority n t = Ok t' -> spends from n t t'.
Proof.
  intros Hn. unfold transfer_some. destruct (0 <? n) eqn:E; [by apply transfer_spends|]. intros [= <-]. by apply spends_refl.
Qed.

Lemma pay_spends x a p t t' : 0 <= a -> 0 <= p -> pay_shares x a p t = Ok t' -> spends (x_escrow x) (a + p) t t'.
Proof.
  intros Ha Hp H. unfold pay_shares in H. ok_inv. eapply spends_trans; by eapply transfer_some_spends.
Qed.

(** ** The invariant *)

Definition escrow_of (k : pubkey) : option pubkey :=
  match rentalEscrowPda find_program_address program_id k with Ok d => Some d.1 | Throw _ => None end.

Record rental_ok (r : TemplateRental) : Prop := {
  ok_claims : 0 <= claimed_author r /\ 0 <= claimed_platform r;
  ok_times : start_time r <= end_time r;
  ok_rate : 0 <= drip_rate_per_sec r;
  ok_prepaid : prepaid_amount r = drip_rate_per_sec r * (end_time r - start_time r);
  ok_claimed : already_claimed r <= prepaid_amount r;
  ok_width : prepaid_amount r < 2 ^ 64;
}.

(** A rental's escrow belongs to itself and holds what has not been paid out. *)
Definition covered (st : chain T) (k : pubkey) (r : TemplateRental) : Prop :=
  exists e a, escrow_of k = Some e /\ token_at (tokens st) e = Some a /\ ta_owner a = e /\ ta_mint a = rent_escrow_mint (global st) /\
    (r_status r = Active -> prepaid_amount r - already_claimed r <= ta_amount a).

Record solvent (st : chain T) : Prop := {
  sv_ok : forall k r, rentals st !! k = Some r -> rental_ok r;
  sv_covered : forall k r, rentals st !! k = Some r -> covered st k r;
  sv_distinct : forall k1 k2 r1 r2 e, rentals st !! k1 = Some r1 -> rentals st !! k2 = Some r2 ->
    escrow_of k1 = Some e -> escrow_of k2 = Some e -> k1 = k2;
}.

(** What anyone else may do: open accounts and move tokens, but not out of an account
    that owns itself, which is how an escrow is set up: nobody has its key. *)
Definition others_move (t t' : T) : Prop :=
  (forall k a, token_at t k = Some a -> exists a', token_at t' k = Some a' /\ ta_mint a' = ta_mint a /\ ta_owner a' = ta_owner a /\
     (ta_owner a = k -> ta_amount a <= ta_amount a')).

(** One transaction: a rental instruction, signed by a wallet; tokens moving elsewhere;
    templates and parameters changing, the mint apart, which is set once. *)
Inductive rental_step : chain T -> chain T -> Prop :=
| S_rental now c st st' :
    (forall k e, escrow_of k = Some e -> account_of c "renter" <> Ok e) ->
    process_rental find_program_address program_id now c st = Ok st' -> rental_step st st'
| S_tokens st t' : others_move (tokens st) t' ->
    rental_step st {| tokens := t'; global := global st; templates := templates st; rentals := rentals st |}
| S_params st g' ts' : rent_escrow_mint g' = rent_escrow_mint (global st) ->
    rental_step st {| tokens := tokens st; global := g'; templates := ts'; rentals := rentals st |}.

Lemma covered_spends st t' g' ts' rs' k r from n : rent_escrow_mint g' = rent_escrow_mint (global st) ->
  covered st k r -> spends from n (tokens st) t' -> escrow_of k <> Some from ->
  covered {| tokens := t'; global := g'; templates := ts'; rentals := rs' |} k r.
Proof.
  intros Hm (e & a & He & Ha & Ho & Hma & Hc) Hs Hne. destruct (Hs e a Ha) as (a' & Ha' & Hm' & Ho' & Hl).
  rewrite bool_decide_false in Hl by congruence. exists e, a'. cbn. split_and!; [done..|congruence|congruence|]. intros Hact. specialize (Hc Hact). lia.
Qed.

(** The accounts of a claim or a closing, as the program requires them. *)
Definition holds_mint (t : T) (k mint : pubkey) (P : token_account -> Prop) : Prop :=
  exists a, token_at t k = Some a /\ ta_mint a = mint /\ P a.

Record accounts_ok (c : call) (st : chain T) (x : rental_ctx) : Prop := {
  ao_template : account_of c "template" = Ok (template (x_rental x));
  ao_rental : account_of c "rental" = Ok (x_rental_key x);
  ao_mint : account_of c "mint" = Ok (x_mint x);
  ao_escrow : account_of c "escrow" = Ok (x_escrow x);
  ao_author : account_of c "authorTokenAccount" = Ok (x_author_token_account x);
  ao_collector : account_of c "feeCollectorTokenAccount" = Ok (x_fee_collector_token_account x);
  ao_program : account_of c "tokenProgram" = Ok (x_token_program x);
  ao_t : templates st !! template (x_rental x) = Some (x_template x);
  ao_t_seeds : at_seeds (template (x_rental x)) (templatePda find_program_address program_id (template_id (x_template x))) = Ok tt;
  ao_r : rentals st !! x_rental_key x = Some (x_rental x);
  ao_active : r_status (x_rental x) = Active;
  ao_canonical : x_mint x = rent_escrow_mint (global st);
  ao_e_seeds : escrow_of (x_rental_key x) = Some (x_escrow x);
  ao_e : holds_mint (tokens st) (x_escrow x) (x_mint x) (fun _ => True);
  ao_a : holds_mint (tokens st) (x_author_token_account x) (x_mint x) (fun a => ta_owner a = author (x_template x));
  ao_f : holds_mint (tokens st) (x_fee_collector_token_account x) (x_mint x) (fun _ => True);
  ao_is_collector : x_fee_collector_token_account x = fee_collector (global st);
}.

Lemma at_seeds_escrow k e : at_seeds e (rentalEscrowPda find_program_address program_id k) = Ok tt <-> escrow_of k = Some e.
Proof.
  unfold at_seeds, escrow_of, check. destruct (rentalEscrowPda _ _ _) as [dd|]; cbn; [|done]. destruct (Z.eqb_spec e dd.1); split; congruence.
Qed.

Lemma token_of_ok t k mint a : token_of t k mint = Ok a <-> token_at t k = Some a /\ ta_mint a = mint.
Proof.
  unfold token_of, some_or, check. destruct (token_at t k) as [b|]; cbn; [|split; [done|by intros [[=] _]]].
  destruct (Z.eqb_spec (ta_mint b) mint); cbn; split; [by intros [= <-]|by intros [[= <-] _]|done|intros [[= <-] ?]; congruence].
Qed.

Lemma rental_accounts_ok c st x : rental_accounts find_program_address program_id c st = Ok x <-> accounts_ok c st x.
Proof.
  split.
  - intros H. unfold rental_accounts in H. ok_inv.
    repeat match goal with
    | u : unit |- _ => destruct u
    | H : (_ =? _) = true |- _ => apply Z.eqb_eq in H; subst
    | H : bool_decide _ = true |- _ => apply bool_decide_eq_true in H
    | H : token_of _ _ _ = Ok _ |- _ => apply token_of_ok in H as [? ?]
    | H : at_seeds _ (rentalEscrowPda _ _ _) = Ok _ |- _ => apply at_seeds_escrow in H
    end.
    split; cbn; try done; eexists; by split_and!.
  - intros [H1 H2 H3 H4 H5 H6 H7 Ht Hts Hr Ha Hm He (a1 & E1 & M1 & _) (a2 & E2 & M2 & O2) (a3 & E3 & M3 & _) Hf].
    apply at_seeds_escrow in He. unfold rental_accounts. rewrite H1, H2, H3, H4, H5, H6, H7. cbn. unfold some_or. rewrite Ht. cbn.
    rewrite Hts. cbn. rewrite Hr. cbn. rewrite Z.eqb_refl. cbn. rewrite bool_decide_true by done. cbn. rewrite <- Hm, Z.eqb_refl. cbn.
    rewrite He. cbn. rewrite (proj2 (token_of_ok _ _ _ _) (conj E1 M1)). cbn. rewrite (proj2 (token_of_ok _ _ _ _) (conj E2 M2)). cbn.
    rewrite O2, Z.eqb_refl. cbn. rewrite (proj2 (token_of_ok _ _ _ _) (conj E3 M3)). cbn. rewrite <- Hf, Z.eqb_refl. cbn. by destruct x.
Qed.

(** Replacing one rental keeps the rest of the invariant. *)
Lemma solvent_update st t' k r r' e n : solvent st -> rentals st !! k = Some r -> escrow_of k = Some e ->
  spends e n (tokens st) t' -> rental_ok r' ->
  covered {| tokens := t'; global := global st; templates := templates st; rentals := <[k := r']> (rentals st) |} k r' ->
  solvent {| tokens := t'; global := global st; templates := templates st; rentals := <[k := r']> (rentals st) |}.
Proof.
  intros Hs Hr He Ht Hok Hcov. split; cbn.
  - intros k' r1 [[<- <-]|[_ H]]%lookup_insert_Some; [done|]. by eapply sv_ok.
  - intros k' r1 [[<- <-]|[Hne H]]%lookup_insert_Some; [done|]. eapply covered_spends; [done|by eapply sv_covered|exact Ht|].
    intros He'. apply Hne. by eapply (sv_distinct st Hs).
  - intros k1 k2 r1 r2 e' H1 H2. apply lookup_insert_Some in H1 as [[<- <-]|[N1 H1]], H2 as [[<- <-]|[N2 H2]]; try done;
      by eapply (sv_distinct st Hs).
Qed.

Lemma u64_ok n m : u64 n = Ok m -> m = n /\ 0 <= n < 2 ^ 64.
Proof. unfold u64. intros H. ok_inv. lia. Qed.

Lemma shares_ok g tm n s : shares g tm n = Ok s ->
  0 <= s.1 /\ 0 <= s.2 /\ s.1 = n * royalty_bps tm / 10000 /\ s.2 = n * platform_fee_bps g / 10000.
Proof. intros H. unfold shares in H. ok_inv. cbn. repeat match goal with H : share _ _ = Ok _ |- _ => apply share_bounds in H as [? ->] end. done. Qed.

(** A claim that succeeds: the accounts, what it divides and the shares it pays. *)
Lemma claim_inv now c st st' : claim_rental_revenue find_program_address program_id now c st = Ok st' ->
  exists x n s t', rental_accounts find_program_address program_id c st = Ok x /\ claimable_at (x_rental x) now = Ok n /\
    shares (global st) (x_template x) n = Ok s /\ s.1 + s.2 <= n /\ pay_shares x s.1 s.2 (tokens st) = Ok t' /\
    st' = {| tokens := t'; global := global st; templates := templates st;
             rentals := <[x_rental_key x := with_claims (x_rental x) (claimed_author (x_rental x) + s.1)
                                              (claimed_platform (x_rental x) + s.2)]> (rentals st) |}.
Proof.
  intros H. unfold claim_rental_revenue in H. ok_inv. repeat match goal with H : u64 _ = Ok _ |- _ => apply u64_ok in H as [-> ?] end.
  do 4 eexists. split_and!; try done. lia.
Qed.

Lemma claimable_ok r now n : claimable_at r now = Ok n -> n = accrued_at r now - already_claimed r /\ 0 < n < 2 ^ 64 /\ start_time r < now.
Proof. intros H. unfold claimable_at in H. ok_inv. apply u64_ok in H as [-> ?]. split_and!; try done; lia. Qed.

Lemma claimable_run r now : start_time r < now -> 0 < accrued_at r now - already_claimed r < 2 ^ 64 ->
  claimable_at r now = Ok (accrued_at r now - already_claimed r).
Proof.
  intros Hs Hn. unfold claimable_at, check, u64. rewrite (proj2 (Z.ltb_lt _ _) Hs). cbn.
  rewrite (proj2 (Z.leb_le 0 _)) by lia. cbn. rewrite (proj2 (Z.eqb_neq _ _)) by lia. cbn.
  by rewrite (proj2 (Z.ltb_lt _ _)) by lia.
Qed.

Lemma accrued_le r now : rental_ok r -> accrued_at r now <= prepaid_amount r.
Proof. intros [_ Ht Hd -> _ _]. unfold accrued_at. nia. Qed.

Lemma claim_solvent now c st st' : solvent st -> claim_rental_revenue find_program_address program_id now c st = Ok st' -> solvent st'.
Proof.
  intros Hs (x & n & s & t' & Hx & Hn & Hsh & Hle & Hp & ->)%claim_inv. apply rental_accounts_ok in Hx as [_ _ _ _ _ _ _ _ _ Hr Hact Hm He _ _ _ _].
  apply shares_ok in Hsh as (S1 & S2 & _). apply claimable_ok in Hn as (-> & Hn & _). pose proof (sv_ok _ Hs _ _ Hr) as Hok.
  pose proof (accrued_le _ now Hok) as Hacc. apply pay_spends in Hp; [|done..].
  assert (Hok' : rental_ok (with_claims (x_rental x) (claimed_author (x_rental x) + s.1) (claimed_platform (x_rental x) + s.2))).
  { destruct Hok as [[? ?] ? ? ? ? ?]. split; cbn; try done; unfold already_claimed in *; cbn; lia. }
  eapply solvent_update; [done..|exact Hp|exact Hok'|].
  destruct (sv_covered _ Hs _ _ Hr) as (e & a & He' & Ha & Ho & Hma & Hc). rewrite He in He'. injection He' as <-.
  destruct (Hp _ _ Ha) as (a' & Ha' & Hm' & Ho' & Hl). rewrite bool_decide_true in Hl by done. specialize (Hc Hact).
  exists (x_escrow x), a'. split_and!; cbn; [done..|congruence|congruence|]. intros _. unfold already_claimed in *. cbn. lia.
Qed.

Lemma close_solvent now c st st' : solvent st -> close_rental find_program_address program_id now c st = Ok st' -> solvent st'.
Proof.
  intros Hs H. unfold close_rental in H. ok_inv.
  match goal with H : rental_accounts _ _ _ _ = Ok ?y |- _ => rename H into Hx; rename y into x end.
  apply rental_accounts_ok in Hx as [_ _ _ _ _ _ _ _ _ Hr Hact Hm He _ _ _ _]. pose proof (sv_ok _ Hs _ _ Hr) as Hok.
  match goal with H : (if _ then _ else Ok _) = Ok ?y |- _ => rename H into Hp; rename y into t1 end.
  match goal with H : transfer_some _ _ _ _ _ _ t1 = Ok ?y |- _ => rename H into Hq; rename y into t2 end.
  assert (P1 : exists n, spends (x_escrow x) n (tokens st) t1).
  { destruct (0 <? _); [|injection Hp as <-; exists 0; by apply spends_refl]. ok_inv.
    match goal with H : shares _ _ _ = Ok ?s |- _ => apply shares_ok in H as (S1 & S2 & _); exists (s.1 + s.2) end. by eapply pay_spends. }
  assert (P2 : exists n, spends (x_escrow x) n t1 t2).
  { unfold transfer_some in Hq. destruct (0 <? ta_amount _) eqn:E0; [|injection Hq as <-; exists 0; by apply spends_refl].
    eexists. eapply transfer_spends; [|exact Hq]. lia. }
  destruct P1 as [n1 P1], P2 as [n2 P2]. pose proof (spends_trans _ _ _ _ _ _ P1 P2) as P.
  destruct (sv_covered _ Hs _ _ Hr) as (e & a & He' & Ha & Ho & Hma & Hc). rewrite He in He'. injection He' as <-.
  destruct (P _ _ Ha) as (a' & Ha' & Hm' & Ho' & _).
  eapply solvent_update; [done..|exact P| |].
  - destruct Hok. by split.
  - exists (x_escrow x), a'. split_and!; cbn; [done..|congruence|congruence|]. by repeat case_match.
Qed.

Lemma prepaid_ok g tm d p : - 2 ^ 63 <= d < 2 ^ 63 -> prepaid_of g tm d = Ok p ->
  0 <= d /\ 0 < rent_price_per_sec tm /\ p = rent_price_per_sec tm * d /\ p < 2 ^ 64 /\ paused g = false /\ t_status tm = Published /\
  min_rent_duration tm <= d <= max_rent_duration tm.
Proof.
  intros Hd H. unfold prepaid_of in H. ok_inv. apply u64_ok in H as [-> Hp].
  repeat match goal with H : bool_decide _ = true |- _ => apply bool_decide_eq_true in H | H : negb _ = true |- _ => apply negb_true_iff in H end.
  assert (0 <= d).
  { destruct (Z.lt_ge_cases d 0) as [Hn|]; [|done]. rewrite <- (Z_mod_plus_full d 1 (2 ^ 128)), Z.mod_small in Hp by lia. nia. }
  rewrite Z.mod_small in * by lia. split_and!; lia || done.
Qed.

(** A rental that was opened: the escrow made for it and the transfer into it. *)
Lemma open_inv now c d nonce st st' : open_rental find_program_address program_id now c d nonce st = Ok st' ->
  exists tk rk e m from payer tp tm p t1 t2,
    account_of c "renter" = Ok payer /\ rentals st !! rk = None /\ escrow_of rk = Some e /\ m = rent_escrow_mint (global st) /\
    initialize_account tp e m e (tokens st) = Ok t1 /\ prepaid_of (global st) tm d = Ok p /\
    transfer_checked tp from m e payer p t1 = Ok t2 /\
    st' = {| tokens := t2; global := global st; templates := templates st;
             rentals := <[rk := {| template := tk; renter := payer; start_time := now; end_time := now + d; prepaid_amount := p;
                                   drip_rate_per_sec := rent_price_per_sec tm; claimed_author := 0; claimed_platform := 0;
                                   r_status := Active |}]> (rentals st) |}.
Proof.
  intros H. unfold open_rental, at_seeds, token_of in H. ok_inv.
  repeat match goal with
  | H : bool_decide _ = true |- _ => apply bool_decide_eq_true in H
  | H : (_ =? _) = true |- _ => apply Z.eqb_eq in H; subst
  end.
  do 11 eexists. split_and!; try done. unfold escrow_of.
  match goal with H : rentalEscrowPda _ _ _ = Ok _ |- _ => by rewrite H end.
Qed.

Lemma open_unused now c d nonce st st' k : open_rental find_program_address program_id now c d nonce st = Ok st' ->
  account_of c "rental" = Ok k -> rentals st !! k = None.
Proof. intros H Hk. unfold open_rental in H. rewrite Hk in H. ok_inv. by eapply bool_decide_eq_true. Qed.

Lemma open_solvent now c d nonce st st' : solvent st -> - 2 ^ 63 <= d < 2 ^ 63 ->
  (forall k e, escrow_of k = Some e -> account_of c "renter" <> Ok e) ->
  open_rental find_program_address program_id now c d nonce st = Ok st' -> solvent st'.
Proof.
  intros Hs Hd Hsig (tk & rk & e & m & from & payer & tp & tm & p & t1 & t2 & Hpay & Hfresh & He & Hm & Hi & Hp & Ht & ->)%open_inv.
  apply prepaid_ok in Hp as (Hd0 & Hrate & -> & Hw & _); [|done]. destruct (initialize_creates _ _ _ _ _ _ Hi) as (Hnew & Hesc & Hold & _).
  pose proof (fun a => transfer_authority _ _ _ _ _ _ _ _ a Ht) as Hauth.
  assert (Hne : from <> e) by (intros ->; apply Hauth in Hesc; [subst payer; by apply (Hsig _ _ He)|done]).
  pose proof (transfer_moves _ _ _ _ _ _ _ _ Ht Hne) as (a & b & Ha & Hb & _ & Ha' & Hb' & Hk).
  rewrite Hesc in Hb. injection Hb as <-.
  assert (Hother : forall k r, rentals st !! k = Some r -> escrow_of k <> Some e).
  { intros k r Hr Hke. destruct (sv_covered _ Hs _ _ Hr) as (e' & x & He' & Hx & _). congruence. }
  split; cbn.
  - intros k r [[<- <-]|[_ H]]%lookup_insert_Some; [|by eapply sv_ok]. split; cbn; unfold already_claimed; cbn; try lia; nia.
  - intros k r [[<- <-]|[_ H]]%lookup_insert_Some.
    + eexists _, _. split_and!; [done|exact Hb'|done..|]. intros _. unfold already_claimed. cbn. lia.
    + destruct (sv_covered _ Hs _ _ H) as (e' & x & He' & Hx & Ho & Hmx & Hc). specialize (Hother _ _ H).
      assert (e' <> e) by congruence. rewrite <- (Hold e') in Hx by done.
      assert (e' <> from) by (intros ->; rewrite (Hauth x Hx Ho) in Hpay; by apply (Hsig _ _ He')).
      exists e', x. cbn. rewrite (Hk e') by done. by split_and!.
  - intros k1 k2 r1 r2 e'. intros [[<- _]|[_ H1]]%lookup_insert_Some [[<- _]|[_ H2]]%lookup_insert_Some E1 E2; [done|..].
    + exfalso. rewrite He in E1. injection E1 as <-. by eapply Hother.
    + exfalso. rewrite He in E2. injection E2 as <-. by eapply Hother.
    + by eapply (sv_distinct st Hs).
Qed.

Lemma step_solvent st st' : solvent st -> rental_step st st' -> solvent st'.
Proof.
  intros Hs Hst. revert Hs. destruct Hst as [now c st1 st2 Hsig H|st1 t' Ht|st1 g' ts' Hg]; intros Hs.
  - unfold process_rental in H. repeat case_match; try done.
    + ok_inv. eapply open_solvent; [exact Hs| |exact Hsig|exact H]. lia.
    + by eapply claim_solvent.
    + by eapply close_solvent.
  - split; cbn; [by apply sv_ok| |by apply sv_distinct]. intros k r Hr.
    destruct (sv_covered _ Hs _ _ Hr) as (e & a & He & Ha & Ho & Hm & Hc). destruct (Ht e a Ha) as (a' & Ha' & Hm' & Ho' & Hl).
    specialize (Hl Ho). exists e, a'. cbn. split_and!; [done..|congruence|congruence|]. intros Hact. specialize (Hc Hact). lia.
  - split; cbn; [by apply sv_ok| |by apply sv_distinct]. intros k r Hr.
    destruct (sv_covered _ Hs _ _ Hr) as (e & a & He & Ha & Ho & Hm & Hc). exists e, a. cbn. split_and!; try done. congruence.
Qed.

Lemma reachable_solvent st0 st : rentals st0 = ∅ -> rtc rental_step st0 st -> solvent st.
Proof.
  intros H0 H. assert (Hs : solvent st0) by (split; intros ? ? *; rewrite H0, lookup_empty; done).
  clear H0. induction H as [|s1 s2 s3 H12 _ IH]; [done|]. apply IH. by eapply step_solvent.
Qed.

(** ** Claims *)

Lemma transfer_upper program from mint to_ authority n t t' k a' : 0 <= n ->
  transfer_checked program from mint to_ authority n t = Ok t' -> token_at t' k = Some a' ->
  exists a, token_at t k = Some a /\ ta_amount a' <= ta_amount a + n.
Proof.
  intros Hn H Ha'. destruct (decide (from = to_)) as [<-|Hne].
  { exists a'. rewrite (transfer_self _ _ _ _ _ _ _ k H) in Ha'. split; [done|lia]. }
  destruct (transfer_moves _ _ _ _ _ _ _ _ H Hne) as (b & c & Hb & Hc & Hle & Hb' & Hc' & Hk).
  destruct (decide (k = from)) as [->|Hf]; [|destruct (decide (k = to_)) as [->|Ht]].
  - exists b. rewrite Hb' in Ha'. injection Ha' as <-. cbn. split; [done|lia].
  - exists c. rewrite Hc' in Ha'. injection Ha' as <-. cbn. split; [done|lia].
  - exists a'. rewrite Hk in Ha' by done. split; [done|lia].
Qed.

(** [k] can take [n] more. *)
Definition room (t : T) (k : pubkey) (n : Z) : Prop := forall a, token_at t k = Some a -> ta_amount a + n < 2 ^ 64.

Lemma room_transfer program from mint to_ authority n m t t' k : 0 <= n ->
  transfer_checked program from mint to_ authority n t = Ok t' -> room t k (n + m) -> room t' k m.
Proof. intros Hn H Hr a' Ha'. destruct (transfer_upper _ _ _ _ _ _ _ _ _ _ Hn H Ha') as (a & Ha & Hle). specialize (Hr a Ha). lia. Qed.

(** One payment out of an escrow. *)
Lemma transfer_some_ok program from mint to_ n m t a : 0 <= n -> 0 <= m ->
  mint_program t mint = Some program -> token_at t from = Some a -> ta_mint a = mint -> ta_owner a = from -> n + m <= ta_amount a ->
  holds_mint t to_ mint (fun _ => True) -> room t to_ n ->
  exists t', transfer_some program from mint to_ from n t = Ok t' /\ mint_program t' mint = Some program /\
    (forall k j, room t k (n + j) -> room t' k j) /\ spends from n t t' /\
    (to_ <> from -> exists a', token_at t' from = Some a' /\ ta_amount a' = ta_amount a - n) /\
    (to_ <> from -> forall k b, k <> from -> token_at t k = Some b ->
       exists b', token_at t' k = Some b' /\ ta_amount b' = ta_amount b + (if bool_decide (k = to_) then n else 0)).
Proof.
  intros Hn Hm Hp Ha Hma Ho Hle (b & Hb & Hmb & _) Hr. unfold transfer_some. destruct (0 <? n) eqn:E.
  - assert (Hok : is_ok (transfer_checked program from mint to_ from n t) = true) by (eapply transfer_succeeds; eauto; lia).
    destruct (transfer_checked _ _ _ _ _ _ _) as [t'|] eqn:Ht; [|done]. exists t'. split_and!; [done| | | | |].
    + by rewrite (transfer_mints _ _ _ _ _ _ _ _ _ Ht).
    + intros k j. by eapply room_transfer.
    + by eapply transfer_spends.
    + intros Hne. destruct (transfer_moves _ _ _ _ _ _ _ _ Ht (not_eq_sym Hne)) as (a1 & b1 & Ha1 & _ & _ & Ha1' & _).
      eexists. split; [exact Ha1'|]. cbn. congruence.
    + intros Hne k bk Hkf Hbk. destruct (transfer_moves _ _ _ _ _ _ _ _ Ht (not_eq_sym Hne)) as (a1 & b1 & _ & Hb1 & _ & _ & Hb1' & Hk).
      destruct (decide (k = to_)) as [->|Hkt].
      * eexists. split; [exact Hb1'|]. rewrite bool_decide_true by done. cbn. congruence.
      * exists bk. rewrite Hk by done. split; [done|]. rewrite bool_decide_false by done. lia.
  - assert (n = 0) as -> by lia. exists t. split_and!; [done..| | |].
    + by apply spends_refl.
    + intros _. exists a. split; [done|lia].
    + intros _ k bk _ Hbk. exists bk. split; [done|]. case_bool_decide; lia.
Qed.

(** Everything a claim needs: its accounts, room in the recipients', and amounts that
    fit the program's arithmetic. *)
Record claim_ready (now : Z) (c : call) (st : chain T) (x : rental_ctx) (n : Z) : Prop := {
  cr_accounts : accounts_ok c st x;
  cr_solvent : solvent st;
  cr_program : mint_program (tokens st) (x_mint x) = Some (x_token_program x);
  cr_claimable : claimable_at (x_rental x) now = Ok n;
  cr_royalty : 0 <= royalty_bps (x_template x);
  cr_fee : 0 <= platform_fee_bps (global st);
  cr_sum : royalty_bps (x_template x) + platform_fee_bps (global st) <= 10000;
  cr_width : n * 10000 < 2 ^ 64;
  cr_room_a : room (tokens st) (x_author_token_account x) n;
  cr_room_f : room (tokens st) (x_fee_collector_token_account x) n;
}.

Lemma holds_spends t t' k mint P from n : spends from n t t' -> (forall a b, ta_owner a = ta_owner b -> P a -> P b) ->
  holds_mint t k mint P -> holds_mint t' k mint P.
Proof.
  intros Hs HP (a & Ha & Hm & Hp). destruct (Hs k a Ha) as (a' & Ha' & Hm' & Ho' & _). exists a'. split_and!; [done|congruence|].
  by apply (HP a).
Qed.

(** Two shares of an accrual, out of an escrow that holds it. *)
Lemma pay_shares_ok c st x n s : accounts_ok c st x -> solvent st ->
  mint_program (tokens st) (x_mint x) = Some (x_token_program x) ->
  0 <= s.1 -> 0 <= s.2 -> s.1 + s.2 <= n -> n <= prepaid_amount (x_rental x) - already_claimed (x_rental x) ->
  room (tokens st) (x_author_token_account x) n -> room (tokens st) (x_fee_collector_token_account x) n ->
  exists t', pay_shares x s.1 s.2 (tokens st) = Ok t' /\ spends (x_escrow x) (s.1 + s.2) (tokens st) t' /\
    mint_program t' (x_mint x) = Some (x_token_program x) /\
    (forall k j, room (tokens st) k (s.1 + s.2 + j) -> room t' k j) /\
    (x_author_token_account x <> x_escrow x -> x_fee_collector_token_account x <> x_escrow x ->
       forall e, token_at (tokens st) (x_escrow x) = Some e ->
       exists e', token_at t' (x_escrow x) = Some e' /\ ta_amount e' = ta_amount e - (s.1 + s.2)) /\
    (x_author_token_account x <> x_escrow x -> x_fee_collector_token_account x <> x_escrow x -> forall k b,
       k <> x_escrow x -> token_at (tokens st) k = Some b -> exists b', token_at t' k = Some b' /\
         ta_amount b' = ta_amount b + (if bool_decide (k = x_author_token_account x) then s.1 else 0) +
                                      (if bool_decide (k = x_fee_collector_token_account x) then s.2 else 0)).
Proof.
  intros Hx Hs Hp H1 H2 Hle Hn Ra Rf. destruct Hx as [_ _ _ _ _ _ _ _ _ Hr Hact Hm He _ Ha Hf _].
  destruct (sv_covered _ Hs _ _ Hr) as (e & a & He' & Hea & Ho & Hma & Hc). rewrite He in He'. injection He' as <-. specialize (Hc Hact).
  unfold pay_shares.
  destruct (transfer_some_ok (x_token_program x) (x_escrow x) (x_mint x) (x_author_token_account x) s.1 s.2 (tokens st) a)
    as (t1 & E1 & P1 & Rt1 & Sp1 & Ex1 & Am1); try done; [congruence|lia| |intros b Hb; specialize (Ra b Hb); lia|].
  { destruct Ha as (b & ? & ? & _). by exists b. }
  rewrite E1. cbn. destruct (Sp1 _ _ Hea) as (a1 & Ha1 & Hm1 & Ho1 & L1). rewrite bool_decide_true in L1 by done.
  destruct (transfer_some_ok (x_token_program x) (x_escrow x) (x_mint x) (x_fee_collector_token_account x) s.2 0 t1 a1)
    as (t2 & E2 & P2 & Rt2 & Sp2 & Ex2 & Am2); try done; [congruence|congruence|lia| | |].
  { by eapply holds_spends. }
  { apply Rt1. intros b Hb. specialize (Rf b Hb). lia. }
  exists t2. split_and!; [done| |done| | |].
  - by eapply spends_trans.
  - intros k j Hk. apply Rt2, Rt1. by rewrite Z.add_assoc.
  - intros Na Nf e He2. destruct (Ex2 Nf) as (e2 & He' & E). destruct (Ex1 Na) as (e1 & Hx1 & E1'). exists e2. split; [done|].
    assert (a = e) by congruence. assert (a1 = e1) by congruence. subst. lia.
  - intros Na Nf k b Hk Hb. destruct (Am1 Na k b Hk Hb) as (b1 & Hb1 & E1'). destruct (Am2 Nf k b1 Hk Hb1) as (b2 & Hb2 & E).
    exists b2. split; [done|]. lia.
Qed.

Lemma shares_run g tm n : 0 <= n -> 0 <= royalty_bps tm -> 0 <= platform_fee_bps g -> royalty_bps tm + platform_fee_bps g <= 10000 ->
  n * 10000 < 2 ^ 64 ->
  exists s, shares g tm n = Ok s /\ 0 <= s.1 /\ 0 <= s.2 /\ s.1 + s.2 <= n /\
    s.1 = n * royalty_bps tm / 10000 /\ s.2 = n * platform_fee_bps g / 10000.
Proof.
  intros Hn Hr Hf Hsum Hw. exists (n * royalty_bps tm / 10000, n * platform_fee_bps g / 10000). cbn.
  assert (Hu : forall b, 0 <= b <= 10000 -> share n b = Ok (n * b / 10000)).
  { intros b Hb. unfold share, u64. rewrite (proj2 (andb_true_iff _ _)); [done|]. nia. }
  unfold shares. rewrite !Hu by lia. cbn. split_and!; try done; try (apply Z.div_pos; nia).
  pose proof (Z.mul_div_le (n * royalty_bps tm) 10000 ltac:(lia)). pose proof (Z.mul_div_le (n * platform_fee_bps g) 10000 ltac:(lia)). nia.
Qed.

(** A claim that is ready succeeds, and leaves the rest claimable. *)
Lemma claim_ok now c st x n : claim_ready now c st x n ->
  exists st' x' s, claim_rental_revenue find_program_address program_id now c st = Ok st' /\
    s.1 = n * royalty_bps (x_template x) / 10000 /\ s.2 = n * platform_fee_bps (global st) / 10000 /\
    0 <= s.1 /\ 0 <= s.2 /\ s.1 + s.2 <= n /\
    rentals st' !! x_rental_key x = Some (x_rental x') /\
    x_rental x' = with_claims (x_rental x) (claimed_author (x_rental x) + s.1) (claimed_platform (x_rental x) + s.2) /\
    x_template x' = x_template x /\ x_rental_key x' = x_rental_key x /\ x_escrow x' = x_escrow x /\ global st' = global st /\
    x_author_token_account x' = x_author_token_account x /\ x_fee_collector_token_account x' = x_fee_collector_token_account x /\
    (s.1 + s.2 < n -> claim_ready now c st' x' (n - (s.1 + s.2))) /\
    (x_author_token_account x <> x_escrow x -> x_fee_collector_token_account x <> x_escrow x ->
       x_author_token_account x <> x_fee_collector_token_account x ->
       forall b, token_at (tokens st) (x_author_token_account x) = Some b ->
       exists b', token_at (tokens st') (x_author_token_account x) = Some b' /\ ta_amount b' = ta_amount b + s.1).
Proof.
  intros [Hx Hs Hp Hc Hr Hf Hsum Hw Ra Rf]. destruct (claimable_ok _ _ _ Hc) as (En & Hn & Hst).
  destruct (shares_run (global st) (x_template x) n) as (s & Es & S1 & S2 & Sle & E1 & E2); [lia|done..|].
  pose proof (sv_ok _ Hs _ _ (ao_r _ _ _ Hx)) as Hok. pose proof (accrued_le _ now Hok) as Hacc.
  destruct (pay_shares_ok c st x n s) as (t' & Et & Sp & P' & Rt & _ & Am); try done; [lia|].
  set (r' := with_claims (x_rental x) (claimed_author (x_rental x) + s.1) (claimed_platform (x_rental x) + s.2)).
  set (x' := {| x_rental_key := x_rental_key x; x_rental := r'; x_template := x_template x; x_mint := x_mint x; x_escrow := x_escrow x;
                x_author_token_account := x_author_token_account x; x_fee_collector_token_account := x_fee_collector_token_account x;
                x_token_program := x_token_program x |}).
  set (st' := {| tokens := t'; global := global st; templates := templates st; rentals := <[x_rental_key x := r']> (rentals st) |}).
  assert (Hrun : claim_rental_revenue find_program_address program_id now c st = Ok st').
  { assert (Hfit : forall k, 0 <= k <= prepaid_amount (x_rental x) -> prepaid_amount (x_rental x) < 2 ^ 64 -> u64 k = Ok k).
    { intros k ? ?. unfold u64. rewrite (proj2 (andb_true_iff _ _)); [done|]. lia. }
    destruct Hok as [[? ?] ? ? ? Hcl ?]. unfold already_claimed in *.
    unfold claim_rental_revenue. rewrite (proj2 (rental_accounts_ok _ _ _) Hx). cbn. rewrite Hc. cbn. rewrite Es. cbn.
    rewrite Hfit by lia. cbn. rewrite Et. cbn. rewrite Hfit by lia. cbn. rewrite Hfit by lia. done. }
  exists st', x', s. split_and!; try done.
  - unfold st'. cbn. by rewrite lookup_insert_eq.
  - intros Hlt. split; cbn; try done.
    + destruct Hx. split; cbn; try done; try (eapply holds_spends; [exact Sp| |eassumption]; intros; done || congruence).
      by rewrite lookup_insert_eq.
    + by eapply claim_solvent.
    + replace (n - (s.1 + s.2)) with (accrued_at r' now - already_claimed r')
        by (unfold accrued_at, already_claimed in *; cbn in *; lia).
      apply claimable_run; unfold accrued_at, already_claimed in *; cbn in *; lia.
    + lia.
    + apply Rt. by rewrite Zplus_minus.
    + apply Rt. by rewrite Zplus_minus.
  - intros Na Nf Naf b Hb. destruct (Am Na Nf _ b Na Hb) as (b' & Hb' & E). exists b'. split; [done|].
    rewrite bool_decide_true, bool_decide_false in E by done. lia.
Qed.

(** One after the other, at one moment. *)
Definition claims (now : Z) (c : call) : chain T -> chain T -> Prop :=
  rtc (fun st st' => claim_rental_revenue find_program_address program_id now c st = Ok st').

Lemma claims_leave_little now c st x n : claim_ready now c st x n ->
  exists st' r', claims now c st st' /\ rentals st' !! x_rental_key x = Some r' /\
    accrued_at r' now = accrued_at (x_rental x) now /\
    let rest := accrued_at (x_rental x) now - already_claimed r' in
    0 <= rest /\ rest * royalty_bps (x_template x) < 10000 /\ rest * platform_fee_bps (global st) < 10000 /\
    (x_author_token_account x <> x_escrow x -> x_fee_collector_token_account x <> x_escrow x ->
       x_author_token_account x <> x_fee_collector_token_account x ->
       forall b, token_at (tokens st) (x_author_token_account x) = Some b ->
       exists b', token_at (tokens st') (x_author_token_account x) = Some b' /\
         ta_amount b' = ta_amount b + (claimed_author r' - claimed_author (x_rental x))).
Proof.
  revert st x. induction n as [n IH] using (well_founded_induction (Z.lt_wf 0)). intros st x Hready.
  destruct (claim_ok _ _ _ _ _ Hready) as (st' & x' & s & Hrun & E1 & E2 & S1 & S2 & Sle & Hr' & Ex' & Et' & Ek & Ee & Eg & Eaa & Ef & Hnext & Ham).
  destruct (claimable_ok _ _ _ (cr_claimable _ _ _ _ _ Hready)) as (En & Hn & _).
  assert (Ha : accrued_at (x_rental x') now = accrued_at (x_rental x) now) by by rewrite Ex'.
  assert (Hcl : already_claimed (x_rental x') = already_claimed (x_rental x) + (s.1 + s.2)) by (rewrite Ex'; unfold already_claimed; cbn; lia).
  destruct (decide (s.1 + s.2 = 0)) as [Hz|Hnz].
  - exists st, (x_rental x). cbn. split_and!; try done.
    + apply Hready.
    + lia.
    + rewrite <- En. assert (s.1 = 0) as Z1 by lia. rewrite Z1 in E1. symmetry in E1. apply Z.div_small_iff in E1; lia.
    + rewrite <- En. assert (s.2 = 0) as Z1 by lia. rewrite Z1 in E2. symmetry in E2. apply Z.div_small_iff in E2; lia.
    + intros _ _ _ b Hb. exists b. split; [done|lia].
  - destruct (decide (s.1 + s.2 = n)) as [Hall|Hsome].
    + exists st', (x_rental x'). cbn. split_and!; try done; try lia.
      * eapply rtc_once. exact Hrun.
      * intros Na Nf Naf b Hb. destruct (Ham Na Nf Naf b Hb) as (b' & Hb' & E). exists b'. split; [done|]. rewrite E, Ex'. cbn. lia.
    + destruct (IH (n - (s.1 + s.2)) ltac:(lia) st' x' (Hnext ltac:(lia))) as (st2 & r2 & Hc2 & Hr2 & Ha2 & H1 & H2 & H3 & H4).
      cbv zeta in *. rewrite Ek in Hr2. rewrite Ha in *. rewrite Et' in H2. rewrite Eg in H3. rewrite Ee, Eaa, Ef in H4.
      exists st2, r2. cbv zeta. split_and!; try done.
      * eapply rtc_l; [exact Hrun|exact Hc2].
      * intros Na Nf Naf b Hb. destruct (Ham Na Nf Naf b Hb) as (b1 & Hb1 & E). destruct (H4 Na Nf Naf b1 Hb1) as (b2 & Hb2 & E').
        exists b2. split; [done|]. rewrite E', E, Ex'. cbn. lia.
Qed.

(** ** Closing *)

(** A closing that succeeds. *)
Lemma rental_close_inv now c st st' : close_rental find_program_address program_id now c st = Ok st' ->
  exists x rta signer n t1 e t', accounts_ok c st x /\ account_of c "renterTokenAccount" = Ok rta /\ account_of c "signer" = Ok signer /\
    (signer = renter (x_rental x) \/ end_time (x_rental x) <= now) /\ remaining_accrual (x_rental x) now = Ok n /\
    token_at t1 (x_escrow x) = Some e /\
    transfer_some (x_token_program x) (x_escrow x) (x_mint x) rta (x_escrow x) (ta_amount e) t1 = Ok t' /\
    st' = {| tokens := t'; global := global st; templates := templates st;
             rentals := <[x_rental_key x := with_status (x_rental x)
               (if (signer =? renter (x_rental x)) && negb (end_time (x_rental x) <=? now) then Cancelled else Closed)]> (rentals st) |}.
Proof.
  intros H. unfold close_rental in H. ok_inv. apply rental_accounts_ok in H0.
  match goal with H : _ || _ = true |- _ => apply orb_prop in H; rename H into Hwho end.
  do 7 eexists. split_and!; try done. destruct Hwho as [?%Z.eqb_eq|?%Z.leb_le]; [by left|by right].
Qed.

Lemma inactive_refused c st k r : account_of c "rental" = Ok k -> rentals st !! k = Some r -> r_status r <> Active ->
  is_ok (rental_accounts find_program_address program_id c st) = false.
Proof.
  intros Hk Hr Ha. destruct (rental_accounts _ _ _ _) as [x|] eqn:E; [|done]. apply rental_accounts_ok in E as [_ Hk' _ _ _ _ _ _ _ Hr' Ha' _ _ _ _ _ _].
  congruence.
Qed.

(** A rental that is over never changes again, in whatever transactions follow. *)
Lemma over_stays st st' k r : rtc rental_step st st' -> rentals st !! k = Some r -> r_status r <> Active -> rentals st' !! k = Some r.
Proof.
  intros H. induction H as [|s1 s2 s3 Hst _ IH]; [done|]. intros Hr Ha. apply IH; [|done]. clear IH.
  destruct Hst as [now c sa sb _ H|sa t' _|sa g' ts' _]; [|done..]. unfold process_rental in H. repeat case_match; try done.
  - ok_inv. apply open_inv in H as (? & rk & ? & ? & ? & ? & ? & ? & ? & ? & ? & _ & Hfresh & _ & _ & _ & _ & _ & ->). cbn.
    rewrite lookup_insert_ne; [done|congruence].
  - apply claim_inv in H as (x & ? & ? & ? & Hx & _ & _ & _ & _ & ->). apply rental_accounts_ok in Hx. cbn.
    rewrite lookup_insert_ne; [done|]. intros <-. destruct Hx. congruence.
  - apply rental_close_inv in H as (x & ? & ? & ? & ? & ? & ? & Hx & _ & _ & _ & _ & _ & _ & ->). cbn.
    rewrite lookup_insert_ne; [done|]. intros <-. destruct Hx. congruence.
Qed.

(** The renter's account among those of a closing. *)
Record close_ready (now : Z) (c : call) (st : chain T) (x : rental_ctx) (rta signer : pubkey) (e b : token_account) : Prop := {
  dr_accounts : accounts_ok c st x;
  dr_solvent : solvent st;
  dr_program : mint_program (tokens st) (x_mint x) = Some (x_token_program x);
  dr_royalty : 0 <= royalty_bps (x_template x);
  dr_fee : 0 <= platform_fee_bps (global st);
  dr_sum : royalty_bps (x_template x) + platform_fee_bps (global st) <= 10000;
  dr_width : prepaid_amount (x_rental x) * 10000 < 2 ^ 64;
  dr_started : start_time (x_rental x) <= now;
  dr_room_a : room (tokens st) (x_author_token_account x) (prepaid_amount (x_rental x));
  dr_room_f : room (tokens st) (x_fee_collector_token_account x) (prepaid_amount (x_rental x));
  dr_renter : account_of c "renterTokenAccount" = Ok rta;
  dr_b : token_at (tokens st) rta = Some b;
  dr_b_mint : ta_mint b = x_mint x;
  dr_b_owner : ta_owner b = renter (x_rental x);
  dr_e : token_at (tokens st) (x_escrow x) = Some e;
  dr_room_b : ta_amount b + ta_amount e < 2 ^ 64;
  dr_signer : account_of c "signer" = Ok signer;
  dr_who : signer = renter (x_rental x) \/ end_time (x_rental x) <= now;
  dr_apart : x_author_token_account x <> x_escrow x /\ x_fee_collector_token_account x <> x_escrow x /\ rta <> x_escrow x /\
             rta <> x_author_token_account x /\ rta <> x_fee_collector_token_account x;
}.

(** What is left of the accrual at the end, and the shares paid of it. *)
Definition final_accrual (r : TemplateRental) (now : Z) : Z := Z.max 0 (accrued_at r now - already_claimed r).

Lemma remaining_run r now : rental_ok r -> start_time r <= now -> remaining_accrual r now = Ok (final_accrual r now).
Proof.
  intros Hok Hs. pose proof (accrued_le r now Hok) as Hle. destruct Hok as [[? ?] Ht Hd Hp Hcl Hw].
  unfold remaining_accrual, final_accrual, accrued_at in *. destruct (Z.eq_dec (drip_rate_per_sec r) 0) as [E0|].
  - rewrite E0, !Z.mul_0_r. unfold u64. rewrite (proj2 (andb_true_iff _ _)); [done|]. unfold already_claimed in *. lia.
  - rewrite Z.mod_small by nia. unfold u64. rewrite (proj2 (andb_true_iff _ _)); [done|]. unfold already_claimed in *. lia.
Qed.

Definition author_share (st : chain T) (x : rental_ctx) (now : Z) : Z := final_accrual (x_rental x) now * royalty_bps (x_template x) / 10000.
Definition platform_share (st : chain T) (x : rental_ctx) (now : Z) : Z := final_accrual (x_rental x) now * platform_fee_bps (global st) / 10000.

(** [n] when the accounts are the same. *)
Definition if_at (k k' : pubkey) (n : Z) : Z := if bool_decide (k = k') then n else 0.

(** The escrow is emptied: the author's and the platform's account get their shares,
    [rta] the rest, no other account is touched. *)
Definition settled (st : chain T) (x : rental_ctx) (now : Z) (rta : pubkey) (e : token_account) (t' : T) : Prop :=
  (exists e', token_at t' (x_escrow x) = Some e' /\ ta_amount e' = 0) /\
  forall k a, k <> x_escrow x -> token_at (tokens st) k = Some a -> exists a', token_at t' k = Some a' /\
    ta_amount a' = ta_amount a + if_at k (x_author_token_account x) (author_share st x now)
                               + if_at k (x_fee_collector_token_account x) (platform_share st x now)
                               + if_at k rta (ta_amount e - author_share st x now - platform_share st x now).

(** A closing that is ready succeeds: the shares of what is left of the accrual are
    paid, and the renter gets the rest of the escrow. *)
Lemma close_ok now c st x rta signer e b : close_ready now c st x rta signer e b ->
  exists st', close_rental find_program_address program_id now c st = Ok st' /\ settled st x now rta e (tokens st').
Proof.
  intros [Hx Hs Hp Hr Hf Hsum Hw Hst Ra Rf Hrta Hb Hbm Hbo He Rb Hsig Hwho (Na & Nf & Nr & Nra & Nrf)].
  pose proof (sv_ok _ Hs _ _ (ao_r _ _ _ Hx)) as Hok. pose proof (accrued_le _ now Hok) as Hacc.
  set (n := final_accrual (x_rental x) now) in *.
  assert (Hn : 0 <= n <= prepaid_amount (x_rental x) - already_claimed (x_rental x)).
  { destruct Hok as [[? ?] ? ? ? ? ?]. unfold n, final_accrual, already_claimed in *. lia. }
  assert (Hpre : n <= prepaid_amount (x_rental x)) by (destruct Hok as [[? ?] ? ? ? ? ?]; unfold already_claimed in *; lia).
  destruct (shares_run (global st) (x_template x) n) as (s & Es & S1 & S2 & Sle & E1 & E2); [lia|done..|lia|].
  destruct (pay_shares_ok c st x n s) as (t1 & Et & Sp & P1 & Rt & Ex & Am); try done; [lia|intros a Ha; specialize (Ra a Ha); lia|
    intros a Ha; specialize (Rf a Ha); lia|].
  destruct (Ex Na Nf e He) as (e1 & He1 & Ee1). destruct (Sp _ _ He) as (e1' & He1' & Hm1 & Ho1 & _).
  assert (e1' = e1) by congruence. subst e1'. destruct (Am Na Nf rta b Nr Hb) as (b1 & Hb1 & Eb1).
  rewrite !bool_decide_false in Eb1 by done. destruct (Sp _ _ Hb) as (b1' & Hb1' & Hm1b & Ho1b & _). assert (b1' = b1) by congruence. subst b1'.
  destruct (sv_covered _ Hs _ _ (ao_r _ _ _ Hx)) as (k & a & Hk & Hka & Hko & Hkm & Hc). rewrite (ao_e_seeds _ _ _ Hx) in Hk. injection Hk as <-.
  assert (a = e) by congruence. subst a. specialize (Hc (ao_active _ _ _ Hx)).
  destruct (transfer_some_ok (x_token_program x) (x_escrow x) (x_mint x) rta (ta_amount e1) 0 t1 e1)
    as (t2 & E3 & _ & _ & _ & Ex2 & Am2); [lia|lia|done|done|rewrite Hm1, Hkm; symmetry; apply Hx|congruence|lia| | |].
  { exists b1. split_and!; [done|congruence|done]. }
  { intros y Hy. assert (y = b1) by congruence. subst y. lia. }
  assert (Hset : settled st x now rta e t2).
  { unfold settled, author_share, platform_share. fold n. rewrite <- E1, <- E2. split.
    - destruct (Ex2 Nr) as (e2 & He2 & Ee2). exists e2. split; [exact He2|lia].
    - intros k a' Hke Hk. destruct (Am Na Nf k a' Hke Hk) as (k1 & Hk1 & Ek1). destruct (Am2 Nr k k1 Hke Hk1) as (k2 & Hk2 & Ek2).
      exists k2. split; [exact Hk2|]. rewrite Ek2, Ek1, Ee1. unfold if_at. by repeat case_bool_decide; lia. }
  assert (Hpay : (if 0 <? n then let! s := shares (global st) (x_template x) n in pay_shares x s.1 s.2 (tokens st) else Ok (tokens st)) = Ok t1).
  { destruct (Z.ltb_spec 0 n) as [|Hz]; [by rewrite Es|]. assert (n = 0) as Z0 by lia. rewrite Z0 in *. cbn in E1, E2.
    revert Et. unfold pay_shares, transfer_some. rewrite E1, E2. done. }
  exists {| tokens := t2; global := global st; templates := templates st;
            rentals := <[x_rental_key x := with_status (x_rental x)
              (if (signer =? renter (x_rental x)) && negb (end_time (x_rental x) <=? now) then Cancelled else Closed)]> (rentals st) |}.
  split; [|exact Hset].
  unfold close_rental. rewrite (step_ok _ _ x) by by apply rental_accounts_ok. rewrite Hrta, Hsig. cbn [result_bind].
  rewrite (step_ok _ _ b) by by apply token_of_ok. rewrite run_check by by apply Z.eqb_eq.
  rewrite run_check by (apply orb_true_iff; destruct Hwho; [left; by apply Z.eqb_eq|right; by apply Z.leb_le]).
  rewrite (step_ok _ _ n) by by apply remaining_run. rewrite (step_ok _ _ t1) by exact Hpay.
  rewrite (step_ok _ _ e1) by (unfold some_or; by rewrite He1). rewrite (step_ok _ _ t2) by exact E3. done.
Qed.
End solvency.

(** ** The rent form *)

Lemma toLowerCase_id s : all_chars hex_lower s = true -> toLowerCase s = s.
Proof.
  induction s as [|c s IH]; [done|]. cbn. intros [Hc Hs]%andb_prop. rewrite IH by done. f_equal. unfold to_lower_ascii.
  destruct (char_in 65 90 c) eqn:E; [|done]. exfalso. unfold hex_lower, char_in in *.
  apply andb_prop in E as [?%Nat.leb_le ?%Nat.leb_le]. apply orb_prop in Hc as [Hc|Hc]; apply andb_prop in Hc as [?%Nat.leb_le ?%Nat.leb_le]; lia.
Qed.

Lemma bytesFromHex_bytes l label : Forall is_byte l -> length l = 32%nat -> bytesFromHex (bytesToHex l) label = Ok l.
Proof.
  intros Hl Hn. assert (Hx : all_chars hex_lower (bytesToHex l) = true) by by apply bytesToHex_chars.
  unfold bytesFromHex. rewrite trim_id by by apply bytesToHex_chars. rewrite toLowerCase_id, Hx, bytesToHex_length, Hn by done. cbn.
  by rewrite char_pairs_hex, byte_pairs_read.
Qed.

Lemma BigInt_or_0_z n : 0 <= n -> BigInt_or_0 (z_text n) = Ok n.
Proof.
  intros Hn. unfold BigInt_or_0. destruct (String.eqb_spec (z_text n) "") as [E|]; [|by apply js_BigInt_z].
  pose proof (js_BigInt_z n Hn) as H. rewrite E in H. injection H as <-. done.
Qed.

Section form.
Context {T W : Type} `{!TokenLedger T, !TokenLaws T}.
Variable chain_of : W -> chain T.
Variable L : ui_lib.
Variable ops : ui_ops W.
Variable program : pubkey.

(** The RPC node answers from the chain, and what is sent is processed at some time. *)
Record ui_laws : Prop := {
  ul_info : forall mint w, exists data,
    ui_getAccountInfo ops mint w = Some (Ok (option_map (fun p => (p, data)) (mint_program (tokens (chain_of w)) mint)), w);
  ul_account : forall k p a w, token_at (tokens (chain_of w)) k = Some a -> mint_program (tokens (chain_of w)) (ta_mint a) = Some p ->
    getAccount ops k p w = Some (Ok (ta_amount a), w);
  ul_mint : forall m p w, mint_program (tokens (chain_of w)) m = Some p -> exists d, getMint ops m p w = Some (Ok d, w);
  ul_send : forall c w, exists now sig w', now < 2 ^ 62 /\
    send ops c w = Some (match process_rental (findProgramAddressSync L) program now c (chain_of w) with Ok _ => Ok sig | Throw e => Throw e end, w') /\
    chain_of w' = match process_rental (findProgramAddressSync L) program now c (chain_of w) with Ok st => st | Throw _ => chain_of w end;
  ul_base58 : forall k, PublicKey L (toBase58 L k) = Ok k;
}.

(** The page's copies of a template and of the registry are those on chain. *)
Record up_to_date (st : chain T) (tm : TemplateSummary) (cf : TemplateRegistryConfigSummary) (a : AgentTemplate) : Prop := {
  ud_template : templates st !! tm_address tm = Some a;
  ud_seeds : at_seeds (tm_address tm) (templatePda (findProgramAddressSync L) program (template_id a)) = Ok tt;
  ud_id : tm_templateId tm = template_id a;
  ud_id_bytes : Forall is_byte (template_id a) /\ length (template_id a) = 32%nat;
  ud_price : tm_rentPricePerSec tm = rent_price_per_sec a /\ 0 <= rent_price_per_sec a;
  ud_min : tm_minRentDuration tm = min_rent_duration a;
  ud_max : tm_maxRentDuration tm = max_rent_duration a /\ max_rent_duration a < 2 ^ 62;
  ud_status : tm_status tm = "published"%string <-> t_status a = Published;
  ud_mint : tc_rentEscrowMint cf = rent_escrow_mint (global st);
  ud_paused : tc_paused cf = paused (global st);
}.

(** The wallet's own account for the escrow's mint, with the money in it. *)
Record funded (st : chain T) (k mint prog ata : pubkey) (acct : token_account) (prepaid : Z) : Prop := {
  fd_program : mint_program (tokens st) mint = Some prog;
  fd_known : prog = TOKEN_2022 L \/ prog = TOKEN_PROGRAM_ID L;
  fd_ata : getAssociatedTokenAddressSync L mint k false prog = Ok ata;
  fd_acct : token_at (tokens st) ata = Some acct;
  fd_mint : ta_mint acct = mint;
  fd_owner : ta_owner acct = k;
  fd_amount : prepaid <= ta_amount acct < 2 ^ 64;
}.

(** The addresses of the new rental, not in use. *)
Record fresh (st : chain T) (k tk : pubkey) (nonce : list Z) (rental e : pubkey) : Prop := {
  fr_nonce : length nonce = 8%nat;
  fr_rental : exists b, rentalPda (findProgramAddressSync L) program tk k nonce = Ok (rental, b);
  fr_escrow : exists b, rentalEscrowPda (findProgramAddressSync L) program rental = Ok (e, b);
  fr_global : is_ok (templateGlobalPda (findProgramAddressSync L) program) = true;
  fr_no_rental : rentals st !! rental = None;
  fr_no_escrow : token_at (tokens st) e = None;
}.

Lemma resolve_run (H : ui_laws) w mint prog : mint_program (tokens (chain_of w)) mint = Some prog ->
  prog = TOKEN_2022 L \/ prog = TOKEN_PROGRAM_ID L ->
  resolveTokenProgram L ops mint w = Some (Ok prog, w) /\ resolveTokenProgramForMint L ops mint w = Some (Ok prog, w).
Proof.
  intros Hp Hk. unfold resolveTokenProgram, resolveTokenProgramForMint, io_bind. destruct (ul_info H mint w) as [data ->]. rewrite Hp. cbn.
  destruct (Z.eqb_spec prog (TOKEN_2022 L)) as [->|]; [done|]. destruct Hk as [?| ->]; [done|]. by rewrite Z.eqb_refl.
Qed.

Lemma balance_run (H : ui_laws) w k mint prog ata acct prepaid : funded (chain_of w) k mint prog ata acct prepaid ->
  exists d, loadTokenAccountBalance L ops mint k w =
    Some (Ok {| tb_address := ata; tb_amount := ta_amount acct; tb_decimals := d; tb_tokenProgram := prog |}, w).
Proof.
  intros [Hp Hk Ha Hacc Hm Ho _]. unfold loadTokenAccountBalance, io_bind, io_lift. rewrite (proj2 (resolve_run H w mint prog Hp Hk)), Ha.
  rewrite (ul_account H ata prog acct w Hacc) by by rewrite Hm. destruct (ul_mint H mint prog w Hp) as [d ->]. by exists d.
Qed.

(** What the form lets through. *)
Lemma enabled tm cf a st k secs : up_to_date st tm cf a ->
  disabledReason (serializeTemplate L tm) (Some (serializeTemplateRegistryConfig L cf)) (Some k) secs = Ok None ->
  paused (global st) = false /\ t_status a = Published /\ 0 < rent_price_per_sec a /\ min_rent_duration a <= secs <= max_rent_duration a.
Proof.
  intros [Ht Hs Hid _ [Hpr Hp0] Hmin [Hmax _] Hst Hm Hpa]. unfold disabledReason. cbn. rewrite Hpa.
  destruct (paused (global st)); [done|]. destruct (String.eqb_spec (tm_status tm) "published") as [E|]; [|done]. cbn.
  rewrite Hpr, BigInt_or_0_z by done. cbn. destruct (Z.leb_spec (rent_price_per_sec a) 0); [done|]. rewrite Hmin, Hmax.
  destruct (Z.ltb_spec secs (min_rent_duration a)); [done|]. destruct (Z.ltb_spec (max_rent_duration a) secs); [done|].
  intros _. split_and!; try done; by apply Hst.
Qed.

Lemma at_seeds_ok k r : at_seeds k r = Ok tt -> exists b, r = Ok (k, b).
Proof.
  unfold at_seeds, check. destruct r as [[x b]|]; cbn; [|done]. destruct (Z.eqb_spec k x) as [->|]; [|done]. intros _. by exists b.
Qed.

(** The instruction the hook builds. *)
Lemma hook_run (H : ui_laws) w tm cf a k prog ata acct prepaid secs nonce rental e :
  up_to_date (chain_of w) tm cf a -> funded (chain_of w) k (tc_rentEscrowMint cf) prog ata acct prepaid ->
  fresh (chain_of w) k (tm_address tm) nonce rental e ->
  exists g b1 b2 b3, useRentTemplate L ops (Some program) (Some k)
    {| ri_templateId := template_id a; ri_mint := tc_rentEscrowMint cf; ri_durationSecs := secs; ri_rentalNonce := nonce;
       ri_renterTokenAccount := Some ata |} w =
    Some (Ok {| ix_method := "openRental"; ix_args := [A_bn secs; A_bytes nonce];
                ix_accounts := [("global", Some g); ("template", Some (tm_address tm)); ("rental", Some rental);
                  ("mint", Some (tc_rentEscrowMint cf)); ("escrow", Some e); ("renterTokenAccount", Some ata); ("renter", Some k);
                  ("tokenProgram", Some prog); ("systemProgram", Some (SystemProgram_programId (PublicKey L)))];
                ix_remaining := [] |}%string, w) /\
    templatePda (findProgramAddressSync L) program (template_id a) = Ok (tm_address tm, b1) /\
    rentalPda (findProgramAddressSync L) program (tm_address tm) k nonce = Ok (rental, b2) /\
    rentalEscrowPda (findProgramAddressSync L) program rental = Ok (e, b3).
Proof.
  intros Hu Hf [Hn [b2 Hr] [b3 He] Hg _ _]. destruct (at_seeds_ok _ _ (ud_seeds _ _ _ _ Hu)) as [b1 Ht].
  destruct (templateGlobalPda _ _) as [[g bg]|] eqn:Eg; [|done]. exists g, b1, b2, b3. split_and!; try done.
  unfold useRentTemplate, io_bind, connected, io_ret, io_lift, requireBytes. cbn [ri_templateId ri_rentalNonce ri_mint ri_renterTokenAccount ri_durationSecs].
  rewrite (proj2 (ud_id_bytes _ _ _ _ Hu)), Hn. cbn [Nat.eqb].
  rewrite (proj1 (resolve_run H w _ prog (fd_program _ _ _ _ _ _ _ Hf) (fd_known _ _ _ _ _ _ _ Hf))).
  cbn [fst snd]. unfold buildOpenRentalIx, key. rewrite Eg. cbn [result_bind fst]. rewrite Ht. cbn [result_bind fst]. rewrite Hr. cbn [result_bind fst].
  rewrite He. done.
Qed.

(** The program opens the rental it asks for. *)
Lemma open_run w tm cf a k prog ata acct secs nonce rental e now g sys b1 b2 b3 :
  up_to_date (chain_of w) tm cf a -> funded (chain_of w) k (tc_rentEscrowMint cf) prog ata acct (rent_price_per_sec a * secs) ->
  fresh (chain_of w) k (tm_address tm) nonce rental e ->
  templatePda (findProgramAddressSync L) program (template_id a) = Ok (tm_address tm, b1) ->
  rentalPda (findProgramAddressSync L) program (tm_address tm) k nonce = Ok (rental, b2) ->
  rentalEscrowPda (findProgramAddressSync L) program rental = Ok (e, b3) ->
  paused (global (chain_of w)) = false -> t_status a = Published -> 0 < rent_price_per_sec a ->
  min_rent_duration a <= secs <= max_rent_duration a -> 0 <= secs -> now < 2 ^ 62 ->
  exists st', process_rental (findProgramAddressSync L) program now
    {| ix_method := "openRental"; ix_args := [A_bn secs; A_bytes nonce];
       ix_accounts := [("global", Some g); ("template", Some (tm_address tm)); ("rental", Some rental);
         ("mint", Some (tc_rentEscrowMint cf)); ("escrow", Some e); ("renterTokenAccount", Some ata); ("renter", Some k);
         ("tokenProgram", Some prog); ("systemProgram", Some sys)];
       ix_remaining := [] |}%string (chain_of w) = Ok st' /\
    rentals st' !! rental = Some {| template := tm_address tm; renter := k; start_time := now; end_time := now + secs;
      prepaid_amount := rent_price_per_sec a * secs; drip_rate_per_sec := rent_price_per_sec a; claimed_author := 0;
      claimed_platform := 0; r_status := Active |} /\
    (exists x, token_at (tokens st') e = Some x /\ ta_amount x = rent_price_per_sec a * secs) /\
    exists y, token_at (tokens st') ata = Some y /\ ta_amount y = ta_amount acct - rent_price_per_sec a * secs.
Proof.
  intros Hu [Hp _ _ Hacc Hm Ho [Hle Hw]] [_ _ _ _ Hnr Hne] Ht Hr He Hpa Hs Hpr Hd H0 Hnow. pose proof (proj2 (ud_max _ _ _ _ Hu)) as Hmax.
  set (st := chain_of w) in *. set (mint := tc_rentEscrowMint cf) in *. set (p := rent_price_per_sec a * secs) in *.
  assert (Hi : is_ok (initialize_account prog e mint e (tokens st)) = true) by by apply initialize_succeeds.
  destruct (initialize_account _ _ _ _ _) as [t1|] eqn:Ei; [|done]. destruct (initialize_creates _ _ _ _ _ _ Ei) as (_ & Hesc & Hold & Hprog).
  assert (Hae : ata <> e) by congruence. assert (Hata : token_at t1 ata = Some acct) by by rewrite Hold.
  assert (Htr : is_ok (transfer_checked prog ata mint e k p t1) = true).
  { eapply transfer_succeeds; [by rewrite Hprog|exact Hata|exact Hesc|done..| |]; cbn; unfold p in *; nia. }
  destruct (transfer_checked _ _ _ _ _ _ _) as [t2|] eqn:Et; [|done].
  destruct (transfer_moves _ _ _ _ _ _ _ _ Et Hae) as (x & y & Hx & Hy & _ & Hx' & Hy' & _). rewrite Hata in Hx. injection Hx as <-.
  rewrite Hesc in Hy. injection Hy as <-.
  exists {| tokens := t2; global := global st; templates := templates st; rentals := <[rental := {| template := tm_address tm; renter := k;
      start_time := now; end_time := now + secs; prepaid_amount := p; drip_rate_per_sec := rent_price_per_sec a; claimed_author := 0;
      claimed_platform := 0; r_status := Active |}]> (rentals st) |}. split_and!.
  - unfold process_rental, open_rental, prepaid_of. cbn -[Z.pow Z.mul Z.modulo].
    assert (Hseeds : forall x r b, r = Ok (x, b) -> at_seeds x r = Ok tt).
    { intros x r b ->. unfold at_seeds, check. cbn. by rewrite Z.eqb_refl. }
    rewrite run_check by lia. rewrite (step_ok _ _ a) by (unfold some_or; by rewrite (ud_template _ _ _ _ Hu)).
    rewrite (step_ok _ _ tt) by by eapply Hseeds. rewrite (step_ok _ _ tt) by by eapply Hseeds.
    rewrite run_check by by apply bool_decide_eq_true. rewrite run_check by (apply Z.eqb_eq; apply Hu).
    rewrite (step_ok _ _ tt) by by eapply Hseeds. rewrite (step_ok _ _ t1) by done.
    rewrite (step_ok _ _ acct) by by apply token_of_ok. rewrite (step_ok _ _ p).
    + rewrite (step_ok _ _ t2) by done. by rewrite run_check by lia.
    + rewrite run_check by by rewrite Hpa. rewrite run_check by by apply bool_decide_eq_true. rewrite run_check by lia.
      rewrite run_check by lia. rewrite Z.mod_small by lia. unfold u64. rewrite (proj2 (andb_true_iff _ _)); [done|].
      fold p. unfold p in *. nia.
  - cbn. by rewrite lookup_insert_eq.
  - eexists. split; [exact Hy'|]. cbn. lia.
  - eexists. split; [exact Hx'|done].
Qed.
End form.

(** ** A concrete registry *)

Definition toy_address (seeds : list (list Z)) (_ : pubkey) : result (pubkey * Z) := Ok (accumulate (concat seeds), 255).

Definition toy_key (r : result (pubkey * Z)) : pubkey := match r with Ok d => d.1 | Throw _ => 0 end.

Definition toy_id : list Z := repeat 1 32.
Definition toy_nonce : list Z := repeat 2 8.
Definition toy_template_key : pubkey := toy_key (templatePda toy_address 5 toy_id).
Definition toy_rental_key : pubkey := toy_key (rentalPda toy_address 5 toy_template_key 21 toy_nonce).
Definition toy_escrow : pubkey := toy_key (rentalEscrowPda toy_address 5 toy_rental_key).

Definition toy_template : AgentTemplate :=
  {| template_id := toy_id; author := 11; royalty_bps := 2000; rent_price_per_sec := 1000; min_rent_duration := 60;
     max_rent_duration := 2592000; t_status := Published |}.

(** The author's account is 12, the collector's 13, the renter's 22. *)
Definition toy_start : chain plain_ledger :=
  {| tokens := ({[100 := 7]}, list_to_map [(12, {| ta_mint := 100; ta_owner := 11; ta_amount := 0 |});
                                           (13, {| ta_mint := 100; ta_owner := 14; ta_amount := 0 |});
                                           (22, {| ta_mint := 100; ta_owner := 21; ta_amount := 2000000 |})]);
     global := {| fee_collector := 13; platform_fee_bps := 200; rent_escrow_mint := 100; paused := false |};
     templates := {[toy_template_key := toy_template]}; rentals := ∅ |}.

Definition toy_open : call :=
  {| ix_method := "openRental"; ix_args := [A_bn 1000; A_bytes toy_nonce];
     ix_accounts := [("template", Some toy_template_key); ("rental", Some toy_rental_key); ("mint", Some 100); ("escrow", Some toy_escrow);
       ("renterTokenAccount", Some 22); ("renter", Some 21); ("tokenProgram", Some 7)];
     ix_remaining := [] |}%string.

Definition toy_claim : call :=
  {| ix_method := "claimRentalRevenue"; ix_args := [];
     ix_accounts := [("template", Some toy_template_key); ("rental", Some toy_rental_key); ("mint", Some 100); ("escrow", Some toy_escrow);
       ("authorTokenAccount", Some 12); ("feeCollectorTokenAccount", Some 13); ("cranker", Some 11); ("tokenProgram", Some 7)];
     ix_remaining := [] |}%string.

Definition toy_close (signer : pubkey) : call :=
  {| ix_method := "closeRental"; ix_args := [];
     ix_accounts := [("template", Some toy_template_key); ("rental", Some toy_rental_key); ("mint", Some 100); ("escrow", Some toy_escrow);
       ("authorTokenAccount", Some 12); ("feeCollectorTokenAccount", Some 13); ("renterTokenAccount", Some 22); ("signer", Some signer);
       ("tokenProgram", Some 7)];
     ix_remaining := [] |}%string.

Definition or_start (r : result (chain plain_ledger)) : chain plain_ledger := match r with Ok st => st | Throw _ => toy_start end.

(** One million was paid in for a thousand seconds. *)
Definition toy_opened : chain plain_ledger := or_start (process_rental toy_address 5 0 toy_open toy_start).

Fixpoint toy_claims (n : nat) (now : Z) (st : chain plain_ledger) : chain plain_ledger :=
  match n with
  | O => st
  | S n' => toy_claims n' now (or_start (process_rental toy_address 5 now toy_claim st))
  end.

Definition amount_at (st : chain plain_ledger) (k : pubkey) : Z := match (tokens st).2 !! k with Some a => ta_amount a | None => -1 end.

(** After the rental's time the royalty of twenty percent is 200000: claimed once it is
    paid, and claimed again it is paid again, out of what the renter should get back. *)
Example toy_run :
  is_ok (process_rental toy_address 5 0 toy_open toy_start) = true /\
  map (fun n => let st := toy_claims n 2000 toy_opened in (amount_at st 12, amount_at st 13, amount_at st toy_escrow)) [0; 1; 2; 30]%nat =
  [(0, 0, 1000000); (200000, 20000, 780000); (356000, 35600, 608400); (908568, 90849, 583)].
Proof. vm_compute. split; reflexivity. Qed.

(** ** The theorems *)

(** C21: in every state that rentals being opened, claimed and closed lead to, whatever
    else happens to tokens, templates and parameters, the escrow of an active rental
    is its own account of the right mint and holds at least what was paid in less
    what was claimed, and no more was claimed than was paid in. *)
Theorem rentals_covered `{!TokenLedger T, !TokenLaws T} (find_program_address : list (list Z) -> pubkey -> result (pubkey * Z))
    (program_id : pubkey) (st0 st : chain T) (H0 : rentals st0 = ∅) (H : rtc (rental_step find_program_address program_id) st0 st)
    (k : pubkey) (r : TemplateRental) (Hr : rentals st !! k = Some r) (Ha : r_status r = Active) :
  prepaid_amount r = drip_rate_per_sec r * (end_time r - start_time r) /\
  0 <= already_claimed r <= prepaid_amount r /\
  exists e a, escrow_of find_program_address program_id k = Some e /\ token_at (tokens st) e = Some a /\ ta_owner a = e /\
    ta_mint a = rent_escrow_mint (global st) /\ prepaid_amount r - already_claimed r <= ta_amount a.
Proof.
  pose proof (reachable_solvent _ _ _ _ H0 H) as Hs. destruct (sv_ok _ _ _ Hs k r Hr) as [[? ?] ? ? ? ? ?]. unfold already_claimed in *.
  split_and!; [done|lia|done|]. destruct (sv_covered _ _ _ Hs k r Hr) as (e & a & He & Hea & Ho & Hm & Hc). specialize (Hc Ha).
  exists e, a. by split_and!.
Qed.

Definition toy_rental : TemplateRental :=
  {| template := toy_template_key; renter := 21; start_time := 0; end_time := 1000; prepaid_amount := 1000000; drip_rate_per_sec := 1000;
     claimed_author := 0; claimed_platform := 0; r_status := Active |}.

Lemma toy_no_rentals : rentals toy_start = ∅.
Proof. reflexivity. Qed.

Lemma toy_opened_rental : rentals toy_opened !! toy_rental_key = Some toy_rental.
Proof. vm_compute. reflexivity. Qed.

Lemma toy_open_ok : process_rental toy_address 5 0 toy_open toy_start = Ok toy_opened.
Proof. vm_compute. reflexivity. Qed.

Lemma toy_escrow_large k e : escrow_of toy_address 5 k = Some e -> 2 ^ 256 <= e.
Proof.
  unfold escrow_of, rentalEscrowPda, toy_address. cbn [concat fst]. rewrite app_nil_r.
  rewrite accumulate_app by (apply fill_bytes_byte || by apply bytes_check). unfold toBuffer at 1. rewrite fill_bytes_length.
  assert (E : 1 <= accumulate (enc "rental_escrow")) by (apply Z.leb_le; vm_compute; reflexivity).
  pose proof (accumulate_bound (toBuffer k) (fill_bytes_byte 32 k)) as [B _].
  change (256 ^ Z.of_nat 32) with (2 ^ 256). intros [= <-]. nia.
Qed.

Lemma toy_opened_reached : rtc (rental_step toy_address 5) toy_start toy_opened.
Proof.
  apply rtc_once. apply (S_rental _ _ 0 toy_open); [|exact toy_open_ok]. intros k e He%toy_escrow_large E.
  change (account_of toy_open "renter") with (@Ok pubkey 21) in E. injection E as <-. by apply He.
Qed.

Lemma rentals_covered_witness : exists e a, escrow_of toy_address 5 toy_rental_key = Some e /\ token_at (tokens toy_opened) e = Some a /\
  prepaid_amount toy_rental - already_claimed toy_rental <= ta_amount a.
Proof.
  pose proof (rentals_covered toy_address 5 toy_start toy_opened toy_no_rentals toy_opened_reached toy_rental_key toy_rental
                toy_opened_rental eq_refl) as (_ & _ & e & a & He & Ha & _ & _ & Hle). exists e, a. split_and!; assumption.
Defined.

(** C24: whoever sends claims can empty a rental's escrow into the accounts of the author
    and the platform: the program counts what it paid as claimed, not what it divided,
    so the part it keeps for the renter is divided again by the next claim.  From any
    state a claim can run in, claims at that one moment lead to a state where less than
    one unit of royalty or of fee is left of the accrual, and the author's account got
    all that the rental records as the author's.  The royalty is due once. *)
Theorem claims_drain_the_renter `{!TokenLedger T, !TokenLaws T} (find_program_address : list (list Z) -> pubkey -> result (pubkey * Z))
    (program_id : pubkey) (now : Z) (c : call) (st : chain T) (x : rental_ctx) (n : Z)
    (Hready : claim_ready find_program_address program_id now c st x n)
    (Na : x_author_token_account x <> x_escrow x) (Nf : x_fee_collector_token_account x <> x_escrow x)
    (Naf : x_author_token_account x <> x_fee_collector_token_account x)
    (b : token_account) (Hb : token_at (tokens st) (x_author_token_account x) = Some b) :
  exists st' r' b', claims find_program_address program_id now c st st' /\ rentals st' !! x_rental_key x = Some r' /\
    (accrued_at (x_rental x) now - already_claimed r') * royalty_bps (x_template x) < 10000 /\
    (accrued_at (x_rental x) now - already_claimed r') * platform_fee_bps (global st) < 10000 /\
    token_at (tokens st') (x_author_token_account x) = Some b' /\
    ta_amount b' = ta_amount b + (claimed_author r' - claimed_author (x_rental x)).
Proof.
  destruct (claims_leave_little _ _ _ _ _ _ _ Hready) as (st' & r' & Hc & Hr & _ & _ & H1 & H2 & H3).
  destruct (H3 Na Nf Naf b Hb) as (b' & Hb' & E). by exists st', r', b'.
Qed.

Definition toy_ctx : rental_ctx :=
  {| x_rental_key := toy_rental_key; x_rental := toy_rental; x_template := toy_template; x_mint := 100; x_escrow := toy_escrow;
     x_author_token_account := 12; x_fee_collector_token_account := 13; x_token_program := 7 |}.

Lemma toy_accounts : rental_accounts toy_address 5 toy_claim toy_opened = Ok toy_ctx.
Proof. vm_compute. reflexivity. Qed.

Lemma toy_facts : mint_program (tokens toy_opened) 100 = Some 7 /\ claimable_at toy_rental 2000 = Ok 1000000 /\
  token_at (tokens toy_opened) 12 = Some {| ta_mint := 100; ta_owner := 11; ta_amount := 0 |} /\
  token_at (tokens toy_opened) 13 = Some {| ta_mint := 100; ta_owner := 14; ta_amount := 0 |} /\
  platform_fee_bps (global toy_opened) = 200.
Proof. vm_compute. split_and!; reflexivity. Qed.

Lemma toy_ready : claim_ready toy_address 5 2000 toy_claim toy_opened toy_ctx 1000000.
Proof.
  destruct toy_facts as (Hp & Hc & Ha & Hf & Hg). constructor.
  - apply rental_accounts_ok. exact toy_accounts.
  - exact (reachable_solvent _ _ _ _ toy_no_rentals toy_opened_reached).
  - exact Hp.
  - exact Hc.
  - done.
  - by rewrite Hg.
  - by rewrite Hg.
  - done.
  - intros a E. change (x_author_token_account toy_ctx) with 12 in E. rewrite Ha in E. by injection E as <-.
  - intros a E. change (x_fee_collector_token_account toy_ctx) with 13 in E. rewrite Hf in E. by injection E as <-.
Qed.

Lemma toy_author : token_at (tokens toy_opened) 12 = Some {| ta_mint := 100; ta_owner := 11; ta_amount := 0 |}.
Proof. vm_compute. reflexivity. Qed.

Lemma toy_apart : 12 <> toy_escrow /\ 13 <> toy_escrow.
Proof. split; apply Z.eqb_neq; vm_compute; reflexivity. Qed.

Lemma claims_drain_the_renter_witness : exists st' r' b', claims toy_address 5 2000 toy_claim toy_opened st' /\
  rentals st' !! toy_rental_key = Some r' /\ 999950 < already_claimed r' /\ token_at (tokens st') 12 = Some b' /\
  ta_amount b' = claimed_author r'.
Proof.
  destruct (claims_drain_the_renter toy_address 5 2000 toy_claim toy_opened toy_ctx 1000000 toy_ready
    (proj1 toy_apart) (proj2 toy_apart) ltac:(discriminate) _ toy_author) as (st' & r' & b' & Hc & Hr & H1 & H2 & Hb & Ha).
  exists st', r', b'. change (accrued_at (x_rental toy_ctx) 2000) with 1000000 in *.
  change (royalty_bps (x_template toy_ctx)) with 2000 in H1.
  change (claimed_author (x_rental toy_ctx)) with 0 in Ha. cbn [ta_amount] in Ha.
  split_and!; try assumption; lia.
Defined.

(** The page's copy of a rental. *)
Definition same_rental (rn : TemplateRentalSummary) (r : TemplateRental) : Prop :=
  rn_startTime rn = start_time r /\ rn_endTime rn = end_time r /\ rn_dripRatePerSec rn = drip_rate_per_sec r /\
  rn_claimedAuthor rn = claimed_author r /\ rn_claimedPlatform rn = claimed_platform r.

(** The amount the list of rentals calls claimable is what the program divides if the
    claim comes at that time, and the program takes a claim exactly when the amount is
    not zero; but what a claim pays is only the two shares of it. *)
Theorem claimable_shown (L : ui_lib) (rn : TemplateRentalSummary) (r : TemplateRental) (now : Z) (Hsame : same_rental rn r)
    (Hok : rental_ok r) :
  exists n, rentalClaimableAmount (serializeTemplateRental L rn) now = Ok n /\ 0 <= n /\
    (is_ok (claimable_at r now) = true <-> 0 < n) /\ (0 < n -> claimable_at r now = Ok n) /\
    forall g t s, shares g t n = Ok s -> s.1 = n * royalty_bps t / 10000 /\ s.2 = n * platform_fee_bps g / 10000.
Proof.
  destruct Hsame as (E1 & E2 & E3 & E4 & E5), Hok as [[Ha Hp] Ht Hd Hpre Hcl Hw].
  set (accrued := drip_rate_per_sec r * Z.max 0 (Z.min now (end_time r) - start_time r)).
  exists (if already_claimed r <? accrued then accrued - already_claimed r else 0).
  assert (Hle : accrued <= prepaid_amount r) by (unfold accrued; nia).
  assert (Hn : already_claimed r < accrued -> start_time r < now /\ accrued = accrued_at r now).
  { intros H. unfold accrued, accrued_at, already_claimed in *. assert (start_time r < now); [|split; [done|nia]]. nia. }
  assert (Hrun : already_claimed r < accrued -> claimable_at r now = Ok (accrued - already_claimed r)).
  { intros H. destruct (Hn H) as [Hs ->]. apply claimable_run; [done|]. unfold already_claimed in *. destruct (Hn H) as [_ E]. lia. }
  split_and!.
  - unfold rentalClaimableAmount, rentalAccruedAmount. cbn. rewrite E1, E2, E3, E4, E5. rewrite !BigInt_or_0_z by done. cbn. done.
  - destruct (Z.ltb_spec (already_claimed r) accrued); lia.
  - destruct (Z.ltb_spec (already_claimed r) accrued) as [H|H].
    + rewrite Hrun by done. cbn. split; [lia|done].
    + split; [|lia]. intros Hk. destruct (claimable_at r now) as [m|] eqn:E; [|done]. apply claimable_ok in E as (-> & Hm & Hs).
      unfold accrued, accrued_at in *. rewrite Z.max_r in H by lia. lia.
  - destruct (Z.ltb_spec (already_claimed r) accrued) as [H|H]; [|lia]. intros _. by apply Hrun.
  - intros g t s Hs. apply shares_ok in Hs. tauto.
Qed.

Lemma claimable_shown_witness (L := {| PublicKey := fun _ => Ok 0; toBase58 := fun _ => ""%string; findProgramAddressSync := toy_address;
      getAssociatedTokenAddressSync := fun _ _ _ _ => Ok 0; toLocaleString := z_text |}) :
  exists n, rentalClaimableAmount (serializeTemplateRental L
    {| rn_address := 0; rn_template := 0; rn_renter := 21; rn_startTime := 0; rn_endTime := 1000; rn_prepaidAmount := 1000000;
       rn_dripRatePerSec := 1000; rn_claimedAuthor := 0; rn_claimedPlatform := 0; rn_status := "active" |}) 2000 = Ok n /\
    (0 < n -> claimable_at toy_rental 2000 = Ok n).
Proof.
  destruct (claimable_shown L {| rn_address := 0; rn_template := 0; rn_renter := 21; rn_startTime := 0; rn_endTime := 1000;
      rn_prepaidAmount := 1000000; rn_dripRatePerSec := 1000; rn_claimedAuthor := 0; rn_claimedPlatform := 0; rn_status := "active" |}
      toy_rental 2000) as (n & H1 & _ & _ & H2 & _); [by split_and!|by split|by exists n].
Defined.

(** A closing is signed by the renter or comes after the end, and it is final: in
    every later state the rental is still over, every claim or closing that names it is
    refused, and it cannot be opened again, whatever transactions happen in between. *)
Theorem closed_for_good `{!TokenLedger T, !TokenLaws T} (find_program_address : list (list Z) -> pubkey -> result (pubkey * Z))
    (program_id : pubkey) (now : Z) (c : call) (st st' st'' : chain T)
    (H : process_rental find_program_address program_id now c st = Ok st') (Hm : ix_method c = "closeRental"%string)
    (Hlater : rtc (rental_step find_program_address program_id) st' st'') :
  exists rk r signer s, account_of c "rental" = Ok rk /\ rentals st !! rk = Some r /\ r_status r = Active /\
    account_of c "signer" = Ok signer /\ (signer = renter r \/ end_time r <= now) /\
    s = (if (signer =? renter r) && negb (end_time r <=? now) then Cancelled else Closed) /\
    rentals st'' !! rk = Some (with_status r s) /\
    forall later c2, account_of c2 "rental" = Ok rk -> is_ok (process_rental find_program_address program_id later c2 st'') = false.
Proof.
  unfold process_rental in H. rewrite Hm in H. cbn in H. apply rental_close_inv in H as (x & rta & signer & n & t1 & e & t' & Hx & _ & Hs & Hwho & _ & _ & _ & ->).
  set (s := if _ && _ then _ else _) in *. assert (Hna : r_status (with_status (x_rental x) s) <> Active) by (cbn; unfold s; by case_match).
  pose proof (over_stays _ _ _ _ (x_rental_key x) (with_status (x_rental x) s) Hlater ltac:(cbn; by rewrite lookup_insert_eq) Hna) as Hr.
  destruct Hx as [_ Hk _ _ _ _ _ _ _ Hr0 Ha _ _ _ _ _ _]. exists (x_rental_key x), (x_rental x), signer, s. split_and!; try done.
  intros later c2 Hk2. unfold process_rental. repeat case_match; try done.
  - unfold check. match goal with |- context [if ?b then _ else _] => destruct b end; cbn [result_bind]; [|done]. destruct (open_rental _ _ _ _ _ _ _) eqn:E; [|done].
    apply (open_unused _ _ _ _ _ _ _ _ _ E) in Hk2. congruence.
  - unfold claim_rental_revenue. pose proof (inactive_refused find_program_address program_id c2 st'' _ _ Hk2 Hr Hna) as Hi. by destruct (rental_accounts _ _ _ _).
  - unfold close_rental. pose proof (inactive_refused find_program_address program_id c2 st'' _ _ Hk2 Hr Hna) as Hi. by destruct (rental_accounts _ _ _ _).
Qed.

Lemma toy_closed : exists st', process_rental toy_address 5 400 (toy_close 21) toy_opened = Ok st'.
Proof. exists (or_start (process_rental toy_address 5 400 (toy_close 21) toy_opened)). vm_compute. reflexivity. Qed.

Lemma toy_close_names : account_of (toy_close 21) "rental" = Ok toy_rental_key /\ account_of (toy_close 21) "signer" = Ok 21.
Proof. vm_compute. split; reflexivity. Qed.

Lemma closed_for_good_witness : exists st' r, process_rental toy_address 5 400 (toy_close 21) toy_opened = Ok st' /\
  rentals st' !! toy_rental_key = Some r /\ r_status r = Cancelled /\ is_ok (process_rental toy_address 5 400 (toy_close 21) st') = false.
Proof.
  destruct toy_closed as [st' Hst].
  destruct (closed_for_good toy_address 5 400 (toy_close 21) toy_opened st' st' Hst eq_refl (rtc_refl _ _))
    as (rk & r & signer & s & Hk & Hr & _ & Hs & _ & Es & Hr' & Hl).
  destruct toy_close_names as [N1 N2]. rewrite N1 in Hk. apply Ok_inj in Hk. subst rk. rewrite N2 in Hs. apply Ok_inj in Hs. subst signer.
  rewrite toy_opened_rental in Hr. apply Some_inj in Hr. subst r. change (s = Cancelled) in Es.
  exists st', (with_status toy_rental s). rewrite <- Es. split; [exact Hst|]. split; [exact Hr'|]. split; [reflexivity|]. exact (Hl 400 _ N1).
Defined.

(** C22: a closing by the renter, or by anyone after the end, of a rental on a solvent
    registry succeeds and empties the escrow as promised: the author's account gets the
    royalty of what is left of the accrual, the platform's account the fee, the
    renter's everything else, which is at least the part of the prepayment that has
    neither dripped nor been claimed; no other account is touched, and the rental is
    over.  Conditions ([close_ready]): the call names the rental's accounts, under the
    mint's token program; the prepayment times 10,000 fits 64 bits, the royalty and the
    fee are at most 10,000 basis points together, the clock is not before the start;
    the recipients' balances have room; the renter's account is neither the author's
    nor the platform's, and the escrow is none of the three. *)
Theorem rental_closes `{!TokenLedger T, !TokenLaws T} (find_program_address : list (list Z) -> pubkey -> result (pubkey * Z))
    (program_id : pubkey) (now : Z) (c : call) (st : chain T) (x : rental_ctx) (rta signer : pubkey) (e b : token_account)
    (Hready : close_ready find_program_address program_id now c st x rta signer e b) (Hm : ix_method c = "closeRental"%string) :
  exists st' r', process_rental find_program_address program_id now c st = Ok st' /\
    rentals st' !! x_rental_key x = Some r' /\ r_status r' <> Active /\ settled st x now rta e (tokens st') /\
    prepaid_amount (x_rental x) - already_claimed (x_rental x) - final_accrual (x_rental x) now <=
      ta_amount e - author_share st x now - platform_share st x now.
Proof.
  destruct (close_ok _ _ _ _ _ _ _ _ _ _ Hready) as (st' & Hrun & Hset). exists st'.
  destruct (rental_close_inv _ _ _ _ _ _ Hrun) as (x' & _ & sg & _ & _ & _ & t' & Hx' & _ & _ & _ & _ & _ & _ & Est).
  destruct Hready as [Hx Hs Hp Hr Hf Hsum Hw _ _ _ _ _ _ _ He]. assert (Ex : x_rental_key x' = x_rental_key x) by (destruct Hx, Hx'; congruence).
  eexists. split; [|split; [rewrite Est; cbn; rewrite Ex; by rewrite lookup_insert_eq|]].
  { unfold process_rental. by rewrite Hm. }
  split; [cbn; by case_match|]. split; [done|]. unfold author_share, platform_share. set (n := final_accrual _ _) in *.
  pose proof (sv_ok _ _ _ Hs _ _ (ao_r _ _ _ _ _ Hx)) as Hok. pose proof (accrued_le _ now Hok) as Hacc.
  assert (Hn : 0 <= n <= prepaid_amount (x_rental x)).
  { destruct Hok as [[? ?] ? ? ? ? ?]. unfold n, final_accrual, already_claimed in *. lia. }
  destruct (shares_run (global st) (x_template x) n) as (s & _ & _ & _ & Sle & E1 & E2); [lia|done..|lia|].
  destruct (sv_covered _ _ _ Hs _ _ (ao_r _ _ _ _ _ Hx)) as (k & a & Hk & Hka & _ & _ & Hc). rewrite (ao_e_seeds _ _ _ _ _ Hx) in Hk. injection Hk as <-.
  assert (a = e) by congruence. subst a. specialize (Hc (ao_active _ _ _ _ _ Hx)). lia.
Qed.

Definition toy_escrow_account : token_account := {| ta_mint := 100; ta_owner := toy_escrow; ta_amount := 1000000 |}.
Definition toy_renter_account : token_account := {| ta_mint := 100; ta_owner := 21; ta_amount := 1000000 |}.

Lemma toy_close_accounts : rental_accounts toy_address 5 (toy_close 21) toy_opened = Ok toy_ctx /\
  account_of (toy_close 21) "renterTokenAccount" = Ok 22 /\ token_at (tokens toy_opened) 22 = Some toy_renter_account.
Proof. vm_compute. split_and!; reflexivity. Qed.

Lemma toy_escrow_holds : token_at (tokens toy_opened) toy_escrow = Some toy_escrow_account.
Proof. vm_compute. reflexivity. Qed.

Lemma toy_close_apart : 12 <> toy_escrow /\ 13 <> toy_escrow /\ 22 <> toy_escrow /\ 22 <> 12 /\ 22 <> 13.
Proof. split_and!; apply Z.eqb_neq; vm_compute; reflexivity. Qed.

Lemma toy_close_ready : close_ready toy_address 5 400 (toy_close 21) toy_opened toy_ctx 22 21 toy_escrow_account toy_renter_account.
Proof.
  destruct toy_facts as (Hp & _ & Ha & Hf & Hg), toy_close_accounts as (Hx & Hr & Hb), toy_close_names as [_ Hs]. constructor.
  - apply rental_accounts_ok. exact Hx.
  - exact (reachable_solvent _ _ _ _ toy_no_rentals toy_opened_reached).
  - exact Hp.
  - done.
  - by rewrite Hg.
  - by rewrite Hg.
  - done.
  - done.
  - intros a E. change (x_author_token_account toy_ctx) with 12 in E. rewrite Ha in E. by injection E as <-.
  - intros a E. change (x_fee_collector_token_account toy_ctx) with 13 in E. rewrite Hf in E. by injection E as <-.
  - exact Hr.
  - exact Hb.
  - done.
  - done.
  - exact toy_escrow_holds.
  - done.
  - exact Hs.
  - by left.
  - exact toy_close_apart.
Qed.

Lemma rental_closes_witness : exists st' a' f' b', process_rental toy_address 5 400 (toy_close 21) toy_opened = Ok st' /\
  token_at (tokens st') 12 = Some a' /\ ta_amount a' = 80000 /\ token_at (tokens st') 13 = Some f' /\ ta_amount f' = 8000 /\
  token_at (tokens st') 22 = Some b' /\ ta_amount b' = 1912000.
Proof.
  destruct (rental_closes toy_address 5 400 (toy_close 21) toy_opened toy_ctx 22 21 _ _ toy_close_ready eq_refl)
    as (st' & r' & H & _ & _ & [_ Hk] & _).
  destruct toy_close_apart as (N1 & N2 & N3 & _), toy_close_accounts as (_ & _ & Hb), toy_facts as (_ & _ & Ha & Hf & Hg).
  assert (Es : author_share toy_opened toy_ctx 400 = 80000) by reflexivity.
  assert (Ep : platform_share toy_opened toy_ctx 400 = 8000) by (unfold platform_share; rewrite Hg; reflexivity).
  destruct (Hk 12 _ N1 Ha) as (a' & Ha' & Ea), (Hk 13 _ N2 Hf) as (f' & Hf' & Ef), (Hk 22 _ N3 Hb) as (b' & Hb' & Eb).
  rewrite Es, Ep in Ea, Ef, Eb. exists st', a', f', b'. split_and!; assumption.
Defined.

(** The rent form, whenever it gives no reason to be disabled and the wallet holds the
    money, opens the rental it shows: the template's text fields pass through base58,
    hex and decimal and come out as the program's accounts and arguments, the program
    accepts the transaction, and afterwards the rental has the duration and the
    prepayment of the receipt, which is what left the wallet's account and what the
    escrow holds. *)
Theorem rent_form_opens `{!TokenLedger T, !TokenLaws T} {W : Type} (chain_of : W -> chain T) (L : ui_lib) (ops : ui_ops W)
    (program k prog ata rental e : pubkey) (w w1 : W) (tm : TemplateSummary) (cf : TemplateRegistryConfigSummary) (a : AgentTemplate)
    (acct : token_account) (duration : string) (nonce : list Z)
    (H : ui_laws chain_of L ops program) (Hu : up_to_date L program (chain_of w) tm cf a)
    (Hno : disabledReason (serializeTemplate L tm) (Some (serializeTemplateRegistryConfig L cf)) (Some k) (durationSecs duration) = Ok None)
    (Hf : funded L (chain_of w) k (tc_rentEscrowMint cf) prog ata acct (rent_price_per_sec a * durationSecs duration))
    (Hn : getRandomValues ops 8 w = Some (Ok nonce, w1)) (Hw : chain_of w1 = chain_of w)
    (Hfr : fresh L program (chain_of w) k (tm_address tm) nonce rental e) :
  exists now sig w', rent_submit L ops (serializeTemplate L tm) (Some (serializeTemplateRegistryConfig L cf)) (Some k) (Some program) duration w =
      Some (Ok (RentReceipt sig (toBase58 L rental) (rent_price_per_sec a * durationSecs duration) (durationSecs duration)), w') /\
    rentals (chain_of w') !! rental = Some {| template := tm_address tm; renter := k; start_time := now;
      end_time := now + durationSecs duration; prepaid_amount := rent_price_per_sec a * durationSecs duration;
      drip_rate_per_sec := rent_price_per_sec a; claimed_author := 0; claimed_platform := 0; r_status := Active |} /\
    (exists x, token_at (tokens (chain_of w')) e = Some x /\ ta_amount x = rent_price_per_sec a * durationSecs duration) /\
    exists y, token_at (tokens (chain_of w')) ata = Some y /\ ta_amount y = ta_amount acct - rent_price_per_sec a * durationSecs duration.
Proof.
  assert (H0 : 0 <= durationSecs duration) by (unfold durationSecs; case_match; lia).
  destruct (enabled _ _ _ _ _ _ _ _ Hu Hno) as (Hpa & Hs & Hpr & Hd).
  destruct (balance_run chain_of L ops program H w k _ _ _ _ _ Hf) as [d Hbal]. rewrite <- Hw in Hu, Hf, Hfr, Hpa.
  destruct (hook_run chain_of L ops program H w1 tm cf a k prog ata acct _ (durationSecs duration) nonce rental e Hu Hf Hfr)
    as (g & b1 & b2 & b3 & Hix & Ht & Hr & He).
  set (c := {| ix_method := _ |}) in Hix. destruct (ul_send _ _ _ _ H c w1) as (now & sig & w' & Hnow & Hsend & Hch).
  destruct (open_run chain_of L program w1 tm cf a k prog ata acct (durationSecs duration) nonce rental e now g (SystemProgram_programId (PublicKey L)) b1 b2 b3 Hu Hf Hfr
              Ht Hr He Hpa Hs Hpr Hd H0 Hnow) as (st' & Hst & Hrent & Hesc & Hwal).
  fold c in Hst. rewrite Hst in Hsend, Hch. exists now, sig, w'. rewrite Hch. split; [|done].
  unfold rent_submit, io_bind, io_lift. unfold rentalPrepaidAmount. cbn [serializeTemplate sz_rentPricePerSec].
  rewrite (proj1 (ud_price _ _ _ _ _ _ Hu)), BigInt_or_0_z by lia. cbn [result_bind]. rewrite Z.max_r by done. rewrite Hno.
  unfold io_catch, rent_now, io_bind, io_lift. cbn [serializeTemplate serializeTemplateRegistryConfig sc_rentEscrowMint sz_address sz_templateId].
  rewrite (ul_base58 _ _ _ _ H). rewrite Hbal. cbn [tb_amount tb_address].
  unfold io_check. rewrite (proj2 (Z.leb_le _ _)) by apply Hf. unfold io_ret at 1. rewrite Hn, (ul_base58 _ _ _ _ H).
  unfold key at 1. rewrite Hr. cbn [result_bind fst]. rewrite (ud_id _ _ _ _ _ _ Hu).
  rewrite bytesFromHex_bytes by apply (ud_id_bytes _ _ _ _ _ _ Hu). rewrite Hix, Hsend. done.
Qed.

(** A wallet that addresses are bits for, and a node that answers from the chain. *)
Fixpoint bits_text (p : positive) : string :=
  match p with
  | xH => ""
  | xO q => String "0"%char (bits_text q)
  | xI q => String "1"%char (bits_text q)
  end.

Fixpoint text_bits (s : string) : positive :=
  match s with
  | EmptyString => xH
  | String c s' => if bool_decide (c = "1"%char) then xI (text_bits s') else xO (text_bits s')
  end.

Lemma text_bits_text p : text_bits (bits_text p) = p.
Proof. induction p as [p IH|p IH|]; cbn; [by rewrite IH..|done]. Qed.

Definition toy_lib : ui_lib :=
  {| PublicKey := fun s => match decode (text_bits s) with Some k => Ok k | None => Throw "invalid" end;
     toBase58 := fun k => bits_text (encode k); findProgramAddressSync := toy_address;
     getAssociatedTokenAddressSync := fun _ owner _ _ => Ok (owner + 1); toLocaleString := z_text |}.

Definition toy_ops : ui_ops (chain plain_ledger) :=
  {| ui_getAccountInfo := fun mint w => Some (Ok (option_map (fun p => (p, [])) (mint_program (tokens w) mint)), w);
     getAccount := fun k _ w => Some (match token_at (tokens w) k with Some a => Ok (ta_amount a) | None => Throw "not found" end, w);
     getMint := fun _ _ w => Some (Ok 6, w); getRandomValues := fun _ w => Some (Ok toy_nonce, w);
     send := fun c w => Some (match process_rental toy_address 5 0 c w with Ok _ => Ok "sig" | Throw e => Throw e end,
                              match process_rental toy_address 5 0 c w with Ok st => st | Throw _ => w end) |}%string.

Lemma toy_ui_laws : ui_laws (fun w => w) toy_lib toy_ops 5.
Proof.
  split; cbn [ui_getAccountInfo getAccount getMint send PublicKey toBase58 toy_lib toy_ops].
  - intros mint w. by exists [].
  - intros k p a w -> _. done.
  - intros m p w _. by exists 6.
  - intros c w. by exists 0, "sig"%string, (match process_rental toy_address 5 0 c w with Ok st => st | Throw _ => w end).
  - intros k. by rewrite text_bits_text, decode_encode.
Qed.

Definition toy_market : chain plain_ledger :=
  {| tokens := ({[100 := TOKEN_2022 toy_lib]}, (tokens toy_start).2); global := global toy_start; templates := templates toy_start;
     rentals := ∅ |}.

Definition toy_summary : TemplateSummary :=
  {| tm_address := toy_template_key; tm_templateId := toy_id; tm_author := 11; tm_configHash := []; tm_configUri := ""; tm_capabilityMask := 0;
     tm_royaltyBps := 2000; tm_parentTemplate := None; tm_lineageDepth := 0; tm_forkCount := 0; tm_rentCount := 0; tm_totalRevenue := 0;
     tm_rentPricePerSec := 1000; tm_minRentDuration := 60; tm_maxRentDuration := 2592000; tm_status := "published"; tm_createdAt := 0;
     tm_updatedAt := 0 |}.

Definition toy_config : TemplateRegistryConfigSummary :=
  {| tc_address := 0; tc_authority := 0; tc_pendingAuthority := None; tc_agentRegistry := 0; tc_treasuryStandard := 0; tc_feeCollector := 13;
     tc_royaltyCapBps := 3000; tc_platformFeeBps := 200; tc_rentEscrowMint := 100; tc_paused := false |}.

Lemma toy_up_to_date : up_to_date toy_lib 5 toy_market toy_summary toy_config toy_template.
Proof. split; try done; try (vm_compute; done). split; [by apply bytes_check|done]. Qed.

Definition toy_wallet : token_account := {| ta_mint := 100; ta_owner := 21; ta_amount := 2000000 |}.

Lemma toy_funded : funded toy_lib toy_market 21 100 (TOKEN_2022 toy_lib) 22 toy_wallet 1800000.
Proof. split; try done. by left. Qed.

Lemma toy_fresh : fresh toy_lib 5 toy_market 21 toy_template_key toy_nonce toy_rental_key toy_escrow.
Proof. split; try done; try (by exists 255); vm_compute; done. Qed.

Lemma toy_half_hour : durationSecs "0.5" = 1800 /\
  disabledReason (serializeTemplate toy_lib toy_summary) (Some (serializeTemplateRegistryConfig toy_lib toy_config)) (Some 21) 1800 = Ok None.
Proof. vm_compute. split; reflexivity. Qed.

Lemma rent_form_opens_witness : exists w' r, rent_submit toy_lib toy_ops (serializeTemplate toy_lib toy_summary)
    (Some (serializeTemplateRegistryConfig toy_lib toy_config)) (Some 21) (Some 5) "0.5" toy_market =
      Some (Ok (RentReceipt r (toBase58 toy_lib toy_rental_key) 1800000 1800), w') /\
  exists y, token_at (tokens w') 22 = Some y /\ ta_amount y = 200000.
Proof.
  destruct toy_half_hour as [Hd Hno].
  destruct (rent_form_opens (fun w => w) toy_lib toy_ops 5 21 (TOKEN_2022 toy_lib) 22 toy_rental_key toy_escrow toy_market toy_market
    toy_summary toy_config toy_template toy_wallet "0.5" toy_nonce toy_ui_laws toy_up_to_date) as (now & sig & w' & Hrun & _ & _ & y & Hy & E).
  - by rewrite Hd.
  - rewrite Hd. exact toy_funded.
  - reflexivity.
  - reflexivity.
  - exact toy_fresh.
  - rewrite Hd in Hrun, E. change (rent_price_per_sec toy_template * 1800) with 1800000 in Hrun, E.
    exists w', sig. split; [exact Hrun|]. exists y. split; [exact Hy|exact E].
Defined.

(** ** The simulator *)

(** The same template and prices at another number of tasks. *)
Definition with_tasks (e : economics) (m : Z) : economics :=
  {| e_tasks := m; e_reward := e_reward e; e_success := e_success e; e_dispute := e_dispute e; e_royalty := e_royalty e; e_fee := e_fee e;
     e_price := e_price e; e_days := e_days e; e_setup := e_setup e |}.

Lemma clampInt_range v lo hi : lo <= hi -> lo <= clampInt v lo hi <= hi.
Proof. unfold clampInt. case_match; lia. Qed.

Lemma bpsMul_div v b : 0 <= v -> 0 <= b <= 10000 -> bpsMul v b = v * b / 10000.
Proof. intros Hv Hb. unfold bpsMul. rewrite Z.max_r, Z.min_r by lia. apply Z.quot_div_nonneg; nia. Qed.

(** Dividing per task loses at most one unit for each task but the first. *)
Lemma floor_tasks x m : 0 <= x -> 0 < m -> m * (x / 10000) <= m * x / 10000 <= m * (x / 10000) + (m - 1).
Proof.
  intros Hx Hm. pose proof (Z.div_mod x 10000 ltac:(lia)) as E. pose proof (Z.mod_pos_bound x 10000 ltac:(lia)). split.
  - apply Z.div_le_lower_bound; nia.
  - apply Z.lt_succ_r. apply Z.div_lt_upper_bound; nia.
Qed.

(** What is left of a gross amount after the royalty grows with it, and no faster. *)
Lemma after_royalty y a b : 0 <= y <= 10000 -> 0 <= a <= b -> a - a * y / 10000 <= b - b * y / 10000 <= a - a * y / 10000 + (b - a).
Proof.
  intros Hy Hab. pose proof (Z.div_le_mono (a * y) (b * y) 10000 ltac:(lia) ltac:(nia)).
  assert (b * y / 10000 <= a * y / 10000 + (b - a)); [|lia]. rewrite <- Z.div_add by lia. apply Z.div_le_mono; nia.
Qed.

(** The net of renting against the count of what one task brings. *)
Lemma net_tasks i m (e := economics_of i) : 0 <= e_reward e -> 0 < m ->
  m * e_perTask e - 2 * (m - 1) <= e_rentNet (with_tasks e m) + (e_rentCost e + e_platformFee e) <= m * e_perTask e + (m - 1).
Proof.
  intros HR Hm. assert (Hs : 0 <= e_success e <= 10000) by by apply clampInt_range.
  assert (Hd : 0 <= e_dispute e <= 10000) by by apply clampInt_range. assert (Hy : 0 <= e_royalty e <= 10000) by by apply clampInt_range.
  unfold e_rentNet, e_perTask, e_royaltyCost, e_gross, e_disputeLoss. change (e_platformFee (with_tasks e m)) with (e_platformFee e).
  change (e_rentCost (with_tasks e m)) with (e_rentCost e). cbn [with_tasks e_reward e_tasks e_success e_dispute e_royalty].
  clearbody e. assert (0 <= e_reward e * m) by nia. assert (G0 : 0 <= e_reward e * e_success e / 10000) by (apply Z.div_pos; nia).
  rewrite (bpsMul_div (e_reward e * m) (e_success e)), (bpsMul_div (e_reward e * m) (e_dispute e)), (bpsMul_div (e_reward e) (e_success e)),
    (bpsMul_div (e_reward e) (e_dispute e)) by lia.
  assert (G1 : 0 <= e_reward e * m * e_success e / 10000) by (apply Z.div_pos; nia). rewrite !bpsMul_div by lia.
  pose proof (floor_tasks (e_reward e * e_success e) m ltac:(nia) Hm) as F1. pose proof (floor_tasks (e_reward e * e_dispute e) m ltac:(nia) Hm) as F2.
  replace (m * (e_reward e * e_success e)) with (e_reward e * m * e_success e) in F1 by ring.
  replace (m * (e_reward e * e_dispute e)) with (e_reward e * m * e_dispute e) in F2 by ring.
  set (g := e_reward e * e_success e / 10000) in *. set (G := e_reward e * m * e_success e / 10000) in *.
  pose proof (floor_tasks (g * e_royalty e) m ltac:(nia) Hm) as F3. replace (m * (g * e_royalty e)) with (m * g * e_royalty e) in F3 by ring.
  pose proof (after_royalty (e_royalty e) (m * g) G Hy ltac:(nia)). nia.
Qed.

Lemma ceilDiv_bounds a b : 0 < a -> 0 < b -> 0 < ceilDiv a b /\ a <= ceilDiv a b * b < a + b.
Proof.
  intros Ha Hb. unfold ceilDiv. rewrite Z.quot_div_nonneg by lia. pose proof (Z.div_mod (a + b - 1) b ltac:(lia)).
  pose proof (Z.mod_pos_bound (a + b - 1) b Hb). nia.
Qed.

(** The simulator's break-even count is the break-even of renting up to rounding: with
    that many tasks a renter loses less than two lamports for each task, and with fewer
    nobody gains more than one for each. *)
Theorem break_even_bounds (i : TemplateSimulationInput) (n m : Z) (Hr : 0 <= e_reward (economics_of i))
    (Hn : breakEvenTasks (simulateTemplateEconomics i) = Some n) (Hm : 0 <= m < n) :
  0 < n /\ - 2 * (n - 1) <= e_rentNet (with_tasks (economics_of i) n) /\
  e_rentNet (with_tasks (economics_of i) m) < m.
Proof.
  unfold simulateTemplateEconomics in Hn. cbn in Hn. set (e := economics_of i) in *. unfold e_breakEven in Hn.
  set (fixed := e_rentCost e + e_platformFee e) in *. destruct (_ && _) eqn:E; [|done]. apply andb_prop in E as [Ef%Z.ltb_lt Ep%Z.ltb_lt].
  injection Hn as <-. destruct (ceilDiv_bounds fixed (e_perTask e) Ef Ep) as [H0 H1]. pose proof (net_tasks i _ Hr H0) as N1. fold e fixed in N1.
  split_and!; [done|lia|]. destruct (decide (m = 0)) as [->|Hz].
  - unfold e_rentNet, e_royaltyCost, e_gross, e_disputeLoss. cbn [with_tasks e_reward e_tasks e_success e_dispute e_royalty].
    rewrite Z.mul_0_r. unfold bpsMul. cbn [Z.mul]. rewrite !Z.quot_0_l by lia.
    change (e_platformFee (with_tasks e 0)) with (e_platformFee e). change (e_rentCost (with_tasks e 0)) with (e_rentCost e). 
    rewrite ?Z.mul_0_l, ?Z.quot_0_l by lia. lia.
  - pose proof (net_tasks i m Hr ltac:(lia)) as N2. fold e fixed in N2. nia.
Qed.

(** Ten lamports a task, a third of it royalty, one lamport a second for a day. *)
Definition toy_simulation : TemplateSimulationInput :=
  {| i_tasksPerMonth := Some 12343%Q; i_avgRewardLamports := In_bigint 10; i_successRateBps := Some 10000%Q; i_disputeRateBps := Some 0%Q;
     i_royaltyBps := Some 3333%Q; i_platformFeeBps := Some 0%Q; i_rentPricePerSecLamports := In_bigint 1; i_rentDurationDays := Some 1%Q;
     i_forkSetupLamports := In_bigint 0 |}.

(** The count shown as break-even loses money. *)
Example break_even_loses : breakEvenTasks (simulateTemplateEconomics toy_simulation) = Some 12343 /\
  rentNetLamports (simulateTemplateEconomics toy_simulation) = -4109.
Proof. vm_compute. split; reflexivity. Qed.

Lemma break_even_bounds_witness : 0 < 12343 /\ - 2 * (12343 - 1) <= e_rentNet (with_tasks (economics_of toy_simulation) 12343) /\
  e_rentNet (with_tasks (economics_of toy_simulation) 6000) < 6000.
Proof.
  destruct (break_even_bounds toy_simulation 12343 6000) as (H1 & H2 & H3); [done|exact (proj1 break_even_loses)|lia|].
  split_and!; assumption.
Defined.
