(* ===== verification/PortalProxy.v ===== *)
(** * PortalProxy: what the portal's server passes on

    Models the server routes of apps/portal that stand in front of other services:
    api/[service]/[[...path]] with lib/service-proxy.ts and lib/public-service-routes.ts
    (the discovery API, the x402 gateway, the message bus), api/proofgen, api/rpc and
    api/treasury/kamino-route; lib/indexer-url.ts and lib/discovery-ws-url.ts.  Sessions
    are PortalAuth's.  [process.env] is a function; a route that throws answers 500.
    The names of a request's headers are lower-case, as [Headers] lists them, and a
    route parameter's parts are given decoded.  [fetch] is an operation of the outside
    world, the URL parser and JSON are parameters. *)

From Stdlib Require Import ZArith QArith Ascii Lia.
From stdpp Require Import base list strings.
From S2P Require Import Prelude Effects JsMap Json Hex Zod Messages PortalAuth PortalSafety ProofGen Numbers.

#[local] Open Scope Z_scope.
#[local] Open Scope saep_scope.

(** ** Texts *)

Definition slash : ascii := ascii_of_nat 47.

(** [.replace(/\/$/, '')] *)
Fixpoint strip_slash (s : string) : string :=
  match s with
  | EmptyString => EmptyString
  | String c EmptyString => if bool_decide (c = slash) then EmptyString else s
  | String c s' => String c (strip_slash s')
  end.

(** [.replace(/^\/+/, '')] *)
Fixpoint strip_slashes_front (s : string) : string :=
  match s with
  | String c s' => if bool_decide (c = slash) then strip_slashes_front s' else s
  | EmptyString => EmptyString
  end.

(** [.replace(/\/+/g, '/')] *)
Fixpoint one_slash (s : string) : string :=
  match s with
  | EmptyString => EmptyString
  | String c s' =>
    if bool_decide (c = slash)
    then match s' with
         | String c' _ => if bool_decide (c' = slash) then one_slash s' else String c (one_slash s')
         | EmptyString => s
         end
    else String c (one_slash s')
  end.

(** [a ?? b] *)
Definition or_nullish (a b : option string) : option string := match a with Some _ => a | None => b end.

Definition join_path (path : list string) : string := String.concat "/" path.

(** ** public-service-routes.ts *)

Inductive PublicServiceKey := discovery | x402 | iacp.

#[global] Instance PublicServiceKey_eq_dec : EqDecision PublicServiceKey.
Proof. solve_decision. Defined.

Definition key_text (k : PublicServiceKey) : string :=
  match k with discovery => "discovery" | x402 => "x402" | iacp => "iacp" end.

Record PublicServiceEndpoint := { ep_method : string; ep_path : string; ep_description : string }.

Record PublicServiceDefinition := {
  sd_key : PublicServiceKey; sd_label : string; sd_anchor : string; sd_docsPath : string; sd_description : string;
  sd_publicBasePath : string; sd_upstreamEnvVar : string; sd_upstreamFallback : string; sd_websocketUrl : option string;
  sd_websocketDescription : option string; sd_endpoints : list PublicServiceEndpoint;
}.

Definition endpoint (method path description : string) : PublicServiceEndpoint :=
  {| ep_method := method; ep_path := path; ep_description := description |}.

Definition discovery_endpoints : list PublicServiceEndpoint :=
  [endpoint "GET" "/healthz" "Liveness check for the indexer API.";
   endpoint "GET" "/leaderboard?capability=<bit>" "Leaderboard surface used by the portal.";
   endpoint "GET" "/tasks/:taskIdHex/bidding" "Current bid-book phase for one task.";
   endpoint "GET" "/tasks/:taskIdHex/bids" "Indexed bid rows for one task.";
   endpoint "GET" "/tasks?status=<csv>&limit=<n>" "Indexed task feed with compute bond summaries.";
   endpoint "GET" "/tasks/:taskIdHex" "Indexed task detail from the hosted discovery read model.";
   endpoint "GET" "/tasks/:taskIdHex/compute-bonds" "Tracked compute bond lifecycle rows for one task.";
   endpoint "GET" "/agents/:did/tasks?status=<csv>&limit=<n>" "Indexed agent task history with compute bond summaries.";
   endpoint "GET" "/v1/discovery/agents" "Agent search, ranking, and explainable capability matching.";
   endpoint "GET" "/v1/discovery/tasks" "Filtered task discovery feed.";
   endpoint "GET" "/v1/discovery/tasks/:taskIdHex/matches" "Ranked agent matches for one task capability profile.";
   endpoint "GET" "/v1/discovery/capabilities" "Capability catalog.";
   endpoint "GET" "/v1/discovery/treasury/yield-strategies" "Governance-approved treasury yield strategy snapshots.";
   endpoint "GET" "/v1/discovery/treasury/:did/yield" "Per-treasury yield allocation and accounting snapshot.";
   endpoint "GET" "/v1/discovery/treasury/:did/yield/positions" "Per-treasury Kamino strategy-position snapshots.";
   endpoint "POST" "/webhooks/subscriptions" "Create a signed outbound webhook subscription.";
   endpoint "POST" "/webhooks/subscriptions/:id/rotate-secret" "Rotate one subscription signing secret.";
   endpoint "GET" "/webhooks/deliveries?state=<state>&limit=<n>" "Filterable delivery, retry, and dead-letter logs.";
   endpoint "POST" "/webhooks/replay" "Replay a stored event id or bounded event time window."]%string.

Definition x402_endpoints : list PublicServiceEndpoint :=
  [endpoint "GET" "/healthz" "Gateway health check.";
   endpoint "GET" "/metrics" "Prometheus metrics for proxy and settlement activity.";
   endpoint "GET" "/demo/paid" "Built-in paid endpoint demo returning a 402 challenge.";
   endpoint "POST" "/proxy" "Settles a payment and proxies the paid upstream request.";
   endpoint "POST" "/facilitate/verify" "Verifies a settled `x-payment` receipt by tx signature."]%string.

Definition iacp_endpoints : list PublicServiceEndpoint :=
  [endpoint "GET" "/healthz" "Liveness plus connected-client summary.";
   endpoint "GET" "/readyz" "Redis-backed readiness check.";
   endpoint "GET" "/metrics" "Prometheus metrics for publish / websocket traffic.";
   endpoint "POST" "/publish" "REST publish path for signed envelopes.";
   endpoint "GET" "/topics/:topic/recent?limit=<n>" "Recent durable topic entries for service-token callers."]%string.

Definition getPublicServiceKeys : list PublicServiceKey := [discovery; x402; iacp].

Section routes.
Variable env : string -> option string.   (* process.env *)

Definition SITE_ORIGIN : string := strip_slash (default "https://buildonsaep.com"%string (env "NEXT_PUBLIC_APP_URL")).

Definition DEFAULT_UPSTREAMS (k : PublicServiceKey) : string :=
  match k with
  | discovery => "https://saep-indexer-api.onrender.com"
  | x402 => "https://saep-x402-gateway.onrender.com"
  | iacp => "https://saep-iacp.onrender.com"
  end.

Definition DIRECT_DISCOVERY : string :=
  default (DEFAULT_UPSTREAMS discovery) (or_nullish (env "DISCOVERY_API_URL") (env "NEXT_PUBLIC_INDEXER_URL")).
Definition DIRECT_DISCOVERY_WS : option string := or_nullish (env "NEXT_PUBLIC_DISCOVERY_WS_URL") (env "DISCOVERY_WS_URL").
Definition DIRECT_X402 : string := default (DEFAULT_UPSTREAMS x402) (env "X402_GATEWAY_URL").
Definition DIRECT_IACP : string := default (DEFAULT_UPSTREAMS iacp) (env "IACP_API_URL").
Definition DIRECT_IACP_WS : option string := or_nullish (env "NEXT_PUBLIC_IACP_WS_URL") (env "IACP_WS_URL").

Definition PUBLIC_SERVICES (k : PublicServiceKey) : PublicServiceDefinition :=
  match k with
  | discovery =>
    {| sd_key := discovery; sd_label := "Discovery API"; sd_anchor := "discovery-api"; sd_docsPath := "/docs/api#discovery-api";
       sd_description := "Stable public alias for leaderboard, bid-book reads, indexed task search, compute-bond-enriched discovery, and operator webhooks.";
       sd_publicBasePath := "/api/discovery"; sd_upstreamEnvVar := "DISCOVERY_API_URL"; sd_upstreamFallback := DIRECT_DISCOVERY;
       sd_websocketUrl := DIRECT_DISCOVERY_WS;
       sd_websocketDescription := Some "Direct WebSocket origin for live status_change + new_task pushes. Bypasses the /api/discovery proxy because Next.js route handlers do not pipe WebSocket upgrades.";
       sd_endpoints := discovery_endpoints |}
  | x402 =>
    {| sd_key := x402; sd_label := "x402 Gateway"; sd_anchor := "x402-gateway"; sd_docsPath := "/docs/api#x402-gateway";
       sd_description := "HTTP 402 settlement surface for paid agent endpoints backed by SAEP task escrow.";
       sd_publicBasePath := "/api/x402"; sd_upstreamEnvVar := "X402_GATEWAY_URL"; sd_upstreamFallback := DIRECT_X402;
       sd_websocketUrl := None; sd_websocketDescription := None; sd_endpoints := x402_endpoints |}
  | iacp =>
    {| sd_key := iacp; sd_label := "IACP Bus"; sd_anchor := "iacp-bus"; sd_docsPath := "/docs/api#iacp-bus";
       sd_description := "HTTP control plane for the inter-agent message bus, plus an optional direct WebSocket origin.";
       sd_publicBasePath := "/api/iacp"; sd_upstreamEnvVar := "IACP_API_URL"; sd_upstreamFallback := DIRECT_IACP;
       sd_websocketUrl := DIRECT_IACP_WS;
       sd_websocketDescription := Some "Dedicated direct WebSocket origin for agent subscriptions and signed publish frames.";
       sd_endpoints := iacp_endpoints |}
  end%string.

Definition getPublicServicePublicUrl (k : PublicServiceKey) : string := SITE_ORIGIN +:+ sd_publicBasePath (PUBLIC_SERVICES k).
Definition getPublicServiceDocsUrl (k : PublicServiceKey) : string := SITE_ORIGIN +:+ sd_docsPath (PUBLIC_SERVICES k).

(** Not itself. *)
Definition getPublicServiceUpstreamUrl (k : PublicServiceKey) : string :=
  let upstreamBaseUrl := strip_slash (sd_upstreamFallback (PUBLIC_SERVICES k)) in
  let publicBaseUrl := getPublicServicePublicUrl k in
  if String.eqb upstreamBaseUrl publicBaseUrl || String.prefix (publicBaseUrl +:+ "/") upstreamBaseUrl then DEFAULT_UPSTREAMS k
  else upstreamBaseUrl.

Definition opt_text (o : option string) : json := match o with Some s => J_str s | None => J_null end.

Definition getPublicServiceManifest (k : PublicServiceKey) : json :=
  let service := PUBLIC_SERVICES k in
  J_obj [("service", J_str (key_text (sd_key service))); ("label", J_str (sd_label service));
         ("description", J_str (sd_description service)); ("public_base_url", J_str (getPublicServicePublicUrl k));
         ("upstream_base_url", J_str (getPublicServiceUpstreamUrl k)); ("docs_url", J_str (getPublicServiceDocsUrl k));
         ("endpoints", J_arr (map (fun e => J_obj [("method", J_str (ep_method e)); ("path", J_str (ep_path e));
                                                   ("description", J_str (ep_description e))]) (sd_endpoints service)));
         ("websocket_url", opt_text (sd_websocketUrl service));
         ("websocket_description", opt_text (sd_websocketDescription service))]%string.

(** lib/discovery-ws-url.ts *)
Definition getPortalDiscoveryWsUrl : option string :=
  match env "NEXT_PUBLIC_DISCOVERY_WS_URL" with
  | Some text => if String.eqb (trim text) "" then None else Some (strip_slash (trim text))
  | None => None
  end.
End routes.

(** lib/indexer-url.ts *)
Definition getPortalIndexerUrl : string := "/api/discovery".

(** ** Requests and replies *)

(** A [NextRequest], its method and path aside: the parts of the path are the route's. *)
Record next_request := { nr_method : string; nr_headers : list (string * string); nr_search : string; nr_body : string }.

Record url := { u_origin : string; u_pathname : string; u_search : string }.

Record fetch_call := {
  fc_url : url; fc_method : string; fc_headers : list (string * string); fc_body : option string; fc_manual : bool;  (* redirect: 'manual' *)
}.
Record fetched := { ft_status : Z; ft_headers : list (string * string); ft_body : string }.

Record proxy_lib := {
  new_URL : string -> result url;
  set_pathname : string -> string;           (* the pathname of an http URL after the assignment *)
  json_parse : string -> option json;        (* None: it throws *)
  json_text : json -> string;                (* JSON.stringify *)
  js_String : json -> string;                (* String(_) *)
}.

Record proxy_ops (W : Type) := { px_fetch : fetch_call -> io W fetched }.
Arguments px_fetch {W} _ _.

Inductive px_body := PX_none | PX_json (v : json) | PX_text (text : string).
Record px_reply := { px_status : Z; px_headers : list (string * string); px_content : px_body }.

Definition px_json (status : Z) (v : json) : px_reply := {| px_status := status; px_headers := []; px_content := PX_json v |}.
Definition px_error (status : Z) (error : string) : px_reply := px_json status (J_obj [("error", J_str error)]).

Section proxies.
Context {W : Type}.
Variable P : proxy_lib.
Variable ops : proxy_ops W.
Variable env : string -> option string.

(** ** service-proxy.ts *)

Definition HOP_BY_HOP_HEADERS : list string :=
  ["connection"; "content-encoding"; "content-length"; "host"; "keep-alive"; "proxy-authenticate"; "proxy-authorization"; "te";
   "trailer"; "transfer-encoding"; "upgrade"]%string.

Definition BODYLESS_METHODS : list string := ["GET"; "HEAD"]%string.

Definition joinPath (basePath extraPath : string) : string :=
  let base := if String.eqb basePath "/" then "" else strip_slash basePath in
  let extra := strip_slashes_front extraPath in
  if negb (String.eqb extra "") then base +:+ "/" +:+ extra else if String.eqb base "" then "/" else base.

(** [path[n] === text] *)
Definition part_is (path : list string) (n : nat) (text : string) : bool := bool_decide (path !! n = Some text).

Definition resolvePublicServiceUpstreamPath (service : PublicServiceKey) (path : list string) : list string :=
  match service with
  | discovery =>
    if part_is path 0 "tasks" then
      if part_is path 2 "bidding" || part_is path 2 "bids" then path else "v1" :: "discovery" :: path
    else if part_is path 0 "agents" then
      if part_is path 2 "tasks" || part_is path 2 "compute-bonds" then "v1" :: "discovery" :: path else path
    else path
  | _ => path
  end%string.

(** The same for requests and responses. *)
Definition copyHeaders (headers : list (string * string)) : list (string * string) :=
  List.filter (fun h => negb (bool_decide (h.1 ∈ HOP_BY_HOP_HEADERS))) headers.

Definition proxyPublicServiceRequest (req : next_request) (service : PublicServiceKey) (path : list string) : io W px_reply :=
  if String.eqb (nr_method req) "OPTIONS"
  then io_ret {| px_status := 204; px_headers := [("Allow", "GET, POST, PUT, PATCH, DELETE, OPTIONS")]; px_content := PX_none |}
  else match path with
  | [] => io_ret {| px_status := 200; px_headers := [("Cache-Control", "public, max-age=60")];
                    px_content := PX_json (getPublicServiceManifest env service) |}
  | _ =>
    let upstreamBase := getPublicServiceUpstreamUrl env service in
    do! base <- io_lift (new_URL P upstreamBase) in
    let upstreamUrl := {| u_origin := u_origin base;
                          u_pathname := set_pathname P (joinPath (u_pathname base) (join_path (resolvePublicServiceUpstreamPath service path)));
                          u_search := nr_search req |} in
    io_catch
      (do! upstream <- px_fetch ops {| fc_url := upstreamUrl; fc_method := nr_method req; fc_headers := copyHeaders (nr_headers req);
                                       fc_body := if bool_decide (nr_method req ∈ BODYLESS_METHODS) then None else Some (nr_body req);
                                       fc_manual := true |} in
       io_ret {| px_status := ft_status upstream; px_headers := map_set "x-saep-public-proxy" (key_text service) (copyHeaders (ft_headers upstream));
                 px_content := PX_text (ft_body upstream) |})
      (fun e => io_ret (px_json 503 (J_obj [("error", J_str "upstream_unavailable"); ("service", J_str (key_text service));
                                            ("upstream_base_url", J_str upstreamBase); ("detail", J_str e)])))
  end%string.

(** api/[service]/[[...path]]/route.ts *)
Definition isServiceKey (value : string) : option PublicServiceKey :=
  List.find (fun k => String.eqb (key_text k) value) getPublicServiceKeys.

Definition service_handle (req : next_request) (service : string) (path : list string) : io W px_reply :=
  match isServiceKey service with
  | None => io_ret (px_error 404 "unknown_service")
  | Some k => proxyPublicServiceRequest req k path
  end.

(** ** api/proofgen/[[...path]]/route.ts *)

Variable L : auth_lib.
Variable penv : portal_env.

(** [if (configured)] also drops an empty text. *)
Definition proofGenBaseUrl : option string :=
  match or_nullish (or_nullish (env "PROOFGEN_API_URL") (env "PROOF_GEN_API_URL")) (env "PROOFGEN_URL") with
  | Some (String _ _ as configured) => Some (strip_slash configured)
  | _ => if production penv then None else Some "http://127.0.0.1:8787"%string
  end.

Definition upstreamUrl (path : list string) : result (option url) :=
  match proofGenBaseUrl with
  | None => Ok None
  | Some base =>
    let! u := new_URL P base in
    Ok (Some {| u_origin := u_origin u; u_pathname := set_pathname P (one_slash (strip_slash (u_pathname u) +:+ "/" +:+ join_path path));
                u_search := u_search u |})
  end.

Record proxy_opts := { requireSession : bool; proofBearer : bool }.

Definition proxyJson (now : Z) (jar : list (string * string)) (req : next_request) (path : list string) (opts : proxy_opts) : io W px_reply :=
  do! target <- io_lift (upstreamUrl path) in
  match target with
  | None => io_ret (px_error 503 "proofgen_not_configured")
  | Some u =>
    let u := {| u_origin := u_origin u; u_pathname := u_pathname u; u_search := nr_search req |} in
    let headers := app (match map_get "content-type" (nr_headers req) with
                        | Some (String _ _ as t) => [("content-type", t)]
                        | _ => []
                        end) [("accept", "application/json")] in
    do! token <- (if requireSession opts || proofBearer opts then io_lift (proofGenBearer L penv now jar) else io_ret None) in
    if (requireSession opts || proofBearer opts) && negb (truthy token) then io_ret (px_error 401 "unauthenticated")
    else
      let headers := if proofBearer opts then app headers [("authorization", "Bearer " +:+ default "" token)] else headers in
      io_catch
        (do! upstream <- px_fetch ops {| fc_url := u; fc_method := nr_method req; fc_headers := headers;
                                         fc_body := if bool_decide (nr_method req ∈ BODYLESS_METHODS) then None else Some (nr_body req);
                                         fc_manual := true |} in
         io_ret {| px_status := ft_status upstream;
                   px_headers := [("content-type", default "application/json" (map_get "content-type" (ft_headers upstream)));
                                  ("x-saep-proofgen-proxy", "1")];
                   px_content := PX_text (ft_body upstream) |})
        (fun e => io_ret (px_json 503 (J_obj [("error", J_str "proofgen_upstream_unavailable"); ("detail", J_str e)])))
  end%string.

Definition session_only : proxy_opts := {| requireSession := true; proofBearer := false |}.
Definition with_bearer : proxy_opts := {| requireSession := true; proofBearer := true |}.

Definition job_id_char (c : ascii) : bool := hex_any c || bool_decide (c = "-"%char).
Definition job_id_text (id : string) : bool := all_chars job_id_char id && (String.length id =? 36)%nat.

Definition proofgen_handle (now : Z) (jar : list (string * string)) (req : next_request) (path : list string) : io W px_reply :=
  match path with
  | [resource] =>
    if String.eqb (nr_method req) "GET" && (String.eqb resource "healthz" || String.eqb resource "circuits")
    then proxyJson now jar req path session_only
    else if String.eqb (nr_method req) "POST" && String.eqb resource "prove" then proxyJson now jar req path with_bearer
    else io_ret (px_error 404 "not_found")
  | [resource; id] =>
    if String.eqb (nr_method req) "GET" && String.eqb resource "jobs"
    then if negb (job_id_text id) then io_ret (px_error 400 "invalid_job_id") else proxyJson now jar req path session_only
    else io_ret (px_error 404 "not_found")
  | _ => io_ret (px_error 404 "not_found")
  end%string.

(** ** api/rpc/route.ts *)

Definition RPC_WINDOW_MS : Z := 60000.
Definition MAX_REQUESTS : Z := 100.

Record rpc_entry := { re_count : Z; re_reset : Z }.

Definition isRateLimited (ip : string) (now : Z) (hits : list (string * rpc_entry)) : bool * list (string * rpc_entry) :=
  let entry := match map_get ip hits with
               | Some e => if re_reset e <? now then {| re_count := 0; re_reset := now + RPC_WINDOW_MS |} else e
               | None => {| re_count := 0; re_reset := now + RPC_WINDOW_MS |}
               end in
  let entry := {| re_count := re_count entry + 1; re_reset := re_reset entry |} in
  (MAX_REQUESTS <? re_count entry, map_set ip entry hits).

Definition client_ip (headers : list (string * string)) : string :=
  match map_get "x-forwarded-for" headers with
  | Some v => trim (default "" (head (split_on comma v)))
  | None => default "127.0.0.1" (map_get "x-real-ip" headers)
  end%string.

Definition rpc_error (code : Z) (message : string) : json :=
  J_obj [("jsonrpc", J_str "2.0"); ("error", J_obj [("code", J_num (inject_Z code)); ("message", J_str message)])].

(** The counts after the request, and what it still does. *)
Definition rpc_POST (now : Z) (req : next_request) (hits : list (string * rpc_entry)) : list (string * rpc_entry) * io W px_reply :=
  match env "HELIUS_RPC_URL" with
  | Some (String _ _ as rpcUrl) =>
    let '(limited, hits') := isRateLimited (client_ip (nr_headers req)) now hits in
    (hits', if limited then io_ret (px_json 429 (rpc_error (-32005) "Rate limit exceeded"))
            else do! u <- io_lift (new_URL P rpcUrl) in
                 do! upstream <- px_fetch ops {| fc_url := u; fc_method := "POST"; fc_headers := [("Content-Type", "application/json")];
                                                 fc_body := Some (nr_body req); fc_manual := false |} in
                 io_ret {| px_status := ft_status upstream; px_headers := [("Content-Type", "application/json")];
                           px_content := PX_text (ft_body upstream) |})
  | _ => (hits, io_ret (px_json 503 (rpc_error (-32603) "RPC not configured")))
  end%string.

(** ** api/treasury/kamino-route/route.ts *)

Definition ROUTE_BUILDER_URL : string :=
  let given := fun name => match env name with Some t => trim t | None => "" end in
  if String.eqb (given "SAEP_KAMINO_ROUTE_BUILDER_URL") "" then given "KAMINO_ROUTE_BUILDER_URL" else given "SAEP_KAMINO_ROUTE_BUILDER_URL".

Definition ACTIONS : list string := ["deposit"; "withdraw"; "emergency_unwind"]%string.

(** [/^(0x)?[0-9a-fA-F]...$/] *)
Definition isHexText (size : nat -> bool) (s : string) : bool := let t := strip_0x s in all_chars hex_any t && size (String.length t).

Definition isHex (value : json) (bytes : nat) : bool :=
  match value with J_str s => isHexText (fun n => n =? bytes * 2)%nat s | _ => false end.

Definition base58_char (c : ascii) : bool :=
  char_in 49 57 c || char_in 65 72 c || char_in 74 78 c || char_in 80 90 c || char_in 97 107 c || char_in 109 122 c.

Definition isBase58Like (value : json) : bool :=
  match value with J_str s => all_chars base58_char s && len_between 32 44 s | _ => false end.

(** [a.key], [undefined] being [null] here: every use treats them alike. *)
Definition prop_of (key : string) (v : json) : json :=
  match v with J_obj fs => default J_null (member key fs) | _ => J_null end.

Definition normalizeRoutePayload (raw : json) : result json :=
  match raw with
  | J_obj _ | J_arr _ =>
    let routeDataHex := match prop_of "routeDataHex" raw with J_null => prop_of "routeData" raw | v => v end in
    match routeDataHex with
    | J_str s =>
      if negb (isHexText (fun n => 1 <=? n)%nat s) then Throw "route builder response must include hex routeDataHex"
      else match prop_of "routeAccounts" raw with
           | J_arr l => Ok (J_obj [("routeDataHex", J_str (strip_0x s)); ("routeAccounts", J_arr l)])
           | _ => Throw "route builder response must include routeAccounts array"
           end
    | _ => Throw "route builder response must include hex routeDataHex"
    end
  | _ => Throw "route builder returned a non-object payload"
  end%string.

(** [/^[1-9][0-9]*$/] *)
Definition positive_text (s : string) : bool :=
  match s with String c s' => char_in 49 57 c && all_chars (char_in 48 57) s' | EmptyString => false end.

(** [String(v ?? '')] *)
Definition text_or_empty (v : json) : string := match v with J_null => "" | J_str s => s | v => js_String P v end.

Definition route_guidance : string :=
  "Set SAEP_KAMINO_ROUTE_BUILDER_URL on the portal service to enable one-click route preparation, or paste route data manually for devnet/operator verification.".

(** What is refused before anything is sent. *)
Definition route_refused (body : json) : option px_reply :=
  let action := text_or_empty (prop_of "action" body) in
  if negb (bool_decide (action ∈ ACTIONS)) then Some (px_error 400 "action must be deposit, withdraw, or emergency_unwind")
  else if negb (isHex (prop_of "agentDidHex" body) 32) || negb (isHex (prop_of "strategyIdHex" body) 32)
  then Some (px_error 400 "agentDidHex and strategyIdHex must be 32-byte hex strings")
  else match List.find (fun key => negb (isBase58Like (prop_of key body))) ["underlyingMint"; "receiptMint"; "strategyProgram"] with
  | Some key => Some (px_error 400 (key +:+ " must be a valid base58 public key string"))
  | None =>
    if negb (String.eqb action "emergency_unwind") && negb (positive_text (text_or_empty (prop_of "amountRaw" body)))
    then Some (px_error 400 "amountRaw must be a positive integer string")
    else if String.eqb ROUTE_BUILDER_URL ""
    then Some (px_json 501 (J_obj [("error", J_str "Kamino route builder is not configured"); ("code", J_str "route_builder_missing");
                                   ("guidance", J_str route_guidance)]))
    else None
  end%string.

(** The body as [req.json()] gives it; reading a field of [null] throws. *)
Definition kamino_POST (body : result json) : io W px_reply :=
  io_catch
    (do! b <- io_lift body in
     do! _ <- io_check (negb (match b with J_null => true | _ => false end)) "Cannot read properties of null (reading 'action')" in
     match route_refused b with
     | Some r => io_ret r
     | None =>
       do! u <- io_lift (new_URL P ROUTE_BUILDER_URL) in
       do! upstream <- px_fetch ops {| fc_url := u; fc_method := "POST"; fc_headers := [("content-type", "application/json"); ("accept", "application/json")];
                                       fc_body := Some (json_text P b); fc_manual := false |} in
       let v := default J_null (json_parse P (ft_body upstream)) in
       if negb ((200 <=? ft_status upstream) && (ft_status upstream <? 300))%Z
       then io_ret (px_json 502 (J_obj [("error", J_str "Kamino route builder rejected the request");
                                        ("status", J_num (inject_Z (ft_status upstream))); ("details", v)]))
       else do! payload <- io_lift (normalizeRoutePayload v) in io_ret (px_json 200 payload)
     end)
    (fun e => io_ret (px_error 500 e))%string.
End proxies.

(** ** What the theorems take of the outside world *)

(** [log] lists the requests sent: a fetch that ends, in an answer or not, is one
    more. *)
Definition logs {W} (ops : proxy_ops W) (log : W -> list fetch_call) : Prop :=
  forall c w r w', px_fetch ops c w = Some (r, w') -> log w' = log w ++ [c].

(** What jose's [jwtVerify] checks at second [now] of a token signed with HS256 under
    its key, as its documentation says: a claim an option names must be there and
    equal, the algorithm must be among those listed, an expiry must lie ahead. *)
Definition option_met (wanted claim : option string) : bool :=
  match wanted with Some x => bool_decide (claim = Some x) | None => true end.

Definition jose_accepts (now : Z) (c : payload) (o : jwt_options) : bool :=
  option_met (jo_issuer o) (p_iss c) && option_met (jo_audience o) (p_aud c) &&
  match jo_algorithms o with Some l => existsb (String.eqb "HS256") l | None => true end &&
  match p_exp c with Some e => now <? e | None => true end.

(** jose in the proof generator, on the tokens the portal signs: under any options it
    gives the subject of those it accepts and throws on the others. *)
Definition proofgen_jose (L : auth_lib) (lib : proof_lib) (now : Z) : Prop :=
  forall secret c o, jwtVerify lib (jwt_sign L (utf8 secret) c) secret o = (if jose_accepts now c o then Some (p_sub c) else None).

(** A compact token has no white space. *)
Definition solid_tokens (L : auth_lib) : Prop :=
  forall k c, all_chars (fun c => negb (is_js_space c)) (jwt_sign L k c) = true.

(** ** The proof generator behind the portal *)

(** What the proxy lets through. *)
Inductive proofgen_route : string -> list string -> Prop :=
| PG_healthz : proofgen_route "GET" ["healthz"%string]
| PG_circuits : proofgen_route "GET" ["circuits"%string]
| PG_prove : proofgen_route "POST" ["prove"%string]
| PG_job id : job_id_text id = true -> proofgen_route "GET" ["jobs"%string; id].

Section proofgen.
Context {W : Type}.
Variable P : proxy_lib.
Variable ops : proxy_ops W.
Variable env : string -> option string.
Variable L : auth_lib.
Hypothesis HL : auth_laws L.
Variable penv : portal_env.
Variable log : W -> list fetch_call.
Hypothesis Hlog : logs ops log.

Definition is_prove (path : list string) : bool := bool_decide (path = ["prove"%string]).

Definition opts_of (path : list string) : proxy_opts := if is_prove path then with_bearer else session_only.

Lemma route_proxied now jar req path : proofgen_route (nr_method req) path ->
  proofgen_handle P ops env L penv now jar req path = proxyJson P ops env L penv now jar req path (opts_of path).
Proof.
  destruct req as [m hs q b]. cbn [nr_method]. intros H. unfold proofgen_handle. cbn [nr_method]. inversion H; subst; [done..|].
  cbn [String.eqb Ascii.eqb Bool.eqb andb]. by rewrite H0.
Qed.

Lemma handle_routes now jar req path :
  (proofgen_route (nr_method req) path /\
   proofgen_handle P ops env L penv now jar req path = proxyJson P ops env L penv now jar req path (opts_of path)) \/
  exists r, proofgen_handle P ops env L penv now jar req path = io_ret r.
Proof.
  destruct req as [m hs q b]. unfold proofgen_handle. cbn [nr_method].
  destruct path as [|resource [|id [|]]]; [right; by eexists| | |right; by eexists].
  - destruct (String.eqb_spec m "GET") as [->|]; cbn [andb]; [|].
    + destruct (String.eqb_spec resource "healthz") as [->|]; [left; split; [constructor|done]|].
      destruct (String.eqb_spec resource "circuits") as [->|]; [left; split; [constructor|done]|right; by eexists].
    + destruct (String.eqb_spec m "POST") as [->|]; cbn [andb]; [|right; by eexists].
      destruct (String.eqb_spec resource "prove") as [->|]; [left; split; [constructor|done]|right; by eexists].
  - destruct (String.eqb_spec m "GET") as [->|]; cbn [andb]; [|right; by eexists].
    destruct (String.eqb_spec resource "jobs") as [->|]; [|right; by eexists].
    destruct (job_id_text id) eqn:E; cbn [negb]; [left; split; [by constructor|done]|right; by eexists].
Qed.

(** The request a session's owner has sent to the proof generator. *)
Definition proofgen_call (u : url) (now : Z) (s : SessionPayload) (req : next_request) (path : list string) : fetch_call :=
  {| fc_url := {| u_origin := u_origin u; u_search := nr_search req;
                  u_pathname := set_pathname P (one_slash (strip_slash (u_pathname u) +:+ "/" +:+ join_path path)) |};
     fc_method := nr_method req;
     fc_headers := match map_get "content-type" (nr_headers req) with
                   | Some (String _ _ as t) => [("content-type", t)]
                   | _ => []
                   end ++ [("accept", "application/json")] ++
                   if is_prove path
                   then [("authorization", "Bearer " +:+ jwt_sign L (key penv) (session_payload (Messages.address s) (Some PROOFGEN_AUDIENCE) now PROOFGEN_TOKEN_TTL_SECONDS))]
                   else [];
     fc_body := if bool_decide (nr_method req ∈ BODYLESS_METHODS) then None else Some (nr_body req);
     fc_manual := true |}%string.

Lemma io_catch_run {A} (m : io W A) h w r w' : io_catch m h w = Some (r, w') ->
  (m w = Some (r, w')) \/ exists e w1, m w = Some (Throw e, w1) /\ h e w1 = Some (r, w').
Proof. unfold io_catch. destruct (m w) as [[[a|e] w1]|]; [by left|right; eauto|done]. Qed.

(** One attempt to send [c]. *)
Definition forward (c : fetch_call) : io W px_reply :=
  io_catch
    (do! upstream <- px_fetch ops c in
     io_ret {| px_status := ft_status upstream;
               px_headers := [("content-type", default "application/json" (map_get "content-type" (ft_headers upstream)));
                              ("x-saep-proofgen-proxy", "1")];
               px_content := PX_text (ft_body upstream) |})
    (fun e => io_ret (px_json 503 (J_obj [("error", J_str "proofgen_upstream_unavailable"); ("detail", J_str e)])))%string.

Lemma forward_logs c w r w' : forward c w = Some (r, w') -> log w' = log w ++ [c].
Proof.
  unfold forward. intros [H|(e & w1 & H & Hr)]%io_catch_run.
  - apply io_bind_run in H as [(x & w1 & H1%Hlog & H2)|(e & H1%Hlog & _)]; [|done]. by injection H2 as _ <-.
  - apply io_bind_run in H as [(x & w2 & _ & H2)|(e' & H1%Hlog & _)]; [discriminate H2|]. by injection Hr as _ <-.
Qed.

Lemma lift_then {A B} (a : A) (k : A -> io W B) : io_bind (io_lift (Ok a)) k = k a.
Proof. reflexivity. Qed.

(** The token of a bearer header, as the proof generator cuts it out. *)
Lemma bearer_cut t : String.substring 7 (String.length ("Bearer " +:+ t) - 7) ("Bearer " +:+ t) = t.
Proof.
  change (String.substring 0 (String.length t - 0) t = t). rewrite Nat.sub_0_r.
  induction t as [|c t IH]; [done|]. cbn [String.length String.substring]. by rewrite IH.
Qed.

Lemma bearer_prefix t : String.prefix "Bearer " ("Bearer " +:+ t) = true.
Proof. by destruct t. Qed.

Lemma bearer_minted now jar s t : configured penv -> readSession L penv now jar = Ok (Some s) ->
  t = jwt_sign L (key penv) (session_payload (Messages.address s) (Some PROOFGEN_AUDIENCE) now PROOFGEN_TOKEN_TTL_SECONDS) ->
  proofGenBearer L penv now jar = Ok (Some t).
Proof.
  intros [_ Hk]%configured_keys Hs ->. unfold proofGenBearer. rewrite Hs. cbn [result_bind]. unfold signSession. by rewrite Hk.
Qed.

Lemma read_configured now jar s : readSession L penv now jar = Ok (Some s) -> configured penv.
Proof.
  unfold readSession. destruct (negb _); [done|]. intros (k & Hk & _)%result_bind_ok. by eapply secret_configured.
Qed.

Lemma opts_session path : requireSession (opts_of path) || proofBearer (opts_of path) = true.
Proof. unfold opts_of. by destruct (is_prove path). Qed.

(** A session's request is the one above. *)
Lemma proxyJson_sends now jar req path base u s : proofGenBaseUrl env penv = Some base -> new_URL P base = Ok u ->
  readSession L penv now jar = Ok (Some s) ->
  proxyJson P ops env L penv now jar req path (opts_of path) = forward (proofgen_call u now s req path).
Proof.
  intros Eb Eu Es. unfold proxyJson, upstreamUrl. rewrite Eb, Eu. cbn [result_bind]. rewrite lift_then. cbv zeta.
  rewrite opts_session. cbn [andb]. rewrite (bearer_minted _ _ s _ (read_configured _ _ _ Es) Es eq_refl), lift_then.
  cbn [truthy]. rewrite (proj2 (String.eqb_neq _ _) (law_text _ HL _ _)). cbn [negb].
  unfold forward, proofgen_call, opts_of. by destruct (is_prove path); cbn [proofBearer with_bearer session_only];
    rewrite <- ?app_assoc, ?app_nil_r.
Qed.

(** Any other is answered without being sent. *)
Lemma proxyJson_spec now jar req path :
  (exists r, proxyJson P ops env L penv now jar req path (opts_of path) = fun w => Some (r, w)) \/
  (exists u base s, proofGenBaseUrl env penv = Some base /\ new_URL P base = Ok u /\ readSession L penv now jar = Ok (Some s) /\
     proxyJson P ops env L penv now jar req path (opts_of path) = forward (proofgen_call u now s req path)).
Proof.
  destruct (proofGenBaseUrl env penv) as [base|] eqn:Eb; [|left; unfold proxyJson, upstreamUrl; rewrite Eb; by eexists].
  destruct (new_URL P base) as [u|e] eqn:Eu; [|left; unfold proxyJson, upstreamUrl; rewrite Eb, Eu; by eexists].
  destruct (readSession L penv now jar) as [[s|]|e] eqn:Es.
  { right. exists u, base, s. repeat (split; [done|]). by apply (proxyJson_sends _ _ _ _ base). }
  all: left; unfold proxyJson, upstreamUrl; rewrite Eb, Eu; cbn [result_bind]; rewrite lift_then; cbv zeta;
    rewrite opts_session; unfold proofGenBearer; rewrite Es; by eexists.
Qed.

Lemma call_bearer u now s req path : map_get "authorization" (fc_headers (proofgen_call u now s req path)) =
  if is_prove path
  then Some ("Bearer " +:+ jwt_sign L (key penv) (session_payload (Messages.address s) (Some PROOFGEN_AUDIENCE) now PROOFGEN_TOKEN_TTL_SECONDS))
  else None.
Proof.
  unfold proofgen_call. cbn [fc_headers]. destruct (map_get "content-type" (nr_headers req)) as [[|]|]; by destruct (is_prove path).
Qed.

Lemma call_headers u now s req path : Forall (fun h => h.1 ∈ ["content-type"; "accept"; "authorization"]%string) (fc_headers (proofgen_call u now s req path)).
Proof.
  unfold proofgen_call. cbn [fc_headers]. destruct (map_get "content-type" (nr_headers req)) as [[|]|]; destruct (is_prove path);
    repeat constructor.
Qed.

(** The portal passes on to the proof generator only what a signed-in wallet may ask: a
    request is sent at most once, only when its cookie holds a session, whose owner did
    sign in; only to the four routes under the configured base URL; without the
    browser's cookies or authorization; and a bearer goes only with a proof request, and
    is one minted for that wallet. *)
Theorem proofgen_proxy_safe (h : PortalSafety.world) (w w' : W) now jar req path r
  (Hh : history L penv h) (Hu : unforged L penv h jar)
  (H : proofgen_handle P ops env L penv now jar req path w = Some (r, w')) :
  log w' = log w \/
  exists c u base s, log w' = log w ++ [c] /\
    proofgen_route (nr_method req) path /\ fc_method c = nr_method req /\ fc_manual c = true /\
    proofGenBaseUrl env penv = Some base /\ new_URL P base = Ok u /\ u_origin (fc_url c) = u_origin u /\
    readSession L penv now jar = Ok (Some s) /\ signed_in L h (Messages.address s) /\
    Forall (fun h => h.1 ∈ ["content-type"; "accept"; "authorization"]%string) (fc_headers c) /\
    (forall b, map_get "authorization" (fc_headers c) = Some b -> path = ["prove"%string] /\
       proofGenBearer L penv now jar = Ok (Some (String.substring 7 (String.length b - 7) b))).
Proof.
  destruct (handle_routes now jar req path) as [[Hr E]|[r' E]]; rewrite E in H; [|by injection H as _ <-; left].
  destruct (proxyJson_spec now jar req path) as [[r' E']|(u & base & s & Eb & Eu & Es & E')]; rewrite E' in H; [by injection H as _ <-; left|].
  right. exists (proofgen_call u now s req path), u, base, s. split; [by apply forward_logs in H|].
  repeat (split; [done|]). split; [by eapply session_traced; [done|apply history_traced| |]|]. split; [apply call_headers|].
  intros b. rewrite call_bearer. unfold is_prove. case_bool_decide as Hp; [|done]. intros [= <-]. split; [done|]. rewrite bearer_cut.
  apply (bearer_minted _ _ s); [|done..]. by eapply read_configured.
Qed.


(** C23: a signed-in wallet reaches the proof generator as itself: its proof request is sent
    on, the answer comes back, and until the bearer expires, five minutes later, a proof
    generator with the portal's secret takes the request to be the wallet's. *)
Theorem proofgen_knows_wallet (w w' : W) (lib : proof_lib) now later jar req base u s resp
  (Hs : readSession L penv now jar = Ok (Some s)) (Hm : nr_method req = "POST"%string)
  (Hb : proofGenBaseUrl env penv = Some base) (Hu : new_URL P base = Ok u)
  (Hf : px_fetch ops (proofgen_call u now s req ["prove"%string]) w = Some (Ok resp, w'))
  (Hj : proofgen_jose L lib later) (Ht : solid_tokens L) (Hl : later < now / 1000 + PROOFGEN_TOKEN_TTL_SECONDS) :
  let c := proofgen_call u now s req ["prove"%string] in
  exists r, proofgen_handle P ops env L penv now jar req ["prove"%string] w = Some (Ok r, w') /\
    px_status r = ft_status resp /\ px_content r = PX_text (ft_body resp) /\ log w' = log w ++ [c] /\
    resolveAgent lib (SESSION_SECRET penv) (map_get "authorization" (fc_headers c)) = Some (Messages.address s).
Proof.
  rewrite route_proxied by (rewrite Hm; constructor). rewrite (proxyJson_sends _ _ _ _ base u s Hb Hu Hs). unfold forward, io_catch.
  rewrite (bind_ok_run _ _ _ _ _ Hf). eexists. repeat (split; [done|]). split; [by apply Hlog in Hf|].
  rewrite call_bearer. change (is_prove ["prove"%string]) with true. destruct (read_configured _ _ _ Hs) as (secret & Es & Hn).
  unfold resolveAgent. cbv beta iota zeta. rewrite bearer_prefix. cbv iota. rewrite bearer_cut.
  rewrite trim_id by apply Ht. rewrite (proj2 (String.eqb_neq _ _) (law_text _ HL _ _)). unfold getSessionKey. rewrite Es.
  unfold SESSION_KEY_LENGTH. rewrite (proj2 (Nat.ltb_ge _ _) Hn). unfold key. rewrite Es. change (default ""%string (Some secret)) with secret.
  rewrite Hj. unfold jose_accepts, session_options, option_met. cbn [jo_issuer jo_audience jo_algorithms session_payload p_iss p_aud p_exp p_sub].
  rewrite (proj2 (Z.ltb_lt _ _) Hl). by rewrite !bool_decide_true.
Qed.
End proofgen.

(** ** Public services *)

Fixpoint has_text (p s : string) : bool :=
  String.prefix p s || match s with String _ s' => has_text p s' | EmptyString => false end.

Lemma has_text_app p a b : has_text p (a +:+ (p +:+ b)) = true.
Proof.
  induction a as [|c a IH]; [|change (String c a +:+ (p +:+ b)) with (String c (a +:+ (p +:+ b))); cbn [has_text]; by rewrite IH, orb_true_r].
  change ("" +:+ (p +:+ b)) with (p +:+ b). destruct (p +:+ b) eqn:E; cbn [has_text]; by rewrite <- E, prefix_app.
Qed.

Lemma default_not_below env k t : DEFAULT_UPSTREAMS k <> getPublicServicePublicUrl env k +:+ t.
Proof.
  intros E. assert (has_text "/api/" (DEFAULT_UPSTREAMS k) = false) as Hn by (by destruct k).
  rewrite E in Hn. unfold getPublicServicePublicUrl in Hn. rewrite string_app_assoc in Hn.
  assert (exists b, sd_publicBasePath (PUBLIC_SERVICES env k) = "/api/" +:+ b) as [b Hb] by (destruct k; by eexists).
  rewrite Hb, string_app_assoc, has_text_app in Hn. discriminate Hn.
Qed.

(** Whatever the environment says, a public service is not its own upstream: the
    upstream is neither the service's public address nor below it. *)
Theorem upstream_elsewhere env k :
  getPublicServiceUpstreamUrl env k <> getPublicServicePublicUrl env k /\
  String.prefix (getPublicServicePublicUrl env k +:+ "/") (getPublicServiceUpstreamUrl env k) = false.
Proof.
  unfold getPublicServiceUpstreamUrl. cbv zeta.
  destruct (String.eqb _ _ || String.prefix _ _) eqn:E.
  - split; [rewrite <- (string_app_nil_r (getPublicServicePublicUrl env k)); apply default_not_below|].
    apply not_true_is_false. intros (t & Ht)%prefix_split. rewrite string_app_assoc in Ht. by apply default_not_below in Ht.
  - apply orb_false_iff in E as [E1%String.eqb_neq E2]. by split.
Qed.

(** ** The RPC proxy's rate limit *)

Section rpc.
Context {W : Type}.
Variable P : proxy_lib.
Variable ops : proxy_ops W.
Variable env : string -> option string.
Variable log : W -> list fetch_call.
Hypothesis Hlog : logs ops log.

(** Requests, each at its time, one after the other. *)
Fixpoint rpc_serve (reqs : list (Z * next_request)) (hits : list (string * rpc_entry)) : io W (list (string * rpc_entry)) :=
  match reqs with
  | [] => io_ret hits
  | (now, req) :: reqs' =>
    let '(hits', answer) := rpc_POST P ops env now req hits in
    do! _ <- io_try answer in rpc_serve reqs' hits'
  end.

Lemma rpc_step now req hits h m : rpc_POST P ops env now req hits = (h, m) ->
  (h = hits /\ forall w r w', m w = Some (r, w') -> log w' = log w) \/
  (h = (isRateLimited (client_ip (nr_headers req)) now hits).2 /\ forall w r w', m w = Some (r, w') ->
     (length (log w') <= length (log w) + if (isRateLimited (client_ip (nr_headers req)) now hits).1 then 0 else 1)%nat).
Proof.
  unfold rpc_POST. destruct (env "HELIUS_RPC_URL"%string) as [[|c u]|]; [intros [= <- <-]; left; by split; [|intros w r w' [= _ <-]]|
    |intros [= <- <-]; left; by split; [|intros w r w' [= _ <-]]].
  destruct (isRateLimited _ now hits) as [[|] hits']; intros [= <- <-]; right; (split; [done|]); cbn [fst snd]; intros w r w' H;
    [injection H as _ <-; lia|].
  apply io_bind_run in H as [(url & w1 & H1 & H2)|(e & [= _ <-] & _)]; [|lia]. injection H1 as _ ->.
  apply io_bind_run in H2 as [(x & w2 & H1%Hlog & H2)|(e & H1%Hlog & _)].
  - injection H2 as _ <-. rewrite H1, length_app. cbn. lia.
  - rewrite H1, length_app. cbn. lia.
Qed.

(** What a client may still send up to time [T]. *)
Definition left_of (e : option rpc_entry) (T : Z) : Z :=
  match e with
  | Some e => Z.max 0 (MAX_REQUESTS - re_count e) + if T <=? re_reset e then 0 else MAX_REQUESTS
  | None => MAX_REQUESTS
  end.

Lemma limited_left ip now T hits : now <= T <= now + RPC_WINDOW_MS ->
  match map_get ip hits with Some e => 0 <= re_count e | None => True end ->
  left_of (map_get ip (isRateLimited ip now hits).2) T + (if (isRateLimited ip now hits).1 then 0 else 1) <= left_of (map_get ip hits) T /\
  match map_get ip (isRateLimited ip now hits).2 with Some e => 0 <= re_count e | None => True end.
Proof.
  intros HT Hc. unfold isRateLimited. cbv zeta. cbn [fst snd]. rewrite map_get_set, decide_True by done. cbn [left_of re_count re_reset].
  unfold RPC_WINDOW_MS, MAX_REQUESTS in *. destruct (map_get ip hits) as [e|]; cbn [left_of].
  - destruct (Z.ltb_spec (re_reset e) now); cbn [re_count re_reset].
    + unfold MAX_REQUESTS. change (100 <? 0 + 1) with false. rewrite (proj2 (Z.leb_le _ _)) by lia.
      rewrite (proj2 (Z.leb_gt T (re_reset e))) by lia. lia.
    + unfold MAX_REQUESTS. destruct (Z.ltb_spec 100 (re_count e + 1)); lia.
  - unfold MAX_REQUESTS. cbn [re_count re_reset]. change (100 <? 0 + 1) with false. rewrite (proj2 (Z.leb_le _ _)) by lia. lia.
Qed.

Lemma rpc_budget ip T reqs hits w r w' : Forall (fun '(now, req) => now <= T <= now + RPC_WINDOW_MS /\ client_ip (nr_headers req) = ip) reqs ->
  match map_get ip hits with Some e => 0 <= re_count e | None => True end ->
  rpc_serve reqs hits w = Some (r, w') -> Z.of_nat (length (log w')) <= Z.of_nat (length (log w)) + left_of (map_get ip hits) T.
Proof.
  revert hits w. induction reqs as [|[now req] reqs IH]; intros hits w Ht Hc H; cbn [rpc_serve] in H.
  - injection H as _ <-. destruct (map_get ip hits) as [e|]; cbn [left_of]; unfold MAX_REQUESTS; repeat case_match; lia.
  - apply Forall_cons in Ht as [Hx Ht']. destruct Hx as [HT Hip]. subst ip. destruct (rpc_POST P ops env now req hits) as [h answer] eqn:E.
    apply io_bind_run in H as [(x & w1 & H1 & H2)|(e & H1 & _)]; [|unfold io_try in H1; by destruct (answer w) as [[]|]].
    unfold io_try in H1. destruct (answer w) as [[x' w2]|] eqn:Ea; [|done]. injection H1 as _ ->.
    apply rpc_step in E as [[-> Hw]|[-> Hw]]; apply Hw in Ea.
    + apply (IH _ _ Ht' Hc) in H2. by rewrite <- Ea.
    + pose proof (limited_left (client_ip (nr_headers req)) now T hits HT Hc) as [Hl Hc'].
      apply (IH _ _ Ht' Hc') in H2. destruct (isRateLimited _ now hits).1; lia.
Qed.

(** The limit holds for a client that names itself honestly: of the requests of one
    address within a minute at most two hundred reach the paid RPC node (the end of one
    window and the beginning of the next), whatever the counts before. *)
Theorem rpc_rate_bounded ip t reqs hits (w w' : W) r
  (Ht : Forall (fun '(now, req) => t <= now <= t + RPC_WINDOW_MS /\ client_ip (nr_headers req) = ip) reqs)
  (Hc : match map_get ip hits with Some e => 0 <= re_count e | None => True end)
  (H : rpc_serve reqs hits w = Some (r, w')) : Z.of_nat (length (log w')) <= Z.of_nat (length (log w)) + 2 * MAX_REQUESTS.
Proof.
  apply (rpc_budget ip (t + RPC_WINDOW_MS)) in H; [|eapply Forall_impl; [exact Ht|]; intros [now req] [? ?]; split; [lia|done]|done].
  enough (left_of (map_get ip hits) (t + RPC_WINDOW_MS) <= 2 * MAX_REQUESTS) by lia.
  unfold left_of, MAX_REQUESTS. destruct (map_get ip hits); [|lia]. case_match; lia.
Qed.

Lemma set_fresh_length {V} (k : string) (v : V) m : map_get k m = None -> length (map_set k v m) = S (length m).
Proof. induction m as [|[k' v'] m IH]; cbn; [done|]. case_decide; [done|]. intros Hk. cbn. by rewrite IH. Qed.

Lemma rpc_fresh now req hits u : env "HELIUS_RPC_URL"%string = Some u -> u <> ""%string -> map_get (client_ip (nr_headers req)) hits = None ->
  exists m, rpc_POST P ops env now req hits = (map_set (client_ip (nr_headers req)) {| re_count := 1; re_reset := now + RPC_WINDOW_MS |} hits, m) /\
    m = (do! url <- io_lift (new_URL P u) in
         do! upstream <- px_fetch ops {| fc_url := url; fc_method := "POST"; fc_headers := [("Content-Type", "application/json")];
                                         fc_body := Some (nr_body req); fc_manual := false |} in
         io_ret {| px_status := ft_status upstream; px_headers := [("Content-Type", "application/json")];
                   px_content := PX_text (ft_body upstream) |})%string.
Proof.
  intros Eu Hne Hn. unfold rpc_POST. rewrite Eu. destruct u as [|c u]; [done|]. unfold isRateLimited. rewrite Hn. eexists. split; reflexivity.
Qed.

(** The limit is no limit for one that does not: the first part of x-forwarded-for is
    the sender's own text, and requests that all name another address are all sent, each
    leaving one more entry that nothing ever removes. *)
Theorem rpc_limit_evaded u url reqs (w : W) (Hu : env "HELIUS_RPC_URL"%string = Some u) (Hne : u <> ""%string) (Hp : new_URL P u = Ok url)
  (Hf : forall c, io_total (px_fetch ops c)) (Hd : NoDup (map (fun '(_, req) => client_ip (nr_headers req)) reqs)) :
  exists hits w', rpc_serve reqs [] w = Some (Ok hits, w') /\ length (log w') = (length (log w) + length reqs)%nat /\
    length hits = length reqs.
Proof.
  enough (forall hits, (forall now req, (now, req) ∈ reqs -> map_get (client_ip (nr_headers req)) hits = None) ->
    exists h w', rpc_serve reqs hits w = Some (Ok h, w') /\ length (log w') = (length (log w) + length reqs)%nat /\
      length h = (length hits + length reqs)%nat) as K by (by apply K).
  revert w. induction reqs as [|[now req] reqs IH]; intros w hits Hn; cbn [rpc_serve].
  - exists hits, w. cbn. by rewrite !Nat.add_0_r.
  - cbn in Hd. apply NoDup_cons in Hd as [Hx Hd]. destruct (rpc_fresh now req hits u Hu Hne) as (m & -> & ->); [apply (Hn now); by left|].
    rewrite Hp, lift_then. unfold io_bind at 1, io_try. unfold io_bind at 1.
    destruct (Hf {| fc_url := url; fc_method := "POST"; fc_headers := [("Content-Type", "application/json")];
                    fc_body := Some (nr_body req); fc_manual := false |}%string w) as [[x w1] Ex]. rewrite Ex. apply Hlog in Ex.
    destruct (IH Hd w1 (map_set (client_ip (nr_headers req)) {| re_count := 1; re_reset := now + RPC_WINDOW_MS |} hits)) as (h & w' & E & E1 & E2).
    { intros now' req' Hin. rewrite map_get_set_ne; [apply (Hn now'); by right|]. intros Ee. apply Hx. apply list_elem_of_In, in_map_iff.
      exists (now', req'). split; [done|]. by apply list_elem_of_In. }
    exists h, w'. split; [by destruct x|]. rewrite E1, E2, Ex, length_app, set_fresh_length by (apply (Hn now); by left). cbn. lia.
Qed.
End rpc.

(** ** What leaves through the public proxies *)

Section public.
Context {W : Type}.
Variable P : proxy_lib.
Variable ops : proxy_ops W.
Variable env : string -> option string.
Variable log : W -> list fetch_call.
Hypothesis Hlog : logs ops log.

Lemma copy_get name headers : map_get name (copyHeaders headers) =
  if bool_decide (name ∈ HOP_BY_HOP_HEADERS) then None else map_get name headers.
Proof.
  induction headers as [|[n v] hs IH]; [by case_bool_decide|]. unfold copyHeaders in *. cbn [List.filter fst map_get].
  destruct (decide (name = n)) as [->|Hne].
  - case_bool_decide as Hn; cbn [negb]; [exact IH|]. cbn [map_get]. by rewrite decide_True.
  - destruct (negb _); [|exact IH]. cbn [map_get]. by rewrite decide_False.
Qed.

(** The request a service is sent. *)
Definition service_call (req : next_request) (k : PublicServiceKey) (path : list string) (base : url) : fetch_call :=
  {| fc_url := {| u_origin := u_origin base; u_search := nr_search req;
                  u_pathname := set_pathname P (joinPath (u_pathname base) (join_path (resolvePublicServiceUpstreamPath k path))) |};
     fc_method := nr_method req; fc_headers := copyHeaders (nr_headers req);
     fc_body := if bool_decide (nr_method req ∈ BODYLESS_METHODS) then None else Some (nr_body req); fc_manual := true |}.

Lemma service_sends k p ps req base r (w w' : W) : nr_method req <> "OPTIONS"%string ->
  new_URL P (getPublicServiceUpstreamUrl env k) = Ok base ->
  service_handle P ops env req (key_text k) (p :: ps) w = Some (r, w') -> log w' = log w ++ [service_call req k (p :: ps) base].
Proof.
  intros Hm Hu H. unfold service_handle in H. assert (isServiceKey (key_text k) = Some k) as Hk by (by destruct k). rewrite Hk in H.
  unfold proxyPublicServiceRequest in H. rewrite (proj2 (String.eqb_neq _ _) Hm) in H. cbv zeta in H. rewrite Hu, lift_then in H.
  fold (service_call req k (p :: ps) base) in H. apply io_catch_run in H as [H|(e & w1 & H & Hr)];
    apply io_bind_run in H as [(x & w2 & H1%Hlog & H2)|(e' & H1%Hlog & He)]; [by injection H2 as _ <-|done|discriminate H2|].
  by injection Hr as _ <-.
Qed.

(** A service's request is passed on once, to the configured upstream, with its method,
    query and body, and with every header that belongs to the request: its cookies and
    authorization too. *)
Theorem public_proxy_forwards k p ps req base r (w w' : W)
  (Hm : nr_method req <> "OPTIONS"%string) (Hu : new_URL P (getPublicServiceUpstreamUrl env k) = Ok base)
  (H : service_handle P ops env req (key_text k) (p :: ps) w = Some (r, w')) :
  exists c, log w' = log w ++ [c] /\ fc_method c = nr_method req /\ fc_manual c = true /\
    u_origin (fc_url c) = u_origin base /\ u_search (fc_url c) = nr_search req /\
    fc_body c = (if bool_decide (nr_method req ∈ BODYLESS_METHODS) then None else Some (nr_body req)) /\
    forall name, map_get name (fc_headers c) = if bool_decide (name ∈ HOP_BY_HOP_HEADERS) then None else map_get name (nr_headers req).
Proof.
  exists (service_call req k (p :: ps) base). split; [by eapply service_sends|]. repeat (split; [done|]). intros name. apply copy_get.
Qed.

(** ** The route builder *)

Lemma normalized_payload v q : normalizeRoutePayload v = Ok q ->
  exists hex accounts, q = J_obj [("routeDataHex"%string, J_str hex); ("routeAccounts"%string, J_arr accounts)] /\
    all_chars hex_any hex = true /\ hex <> ""%string.
Proof.
  unfold normalizeRoutePayload. cbv zeta. intros H. assert (exists d, match d with
    | J_str s => if negb (isHexText (fun n => 1 <=? n)%nat s) then Throw "route builder response must include hex routeDataHex"%string
                 else match prop_of "routeAccounts" v with
                      | J_arr l => Ok (J_obj [("routeDataHex"%string, J_str (strip_0x s)); ("routeAccounts"%string, J_arr l)])
                      | _ => Throw "route builder response must include routeAccounts array"%string
                      end
    | _ => Throw "route builder response must include hex routeDataHex"%string end = Ok q) as [d Hd].
  { destruct v; try discriminate H; by eexists. }
  destruct d; try discriminate Hd. destruct (isHexText _ s) eqn:E; cbn [negb] in Hd; [|discriminate Hd].
  destruct (prop_of "routeAccounts" v); try discriminate Hd. injection Hd as <-. exists (strip_0x s), l. split; [done|].
  unfold isHexText in E. cbv zeta in E. apply andb_true_iff in E as [E1 E2]. split; [done|]. by destruct (strip_0x s).
Qed.

Lemma refused_status b x : route_refused P env b = Some x -> px_status x = 400 \/ px_status x = 501.
Proof. unfold route_refused. cbv zeta. repeat case_match; intros [= <-]; cbn; auto. Qed.

Lemma io_catch_split {A} (m : io W A) h w r w' : io_catch m h w = Some (r, w') ->
  (exists a, r = Ok a /\ m w = Some (Ok a, w')) \/ exists e w1, m w = Some (Throw e, w1) /\ h e w1 = Some (r, w').
Proof. unfold io_catch. destruct (m w) as [[[a|e] w1]|]; [intros [= <- <-]; eauto|right; eauto|done]. Qed.

(** The part of the route after the checks. *)
Definition ask_builder (b : json) : io W px_reply :=
  do! u <- io_lift (new_URL P (ROUTE_BUILDER_URL env)) in
  do! upstream <- px_fetch ops {| fc_url := u; fc_method := "POST"; fc_headers := [("content-type", "application/json"); ("accept", "application/json")];
                                  fc_body := Some (json_text P b); fc_manual := false |} in
  let v := default J_null (json_parse P (ft_body upstream)) in
  if negb ((200 <=? ft_status upstream) && (ft_status upstream <? 300))%Z
  then io_ret (px_json 502 (J_obj [("error", J_str "Kamino route builder rejected the request");
                                   ("status", J_num (inject_Z (ft_status upstream))); ("details", v)]))
  else do! payload <- io_lift (normalizeRoutePayload v) in io_ret (px_json 200 payload).

Definition route_shape (v : json) : Prop :=
  exists hex accounts, v = J_obj [("routeDataHex"%string, J_str hex); ("routeAccounts"%string, J_arr accounts)] /\
    all_chars hex_any hex = true /\ hex <> ""%string.

Lemma ask_builder_run b (w w' : W) r : ask_builder b w = Some (r, w') ->
  (log w' = log w \/ exists u c, new_URL P (ROUTE_BUILDER_URL env) = Ok u /\ log w' = log w ++ [c] /\ fc_url c = u /\ fc_body c = Some (json_text P b)) /\
  (forall reply, r = Ok reply -> px_status reply = 200 -> exists v, px_content reply = PX_json v /\ route_shape v).
Proof.
  unfold ask_builder. destruct (new_URL P (ROUTE_BUILDER_URL env)) as [u|e]; [rewrite lift_then|intros [= <- <-]; by split; [left|]].
  intros H. apply io_bind_run in H as [(x & w1 & H1 & H2)|(e & H1%Hlog & ->)]; [|split; [right; by eexists _, _|done]].
  pose proof H1 as Hl%Hlog. cbv zeta in H2. destruct (negb _).
  - injection H2 as <- <-. split; [right; by eexists _, _|]. by intros reply [= <-].
  - destruct (normalizeRoutePayload _) as [q|e] eqn:Eq; injection H2 as <- <-; (split; [right; by eexists _, _|]); [|done].
    intros reply [= <-] _. exists q. split; [done|]. by eapply normalized_payload.
Qed.

(** Preparing a Kamino route never throws; the builder is asked at most once, only for a
    body that passed every check and only at the configured address; and a route that is
    handed out has its data in hex and a list of accounts. *)
Theorem kamino_route_checked body r (w w' : W) (H : kamino_POST P ops env body w = Some (r, w')) :
  exists reply, r = Ok reply /\
    (log w' = log w \/ exists b u c, body = Ok b /\ route_refused P env b = None /\ new_URL P (ROUTE_BUILDER_URL env) = Ok u /\
       log w' = log w ++ [c] /\ fc_url c = u /\ fc_body c = Some (json_text P b)) /\
    (px_status reply = 200 -> exists v, px_content reply = PX_json v /\ route_shape v).
Proof.
  unfold kamino_POST in H. apply io_catch_split in H as [(a & -> & H)|(e & w1 & H & Hr)].
  - exists a. split; [done|]. apply io_bind_ok in H as (b & w1 & [-> ->]%io_lift_ok & H).
    apply io_bind_ok in H as (? & w1 & [_ ->]%io_check_ok & H). destruct (route_refused P env b) as [x0|] eqn:Eb.
    + injection H as <- <-. split; [by left|]. by destruct (refused_status _ _ Eb) as [-> | ->].
    + apply (ask_builder_run b) in H as [H1 H2]. split; [|by apply H2]. destruct H1 as [Hw|(u & c & Hw)]; [by left|right; by exists b, u, c].
  - injection Hr as <- <-. eexists. split; [done|]. split; [|done].
    apply io_bind_throw in H as [[= _ <-]|(b & w2 & [-> ->]%io_lift_ok & H)]; [by left|].
    apply io_bind_throw in H as [H|(? & w2 & [_ ->]%io_check_ok & H)]; [left; by destruct (negb _) in H; injection H as _ <-|].
    destruct (route_refused P env b) as [x0|] eqn:Eb; [discriminate H|].
    apply (ask_builder_run b) in H as [[Hw|(u & c & Hw)] _]; [by left|right; by exists b, u, c].
Qed.
End public.

(** ** Concrete proxies *)

Definition a_proxy : proxy_lib :=
  {| new_URL := fun s => Ok {| u_origin := s; u_pathname := "/"; u_search := "" |}; set_pathname := fun p => p;
     json_parse := text_tree; json_text := tree_text; js_String := tree_text |}.

Definition an_answer : fetched :=
  {| ft_status := 200; ft_headers := [];
     ft_body := tree_text (J_obj [("routeData", J_str "0x0a1b"); ("routeAccounts", J_arr [])]) |}%string.

(** The world is what was sent. *)
Definition a_net : proxy_ops (list fetch_call) := {| px_fetch := fun c w => Some (Ok an_answer, w ++ [c]) |}.

Definition all_sent (w : list fetch_call) : list fetch_call := w.

Lemma a_net_logs : logs a_net all_sent.
Proof. by intros c w r w' [= _ <-]. Qed.

Definition a_proof_lib (now : Z) : proof_lib :=
  {| stringify := tree_text; parse := text_tree; sha256_hex := fun s => s; ProofGen.to_base64 := fun s => s; of_base64 := fun s => s;
     encrypt := fun _ _ pt => (pt, ""%string); decrypt := fun _ _ _ ct => Some ct; is_uuid := fun _ => true;
     jwtVerify := fun token secret o =>
       match a_read token with
       | Some (k, c) => if bool_decide (k = utf8 secret) && jose_accepts now c o then Some (p_sub c) else None
       | None => None
       end |}.

Lemma a_jose now : proofgen_jose a_lib (a_proof_lib now) now.
Proof.
  intros secret c o. cbn [jwtVerify a_proof_lib]. change (jwt_sign a_lib) with a_sign. by rewrite a_read_sign, bool_decide_true.
Qed.

Lemma a_solid : solid_tokens a_lib.
Proof.
  intros k c. cbn [jwt_sign a_lib]. unfold a_sign, tree_text. cbn [all_chars]. change (negb (is_js_space "j"%char)) with true. cbn [andb].
  induction (countable.encode _) as [p IH|p IH|]; [exact IH..|reflexivity].
Qed.

Definition no_env (_ : string) : option string := None.
Definition pg_env (name : string) : option string := if String.eqb name "PROOFGEN_URL" then Some "http://proofgen/"%string else None.
Definition signed_jar : list (string * string) := [(COOKIE, a_session_token)].
Definition a_session : SessionPayload := {| Messages.address := "addr"; issuedAt := 2; session_expiresAt := 86402 |}.

Lemma jar_session : readSession a_lib an_env 3000 signed_jar = Ok (Some a_session).
Proof. vm_compute. reflexivity. Qed.

Lemma jar_unforged : unforged a_lib an_env in_world signed_jar.
Proof. apply single_unforged. pose proof tokens_given as [[_ Hg]%andb_true_iff _]%andb_true_iff. by apply bool_decide_eq_true in Hg. Qed.

Definition prove_post : next_request :=
  {| nr_method := "POST"; nr_headers := [("cookie", "saep_session=secret"); ("x-forwarded-for", "10.0.0.1, 10.0.0.2")]; nr_search := ""; nr_body := "{}" |}.
Definition ip_post (ip : string) : next_request :=
  {| nr_method := "POST"; nr_headers := [("x-forwarded-for"%string, ip)]; nr_search := ""; nr_body := "{}" |}.

Lemma it_runs {A} (o : option A) : (match o with Some _ => true | None => false end) = true -> is_Some o.
Proof. by destruct o; [eexists|]. Qed.

Lemma prove_runs : is_Some (proofgen_handle a_proxy a_net pg_env a_lib an_env 3000 signed_jar prove_post ["prove"%string] []).
Proof. apply it_runs. vm_compute. reflexivity. Qed.

Lemma proofgen_proxy_safe_witness : exists r w', proofgen_handle a_proxy a_net pg_env a_lib an_env 3000 signed_jar prove_post ["prove"%string] [] = Some (r, w') /\
  (w' = [] \/ exists c s, w' = [c] /\ signed_in a_lib in_world (Messages.address s)).
Proof.
  destruct prove_runs as [[r w'] H]. exists r, w'. split; [exact H|].
  destruct (proofgen_proxy_safe a_proxy a_net pg_env a_lib a_lib_laws an_env all_sent a_net_logs in_world [] w' 3000 signed_jar prove_post ["prove"%string] r
    in_world_history jar_unforged H) as [E|(c & u & base & s & E & _ & _ & _ & _ & _ & _ & _ & Hs & _)]; [left; exact E|right; exists c, s; by split].
Defined.

Lemma proofgen_knows_wallet_witness : exists r w' c,
  proofgen_handle a_proxy a_net pg_env a_lib an_env 3000 signed_jar prove_post ["prove"%string] [] = Some (Ok r, w') /\ px_status r = 200 /\
  resolveAgent (a_proof_lib 302) (SESSION_SECRET an_env) (map_get "authorization" (fc_headers c)) = Some "addr"%string.
Proof.
  pose proof (proofgen_knows_wallet a_proxy a_net pg_env a_lib a_lib_laws an_env all_sent a_net_logs [] _ (a_proof_lib 302) 3000 302 signed_jar prove_post
    "http://proofgen" {| u_origin := "http://proofgen"; u_pathname := "/"; u_search := "" |} a_session an_answer jar_session
    eq_refl eq_refl eq_refl eq_refl (a_jose 302) a_solid eq_refl) as H.
  cbv zeta in H. destruct H as (r & H & Hs & _ & _ & Ha). exists r. do 2 eexists. split; [exact H|]. split; [exact Hs|exact Ha].
Defined.

Definition rpc_env (name : string) : option string := if String.eqb name "HELIUS_RPC_URL" then Some "https://rpc"%string else None.

Lemma rpc_runs : is_Some (rpc_serve a_proxy a_net rpc_env [(0, ip_post "10.0.0.1"); (50000, ip_post "10.0.0.1, 10.0.0.9")] [] []).
Proof. apply it_runs. vm_compute. reflexivity. Qed.

Lemma rpc_rate_bounded_witness : exists r w', rpc_serve a_proxy a_net rpc_env [(0, ip_post "10.0.0.1"); (50000, ip_post "10.0.0.1, 10.0.0.9")] [] [] = Some (r, w') /\
  Z.of_nat (length w') <= 200.
Proof.
  destruct rpc_runs as [[r w'] H]. exists r, w'. split; [exact H|].
  refine (rpc_rate_bounded a_proxy a_net rpc_env all_sent a_net_logs "10.0.0.1" 0 _ [] [] w' r _ I H).
  unfold RPC_WINDOW_MS. repeat constructor; by vm_compute.
Defined.

Lemma rpc_limit_evaded_witness : exists hits w', rpc_serve a_proxy a_net rpc_env [(0, ip_post "1"); (1, ip_post "2"); (2, ip_post "3")] [] [] = Some (Ok hits, w') /\
  length w' = 3%nat /\ length hits = 3%nat.
Proof.
  refine (rpc_limit_evaded a_proxy a_net rpc_env all_sent a_net_logs "https://rpc" {| u_origin := "https://rpc"; u_pathname := "/"; u_search := "" |}
    [(0, ip_post "1"); (1, ip_post "2"); (2, ip_post "3")] [] eq_refl _ eq_refl _ _).
  - discriminate.
  - intros c w. by eexists.
  - apply (bool_decide_unpack _). vm_compute. exact I.
Defined.

Lemma public_proxy_forwards_witness : exists r w' c, service_handle a_proxy a_net no_env prove_post "x402" ["proxy"%string] [] = Some (r, w') /\ w' = [c] /\
  map_get "cookie" (fc_headers c) = Some "saep_session=secret"%string.
Proof.
  assert (H : is_Some (service_handle a_proxy a_net no_env prove_post "x402" ["proxy"%string] [])) by (apply it_runs; vm_compute; reflexivity).
  destruct H as [[r w'] H]. exists r, w'.
  destruct (public_proxy_forwards a_proxy a_net no_env all_sent a_net_logs x402 "proxy" [] prove_post
    {| u_origin := "https://saep-x402-gateway.onrender.com"; u_pathname := "/"; u_search := "" |} r [] w') as (c & E & _ & _ & _ & _ & _ & Hh);
    [discriminate|reflexivity|exact H|].
  exists c. split; [exact H|]. split; [exact E|exact (Hh "cookie"%string)].
Defined.

Definition kamino_env (name : string) : option string := if String.eqb name "KAMINO_ROUTE_BUILDER_URL" then Some " https://builder "%string else None.
Definition a_key : string := "So11111111111111111111111111111111111111112".
Definition a_did : string := "0000000000000000000000000000000000000000000000000000000000000001".
Definition kamino_body : json :=
  J_obj [("action", J_str "emergency_unwind"); ("agentDidHex", J_str a_did); ("strategyIdHex", J_str a_did);
         ("underlyingMint", J_str a_key); ("receiptMint", J_str a_key); ("strategyProgram", J_str a_key)]%string.

Lemma kamino_runs : exists reply w', kamino_POST a_proxy a_net kamino_env (Ok kamino_body) [] = Some (Ok reply, w') /\ px_status reply = 200.
Proof. eexists _, _. split; [vm_compute; reflexivity|reflexivity]. Qed.

Lemma kamino_route_checked_witness : exists reply w' v, kamino_POST a_proxy a_net kamino_env (Ok kamino_body) [] = Some (Ok reply, w') /\
  px_content reply = PX_json v /\ route_shape v.
Proof.
  destruct kamino_runs as (reply & w' & H & Hs).
  destruct (kamino_route_checked a_proxy a_net kamino_env all_sent a_net_logs (Ok kamino_body) (Ok reply) [] w' H) as (reply' & E & _ & Hv).
  injection E as <-. destruct (Hv Hs) as (v & E & Hsh). exists reply, w', v. split; [exact H|]. split; [exact E|exact Hsh].
Defined.
