(* ===== verification/DiscoveryHooks.v ===== *)
(** * DiscoveryHooks: the portal's reads of the indexer

    Models the discovery hooks of packages/sdk-ui/src/hooks (tasks.ts, agents.ts, bids.ts,
    reputation.ts, treasury.ts): their query keys, URLs and mapped rows; the treasury
    yield research of treasury.ts and packages/sdk/src/research/yield.ts; and what the
    Rust indexer behind the portal's proxy serves (services/indexer/src), its route table,
    its task and agent queries' checks and the fields of its rows.  A number is an
    integer; [undefined] is [null] in a row, which the hooks' [??] treats alike.
    [URLSearchParams], JSON and Rust's integer parser are parameters. *)

From Stdlib Require Import ZArith QArith Ascii Lia.
From stdpp Require Import base list strings.
From S2P Require Import Prelude Effects JsMap Json Hex Zod Messages PortalAuth PortalSafety ProofGen Numbers PortalProxy.

#[local] Open Scope Z_scope.
#[local] Open Scope saep_scope.

(** ** Responses *)

Record hook_response := { hr_status : Z; hr_statusText : string; hr_body : string }.

Definition ok_response (r : hook_response) : bool := (200 <=? hr_status r) && (hr_status r <? 300).

(** [fetchIndexerJson], [fetchDiscoveryJson] and reputation.ts's [fetchJson]: the same
    text in four files. *)
Definition fetchIndexerJson (json_parse : string -> option json) (res : hook_response) : result json :=
  if negb (ok_response res)
  then Throw ("indexer " +:+ z_text (hr_status res) +:+ ": " +:+ (if String.eqb (hr_body res) "" then hr_statusText res else hr_body res))
  else match json_parse (hr_body res) with Some v => Ok v | None => Throw "Unexpected token" end.

(** ** Mapped rows *)

(** One property of a mapped row: [to: raw.f1 ?? raw.f2 ?? otherwise]. *)
Record row_prop := { to : string; from : list string; otherwise : json }.

Definition same (target source : string) : row_prop := {| to := target; from := [source]; otherwise := J_null |}.
Definition or_else (target : string) (sources : list string) (d : json) : row_prop := {| to := target; from := sources; otherwise := d |}.

Fixpoint first_set (raw : json) (sources : list string) (d : json) : json :=
  match sources with
  | [] => d
  | f :: fs => match prop_of f raw with J_null => first_set raw fs d | v => v end
  end.

Definition map_row (ms : list row_prop) (raw : json) : list (string * json) :=
  map (fun m => (to m, first_set raw (from m) (otherwise m))) ms.

(** Reading a property of [null] throws. *)
Definition map_fields (ms : list row_prop) (raw : json) : result json :=
  match raw with
  | J_null => Throw "Cannot read properties of null"
  | _ => Ok (J_obj (map_row ms raw))
  end.

(** The same with one property that is mapped in its turn. *)
Definition map_nested (ms : list row_prop) (target source : string) (f : json -> result json) (raw : json) : result json :=
  match raw with
  | J_null => Throw "Cannot read properties of null"
  | _ => let! v := f (prop_of source raw) in Ok (J_obj (app (map_row ms raw) [(target, v)]))
  end.

Fixpoint map_all (f : json -> result json) (vs : list json) : result (list json) :=
  match vs with
  | [] => Ok []
  | v :: vs' => let! w := f v in let! ws := map_all f vs' in Ok (w :: ws)
  end.

(** [v.map(f)] *)
Definition map_items (f : json -> result json) (v : json) : result json :=
  match v with
  | J_arr vs => let! ws := map_all f vs in Ok (J_arr ws)
  | _ => Throw "Cannot read properties (reading 'map')"
  end.

Definition zero : json := J_num 0.
Definition no : json := J_bool false.

Definition mapComputeBond_fields : list row_prop :=
  [same "leaseId" "lease_id"; same "agentDid" "agent_did"; same "provider" "provider"; same "gpuHours" "gpu_hours";
   same "expiresAt" "expires_at"; same "slashableUntil" "slashable_until"; same "taskId" "task_id"; same "status" "status";
   same "statusReason" "status_reason"; same "reservedPriceUsdMicro" "reserved_price_usd_micro"; same "brokerPubkey" "broker_pubkey";
   same "attestationSig" "attestation_sig"; same "createdAtMs" "created_at_ms"; same "updatedAtMs" "updated_at_ms";
   same "providerStatus" "provider_status"]%string.

Definition mapComputeBond : json -> result json := map_fields mapComputeBond_fields.

Definition mapIndexedTask_fields : list row_prop :=
  [or_else "taskIdHex" ["task_id_hex"; "task_id"] (J_str ""); same "creator" "creator"; same "agentDidHex" "agent_did_hex";
   same "status" "status"; same "rewardLamports" "reward_lamports"; same "capabilityMask" "capability_mask";
   same "createdAtUnix" "created_at_unix"; same "deadlineUnix" "deadline_unix"; same "updatedAtUnix" "updated_at_unix"]%string.

Definition mapIndexedTask : json -> result json :=
  map_nested mapIndexedTask_fields "computeBonds" "compute_bonds" (map_items mapComputeBond).

Definition mapTaskMatchSummary_fields : list row_prop :=
  [same "requiredCapabilityBits" "required_capability_bits"; same "matchedCapabilityBits" "matched_capability_bits";
   same "missingCapabilityBits" "missing_capability_bits"; same "coverageBps" "coverage_bps"; same "fitScore" "fit_score";
   or_else "baseFitScoreBps" ["base_fit_score_bps"; "fit_score"] J_null; same "capabilityReputationComposite" "capability_reputation_composite";
   same "availability" "availability"; same "costEfficiency" "cost_efficiency"; same "honesty" "honesty";
   same "jobsCompleted" "jobs_completed"; same "jobsDisputed" "jobs_disputed"; or_else "confidenceBps" ["confidence_bps"] zero;
   or_else "disputeRateBps" ["dispute_rate_bps"] zero; or_else "lowHistory" ["low_history"] no; or_else "lowConfidence" ["low_confidence"] no;
   or_else "availabilityWarning" ["availability_warning"] no; or_else "disputeWarning" ["dispute_warning"] no;
   or_else "trustState" ["trust_state"] (J_str "watch"); or_else "lowHistoryPenaltyBps" ["low_history_penalty_bps"] zero;
   or_else "disputePenaltyBps" ["dispute_penalty_bps"] zero; or_else "availabilityPenaltyBps" ["availability_penalty_bps"] zero]%string.

Definition mapTaskMatchSummary : json -> result json := map_fields mapTaskMatchSummary_fields.

(** agents.ts has the same properties, and [null] when there is no summary. *)
Definition mapDiscoveryMatchSummary (raw : json) : result json :=
  match raw with
  | J_null => Ok J_null
  | _ => map_fields mapTaskMatchSummary_fields raw
  end.

Definition mapTaskMatchCandidate_fields : list row_prop :=
  [same "didHex" "did_hex"; same "operator" "operator"; same "capabilityMask" "capability_mask"; same "stakeLamports" "stake_lamports";
   same "reputationComposite" "reputation_composite"; same "status" "status"; same "lastActiveUnix" "last_active_unix"]%string.

Definition mapTaskMatchCandidate : json -> result json :=
  map_nested mapTaskMatchCandidate_fields "matchSummary" "match_summary" mapTaskMatchSummary.

Definition mapDiscoveryAgent : json -> result json :=
  map_nested mapTaskMatchCandidate_fields "matchSummary" "match_summary" mapDiscoveryMatchSummary.

Definition taskMatches_fields : list row_prop :=
  [same "taskIdHex" "task_id_hex"; same "taskStatus" "task_status"; same "capabilityBit" "capability_bit"]%string.

Definition biddingState_fields : list row_prop :=
  [same "taskIdHex" "task_id_hex"; same "phase" "phase"; same "commitCount" "commit_count"; same "revealCount" "reveal_count";
   same "slashedCount" "slashed_count"; same "bondAmount" "bond_amount"; same "commitEndUnix" "commit_end_unix";
   same "revealEndUnix" "reveal_end_unix"; same "winnerAgent" "winner_agent"; same "winnerBidder" "winner_bidder";
   same "winnerAmount" "winner_amount"]%string.

Definition taskBid_fields : list row_prop :=
  [same "bidder" "bidder"; same "bondPaid" "bond_paid"; same "revealedAmount" "revealed_amount"; same "slashed" "slashed"]%string.

Definition toRow_fields : list row_prop :=
  [same "agentDidHex" "agent_did_hex"; same "capabilityBit" "capability_bit"; same "quality" "quality"; same "timeliness" "timeliness";
   same "availability" "availability"; same "costEfficiency" "cost_efficiency"; same "honesty" "honesty"; same "jobsCompleted" "jobs_completed";
   same "jobsDisputed" "jobs_disputed"; same "compositeScore" "composite_score"; or_else "baseScoreBps" ["base_score_bps"; "composite_score"] J_null;
   or_else "trustScore" ["trust_score"; "composite_score"] J_null; or_else "rankDelta" ["rank_delta"] zero; same "lastUpdateUnix" "last_update_unix";
   or_else "confidenceBps" ["confidence_bps"] zero; or_else "disputeRateBps" ["dispute_rate_bps"] zero; or_else "lowHistory" ["low_history"] no;
   or_else "lowConfidence" ["low_confidence"] no; or_else "availabilityWarning" ["availability_warning"] no;
   or_else "disputeWarning" ["dispute_warning"] no; or_else "trustState" ["trust_state"] (J_str "watch");
   or_else "lowHistoryPenaltyBps" ["low_history_penalty_bps"] zero; or_else "disputePenaltyBps" ["dispute_penalty_bps"] zero;
   or_else "availabilityPenaltyBps" ["availability_penalty_bps"] zero]%string.

Definition toRetro_fields : list row_prop :=
  [same "operatorHex" "operator_hex"; same "netFeesMicroUsdc" "net_fees_micro_usdc"; same "washExcludedMicroUsdc" "wash_excluded_micro_usdc";
   same "personhoodTier" "personhood_tier"; same "personhoodMultiplier" "personhood_multiplier"; same "coldStartMultiplier" "cold_start_multiplier";
   same "estimatedAllocation" "estimated_allocation"; same "epochFirstSeen" "epoch_first_seen"; same "lastUpdatedUnix" "last_updated_unix"]%string.

Definition mapYieldStrategy_fields : list row_prop :=
  [same "strategyIdHex" "strategy_id_hex"; same "venue" "venue"; same "strategyProgram" "strategy_program"; same "underlyingMint" "underlying_mint";
   same "receiptMint" "receipt_mint"; same "maxAllocationBps" "max_allocation_bps"; same "riskTier" "risk_tier"; same "status" "status";
   same "name" "name"; same "metadataUri" "metadata_uri"; same "registeredUnix" "registered_unix"; same "statusUpdatedUnix" "status_updated_unix"]%string.

Definition mapTreasuryYieldSnapshot_fields : list row_prop :=
  [same "didHex" "did_hex"; same "strategyIdHex" "strategy_id_hex"; same "allocationBps" "allocation_bps"; same "status" "status";
   same "unwindRequested" "unwind_requested"; same "idleAmount" "idle_amount"; same "deployedAmount" "deployed_amount";
   same "realizedYieldAmount" "realized_yield_amount"; same "accountingSlot" "accounting_slot"; same "configuredUnix" "configured_unix";
   same "unwindRequestedUnix" "unwind_requested_unix"; same "accountingUpdatedUnix" "accounting_updated_unix"]%string.

Definition mapTreasuryYieldPosition_fields : list row_prop :=
  [same "didHex" "did_hex"; same "strategyIdHex" "strategy_id_hex"; same "vaultMint" "vault_mint"; same "receiptMint" "receipt_mint";
   same "principalAmount" "principal_amount"; same "receiptAmount" "receipt_amount"; same "realizedYieldAmount" "realized_yield_amount";
   same "deployedAmount" "deployed_amount"; same "idleAmount" "idle_amount"; same "accountingSlot" "accounting_slot"; same "status" "status";
   same "unwindRequested" "unwind_requested"; same "lastEventName" "last_event_name"; same "updatedUnix" "updated_unix"]%string.

(** ** The hooks *)

Record UseDiscoveryTasksArgs := {
  dt_indexerUrl : string; dt_statuses : option (list string); dt_capability : option Z; dt_minReward : option string;
  dt_page : Z; dt_limit : Z; dt_enabled : bool;
}.
Record UseDiscoveryAgentTasksArgs := {
  at_indexerUrl : string; at_agentDidHex : option string; at_statuses : option (list string); at_page : Z; at_limit : Z; at_enabled : bool;
}.
Record UseTaskComputeBondsArgs := {
  cb_indexerUrl : string; cb_taskIdHex : option string; cb_status : option string; cb_provider : option string; cb_limit : Z; cb_enabled : bool;
}.
Record UseDiscoveryAgentsArgs := {
  da_indexerUrl : string; da_capabilityMaskHex : option string; da_minReputation : option Z; da_status : string; da_sort : string;
  da_limit : Z; da_enabled : bool;
}.
Record UseLeaderboardArgs := {
  lb_indexerUrl : string; lb_capabilityBit : Z; lb_limit : option Z; lb_cursor : option Z; lb_enabled : bool;
}.
Record UseIndexedYieldStrategiesArgs := {
  ys_indexerUrl : string; ys_venue : option string; ys_status : option string; ys_limit : Z; ys_enabled : bool;
}.

(** A discovery hook with its arguments, the defaults of its parameters filled in. *)
Inductive read_hook :=
| useDiscoveryTasks (a : UseDiscoveryTasksArgs)
| useDiscoveryAgentTasks (a : UseDiscoveryAgentTasksArgs)
| useTaskComputeBonds (a : UseTaskComputeBondsArgs)
| useDiscoveryTaskDetail (indexerUrl : string) (taskIdHex : option string) (enabled : bool)
| useDiscoveryTaskMatches (indexerUrl : string) (taskIdHex : option string) (limit : Z) (enabled : bool)
| useDiscoveryAgents (a : UseDiscoveryAgentsArgs)
| useBiddingState (indexerUrl : string) (taskIdHex : option string)
| useTaskBidsIndexed (indexerUrl : string) (taskIdHex : option string)
| useLeaderboard (a : UseLeaderboardArgs)
| useAgentReputation (indexerUrl : string) (agentDidHex : option string) (enabled : bool)
| useRetroEligibility (indexerUrl : string) (operatorHex : option string) (enabled : bool)
| useIndexedYieldStrategies (a : UseIndexedYieldStrategiesArgs)
| useIndexedTreasuryYield (indexerUrl : string) (agentDidHex : option string) (enabled : bool)
| useIndexedTreasuryYieldPositions (indexerUrl : string) (agentDidHex : option string) (enabled : bool).

(** [Boolean(id && id.length === 64)] *)
Definition ready (id : option string) : bool := match id with Some s => (String.length s =? 64)%nat | None => false end.

(** [`${id}`] *)
Definition id_text (id : option string) : string := default "null"%string id.

(** [if (v) params.set(name, v)], for texts, and [if (v != null) params.set(name, String(v))] *)
Definition given_text (name : string) (v : option string) : list (string * string) := if truthy v then [(name, default ""%string v)] else [].
Definition given_number (name : string) (v : option Z) : list (string * string) := match v with Some n => [(name, z_text n)] | None => [] end.

(** [statuses.join(',')] *)
Definition joined_texts (l : list string) : string := String.concat "," l.

Definition given_statuses (l : option (list string)) : list (string * string) :=
  match l with Some ((_ :: _) as l) => [("status"%string, joined_texts l)] | _ => [] end.

Definition status_key (l : option (list string)) : json := match l with Some l => J_str (joined_texts l) | None => J_null end.
Definition number_key (v : option Z) : json := match v with Some n => J_num (inject_Z n) | None => J_null end.

(** The query of a request, [None] when its URL has no question mark. *)
Definition hook_params (h : read_hook) : option (list (string * string)) :=
  match h with
  | useDiscoveryTasks a =>
    Some (given_statuses (dt_statuses a) ++ given_number "capability" (dt_capability a) ++ given_text "min_reward" (dt_minReward a) ++
          [("page", z_text (dt_page a)); ("limit", z_text (dt_limit a))])
  | useDiscoveryAgentTasks a => Some (given_statuses (at_statuses a) ++ [("page", z_text (at_page a)); ("limit", z_text (at_limit a))])
  | useTaskComputeBonds a => Some (given_text "status" (cb_status a) ++ given_text "provider" (cb_provider a) ++ [("limit", z_text (cb_limit a))])
  | useDiscoveryTaskMatches _ _ limit _ => Some [("limit", z_text limit)]
  | useDiscoveryAgents a =>
    Some (given_text "capability_mask" (da_capabilityMaskHex a) ++ given_number "min_reputation" (da_minReputation a) ++
          given_text "status" (Some (da_status a)) ++ given_text "sort" (Some (da_sort a)) ++ [("limit", z_text (da_limit a))])
  | useLeaderboard a => Some (("capability", z_text (lb_capabilityBit a)) :: given_number "limit" (lb_limit a) ++ given_number "cursor" (lb_cursor a))
  | useIndexedYieldStrategies a => Some (given_text "venue" (ys_venue a) ++ given_text "status" (ys_status a) ++ [("limit", z_text (ys_limit a))])
  | useDiscoveryTaskDetail _ _ _ | useBiddingState _ _ | useTaskBidsIndexed _ _ | useAgentReputation _ _ _ | useRetroEligibility _ _ _
  | useIndexedTreasuryYield _ _ _ | useIndexedTreasuryYieldPositions _ _ _ => None
  end%list%string.

(** The path of a request below the indexer's URL. *)
Definition hook_path (h : read_hook) : list string :=
  match h with
  | useDiscoveryTasks _ => ["tasks"]
  | useDiscoveryAgentTasks a => ["agents"; id_text (at_agentDidHex a); "tasks"]
  | useTaskComputeBonds a => ["tasks"; id_text (cb_taskIdHex a); "compute-bonds"]
  | useDiscoveryTaskDetail _ id _ => ["tasks"; id_text id]
  | useDiscoveryTaskMatches _ id _ _ => ["v1"; "discovery"; "tasks"; id_text id; "matches"]
  | useDiscoveryAgents _ => ["v1"; "discovery"; "agents"]
  | useBiddingState _ id => ["tasks"; id_text id; "bidding"]
  | useTaskBidsIndexed _ id => ["tasks"; id_text id; "bids"]
  | useLeaderboard _ => ["leaderboard"]
  | useAgentReputation _ id _ => ["agents"; id_text id; "reputation"]
  | useRetroEligibility _ id _ => ["retro"; "eligibility"; id_text id]
  | useIndexedYieldStrategies _ => ["v1"; "discovery"; "treasury"; "yield-strategies"]
  | useIndexedTreasuryYield _ id _ => ["v1"; "discovery"; "treasury"; id_text id; "yield"]
  | useIndexedTreasuryYieldPositions _ id _ => ["v1"; "discovery"; "treasury"; id_text id; "yield"; "positions"]
  end%string.

Definition hook_base (h : read_hook) : string :=
  match h with
  | useDiscoveryTasks a => dt_indexerUrl a | useDiscoveryAgentTasks a => at_indexerUrl a | useTaskComputeBonds a => cb_indexerUrl a
  | useDiscoveryTaskDetail u _ _ | useDiscoveryTaskMatches u _ _ _ | useBiddingState u _ | useTaskBidsIndexed u _
  | useAgentReputation u _ _ | useRetroEligibility u _ _ | useIndexedTreasuryYield u _ _ | useIndexedTreasuryYieldPositions u _ _ => u
  | useDiscoveryAgents a => da_indexerUrl a | useLeaderboard a => lb_indexerUrl a | useIndexedYieldStrategies a => ys_indexerUrl a
  end.

(** Whether the query runs. *)
Definition hook_enabled (h : read_hook) : bool :=
  match h with
  | useDiscoveryTasks a => dt_enabled a
  | useDiscoveryAgentTasks a => at_enabled a && ready (at_agentDidHex a)
  | useTaskComputeBonds a => cb_enabled a && ready (cb_taskIdHex a)
  | useDiscoveryTaskDetail _ id e | useDiscoveryTaskMatches _ id _ e | useAgentReputation _ id e | useRetroEligibility _ id e
  | useIndexedTreasuryYield _ id e | useIndexedTreasuryYieldPositions _ id e => e && ready id
  | useDiscoveryAgents a => da_enabled a
  | useBiddingState _ id | useTaskBidsIndexed _ id => ready id
  | useLeaderboard a => lb_enabled a
  | useIndexedYieldStrategies a => ys_enabled a
  end.

(** [queryKey] *)
Definition hook_key (h : read_hook) : list json :=
  match h with
  | useDiscoveryTasks a =>
    [J_str "discovery-tasks"; J_str (dt_indexerUrl a); status_key (dt_statuses a); number_key (dt_capability a); opt_text (dt_minReward a);
     J_num (inject_Z (dt_page a)); J_num (inject_Z (dt_limit a))]
  | useDiscoveryAgentTasks a =>
    [J_str "discovery-agent-tasks"; J_str (at_indexerUrl a); opt_text (at_agentDidHex a); status_key (at_statuses a);
     J_num (inject_Z (at_page a)); J_num (inject_Z (at_limit a))]
  | useTaskComputeBonds a =>
    [J_str "task-compute-bonds"; J_str (cb_indexerUrl a); opt_text (cb_taskIdHex a); opt_text (cb_status a); opt_text (cb_provider a);
     J_num (inject_Z (cb_limit a))]
  | useDiscoveryTaskDetail u id _ => [J_str "discovery-task-detail"; J_str u; opt_text id]
  | useDiscoveryTaskMatches u id limit _ => [J_str "discovery-task-matches"; J_str u; opt_text id; J_num (inject_Z limit)]
  | useDiscoveryAgents a =>
    [J_str "discovery-agents"; J_str (da_indexerUrl a); opt_text (da_capabilityMaskHex a); number_key (da_minReputation a);
     J_str (da_status a); J_str (da_sort a); J_num (inject_Z (da_limit a))]
  | useBiddingState _ id => [J_str "bidding-state"; opt_text id]
  | useTaskBidsIndexed _ id => [J_str "task-bids-indexed"; opt_text id]
  | useLeaderboard a => [J_str "leaderboard"; J_num (inject_Z (lb_capabilityBit a)); number_key (lb_limit a); number_key (lb_cursor a)]
  | useAgentReputation _ id _ => [J_str "agent-reputation"; opt_text id]
  | useRetroEligibility _ id _ => [J_str "retro-eligibility"; opt_text id]
  | useIndexedYieldStrategies a =>
    [J_str "indexed-yield-strategies"; J_str (ys_indexerUrl a); opt_text (ys_venue a); opt_text (ys_status a); J_num (inject_Z (ys_limit a))]
  | useIndexedTreasuryYield u id _ => [J_str "indexed-treasury-yield"; J_str u; opt_text id]
  | useIndexedTreasuryYieldPositions u id _ => [J_str "indexed-treasury-yield-positions"; J_str u; opt_text id]
  end%string.

Section hooks.
Variable P : proxy_lib.
Variable form : list (string * string) -> string.  (* URLSearchParams.toString *)

Definition hook_url (h : read_hook) : string :=
  strip_slash (hook_base h) +:+ "/" +:+ join_path (hook_path h) +:+
  match hook_params h with Some ps => "?" +:+ form ps | None => "" end.

(** [raw.items.map(f)] *)
Definition items (f : json -> result json) (raw : json) : result json := map_items f (prop_of "items" raw).

(** [queryFn], from the answer to its request. *)
Definition hook_result (h : read_hook) (res : hook_response) : result json :=
  let fetched := fetchIndexerJson (json_parse P) res in
  match h with
  | useDiscoveryTasks _ | useDiscoveryAgentTasks _ => let! raw := fetched in items mapIndexedTask raw
  | useTaskComputeBonds _ => let! raw := fetched in items mapComputeBond raw
  | useDiscoveryTaskDetail _ _ _ => let! raw := fetched in mapIndexedTask raw
  | useDiscoveryTaskMatches _ _ _ _ =>
    let! raw := fetched in
    let! candidates := items mapTaskMatchCandidate raw in
    Ok (J_obj (map_row taskMatches_fields raw ++ [("items", candidates)]))
  | useDiscoveryAgents _ => let! raw := fetched in items mapDiscoveryAgent raw
  | useBiddingState _ _ => let! raw := fetched in map_fields biddingState_fields raw
  | useTaskBidsIndexed _ _ => let! raw := fetched in map_items (map_fields taskBid_fields) raw
  | useLeaderboard _ | useAgentReputation _ _ _ => let! raw := fetched in map_items (map_fields toRow_fields) raw
  | useRetroEligibility _ _ _ => if (hr_status res =? 404)%Z then Ok J_null else let! raw := fetched in map_fields toRetro_fields raw
  | useIndexedYieldStrategies _ => let! raw := fetched in items (map_fields mapYieldStrategy_fields) raw
  | useIndexedTreasuryYield _ _ _ =>
    match (let! raw := fetched in map_fields mapTreasuryYieldSnapshot_fields raw) with
    | Throw e => if String.prefix "indexer 404:" e then Ok J_null else Throw e
    | r => r
    end
  | useIndexedTreasuryYieldPositions _ _ _ => let! raw := fetched in items (map_fields mapTreasuryYieldPosition_fields) raw
  end%list%string.
End hooks.

(** ** The indexer behind the proxy *)

(** Its public routes (health.rs, api.rs, stats.rs, discovery.rs,
    compute_bond_snapshots.rs). *)
Inductive handler :=
| healthz | metrics | leaderboard | api_agent_reputation | retro_eligibility | task_bidding_state | task_bids
| stats_totals | stats_tasks_per_day | stats_top_capabilities | stats_fees_burned | stats_network_health | stats_top_agents | stats_agent_graph
| list_agents | agent_detail | agent_tasks | agent_reputation | agent_streams | list_tasks | task_detail | task_matches | task_timeline
| list_capabilities | capability_detail | list_yield_strategies | treasury_detail | treasury_vaults | treasury_yield | treasury_yield_positions
| protocol_stats | agent_compute_bonds | task_compute_bonds.

#[global] Instance handler_eq_dec : EqDecision handler.
Proof. solve_decision. Defined.

Definition public_routes : list (string * handler) :=
  [("/healthz", healthz); ("/metrics", metrics); ("/leaderboard", leaderboard); ("/agents/:did/reputation", api_agent_reputation);
   ("/retro/eligibility/:operator", retro_eligibility); ("/tasks/:task_id_hex/bidding", task_bidding_state); ("/tasks/:task_id_hex/bids", task_bids);
   ("/stats/totals", stats_totals); ("/stats/tasks-per-day", stats_tasks_per_day); ("/stats/top-capabilities", stats_top_capabilities);
   ("/stats/fees-burned", stats_fees_burned); ("/stats/network-health", stats_network_health); ("/stats/top-agents", stats_top_agents);
   ("/stats/agent-graph", stats_agent_graph);
   ("/v1/discovery/agents", list_agents); ("/v1/discovery/agents/:did", agent_detail); ("/v1/discovery/agents/:did/tasks", agent_tasks);
   ("/v1/discovery/agents/:did/reputation", agent_reputation); ("/v1/discovery/agents/:did/streams", agent_streams);
   ("/v1/discovery/tasks", list_tasks); ("/v1/discovery/tasks/:task_id_hex", task_detail);
   ("/v1/discovery/tasks/:task_id_hex/matches", task_matches); ("/v1/discovery/tasks/:task_id_hex/timeline", task_timeline);
   ("/v1/discovery/capabilities", list_capabilities); ("/v1/discovery/capabilities/:bit", capability_detail);
   ("/v1/discovery/treasury/yield-strategies", list_yield_strategies); ("/v1/discovery/treasury/:did", treasury_detail);
   ("/v1/discovery/treasury/:did/vaults", treasury_vaults); ("/v1/discovery/treasury/:did/yield", treasury_yield);
   ("/v1/discovery/treasury/:did/yield/positions", treasury_yield_positions); ("/v1/discovery/stats", protocol_stats);
   ("/v1/discovery/agents/:did/compute-bonds", agent_compute_bonds); ("/v1/discovery/tasks/:task_id_hex/compute-bonds", task_compute_bonds)]%string.

(** A parameter stands for a part that is not empty; a fixed part comes before one. *)
Fixpoint part_matches (pattern parts : list string) : bool :=
  match pattern, parts with
  | [], [] => true
  | p :: pattern', x :: parts' => (if String.prefix ":" p then negb (String.eqb x "") else String.eqb p x) && part_matches pattern' parts'
  | _, _ => false
  end.

Definition indexer_serves (pathname : string) : option handler :=
  snd <$> List.find (fun rt => part_matches (split_on slash rt.1) (split_on slash pathname)) public_routes.

Record RustTasksQuery := {
  tq_status : option string; tq_creator : option string; tq_agent_did : option string; tq_created_after : option string;
  tq_created_before : option string; tq_sort : option string; tq_limit : option string; tq_cursor : option string;
}.

(** serde: the fields of the struct, whatever else is in the query. *)
Definition tasks_query (ps : list (string * string)) : RustTasksQuery :=
  {| tq_status := map_get "status" ps; tq_creator := map_get "creator" ps; tq_agent_did := map_get "agent_did" ps;
     tq_created_after := map_get "created_after" ps; tq_created_before := map_get "created_before" ps; tq_sort := map_get "sort" ps;
     tq_limit := map_get "limit" ps; tq_cursor := map_get "cursor" ps |}%string.

Definition TASK_STATUSES : list string :=
  ["created"; "funded"; "proofSubmitted"; "submitted"; "verified"; "released"; "disputed"; "cancelled"; "expired"]%string.

Definition TASK_SORTS : list string := ["created_desc"; "deadline_asc"; "reward_desc"]%string.

Definition task_status_to_db (status : string) : string := if String.eqb status "proofSubmitted" then "submitted" else status.

Definition is_hex_32 (s : string) : bool := all_chars hex_any s && (String.length s =? 64)%nat.

Section indexer.
Variable parses_i64 : string -> bool.  (* str::parse::<i64> *)
Variable parses_cursor : string -> bool. (* Cursor::decode *)

Definition all_parse (f : string -> bool) (v : option string) : bool := match v with Some s => f s | None => true end.

(** What list_tasks answers before it asks the database: 400 with a message, or the
    statuses it filters by. *)
Definition list_tasks_checks (q : RustTasksQuery) : result (option (list string)) :=
  if negb (all_parse parses_i64 (tq_limit q) && all_parse parses_i64 (tq_created_after q) && all_parse parses_i64 (tq_created_before q))
  then Throw "Failed to deserialize query string"
  else if negb (bool_decide (default "created_desc" (tq_sort q) ∈ TASK_SORTS)) then Throw "sort must be created_desc|deadline_asc|reward_desc"
  else
    let! statuses :=
      match tq_status q with
      | Some s =>
        let parts := map trim (split_on comma s) in
        if forallb (fun p => bool_decide (p ∈ TASK_STATUSES)) parts then Ok (Some (map task_status_to_db parts))
        else Throw "status contains unknown value"
      | None => Ok None
      end in
    if negb (all_parse is_hex_32 (tq_agent_did q)) then Throw "must be hex"
    else if negb (all_parse parses_cursor (tq_cursor q)) then Throw "cursor"
    else Ok statuses%string.

(** agent_tasks merges the agent of its path into the query. *)
Definition agent_tasks_checks (did : string) (ps : list (string * string)) : result (option (list string)) :=
  if negb (is_hex_32 did) then Throw "must be hex"
  else let q := tasks_query ps in
       list_tasks_checks {| tq_status := tq_status q; tq_creator := tq_creator q; tq_agent_did := Some did; tq_created_after := tq_created_after q;
                            tq_created_before := tq_created_before q; tq_sort := tq_sort q; tq_limit := tq_limit q; tq_cursor := tq_cursor q |}.
End indexer.

(** The fields of the rows it serialises. *)
Definition ComputeBondSummary_row : list string :=
  ["lease_id"; "agent_did"; "provider"; "gpu_hours"; "expires_at"; "slashable_until"; "task_id"; "status"; "status_reason";
   "reserved_price_usd_micro"; "broker_pubkey"; "attestation_sig"; "created_at_ms"; "updated_at_ms"; "provider_status"]%string.
Definition TaskSummary_row : list string :=
  ["task_id_hex"; "creator"; "agent_did_hex"; "status"; "reward_lamports"; "created_at_unix"; "deadline_unix"; "updated_at_unix"; "compute_bonds"]%string.
Definition AgentSummary_row : list string :=
  ["did_hex"; "operator"; "capability_mask"; "stake_lamports"; "reputation_composite"; "status"; "last_active_unix"; "match_summary"]%string.
Definition AgentMatchSummary_row : list string :=
  ["required_capability_bits"; "matched_capability_bits"; "missing_capability_bits"; "coverage_bps"; "fit_score"; "base_fit_score_bps";
   "capability_reputation_composite"; "availability"; "cost_efficiency"; "honesty"; "jobs_completed"; "jobs_disputed"; "confidence_bps";
   "dispute_rate_bps"; "low_history"; "low_confidence"; "availability_warning"; "dispute_warning"; "trust_state"; "low_history_penalty_bps";
   "dispute_penalty_bps"; "availability_penalty_bps"]%string.
Definition TaskMatches_row : list string := ["task_id_hex"; "task_status"; "capability_bit"; "items"]%string.
Definition BiddingStateRow_row : list string :=
  ["task_id_hex"; "phase"; "commit_count"; "reveal_count"; "slashed_count"; "bond_amount"; "commit_end_unix"; "reveal_end_unix"; "winner_agent";
   "winner_amount"]%string.
Definition TaskBidRow_row : list string := ["bidder"; "bond_paid"; "revealed_amount"; "slashed"]%string.
Definition LeaderboardRow_row : list string :=
  ["agent_did_hex"; "capability_bit"; "quality"; "timeliness"; "availability"; "cost_efficiency"; "honesty"; "jobs_completed"; "jobs_disputed";
   "composite_score"; "base_score_bps"; "trust_score"; "rank_delta"; "last_update_unix"; "confidence_bps"; "dispute_rate_bps"; "low_history";
   "low_confidence"; "availability_warning"; "dispute_warning"; "trust_state"; "low_history_penalty_bps"; "dispute_penalty_bps";
   "availability_penalty_bps"]%string.
Definition RetroEligibilityRow_row : list string :=
  ["operator_hex"; "net_fees_micro_usdc"; "wash_excluded_micro_usdc"; "personhood_tier"; "personhood_multiplier"; "cold_start_multiplier";
   "estimated_allocation"; "epoch_first_seen"; "last_updated_unix"]%string.
Definition YieldStrategySummary_row : list string :=
  ["strategy_id_hex"; "venue"; "strategy_program"; "underlying_mint"; "receipt_mint"; "max_allocation_bps"; "risk_tier"; "status"; "name";
   "metadata_uri"; "registered_unix"; "status_updated_unix"]%string.
Definition TreasuryYieldSnapshot_row : list string :=
  ["did_hex"; "strategy_id_hex"; "allocation_bps"; "status"; "unwind_requested"; "idle_amount"; "deployed_amount"; "realized_yield_amount";
   "accounting_slot"; "configured_unix"; "unwind_requested_unix"; "accounting_updated_unix"]%string.
Definition TreasuryYieldPositionSummary_row : list string :=
  ["did_hex"; "strategy_id_hex"; "vault_mint"; "receipt_mint"; "principal_amount"; "receipt_amount"; "realized_yield_amount"; "deployed_amount";
   "idle_amount"; "accounting_slot"; "status"; "unwind_requested"; "last_event_name"; "updated_unix"]%string.

(** ** Yield research *)

Inductive YieldLifecycle := live | research | next | deferred.

Record YieldStrategyDescriptor := { ysd_id : string; ysd_venue : string; ysd_label : string; ysd_lifecycle : YieldLifecycle;
                                    ysd_riskTier : string; ysd_allowedMints : list string }.

Record TreasuryYieldPolicy := { allowedStrategyIds : list string; maxAllocationBps : Z; paused : bool; emergencyUnwindEnabled : bool }.

Inductive TreasuryYieldStatus := inactive | active | ts_paused | unwinding.

Record TreasuryYieldSnapshot := {
  tys_status : TreasuryYieldStatus; idleUsdMicro : Z; deployedUsdMicro : Z; realizedYieldUsdMicro : Z; tys_strategyId : option string;
}.

Definition DEFAULT_YIELD_STRATEGIES : list YieldStrategyDescriptor :=
  [{| ysd_id := "kamino-lend-usdc"; ysd_venue := "kamino"; ysd_label := "Kamino Lending"; ysd_lifecycle := live; ysd_riskTier := "conservative";
      ysd_allowedMints := ["USDC"] |};
   {| ysd_id := "marginfi-lend-usdc"; ysd_venue := "marginfi"; ysd_label := "Marginfi Lending"; ysd_lifecycle := research; ysd_riskTier := "moderate";
      ysd_allowedMints := ["USDC"] |};
   {| ysd_id := "drift-yield-usdc"; ysd_venue := "drift"; ysd_label := "Drift Strategies"; ysd_lifecycle := deferred; ysd_riskTier := "aggressive";
      ysd_allowedMints := ["USDC"] |}]%string.

Definition getYieldStrategyDescriptor (strategyId : string) (registry : list YieldStrategyDescriptor) : option YieldStrategyDescriptor :=
  List.find (fun entry => String.eqb (ysd_id entry) strategyId) registry.

(** What is wrong with one strategy of a policy. *)
Definition strategy_errors (registry : list YieldStrategyDescriptor) (id : string) : list string :=
  match getYieldStrategyDescriptor id registry with
  | None => ["unknown strategy: " +:+ id]
  | Some s => match ysd_lifecycle s with deferred => ["strategy is deferred and cannot be activated yet: " +:+ id] | _ => [] end
  end%string.

Definition validateTreasuryYieldPolicy (policy : TreasuryYieldPolicy) (registry : list YieldStrategyDescriptor) : list string :=
  push_if ((maxAllocationBps policy <? 0) || (10000 <? maxAllocationBps policy)) "maxAllocationBps must be between 0 and 10_000" ++
  push_if (bool_decide (length (allowedStrategyIds policy) = 0%nat) && negb (paused policy)) "active policies must allow at least one strategy" ++
  flat_map (strategy_errors registry) (allowedStrategyIds policy) ++
  push_if (negb (emergencyUnwindEnabled policy)) "emergencyUnwindEnabled must remain true for constrained treasuries".

Definition computeDeployableUsdMicro (snapshot : TreasuryYieldSnapshot) (policy : TreasuryYieldPolicy) : Z :=
  if match tys_status snapshot with ts_paused | unwinding => true | _ => paused policy end then 0
  else Z.quot (idleUsdMicro snapshot * maxAllocationBps policy) 10000.

Record ResearchMintMeta := { rm_symbol : string; rm_decimals : Z; rm_stableUsd : bool }.

Definition RESEARCH_MINT_META : list (string * ResearchMintMeta) :=
  [("So11111111111111111111111111111111111111112", {| rm_symbol := "SOL"; rm_decimals := 9; rm_stableUsd := false |});
   ("EPjFWdd5AufqSSqeM2qN1xzybapC8G4wEGGkZwyTDt1v", {| rm_symbol := "USDC"; rm_decimals := 6; rm_stableUsd := true |});
   ("Es9vMFrzaCERmJfrF4H2FYD4KCoNkY11McCe8BenwNYB", {| rm_symbol := "USDT"; rm_decimals := 6; rm_stableUsd := true |});
   ("6UpQcMAb5xMzxc7ZfPaVMgx3KqsvKZdT5U718BzD5We2", {| rm_symbol := "wXRP"; rm_decimals := 6; rm_stableUsd := false |})]%string.

Definition mintMeta (mint : string) : ResearchMintMeta :=
  default {| rm_symbol := String.substring 0 4 mint; rm_decimals := 9; rm_stableUsd := false |} (map_get mint RESEARCH_MINT_META).

Definition rawToUsdMicro (raw decimals : Z) (stableUsd : bool) : Z :=
  if negb stableUsd then 0
  else if decimals =? 6 then raw
  else if 6 <? decimals then Z.quot raw (10 ^ (decimals - 6))
  else raw * 10 ^ (6 - decimals).

Definition DEFAULT_YIELD_POLICY : TreasuryYieldPolicy :=
  {| allowedStrategyIds := ["kamino-lend-usdc"%string]; maxAllocationBps := 2500; paused := false; emergencyUnwindEnabled := true |}.

Record mint_balance := { vb_mint : string; vb_amount : Z; vb_exists : bool }.

Record YieldResearchPosition := { yp_mint : string; yp_meta : ResearchMintMeta; rawAmount : Z; usdMicro : Z; yp_exists : bool }.

Record YieldResearchSnapshotData := {
  yr_snapshot : TreasuryYieldSnapshot; yr_policy : TreasuryYieldPolicy; yr_strategies : list YieldStrategyDescriptor;
  deployableUsdMicro : Z; yr_positions : list YieldResearchPosition; blockedReasons : list string;
}.

Definition useTreasuryYieldResearch (balances : option (list mint_balance)) (policy : TreasuryYieldPolicy) : YieldResearchSnapshotData :=
  let positions := map (fun b => let meta := mintMeta (vb_mint b) in
                                 {| yp_mint := vb_mint b; yp_meta := meta; rawAmount := vb_amount b;
                                    usdMicro := rawToUsdMicro (vb_amount b) (rm_decimals meta) (rm_stableUsd meta); yp_exists := vb_exists b |})
                       (default [] balances) in
  let idle := fold_left (fun sum p => sum + usdMicro p) (List.filter yp_exists positions) 0 in
  let activeStrategies := List.filter (fun s => bool_decide (ysd_id s ∈ allowedStrategyIds policy)) DEFAULT_YIELD_STRATEGIES in
  let none_active := match activeStrategies with [] => true | _ => false end in
  let snapshot :=
    {| tys_status := if paused policy then ts_paused else if (0 <? idle) && negb none_active then active else inactive;
       idleUsdMicro := idle; deployedUsdMicro := 0; realizedYieldUsdMicro := 0; tys_strategyId := ysd_id <$> head activeStrategies |} in
  {| yr_snapshot := snapshot; yr_policy := policy; yr_strategies := activeStrategies;
     deployableUsdMicro := computeDeployableUsdMicro snapshot policy; yr_positions := positions;
     blockedReasons := push_if (paused policy) "policy paused" ++ push_if none_active "no active strategy selected" ++
                       push_if (idle =? 0) "no supported stable balances available" |}.

(** ** From the browser to the indexer *)

Definition question : ascii := ascii_of_nat 63.

(** A relative URL's path and its query with the question mark. *)
Fixpoint cut_query (u : string) : string * string :=
  match u with
  | EmptyString => (EmptyString, EmptyString)
  | String c u' => if bool_decide (c = question) then (EmptyString, u) else let (p, q) := cut_query u' in (String c p, q)
  end.

(** The service, path and query with which Next calls api/[service]/[[...path]]. *)
Definition api_call (u : string) : option (string * list string * string) :=
  let (p, q) := cut_query u in
  match split_on slash p with
  | before :: api :: service :: path => if String.eqb before "" && String.eqb api "api" then Some (service, path, q) else None
  | _ => None
  end.

(** The handler a hook's request is meant for. *)
Definition hook_handler (h : read_hook) : handler :=
  match h with
  | useDiscoveryTasks _ => list_tasks | useDiscoveryAgentTasks _ => agent_tasks | useTaskComputeBonds _ => task_compute_bonds
  | useDiscoveryTaskDetail _ _ _ => task_detail | useDiscoveryTaskMatches _ _ _ _ => task_matches | useDiscoveryAgents _ => list_agents
  | useBiddingState _ _ => task_bidding_state | useTaskBidsIndexed _ _ => task_bids | useLeaderboard _ => leaderboard
  | useAgentReputation _ _ _ => api_agent_reputation | useRetroEligibility _ _ _ => retro_eligibility
  | useIndexedYieldStrategies _ => list_yield_strategies | useIndexedTreasuryYield _ _ _ => treasury_yield
  | useIndexedTreasuryYieldPositions _ _ _ => treasury_yield_positions
  end.

(** The id in its path, if it has one. *)
Definition hook_id (h : read_hook) : option string :=
  match h with
  | useDiscoveryTasks _ | useDiscoveryAgents _ | useLeaderboard _ | useIndexedYieldStrategies _ => None
  | useDiscoveryAgentTasks a => at_agentDidHex a
  | useTaskComputeBonds a => cb_taskIdHex a
  | useDiscoveryTaskDetail _ id _ | useDiscoveryTaskMatches _ id _ _ | useAgentReputation _ id _ | useRetroEligibility _ id _
  | useIndexedTreasuryYield _ id _ | useIndexedTreasuryYieldPositions _ id _ | useBiddingState _ id | useTaskBidsIndexed _ id => id
  end.

Definition path_char (c : ascii) : bool := char_in 48 57 c || char_in 97 122 c || char_in 65 90 c || bool_decide (c = "-"%char).
Definition plain_part (s : string) : bool := all_chars path_char s && negb (String.eqb s "").

Lemma path_char_plain c : path_char c = true -> c <> slash /\ c <> question.
Proof. intros H. split; intros ->; discriminate H. Qed.

Lemma plain_free s c : (c = slash \/ c = question) -> all_chars path_char s = true -> occurs c s = false.
Proof.
  intros Hc. induction s as [|x s IH]; cbn; [done|]. intros [Hx%path_char_plain Hs]%andb_true_iff. rewrite (IH Hs), orb_false_r.
  apply bool_decide_eq_false. destruct Hx, Hc; congruence.
Qed.

Lemma join_cons p ps : ps <> [] -> join_path (p :: ps) = p +:+ String slash (join_path ps).
Proof. by destruct ps. Qed.

Lemma split_join ps : ps <> [] -> forallb plain_part ps = true -> split_on slash (join_path ps) = ps.
Proof.
  induction ps as [|p ps IH]; intros Hne H; [done|]. cbn in H. apply andb_true_iff in H as [[Hp _]%andb_true_iff H].
  pose proof (plain_free p slash (or_introl eq_refl) Hp) as Hf. destruct (decide (ps = [])) as [->|Hn]; [by apply split_one|].
  by rewrite join_cons, split_app, (split_one _ p Hf), IH.
Qed.

Lemma cut_cons c u : cut_query (String c u) =
  if bool_decide (c = question) then (EmptyString, String c u) else let (p, q) := cut_query u in (String c p, q).
Proof. done. Qed.

Lemma cut_plain p q : occurs question p = false -> (q = ""%string \/ exists t, q = String question t) -> cut_query (p +:+ q) = (p, q).
Proof.
  intros Hp Hq. induction p as [|c p IH].
  - destruct Hq as [->|[t ->]]; [done|]. change ("" +:+ String question t) with (String question t). by rewrite cut_cons, bool_decide_true.
  - cbn in Hp. apply orb_false_iff in Hp as [Hc%bool_decide_eq_false Hp]. change (String c p +:+ q) with (String c (p +:+ q)).
    rewrite cut_cons, bool_decide_false by congruence. by rewrite IH.
Qed.

Lemma occurs_join ps : forallb plain_part ps = true -> occurs question (join_path ps) = false.
Proof.
  induction ps as [|p ps IH]; intros H; [done|]. cbn in H. apply andb_true_iff in H as [[Hp _]%andb_true_iff H].
  pose proof (plain_free p question (or_intror eq_refl) Hp) as Hf. destruct (decide (ps = [])) as [->|Hn]; [done|].
  rewrite join_cons, occurs_app, Hf by done. cbn [occurs]. rewrite IH by done. by vm_compute.
Qed.

Lemma hex_plain s : (String.length s =? 64)%nat = true -> all_chars hex_any s = true -> plain_part s = true.
Proof.
  intros Hl Hs. unfold plain_part. apply andb_true_iff. split; [|by destruct s].
  eapply all_chars_weaken; [|exact Hs]. intros c. unfold hex_any, path_char. unfold char_in.
  rewrite !orb_true_iff, !andb_true_iff, !Nat.leb_le. lia.
Qed.

(** The parts of a request that runs. *)
Lemma hook_path_plain h : hook_enabled h = true -> all_parse (all_chars hex_any) (hook_id h) = true ->
  forallb plain_part (hook_path h) = true /\ hook_path h <> [].
Proof.
  assert (forall id e, e && ready id = true -> all_parse (all_chars hex_any) id = true -> plain_part (id_text id) = true) as K.
  { intros [s|] e [_ Hr]%andb_true_iff Hs; [|done]. by apply hex_plain. }
  destruct h; cbn [hook_enabled hook_id hook_path]; intros He Hi; (split; [|done]); try reflexivity; cbn [forallb];
    rewrite ?(K _ _ He Hi); try reflexivity; rewrite ?(K _ true He Hi); reflexivity.
Qed.

Definition hook_search (form : list (string * string) -> string) (h : read_hook) : string :=
  match hook_params h with Some ps => "?" +:+ form ps | None => "" end.

Lemma hook_called form h : hook_enabled h = true -> all_parse (all_chars hex_any) (hook_id h) = true -> hook_base h = getPortalIndexerUrl ->
  api_call (hook_url form h) = Some ("discovery"%string, hook_path h, hook_search form h).
Proof.
  intros He Hi Hb. destruct (hook_path_plain h He Hi) as [Hp Hn]. unfold hook_url. rewrite Hb.
  change (strip_slash getPortalIndexerUrl) with "/api/discovery"%string. fold (hook_search form h).
  set (j := join_path (hook_path h)).
  assert ("/api/discovery" +:+ "/" +:+ j +:+ hook_search form h = ("/api/discovery/" +:+ j) +:+ hook_search form h) as ->.
  { by rewrite string_app_assoc. }
  unfold api_call. rewrite cut_plain.
  - change ("/api/discovery/" +:+ j) with ("/api/discovery" +:+ String slash j). rewrite split_app.
    change (split_on slash "/api/discovery") with [""; "api"; "discovery"]%string. unfold j. by rewrite split_join.
  - rewrite occurs_app. unfold j. by rewrite occurs_join.
  - unfold hook_search. destruct (hook_params h); [right; by eexists|by left].
Qed.

Lemma strip_front_plain s : occurs slash s = false -> strip_slashes_front s = s.
Proof. destruct s as [|c s]; [done|]. cbn. intros [Hc%bool_decide_eq_false _]%orb_false_iff. by rewrite bool_decide_false. Qed.

Lemma strip_front_join ps : ps <> [] -> forallb plain_part ps = true -> strip_slashes_front (join_path ps) = join_path ps /\ join_path ps <> ""%string.
Proof.
  destruct ps as [|p ps]; [done|]. intros _ H. cbn in H. apply andb_true_iff in H as [[Hp Hne]%andb_true_iff H].
  apply negb_true_iff, String.eqb_neq in Hne. destruct p as [|c p]; [done|]. assert (c <> slash) as Hc.
  { cbn in Hp. apply andb_true_iff in Hp as [Hp%path_char_plain _]. tauto. }
  assert (exists t, join_path (String c p :: ps) = String c t) as [t ->]; [|by cbn; rewrite bool_decide_false].
  destruct (decide (ps = [])) as [->|]; [by eexists|]. rewrite join_cons by done. by eexists.
Qed.

(** The path the proxy makes of it is the intended handler's. *)
Lemma resolved_plain h : hook_enabled h = true -> all_parse (all_chars hex_any) (hook_id h) = true ->
  forallb plain_part (resolvePublicServiceUpstreamPath discovery (hook_path h)) = true /\
  resolvePublicServiceUpstreamPath discovery (hook_path h) <> [].
Proof.
  intros He Hi. destruct (hook_path_plain h He Hi) as [Hp Hn].
  unfold resolvePublicServiceUpstreamPath. repeat case_match; try by split.
Qed.

Lemma find_ext {A} (f g : A -> bool) l : (forall x, f x = g x) -> List.find f l = List.find g l.
Proof. intros H. induction l as [|x l IH]; cbn; [done|]. by rewrite H, IH. Qed.

Lemma part_matches_length pattern parts : part_matches pattern parts = (length pattern =? length parts)%nat && part_matches pattern parts.
Proof.
  revert parts. induction pattern as [|p pattern IH]; intros [|x parts]; cbn [part_matches length Nat.eqb andb]; try done.
  rewrite (IH parts). destruct (length pattern =? length parts)%nat; cbn [andb]; [done|]. by rewrite andb_false_r.
Qed.

Lemma served h : hook_enabled h = true -> all_parse (all_chars hex_any) (hook_id h) = true ->
  indexer_serves ("/" +:+ join_path (resolvePublicServiceUpstreamPath discovery (hook_path h))) = Some (hook_handler h).
Proof.
  intros He Hi. destruct (resolved_plain h He Hi) as [Hp Hn].
  change ("/" +:+ join_path (resolvePublicServiceUpstreamPath discovery (hook_path h)))
    with ("" +:+ String slash (join_path (resolvePublicServiceUpstreamPath discovery (hook_path h)))).
  unfold indexer_serves. rewrite split_app, split_join by done. clear Hp Hn.
  rewrite (find_ext _ _ _ (fun rt => part_matches_length (split_on slash rt.1) _)).
  destruct h; cbn [hook_path hook_handler hook_enabled hook_id] in *; try (vm_compute; reflexivity);
    try (apply andb_true_iff in He as [_ He]); try destruct a; cbn [at_agentDidHex cb_taskIdHex] in *;
    match goal with id : option string |- _ => destruct id as [[|c s]|]; try discriminate He; clear; vm_compute; reflexivity end.
Qed.

Section reached.
Context {W : Type}.
Variable P : proxy_lib.
Variable ops : proxy_ops W.
Variable env : string -> option string.
Variable log : W -> list fetch_call.
Hypothesis Hlog : logs ops log.
Variable form : list (string * string) -> string.

(** The URL parser leaves a path of plain parts alone. *)
Definition keeps_plain : Prop := forall ps, forallb plain_part ps = true -> set_pathname P ("/" +:+ join_path ps) = "/" +:+ join_path ps.

(** C34: every read of the portal arrives: the URL a discovery hook asks the browser for, when
    its query runs with a hex id, is a call of the portal's discovery proxy, which sends
    one request, and the indexer behind it has a route for the path of that request: the
    handler the hook is meant for, with the hook's query. *)
Theorem hooks_reach_indexer h req base r (w w' : W)
  (He : hook_enabled h = true) (Hi : all_parse (all_chars hex_any) (hook_id h) = true) (Hb : hook_base h = getPortalIndexerUrl)
  (Hm : nr_method req = "GET"%string) (Hu : new_URL P (getPublicServiceUpstreamUrl env discovery) = Ok base)
  (Hr : u_pathname base = "/"%string) (Hk : keeps_plain) :
  exists path search, api_call (hook_url form h) = Some ("discovery"%string, path, search) /\
    (nr_search req = search -> service_handle P ops env req "discovery" path w = Some (r, w') ->
     exists c, log w' = log w ++ [c] /\ indexer_serves (u_pathname (fc_url c)) = Some (hook_handler h) /\
       u_search (fc_url c) = hook_search form h /\ fc_method c = "GET"%string).
Proof.
  exists (hook_path h), (hook_search form h). split; [by apply hook_called|]. intros Hs H.
  destruct (hook_path_plain h He Hi) as [_ Hn]. destruct (hook_path h) as [|p ps] eqn:Ep; [done|].
  exists (service_call P req discovery (p :: ps) base).
  split; [eapply (service_sends P ops env log Hlog discovery); [by rewrite Hm|exact Hu|exact H]|].
  split; [|by split; [exact Hs|exact Hm]]. unfold service_call. cbn [fc_url u_pathname]. rewrite Hr, <- Ep.
  destruct (resolved_plain h He Hi) as [Hp Hne]. destruct (strip_front_join _ Hne Hp) as [E1 E2]. unfold joinPath.
  change (String.eqb "/" "/") with true. cbv iota zeta. rewrite E1, (proj2 (String.eqb_neq _ _) E2). cbn [negb].
  change ("" +:+ "/" +:+ ?x) with ("/" +:+ x).
  rewrite Hk by done. by apply served.
Qed.
End reached.

(** ** What the indexer makes of the queries *)

Lemma tasks_params a : hook_params (useDiscoveryTasks a) = Some (given_statuses (dt_statuses a) ++ given_number "capability" (dt_capability a) ++
  given_text "min_reward" (dt_minReward a) ++ [("page", z_text (dt_page a)); ("limit", z_text (dt_limit a))])%list%string.
Proof. done. Qed.

Lemma given_get name n v : map_get name (given_text n v) = if decide (name = n) then (if truthy v then v else None) else None.
Proof. unfold given_text. destruct v as [s|]; cbn [truthy]; [destruct (negb _)|]; cbn [map_get]; by case_decide. Qed.

Lemma given_number_get name n v : map_get name (given_number n v) = if decide (name = n) then z_text <$> v else None.
Proof. unfold given_number. destruct v; cbn [map_get]; by case_decide. Qed.

Lemma statuses_get name l : map_get name (given_statuses l) =
  if decide (name = "status"%string) then match l with Some ((_ :: _) as l) => Some (joined_texts l) | _ => None end else None.
Proof. unfold given_statuses. destruct l as [[|s l]|]; cbn [map_get]; by case_decide. Qed.

Lemma get_app {V} (k : string) (l l' : list (string * V)) : map_get k (l ++ l') = match map_get k l with Some v => Some v | None => map_get k l' end.
Proof. induction l as [|[k' v] l IH]; cbn; [done|]. by case_decide. Qed.

(** What of a task search's query the indexer reads. *)
Lemma tasks_query_of a ps : hook_params (useDiscoveryTasks a) = Some ps ->
  tasks_query ps = {| tq_status := match dt_statuses a with Some ((_ :: _) as l) => Some (joined_texts l) | _ => None end; tq_creator := None; tq_agent_did := None;
                      tq_created_after := None; tq_created_before := None; tq_sort := None; tq_limit := Some (z_text (dt_limit a)); tq_cursor := None |}.
Proof.
  rewrite tasks_params. intros [= <-]. unfold tasks_query. rewrite !get_app, !statuses_get, !given_number_get, !given_get.
  repeat (rewrite decide_False by done || rewrite decide_True by done). cbn [map_get].
  repeat (rewrite decide_False by done || rewrite decide_True by done). by destruct (dt_statuses a) as [[|s l]|].
Qed.

(** The board's filters do nothing: two searches of useDiscoveryTasks that differ in the
    capability, the smallest reward or the page are one search to the indexer behind the
    portal, so that every page shows the first. *)
Theorem filters_ignored a a' ps ps' (Hs : dt_statuses a = dt_statuses a') (Hl : dt_limit a = dt_limit a')
  (Hp : hook_params (useDiscoveryTasks a) = Some ps) (Hp' : hook_params (useDiscoveryTasks a') = Some ps') :
  tasks_query ps = tasks_query ps'.
Proof. by rewrite (tasks_query_of _ _ Hp), (tasks_query_of _ _ Hp'), Hs, Hl. Qed.

Lemma joined_parts l s : s ∈ l -> occurs comma s = false -> s ∈ split_on comma (joined_texts l).
Proof.
  unfold joined_texts. induction l as [|x l IH]; intros Hin Hf; [by apply elem_of_nil in Hin|].
  destruct (decide (l = [])) as [->|Hn].
  - apply list_elem_of_singleton in Hin as ->. cbn [String.concat]. rewrite split_one by done. by left.
  - assert (String.concat "," (x :: l) = x +:+ String comma (String.concat "," l)) as -> by (by destruct l).
    rewrite split_app. apply elem_of_cons in Hin as [->|Hin].
    + rewrite split_one by done. by left.
    + apply elem_of_app. right. apply elem_of_app. right. by apply IH.
Qed.

Lemma fetch_refused parse res : hr_status res = 400 -> exists e, fetchIndexerJson parse res = Throw ("indexer 400: " +:+ e).
Proof. intros H. unfold fetchIndexerJson, ok_response. rewrite H. by eexists. Qed.

(** C38: a search for a status the indexer does not know never succeeds: the indexer refuses
    it with 400 before it asks its database, and the hook throws the refusal. *)
Theorem unknown_status_refused P a ps l s i64 cursor res
  (Hp : hook_params (useDiscoveryTasks a) = Some ps) (Hl : dt_statuses a = Some l) (Hs : s ∈ l) (Hc : occurs comma s = false)
  (Hn : trim s ∉ TASK_STATUSES) (Hr : match list_tasks_checks i64 cursor (tasks_query ps) with Throw _ => hr_status res = 400 | Ok _ => True end) :
  exists e, hook_result P (useDiscoveryTasks a) res = Throw ("indexer 400: " +:+ e).
Proof.
  destruct l as [|s0 l0]; [by apply elem_of_nil in Hs|].
  assert (exists e, list_tasks_checks i64 cursor (tasks_query ps) = Throw e) as [e E].
  { rewrite (tasks_query_of _ _ Hp), Hl. unfold list_tasks_checks. cbn [tq_limit tq_created_after tq_created_before tq_sort tq_status all_parse].
    destruct (negb _); [by eexists|]. destruct (negb _); [by eexists|]. cbv beta iota zeta.
    assert (forallb (fun p => bool_decide (p ∈ TASK_STATUSES)) (map trim (split_on comma (joined_texts (s0 :: l0)))) = false) as ->; [|by eexists].
    apply not_true_is_false. rewrite forallb_forall. intros H. apply Hn. apply (bool_decide_unpack _), Is_true_eq_left. apply H.
    apply in_map. apply list_elem_of_In. by apply joined_parts. }
  rewrite E in Hr. destruct (fetch_refused (json_parse P) res Hr) as [e' E']. exists e'. unfold hook_result. by rewrite E'.
Qed.

(** ** The cache *)

Lemma opt_text_inj a b : opt_text a = opt_text b -> a = b.
Proof. destruct a, b; cbn; intros E; by simplify_eq. Qed.

Lemma number_key_inj a b : number_key a = number_key b -> a = b.
Proof. destruct a, b; cbn; intros E; by simplify_eq. Qed.

(** A list of statuses whose key is its own: [[]] and [['']] share one. *)
Definition own_key (l : option (list string)) : bool := match l with Some [s] => negb (String.eqb s "") | _ => true end.

Lemma joined_empty l : joined_texts l = ""%string -> l = [] \/ l = [""%string].
Proof.
  destruct l as [|s [|t l]]; [by left|cbn; intros ->; by right|]. intros E. exfalso.
  assert (joined_texts (s :: t :: l) = s +:+ String comma (joined_texts (t :: l))) as K by done. rewrite K in E. by destruct s.
Qed.

Lemma status_key_given l l' : own_key l = true -> own_key l' = true -> status_key l = status_key l' -> given_statuses l = given_statuses l'.
Proof.
  destruct l as [l|], l' as [l'|]; cbn [status_key]; try done. intros H H' [= E].
  destruct l as [|s l], l' as [|s' l']; cbn [given_statuses]; [done| | |by rewrite E].
  - symmetry in E. by apply joined_empty in E as [?|[= -> ->]].
  - by apply joined_empty in E as [?|[= -> ->]].
Qed.

Definition hook_statuses (h : read_hook) : option (list string) :=
  match h with
  | useDiscoveryTasks a => dt_statuses a
  | useDiscoveryAgentTasks a => at_statuses a
  | _ => None
  end.

(** Two queries that share a place in the browser's cache ask for the same thing: below
    one indexer URL, hooks with equal query keys, whichever hooks they are, request the
    same URL.  (The key of an empty list of statuses is that of a list with one empty
    status; the URLs differ.) *)
Theorem cache_keys_sound form h h' (Hk : hook_key h = hook_key h') (Hb : hook_base h = hook_base h')
  (Hs : own_key (hook_statuses h) = true) (Hs' : own_key (hook_statuses h') = true) : hook_url form h = hook_url form h'.
Proof.
  unfold hook_url. rewrite Hb. enough (hook_path h = hook_path h' /\ hook_params h = hook_params h') as [-> ->] by done.
  destruct h, h'; cbn [hook_key] in Hk; try discriminate Hk; cbn [hook_statuses] in Hs, Hs';
    try destruct a; try destruct a0; cbn in Hk, Hs, Hs' |- *; simplify_eq/=;
    repeat match goal with
    | H : status_key _ = status_key _ |- _ => apply status_key_given in H; [|done..]; rewrite H
    | H : opt_text _ = opt_text _ |- _ => apply opt_text_inj in H; subst
    | H : number_key _ = number_key _ |- _ => apply number_key_inj in H; subst
    end; done.
Qed.

(** ** The rows *)

Definition underscore : ascii := "_"%char.

Definition to_upper (c : ascii) : ascii := if char_in 97 122 c then ascii_of_nat (nat_of_ascii c - 32) else c.

(** [a_field_name] in the other convention. *)
Fixpoint camel_case (s : string) : string :=
  match s with
  | String c s0 =>
    match s0 with
    | String d s' => if bool_decide (c = underscore) then String (to_upper d) (camel_case s') else String c (camel_case s0)
    | EmptyString => s
    end
  | EmptyString => s
  end.

(** Each mapper with the fields of the rows it is given, and those it maps in their turn. *)
Definition row_mappers : list (list row_prop * list string * list string) :=
  [(mapComputeBond_fields, ComputeBondSummary_row, []); (mapIndexedTask_fields, TaskSummary_row, ["compute_bonds"]);
   (mapTaskMatchSummary_fields, AgentMatchSummary_row, []); (mapTaskMatchCandidate_fields, AgentSummary_row, ["match_summary"]);
   (taskMatches_fields, TaskMatches_row, ["items"]); (biddingState_fields, BiddingStateRow_row, []); (taskBid_fields, TaskBidRow_row, []);
   (toRow_fields, LeaderboardRow_row, []); (toRetro_fields, RetroEligibilityRow_row, []); (mapYieldStrategy_fields, YieldStrategySummary_row, []);
   (mapTreasuryYieldSnapshot_fields, TreasuryYieldSnapshot_row, []); (mapTreasuryYieldPosition_fields, TreasuryYieldPositionSummary_row, [])]%string.

(** The properties no row has a field for. *)
Definition never_given : list string := ["capabilityMask"; "winnerBidder"]%string.

Definition reads_row (row : list string) (m : row_prop) : bool :=
  match from m with
  | f :: fs => if bool_decide (f ∈ row) then String.eqb (camel_case f) (to m)
               else bool_decide (fs = []) && bool_decide (to m ∈ never_given) && match otherwise m with J_null => true | _ => false end
  | [] => false
  end.

Definition row_covered (ms : list row_prop) (nested : list string) (f : string) : bool :=
  bool_decide (f ∈ nested) || existsb (fun m => match from m with g :: _ => String.eqb f g | [] => false end) ms.

Lemma mappers_checked : forallb (fun '(ms, row, nested) => forallb (reads_row row) ms && forallb (row_covered ms nested) row) row_mappers = true.
Proof. vm_compute. reflexivity. Qed.

Lemma field_absent f fs : f ∉ fs.*1 -> prop_of f (J_obj fs) = J_null.
Proof.
  intros H. cbn [prop_of]. unfold member. destruct (List.find _ fs) as [[k v]|] eqn:E; [|done].
  apply find_some in E as [Hin Hk%String.eqb_eq]. cbn in Hk. subst k. exfalso. apply H. apply list_elem_of_fmap.
  exists (f, v). split; [done|]. by apply list_elem_of_In.
Qed.

(** The rows arrive whole: of a row with the fields the indexer serialises, every property
    a hook shows is the field of that name, or the hook's default where the field is null,
    and every field is shown; except for a task's capabilityMask and the winnerBidder of
    a bid book, which the indexer does not send and which are always null. *)
Theorem rows_read_whole ms row nested fs (Hin : (ms, row, nested) ∈ row_mappers) (Hf : fs.*1 = row) :
  Forall (fun tv => (exists f, f ∈ row /\ camel_case f = tv.1 /\ (prop_of f (J_obj fs) = J_null \/ tv.2 = prop_of f (J_obj fs))) \/
                    tv.1 ∈ never_given /\ tv.2 = J_null) (map_row ms (J_obj fs)) /\
  forall f, f ∈ row -> f ∈ nested \/ exists v, (camel_case f, v) ∈ map_row ms (J_obj fs).
Proof.
  pose proof mappers_checked as H. rewrite forallb_forall in H. apply list_elem_of_In in Hin. apply H in Hin.
  apply andb_true_iff in Hin as [Hr Hc]. rewrite forallb_forall in Hr, Hc. split.
  - apply Forall_forall. intros tv Htv. apply list_elem_of_In, in_map_iff in Htv as (m & <- & Hm). cbn [fst snd].
    apply Hr in Hm. unfold reads_row in Hm. destruct (from m) as [|f gs]; [done|]. cbn [first_set]. case_bool_decide as Hrow.
    + left. exists f. apply String.eqb_eq in Hm. split; [done|]. split; [done|]. destruct (prop_of f (J_obj fs)); auto.
    + right. apply andb_true_iff in Hm as [[Hg Ht]%andb_true_iff Ho]. apply bool_decide_eq_true in Hg, Ht. subst gs. split; [done|].
      rewrite field_absent by (by rewrite Hf). cbn [first_set]. by destruct (otherwise m).
  - intros f Hrow. pose proof (Hc f) as K. rewrite <- list_elem_of_In in K. apply K in Hrow as Hf'. unfold row_covered in Hf'.
    apply orb_true_iff in Hf' as [Hn%bool_decide_eq_true|Hm]; [by left|right]. apply existsb_exists in Hm as (m & Hm & Hg).
    pose proof (Hr m Hm) as Hr'. unfold reads_row in Hr'. destruct (from m) as [|g gs] eqn:Eg; [done|]. apply String.eqb_eq in Hg. subst g.
    rewrite bool_decide_true in Hr' by done. apply String.eqb_eq in Hr'. rewrite Hr'. eexists. apply list_elem_of_In, in_map_iff.
    by exists m.
Qed.

(** ** Yield research *)

Definition research_idle (balances : option (list mint_balance)) (policy : TreasuryYieldPolicy) : Z :=
  idleUsdMicro (yr_snapshot (useTreasuryYieldResearch balances policy)).

Lemma fold_nonneg {A} (f : A -> Z) l z : 0 <= z -> (forall x, x ∈ l -> 0 <= f x) -> 0 <= fold_left (fun s x => s + f x) l z.
Proof.
  revert z. induction l as [|x l IH]; intros z Hz H; cbn; [done|]. apply IH; [|intros y Hy; apply H; by right].
  pose proof (H x (list_elem_of_here _ _)). lia.
Qed.

Lemma usd_nonneg raw d b : 0 <= raw -> 0 <= rawToUsdMicro raw d b.
Proof.
  intros H. unfold rawToUsdMicro. destruct b; cbn [negb]; [|done]. destruct (Z.eqb_spec d 6); [done|].
  destruct (Z.ltb_spec 6 d); [apply Z.quot_pos; [done|apply Z.pow_pos_nonneg; lia]|]. apply Z.mul_nonneg_nonneg; [done|]. apply Z.pow_nonneg. lia.
Qed.

Lemma idle_nonneg balances policy : Forall (fun b => 0 <= vb_amount b) (default [] balances) -> 0 <= research_idle balances policy.
Proof.
  intros H. unfold research_idle, useTreasuryYieldResearch. cbn [yr_snapshot idleUsdMicro]. apply fold_nonneg; [done|].
  intros p Hp. apply list_elem_of_In, filter_In in Hp as [Hp _]. apply in_map_iff in Hp as (b & <- & Hb). cbn [usdMicro].
  apply usd_nonneg. rewrite Forall_forall in H. apply H. by apply list_elem_of_In.
Qed.

Lemma validated_bps policy registry : validateTreasuryYieldPolicy policy registry = [] -> 0 <= maxAllocationBps policy <= 10000.
Proof.
  unfold validateTreasuryYieldPolicy. intros [H _]%app_nil. unfold push_if in H.
  destruct (Z.ltb_spec (maxAllocationBps policy) 0), (Z.ltb_spec 10000 (maxAllocationBps policy)); cbn in H; try done; lia.
Qed.

(** Research never offers more than there is: under a policy without errors what may be
    deployed is the policy's share of the idle stable balances, rounded down, and
    nothing when the policy is paused. *)
Theorem deployable_within_policy balances policy (Hv : validateTreasuryYieldPolicy policy DEFAULT_YIELD_STRATEGIES = [])
  (Hb : Forall (fun b => 0 <= vb_amount b) (default [] balances)) :
  let data := useTreasuryYieldResearch balances policy in
  0 <= deployableUsdMicro data <= research_idle balances policy /\
  deployableUsdMicro data * 10000 <= research_idle balances policy * maxAllocationBps policy /\
  (paused policy = true -> deployableUsdMicro data = 0).
Proof.
  cbv zeta. pose proof (idle_nonneg balances policy Hb) as Hi. pose proof (validated_bps _ _ Hv) as Hbps.
  assert (deployableUsdMicro (useTreasuryYieldResearch balances policy) = 0 \/
          paused policy = false /\ deployableUsdMicro (useTreasuryYieldResearch balances policy)
            = research_idle balances policy * maxAllocationBps policy / 10000) as K.
  { unfold research_idle, useTreasuryYieldResearch in *. cbv zeta in *. cbn [deployableUsdMicro yr_snapshot idleUsdMicro] in *.
    unfold computeDeployableUsdMicro. cbn [tys_status idleUsdMicro]. destruct (paused policy); [by left|].
    destruct (_ && _); right; (split; [done|]); apply Z.quot_div_nonneg; nia. }
  destruct K as [->|[Hp ->]]; [nia|]. split; [|split; [|by rewrite Hp]].
  - split; [apply Z.div_pos; nia|]. apply Z.div_le_upper_bound; nia.
  - pose proof (Z.mul_div_le (research_idle balances policy * maxAllocationBps policy) 10000). lia.
Qed.

(** A policy that allows no strategy still has money to deploy: unpaused, with an unknown
    or empty list of strategies, the research says that nothing is active and why, and
    offers the policy's whole share for deployment all the same. *)
Theorem blocked_yet_deployable balances policy (Hp : paused policy = false) (Hn : 0 <= maxAllocationBps policy)
  (Ha : Forall (fun s => ysd_id s ∉ allowedStrategyIds policy) DEFAULT_YIELD_STRATEGIES)
  (Hb : Forall (fun b => 0 <= vb_amount b) (default [] balances)) :
  let data := useTreasuryYieldResearch balances policy in
  tys_status (yr_snapshot data) = inactive /\ yr_strategies data = [] /\ "no active strategy selected"%string ∈ blockedReasons data /\
  deployableUsdMicro data = research_idle balances policy * maxAllocationBps policy / 10000.
Proof.
  cbv zeta. pose proof (idle_nonneg balances policy Hb) as Hi. unfold research_idle, useTreasuryYieldResearch in *. cbv zeta in *.
  assert (List.filter (fun s => bool_decide (ysd_id s ∈ allowedStrategyIds policy)) DEFAULT_YIELD_STRATEGIES = []) as E.
  { revert Ha. generalize DEFAULT_YIELD_STRATEGIES. intros l. induction 1 as [|s l Hs _ IH]; [done|]. cbn [List.filter].
    by rewrite bool_decide_false, IH. }
  rewrite E in *. cbn [yr_snapshot tys_status yr_strategies blockedReasons deployableUsdMicro idleUsdMicro] in *. rewrite Hp, andb_false_r.
  split; [done|]. split; [done|]. split.
  - apply elem_of_app. right. apply elem_of_app. left. by left.
  - unfold computeDeployableUsdMicro. cbn [tys_status idleUsdMicro]. rewrite Hp. apply Z.quot_div_nonneg; nia.
Qed.

(** ** Errors *)

Lemma colon_cut a b x y : occurs colon a = false -> occurs colon b = false -> a +:+ String colon x = b +:+ String colon y -> a = b.
Proof.
  intros Ha Hb E. assert (split_on colon (a +:+ String colon x) = split_on colon (b +:+ String colon y)) as K by by rewrite E.
  rewrite !split_app, (split_one _ a Ha), (split_one _ b Hb) in K. by injection K.
Qed.

Lemma says_404 n t : String.prefix "indexer 404:" ("indexer " +:+ z_text n +:+ String colon t) = bool_decide (n = 404).
Proof.
  case_bool_decide as Hn; [subst n|].
  - change ("indexer " +:+ z_text 404 +:+ String colon t) with ("indexer 404:" +:+ t). apply prefix_app.
  - apply not_true_is_false. intros (u & E)%prefix_split. apply Hn, z_text_inj.
    change ("indexer 404:" +:+ u) with ("indexer " +:+ ("404" +:+ String colon u)) in E. apply string_app_inj_l in E.
    by apply (colon_cut _ _ t u); [apply colon_free_z| |exact E].
Qed.

(** A request that fails is never an empty result: whatever the hook, an answer outside
    2xx is an error with the answer's status and text, except that no eligibility record
    and no yield configuration, a 404, are [null]. *)
Theorem hook_errors P h res (Hr : ok_response res = false) :
  hook_result P h res =
    if match h with useRetroEligibility _ _ _ | useIndexedTreasuryYield _ _ _ => hr_status res =? 404 | _ => false end then Ok J_null
    else Throw ("indexer " +:+ z_text (hr_status res) +:+ ": " +:+ (if String.eqb (hr_body res) "" then hr_statusText res else hr_body res)).
Proof.
  unfold hook_result, fetchIndexerJson. rewrite Hr. cbn [negb]. set (t := if String.eqb _ _ then _ else _).
  destruct h; cbn [result_bind]; try reflexivity.
  change (": " +:+ t) with (String colon (" " +:+ t)). rewrite says_404.
  destruct (Z.eqb_spec (hr_status res) 404); [by rewrite bool_decide_true|by rewrite bool_decide_false].
Qed.

(** ** Concrete hooks *)

Definition an_id : string := "00000000000000000000000000000000000000000000000000000000000000a1".
Definition plain_form (ps : list (string * string)) : string := String.concat "&" (map (fun kv => kv.1 +:+ "=" +:+ kv.2) ps).

(** The portal's task board (tasks/page.tsx). *)
Definition live_board : UseDiscoveryTasksArgs :=
  {| dt_indexerUrl := getPortalIndexerUrl;
     dt_statuses := Some ["created"; "funded"; "inExecution"; "proofSubmitted"; "verified"; "released"; "disputed"];
     dt_capability := None; dt_minReward := None; dt_page := 1; dt_limit := 20; dt_enabled := true |}%string.
Definition second_page : UseDiscoveryTasksArgs :=
  {| dt_indexerUrl := getPortalIndexerUrl; dt_statuses := dt_statuses live_board; dt_capability := Some 3; dt_minReward := Some "1000"%string;
     dt_page := 2; dt_limit := 20; dt_enabled := true |}.
Definition some_bonds : UseTaskComputeBondsArgs :=
  {| cb_indexerUrl := getPortalIndexerUrl; cb_taskIdHex := Some an_id; cb_status := Some "locked"%string; cb_provider := None; cb_limit := 50;
     cb_enabled := true |}.

Definition bonds_get : next_request :=
  {| nr_method := "GET"; nr_headers := []; nr_search := hook_search plain_form (useTaskComputeBonds some_bonds); nr_body := "" |}.

Lemma bonds_run : is_Some (service_handle a_proxy a_net no_env bonds_get "discovery" ["tasks"; an_id; "compute-bonds"]%string []).
Proof. apply it_runs. vm_compute. reflexivity. Qed.

Lemma hooks_reach_indexer_witness : exists r w' c,
  service_handle a_proxy a_net no_env bonds_get "discovery" ["tasks"; an_id; "compute-bonds"]%string [] = Some (r, w') /\ w' = [c] /\
  indexer_serves (u_pathname (fc_url c)) = Some task_compute_bonds.
Proof.
  destruct bonds_run as [[r w'] H]. exists r, w'.
  destruct (hooks_reach_indexer a_proxy a_net no_env all_sent a_net_logs plain_form (useTaskComputeBonds some_bonds) bonds_get
    {| u_origin := "https://saep-indexer-api.onrender.com"; u_pathname := "/"; u_search := "" |} r [] w') as (path & search & E & K);
    [reflexivity..|intros ps _; reflexivity|].
  assert (path = ["tasks"; an_id; "compute-bonds"]%string /\ search = nr_search bonds_get) as [-> ->].
  { vm_compute in E. injection E as <- <-. vm_compute. split; reflexivity. }
  destruct (K eq_refl H) as (c & Ew & Es & _). exists c. split; [exact H|]. split; [exact Ew|exact Es].
Defined.

Lemma filters_ignored_witness : exists ps ps', hook_params (useDiscoveryTasks live_board) = Some ps /\
  hook_params (useDiscoveryTasks second_page) = Some ps' /\ tasks_query ps = tasks_query ps' /\ ps <> ps'.
Proof.
  eexists _, _. split; [reflexivity|]. split; [reflexivity|]. split; [by apply (filters_ignored live_board second_page)|discriminate].
Defined.

Lemma unknown_status_refused_witness : exists e,
  hook_result a_proxy (useDiscoveryTasks live_board) {| hr_status := 400; hr_statusText := "Bad Request"; hr_body := "invalid_param" |} =
  Throw ("indexer 400: " +:+ e).
Proof.
  refine (unknown_status_refused a_proxy live_board _ _ "inExecution" (fun _ => true) (fun _ => true)
    {| hr_status := 400; hr_statusText := "Bad Request"; hr_body := "invalid_param" |} eq_refl eq_refl _ _ _ _).
  - apply (bool_decide_unpack _). vm_compute. exact I.
  - reflexivity.
  - apply (bool_decide_unpack _). vm_compute. exact I.
  - vm_compute. reflexivity.
Defined.

Lemma cache_keys_sound_witness : hook_key (useTaskComputeBonds some_bonds) =
    hook_key (useTaskComputeBonds {| cb_indexerUrl := getPortalIndexerUrl; cb_taskIdHex := Some an_id; cb_status := Some "locked"%string;
                                     cb_provider := None; cb_limit := 50; cb_enabled := false |}) /\
  hook_url plain_form (useTaskComputeBonds some_bonds) =
    hook_url plain_form (useTaskComputeBonds {| cb_indexerUrl := getPortalIndexerUrl; cb_taskIdHex := Some an_id; cb_status := Some "locked"%string;
                                                cb_provider := None; cb_limit := 50; cb_enabled := false |}).
Proof. split; [reflexivity|]. by apply cache_keys_sound. Defined.

Definition a_bid_row : list (string * json) :=
  [("bidder", J_str "b"); ("bond_paid", J_str "10"); ("revealed_amount", J_null); ("slashed", J_bool false)]%string.

Lemma rows_read_whole_witness : Forall (fun tv => (exists f, f ∈ TaskBidRow_row /\ camel_case f = tv.1 /\
    (prop_of f (J_obj a_bid_row) = J_null \/ tv.2 = prop_of f (J_obj a_bid_row))) \/ tv.1 ∈ never_given /\ tv.2 = J_null)
  (map_row taskBid_fields (J_obj a_bid_row)).
Proof.
  refine (proj1 (rows_read_whole taskBid_fields TaskBidRow_row [] a_bid_row _ eq_refl)).
  do 6 apply list_elem_of_further. apply list_elem_of_here.
Defined.

Definition some_balances : option (list mint_balance) :=
  Some [{| vb_mint := "EPjFWdd5AufqSSqeM2qN1xzybapC8G4wEGGkZwyTDt1v"; vb_amount := 4000000; vb_exists := true |}]%string.

Lemma deployable_within_policy_witness : deployableUsdMicro (useTreasuryYieldResearch some_balances DEFAULT_YIELD_POLICY) = 1000000 /\
  deployableUsdMicro (useTreasuryYieldResearch some_balances DEFAULT_YIELD_POLICY) <= research_idle some_balances DEFAULT_YIELD_POLICY.
Proof.
  split; [vm_compute; reflexivity|]. refine (proj2 (proj1 (deployable_within_policy some_balances DEFAULT_YIELD_POLICY eq_refl _))).
  repeat constructor. discriminate.
Defined.

Definition empty_policy : TreasuryYieldPolicy :=
  {| allowedStrategyIds := []; maxAllocationBps := 10000; paused := false; emergencyUnwindEnabled := true |}.

Lemma blocked_yet_deployable_witness : yr_strategies (useTreasuryYieldResearch some_balances empty_policy) = [] /\
  deployableUsdMicro (useTreasuryYieldResearch some_balances empty_policy) = 4000000.
Proof.
  destruct (blocked_yet_deployable some_balances empty_policy eq_refl) as (_ & H & _ & Hd).
  - discriminate.
  - repeat constructor; apply not_elem_of_nil.
  - repeat constructor. discriminate.
  - split; [exact H|]. rewrite Hd. vm_compute. reflexivity.
Defined.

Definition unavailable : hook_response := {| hr_status := 503; hr_statusText := "Service Unavailable"; hr_body := "" |}.

Lemma hook_errors_witness : hook_result a_proxy (useBiddingState "/api/discovery" (Some an_id)) unavailable =
  Throw "indexer 503: Service Unavailable".
Proof. rewrite (hook_errors a_proxy (useBiddingState "/api/discovery" (Some an_id)) unavailable eq_refl). vm_compute. reflexivity. Defined.
