(* ===== verification/TxHooks.v ===== *)
(** * TxHooks: the transactions the portal's hooks send

    Models the hooks of packages/sdk-ui/src/hooks that make a wallet sign: bids.ts,
    treasury.ts, tasks.ts, register.ts and the claim of governance.ts.  A hook builds
    one instruction with the builders of Ix and either sends it itself
    ([send_and_confirm]) or hands it to [useSendTransaction] (SendTx).  The wallet and
    the RPC node are operations of the outside world ([tx_ops]); web3.js, spl-token
    and SHA-256 are parameters.  The instructions are compared with the programs'
    interfaces of Idl: who has to sign them, and which token program they name. *)

From Stdlib Require Import ZArith QArith Ascii Lia.
From stdpp Require Import base list strings.
From S2P Require Import Prelude Bytes Effects Json Hex Zod Pda Idl Ix IxSafety Decoded Accounts Settlement.

#[local] Open Scope Z_scope.
#[local] Open Scope saep_scope.

Record tx_ops (W : Type) := {
  tx_node : node_ops W;                                       (* the programs' accounts *)
  tx_getLatestBlockhash : io W string;
  tx_sendTransaction : call -> string -> pubkey -> io W string;  (* instruction, blockhash, fee payer: the wallet signs and sends *)
  tx_confirmTransaction : string -> string -> io W (option json); (* signature, blockhash: the transaction's error *)
  tx_invalidate : string -> io W unit;                        (* invalidateQueries: the key's first component *)
}.
Arguments tx_node {W} _.
Arguments tx_getLatestBlockhash {W} _.
Arguments tx_sendTransaction {W} _ _ _ _.
Arguments tx_confirmTransaction {W} _ _ _.
Arguments tx_invalidate {W} _ _.

Record tx_lib := {
  PublicKey : string -> result pubkey;
  toBase58 : pubkey -> string;
  findProgramAddressSync : list (list Z) -> pubkey -> result (pubkey * Z);
  getAssociatedTokenAddressSync : pubkey -> pubkey -> bool -> pubkey -> result pubkey; (* mint, owner, off the curve, token program *)
  decode_utf8 : list Z -> string;
  PublicKey_of_bytes : list Z -> result pubkey;
  sha256 : list Z -> list Z;
}.

Record CommitBidArgs := {
  cba_task : pubkey; cba_taskId : list Z; cba_paymentMint : pubkey; cba_bidderTokenAccount : pubkey; cba_agentDidHex : string;
  cba_commitHash : list Z;
}.
Record UseRevealBidArgs := { rba_task : pubkey; rba_taskId : list Z; rba_amount : Z; rba_nonce : list Z }.
Record ClaimBondArgs := {
  clb_task : pubkey; clb_taskId : list Z; clb_paymentMint : pubkey; clb_bidderTokenAccount : pubkey; clb_feeCollectorTokenAccount : pubkey;
}.
Record UseRegisterAgentInput := {
  rg_agentId : list Z; rg_manifestUri : string; rg_capabilityMask : Z; rg_priceLamports : Z; rg_streamRate : Z; rg_stakeAmount : Z;
  rg_stakeMint : pubkey; rg_operatorTokenAccount : pubkey; rg_capabilityRegistryProgramId : pubkey; rg_personhoodAttestation : option pubkey;
}.
Record ClaimStakerRewardInput := { cr_epochId : Z; cr_amount : Z; cr_merkleProof : list (list Z) }.
Record SetLimitsInput := { sl_agentDid : list Z; sl_daily : Z; sl_perTx : Z; sl_weekly : Z }.
Record SetTreasuryYieldConfigInput := { yc_agentDid : list Z; yc_strategyId : list Z; yc_allocationBps : Q; yc_paused : option bool }.
Record YieldMovementInput := {
  ym_agentDid : list Z; ym_strategyId : list Z; ym_mint : pubkey; ym_receiptMint : pubkey; ym_kaminoProgram : pubkey; ym_routeData : list Z;
  ym_routeAccounts : option (list AccountMeta); ym_allowedTargets : option pubkey; ym_tokenProgramId : option pubkey;
}.
Record SubmitTaskResultInput := { sr_task : pubkey; sr_agentAccount : pubkey; sr_resultHash : list Z; sr_proofKey : list Z }.
Record VerifyTaskResultInput := { vr_task : pubkey; vr_proofA : list Z; vr_proofB : list Z; vr_proofC : list Z }.
Record ReleaseTaskEscrowInput := {
  re_task : pubkey; re_paymentMint : pubkey; re_client : pubkey; re_agentAccount : pubkey; re_agentOperator : pubkey;
}.

Section transactions.
Context {W : Type}.
Variable ops : tx_ops W.
Variable L : tx_lib.
Variable ids : ProgramIdMap.        (* cluster.programIds *)

Definition wallet_of (program : option Program) (publicKey : option pubkey) : io W (Program * pubkey) :=
  match program, publicKey with
  | None, _ => io_throw "Wallet not connected"
  | Some _, None => io_throw "Missing wallet publicKey"
  | Some p, Some k => io_ret (p, k)
  end.

(** The rest of every mutation; what confirmTransaction resolves to is not looked at. *)
Definition send_and_confirm (publicKey : pubkey) (ix : call) : io W string :=
  do! blockhash <- tx_getLatestBlockhash ops in
  do! sig <- tx_sendTransaction ops ix blockhash publicKey in
  do! _ <- tx_confirmTransaction ops sig blockhash in
  io_ret sig.

(** A mutation that builds its instruction from the program and the wallet. *)
Definition mutate_with (program : option Program) (publicKey : option pubkey) (build : pubkey -> pubkey -> result call) : io W string :=
  do! w <- wallet_of program publicKey in
  do! ix <- io_lift (build (programId w.1) w.2) in
  send_and_confirm w.2 ix.

Definition useRaiseDispute program publicKey (task : pubkey) : io W string :=
  mutate_with program publicKey (fun p k => buildRaiseDisputeIx p k task).

(** The agent's program is asked for before the wallet. *)
Definition useCommitBid (program ar : option Program) (publicKey : option pubkey) (input : CommitBidArgs) : io W string :=
  match ar with
  | None => io_throw "Wallet not connected"
  | Some ar =>
    do! w <- wallet_of program publicKey in
    do! agent <- fetchAgentByDid (tx_node ops) (decode_utf8 L) (PublicKey_of_bytes L) ar (cba_agentDidHex input) in
    match agent with
    | None => io_throw ("agent_did not registered: " +:+ cba_agentDidHex input)
    | Some agent =>
      do! _ <- io_check (ag_operator (ad_summary agent) =? w.2) "wallet is not the registered operator for this agent_did" in
      do! agentDid <- io_lift (hexPairs (cba_agentDidHex input)) in
      do! ix <- io_lift (buildCommitBidIx (PublicKey L) (findProgramAddressSync L) (programId w.1) ids w.2 (cba_task input) (cba_taskId input)
                           (cba_paymentMint input) (cba_bidderTokenAccount input) (ag_operator (ad_summary agent)) (ag_agentId (ad_summary agent))
                           agentDid (cba_commitHash input) None) in
      send_and_confirm w.2 ix
    end
  end.

Definition useRevealBid program publicKey (input : UseRevealBidArgs) : io W string :=
  mutate_with program publicKey (fun p k => buildRevealBidIx (findProgramAddressSync L) p k (rba_task input) (rba_taskId input) (rba_amount input) (rba_nonce input)).

Definition useClaimBond program publicKey (input : ClaimBondArgs) : io W string :=
  mutate_with program publicKey (fun p k => buildClaimBondIx (PublicKey L) (findProgramAddressSync L) p k (clb_task input) (clb_taskId input) (clb_paymentMint input)
                                         (clb_bidderTokenAccount input) (clb_feeCollectorTokenAccount input) None).

Definition useSetLimits program publicKey (input : SetLimitsInput) : io W string :=
  mutate_with program publicKey (fun p k => buildSetLimitsIx (findProgramAddressSync L) p k (sl_agentDid input) (sl_daily input) (sl_perTx input) (sl_weekly input)).

Definition useSetTreasuryYieldConfig program publicKey (input : SetTreasuryYieldConfigInput) : io W string :=
  mutate_with program publicKey (fun p k => buildSetTreasuryYieldConfigIx (PublicKey L) (findProgramAddressSync L) p k (yc_agentDid input) (yc_strategyId input)
                                         (yc_allocationBps input) (yc_paused input)).

Definition useRequestTreasuryYieldUnwind program publicKey (agentDid : list Z) : io W string :=
  mutate_with program publicKey (fun p k => buildRequestTreasuryYieldUnwindIx (findProgramAddressSync L) p k agentDid).

Definition useDepositToYieldStrategy program publicKey (i : YieldMovementInput) (amount : Z) (priceFeed : option pubkey) : io W string :=
  mutate_with program publicKey (fun p k => buildDepositToYieldStrategyIx (PublicKey L) (findProgramAddressSync L) p (ym_agentDid i) (ym_strategyId i) (ym_mint i)
                                         (ym_receiptMint i) (ym_kaminoProgram i) (ym_routeData i) (ym_routeAccounts i) (ym_allowedTargets i)
                                         (ym_tokenProgramId i) k amount priceFeed).

Definition useWithdrawFromYieldStrategy program publicKey (i : YieldMovementInput) (receiptAmount : Z) : io W string :=
  mutate_with program publicKey (fun p k => buildWithdrawFromYieldStrategyIx (PublicKey L) (findProgramAddressSync L) p (ym_agentDid i) (ym_strategyId i) (ym_mint i)
                                         (ym_receiptMint i) (ym_kaminoProgram i) (ym_routeData i) (ym_routeAccounts i) (ym_allowedTargets i)
                                         (ym_tokenProgramId i) k receiptAmount).

Definition useEmergencyUnwindYieldStrategy program publicKey (i : YieldMovementInput) : io W string :=
  mutate_with program publicKey (fun p k => buildEmergencyUnwindYieldStrategyIx (PublicKey L) (findProgramAddressSync L) p (ym_agentDid i) (ym_strategyId i) (ym_mint i)
                                         (ym_receiptMint i) (ym_kaminoProgram i) (ym_routeData i) (ym_routeAccounts i) (ym_allowedTargets i)
                                         (ym_tokenProgramId i) k).

Definition TOKEN_PROGRAM_ID : pubkey := constant (PublicKey L) "TokenkegQfeZyiNwAJbNbGKPFXCWuBvf9Ss623VQ5DA".
Definition TOKEN_2022 : pubkey := TOKEN_2022_PROGRAM_ID (PublicKey L).

(** The token program a mint's owner is. *)
Definition token_program (owner : pubkey) : option pubkey :=
  if owner =? TOKEN_2022 then Some TOKEN_2022 else if owner =? TOKEN_PROGRAM_ID then Some TOKEN_PROGRAM_ID else None.

Definition useRegisterAgent (program : option Program) publicKey (input : UseRegisterAgentInput) : io W string :=
  do! w <- wallet_of program publicKey in
  do! mintInfo <- getAccountInfo (tx_node ops) (rg_stakeMint input) in
  match mintInfo with
  | None => io_throw "Stake mint not found on the current cluster"
  | Some (owner, _) =>
    match token_program owner with
    | None => io_throw "Stake mint is not owned by SPL Token or Token-2022"
    | Some tokenProgramId =>
      do! ix <- io_lift (buildRegisterAgentIx (PublicKey L) (findProgramAddressSync L) (programId w.1) w.2 (rg_agentId input) (rg_manifestUri input)
                           (rg_capabilityMask input) (rg_priceLamports input) (rg_streamRate input) (rg_stakeAmount input) (rg_stakeMint input)
                           (rg_operatorTokenAccount input) (rg_capabilityRegistryProgramId input) (rg_personhoodAttestation input)
                           (Some tokenProgramId)) in
      send_and_confirm w.2 ix
    end
  end.

(** useSendTransaction's hooks of tasks.ts: the instructions they hand it. *)
Definition builder_of (program : option Program) (publicKey : option pubkey) : io W (Program * pubkey) :=
  match program, publicKey with
  | None, _ => io_throw "Task market program unavailable"
  | Some _, None => io_throw "Wallet not connected"
  | Some p, Some k => io_ret (p, k)
  end.

Definition useSubmitTaskResult program publicKey (input : SubmitTaskResultInput) : io W call :=
  do! w <- builder_of program publicKey in
  io_lift (buildSubmitResultIx (findProgramAddressSync L) (programId w.1) ids w.2 (sr_task input) (sr_agentAccount input) (sr_resultHash input) (sr_proofKey input)).

Definition useVerifyTaskResult program publicKey (input : VerifyTaskResultInput) : io W call :=
  do! w <- builder_of program publicKey in
  let vkId := computeTaskCompletionVkId (sha256 L) TASK_COMPLETION_CIRCUIT_LABEL in
  do! verifierKey <- io_lift (key (verifierKeyPda (findProgramAddressSync L) (ids proofVerifier) vkId)) in
  io_lift (buildVerifyTaskIx (PublicKey L) (findProgramAddressSync L) (programId w.1) ids w.2 (vr_task input) verifierKey vkId
             (vr_proofA input) (vr_proofB input) (vr_proofC input)).

Definition resolveTokenProgram (mint : pubkey) : io W pubkey :=
  do! info <- getAccountInfo (tx_node ops) mint in
  match info with
  | None => io_throw ("payment mint " +:+ toBase58 L mint +:+ " was not found")
  | Some (owner, _) =>
    match token_program owner with
    | Some p => io_ret p
    | None => io_throw ("payment mint " +:+ toBase58 L mint +:+ " is not an SPL token mint")
    end
  end.

(** createAssociatedTokenAccountIdempotentInstruction(payer, address, owner, mint, program) *)
Record ata_ix := { ata_payer : pubkey; ata_address : pubkey; ata_owner : pubkey; ata_mint : pubkey; ata_program : pubkey }.

Definition useReleaseTaskEscrow program publicKey (input : ReleaseTaskEscrowInput) : io W (list ata_ix * call) :=
  do! w <- builder_of program publicKey in
  do! market <- fetchMarketGlobal (tx_node ops) (findProgramAddressSync L) (SystemProgram_programId (PublicKey L)) w.1 in
  match market with
  | None => io_throw "MarketGlobal is missing"
  | Some market =>
    let mint := re_paymentMint input in
    do! tokenProgramId <- resolveTokenProgram mint in
    let ata := fun owner => io_lift (getAssociatedTokenAddressSync L mint owner true tokenProgramId) in
    do! agentTokenAccount <- ata (re_agentOperator input) in
    do! feeCollectorTokenAccount <- ata (mg_feeCollector market) in
    do! solrepPoolTokenAccount <- ata (mg_solrepPool market) in
    let create := fun address owner => {| ata_payer := w.2; ata_address := address; ata_owner := owner; ata_mint := mint; ata_program := tokenProgramId |} in
    do! release <- io_lift (buildReleaseIx (PublicKey L) (findProgramAddressSync L) (programId w.1) ids w.2 (re_task input) mint agentTokenAccount
                              feeCollectorTokenAccount solrepPoolTokenAccount (re_agentAccount input) (re_client input) None (Some tokenProgramId)) in
    io_ret ([create agentTokenAccount (re_agentOperator input); create feeCollectorTokenAccount (mg_feeCollector market);
             create solrepPoolTokenAccount (mg_solrepPool market)], release)
  end.

(** governance.ts: the claim of a staker's reward; [Uint8Array.from] keeps a number's low byte. *)
Definition SAEP_MINT : pubkey := constant (PublicKey L) "HEKVx7cxn4afiDKW56sWJGxzJe7wVBmhZhFzdqjApump".

Definition useClaimStakerReward (program : option Program) (publicKey : option pubkey) (input : ClaimStakerRewardInput) : io W call :=
  match program, publicKey with
  | None, _ => io_throw "Fee collector program unavailable"
  | Some _, None => io_throw "Wallet not connected"
  | Some p, Some k =>
    do! stakerTokenAccount <- io_lift (getAssociatedTokenAddressSync L SAEP_MINT k false TOKEN_2022) in
    io_lift (buildClaimStakerIx (PublicKey L) (findProgramAddressSync L) (programId p) k SAEP_MINT stakerTokenAccount (cr_epochId input)
               (cr_amount input) (map (map (fun n => n mod 256)) (cr_merkleProof input)) TOKEN_2022)
  end.

(** ** The mutations together *)

Inductive tx_hook :=
| T_raiseDispute (task : pubkey)
| T_commitBid (i : CommitBidArgs)
| T_revealBid (i : UseRevealBidArgs)
| T_claimBond (i : ClaimBondArgs)
| T_registerAgent (i : UseRegisterAgentInput)
| T_setLimits (i : SetLimitsInput)
| T_setTreasuryYieldConfig (i : SetTreasuryYieldConfigInput)
| T_requestTreasuryYieldUnwind (agentDid : list Z)
| T_depositToYieldStrategy (i : YieldMovementInput) (amount : Z) (priceFeed : option pubkey)
| T_withdrawFromYieldStrategy (i : YieldMovementInput) (receiptAmount : Z)
| T_emergencyUnwindYieldStrategy (i : YieldMovementInput).

(** [program] is the hook's own program; only a bid asks for the agent registry's too. *)
Definition hook_mutation (program ar : option Program) (publicKey : option pubkey) (h : tx_hook) : io W string :=
  match h with
  | T_raiseDispute task => useRaiseDispute program publicKey task
  | T_commitBid i => useCommitBid program ar publicKey i
  | T_revealBid i => useRevealBid program publicKey i
  | T_claimBond i => useClaimBond program publicKey i
  | T_registerAgent i => useRegisterAgent program publicKey i
  | T_setLimits i => useSetLimits program publicKey i
  | T_setTreasuryYieldConfig i => useSetTreasuryYieldConfig program publicKey i
  | T_requestTreasuryYieldUnwind d => useRequestTreasuryYieldUnwind program publicKey d
  | T_depositToYieldStrategy i a f => useDepositToYieldStrategy program publicKey i a f
  | T_withdrawFromYieldStrategy i a => useWithdrawFromYieldStrategy program publicKey i a
  | T_emergencyUnwindYieldStrategy i => useEmergencyUnwindYieldStrategy program publicKey i
  end.

(** The first components of the query keys [onSuccess] invalidates. *)
Definition invalidated (h : tx_hook) : list string :=
  match h with
  | T_raiseDispute _ => ["task"]
  | T_commitBid _ | T_revealBid _ => ["bid-book"; "bids-for-task"; "bid"]
  | T_claimBond _ => ["bid"]
  | T_registerAgent _ => ["agents"]
  | T_setLimits _ => ["treasury"]
  | _ => ["treasury"; "indexed-treasury-yield"; "indexed-treasury-yield-positions"]
  end%string.

Fixpoint invalidate_all (keys : list string) : io W unit :=
  match keys with
  | [] => io_ret tt
  | k :: keys' => do! _ <- tx_invalidate ops k in invalidate_all keys'
  end.

Definition mutateAsync (program ar : option Program) (publicKey : option pubkey) (h : tx_hook) : io W string :=
  do! sig <- hook_mutation program ar publicKey h in
  do! _ <- invalidate_all (invalidated h) in
  io_ret sig.
End transactions.

(** ** Theorems *)

(** Who has to sign a call: the accounts its interface marks as signers, and the
    remaining accounts that are. *)
Definition signers (ix : idl_instruction) (c : call) : list pubkey :=
  app (omap (fun a => if ia_signer a then mjoin (assoc (ia_name a) (ix_accounts c)) else None) (in_accounts ix))
      (map am_pubkey (List.filter am_isSigner (ix_remaining c))).

Definition hook_idl (h : tx_hook) : idl_instruction :=
  match h with
  | T_raiseDispute _ => task_market_raiseDispute
  | T_commitBid _ => task_market_commitBid
  | T_revealBid _ => task_market_revealBid
  | T_claimBond _ => task_market_claimBond
  | T_registerAgent _ => agent_registry_registerAgent
  | T_setLimits _ => treasury_standard_setLimits
  | T_setTreasuryYieldConfig _ => treasury_standard_setTreasuryYieldConfig
  | T_requestTreasuryYieldUnwind _ => treasury_standard_requestTreasuryYieldUnwind
  | T_depositToYieldStrategy _ _ _ => treasury_standard_depositToYieldStrategy
  | T_withdrawFromYieldStrategy _ _ => treasury_standard_withdrawFromYieldStrategy
  | T_emergencyUnwindYieldStrategy _ => treasury_standard_emergencyUnwindYieldStrategy
  end.

(** The signers a yield movement's route adds. *)
Definition route_signers (h : tx_hook) : list pubkey :=
  match h with
  | T_depositToYieldStrategy i _ _ | T_withdrawFromYieldStrategy i _ | T_emergencyUnwindYieldStrategy i =>
    map am_pubkey (List.filter am_isSigner (default [] (ym_routeAccounts i)))
  | _ => []
  end.

(** A call of the hook's instruction that the wallet [k] and the route sign. *)
Definition signed_by (h : tx_hook) (k : pubkey) (c : call) : Prop :=
  ix_method c = in_name (hook_idl h) /\ signers (hook_idl h) c = k :: route_signers h.

#[local] Hint Unfold buildRaiseDisputeIx buildCommitBidIx buildRevealBidIx buildClaimBondIx buildRegisterAgentIx buildSetLimitsIx
  buildSetTreasuryYieldConfigIx buildRequestTreasuryYieldUnwindIx buildDepositToYieldStrategyIx buildWithdrawFromYieldStrategyIx
  buildEmergencyUnwindYieldStrategyIx buildSubmitResultIx buildVerifyTaskIx buildReleaseIx buildClaimStakerIx
  yieldMovementPdas assertYieldMovementInput : ix.

(** A built call is the literal its builder returns. *)
Ltac literal c := match goal with H : _ = Ok c |- _ => autounfold with ix in H; built; subst c end.
Ltac signs := intros; match goal with |- signed_by _ _ ?c => literal c end; split; reflexivity.

Section theorems.
Context {W : Type}.
Variable ops : tx_ops W.
Variable L : tx_lib.
Variable ids : ProgramIdMap.
Variable sent : W -> list (call * string * pubkey).   (* what the wallet was asked to sign *)

Definition quiet (w w' : W) : Prop := sent w' = sent w.

(** Only [sendTransaction] asks the wallet. *)
Record tx_laws : Prop := {
  law_send : forall ix bh k w r w', tx_sendTransaction ops ix bh k w = Some (r, w') -> sent w' = app (sent w) [(ix, bh, k)];
  law_blockhash : steps quiet (tx_getLatestBlockhash ops);
  law_confirm : forall sig bh, steps quiet (tx_confirmTransaction ops sig bh);
  law_invalidate : forall key, steps quiet (tx_invalidate ops key);
  law_accounts : forall p a ms, steps quiet (all (tx_node ops) p a ms);
  law_fetch : forall p a k, steps quiet (fetchNullable (tx_node ops) p a k);
  law_info : forall k, steps quiet (getAccountInfo (tx_node ops) k);
}.
Hypothesis laws : tx_laws.

#[local] Instance quiet_refl : Reflexive quiet.
Proof. by intros w. Qed.
#[local] Instance quiet_trans : Transitive quiet.
Proof. intros a b c H1 H2. unfold quiet in *. congruence. Qed.

(** Nothing was asked and the hook throws, or one call that is [good] for the wallet was. *)
Definition asks_once (good : pubkey -> call -> Prop) (publicKey : option pubkey) (m : io W string) : Prop := forall w r w',
  m w = Some (r, w') ->
  (quiet w w' /\ exists e, r = Throw e) \/
  exists k c bh, publicKey = Some k /\ good k c /\ sent w' = app (sent w) [(c, bh, k)].

Lemma asks_throw good pk e : asks_once good pk (io_throw e).
Proof. intros w r w' [= <- <-]. left. split; [done|by eexists]. Qed.

Lemma asks_bind {A} good pk (m : io W A) (k : A -> io W string) : steps quiet m -> (forall a, asks_once good pk (k a)) -> asks_once good pk (io_bind m k).
Proof.
  intros Hm Hk w r w' [(a & w1 & H1 & H2)|(e & H1 & ->)]%io_bind_run; apply Hm in H1.
  - destruct (Hk a _ _ _ H2) as [[Hq He]|(k' & c & bh & -> & Hg & Hs)]; [left|right].
    + split; [by transitivity w1|done].
    + exists k', c, bh. by rewrite <- H1.
  - left. split; [done|by eexists].
Qed.

(** A value the computation lifts is known to be its result. *)
Lemma asks_lift {A} good pk (x : result A) (k : A -> io W string) : (forall a, x = Ok a -> asks_once good pk (k a)) -> asks_once good pk (io_bind (io_lift x) k).
Proof. intros Hk w r w'. unfold io_bind, io_lift. destruct x as [a|e]; [by apply Hk|]. intros [= <- <-]. left. split; [done|by eexists]. Qed.

Lemma asks_check good pk b e (k : unit -> io W string) : (b = true -> asks_once good pk (k tt)) -> asks_once good pk (io_bind (io_check b e) k).
Proof. destruct b; [intros H; apply H; done|intros _; apply asks_throw]. Qed.

Lemma asks_send good k c : good k c -> asks_once good (Some k) (send_and_confirm ops k c).
Proof.
  intros Hg. apply asks_bind; [apply laws|]. intros bh w r w' [(sig & w1 & H1 & H2)|(e & H1 & ->)]%io_bind_run; right; exists k, c, bh;
    apply (law_send laws) in H1; [|done]. split_and!; [done..|]. rewrite <- H1. clear H1.
  apply io_bind_run in H2 as [(a & w2 & H2 & H3)|(e & H2 & ->)]; apply (law_confirm laws) in H2; [|done].
  apply io_ret_run in H3 as [_ <-]. exact H2.
Qed.

Lemma asks_wallet good program pk (k : Program * pubkey -> io W string) :
  (forall p a, program = Some p -> pk = Some a -> asks_once good pk (k (p, a))) -> asks_once good pk (io_bind (wallet_of program pk) k).
Proof. intros H. unfold wallet_of. destruct program as [p|]; [|apply asks_throw]. destruct pk as [a|]; [|apply asks_throw]. by apply H. Qed.

Lemma asks_mutate good program pk build : (forall p k c, build p k = Ok c -> good k c) -> asks_once good pk (mutate_with ops program pk build).
Proof. intros H. apply asks_wallet. intros p k -> ->. apply asks_lift. intros c Hc. apply asks_send. by eapply H. Qed.

Lemma fetch_agent_quiet decode of_bytes p did : steps quiet (fetchAgentByDid (tx_node ops) decode of_bytes p did).
Proof.
  unfold fetchAgentByDid, fetch_first. repeat (apply steps_bind; [tc_solve| |intros]); try apply steps_lift; try tc_solve; try apply laws.
  destruct a1 as [|[? ?] ?]; [apply steps_ret; tc_solve|]. apply steps_bind; [tc_solve|apply steps_lift; tc_solve|]. intros. apply steps_ret; tc_solve.
Qed.

(** The bond of a bid is moved by Token-2022, whatever its mint. *)
Definition names_token_2022 (c : call) : Prop := assoc "tokenProgram" (ix_accounts c) = Some (Some (TOKEN_2022 L)).

Lemma commit_asks good program ar pk i :
  (forall p k agent did c, pk = Some k -> ag_operator (ad_summary agent) = k ->
     buildCommitBidIx (PublicKey L) (findProgramAddressSync L) p ids k (cba_task i) (cba_taskId i) (cba_paymentMint i) (cba_bidderTokenAccount i)
       k (ag_agentId (ad_summary agent)) did (cba_commitHash i) None = Ok c -> good k c) ->
  asks_once good pk (useCommitBid ops L ids program ar pk i).
Proof.
  intros H. unfold useCommitBid. destruct ar as [ar|]; [|apply asks_throw]. apply asks_wallet. intros p k -> ->.
  apply asks_bind; [apply fetch_agent_quiet|]. intros [agent|]; [|apply asks_throw]. apply asks_check. intros Hk%Z.eqb_eq.
  apply asks_lift. intros did _. apply asks_lift. intros c Hc. cbn [snd] in *. apply asks_send. rewrite Hk in Hc. by eapply H.
Qed.

Lemma mutation_asks program ar pk h : asks_once (signed_by h) pk (hook_mutation ops L ids program ar pk h).
Proof.
  destruct h; cbn [hook_mutation]; try (apply asks_mutate; signs).
  - apply commit_asks. signs.
  - apply asks_wallet. intros p k -> ->. apply asks_bind; [apply laws|]. intros [[owner d]|]; [|apply asks_throw].
    destruct (token_program L owner) as [tp|]; [|apply asks_throw]. apply asks_lift. intros c Hc. apply asks_send. revert Hc. cbn [fst snd]. signs.
Qed.

Lemma invalidate_quiet keys : steps quiet (invalidate_all ops keys).
Proof.
  induction keys as [|key keys IH]; cbn [invalidate_all]; [apply steps_ret; tc_solve|].
  apply steps_bind; [tc_solve|apply laws|by intros].
Qed.

(** A hook asks the wallet at most once, and never to sign something another key
    has to sign too: what it asks for is one call of the hook's own instruction whose
    signers, by the program's interface, are the connected wallet, which also pays for
    it, and the signers of the route a yield movement was given.  A hook that returns
    has asked. *)
Theorem hook_asks_once program ar publicKey h w r w' (H : mutateAsync ops L ids program ar publicKey h w = Some (r, w')) :
  (sent w' = sent w /\ exists e, r = Throw e) \/
  exists k c bh, publicKey = Some k /\ ix_method c = in_name (hook_idl h) /\ signers (hook_idl h) c = k :: route_signers h /\
    sent w' = app (sent w) [(c, bh, k)].
Proof.
  assert (Hm : asks_once (signed_by h) publicKey (mutateAsync ops L ids program ar publicKey h)).
  { intros w0 r0 w0' [(sig & w1 & H1 & H2)|(e & H1 & ->)]%io_bind_run; apply mutation_asks in H1; [|done].
    destruct H1 as [[_ [e [=]]]|(k & c & bh & Hk & Hg & Hs)]. right. exists k, c, bh. split_and!; [done..|]. rewrite <- Hs.
    apply io_bind_run in H2 as [(a & w2 & H2 & H3)|(e & H2 & ->)]; apply invalidate_quiet in H2; [|done].
    apply io_ret_run in H3 as [_ <-]. exact H2. }
  destruct (Hm _ _ _ H) as [Hl|(k & c & bh & Hk & [Hg1 Hg2] & Hs)]; [by left|right]. by exists k, c, bh.
Qed.

(** A bid is committed only by the operator the registry has for its agent, and both
    the bond a bidder pays and the one it claims back are moved by Token-2022: nobody
    asks which token program the task's mint belongs to. *)
Theorem bonds_assume_token_2022 program ar publicKey h w r w' (Hh : (exists i, h = T_commitBid i) \/ (exists i, h = T_claimBond i))
    (H : hook_mutation ops L ids program ar publicKey h w = Some (r, w')) (Hs : sent w' <> sent w) :
  exists c bh k, publicKey = Some k /\ sent w' = app (sent w) [(c, bh, k)] /\
    assoc "tokenProgram" (ix_accounts c) = Some (Some (TOKEN_2022 L)) /\
    (forall i, h = T_commitBid i -> exists agentId bump, findProgramAddressSync L [enc "agent"; toBuffer k; agentId] (ids agentRegistry) =
       Ok (default 0 (mjoin (assoc "agentAccount" (ix_accounts c))), bump)).
Proof.
  set (good := fun k c => names_token_2022 c /\ (forall i, h = T_commitBid i -> exists agentId bump,
    findProgramAddressSync L [enc "agent"; toBuffer k; agentId] (ids agentRegistry) = Ok (default 0 (mjoin (assoc "agentAccount" (ix_accounts c))), bump))).
  assert (Hm : asks_once good publicKey (hook_mutation ops L ids program ar publicKey h)).
  { destruct Hh as [[i ->]|[i ->]]; cbn [hook_mutation].
    - apply commit_asks. intros p k agent did c _ Ho Hc. literal c. unfold agentAccountPda in *. built. split; [done|].
      intros i0 _. eexists _, _. cbn. eassumption.
    - apply asks_mutate. intros p k c Hc. literal c. split; [done|]. intros i0 [=]. }
  destruct (Hm _ _ _ H) as [[Hq _]|(k & c & bh & Hk & [Hg1 Hg2] & Hw)]; [done|]. by exists c, bh, k.
Qed.

(** An account a release names, created for its mint and owner at the payer's expense. *)
Definition created_for (c : call) (creates : list ata_ix) (mint prog payer : pubkey) (name : string) (owner : pubkey) : Prop :=
  exists a x, assoc name (ix_accounts c) = Some (Some a) /\ x ∈ creates /\ ata_address x = a /\ ata_owner x = owner /\ ata_mint x = mint /\
    ata_program x = prog /\ ata_payer x = payer /\ getAssociatedTokenAddressSync L mint owner true prog = Ok a.

Lemma token_program_some owner p : token_program L owner = Some p -> p = owner /\ (p = TOKEN_2022 L \/ p = TOKEN_PROGRAM_ID L).
Proof.
  unfold token_program. destruct (Z.eqb_spec owner (TOKEN_2022 L)) as [->|_]; [intros [= <-]; auto|].
  destruct (Z.eqb_spec owner (TOKEN_PROGRAM_ID L)) as [->|_]; [intros [= <-]; auto|done].
Qed.

(** Releasing a task's escrow from the portal works for a mint of either token
    program and for parties who have never held it: the release names the program that
    owns the mint, and every token account it names, the operator's and those of the
    two fee takers the market has, is first created where it does not exist.  The
    wallet that presses the button pays and is the only signer. *)
Theorem release_brings_its_accounts program publicKey i w creates c w'
    (H : useReleaseTaskEscrow ops L ids program publicKey i w = Some (Ok (creates, c), w')) :
  exists k prog market w1 w2 d, publicKey = Some k /\ (prog = TOKEN_2022 L \/ prog = TOKEN_PROGRAM_ID L) /\
    getAccountInfo (tx_node ops) (re_paymentMint i) w1 = Some (Ok (Some (prog, d)), w2) /\
    assoc "tokenProgram" (ix_accounts c) = Some (Some prog) /\ signers task_market_release c = [k] /\
    created_for c creates (re_paymentMint i) prog k "agentTokenAccount" (re_agentOperator i) /\
    created_for c creates (re_paymentMint i) prog k "feeCollectorTokenAccount" (mg_feeCollector market) /\
    created_for c creates (re_paymentMint i) prog k "solrepPoolTokenAccount" (mg_solrepPool market).
Proof.
  unfold useReleaseTaskEscrow, builder_of in H. destruct program as [p|]; [|done]. destruct publicKey as [k|]; [|done].
  apply io_bind_ok in H as (? & ? & [= <- <-] & H). apply io_bind_ok in H as ([market|] & w1 & _ & H); [|done].
  apply io_bind_ok in H as (prog & w2 & Hp & H). unfold resolveTokenProgram in Hp.
  apply io_bind_ok in Hp as ([[owner d]|] & w3 & Hi & Hp); [|done]. destruct (token_program L owner) as [p'|] eqn:Et; [|done].
  apply io_ret_ok in Hp as [<- <-]. apply token_program_some in Et as [<- Hprog]. io_inv. cbn [snd] in *.
  match goal with E : buildReleaseIx _ _ _ _ _ _ _ _ _ _ _ _ _ _ = Ok ?x |- _ => literal x end.
  eexists k, _, market, w1, _, d. split_and!; [done|exact Hprog|exact Hi|done|done|..].
  all: eexists _, _; split; [reflexivity|].
  1: split; [left|]. 2: split; [right; left|]. 3: split; [right; right; left|].
  all: split_and!; [reflexivity..|eassumption].
Qed.
End theorems.

(** ** Witnesses *)

(** A wallet that signs everything, and a node with one market and one mint. *)
Definition wallet_log : Type := list (call * string * pubkey).

Definition spell (s : string) : result pubkey := Ok (foldl (fun n c => (n * 31 + Z.of_nat (nat_of_ascii c)) mod 2 ^ 61) 7 (String.list_ascii_of_string s)).

Definition a_lib : tx_lib :=
  {| PublicKey := spell; toBase58 := z_text; findProgramAddressSync := fun _ p => Ok (p + 1, 255);
     getAssociatedTokenAddressSync := fun mint owner _ prog => Ok (mint + owner + prog); decode_utf8 := fun _ => ""%string;
     PublicKey_of_bytes := fun _ => Ok 9; sha256 := fun b => b |}.

Definition a_market : value :=
  V_struct [("authority", V_key 1); ("pendingAuthority", V_null); ("agentRegistry", V_key 2); ("treasuryStandard", V_key 3);
            ("proofVerifier", V_key 4); ("feeCollector", V_key 5); ("solrepPool", V_key 6); ("protocolFeeBps", V_num 10);
            ("solrepFeeBps", V_num 5); ("disputeWindowSecs", V_bn 3600); ("maxDeadlineSecs", V_bn 86400);
            ("allowedPaymentMints", V_list [V_key 100]); ("paused", V_bool false)]%string.

Definition a_node : node_ops wallet_log :=
  {| all := fun _ _ _ => io_ret []; fetchNullable := fun _ _ _ => io_ret (Some a_market);
     getAccountInfo := fun _ => io_ret (Some (TOKEN_PROGRAM_ID a_lib, [])); getMultipleAccountsInfo := fun _ => io_ret [] |}.

Definition a_wallet : tx_ops wallet_log :=
  {| tx_node := a_node; tx_getLatestBlockhash := io_ret "hash"%string;
     tx_sendTransaction := fun ix bh k w => Some (Ok "sig"%string, app w [(ix, bh, k)]);
     tx_confirmTransaction := fun _ _ => io_ret None; tx_invalidate := fun _ => io_ret tt |}.

Lemma a_wallet_laws : tx_laws a_wallet id.
Proof.
  split; intros; try (intros w r w'; cbn; by intros [= _ <-]).
  cbn in *. match goal with H : Some _ = Some _ |- _ => by injection H as _ <- end.
Qed.

Definition a_program : Program := {| pg_name := "task_market"; programId := 50 |}.
Definition a_bond : ClaimBondArgs :=
  {| clb_task := 60; clb_taskId := repeat 1 32; clb_paymentMint := 100; clb_bidderTokenAccount := 61; clb_feeCollectorTokenAccount := 62 |}.
Definition a_release : ReleaseTaskEscrowInput :=
  {| re_task := 60; re_paymentMint := 100; re_client := 63; re_agentAccount := 64; re_agentOperator := 65 |}.
Definition some_ids : ProgramIdMap := fun _ => 70.

Definition bond_run : option (result string * wallet_log) :=
  Eval vm_compute in hook_mutation a_wallet a_lib some_ids (Some a_program) None (Some 7) (T_claimBond a_bond) [].
Definition bond_log : wallet_log := match bond_run with Some (_, w) => w | None => [] end.

Lemma bond_sent : mutateAsync a_wallet a_lib some_ids (Some a_program) None (Some 7) (T_claimBond a_bond) [] = Some (Ok "sig"%string, bond_log).
Proof. vm_compute. reflexivity. Qed.

Lemma bond_asked : hook_mutation a_wallet a_lib some_ids (Some a_program) None (Some 7) (T_claimBond a_bond) [] = Some (Ok "sig"%string, bond_log).
Proof. vm_compute. reflexivity. Qed.

Lemma hook_asks_once_witness : exists k c bh, Some 7 = Some k /\ ix_method c = "claimBond"%string /\ signers task_market_claimBond c = [k] /\
  bond_log = [(c, bh, k)].
Proof.
  destruct (hook_asks_once a_wallet a_lib some_ids id a_wallet_laws (Some a_program) None (Some 7) (T_claimBond a_bond) [] (Ok "sig"%string) bond_log
    bond_sent) as [[_ [e [=]]]|H]. exact H.
Defined.

Lemma bonds_assume_token_2022_witness : exists c bh k, Some 7 = Some k /\ bond_log = [(c, bh, k)] /\
  assoc "tokenProgram" (ix_accounts c) = Some (Some (TOKEN_2022 a_lib)) /\ TOKEN_2022 a_lib <> TOKEN_PROGRAM_ID a_lib.
Proof.
  destruct (bonds_assume_token_2022 a_wallet a_lib some_ids id a_wallet_laws (Some a_program) None (Some 7) (T_claimBond a_bond) [] (Ok "sig"%string) bond_log
    ltac:(right; by eexists) bond_asked ltac:(discriminate)) as (c & bh & k & Hk & Hs & Ht & _). exists c, bh, k. split_and!; [done..|].
  vm_compute. discriminate.
Defined.

Definition release_run : option (result (list ata_ix * call) * wallet_log) :=
  Eval vm_compute in useReleaseTaskEscrow a_wallet a_lib some_ids (Some a_program) (Some 7) a_release [].
Definition released : list ata_ix * call := match release_run with Some (Ok x, _) => x | _ => ([], Build_call "" [] [] []) end.

Lemma release_ran : useReleaseTaskEscrow a_wallet a_lib some_ids (Some a_program) (Some 7) a_release [] = Some (Ok (released.1, released.2), []).
Proof. vm_compute. reflexivity. Qed.

Lemma release_brings_its_accounts_witness : exists prog owner, created_for a_lib released.2 released.1 100 prog 7 "solrepPoolTokenAccount" owner.
Proof.
  destruct (release_brings_its_accounts a_wallet a_lib some_ids (Some a_program) (Some 7) a_release [] released.1 released.2 [] release_ran)
    as (k & prog & market & w1 & w2 & d & Hk & _ & _ & _ & _ & _ & _ & Hp). injection Hk as <-. by exists prog, (mg_solrepPool market).
Defined.
